(* ===== verification/_CoqProject ===== *)
-Q . S2P
Prelude.v
PyStr.v
PyFloat.v
PyVal.v
PyDecimal.v
AplSchema.v
AplEval.v
AplValidator.v
AplProps.v
AplLint.v
AplDiff.v
AplParser.v
Models.v
RateLimit.v
PyTime.v
Schemas.v
IdentityModels.v
FederationModels.v
OperationsModels.v
Store.v
PyCodec.v
Samples.v
SecurityEvents.v
Canonical.v
PyNet.v
Ssrf.v
Soc.v
SocProps.v
Workspace.v
Trust.v
TrustProps.v
Signing.v
SigningProps.v
Lifecycle.v
Permissions.v
Delegation.v
DelegationProps.v
DelegationInv.v
Revocation.v
Risk.v
Notifications.v
NotificationProps.v
PlanLimits.v
Frames.v
PlanProps.v
Mfa.v
MfaProps.v
Auth.v
AuthProps.v
Sso.v
SsoProps.v
ApiKeys.v
Organizations.v
KeyProps.v
Governance.v
Dependencies.v
Agents.v
GovernanceProps.v
Billing.v
BillingProps.v
Credentials.v
CredentialProps.v
GatewayControl.v
Sidecar.v
GatewayProps.v
SidecarProps.v
Webhooks.v
WebhookProps.v
Authorization.v
AuthorizationProps.v
Requests.v
CrossOrg.v
CrossOrgProps.v
CrossOrgLedger.v
RequestProps.v
Developer.v
System.v
Reliability.v
