(* ===== verification/Prelude.v ===== *)
(** * AgentTrust: a verification development

    AgentTrust decides whether a software agent may carry out an action on behalf
    of its owner.  An owner registers agents, grants them permissions (an action
    on a resource, possibly with an amount limit, for a time window), agents pass
    part of a permission on by delegation, and every request of an agent is
    answered APPROVED, REJECTED or PENDING (it waits for the owner) and recorded.
    Around this core the program keeps accounts, organizations with plans and API
    keys, signed requests, trust between organizations, security events and
    deliveries to the outside.  This library models these parts,
    [backend/app/services] with its models, schemas, handlers and session, and
    proves what makes them correct.  Paths below are relative to
    [src/backend/app].

    ** How the parts interact

    A request opens a session, runs one handler, and the session ends.  The
    caller is a user with a session token ([Auth]) who acts for a workspace
    ([Workspace]), an API key ([ApiKeys]), or an agent that signs ([Signing]).
    [authorize_action] looks the agent up, verifies a delegation chain or
    selects a permission (sweeping expired ones first), scores the risk, applies
    the organization's policy and the published APL policies, and writes a row of
    the audit log or a pending request with a notification.
    [decide_owned_request] finishes a pending request and writes its log row.
    The developer API wraps the decision in an idempotency key, the metering of
    the plan, a signature check and a webhook.  Requests between organizations go
    through the trust relationship and its policies instead, and wait for both
    sides.  The lifecycle, permission, delegation, trust, member and key services
    change the rows these decisions read.  What is security relevant is recorded
    as an event, which runs the detection rules and the export ([Soc]).  The
    parts share state through the tables only.

    A sidecar is another process, next to the agents of a customer.  It fetches
    the configuration that the control plane signs ([GatewayControl]), keeps it in
    memory and on disk, and answers authorization requests from it ([Sidecar]); the
    two share no state but the answers of HTTP.

    ** Files

    Ground: [Prelude] holds results, the state and exception monad [M], the
    relation [respects] that lifts a preorder on states to programs, list
    lemmas and the tactics [reflect] and [exec]; [PyStr], [PyFloat],
    [PyDecimal], [PyVal], [PyTime], [PyCodec] and [PyNet] hold the Python
    semantics the program uses (text, binary64, decimal arithmetic of 28 digits,
    dynamic values, ISO times, base64, URLs and addresses), executable.

    - [Models], [IdentityModels], [FederationModels], [OperationsModels]
      ([models/]): the rows, enumerations and database constraints.
    - [Schemas] ([schemas/]): request bodies of the core and their validation;
      the bodies of the other services are in their files.
    - [Store] ([database/session.py] and SQLAlchemy's unit of work): [tables],
      [session], flush, commit, roll-back, queries; the relations [evolves],
      [moves] and [settles] by which the service files state what a handler may
      change.  [run_request] is one request: open, run, keep what was committed.
      [Frames] says what events and notifications leave alone, and how tables of
      things used once evolve.
    - [AplSchema], [AplEval], [AplValidator], [AplLint], [AplDiff],
      [AplParser] ([services/apl/]): the policy language, one file a module of
      the source; [AplProps] relates evaluator and validator.
    - [Lifecycle] ([services/agent_lifecycle.py]): the state machine of agents,
      as the handler and as the relation [lifecycle_step].
    - [Permissions] ([services/permissions.py]).
    - [Agents] ([services/agents.py], [api/agents.py]), [Governance] and
      [Dependencies] ([services/agent_governance.py],
      [api/agent_governance.py]) with [GovernanceProps]: the inventory, its
      reviews, bulk operations, import and export, and the dependency graph.
    - [Delegation] ([services/agent_delegation.py]), with [DelegationProps]
      (verification), [DelegationInv] (creation and the invariant
      [well_formed]) and [Revocation] (the cascade).
    - [Risk] ([services/risk_engine.py], [services/organization_policy.py], the
      risk fields of [core/config.py]).
    - [Authorization] ([services/authorization.py]) with [AuthorizationProps],
      [Requests] ([services/authorization_requests.py]) with [RequestProps];
      [System], with the modules [Ledger] and [System], composes the services: sequences of requests of any
      kind on the same tables.
    - [Notifications] ([services/notification_service.py]) with
      [NotificationProps]; [SecurityEvents] ([services/security_events.py]);
      [Soc] ([services/soc_service.py], [services/siem_exporter.py],
      [api/soc.py]) with [SocProps]; [Ssrf] ([services/ssrf_protection.py]).
    - [Workspace] ([services/organization_context.py]), [Auth]
      ([services/auth.py], [services/sessions.py], [core/security.py],
      [api/auth.py], [api/account_security.py]) with [AuthProps], [Mfa]
      ([services/mfa.py]) with [MfaProps], [Sso] ([services/sso.py],
      [api/enterprise_security.py]) with [SsoProps], [ApiKeys]
      ([services/api_keys.py]) and [Organizations] ([services/organizations.py])
      with [KeyProps], [PlanLimits] ([services/plan_limits.py]) with
      [PlanProps], [RateLimit] ([services/rate_limit.py]).
    - [Canonical] ([services/atc_canonical.py], [services/atp_canonical.py], the
      texts of [services/agent_signing.py]), [Signing]
      ([services/agent_signing.py]) with [SigningProps].
    - [Trust] ([services/cross_organization_trust.py], with the [ILIKE] of the
      database) and [TrustProps],
      [CrossOrg] ([services/cross_org_authorization.py]) with [CrossOrgProps]
      and [CrossOrgLedger].
    - [Billing] ([services/billing.py], [services/billing_providers.py],
      [api/billing.py]) with [BillingProps]: plans, checkout, cancellation and the
      events of the payment provider.
    - [Credentials] ([services/credential_service.py], [api/trust_registry.py]) with
      [CredentialProps]: issuers, their keys, and the credentials of agents.
    - [GatewayControl] ([services/gateway_control_service.py],
      [api/enterprise_gateways.py]) with [GatewayProps]: gateways, their
      enrollment and heartbeats, and the signed configurations.
    - [Sidecar] ([src/sidecar], outside the backend) with [SidecarProps]: settings,
      state, keys, cache, synchronisation, evaluation and routing of a sidecar.
    - [Developer] ([services/developer.py], the authorization handlers of
      [api/developer.py]; module [DeveloperProps]), [Webhooks]
      ([services/webhooks.py]) with [WebhookProps].
    - [Reliability] ([services/reliability.py]).
    - [Samples]: concrete rows for the witnesses.

    A handler of the source is a definition of the same name; a paragraph of a
    long handler is a definition of its own, named after what it computes, and
    the handler composes them in the order of the source.  Errors are values of
    [Exc] with the status, message and code of the source.

    ** What the theorems show

    - Decisions ([AuthorizationProps]): what an approval means on the direct and
      on the delegated path; one record for each answer and none for a failure;
      the permission stage against its declarative specification; which inputs
      the APL stage and the amount checks do not see.
    - Pending requests ([RequestProps]) and the log ([Ledger]): an approval
      re-checks the permission, a request is decided once, and over any sequence
      of requests the log only grows, without a second entry for an identifier,
      and agrees with every decided request.
    - Delegation: verification always ends and is equivalent to a specification
      by the list of links; limits hold along the chain; creation narrows and
      keeps the invariant; the cascade reaches exactly the active descendants;
      and over any sequence of requests to all services authority never grows
      and terms never change ([System]).
    - Permissions and lifecycle: terms are immutable, the sweep and revocation
      do what they promise; histories follow the state machine, terminal
      statuses absorb, retirement tears everything down, and where separation
      of duties holds and where it can be bypassed.
    - APL: precedence of effects, independence of the order of rules, absent
      fields, totality on validated policies; the warnings of the linter that
      are right and the one that is not; the specification of the diff; parsing
      and the canonical hash.
    - Callers: whom an accepted session token and an accepted API key speak for,
      and that ended sessions and withdrawn keys are refused after any sequence
      of requests ([AuthProps], [KeyProps]); the second factor, the state and the
      ticket of a company sign-in work once ([MfaProps], [SsoProps]), and a
      company sign-in stands for a verified identity of a member.
    - Signed requests ([SigningProps], [Canonical]): an accepted signature is
      genuine and current, a request is accepted at most once, the signed text
      determines its fields.
    - Organizations: a relationship is active only by consent of the target,
      follows its state machine and ends completely ([TrustProps]); what an
      approval between organizations means, and its rows over any sequence of
      requests ([CrossOrgProps], [CrossOrgLedger]); the metering refines a
      counter capped by the plan ([PlanProps]).
    - Inventory: requests for one organization leave agents and reviews of the
      others alone, and where nothing is bound ([GovernanceProps]); the
      dependency graph is complete ([Dependencies]).
    - Credentials ([CredentialProps]): what a verified document stands for, that what
      is issued verifies, that what is withdrawn never does again, and one active key
      for each issuer; the registry is a step relation that the programs refine.
    - Billing ([BillingProps]): only an authentic, new event changes a subscription,
      that of the organization it concerns, and each event at most once.
    - Gateways ([GatewayProps]): a stopped gateway is refused for ever, a token
      enrolls once, versions count up and content never changes, and what is
      delivered verifies under the key of any enrollment, over any sequence of
      requests and restarts.
    - Sidecars ([SidecarProps]): what a local approval means, that a nonce counts
      once, and, with the control plane at the other end, that a withdrawn agent is
      refused from the next configuration on; that the health routes stop the
      process, that no configuration is verified, and where the local evaluation
      differs from [AplEval].
    - Developer API ([DeveloperProps]): an idempotency key decides once, and
      where it does not.
    - Outbound: an accepted URL resolves to an allowed address ([Ssrf]), a
      receiver can verify each delivery, attempts are bounded ([WebhookProps]).
    - Events: one open alert for an incident ([SocProps]); risk is monotone in the
      request rate; at most one notification for a key.
    - Limits and recovery: the rate limiter and the circuit breaker refine
      specifications by their histories, and the breaker recovers ([RateLimit],
      [Reliability]).

    ** Interfaces

    - [Entropy]: [uuid4] and [secrets.token_hex] as functions of a seed that each
      draw advances.  Nothing is assumed of them where a theorem does not name
      [EntropyLaws]; collisions are refused by the unique constraints.
    - [Loaders] ([AplParser]), [Hashing] ([PyStr]), [Hmac] with [HmacLaws]
      ([PyCodec]): the YAML and JSON readers, SHA-256, HMAC.
    - [Resolver] ([Ssrf]), [SocServices] ([Soc]), [WebhookServices]
      ([Webhooks]): name resolution and the answers of HTTP endpoints.
    - [AccountServices] ([Mfa]), [TokenServices] ([Auth]), [OidcServices]
      ([Sso]), [Ed25519] ([Signing]), [IssuerKeys] with [IssuerKeysLaws]
      ([Credentials]): password hashes, TOTP, Fernet, JWT, OIDC and
      signatures.
    - [ControlPlane] ([GatewayControl]): the key in the environment; [network],
      [posts] and [outbound] ([Sidecar]): the answers of HTTP endpoints.
    - [Ambient] with [AmbientLaws] ([SecurityEvents]): the request context and
      the regular expressions of the sanitizer.
    - [RiskProvider] and [RiskProviderLaws] ([Risk]): the protocol of the source
      and the range of its score; the rule-based provider is an instance.
    - [SecuritySinks] and [SecuritySinksLaws] ([SecurityEvents]): the detection
      rules and the export that end [record_security_event]; [Soc] discharges
      them.  [SinksRespect] and [Ignores] ([Frames]) state which relations on
      tables they keep, and the theorems of the clients are proved against them.

    ** Fuel

    - Parent links ([links_up], [walk_chain], [cycle_in_ancestors]): one more
      than the number of delegations.  Each step adds an agent that was not seen,
      or is refused, so verification and cycle detection never run out
      ([DelegationProps]); under [well_formed] the depth falls at each link, so
      [links_up] does not either ([DelegationInv]).
    - The revocation queue ([cascade_loop]): every row enters it at most once,
      since entering turns it from active to revoked ([Revocation]).
    - Condition trees ([evaluate_condition_node]): the recursion limit of the
      interpreter, whose exhaustion is an exception of the source too; validated
      trees have at most [MAX_NESTING_DEPTH] levels ([AplProps]).
    - [strip_zeros] and the search for the shortest float text have bounds from
      the format itself.

    ** Conventions and what is left out

    Identifiers are numbers, times are microseconds in UTC, characters are code
    points below 256 with the case mapping of ASCII.  The clock is an argument
    ([now] of a handler, [db_now] for column defaults).  Amount columns round to
    four decimals.  Requests run one after another: row locks
    ([with_for_update]) and isolation between concurrent transactions are not
    modelled.  Metrics, logging, [refresh] and eager-loading options have no
    effect on the tables and are left out; a text too long for its column and a
    broken constraint are the same [IntegrityError].  Sets printed in messages
    have a fixed order.

    Not modelled: the message pipeline of the gateways, the service registry, router
    and call pipeline, discovery, the policy editor ([api/policies.py]), the delivery
    of notifications, the sandbox, the routers that only resolve the caller and call a
    service, migrations, and the clients (SDK, command line, web, mobile): they
    forward to what is modelled, or are other deployables. *)

From stdpp Require Export base tactics decidable option list list_monad gmap
  strings sorting pretty.
From Stdlib Require Export Lia ZArith.

#[export] Set Default Goal Selector "!".

(** ** Results *)

Inductive result (E A : Type) : Type :=
  | Ok (a : A)
  | Err (e : E).
Arguments Ok {E A} a.
Arguments Err {E A} e.

#[export] Instance result_eq_dec `{EqDecision E, EqDecision A} :
  EqDecision (result E A).
Proof. solve_decision. Defined.

#[export] Instance result_ret E : MRet (result E) := λ A a, Ok a.
#[export] Instance result_bind E : MBind (result E) :=
  λ A B f r, match r with Ok a => f a | Err e => Err e end.
#[export] Instance result_fmap E : FMap (result E) :=
  λ A B f r, match r with Ok a => Ok (f a) | Err e => Err e end.

Definition is_Ok {E A} (r : result E A) : Prop := ∃ a, r = Ok a.

#[export] Instance is_Ok_dec {E A} (r : result E A) : Decision (is_Ok r).
Proof. destruct r as [a|e]; [left; by exists a | right; by intros [? ?]]. Defined.

Lemma result_bind_Ok {E A B} (f : A → result E B) (r : result E A) b :
  r ≫= f = Ok b → ∃ a, r = Ok a ∧ f a = Ok b.
Proof. destruct r as [a|e]; simpl; [by exists a | done]. Qed.

Lemma result_bind_run {E A B} (r : result E A) (f : A → result E B) b :
  r ≫= f = Ok b ↔ ∃ a, r = Ok a ∧ f a = Ok b.
Proof. destruct r as [a|e]; simpl; split; [by exists a | by intros (? & [= ->] & ?) | done | by intros (? & ? & ?)]. Qed.

(** ** State and exceptions

    [M S E] is the monad every handler of the program runs in: a Python
    function that may raise [E] and that reads and writes the state [S].  A
    raised exception keeps the state reached so far, as Python does; what a
    transaction keeps of it is decided by the store. *)

Definition M (S E A : Type) : Type := S → result E A * S.

#[export] Instance M_ret S E : MRet (M S E) := λ A a s, (Ok a, s).
#[export] Instance M_bind S E : MBind (M S E) := λ A B f m s,
  match m s with
  | (Ok a, s') => f a s'
  | (Err e, s') => (Err e, s')
  end.

Section monad.
Context {S E : Type}.

Definition throw {A} (e : E) : M S E A := λ s, (Err e, s).
Definition gets {A} (f : S → A) : M S E A := λ s, (Ok (f s), s).
Definition modify (f : S → S) : M S E unit := λ s, (Ok tt, f s).
Definition raise_if (b : bool) (e : E) : M S E unit :=
  if b then throw e else mret tt.
Definition lift_result {A} (r : result E A) : M S E A := λ s, (r, s).
(** [try: m except Exception: h]; the effects of [m] up to the exception stay. *)
Definition try_except {A} (m : M S E A) (h : E → M S E A) : M S E A := λ s,
  match m s with
  | (Ok a, s') => (Ok a, s')
  | (Err e, s') => h e s'
  end.
(** [for x in l: f x] *)
Fixpoint for_each {A} (f : A → M S E unit) (l : list A) : M S E unit :=
  match l with
  | [] => mret tt
  | x :: l => f x ;; for_each f l
  end.

Lemma bind_run {A B} (f : A → M S E B) (m : M S E A) s :
  (m ≫= f) s = match m s with (Ok a, s') => f a s' | (Err e, s') => (Err e, s') end.
Proof. reflexivity. Qed.

Lemma bind_Ok {A B} (f : A → M S E B) (m : M S E A) s b s' :
  (m ≫= f) s = (Ok b, s') → ∃ a s1, m s = (Ok a, s1) ∧ f a s1 = (Ok b, s').
Proof. rewrite bind_run. destruct (m s) as [[a|e] s1]; [by exists a, s1 | done]. Qed.

Lemma bind_raise_if {A} b e (k : unit → M S E A) s :
  (raise_if b e ≫= k) s = if b then (Err e, s) else k tt s.
Proof. by destruct b. Qed.
Lemma bind_gets {A B} (f : S → A) (k : A → M S E B) s : (gets f ≫= k) s = k (f s) s.
Proof. reflexivity. Qed.
Lemma bind_ret {A B} (a : A) (k : A → M S E B) s : (mret a ≫= k) s = k a s.
Proof. reflexivity. Qed.
Lemma bind_assoc {A B C} (m : M S E A) (f : A → M S E B) (g : B → M S E C) s :
  ((m ≫= f) ≫= g) s = (m ≫= λ a, f a ≫= g) s.
Proof. rewrite !bind_run. by destruct (m s) as [[a|e] s1]. Qed.

Lemma raise_if_Ok b e s s' : raise_if b e s = (Ok tt, s') ↔ b = false ∧ s = s'.
Proof. destruct b; cbv; (split; [|intros [? ?]]); intros; simplify_eq; done. Qed.

(** *** Relations every run respects

    [respects R m]: whatever [m] does, normally or by raising, the states
    before and after are related by the preorder [R].  Invariants
    ([R s s' := I s → I s']), immutability and append-only logs are all of
    this form, so one set of rules proves them for composed handlers. *)
Definition respects (R : relation S) {A} (m : M S E A) : Prop :=
  ∀ s, R s (m s).2.

Section respects.
Context (R : relation S) `{!PreOrder R}.

Lemma respects_ret {A} (a : A) : respects R (mret a).
Proof. intros s. reflexivity. Qed.
Lemma respects_throw {A} e : respects R (throw (A:=A) e).
Proof. intros s. reflexivity. Qed.
Lemma respects_gets {A} (f : S → A) : respects R (gets f).
Proof. intros s. reflexivity. Qed.
Lemma respects_raise_if b e : respects R (raise_if b e).
Proof. destruct b; [apply respects_throw | apply respects_ret]. Qed.
Lemma respects_lift {A} (r : result E A) : respects R (lift_result r).
Proof. intros s. reflexivity. Qed.
Lemma respects_modify f : (∀ s, R s (f s)) → respects R (modify f).
Proof. intros H s. apply H. Qed.
Lemma respects_bind {A B} (f : A → M S E B) (m : M S E A) :
  respects R m → (∀ a, respects R (f a)) → respects R (m ≫= f).
Proof.
  intros Hm Hf s. specialize (Hm s). rewrite bind_run.
  destruct (m s) as [[a|e] s1]; [|done]. etrans; [exact Hm | apply Hf].
Qed.
Lemma respects_try {A} (m : M S E A) (h : E → M S E A) :
  respects R m → (∀ e, respects R (h e)) → respects R (try_except m h).
Proof.
  intros Hm Hh s. specialize (Hm s). unfold try_except.
  destruct (m s) as [[a|e] s1]; [done|]. etrans; [exact Hm | apply Hh].
Qed.
Lemma respects_for_each {A} (f : A → M S E unit) l :
  (∀ x, respects R (f x)) → respects R (for_each f l).
Proof.
  intros Hf. induction l as [|x l IH]; simpl.
  - apply respects_ret.
  - apply respects_bind; [apply Hf | intros _; exact IH].
Qed.
End respects.
End monad.

Create HintDb respects.
#[export] Hint Resolve respects_ret respects_throw respects_gets
  respects_raise_if respects_lift respects_bind respects_try
  respects_for_each : respects.

(** Decompose a successful run of a monadic block into its steps. *)
Ltac mrun H :=
  lazymatch type of H with
  | (_ ≫= _) _ = (Ok _, _) =>
      let a := fresh "a" in let s := fresh "s" in let H1 := fresh "Hrun" in
      apply bind_Ok in H as (a & s & H1 & H); simpl in H
  | mret _ _ = (Ok _, _) => cbv [mret M_ret] in H; simplify_eq H
  end.

(** Case analysis on the guards of a handler, in the goal or in a hypothesis. *)
Ltac branch :=
  match goal with
  | |- context [if ?b then _ else _] => destruct b eqn:?
  | |- context [match ?o with Some _ => _ | None => _ end] => destruct o eqn:?
  end.
Ltac branch_in H :=
  match type of H with
  | context [if ?b then _ else _] => destruct b eqn:?
  | context [match ?o with Some _ => _ | None => _ end] => destruct o eqn:?
  end.

(** ** Booleans, options and decisions *)

Definition is_some {A} (o : option A) : bool :=
  match o with Some _ => true | None => false end.

Lemma is_some_true {A} (o : option A) : is_some o = true ↔ is_Some o.
Proof. destruct o; simpl; split; [by eauto | done | done | by intros [? ?]]. Qed.

Lemma is_some_false {A} (o : option A) : is_some o = false ↔ o = None.
Proof. by destruct o. Qed.

(** [x == y] of the source, on types with decidable equality. *)
Definition eqb {A} `{EqDecision A} (x y : A) : bool := bool_decide (x = y).

Lemma eqb_true `{EqDecision A} (x y : A) : eqb x y = true ↔ x = y.
Proof. apply bool_decide_eq_true. Qed.
Lemma eqb_false `{EqDecision A} (x y : A) : eqb x y = false ↔ x ≠ y.
Proof. apply bool_decide_eq_false. Qed.
Lemma eqb_refl `{EqDecision A} (x : A) : eqb x x = true.
Proof. by apply eqb_true. Qed.
Lemma negb_eqb_true `{EqDecision A} (x y : A) : negb (eqb x y) = true ↔ x ≠ y.
Proof. rewrite negb_true_iff. apply eqb_false. Qed.
Lemma negb_eqb_false `{EqDecision A} (x y : A) : negb (eqb x y) = false ↔ x = y.
Proof. rewrite negb_false_iff. apply eqb_true. Qed.

Create Rewrite HintDb reflect.
#[export] Hint Rewrite @eqb_true @eqb_false @negb_eqb_true @negb_eqb_false
  @is_some_true @is_some_false andb_true_iff orb_false_iff negb_true_iff
  negb_false_iff Z.leb_le Z.leb_gt Z.ltb_lt Z.ltb_ge Z.eqb_eq Z.eqb_neq
  Nat.leb_le Nat.leb_gt Nat.ltb_lt Nat.ltb_ge : reflect.

(** Turn the boolean guards of the context and the goal into propositions. *)
Ltac reflect := autorewrite with reflect in *.

(** ** Lists

    [find_first p l] is Python's [next((x for x in l if p x), None)] and, on a
    list of rows, [db.scalar(select(..).where(p))]. *)
Fixpoint find_first {A} (p : A → bool) (l : list A) : option A :=
  match l with
  | [] => None
  | x :: l => if p x then Some x else find_first p l
  end.

(** [[x for x in l if p x]] *)
Fixpoint select_where {A} (p : A → bool) (l : list A) : list A :=
  match l with
  | [] => []
  | x :: l => if p x then x :: select_where p l else select_where p l
  end.

Definition count_where {A} (p : A → bool) (l : list A) : nat :=
  length (select_where p l).

Section lists.
Context {A : Type}.
Implicit Types (p : A → bool) (l : list A).

Lemma elem_of_select_where p l x : x ∈ select_where p l ↔ x ∈ l ∧ p x = true.
Proof.
  induction l as [|y l IH]; simpl.
  - rewrite elem_of_nil. tauto.
  - assert (Hc : x ∈ y :: l ↔ x = y ∨ x ∈ l) by apply elem_of_cons.
    destruct (p y) eqn:Hy; [rewrite elem_of_cons|]; rewrite IH, Hc;
      intuition (subst; auto; congruence).
Qed.

Lemma select_where_nil p l : select_where p l = [] ↔ ∀ x, x ∈ l → p x = false.
Proof.
  split.
  - intros H x Hx. destruct (p x) eqn:Hp; [|done].
    assert (Hin : x ∈ select_where p l) by by apply elem_of_select_where.
    rewrite H in Hin. by apply elem_of_nil in Hin.
  - intros H. destruct (select_where p l) as [|x k] eqn:Hk; [done|].
    assert (Hin : x ∈ select_where p l) by (rewrite Hk; left).
    apply elem_of_select_where in Hin as [Hin Hp]. by rewrite H in Hp.
Qed.

Lemma select_where_and p q l :
  select_where q (select_where p l) = select_where (λ x, p x && q x) l.
Proof.
  induction l as [|y l IH]; simpl; [done|].
  destruct (p y) eqn:Hp; simpl; [|done]. by rewrite IH.
Qed.

Lemma find_first_head p l : find_first p l = head (select_where p l).
Proof. induction l as [|y l IH]; simpl; [done|]. by destruct (p y). Qed.

Lemma find_first_Some p l x : find_first p l = Some x → x ∈ l ∧ p x = true.
Proof.
  rewrite find_first_head, <- elem_of_select_where.
  destruct (select_where p l); simpl; intros; simplify_eq. left.
Qed.

Lemma find_first_None p l : find_first p l = None ↔ ∀ x, x ∈ l → p x = false.
Proof.
  rewrite find_first_head, <- select_where_nil.
  by destruct (select_where p l).
Qed.

Lemma length_select_where p l : length (select_where p l) ≤ length l.
Proof. induction l as [|y l IH]; simpl; [lia|]. destruct (p y); simpl; lia. Qed.

Lemma select_where_app p l k :
  select_where p (l ++ k) = select_where p l ++ select_where p k.
Proof. induction l as [|y l IH]; simpl; [done|]. destruct (p y); simpl; by rewrite IH. Qed.
End lists.

Create HintDb lists.
#[export] Hint Resolve find_first_Some : lists.

(** A list without duplicates drawn from a finite set is no longer than it:
    the argument that bounds every traversal of the program that keeps a set
    of visited identifiers. *)
Lemma NoDup_length_le `{Countable A} (l : list A) (X : gset A) :
  NoDup l → (∀ x, x ∈ l → x ∈ X) → length l ≤ size X.
Proof.
  intros Hnd Hin. rewrite <- (size_list_to_set (C:=gset A) l Hnd).
  apply subseteq_size. intros x Hx. apply Hin. set_solver.
Qed.

Lemma size_list_to_set_le `{Countable A} (l : list A) : size (list_to_set l : gset A) ≤ length l.
Proof.
  induction l as [|x l IH]; simpl; [done|].
  rewrite size_union_alt, size_singleton.
  assert (size ((list_to_set l : gset A) ∖ {[x]}) ≤ size (list_to_set l : gset A))
    by (apply subseteq_size; set_solver). lia.
Qed.

Lemma count_where_perm {A} (p : A → bool) (l k : list A) : l ≡ₚ k → count_where p l = count_where p k.
Proof.
  unfold count_where. induction 1 as [| x l k _ IH | x y l | l1 l2 l3 _ IH1 _ IH2]; simpl.
  - done.
  - destruct (p x); simpl; by rewrite IH.
  - by destruct (p x), (p y).
  - by rewrite IH1.
Qed.

(** Changing the elements that satisfy [p], a part of those that satisfy [q], so
    that they no longer satisfy [q]. *)
Lemma count_where_change {A} (p q : A → bool) (f : A → A) (l : list A) :
  (∀ x, p x = true → q x = true) → (∀ x, p x = true → q (f x) = false) →
  count_where q (map (λ x, if p x then f x else x) l) + count_where p l = count_where q l.
Proof.
  intros Hpq Hf. unfold count_where. induction l as [|x l IH]; simpl; [done|].
  destruct (p x) eqn:Hx; simpl.
  - rewrite (Hf _ Hx), (Hpq _ Hx). simpl. lia.
  - destruct (q x); simpl; lia.
Qed.
