(* ===== verification/PyStr.v ===== *)
(** The Python string operations the program calls, on strings whose
    characters are code points below 256; case mapping and blanks are those of
    ASCII.  [py_lower], [py_upper], [py_strip], [split_on], [startswith],
    [endswith] and [contains] are [str.lower], [upper], [strip], [split],
    [startswith], [endswith] and [in]; [str_join] is [sep.join]; [str_take n s]
    is [s[:n]]. *)
From Stdlib Require Import Ascii.
From S2P Require Import Prelude.

Local Open Scope string_scope.

Definition map_string (f : ascii → ascii) : string → string :=
  fix go s := match s with
  | EmptyString => EmptyString
  | String c s => String (f c) (go s)
  end.

Definition code (c : ascii) : N := N_of_ascii c.
Definition in_range (lo hi : N) (c : ascii) : bool :=
  ((lo <=? code c) && (code c <=? hi))%N.

Definition lower_char (c : ascii) : ascii :=
  if in_range 65 90 c then ascii_of_N (code c + 32) else c.
Definition upper_char (c : ascii) : ascii :=
  if in_range 97 122 c then ascii_of_N (code c - 32) else c.
Definition py_lower : string → string := map_string lower_char.
Definition py_upper : string → string := map_string upper_char.

(** [str.isspace] on ASCII: tab..carriage return, the four separators, space. *)
Definition is_space (c : ascii) : bool :=
  in_range 9 13 c || in_range 28 31 c || (code c =? 32)%N.

Fixpoint lstrip (s : string) : string :=
  match s with
  | EmptyString => EmptyString
  | String c s' => if is_space c then lstrip s' else s
  end.
Definition str_rev (s : string) : string := String.rev s.
Definition py_strip (s : string) : string := str_rev (lstrip (str_rev (lstrip s))).

(** [s[:n]] for [n >= 0] *)
Fixpoint str_take (n : nat) (s : string) : string :=
  match n, s with
  | S n, String c s => String c (str_take n s)
  | _, _ => EmptyString
  end.

Definition startswith (p s : string) : bool := String.prefix p s.
Definition endswith (p s : string) : bool := String.prefix (str_rev p) (str_rev s).
Fixpoint contains (p s : string) : bool :=
  String.prefix p s || match s with EmptyString => false | String _ s => contains p s end.

(** [s.split(c)] for a one-character separator. *)
Fixpoint split_on (c : ascii) (s : string) : list string :=
  match s with
  | EmptyString => [""]
  | String d s' =>
      if eqb d c then "" :: split_on c s'
      else match split_on c s' with
           | w :: ws => String d w :: ws
           | [] => [String d ""]
           end
  end.

Fixpoint str_join (sep : string) (l : list string) : string :=
  match l with
  | [] => ""
  | [s] => s
  | s :: l => s +:+ sep +:+ str_join sep l
  end.

(** [str(n)] of an integer. *)
Definition str_of_Z (z : Z) : string := pretty z.
Definition str_of_nat (n : nat) : string := pretty (Z.of_nat n).

(** Hexadecimal digits, for [str(UUID)] and [\uXXXX] escapes. *)
Definition hex_digit (n : N) : ascii :=
  if (n <? 10)%N then ascii_of_N (48 + n) else ascii_of_N (87 + n).
Fixpoint hex_string (len : nat) (n : N) (acc : string) : string :=
  match len with
  | 0 => acc
  | S len => hex_string len (n / 16)%N (String (hex_digit (n mod 16)%N) acc)
  end.

(** [str(uuid)]: 32 hexadecimal digits grouped 8-4-4-4-12. *)
Definition uuid_str (u : N) : string :=
  let h := hex_string 32 u "" in
  str_join "-" [String.substring 0 8 h; String.substring 8 4 h;
    String.substring 12 4 h; String.substring 16 4 h; String.substring 20 12 h].

(** [hashlib.sha256(s.encode()).hexdigest()], library code. *)
Class Hashing : Type := { sha256_hex : string → string }.

(** The pattern [^[A-Z]{3}$] of the currency columns. *)
Definition is_currency (s : string) : bool :=
  match s with
  | String a (String b (String c EmptyString)) =>
      in_range 65 90 a && in_range 65 90 b && in_range 65 90 c
  | _ => false
  end.

Example uuid_str_ex : uuid_str 255 = "00000000-0000-0000-0000-0000000000ff".
Proof. reflexivity. Qed.
Example split_on_ex : split_on "." "agent.id" = ["agent"; "id"].
Proof. reflexivity. Qed.
Example py_strip_ex : py_upper (py_strip "  deny ") = "DENY".
Proof. reflexivity. Qed.

(** ** Laws *)

Lemma map_string_length f s : String.length (map_string f s) = String.length s.
Proof. induction s; simpl; congruence. Qed.

Lemma lower_char_idem c : lower_char (lower_char c) = lower_char c.
Proof. destruct c as [[] [] [] [] [] [] [] []]; reflexivity. Qed.

Lemma upper_char_idem c : upper_char (upper_char c) = upper_char c.
Proof. destruct c as [[] [] [] [] [] [] [] []]; reflexivity. Qed.

Lemma py_lower_idem s : py_lower (py_lower s) = py_lower s.
Proof. unfold py_lower. induction s as [|c s IH]; simpl; [done|]. by rewrite lower_char_idem, IH. Qed.

Lemma py_upper_idem s : py_upper (py_upper s) = py_upper s.
Proof. unfold py_upper. induction s as [|c s IH]; simpl; [done|]. by rewrite upper_char_idem, IH. Qed.

Lemma str_of_nat_inj m n : str_of_nat m = str_of_nat n → m = n.
Proof. unfold str_of_nat. intros H%(inj pretty). lia. Qed.

Lemma String_length_append a b : String.length (a +:+ b) = (String.length a + String.length b)%nat.
Proof. induction a as [|c a IH]; simpl; [done | by rewrite IH]. Qed.

Lemma str_take_length n s : (String.length (str_take n s) ≤ n)%nat.
Proof. revert s. induction n as [|n IH]; intros [|c s]; simpl; [lia..|]. specialize (IH s). lia. Qed.

Lemma split_on_nonempty c s : split_on c s ≠ [].
Proof. destruct s as [|d s]; simpl; [done|]. destruct (eqb d c); [done|]. by destruct (split_on c s). Qed.

(** Splitting on a separator and joining with it gives the string back. *)
Lemma join_split c s : str_join (String c "") (split_on c s) = s.
Proof.
  induction s as [|d s IH]; simpl; [done|].
  destruct (eqb d c) eqn:Hd.
  - apply eqb_true in Hd as ->.
    destruct (split_on c s) as [|w ws] eqn:Hs; [by apply split_on_nonempty in Hs|].
    by rewrite <- IH.
  - destruct (split_on c s) as [|w ws] eqn:Hs; [by apply split_on_nonempty in Hs|].
    rewrite <- IH. by destruct ws.
Qed.
