(* ===== verification/PyFloat.v ===== *)
(** IEEE 754 binary64, the [float] of Python, on the Standard Library's
    executable specification [SpecFloat] (53 bits of precision, exponents below
    1024), with what the program uses of it: conversion from integers and
    decimal ratios (correctly rounded), comparison (also with integers, exact as
    in Python), division, [round(x, 2)] and [repr]. *)
From Stdlib Require Import Ascii SpecFloat.
From S2P Require Import Prelude.
From S2P Require Import PyStr.

Local Open Scope Z_scope.

Abbreviation float := spec_float.
Definition prec : Z := 53.
Definition emax : Z := 1024.

(** [float(n)] rounds to nearest, ties to even; the result is infinite when
    Python raises [OverflowError]. *)
Definition f_of_Z (n : Z) : float := binary_normalize prec emax n 0 false.

(** The correctly rounded quotient of two integers: [n / d] on ints, and
    [float(Decimal)] with [d] a power of ten. *)
Definition f_of_ratio (n : Z) (d : positive) : float :=
  match n with
  | Z0 => S754_zero false
  | Zpos p => let '(q, e, l) := SFdiv_core_binary prec emax (Zpos p) 0 (Zpos d) 0 in
      binary_round_aux prec emax false q e l
  | Zneg p => let '(q, e, l) := SFdiv_core_binary prec emax (Zpos p) 0 (Zpos d) 0 in
      binary_round_aux prec emax true q e l
  end.

Definition f_div (x y : float) : float := SFdiv prec emax x y.
Definition f_zero : float := S754_zero false.
Definition f_inf : float := S754_infinity false.
Definition f_neg_inf : float := S754_infinity true.

Definition is_infinite (x : float) : bool :=
  match x with S754_infinity _ => true | _ => false end.

(** The comparisons of Python; all are false on a NaN. *)
Definition f_ltb (x y : float) : bool := SFltb x y.
Definition f_leb (x y : float) : bool := SFleb x y.
Definition f_eqb (x y : float) : bool := SFeqb x y.

(** [max(a, b)] and [min(a, b)]: the first argument unless the second wins. *)
Definition f_max (a b : float) : float := if f_ltb a b then b else a.
Definition f_min (a b : float) : float := if f_ltb b a then b else a.

(** The sign, mantissa and exponent as an exact signed mantissa. *)
Definition signed (s : bool) (m : positive) : Z := if s then Zneg m else Zpos m.

(** Exact comparison of an integer with a float, as Python compares them. *)
Definition Z_compare_f (n : Z) (x : float) : option comparison :=
  match x with
  | S754_nan => None
  | S754_infinity s => Some (if s then Gt else Lt)
  | S754_zero _ => Some (n ?= 0)
  | S754_finite s m e =>
      Some (if 0 <=? e then n ?= signed s m * 2 ^ e else n * 2 ^ (- e) ?= signed s m)
  end.

(** Division of integers rounding half to even ([d > 0]). *)
Definition div_half_even (n d : Z) : Z :=
  let q := n / d in let r := n mod d in
  match 2 * r ?= d with
  | Lt => q
  | Gt => q + 1
  | Eq => if Z.even q then q else q + 1
  end.

(** [round(x, 2)]: the nearest multiple of 1/100 of the exact binary value. *)
Definition f_round2 (x : float) : float :=
  match x with
  | S754_finite s m e =>
      let n := if 0 <=? e then Zpos m * 2 ^ e * 100
               else div_half_even (Zpos m * 100) (2 ^ (- e)) in
      let r := f_of_ratio n 100 in if s then SFopp r else r
  | _ => x
  end.

(** ** [repr]: the shortest decimal that rounds to the same float *)

(** The exact value of a positive finite float as a fraction. *)
Definition pos_ratio (m : positive) (e : Z) : Z * Z :=
  if 0 <=? e then (Zpos m * 2 ^ e, 1) else (Zpos m, 2 ^ (- e)).

(** [d * 10^k] as a float. *)
Definition f_of_decimal (d : Z) (k : Z) : float :=
  if 0 <=? k then f_of_Z (d * 10 ^ k) else f_of_ratio d (Z.to_pos (10 ^ (- k))).

(** The decimal exponent: [10^E <= n/d < 10^(E+1)], from an estimate. *)
Fixpoint fix_exponent (fuel : nat) (n d E : Z) : Z :=
  match fuel with
  | O => E
  | S fuel =>
      let ge_pow k := if 0 <=? k then d * 10 ^ k <=? n else d <=? n * 10 ^ (- k) in
      if negb (ge_pow E) then fix_exponent fuel n d (E - 1)
      else if ge_pow (E + 1) then fix_exponent fuel n d (E + 1)
      else E
  end.
Definition decimal_exponent (n d : Z) : Z :=
  fix_exponent 6 n d ((Z.log2 n - Z.log2 d) * 30103 / 100000).

(** The [p]-digit decimal [c * 10^k] nearest to [n/d] among those that round to
    [x], if there is one. *)
Definition try_digits (x : float) (n d k : Z) : option Z :=
  let a := if 0 <=? k then n else n * 10 ^ (- k) in
  let b := if 0 <=? k then d * 10 ^ k else d in
  let near := div_half_even a b in
  let other := if near =? a / b then near + 1 else a / b in
  if f_eqb (f_of_decimal near k) x then Some near
  else if f_eqb (f_of_decimal other k) x then Some other
  else None.

Fixpoint shortest (todo : nat) (x : float) (n d k : Z) : Z * Z :=
  match todo with
  | O => (div_half_even (if 0 <=? k then n else n * 10 ^ (- k)) (if 0 <=? k then d * 10 ^ k else d), k)
  | S todo =>
      match try_digits x n d k with
      | Some c => (c, k)
      | None => shortest todo x n d (k - 1)
      end
  end.

Definition zeros (n : Z) : string := Z.iter n (String "0"%char) ""%string.

(** The layout of [float.__repr__]: positional when the decimal point falls in
    [(-4, 16]], scientific otherwise. *)
Definition format_repr (c k : Z) : string :=
  let ds := str_of_Z c in
  let len := Z.of_nat (String.length ds) in
  let decpt := len + k in
  if ((-4 <? decpt) && (decpt <=? 16))%bool then
    if decpt <=? 0 then "0." +:+ zeros (- decpt) +:+ ds
    else if len <=? decpt then ds +:+ zeros (decpt - len) +:+ ".0"
    else String.substring 0 (Z.to_nat decpt) ds +:+ "." +:+
         String.substring (Z.to_nat decpt) (Z.to_nat (len - decpt)) ds
  else
    let mant := if len =? 1 then ds
                else String.substring 0 1 ds +:+ "." +:+ String.substring 1 (Z.to_nat (len - 1)) ds in
    let ex := decpt - 1 in
    let exs := str_of_Z (Z.abs ex) in
    mant +:+ "e" +:+ (if ex <? 0 then "-" else "+") +:+
      (if (Z.abs ex <? 10) then "0" +:+ exs else exs).

(** Drop the trailing zeros of a coefficient. *)
Fixpoint drop_zeros (fuel : nat) (c k : Z) : Z * Z :=
  match fuel with
  | O => (c, k)
  | S fuel => if (c mod 10 =? 0) then drop_zeros fuel (c / 10) (k + 1) else (c, k)
  end.

Definition f_repr (x : float) : string :=
  match x with
  | S754_nan => "nan"
  | S754_infinity s => if s then "-inf" else "inf"
  | S754_zero s => if s then "-0.0" else "0.0"
  | S754_finite s m e =>
      let '(n, d) := pos_ratio m e in
      let '(c, k) := shortest 16 (S754_finite false m e) n d (decimal_exponent n d) in
      let '(c, k) := drop_zeros 20 c k in
      (if s then "-" else "") +:+ format_repr c k
  end.

Example f_repr_half : f_repr (f_of_ratio 1 2) = "0.5".
Proof. vm_compute. reflexivity. Qed.
Example f_repr_tenth : f_repr (f_of_ratio 1 10) = "0.1".
Proof. vm_compute. reflexivity. Qed.
Example f_repr_int : f_repr (f_of_Z 500) = "500.0".
Proof. vm_compute. reflexivity. Qed.
Example f_repr_sci : f_repr (f_of_Z (10 ^ 16)) = "1e+16".
Proof. vm_compute. reflexivity. Qed.
Example f_repr_small : f_repr (f_of_ratio (-25) 1000000) = "-2.5e-05".
Proof. vm_compute. reflexivity. Qed.
Example f_repr_third : f_repr (f_of_ratio 1 3) = "0.3333333333333333".
Proof. vm_compute. reflexivity. Qed.
Example f_repr_sum : f_repr (f_of_ratio 30000000000000004 100000000000000000) = "0.30000000000000004".
Proof. vm_compute. reflexivity. Qed.
Example f_repr_money : f_repr (f_of_ratio 19999900 10000) = "1999.99".
Proof. vm_compute. reflexivity. Qed.
Example f_round2_ex : f_repr (f_round2 (f_of_ratio 2675 1000)) = "2.67".
Proof. vm_compute. reflexivity. Qed.
Example f_not_exact : f_eqb (f_of_Z (2 ^ 53)) (f_of_Z (2 ^ 53 + 1)) = true.
Proof. vm_compute. reflexivity. Qed.

(** ** Order *)

Definition mirror (c : comparison) : comparison := CompOpp c.

Lemma SFcompare_swap x y : SFcompare y x = CompOpp <$> SFcompare x y.
Proof.
  destruct x as [[]|[]| |[] m e], y as [[]|[]| |[] m' e']; try reflexivity; simpl;
    rewrite (Z.compare_antisym e e');
    destruct (e ?= e') eqn:He; try reflexivity; simpl;
    change (Pos.compare_cont Eq m' m) with (m' ?= m)%positive;
    change (Pos.compare_cont Eq m m') with (m ?= m')%positive;
    rewrite (Pos.compare_antisym m m'); by destruct (m ?= m')%positive.
Qed.

(** A float is not both above one bound and below it. *)
Lemma f_ltb_asym x y : f_ltb x y = true → f_ltb y x = false.
Proof.
  unfold f_ltb, SFltb. rewrite (SFcompare_swap x y).
  by destruct (SFcompare x y) as [[]|].
Qed.

(** Floats that are not NaN in the order of [SFcompare]: class, exponent, mantissa. *)
Definition rank (x : float) : Z * Z * Z :=
  match x with
  | S754_infinity true => (0, 0, 0)
  | S754_finite true m e => (1, - e, Z.neg m)
  | S754_zero _ | S754_nan => (2, 0, 0)
  | S754_finite false m e => (3, e, Z.pos m)
  | S754_infinity false => (4, 0, 0)
  end%Z.
Definition is_nan (x : float) : bool := match x with S754_nan => true | _ => false end.
Definition rank_lt (a b : Z * Z * Z) : Prop :=
  (a.1.1 < b.1.1 \/ a.1.1 = b.1.1 /\ (a.1.2 < b.1.2 \/ a.1.2 = b.1.2 /\ a.2 < b.2))%Z.

Lemma f_ltb_rank x y :
  is_nan x = false → is_nan y = false → f_ltb x y = true ↔ rank_lt (rank x) (rank y).
Proof.
  unfold f_ltb, SFltb, rank_lt. intros Hx Hy.
  destruct x as [[]|[]| |[] mx ex], y as [[]|[]| |[] my ey]; try done; simpl;
    try (split; [done | lia]); try (split; [lia | done]).
  - destruct (Z.compare_spec ex ey); simpl; try (split; [done | lia]); try (split; [lia | done]).
    change (Pos.compare_cont Eq mx my) with (mx ?= my)%positive.
    destruct (Pos.compare_spec mx my); simpl; split; try done; try congruence; intros; lia.
  - destruct (Z.compare_spec ex ey); simpl; try (split; [done | lia]); try (split; [lia | done]).
    change (Pos.compare_cont Eq mx my) with (mx ?= my)%positive.
    destruct (Pos.compare_spec mx my); simpl; split; try done; try congruence; intros; lia.
Qed.

Lemma f_leb_rank x y :
  is_nan x = false → is_nan y = false → f_leb x y = true ↔ ¬ rank_lt (rank y) (rank x).
Proof.
  intros Hx Hy. rewrite <- f_ltb_rank by done. unfold f_ltb, f_leb, SFltb, SFleb.
  rewrite (SFcompare_swap x y). destruct (SFcompare x y) as [[]|] eqn:Hc; simpl; try (split; congruence).
  exfalso. destruct x as [[]|[]| |[] mx ex], y as [[]|[]| |[] my ey]; try done; simpl in Hc; by repeat case_match.
Qed.

Lemma f_ltb_not_nan x y : f_ltb x y = true → is_nan x = false ∧ is_nan y = false.
Proof. by destruct x as [[]|[]| |[] mx ex], y as [[]|[]| |[] my ey]. Qed.
Lemma f_leb_not_nan x y : f_leb x y = true → is_nan x = false ∧ is_nan y = false.
Proof. by destruct x as [[]|[]| |[] mx ex], y as [[]|[]| |[] my ey]. Qed.
Lemma f_ltb_leb x y : f_ltb x y = true → f_leb x y = true.
Proof.
  intros H. destruct (f_ltb_not_nan _ _ H). apply f_leb_rank; [done..|].
  apply f_ltb_rank in H; [|done..]. unfold rank_lt in *. lia.
Qed.

(** Nothing lies between crossed bounds. *)
Lemma f_crossed lo x hi : f_leb lo x = true → f_leb x hi = true → f_ltb hi lo = false.
Proof.
  intros H1 H2. destruct (f_leb_not_nan _ _ H1) as [N1 N2]. destruct (f_leb_not_nan _ _ H2) as [_ N3].
  apply not_true_iff_false. rewrite f_ltb_rank by done.
  apply f_leb_rank in H1, H2; [|done..]. unfold rank_lt in *. lia.
Qed.
