(* ===== verification/PyVal.v ===== *)
(** The dynamic values of the program: what a JSON column, a YAML or JSON
    document and an evaluation context hold.  A dictionary is an association
    list in insertion order with distinct keys, all strings.  [py_eq] is [==],
    [py_str] and [py_repr] are [str] and [repr], [py_float] is [float(..)] with
    its exceptions and [json_dumps] is [json.dumps(.., sort_keys=True)]. *)
From Stdlib Require Import Ascii.
From S2P Require Import Prelude.
From S2P Require Import PyStr.
From S2P Require Import PyFloat.

Local Open Scope string_scope.

Inductive pyval : Type :=
  | VNone
  | VBool (b : bool)
  | VInt (z : Z)
  | VFloat (f : float)
  | VStr (s : string)
  | VList (l : list pyval)
  | VDict (d : list (string * pyval)).

(** The exceptions of the built-in operations. *)
Inductive PyExc : Type :=
  | TypeError
  | ValueError
  | AttributeError
  | OverflowError
  | KeyError
  | RecursionError.
#[export] Instance PyExc_eq_dec : EqDecision PyExc.
Proof. solve_decision. Defined.

Section pyval_ind.
Context (P : pyval → Prop).
Context (HNone : P VNone) (HBool : ∀ b, P (VBool b)) (HInt : ∀ z, P (VInt z)).
Context (HFloat : ∀ f, P (VFloat f)) (HStr : ∀ s, P (VStr s)).
Context (HList : ∀ l, Forall P l → P (VList l)).
Context (HDict : ∀ d, Forall (λ kv, P kv.2) d → P (VDict d)).

Fixpoint pyval_rect_nested (v : pyval) : P v :=
  match v with
  | VNone => HNone | VBool b => HBool b | VInt z => HInt z
  | VFloat f => HFloat f | VStr s => HStr s
  | VList l => HList l ((fix go l : Forall P l :=
      match l with
      | [] => Forall_nil_2 _
      | x :: l => Forall_cons_2 _ x l (pyval_rect_nested x) (go l)
      end) l)
  | VDict d => HDict d ((fix go d : Forall (λ kv, P kv.2) d :=
      match d with
      | [] => Forall_nil_2 _
      | kv :: d => Forall_cons_2 _ kv d (pyval_rect_nested kv.2) (go d)
      end) d)
  end.
End pyval_ind.

(** ** Dictionaries *)

(** [d.get(k)] with [None] for an absent key; [k in d]. *)
Fixpoint dict_get {V} (k : string) (d : list (string * V)) : option V :=
  match d with
  | [] => None
  | (k', v) :: d => if eqb k k' then Some v else dict_get k d
  end.
Definition dict_mem {V} (k : string) (d : list (string * V)) : bool :=
  is_some (dict_get k d).

(** [d[k] = v]: in place, or at the end. *)
Fixpoint dict_set {V} (k : string) (v : V) (d : list (string * V)) : list (string * V) :=
  match d with
  | [] => [(k, v)]
  | (k', v') :: d => if eqb k k' then (k, v) :: d else (k', v') :: dict_set k v d
  end.

(** [d.get(k)] as a value, [None] when absent. *)
Definition get (k : string) (d : list (string * pyval)) : pyval :=
  default VNone (dict_get k d).

(** ** Truth and type tests *)

Definition truthy (v : pyval) : bool :=
  match v with
  | VNone => false
  | VBool b => b
  | VInt z => negb (z =? 0)%Z
  | VFloat (SpecFloat.S754_zero _) => false
  | VFloat _ => true
  | VStr s => negb (eqb s "")
  | VList l => negb (length l =? 0)%nat
  | VDict d => negb (length d =? 0)%nat
  end.

(** [a or b] *)
Definition py_or (a b : pyval) : pyval := if truthy a then a else b.
Definition is_none (v : pyval) : bool := match v with VNone => true | _ => false end.
Definition as_str (v : pyval) : option string := match v with VStr s => Some s | _ => None end.
Definition as_list (v : pyval) : option (list pyval) := match v with VList l => Some l | _ => None end.
Definition as_dict (v : pyval) : option (list (string * pyval)) :=
  match v with VDict d => Some d | _ => None end.
(** [isinstance(v, (int, float))], which includes [bool]. *)
Definition is_number (v : pyval) : bool :=
  match v with VBool _ | VInt _ | VFloat _ => true | _ => false end.

(** ** Equality *)

(** The numeric value of a number: an exact integer or a float. *)
Definition num_of (v : pyval) : option (Z + float) :=
  match v with
  | VBool b => Some (inl (if b then 1 else 0)%Z)
  | VInt z => Some (inl z)
  | VFloat f => Some (inr f)
  | _ => None
  end.

Definition num_eq (a b : Z + float) : bool :=
  match a, b with
  | inl x, inl y => (x =? y)%Z
  | inr x, inr y => f_eqb x y
  | inl x, inr y | inr y, inl x => eqb (Z_compare_f x y) (Some Eq)
  end.

Fixpoint py_eq (v w : pyval) {struct v} : bool :=
  match v, w with
  | VNone, VNone => true
  | VStr a, VStr b => eqb a b
  | VList l, VList k =>
      (fix go l k := match l, k with
       | [], [] => true
       | x :: l, y :: k => py_eq x y && go l k
       | _, _ => false
       end) l k
  | VDict d, VDict e =>
      (length d =? length e)%nat &&
      (fix go d := match d with
       | [] => true
       | (k, x) :: d =>
           match dict_get k e with Some y => py_eq x y | None => false end && go d
       end) d
  | _, _ => match num_of v, num_of w with Some a, Some b => num_eq a b | _, _ => false end
  end.

(** [x in l] for a list *)
Definition py_in (x : pyval) (l : list pyval) : bool := existsb (py_eq x) l.

Lemma py_eq_str_r v s : py_eq v (VStr s) = true → v = VStr s.
Proof. destruct v; try done. simpl. intros H%bool_decide_eq_true. by subst. Qed.
Lemma py_eq_str_l v s : py_eq (VStr s) v = true → v = VStr s.
Proof. destruct v; try done. simpl. intros H%bool_decide_eq_true. by subst. Qed.

(** ** Dictionaries with arbitrary hashable keys *)

Definition hashable (v : pyval) : bool := match v with VList _ | VDict _ => false | _ => true end.

Section assoc.
Context {V : Type}.
Fixpoint assoc_get (k : pyval) (l : list (pyval * V)) : option V :=
  match l with
  | [] => None
  | (k', v) :: l => if py_eq k k' then Some v else assoc_get k l
  end.
Fixpoint assoc_set (k : pyval) (v : V) (l : list (pyval * V)) : list (pyval * V) :=
  match l with
  | [] => [(k, v)]
  | (k', v') :: l => if py_eq k k' then (k', v) :: l else (k', v') :: assoc_set k v l
  end.

(** The entry written is the one read, or a new one under [k]. *)
Lemma elem_of_assoc_set k v l k' w :
  (k', w) ∈ assoc_set k v l → (k', w) ∈ l ∨
  (w = v ∧ ((assoc_get k l = None ∧ k' = k) ∨
            ∃ v0, assoc_get k l = Some v0 ∧ (k', v0) ∈ l ∧ py_eq k k' = true)).
Proof.
  induction l as [|[k0 v0] l IH]; simpl.
  - intros [= -> ->]%list_elem_of_singleton. right. auto.
  - destruct (py_eq k k0) eqn:Hk; rewrite elem_of_cons.
    + intros [[= -> ->] | Hin]; [|left; by right]. right. split; [done|]. right.
      exists v0. split_and!; [done | by left | done].
    + intros [[= -> ->] | Hin]; [left; by left|].
      destruct (IH Hin) as [? | (-> & [? | (v1 & ? & ? & ?)])]; [left; by right | right; auto |].
      right. split; [done|]. right. exists v1. split_and!; [done | by right | done].
Qed.
End assoc.

(** ** [float(v)] *)

Definition digit_val (c : ascii) : option Z :=
  if in_range 48 57 c then Some (Z.of_N (code c) - 48)%Z else None.

(** Digits with single underscores between them, most significant first. *)
Fixpoint take_digits (acc cnt : Z) (s : string) : Z * Z * string :=
  match s with
  | String c s' =>
      match digit_val c with
      | Some v => take_digits (acc * 10 + v) (cnt + 1) s'
      | None =>
          match c, s' with
          | "_"%char, String c' _ =>
              if ((0 <? cnt)%Z && is_some (digit_val c'))%bool
              then take_digits acc cnt s' else (acc, cnt, s)
          | _, _ => (acc, cnt, s)
          end
      end
  | EmptyString => (acc, cnt, s)
  end.

Definition take_sign (s : string) : bool * string :=
  match s with
  | String "-" s => (true, s)
  | String "+" s => (false, s)
  | _ => (false, s)
  end.

Definition parse_decimal (s : string) : option float :=
  let '(a, ca, s) := take_digits 0 0 s in
  let '(b, cb, s) :=
    match s with String "." s => take_digits a 0 s | _ => (a, 0%Z, s) end in
  if (ca + cb =? 0)%Z then None
  else match s with
  | EmptyString => Some (f_of_decimal b (- cb))
  | String "e" s =>
      let '(neg, s) := take_sign s in
      let '(x, cx, s) := take_digits 0 0 s in
      if ((cx =? 0)%Z || negb (eqb s ""))%bool then None
      else Some (f_of_decimal b ((if neg then - x else x) - cb))
  | _ => None
  end.

Definition float_of_string (s : string) : result PyExc float :=
  let '(neg, s) := take_sign (py_strip s) in
  let s := py_lower s in
  let r :=
    if eqb s "inf" || eqb s "infinity" then Some f_inf
    else if eqb s "nan" then Some SpecFloat.S754_nan
    else parse_decimal s in
  match r with
  | Some f => Ok (if neg then SpecFloat.SFopp f else f)
  | None => Err ValueError
  end.

Definition py_float (v : pyval) : result PyExc float :=
  match v with
  | VBool b => Ok (f_of_Z (if b then 1 else 0))
  | VInt z => if is_infinite (f_of_Z z) then Err OverflowError else Ok (f_of_Z z)
  | VFloat f => Ok f
  | VStr s => float_of_string s
  | VNone | VList _ | VDict _ => Err TypeError
  end.

(** ** [str] and [repr] *)

(** The escapes of [repr] inside quotes [q]. *)
Definition repr_char (q c : ascii) : string :=
  if eqb c q || eqb c "\"%char then String "\" (String c "")
  else if eqb c (ascii_of_N 10) then "\n"
  else if eqb c (ascii_of_N 13) then "\r"
  else if eqb c (ascii_of_N 9) then "\t"
  else if in_range 0 31 c || in_range 127 160 c || eqb c (ascii_of_N 173)
       then "\x" +:+ hex_string 2 (code c) ""
  else String c "".
Fixpoint concat_map (f : ascii → string) (s : string) : string :=
  match s with EmptyString => "" | String c s => f c +:+ concat_map f s end.

Definition dquote : ascii := ascii_of_N 34.
Definition squote : ascii := ascii_of_N 39.

Definition str_repr (s : string) : string :=
  let q := if contains (String squote "") s && negb (contains (String dquote "") s)
           then dquote else squote in
  String q (concat_map (repr_char q) s +:+ String q "").

Fixpoint py_repr (v : pyval) : string :=
  match v with
  | VNone => "None"
  | VBool b => if b then "True" else "False"
  | VInt z => str_of_Z z
  | VFloat f => f_repr f
  | VStr s => str_repr s
  | VList l => "[" +:+ str_join ", " (map py_repr l) +:+ "]"
  | VDict d => "{" +:+ str_join ", " (map (λ kv, str_repr kv.1 +:+ ": " +:+ py_repr kv.2) d) +:+ "}"
  end.

Definition py_str (v : pyval) : string := match v with VStr s => s | _ => py_repr v end.

(** [for x in v]: a list, the characters of a text, the keys of a dictionary. *)
Fixpoint chars (s : string) : list pyval :=
  match s with EmptyString => [] | String c s => VStr (String c "") :: chars s end.
Definition py_iter (v : pyval) : result PyExc (list pyval) :=
  match v with
  | VList l => Ok l
  | VStr s => Ok (chars s)
  | VDict d => Ok (map (λ kv, VStr kv.1) d)
  | _ => Err TypeError
  end.

(** [v.get(k, default)]; [v.items()] *)
Definition py_get (v : pyval) (k : string) (d : pyval) : result PyExc pyval :=
  match v with
  | VDict m => Ok (default d (dict_get k m))
  | _ => Err AttributeError
  end.
Definition py_items (v : pyval) : result PyExc (list (string * pyval)) :=
  match v with VDict m => Ok m | _ => Err AttributeError end.

(** [sep.join(l)]: every element must be a text. *)
Definition py_join (sep : string) (l : list pyval) : result PyExc string :=
  match mapM as_str l with Some ss => Ok (str_join sep ss) | None => Err TypeError end.

(** ** [json.dumps(v, sort_keys=True, separators=(item_sep, key_sep))] *)

Definition json_char (c : ascii) : string :=
  if eqb c dquote || eqb c "\"%char then String "\" (String c "")
  else if eqb c (ascii_of_N 10) then "\n"
  else if eqb c (ascii_of_N 13) then "\r"
  else if eqb c (ascii_of_N 9) then "\t"
  else if eqb c (ascii_of_N 8) then "\b"
  else if eqb c (ascii_of_N 12) then "\f"
  else if in_range 32 126 c then String c ""
  else "\u" +:+ hex_string 4 (code c) "".
Definition json_str (s : string) : string :=
  String dquote (concat_map json_char s +:+ String dquote "").

Definition json_float (f : float) : string :=
  match f with
  | SpecFloat.S754_nan => "NaN"
  | SpecFloat.S754_infinity s => if s then "-Infinity" else "Infinity"
  | _ => f_repr f
  end.

(** [sorted(l)] on strings, and the order of keys under it: by code points. *)
Definition str_le (a b : string) : Prop := String.leb a b = true.
#[export] Instance str_le_dec : RelDecision str_le.
Proof. intros a b. unfold str_le. apply _. Defined.
Definition sort_strings (l : list string) : list string := merge_sort str_le l.

Definition key_le {V} (a b : string * V) : Prop := String.leb a.1 b.1 = true.
#[export] Instance key_le_dec {V} : RelDecision (@key_le V).
Proof. intros a b. unfold key_le. apply _. Defined.
Definition sort_items {V} (d : list (string * V)) : list (string * V) :=
  merge_sort key_le d.

Section json.
Context (item_sep key_sep : string).
Fixpoint json_dumps (v : pyval) : string :=
  match v with
  | VNone => "null"
  | VBool b => if b then "true" else "false"
  | VInt z => str_of_Z z
  | VFloat f => json_float f
  | VStr s => json_str s
  | VList l => "[" +:+ str_join item_sep (map json_dumps l) +:+ "]"
  | VDict d =>
      "{" +:+ str_join item_sep
        (map (λ kv, json_str kv.1 +:+ key_sep +:+ kv.2)
           (sort_items (map (λ kv, (kv.1, json_dumps kv.2)) d))) +:+ "}"
  end.
End json.

(** [json.dumps(v)]: the keys in their order. *)
Fixpoint json_plain (v : pyval) : string :=
  match v with
  | VList l => "[" +:+ str_join ", " (map json_plain l) +:+ "]"
  | VDict d => "{" +:+ str_join ", " (map (λ kv, json_str kv.1 +:+ ": " +:+ json_plain kv.2) d) +:+ "}"
  | v => json_dumps ", " ": " v
  end.

(** The canonical form: [separators=(",", ":")]. *)
Definition canonical_json : pyval → string := json_dumps "," ":".

Example py_float_str : py_float (VStr " 1_0.5e1 ") = Ok (f_of_Z 105).
Proof. vm_compute. reflexivity. Qed.
Example py_float_bad : py_float (VStr "12x") = Err ValueError.
Proof. vm_compute. reflexivity. Qed.
Example py_eq_num : py_eq (VInt 500) (VFloat (f_of_Z 500)) = true.
Proof. vm_compute. reflexivity. Qed.
Example py_repr_ex : py_repr (VList [VStr "a'b"; VFloat (f_of_Z 2); VNone]) = "[" +:+ String dquote "a'b" +:+ String dquote ", 2.0, None]".
Proof. vm_compute. reflexivity. Qed.
