(* ===== verification/PyDecimal.v ===== *)
(** [decimal.Decimal] with the default context (28 digits, half-even): the
    monetary amounts of the program.  A number is a coefficient and a decimal
    exponent; comparisons are by value; [dec_add] and [dec_div] follow the
    algorithm of the [decimal] module, rounding included; [dec_str] is [str] and
    [dec_normalize] is [normalize]. *)
From Stdlib Require Import Ascii QArith.
From S2P Require Import Prelude.
From S2P Require Import PyStr.
From S2P Require Import PyFloat.

Local Open Scope Z_scope.

Record dec : Type := Dec { coef : Z; dexp : Z }.
#[export] Instance dec_eq_dec : EqDecision dec.
Proof. solve_decision. Defined.

(** ** Values and comparisons *)

Definition ratio_of (a : dec) : Z * positive :=
  if 0 <=? dexp a then (coef a * 10 ^ dexp a, 1%positive)
  else (coef a, Z.to_pos (10 ^ (- dexp a))).
Definition dec_val (a : dec) : Q := let '(n, d) := ratio_of a in Qmake n d.

Definition dec_leb (a b : dec) : bool := Qle_bool (dec_val a) (dec_val b).
Definition dec_ltb (a b : dec) : bool := negb (dec_leb b a).
Definition dec_nonzero (a : dec) : bool := negb (coef a =? 0).
Definition dec_of_Z (z : Z) : dec := Dec z 0.

(** Storing into a [Numeric(19, 4)] column rescales to four decimals. *)
Definition numeric4 (a : dec) : dec :=
  if -4 <=? dexp a then Dec (coef a * 10 ^ (dexp a + 4)) (-4)
  else Dec (div_half_even (coef a) (10 ^ (- 4 - dexp a))) (-4).

(** ** Context arithmetic *)

Definition dec_prec : Z := 28.
Definition ndigits (n : Z) : Z := Z.of_nat (String.length (str_of_Z (Z.abs n))).

(** [_fix]: round the coefficient to the context precision, half to even. *)
Definition dec_fix (a : dec) : dec :=
  let extra := ndigits (coef a) - dec_prec in
  if extra <=? 0 then a
  else
    let c := Z.sgn (coef a) * div_half_even (Z.abs (coef a)) (10 ^ extra) in
    if ndigits c <=? dec_prec then Dec c (dexp a + extra)
    else Dec (c / 10) (dexp a + extra + 1).

Definition dec_add (a b : dec) : dec :=
  let e := Z.min (dexp a) (dexp b) in
  dec_fix (Dec (coef a * 10 ^ (dexp a - e) + coef b * 10 ^ (dexp b - e)) e).

(** Drop trailing zeros while the exponent stays below the ideal one. *)
Fixpoint strip_zeros (fuel : nat) (ideal c e : Z) : Z * Z :=
  match fuel with
  | O => (c, e)
  | S fuel => if ((e <? ideal) && (c mod 10 =? 0))%bool
              then strip_zeros fuel ideal (c / 10) (e + 1) else (c, e)
  end.

(** [a / b] for a non-zero divisor. *)
Definition dec_div (a b : dec) : dec :=
  let sg := Z.sgn (coef a) * Z.sgn (coef b) in
  let n := Z.abs (coef a) in
  let d := Z.abs (coef b) in
  let ideal := dexp a - dexp b in
  if n =? 0 then Dec 0 ideal
  else
    let shift := ndigits d - ndigits n + dec_prec + 1 in
    let num := if 0 <=? shift then n * 10 ^ shift else n in
    let den := if 0 <=? shift then d else d * 10 ^ (- shift) in
    let q := num / den in
    let '(c, e) :=
      if num mod den =? 0 then strip_zeros 64 ideal q (ideal - shift)
      else (if q mod 5 =? 0 then q + 1 else q, ideal - shift) in
    dec_fix (Dec (sg * c) e).

(** [sum(l, Decimal("0"))] *)
Definition dec_sum (l : list dec) : dec := foldl dec_add (Dec 0 0) l.

(** [float(d)] *)
Definition dec_float (a : dec) : float := let '(n, d) := ratio_of a in f_of_ratio n d.

(** ** Text *)

Definition dec_normalize (a : dec) : dec :=
  let a := dec_fix a in
  if coef a =? 0 then Dec 0 0
  else let '(c, e) := drop_zeros 64 (coef a) (dexp a) in Dec c e.

Definition dec_str (a : dec) : string :=
  let ds := str_of_Z (Z.abs (coef a)) in
  let len := Z.of_nat (String.length ds) in
  let left := dexp a + len in
  let dot := if ((dexp a <=? 0) && (-6 <? left))%bool then left else 1 in
  let body :=
    if dot <=? 0 then "0." +:+ zeros (- dot) +:+ ds
    else if len <=? dot then ds +:+ zeros (dot - len)
    else String.substring 0 (Z.to_nat dot) ds +:+ "." +:+
         String.substring (Z.to_nat dot) (Z.to_nat (len - dot)) ds in
  let ex := left - dot in
  (if coef a <? 0 then "-" else "") +:+ body +:+
  (if ex =? 0 then "" else "E" +:+ (if 0 <? ex then "+" else "") +:+ str_of_Z ex).

Example dec_str_cents : dec_str (Dec 4999900 (-4)) = "499.9900".
Proof. vm_compute. reflexivity. Qed.
Example dec_str_round : dec_str (dec_normalize (Dec 5000000 (-4))) = "5E+2".
Proof. vm_compute. reflexivity. Qed.
Example dec_div_third : dec_div (Dec 1 0) (Dec 3 0) = Dec 3333333333333333333333333333 (-28).
Proof. vm_compute. reflexivity. Qed.
Example dec_div_exact : dec_div (Dec 10000 (-2)) (Dec 25 0) = Dec 400 (-2).
Proof. vm_compute. reflexivity. Qed.
Example dec_div_two_thirds : dec_div (Dec 2 0) (Dec 3 0) = Dec 6666666666666666666666666667 (-28).
Proof. vm_compute. reflexivity. Qed.

(** ** Order *)

Lemma dec_leb_refl a : dec_leb a a = true.
Proof. apply Qle_bool_iff, Qle_refl. Qed.

Lemma dec_leb_trans a b c : dec_leb a b = true → dec_leb b c = true → dec_leb a c = true.
Proof. unfold dec_leb. rewrite !Qle_bool_iff. apply Qle_trans. Qed.

Lemma dec_leb_total a b : dec_leb a b = true ∨ dec_leb b a = true.
Proof. unfold dec_leb. rewrite !Qle_bool_iff. destruct (Qlt_le_dec (dec_val a) (dec_val b)); auto using Qlt_le_weak. Qed.

Lemma dec_ltb_false a b : dec_ltb a b = false ↔ dec_leb b a = true.
Proof. unfold dec_ltb. by rewrite negb_false_iff. Qed.

Lemma dec_ltb_true_le a b : dec_ltb a b = true → dec_leb a b = true.
Proof. unfold dec_ltb. rewrite negb_true_iff. destruct (dec_leb_total a b); congruence. Qed.

#[export] Hint Resolve dec_leb_refl dec_ltb_true_le : core.
#[export] Hint Rewrite dec_ltb_false : reflect.

(** ** Stored amounts *)

Lemma numeric4_grid a : dexp (numeric4 a) = -4.
Proof. unfold numeric4. by destruct (_ <=? _). Qed.

(** A stored amount has four decimals. *)
Definition on_grid (o : option dec) : Prop := ∀ a, o = Some a → dexp a = -4.

Lemma on_grid_numeric4 (o : option dec) : on_grid (numeric4 <$> o).
Proof. intros a (x & _ & ->)%fmap_Some. apply numeric4_grid. Qed.
