(* ===== verification/AplSchema.v ===== *)
(** The vocabulary of APL/1.0 policies: [backend/app/services/apl/schema.py].
    Types, operators, effects, the field registry, the operator table and the
    complexity limits. *)
From Stdlib Require Import Ascii.
From S2P Require Import Prelude.
From S2P Require Import PyStr.
From S2P Require Import PyFloat.
From S2P Require Import PyVal.

Local Open Scope string_scope.

Module Apl.

Inductive APLType : Type :=
  | TString | TNumber | TBoolean | TEnum | TTimestamp | TList | TAny.
#[export] Instance APLType_eq_dec : EqDecision APLType.
Proof. solve_decision. Defined.

Inductive APLEffect : Type := EffAllow | EffRequireApproval | EffDeny | EffNoMatch.
#[export] Instance APLEffect_eq_dec : EqDecision APLEffect.
Proof. solve_decision. Defined.
Definition APLEffect_value (e : APLEffect) : string :=
  match e with
  | EffAllow => "ALLOW" | EffRequireApproval => "REQUIRE_APPROVAL"
  | EffDeny => "DENY" | EffNoMatch => "NO_MATCH"
  end.
Definition APLEffect_all : list APLEffect := [EffAllow; EffRequireApproval; EffDeny; EffNoMatch].

Inductive APLOperator : Type :=
  | OpEq | OpNeq | OpGt | OpGte | OpLt | OpLte | OpIn | OpNotIn | OpExists | OpNotExists
  | OpStartsWith | OpEndsWith | OpContains.
#[export] Instance APLOperator_eq_dec : EqDecision APLOperator.
Proof. solve_decision. Defined.
Definition APLOperator_value (o : APLOperator) : string :=
  match o with
  | OpEq => "eq" | OpNeq => "neq" | OpGt => "gt" | OpGte => "gte" | OpLt => "lt" | OpLte => "lte"
  | OpIn => "in" | OpNotIn => "not_in" | OpExists => "exists" | OpNotExists => "not_exists"
  | OpStartsWith => "starts_with" | OpEndsWith => "ends_with" | OpContains => "contains"
  end.
Definition APLOperator_all : list APLOperator :=
  [OpEq; OpNeq; OpGt; OpGte; OpLt; OpLte; OpIn; OpNotIn; OpExists; OpNotExists;
   OpStartsWith; OpEndsWith; OpContains].

(** [APLOperator(s)]: the member of that value, or [ValueError]. *)
Definition operator_of (s : string) : option APLOperator :=
  find_first (λ o, eqb (APLOperator_value o) s) APLOperator_all.

Lemma operator_of_value o : operator_of (APLOperator_value o) = Some o.
Proof. by destruct o. Qed.
Lemma operator_of_Some s o : operator_of s = Some o → s = APLOperator_value o.
Proof. intros [_ H]%find_first_Some. symmetry. by apply bool_decide_eq_true in H. Qed.

Definition MAX_DOCUMENT_SIZE : nat := Z.to_nat 65536.
Definition MAX_RULES_PER_POLICY : nat := 50.
Definition MAX_CONDITIONS_PER_RULE : nat := 20.
Definition MAX_NESTING_DEPTH : nat := 4.
Definition MAX_LIST_ELEMENTS : nat := 100.
Definition SUPPORTED_APL_VERSIONS : list string := ["APL/1.0"].

Definition SAFE_FIELD_REGISTRY : list (string * APLType) :=
  [ ("agent.id", TString); ("agent.type", TString); ("agent.organization_id", TString);
    ("agent.status", TString);
    ("action", TString); ("capability", TString); ("resource", TString);
    ("input.amount", TNumber); ("input.currency", TString); ("input.destination", TString);
    ("input.recipient", TString);
    ("target.id", TString); ("target.type", TString); ("target.organization_id", TString);
    ("credential.type", TString); ("credential.issuer", TString); ("credential.valid", TBoolean);
    ("trust.status", TEnum); ("trust.relationship_id", TString);
    ("delegation.depth", TNumber); ("delegation.active", TBoolean);
    ("risk.level", TEnum); ("risk.score", TNumber);
    ("environment", TEnum); ("gateway.id", TString); ("gateway.deployment_type", TString);
    ("time.hour", TNumber); ("time.day_of_week", TNumber); ("timestamp", TTimestamp) ].

Definition OPERATOR_TYPE_COMPATIBILITY (o : APLOperator) : list APLType :=
  match o with
  | OpEq | OpNeq => [TString; TNumber; TBoolean; TEnum; TTimestamp; TAny]
  | OpGt | OpGte | OpLt | OpLte => [TNumber; TTimestamp]
  | OpIn | OpNotIn => [TString; TNumber; TEnum; TAny]
  | OpExists | OpNotExists => [TString; TNumber; TBoolean; TEnum; TTimestamp; TList; TAny]
  | OpStartsWith | OpEndsWith | OpContains => [TString]
  end.

Definition is_known_field (field_path : string) : bool :=
  dict_mem field_path SAFE_FIELD_REGISTRY || startswith "input." field_path.

Definition get_field_type (field_path : string) : APLType :=
  default TAny (dict_get field_path SAFE_FIELD_REGISTRY).

End Apl.
