(* ===== verification/AplEval.v ===== *)
(** The policy evaluator: [backend/app/services/apl/evaluator.py].  The recursion
    over a condition tree spends one unit of [recursion_limit] a level and raises
    [RecursionError] when it is used up, as the interpreter does; validated
    policies stay far below it.  The evaluation time is left out. *)
From Stdlib Require Import Ascii.
From S2P Require Import Prelude.
From S2P Require Import PyStr.
From S2P Require Import PyFloat.
From S2P Require Import PyVal.
From S2P Require Import AplSchema.

Local Open Scope string_scope.

Module AplEval.
Import Apl.

(** ** Fields *)

(** Follow the parts of a dotted path through nested dictionaries. *)
Fixpoint navigate (parts : list string) (current : pyval) : pyval :=
  match parts with
  | [] => current
  | part :: parts =>
      match current with
      | VDict d =>
          let next := get part d in
          if is_none next then VNone else navigate parts next
      | _ => VNone
      end
  end.

(** A path that is not a text is not a key; splitting it raises. *)
Definition resolve_field_value (context field_path : pyval) : result PyExc pyval :=
  match context with
  | VDict d =>
      match field_path with
      | VStr p =>
          Ok (match dict_get p d with Some v => v | None => navigate (split_on "."%char p) context end)
      | VList _ | VDict _ => Err TypeError
      | _ => Err AttributeError
      end
  | _ => Ok VNone
  end.

(** ** Atomic conditions *)

Definition is_op (op : string) (o : APLOperator) : bool := eqb op (APLOperator_value o).

(** [try: .. except (ValueError, TypeError): return False] around the comparison. *)
Definition compare_numbers (op : string) (actual expected : pyval) : result PyExc bool :=
  match (x ← py_float actual; y ← py_float expected; mret (x, y)) with
  | Ok (x, y) =>
      Ok (if is_op op OpGt then f_ltb y x
          else if is_op op OpGte then f_leb y x
          else if is_op op OpLt then f_ltb x y
          else f_leb x y)
  | Err ValueError | Err TypeError => Ok false
  | Err e => Err e
  end.

Definition evaluate_atomic_condition (field_name operator expected_value context : pyval)
    : result PyExc (bool * pyval) :=
  actual ← resolve_field_value context field_name;
  match operator with
  | VStr s =>
      let op := py_strip (py_lower s) in
      matched ←
        (if is_op op OpExists then Ok (negb (is_none actual))
         else if is_op op OpNotExists then Ok (is_none actual)
         else if is_none actual then Ok false
         else if is_op op OpEq then Ok (py_eq actual expected_value)
         else if is_op op OpNeq then Ok (negb (py_eq actual expected_value))
         else if is_op op OpGt || is_op op OpGte || is_op op OpLt || is_op op OpLte
           then compare_numbers op actual expected_value
         else if is_op op OpIn then
           Ok (match expected_value with VList l => py_in actual l | _ => false end)
         else if is_op op OpNotIn then
           Ok (match expected_value with VList l => negb (py_in actual l) | _ => true end)
         else if is_op op OpStartsWith then Ok (startswith (py_str expected_value) (py_str actual))
         else if is_op op OpEndsWith then Ok (endswith (py_str expected_value) (py_str actual))
         else if is_op op OpContains then Ok (contains (py_str expected_value) (py_str actual))
         else Ok false);
      mret (matched, actual)
  | _ => Err AttributeError
  end.

(** ** Condition trees *)

Record ConditionTrace : Type := MkCondTrace {
  ct_path : string;
  ct_field : pyval;
  ct_operator : pyval;
  ct_expected : pyval;
  ct_actual : pyval;
  ct_matched : bool
}.

Definition recursion_limit : nat := 900.

(** Evaluate [f] on each child in turn, the path numbered; no short circuit. *)
Definition each_child (f : string → pyval → result PyExc (bool * list ConditionTrace)) (path : string)
    : nat → list pyval → result PyExc (list bool * list ConditionTrace) :=
  fix go idx children :=
    match children with
    | [] => Ok ([], [])
    | child :: children =>
        r ← f (path +:+ "[" +:+ str_of_nat idx +:+ "]") child;
        rs ← go (S idx) children;
        mret (r.1 :: rs.1, (r.2 ++ rs.2)%list)
    end.

Fixpoint evaluate_condition_node (fuel : nat) (context : pyval) (path : string) (node : pyval)
    : result PyExc (bool * list ConditionTrace) :=
  match fuel with
  | O => Err RecursionError
  | S fuel =>
      match node with
      | VDict d =>
          match dict_get "all" d with
          | Some (VList (c :: cs)) =>
              r ← each_child (evaluate_condition_node fuel context) (path +:+ ".all") 0 (c :: cs);
              mret (forallb id r.1, r.2)
          | Some _ => Ok (false, [])
          | None =>
              match dict_get "any" d with
              | Some (VList (c :: cs)) =>
                  r ← each_child (evaluate_condition_node fuel context) (path +:+ ".any") 0 (c :: cs);
                  mret (existsb id r.1, r.2)
              | Some _ => Ok (false, [])
              | None =>
                  match dict_get "not" d with
                  | Some child =>
                      r ← evaluate_condition_node fuel context (path +:+ ".not") child;
                      mret (negb r.1, r.2)
                  | None =>
                      let field_name := default (VStr "") (dict_get "field" d) in
                      let operator := default (VStr "eq") (dict_get "operator" d) in
                      let expected := get "value" d in
                      r ← evaluate_atomic_condition field_name operator expected context;
                      mret (r.1, [MkCondTrace path field_name operator expected r.2 r.1])
                  end
              end
          end
      | _ => Ok (false, [])
      end
  end.

(** ** Policies *)

Record RuleSummary : Type := MkSummary { rs_id : pyval; rs_effect : string; rs_description : pyval }.

Record RuleEvaluationTrace : Type := MkRuleTrace {
  rt_summary : RuleSummary;
  rt_matched : bool;
  rt_conditions : list ConditionTrace
}.

Record APLEvaluationResult : Type := MkEvaluation {
  ev_decision : string;
  ev_matched_rules : list RuleSummary;
  ev_unmatched_rules : list pyval;
  ev_default_effect_applied : bool;
  ev_explanation : string;
  ev_trace : list RuleEvaluationTrace
}.

(** Lines 208 to 223: the first declared target the context contradicts. *)
Fixpoint target_mismatch (context : pyval) (target : list (string * pyval))
    : result PyExc (option (string * pyval * pyval)) :=
  match target with
  | [] => Ok None
  | (target_key, expected) :: target =>
      if is_none expected then target_mismatch context target
      else
        actual ← resolve_field_value context (VStr target_key);
        if negb (is_none actual) && negb (eqb (py_str actual) (py_str expected))
        then Ok (Some (target_key, expected, actual))
        else target_mismatch context target
  end.

(** [rule.get("when") or rule.get("conditions")] *)
Definition rule_when (rule : list (string * pyval)) : pyval :=
  py_or (get "when" rule) (get "conditions" rule).

Definition rule_effect (rule : list (string * pyval)) : string :=
  py_upper (py_str (default (VStr "") (dict_get "effect" rule))).

(** One turn of the loop of lines 234 to 271. *)
Definition evaluate_rule (context : pyval) (idx : nat) (rule : pyval) : result PyExc RuleEvaluationTrace :=
  match rule with
  | VDict d =>
      let rule_id := default (VStr ("rule_" +:+ str_of_nat idx)) (dict_get "id" d) in
      let effect := rule_effect d in
      let description := default (VStr "") (dict_get "description" d) in
      let when := rule_when d in
      r ← (if is_none when then Ok (true, [])
           else evaluate_condition_node recursion_limit context
                  ("rules[" +:+ py_str rule_id +:+ "].when") when);
      mret (MkRuleTrace (MkSummary rule_id effect description) r.1 r.2)
  | _ => Err AttributeError
  end.

Fixpoint evaluate_rules (context : pyval) (idx : nat) (rules : list pyval)
    : result PyExc (list RuleEvaluationTrace) :=
  match rules with
  | [] => Ok []
  | rule :: rules =>
      t ← evaluate_rule context idx rule;
      ts ← evaluate_rules context (S idx) rules;
      mret (t :: ts)
  end.

(** The summaries of the matched rules with an effect, in order. *)
Definition matched_with (e : APLEffect) (trace : list RuleEvaluationTrace) : list RuleSummary :=
  map rt_summary (select_where (λ t, rt_matched t && eqb (rs_effect (rt_summary t)) (APLEffect_value e)) trace).

Definition default_effect_of (ast : pyval) : result PyExc string :=
  d ← py_get ast "default_effect" (VStr "DENY"); mret (py_upper (py_str d)).

(** Lines 273 to 306 *)
Definition conclude (trace : list RuleEvaluationTrace) (default_effect : string)
    : result PyExc APLEvaluationResult :=
  let deny := matched_with EffDeny trace in
  let approval := matched_with EffRequireApproval trace in
  let allow := matched_with EffAllow trace in
  let unmatched := map (λ t, rs_id (rt_summary t)) (select_where (λ t, negb (rt_matched t)) trace) in
  let finish decision all_matched applied explanation :=
    MkEvaluation decision all_matched unmatched applied explanation trace in
  match deny, approval, allow with
  | _ :: _, _, _ =>
      names ← py_join ", " (map rs_id deny);
      mret (finish "DENY" (deny ++ approval ++ allow)%list false
        ("Denied by policy rule(s): [" +:+ names +:+ "]. DENY takes strict precedence."))
  | [], _ :: _, _ =>
      names ← py_join ", " (map rs_id approval);
      mret (finish "REQUIRE_APPROVAL" (approval ++ allow)%list false
        ("Human approval required by policy rule(s): [" +:+ names +:+ "]."))
  | [], [], _ :: _ =>
      names ← py_join ", " (map rs_id allow);
      mret (finish "ALLOW" allow false ("Authorized by policy rule(s): [" +:+ names +:+ "]."))
  | [], [], [] =>
      mret (finish default_effect [] true
        ("No rules matched context. Default policy effect '" +:+ default_effect +:+ "' applied."))
  end.

Definition evaluate_apl_policy (ast context : pyval) : result PyExc APLEvaluationResult :=
  target ← py_get ast "target" VNone;
  items ← py_items (py_or target (VDict []));
  mismatch ← target_mismatch context items;
  match mismatch with
  | Some (key, expected, actual) =>
      mret (MkEvaluation "NO_MATCH" [] [] false
        ("Policy target '" +:+ key +:+ "' expected '" +:+ py_str expected +:+ "' but context had '" +:+
         py_str actual +:+ "'. Policy did not trigger.") [])
  | None =>
      rules ← py_get ast "rules" (VList []);
      default_effect ← default_effect_of ast;
      rules ← py_iter rules;
      trace ← evaluate_rules context 0 rules;
      conclude trace default_effect
  end.

End AplEval.
