(* ===== verification/AplValidator.v ===== *)
(** The policy validator: [backend/app/services/apl/validator.py].  Errors and
    warnings are collected in order.  The recursion over a condition tree is the
    code's own: it stops with an error below [MAX_NESTING_DEPTH], so [levels], the
    levels still allowed, decreases. *)
From Stdlib Require Import Ascii.
From S2P Require Import Prelude.
From S2P Require Import PyStr.
From S2P Require Import PyFloat.
From S2P Require Import PyVal.
From S2P Require Import AplSchema.

Local Open Scope string_scope.

Module AplValidator.
Import Apl.

Record ValidationIssue : Type := MkIssue {
  vi_message : string;
  vi_path : string;
  vi_severity : string
}.
Definition error (message path : string) : ValidationIssue := MkIssue message path "ERROR".
Definition warning (message path : string) : ValidationIssue := MkIssue message path "WARNING".

Record ValidationResult : Type := MkValidation {
  vr_is_valid : bool;
  vr_errors : list ValidationIssue;
  vr_warnings : list ValidationIssue
}.

(** What a check appends to the two lists. *)
Record findings : Type := MkFindings { fd_errors : list ValidationIssue; fd_warnings : list ValidationIssue }.
Definition clean : findings := MkFindings [] [].
Definition failed (i : ValidationIssue) : findings := MkFindings [i] [].
Definition also (a b : findings) : findings :=
  MkFindings (fd_errors a ++ fd_errors b) (fd_warnings a ++ fd_warnings b).
Arguments also : simpl never.
Definition fail_if (b : bool) (i : ValidationIssue) : findings := if b then failed i else clean.

Definition values_repr (l : list string) : string := py_repr (VList (map VStr l)).

(** ** Operators *)

Definition _validate_operator_type_compatibility (field_name : string) (operator : APLOperator)
    (value : pyval) (path : string) : findings :=
  let field_type := get_field_type field_name in
  let op := APLOperator_value operator in
  match operator with
  | OpExists | OpNotExists => clean
  | OpIn | OpNotIn =>
      match value with
      | VList l => fail_if (MAX_LIST_ELEMENTS <? length l)%nat
          (error ("List value for '" +:+ op +:+ "' exceeds max length of " +:+
             str_of_nat MAX_LIST_ELEMENTS +:+ ".") (path +:+ ".value"))
      | _ => failed (error ("Operator '" +:+ op +:+ "' requires a list value.") (path +:+ ".value"))
      end
  | OpGt | OpGte | OpLt | OpLte =>
      if eqb field_type TNumber && negb (is_number value) then
        failed (error ("Operator '" +:+ op +:+ "' on numeric field '" +:+ field_name +:+
          "' requires numeric value.") (path +:+ ".value"))
      else fail_if (eqb field_type TString)
        (error ("Operator '" +:+ op +:+ "' cannot be applied to string field '" +:+ field_name +:+ "'.")
           (path +:+ ".operator"))
  | OpStartsWith | OpEndsWith | OpContains =>
      also
        (fail_if (negb (is_some (as_str value)))
          (error ("String operator '" +:+ op +:+ "' requires a string value.") (path +:+ ".value")))
        (if negb (eqb field_type TString) && negb (eqb field_type TAny)
         then MkFindings [] [warning ("Operator '" +:+ op +:+ "' applied to non-string field '" +:+
                field_name +:+ "'.") (path +:+ ".operator")]
         else clean)
  | OpEq | OpNeq => clean
  end.

(** ** Condition trees *)

(** A non-empty text, or nothing. *)
Definition text_of (v : pyval) : option string :=
  match v with VStr s => if eqb s "" then None else Some s | _ => None end.

(** Lines 212 to 247 *)
Definition validate_atomic (node : list (string * pyval)) (path : string) : findings :=
  match text_of (get "field" node) with
  | None => failed (error "Atomic condition requires string 'field'." (path +:+ ".field"))
  | Some f =>
      let field_name := py_strip f in
      let unknown := fail_if (negb (is_known_field field_name))
        (error ("Unregistered field '" +:+ field_name +:+
           "'. Must be in SAFE_FIELD_REGISTRY or start with 'input.'.") (path +:+ ".field")) in
      match text_of (get "operator" node) with
      | None => also unknown
          (failed (error "Atomic condition requires string 'operator'." (path +:+ ".operator")))
      | Some o =>
          let op_str := py_lower (py_strip o) in
          match operator_of op_str with
          | None => also unknown
              (failed (error ("Unknown operator '" +:+ op_str +:+ "'. Supported: " +:+
                 values_repr (map APLOperator_value APLOperator_all)) (path +:+ ".operator")))
          | Some operator =>
              also unknown (_validate_operator_type_compatibility field_name operator (get "value" node) path)
          end
      end
  end.

(** The children of a combinator in turn, the count threaded. *)
Definition each_child (f : string → nat → pyval → nat * findings) (path : string)
    : nat → nat → list pyval → nat * findings :=
  fix go idx count children :=
    match children with
    | [] => (count, clean)
    | child :: children =>
        let '(count, fd) := f (path +:+ "[" +:+ str_of_nat idx +:+ "]") count child in
        let '(count, fds) := go (S idx) count children in
        (count, also fd fds)
    end.

Fixpoint _validate_condition_node (levels : nat) (path : string) (count : nat) (node : pyval) : nat * findings :=
  match levels with
  | O => (S count, failed (error ("Condition nesting depth exceeds maximum allowed limit of " +:+
            str_of_nat MAX_NESTING_DEPTH +:+ ".") path))
  | S levels =>
      match node with
      | VDict d =>
          match dict_get "all" d with
          | Some (VList (c :: cs)) =>
              each_child (_validate_condition_node levels) (path +:+ ".all") 0 count (c :: cs)
          | Some _ => (S count, failed (error
              "'all' combinator must contain a non-empty list of conditions." (path +:+ ".all")))
          | None =>
              match dict_get "any" d with
              | Some (VList (c :: cs)) =>
                  each_child (_validate_condition_node levels) (path +:+ ".any") 0 count (c :: cs)
              | Some _ => (S count, failed (error
                  "'any' combinator must contain a non-empty list of conditions." (path +:+ ".any")))
              | None =>
                  match dict_get "not" d with
                  | Some child => _validate_condition_node levels (path +:+ ".not") count child
                  | None => (S count, validate_atomic d path)
                  end
              end
          end
      | _ => (S count, failed (error "Condition node must be an object/dict." path))
      end
  end.

(** ** Rules *)

Definition rule_effects : list string := map APLEffect_value [EffAllow; EffRequireApproval; EffDeny].

(** Lines 120 to 147; [label] is [rule_id or idx]. *)
Definition validate_when (rule : list (string * pyval)) (rule_path label : string) : findings :=
  let condition_block := py_or (get "when" rule) (get "conditions" rule) in
  if is_none condition_block then
    MkFindings [] [warning ("Rule '" +:+ label +:+ "' has no conditions and will match unconditionally.") rule_path]
  else
    let '(condition_count, fd) :=
      _validate_condition_node MAX_NESTING_DEPTH (rule_path +:+ ".when") 0 condition_block in
    also fd (fail_if (MAX_CONDITIONS_PER_RULE <? condition_count)%nat
      (error ("Rule exceeds condition limit: " +:+ str_of_nat condition_count +:+ " conditions found (max " +:+
         str_of_nat MAX_CONDITIONS_PER_RULE +:+ ").") (rule_path +:+ ".when"))).

Definition rule_effect (rule : list (string * pyval)) : string :=
  py_upper (py_str (default (VStr "") (dict_get "effect" rule))).

(** The identifier of a rule, stripped, when it is a non-blank text. *)
Definition rule_id_of (rule : list (string * pyval)) : option string :=
  match text_of (get "id" rule) with
  | Some s => if eqb (py_strip s) "" then None else Some (py_strip s)
  | None => None
  end.

(** [rule_id or idx] *)
Definition rule_label (rule : list (string * pyval)) (idx : nat) : string :=
  match rule_id_of rule with
  | Some s => s
  | None => if truthy (get "id" rule) then py_str (get "id" rule) else str_of_nat idx
  end.

(** The loop of lines 94 to 147: the identifiers seen so far, the findings and the
    effects seen. *)
Fixpoint validate_rules (idx : nat) (rule_ids : list string) (rules : list pyval)
    : findings * list string :=
  match rules with
  | [] => (clean, [])
  | VDict rule :: rules =>
      let rule_path := "rules[" +:+ str_of_nat idx +:+ "]" in
      let id_issues := match rule_id_of rule with
        | None => failed (error ("Rule at index " +:+ str_of_nat idx +:+ " missing required string 'id'.")
                    (rule_path +:+ ".id"))
        | Some i => fail_if (bool_decide (i ∈ rule_ids))
            (error ("Duplicate rule id '" +:+ i +:+ "'. Rule IDs must be unique.") (rule_path +:+ ".id"))
        end in
      let effect := rule_effect rule in
      let effect_issues := fail_if (negb (bool_decide (effect ∈ rule_effects)))
        (error ("Invalid rule effect '" +:+ effect +:+ "'. Must be ALLOW, REQUIRE_APPROVAL, or DENY.")
           (rule_path +:+ ".effect")) in
      let here := also id_issues (also effect_issues (validate_when rule rule_path (rule_label rule idx))) in
      let '(later, effects) :=
        validate_rules (S idx) (match rule_id_of rule with Some i => i :: rule_ids | None => rule_ids end) rules in
      (also here later, effect :: effects)
  | _ :: rules =>
      let here := failed (error ("Rule at index " +:+ str_of_nat idx +:+ " must be a dictionary.")
                    ("rules[" +:+ str_of_nat idx +:+ "]")) in
      let '(later, effects) := validate_rules (S idx) rule_ids rules in
      (also here later, effects)
  end.

Definition validate (ast : pyval) : ValidationResult :=
  match ast with
  | VDict d =>
      let version := get "version" d in
      let version_issues := fail_if (negb (py_eq version (VStr "APL/1.0")))
        (error ("Unsupported policy version: " +:+ py_str version) "version") in
      let name_issues := fail_if
        (match text_of (get "name" d) with Some s => eqb (py_strip s) "" | None => true end)
        (error "Policy name must be a non-empty string." "name") in
      let default_effect := py_upper (py_str (default (VStr "DENY") (dict_get "default_effect" d))) in
      let default_issues := fail_if (negb (bool_decide (default_effect ∈ map APLEffect_value APLEffect_all)))
        (error ("Invalid default_effect '" +:+ default_effect +:+ "'. Allowed: " +:+
           values_repr (map APLEffect_value APLEffect_all)) "default_effect") in
      let head := also version_issues (also name_issues default_issues) in
      match get "rules" d with
      | VList rules =>
          let count_issues := fail_if (MAX_RULES_PER_POLICY <? length rules)%nat
            (error ("Policy contains " +:+ str_of_nat (length rules) +:+
               " rules, exceeding maximum limit of " +:+ str_of_nat MAX_RULES_PER_POLICY +:+ ".") "rules") in
          let '(rule_issues, seen_effects) := validate_rules 0 [] rules in
          let no_allow := if negb (bool_decide ("ALLOW" ∈ seen_effects)) && eqb default_effect "DENY"
            then MkFindings [] [warning
              "Policy has no ALLOW rules and defaults to DENY; it will deny every evaluation." "rules"]
            else clean in
          let all := also head (also count_issues (also rule_issues no_allow)) in
          MkValidation (length (fd_errors all) =? 0)%nat (fd_errors all) (fd_warnings all)
      | _ =>
          let all := also head (failed (error "'rules' must be a list." "rules")) in
          MkValidation false (fd_errors all) (fd_warnings all)
      end
  | _ => MkValidation false [error "AST root must be a dictionary." "root"] []
  end.

(** ** What no errors means *)

Lemma also_nil a b : fd_errors (also a b) = [] ↔ fd_errors a = [] ∧ fd_errors b = [].
Proof. unfold also. simpl. split; [apply app_eq_nil | intros [-> ->]; done]. Qed.

Lemma fail_if_nil b i : fd_errors (fail_if b i) = [] ↔ b = false.
Proof. by destruct b. Qed.

(** A condition the validator accepts with [levels] levels to go. *)
Inductive valid_node : nat → pyval → Prop :=
  | valid_all levels d c cs : dict_get "all" d = Some (VList (c :: cs)) →
      Forall (valid_node levels) (c :: cs) → valid_node (S levels) (VDict d)
  | valid_any levels d c cs : dict_get "all" d = None → dict_get "any" d = Some (VList (c :: cs)) →
      Forall (valid_node levels) (c :: cs) → valid_node (S levels) (VDict d)
  | valid_not levels d child : dict_get "all" d = None → dict_get "any" d = None →
      dict_get "not" d = Some child → valid_node levels child → valid_node (S levels) (VDict d)
  | valid_atomic levels d f o op : dict_get "all" d = None → dict_get "any" d = None →
      dict_get "not" d = None → get "field" d = VStr f → is_known_field (py_strip f) = true →
      get "operator" d = VStr o → operator_of (py_lower (py_strip o)) = Some op →
      valid_node (S levels) (VDict d).

Lemma text_of_Some v s : text_of v = Some s → v = VStr s.
Proof. destruct v; try done. simpl. destruct (eqb _ _); congruence. Qed.

Lemma validate_atomic_nil d path :
  fd_errors (validate_atomic d path) = [] →
  ∃ f o op, get "field" d = VStr f ∧ is_known_field (py_strip f) = true ∧
    get "operator" d = VStr o ∧ operator_of (py_lower (py_strip o)) = Some op.
Proof.
  unfold validate_atomic. destruct (text_of (get "field" d)) as [f|] eqn:Hf; [|done].
  destruct (text_of (get "operator" d)) as [o|] eqn:Ho; [|by rewrite also_nil; intros [_ ?]].
  destruct (operator_of _) as [op|] eqn:Hop; [|by rewrite also_nil; intros [_ ?]].
  rewrite also_nil, fail_if_nil, negb_false_iff. intros [Hk _].
  exists f, o, op. by apply text_of_Some in Hf, Ho.
Qed.

Lemma each_child_nil (P : pyval → Prop) f path idx count children :
  (∀ p n c, fd_errors (f p n c).2 = [] → P c) →
  fd_errors (each_child f path idx count children).2 = [] → Forall P children.
Proof.
  intros Hf. revert idx count. induction children as [|c cs IH]; intros idx count; simpl; [constructor|].
  destruct (f _ _ _) as [n fd] eqn:Hc. specialize (IH (S idx) n).
  destruct (each_child _ _ _ _ _) as [n' fds]. cbn [snd]. rewrite also_nil. intros [H1 H2].
  constructor; [|by apply IH]. apply (Hf (path +:+ "[" +:+ str_of_nat idx +:+ "]") count). by rewrite Hc.
Qed.

Lemma validate_node_valid levels path count node :
  fd_errors (_validate_condition_node levels path count node).2 = [] → valid_node levels node.
Proof.
  revert path count node. induction levels as [|levels IH]; intros path count node; [done|].
  cbn [_validate_condition_node]. destruct node as [| | | | | |d]; try done.
  destruct (dict_get "all" d) as [va|] eqn:Ha.
  { destruct va as [| | | | |[|c cs]|]; try done. intros H. eapply valid_all; [done|].
    by apply (each_child_nil (valid_node levels)) in H. }
  destruct (dict_get "any" d) as [va|] eqn:Hy.
  { destruct va as [| | | | |[|c cs]|]; try done. intros H. eapply valid_any; [done..|].
    by apply (each_child_nil (valid_node levels)) in H. }
  destruct (dict_get "not" d) as [child|] eqn:Hn.
  { intros H. eapply valid_not; [done..|]. by eapply IH. }
  intros (f & o & op & ? & ? & ? & ?)%validate_atomic_nil. by eapply valid_atomic.
Qed.

(** A rule the validator accepts. *)
Record valid_rule (rule : list (string * pyval)) : Prop := {
  vrl_id : ∃ s, get "id" rule = VStr s ∧ py_strip s ≠ "";
  vrl_effect : rule_effect rule ∈ rule_effects;
  vrl_when : let w := py_or (get "when" rule) (get "conditions" rule) in
    is_none w = true ∨ (valid_node MAX_NESTING_DEPTH w ∧
      ((_validate_condition_node MAX_NESTING_DEPTH "" 0 w).1 ≤ MAX_CONDITIONS_PER_RULE)%nat)
}.

(** The count of conditions does not depend on the path. *)
Lemma count_path levels p p' count node :
  (_validate_condition_node levels p count node).1 = (_validate_condition_node levels p' count node).1.
Proof.
  revert p p' count node. induction levels as [|levels IH]; intros p p' count node; [done|].
  assert (Hch : ∀ q q' idx count cs, (each_child (_validate_condition_node levels) q idx count cs).1 =
    (each_child (_validate_condition_node levels) q' idx count cs).1).
  { intros q q' idx n cs. revert idx n. induction cs as [|c cs IHc]; intros idx n; simpl; [done|].
    pose proof (IH (q +:+ "[" +:+ str_of_nat idx +:+ "]") (q' +:+ "[" +:+ str_of_nat idx +:+ "]") n c) as H1.
    destruct (_validate_condition_node levels _ n c) as [n1 f1] eqn:E1,
      (_validate_condition_node levels (q' +:+ _) n c) as [n2 f2] eqn:E2.
    simpl in H1. subst n2. specialize (IHc (S idx) n1).
    destruct (each_child _ q _ _ _), (each_child _ q' _ _ _). done. }
  cbn [_validate_condition_node]. destruct node as [| | | | | |d]; try done.
  destruct (dict_get "all" d) as [[| | | | |[|c cs]|]|]; try done.
  destruct (dict_get "any" d) as [[| | | | |[|c cs]|]|]; try done.
  destruct (dict_get "not" d); [apply IH | done].
Qed.

Lemma validate_rules_nil idx ids rules :
  fd_errors (validate_rules idx ids rules).1 = [] →
  Forall (λ r, ∃ d, r = VDict d ∧ valid_rule d) rules ∧
  NoDup (omap (λ r, as_dict r ≫= rule_id_of) rules) ∧
  ∀ i, i ∈ omap (λ r, as_dict r ≫= rule_id_of) rules → i ∉ ids.
Proof.
  revert idx ids. induction rules as [|r rules IH]; intros idx ids.
  { intros _. split_and!; [constructor | constructor | by intros i ?%elem_of_nil]. }
  destruct r as [| | | | | |d];
    try (cbn [validate_rules]; destruct (validate_rules _ _ _); cbn [fst]; rewrite also_nil; by intros [? _]).
  cbn [validate_rules omap list_omap as_dict mbind option_bind]. specialize (IH (S idx) (match rule_id_of d with Some i => i :: ids | None => ids end)).
  destruct (validate_rules _ _ rules) as [later effects]. cbn [fst] in *.
  rewrite !also_nil. intros [(Hid & Heff & Hwhen) Hlater]. destruct (IH Hlater) as (Hall & Hnd & Hnin).
  destruct (rule_id_of d) as [i|] eqn:Hi; [|done]. simpl.
  rewrite fail_if_nil, bool_decide_eq_false in Hid.
  rewrite fail_if_nil, negb_false_iff, bool_decide_eq_true in Heff. split_and!.
  - constructor; [|done]. exists d. split; [done|]. split; [| done |].
    + unfold rule_id_of in Hi. destruct (text_of (get "id" d)) as [s|] eqn:Ht; [|done].
      apply text_of_Some in Ht. exists s. split; [done|]. destruct (eqb _ _) eqn:He; [done|].
      by apply bool_decide_eq_false in He.
    + unfold validate_when in Hwhen. cbv zeta. destruct (is_none _) eqn:Hn; [by left|]. right.
      destruct (_validate_condition_node _ _ _ _) as [n fd] eqn:Hv. rewrite also_nil, fail_if_nil in Hwhen.
      destruct Hwhen as [Hfd Hc]. split.
      * eapply validate_node_valid. by rewrite Hv.
      * rewrite (count_path _ _ (("rules[" +:+ str_of_nat idx +:+ "]") +:+ ".when")), Hv. simpl.
        apply Nat.ltb_ge in Hc. done.
  - constructor; [|done]. intros Hin. apply (Hnin i Hin). by left.
  - intros j [-> | Hj]%elem_of_cons; [done|]. intros Hji. apply (Hnin j Hj). by right.
Qed.

(** A policy the validator accepts. *)
Lemma validate_sound ast :
  vr_is_valid (validate ast) = true →
  ∃ d rules, ast = VDict d ∧ get "rules" d = VList rules ∧ (length rules ≤ MAX_RULES_PER_POLICY)%nat ∧
    Forall (λ r, ∃ d, r = VDict d ∧ valid_rule d) rules ∧
    NoDup (omap (λ r, as_dict r ≫= rule_id_of) rules) ∧
    py_upper (py_str (default (VStr "DENY") (dict_get "default_effect" d))) ∈ map APLEffect_value APLEffect_all.
Proof.
  unfold validate. destruct ast as [| | | | | |d]; try done.
  destruct (get "rules" d) as [| | | | |rules|] eqn:Hr; try done.
  pose proof (validate_rules_nil 0 [] rules) as Hv.
  destruct (validate_rules 0 [] rules) as [ri se]. cbn [vr_is_valid fst] in *.
  intros H. apply Nat.eqb_eq, length_zero_iff_nil in H. rewrite !also_nil in H.
  destruct H as ((_ & _ & Hdef) & Hcnt & Hrules & _). apply Hv in Hrules as (Hall & Hnd & _).
  rewrite fail_if_nil in Hcnt. apply Nat.ltb_ge in Hcnt.
  rewrite fail_if_nil, negb_false_iff, bool_decide_eq_true in Hdef. by exists d, rules.
Qed.

End AplValidator.
