(* ===== verification/AplProps.v ===== *)
(** What policy evaluation guarantees: precedence of effects whatever the order
    of the rules, absent fields never match, a validated policy evaluates without
    any other exception than the overflow of [float()]. *)
From Stdlib Require Import Ascii.
From S2P Require Import Prelude.
From S2P Require Import PyStr.
From S2P Require Import PyFloat.
From S2P Require Import PyVal.
From S2P Require Import AplSchema.
From S2P Require Import AplEval.
From S2P Require Import AplValidator.

Local Open Scope string_scope.

Module AplProps.
Import Apl AplEval.

(** ** Specification of a decision *)

(** The strongest of the effects that apply, else the default. *)
Definition strongest (effects : list string) (default_effect : string) : string :=
  if bool_decide ("DENY" ∈ effects) then "DENY"
  else if bool_decide ("REQUIRE_APPROVAL" ∈ effects) then "REQUIRE_APPROVAL"
  else if bool_decide ("ALLOW" ∈ effects) then "ALLOW"
  else default_effect.

(** What a rule says of a context, wherever it stands: matched or not, effect. *)
Definition rule_outcome (context rule : pyval) : result PyExc (bool * string) :=
  t ← evaluate_rule context 0 rule; mret (rt_matched t, rs_effect (rt_summary t)).

Definition applying (outs : list (bool * string)) : list string := map snd (select_where fst outs).

(** ** Runs of rules *)

Lemma fst_each_child f g p q idx cs :
  (∀ p q c, fst <$> f p c = fst <$> g q c) →
  fst <$> each_child f p idx cs = fst <$> each_child g q idx cs.
Proof.
  intros Hfg. revert idx. induction cs as [|c cs IH]; intros idx; [done|].
  cbn [each_child]. specialize (IH (S idx)).
  specialize (Hfg (p +:+ "[" +:+ str_of_nat idx +:+ "]") (q +:+ "[" +:+ str_of_nat idx +:+ "]") c).
  destruct (f _ c) as [[b t]|e], (g _ c) as [[b' t']|e']; simpl in *; try done; [|congruence].
  destruct (each_child f _ _ _) as [[bs ts]|], (each_child g _ _ _) as [[bs' ts']|]; simpl in *; congruence.
Qed.

(** The path only labels the trace. *)
Lemma node_path fuel context p q node :
  fst <$> evaluate_condition_node fuel context p node = fst <$> evaluate_condition_node fuel context q node.
Proof.
  revert p q node. induction fuel as [|fuel IH]; intros p q node; [done|].
  cbn [evaluate_condition_node]. destruct node as [| | | | | |d]; try done.
  assert (Hcs : ∀ p q i cs, fst <$> each_child (evaluate_condition_node fuel context) p i cs =
    fst <$> each_child (evaluate_condition_node fuel context) q i cs) by (intros; by apply fst_each_child).
  destruct (dict_get "all" d) as [[| | | | |[|c cs]|]|]; try done.
  { specialize (Hcs (p +:+ ".all") (q +:+ ".all") 0%nat (c :: cs)).
    destruct (each_child _ _ _ _) as [[]|], (each_child _ (q +:+ _) _ _) as [[]|]; simpl in *; congruence. }
  destruct (dict_get "any" d) as [[| | | | |[|c cs]|]|]; try done.
  { specialize (Hcs (p +:+ ".any") (q +:+ ".any") 0%nat (c :: cs)).
    destruct (each_child _ _ _ _) as [[]|], (each_child _ (q +:+ _) _ _) as [[]|]; simpl in *; congruence. }
  destruct (dict_get "not" d) as [child|].
  { specialize (IH (p +:+ ".not") (q +:+ ".not") child).
    destruct (evaluate_condition_node _ _ _ _) as [[]|],
      (evaluate_condition_node _ _ (q +:+ _) _) as [[]|]; simpl in *; congruence. }
  by destruct (evaluate_atomic_condition _ _ _ _) as [[]|].
Qed.

Lemma evaluate_rule_outcome context idx rule :
  (t ← evaluate_rule context idx rule; mret (rt_matched t, rs_effect (rt_summary t))) = rule_outcome context rule.
Proof.
  unfold rule_outcome, evaluate_rule. destruct rule as [| | | | | |d]; try done.
  destruct (is_none _); [done|].
  match goal with |- context [evaluate_condition_node _ _ ?p _] => set (p1 := p) end.
  pose proof (node_path recursion_limit context p1
    ("rules[" +:+ py_str (default (VStr ("rule_" +:+ str_of_nat 0)) (dict_get "id" d)) +:+ "].when") (rule_when d)) as H.
  destruct (evaluate_condition_node _ _ p1 _) as [[]|], (evaluate_condition_node _ _ _ _) as [[]|];
    simpl in *; congruence.
Qed.

Lemma evaluate_rules_outcomes context idx rules ts :
  evaluate_rules context idx rules = Ok ts →
  mapM (rule_outcome context) rules = Ok (map (λ t, (rt_matched t, rs_effect (rt_summary t))) ts).
Proof.
  revert idx ts. induction rules as [|r rules IH]; intros idx ts; cbn [evaluate_rules].
  { by intros [= <-]. }
  rewrite result_bind_run. intros (t & Ht & Hts). rewrite result_bind_run in Hts.
  destruct Hts as (ts' & Hts' & [= <-]). simpl. rewrite <- (evaluate_rule_outcome context idx), Ht.
  simpl. by rewrite (IH _ _ Hts').
Qed.

Lemma outcomes_evaluate_rules context idx rules outs :
  mapM (rule_outcome context) rules = Ok outs → ∃ ts, evaluate_rules context idx rules = Ok ts.
Proof.
  revert idx outs. induction rules as [|r rules IH]; intros idx outs; simpl; [by eexists|].
  rewrite <- (evaluate_rule_outcome context idx).
  destruct (evaluate_rule context idx r) as [t|]; simpl; [|done].
  destruct (mapM _ rules) as [os|]; simpl; [|done]. intros _.
  destruct (IH (S idx) os eq_refl) as [ts ->]. by eexists.
Qed.

Lemma mapM_perm {A B} (f : A → result PyExc B) l k bs :
  l ≡ₚ k → mapM f l = Ok bs → ∃ bs', mapM f k = Ok bs' ∧ bs ≡ₚ bs'.
Proof.
  intros H. revert bs. induction H as [| x l k _ IH | x y l | l1 l2 l3 _ IH1 _ IH2]; intros bs; simpl.
  - intros [= <-]. by exists [].
  - destruct (f x) as [b|]; simpl; [|done]. destruct (mapM f l) as [bs0|]; simpl; [|done].
    intros [= <-]. destruct (IH bs0 eq_refl) as (bs' & -> & Hp). exists (b :: bs'). by rewrite Hp.
  - destruct (f y) as [b|]; simpl; [|done]. destruct (f x) as [c|]; simpl; [|done].
    destruct (mapM f l) as [bs0|]; simpl; [|done]. intros [= <-]. eexists. split; [done | constructor].
  - intros (b2 & H2 & P2)%IH1. destruct (IH2 _ H2) as (b3 & H3 & P3). exists b3. split; [done | by etrans].
Qed.

(** ** Conclusions *)

Definition outcomes (ts : list RuleEvaluationTrace) : list (bool * string) :=
  map (λ t, (rt_matched t, rs_effect (rt_summary t))) ts.

Lemma matched_with_nil e ts : matched_with e ts = [] ↔ APLEffect_value e ∉ applying (outcomes ts).
Proof.
  unfold matched_with, applying, outcomes. induction ts as [|t ts IH]; simpl.
  { split; [intros _ ?%elem_of_nil; done | done]. }
  destruct (rt_matched t) eqn:Hm; simpl; [|done].
  destruct (eqb _ _) eqn:He; reflect.
  - split; [done|]. intros H. destruct H. rewrite <- He. by left.
  - rewrite IH, not_elem_of_cons. split; [intros ?; split; congruence | by intros [_ ?]].
Qed.

Lemma conclude_decision ts d r :
  conclude ts d = Ok r →
  ev_decision r = strongest (applying (outcomes ts)) d ∧
  (ev_default_effect_applied r = true ↔
   ∀ e, e ≠ EffNoMatch → APLEffect_value e ∉ applying (outcomes ts)).
Proof.
  unfold conclude, strongest.
  assert (Hw : ∀ e, bool_decide (APLEffect_value e ∈ applying (outcomes ts)) =
    match matched_with e ts with [] => false | _ => true end).
  { intros e. destruct (matched_with e ts) eqn:He.
    - apply bool_decide_eq_false. by apply matched_with_nil.
    - apply bool_decide_eq_true. destruct (decide (APLEffect_value e ∈ applying (outcomes ts))) as [|Hn]; [done|].
      apply matched_with_nil in Hn. congruence. }
  pose proof (Hw EffDeny) as Hd. pose proof (Hw EffRequireApproval) as Hq. pose proof (Hw EffAllow) as Ha.
  simpl in Hd, Hq, Ha. rewrite Hd, Hq, Ha. clear Hw.
  destruct (matched_with EffDeny ts) as [|x xs]; [destruct (matched_with EffRequireApproval ts) as [|y ys];
    [destruct (matched_with EffAllow ts) as [|z zs]|]|].
  - intros [= <-]. simpl. split; [done|]. split; [|done]. intros _ e He.
    apply bool_decide_eq_false in Hd, Hq, Ha. by destruct e.
  - rewrite result_bind_run. intros (n & _ & [= <-]). split; [done|]. simpl. split; [done|].
    intros H. apply bool_decide_eq_true in Ha. by destruct (H EffAllow).
  - rewrite result_bind_run. intros (n & _ & [= <-]). split; [done|]. simpl. split; [done|].
    intros H. apply bool_decide_eq_true in Hq. by destruct (H EffRequireApproval).
  - rewrite result_bind_run. intros (n & _ & [= <-]). split; [done|]. simpl. split; [done|].
    intros H. apply bool_decide_eq_true in Hd. by destruct (H EffDeny).
Qed.

(** The declared target does not contradict the context. *)
Definition target_fits (ast context : pyval) : Prop :=
  ∃ target items, py_get ast "target" VNone = Ok target ∧ py_items (py_or target (VDict [])) = Ok items ∧
    target_mismatch context items = Ok None.

Definition ast_rules (ast : pyval) : result PyExc (list pyval) :=
  rules ← py_get ast "rules" (VList []); py_iter rules.

Lemma evaluate_run ast context r :
  target_fits ast context → evaluate_apl_policy ast context = Ok r →
  ∃ rules d ts, ast_rules ast = Ok rules ∧ default_effect_of ast = Ok d ∧
    evaluate_rules context 0 rules = Ok ts ∧ conclude ts d = Ok r.
Proof.
  intros (target & items & Ht & Hi & Hm). unfold evaluate_apl_policy, ast_rules.
  rewrite Ht. simpl. rewrite Hi. simpl. rewrite Hm. simpl.
  destruct (py_get ast "rules" (VList [])) as [rv|]; simpl; [|done].
  destruct (default_effect_of ast) as [d|]; simpl; [|done].
  destruct (py_iter rv) as [rules|]; simpl; [|done].
  destruct (evaluate_rules context 0 rules) as [ts|] eqn:Hts; simpl; [|done].
  intros Hc. by exists rules, d, ts.
Qed.

(** C31. On a policy whose target fits, the decision is DENY if any
    matching rule denies, else REQUIRE_APPROVAL if any requires it, else ALLOW if
    any allows, else the default; the default is reported as applied exactly when
    none of the three effects applies. *)
Theorem precedence ast context r :
  target_fits ast context → evaluate_apl_policy ast context = Ok r →
  ∃ rules outs d, ast_rules ast = Ok rules ∧ mapM (rule_outcome context) rules = Ok outs ∧
    default_effect_of ast = Ok d ∧ ev_decision r = strongest (applying outs) d ∧
    (ev_default_effect_applied r = true ↔ ∀ e, e ≠ EffNoMatch → APLEffect_value e ∉ applying outs).
Proof.
  intros Ht H. destruct (evaluate_run _ _ _ Ht H) as (rules & d & ts & Hr & Hd & Hts & Hc).
  exists rules, (outcomes ts), d. apply evaluate_rules_outcomes in Hts.
  apply conclude_decision in Hc as [? ?]. by split_and!.
Qed.

(** ** The order of the rules does not matter *)

Lemma strongest_perm l k d : l ≡ₚ k → strongest l d = strongest k d.
Proof.
  intros H. unfold strongest.
  assert (He : ∀ x : string, bool_decide (x ∈ l) = bool_decide (x ∈ k)).
  { intros x. apply bool_decide_ext. by rewrite H. }
  by rewrite !He.
Qed.

Lemma applying_perm outs outs' : outs ≡ₚ outs' → applying outs ≡ₚ applying outs'.
Proof.
  unfold applying. intros H. apply Permutation_map.
  induction H as [| x l k _ IH | x y l | l1 l2 l3 _ IH1 _ IH2]; simpl; [done| | |by etrans].
  - destruct (x.1); [by constructor | done].
  - destruct (y.1), (x.1); done || constructor.
Qed.

(** A rule with an explicit textual identifier. *)
Definition named (rule : pyval) : Prop := ∃ d s, rule = VDict d ∧ dict_get "id" d = Some (VStr s).

Lemma py_join_named sep l : Forall (λ v, is_Some (as_str v)) l → ∃ s, py_join sep l = Ok s.
Proof.
  intros H. unfold py_join. apply mapM_is_Some in H as [ss ->]. by eexists.
Qed.

Lemma evaluate_rules_named context idx rules ts :
  Forall named rules → evaluate_rules context idx rules = Ok ts →
  Forall (λ t, is_Some (as_str (rs_id (rt_summary t)))) ts.
Proof.
  intros H. revert idx ts. induction H as [|r rules (d & s & -> & Hid) _ IH]; intros idx ts; cbn [evaluate_rules].
  { intros [= <-]. constructor. }
  rewrite result_bind_run. intros (t & Ht & Hts). rewrite result_bind_run in Hts.
  destruct Hts as (ts' & Hts' & [= <-]). constructor; [|by eapply IH].
  unfold evaluate_rule in Ht. rewrite result_bind_run in Ht. destruct Ht as (x & _ & [= <-]).
  simpl. rewrite Hid. simpl. by eexists.
Qed.

Lemma conclude_total ts d :
  Forall (λ t, is_Some (as_str (rs_id (rt_summary t)))) ts → ∃ r, conclude ts d = Ok r.
Proof.
  intros H. assert (Hw : ∀ e, ∃ s, py_join ", " (map rs_id (matched_with e ts)) = Ok s).
  { intros e. apply py_join_named. unfold matched_with. rewrite map_map. apply Forall_fmap.
    apply Forall_forall. intros t [Hin _]%elem_of_select_where. rewrite Forall_forall in H. by apply H. }
  unfold conclude. pose proof (Hw EffDeny) as [s1 H1]. pose proof (Hw EffRequireApproval) as [s2 H2].
  pose proof (Hw EffAllow) as [s3 H3].
  destruct (matched_with EffDeny ts); [destruct (matched_with EffRequireApproval ts);
    [destruct (matched_with EffAllow ts)|]|]; rewrite ?H1, ?H2, ?H3; by eexists.
Qed.

(** Reordering the (named) rules of a policy changes neither whether it
    evaluates nor its decision. *)
Theorem order_independent d d' context rules rules' r :
  dict_get "rules" d = Some (VList rules) → dict_get "rules" d' = Some (VList rules') →
  dict_get "target" d' = dict_get "target" d → dict_get "default_effect" d' = dict_get "default_effect" d →
  rules ≡ₚ rules' → Forall named rules →
  evaluate_apl_policy (VDict d) context = Ok r →
  ∃ r', evaluate_apl_policy (VDict d') context = Ok r' ∧ ev_decision r' = ev_decision r.
Proof.
  intros Hr Hr' Ht Hd Hp Hn. unfold evaluate_apl_policy, default_effect_of, py_get.
  rewrite Ht, Hd, Hr, Hr'. cbn [mbind result_bind].
  destruct (py_items _) as [items|]; simpl; [|done].
  destruct (target_mismatch context items) as [[[[k e] a]|]|]; simpl; [|intros H|done].
  { intros [= <-]. by eexists. }
  destruct (evaluate_rules context 0 rules) as [ts|] eqn:Hts; simpl in H; [|done].
  pose proof (evaluate_rules_outcomes _ _ _ _ Hts) as Hout.
  destruct (mapM_perm _ _ _ _ Hp Hout) as (outs' & Hout' & Hpo).
  destruct (outcomes_evaluate_rules context 0 _ _ Hout') as [ts' Hts'].
  rewrite Hts'. simpl. rewrite Hp in Hn.
  destruct (conclude_total ts' (py_upper (py_str (default (VStr "DENY") (dict_get "default_effect" d)))))
    as [r' Hc']; [by eapply evaluate_rules_named|].
  exists r'. split; [done|]. apply conclude_decision in H as [-> _], Hc' as [-> _].
  apply evaluate_rules_outcomes in Hts'. rewrite Hts' in Hout'. injection Hout' as <-.
  apply strongest_perm, applying_perm. symmetry. done.
Qed.

(** ** Absent fields *)

(** A condition on a field the context does not have holds only under
    [not_exists], whatever the operator and the expected value; a condition that
    holds under any other operator speaks of a field that is there. *)
Theorem absent_field_never_matches field_name op expected context b v :
  evaluate_atomic_condition field_name (VStr op) expected context = Ok (b, v) →
  resolve_field_value context field_name = Ok v ∧
  (v = VNone → b = eqb (py_strip (py_lower op)) (APLOperator_value OpNotExists)).
Proof.
  unfold evaluate_atomic_condition. rewrite result_bind_run. intros (actual & Ha & H).
  rewrite result_bind_run in H. destruct H as (m & Hm & [= <- <-]). split; [done|].
  intros ->. unfold is_op in Hm. simpl is_none in Hm.
  destruct (eqb _ (APLOperator_value OpExists)) eqn:He.
  { apply bool_decide_eq_true in He. rewrite He. by simplify_eq/=. }
  destruct (eqb _ (APLOperator_value OpNotExists)) eqn:Hne; by simplify_eq/=.
Qed.

(** ** Validated policies evaluate *)

Definition only_overflow {A} (r : result PyExc A) : Prop := ∀ e, r = Err e → e = OverflowError.

Lemma only_overflow_bind {A B} (r : result PyExc A) (f : A → result PyExc B) :
  only_overflow r → (∀ a, only_overflow (f a)) → only_overflow (r ≫= f).
Proof. intros Hr Hf e. destruct r as [a|e']; simpl; [apply Hf|]. intros [= ->]. by apply Hr. Qed.

Lemma py_float_errors v e : py_float v = Err e → e = OverflowError ∨ e = ValueError ∨ e = TypeError.
Proof.
  destruct v as [|b|z|f|s|l|d]; simpl; try (intros [= <-]; auto); try done.
  - destruct (is_infinite _); [intros [= <-]; auto | done].
  - unfold float_of_string. destruct (take_sign _) as [neg s']. destruct (if _ || _ then _ else _); [done|].
    intros [= <-]. auto.
Qed.

Lemma compare_only_overflow op a e : only_overflow (compare_numbers op a e).
Proof.
  unfold compare_numbers. intros x. destruct (py_float a) as [fa|ea] eqn:Ha; simpl.
  - destruct (py_float e) as [fe|ee] eqn:He; simpl; [done|].
    destruct (py_float_errors _ _ He) as [->|[->| ->]]; simpl; congruence.
  - destruct (py_float_errors _ _ Ha) as [->|[->| ->]]; simpl; congruence.
Qed.

Lemma atomic_only_overflow f o expected context :
  only_overflow (evaluate_atomic_condition (VStr f) (VStr o) expected context).
Proof.
  unfold evaluate_atomic_condition. apply only_overflow_bind.
  { intros e. unfold resolve_field_value. by destruct context. }
  intros actual. apply only_overflow_bind; [|by intros m e].
  repeat case_match; try (intros e; done). apply compare_only_overflow.
Qed.

Lemma each_child_only_overflow f path idx cs :
  Forall (λ c, ∀ p, only_overflow (f p c)) cs → only_overflow (each_child f path idx cs).
Proof.
  intros H. revert idx. induction H as [|c cs Hc _ IH]; intros idx; [by intros e|]. cbn [each_child].
  apply only_overflow_bind; [apply Hc | intros r].
  apply only_overflow_bind; [apply IH | by intros rs e].
Qed.

Lemma get_VStr k d s : get k d = VStr s → dict_get k d = Some (VStr s).
Proof. unfold get. destruct (dict_get k d); simpl; [congruence | done]. Qed.

Lemma valid_node_only_overflow levels node :
  AplValidator.valid_node levels node → ∀ fuel context path, (levels ≤ fuel)%nat →
  only_overflow (evaluate_condition_node fuel context path node).
Proof.
  revert node. induction levels as [|levels IH]; intros node Hv; [by inversion Hv|].
  assert (Hall : ∀ cs fuel context path idx, (levels ≤ fuel)%nat → Forall (AplValidator.valid_node levels) cs →
    only_overflow (each_child (evaluate_condition_node fuel context) path idx cs)).
  { intros cs fuel context path idx Hf Hcs. apply each_child_only_overflow.
    eapply Forall_impl; [exact Hcs|]. intros c Hc p. by apply IH. }
  intros [|fuel] context path Hf; [lia|]. cbn [evaluate_condition_node].
  inversion Hv as [l d c cs Ha Hcs | l d c cs Ha Hy Hcs | l d c Ha Hy Hn Hc
    | l d f o op Ha Hy Hn Hfld _ Ho _]; subst; rewrite ?Ha, ?Hy, ?Hn.
  - apply only_overflow_bind; [apply Hall; [lia | done] | by intros r e].
  - apply only_overflow_bind; [apply Hall; [lia | done] | by intros r e].
  - apply only_overflow_bind; [apply IH; [done | lia] | by intros r e].
  - apply get_VStr in Hfld, Ho. rewrite Hfld, Ho. simpl.
    apply only_overflow_bind; [apply atomic_only_overflow | by intros r e].
Qed.

Lemma evaluate_rules_only_overflow context idx rules :
  Forall (λ r, ∃ d, r = VDict d ∧ AplValidator.valid_rule d) rules →
  only_overflow (evaluate_rules context idx rules).
Proof.
  intros H. revert idx. induction H as [|r rules (d & -> & Hd) _ IH]; intros idx; [by intros e|].
  cbn [evaluate_rules]. apply only_overflow_bind.
  - unfold evaluate_rule. apply only_overflow_bind; [|by intros x e].
    destruct (is_none (rule_when d)) eqn:Hn; [by intros e|].
    destruct (AplValidator.vrl_when _ Hd) as [Hw | [Hw _]].
    + unfold rule_when in Hn. congruence.
    + eapply valid_node_only_overflow; [exact Hw|]. unfold MAX_NESTING_DEPTH, recursion_limit. lia.
  - intros t. apply only_overflow_bind; [apply IH | by intros ts e].
Qed.

Lemma valid_named rule : (∃ d, rule = VDict d ∧ AplValidator.valid_rule d) → named rule.
Proof.
  intros (d & -> & Hd). destruct (AplValidator.vrl_id _ Hd) as (s & Hs & _). exists d, s.
  split; [done | by apply get_VStr].
Qed.

Lemma target_only_overflow context items : ∃ m, target_mismatch context items = Ok m.
Proof.
  induction items as [|[k e] items [m IH]]; simpl; [by eexists|].
  destruct (is_none e); [by exists m|].
  assert (∃ v, resolve_field_value context (VStr k) = Ok v) as [v ->] by (destruct context; by eexists).
  simpl. destruct (_ && _); by eexists.
Qed.


(** ** Where the validator and the evaluator disagree *)

Definition deny_over (field : string) (operator : string) (limit : pyval) : pyval :=
  VDict [("id", VStr "limit"); ("effect", VStr "DENY");
         ("when", VDict [("field", VStr field); ("operator", VStr operator); ("value", limit)])].
Definition allow_all : pyval := VDict [("id", VStr "base"); ("effect", VStr "ALLOW")].
Definition policy (target : pyval) (rules : list pyval) : pyval :=
  VDict [("version", VStr "APL/1.0"); ("name", VStr "limits"); ("target", target);
         ("rules", VList rules); ("default_effect", VStr "DENY")].
Definition amount_context (amount : pyval) : pyval :=
  VDict [("input", VDict [("amount", amount)])].

(** The validator strips the field of a condition before it looks it up,
    the evaluator does not: a validated DENY rule on [" input.amount"] never
    matches, so the purchase it should stop is allowed. *)
Theorem blank_field_disables_deny :
  let ast := policy (VDict []) [allow_all; deny_over " input.amount" "gt" (VInt 500)] in
  AplValidator.vr_is_valid (AplValidator.validate ast) = true ∧
  ev_decision <$> evaluate_apl_policy ast (amount_context (VInt 9000)) = Ok "ALLOW" ∧
  ev_decision <$> evaluate_apl_policy (policy (VDict []) [allow_all; deny_over "input.amount" "gt" (VInt 500)])
    (amount_context (VInt 9000)) = Ok "DENY".
Proof. vm_compute. done. Qed.

(** A text amount does match a numeric boundary, against the security
    note of the policy documentation. *)
Theorem text_amount_compares :
  ev_decision <$> evaluate_apl_policy (policy (VDict []) [allow_all; deny_over "input.amount" "gte" (VInt 500)])
    (amount_context (VStr "500")) = Ok "DENY".
Proof. vm_compute. done. Qed.

(** Validation lets through two policies whose evaluation raises: one
    whose target is not a mapping, and one that compares with an integer beyond
    the range of floats. *)
Theorem validated_may_raise :
  let bad_target := policy (VStr "production") [allow_all] in
  let huge := policy (VDict []) [deny_over "input.amount" "gt" (VInt (10 ^ 400))] in
  AplValidator.vr_is_valid (AplValidator.validate bad_target) = true ∧
  evaluate_apl_policy bad_target (amount_context (VInt 1)) = Err AttributeError ∧
  AplValidator.vr_is_valid (AplValidator.validate huge) = true ∧
  evaluate_apl_policy huge (amount_context (VInt 1)) = Err OverflowError.
Proof. vm_compute. done. Qed.

(** ** Witnesses *)

Definition tiers : list pyval :=
  [allow_all; deny_over "input.amount" "gt" (VInt 500)].

Lemma precedence_witness :
  let ast := policy (VDict []) tiers in
  target_fits ast (amount_context (VInt 600)) ∧
  ∃ r rules outs d, evaluate_apl_policy ast (amount_context (VInt 600)) = Ok r ∧
    mapM (rule_outcome (amount_context (VInt 600))) rules = Ok outs ∧
    ev_decision r = strongest (applying outs) d.
Proof.
  assert (Ht : target_fits (policy (VDict []) tiers) (amount_context (VInt 600))) by (by do 2 eexists).
  split; [exact Ht|].
  destruct (evaluate_apl_policy (policy (VDict []) tiers) (amount_context (VInt 600))) as [r|e] eqn:H;
    [|exfalso; revert H; by vm_compute].
  destruct (precedence _ _ _ Ht H) as (rules & outs & d & _ & Hm & _ & Hd & _). by exists r, rules, outs, d.
Defined.

Lemma order_independent_witness :
  ∃ r', evaluate_apl_policy (policy (VDict []) (rev tiers)) (amount_context (VInt 600)) = Ok r' ∧
    ev_decision r' = "DENY".
Proof.
  destruct (evaluate_apl_policy (policy (VDict []) tiers) (amount_context (VInt 600))) as [r|e] eqn:H;
    [|exfalso; revert H; by vm_compute].
  assert (Hd : ev_decision r = "DENY") by (vm_compute in H; injection H as <-; done).
  assert (Hn : Forall named tiers) by (repeat constructor; do 2 eexists; split; reflexivity).
  destruct (order_independent (default [] (as_dict (policy (VDict []) tiers)))
    (default [] (as_dict (policy (VDict []) (rev tiers)))) (amount_context (VInt 600)) tiers (rev tiers) r eq_refl eq_refl eq_refl eq_refl
    ltac:(apply Permutation_rev) Hn H) as (r' & Hr' & He).
  exists r'. split; [exact Hr' | congruence].
Defined.

Lemma absent_field_never_matches_witness :
  ∃ v, resolve_field_value (VDict []) (VStr "input.amount") = Ok v ∧ v = VNone ∧
    evaluate_atomic_condition (VStr "input.amount") (VStr "neq") (VInt 3) (VDict []) = Ok (false, v).
Proof.
  exists VNone. assert (H : evaluate_atomic_condition (VStr "input.amount") (VStr "neq") (VInt 3) (VDict []) =
    Ok (false, VNone)) by (vm_compute; reflexivity).
  destruct (absent_field_never_matches _ _ _ _ _ _ H) as [Hr _]. by split_and!.
Defined.


End AplProps.
