(* ===== verification/AplLint.v ===== *)
(** The policy linter: [backend/app/services/apl/linter.py], and what its warnings
    are worth against the evaluator. *)
From Stdlib Require Import Ascii.
From S2P Require Import Prelude.
From S2P Require Import PyStr.
From S2P Require Import PyFloat.
From S2P Require Import PyVal.
From S2P Require Import AplSchema.
From S2P Require Import AplEval.
From S2P Require Import AplValidator.
From S2P Require Import AplProps.

Local Open Scope string_scope.

Module AplLint.
Import Apl AplEval AplProps.

Record LintIssue : Type := MkLint {
  li_code : string;
  li_message : string;
  li_rule_id : pyval;
  li_severity : string
}.

(** [ranges[f]]: the keys ["min"] and ["max"] when set. *)
Abbreviation range := (option float * option float)%type.

Definition f_neg_inf : float := SpecFloat.SFopp f_inf.

Definition add_bound (ranges : list (pyval * range)) (cond : pyval) : result PyExc (list (pyval * range)) :=
  match cond with
  | VDict d =>
      let f := get "field" d in
      let op := get "operator" d in
      let val := get "value" d in
      if truthy f && truthy op && is_number val then
        if negb (hashable f) then Err TypeError
        else
          let r := default (None, None) (assoc_get f ranges) in
          if py_in op [VStr "gt"; VStr "gte"] then
            x ← py_float val;
            mret (assoc_set f (Some (f_max (default f_neg_inf r.1) x), r.2) ranges)
          else if py_in op [VStr "lt"; VStr "lte"] then
            x ← py_float val;
            mret (assoc_set f (r.1, Some (f_min (default f_inf r.2) x)) ranges)
          else mret (assoc_set f r ranges)
      else mret ranges
  | _ => mret ranges
  end.

Fixpoint collect_bounds (ranges : list (pyval * range)) (conds : list pyval)
    : result PyExc (list (pyval * range)) :=
  match conds with
  | [] => mret ranges
  | cond :: conds => ranges ← add_bound ranges cond; collect_bounds ranges conds
  end.

Definition contradiction (rule_id : pyval) (entry : pyval * range) : list LintIssue :=
  match entry with
  | (field_name, (Some lo, Some hi)) =>
      if f_ltb hi lo then
        [MkLint "LINT004_CONTRADICTORY_BOUNDS"
          ("Rule '" +:+ py_str rule_id +:+ "' has impossible condition bounds on field '" +:+
           py_str field_name +:+ "': min " +:+ f_repr lo +:+ " > max " +:+ f_repr hi +:+ ".")
          rule_id "WARNING"]
      else []
  | _ => []
  end.

Definition _check_impossible_bounds (when_node rule_id : pyval) : result PyExc (list LintIssue) :=
  match when_node with
  | VDict d =>
      match get "all" d with
      | VList conds =>
          ranges ← collect_bounds [] conds;
          mret (concat (map (contradiction rule_id) ranges))
      | _ => mret []
      end
  | _ => mret []
  end.

(** One turn of the loop: the issues, and the unconditional rule seen last. *)
Definition lint_rule (unconditional : option pyval) (idx : nat) (rule : pyval)
    : result PyExc (list LintIssue * option pyval) :=
  match rule with
  | VDict d =>
      let rule_id := default (VStr ("rule_" +:+ str_of_nat idx)) (dict_get "id" d) in
      let effect := rule_effect d in
      let when := rule_when d in
      let dead := match unconditional with
        | Some prior => [MkLint "LINT002_DEAD_RULE"
            ("Rule '" +:+ py_str rule_id +:+ "' is unreachable because prior rule '" +:+ py_str prior +:+
             "' matches unconditionally.") rule_id "WARNING"]
        | None => []
        end in
      if negb (truthy when) then
        mret ((dead ++ (if eqb effect "ALLOW" then
            [MkLint "LINT003_OVERLY_BROAD_ALLOW"
              ("Rule '" +:+ py_str rule_id +:+ "' has no conditions and grants unconditional ALLOW authority.")
              rule_id "SECURITY_RISK"] else []))%list, Some rule_id)
      else
        bounds ← _check_impossible_bounds when rule_id;
        mret ((dead ++ bounds)%list, unconditional)
  | _ => Err AttributeError
  end.

Fixpoint lint_rules (unconditional : option pyval) (idx : nat) (rules : list pyval)
    : result PyExc (list LintIssue) :=
  match rules with
  | [] => mret []
  | rule :: rules =>
      r ← lint_rule unconditional idx rule;
      later ← lint_rules r.2 (S idx) rules;
      mret (r.1 ++ later)%list
  end.

Definition lint (ast : pyval) : result PyExc (list LintIssue) :=
  rules ← py_get ast "rules" (VList []);
  default_effect ← default_effect_of ast;
  rules ← py_iter rules;
  issues ← lint_rules None 0 rules;
  mret ((if eqb default_effect "ALLOW" then
    [MkLint "LINT001_INSECURE_DEFAULT"
      "Policy specifies 'default_effect: ALLOW'. Industry best practice mandates fail-closed 'DENY'."
      VNone "SECURITY_RISK"] else []) ++ issues)%list.

(** ** A contradiction is one *)

Definition same_key (f key : pyval) : Prop := key = f ∨ py_eq f key = true.

(** A condition of the list that bounds [key] from below, or above, by [x]. *)
Definition bounded_by (ops : list string) (conds : list pyval) (key : pyval) (x : float) : Prop :=
  ∃ d op, VDict d ∈ conds ∧ same_key (get "field" d) key ∧ truthy (get "field" d) = true ∧
    get "operator" d = VStr op ∧ op ∈ ops ∧ py_float (get "value" d) = Ok x.
Abbreviation low := (bounded_by ["gt"; "gte"]).
Abbreviation high := (bounded_by ["lt"; "lte"]).

Lemma bounded_by_mono ops conds conds' key x :
  (∀ c, c ∈ conds → c ∈ conds') → bounded_by ops conds key x → bounded_by ops conds' key x.
Proof. intros H (d & op & Hd & ?). exists d, op. split; [by apply H | done]. Qed.

(** The bounds collected come from conditions, or are the infinities they start from. *)
Definition justified (conds : list pyval) (ranges : list (pyval * range)) : Prop :=
  ∀ key lo hi, (key, (lo, hi)) ∈ ranges →
    (∀ x, lo = Some x → x = f_neg_inf ∨ low conds key x) ∧
    (∀ x, hi = Some x → x = f_inf ∨ high conds key x).

Lemma py_in_strs v l : py_in v (map VStr l) = true → ∃ s, v = VStr s ∧ s ∈ l.
Proof.
  unfold py_in. rewrite existsb_exists. intros (w & Hw & He). apply in_map_iff in Hw as (s & <- & Hs).
  exists s. split; [by apply py_eq_str_r | by apply list_elem_of_In].
Qed.

(** Writing one more bound of [f] keeps the bounds justified. *)
Lemma justified_set conds f r' ranges :
  justified conds ranges →
  (∀ key r, same_key f key →
     (r = (None, None) ∨ (key, r) ∈ ranges) → r = default (None, None) (assoc_get f ranges) →
     (∀ x, r'.1 = Some x → r.1 = Some x ∨ x = f_neg_inf ∨ low conds key x) ∧
     (∀ x, r'.2 = Some x → r.2 = Some x ∨ x = f_inf ∨ high conds key x)) →
  justified conds (assoc_set f r' ranges).
Proof.
  intros Hj Hnew key lo hi [Hin | (Hr & Hk)]%elem_of_assoc_set; [by apply Hj|]. subst r'.
  destruct Hk as [[Hg ->] | (v0 & Hg & Hin & He)].
  - destruct (Hnew f (None, None)) as [H1 H2]; [by left | by left | by rewrite Hg |].
    split; intros x Hx; [destruct (H1 _ Hx) as [|] | destruct (H2 _ Hx) as [|]]; done.
  - destruct v0 as [lo0 hi0]. destruct (Hj _ _ _ Hin) as [J1 J2].
    destruct (Hnew key (lo0, hi0)) as [H1 H2]; [by right | by right | by rewrite Hg |].
    split; intros x Hx; [destruct (H1 _ Hx) as [|] | destruct (H2 _ Hx) as [|]]; auto.
Qed.

Lemma add_bound_justified conds cond ranges ranges' :
  cond ∈ conds → justified conds ranges → add_bound ranges cond = Ok ranges' → justified conds ranges'.
Proof.
  intros Hc Hj. unfold add_bound. destruct cond as [| | | | | |d]; try by intros [= <-].
  destruct (truthy (get "field" d)) eqn:Hf; [|by intros [= <-]].
  destruct (truthy (get "operator" d)); [|by intros [= <-]].
  destruct (is_number (get "value" d)); [|by intros [= <-]]. cbn [andb].
  destruct (hashable _); [|done]. cbn [negb].
  set (r := default (None, None) _). destruct (py_in (get "operator" d) [VStr "gt"; VStr "gte"]) eqn:Hg.
  { rewrite result_bind_run. intros (x & Hx & [= <-]).
    apply (py_in_strs _ ["gt"; "gte"]) in Hg as (op & Hop & Hin).
    apply justified_set; [done|]. intros key r0 Hk _ ->. fold r. simpl. split; [|auto].
    intros y [= <-]. unfold f_max. destruct (f_ltb _ x).
    - right; right. by exists d, op.
    - destruct r.1; simpl; auto. }
  destruct (py_in (get "operator" d) [VStr "lt"; VStr "lte"]) eqn:Hl.
  { rewrite result_bind_run. intros (x & Hx & [= <-]).
    apply (py_in_strs _ ["lt"; "lte"]) in Hl as (op & Hop & Hin).
    apply justified_set; [done|]. intros key r0 Hk _ ->. fold r. simpl. split; [auto|].
    intros y [= <-]. unfold f_min. destruct (f_ltb x _).
    - right; right. by exists d, op.
    - destruct r.2; simpl; auto. }
  intros [= <-]. apply justified_set; [done|]. intros key r0 Hk _ ->. fold r. split; auto.
Qed.

Lemma collect_bounds_justified conds todo ranges ranges' :
  (∀ c, c ∈ todo → c ∈ conds) → justified conds ranges → collect_bounds ranges todo = Ok ranges' →
  justified conds ranges'.
Proof.
  revert ranges. induction todo as [|c todo IH]; intros ranges Hin Hj; cbn [collect_bounds]; [by intros [= <-]|].
  rewrite result_bind_run. intros (r1 & H1 & H2).
  eapply IH; [|eapply add_bound_justified; [|exact Hj | exact H1]; apply Hin; by left | exact H2].
  intros c' Hc'. apply Hin. by right.
Qed.

Definition plain (d : list (string * pyval)) : Prop :=
  dict_get "all" d = None ∧ dict_get "any" d = None ∧ dict_get "not" d = None.

(** What a matching comparison says of the field's number. *)
Lemma atomic_compared d op context x fuel path tr :
  plain d → truthy (get "field" d) = true → get "operator" d = VStr op →
  op ∈ ["gt"; "gte"; "lt"; "lte"] → py_float (get "value" d) = Ok x →
  evaluate_condition_node fuel context path (VDict d) = Ok (true, tr) →
  ∃ f v a, get "field" d = VStr f ∧ resolve_field_value context (VStr f) = Ok v ∧ py_float v = Ok a ∧
    (if bool_decide (op ∈ ["gt"; "gte"]) then f_leb x a else f_leb a x) = true.
Proof.
  intros (Ha & Hy & Hn) Hf Ho Hop Hx. destruct fuel as [|fuel]; [done|].
  cbn [evaluate_condition_node]. rewrite Ha, Hy, Hn.
  assert (Hfd : default (VStr "") (dict_get "field" d) = get "field" d).
  { unfold get in *. destruct (dict_get "field" d); [done|]. by simpl in Hf. }
  apply get_VStr in Ho as Hod. rewrite Hfd, Hod. simpl default.
  rewrite result_bind_run. intros ([m actual] & H & [= Hm _]). simpl in Hm. subst m.
  unfold evaluate_atomic_condition in H. rewrite result_bind_run in H. destruct H as (v & Hv & H).
  assert (Hops : is_op (py_strip (py_lower op)) OpExists = false ∧ is_op (py_strip (py_lower op)) OpNotExists = false ∧
    is_op (py_strip (py_lower op)) OpEq = false ∧ is_op (py_strip (py_lower op)) OpNeq = false ∧
    (is_op (py_strip (py_lower op)) OpGt || is_op (py_strip (py_lower op)) OpGte ||
     is_op (py_strip (py_lower op)) OpLt || is_op (py_strip (py_lower op)) OpLte) = true).
  { rewrite !elem_of_cons, elem_of_nil in Hop. destruct Hop as [->|[->|[->|[->|[]]]]]; by vm_compute. }
  destruct Hops as (E1 & E2 & E3 & E4 & E5). rewrite E1, E2 in H.
  destruct (is_none v) eqn:Hnone; [by simplify_eq/=|]. rewrite E3, E4, E5 in H.
  rewrite result_bind_run in H. destruct H as (m & Hm & [= -> _]).
  unfold compare_numbers in Hm. destruct (py_float v) as [a|e] eqn:Hfa; [|by destruct e].
  rewrite Hx in Hm. simpl in Hm. injection Hm as Hm.
  assert (Hstr : ∃ f, get "field" d = VStr f).
  { unfold resolve_field_value in Hv. destruct context as [| | | | | |c];
      try (injection Hv as <-; done). destruct (get "field" d); try done. by eexists. }
  destruct Hstr as [f Hstr]. rewrite Hstr in Hv. exists f, v, a. split_and!; try done.
  rewrite !elem_of_cons, elem_of_nil in Hop. destruct Hop as [->|[->|[->|[->|[]]]]];
    repeat match type of Hm with context [is_op ?p ?q] =>
      let b := eval vm_compute in (is_op p q) in change (is_op p q) with b in Hm end;
    match goal with |- context [bool_decide ?p] =>
      let b := eval vm_compute in (bool_decide p) in change (bool_decide p) with b end;
    cbv iota in Hm |- *; auto using f_ltb_leb.
Qed.

Lemma each_child_all f path idx cs bs tr :
  each_child f path idx cs = Ok (bs, tr) → forallb id bs = true →
  ∀ c, c ∈ cs → ∃ p t, f p c = Ok (true, t).
Proof.
  revert idx bs tr. induction cs as [|c0 cs IH]; intros idx bs tr; cbn [each_child].
  { intros _ _ c ?%elem_of_nil. done. }
  rewrite result_bind_run. intros ([b0 t0] & H0 & H). rewrite result_bind_run in H.
  destruct H as ([bs1 t1] & H1 & [= <- _]). simpl. intros [Hb Hbs]%andb_true_iff c.
  unfold id in Hb. subst b0. intros [-> | Hc]%elem_of_cons; [by eexists _, _ | by eapply IH].
Qed.

(** A rule the linter reports for contradictory bounds never matches:
    on any context, evaluating its conditions raises or answers no. *)
Theorem contradictory_never_matches d conds rule_id issues fuel context path r :
  get "all" d = VList conds → (∀ c, VDict c ∈ conds → plain c) →
  _check_impossible_bounds (VDict d) rule_id = Ok issues → issues ≠ [] →
  evaluate_condition_node fuel context path (VDict d) = Ok r → r.1 = false.
Proof.
  intros Hall Hplain. unfold _check_impossible_bounds. rewrite Hall, result_bind_run.
  intros (ranges & Hr & [= <-]) Hne He. apply not_true_iff_false. intros Htrue.
  assert (Hj : justified conds ranges).
  { eapply collect_bounds_justified; [done | | exact Hr]. by intros key lo hi ?%elem_of_nil. }
  assert (Hex : ∃ key lo hi, (key, (Some lo, Some hi)) ∈ ranges ∧ f_ltb hi lo = true).
  { clear Hr Hj He. induction ranges as [|[key [[lo|] [hi|]]] ranges IH]; simpl in Hne.
    2: destruct (f_ltb hi lo) eqn:Hlt; [exists key, lo, hi; split; [by left | done]|].
    all: try (destruct IH as (k & l & h & Hin & Hl); [done|]; exists k, l, h; split; [by right | done]).
    done. }
  destruct Hex as (key & lo & hi & Hin & Hlt). destruct (Hj _ _ _ Hin) as [Hlo Hhi].
  destruct (Hlo _ eq_refl) as [-> | (d1 & op1 & Hd1 & Hk1 & Ht1 & Ho1 & Hi1 & Hf1)].
  { exfalso. by destruct hi as [[]|[]| |[] m e]. }
  destruct (Hhi _ eq_refl) as [-> | (d2 & op2 & Hd2 & Hk2 & Ht2 & Ho2 & Hi2 & Hf2)].
  { exfalso. by destruct lo as [[]|[]| |[] m e]. }
  destruct fuel as [|fuel]; [done|]. cbn [evaluate_condition_node] in He.
  assert (Hget : dict_get "all" d = Some (VList conds)).
  { unfold get in Hall. destruct (dict_get "all" d); simpl in Hall; [congruence | done]. }
  rewrite Hget in He. destruct conds as [|c0 cs]; [by apply elem_of_nil in Hd1|].
  rewrite result_bind_run in He. destruct He as ([bs tr] & He & [= <-]). simpl in Htrue.
  destruct (each_child_all _ _ _ _ _ _ He Htrue _ Hd1) as (p1 & t1 & E1).
  destruct (each_child_all _ _ _ _ _ _ He Htrue _ Hd2) as (p2 & t2 & E2).
  destruct (atomic_compared d1 op1 context lo fuel p1 t1) as (f1 & v1 & a1 & Hs1 & Hv1 & Ha1 & Hc1);
    [by apply Hplain | done | done | set_solver | done | done |].
  destruct (atomic_compared d2 op2 context hi fuel p2 t2) as (f2 & v2 & a2 & Hs2 & Hv2 & Ha2 & Hc2);
    [by apply Hplain | done | done | set_solver | done | done |].
  assert (key = VStr f1) as ->.
  { rewrite Hs1 in Hk1. destruct Hk1 as [-> | Hk1]; [done | by apply py_eq_str_l]. }
  assert (f2 = f1) as ->.
  { rewrite Hs2 in Hk2. destruct Hk2 as [Hk2 | Hk2]; [congruence | apply py_eq_str_l in Hk2; congruence]. }
  rewrite Hv1 in Hv2. injection Hv2 as <-. rewrite Ha1 in Ha2. injection Ha2 as <-.
  rewrite bool_decide_eq_true_2 in Hc1 by done. rewrite bool_decide_eq_false_2 in Hc2.
  - pose proof (f_crossed _ _ _ Hc1 Hc2). congruence.
  - rewrite !elem_of_cons, elem_of_nil in Hi2 |- *. destruct Hi2 as [->|[->|[]]]; intros [?|[?|[]]]; done.
Qed.

(** A rule reported as unreachable after an unconditional one can still
    decide: rules are not evaluated in order of reach. *)
Theorem dead_rule_decides :
  let ast := policy (VDict []) [allow_all; deny_over "input.amount" "gt" (VInt 500)] in
  (∃ issues, lint ast = Ok issues ∧ Exists (λ i, li_code i = "LINT002_DEAD_RULE" ∧ li_rule_id i = VStr "limit") issues) ∧
  ev_decision <$> evaluate_apl_policy ast (amount_context (VInt 9000)) = Ok "DENY".
Proof.
  split; [|by vm_compute]. eexists. split; [vm_compute; reflexivity|].
  repeat first [apply Exists_cons_hd; by split | apply Exists_cons_tl].
Qed.

Lemma contradictory_never_matches_witness :
  let d := [("all", VList [VDict [("field", VStr "x"); ("operator", VStr "gt"); ("value", VInt 10)];
                           VDict [("field", VStr "x"); ("operator", VStr "lte"); ("value", VInt 5)]])] in
  ∃ r, evaluate_condition_node 5 (VDict [("x", VInt 7)]) "when" (VDict d) = Ok r ∧ r.1 = false.
Proof.
  intros d. destruct (evaluate_condition_node 5 (VDict [("x", VInt 7)]) "when" (VDict d)) as [r|e] eqn:He;
    [|exfalso; revert He; by vm_compute].
  exists r. split; [done|].
  destruct (_check_impossible_bounds (VDict d) (VStr "r")) as [issues|e] eqn:Hc; [|exfalso; revert Hc; by vm_compute].
  assert (Hne : issues ≠ []) by (vm_compute in Hc; injection Hc as <-; done).
  eapply (contradictory_never_matches d _ _ issues 5 _ "when" r eq_refl); [|exact Hc | exact Hne | exact He].
  intros c Hin. repeat (apply elem_of_cons in Hin as [[= ->] | Hin]; [by vm_compute|]).
  by apply elem_of_nil in Hin.
Defined.

End AplLint.
