(* ===== verification/AplDiff.v ===== *)
(** The semantic diff of two policies:
    [backend/app/services/apl/diff.py], without the rendered markdown summary. *)
From Stdlib Require Import Ascii.
From S2P Require Import Prelude.
From S2P Require Import PyStr.
From S2P Require Import PyFloat.
From S2P Require Import PyVal.
From S2P Require Import AplSchema.
From S2P Require Import AplEval.
From S2P Require Import AplValidator.
From S2P Require Import AplProps.

Local Open Scope string_scope.

Module AplDiff.
Import Apl AplEval AplProps.

Inductive change : Type := ADDED | REMOVED | MODIFIED.

Record RuleDiff : Type := MkRuleDiff {
  rd_rule_id : pyval;
  rd_change_type : change;
  rd_old_effect : option string;
  rd_new_effect : option string;
  rd_old_rule : option pyval;
  rd_new_rule : option pyval;
  rd_is_security_sensitive : bool;
  rd_security_notice : option string
}.

Record PolicySemanticDiff : Type := MkDiff {
  df_old_version : Z;
  df_new_version : Z;
  df_added_rules : list RuleDiff;
  df_removed_rules : list RuleDiff;
  df_modified_rules : list RuleDiff;
  df_default_effect_changed : bool;
  df_old_default_effect : option string;
  df_new_default_effect : option string;
  df_has_security_sensitive_changes : bool
}.

(** [{r.get("id"): r for r in rules if r.get("id")}] *)
Fixpoint rules_map (m : list (pyval * pyval)) (rules : list pyval) : result PyExc (list (pyval * pyval)) :=
  match rules with
  | [] => mret m
  | r :: rules =>
      i ← py_get r "id" VNone;
      if truthy i then
        if hashable i then rules_map (assoc_set i r m) rules else Err TypeError
      else rules_map m rules
  end.

Definition policy_rules (ast : pyval) : result PyExc (list (pyval * pyval)) :=
  rules ← py_get ast "rules" (VList []);
  rules ← py_iter rules;
  rules_map [] rules.

Definition effect_of (rule : pyval) : string :=
  match rule with VDict d => rule_effect d | _ => "" end.

Definition diff_added (r_id new_rule : pyval) : RuleDiff :=
  let new_eff := effect_of new_rule in
  let is_sec := eqb new_eff "ALLOW" in
  MkRuleDiff r_id ADDED None (Some new_eff) None (Some new_rule) is_sec
    (if is_sec then Some "New ALLOW rule broadens agent permissions." else None).

Definition diff_removed (r_id old_rule : pyval) : RuleDiff :=
  let old_eff := effect_of old_rule in
  let is_sec := eqb old_eff "DENY" || eqb old_eff "REQUIRE_APPROVAL" in
  MkRuleDiff r_id REMOVED (Some old_eff) None (Some old_rule) None is_sec
    (if is_sec then Some ("Removed existing guardrail rule (" +:+ old_eff +:+ ").") else None).

Definition diff_modified (r_id old_rule new_rule : pyval) : RuleDiff :=
  let old_eff := effect_of old_rule in
  let new_eff := effect_of new_rule in
  let from_deny := eqb old_eff "DENY" && negb (eqb new_eff "DENY") in
  let from_approval := eqb old_eff "REQUIRE_APPROVAL" && eqb new_eff "ALLOW" in
  MkRuleDiff r_id MODIFIED (Some old_eff) (Some new_eff) (Some old_rule) (Some new_rule)
    (from_deny || from_approval)
    (if from_deny then Some ("Effect weakened from DENY to " +:+ new_eff +:+ ".")
     else if from_approval then Some "Human approval guardrail removed (now ALLOW)." else None).

(** [json.dumps(rule, sort_keys=True)] *)
Definition rule_json : pyval → string := json_dumps ", " ": ".

Definition added_rules (old new : list (pyval * pyval)) : list RuleDiff :=
  map (λ kv, diff_added kv.1 kv.2) (select_where (λ kv, negb (is_some (assoc_get kv.1 old))) new).
Definition removed_rules (old new : list (pyval * pyval)) : list RuleDiff :=
  map (λ kv, diff_removed kv.1 kv.2) (select_where (λ kv, negb (is_some (assoc_get kv.1 new))) old).
Definition modified_rules (old new : list (pyval * pyval)) : list RuleDiff :=
  omap (λ kv : pyval * pyval,
    match assoc_get kv.1 old with
    | Some old_rule => if negb (eqb (rule_json old_rule) (rule_json kv.2))
                       then Some (diff_modified kv.1 old_rule kv.2) else None
    | None => None
    end) new.

Definition compute_policy_diff (old_ast new_ast : pyval) (old_version new_version : Z)
    : result PyExc PolicySemanticDiff :=
  old_rules ← policy_rules old_ast;
  new_rules ← policy_rules new_ast;
  old_default ← default_effect_of old_ast;
  new_default ← default_effect_of new_ast;
  let changed := negb (eqb old_default new_default) in
  let added := added_rules old_rules new_rules in
  let removed := removed_rules old_rules new_rules in
  let modified := modified_rules old_rules new_rules in
  mret (MkDiff old_version new_version added removed modified changed
    (if changed then Some old_default else None) (if changed then Some new_default else None)
    ((changed && eqb new_default "ALLOW") ||
     existsb rd_is_security_sensitive (added ++ removed ++ modified)%list)).

(** ** What the diff reports *)

(** [r_id] is a rule of [m]. *)
Definition has_rule (m : list (pyval * pyval)) (r_id rule : pyval) : Prop := (r_id, rule) ∈ m.

Lemma elem_of_added old new rd :
  rd ∈ added_rules old new ↔ ∃ i r, has_rule new i r ∧ assoc_get i old = None ∧ rd = diff_added i r.
Proof.
  unfold added_rules. rewrite list_elem_of_fmap. setoid_rewrite elem_of_select_where.
  setoid_rewrite negb_true_iff. setoid_rewrite is_some_false. split.
  - intros ([i r] & -> & Hin & Ho). by exists i, r.
  - intros (i & r & Hin & Ho & ->). by exists (i, r).
Qed.

Lemma elem_of_removed old new rd :
  rd ∈ removed_rules old new ↔ ∃ i r, has_rule old i r ∧ assoc_get i new = None ∧ rd = diff_removed i r.
Proof.
  unfold removed_rules. rewrite list_elem_of_fmap. setoid_rewrite elem_of_select_where.
  setoid_rewrite negb_true_iff. setoid_rewrite is_some_false. split.
  - intros ([i r] & -> & Hin & Ho). by exists i, r.
  - intros (i & r & Hin & Ho & ->). by exists (i, r).
Qed.

Lemma elem_of_modified old new rd :
  rd ∈ modified_rules old new ↔ ∃ i r0 r, has_rule new i r ∧ assoc_get i old = Some r0 ∧
    rule_json r0 ≠ rule_json r ∧ rd = diff_modified i r0 r.
Proof.
  unfold modified_rules. rewrite list_elem_of_omap. split.
  - intros ([i r] & Hin & H). simpl in H. destruct (assoc_get i old) as [r0|] eqn:Ho; [|done].
    destruct (eqb _ _) eqn:He; [done|]. reflect. simplify_eq/=. by exists i, r0, r.
  - intros (i & r0 & r & Hin & Ho & Hne & ->). exists (i, r). split; [done|]. simpl. rewrite Ho.
    apply eqb_false in Hne. by rewrite Hne.
Qed.

(** The diff lists exactly the rules that appear, disappear or change their
    JSON text, and flags the version as security sensitive exactly when the
    default becomes ALLOW, an ALLOW rule appears, a DENY or REQUIRE_APPROVAL rule
    disappears, or a changed rule's effect weakens. *)
Theorem diff_spec old_ast new_ast vo vn df :
  compute_policy_diff old_ast new_ast vo vn = Ok df →
  ∃ old new od nd,
    policy_rules old_ast = Ok old ∧ policy_rules new_ast = Ok new ∧
    default_effect_of old_ast = Ok od ∧ default_effect_of new_ast = Ok nd ∧
    (∀ rd, rd ∈ df_added_rules df ↔ ∃ i r, has_rule new i r ∧ assoc_get i old = None ∧ rd = diff_added i r) ∧
    (∀ rd, rd ∈ df_removed_rules df ↔ ∃ i r, has_rule old i r ∧ assoc_get i new = None ∧ rd = diff_removed i r) ∧
    (∀ rd, rd ∈ df_modified_rules df ↔ ∃ i r0 r, has_rule new i r ∧ assoc_get i old = Some r0 ∧
       rule_json r0 ≠ rule_json r ∧ rd = diff_modified i r0 r) ∧
    (df_has_security_sensitive_changes df = true ↔
      (od ≠ "ALLOW" ∧ nd = "ALLOW") ∨
      (∃ i r, has_rule new i r ∧ assoc_get i old = None ∧ effect_of r = "ALLOW") ∨
      (∃ i r, has_rule old i r ∧ assoc_get i new = None ∧
         (effect_of r = "DENY" ∨ effect_of r = "REQUIRE_APPROVAL")) ∨
      (∃ i r0 r, has_rule new i r ∧ assoc_get i old = Some r0 ∧ rule_json r0 ≠ rule_json r ∧
         ((effect_of r0 = "DENY" ∧ effect_of r ≠ "DENY") ∨
          (effect_of r0 = "REQUIRE_APPROVAL" ∧ effect_of r = "ALLOW")))).
Proof.
  unfold compute_policy_diff. rewrite result_bind_run. intros (old & Hold & H).
  rewrite result_bind_run in H. destruct H as (new & Hnew & H).
  rewrite result_bind_run in H. destruct H as (od & Hod & H).
  rewrite result_bind_run in H. destruct H as (nd & Hnd & [= <-]).
  exists old, new, od, nd. cbn [df_added_rules df_removed_rules df_modified_rules df_has_security_sensitive_changes].
  split_and!; try done; [apply elem_of_added | apply elem_of_removed | apply elem_of_modified |].
  rewrite orb_true_iff, existsb_exists. setoid_rewrite <- list_elem_of_In. setoid_rewrite elem_of_app.
  setoid_rewrite elem_of_app. setoid_rewrite elem_of_added. setoid_rewrite elem_of_removed.
  setoid_rewrite elem_of_modified. rewrite andb_true_iff, negb_eqb_true, eqb_true. split.
  - intros [[Hne ->] | (rd & [(i & r & Hin & Ho & ->) | [(i & r & Hin & Ho & ->) | (i & r0 & r & Hin & Ho & Hj & ->)]] & Hs)].
    + by left.
    + right; left. exists i, r. simpl in Hs. by reflect.
    + right; right; left. exists i, r. simpl in Hs. rewrite orb_true_iff, !eqb_true in Hs. done.
    + right; right; right. exists i, r0, r. simpl in Hs.
      rewrite orb_true_iff, !andb_true_iff, negb_eqb_true, !eqb_true in Hs. done.
  - intros [[Hne ->] | [(i & r & Hin & Ho & He) | [(i & r & Hin & Ho & He) | (i & r0 & r & Hin & Ho & Hj & He)]]].
    + by left.
    + right. exists (diff_added i r). split; [left; by exists i, r|]. simpl. by apply eqb_true.
    + right. exists (diff_removed i r). split; [right; left; by exists i, r|]. simpl.
      rewrite orb_true_iff, !eqb_true. done.
    + right. exists (diff_modified i r0 r). split; [right; right; by exists i, r0, r|]. simpl.
      rewrite orb_true_iff, !andb_true_iff, negb_eqb_true, !eqb_true. done.
Qed.

(** Raising the limit of a DENY rule from 500 to a million turns the
    decision on 9000 from DENY to ALLOW, and the diff calls it not sensitive. *)
Theorem loosened_limit_not_flagged :
  let old := policy (VDict []) [allow_all; deny_over "input.amount" "gt" (VInt 500)] in
  let new := policy (VDict []) [allow_all; deny_over "input.amount" "gt" (VInt 1000000)] in
  ev_decision <$> evaluate_apl_policy old (amount_context (VInt 9000)) = Ok "DENY" ∧
  ev_decision <$> evaluate_apl_policy new (amount_context (VInt 9000)) = Ok "ALLOW" ∧
  df_has_security_sensitive_changes <$> compute_policy_diff old new 1 2 = Ok false.
Proof. vm_compute. done. Qed.

Lemma diff_spec_witness :
  ∃ df, compute_policy_diff (policy (VDict []) tiers) (policy (VDict []) [allow_all]) 1 2 = Ok df ∧
    df_has_security_sensitive_changes df = true.
Proof.
  destruct (compute_policy_diff (policy (VDict []) tiers) (policy (VDict []) [allow_all]) 1 2) as [df|e] eqn:H;
    [|exfalso; revert H; by vm_compute].
  exists df. split; [done|].
  destruct (diff_spec _ _ _ _ _ H) as (old & new & od & nd & Ho & Hn & _ & _ & _ & _ & _ & Hiff).
  apply Hiff. right; right; left. vm_compute in Ho, Hn. injection Ho as <-. injection Hn as <-.
  exists (VStr "limit"), (deny_over "input.amount" "gt" (VInt 500)).
  split_and!; [right; left | reflexivity | left; vm_compute; reflexivity].
Defined.

End AplDiff.
