(* ===== verification/AplParser.v ===== *)
(** Parsing of policy documents and their content hash:
    [backend/app/services/apl/parser.py].  The YAML and JSON loaders and SHA-256
    are library code, given as an interface. *)
From Stdlib Require Import Ascii.
From S2P Require Import Prelude.
From S2P Require Import PyStr.
From S2P Require Import PyFloat.
From S2P Require Import PyVal.
From S2P Require Import AplSchema.

Local Open Scope string_scope.

(** [json.loads], [yaml.safe_load] (a failure carries its text) and
    [hashlib.sha256(..).hexdigest()]. *)
Class Loaders : Type := {
  json_loads : string → result string pyval;
  yaml_safe_load : string → result string pyval;
  loaders_hashing :: Hashing
}.

Module AplParser.
Import Apl.

Section parser.
Context `{Loaders}.

Record APLParseError : Type := MkParseError { pe_message : string; pe_path : string }.

Definition compute_policy_content_hash (normalized_ast : pyval) : string :=
  "sha256:" +:+ sha256_hex (canonical_json normalized_ast).

(** [len(s.encode("utf-8"))]: code points from 128 up take two bytes. *)
Fixpoint utf8_length (s : string) : nat :=
  match s with
  | EmptyString => 0
  | String c s => (if (code c <? 128)%N then 1 else 2) + utf8_length s
  end.

Definition supported_version (version : pyval) : bool :=
  truthy version && bool_decide (py_strip (py_str version) ∈ SUPPORTED_APL_VERSIONS).

Definition load (source_text source_format : string) : result string pyval :=
  if eqb (py_lower source_format) "json" then json_loads source_text else yaml_safe_load source_text.

(** Lines 88 to 96: the canonical AST of a parsed document. *)
Definition normalize (d : list (string * pyval)) (version name : pyval) (rules : list pyval) : pyval :=
  VDict [("version", VStr (py_strip (py_str version)));
         ("name", VStr (py_strip (py_str name)));
         ("description", VStr (py_strip (py_str (py_or (get "description" d) (VStr "")))));
         ("target", py_or (get "target" d) (VDict []));
         ("rules", VList rules);
         ("default_effect", VStr (py_upper (py_str (py_or (get "default_effect" d) (VStr "DENY")))))].

Definition parse_policy_document (source_text : pyval) (source_format : string)
    : result APLParseError (pyval * string) :=
  match source_text with
  | VStr (String _ _ as text) =>
      if (MAX_DOCUMENT_SIZE <? utf8_length text)%nat then
        Err (MkParseError ("Policy document size (" +:+ str_of_nat (utf8_length text) +:+
          " bytes) exceeds maximum allowed " +:+ str_of_nat MAX_DOCUMENT_SIZE +:+ " bytes.") "document")
      else
        match load text source_format with
        | Err exc => Err (MkParseError ("Syntax parsing failure: " +:+ exc) "syntax")
        | Ok (VDict d) =>
            let version := get "version" d in
            if negb (supported_version version) then
              Err (MkParseError ("Unsupported or missing policy version '" +:+ py_str version +:+
                "'. Supported: " +:+ py_repr (VList (map VStr SUPPORTED_APL_VERSIONS))) "version")
            else
              match get "name" d with
              | VStr (String _ _) =>
                  match get "rules" d with
                  | VList rules =>
                      if (MAX_RULES_PER_POLICY <? length rules)%nat then
                        Err (MkParseError ("Rule count (" +:+ str_of_nat (length rules) +:+
                          ") exceeds maximum limit of " +:+ str_of_nat MAX_RULES_PER_POLICY +:+
                          " rules per policy.") "rules")
                      else
                        let ast := normalize d version (get "name" d) rules in
                        Ok (ast, compute_policy_content_hash ast)
                  | _ => Err (MkParseError "'rules' must be a list of rule definitions." "rules")
                  end
              | _ => Err (MkParseError "Policy must specify a non-empty string 'name'." "name")
              end
        | Ok _ => Err (MkParseError "Policy root element must be a mapping/object." "root")
        end
  | _ => Err (MkParseError "Policy document must be non-empty string." "document")
  end.

End parser.

(** ** Canonical JSON does not depend on the order of keys *)

(** Equal up to the order of dictionary entries, at every level. *)
Inductive same_value : pyval → pyval → Prop :=
  | sv_refl v : same_value v v
  | sv_list l k : Forall2 same_value l k → same_value (VList l) (VList k)
  | sv_dict d d' e : Forall2 (λ x y : string * pyval, x.1 = y.1 ∧ same_value x.2 y.2) d d' →
      d' ≡ₚ e → NoDup (map fst e) → same_value (VDict d) (VDict e).

Lemma compare_trans_le (a b c : string) :
  String.leb a b = true → String.leb b c = true → String.leb a c = true.
Proof.
  unfold String.leb. revert b c. induction a as [|x a IH]; intros [|y b] [|z c]; simpl; try done.
  unfold Ascii.compare. destruct (N.compare_spec (N_of_ascii x) (N_of_ascii y)) as [Hxy|Hxy|Hxy]; [| |done].
  - rewrite Hxy. destruct (N.compare_spec (N_of_ascii y) (N_of_ascii z)); [apply IH | done | done].
  - intros _. destruct (N.compare_spec (N_of_ascii y) (N_of_ascii z)) as [Hyz|Hyz|Hyz]; [| |done];
      intros _; destruct (N.compare_spec (N_of_ascii x) (N_of_ascii z)); try done; lia.
Qed.

#[export] Instance key_le_trans {V} : Transitive (@key_le V).
Proof. intros a b c. apply compare_trans_le. Qed.
#[export] Instance key_le_total {V} : Total (@key_le V).
Proof. intros a b. apply String.leb_total. Qed.

Lemma NoDup_fst_inj {V} (d : list (string * V)) x y :
  NoDup (map fst d) → x ∈ d → y ∈ d → x.1 = y.1 → x = y.
Proof.
  intros Hnd Hx Hy E. induction d as [|z d IH]; [by apply elem_of_nil in Hx|].
  simpl in Hnd. apply NoDup_cons in Hnd as [Hz Hnd].
  assert (Hin : ∀ w, w ∈ d → w.1 = z.1 → False).
  { intros w Hw E'. apply Hz. rewrite <- E'. apply list_elem_of_fmap. by exists w. }
  apply elem_of_cons in Hx as [->|Hx], Hy as [->|Hy]; [done | | | by apply IH].
  - destruct (Hin y Hy); done.
  - destruct (Hin x Hx); done.
Qed.

Lemma sort_items_perm {V} (d e : list (string * V)) :
  d ≡ₚ e → NoDup (map fst d) → sort_items d = sort_items e.
Proof.
  intros Hp Hnd. unfold sort_items. apply (Sorted_unique_strong key_le).
  - intros x y. rewrite !merge_sort_Permutation. intros Hx Hy H1 H2.
    rewrite <- Hp in Hy. apply (NoDup_fst_inj d); [done..|]. by apply String.leb_antisym.
  - apply Sorted_merge_sort, _.
  - apply Sorted_merge_sort, _.
  - by rewrite !merge_sort_Permutation.
Qed.

Section json_perm.
Context (isep ksep : string).
Local Abbreviation js := (json_dumps isep ksep).

Lemma json_dumps_same v w : same_value v w → js v = js w.
Proof.
  revert w. induction v as [| | | | |l IH|d IH] using pyval_rect_nested; intros w H;
    inversion H as [|l' k' Hl|d1 d' e Hd Hp Hnd]; subst; try done; simpl.
  - do 3 f_equal. clear H. induction Hl as [|x y l k Hxy Hl IHl]; [done|].
    inversion_clear IH. simpl. f_equal; auto.
  - set (f := λ kv : string * pyval, (kv.1, js kv.2)).
    assert (Hmap : map f d = map f d').
    { clear H Hp Hnd. induction Hd as [|x y d d' [E Hxy] Hd IHd]; [done|].
      inversion_clear IH. simpl. unfold f at 1 3. rewrite E. f_equal; [|by apply IHd]. f_equal. auto. }
    rewrite Hmap. rewrite (sort_items_perm (map f d') (map f e)); [done | by rewrite Hp |].
    rewrite map_map. simpl. by rewrite Hp.
Qed.
End json_perm.

Section properties.
Context `{Loaders}.

(** Policies that differ only in the order of the keys of their mappings, at
    any depth, have the same content hash. *)
Theorem hash_ignores_key_order v w :
  same_value v w → compute_policy_content_hash v = compute_policy_content_hash w.
Proof. intros Hs. unfold compute_policy_content_hash, canonical_json. by rewrite (json_dumps_same _ _ _ _ Hs). Qed.

(** C37. Parsing answers with an AST of the six canonical keys in order, of
    version APL/1.0, with at most 50 rules, an upper-case default effect, and the
    hash of that AST; the document was a mapping of at most 64 KB. *)
Theorem parse_sound text fmt ast h :
  parse_policy_document (VStr text) fmt = Ok (ast, h) →
  ∃ d name description target rules effect,
    load text fmt = Ok (VDict d) ∧ (utf8_length text ≤ MAX_DOCUMENT_SIZE)%nat ∧
    ast = VDict [("version", VStr "APL/1.0"); ("name", VStr name); ("description", VStr description);
                 ("target", target); ("rules", VList rules); ("default_effect", VStr effect)] ∧
    get "rules" d = VList rules ∧ (length rules ≤ MAX_RULES_PER_POLICY)%nat ∧
    py_upper effect = effect ∧ h = compute_policy_content_hash ast.
Proof.
  unfold parse_policy_document. destruct text as [|c text]; [done|].
  destruct (Nat.ltb_spec MAX_DOCUMENT_SIZE (utf8_length (String c text))) as [|Hsize]; [done|].
  destruct (load (String c text) fmt) as [[| | | | | |d]|] eqn:Hload; try done.
  destruct (supported_version (get "version" d)) eqn:Hver; [|done]. cbn [negb].
  destruct (get "name" d) as [| | | |[|c' name]| |] eqn:Hname; try done.
  destruct (get "rules" d) as [| | | | |rules|] eqn:Hrules; try done.
  destruct (Nat.ltb_spec MAX_RULES_PER_POLICY (length rules)) as [|Hlen]; [done|].
  intros [= <- <-]. unfold supported_version in Hver. apply andb_true_iff in Hver as [_ Hver].
  apply bool_decide_eq_true, list_elem_of_singleton in Hver.
  exists d. do 5 eexists. split_and!; [done | done | | done | done | | reflexivity].
  - unfold normalize. rewrite Hver. reflexivity.
  - apply py_upper_idem.
Qed.
End properties.

(** ** Witnesses, with loaders of a fixed document *)

Definition fixed_loaders : Loaders :=
  {| json_loads _ := Ok (VDict [("version", VStr "APL/1.0"); ("name", VStr "n"); ("rules", VList [])]);
     yaml_safe_load _ := Err "no document"; loaders_hashing := {| sha256_hex s := s |} |}.

Lemma hash_ignores_key_order_witness :
  @compute_policy_content_hash fixed_loaders (VDict [("b", VInt 1); ("a", VNone)]) =
  @compute_policy_content_hash fixed_loaders (VDict [("a", VNone); ("b", VInt 1)]).
Proof.
  apply (@hash_ignores_key_order fixed_loaders). eapply sv_dict.
  - repeat constructor.
  - apply perm_swap.
  - simpl. apply NoDup_cons. split; [by intros [?|?%elem_of_nil]%elem_of_cons | apply NoDup_singleton].
Defined.

Lemma parse_sound_witness :
  ∃ ast h, @parse_policy_document fixed_loaders (VStr "{}") "JSON" = Ok (ast, h) ∧
    h = @compute_policy_content_hash fixed_loaders ast.
Proof.
  destruct (@parse_policy_document fixed_loaders (VStr "{}") "JSON") as [[ast h]|e] eqn:Hp;
    [|exfalso; revert Hp; by vm_compute].
  exists ast, h. split; [done|].
  by destruct (@parse_sound fixed_loaders _ _ _ _ Hp) as (? & ? & ? & ? & ? & ? & _ & _ & _ & _ & _ & _ & ->).
Defined.

End AplParser.
