(* ===== verification/Models.v ===== *)
(** The persistent data of the program: the enumerations and the columns of the
    mapped classes of [backend/app/models], and the check constraints the
    database enforces on inserted rows.  Identifiers are UUIDs as numbers, times
    are microseconds since the epoch in UTC.  Columns a record leaves out are
    named where it is declared. *)
From Stdlib Require Import Ascii.
From S2P Require Import Prelude.
From S2P Require Import PyStr.
From S2P Require Import PyFloat.
From S2P Require Import PyVal.
From S2P Require Import PyDecimal.

Local Open Scope Z_scope.

Abbreviation uuid := N.
Abbreviation time := Z.

Definition second : Z := 1000000.
Definition minute : Z := 60 * second.
Definition hour : Z := 60 * minute.
Definition day : Z := 24 * hour.

(** ** Enumerations *)

Inductive AgentStatus : Type :=
  | DRAFT | REGISTERED | REVIEW_REQUIRED | APPROVED | ACTIVE | SUSPENDED
  | RETIREMENT_PENDING | RETIRED | INACTIVE | REVOKED.
#[export] Instance AgentStatus_eq_dec : EqDecision AgentStatus.
Proof. solve_decision. Defined.

Definition AgentStatus_value (s : AgentStatus) : string :=
  match s with
  | DRAFT => "draft" | REGISTERED => "registered"
  | REVIEW_REQUIRED => "review_required" | APPROVED => "approved"
  | ACTIVE => "active" | SUSPENDED => "suspended"
  | RETIREMENT_PENDING => "retirement_pending" | RETIRED => "retired"
  | INACTIVE => "inactive" | REVOKED => "revoked"
  end.
(** [for item in AgentStatus], in declaration order. *)
Definition AgentStatus_all : list AgentStatus :=
  [DRAFT; REGISTERED; REVIEW_REQUIRED; APPROVED; ACTIVE; SUSPENDED;
   RETIREMENT_PENDING; RETIRED; INACTIVE; REVOKED].

Inductive PermissionStatus : Type := PermActive | PermRevoked | PermExpired.
#[export] Instance PermissionStatus_eq_dec : EqDecision PermissionStatus.
Proof. solve_decision. Defined.

Inductive DelegationStatus : Type := DlgActive | DlgExpired | DlgRevoked | DlgSuspended.
#[export] Instance DelegationStatus_eq_dec : EqDecision DelegationStatus.
Proof. solve_decision. Defined.

Inductive AuditDecision : Type := AuditApproved | AuditRejected.
#[export] Instance AuditDecision_eq_dec : EqDecision AuditDecision.
Proof. solve_decision. Defined.

Inductive AuthorizationRequestStatus : Type :=
  ReqPending | ReqApproved | ReqRejected | ReqExpired.
#[export] Instance AuthorizationRequestStatus_eq_dec : EqDecision AuthorizationRequestStatus.
Proof. solve_decision. Defined.

Inductive RiskLevel : Type := LOW | MEDIUM | HIGH | CRITICAL.
#[export] Instance RiskLevel_eq_dec : EqDecision RiskLevel.
Proof. solve_decision. Defined.
Definition RiskLevel_value (l : RiskLevel) : string :=
  match l with LOW => "LOW" | MEDIUM => "MEDIUM" | HIGH => "HIGH" | CRITICAL => "CRITICAL" end.

Inductive RiskAction : Type := ALLOW | REQUIRE_APPROVAL | REJECT.
#[export] Instance RiskAction_eq_dec : EqDecision RiskAction.
Proof. solve_decision. Defined.
Definition RiskAction_value (a : RiskAction) : string :=
  match a with ALLOW => "ALLOW" | REQUIRE_APPROVAL => "REQUIRE_APPROVAL" | REJECT => "REJECT" end.

Inductive ExpiryBehavior : Type := AlertOnly | ExpiryReviewRequired | ExpirySuspend.
#[export] Instance ExpiryBehavior_eq_dec : EqDecision ExpiryBehavior.
Proof. solve_decision. Defined.

Inductive CredentialStatus : Type := CredActive | CredRevoked | CredExpired | CredSuspended.
#[export] Instance CredentialStatus_eq_dec : EqDecision CredentialStatus.
Proof. solve_decision. Defined.

Inductive CredentialRevocationReason : Type :=
  | AGENT_REVOKED | AGENT_RETIRED | KEY_COMPROMISED | CLAIMS_CHANGED
  | ISSUER_ACTION | SECURITY_EVENT.

Inductive NotificationStatus : Type := Unread | Read | Archived.
#[export] Instance NotificationStatus_eq_dec : EqDecision NotificationStatus.
Proof. solve_decision. Defined.

Inductive NotificationPriority : Type := PrioLow | PrioNormal | PrioHigh | PrioCritical.
#[export] Instance NotificationPriority_eq_dec : EqDecision NotificationPriority.
Proof. solve_decision. Defined.

Inductive NotificationType : Type :=
  | AUTHORIZATION_PENDING | AUTHORIZATION_APPROVED | AUTHORIZATION_REJECTED
  | PERMISSION_EXPIRING | PERMISSION_EXPIRED | AGENT_SUSPENDED_N | AGENT_REVOKED_N
  | API_KEY_REVOKED | SECURITY_ALERT | TEAM_INVITATION | HIGH_RISK_APPROVAL_REQUIRED
  | BILLING_USAGE_WARNING | BILLING_PLAN_CHANGED | BILLING_PAYMENT_FAILED
  | BILLING_CANCELING.
#[export] Instance NotificationType_eq_dec : EqDecision NotificationType.
Proof. solve_decision. Defined.

Inductive DeliveryChannel : Type := InApp | Push | Email.
#[export] Instance DeliveryChannel_eq_dec : EqDecision DeliveryChannel.
Proof. solve_decision. Defined.
Inductive DeliveryStatus : Type := DelPending | DelSent | DelDelivered | DelFailed.
#[export] Instance DeliveryStatus_eq_dec : EqDecision DeliveryStatus.
Proof. solve_decision. Defined.
Inductive DevicePlatform : Type := Android | Ios.
#[export] Instance DevicePlatform_eq_dec : EqDecision DevicePlatform.
Proof. solve_decision. Defined.
Definition DevicePlatform_value (p : DevicePlatform) : string :=
  match p with Android => "android" | Ios => "ios" end.
Inductive DeviceStatus : Type := DevActive | DevRevoked.
#[export] Instance DeviceStatus_eq_dec : EqDecision DeviceStatus.
Proof. solve_decision. Defined.

(** ** Mapped classes *)

(** [agents]; the relationships and the columns [classification_reasons],
    [external_reference] and [updated_at], which no modelled operation reads or
    writes, are left out. *)
Record Agent : Type := MkAgent {
  ag_id : uuid;
  ag_created_at : time;
  ag_name : string;
  ag_identifier : string;
  ag_environment : string;
  ag_owner_id : uuid;
  ag_organization_id : option uuid;
  ag_status : AgentStatus;
  ag_owner_type : string;
  ag_purpose : option string;
  ag_risk_classification : string;
  ag_last_activity_at : option time;
  ag_last_reviewed_at : option time;
  ag_next_review_due_at : option time;
  ag_certified_until : option time;
  ag_certification_status : string;
  ag_description : option string;
  ag_team : option string;
  ag_business_function : option string;
  ag_business_criticality : string;
  ag_data_classification : string;
  ag_source : string;
  ag_tags : list string;
  ag_expected_actions : list string;
  ag_data_access_description : option string
}.

Record Permission : Type := MkPermission {
  pm_id : uuid;
  pm_created_at : time;
  pm_updated_at : time;
  pm_owner_id : uuid;
  pm_agent_id : uuid;
  pm_action : string;
  pm_resource : string;
  pm_maximum_amount : option dec;
  pm_currency : option string;
  pm_requires_approval : bool;
  pm_allow_delegation : bool;
  pm_valid_from : time;
  pm_expires_at : time;
  pm_status : PermissionStatus
}.

Record AgentDelegation : Type := MkDelegation {
  dl_id : uuid;
  dl_delegation_id : string;
  dl_parent_agent_id : uuid;
  dl_child_agent_id : uuid;
  dl_parent_permission_id : uuid;
  dl_parent_delegation_id : option uuid;
  dl_organization_id : uuid;
  dl_action : string;
  dl_resource : string;
  dl_maximum_amount : option dec;
  dl_currency : option string;
  dl_requires_approval : bool;
  dl_allow_further_delegation : bool;
  dl_current_depth : Z;
  dl_max_delegation_depth : Z;
  dl_valid_from : time;
  dl_expires_at : time;
  dl_status : DelegationStatus;
  dl_revoked_at : option time;
  dl_revocation_reason : option string;
  dl_revoked_by_agent_id : option uuid;
  dl_revoked_by_user_id : option uuid;
  dl_created_at : time
}.

Record AuditLog : Type := MkAuditLog {
  al_id : uuid;
  al_request_id : string;
  al_environment : string;
  al_user_id : uuid;
  al_organization_id : option uuid;
  al_agent_id : option uuid;
  al_agent_identifier : string;
  al_permission_id : option uuid;
  al_delegation_id : option string;
  al_parent_agent_id : option uuid;
  al_action : string;
  al_resource : string;
  al_amount : option dec;
  al_currency : option string;
  al_decision : AuditDecision;
  al_reason : string;
  al_risk_score : option Z;
  al_risk_level : option string;
  al_risk_recommendation : option string;
  al_signature_verified : bool;
  al_signing_key_id : option string;
  al_signature_version : option string;
  al_requested_at : time;
  al_created_at : time
}.

Record AuthorizationRequestRecord : Type := MkRequestRecord {
  ar_id : uuid;
  ar_request_id : string;
  ar_user_id : uuid;
  ar_agent_id : uuid;
  ar_permission_id : uuid;
  ar_environment : string;
  ar_delegation_id : option string;
  ar_parent_agent_id : option uuid;
  ar_action : string;
  ar_resource : string;
  ar_amount : option dec;
  ar_currency : option string;
  ar_status : AuthorizationRequestStatus;
  ar_reason : string;
  ar_policy_reason : option string;
  ar_risk_score : option Z;
  ar_risk_level : option string;
  ar_risk_recommendation : option string;
  ar_signature_verified : bool;
  ar_signing_key_id : option string;
  ar_signature_version : option string;
  ar_created_at : time;
  ar_expires_at : time;
  ar_decided_at : option time
}.

(** The [features] column of an assessment: the values [evaluate] puts in its
    dictionary, under their keys. *)
Record RiskAssessment : Type := MkAssessment {
  ra_id : uuid;
  ra_request_id : string;
  ra_user_id : uuid;
  ra_organization_id : option uuid;
  ra_agent_id : uuid;
  ra_permission_id : option uuid;
  ra_risk_score : Z;
  ra_risk_level : RiskLevel;
  ra_decision_recommendation : RiskAction;
  ra_reasons : list string;
  ra_features : list (string * pyval);
  ra_model_version : string;
  ra_created_at : time
}.

Record RiskPolicy : Type := MkRiskPolicy {
  rp_id : uuid;
  rp_organization_id : option uuid;
  rp_user_id : option uuid;
  rp_enabled : bool;
  rp_medium_action : RiskAction;
  rp_high_action : RiskAction;
  rp_critical_action : RiskAction;
  rp_amount_anomaly_enabled : bool;
  rp_velocity_enabled : bool;
  rp_rejection_history_enabled : bool;
  rp_created_at : time
}.

Record OrganizationSecurityPolicy : Type := MkOrgPolicy {
  op_organization_id : uuid;
  op_require_mfa : bool;
  op_require_sso : bool;
  op_session_timeout_minutes : Z;
  op_max_session_lifetime_minutes : Z;
  op_allowed_email_domains : list string;
  op_require_manual_approval_above_amount : option dec;
  op_approval_threshold_currency : string;
  op_block_critical_risk : bool;
  op_require_approval_for_high_risk : bool
}.

Record AgentGovernancePolicy : Type := MkGovernancePolicy {
  gp_organization_id : option uuid;
  gp_periodic_review_days : Z;
  gp_expiry_behavior : ExpiryBehavior;
  gp_dormancy_days : Z;
  gp_enforce_separation_of_duties : bool;
  gp_require_classification_on_promotion : bool;
  gp_require_purpose_on_promotion : bool
}.

Record AgentCredential : Type := MkCredential {
  cr_id : uuid;
  cr_credential_id : string;
  cr_issuer_id : uuid;
  cr_subject_agent_id : uuid;
  cr_organization_id : uuid;
  cr_credential_type : string;
  cr_schema_version : string;
  cr_environment : string;
  cr_issued_at : time;
  cr_not_before : option time;
  cr_expires_at : time;
  cr_status : CredentialStatus;
  cr_signing_key_id : string;
  cr_claims_json : pyval;
  cr_claims_hash : string;
  cr_signature_value : string;
  cr_revoked_at : option time;
  cr_revocation_reason_code : option CredentialRevocationReason
}.

Record SecurityEvent : Type := MkSecurityEvent {
  se_event_id : option string;
  se_organization_id : option uuid;
  se_actor_user_id : option uuid;
  se_target_user_id : option uuid;
  se_event_type : string;
  se_category : option string;
  se_severity : string;
  se_description : option string;
  se_source_type : option string;
  se_source_id : option string;
  se_agent_id : option uuid;
  se_gateway_id : option uuid;
  se_credential_id : option uuid;
  se_request_id : option string;
  se_trace_id : option string;
  se_correlation_id : option string;
  se_actor_type : option string;
  se_actor_id : option string;
  se_target_type : option string;
  se_target_id : option string;
  se_action : option string;
  se_decision : option string;
  se_risk_level : option string;
  se_region : option string;
  se_environment : option string;
  se_details : list (string * pyval);
  se_created_at : time
}.

(** [SecurityEvent(event_type=.., severity=..)] with the other columns left to
    their defaults, and the columns the services set next to them. *)
Definition security_event (event_type severity : string) (now : time) : SecurityEvent :=
  MkSecurityEvent None None None None event_type None severity None None None None None None None None None
    None None None None None None None None (Some "production"%string) [] now.
Definition with_scope (org actor target : option uuid) (e : SecurityEvent) : SecurityEvent :=
  MkSecurityEvent (se_event_id e) org actor target (se_event_type e) (se_category e) (se_severity e)
    (se_description e) (se_source_type e) (se_source_id e) (se_agent_id e) (se_gateway_id e)
    (se_credential_id e) (se_request_id e) (se_trace_id e) (se_correlation_id e) (se_actor_type e)
    (se_actor_id e) (se_target_type e) (se_target_id e) (se_action e) (se_decision e) (se_risk_level e)
    (se_region e) (se_environment e) (se_details e) (se_created_at e).
Definition with_text (description : option string) (details : list (string * pyval)) (e : SecurityEvent) : SecurityEvent :=
  MkSecurityEvent (se_event_id e) (se_organization_id e) (se_actor_user_id e) (se_target_user_id e)
    (se_event_type e) (se_category e) (se_severity e) description (se_source_type e) (se_source_id e)
    (se_agent_id e) (se_gateway_id e) (se_credential_id e) (se_request_id e) (se_trace_id e)
    (se_correlation_id e) (se_actor_type e) (se_actor_id e) (se_target_type e) (se_target_id e)
    (se_action e) (se_decision e) (se_risk_level e) (se_region e) (se_environment e) details (se_created_at e).

(** [policy_versions] with the organization of its policy. *)
Record PolicyVersion : Type := MkPolicyVersion {
  pv_id : uuid;
  pv_policy_organization_id : uuid;
  pv_version_number : Z;
  pv_source_format : string;
  pv_source_document : string;
  pv_normalized_document : pyval;
  pv_content_hash : string;
  pv_status : string;
  pv_rule_count : Z
}.

Record Notification : Type := MkNotification {
  nt_id : uuid;
  nt_user_id : uuid;
  nt_organization_id : option uuid;
  nt_type : NotificationType;
  nt_title : string;
  nt_message : string;
  nt_status : NotificationStatus;
  nt_priority : NotificationPriority;
  nt_related_request_id : option uuid;
  nt_related_agent_id : option uuid;
  nt_related_permission_id : option uuid;
  nt_metadata : option (list (string * pyval));
  nt_deduplication_key : option string;
  nt_created_at : time;
  nt_read_at : option time
}.

Record NotificationPreference : Type := MkPreference {
  np_user_id : uuid;
  np_push_enabled : bool;
  np_email_enabled : bool;
  np_in_app_enabled : bool;
  np_security_email_enabled : bool;
  np_approval_push_enabled : bool;
  np_approval_email_enabled : bool;
  np_permission_expiry_enabled : bool;
  np_general_activity_enabled : bool
}.

Record Device : Type := MkDevice {
  dv_id : uuid;
  dv_user_id : uuid;
  dv_push_token : string;
  dv_platform : DevicePlatform;
  dv_device_name : option string;
  dv_status : DeviceStatus;
  dv_last_seen_at : time
}.

Record NotificationDelivery : Type := MkDelivery {
  nd_id : uuid;
  nd_notification_id : uuid;
  nd_channel : DeliveryChannel;
  nd_status : DeliveryStatus;
  nd_attempt_count : Z;
  nd_created_at : time
}.

Inductive APIKeyStatus : Type := KeyActive | KeyRevoked | KeyExpired.
#[export] Instance APIKeyStatus_eq_dec : EqDecision APIKeyStatus.
Proof. solve_decision. Defined.

Record APIKey : Type := MkAPIKey {
  ak_id : uuid;
  ak_created_at : time;
  ak_organization_id : option uuid;
  ak_created_by_user_id : uuid;
  ak_name : string;
  ak_environment : string;
  ak_key_prefix : string;
  ak_key_hash : string;
  ak_status : APIKeyStatus;
  ak_last_used_at : option time;
  ak_expires_at : option time;
  ak_revoked_at : option time
}.

(** A validated authorization request ([schemas/authorization.py]). *)
Record AuthorizationRequest : Type := MkRequest {
  rq_agent_id : string;
  rq_action : string;
  rq_resource : string;
  rq_amount : option dec;
  rq_currency : option string;
  rq_delegation_id : option string
}.

(** ** Field updates *)

Definition set_ag_status (s : AgentStatus) (a : Agent) : Agent :=
  {| ag_id := ag_id a; ag_created_at := ag_created_at a; ag_name := ag_name a;
     ag_identifier := ag_identifier a; ag_environment := ag_environment a;
     ag_owner_id := ag_owner_id a; ag_organization_id := ag_organization_id a;
     ag_status := s; ag_owner_type := ag_owner_type a; ag_purpose := ag_purpose a;
     ag_risk_classification := ag_risk_classification a;
     ag_last_activity_at := ag_last_activity_at a;
     ag_last_reviewed_at := ag_last_reviewed_at a;
     ag_next_review_due_at := ag_next_review_due_at a;
     ag_certified_until := ag_certified_until a;
     ag_certification_status := ag_certification_status a;
     ag_description := ag_description a; ag_team := ag_team a;
     ag_business_function := ag_business_function a;
     ag_business_criticality := ag_business_criticality a;
     ag_data_classification := ag_data_classification a;
     ag_source := ag_source a; ag_tags := ag_tags a;
     ag_expected_actions := ag_expected_actions a;
     ag_data_access_description := ag_data_access_description a |}.

Definition set_ag_last_activity_at (t : option time) (a : Agent) : Agent :=
  {| ag_id := ag_id a; ag_created_at := ag_created_at a; ag_name := ag_name a;
     ag_identifier := ag_identifier a; ag_environment := ag_environment a;
     ag_owner_id := ag_owner_id a; ag_organization_id := ag_organization_id a;
     ag_status := ag_status a; ag_owner_type := ag_owner_type a; ag_purpose := ag_purpose a;
     ag_risk_classification := ag_risk_classification a;
     ag_last_activity_at := t;
     ag_last_reviewed_at := ag_last_reviewed_at a;
     ag_next_review_due_at := ag_next_review_due_at a;
     ag_certified_until := ag_certified_until a;
     ag_certification_status := ag_certification_status a;
     ag_description := ag_description a; ag_team := ag_team a;
     ag_business_function := ag_business_function a;
     ag_business_criticality := ag_business_criticality a;
     ag_data_classification := ag_data_classification a;
     ag_source := ag_source a; ag_tags := ag_tags a;
     ag_expected_actions := ag_expected_actions a;
     ag_data_access_description := ag_data_access_description a |}.

Definition set_ag_certification (until due : option time) (st : string) (a : Agent) : Agent :=
  {| ag_id := ag_id a; ag_created_at := ag_created_at a; ag_name := ag_name a;
     ag_identifier := ag_identifier a; ag_environment := ag_environment a;
     ag_owner_id := ag_owner_id a; ag_organization_id := ag_organization_id a;
     ag_status := ag_status a; ag_owner_type := ag_owner_type a; ag_purpose := ag_purpose a;
     ag_risk_classification := ag_risk_classification a;
     ag_last_activity_at := ag_last_activity_at a;
     ag_last_reviewed_at := ag_last_reviewed_at a;
     ag_next_review_due_at := due;
     ag_certified_until := until;
     ag_certification_status := st;
     ag_description := ag_description a; ag_team := ag_team a;
     ag_business_function := ag_business_function a;
     ag_business_criticality := ag_business_criticality a;
     ag_data_classification := ag_data_classification a;
     ag_source := ag_source a; ag_tags := ag_tags a;
     ag_expected_actions := ag_expected_actions a;
     ag_data_access_description := ag_data_access_description a |}.

(** An [UPDATE] of a permission also refreshes [updated_at]. *)
Definition set_pm_status (s : PermissionStatus) (now : time) (p : Permission) : Permission :=
  {| pm_id := pm_id p; pm_created_at := pm_created_at p; pm_updated_at := now;
     pm_owner_id := pm_owner_id p; pm_agent_id := pm_agent_id p;
     pm_action := pm_action p; pm_resource := pm_resource p;
     pm_maximum_amount := pm_maximum_amount p; pm_currency := pm_currency p;
     pm_requires_approval := pm_requires_approval p;
     pm_allow_delegation := pm_allow_delegation p;
     pm_valid_from := pm_valid_from p; pm_expires_at := pm_expires_at p;
     pm_status := s |}.

Definition set_dl_status (s : DelegationStatus) (d : AgentDelegation) : AgentDelegation :=
  {| dl_id := dl_id d; dl_delegation_id := dl_delegation_id d;
     dl_parent_agent_id := dl_parent_agent_id d; dl_child_agent_id := dl_child_agent_id d;
     dl_parent_permission_id := dl_parent_permission_id d;
     dl_parent_delegation_id := dl_parent_delegation_id d;
     dl_organization_id := dl_organization_id d; dl_action := dl_action d;
     dl_resource := dl_resource d; dl_maximum_amount := dl_maximum_amount d;
     dl_currency := dl_currency d; dl_requires_approval := dl_requires_approval d;
     dl_allow_further_delegation := dl_allow_further_delegation d;
     dl_current_depth := dl_current_depth d;
     dl_max_delegation_depth := dl_max_delegation_depth d;
     dl_valid_from := dl_valid_from d; dl_expires_at := dl_expires_at d;
     dl_status := s; dl_revoked_at := dl_revoked_at d;
     dl_revocation_reason := dl_revocation_reason d;
     dl_revoked_by_agent_id := dl_revoked_by_agent_id d;
     dl_revoked_by_user_id := dl_revoked_by_user_id d;
     dl_created_at := dl_created_at d |}.

Definition set_dl_revocation (t : option time) (reason : option string)
    (agent user : option uuid) (d : AgentDelegation) : AgentDelegation :=
  {| dl_id := dl_id d; dl_delegation_id := dl_delegation_id d;
     dl_parent_agent_id := dl_parent_agent_id d; dl_child_agent_id := dl_child_agent_id d;
     dl_parent_permission_id := dl_parent_permission_id d;
     dl_parent_delegation_id := dl_parent_delegation_id d;
     dl_organization_id := dl_organization_id d; dl_action := dl_action d;
     dl_resource := dl_resource d; dl_maximum_amount := dl_maximum_amount d;
     dl_currency := dl_currency d; dl_requires_approval := dl_requires_approval d;
     dl_allow_further_delegation := dl_allow_further_delegation d;
     dl_current_depth := dl_current_depth d;
     dl_max_delegation_depth := dl_max_delegation_depth d;
     dl_valid_from := dl_valid_from d; dl_expires_at := dl_expires_at d;
     dl_status := dl_status d; dl_revoked_at := t;
     dl_revocation_reason := reason;
     dl_revoked_by_agent_id := agent;
     dl_revoked_by_user_id := user;
     dl_created_at := dl_created_at d |}.

Definition set_ar_decision (s : AuthorizationRequestStatus) (reason : string)
    (t : option time) (r : AuthorizationRequestRecord) : AuthorizationRequestRecord :=
  {| ar_id := ar_id r; ar_request_id := ar_request_id r; ar_user_id := ar_user_id r;
     ar_agent_id := ar_agent_id r; ar_permission_id := ar_permission_id r;
     ar_environment := ar_environment r; ar_delegation_id := ar_delegation_id r;
     ar_parent_agent_id := ar_parent_agent_id r; ar_action := ar_action r;
     ar_resource := ar_resource r; ar_amount := ar_amount r; ar_currency := ar_currency r;
     ar_status := s; ar_reason := reason; ar_policy_reason := ar_policy_reason r;
     ar_risk_score := ar_risk_score r; ar_risk_level := ar_risk_level r;
     ar_risk_recommendation := ar_risk_recommendation r;
     ar_signature_verified := ar_signature_verified r;
     ar_signing_key_id := ar_signing_key_id r;
     ar_signature_version := ar_signature_version r;
     ar_created_at := ar_created_at r; ar_expires_at := ar_expires_at r;
     ar_decided_at := t |}.

Definition set_cr_status (st : CredentialStatus) (at_ : option time)
    (reason : option CredentialRevocationReason) (c : AgentCredential) : AgentCredential :=
  MkCredential (cr_id c) (cr_credential_id c) (cr_issuer_id c) (cr_subject_agent_id c)
    (cr_organization_id c) (cr_credential_type c) (cr_schema_version c) (cr_environment c)
    (cr_issued_at c) (cr_not_before c) (cr_expires_at c) st (cr_signing_key_id c) (cr_claims_json c)
    (cr_claims_hash c) (cr_signature_value c) at_ reason.
Definition set_cr_revoked (now : time) (reason : CredentialRevocationReason) : AgentCredential → AgentCredential :=
  set_cr_status CredRevoked (Some now) (Some reason).

Definition set_nt_status (s : NotificationStatus) (r : option time) (n : Notification) : Notification :=
  {| nt_id := nt_id n; nt_user_id := nt_user_id n; nt_organization_id := nt_organization_id n;
     nt_type := nt_type n; nt_title := nt_title n; nt_message := nt_message n;
     nt_status := s; nt_priority := nt_priority n;
     nt_related_request_id := nt_related_request_id n;
     nt_related_agent_id := nt_related_agent_id n;
     nt_related_permission_id := nt_related_permission_id n; nt_metadata := nt_metadata n;
     nt_deduplication_key := nt_deduplication_key n; nt_created_at := nt_created_at n;
     nt_read_at := r |}.

Definition set_device (pl : DevicePlatform) (name : option string) (s : DeviceStatus)
    (seen : time) (d : Device) : Device :=
  {| dv_id := dv_id d; dv_user_id := dv_user_id d; dv_push_token := dv_push_token d;
     dv_platform := pl; dv_device_name := name; dv_status := s; dv_last_seen_at := seen |}.

(** ** Methods and check constraints *)

(** [Permission.is_usable] and [AgentDelegation.is_usable] *)
Definition permission_is_usable (p : Permission) (at_ : time) : bool :=
  eqb (pm_status p) PermActive && (pm_valid_from p <=? at_) && (at_ <? pm_expires_at p).
Definition delegation_is_usable (d : AgentDelegation) (at_ : time) : bool :=
  eqb (dl_status d) DlgActive && (dl_valid_from d <=? at_) && (at_ <? dl_expires_at d).

Definition dec_pos (a : dec) : bool := 0 <? coef a.
Definition dec_nonneg (a : dec) : bool := 0 <=? coef a.
Definition opt_check {A} (p : A → bool) (o : option A) : bool :=
  match o with Some a => p a | None => true end.
Definition same_null {A B} (a : option A) (b : option B) : bool :=
  Bool.eqb (is_some a) (is_some b).
Definition not_empty (s : string) : bool := negb (eqb s ""%string).
(** A [String(n)] column refuses a longer value. *)
Definition fits (n : nat) (s : string) : bool := (String.length s <=? n)%nat.

Definition permission_checks (p : Permission) : bool :=
  opt_check dec_pos (pm_maximum_amount p) &&
  same_null (pm_maximum_amount p) (pm_currency p) &&
  opt_check is_currency (pm_currency p) &&
  (pm_valid_from p <? pm_expires_at p) &&
  not_empty (pm_action p) && not_empty (pm_resource p).

Definition delegation_checks (d : AgentDelegation) : bool :=
  negb (eqb (dl_parent_agent_id d) (dl_child_agent_id d)) &&
  (dl_valid_from d <? dl_expires_at d) &&
  opt_check dec_pos (dl_maximum_amount d) &&
  same_null (dl_maximum_amount d) (dl_currency d) &&
  opt_check is_currency (dl_currency d) &&
  ((0 <? dl_current_depth d) && (dl_current_depth d <=? dl_max_delegation_depth d)).

Definition audit_checks (l : AuditLog) : bool :=
  opt_check dec_nonneg (al_amount l) &&
  same_null (al_amount l) (al_currency l) &&
  opt_check is_currency (al_currency l) &&
  not_empty (al_action l) && not_empty (al_resource l) &&
  fits 255 (al_reason l).

Definition request_checks (r : AuthorizationRequestRecord) : bool :=
  opt_check dec_nonneg (ar_amount r) &&
  same_null (ar_amount r) (ar_currency r) &&
  opt_check is_currency (ar_currency r) &&
  (ar_created_at r <? ar_expires_at r) &&
  Bool.eqb (eqb (ar_status r) ReqPending) (negb (is_some (ar_decided_at r))) &&
  fits 255 (ar_reason r) && opt_check (fits 255) (ar_policy_reason r).

Definition assessment_checks (a : RiskAssessment) : bool :=
  (0 <=? ra_risk_score a) && (ra_risk_score a <=? 100).
