(* ===== verification/RateLimit.v ===== *)
(** Request rate limits ([backend/app/services/rate_limit.py]): the sliding
    window kept in memory, refined to a specification by the history of granted
    requests, and the fixed window kept in Redis.  The lock makes a call atomic;
    keys are texts, times microseconds. *)
From S2P Require Import Prelude.
From S2P Require Import PyStr.
From S2P Require Import Models.

Local Open Scope Z_scope.

Module RateLimit.

(** ** The limiter in memory *)

(** [_events]: the granted times of each key, oldest first; an absent key is an
    empty deque. *)
Abbreviation limiter := (gmap string (list time)).
Definition events_of (l : limiter) (key_id : string) : list time := default [] (l !! key_id).

(** [while events and events[0] <= cutoff: events.popleft()] *)
Fixpoint popleft_until (cutoff : time) (events : list time) : list time :=
  match events with
  | e :: rest => if e <=? cutoff then popleft_until cutoff rest else events
  | [] => []
  end.

Definition allow (l : limiter) (key_id : string) (limit : Z) (checked_at : time) : bool * limiter :=
  let cutoff := checked_at - minute in
  let events := popleft_until cutoff (events_of l key_id) in
  if limit <=? Z.of_nat (length events) then (false, <[key_id := events]> l)
  else (true, <[key_id := (events ++ [checked_at])%list]> l).

Definition clear (l : limiter) : limiter := ∅.

(** ** The distributed limiter

    [incr] is the answer of the pipeline: the counter of the key after its
    increment, or nothing when Redis fails.  [digest] is the text of the hash. *)
Definition redis_key (namespace digest : string) (checked_at : time) : string :=
  namespace +:+ ":" +:+ str_of_Z (checked_at / second / 60) +:+ ":" +:+ digest.

Definition redis_allow (incr : string → option Z) (namespace digest : string) (limit : Z) (checked_at : time) : bool :=
  match incr (redis_key namespace digest checked_at) with
  | Some count => count <=? limit
  | None => false
  end.

(** ** Specification

    A limiter remembers what it granted, for ever; a request is granted when
    fewer than [limit] requests of its key were granted in the minute up to it. *)
Definition history : Type := list (string * time).

Definition in_window (key_id : string) (at_ : time) (g : string * time) : bool :=
  eqb g.1 key_id && (at_ - minute <? g.2) && (g.2 <=? at_).
Definition granted_in (h : history) (key_id : string) (at_ : time) : Z :=
  Z.of_nat (count_where (in_window key_id at_) h).

Definition spec_allow (h : history) (key_id : string) (limit : Z) (at_ : time) : bool * history :=
  if granted_in h key_id at_ <? limit then (true, (h ++ [(key_id, at_)])%list) else (false, h).

(** ** Runs *)

Record call : Type := MkCall { c_key : string; c_limit : Z; c_at : time }.

Fixpoint run {S} (step : S → string → Z → time → bool * S) (s : S) (cs : list call) : list bool * S :=
  match cs with
  | [] => ([], s)
  | c :: cs =>
      let r := step s (c_key c) (c_limit c) (c_at c) in
      let rest := run step r.2 cs in (r.1 :: rest.1, rest.2)
  end.

(** Calls in the order of a clock that does not go back, from [t] on. *)
Fixpoint clocked (t : time) (cs : list call) : Prop :=
  match cs with [] => True | c :: cs => t <= c_at c ∧ clocked (c_at c) cs end.

(** ** Refinement *)

Definition of_key (key_id : string) (h : history) : list time :=
  map snd (select_where (λ g, eqb g.1 key_id) h).

(** At time [t]: what the limiter holds for a key is what was granted to it, but
    for a prefix that a window ending at [t] or later no longer reaches. *)
Definition simulates (t : time) (l : limiter) (h : history) : Prop :=
  StronglySorted Z.le (map snd h) ∧ (∀ x, x ∈ map snd h → x <= t) ∧
  ∀ k, ∃ old, of_key k h = (old ++ events_of l k)%list ∧ ∀ x, x ∈ old → x <= t - minute.

Lemma popleft_split c l : StronglySorted Z.le l →
  ∃ old, l = (old ++ popleft_until c l)%list ∧ (∀ x, x ∈ old → x <= c) ∧ (∀ x, x ∈ popleft_until c l → c < x).
Proof.
  induction 1 as [|a l Hs (old & Hl & Hold & Hnew) Ha]; simpl.
  - exists []. split_and!; [done | intros x; by rewrite elem_of_nil..].
  - destruct (a <=? c) eqn:Hc; reflect.
    + exists (a :: old). rewrite Hl at 1. split_and!; [done | | done].
      intros x [->|Hx]%elem_of_cons; [done | by apply Hold].
    + exists []. split_and!; [done | intros x; by rewrite elem_of_nil|].
      intros x [->|Hx]%elem_of_cons; [done|]. rewrite Forall_forall in Ha. specialize (Ha x Hx). lia.
Qed.

Lemma of_key_app k h h' : of_key k (h ++ h') = (of_key k h ++ of_key k h')%list.
Proof. unfold of_key. by rewrite select_where_app, map_app. Qed.

Lemma elem_of_of_key k h x : x ∈ of_key k h → x ∈ map snd h.
Proof.
  unfold of_key. rewrite !list_elem_of_fmap. intros (g & -> & [Hg _]%elem_of_select_where). by exists g.
Qed.

Lemma sorted_of_key k h : StronglySorted Z.le (map snd h) → StronglySorted Z.le (of_key k h).
Proof.
  induction h as [|[j x] h IH]; simpl; [done|].
  intros [Hs Hx]%StronglySorted_inv. unfold of_key. simpl.
  destruct (eqb j k); simpl; [|by apply IH]. constructor; [by apply IH|].
  rewrite Forall_forall in *. intros y Hy. by apply Hx, (elem_of_of_key k).
Qed.

Lemma granted_in_of_key h k t :
  granted_in h k t = Z.of_nat (count_where (λ x, (t - minute <? x) && (x <=? t)) (of_key k h)).
Proof.
  unfold granted_in, of_key, count_where, in_window. f_equal.
  induction h as [|[j x] h IH]; simpl; [done|].
  destruct (eqb j k); simpl; [|done]. destruct (_ && _); simpl; by rewrite IH.
Qed.

Lemma select_where_all {A} (p : A → bool) l : (∀ x, x ∈ l → p x = true) → select_where p l = l.
Proof.
  induction l as [|a l IH]; simpl; intros H; [done|]. rewrite (H a) by left.
  f_equal. apply IH. intros x Hx. apply H. by right.
Qed.

(** What the limiter still holds is what the window holds. *)
Lemma window_held t at_ l h k : t <= at_ → simulates t l h →
  granted_in h k at_ = Z.of_nat (length (popleft_until (at_ - minute) (events_of l k))) ∧
  ∃ old, of_key k h = (old ++ popleft_until (at_ - minute) (events_of l k))%list ∧ ∀ x, x ∈ old → x <= at_ - minute.
Proof.
  intros Ht (Hsort & Hmax & Hk). destruct (Hk k) as (old & Hof & Hold).
  pose proof (sorted_of_key k h Hsort) as Hs. rewrite Hof in Hs.
  apply StronglySorted_app_1_r in Hs.
  destruct (popleft_split (at_ - minute) _ Hs) as (gone & Hsplit & Hgone & Hkept).
  set (kept := popleft_until _ _) in *.
  assert (Hall : of_key k h = ((old ++ gone) ++ kept)%list) by by rewrite Hof, Hsplit at 1; rewrite app_assoc.
  assert (Hout : ∀ x, x ∈ (old ++ gone)%list → x <= at_ - minute).
  { intros x [Hx|Hx]%elem_of_app; [specialize (Hold x Hx); lia | by apply Hgone]. }
  split; [|by exists (old ++ gone)%list].
  rewrite granted_in_of_key, Hall. unfold count_where. rewrite select_where_app, length_app.
  rewrite (proj2 (select_where_nil _ (old ++ gone)%list)).
  2: { intros x Hx. apply andb_false_iff. left. apply Z.ltb_ge. by apply Hout. }
  rewrite (select_where_all _ kept); [simpl; lia|].
  intros x Hx. apply andb_true_iff. split; [apply Z.ltb_lt; by apply Hkept|].
  apply Z.leb_le. etrans; [apply Hmax, (elem_of_of_key k); rewrite Hall; apply elem_of_app; by right | done].
Qed.

Lemma allow_simulates t c l h : t <= c_at c → simulates t l h →
  (allow l (c_key c) (c_limit c) (c_at c)).1 = (spec_allow h (c_key c) (c_limit c) (c_at c)).1 ∧
  simulates (c_at c) (allow l (c_key c) (c_limit c) (c_at c)).2 (spec_allow h (c_key c) (c_limit c) (c_at c)).2.
Proof.
  destruct c as [key limit at_]. cbn [c_key c_limit c_at]. intros Ht Hsim.
  destruct (window_held t at_ l h key Ht Hsim) as (Hcount & old & Hof & Hold).
  destruct Hsim as (Hsort & Hmax & Hk). unfold allow, spec_allow. rewrite Hcount.
  set (kept := popleft_until _ _) in *.
  assert (Hothers : ∀ k, k ≠ key → ∀ v, ∃ o, of_key k h = (o ++ events_of (<[key := v]> l) k)%list ∧
    ∀ x, x ∈ o → x <= at_ - minute).
  { intros k Hne v. destruct (Hk k) as (o & Ho & Hle). exists o. unfold events_of. rewrite lookup_insert_ne by done.
    split; [done|]. intros x Hx. specialize (Hle x Hx). lia. }
  assert (Hnil : ∀ k, k ≠ key → of_key k [(key, at_)] = []).
  { intros k Hne. unfold of_key. simpl. by rewrite (proj2 (eqb_false _ _) (not_eq_sym Hne)). }
  destruct (Z.leb_spec limit (Z.of_nat (length kept))) as [Hfull|Hroom].
  - rewrite (proj2 (Z.ltb_ge _ _) Hfull). simpl. split; [done|]. split_and!; [done | |].
    + intros x Hx. specialize (Hmax x Hx). lia.
    + intros k. destruct (decide (k = key)) as [->|Hne]; [|by apply Hothers].
      exists old. unfold events_of. rewrite lookup_insert_eq. done.
  - rewrite (proj2 (Z.ltb_lt _ _) Hroom). simpl. split; [done|]. split_and!.
    + rewrite map_app. apply StronglySorted_app_2; [|done|repeat constructor].
      intros x y Hx. simpl. intros ->%list_elem_of_singleton. specialize (Hmax x Hx). lia.
    + intros x. rewrite map_app, elem_of_app. simpl. rewrite list_elem_of_singleton.
      intros [Hx| ->]; [specialize (Hmax x Hx)|]; lia.
    + intros k. destruct (decide (k = key)) as [->|Hne].
      * exists old. rewrite of_key_app, Hof. unfold events_of. rewrite lookup_insert_eq. simpl. split; [|done].
        unfold of_key. simpl. rewrite eqb_refl. simpl. by rewrite app_assoc.
      * destruct (Hothers k Hne (kept ++ [at_])%list) as (o & Ho & Hle). exists o.
        by rewrite of_key_app, Hnil, app_nil_r by done.
Qed.

Lemma run_simulates t cs l h : clocked t cs → simulates t l h →
  (run allow l cs).1 = (run spec_allow h cs).1 ∧ ∃ t', simulates t' (run allow l cs).2 (run spec_allow h cs).2.
Proof.
  revert t l h. induction cs as [|c cs IH]; intros t l h; [by eauto|].
  intros [Hc Hcs] Hsim. destruct (allow_simulates t c l h Hc Hsim) as [Heq Hsim']. simpl.
  destruct (IH _ _ _ Hcs Hsim') as [-> ?]. by rewrite Heq.
Qed.

(** C35. The limiter, which forgets what has left the window, answers every
    sequence of calls on a clock that does not go back exactly as the one that
    remembers all it granted, whatever keys and limits the calls name. *)
Theorem limiter_refines_history t cs :
  clocked t cs → (run allow ∅ cs).1 = (run spec_allow [] cs).1.
Proof.
  intros Hc. apply (run_simulates t cs ∅ []); [done|]. split_and!; [constructor | intros x; by rewrite elem_of_nil |].
  intros k. exists []. split; [done|]. intros x; by rewrite elem_of_nil.
Qed.

(** ** The bound *)

Definition bounded_from (key_id : string) (limit : Z) (t : time) (h : history) : Prop :=
  (∀ g, g ∈ h → g.2 <= t) ∧ ∀ at_, granted_in h key_id at_ <= Z.max 0 limit.

Lemma granted_in_app h h' k at_ : granted_in (h ++ h') k at_ = granted_in h k at_ + granted_in h' k at_.
Proof. unfold granted_in, count_where. rewrite select_where_app, length_app. lia. Qed.

Lemma granted_in_later h k t at_ : (∀ g, g ∈ h → g.2 <= t) → t <= at_ → granted_in h k at_ <= granted_in h k t.
Proof.
  intros Hmax Hle. unfold granted_in, count_where. apply inj_le.
  induction h as [|g h IH]; simpl; [lia|].
  assert (g.2 <= t) by (apply Hmax; left).
  assert (in_window k at_ g = true → in_window k t g = true).
  { unfold in_window. rewrite !andb_true_iff, !Z.ltb_lt, !Z.leb_le. intros [[-> ?] ?]. split_and!; [done | lia..]. }
  assert (IH' : (length (select_where (in_window k at_) h) ≤ length (select_where (in_window k t) h))%nat)
    by (apply IH; intros; apply Hmax; by right).
  destruct (in_window k at_ g); [rewrite (H0 eq_refl); simpl; lia|].
  destruct (in_window k t g); simpl; lia.
Qed.

Lemma spec_bounded key_id limit t cs h : clocked t cs → (∀ c, c ∈ cs → c_key c = key_id → c_limit c <= limit) →
  bounded_from key_id limit t h → ∃ t', bounded_from key_id limit t' (run spec_allow h cs).2.
Proof.
  revert t h. induction cs as [|[k lim at_] cs IH]; intros t h; [by eauto|]. cbn [clocked c_at]. intros [Ht Hcs] Hlim [Hmax Hb].
  cbn [run snd c_key c_limit c_at]. apply (IH at_); [done | intros c Hc; apply Hlim; by right |].
  assert (Hmax' : ∀ g, g ∈ h → g.2 <= at_) by (intros g Hg; specialize (Hmax g Hg); lia).
  unfold spec_allow. destruct (Z.ltb_spec (granted_in h k at_) lim) as [Hlt|]; simpl; [|done]. split.
  - intros g [Hg|Hg]%elem_of_app; [by apply Hmax'|]. apply list_elem_of_singleton in Hg as ->. simpl. lia.
  - intros at2. rewrite granted_in_app. unfold granted_in at 2, count_where. simpl.
    destruct (in_window key_id at2 (k, at_)) eqn:Hw; simpl; [|specialize (Hb at2); lia].
    unfold in_window in Hw. simpl in Hw. rewrite !andb_true_iff, Z.ltb_lt, Z.leb_le in Hw. destruct Hw as [[Hk ?] ?].
    apply eqb_true in Hk as ->. pose proof (Hlim (MkCall key_id lim at_) ltac:(left) eq_refl). simpl in *.
    pose proof (granted_in_later h key_id at_ at2 Hmax' ltac:(lia)). lia.
Qed.

(** The requests of a run that were granted. *)
Fixpoint granted (cs : list call) (answers : list bool) : history :=
  match cs, answers with
  | c :: cs, b :: answers => if b then (c_key c, c_at c) :: granted cs answers else granted cs answers
  | _, _ => []
  end.

Lemma run_spec_granted h cs : (run spec_allow h cs).2 = (h ++ granted cs (run spec_allow h cs).1)%list.
Proof.
  revert h. induction cs as [|c cs IH]; intros h; [by rewrite app_nil_r|]. simpl. rewrite IH.
  unfold spec_allow. destruct (_ <? _); simpl; [|done]. by rewrite <- app_assoc.
Qed.

(** No minute, wherever it starts, sees more than [limit] requests of a
    key granted, when no call for that key names a larger limit. *)
Theorem limiter_bounds_window t cs key_id limit at_ :
  clocked t cs → (∀ c, c ∈ cs → c_key c = key_id → c_limit c <= limit) →
  granted_in (granted cs (run allow ∅ cs).1) key_id at_ <= Z.max 0 limit.
Proof.
  intros Hc Hlim.
  assert (Hb : bounded_from key_id limit t []).
  { split; [intros g; by rewrite elem_of_nil|]. intros x. unfold granted_in, count_where. simpl. lia. }
  destruct (spec_bounded key_id limit t cs [] Hc Hlim Hb) as (t' & _ & Hle).
  rewrite run_spec_granted in Hle. simpl in Hle.
  assert (Href : (run allow ∅ cs).1 = (run spec_allow [] cs).1).
  { apply (run_simulates t cs ∅ []); [done|]. split_and!; [constructor | intros x; by rewrite elem_of_nil |].
    intros k. exists []. split; [done|]. intros x; by rewrite elem_of_nil. }
  rewrite Href. apply Hle.
Qed.

(** ** Witnesses *)

Definition sample_calls : list call :=
  [MkCall "a" 2 0; MkCall "a" 2 second; MkCall "b" 1 second; MkCall "a" 2 (2 * second); MkCall "a" 2 minute].

Lemma sample_clocked : clocked 0 sample_calls.
Proof. vm_compute. intuition discriminate. Qed.

Lemma limiter_refines_history_witness :
  (run allow ∅ sample_calls).1 = (run spec_allow [] sample_calls).1 ∧
  (run allow ∅ sample_calls).1 = [true; true; true; false; true].
Proof. split; [exact (limiter_refines_history 0 sample_calls sample_clocked) | vm_compute; reflexivity]. Defined.

Lemma limiter_bounds_window_witness :
  granted_in (granted sample_calls (run allow ∅ sample_calls).1) "a" (2 * second) <= Z.max 0 2.
Proof.
  apply (limiter_bounds_window 0 sample_calls "a" 2 (2 * second) sample_clocked).
  intros c Hc _. unfold sample_calls in Hc. rewrite !elem_of_cons, elem_of_nil in Hc.
  destruct Hc as [->|[->|[->|[->|[->|[]]]]]]; simpl; lia.
Defined.

End RateLimit.
