(* ===== verification/PyTime.v ===== *)
(** [datetime.isoformat] of aware UTC times, as microseconds since the epoch:
    civil dates by the proleptic Gregorian calendar. *)
From Stdlib Require Import Ascii.
From S2P Require Import Prelude.
From S2P Require Import PyStr.
From S2P Require Import PyFloat.
From S2P Require Import PyVal.
From S2P Require Import PyDecimal.
From S2P Require Import Models.

Local Open Scope Z_scope.

(** The civil date (year, month, day) of a day number, days since 1970-01-01. *)
Definition civil_from_days (z : Z) : Z * Z * Z :=
  let z := z + 719468 in
  let era := z / 146097 in
  let doe := z - era * 146097 in
  let yoe := (doe - doe / 1460 + doe / 36524 - doe / 146096) / 365 in
  let doy := doe - (365 * yoe + yoe / 4 - yoe / 100) in
  let mp := (5 * doy + 2) / 153 in
  let d := doy - (153 * mp + 2) / 5 + 1 in
  let m := if mp <? 10 then mp + 3 else mp - 9 in
  (yoe + era * 400 + (if m <=? 2 then 1 else 0), m, d).

Definition pad (n : nat) (z : Z) : string :=
  let s := str_of_Z z in zeros (Z.of_nat (n - String.length s)) +:+ s.

(** [t.isoformat(sep)], [t.isoformat()] and [str(t)] *)
Definition isoformat_sep (sep : string) (t : time) : string :=
  let '(y, m, d) := civil_from_days (t / day) in
  let r := t mod day in
  let us := r mod second in
  pad 4 y +:+ "-" +:+ pad 2 m +:+ "-" +:+ pad 2 d +:+ sep +:+
  pad 2 (r / hour) +:+ ":" +:+ pad 2 (r / minute mod 60) +:+ ":" +:+ pad 2 (r / second mod 60) +:+
  (if us =? 0 then "" else "." +:+ pad 6 us) +:+ "+00:00".
Definition isoformat : time → string := isoformat_sep "T".
Definition datetime_str : time → string := isoformat_sep " ".

Example isoformat_epoch : isoformat 0 = "1970-01-01T00:00:00+00:00"%string.
Proof. vm_compute. reflexivity. Qed.
Example isoformat_leap : isoformat (1709210096 * second + 7500) = "2024-02-29T12:34:56.007500+00:00"%string.
Proof. vm_compute. reflexivity. Qed.
