(* ===== verification/Schemas.v ===== *)
(** The request bodies of the decision path and the validation they go through
    before a handler sees them: [backend/app/schemas/permission.py],
    [agent_delegation.py] and [authorization.py].  [normalize_*] are the
    [mode="before"] validators, the field constraints are those of pydantic as
    documented ([min_length], [max_length], [pattern], [gt], [ge], [max_digits],
    [decimal_places]), and a violated constraint rejects the body. *)
From Stdlib Require Import Ascii.
From S2P Require Import Prelude.
From S2P Require Import PyStr.
From S2P Require Import PyFloat.
From S2P Require Import PyVal.
From S2P Require Import PyDecimal.
From S2P Require Import Models.

Local Open Scope Z_scope.

(** ** Field constraints *)

Fixpoint all_chars (p : ascii → bool) (s : string) : bool :=
  match s with EmptyString => true | String c s => p c && all_chars p s end.

Definition lower_alpha (c : ascii) : bool := in_range 97 122 c.
Definition decimal_digit (c : ascii) : bool := in_range 48 57 c.
Definition lower_hex (c : ascii) : bool := decimal_digit c || in_range 97 102 c.

(** [^[a-z][a-z0-9:_-]*$], at most 64 characters. *)
Definition capability_char (c : ascii) : bool :=
  lower_alpha c || decimal_digit c || eqb c ":"%char || eqb c "_"%char || eqb c "-"%char.
Definition is_capability (s : string) : bool :=
  match s with
  | EmptyString => false
  | String c s' => lower_alpha c && all_chars capability_char s' && fits 64 s
  end.

(** [^<prefix>[0-9a-f]{24}$] *)
Definition is_token (prefix s : string) : bool :=
  startswith prefix s &&
  (let rest := String.substring (String.length prefix) (String.length s) s in
   all_chars lower_hex rest && (String.length rest =? 24)%nat).

(** [Decimal] with [max_digits=19] and [decimal_places=4], checked on the
    normalized number. *)
Definition decimal_fits (d : dec) : bool :=
  let n := dec_normalize d in
  let decimals := Z.max 0 (- dexp n) in
  let digits := if 0 <=? dexp n then ndigits (coef n) + dexp n else Z.max (ndigits (coef n)) decimals in
  (decimals <=? 4) && (digits <=? 19) && (digits - decimals <=? 15).

Definition normalize_capability (s : string) : string := py_lower (py_strip s).
Definition normalize_currency (s : string) : string := py_upper (py_strip s).

(** ** Bodies *)

Record PermissionCreate : Type := MkPermissionCreate {
  pc_agent_id : uuid;
  pc_action : string;
  pc_resource : string;
  pc_maximum_amount : option dec;
  pc_currency : option string;
  pc_valid_from : time;
  pc_expires_at : time;
  pc_requires_approval : bool;
  pc_allow_delegation : bool
}.

Record AgentDelegationCreate : Type := MkDelegationCreate {
  dc_parent_agent_id : uuid;
  dc_child_agent_id : uuid;
  dc_parent_permission_id : uuid;
  dc_parent_delegation_id : option uuid;
  dc_action : string;
  dc_resource : string;
  dc_maximum_amount : option dec;
  dc_currency : option string;
  dc_requires_approval : bool;
  dc_allow_further_delegation : bool;
  dc_max_delegation_depth : Z;
  dc_valid_from : time;
  dc_expires_at : time
}.

(** The fields shared by the first two bodies. *)
Definition bounded_fields (action resource : string) (amount : option dec) (currency : option string) : bool :=
  is_capability action && is_capability resource &&
  opt_check (λ a, dec_pos a && decimal_fits a) amount && opt_check is_currency currency.

Definition validate_PermissionCreate (now : time) (p : PermissionCreate) : option PermissionCreate :=
  let p := {| pc_agent_id := pc_agent_id p; pc_action := normalize_capability (pc_action p);
              pc_resource := normalize_capability (pc_resource p);
              pc_maximum_amount := pc_maximum_amount p;
              pc_currency := normalize_currency <$> pc_currency p;
              pc_valid_from := pc_valid_from p; pc_expires_at := pc_expires_at p;
              pc_requires_approval := pc_requires_approval p;
              pc_allow_delegation := pc_allow_delegation p |} in
  if negb (bounded_fields (pc_action p) (pc_resource p) (pc_maximum_amount p) (pc_currency p)) then None
  else if negb (same_null (pc_maximum_amount p) (pc_currency p)) then None
  else if pc_expires_at p <=? pc_valid_from p then None
  else if pc_expires_at p <=? now then None
  else Some p.

Definition validate_AgentDelegationCreate (now : time) (p : AgentDelegationCreate)
    : option AgentDelegationCreate :=
  let p := {| dc_parent_agent_id := dc_parent_agent_id p; dc_child_agent_id := dc_child_agent_id p;
              dc_parent_permission_id := dc_parent_permission_id p;
              dc_parent_delegation_id := dc_parent_delegation_id p;
              dc_action := normalize_capability (dc_action p);
              dc_resource := normalize_capability (dc_resource p);
              dc_maximum_amount := dc_maximum_amount p;
              dc_currency := normalize_currency <$> dc_currency p;
              dc_requires_approval := dc_requires_approval p;
              dc_allow_further_delegation := dc_allow_further_delegation p;
              dc_max_delegation_depth := dc_max_delegation_depth p;
              dc_valid_from := dc_valid_from p; dc_expires_at := dc_expires_at p |} in
  if negb (bounded_fields (dc_action p) (dc_resource p) (dc_maximum_amount p) (dc_currency p) &&
           (1 <=? dc_max_delegation_depth p) && (dc_max_delegation_depth p <=? 5)) then None
  else if eqb (dc_parent_agent_id p) (dc_child_agent_id p) then None
  else if negb (same_null (dc_maximum_amount p) (dc_currency p)) then None
  else if dc_expires_at p <=? dc_valid_from p then None
  else if dc_expires_at p <=? now then None
  else Some p.

Definition validate_AuthorizationRequest (r : AuthorizationRequest) : option AuthorizationRequest :=
  let r := {| rq_agent_id := rq_agent_id r; rq_action := normalize_capability (rq_action r);
              rq_resource := normalize_capability (rq_resource r); rq_amount := rq_amount r;
              rq_currency := normalize_currency <$> rq_currency r;
              rq_delegation_id := rq_delegation_id r |} in
  if negb (is_token "agt_" (rq_agent_id r) && is_capability (rq_action r) && is_capability (rq_resource r) &&
           opt_check (λ a, dec_nonneg a && decimal_fits a) (rq_amount r) &&
           opt_check is_currency (rq_currency r) && opt_check (is_token "dlg_") (rq_delegation_id r)) then None
  else if negb (same_null (rq_amount r) (rq_currency r)) then None
  else Some r.

(** ** Laws *)

(** A capability of the pattern is already normal: validation is idempotent on it. *)
Lemma all_chars_lower p s :
  (∀ c, p c = true → lower_char c = c) → all_chars p s = true → py_lower s = s.
Proof.
  intros Hp. unfold py_lower. induction s as [|c s IH]; simpl; [done|].
  intros [Hc Hs]%andb_true_iff. by rewrite (Hp c Hc), IH.
Qed.

Lemma capability_char_lower c : capability_char c = true → lower_char c = c.
Proof. destruct c as [[] [] [] [] [] [] [] []]; vm_compute; congruence. Qed.

Lemma is_capability_not_empty s : is_capability s = true → not_empty s = true.
Proof. destruct s; [done|]. intros _. reflexivity. Qed.

Lemma validated_request_pair r r' :
  validate_AuthorizationRequest r = Some r' → same_null (rq_amount r') (rq_currency r') = true.
Proof.
  unfold validate_AuthorizationRequest. cbv zeta. destruct (negb (_ && _)); [done|].
  destruct (negb (same_null _ _)) eqn:H; [done|]. intros [= <-]. by apply negb_false_iff.
Qed.

Example validate_request_ex :
  rq_currency <$> validate_AuthorizationRequest
    (MkRequest "agt_0123456789abcdef01234567" " Pay " "invoices" (Some (Dec 1999 (-2))) (Some " usd") None)
  = Some (Some "USD"%string).
Proof. vm_compute. reflexivity. Qed.
