(* ===== verification/IdentityModels.v ===== *)
(** Accounts, organizations, plans, keys and sessions: the columns of [models/user.py],
    [models/organization.py], [models/billing.py], [models/agent_signing.py],
    [models/account_security.py] and of the webhooks of [models/developer.py].  [updated_at] columns and the
    relationships are left out. *)
From Stdlib Require Import Ascii.
From S2P Require Import Prelude.
From S2P Require Import PyStr.
From S2P Require Import PyFloat.
From S2P Require Import PyVal.
From S2P Require Import PyDecimal.
From S2P Require Import Models.

Local Open Scope Z_scope.

(** ** Users and organizations *)

Record User : Type := MkUser {
  us_id : uuid;
  us_created_at : time;
  us_email : string;
  us_hashed_password : string;
  us_full_name : string;
  us_is_active : bool;
  us_failed_login_attempts : Z;
  us_locked_until : option time
}.

Record Organization : Type := MkOrganization {
  og_id : uuid;
  og_created_at : time;
  og_name : string;
  og_owner_id : uuid;
  og_is_active : bool;
  og_production_access_status : string
}.

Inductive OrganizationRole : Type := OWNER | ADMIN | DEVELOPER | VIEWER.
#[export] Instance OrganizationRole_eq_dec : EqDecision OrganizationRole.
Proof. solve_decision. Defined.
Definition OrganizationRole_value (r : OrganizationRole) : string :=
  match r with OWNER => "owner" | ADMIN => "admin" | DEVELOPER => "developer" | VIEWER => "viewer" end.

Inductive MemberStatus : Type := MemActive | MemRemoved.
#[export] Instance MemberStatus_eq_dec : EqDecision MemberStatus.
Proof. solve_decision. Defined.

Inductive InvitationStatus : Type := InvPending | InvAccepted | InvExpired | InvRevoked.
#[export] Instance InvitationStatus_eq_dec : EqDecision InvitationStatus.
Proof. solve_decision. Defined.

Record OrganizationMember : Type := MkMember {
  om_id : uuid;
  om_organization_id : uuid;
  om_user_id : uuid;
  om_role : OrganizationRole;
  om_status : MemberStatus;
  om_invited_by : option uuid;
  om_joined_at : time;
  om_created_at : time
}.

Record OrganizationInvitation : Type := MkInvitation {
  oi_id : uuid;
  oi_organization_id : uuid;
  oi_email : string;
  oi_role : OrganizationRole;
  oi_token_hash : string;
  oi_status : InvitationStatus;
  oi_expires_at : time;
  oi_invited_by : uuid;
  oi_created_at : time;
  oi_accepted_at : option time
}.

(** ** Plans and usage *)

Inductive SubscriptionStatus : Type := TRIALING | SubActive | PAST_DUE | CANCELED | INCOMPLETE | SubSuspended.
#[export] Instance SubscriptionStatus_eq_dec : EqDecision SubscriptionStatus.
Proof. solve_decision. Defined.

Inductive UsageMetric : Type :=
  | AUTHORIZATION_REQUESTS | API_REQUESTS | ACTIVE_AGENTS | API_KEYS | TEAM_MEMBERS
  | WEBHOOK_DELIVERIES | PUSH_NOTIFICATIONS.
#[export] Instance UsageMetric_eq_dec : EqDecision UsageMetric.
Proof. solve_decision. Defined.
Definition UsageMetric_value (m : UsageMetric) : string :=
  match m with
  | AUTHORIZATION_REQUESTS => "authorization_requests" | API_REQUESTS => "api_requests"
  | ACTIVE_AGENTS => "active_agents" | API_KEYS => "api_keys" | TEAM_MEMBERS => "team_members"
  | WEBHOOK_DELIVERIES => "webhook_deliveries" | PUSH_NOTIFICATIONS => "push_notifications"
  end.

(** The limits of a plan; [None] is no limit. *)
Record SubscriptionPlan : Type := MkPlan {
  sp_id : uuid;
  sp_name : string;
  sp_code : string;
  sp_monthly_price : option dec;
  sp_max_members : option Z;
  sp_max_agents : option Z;
  sp_max_api_keys : option Z;
  sp_max_authorization_requests_monthly : option Z;
  sp_max_webhooks : option Z;
  sp_is_active : bool
}.

Record OrganizationSubscription : Type := MkSubscription {
  os_id : uuid;
  os_organization_id : uuid;
  os_plan_id : uuid;
  os_status : SubscriptionStatus;
  os_billing_provider : string;
  os_provider_customer_id : option string;
  os_provider_subscription_id : option string;
  os_current_period_start : time;
  os_current_period_end : time;
  os_cancel_at_period_end : bool;
  os_grace_ends_at : option time;
  os_canceled_at : option time
}.

(** Dates are (year, month, day). *)
Abbreviation date := (Z * Z * Z)%type.

Record UsageRecord : Type := MkUsage {
  ur_id : uuid;
  ur_organization_id : uuid;
  ur_metric : UsageMetric;
  ur_period_start : date;
  ur_period_end : date;
  ur_quantity : Z
}.

(** ** Signing keys and nonces *)

Inductive AgentSigningKeyStatus : Type := SkActive | SkRotating | SkRevoked | SkExpired.
#[export] Instance AgentSigningKeyStatus_eq_dec : EqDecision AgentSigningKeyStatus.
Proof. solve_decision. Defined.

Record AgentSigningKey : Type := MkSigningKey {
  sk_id : uuid;
  sk_key_id : string;
  sk_agent_id : uuid;
  sk_organization_id : option uuid;
  sk_algorithm : string;
  sk_public_key : string;
  sk_fingerprint : string;
  sk_status : AgentSigningKeyStatus;
  sk_created_at : time;
  sk_activated_at : time;
  sk_expires_at : option time;
  sk_revoked_at : option time;
  sk_rotated_from_key_id : option string;
  sk_last_used_at : option time
}.

Record AgentRequestNonce : Type := MkNonce {
  no_id : uuid;
  no_key_id : string;
  no_nonce_hash : string;
  no_expires_at : time
}.

(** ** Webhooks *)

Inductive WebhookStatus : Type := WhActive | WhDisabled.
#[export] Instance WebhookStatus_eq_dec : EqDecision WebhookStatus.
Proof. solve_decision. Defined.

Record WebhookEndpoint : Type := MkWebhook {
  we_id : uuid;
  we_organization_id : uuid;
  we_url : string;
  we_environment : string;
  we_secret_hash : string;
  we_status : WebhookStatus
}.

Record WebhookDelivery : Type := MkWebhookDelivery {
  wd_id : uuid;
  wd_webhook_endpoint_id : uuid;
  wd_request_id : string;
  wd_event_type : string;
  wd_is_test : bool;
  wd_status : string;
  wd_attempt_count : Z;
  wd_response_status : option Z;
  wd_response_body : option string;
  wd_last_error : option string;
  wd_next_attempt_at : option time;
  wd_delivered_at : option time;
  wd_created_at : time
}.

(** The requests that came in under an API key ([models/developer.py]). *)
Record DeveloperRequest : Type := MkDeveloperRequest {
  dq_id : uuid;
  dq_api_key_id : uuid;
  dq_idempotency_hash : option string;
  dq_payload_hash : string;
  dq_request_id : option string;
  dq_created_at : time
}.

(** ** Billing ([models/billing.py]) *)

Inductive BillingEventStatus : Type := BePROCESSED | BeIGNORED | BeFAILED.
#[export] Instance BillingEventStatus_eq_dec : EqDecision BillingEventStatus.
Proof. solve_decision. Defined.
Definition BillingEventStatus_value (s : BillingEventStatus) : string :=
  match s with BePROCESSED => "processed" | BeIGNORED => "ignored" | BeFAILED => "failed" end.

Record BillingEvent : Type := MkBillingEvent {
  be_id : uuid;
  be_organization_id : option uuid;
  be_provider_event_id : string;
  be_event_type : string;
  be_status : BillingEventStatus;
  be_processed_at : option time
}.

Record BillingCheckout : Type := MkCheckout {
  bc_id : uuid;
  bc_organization_id : uuid;
  bc_plan_id : uuid;
  bc_created_by_user_id : uuid;
  bc_provider_session_id : string;
  bc_status : string;
  bc_expires_at : time
}.

(** ** Company sign-in ([models/enterprise_security.py]) *)

Record SSOConnection : Type := MkSSOConnection {
  so_id : uuid;
  so_organization_id : uuid;
  so_name : string;
  so_issuer : string;
  so_client_id : string;
  so_encrypted_client_secret : string;
  so_discovery_url : string;
  so_allowed_domains : list string;
  so_status : string;
  so_verified_at : option time;
  so_created_at : time
}.

Record SSOLoginAttempt : Type := MkAttempt {
  sl_id : uuid;
  sl_connection_id : uuid;
  sl_state_hash : string;
  sl_nonce_hash : string;
  sl_encrypted_code_verifier : string;
  sl_expires_at : time;
  sl_used_at : option time
}.

Record SSOLoginTicket : Type := MkTicket {
  tk_id : uuid;
  tk_user_id : uuid;
  tk_organization_id : uuid;
  tk_token_hash : string;
  tk_mfa_verified : bool;
  tk_expires_at : time;
  tk_used_at : option time
}.

(** ** Sessions and second factors *)

Record MFACredential : Type := MkMFA {
  mf_user_id : uuid;
  mf_encrypted_secret : string;
  mf_enabled_at : option time;
  mf_pending_expires_at : option time;
  mf_last_used_step : option Z;
  mf_failed_attempts : Z;
  mf_locked_until : option time
}.

Record MFARecoveryCode : Type := MkRecoveryCode {
  rc_id : uuid;
  rc_user_id : uuid;
  rc_code_hash : string;
  rc_used_at : option time
}.

Record MFAChallenge : Type := MkChallenge {
  ch_id : uuid;
  ch_user_id : uuid;
  ch_token_hash : string;
  ch_attempts : Z;
  ch_expires_at : time;
  ch_used_at : option time
}.

Record AuthSession : Type := MkAuthSession {
  as_id : uuid;
  as_user_id : uuid;
  as_token_hash : string;
  as_auth_method : string;
  as_mfa_verified_at : option time;
  as_step_up_at : option time;
  as_device_type : string;
  as_user_agent_summary : string;
  as_ip_hash : option string;
  as_created_at : time;
  as_last_active_at : time;
  as_expires_at : time;
  as_revoked_at : option time
}.

(** ** The tables *)

Record identity_tables : Type := MkIdentity {
  users : gmap uuid User;
  organizations : gmap uuid Organization;
  members : gmap uuid OrganizationMember;
  invitations : gmap uuid OrganizationInvitation;
  api_keys : gmap uuid APIKey;
  plans : gmap uuid SubscriptionPlan;
  subscriptions : gmap uuid OrganizationSubscription;
  usage_records : gmap uuid UsageRecord;
  signing_keys : gmap uuid AgentSigningKey;
  nonces : list AgentRequestNonce;
  webhook_endpoints : gmap uuid WebhookEndpoint;
  webhook_deliveries : gmap uuid WebhookDelivery;
  mfa_credentials : gmap uuid MFACredential;
  recovery_codes : gmap uuid MFARecoveryCode;
  mfa_challenges : gmap uuid MFAChallenge;
  auth_sessions : gmap uuid AuthSession;
  developer_requests : gmap uuid DeveloperRequest;
  billing_events : gmap uuid BillingEvent;
  billing_checkouts : gmap uuid BillingCheckout;
  sso_connections : gmap uuid SSOConnection;
  sso_attempts : gmap uuid SSOLoginAttempt;
  sso_tickets : gmap uuid SSOLoginTicket
}.
Definition empty_identity : identity_tables := MkIdentity ∅ ∅ ∅ ∅ ∅ ∅ ∅ ∅ ∅ [] ∅ ∅ ∅ ∅ ∅ ∅ ∅ ∅ ∅ ∅ ∅ ∅.

Definition on_users f (i : identity_tables) : identity_tables :=
  MkIdentity (f (users i)) (organizations i) (members i) (invitations i) (api_keys i) (plans i)
    (subscriptions i) (usage_records i) (signing_keys i) (nonces i) (webhook_endpoints i)
    (webhook_deliveries i) (mfa_credentials i) (recovery_codes i) (mfa_challenges i) (auth_sessions i)
    (developer_requests i) (billing_events i) (billing_checkouts i) (sso_connections i) (sso_attempts i)
    (sso_tickets i).
Definition on_organizations f (i : identity_tables) : identity_tables :=
  MkIdentity (users i) (f (organizations i)) (members i) (invitations i) (api_keys i) (plans i)
    (subscriptions i) (usage_records i) (signing_keys i) (nonces i) (webhook_endpoints i)
    (webhook_deliveries i) (mfa_credentials i) (recovery_codes i) (mfa_challenges i) (auth_sessions i)
    (developer_requests i) (billing_events i) (billing_checkouts i) (sso_connections i) (sso_attempts i)
    (sso_tickets i).
Definition on_members f (i : identity_tables) : identity_tables :=
  MkIdentity (users i) (organizations i) (f (members i)) (invitations i) (api_keys i) (plans i)
    (subscriptions i) (usage_records i) (signing_keys i) (nonces i) (webhook_endpoints i)
    (webhook_deliveries i) (mfa_credentials i) (recovery_codes i) (mfa_challenges i) (auth_sessions i)
    (developer_requests i) (billing_events i) (billing_checkouts i) (sso_connections i) (sso_attempts i)
    (sso_tickets i).
Definition on_invitations f (i : identity_tables) : identity_tables :=
  MkIdentity (users i) (organizations i) (members i) (f (invitations i)) (api_keys i) (plans i)
    (subscriptions i) (usage_records i) (signing_keys i) (nonces i) (webhook_endpoints i)
    (webhook_deliveries i) (mfa_credentials i) (recovery_codes i) (mfa_challenges i) (auth_sessions i)
    (developer_requests i) (billing_events i) (billing_checkouts i) (sso_connections i) (sso_attempts i)
    (sso_tickets i).
Definition on_api_keys f (i : identity_tables) : identity_tables :=
  MkIdentity (users i) (organizations i) (members i) (invitations i) (f (api_keys i)) (plans i)
    (subscriptions i) (usage_records i) (signing_keys i) (nonces i) (webhook_endpoints i)
    (webhook_deliveries i) (mfa_credentials i) (recovery_codes i) (mfa_challenges i) (auth_sessions i)
    (developer_requests i) (billing_events i) (billing_checkouts i) (sso_connections i) (sso_attempts i)
    (sso_tickets i).
Definition on_plans f (i : identity_tables) : identity_tables :=
  MkIdentity (users i) (organizations i) (members i) (invitations i) (api_keys i) (f (plans i))
    (subscriptions i) (usage_records i) (signing_keys i) (nonces i) (webhook_endpoints i)
    (webhook_deliveries i) (mfa_credentials i) (recovery_codes i) (mfa_challenges i) (auth_sessions i)
    (developer_requests i) (billing_events i) (billing_checkouts i) (sso_connections i) (sso_attempts i)
    (sso_tickets i).
Definition on_subscriptions f (i : identity_tables) : identity_tables :=
  MkIdentity (users i) (organizations i) (members i) (invitations i) (api_keys i) (plans i)
    (f (subscriptions i)) (usage_records i) (signing_keys i) (nonces i) (webhook_endpoints i)
    (webhook_deliveries i) (mfa_credentials i) (recovery_codes i) (mfa_challenges i) (auth_sessions i)
    (developer_requests i) (billing_events i) (billing_checkouts i) (sso_connections i) (sso_attempts i)
    (sso_tickets i).
Definition on_usage_records f (i : identity_tables) : identity_tables :=
  MkIdentity (users i) (organizations i) (members i) (invitations i) (api_keys i) (plans i) (subscriptions i)
    (f (usage_records i)) (signing_keys i) (nonces i) (webhook_endpoints i) (webhook_deliveries i)
    (mfa_credentials i) (recovery_codes i) (mfa_challenges i) (auth_sessions i) (developer_requests i)
    (billing_events i) (billing_checkouts i) (sso_connections i) (sso_attempts i) (sso_tickets i).
Definition on_signing_keys f (i : identity_tables) : identity_tables :=
  MkIdentity (users i) (organizations i) (members i) (invitations i) (api_keys i) (plans i) (subscriptions i)
    (usage_records i) (f (signing_keys i)) (nonces i) (webhook_endpoints i) (webhook_deliveries i)
    (mfa_credentials i) (recovery_codes i) (mfa_challenges i) (auth_sessions i) (developer_requests i)
    (billing_events i) (billing_checkouts i) (sso_connections i) (sso_attempts i) (sso_tickets i).
Definition on_nonces f (i : identity_tables) : identity_tables :=
  MkIdentity (users i) (organizations i) (members i) (invitations i) (api_keys i) (plans i) (subscriptions i)
    (usage_records i) (signing_keys i) (f (nonces i)) (webhook_endpoints i) (webhook_deliveries i)
    (mfa_credentials i) (recovery_codes i) (mfa_challenges i) (auth_sessions i) (developer_requests i)
    (billing_events i) (billing_checkouts i) (sso_connections i) (sso_attempts i) (sso_tickets i).
Definition on_webhook_endpoints f (i : identity_tables) : identity_tables :=
  MkIdentity (users i) (organizations i) (members i) (invitations i) (api_keys i) (plans i) (subscriptions i)
    (usage_records i) (signing_keys i) (nonces i) (f (webhook_endpoints i)) (webhook_deliveries i)
    (mfa_credentials i) (recovery_codes i) (mfa_challenges i) (auth_sessions i) (developer_requests i)
    (billing_events i) (billing_checkouts i) (sso_connections i) (sso_attempts i) (sso_tickets i).
Definition on_webhook_deliveries f (i : identity_tables) : identity_tables :=
  MkIdentity (users i) (organizations i) (members i) (invitations i) (api_keys i) (plans i) (subscriptions i)
    (usage_records i) (signing_keys i) (nonces i) (webhook_endpoints i) (f (webhook_deliveries i))
    (mfa_credentials i) (recovery_codes i) (mfa_challenges i) (auth_sessions i) (developer_requests i)
    (billing_events i) (billing_checkouts i) (sso_connections i) (sso_attempts i) (sso_tickets i).
Definition on_mfa_credentials f (i : identity_tables) : identity_tables :=
  MkIdentity (users i) (organizations i) (members i) (invitations i) (api_keys i) (plans i) (subscriptions i)
    (usage_records i) (signing_keys i) (nonces i) (webhook_endpoints i) (webhook_deliveries i)
    (f (mfa_credentials i)) (recovery_codes i) (mfa_challenges i) (auth_sessions i) (developer_requests i)
    (billing_events i) (billing_checkouts i) (sso_connections i) (sso_attempts i) (sso_tickets i).
Definition on_recovery_codes f (i : identity_tables) : identity_tables :=
  MkIdentity (users i) (organizations i) (members i) (invitations i) (api_keys i) (plans i) (subscriptions i)
    (usage_records i) (signing_keys i) (nonces i) (webhook_endpoints i) (webhook_deliveries i)
    (mfa_credentials i) (f (recovery_codes i)) (mfa_challenges i) (auth_sessions i) (developer_requests i)
    (billing_events i) (billing_checkouts i) (sso_connections i) (sso_attempts i) (sso_tickets i).
Definition on_mfa_challenges f (i : identity_tables) : identity_tables :=
  MkIdentity (users i) (organizations i) (members i) (invitations i) (api_keys i) (plans i) (subscriptions i)
    (usage_records i) (signing_keys i) (nonces i) (webhook_endpoints i) (webhook_deliveries i)
    (mfa_credentials i) (recovery_codes i) (f (mfa_challenges i)) (auth_sessions i) (developer_requests i)
    (billing_events i) (billing_checkouts i) (sso_connections i) (sso_attempts i) (sso_tickets i).
Definition on_auth_sessions f (i : identity_tables) : identity_tables :=
  MkIdentity (users i) (organizations i) (members i) (invitations i) (api_keys i) (plans i) (subscriptions i)
    (usage_records i) (signing_keys i) (nonces i) (webhook_endpoints i) (webhook_deliveries i)
    (mfa_credentials i) (recovery_codes i) (mfa_challenges i) (f (auth_sessions i)) (developer_requests i)
    (billing_events i) (billing_checkouts i) (sso_connections i) (sso_attempts i) (sso_tickets i).
Definition on_developer_requests f (i : identity_tables) : identity_tables :=
  MkIdentity (users i) (organizations i) (members i) (invitations i) (api_keys i) (plans i) (subscriptions i)
    (usage_records i) (signing_keys i) (nonces i) (webhook_endpoints i) (webhook_deliveries i)
    (mfa_credentials i) (recovery_codes i) (mfa_challenges i) (auth_sessions i) (f (developer_requests i))
    (billing_events i) (billing_checkouts i) (sso_connections i) (sso_attempts i) (sso_tickets i).
Definition on_billing_events f (i : identity_tables) : identity_tables :=
  MkIdentity (users i) (organizations i) (members i) (invitations i) (api_keys i) (plans i) (subscriptions i)
    (usage_records i) (signing_keys i) (nonces i) (webhook_endpoints i) (webhook_deliveries i)
    (mfa_credentials i) (recovery_codes i) (mfa_challenges i) (auth_sessions i) (developer_requests i)
    (f (billing_events i)) (billing_checkouts i) (sso_connections i) (sso_attempts i) (sso_tickets i).
Definition on_billing_checkouts f (i : identity_tables) : identity_tables :=
  MkIdentity (users i) (organizations i) (members i) (invitations i) (api_keys i) (plans i) (subscriptions i)
    (usage_records i) (signing_keys i) (nonces i) (webhook_endpoints i) (webhook_deliveries i)
    (mfa_credentials i) (recovery_codes i) (mfa_challenges i) (auth_sessions i) (developer_requests i)
    (billing_events i) (f (billing_checkouts i)) (sso_connections i) (sso_attempts i) (sso_tickets i).
Definition on_sso_connections f (i : identity_tables) : identity_tables :=
  MkIdentity (users i) (organizations i) (members i) (invitations i) (api_keys i) (plans i) (subscriptions i)
    (usage_records i) (signing_keys i) (nonces i) (webhook_endpoints i) (webhook_deliveries i)
    (mfa_credentials i) (recovery_codes i) (mfa_challenges i) (auth_sessions i) (developer_requests i)
    (billing_events i) (billing_checkouts i) (f (sso_connections i)) (sso_attempts i) (sso_tickets i).
Definition on_sso_attempts f (i : identity_tables) : identity_tables :=
  MkIdentity (users i) (organizations i) (members i) (invitations i) (api_keys i) (plans i) (subscriptions i)
    (usage_records i) (signing_keys i) (nonces i) (webhook_endpoints i) (webhook_deliveries i)
    (mfa_credentials i) (recovery_codes i) (mfa_challenges i) (auth_sessions i) (developer_requests i)
    (billing_events i) (billing_checkouts i) (sso_connections i) (f (sso_attempts i)) (sso_tickets i).
Definition on_sso_tickets f (i : identity_tables) : identity_tables :=
  MkIdentity (users i) (organizations i) (members i) (invitations i) (api_keys i) (plans i) (subscriptions i)
    (usage_records i) (signing_keys i) (nonces i) (webhook_endpoints i) (webhook_deliveries i)
    (mfa_credentials i) (recovery_codes i) (mfa_challenges i) (auth_sessions i) (developer_requests i)
    (billing_events i) (billing_checkouts i) (sso_connections i) (sso_attempts i) (f (sso_tickets i)).
