(* ===== verification/FederationModels.v ===== *)
(** Trust between organizations and verifiable credentials: the columns of
    [models/cross_organization_trust.py] and of the issuers of
    [models/trust_registry.py]. *)
From Stdlib Require Import Ascii.
From S2P Require Import Prelude.
From S2P Require Import PyStr.
From S2P Require Import PyFloat.
From S2P Require Import PyVal.
From S2P Require Import PyDecimal.
From S2P Require Import Models.

Local Open Scope Z_scope.

Inductive TrustStatus : Type := TrPending | TrActive | TrRejected | TrRevoked | TrExpired | TrSuspended.
#[export] Instance TrustStatus_eq_dec : EqDecision TrustStatus.
Proof. solve_decision. Defined.
Definition TrustStatus_value (s : TrustStatus) : string :=
  match s with
  | TrPending => "PENDING" | TrActive => "ACTIVE" | TrRejected => "REJECTED" | TrRevoked => "REVOKED"
  | TrExpired => "EXPIRED" | TrSuspended => "SUSPENDED"
  end.

Inductive CrossOrgRequestStatus : Type := XrPending | XrApproved | XrRejected | XrExpired | XrCanceled.
#[export] Instance CrossOrgRequestStatus_eq_dec : EqDecision CrossOrgRequestStatus.
Proof. solve_decision. Defined.
Definition CrossOrgRequestStatus_value (s : CrossOrgRequestStatus) : string :=
  match s with
  | XrPending => "PENDING" | XrApproved => "APPROVED" | XrRejected => "REJECTED" | XrExpired => "EXPIRED"
  | XrCanceled => "CANCELED"
  end.

Inductive ApprovalStage : Type := SOURCE | TARGET.
#[export] Instance ApprovalStage_eq_dec : EqDecision ApprovalStage.
Proof. solve_decision. Defined.
Definition ApprovalStage_value (s : ApprovalStage) : string := match s with SOURCE => "SOURCE" | TARGET => "TARGET" end.

Inductive ApprovalStatus : Type := ApPending | ApApproved | ApRejected.
#[export] Instance ApprovalStatus_eq_dec : EqDecision ApprovalStatus.
Proof. solve_decision. Defined.

Record OrganizationTrustRelationship : Type := MkTrust {
  tr_id : uuid;
  tr_trust_id : string;
  tr_source_organization_id : uuid;
  tr_target_organization_id : uuid;
  tr_status : TrustStatus;
  tr_created_by_user_id : uuid;
  tr_accepted_by_user_id : option uuid;
  tr_created_at : time;
  tr_accepted_at : option time;
  tr_expires_at : option time;
  tr_revoked_at : option time;
  tr_revocation_reason : option string
}.

Record OrganizationTrustPolicy : Type := MkTrustPolicy {
  tp_id : uuid;
  tp_trust_relationship_id : uuid;
  tp_allowed_actions : list string;
  tp_allowed_resources : list string;
  tp_max_amount : option dec;
  tp_currency : option string;
  tp_require_human_approval : bool;
  tp_approval_threshold : option dec;
  tp_approval_type : string;
  tp_allow_agent_delegation : bool;
  tp_max_delegation_depth : Z;
  tp_risk_threshold : option Z
}.

Record OrganizationPublicProfile : Type := MkPublicProfile {
  pp_id : uuid;
  pp_organization_id : uuid;
  pp_public_name : string;
  pp_description : string;
  pp_website_domain : option string;
  pp_discoverable : bool;
  pp_supported_capabilities : list string;
  pp_verification_status : string
}.

Record TargetOrganizationPolicy : Type := MkTargetPolicy {
  gt_id : uuid;
  gt_organization_id : uuid;
  gt_allowed_actions : list string;
  gt_allowed_resources : list string;
  gt_max_amount : option dec;
  gt_currency : option string;
  gt_require_human_approval : bool;
  gt_approval_threshold : option dec;
  gt_required_credential_types : list string
}.

Record ExternalAgentConnection : Type := MkConnection {
  ec_id : uuid;
  ec_connection_id : string;
  ec_trust_relationship_id : uuid;
  ec_source_agent_id : uuid;
  ec_target_agent_id : uuid;
  ec_status : string;
  ec_created_at : time;
  ec_expires_at : option time;
  ec_revoked_at : option time;
  ec_revocation_reason : option string
}.

Record CrossOrganizationRequest : Type := MkCrossRequest {
  xr_id : uuid;
  xr_request_id : string;
  xr_trust_relationship_id : uuid;
  xr_connection_id : option uuid;
  xr_source_organization_id : uuid;
  xr_target_organization_id : uuid;
  xr_source_agent_id : uuid;
  xr_target_agent_id : uuid;
  xr_action : string;
  xr_resource : string;
  xr_amount : option dec;
  xr_currency : option string;
  xr_status : CrossOrgRequestStatus;
  xr_decision_reason : option string;
  xr_risk_level : option string;
  xr_risk_score : option Z;
  xr_idempotency_key : option string;
  xr_idempotency_hash : option string;
  xr_created_at : time;
  xr_expires_at : option time;
  xr_completed_at : option time
}.

Record CrossOrganizationApproval : Type := MkApproval {
  xa_id : uuid;
  xa_cross_org_request_id : uuid;
  xa_organization_id : uuid;
  xa_approval_stage : ApprovalStage;
  xa_required_role : string;
  xa_status : ApprovalStatus;
  xa_decided_by_user_id : option uuid;
  xa_decided_at : option time;
  xa_reason : option string
}.

Record CredentialIssuer : Type := MkIssuer {
  ci_id : uuid;
  ci_issuer_id : string;
  ci_organization_id : uuid;
  ci_name : string;
  ci_status : string;
  ci_created_at : time;
  ci_suspended_at : option time;
  ci_revoked_at : option time
}.

Record IssuerSigningKey : Type := MkIssuerKey {
  ik_id : uuid;
  ik_key_id : string;
  ik_issuer_id : uuid;
  ik_algorithm : string;
  ik_public_key : string;
  ik_fingerprint : string;
  ik_status : string;
  ik_created_at : time;
  ik_activated_at : time;
  ik_expires_at : option time;
  ik_revoked_at : option time;
  ik_rotated_from_key_id : option string
}.

(** ** The tables *)

Record federation_tables : Type := MkFederation {
  trusts : gmap uuid OrganizationTrustRelationship;
  trust_policies : gmap uuid OrganizationTrustPolicy;
  public_profiles : gmap uuid OrganizationPublicProfile;
  target_policies : gmap uuid TargetOrganizationPolicy;
  connections : gmap uuid ExternalAgentConnection;
  xrequests : gmap uuid CrossOrganizationRequest;
  xapprovals : gmap uuid CrossOrganizationApproval;
  issuers : gmap uuid CredentialIssuer;
  issuer_keys : gmap uuid IssuerSigningKey
}.
Definition empty_federation : federation_tables := MkFederation ∅ ∅ ∅ ∅ ∅ ∅ ∅ ∅ ∅.

Definition on_trusts f (i : federation_tables) : federation_tables :=
  MkFederation (f (trusts i)) (trust_policies i) (public_profiles i) (target_policies i) (connections i)
    (xrequests i) (xapprovals i) (issuers i) (issuer_keys i).
Definition on_trust_policies f (i : federation_tables) : federation_tables :=
  MkFederation (trusts i) (f (trust_policies i)) (public_profiles i) (target_policies i) (connections i)
    (xrequests i) (xapprovals i) (issuers i) (issuer_keys i).
Definition on_public_profiles f (i : federation_tables) : federation_tables :=
  MkFederation (trusts i) (trust_policies i) (f (public_profiles i)) (target_policies i) (connections i)
    (xrequests i) (xapprovals i) (issuers i) (issuer_keys i).
Definition on_target_policies f (i : federation_tables) : federation_tables :=
  MkFederation (trusts i) (trust_policies i) (public_profiles i) (f (target_policies i)) (connections i)
    (xrequests i) (xapprovals i) (issuers i) (issuer_keys i).
Definition on_connections f (i : federation_tables) : federation_tables :=
  MkFederation (trusts i) (trust_policies i) (public_profiles i) (target_policies i) (f (connections i))
    (xrequests i) (xapprovals i) (issuers i) (issuer_keys i).
Definition on_xrequests f (i : federation_tables) : federation_tables :=
  MkFederation (trusts i) (trust_policies i) (public_profiles i) (target_policies i) (connections i)
    (f (xrequests i)) (xapprovals i) (issuers i) (issuer_keys i).
Definition on_xapprovals f (i : federation_tables) : federation_tables :=
  MkFederation (trusts i) (trust_policies i) (public_profiles i) (target_policies i) (connections i)
    (xrequests i) (f (xapprovals i)) (issuers i) (issuer_keys i).
Definition on_issuers f (i : federation_tables) : federation_tables :=
  MkFederation (trusts i) (trust_policies i) (public_profiles i) (target_policies i) (connections i)
    (xrequests i) (xapprovals i) (f (issuers i)) (issuer_keys i).
Definition on_issuer_keys f (i : federation_tables) : federation_tables :=
  MkFederation (trusts i) (trust_policies i) (public_profiles i) (target_policies i) (connections i)
    (xrequests i) (xapprovals i) (issuers i) (f (issuer_keys i)).
