(* ===== verification/OperationsModels.v ===== *)
(** Governance reviews, detection rules, alerts and their export: the columns of
    [models/agent_governance.py] and [models/soc.py]. *)

From Stdlib Require Import Ascii.
From S2P Require Import Prelude.
From S2P Require Import PyStr.
From S2P Require Import PyFloat.
From S2P Require Import PyVal.
From S2P Require Import PyDecimal.
From S2P Require Import Models.

Local Open Scope Z_scope.

(** ** Governance *)

Inductive CertificationStatus : Type := CertPending | CertApproved | CertRejected | CertExpired.
#[export] Instance CertificationStatus_eq_dec : EqDecision CertificationStatus.
Proof. solve_decision. Defined.

Record AgentOwnershipHistory : Type := MkOwnership {
  oh_agent_id : uuid;
  oh_organization_id : option uuid;
  oh_old_owner_type : string;
  oh_old_owner_id : string;
  oh_new_owner_type : string;
  oh_new_owner_id : string;
  oh_changed_by : option uuid;
  oh_reason : string;
  oh_changed_at : time
}.

Record AgentCertification : Type := MkCertification {
  ct_id : uuid;
  ct_certification_id : string;
  ct_organization_id : option uuid;
  ct_agent_id : uuid;
  ct_status : CertificationStatus;
  ct_reviewer_id : option uuid;
  ct_requested_at : time;
  ct_due_at : option time;
  ct_completed_at : option time;
  ct_decision : option string;
  ct_notes : option string;
  ct_snapshot_reference : pyval
}.

(** ** Security operations *)

Record DetectionRule : Type := MkRule {
  dr_id : uuid;
  dr_rule_id : string;
  dr_organization_id : option uuid;
  dr_name : string;
  dr_description : string;
  dr_event_type : option string;
  dr_category : option string;
  dr_conditions : list (string * pyval);
  dr_threshold : Z;
  dr_window_seconds : Z;
  dr_severity : string;
  dr_enabled : bool
}.

Record SecurityAlert : Type := MkAlert {
  sa_id : uuid;
  sa_alert_id : string;
  sa_organization_id : uuid;
  sa_rule_id : string;
  sa_fingerprint : string;
  sa_severity : string;
  sa_status : string;
  sa_title : string;
  sa_description : string;
  sa_first_seen_at : time;
  sa_last_seen_at : time;
  sa_event_count : Z;
  sa_acknowledged_at : option time;
  sa_acknowledged_by : option uuid;
  sa_resolved_at : option time;
  sa_resolved_by : option uuid;
  sa_resolution_note : option string;
  sa_metadata_json : list (string * pyval)
}.

Record SecurityExportDestination : Type := MkDestination {
  xd_id : uuid;
  xd_destination_id : string;
  xd_organization_id : uuid;
  xd_name : string;
  xd_destination_type : string;
  xd_endpoint_url : option string;
  xd_secret_ref : option string;
  xd_min_severity : string;
  xd_categories : list string;
  xd_enabled : bool;
  xd_status : string;
  xd_last_export_at : option time;
  xd_consecutive_failures : Z;
  xd_last_error : option string
}.

Record SecurityExportDeadLetter : Type := MkDeadLetter {
  ed_organization_id : uuid;
  ed_destination_id : string;
  ed_event_id : string;
  ed_event_payload : pyval;
  ed_error_message : string;
  ed_attempts : Z
}.

(** ** The tables *)

Record operations_tables : Type := MkOperations {
  ownership_history : list AgentOwnershipHistory;
  certifications : gmap uuid AgentCertification;
  detection_rules : gmap uuid DetectionRule;
  alerts : gmap uuid SecurityAlert;
  export_destinations : gmap uuid SecurityExportDestination;
  dead_letters : list SecurityExportDeadLetter
}.
Definition empty_operations : operations_tables := MkOperations [] ∅ ∅ ∅ ∅ [].

Definition on_ownership_history f (i : operations_tables) : operations_tables :=
  MkOperations (f (ownership_history i)) (certifications i) (detection_rules i) (alerts i) (export_destinations i) (dead_letters i).
Definition on_certifications f (i : operations_tables) : operations_tables :=
  MkOperations (ownership_history i) (f (certifications i)) (detection_rules i) (alerts i) (export_destinations i) (dead_letters i).
Definition on_detection_rules f (i : operations_tables) : operations_tables :=
  MkOperations (ownership_history i) (certifications i) (f (detection_rules i)) (alerts i) (export_destinations i) (dead_letters i).
Definition on_alerts f (i : operations_tables) : operations_tables :=
  MkOperations (ownership_history i) (certifications i) (detection_rules i) (f (alerts i)) (export_destinations i) (dead_letters i).
Definition on_export_destinations f (i : operations_tables) : operations_tables :=
  MkOperations (ownership_history i) (certifications i) (detection_rules i) (alerts i) (f (export_destinations i)) (dead_letters i).
Definition on_dead_letters f (i : operations_tables) : operations_tables :=
  MkOperations (ownership_history i) (certifications i) (detection_rules i) (alerts i) (export_destinations i) (f (dead_letters i)).

(** Policies and their bindings, the services, capabilities and calls of agents, and the
    enterprise gateways with their configuration bundles: the columns of [models/policy.py],
    [models/agent_service.py], [models/agenttrust_protocol.py] and
    [models/enterprise_gateway.py] that modelled operations read or write. *)

Local Open Scope Z_scope.

Record Policy : Type := MkPolicy {
  po_id : uuid;
  po_policy_id : string;
  po_organization_id : uuid;
  po_name : string;
  po_status : string
}.

Record PolicyBinding : Type := MkBinding {
  bi_id : uuid;
  bi_policy_id : uuid;
  bi_organization_id : uuid;
  bi_scope_type : string;
  bi_scope_id : option string;
  bi_priority : Z;
  bi_enabled : bool
}.

Record AgentService : Type := MkService {
  sv_id : uuid;
  sv_service_id : string;
  sv_organization_id : uuid;
  sv_agent_id : uuid;
  sv_name : string;
  sv_status : string
}.

Record AgentCapability : Type := MkCapability {
  cb_id : uuid;
  cb_capability_id : string;
  cb_organization_id : uuid;
  cb_agent_id : uuid;
  cb_service_id : option uuid;
  cb_name : string;
  cb_version : string;
  cb_risk_classification : string;
  cb_is_active : bool
}.

Record AgentCallRecord : Type := MkCall {
  cl_id : uuid;
  cl_call_id : string;
  cl_source_agent_id : uuid;
  cl_target_agent_id : option uuid;
  cl_capability_name : string;
  cl_status : string;
  cl_created_at : time
}.

Record EnterpriseGateway : Type := MkGateway {
  gw_id : uuid;
  gw_gateway_id : string;
  gw_organization_id : uuid;
  gw_name : string;
  gw_deployment_type : string;
  gw_environment : string;
  gw_status : string;
  gw_version : string;
  gw_public_key : option string;
  gw_fingerprint : option string;
  gw_enrollment_token_hash : option string;
  gw_enrollment_token_expires_at : option time;
  gw_config_version : Z;
  gw_labels : list (string * pyval);
  gw_offline_policy : string;
  gw_last_seen_at : option time;
  gw_last_heartbeat_data : option (list (string * pyval));
  gw_created_at : time;
  gw_updated_at : time;
  gw_revoked_at : option time;
  gw_suspended_at : option time
}.

(** What a bundle holds, in its five keys. *)
Record bundle_content : Type := MkContent {
  bc_policies : list (list (string * pyval));
  bc_trusted_issuers : list (list (string * pyval));
  bc_credential_requirements : list (list (string * pyval));
  bc_revocations : list (list (string * pyval));
  bc_routing : list (string * pyval)
}.
Record GatewayConfigBundle : Type := MkBundle {
  gb_id : uuid;
  gb_organization_id : uuid;
  gb_environment : string;
  gb_config_version : Z;
  gb_bundle_json : bundle_content;
  gb_bundle_sha256 : string;
  gb_signature : string;
  gb_signing_key_id : string;
  gb_published_by_user_id : option uuid;
  gb_created_at : time;
  gb_expires_at : time
}.

(** ** The tables *)

Record catalog_tables : Type := MkCatalog {
  policies : gmap uuid Policy;
  policy_bindings : gmap uuid PolicyBinding;
  agent_services : gmap uuid AgentService;
  agent_capabilities : gmap uuid AgentCapability;
  agent_calls : gmap uuid AgentCallRecord;
  enterprise_gateways : gmap uuid EnterpriseGateway;
  gateway_config_bundles : gmap uuid GatewayConfigBundle
}.
Definition empty_catalog : catalog_tables := MkCatalog ∅ ∅ ∅ ∅ ∅ ∅ ∅.
Definition on_gateways f (c : catalog_tables) : catalog_tables :=
  MkCatalog (policies c) (policy_bindings c) (agent_services c) (agent_capabilities c) (agent_calls c)
    (f (enterprise_gateways c)) (gateway_config_bundles c).
Definition on_config_bundles f (c : catalog_tables) : catalog_tables :=
  MkCatalog (policies c) (policy_bindings c) (agent_services c) (agent_capabilities c) (agent_calls c)
    (enterprise_gateways c) (f (gateway_config_bundles c)).
