(* ===== verification/Store.v ===== *)
(** The database session the handlers share ([backend/app/database/session.py]
    and SQLAlchemy's unit of work): tables, one transaction per request, commit,
    the roll-back of a failed flush, and the queries of the services as total
    functions on tables.

    Accounts, trust between organizations, operations and the catalog are records of tables of
    their own ([IdentityModels], [FederationModels], [OperationsModels]).

    A table with a primary key the program looks rows up by is a finite map; an
    append-only log is a list, oldest row first.  [cur] is what the open
    transaction sees, [committed] what survives it.  A row that breaks a check,
    unique or length constraint raises [IntegrityError], rolls the transaction
    back and leaves the session unusable ([dead]) until the request ends: every
    later write or commit raises [PendingRollbackError]. *)
From Stdlib Require Import Ascii.
From S2P Require Import Prelude.
From S2P Require Import PyStr.
From S2P Require Import PyFloat.
From S2P Require Import PyVal.
From S2P Require Import PyDecimal.
From S2P Require Import Models.
From S2P Require Import IdentityModels.
Export IdentityModels.
From S2P Require Import FederationModels.
Export FederationModels.
From S2P Require Import OperationsModels.
Export OperationsModels.

Local Open Scope Z_scope.

(** ** Exceptions

    [OutOfFuel] is the model's own: a loop of the program that outlives the fuel
    its definition here gives it.  The termination theorems show that it is not
    raised. *)

Inductive Exc : Type :=
  | IntegrityError
  | PendingRollbackError
  | PyError (e : PyExc)
  | AgentNotFound
  | RequestNotFound
  | RequestAlreadyDecided
  | RequestExpired
  | DeviceTokenConflict
  | DeviceLimitReached
  | HTTPException (status_code : Z) (detail : string)
  | LifecycleTransitionError (message code : string) (status_code : Z)
  | RaisedValueError (message : string)
  | RaisedRuntimeError (message : string)
  | OrganizationNotFound
  | OrganizationAccessError
  | OrganizationConflict (message : string)
  | InvitationInvalid
  | InvitationExpired
  | PlanLimitReached (message : string)
  | APIKeyNotFound
  | SigningError (code : string) (status_code : Z)
  | CredentialVerificationError (message code : string) (status_code : Z)
  | GatewayControlError (message code : string) (status_code : Z)
  | ServiceRegistryError (message code : string) (status_code : Z)
  | ResolutionError (message code : string) (status_code : Z)
  | AgentCallPipelineError (message code : string) (status_code : Z)
  | WebhookConfigurationError (message : string)
  | IdempotencyConflict
  | RequestInProgress
  | DeveloperRequestNotFound
  | EmailAlreadyRegistered
  | InvalidCredentials
  | MFAError (message : string)
  | SSOError (message : string)
  | BillingInputError (message : string)
  | BillingProviderError (message : string)
  | AgentIdentifierGenerationError
  | InvalidAgentTransition
  | GovernanceError (message code : string) (status_code : Z)
  | MultipleResultsFound
  | OutOfFuel.
#[export] Instance Exc_eq_dec : EqDecision Exc.
Proof. solve_decision. Defined.

(** ** Sources of randomness

    [uuid4], [secrets.token_hex(12)] and, for any number of bytes, [token_hex] and
    [token_urlsafe] are library code: the [n]-th draw of each is a parameter.  That
    draws do not repeat is the law theorems assume where they need it. *)
Class Entropy : Type := {
  uuid4 : nat → uuid;
  token_hex12 : nat → string;
  token_hex : nat → nat → string;
  token_urlsafe : nat → nat → string
}.
Class EntropyLaws `{Entropy} : Prop := {
  uuid4_inj : ∀ m n, uuid4 m = uuid4 n → m = n;
  token_hex12_inj : ∀ m n, token_hex12 m = token_hex12 n → m = n;
  token_hex_inj : ∀ k m n, token_hex k m = token_hex k n → m = n;
  token_urlsafe_inj : ∀ k m n, token_urlsafe k m = token_urlsafe k n → m = n
}.

(** ** Tables *)

Record tables : Type := MkTables {
  agents : gmap uuid Agent;
  permissions : gmap uuid Permission;
  delegations : gmap uuid AgentDelegation;
  requests : gmap uuid AuthorizationRequestRecord;
  credentials : gmap uuid AgentCredential;
  notifications : gmap uuid Notification;
  devices : gmap uuid Device;
  org_policies : gmap uuid OrganizationSecurityPolicy;
  governance_policies : gmap uuid AgentGovernancePolicy;
  preferences : gmap uuid NotificationPreference;
  audit_logs : list AuditLog;
  assessments : list RiskAssessment;
  risk_policies : list RiskPolicy;
  policy_versions : list PolicyVersion;
  security_events : list SecurityEvent;
  deliveries : list NotificationDelivery;
  identity : identity_tables;
  federation : federation_tables;
  operations : operations_tables;
  catalog : catalog_tables
}.

Definition empty_tables : tables :=
  MkTables ∅ ∅ ∅ ∅ ∅ ∅ ∅ ∅ ∅ ∅ [] [] [] [] [] [] empty_identity empty_federation empty_operations empty_catalog.

Definition upd_agents f (t : tables) : tables :=
  MkTables (f (agents t)) (permissions t) (delegations t) (requests t) (credentials t)
    (notifications t) (devices t) (org_policies t) (governance_policies t) (preferences t)
    (audit_logs t) (assessments t) (risk_policies t) (policy_versions t) (security_events t) (deliveries t)
    (identity t) (federation t) (operations t) (catalog t).
Definition upd_permissions f (t : tables) : tables :=
  MkTables (agents t) (f (permissions t)) (delegations t) (requests t) (credentials t)
    (notifications t) (devices t) (org_policies t) (governance_policies t) (preferences t)
    (audit_logs t) (assessments t) (risk_policies t) (policy_versions t) (security_events t) (deliveries t)
    (identity t) (federation t) (operations t) (catalog t).
Definition upd_delegations f (t : tables) : tables :=
  MkTables (agents t) (permissions t) (f (delegations t)) (requests t) (credentials t)
    (notifications t) (devices t) (org_policies t) (governance_policies t) (preferences t)
    (audit_logs t) (assessments t) (risk_policies t) (policy_versions t) (security_events t) (deliveries t)
    (identity t) (federation t) (operations t) (catalog t).
Definition upd_requests f (t : tables) : tables :=
  MkTables (agents t) (permissions t) (delegations t) (f (requests t)) (credentials t)
    (notifications t) (devices t) (org_policies t) (governance_policies t) (preferences t)
    (audit_logs t) (assessments t) (risk_policies t) (policy_versions t) (security_events t) (deliveries t)
    (identity t) (federation t) (operations t) (catalog t).
Definition upd_credentials f (t : tables) : tables :=
  MkTables (agents t) (permissions t) (delegations t) (requests t) (f (credentials t))
    (notifications t) (devices t) (org_policies t) (governance_policies t) (preferences t)
    (audit_logs t) (assessments t) (risk_policies t) (policy_versions t) (security_events t) (deliveries t)
    (identity t) (federation t) (operations t) (catalog t).
Definition upd_notifications f (t : tables) : tables :=
  MkTables (agents t) (permissions t) (delegations t) (requests t) (credentials t)
    (f (notifications t)) (devices t) (org_policies t) (governance_policies t) (preferences t)
    (audit_logs t) (assessments t) (risk_policies t) (policy_versions t) (security_events t) (deliveries t)
    (identity t) (federation t) (operations t) (catalog t).
Definition upd_devices f (t : tables) : tables :=
  MkTables (agents t) (permissions t) (delegations t) (requests t) (credentials t)
    (notifications t) (f (devices t)) (org_policies t) (governance_policies t) (preferences t)
    (audit_logs t) (assessments t) (risk_policies t) (policy_versions t) (security_events t) (deliveries t)
    (identity t) (federation t) (operations t) (catalog t).
Definition upd_org_policies f (t : tables) : tables :=
  MkTables (agents t) (permissions t) (delegations t) (requests t) (credentials t)
    (notifications t) (devices t) (f (org_policies t)) (governance_policies t) (preferences t)
    (audit_logs t) (assessments t) (risk_policies t) (policy_versions t) (security_events t) (deliveries t)
    (identity t) (federation t) (operations t) (catalog t).
Definition upd_policy_versions f (t : tables) : tables :=
  MkTables (agents t) (permissions t) (delegations t) (requests t) (credentials t)
    (notifications t) (devices t) (org_policies t) (governance_policies t) (preferences t)
    (audit_logs t) (assessments t) (risk_policies t) (f (policy_versions t)) (security_events t) (deliveries t)
    (identity t) (federation t) (operations t) (catalog t).
Definition upd_governance_policies f (t : tables) : tables :=
  MkTables (agents t) (permissions t) (delegations t) (requests t) (credentials t)
    (notifications t) (devices t) (org_policies t) (f (governance_policies t)) (preferences t)
    (audit_logs t) (assessments t) (risk_policies t) (policy_versions t) (security_events t) (deliveries t)
    (identity t) (federation t) (operations t) (catalog t).
Definition upd_preferences f (t : tables) : tables :=
  MkTables (agents t) (permissions t) (delegations t) (requests t) (credentials t)
    (notifications t) (devices t) (org_policies t) (governance_policies t) (f (preferences t))
    (audit_logs t) (assessments t) (risk_policies t) (policy_versions t) (security_events t) (deliveries t)
    (identity t) (federation t) (operations t) (catalog t).
Definition upd_audit_logs f (t : tables) : tables :=
  MkTables (agents t) (permissions t) (delegations t) (requests t) (credentials t)
    (notifications t) (devices t) (org_policies t) (governance_policies t) (preferences t)
    (f (audit_logs t)) (assessments t) (risk_policies t) (policy_versions t) (security_events t) (deliveries t)
    (identity t) (federation t) (operations t) (catalog t).
Definition upd_assessments f (t : tables) : tables :=
  MkTables (agents t) (permissions t) (delegations t) (requests t) (credentials t)
    (notifications t) (devices t) (org_policies t) (governance_policies t) (preferences t)
    (audit_logs t) (f (assessments t)) (risk_policies t) (policy_versions t) (security_events t) (deliveries t)
    (identity t) (federation t) (operations t) (catalog t).
Definition upd_risk_policies f (t : tables) : tables :=
  MkTables (agents t) (permissions t) (delegations t) (requests t) (credentials t)
    (notifications t) (devices t) (org_policies t) (governance_policies t) (preferences t)
    (audit_logs t) (assessments t) (f (risk_policies t)) (policy_versions t) (security_events t) (deliveries t)
    (identity t) (federation t) (operations t) (catalog t).
Definition upd_security_events f (t : tables) : tables :=
  MkTables (agents t) (permissions t) (delegations t) (requests t) (credentials t)
    (notifications t) (devices t) (org_policies t) (governance_policies t) (preferences t)
    (audit_logs t) (assessments t) (risk_policies t) (policy_versions t) (f (security_events t)) (deliveries t)
    (identity t) (federation t) (operations t) (catalog t).
Definition upd_deliveries f (t : tables) : tables :=
  MkTables (agents t) (permissions t) (delegations t) (requests t) (credentials t)
    (notifications t) (devices t) (org_policies t) (governance_policies t) (preferences t)
    (audit_logs t) (assessments t) (risk_policies t) (policy_versions t) (security_events t) (f (deliveries t))
    (identity t) (federation t) (operations t) (catalog t).

Definition upd_identity f (t : tables) : tables :=
  MkTables (agents t) (permissions t) (delegations t) (requests t) (credentials t)
    (notifications t) (devices t) (org_policies t) (governance_policies t) (preferences t)
    (audit_logs t) (assessments t) (risk_policies t) (policy_versions t) (security_events t) (deliveries t)
    (f (identity t)) (federation t) (operations t) (catalog t).
Definition upd_federation f (t : tables) : tables :=
  MkTables (agents t) (permissions t) (delegations t) (requests t) (credentials t)
    (notifications t) (devices t) (org_policies t) (governance_policies t) (preferences t)
    (audit_logs t) (assessments t) (risk_policies t) (policy_versions t) (security_events t) (deliveries t)
    (identity t) (f (federation t)) (operations t) (catalog t).
Definition upd_operations f (t : tables) : tables :=
  MkTables (agents t) (permissions t) (delegations t) (requests t) (credentials t)
    (notifications t) (devices t) (org_policies t) (governance_policies t) (preferences t)
    (audit_logs t) (assessments t) (risk_policies t) (policy_versions t) (security_events t) (deliveries t)
    (identity t) (federation t) (f (operations t)) (catalog t).

Definition upd_catalog f (t : tables) : tables :=
  MkTables (agents t) (permissions t) (delegations t) (requests t) (credentials t)
    (notifications t) (devices t) (org_policies t) (governance_policies t) (preferences t)
    (audit_logs t) (assessments t) (risk_policies t) (policy_versions t) (security_events t) (deliveries t)
    (identity t) (federation t) (operations t) (f (catalog t)).

(** ** Sessions *)

(** [db_now] is [func.now()]: the time of the database for this request; [seed]
    counts the random draws made so far. *)
Record session : Type := MkSession {
  cur : tables;
  committed : tables;
  dead : bool;
  seed : nat;
  db_now : time
}.

Definition open_session (t : tables) (n : nat) (now : time) : session :=
  MkSession t t false n now.

Abbreviation DB := (M session Exc).

Definition set_cur (t : tables) (s : session) : session :=
  MkSession t (committed s) (dead s) (seed s) (db_now s).

(** Reading sees the open transaction. *)
Definition query {A} (f : tables → A) : DB A := gets (λ s, f (cur s)).
Definition now_db : DB time := gets db_now.

(** [x = db.get(..); if not x: raise e] *)
Definition get_or {A} (f : tables → option A) (e : Exc) : DB A :=
  o ← query f;
  match o with Some a => mret a | None => throw e end.

(** A change to loaded rows, written at the next flush. *)
Definition write (f : tables → tables) : DB unit := λ s,
  if dead s then (Err PendingRollbackError, s)
  else (Ok tt, set_cur (f (cur s)) s).

(** [db.add(row)] and its flush: the row must satisfy the constraints. *)
Definition insert_checked (ok : tables → bool) (f : tables → tables) : DB unit := λ s,
  if dead s then (Err PendingRollbackError, s)
  else if ok (cur s) then (Ok tt, set_cur (f (cur s)) s)
  else (Err IntegrityError,
        MkSession (committed s) (committed s) true (seed s) (db_now s)).

(** [db.commit()] *)
Definition commit : DB unit := λ s,
  if dead s then (Err PendingRollbackError, s)
  else (Ok tt, MkSession (cur s) (cur s) false (seed s) (db_now s)).

(** [db.rollback()]: the session is usable again. *)
Definition rollback : DB unit := λ s,
  (Ok tt, MkSession (committed s) (committed s) false (seed s) (db_now s)).

(** The end of the request: [get_db] closes the session, unfinished work is
    rolled back, the outcome of the handler is unchanged. *)
Definition run_request {A} (m : DB A) (t : tables) (n : nat) (now : time) : result Exc A * tables :=
  let '(r, s) := m (open_session t n now) in (r, committed s).

Section run.
Context {A : Type}.
Lemma bind_query {B} (f : tables → B) (k : B → DB A) s : (query f ≫= k) s = k (f (cur s)) s.
Proof. reflexivity. Qed.
Lemma bind_get_or {B} f e (k : B → DB A) s :
  (get_or f e ≫= k) s = match f (cur s) with Some b => k b s | None => (Err e, s) end.
Proof. unfold get_or. rewrite bind_assoc, bind_run. simpl. by destruct (f (cur s)). Qed.
Lemma bind_now (k : time → DB A) s : (now_db ≫= k) s = k (db_now s) s.
Proof. reflexivity. Qed.
Lemma bind_write f (k : unit → DB A) s :
  dead s = false → (write f ≫= k) s = k tt (set_cur (f (cur s)) s).
Proof. intros H. rewrite bind_run. unfold write. by rewrite H. Qed.
Lemma bind_commit (k : unit → DB A) s :
  dead s = false →
  (commit ≫= k) s = k tt (MkSession (cur s) (cur s) false (seed s) (db_now s)).
Proof. intros H. rewrite bind_run. unfold commit. by rewrite H. Qed.
Lemma bind_insert ok f (k : unit → DB A) s :
  dead s = false →
  (insert_checked ok f ≫= k) s =
  if ok (cur s) then k tt (set_cur (f (cur s)) s)
  else (Err IntegrityError, MkSession (committed s) (committed s) true (seed s) (db_now s)).
Proof. intros H. rewrite bind_run. unfold insert_checked. rewrite H. by destruct (ok (cur s)). Qed.
End run.

Lemma bind_rollback {A} (k : unit → DB A) s :
  (rollback ≫= k) s = k tt (MkSession (committed s) (committed s) false (seed s) (db_now s)).
Proof. reflexivity. Qed.

Section draws.
Context `{Entropy}.
Definition next_seed (s : session) : session :=
  MkSession (cur s) (committed s) (dead s) (S (seed s)) (db_now s).
Definition fresh_uuid : DB uuid := λ s, (Ok (uuid4 (seed s)), next_seed s).
Definition fresh_token : DB string := λ s, (Ok (token_hex12 (seed s)), next_seed s).
Definition fresh_hex (k : nat) : DB string := λ s, (Ok (token_hex k (seed s)), next_seed s).
Definition fresh_urlsafe (k : nat) : DB string := λ s, (Ok (token_urlsafe k (seed s)), next_seed s).
Lemma bind_fresh_uuid {A} (k : uuid → DB A) s : (fresh_uuid ≫= k) s = k (uuid4 (seed s)) (next_seed s).
Proof. reflexivity. Qed.
Lemma bind_fresh_token {A} (k : string → DB A) s : (fresh_token ≫= k) s = k (token_hex12 (seed s)) (next_seed s).
Proof. reflexivity. Qed.
Lemma bind_fresh_hex {A} b (k : string → DB A) s : (fresh_hex b ≫= k) s = k (token_hex b (seed s)) (next_seed s).
Proof. reflexivity. Qed.
Lemma bind_fresh_urlsafe {A} b (k : string → DB A) s :
  (fresh_urlsafe b ≫= k) s = k (token_urlsafe b (seed s)) (next_seed s).
Proof. reflexivity. Qed.
End draws.

(** Execute a handler on a session: peel its binds, branch on its guards. *)
Create Rewrite HintDb run.
#[export] Hint Rewrite @bind_assoc @bind_raise_if @bind_gets @bind_ret @bind_query @bind_now @bind_get_or @bind_rollback : run.
#[export] Hint Rewrite @bind_write @bind_commit @bind_insert using done : run.
Ltac exec := autorewrite with run; cbn [set_cur open_session next_seed cur committed dead seed db_now].
Ltac exec_in H := autorewrite with run in H; cbn [set_cur open_session next_seed cur committed dead seed db_now] in H.

(** Pass the guard at the head of a run that is known to succeed, or walk past it in a
    goal about the final state of any run. *)
Ltac pass H :=
  rewrite bind_raise_if;
  lazymatch goal with |- (if ?b then _ else _) = (Ok _, _) → _ => destruct b eqn:H; [discriminate|] end.
Ltac past H :=
  rewrite bind_raise_if;
  lazymatch goal with |- context [(if ?b then _ else _).2] => destruct b eqn:H; [reflexivity || done|] end.

(** ** Queries *)

Definition rows {V} (m : gmap uuid V) : list V := (map_to_list m).*2.
Definition select_rows {V} (p : V → bool) (m : gmap uuid V) : list V := select_where p (rows m).
(** [db.scalar(select(..).where(p))] *)
Definition scalar {V} (p : V → bool) (m : gmap uuid V) : option V := find_first p (rows m).

(** [.order_by(created_at.desc(), id.desc())] *)
Section order.
Context {V : Type} (created : V → time) (id : V → uuid).
Definition newer (a b : V) : Prop :=
  created b < created a ∨ (created a = created b ∧ (id b ≤ id a)%N).
#[export] Instance newer_dec : RelDecision newer.
Proof. intros a b. unfold newer. apply _. Defined.
Definition order_desc (l : list V) : list V := merge_sort newer l.

#[export] Instance newer_trans : Transitive newer.
Proof. intros a b c. unfold newer. lia. Qed.
#[export] Instance newer_total : Total newer.
Proof. intros a b. unfold newer. lia. Qed.

Lemma elem_of_order_desc l x : x ∈ order_desc l ↔ x ∈ l.
Proof. unfold order_desc. by rewrite merge_sort_Permutation. Qed.
End order.

(** [.offset((page - 1) * size).limit(size)] and [ceil(total / size)]. *)
Definition page_of {A} (page size : Z) (l : list A) : list A :=
  take (Z.to_nat size) (drop (Z.to_nat ((page - 1) * size)) l).
Definition total_pages (total size : Z) : Z := if total =? 0 then 0 else (total + size - 1) / size.

(** The pages of a listing, one after the other, are the listing. *)
Lemma take_drop_pages {A} (size : nat) (l : list A) k :
  concat (map (λ j, take size (drop (j * size) l)) (seq 0 k)) = take (k * size) l.
Proof.
  induction k as [|k IH]; [done|].
  rewrite seq_S, map_app, concat_app, IH. simpl. rewrite app_nil_r.
  replace (size + k * size)%nat with (k * size + size)%nat by lia. by rewrite take_take_drop.
Qed.

Lemma pages_cover {A} (size : Z) (l : list A) :
  0 < size →
  concat (map (λ j, page_of (Z.of_nat j) size l) (seq 1 (Z.to_nat (total_pages (Z.of_nat (length l)) size)))) = l.
Proof.
  intros Hs. rewrite <- fmap_S_seq, <- list_fmap_compose.
  etrans; [|etrans; [apply (take_drop_pages (Z.to_nat size))|]].
  - f_equal. apply map_ext. intros j. unfold page_of. simpl. f_equal. f_equal. lia.
  - apply take_ge. unfold total_pages. destruct (_ =? 0) eqn:Hz; reflect; [lia|].
    pose proof (Z.div_mod (Z.of_nat (length l) + size - 1) size ltac:(lia)).
    pose proof (Z.mod_pos_bound (Z.of_nat (length l) + size - 1) size Hs).
    nia.
Qed.

(** Updating the rows of a table that satisfy a condition. *)
Definition update_where {V} (p : V → bool) (f : V → V) (m : gmap uuid V) : gmap uuid V :=
  (λ v, if p v then f v else v) <$> m.

Lemma elem_of_rows {V} (m : gmap uuid V) v : v ∈ rows m ↔ ∃ k, m !! k = Some v.
Proof.
  unfold rows. rewrite list_elem_of_fmap. split.
  - intros ([k w] & -> & Hin). exists k. by apply elem_of_map_to_list.
  - intros [k Hk]. exists (k, v). split; [done|]. by apply elem_of_map_to_list.
Qed.

Lemma scalar_Some {V} (p : V → bool) m v : scalar p m = Some v → ∃ k, m !! k = Some v ∧ p v = true.
Proof. intros [Hin Hp]%find_first_Some. apply elem_of_rows in Hin as [k Hk]. by exists k. Qed.

Lemma scalar_None {V} (p : V → bool) m : scalar p m = None ↔ ∀ k v, m !! k = Some v → p v = false.
Proof.
  unfold scalar. rewrite find_first_None. split.
  - intros H k v Hk. apply H, elem_of_rows. by exists k.
  - intros H v [k Hk]%elem_of_rows. by eapply H.
Qed.

(** A row that is the first to satisfy a condition is the one a query finds. *)
Lemma scalar_insert {V} (p : V → bool) m k v :
  scalar p m = None → p v = true → scalar p (<[k := v]> m) = Some v.
Proof.
  intros Hm Hv. destruct (scalar p (<[k := v]> m)) as [w|] eqn:Hw.
  - apply scalar_Some in Hw as (j & Hj & Hp). apply lookup_insert_Some in Hj as [[_ ->]|[_ Hj]]; [done|].
    by rewrite (proj1 (scalar_None p m) Hm _ _ Hj) in Hp.
  - exfalso. pose proof (proj1 (scalar_None p _) Hw k v) as H. rewrite lookup_insert_eq in H.
    rewrite H in Hv; done.
Qed.

Lemma elem_of_select_rows {V} (p : V → bool) m v :
  v ∈ select_rows p m ↔ (∃ k, m !! k = Some v) ∧ p v = true.
Proof. unfold select_rows. by rewrite elem_of_select_where, elem_of_rows. Qed.

Lemma lookup_update_where {V} (p : V → bool) f m k :
  update_where p f m !! k = (λ v : V, if p v then f v else v) <$> m !! k.
Proof. unfold update_where. apply lookup_fmap. Qed.

Lemma rows_update_where {V} (p : V → bool) f (m : gmap uuid V) :
  rows (update_where p f m) ≡ₚ map (λ v, if p v then f v else v) (rows m).
Proof.
  unfold rows, update_where. rewrite map_to_list_fmap, <- !list_fmap_compose. done.
Qed.

(** ** What a request may do to the tables

    [evolves R]: when the open transaction relates to the committed tables by the
    preorder [R] before a step, it still does after it, and the committed tables
    only moved along [R].  Every primitive of the session has its rule. *)
Definition evolves (R : relation tables) : relation session := λ s s',
  R (committed s) (cur s) → R (committed s) (committed s') ∧ R (committed s') (cur s').

#[export] Instance evolves_preorder R `{!PreOrder R} : PreOrder (evolves R).
Proof.
  split.
  - intros s Hs. split; [reflexivity | done].
  - intros s1 s2 s3 H12 H23 H1. destruct (H12 H1) as [H H2].
    destruct (H23 H2) as [H' H3]. split; [by etrans | done].
Qed.

Section evolves.
Context (R : relation tables) `{!PreOrder R}.

Lemma evolves_query {A} (f : tables → A) : respects (evolves R) (query f).
Proof. apply respects_gets, _. Qed.

Lemma evolves_get_or {A} (f : tables → option A) e : respects (evolves R) (get_or f e).
Proof.
  intros s Hs. unfold get_or. rewrite bind_query. by destruct (f (cur s)).
Qed.

Lemma evolves_write f : (∀ t, R t (f t)) → respects (evolves R) (write f).
Proof.
  intros Hf s Hs. unfold write. destruct (dead s); simpl; [by split|].
  split; [reflexivity|]. by etrans.
Qed.

Lemma evolves_insert ok f :
  (∀ t, ok t = true → R t (f t)) → respects (evolves R) (insert_checked ok f).
Proof.
  intros Hf s Hs. unfold insert_checked. destruct (dead s); simpl; [by split|].
  destruct (ok (cur s)) eqn:Hok; simpl; (split; [reflexivity|]); [|reflexivity].
  etrans; [exact Hs | by apply Hf].
Qed.

Lemma evolves_commit : respects (evolves R) commit.
Proof.
  intros s Hs. unfold commit. destruct (dead s); simpl; [by split|].
  split; [done | reflexivity].
Qed.

Lemma evolves_rollback : respects (evolves R) rollback.
Proof. intros s Hs. split; reflexivity. Qed.

Context `{Entropy}.
Lemma evolves_fresh_uuid : respects (evolves R) fresh_uuid.
Proof. intros s Hs. by split. Qed.
Lemma evolves_fresh_token : respects (evolves R) fresh_token.
Proof. intros s Hs. by split. Qed.
Lemma evolves_fresh_hex b : respects (evolves R) (fresh_hex b).
Proof. intros s Hs. by split. Qed.
Lemma evolves_fresh_urlsafe b : respects (evolves R) (fresh_urlsafe b).
Proof. intros s Hs. by split. Qed.

(** A write or an insert whose effect is only known where it happens. *)
Lemma evolves_write_here {A} f (k : unit → DB A) s :
  R (cur s) (f (cur s)) → respects (evolves R) (k tt) → evolves R s ((write f ≫= k) s).2.
Proof.
  intros Hf Hk Hs. rewrite bind_run. unfold write. destruct (dead s); simpl; [by split|].
  apply (Hk (set_cur (f (cur s)) s)). simpl. by etrans.
Qed.
Lemma evolves_insert_here {A} ok f (k : unit → DB A) s :
  (ok (cur s) = true → R (cur s) (f (cur s))) → respects (evolves R) (k tt) →
  evolves R s ((insert_checked ok f ≫= k) s).2.
Proof.
  intros Hf Hk Hs. rewrite bind_run. unfold insert_checked. destruct (dead s); simpl; [by split|].
  destruct (ok (cur s)); simpl; [|by split].
  apply (Hk (set_cur (f (cur s)) s)). simpl. etrans; [exact Hs | by apply Hf].
Qed.

Lemma evolves_insert_then {A} ok f (k : unit → DB A) s :
  (ok (cur s) = true → R (cur s) (f (cur s))) →
  (ok (cur s) = true → evolves R (set_cur (f (cur s)) s) (k tt (set_cur (f (cur s)) s)).2) →
  evolves R s ((insert_checked ok f ≫= k) s).2.
Proof.
  intros Hf Hk Hs. rewrite bind_run. unfold insert_checked. destruct (dead s); simpl; [by split|].
  destruct (ok (cur s)) eqn:Hok; simpl; [|by split].
  apply (Hk eq_refl). simpl. etrans; [exact Hs | by apply Hf].
Qed.

(** A step whose effect is known, followed by one that is known in every state. *)
Lemma evolves_then {A B} (m : DB A) (k : A → DB B) s :
  evolves R s (m s).2 → (∀ a, respects (evolves R) (k a)) → evolves R s ((m ≫= k) s).2.
Proof.
  intros Hm Hk. rewrite bind_run. destruct (m s) as [[a|e] s1]; simpl in *; [|done]. etrans; [exact Hm | apply Hk].
Qed.

(** What follows a commit moves the committed tables along [R]. *)
Lemma evolves_committed {A} (m : DB A) s :
  respects (evolves R) m → cur s = committed s → R (committed s) (committed (m s).2).
Proof. intros Hm Hs. apply Hm. by rewrite Hs. Qed.

(** A request that starts from committed tables moves them along [R]. *)
Lemma evolves_run {A} (m : DB A) t n now :
  respects (evolves R) m → R t (run_request m t n now).2.
Proof.
  intros Hm. specialize (Hm (open_session t n now)). unfold run_request.
  destruct (m (open_session t n now)) as [r s]. simpl in *.
  apply Hm. reflexivity.
Qed.
End evolves.

#[export] Hint Resolve evolves_query evolves_write evolves_insert evolves_commit
  evolves_fresh_uuid evolves_fresh_token : respects.
#[export] Hint Extern 1 (PreOrder _) => apply _ : respects.

(** ** Requests that fail

    Everything but a commit leaves the committed tables alone: a handler that
    raises before its commit has done nothing. *)
Definition same_committed (s s' : session) : Prop := committed s' = committed s.
#[export] Instance same_committed_preorder : PreOrder same_committed.
Proof. split; [by intros s | intros s1 s2 s3; unfold same_committed; congruence]. Qed.

Section same_committed.
Lemma keeps_rollback : respects same_committed rollback.
Proof. by intros s. Qed.
Lemma keeps_query {A} (f : tables → A) : respects same_committed (query f).
Proof. by intros s. Qed.
Lemma keeps_get_or {A} (f : tables → option A) e : respects same_committed (get_or f e).
Proof. intros s. unfold get_or. rewrite bind_query. by destruct (f (cur s)). Qed.
Lemma keeps_write f : respects same_committed (write f).
Proof. intros s. unfold write, same_committed. by destruct (dead s). Qed.
Lemma keeps_insert ok f : respects same_committed (insert_checked ok f).
Proof. intros s. unfold insert_checked, same_committed. destruct (dead s); [done|]. by destruct (ok (cur s)). Qed.
Context `{Entropy}.
Lemma keeps_fresh_uuid : respects same_committed fresh_uuid.
Proof. by intros s. Qed.
Lemma keeps_fresh_token : respects same_committed fresh_token.
Proof. by intros s. Qed.
Lemma keeps_fresh_hex b : respects same_committed (fresh_hex b).
Proof. by intros s. Qed.
Lemma keeps_fresh_urlsafe b : respects same_committed (fresh_urlsafe b).
Proof. by intros s. Qed.
End same_committed.
#[export] Hint Resolve keeps_query keeps_get_or keeps_write keeps_insert keeps_fresh_uuid
  keeps_fresh_token : respects.

(** Walk through a handler and prove what it does to the tables; the goals left
    are the writes the hint database does not know. *)
Ltac walk :=
  repeat first
    [ progress intros
    | match goal with
      | |- respects _ (_ ≫= _) => apply respects_bind; [apply _ | |]
      | |- respects _ (mret _) => apply respects_ret; apply _
      | |- respects _ (throw _) => apply respects_throw; apply _
      | |- respects _ (raise_if _ _) => apply respects_raise_if; apply _
      | |- respects _ (gets _) => apply respects_gets; apply _
      | |- respects _ now_db => apply respects_gets; apply _
      | |- respects _ (lift_result _) => apply respects_lift; apply _
      | |- respects _ (try_except _ _) => apply respects_try; [apply _ | |]
      | |- respects _ (for_each _ _) => apply respects_for_each; [apply _ |]
      | |- respects _ (query _) => first [apply keeps_query | apply evolves_query; apply _]
      | |- respects _ (get_or _ _) => first [apply keeps_get_or | apply evolves_get_or; apply _]
      | |- respects _ commit => apply evolves_commit; apply _
      | |- respects _ rollback => first [apply keeps_rollback | apply evolves_rollback; apply _]
      | |- respects _ fresh_uuid => first [apply keeps_fresh_uuid | apply evolves_fresh_uuid; apply _]
      | |- respects _ fresh_token => first [apply keeps_fresh_token | apply evolves_fresh_token; apply _]
      | |- respects _ (fresh_hex _) => first [apply keeps_fresh_hex | apply evolves_fresh_hex; apply _]
      | |- respects _ (fresh_urlsafe _) => first [apply keeps_fresh_urlsafe | apply evolves_fresh_urlsafe; apply _]
      | |- respects same_committed (write _) => apply keeps_write
      | |- respects same_committed (insert_checked _ _) => apply keeps_insert
      | |- respects _ (if ?b then _ else _) => destruct b eqn:?
      | |- respects _ (match ?o with _ => _ end) => destruct o eqn:?
      | |- respects _ (let '(_, _) := ?p in _) => destruct p eqn:?
      end
    | solve [eauto with respects nocore] ].

(** A handler that ends in its only commit either commits or changes nothing. *)
Lemma commit_last_failed {A B} (m : DB A) (f : A → B) s e s' :
  respects same_committed m →
  (m ≫= λ a, commit ≫= λ _, mret (f a)) s = (Err e, s') → committed s' = committed s.
Proof.
  intros Hm. specialize (Hm s). rewrite bind_run. destruct (m s) as [[a|e'] s1]; simpl in *.
  - rewrite bind_run. unfold commit. destruct (dead s1); simpl; intros; by simplify_eq.
  - intros; by simplify_eq.
Qed.

(** ** Steps that commit nothing

    [moves R]: the committed tables stay, and on a session that is still usable
    the open transaction moved along [R]. *)
Definition moves (R : relation tables) : relation session := λ s s',
  committed s' = committed s ∧ db_now s' = db_now s ∧
  (dead s' = false → dead s = false ∧ R (cur s) (cur s')).
#[export] Instance moves_preorder R `{!PreOrder R} : PreOrder (moves R).
Proof.
  split; [by intros s|]. intros s1 s2 s3 (C12 & N12 & H12) (C23 & N23 & H23).
  split; [congruence|]. split; [congruence|].
  intros [H2 R23]%H23. destruct (H12 H2) as [H1 R12]. split; [done | by etrans].
Qed.

Section moves.
Context (R : relation tables) `{!PreOrder R}.
Lemma moves_query {A} (f : tables → A) : respects (moves R) (query f).
Proof. by intros s. Qed.
Lemma moves_write f : (∀ t, R t (f t)) → respects (moves R) (write f).
Proof. intros Hf s. unfold write, moves. destruct (dead s) eqn:Hs; simpl; rewrite ?Hs; by split_and!. Qed.
Lemma moves_insert ok f : (∀ t, ok t = true → R t (f t)) → respects (moves R) (insert_checked ok f).
Proof.
  intros Hf s. unfold insert_checked, moves. destruct (dead s) eqn:Hs; simpl; rewrite ?Hs; [by split_and!|].
  destruct (ok (cur s)) eqn:Hok; simpl; rewrite ?Hs; split_and!; auto; discriminate.
Qed.
Context `{Entropy}.
Lemma moves_fresh_uuid : respects (moves R) fresh_uuid.
Proof. by intros s. Qed.
Lemma moves_fresh_token : respects (moves R) fresh_token.
Proof. by intros s. Qed.
End moves.
#[export] Hint Resolve moves_query moves_write moves_insert moves_fresh_uuid moves_fresh_token : respects.

(** ** Steps that cannot fail

    [settles R m]: on a usable session [m] returns, moves the open transaction
    along [R] and commits nothing. *)
Definition settles (R : relation tables) {A} (m : DB A) : Prop := ∀ s,
  dead s = false →
  ∃ a t n, m s = (Ok a, MkSession t (committed s) false n (db_now s)) ∧ R (cur s) t ∧ (seed s ≤ n)%nat.

Section settles.
Context (R : relation tables) `{!PreOrder R}.

Lemma settles_ret {A} (a : A) : settles R (mret a).
Proof. intros [t c d n now]. simpl. intros ->. by exists a, t, n. Qed.
Lemma settles_query {A} (f : tables → A) : settles R (query f).
Proof. intros [t c d n now]. simpl. intros ->. by exists (f t), t, n. Qed.
Lemma settles_now : settles R now_db.
Proof. intros [t c d n now]. simpl. intros ->. by exists now, t, n. Qed.
Lemma settles_write f : (∀ t, R t (f t)) → settles R (write f).
Proof. intros Hf [t c d n now]. simpl. intros ->. by exists tt, (f t), n. Qed.
Lemma settles_uuid `{Entropy} : settles R fresh_uuid.
Proof. intros [t c d n now]. simpl. intros ->. exists (uuid4 n), t, (S n). split_and!; [done | done | simpl; lia]. Qed.
Lemma settles_bind {A B} (m : DB A) (f : A → DB B) :
  settles R m → (∀ a, settles R (f a)) → settles R (m ≫= f).
Proof.
  intros Hm Hf s Hs. destruct (Hm s Hs) as (a & t & n & Hrun & Ht & Hn).
  destruct (Hf a (MkSession t (committed s) false n (db_now s)) eq_refl) as (b & t' & n' & Hrun' & Ht' & Hn').
  exists b, t', n'. rewrite bind_run, Hrun. split; [exact Hrun'|]. simpl in *.
  split; [by etrans | lia].
Qed.
Lemma settles_if {A} (b : bool) (m k : DB A) :
  settles R m → settles R k → settles R (if b then m else k).
Proof. by destruct b. Qed.
End settles.

(** ** Relations used by several components *)

(** The history of decisions only grows. *)
Definition logs_grow (t t' : tables) : Prop := audit_logs t `prefix_of` audit_logs t'.
#[export] Instance logs_grow_preorder : PreOrder logs_grow.
Proof. split; [intros t | intros t1 t2 t3; unfold logs_grow; apply transitivity]. unfold logs_grow. reflexivity. Qed.

(** Nothing is ever deleted: every row of the keyed tables is still there. *)
Definition rows_kept (t t' : tables) : Prop :=
  dom (agents t) ⊆ dom (agents t') ∧ dom (permissions t) ⊆ dom (permissions t') ∧
  dom (delegations t) ⊆ dom (delegations t') ∧ dom (requests t) ⊆ dom (requests t') ∧
  dom (credentials t) ⊆ dom (credentials t') ∧ audit_logs t `prefix_of` audit_logs t'.
#[export] Instance rows_kept_preorder : PreOrder rows_kept.
Proof.
  split.
  - intros t. repeat split; reflexivity.
  - intros t1 t2 t3 (?&?&?&?&?&?) (?&?&?&?&?&?). repeat split; by etrans.
Qed.

Lemma dom_update_where {V} (p : V → bool) f (m : gmap uuid V) :
  dom (update_where p f m) = dom m.
Proof. unfold update_where. apply dom_fmap_L. Qed.
