(* ===== verification/PyCodec.v ===== *)
(** Encodings of the Python library that the signing code uses: strict base64
    decoding and encoding, the timestamps [strptime] reads, and texts joined by line
    feeds.  Bytes are characters, as in [String.string]. *)

From Stdlib Require Import Ascii.
From S2P Require Import Prelude.
From S2P Require Import PyStr.
From S2P Require Import PyFloat.
From S2P Require Import PyVal.
From S2P Require Import PyDecimal.
From S2P Require Import Models.
From S2P Require Import PyTime.

Local Open Scope string_scope.
Local Open Scope Z_scope.

(** ** Base64 *)

Definition byte_of (c : ascii) : Z := Z.of_N (N_of_ascii c).
Definition char_of (b : Z) : ascii := ascii_of_N (Z.to_N b).

Definition b64_char (v : Z) : ascii :=
  char_of (if v <? 26 then 65 + v else if v <? 52 then 71 + v else if v <? 62 then v - 4
           else if v =? 62 then 43 else 47).
Definition b64_value (c : ascii) : option Z :=
  let b := byte_of c in
  if (65 <=? b) && (b <=? 90) then Some (b - 65)
  else if (97 <=? b) && (b <=? 122) then Some (b - 71)
  else if (48 <=? b) && (b <=? 57) then Some (b + 4)
  else if b =? 43 then Some 62 else if b =? 47 then Some 63 else None.
Definition equals_sign : ascii := ascii_of_nat 61.

(** [base64.b64encode] *)
Fixpoint b64encode (s : string) : string :=
  match s with
  | "" => ""
  | String a "" =>
      let a := byte_of a in
      String (b64_char (a / 4)) (String (b64_char (a mod 4 * 16)) (String equals_sign (String equals_sign "")))
  | String a (String b "") =>
      let a := byte_of a in let b := byte_of b in
      String (b64_char (a / 4)) (String (b64_char (a mod 4 * 16 + b / 16))
        (String (b64_char (b mod 16 * 4)) (String equals_sign "")))
  | String a (String b (String c s)) =>
      let a := byte_of a in let b := byte_of b in let c := byte_of c in
      String (b64_char (a / 4)) (String (b64_char (a mod 4 * 16 + b / 16))
        (String (b64_char (b mod 16 * 4 + c / 64)) (String (b64_char (c mod 64)) (b64encode s))))
  end.

(** The loop of [binascii.a2b_base64(.., strict_mode=True)]: [quad] is the position in
    the group of four, [left] the bits not yet written. *)
Fixpoint a2b_loop (quad left pads : Z) (padding_started : bool) (s : string) : option string :=
  match s with
  | "" => if quad =? 0 then Some "" else None
  | String c s =>
      if eqb c equals_sign then
        if (2 <=? quad) && (4 <=? quad + (pads + 1)) then (if eqb s "" then Some "" else None)
        else a2b_loop quad left (if 2 <=? quad then pads + 1 else pads) true s
      else
        match b64_value c with
        | None => None
        | Some v =>
            if padding_started then None
            else if quad =? 0 then a2b_loop 1 v 0 false s
            else if quad =? 1 then String (char_of (left * 4 + v / 16)) <$> a2b_loop 2 (v mod 16) 0 false s
            else if quad =? 2 then String (char_of (left * 16 + v / 4)) <$> a2b_loop 3 (v mod 4) 0 false s
            else String (char_of (left * 64 + v)) <$> a2b_loop 0 0 0 false s
        end
  end.
(** [base64.b64decode(s, validate=True)]; nothing stands for [binascii.Error]. *)
Definition b64decode (s : string) : option string :=
  match s with
  | String c _ => if eqb c equals_sign then None else a2b_loop 0 0 0 false s
  | "" => Some ""
  end.

Lemma byte_bounds c : 0 <= byte_of c < 256.
Proof. unfold byte_of. pose proof (N_ascii_bounded c). lia. Qed.
Lemma char_of_byte c : char_of (byte_of c) = c.
Proof. unfold char_of, byte_of. by rewrite N2Z.id, ascii_N_embedding. Qed.

(** The alphabet: each of the 64 values has its own character, and none is the padding. *)
Lemma b64_value_char v : 0 <= v < 64 → b64_value (b64_char v) = Some v ∧ eqb (b64_char v) equals_sign = false.
Proof.
  intros Hv.
  assert (Hall : forallb (λ n, eqb (b64_value (b64_char (Z.of_nat n))) (Some (Z.of_nat n)) &&
    negb (eqb (b64_char (Z.of_nat n)) equals_sign)) (seq 0 64) = true) by (vm_compute; reflexivity).
  rewrite forallb_forall in Hall. specialize (Hall (Z.to_nat v)).
  rewrite Z2Nat.id in Hall by lia.
  assert (Hin : In (Z.to_nat v) (seq 0 64)) by (apply in_seq; lia).
  specialize (Hall Hin). reflect. exact Hall.
Qed.

Lemma a2b_char quad left v s : 0 <= v < 64 → 0 <= quad < 4 →
  a2b_loop quad left 0 false (String (b64_char v) s) =
    if quad =? 0 then a2b_loop 1 v 0 false s
    else if quad =? 1 then String (char_of (left * 4 + v / 16)) <$> a2b_loop 2 (v mod 16) 0 false s
    else if quad =? 2 then String (char_of (left * 16 + v / 4)) <$> a2b_loop 3 (v mod 4) 0 false s
    else String (char_of (left * 64 + v)) <$> a2b_loop 0 0 0 false s.
Proof. intros Hv _. destruct (b64_value_char v Hv) as [Hval Hne]. cbn [a2b_loop]. by rewrite Hne, Hval. Qed.

(** The bits of three bytes, cut in four and put together again. *)
Lemma bits_first a b : 0 <= a < 256 → 0 <= b < 256 → a / 4 * 4 + (a mod 4 * 16 + b / 16) / 16 = a.
Proof. intros. Z.to_euclidean_division_equations. lia. Qed.
Lemma bits_second a b c : 0 <= a < 256 → 0 <= b < 256 → 0 <= c < 256 →
  (a mod 4 * 16 + b / 16) mod 16 * 16 + (b mod 16 * 4 + c / 64) / 4 = b.
Proof. intros. Z.to_euclidean_division_equations. lia. Qed.
Lemma bits_third b c : 0 <= b < 256 → 0 <= c < 256 → (b mod 16 * 4 + c / 64) mod 4 * 64 + c mod 64 = c.
Proof. intros. Z.to_euclidean_division_equations. lia. Qed.
Lemma sextets a b c : 0 <= a < 256 → 0 <= b < 256 → 0 <= c < 256 →
  0 <= a / 4 < 64 ∧ 0 <= a mod 4 * 16 + b / 16 < 64 ∧ 0 <= b mod 16 * 4 + c / 64 < 64 ∧ 0 <= c mod 64 < 64.
Proof. intros. Z.to_euclidean_division_equations. lia. Qed.

(** What is encoded is decoded to itself. *)
Lemma a2b_encode s : a2b_loop 0 0 0 false (b64encode s) = Some s.
Proof.
  remember (String.length s) as n eqn:Hn. revert s Hn.
  induction n as [n IH] using lt_wf_ind. intros [|a [|b [|c s]]] Hn; [done | | |]; cbn [b64encode].
  - pose proof (byte_bounds a) as Ha. destruct (sextets _ 0 0 Ha) as (S1 & S2 & _); [lia.. |].
    pose proof (bits_first _ 0 Ha) as H1. rewrite Z.add_0_r in S2, H1.
    rewrite !a2b_char by (assumption || lia). cbn -[Z.mul Z.div Z.modulo Z.add]. rewrite H1 by lia. by rewrite char_of_byte.
  - pose proof (byte_bounds a) as Ha. pose proof (byte_bounds b) as Hb.
    destruct (sextets _ _ 0 Ha Hb) as (S1 & S2 & S3 & _); [lia |].
    pose proof (bits_second _ _ 0 Ha Hb) as H2. rewrite Z.add_0_r in S3, H2.
    rewrite !a2b_char by (assumption || lia). cbn -[Z.mul Z.div Z.modulo Z.add].
    rewrite (bits_first _ _ Ha Hb), H2 by lia. by rewrite !char_of_byte.
  - pose proof (byte_bounds a) as Ha. pose proof (byte_bounds b) as Hb. pose proof (byte_bounds c) as Hc.
    destruct (sextets _ _ _ Ha Hb Hc) as (S1 & S2 & S3 & S4).
    rewrite !a2b_char by (assumption || lia). cbn [Z.eqb Pos.eqb].
    rewrite (IH (String.length s)); [| simpl in Hn; lia | done]. cbn -[Z.mul Z.div Z.modulo Z.add].
    by rewrite (bits_first _ _ Ha Hb), (bits_second _ _ _ Ha Hb Hc), (bits_third _ _ Hb Hc), !char_of_byte.
Qed.
Lemma b64decode_encode s : b64decode (b64encode s) = Some s.
Proof.
  pose proof (a2b_encode s) as H. unfold b64decode. destruct (b64encode s) as [|c e] eqn:He; [by injection H as <-|].
  enough (Hc : eqb c equals_sign = false) by by rewrite Hc.
  destruct s as [|a [|b [|d s]]]; [done | | |]; cbn [b64encode] in He; injection He as <- _;
    apply b64_value_char; pose proof (byte_bounds a); Z.to_euclidean_division_equations; lia.
Qed.
#[export] Instance b64encode_inj : Inj (=) (=) b64encode.
Proof. intros s t H. apply (inj Some). by rewrite <- (b64decode_encode s), H, b64decode_encode. Qed.

(** ** Timestamps *)

Definition is_leap (y : Z) : bool := (y mod 4 =? 0) && (negb (y mod 100 =? 0) || (y mod 400 =? 0)).
Definition month_days (y m : Z) : Z :=
  if m =? 2 then (if is_leap y then 29 else 28)
  else if existsb (Z.eqb m) [4; 6; 9; 11] then 30 else 31.
(** The day number of a civil date. *)
Definition days_from_civil (y m d : Z) : Z :=
  let y := if m <=? 2 then y - 1 else y in
  let era := y / 400 in
  let yoe := y - era * 400 in
  let doy := (153 * (if 2 <? m then m - 3 else m + 9) + 2) / 5 + d - 1 in
  let doe := yoe * 365 + yoe / 4 - yoe / 100 + doy in
  era * 146097 + doe - 719468.

(** [n] decimal digits at the front of a text. *)
Fixpoint read_digits (n : nat) (acc : Z) (s : string) : option (Z * string) :=
  match n, s with
  | O, _ => Some (acc, s)
  | S n, String c s => match digit_val c with Some d => read_digits n (10 * acc + d) s | None => None end
  | S _, "" => None
  end.
Definition read_char (c : ascii) (s : string) : option string :=
  match s with String d s => if eqb c d then Some s else None | "" => None end.

(** The fields of a text of the form [dddd-dd-ddTdd:dd:ddZ]. *)
Definition timestamp_fields (s : string) : option (Z * Z * Z * Z * Z * Z) :=
  '(y, s) ← read_digits 4 0 s; s ← read_char "-" s;
  '(mo, s) ← read_digits 2 0 s; s ← read_char "-" s;
  '(d, s) ← read_digits 2 0 s; s ← read_char "T" s;
  '(h, s) ← read_digits 2 0 s; s ← read_char ":" s;
  '(mi, s) ← read_digits 2 0 s; s ← read_char ":" s;
  '(sec, s) ← read_digits 2 0 s; s ← read_char "Z" s;
  if eqb s "" then Some (y, mo, d, h, mi, sec) else None.
(** [datetime.strptime(s, "%Y-%m-%dT%H:%M:%SZ")] in UTC, on texts of that form. *)
Definition strptime_z (s : string) : option time :=
  '(y, mo, d, h, mi, sec) ← timestamp_fields s;
  if (1 <=? y) && (1 <=? mo) && (mo <=? 12) && (1 <=? d) && (d <=? month_days y mo) && (h <=? 23) && (mi <=? 59) && (sec <=? 59)
  then Some (days_from_civil y mo d * day + h * hour + mi * minute + sec * second) else None.

Example strptime_leap : strptime_z "2024-02-29T12:34:56Z" = Some (1709210096 * second).
Proof. vm_compute. reflexivity. Qed.
Example strptime_no_leap : strptime_z "2023-02-29T12:34:56Z" = None.
Proof. vm_compute. reflexivity. Qed.

(** ** Line-based texts *)

Definition LF : ascii := ascii_of_nat 10.
Definition no_char (c : ascii) (s : string) : Prop := split_on c s = [s].
Definition text_lines (l : list string) : string := str_join (String LF "") l +:+ String LF "".

Lemma string_app_assoc (a b c : string) : (a +:+ b) +:+ c = a +:+ (b +:+ c).
Proof. induction a as [|x a IH]; [done|]. exact (f_equal (String x) IH). Qed.

Lemma split_append c s t : no_char c s → split_on c (s +:+ String c t) = s :: split_on c t.
Proof.
  unfold no_char. induction s as [|d s IH].
  - intros _. change (split_on c (String c t) = "" :: split_on c t). cbn [split_on]. by rewrite eqb_refl.
  - change (String d s +:+ String c t) with (String d (s +:+ String c t)). cbn [split_on].
    destruct (eqb d c); [done|].
    destruct (split_on c s) as [|w ws] eqn:Hs; [by apply split_on_nonempty in Hs|].
    intros [= -> ->]. by rewrite IH.
Qed.

(** The lines of a text are found again by splitting it. *)
Lemma split_lines l : Forall (no_char LF) l → l ≠ [] → split_on LF (text_lines l) = (l ++ [""])%list.
Proof.
  unfold text_lines. induction l as [|s l IH]; [done|]. intros [Hs Hl]%Forall_cons _.
  destruct l as [|s' l]; [by apply (split_append LF s "")|].
  change (str_join (String LF "") (s :: s' :: l)) with (s +:+ String LF (str_join (String LF "") (s' :: l))).
  rewrite string_app_assoc.
  change (String LF (str_join (String LF "") (s' :: l)) +:+ String LF "")
    with (String LF (str_join (String LF "") (s' :: l) +:+ String LF "")).
  rewrite (split_append _ _ _ Hs), IH; done.
Qed.
Lemma text_lines_inj l l' : Forall (no_char LF) l → Forall (no_char LF) l' → l ≠ [] → l' ≠ [] →
  text_lines l = text_lines l' → l = l'.
Proof.
  intros Hl Hl' Hn Hn' He. apply (app_inj_tail l l' "" "").
  by rewrite <- (split_lines l), <- (split_lines l'), He.
Qed.

(** ** Keyed hashing and numbers *)

(** [hmac.new(key, message, sha256).hexdigest()] *)
Class Hmac : Type := { hmac_sha256 : string → string → string }.
Fixpoint hex_text (s : string) : bool :=
  match s with "" => true | String c s => (in_range 48 57 c || in_range 97 102 c) && hex_text s end.
Class HmacLaws `{Hmac} : Prop := { hmac_hex : ∀ k m, hex_text (hmac_sha256 k m) = true }.

(** [int(s)]: digits, single underscores between them, a sign, blanks around. *)
Fixpoint int_digits (acc : Z) (after_digit : bool) (s : string) : option Z :=
  match s with
  | "" => if after_digit then Some acc else None
  | String c s =>
      if in_range 48 57 c then int_digits (acc * 10 + (byte_of c - 48)) true s
      else if eqb c "_"%char && after_digit then int_digits acc false s
      else None
  end.
Definition py_int (s : string) : option Z :=
  match py_strip s with
  | String "-"%char s => Z.opp <$> int_digits 0 false s
  | String "+"%char s => int_digits 0 false s
  | s => int_digits 0 false s
  end.
Example py_int_ex : map py_int [" 12"; "-7"; "1_000"; "1__0"; ""; "0x1"] =
  [Some 12; Some (-7); Some 1000; None; None; None].
Proof. reflexivity. Qed.

(** [hmac.compare_digest] of two texts refuses characters beyond ASCII. *)
Fixpoint ascii_text (s : string) : bool :=
  match s with "" => true | String c s => (byte_of c <? 128) && ascii_text s end.

(** ** Lenient base64 *)

(** [base64.b64decode(s)]: other characters are skipped, and so is what follows the padding. *)
Fixpoint a2b_lenient (quad left pads : Z) (s : string) : option string :=
  match s with
  | "" => if quad =? 0 then Some "" else None
  | String c s =>
      if eqb c equals_sign then
        if (2 <=? quad) && (4 <=? quad + (pads + 1)) then Some ""
        else a2b_lenient quad left (if 2 <=? quad then pads + 1 else pads) s
      else
        match b64_value c with
        | None => a2b_lenient quad left pads s
        | Some v =>
            if quad =? 0 then a2b_lenient 1 v 0 s
            else if quad =? 1 then String (char_of (left * 4 + v / 16)) <$> a2b_lenient 2 (v mod 16) 0 s
            else if quad =? 2 then String (char_of (left * 16 + v / 4)) <$> a2b_lenient 3 (v mod 4) 0 s
            else String (char_of (left * 64 + v)) <$> a2b_lenient 0 0 0 s
        end
  end.
(** A text that is not ASCII is refused. *)
Definition b64decode_lenient (s : string) : option string := if ascii_text s then a2b_lenient 0 0 0 s else None.

Lemma lenient_strict quad left pads started s r : a2b_loop quad left pads started s = Some r → a2b_lenient quad left pads s = Some r.
Proof.
  revert quad left pads started r. induction s as [|c s IH]; intros quad left pads started r; cbn [a2b_loop a2b_lenient]; [done|].
  destruct (eqb c equals_sign).
  - destruct (_ && _); [by destruct (eqb s "") | apply IH].
  - destruct (b64_value c) as [v|]; [|done]. destruct started; [done|].
    repeat (case_match; [first [apply IH | rewrite !fmap_Some; intros (x & Hx & ->); exists x; split; [by eapply IH | done]]|]).
    rewrite !fmap_Some. intros (x & Hx & ->). exists x. split; [by eapply IH | done].
Qed.
Lemma b64_value_ascii c v : b64_value c = Some v → (byte_of c <? 128) = true.
Proof. unfold b64_value. repeat case_match; lia || done. Qed.
Lemma ascii_strict quad left pads started s r : a2b_loop quad left pads started s = Some r → ascii_text s = true.
Proof.
  revert quad left pads started r. induction s as [|c s IH]; intros quad left pads started r; cbn [a2b_loop ascii_text]; [done|].
  destruct (eqb c equals_sign) eqn:He.
  - apply (proj1 (eqb_true _ _)) in He as ->. change (byte_of equals_sign <? 128) with true. cbn [andb].
    destruct (_ && _); [by destruct s | apply IH].
  - destruct (b64_value c) as [v|] eqn:Hv; [|done]. apply b64_value_ascii in Hv as ->. cbn [andb]. destruct started; [done|].
    repeat (case_match; [first [apply IH | rewrite fmap_Some; intros (x & Hx & _); by eapply IH]|]).
    rewrite fmap_Some. intros (x & Hx & _). by eapply IH.
Qed.
Lemma b64decode_lenient_encode s : b64decode_lenient (b64encode s) = Some s.
Proof.
  pose proof (a2b_encode s) as H. unfold b64decode_lenient. by rewrite (ascii_strict _ _ _ _ _ _ H), (lenient_strict _ _ _ _ _ _ H).
Qed.

(** [datetime.fromisoformat] of Python 3.12 on ASCII texts, as the C implementation reads
    them, and that it reads what [isoformat] and [strftime] write. *)

Local Open Scope string_scope.
Local Open Scope Z_scope.

(** ** The parser *)

Fixpoint str_drop (n : nat) (s : string) : string :=
  match n, s with S n, String _ s => str_drop n s | _, _ => s end.
(** Past its end a text has the character 0. *)
Definition nul : ascii := ascii_of_nat 0.
Definition peek (s : string) : ascii := match s with String c _ => c | "" => nul end.
Definition next (s : string) : string := match s with String _ s => s | "" => "" end.
Definition digit_at (n : nat) (s : string) : bool := is_some (digit_val (peek (str_drop n s))).
Definition char_at (n : nat) (c : ascii) (s : string) : bool := eqb (peek (str_drop n s)) c.

(** Digits from position [pos] on. *)
Fixpoint digits_end (fuel pos : nat) (s : string) : nat :=
  match fuel with
  | O => pos
  | S fuel => if digit_at pos s then digits_end fuel (S pos) s else pos
  end.
(** Where the date ends. *)
Definition separator_position (s : string) : option nat :=
  let len := String.length s in
  if (len =? 7)%nat then Some 7%nat
  else if char_at 4 "-" s then
    if char_at 5 "W" s then
      if (len <? 8)%nat then None
      else if (8 <? len)%nat && char_at 8 "-" s then
        if (len =? 9)%nat then None
        else if (10 <? len)%nat && digit_at 10 s then Some 8%nat else Some 10%nat
      else Some 8%nat
    else Some 10%nat
  else if char_at 4 "W" s then
    let pos := digits_end len 7 s in
    if (pos <? 9)%nat then Some pos else if Nat.even pos then Some 7%nat else Some 8%nat
  else Some 8%nat.

(** Monday is 0. *)
Definition weekday (days : Z) : Z := (days + 3) mod 7.
Definition week1_monday (year : Z) : Z :=
  let first := days_from_civil year 1 1 in
  let w := weekday first in
  first - w + (if 3 <? w then 7 else 0).
Definition week_date (year week d : Z) : option Z :=
  let first := weekday (days_from_civil year 1 1) in
  if (1 <=? year) && (1 <=? week) && (week <=? 53) && (negb (week =? 53) || (first =? 3) || ((first =? 2) && is_leap year)) &&
     (1 <=? d) && (d <=? 7)
  then
    let r := week1_monday year + (week - 1) * 7 + d - 1 in
    if (days_from_civil 1 1 1 <=? r) && (r <? days_from_civil 10000 1 1) then Some r else None
  else None.
Definition civil_date (year m d : Z) : option Z :=
  if (1 <=? year) && (1 <=? m) && (m <=? 12) && (1 <=? d) && (d <=? month_days year m)
  then Some (days_from_civil year m d) else None.

(** The day of a date of [len] characters. *)
Definition parse_date (len : nat) (s : string) : option Z :=
  '(year, p) ← read_digits 4 0 s;
  let dashed := eqb (peek p) "-"%char in
  let p := if dashed then next p else p in
  if eqb (peek p) "W"%char then
    '(week, p) ← read_digits 2 0 (next p);
    let used := (7 + if dashed then 1 else 0)%nat in
    if (used <? len)%nat then
      p ← (if dashed then read_char "-" p else Some p);
      '(d, p) ← read_digits 1 0 p;
      week_date year week d
    else week_date year week 1
  else
    '(m, p) ← read_digits 2 0 p;
    p ← (if dashed then read_char "-" p else Some p);
    '(d, p) ← read_digits 2 0 p;
    civil_date year m d.

(** [HH[:?MM[:?SS]]] and a fraction, on the first [len] characters of [s]; whether
    characters are left over. *)
Fixpoint skip_digits (s : string) : string :=
  match s with String c s' => if is_some (digit_val c) then skip_digits s' else s | "" => "" end.
Definition fraction (len : nat) (s : string) : option (Z * bool) :=
  let n := Nat.min len 6 in
  '(us, p) ← read_digits n 0 s;
  Some (us * 10 ^ (6 - Z.of_nat n), negb (eqb (skip_digits p) "")).
Fixpoint clock_fields (n : nat) (first sep : bool) (len : nat) (s : string) : option (list Z * Z * bool) :=
  match n with
  | O => None
  | S n =>
      '(v, p) ← read_digits 2 0 s;
      let c := peek p in
      let sep := if first then eqb c ":"%char else sep in
      let len := (len - 2)%nat in
      if (len <=? 1)%nat then Some ([v], 0, negb (eqb c nul))
      else if sep && eqb c ":"%char then
        '(vs, us, rest) ← clock_fields n false sep (len - 1) (next p);
        Some (v :: vs, us, rest)
      else if eqb c "."%char || eqb c ","%char then
        if eqb n O then '(us, rest) ← fraction (len - 1) (next p); Some ([v], us, rest) else None
      else if sep then None
      else if eqb n O then '(us, rest) ← fraction len p; Some ([v], us, rest)
      else '(vs, us, rest) ← clock_fields n false sep len p; Some (v :: vs, us, rest)
  end.
Definition nth_field (n : nat) (l : list Z) : Z := default 0 (l !! n).
Definition clock_seconds (l : list Z) : Z := nth_field 0 l * 3600 + nth_field 1 l * 60 + nth_field 2 l.
Definition zone_mark (c : ascii) : bool := existsb (eqb c) ["+"%char; "-"%char; "Z"%char].
Fixpoint zone_position (s : string) : nat :=
  match s with String c s => if zone_mark c then O else S (zone_position s) | "" => O end.
Definition valid_clock (l : list Z) : bool := (nth_field 0 l <=? 23) && (nth_field 1 l <=? 59) && (nth_field 2 l <=? 59).

(** Microseconds since midnight, and the offset of the zone if there is one. *)
Definition parse_time (s : string) : option (Z * option Z) :=
  let n := zone_position s in
  '(fields, us, rest) ← clock_fields 3 true false n s;
  let at_ := clock_seconds fields * second + us in
  let zone := str_drop n s in
  if negb (valid_clock fields) then None
  else if eqb zone "" then (if rest : bool then None else Some (at_, None))
  else if eqb (peek zone) "Z"%char then (if eqb zone "Z" then Some (at_, Some 0) else None)
  else
    let zone' := next zone in
    '(offset, ous, rest) ← clock_fields 3 true false (String.length zone') zone';
    let shift := clock_seconds offset * second + ous in
    if (rest : bool) || (day <=? shift) then None
    else Some (at_, Some (if eqb (peek zone) "-"%char then - shift else shift)).

(** The local time and the offset from UTC, if the text names a zone. *)
Definition fromisoformat_local (s : string) : option (time * option Z) :=
  let len := String.length s in
  if (len <? 7)%nat then None
  else
    pos ← separator_position s;
    d ← parse_date pos s;
    if (S pos <? len)%nat then '(clock, offset) ← parse_time (str_drop (S pos) s); Some (d * day + clock, offset)
    else Some (d * day, None).
(** The time in UTC, and whether the text names a zone. *)
Definition fromisoformat (s : string) : option (time * bool) :=
  '(t, offset) ← fromisoformat_local s; Some (t - default 0 offset, is_some offset).

Definition iso_text (s : string) : option string := option_map (λ r, isoformat r.1) (fromisoformat s).
Example iso_forms : map iso_text
  ["2024-02-29"; "20240229T123456"; "2024-W09-4"; "2024W094T12"; "2024-02-29T12:34:56.5+01:00"; "2024-02-29 12:34Z"] =
  [Some "2024-02-29T00:00:00+00:00"; Some "2024-02-29T12:34:56+00:00"; Some "2024-02-29T00:00:00+00:00";
   Some "2024-02-29T12:00:00+00:00"; Some "2024-02-29T11:34:56.500000+00:00"; Some "2024-02-29T12:34:00+00:00"].
Proof. vm_compute. reflexivity. Qed.
Example iso_refused : map iso_text
  ["2024-02-30"; "2024-02-29T24:00"; "2024-02-29T12:34:56+24:00"; "2024-02"; "2024-W54-1"; "2024-02-29T12:34:5"; "now"] =
  [None; None; None; None; None; None; None].
Proof. vm_compute. reflexivity. Qed.

(** ** Dates *)

(** [P] holds below [n]. *)
Fixpoint below (n : nat) (z : Z) (P : Z → bool) : bool :=
  match n with O => true | S n => P z && below n (z + 1) P end.
Lemma below_spec n z P : below n z P = true → ∀ x, z <= x < z + Z.of_nat n → P x = true.
Proof.
  revert z. induction n as [|n IH]; intros z; simpl; [lia|]. intros [Hz Hn]%andb_true_iff x Hx.
  destruct (decide (x = z)) as [->|Hne]; [done|]. apply (IH (z + 1) Hn). lia.
Qed.

(** A day of the 400 years after which the calendar repeats itself, the year from March. *)
Definition cycle_year (doe : Z) : Z := (doe - doe / 1460 + doe / 36524 - doe / 146096) / 365.
Definition month_day (doy : Z) : Z * Z :=
  let mp := (5 * doy + 2) / 153 in
  (if mp <? 10 then mp + 3 else mp - 9, doy - (153 * mp + 2) / 5 + 1).
Definition day_of_year (m d : Z) : Z := (153 * (if 2 <? m then m - 3 else m + 9) + 2) / 5 + d - 1.
Definition year_start (y : Z) : Z := 365 * y + y / 4 - y / 100.
Definition year_end (y : Z) : Z := if y =? 399 then 146097 else year_start (y + 1).
Definition linear (doe : Z) : Z := doe - doe / 1460 + doe / 36524 - doe / 146096.
Definition year_ok (y : Z) : bool :=
  (365 * y <=? linear (year_start y)) && (linear (year_end y - 1) <? 365 * (y + 1)) &&
  (year_end y - year_start y <=? 366) && implb (year_end y - year_start y =? 366) (is_leap (y + 1)).
Definition day_ok (doy : Z) : bool :=
  let '(m, d) := month_day doy in
  (day_of_year m d =? doy) && (1 <=? m) && (m <=? 12) && (1 <=? d) &&
  (if doy =? 365 then (m =? 2) && (d =? 29) else d <=? month_days 1 m).
Lemma years_all y : 0 <= y < 400 → year_ok y = true.
Proof. assert (H : below 400 0 year_ok = true) by (vm_compute; reflexivity). intros Hy. by apply (below_spec _ _ _ H). Qed.
Lemma days_all doy : 0 <= doy < 366 → day_ok doy = true.
Proof. assert (H : below 366 0 day_ok = true) by (vm_compute; reflexivity). intros Hd. by apply (below_spec _ _ _ H). Qed.

Lemma div_grows k a b : 0 < k → a <= b → 0 <= b / k - a / k <= b - a.
Proof. intros Hk Hab. pose proof (Z.div_le_mono a b k Hk Hab). Z.to_euclidean_division_equations. nia. Qed.
Lemma linear_mono a b : a <= b → linear a <= linear b.
Proof.
  intros Hab. unfold linear. change 146096 with (36524 * 4). rewrite <- !Z.div_div by lia.
  pose proof (div_grows 1460 a b ltac:(lia) Hab). pose proof (div_grows 36524 a b ltac:(lia) Hab) as Hq.
  pose proof (div_grows 4 (a / 36524) (b / 36524) ltac:(lia) ltac:(lia)). lia.
Qed.
Lemma find_year doe : 0 <= doe < 146097 → ∃ y, 0 <= y < 400 ∧ year_start y <= doe < year_end y.
Proof.
  intros [H0 H1].
  assert (Hall : ∀ n : nat, (n ≤ 399)%nat → doe < year_start (Z.of_nat n) → ∃ y, 0 <= y < 400 ∧ year_start y <= doe < year_end y).
  { induction n as [|n IH]; intros Hn Hlt; [change (doe < 0) in Hlt; lia|].
    destruct (decide (doe < year_start (Z.of_nat n))) as [Hd|Hd]; [apply IH; [lia | done]|].
    exists (Z.of_nat n). split; [lia|]. unfold year_end. destruct (Z.eqb_spec (Z.of_nat n) 399); [lia|].
    replace (Z.of_nat n + 1) with (Z.of_nat (S n)) by lia. lia. }
  destruct (decide (doe < year_start 399)) as [Hd|Hd]; [by apply (Hall 399%nat)|].
  exists 399. change (year_end 399) with 146097. lia.
Qed.
Lemma cycle_date doe : 0 <= doe < 146097 → let yoe := cycle_year doe in let '(m, d) := month_day (doe - year_start yoe) in
  0 <= yoe < 400 ∧ year_start yoe + day_of_year m d = doe ∧ 1 <= m <= 12 ∧
  1 <= d <= month_days (yoe + if m <=? 2 then 1 else 0) m.
Proof.
  intros Hdoe. destruct (find_year doe Hdoe) as (y & Hy & Hs & He). pose proof (years_all y Hy) as Hok. unfold year_ok in Hok.
  repeat match type of Hok with _ && _ = true => apply andb_true_iff in Hok as [Hok ?] end. rewrite ?Z.leb_le, ?Z.ltb_lt in *.
  assert (Hyear : cycle_year doe = y).
  { unfold cycle_year. change (linear doe / 365 = y). symmetry. apply Z.div_unique with (r := linear doe - 365 * y); [left|lia].
    pose proof (linear_mono (year_start y) doe Hs). pose proof (linear_mono doe (year_end y - 1) ltac:(lia)). lia. }
  cbv zeta. rewrite Hyear. pose proof (days_all (doe - year_start y) ltac:(lia)) as Hday. unfold day_ok in Hday.
  destruct (month_day (doe - year_start y)) as [m d].
  repeat match type of Hday with _ && _ = true => apply andb_true_iff in Hday as [Hday ?] end. rewrite ?Z.leb_le, ?Z.eqb_eq in *.
  split_and!; [lia | lia | lia | lia | lia | lia |].
  destruct (Z.eqb_spec (doe - year_start y) 365) as [Hlast|Hlast].
  - assert (Hleap : is_leap (y + 1) = true).
    { match goal with H : implb _ _ = true |- _ => by rewrite (proj2 (Z.eqb_eq (year_end y - year_start y) 366)) in H by lia end. }
    match goal with H : _ && _ = true |- _ => apply andb_true_iff in H as [->%Z.eqb_eq ->%Z.eqb_eq] end.
    unfold month_days. simpl. by rewrite Hleap.
  - etrans; [apply Z.leb_le; eassumption|]. unfold month_days. destruct (m =? 2); [|done]. change (is_leap 1) with false.
    clear. generalize (is_leap (y + (if m <=? 2 then 1 else 0))). intros []; simpl; lia.
Qed.
Lemma is_leap_cycle y k : is_leap (y + 400 * k) = is_leap y.
Proof.
  unfold is_leap. replace (y + 400 * k) with (y + (100 * k) * 4) at 1 by lia. rewrite Z_mod_plus_full.
  replace (y + 400 * k) with (y + (4 * k) * 100) at 1 by lia. rewrite Z_mod_plus_full.
  replace (y + 400 * k) with (y + k * 400) by lia. by rewrite Z_mod_plus_full.
Qed.
Lemma month_days_cycle y k m : month_days (y + 400 * k) m = month_days y m.
Proof. unfold month_days. by rewrite is_leap_cycle. Qed.
Lemma civil_days z : let '(y, m, d) := civil_from_days z in
  days_from_civil y m d = z ∧ 1 <= m <= 12 ∧ 1 <= d <= month_days y m.
Proof.
  set (era := (z + 719468) / 146097). set (doe := z + 719468 - era * 146097).
  assert (Hdoe : 0 <= doe < 146097) by (unfold doe, era; pose proof (Z.mod_pos_bound (z + 719468) 146097); Z.to_euclidean_division_equations; lia).
  pose proof (cycle_date doe Hdoe) as Hok. cbv zeta in Hok.
  assert (Hc : civil_from_days z = (let '(m, d) := month_day (doe - year_start (cycle_year doe)) in
    (cycle_year doe + era * 400 + (if m <=? 2 then 1 else 0), m, d))) by reflexivity.
  rewrite Hc. destruct (month_day _) as [m d]. destruct Hok as (Hyoe & Hday & Hm & Hd). set (yoe := cycle_year doe) in *.
  split_and!; [| lia | lia | lia |].
  - unfold days_from_civil. replace (if m <=? 2 then _ else _) with (yoe + era * 400) by (destruct (m <=? 2); lia).
    replace ((yoe + era * 400) / 400) with era by (rewrite Z.div_add, Z.div_small by lia; lia).
    replace (yoe + era * 400 - era * 400) with yoe by lia. unfold day_of_year, year_start, doe in *. lia.
  - replace (yoe + era * 400 + (if m <=? 2 then 1 else 0)) with (yoe + (if m <=? 2 then 1 else 0) + 400 * era) by lia.
    rewrite month_days_cycle. lia.
Qed.

(** ** What the program writes is read back *)

(** [t.strftime("%Y-%m-%dT%H:%M:%S")] from the year 1000 on. *)
Definition stamp (t : time) : string :=
  let '(y, m, d) := civil_from_days (t / day) in
  let r := t mod day in
  pad 4 y +:+ "-" +:+ pad 2 m +:+ "-" +:+ pad 2 d +:+ "T" +:+
  pad 2 (r / hour) +:+ ":" +:+ pad 2 (r / minute mod 60) +:+ ":" +:+ pad 2 (r / second mod 60).
Definition strftime_z (t : time) : string := stamp t +:+ "Z".

Definition digits_of (s : string) : option (list Z) := mapM digit_val (String.list_ascii_of_string s).
Lemma pad2_ok n : 0 <= n < 100 → digits_of (pad 2 n) = Some [n / 10; n mod 10].
Proof.
  assert (H : below 100 0 (λ n, eqb (digits_of (pad 2 n)) (Some [n / 10; n mod 10])) = true) by (vm_compute; reflexivity).
  intros Hn. apply (below_spec _ _ _ H) in Hn. by apply (proj1 (eqb_true _ _)).
Qed.
Lemma pad4_ok n : 0 <= n < 10000 → digits_of (pad 4 n) = Some [n / 1000; n / 100 mod 10; n / 10 mod 10; n mod 10].
Proof.
  assert (H : below (100 * 100) 0 (λ n, eqb (digits_of (pad 4 n)) (Some [n / 1000; n / 100 mod 10; n / 10 mod 10; n mod 10])) = true)
    by (vm_compute; reflexivity).
  intros Hn. apply (below_spec _ _ _ H) in Hn. by apply (proj1 (eqb_true _ _)).
Qed.
Lemma digits_cons s v vs : digits_of s = Some (v :: vs) → ∃ c s', s = String c s' ∧ digit_val c = Some v ∧ digits_of s' = Some vs.
Proof.
  destruct s as [|c s]; [done|]. unfold digits_of. simpl. intros H. apply bind_Some in H as (x & Hx & H).
  apply bind_Some in H as (l & Hl & [= -> ->]). by exists c, s.
Qed.
Lemma digits_nil s : digits_of s = Some [] → s = "".
Proof. destruct s as [|c s]; [done|]. unfold digits_of. simpl. intros H. apply bind_Some in H as (x & Hx & H). by apply bind_Some in H as (l & Hl & H). Qed.
Lemma pad2_split n : 0 <= n < 100 → ∃ a b, pad 2 n = String a (String b "") ∧ digit_val a = Some (n / 10) ∧ digit_val b = Some (n mod 10).
Proof.
  intros H%pad2_ok. apply digits_cons in H as (a & s & -> & Ha & H). apply digits_cons in H as (b & s' & -> & Hb & H%digits_nil).
  subst s'. by exists a, b.
Qed.
Lemma pad4_split n : 0 <= n < 10000 → ∃ a b c d, pad 4 n = String a (String b (String c (String d ""))) ∧
  digit_val a = Some (n / 1000) ∧ digit_val b = Some (n / 100 mod 10) ∧ digit_val c = Some (n / 10 mod 10) ∧ digit_val d = Some (n mod 10).
Proof.
  intros H%pad4_ok. apply digits_cons in H as (a & s & -> & Ha & H). apply digits_cons in H as (b & s' & -> & Hb & H).
  apply digits_cons in H as (c & s & -> & Hc & H). apply digits_cons in H as (d & s' & -> & Hd & H%digits_nil).
  subst s'. by exists a, b, c, d.
Qed.
Lemma digit_no_mark c v : digit_val c = Some v → zone_mark c = false.
Proof.
  intros H. destruct (zone_mark c) eqn:Hz; [|done]. apply existsb_exists in Hz as (x & Hx & He). apply (proj1 (eqb_true _ _)) in He.
  subst x. by repeat destruct Hx as [<-|Hx].
Qed.

Lemma digit_not c v c' : digit_val c = Some v → digit_val c' = None → eqb c c' = false.
Proof. intros Hc Hc'. apply eqb_false. congruence. Qed.
Ltac digits :=
  repeat match goal with H : digit_val ?c = Some _ |- context [digit_val ?c] => rewrite H; simpl end.

Section fields.
Context (y1 y2 y3 y4 m1 m2 d1 d2 : ascii) (a b c d e f g h : Z).
Context (Hy1 : digit_val y1 = Some a) (Hy2 : digit_val y2 = Some b) (Hy3 : digit_val y3 = Some c) (Hy4 : digit_val y4 = Some d).
Context (Hm1 : digit_val m1 = Some e) (Hm2 : digit_val m2 = Some f) (Hd1 : digit_val d1 = Some g) (Hd2 : digit_val d2 = Some h).
Definition date_text (rest : string) : string :=
  String y1 (String y2 (String y3 (String y4 (String "-" (String m1 (String m2 (String "-" (String d1 (String d2 rest))))))))).
Lemma read_date rest : separator_position (date_text (String "T" rest)) = Some 10%nat ∧
  parse_date 10 (date_text rest) = civil_date (1000 * a + 100 * b + 10 * c + d) (10 * e + f) (10 * g + h).
Proof.
  split.
  - unfold separator_position, char_at. simpl. by rewrite (digit_not m1 e "W"%char Hm1 eq_refl).
  - unfold parse_date. simpl. digits. rewrite (digit_not m1 e "W"%char Hm1 eq_refl). f_equal; lia.
Qed.
Definition clock_text : string -> string := λ rest,
  String y1 (String y2 (String ":" (String m1 (String m2 (String ":" (String d1 (String d2 rest))))))).
Lemma read_clock zone : zone = "Z" ∨ zone = "+00:00" → 10 * a + b <= 23 → 10 * e + f <= 59 → 10 * g + h <= 59 →
  parse_time (clock_text zone) = Some (((10 * a + b) * 3600 + (10 * e + f) * 60 + (10 * g + h)) * second, Some 0).
Proof.
  intros Hz Hh Hm Hs. unfold parse_time, clock_text. simpl.
  rewrite (digit_no_mark y1 a Hy1), (digit_no_mark y2 b Hy2), (digit_no_mark m1 e Hm1), (digit_no_mark m2 f Hm2),
    (digit_no_mark d1 g Hd1), (digit_no_mark d2 h Hd2).
  assert (Hn : zone_position zone = O) by (by destruct Hz as [-> | ->]). rewrite Hn. simpl. digits. unfold valid_clock, clock_seconds, nth_field. simpl.
  rewrite (proj2 (Z.leb_le _ _)), (proj2 (Z.leb_le _ _)), (proj2 (Z.leb_le _ _)) by lia. simpl.
  destruct Hz as [-> | ->]; simpl; do 2 f_equal; lia.
Qed.
End fields.
(** The years that [strftime] writes with four digits. *)
Definition four_digits (t : time) : bool := let '(y, _, _) := civil_from_days (t / day) in (1000 <=? y) && (y <? 10000).
Lemma tens n : 10 * (n / 10) + n mod 10 = n.
Proof. symmetry. by apply Z.div_mod. Qed.
Lemma thousands n : 0 <= n < 10000 → 1000 * (n / 1000) + 100 * (n / 100 mod 10) + 10 * (n / 10 mod 10) + n mod 10 = n.
Proof. intros Hn. Z.to_euclidean_division_equations. lia. Qed.
Lemma clock_of r : 0 <= r < day → 0 <= r / hour <= 23 ∧
  ((r / hour) * 3600 + (r / minute mod 60) * 60 + (r / second mod 60)) * second = r / second * second.
Proof.
  intros Hr. split; [unfold day, hour, minute, second in *; Z.to_euclidean_division_equations; lia|]. f_equal.
  change hour with (second * 3600). change minute with (second * 60). rewrite <- !Z.div_div by done.
  set (q := r / second). Z.to_euclidean_division_equations. lia.
Qed.
Lemma seconds_of t : t / day * day + t mod day / second * second = t / second * second.
Proof.
  change day with (second * 86400). rewrite <- Z.div_div by done. rewrite Z.rem_mul_r by done. set (q := t / second).
  replace (t mod second + second * (q mod 86400)) with (q mod 86400 * second + t mod second) by lia.
  rewrite Z.div_add_l, (Z.div_small (t mod second)) by (done || by apply Z.mod_pos_bound).
  pose proof (Z.div_mod q 86400 ltac:(done)). nia.
Qed.
Lemma local_stamp t : four_digits t = true → fromisoformat_local (stamp t +:+ "+00:00") = Some (t / second * second, Some 0).
Proof.
  intros Ht. unfold stamp. unfold four_digits in Ht. pose proof (civil_days (t / day)) as Hc.
  destruct (civil_from_days (t / day)) as [[y m] d]. destruct Hc as (Hdays & Hm & Hd).
  assert (Hy : 1000 <= y < 10000) by lia.
  assert (Hd' : d < 100) by (unfold month_days in Hd; repeat case_match; lia).
  set (r := t mod day). assert (Hr : 0 <= r < day) by (apply Z.mod_pos_bound; reflexivity).
  destruct (pad4_split y) as (y1 & y2 & y3 & y4 & -> & Hy1 & Hy2 & Hy3 & Hy4); [lia|].
  destruct (pad2_split m) as (m1 & m2 & -> & Hm1 & Hm2); [lia|].
  destruct (pad2_split d) as (d1 & d2 & -> & Hd1 & Hd2); [lia|].
  destruct (clock_of r Hr) as [Hhour Hsum]. destruct (pad2_split (r / hour)) as (h1 & h2 & -> & Hh1 & Hh2); [lia|].
  destruct (pad2_split (r / minute mod 60)) as (i1 & i2 & -> & Hi1 & Hi2); [pose proof (Z.mod_pos_bound (r / minute) 60); lia|].
  destruct (pad2_split (r / second mod 60)) as (s1 & s2 & -> & Hs1 & Hs2); [pose proof (Z.mod_pos_bound (r / second) 60); lia|].
  destruct (read_date y1 y2 y3 y4 m1 m2 d1 d2 _ _ _ _ _ _ _ _ Hy1 Hy2 Hy3 Hy4 Hm1 Hm2 Hd1 Hd2
    (clock_text h1 h2 i1 i2 s1 s2 "+00:00")) as [Hsep _].
  pose proof (read_clock h1 h2 i1 i2 s1 s2 _ _ _ _ _ _ Hh1 Hh2 Hi1 Hi2 Hs1 Hs2 "+00:00" (or_intror eq_refl)) as Hclock.
  destruct (read_date y1 y2 y3 y4 m1 m2 d1 d2 _ _ _ _ _ _ _ _ Hy1 Hy2 Hy3 Hy4 Hm1 Hm2 Hd1 Hd2
    (String "T" (clock_text h1 h2 i1 i2 s1 s2 "+00:00"))) as [_ Hdate].
  match goal with |- fromisoformat_local ?s = _ => change s with (date_text y1 y2 y3 y4 m1 m2 d1 d2 (String "T" (clock_text h1 h2 i1 i2 s1 s2 "+00:00"))) end.
  pose proof (Z.mod_pos_bound (r / minute) 60 eq_refl). pose proof (Z.mod_pos_bound (r / second) 60 eq_refl).
  rewrite !tens in *. rewrite (thousands y) in Hdate by lia. specialize (Hclock ltac:(lia) ltac:(lia) ltac:(lia)).
  unfold fromisoformat_local. rewrite Hsep. cbn [mbind option_bind]. rewrite Hdate. unfold civil_date.
  match goal with |- context [if ?c then Some (days_from_civil _ _ _) else None] => replace c with true by (symmetry; lia) end.
  cbn [mbind option_bind]. simpl. rewrite Hclock. simpl. rewrite Hsum, Hdays. by rewrite seconds_of.
Qed.
Lemma fromisoformat_stamp t : four_digits t = true → fromisoformat (stamp t +:+ "+00:00") = Some (t / second * second, true).
Proof. intros Ht. unfold fromisoformat. rewrite (local_stamp t Ht). simpl. by rewrite Z.sub_0_r. Qed.
