(* ===== verification/Samples.v ===== *)
(** Concrete rows and tables at which the theorems of the other files are
    exercised: small agents, permissions, delegations and the tables that hold
    them. *)

From Stdlib Require Import Ascii.
From S2P Require Import Prelude.
From S2P Require Import PyStr.
From S2P Require Import PyFloat.
From S2P Require Import PyVal.
From S2P Require Import PyDecimal.
From S2P Require Import Models.
From S2P Require Import Store.
From S2P Require Import PyCodec.

Local Open Scope Z_scope.
Local Open Scope string_scope.

#[export] Instance counting_entropy : Entropy :=
  {| uuid4 n := N.of_nat (1000 + n); token_hex12 n := "tok" +:+ str_of_nat n;
     token_hex k n := "hex" +:+ str_of_nat n; token_urlsafe k n := "url" +:+ str_of_nat n |}.

#[export] Instance counting_entropy_laws : EntropyLaws.
Proof.
  split; intros; cbn [uuid4 token_hex12 token_hex token_urlsafe counting_entropy] in *; [lia | | |];
    match goal with H : (_ +:+ _) = _ |- _ => injection H; apply str_of_nat_inj end.
Qed.

(** Agent [k], owned by user 9 of organization 50. *)
Definition sample_agent (k : uuid) : Agent :=
  {| ag_id := k; ag_created_at := 0; ag_name := "Agent"; ag_identifier := "agent-" +:+ str_of_nat (N.to_nat k);
     ag_environment := "production"; ag_owner_id := 9; ag_organization_id := Some 50%N;
     ag_status := ACTIVE; ag_owner_type := "user"; ag_purpose := Some "Pays the invoices";
     ag_risk_classification := "LOW"; ag_last_activity_at := None; ag_last_reviewed_at := None;
     ag_next_review_due_at := None; ag_certified_until := None; ag_certification_status := "CERTIFIED";
     ag_description := None; ag_team := None; ag_business_function := None; ag_business_criticality := "LOW";
     ag_data_classification := "INTERNAL"; ag_source := "MANUAL"; ag_tags := [];
     ag_expected_actions := []; ag_data_access_description := None |}.

(** Permission [k] of agent [a]: payments up to 1000 USD, valid for a day. *)
Definition sample_permission (k a : uuid) : Permission :=
  {| pm_id := k; pm_created_at := 0; pm_updated_at := 0; pm_owner_id := 9; pm_agent_id := a;
     pm_action := "pay"; pm_resource := "invoices"; pm_maximum_amount := Some (Dec 10000000 (-4));
     pm_currency := Some "USD"; pm_requires_approval := false; pm_allow_delegation := true;
     pm_valid_from := 0; pm_expires_at := day; pm_status := PermActive |}.

(** Delegation [k] from agent [p] to agent [c], a root or below [up]. *)
Definition sample_delegation (k p c : uuid) (up : option uuid) : AgentDelegation :=
  {| dl_id := k; dl_delegation_id := "del_" +:+ str_of_nat (N.to_nat k); dl_parent_agent_id := p;
     dl_child_agent_id := c; dl_parent_permission_id := 100; dl_parent_delegation_id := up;
     dl_organization_id := 50; dl_action := "pay"; dl_resource := "invoices";
     dl_maximum_amount := Some (Dec 5000000 (-4)); dl_currency := Some "USD"; dl_requires_approval := false;
     dl_allow_further_delegation := true;
     dl_current_depth := match up with None => 1 | Some _ => 2 end;
     dl_max_delegation_depth := 3; dl_valid_from := 0; dl_expires_at := day;
     dl_status := DlgActive; dl_revoked_at := None; dl_revocation_reason := None;
     dl_revoked_by_agent_id := None; dl_revoked_by_user_id := None; dl_created_at := 0 |}.

(** Tables that hold the given rows under their identifiers. *)
Definition keyed {V} (id : V → uuid) (l : list V) : gmap uuid V :=
  list_to_map (map (λ v, (id v, v)) l).
Lemma keyed_lookup {V} (id : V → uuid) l k v : keyed id l !! k = Some v → id v = k ∧ v ∈ l.
Proof.
  unfold keyed. intros H. apply elem_of_list_to_map_2, list_elem_of_fmap in H as (w & Hw & Hin).
  by injection Hw as -> ->.
Qed.
Definition tables_with (ags : list Agent) (pms : list Permission) (dls : list AgentDelegation) : tables :=
  upd_agents (λ _, keyed ag_id ags)
    (upd_permissions (λ _, keyed pm_id pms) (upd_delegations (λ _, keyed dl_id dls) empty_tables)).

(** Rows of accounts, organizations and plans at which the theorems of the account
    components are exercised. *)

Local Open Scope string_scope.
Local Open Scope Z_scope.

Fixpoint times_of (n : nat) (c : ascii) : string := match n with O => "" | S n => String c (times_of n c) end.

(** Hashes that keep their input: every use is visible. *)
Definition plain_hashing : Hashing := {| sha256_hex s := s |}.

Definition sample_user (id : uuid) : User :=
  MkUser id 0 ("user" +:+ str_of_nat (N.to_nat id) +:+ "@example.com") "secret" "A User" true 0 None.
Definition sample_org (id owner : uuid) : Organization :=
  MkOrganization id 0 ("Org " +:+ str_of_nat (N.to_nat id)) owner true "NOT_REQUESTED".
Definition sample_member (id org user : uuid) (role : OrganizationRole) : OrganizationMember :=
  MkMember id org user role MemActive None 0 0.
Definition sample_plan (limit : option Z) : SubscriptionPlan :=
  MkPlan 500 "Free" "free" None (Some 5) (Some 5) (Some 5) limit (Some 1) true.
Definition api_key_text (c : ascii) : string := "at_live_" +:+ times_of 64 c.
Definition sample_api_key (id org user : uuid) (c : ascii) (st : APIKeyStatus) : APIKey :=
  MkAPIKey id 0 (Some org) user "Key" "production" (str_take 20 (api_key_text c)) (api_key_text c) st None None None.

Definition account_tables (us : list User) (os : list Organization) (ms : list OrganizationMember) (ks : list APIKey) : tables :=
  upd_identity (on_users (λ _, keyed us_id us))
    (upd_identity (on_organizations (λ _, keyed og_id os))
      (upd_identity (on_members (λ _, keyed om_id ms))
        (upd_identity (on_api_keys (λ _, keyed ak_id ks)) empty_tables))).
