(* ===== verification/SecurityEvents.v ===== *)
(** Security events ([backend/app/services/security_events.py], the redaction of
    [core/observability.py] and the request context set by the middleware of
    [main.py]).

    The regular-expression engine of Python is the parameter [re_sub].  The
    detection rules and the export that end [record_security_event] are the
    interface [SecuritySinks]; [Soc] implements it.  Metrics have no effect on the
    tables and are left out. *)
From Stdlib Require Import Ascii.
From S2P Require Import Prelude.
From S2P Require Import PyStr.
From S2P Require Import PyFloat.
From S2P Require Import PyVal.
From S2P Require Import PyDecimal.
From S2P Require Import Models.
From S2P Require Import Store.

Local Open Scope string_scope.
Local Open Scope Z_scope.

(** ** Context of a request *)

(** The three context variables, [ENVIRONMENT] of the process environment, and
    [re.sub(pattern, replacement, text)]. *)
Class Ambient : Type := {
  request_id_context : string;
  trace_id_context : string;
  correlation_id_context : string;
  environ_environment : option string;
  re_sub : string → string → string → string
}.

(** The columns these values are stored in. *)
Class AmbientLaws `{Ambient} : Prop := {
  request_id_fits : fits 128 request_id_context = true;
  trace_id_fits : fits 128 trace_id_context = true;
  correlation_id_fits : fits 128 correlation_id_context = true;
  environment_fits : opt_check (fits 32) environ_environment = true
}.

Module Middleware.

Definition is_alnum (c : ascii) : bool := in_range 48 57 c || in_range 65 90 c || in_range 97 122 c.
Fixpoint all_chars (p : ascii → bool) (s : string) : bool :=
  match s with "" => true | String c s => p c && all_chars p s end.
Fixpoint remove_char (c : ascii) (s : string) : string :=
  match s with "" => "" | String d s => if eqb d c then remove_char c s else String d (remove_char c s) end.
Definition isalnum (s : string) : bool := not_empty s && all_chars is_alnum s.

(** The identifiers a request runs under; [token] is the fresh random text. *)
Definition request_id_of (supplied token : string) : string :=
  let n := String.length supplied in
  if startswith "req_" supplied && ((8 <=? n)%nat && (n <=? 80)%nat) && isalnum (remove_char "_" supplied)
  then supplied else "req_" +:+ token.
Definition trace_id_of (supplied token : string) : string :=
  if not_empty supplied && fits 128 supplied then supplied else "trace_" +:+ token.
Definition correlation_id_of (supplied token : string) : string :=
  if not_empty supplied && fits 128 supplied then supplied else "corr_" +:+ token.

(** Whatever a client supplies, the identifiers of the context fit their columns. *)
Lemma context_fits supplied token :
  fits 120 token = true →
  fits 128 (request_id_of supplied token) = true ∧ fits 128 (trace_id_of supplied token) = true ∧
  fits 128 (correlation_id_of supplied token) = true.
Proof.
  unfold request_id_of, trace_id_of, correlation_id_of, fits. rewrite !Nat.leb_le. intros Ht.
  split_and!; branch; rewrite ?String_length_append; cbn [String.length]; reflect; lia.
Qed.

End Middleware.

Module SecurityEvents.

(** ** Redaction *)

Section redaction.
Context `{Ambient}.

Definition dq : string := String (ascii_of_nat 34) "".
Definition REDACT_PATTERNS : list (string * string) :=
  [("(?i)(bearer\s+)[A-Za-z0-9_\-\.]{8,}", "\1[REDACTED]");
   ("(?i)(authorization[" +:+ dq +:+ "\']?\s*:\s*[" +:+ dq +:+ "\']?bearer\s+)[^" +:+ dq +:+ "\',\s]+", "\1[REDACTED]");
   ("(postgresql(?:\+[a-z0-9]+)?://[^:]+:)([^@]+)(@)", "\1[REDACTED]\3");
   ("(?i)\b(password|secret|token|api_key|apikey|private_key|bootstrap_token|jwt_secret_key)\s*([:=])\s*([\'" +:+ dq +:+
      "]?)([^\s\'" +:+ dq +:+ ",\)]+)\3", "\1\2\3[REDACTED]\3");
   ("-----BEGIN [A-Z ]*PRIVATE KEY-----[\s\S]*?-----END [A-Z ]*PRIVATE KEY-----", "[REDACTED_PRIVATE_KEY]")].

Definition redact_secrets (text : string) : string :=
  fold_left (λ text p, re_sub p.1 p.2 text) REDACT_PATTERNS text.

Definition secret_words : list string := ["password"; "secret"; "private_key"; "token"; "api_key"].
Definition names_secret (k : string) : bool := existsb (λ w, contains w (py_lower k)) secret_words.

(** [sanitize_event_details], on the value of a dictionary; what is neither a
    dictionary nor a list of the top of a value stays as it is. *)
Fixpoint sanitize_event_details (d : pyval) : pyval :=
  match d with
  | VDict kvs =>
      VDict (map (λ kv,
        (kv.1,
         if names_secret kv.1 then VStr "[REDACTED]"
         else match kv.2 with
              | VStr s => VStr (redact_secrets s)
              | VDict _ => sanitize_event_details kv.2
              | VList items => VList (map (λ item, match item with
                  | VDict _ => sanitize_event_details item
                  | VStr s => VStr (redact_secrets s)
                  | _ => item
                  end) items)
              | v => v
              end)) kvs)
  | v => v
  end.
Definition sanitized (details : list (string * pyval)) : list (string * pyval) :=
  match sanitize_event_details (VDict details) with VDict d => d | _ => [] end.

(** A value shows no secret: below it, through dictionaries and through lists, a
    key that names a secret has the redacted value. *)
Fixpoint shows_no_secret (v : pyval) : Prop :=
  match v with
  | VDict d => (fix go d := match d with [] => True | kv :: d =>
      (if names_secret kv.1 then kv.2 = VStr "[REDACTED]" else shows_no_secret kv.2) ∧ go d end) d
  | VList l => (fix go l := match l with [] => True | x :: l => shows_no_secret x ∧ go l end) l
  | _ => True
  end.

(** Lists hold no list, at any depth: what the sanitizer expects of its input. *)
Fixpoint flat_lists (v : pyval) : Prop :=
  match v with
  | VDict d => (fix go d := match d with [] => True | kv :: d => flat_lists kv.2 ∧ go d end) d
  | VList l => (fix go l := match l with [] => True | x :: l =>
      (match x with VList _ => False | _ => flat_lists x end) ∧ go l end) l
  | _ => True
  end.

Lemma flat_items_sanitized l :
  Forall (λ v, flat_lists v → match v with VDict _ => shows_no_secret (sanitize_event_details v) | _ => True end) l →
  flat_lists (VList l) →
  shows_no_secret (VList (map (λ item, match item with
    | VDict _ => sanitize_event_details item | VStr s => VStr (redact_secrets s) | _ => item end) l)).
Proof.
  intros Hl. induction Hl as [|x l Hx Hl IH]; [done|]. intros [Hflat Hrest]. split; [|by apply IH].
  destruct x; try done. by apply Hx.
Qed.

Lemma sanitized_no_secret_value v : flat_lists v →
  match v with
  | VDict _ => shows_no_secret (sanitize_event_details v)
  | VList l => shows_no_secret (VList (map (λ item, match item with
      | VDict _ => sanitize_event_details item | VStr s => VStr (redact_secrets s) | _ => item end) l))
  | _ => True
  end.
Proof.
  induction v as [| | | | | l IH | d IH] using pyval_rect_nested; try done.
  - intros Hflat. apply flat_items_sanitized; [|done].
    eapply Forall_impl; [exact IH|]. intros v Hv Hf. specialize (Hv Hf). by destruct v.
  - intros Hflat. induction IH as [|kv d Hkv Hd IHd]; [done|]. destruct Hflat as [Hf Hrest]. split; [|by apply IHd].
    cbn [fst snd]. destruct (names_secret kv.1) eqn:Hn; [done|].
    specialize (Hkv Hf). destruct kv as [k v]. cbn [fst snd] in *. by destruct v.
Qed.

(** Details without a list inside a list show no secret once sanitized. *)
Lemma sanitize_hides_secrets details :
  flat_lists (VDict details) → shows_no_secret (VDict (sanitized details)).
Proof. apply (sanitized_no_secret_value (VDict details)). Qed.

(** Inside a list of lists a secret stays. *)
Lemma nested_list_leaks :
  let secret := VList [VList [VDict [("password", VStr "hunter2")]]] in
  sanitized [("attempts", secret)] = [("attempts", secret)].
Proof. reflexivity. Qed.
End redaction.

(** ** Categories *)

Definition infer_event_category (event_type : string) : string :=
  let t := py_lower event_type in
  let has w := contains w t in
  if has "replay" then "REPLAY"
  else if has "cred" then "CREDENTIAL"
  else if has "trust" then "TRUST"
  else if has "delegat" then "DELEGATION"
  else if has "gateway" then "GATEWAY"
  else if has "key" || has "signing" || has "signature" then "AUTHORIZATION"
  else if has "permission" || has "authorization" then "AUTHORIZATION"
  else if has "mfa" || has "login" || has "session" || has "auth" then "AUTHENTICATION"
  else if has "approval" then "APPROVAL"
  else if has "admin" || has "role" || has "policy" then "ADMIN"
  else if has "agent" then "AGENT"
  else if has "supply" || has "sbom" then "SUPPLY_CHAIN"
  else "SYSTEM".

Lemma category_fits t : fits 64 (infer_event_category t) = true.
Proof. unfold infer_event_category. repeat (branch; [reflexivity|]). reflexivity. Qed.

(** ** Recording *)

Class SecuritySinks : Type := {
  ambient :: Ambient;
  detection : SecurityEvent → DB unit;
  siem_export : SecurityEvent → DB unit
}.
Class SecuritySinksLaws `{SecuritySinks} : Prop := {
  ambient_laws :: AmbientLaws;
  detection_unscoped : ∀ e s, se_organization_id e = None → detection e s = (Ok tt, s);
  siem_export_unscoped : ∀ e s, se_organization_id e = None → siem_export e s = (Ok tt, s)
}.

(** The keyword arguments.  The columns of [ev] are the ones given by the caller;
    [commit] is the last argument of [record]. *)
Definition event_args (event_type : string) (actor organization_id target : option uuid)
    (description : option string) (severity : string) (details : list (string * pyval)) : SecurityEvent :=
  MkSecurityEvent None organization_id actor target event_type None severity description None None None None None
    None None None None None None None None None None None None details 0.

(** [x or y] on texts: an empty text counts as absent. *)
Definition or_else (a b : option string) : option string :=
  match a with Some s => if eqb s "" then b else a | None => b end.
Definition context_value (s : string) : option string := if eqb s "-" then None else Some s.

Section record.
Context `{Entropy} `{SecuritySinks}.

Definition complete_event (ev : SecurityEvent) (event_id : string) (now : time) : SecurityEvent :=
  MkSecurityEvent (Some event_id) (se_organization_id ev) (se_actor_user_id ev) (se_target_user_id ev)
    (se_event_type ev) (or_else (se_category ev) (Some (infer_event_category (se_event_type ev))))
    (if eqb (se_severity ev) "" then "INFO" else py_upper (se_severity ev))
    (se_description ev) (se_source_type ev) (se_source_id ev) (se_agent_id ev) (se_gateway_id ev) (se_credential_id ev)
    (or_else (se_request_id ev) (context_value request_id_context))
    (or_else (se_trace_id ev) (context_value trace_id_context))
    (or_else (se_correlation_id ev) (context_value correlation_id_context))
    (or_else (se_actor_type ev) (Some (if is_some (se_actor_user_id ev) then "USER"
                                       else if is_some (se_agent_id ev) then "AGENT" else "SYSTEM")))
    (or_else (se_actor_id ev) (match se_actor_user_id ev, se_agent_id ev with
                               | Some u, _ => Some (uuid_str u)
                               | None, Some a => Some (uuid_str a)
                               | None, None => None
                               end))
    (se_target_type ev) (se_target_id ev) (or_else (se_action ev) (Some (se_event_type ev)))
    (se_decision ev) (se_risk_level ev) (se_region ev)
    (or_else (se_environment ev) (Some (default "production" environ_environment)))
    (sanitized (se_details ev)) now.

(** The lengths of the columns, and the unique key of an identifier the caller
    chose; one drawn by [uuid4] is taken to be new. *)
Definition event_ok (given : option string) (e : SecurityEvent) (t : tables) : bool :=
  opt_check (fits 64) (se_event_id e) && fits 80 (se_event_type e) && opt_check (fits 64) (se_category e) &&
  fits 16 (se_severity e) && opt_check (fits 255) (se_description e) && opt_check (fits 64) (se_source_type e) &&
  opt_check (fits 128) (se_source_id e) && opt_check (fits 128) (se_request_id e) &&
  opt_check (fits 128) (se_trace_id e) && opt_check (fits 128) (se_correlation_id e) &&
  opt_check (fits 64) (se_actor_type e) && opt_check (fits 128) (se_actor_id e) &&
  opt_check (fits 64) (se_target_type e) && opt_check (fits 128) (se_target_id e) &&
  opt_check (fits 128) (se_action e) && opt_check (fits 64) (se_decision e) &&
  opt_check (fits 32) (se_risk_level e) && opt_check (fits 64) (se_region e) && opt_check (fits 32) (se_environment e) &&
  match given with
  | Some id => negb (existsb (λ e', eqb (se_event_id e') (Some id)) (security_events t))
  | None => true
  end.

Definition uuid_hex (u : uuid) : string := hex_string 32 u "".
Definition generate_event_id : DB string := u ← fresh_uuid; mret ("evt_" +:+ uuid_hex u).

(** Both sinks run inside [try: .. except Exception: pass]. *)
Definition record_event (ev : SecurityEvent) (commit_ : bool) : DB SecurityEvent :=
  event_id ← match or_else (se_event_id ev) None with Some id => mret id | None => generate_event_id end;
  _ ← fresh_uuid;
  now ← now_db;
  let event := complete_event ev event_id now in
  insert_checked (event_ok (or_else (se_event_id ev) None) event) (upd_security_events (λ l, (l ++ [event])%list)) ;;
  (if commit_ then commit else mret tt) ;;
  try_except (detection event) (λ _, mret tt) ;;
  try_except (siem_export event) (λ _, mret tt) ;;
  mret event.

Definition record_security_event (actor_user_id : uuid) (event_type : string) (organization_id target : option uuid)
    (description : option string) (commit_ : bool) : DB SecurityEvent :=
  record_event (event_args event_type (Some actor_user_id) organization_id target description "info" []) commit_.
End record.

(** ** What recording does to the other tables

    A relation that the sinks respect and that ignores the log of events is
    respected by the whole operation. *)
Class SinksRespect `{SecuritySinks} (R : relation tables) : Prop := {
  detection_respects : ∀ e, respects (evolves R) (detection e);
  siem_export_respects : ∀ e, respects (evolves R) (siem_export e);
  log_ignored : ∀ f t, R t (upd_security_events f t)
}.

Lemma record_event_evolves `{Entropy} `{SecuritySinks} (R : relation tables) `{!PreOrder R} `{!SinksRespect R} ev b :
  respects (evolves R) (record_event ev b).
Proof.
  unfold record_event, generate_event_id.
  apply respects_bind; [apply _ | walk | intros id]. apply respects_bind; [apply _ | walk | intros u].
  apply respects_bind; [apply _ | walk | intros now].
  apply respects_bind; [apply _ | apply evolves_insert; [apply _ | intros t _; apply log_ignored] | intros _].
  apply respects_bind; [apply _ | walk | intros _].
  apply respects_bind; [apply _ | apply respects_try; [apply _ | apply detection_respects | walk] | intros _].
  apply respects_bind; [apply _ | apply respects_try; [apply _ | apply siem_export_respects | walk] | intros _]. walk.
Qed.

(** ** An event of no organization

    When the texts of the caller fit their columns the row does; the sinks return
    at once, so recording cannot fail. *)
Section unscoped.
Context `{Entropy} `{SecuritySinks} `{!SecuritySinksLaws}.

(** The event carries no text of the caller but its type and description. *)
Definition plain (ev : SecurityEvent) : Prop :=
  ∃ ty actor org target descr sev details,
    ev = event_args ty actor org target descr sev details ∧
    fits 80 ty = true ∧ opt_check (fits 255) descr = true ∧ fits 16 sev = true.

Lemma fits_le n m s : fits n s = true → (n ≤ m)%nat → fits m s = true.
Proof. unfold fits. rewrite !Nat.leb_le. lia. Qed.

Lemma length_substring i n x : (String.length (String.substring i n x) ≤ n)%nat.
Proof.
  revert i n. induction x as [|c x IH]; intros i n; [destruct i, n; simpl; lia|].
  destruct i, n; simpl; [lia | | apply IH | apply IH]. specialize (IH 0%nat n). lia.
Qed.

Lemma length_uuid_str u : (String.length (uuid_str u) ≤ 36)%nat.
Proof.
  unfold uuid_str. set (h := hex_string _ _ _). clearbody h. cbn [str_join].
  rewrite !String_length_append. cbn [String.length].
  pose proof (length_substring 0 8 h). pose proof (length_substring 8 4 h).
  pose proof (length_substring 12 4 h). pose proof (length_substring 16 4 h).
  pose proof (length_substring 20 12 h). lia.
Qed.

Lemma length_hex_string k n acc : String.length (hex_string k n acc) = (k + String.length acc)%nat.
Proof. revert n acc. induction k as [|k IH]; intros n acc; [done|]. cbn [hex_string]. rewrite IH. simpl. lia. Qed.

Lemma context_value_fits s : fits 128 s = true → opt_check (fits 128) (context_value s) = true.
Proof. unfold context_value. by destruct (eqb s "-"). Qed.

Lemma plain_event_ok ev u now t : plain ev → event_ok None (complete_event ev ("evt_" +:+ uuid_hex u) now) t = true.
Proof.
  intros (ty & actor & org & target & descr & sev & details & -> & Hty & Hd & Hsev).
  unfold event_ok, complete_event, event_args.
  cbn [se_event_id se_event_type se_category se_severity se_description se_source_type se_source_id se_request_id
    se_trace_id se_correlation_id se_actor_type se_actor_id se_target_type se_target_id se_action se_decision
    se_risk_level se_region se_environment se_actor_user_id se_agent_id or_else opt_check].
  rewrite !context_value_fits by (apply request_id_fits || apply trace_id_fits || apply correlation_id_fits); cbn [andb].
  rewrite Hty, Hd, category_fits. rewrite (fits_le 80 128 ty Hty) by lia.
  assert (fits 64 ("evt_" +:+ uuid_hex u) = true) as ->.
  { unfold fits, uuid_hex. rewrite String_length_append, length_hex_string. reflexivity. }
  assert (fits 16 (if eqb sev "" then "INFO" else py_upper sev) = true) as ->.
  { destruct (eqb sev ""); [done|]. unfold fits, py_upper. by rewrite map_string_length. }
  assert (fits 32 (default "production" environ_environment) = true) as ->.
  { pose proof environment_fits as He. by destruct environ_environment. }
  destruct actor as [a|]; cbn [opt_check andb is_some]; [|done].
  rewrite (fits_le 36 128 (uuid_str a)); [done | apply Nat.leb_le, length_uuid_str | lia].
Qed.

Lemma record_event_settles (R : relation tables) `{!PreOrder R} ev :
  (∀ e t, R t (upd_security_events (λ l, (l ++ [e])%list) t)) →
  plain ev → se_organization_id ev = None → settles R (record_event ev false).
Proof.
  intros HR Hp Horg [t c d n now]. cbn [dead]. intros ->. unfold record_event, generate_event_id.
  assert (Hid : or_else (se_event_id ev) None = None) by by destruct Hp as (? & ? & ? & ? & ? & ? & ? & -> & ?).
  rewrite Hid, bind_assoc, bind_run. unfold fresh_uuid at 1, next_seed at 1. cbn [cur committed dead seed db_now].
  rewrite bind_ret, bind_run. unfold fresh_uuid, next_seed. cbn [cur committed dead seed db_now]. exec.
  rewrite plain_event_ok by done. exec. rewrite bind_run. unfold try_except at 1.
  rewrite detection_unscoped by done. rewrite bind_run. unfold try_except.
  rewrite siem_export_unscoped by done. eexists _, _, _. split; [reflexivity|]. split; [apply HR | simpl; lia].
Qed.
End unscoped.

End SecurityEvents.
