(* ===== verification/Canonical.v ===== *)
(** The texts that are signed ([canonical_request] and
    [canonical_cross_org_request_v2] of [backend/app/services/agent_signing.py],
    [services/atc_canonical.py], [services/atp_canonical.py]) and the addresses of
    agents.  SHA-256 and [json.loads] are parameters ([Loaders]). *)
From Stdlib Require Import Ascii.
From S2P Require Import Prelude.
From S2P Require Import PyStr.
From S2P Require Import PyFloat.
From S2P Require Import PyVal.
From S2P Require Import PyDecimal.
From S2P Require Import AplParser.
From S2P Require Import Models.
From S2P Require Import PyTime.
From S2P Require Import PyCodec.

Local Open Scope string_scope.

Module Canonical.

(** ** Canonical texts *)

Definition SIGNATURE_VERSION : string := "v1".
Definition SIGNATURE_VERSION_V2 : string := "v2".
Definition ATC_SIGNING_VERSION : string := "ATC-SIG/1".
Definition SIGNING_VERSION : string := "ATP-SIG/1".

Section hashing.
Context `{Loaders}.

Definition canonical_request (method path agent_id key_id timestamp nonce body : string) : string :=
  text_lines [SIGNATURE_VERSION; py_upper method; path; agent_id; key_id; timestamp; nonce; sha256_hex body].

Definition canonical_cross_org_request_v2 (method path source_org_id target_org_id source_agent_id target_agent_id
    key_id timestamp nonce body : string) : string :=
  text_lines [SIGNATURE_VERSION_V2; py_upper method; path; source_org_id; target_org_id; source_agent_id;
    target_agent_id; key_id; timestamp; nonce; sha256_hex body].

(** The argument of the two hash functions: [None], bytes, a text or another value. *)
Inductive payload : Type := PNone | PBytes (b : string) | PText (s : string) | PValue (v : pyval).

Definition payload_json (p : payload) : string :=
  match p with
  | PNone => "{}"
  | PBytes b => b
  | PText s => match json_loads s with Ok v => canonical_json v | Err _ => s end
  | PValue v => canonical_json v
  end.
Definition compute_payload_sha256 (p : payload) : string := sha256_hex (payload_json p).
Definition compute_claims_sha256 (p : payload) : string := sha256_hex (payload_json p).

Definition build_canonical_request_ascii (message_id message_type source_org_id source_agent_id target_org_id
    target_agent_id capability timestamp nonce payload_sha256 : string) : string :=
  text_lines [SIGNING_VERSION; py_strip message_id; py_strip message_type; py_strip source_org_id;
    py_strip source_agent_id; py_strip target_org_id; py_strip target_agent_id; py_strip capability;
    py_strip timestamp; py_strip nonce; py_strip payload_sha256].

Definition build_atc_canonical_ascii (credential_version credential_id issuer_id subject_org_id subject_agent_id
    credential_type issued_at : string) (not_before : option string) (expires_at environment claims_sha256 : string) : string :=
  text_lines [ATC_SIGNING_VERSION; py_strip credential_version; py_strip credential_id; py_strip issuer_id;
    py_strip subject_org_id; py_strip subject_agent_id; py_strip credential_type; py_strip issued_at;
    py_strip (default "" not_before); py_strip expires_at; py_strip environment; py_strip claims_sha256].

(** ** What a signature binds

    A message is what one of the four functions is applied to. *)
Inductive message : Type :=
  | RequestV1 (method path agent_id key_id timestamp nonce body : string)
  | RequestV2 (method path source_org target_org source_agent target_agent key_id timestamp nonce body : string)
  | AtpMessage (message_id message_type source_org source_agent target_org target_agent capability timestamp nonce
      payload_sha256 : string)
  | AtcCredential (credential_version credential_id issuer_id subject_org subject_agent credential_type issued_at : string)
      (not_before : option string) (expires_at environment claims_sha256 : string).

Definition signed_text (m : message) : string :=
  match m with
  | RequestV1 me p a k t n b => canonical_request me p a k t n b
  | RequestV2 me p so to sa ta k t n b => canonical_cross_org_request_v2 me p so to sa ta k t n b
  | AtpMessage i ty so sa to ta c t n h => build_canonical_request_ascii i ty so sa to ta c t n h
  | AtcCredential v i s o a ty iss nb e env h => build_atc_canonical_ascii v i s o a ty iss nb e env h
  end.

(** The fields a message carries, as the signature sees them. *)
Definition fields (m : message) : list string :=
  match m with
  | RequestV1 me p a k t n b => [py_upper me; p; a; k; t; n; sha256_hex b]
  | RequestV2 me p so to sa ta k t n b => [py_upper me; p; so; to; sa; ta; k; t; n; sha256_hex b]
  | AtpMessage i ty so sa to ta c t n h => map py_strip [i; ty; so; sa; to; ta; c; t; n; h]
  | AtcCredential v i s o a ty iss nb e env h => map py_strip [v; i; s; o; a; ty; iss; default "" nb; e; env; h]
  end.
Definition protocol (m : message) : string :=
  match m with
  | RequestV1 _ _ _ _ _ _ _ => SIGNATURE_VERSION
  | RequestV2 _ _ _ _ _ _ _ _ _ _ => SIGNATURE_VERSION_V2
  | AtpMessage _ _ _ _ _ _ _ _ _ _ => SIGNING_VERSION
  | AtcCredential _ _ _ _ _ _ _ _ _ _ _ => ATC_SIGNING_VERSION
  end.
Definition one_line (m : message) : Prop := Forall (no_char LF) (fields m).

Lemma signed_text_lines m : signed_text m = text_lines (protocol m :: fields m).
Proof. by destruct m. Qed.

(** Two messages without line feeds in their fields are signed as the same
    text only if they belong to the same protocol and agree in every field, so that a
    signature for one request, message or credential is never one for another. *)
Theorem signature_binds_fields m m' :
  one_line m → one_line m' → signed_text m = signed_text m' → protocol m = protocol m' ∧ fields m = fields m'.
Proof.
  intros Hm Hm'. rewrite !signed_text_lines. intros Heq.
  assert (Hp : ∀ x, no_char LF (protocol x)) by (by intros []).
  apply text_lines_inj in Heq; [by injection Heq | by constructor | by constructor | done | done].
Qed.

(** The restriction matters: the fields of two ATP messages that are not one line each can
    be shifted against each other. *)
Definition nl : string := String LF "".
Example line_feeds_shift_fields :
  let m := AtpMessage "msg_1" "CALL" "org" "a" "org2" "b" ("pay" +:+ nl +:+ "now") "t" "n" "h" in
  let m' := AtpMessage "msg_1" "CALL" "org" "a" "org2" "b" "pay" ("now" +:+ nl +:+ "t") "n" "h" in
  signed_text m = signed_text m' ∧ fields m ≠ fields m'.
Proof. split; [vm_compute; reflexivity | vm_compute; discriminate]. Qed.
End hashing.

(** The fields of a message in the model of [fixed_loaders] are those of the text. *)
Lemma signature_binds_fields_witness :
  let m amount := @RequestV1 "post" "/pay" "agent-1" "key" "time" "nonce" amount in
  ∃ b b', @signed_text AplParser.fixed_loaders (m b) = @signed_text AplParser.fixed_loaders (m b') ∧
    @fields AplParser.fixed_loaders (m b) = @fields AplParser.fixed_loaders (m b') ∧ b = b' ∧ b = "100".
Proof.
  exists "100", "100". split; [reflexivity|]. split_and!; [|done|done].
  assert (Hl : @one_line AplParser.fixed_loaders (RequestV1 "post" "/pay" "agent-1" "key" "time" "nonce" "100"))
    by (unfold one_line; repeat constructor).
  apply (@signature_binds_fields AplParser.fixed_loaders _ _ Hl Hl). reflexivity.
Defined.

(** ** Addresses of agents *)

Definition segment_char (c : ascii) : bool :=
  in_range 97 122 c || in_range 65 90 c || in_range 48 57 c || eqb c "_"%char || eqb c "-"%char.
(** The longest run of segment characters, and the rest. *)
Fixpoint take_segment (s : string) : string * string :=
  match s with
  | String c s' => if segment_char c then let '(w, r) := take_segment s' in (String c w, r) else ("", s)
  | "" => ("", "")
  end.
Definition strip_prefix (p s : string) : option string :=
  if startswith p s then Some (String.substring (String.length p) (String.length s) s) else None.

(** [ADDRESS_PATTERN.match]: the two segments between the slashes. *)
Definition match_address (s : string) : option (string * string) :=
  rest ← strip_prefix "atp://" s;
  let '(org, rest) := take_segment rest in
  rest ← strip_prefix "/" rest;
  let '(agent, rest) := take_segment rest in
  if negb (eqb org "") && negb (eqb agent "") && eqb rest "" then Some (org, agent) else None.

Definition parse_agent_address (address : string) : result string (string * string) :=
  if eqb address "" then Err "Agent address must be a non-empty string."
  else match match_address (py_strip address) with
       | Some p => Ok p
       | None => Err ("Invalid ATP agent address format: '" +:+ address +:+ "'. Expected 'atp://<org_id>/<agent_id>'.")
       end.
Definition format_agent_address (org_id agent_id : string) : string :=
  "atp://" +:+ py_strip org_id +:+ "/" +:+ py_strip agent_id.

Fixpoint is_segment (s : string) : bool :=
  match s with "" => true | String c s => segment_char c && is_segment s end.
Definition identifier (s : string) : Prop := is_segment s = true ∧ s ≠ "".

Lemma segment_not_space c : segment_char c = true → is_space c = false.
Proof. destruct c as [[] [] [] [] [] [] [] []]; vm_compute; done. Qed.
Lemma take_segment_app s t : is_segment s = true →
  take_segment (s +:+ t) = (s +:+ (take_segment t).1, (take_segment t).2).
Proof.
  induction s as [|c s IH]; [intros _; apply surjective_pairing|]. cbn [is_segment]. intros [Hc Hs]%andb_true_iff.
  change (String c s +:+ t) with (String c (s +:+ t)). cbn [take_segment]. rewrite Hc, (IH Hs). done.
Qed.
Lemma string_app_nil s : s +:+ "" = s.
Proof. induction s as [|c s IH]; [done|]. exact (f_equal (String c) IH). Qed.
Lemma prefix_cons c p d s : String.prefix (String c p) (String d s) = if ascii_dec c d then String.prefix p s else false.
Proof. reflexivity. Qed.
Lemma prefix_app p s : String.prefix p (p +:+ s) = true.
Proof. induction p as [|c p IH]; [by destruct s|].
  change (String c p +:+ s) with (String c (p +:+ s)). rewrite prefix_cons. by destruct (ascii_dec c c).
Qed.
Lemma substring_full s n : (String.length s ≤ n)%nat → String.substring 0 n s = s.
Proof.
  revert n. induction s as [|c s IH]; intros [|n]; simpl; intros Hn; try done; [lia|]. f_equal. apply IH. lia.
Qed.
Lemma substring_skip p s n : String.substring (String.length p) n (p +:+ s) = String.substring 0 n s.
Proof. induction p as [|c p IH]; [done|]. exact IH. Qed.
Lemma strip_prefix_app p s : strip_prefix p (p +:+ s) = Some s.
Proof.
  unfold strip_prefix, startswith. rewrite prefix_app, substring_skip, substring_full; [done|].
  rewrite String_length_append. lia.
Qed.

(** *** Texts without blanks are their own [strip] *)
Fixpoint no_blank (s : string) : bool :=
  match s with "" => true | String c s => negb (is_space c) && no_blank s end.
Lemma no_blank_app s t : no_blank (s +:+ t) = no_blank s && no_blank t.
Proof. induction s as [|c s IH]; [done|]. change (String c s +:+ t) with (String c (s +:+ t)). cbn [no_blank]. rewrite IH. apply andb_assoc. Qed.
Lemma lstrip_no_blank s : no_blank s = true → lstrip s = s.
Proof. destruct s as [|c s]; [done|]. cbn. intros [Hc _]%andb_true_iff. by apply negb_true_iff in Hc as ->. Qed.
Lemma rev_app_spec s t : String.rev_app s t = String.rev s +:+ t.
Proof.
  unfold String.rev. revert t. induction s as [|c s IH]; intros t; [done|]. cbn [String.rev_app].
  rewrite (IH (String c t)), (IH (String c "")), string_app_assoc. done.
Qed.
Lemma str_rev_cons c s : str_rev (String c s) = str_rev s +:+ String c "".
Proof. unfold str_rev at 1, String.rev. cbn [String.rev_app]. apply rev_app_spec. Qed.
Lemma str_rev_app s t : str_rev (s +:+ t) = str_rev t +:+ str_rev s.
Proof.
  induction s as [|c s IH]; [by rewrite string_app_nil|]. change (String c s +:+ t) with (String c (s +:+ t)).
  by rewrite !str_rev_cons, IH, string_app_assoc.
Qed.
Lemma str_rev_involutive s : str_rev (str_rev s) = s.
Proof. induction s as [|c s IH]; [done|]. by rewrite str_rev_cons, str_rev_app, IH. Qed.
Lemma no_blank_rev s : no_blank (str_rev s) = no_blank s.
Proof. induction s as [|c s IH]; [done|]. rewrite str_rev_cons, no_blank_app, IH. cbn. rewrite andb_true_r. apply andb_comm. Qed.
Lemma strip_no_blank s : no_blank s = true → py_strip s = s.
Proof.
  intros H. unfold py_strip. rewrite (lstrip_no_blank s H), lstrip_no_blank; [apply str_rev_involutive | by rewrite no_blank_rev].
Qed.
Lemma segment_no_blank s : is_segment s = true → no_blank s = true.
Proof.
  induction s as [|c s IH]; [done|]. cbn. intros [Hc Hs]%andb_true_iff. by rewrite (segment_not_space _ Hc), IH.
Qed.

(** *** Round trip *)

Lemma take_segment_spec s w r : take_segment s = (w, r) → s = w +:+ r ∧ is_segment w = true.
Proof.
  revert w. induction s as [|c s IH]; intros w; cbn [take_segment]; [by intros [= <- <-]|].
  destruct (segment_char c) eqn:Hc; [|by intros [= <- <-]].
  destruct (take_segment s) as [w' r'] eqn:Hs. intros [= <- <-]. destruct (IH w' eq_refl) as [-> Hw].
  split; [done|]. cbn. by rewrite Hc.
Qed.
Lemma strip_prefix_spec p s r : strip_prefix p s = Some r → s = p +:+ r.
Proof.
  unfold strip_prefix, startswith. destruct (String.prefix p s) eqn:Hp; [|done]. intros [= <-].
  assert (Hex : ∃ u, s = p +:+ u).
  { revert s Hp. induction p as [|c p IH]; intros s Hp; [by exists s|]. destruct s as [|d s]; [done|].
    rewrite prefix_cons in Hp. destruct (ascii_dec c d) as [->|]; [|done]. destruct (IH s Hp) as [u ->]. by exists u. }
  destruct Hex as [u ->]. rewrite substring_skip, substring_full; [done|]. rewrite String_length_append. lia.
Qed.
Lemma match_address_format org agent : identifier org → identifier agent →
  match_address ("atp://" +:+ org +:+ "/" +:+ agent) = Some (org, agent).
Proof.
  intros [Ho Hno] [Ha Hna]. unfold match_address. rewrite strip_prefix_app. cbn [mbind option_bind].
  rewrite (take_segment_app org _ Ho). change (take_segment ("/" +:+ agent)) with ("", "/" +:+ agent). cbn [fst snd].
  rewrite string_app_nil, strip_prefix_app. cbn [mbind option_bind].
  rewrite <- (string_app_nil agent) at 1. rewrite (take_segment_app agent "" Ha). cbn [take_segment fst snd].
  rewrite string_app_nil, (proj2 (eqb_false _ _) Hno), (proj2 (eqb_false _ _) Hna). done.
Qed.

(** An address is parsed exactly when it is, up to surrounding blanks,
    the format of two identifiers, and to these two; formatting them again gives the
    address without the blanks. *)
Theorem address_roundtrip address org agent :
  parse_agent_address address = Ok (org, agent) ↔
  identifier org ∧ identifier agent ∧ py_strip address = format_agent_address org agent.
Proof.
  assert (Hstrip : ∀ s, identifier s → py_strip s = s) by (intros s [Hs _]; by apply strip_no_blank, segment_no_blank).
  unfold parse_agent_address, format_agent_address. split.
  - destruct (eqb address "") eqn:He; [done|]. destruct (match_address (py_strip address)) as [p|] eqn:Hm; [|done].
    intros [= ->]. unfold match_address in Hm.
    destruct (strip_prefix "atp://" _) as [r|] eqn:H1; [|done]. cbn [mbind option_bind] in Hm.
    destruct (take_segment r) as [o r'] eqn:H2. destruct (strip_prefix "/" r') as [r2|] eqn:H3; [|done].
    cbn [mbind option_bind] in Hm. destruct (take_segment r2) as [a r3] eqn:H4.
    destruct (negb _ && _ && _) eqn:Hc; [|done]. injection Hm as -> ->.
    rewrite !andb_true_iff, !negb_eqb_true, eqb_true in Hc. destruct Hc as [[Hno Hna] ->].
    apply strip_prefix_spec in H1. apply strip_prefix_spec in H3.
    apply take_segment_spec in H2 as [-> Ho], H4 as [-> Ha]. subst r'.
    rewrite (Hstrip org), (Hstrip agent), H1, string_app_nil by done. done.
  - intros (Ho & Ha & Hs). rewrite (Hstrip org Ho), (Hstrip agent Ha) in Hs.
    destruct (eqb address "") eqn:He; [apply eqb_true in He as ->; by vm_compute in Hs|].
    by rewrite Hs, (match_address_format org agent Ho Ha).
Qed.
End Canonical.
