(* ===== verification/PyNet.v ===== *)
(** The parts of [urllib.parse] and [ipaddress] (Python 3.12) that the program
    uses: [urlsplit] with [hostname] and [port], [ip_address], [str] of an address,
    networks and the classification flags.  Addresses are 32-bit and 128-bit
    integers. *)
From Stdlib Require Import Ascii.
From S2P Require Import Prelude.
From S2P Require Import PyStr.

Local Open Scope string_scope.
Local Open Scope Z_scope.

(** ** Texts *)

(** [s.partition(c)]: before, found, after. *)
Fixpoint partition_at (c : ascii) (s : string) : string * bool * string :=
  match s with
  | "" => ("", false, "")
  | String d s' =>
      if eqb d c then ("", true, s')
      else let '(a, found, b) := partition_at c s' in (String d a, found, b)
  end.
(** [s.rpartition('@')[2]] *)
Definition after_last (c : ascii) (s : string) : string := List.last (split_on c s) "".
(** The text before the first character of [cs]. *)
Fixpoint until_any (cs : list ascii) (s : string) : string :=
  match s with
  | "" => ""
  | String d s' => if existsb (eqb d) cs then "" else String d (until_any cs s')
  end.
Fixpoint all_in (p : ascii → bool) (s : string) : bool :=
  match s with "" => true | String c s => p c && all_in p s end.
Definition is_digit (c : ascii) : bool := in_range 48 57 c.
Definition is_alpha (c : ascii) : bool := in_range 65 90 c || in_range 97 122 c.
Definition digit_value (c : ascii) : Z :=
  if is_digit c then Z.of_N (code c) - 48 else if in_range 97 102 c then Z.of_N (code c) - 87 else Z.of_N (code c) - 55.
Definition is_hex (c : ascii) : bool := is_digit c || in_range 97 102 c || in_range 65 70 c.
Definition number_in (base : Z) (s : string) : Z :=
  fold_left (λ acc c, acc * base + digit_value c) (String.list_ascii_of_string s) 0.

(** [UUID(s)]: 32 hexadecimal digits once [urn:], [uuid:], the braces around them and
    the hyphens are removed.  The signs and underscores that [int] would accept
    among the digits are not. *)
Fixpoint remove_all (fuel : nat) (p s : string) : string :=
  match fuel, s with
  | S fuel, String c s' =>
      if startswith p s then remove_all fuel p (String.substring (String.length p) (String.length s - String.length p) s)
      else String c (remove_all fuel p s')
  | _, _ => s
  end.
Fixpoint strip_left_in (cs : list ascii) (s : string) : string :=
  match s with String c s' => if existsb (eqb c) cs then strip_left_in cs s' else s | "" => "" end.
Definition strip_in (cs : list ascii) (s : string) : string := str_rev (strip_left_in cs (str_rev (strip_left_in cs s))).
Definition py_uuid (s : string) : option N :=
  let n := String.length s in
  let s := remove_all n "-" (strip_in ["{"%char; "}"%char] (remove_all n "uuid:" (remove_all n "urn:" s))) in
  if (String.length s =? 32)%nat && all_in is_hex s then Some (Z.to_N (number_in 16 s)) else None.

Example py_uuid_ex : py_uuid (uuid_str 48879) = Some 48879%N.
Proof. vm_compute. reflexivity. Qed.

(** ** URLs *)

Record url_parts : Type := MkUrl {
  url_scheme : string;
  url_hostname : option string;
  (** [None] no port; the access raises [ValueError] when it is no port number. *)
  url_port : result () (option Z)
}.

Definition scheme_char (c : ascii) : bool :=
  is_alpha c || is_digit c || existsb (eqb c) ["+"%char; "-"%char; "."%char].
Definition split_scheme (url : string) : string * string :=
  match partition_at ":" url with
  | (before, true, after) =>
      match before with
      | String c _ => if is_alpha c && all_in scheme_char before then (py_lower before, after) else ("", url)
      | "" => ("", url)
      end
  | (_, false, _) => ("", url)
  end.

Definition port_of (port : string) : result () (option Z) :=
  if eqb port "" then Ok None
  else if all_in is_digit port then
    let p := number_in 10 port in if p <=? 65535 then Ok (Some p) else Err tt
  else Err tt.

(** [None]: [urlsplit] itself raises [ValueError], on unbalanced brackets. *)
Definition urlsplit (url : string) : option url_parts :=
  let '(scheme, rest) := split_scheme url in
  if startswith "//" rest then
    let netloc := until_any ["/"%char; "?"%char; "#"%char] (String.substring 2 (String.length rest - 2) rest) in
    if xorb (contains "[" netloc) (contains "]" netloc) then None
    else
      let hostinfo := after_last "@" netloc in
      let '(_, bracketed, tail) := partition_at "[" hostinfo in
      let '(host, port) :=
        if bracketed then
          let '(host, _, after) := partition_at "]" tail in
          let '(_, _, port) := partition_at ":" after in (host, port)
        else let '(host, _, port) := partition_at ":" hostinfo in (host, port) in
      Some (MkUrl scheme (if eqb host "" then None else Some (py_lower host)) (port_of port))
  else Some (MkUrl scheme None (Ok None)).

(** [username or password]: the text before the last at sign, which is not a lone colon. *)
Definition has_userinfo (url : string) : bool :=
  let '(_, rest) := split_scheme url in
  if startswith "//" rest then
    let netloc := until_any ["/"%char; "?"%char; "#"%char] (String.substring 2 (String.length rest - 2) rest) in
    let n := (String.length netloc - String.length (after_last "@" netloc) - 1)%nat in
    contains "@" netloc && negb (existsb (eqb (String.substring 0 n netloc)) [""; ":"])
  else false.
(** [fragment] *)
Definition has_fragment (url : string) : bool :=
  let '(_, _, after) := partition_at "#" url in negb (eqb after "").

Example userinfo_ex :
  map has_userinfo ["https://user@host/"; "https://host/@"; "https://@host"; "https://:@host"; "https://:pw@host"] =
  [true; false; false; false; true].
Proof. reflexivity. Qed.
Example urlsplit_ex : urlsplit "https://user@Example.com:8443/x?y" = Some (MkUrl "https" (Some "example.com") (Ok (Some 8443))).
Proof. reflexivity. Qed.
Example urlsplit_v6 : urlsplit "http://[::1]/" = Some (MkUrl "http" (Some "::1") (Ok None)).
Proof. reflexivity. Qed.

(** ** Addresses *)

Inductive ip : Type := V4 (a : Z) | V6 (a : Z).
#[export] Instance ip_eq_dec : EqDecision ip.
Proof. solve_decision. Defined.

(** [bool(s)] of a text. *)
Definition not_blank (s : string) : bool := negb (eqb s "").
(** Decimal octets without a leading zero. *)
Definition octet (s : string) : option Z :=
  if not_blank s && all_in is_digit s && (String.length s <=? 3)%nat &&
     (eqb s "0" || negb (startswith "0" s))
  then let n := number_in 10 s in if n <=? 255 then Some n else None
  else None.
Definition ipv4 (s : string) : option Z :=
  match mapM octet (split_on "." s) with
  | Some [a; b; c; d] => Some (((a * 256 + b) * 256 + c) * 256 + d)
  | _ => None
  end.

(** A group of one to four hexadecimal digits. *)
Definition hextet (s : string) : option Z :=
  if not_blank s && all_in is_hex s && (String.length s <=? 4)%nat then Some (number_in 16 s) else None.
Definition join_groups (gs : list Z) : Z := fold_left (λ acc g, acc * 65536 + g) gs 0.
(** A dotted quad at the end stands for two groups. *)
Definition groups_of (s : string) : option (list Z) :=
  if eqb s "" then Some []
  else
    let parts := split_on ":" s in
    let tail := List.last parts "" in
    if contains "." tail then
      front ← mapM hextet (removelast parts);
      a ← ipv4 tail;
      Some (front ++ [a / 65536; a mod 65536])%list
    else mapM hextet parts.
(** The text around [::]. *)
Fixpoint split_gap (s : string) : option (string * string) :=
  match s with
  | String a rest =>
      if startswith "::" s then Some ("", String.substring 1 (String.length rest - 1) rest)
      else match split_gap rest with Some (x, y) => Some (String a x, y) | None => None end
  | "" => None
  end.
Definition ipv6 (s : string) : option Z :=
  match split_gap s with
  | Some (before, after) =>
      if contains "::" after || startswith ":" after then None
      else
        front ← groups_of before;
        back ← groups_of after;
        let n := (length front + length back)%nat in
        if (n <=? 7)%nat then Some (join_groups (front ++ replicate (8 - n) 0 ++ back)%list) else None
  | None =>
      gs ← groups_of s;
      if (length gs =? 8)%nat then Some (join_groups gs) else None
  end.
(** A scope [%zone] is dropped: no classification reads it. *)
Definition ip_address (s : string) : option ip :=
  match ipv4 s with
  | Some a => Some (V4 a)
  | None => V6 <$> ipv6 (partition_at "%" s).1.1
  end.

Example ipv4_ex : ip_address "127.0.0.1" = Some (V4 2130706433).
Proof. reflexivity. Qed.
Example ipv6_ex : ip_address "::ffff:127.0.0.1" = Some (V6 (65535 * 4294967296 + 2130706433)).
Proof. reflexivity. Qed.
Example ip_octal : ip_address "0127.0.0.1" = None.
Proof. reflexivity. Qed.

(** ** Networks *)

(** [ip in ip_network("a/n")] *)
Definition in_net4 (a : Z) (net : Z * Z) : bool := Z.shiftr a (32 - net.2) =? Z.shiftr net.1 (32 - net.2).
Definition in_net6 (a : Z) (net : Z * Z) : bool := Z.shiftr a (128 - net.2) =? Z.shiftr net.1 (128 - net.2).
(** [ip_network(text)] for the literal networks of the program. *)
Definition network (text : string) : Z * Z :=
  let '(addr, _, n) := partition_at "/" text in
  (match ip_address addr with Some (V4 a) => a | Some (V6 a) => a | None => 0 end, number_in 10 n).
Definition within4 (nets : list string) (a : Z) : bool := existsb (λ n, in_net4 a (network n)) nets.
Definition within6 (nets : list string) (a : Z) : bool := existsb (λ n, in_net6 a (network n)) nets.

Definition private4 : list string :=
  ["0.0.0.0/8"; "10.0.0.0/8"; "127.0.0.0/8"; "169.254.0.0/16"; "172.16.0.0/12"; "192.0.0.0/24"; "192.0.0.170/31";
   "192.0.2.0/24"; "192.168.0.0/16"; "198.18.0.0/15"; "198.51.100.0/24"; "203.0.113.0/24"; "240.0.0.0/4";
   "255.255.255.255/32"].
Definition private4_exceptions : list string := ["192.0.0.9/32"; "192.0.0.10/32"].
Definition private6 : list string :=
  ["::1/128"; "::/128"; "::ffff:0:0/96"; "64:ff9b:1::/48"; "100::/64"; "2001::/23"; "2001:db8::/32"; "2002::/16";
   "fc00::/7"; "fe80::/10"].
Definition private6_exceptions : list string :=
  ["2001:1::1/128"; "2001:1::2/128"; "2001:3::/32"; "2001:4:112::/48"; "2001:20::/28"; "2001:30::/28"].
Definition reserved6 : list string :=
  ["::/8"; "100::/8"; "200::/7"; "400::/6"; "800::/5"; "1000::/4"; "4000::/3"; "6000::/3"; "8000::/3"; "a000::/3";
   "c000::/3"; "e000::/4"; "f000::/5"; "f800::/6"; "fe00::/9"].

(** [ip.ipv4_mapped] *)
Definition ipv4_mapped (i : ip) : option Z :=
  match i with V6 a => if Z.shiftr a 32 =? 65535 then Some (a mod 4294967296) else None | V4 _ => None end.
Definition is_loopback (i : ip) : bool := match i with V4 a => within4 ["127.0.0.0/8"] a | V6 a => a =? 1 end.
Definition is_private (i : ip) : bool :=
  match i with
  | V4 a => within4 private4 a && negb (within4 private4_exceptions a)
  | V6 a => within6 private6 a && negb (within6 private6_exceptions a)
  end.
(** In Python 3.12 a mapped address is private when the address it maps is. *)
Definition is_global (i : ip) : bool :=
  match i with
  | V4 a => negb (within4 ["100.64.0.0/10"] a) && negb (is_private i)
  | V6 _ => negb (is_private match ipv4_mapped i with Some a => V4 a | None => i end)
  end.
Definition is_link_local (i : ip) : bool :=
  match i with V4 a => within4 ["169.254.0.0/16"] a | V6 a => within6 ["fe80::/10"] a end.
Definition is_multicast (i : ip) : bool :=
  match i with V4 a => within4 ["224.0.0.0/4"] a | V6 a => within6 ["ff00::/8"] a end.
Definition is_reserved (i : ip) : bool :=
  match i with V4 a => within4 ["240.0.0.0/4"] a | V6 a => within6 reserved6 a end.
Definition is_unspecified (i : ip) : bool := match i with V4 a => a =? 0 | V6 a => a =? 0 end.

(** ** Printing *)

Definition ipv4_str (a : Z) : string :=
  str_join "." (map str_of_Z [a / 16777216; a / 65536 mod 256; a / 256 mod 256; a mod 256]).

Fixpoint hex_digits (fuel : nat) (n : Z) (acc : string) : string :=
  match fuel with
  | O => acc
  | S fuel => let acc := String (hex_digit (Z.to_N (n mod 16))) acc in if n <? 16 then acc else hex_digits fuel (n / 16) acc
  end.
Definition groups6 (a : Z) : list Z := map (λ k, Z.shiftr a (16 * Z.of_nat (7 - k)) mod 65536) (seq 0 8).
(** The first longest run of at least two zero groups: start and length. *)
Definition zero_run (gs : list Z) (i : nat) : nat :=
  (fix go gs := match gs with g :: gs => if g =? 0 then S (go gs) else O | [] => O end) (drop i gs).
Definition best_run (gs : list Z) : nat * nat :=
  fold_left (λ best i, let n := zero_run gs i in if (best.2 <? n)%nat then (i, n) else best) (seq 0 8) (O, O).
Definition ipv6_str (a : Z) : string :=
  let gs := groups6 a in
  let show l := str_join ":" (map (λ g, hex_digits 4 g "") l) in
  let '(i, n) := best_run gs in
  if (2 <=? n)%nat then show (take i gs) +:+ "::" +:+ show (drop (i + n) gs) else show gs.
Definition ip_str (i : ip) : string := match i with V4 a => ipv4_str a | V6 a => ipv6_str a end.

Example ip_str_ex :
  map ip_str [V4 3232235777; V6 1; V6 0; V6 (Z.shiftl 8193 112 + Z.shiftl 3512 96 + 15)] =
  ["192.168.1.1"; "::1"; "::"; "2001:db8::f"].
Proof. vm_compute. reflexivity. Qed.
