(* ===== verification/Ssrf.v ===== *)
(** The validation of outbound URLs ([backend/app/services/ssrf_protection.py]).
    Name resolution is the parameter [getaddrinfo]. *)
From Stdlib Require Import Ascii.
From S2P Require Import Prelude.
From S2P Require Import PyStr.
From S2P Require Import PyNet.

Local Open Scope string_scope.
Local Open Scope Z_scope.

(** [socket.getaddrinfo(host, port)]: the addresses, as texts, or the text of the
    [gaierror]. *)
Class Resolver : Type := { getaddrinfo : string → Z → result string (list string) }.

Module Ssrf.

(** [SSRFValidationError] is a [ValueError]; [InvalidURL] is one that [urlsplit] or
    [port] raises. *)
Inductive SsrfExc : Type :=
  | SSRFValidationError (message code : string)
  | InvalidURL.

Definition BLOCKED_DOMAINS : list string := ["metadata.google.internal"; "metadata"; "instance-data"; "localhost"].

Definition PROHIBITED_IPV4_NETWORKS : list string :=
  ["0.0.0.0/8"; "10.0.0.0/8"; "100.64.0.0/10"; "127.0.0.0/8"; "169.254.0.0/16"; "172.16.0.0/12"; "192.0.0.0/24";
   "192.0.2.0/24"; "192.88.99.0/24"; "192.168.0.0/16"; "198.18.0.0/15"; "198.51.100.0/24"; "203.0.113.0/24";
   "224.0.0.0/4"; "240.0.0.0/4"; "255.255.255.255/32"].
Definition PROHIBITED_IPV6_NETWORKS : list string :=
  ["::1/128"; "::/128"; "::ffff:0:0/96"; "64:ff9b::/96"; "100::/64"; "2001:db8::/32"; "fc00::/7"; "fe80::/10"; "ff00::/8"].

Definition unmapped (i : ip) : ip := match ipv4_mapped i with Some a => V4 a | None => i end.

(** The reason, when the address is prohibited. *)
Definition is_ip_prohibited (i : ip) : option string :=
  let i := unmapped i in
  if is_loopback i then Some "IP address is a loopback address."
  else if is_private i then Some "IP address is a private network address."
  else if is_link_local i then Some "IP address is a link-local address."
  else if is_multicast i then Some "IP address is a multicast address."
  else if is_reserved i then Some "IP address is reserved."
  else if is_unspecified i then Some "IP address is unspecified."
  else match i with
       | V4 a =>
           match find_first (λ n, in_net4 a (network n)) PROHIBITED_IPV4_NETWORKS with
           | Some n => Some ("IP address " +:+ ip_str i +:+ " falls into prohibited network " +:+ n +:+ ".")
           | None => None
           end
       | V6 a =>
           match find_first (λ n, in_net6 a (network n)) PROHIBITED_IPV6_NETWORKS with
           | Some n => Some ("IPv6 address " +:+ ip_str i +:+ " falls into prohibited network " +:+ n +:+ ".")
           | None => None
           end
       end.
Definition prohibited (i : ip) : bool := is_some (is_ip_prohibited i).

(** [hostname.lower().strip(".")] *)
Fixpoint strip_dots_left (s : string) : string :=
  match s with String "."%char s => strip_dots_left s | _ => s end.
Definition strip_dots (s : string) : string := str_rev (strip_dots_left (str_rev (strip_dots_left s))).

Section validate.
Context `{Resolver} (allow_private_ips : bool).

(** The loop over the resolved addresses.  The error raised on a prohibited one is a
    [ValueError], which the handler around it answers with [continue]. *)
Definition acceptable (text : string) : option string :=
  match ip_address text with
  | Some i => if negb allow_private_ips && prohibited i then None else Some (ip_str i)
  | None => None
  end.
Definition resolved_ips (texts : list string) : list string := omap acceptable texts.

Definition resolve_host (url hostname host : string) (scheme : string) (port : result () (option Z))
    : result SsrfExc (string * list string) :=
  match port with
  | Err _ => Err InvalidURL
  | Ok p =>
      let default_port := if eqb scheme "https" then 443 else 80 in
      match getaddrinfo host (match p with Some 0 => default_port | Some p => p | None => default_port end) with
      | Err text =>
          if allow_private_ips then Ok (py_strip url, ["127.0.0.1"])
          else Err (SSRFValidationError ("Failed to resolve hostname '" +:+ hostname +:+ "': " +:+ text) "DNS_RESOLUTION_FAILED")
      | Ok texts =>
          match resolved_ips texts with
          | [] => Err (SSRFValidationError ("Hostname '" +:+ hostname +:+ "' did not resolve to any valid IP addresses.") "DNS_RESOLUTION_FAILED")
          | ips => Ok (py_strip url, ips)
          end
      end
  end.

Definition resolve_and_validate_endpoint_url (enforce_https : bool) (url : string) : result SsrfExc (string * list string) :=
  if eqb url "" then Err (SSRFValidationError "Endpoint URL must be a non-empty string." "INVALID_URL")
  else match urlsplit (py_strip url) with
  | None => Err InvalidURL
  | Some parsed =>
      let scheme := py_lower (url_scheme parsed) in
      if negb (eqb scheme "http" || eqb scheme "https") then
        Err (SSRFValidationError ("Invalid URL scheme '" +:+ scheme +:+ "'. Only HTTP and HTTPS are permitted.") "INVALID_SCHEME")
      else if enforce_https && negb (eqb scheme "https") then
        Err (SSRFValidationError "Endpoint URL must use HTTPS in production environments." "HTTPS_REQUIRED")
      else match url_hostname parsed with
      | None => Err (SSRFValidationError "Endpoint URL must include a valid hostname." "MISSING_HOSTNAME")
      | Some hostname =>
          let host := strip_dots (py_lower hostname) in
          if (existsb (eqb host) BLOCKED_DOMAINS || endswith ".internal" host) && negb allow_private_ips then
            Err (SSRFValidationError ("Access to domain '" +:+ hostname +:+ "' is prohibited by SSRF policy.") "BLOCKED_DOMAIN")
          else match ip_address host with
          | Some i =>
              match (if allow_private_ips then None else is_ip_prohibited i) with
              | Some reason => Err (SSRFValidationError ("Prohibited IP address '" +:+ ip_str i +:+ "': " +:+ reason) "PROHIBITED_IP")
              | None => Ok (py_strip url, [ip_str i])
              end
          | None => resolve_host url hostname host scheme (url_port parsed)
          end
      end
  end.
End validate.

(** ** What is prohibited *)

Lemma in_net4_wider a n m : n.2 <= m.2 <= 32 → Z.shiftr n.1 (32 - n.2) = Z.shiftr m.1 (32 - n.2) →
  in_net4 a m = true → in_net4 a n = true.
Proof.
  unfold in_net4. rewrite !Z.eqb_eq. intros Hle Hn Hm.
  replace (32 - n.2) with ((32 - m.2) + (m.2 - n.2)) in * by lia.
  rewrite Hn, <- !Z.shiftr_shiftr, Hm by lia. done.
Qed.

(** Networks given as texts: [n] covers [m]. *)
Definition covers4 (n m : string) : bool :=
  (snd (network n) <=? snd (network m)) && (snd (network m) <=? 32) &&
  (Z.shiftr (fst (network n)) (32 - snd (network n)) =? Z.shiftr (fst (network m)) (32 - snd (network n))).
Lemma covers4_spec n m a : covers4 n m = true → in_net4 a (network m) = true → in_net4 a (network n) = true.
Proof.
  unfold covers4. rewrite !andb_true_iff, !Z.leb_le, Z.eqb_eq. intros [[? ?] ?]. apply in_net4_wider; [lia | done].
Qed.
Definition all_covered (ns ms : list string) : bool := forallb (λ m, existsb (λ n, covers4 n m) ns) ms.
Lemma within4_covered ns ms a : all_covered ns ms = true → within4 ms a = true → within4 ns a = true.
Proof.
  unfold all_covered, within4. rewrite forallb_forall, !existsb_exists. intros Hall (m & Hm & Ha).
  specialize (Hall m Hm). rewrite existsb_exists in Hall. destruct Hall as (n & Hn & Hc).
  exists n. split; [done | by eapply covers4_spec].
Qed.

Lemma find_first_within4 ns a : is_some (find_first (λ n, in_net4 a (network n)) ns) = within4 ns a.
Proof. unfold within4. induction ns as [|n ns IH]; simpl; [done|]. by destruct (in_net4 a (network n)). Qed.

Lemma unspecified_covered a : a = 0 → within4 PROHIBITED_IPV4_NETWORKS a = true.
Proof. intros ->. vm_compute. reflexivity. Qed.

Lemma prohibited4 a : prohibited (V4 a) = within4 PROHIBITED_IPV4_NETWORKS a.
Proof.
  unfold prohibited, is_ip_prohibited, unmapped. cbn [ipv4_mapped].
  assert (Hc : ∀ ms, all_covered PROHIBITED_IPV4_NETWORKS ms = true → within4 ms a = true →
    within4 PROHIBITED_IPV4_NETWORKS a = true) by (intros ms; apply within4_covered).
  assert (Hfinal : is_some (match find_first (λ n, in_net4 a (network n)) PROHIBITED_IPV4_NETWORKS with
    | Some n => Some ("IP address " +:+ ip_str (V4 a) +:+ " falls into prohibited network " +:+ n +:+ ".") | None => None end)
    = within4 PROHIBITED_IPV4_NETWORKS a) by (rewrite <- find_first_within4; by destruct (find_first _ _)).
  unfold is_loopback, is_private, is_link_local, is_multicast, is_reserved, is_unspecified.
  destruct (within4 ["127.0.0.0/8"] a) eqn:H1; [symmetry; apply (Hc ["127.0.0.0/8"]); [vm_compute; reflexivity | done]|].
  destruct (within4 private4 a && negb (within4 private4_exceptions a)) eqn:H2.
  { apply andb_true_iff in H2 as [H2 _]. symmetry. apply (Hc private4); [vm_compute; reflexivity | done]. }
  destruct (within4 ["169.254.0.0/16"] a) eqn:H3; [symmetry; apply (Hc ["169.254.0.0/16"]); [vm_compute; reflexivity | done]|].
  destruct (within4 ["224.0.0.0/4"] a) eqn:H4; [symmetry; apply (Hc ["224.0.0.0/4"]); [vm_compute; reflexivity | done]|].
  destruct (within4 ["240.0.0.0/4"] a) eqn:H5; [symmetry; apply (Hc ["240.0.0.0/4"]); [vm_compute; reflexivity | done]|].
  destruct (a =? 0) eqn:H6; [symmetry; apply unspecified_covered; by apply Z.eqb_eq|].
  exact Hfinal.
Qed.

(** An IPv4 address is refused exactly when it lies in one of the sixteen
    listed ranges, whatever the classification of the standard library adds, and writing
    it as an IPv4-mapped IPv6 address changes nothing. *)
Theorem prohibited_ipv4_ranges a :
  0 <= a < 2 ^ 32 →
  prohibited (V4 a) = existsb (λ n, in_net4 a (network n)) PROHIBITED_IPV4_NETWORKS ∧
  prohibited (V6 (65535 * 2 ^ 32 + a)) = prohibited (V4 a).
Proof.
  intros Ha. split; [apply prohibited4|]. unfold prohibited, is_ip_prohibited, unmapped, ipv4_mapped.
  rewrite Z.shiftr_div_pow2, Z.div_add_l, Z.div_small by lia.
  change (65535 + 0 =? 65535) with true. cbv iota.
  replace ((65535 * 2 ^ 32 + a) mod 4294967296) with a; [done|].
  change (2 ^ 32) with 4294967296 in *. rewrite Z.add_comm, Z.mod_add, Z.mod_small by lia. done.
Qed.
Lemma prohibited_ipv4_ranges_witness :
  prohibited (V4 2130706433) = true ∧ prohibited (V6 (65535 * 2 ^ 32 + 2130706433)) = prohibited (V4 2130706433) ∧
  prohibited (V4 134744072) = false.
Proof.
  destruct (prohibited_ipv4_ranges 2130706433) as [H1 H2]; [lia|].
  destruct (prohibited_ipv4_ranges 134744072) as [H3 _]; [lia|].
  split; [rewrite H1; vm_compute; reflexivity|]. split; [exact H2|]. rewrite H3. vm_compute. reflexivity.
Defined.

(** ** What is accepted *)

Lemma resolved_allowed `{Resolver} texts t : t ∈ resolved_ips false texts → ∃ i, t = ip_str i ∧ prohibited i = false.
Proof.
  unfold resolved_ips. rewrite list_elem_of_omap. intros (x & _ & Hx). unfold acceptable in Hx.
  destruct (ip_address x) as [i|]; [|done]. cbn [negb andb] in Hx.
  destruct (prohibited i) eqn:Hp; [done|]. injection Hx as <-. by exists i.
Qed.


Definition public_resolver : Resolver := {| getaddrinfo host port := Ok ["93.184.216.34"] |}.

(** A host name that resolves to a loopback address and to a public one is
    accepted: the error raised for the first is swallowed by the handler of
    [ValueError] around it. *)
Theorem mixed_host_accepted :
  ∃ r : Resolver, ∃ url,
    "127.0.0.1" ∈ match getaddrinfo "rebind.example.com" 443 with Ok l => l | Err _ => [] end ∧
    prohibited (V4 2130706433) = true ∧ ip_address "127.0.0.1" = Some (V4 2130706433) ∧
    resolve_and_validate_endpoint_url false true url = Ok (url, ["93.184.216.34"]).
Proof.
  exists {| getaddrinfo host port := Ok ["127.0.0.1"; "93.184.216.34"] |}, "https://rebind.example.com/hook".
  split; [left|]. split_and!; vm_compute; reflexivity.
Qed.

End Ssrf.
