(* ===== verification/Soc.v ===== *)
(** The security operations center ([backend/app/services/soc_service.py], the
    handlers of [api/soc.py] and [services/siem_exporter.py]): detection rules,
    alerts and the export of events.  It implements the interface [SecuritySinks].

    Library and external code is a parameter: SHA-256, HMAC, name resolution, the
    secret provider and the answer of an HTTP endpoint.  The clock of the process
    is read as that of the database. *)
From Stdlib Require Import Ascii.
From S2P Require Import Prelude.
From S2P Require Import PyStr.
From S2P Require Import PyFloat.
From S2P Require Import PyVal.
From S2P Require Import PyDecimal.
From S2P Require Import Models.
From S2P Require Import PyTime.
From S2P Require Import Store.
From S2P Require Import SecurityEvents.
From S2P Require Import PyNet.
From S2P Require Import Ssrf.

Local Open Scope string_scope.
Local Open Scope Z_scope.

(** [http_post url body headers]: the status and the text of the response, or the
    text of the network error. *)
Class SocServices : Type := {
  soc_hashing :: Hashing;
  soc_resolver :: Resolver;
  hmac_sha256_hex : string → string → string;
  get_secret : string → string;
  http_post : string → string → list (string * string) → result string (Z * string)
}.

Module Soc.
Import SecurityEvents.

(** ** Built-in rules *)

Definition builtin (rule_id name description event_type category severity : string) (threshold window : Z) : DetectionRule :=
  MkRule 0 rule_id None name description (Some event_type) (Some category) [] threshold window severity true.
Definition BUILTIN_RULES : list DetectionRule :=
  [builtin "rule_replay_burst" "Replay Attack Burst"
     "Repeated nonce reuse or expired timestamp replay detected for an agent or source."
     "agent_replay_detected" "REPLAY" "HIGH" 3 300;
   builtin "rule_invalid_sig_burst" "Repeated Invalid Signatures"
     "Cryptographic signature verification failed repeatedly."
     "agent_signature_failed" "AUTHORIZATION" "HIGH" 3 300;
   builtin "rule_revoked_cred_use" "Revoked Credential Usage"
     "Attempt to access protected resources using an explicitly revoked credential."
     "credential_used_after_revocation" "CREDENTIAL" "HIGH" 1 60;
   builtin "rule_compromised_key_use" "Compromised Key Usage"
     "Critical security event: request signed by a cryptographic key marked COMPROMISED."
     "compromised_key_used" "AUTHORIZATION" "CRITICAL" 1 60;
   builtin "rule_trust_violation" "Trust Relationship Violation"
     "Cross-organization request rejected due to missing or revoked trust agreement."
     "trust_violation" "TRUST" "HIGH" 2 300;
   builtin "rule_delegation_abuse" "Delegation Chain Abuse"
     "Repeated delegation verification failures or over-scoped hops."
     "delegation_rejected" "DELEGATION" "HIGH" 3 300;
   builtin "rule_gateway_auth_failure" "Gateway Authentication Failures"
     "Repeated authentication failures from an Enterprise Gateway."
     "gateway_authentication_failed" "GATEWAY" "HIGH" 3 300;
   builtin "rule_gateway_offline" "Gateway Unexpectedly Offline"
     "Enterprise Gateway heartbeat missing beyond maximum offline threshold."
     "gateway_offline" "GATEWAY" "HIGH" 1 60;
   builtin "rule_config_rollback" "Gateway Config Rollback Attempt"
     "Gateway presented stale or rolled back configuration version."
     "config_rollback_rejected" "GATEWAY" "HIGH" 1 60;
   builtin "rule_admin_sec_change" "Admin Security Configuration Change"
     "Administrative changes to organization security settings, roles, or MFA policies."
     "admin_security_change" "ADMIN" "MEDIUM" 1 60;
   builtin "rule_mfa_failure" "Repeated MFA Challenge Failures"
     "Multiple failed two-factor authentication attempts for user account."
     "mfa_failure" "AUTHENTICATION" "MEDIUM" 5 300;
   builtin "rule_production_insecure_config" "Insecure Production Config Attempt"
     "Attempt to configure insecure settings in production environment."
     "production_insecure_config_blocked" "SUPPLY_CHAIN" "CRITICAL" 1 60].

Definition set_rule_id (id : uuid) (r : DetectionRule) : DetectionRule :=
  MkRule id (dr_rule_id r) (dr_organization_id r) (dr_name r) (dr_description r) (dr_event_type r) (dr_category r)
    (dr_conditions r) (dr_threshold r) (dr_window_seconds r) (dr_severity r) (dr_enabled r).
Definition rule_of (rule_id : string) (t : tables) : option DetectionRule :=
  scalar (λ r, eqb (dr_rule_id r) rule_id) (detection_rules (operations t)).
Definition upd_rules f : tables → tables := upd_operations (on_detection_rules f).

Section services.
Context `{Entropy} `{SocServices}.

Definition ensure_builtin_rules : DB unit :=
  for_each (λ item,
    existing ← query (rule_of (dr_rule_id item));
    match existing with
    | Some _ => mret tt
    | None => id ← fresh_uuid; write (upd_rules <[id := set_rule_id id item]>)
    end) BUILTIN_RULES ;;
  try_except commit (λ _, rollback).

(** ** Detection *)

Definition compute_alert_fingerprint (org : uuid) (rule_id target : string) : string :=
  str_take 32 (sha256_hex (uuid_str org +:+ ":" +:+ rule_id +:+ ":" +:+ target)).

(** [str] of the truthy attributes [getattr] finds on an event; its primary key,
    methods and SQLAlchemy internals are left out. *)
Definition attributes (e : SecurityEvent) : list (string * option string) :=
  [("event_id", se_event_id e); ("organization_id", uuid_str <$> se_organization_id e);
   ("actor_user_id", uuid_str <$> se_actor_user_id e); ("target_user_id", uuid_str <$> se_target_user_id e);
   ("event_type", Some (se_event_type e)); ("category", se_category e); ("severity", Some (se_severity e));
   ("description", se_description e); ("source_type", se_source_type e); ("source_id", se_source_id e);
   ("agent_id", uuid_str <$> se_agent_id e); ("gateway_id", uuid_str <$> se_gateway_id e);
   ("credential_id", uuid_str <$> se_credential_id e); ("request_id", se_request_id e); ("trace_id", se_trace_id e);
   ("correlation_id", se_correlation_id e); ("actor_type", se_actor_type e); ("actor_id", se_actor_id e);
   ("target_type", se_target_type e); ("target_id", se_target_id e); ("action", se_action e);
   ("decision", se_decision e); ("risk_level", se_risk_level e); ("region", se_region e);
   ("environment", se_environment e);
   ("details", match se_details e with [] => None | d => Some (py_str (VDict d)) end);
   ("safe_metadata", match se_details e with [] => None | d => Some (py_str (VDict d)) end);
   ("created_at", Some (datetime_str (se_created_at e)))].
Definition actual_value (e : SecurityEvent) (k : string) : string :=
  match or_else (default None (dict_get k (attributes e))) None with
  | Some s => s
  | None => py_str (get k (se_details e))
  end.
Definition conditions_hold (e : SecurityEvent) (conditions : list (string * pyval)) : bool :=
  forallb (λ c, eqb (actual_value e c.1) (py_str c.2)) conditions.

(** Lines 201 to 216: the rules that are loaded, and the ones that match. *)
Definition loaded (org : uuid) (r : DetectionRule) : bool :=
  dr_enabled r && (eqb (dr_organization_id r) (Some org) || negb (is_some (dr_organization_id r))).
Definition rule_matches (r : DetectionRule) (e : SecurityEvent) : bool :=
  match or_else (dr_event_type r) None with Some ty => eqb ty (se_event_type e) | None => true end &&
  match or_else (dr_category r) None, or_else (se_category e) None with
  | Some c, Some d => eqb (py_upper c) (py_upper d)
  | _, _ => true
  end &&
  conditions_hold e (dr_conditions r).

Definition in_burst (org : uuid) (e : SecurityEvent) (window_start : time) (e' : SecurityEvent) : bool :=
  eqb (se_organization_id e') (Some org) && eqb (se_event_type e') (se_event_type e) &&
  (window_start <=? se_created_at e') &&
  match se_agent_id e, se_gateway_id e with
  | Some a, _ => eqb (se_agent_id e') (Some a)
  | None, Some g => eqb (se_gateway_id e') (Some g)
  | None, None => true
  end.
Definition burst_count (org : uuid) (e : SecurityEvent) (window_start : time) (t : tables) : Z :=
  let n := Z.of_nat (count_where (in_burst org e window_start) (security_events t)) in
  if n =? 0 then 1 else n.

Definition target_ref (e : SecurityEvent) : string :=
  match se_agent_id e, se_gateway_id e, or_else (se_target_id e) None with
  | Some a, _, _ => uuid_str a
  | None, Some g, _ => uuid_str g
  | None, None, Some x => x
  | None, None, None => ""
  end.

Definition open_statuses : list string := ["OPEN"; "ACKNOWLEDGED"; "INVESTIGATING"].
Definition is_open (a : SecurityAlert) : bool := existsb (eqb (sa_status a)) open_statuses.
Definition same_incident (org : uuid) (fingerprint : string) (a : SecurityAlert) : bool :=
  eqb (sa_organization_id a) org && eqb (sa_fingerprint a) fingerprint && is_open a.

Definition opt_text (o : option string) : pyval := match o with Some s => VStr s | None => VNone end.
Definition opt_uuid (o : option uuid) : pyval := match o with Some u => VStr (uuid_str u) | None => VNone end.

Definition touch_alert (e : SecurityEvent) (now : time) (a : SecurityAlert) : SecurityAlert :=
  MkAlert (sa_id a) (sa_alert_id a) (sa_organization_id a) (sa_rule_id a) (sa_fingerprint a) (sa_severity a)
    (sa_status a) (sa_title a) (sa_description a) (sa_first_seen_at a) now (sa_event_count a + 1)
    (sa_acknowledged_at a) (sa_acknowledged_by a) (sa_resolved_at a) (sa_resolved_by a) (sa_resolution_note a)
    (dict_set "last_event_id" (opt_text (se_event_id e)) (sa_metadata_json a)).
Definition new_alert (id : uuid) (alert_id : string) (org : uuid) (r : DetectionRule) (fingerprint : string)
    (e : SecurityEvent) (now : time) : SecurityAlert :=
  MkAlert id alert_id org (dr_rule_id r) fingerprint (dr_severity r) "OPEN"
    (dr_name r +:+ ": " +:+ se_event_type e)
    (dr_description r +:+ " (Triggered by event " +:+ default "None" (se_event_id e) +:+ ")")
    now now 1 None None None None None
    [("agent_id", opt_uuid (se_agent_id e)); ("gateway_id", opt_uuid (se_gateway_id e));
     ("target_id", opt_text (or_else (se_target_id e) None)); ("initial_event_id", opt_text (se_event_id e))].
Definition upd_alerts f : tables → tables := upd_operations (on_alerts f).
Definition save_alert (a : SecurityAlert) : DB unit := write (upd_alerts <[sa_id a := a]>).

(** One rule.  The columns of a rule are short enough for those of an alert, and the
    drawn identifiers are taken to be new, so the insert cannot fail.  The module
    [app.services.notifications] that the last lines import does not exist: the
    [ImportError] is caught and no notification is created. *)
Definition check_rule (org : uuid) (e : SecurityEvent) (now : time) (r : DetectionRule) : DB bool :=
  if rule_matches r e then
    n ← query (burst_count org e (now - dr_window_seconds r * second));
    if dr_threshold r <=? n then
      let fingerprint := compute_alert_fingerprint org (dr_rule_id r) (target_ref e) in
      existing ← query (λ t, scalar (same_incident org fingerprint) (alerts (operations t)));
      match existing with
      | Some a => save_alert (touch_alert e now a) ;; mret true
      | None =>
          id ← fresh_uuid;
          u ← fresh_uuid;
          save_alert (new_alert id ("alt_" +:+ str_take 16 (uuid_hex u)) org r fingerprint e now) ;;
          mret true
      end
    else mret false
  else mret false.

Fixpoint check_rules (org : uuid) (e : SecurityEvent) (now : time) (rs : list DetectionRule) : DB bool :=
  match rs with
  | [] => mret false
  | r :: rs =>
      generated ← check_rule org e now r;
      rest ← check_rules org e now rs;
      mret (generated || rest)
  end.

Definition evaluate_detection_rules_for_event (e : SecurityEvent) : DB unit :=
  match se_organization_id e with
  | None => mret tt
  | Some org =>
      rules ← query (λ t, select_rows (loaded org) (detection_rules (operations t)));
      now ← now_db;
      generated ← check_rules org e now rules;
      if (generated : bool) then try_except commit (λ _, rollback) else mret tt
  end.

(** ** Triage *)

Definition set_alert (st : string) (ack : option time) (ack_by : option uuid) (res : option time) (res_by : option uuid)
    (note : option string) (a : SecurityAlert) : SecurityAlert :=
  MkAlert (sa_id a) (sa_alert_id a) (sa_organization_id a) (sa_rule_id a) (sa_fingerprint a) (sa_severity a)
    st (sa_title a) (sa_description a) (sa_first_seen_at a) (sa_last_seen_at a) (sa_event_count a)
    ack ack_by res res_by note (sa_metadata_json a).
Definition acknowledge_alert (a : SecurityAlert) (user_id : uuid) (now : time) : DB SecurityAlert :=
  let a := set_alert "ACKNOWLEDGED" (Some now) (Some user_id) (sa_resolved_at a) (sa_resolved_by a) (sa_resolution_note a) a in
  save_alert a ;; commit ;; mret a.
Definition resolve_alert (a : SecurityAlert) (user_id : uuid) (note : option string) (now : time) : DB SecurityAlert :=
  let a := set_alert "RESOLVED" (sa_acknowledged_at a) (sa_acknowledged_by a) (Some now) (Some user_id) note a in
  save_alert a ;; commit ;; mret a.

(** ** The overview *)

Record overview : Type := MkOverview {
  ov_security_status : string;
  ov_total_events : Z;
  ov_critical_alerts : Z;
  ov_high_alerts : Z;
  ov_denied_actions : Z;
  ov_replay_attempts : Z;
  ov_invalid_signatures : Z;
  ov_revoked_credential_usage : Z;
  ov_trust_violations : Z;
  ov_gateway_problems : Z;
  ov_high_risk_actions : Z;
  ov_admin_security_changes : Z
}.
Definition severe (s : string) : bool := existsb (eqb s) ["HIGH"; "CRITICAL"].
(** [column.ilike("%word%")] *)
Definition ilike (word s : string) : bool := contains (py_lower word) (py_lower s).
Definition open_alerts (org : uuid) (severity : string) (t : tables) : Z :=
  Z.of_nat (count_where (λ a, eqb (sa_organization_id a) org && eqb (sa_severity a) severity && is_open a)
    (rows (alerts (operations t)))).

Definition get_soc_overview (org : uuid) (window_hours : Z) (now : time) : DB overview :=
  query (λ t,
    let since := now - window_hours * hour in
    let count p := Z.of_nat (count_where
      (λ e, eqb (se_organization_id e) (Some org) && (since <=? se_created_at e) && p e) (security_events t)) in
    let critical := open_alerts org "CRITICAL" t in
    let high := open_alerts org "HIGH" t in
    {| ov_security_status := if 0 <? critical then "CRITICAL" else if 0 <? high then "ELEVATED" else "OPERATIONAL";
       ov_total_events := count (λ _, true);
       ov_critical_alerts := critical; ov_high_alerts := high;
       ov_denied_actions := count (λ e, eqb (se_decision e) (Some "DENIED"));
       ov_replay_attempts := count (λ e, eqb (se_category e) (Some "REPLAY"));
       ov_invalid_signatures := count (λ e, ilike "signature" (se_event_type e));
       ov_revoked_credential_usage := count (λ e, ilike "revoked" (se_event_type e));
       ov_trust_violations := count (λ e, eqb (se_category e) (Some "TRUST"));
       ov_gateway_problems := count (λ e, eqb (se_category e) (Some "GATEWAY") && severe (se_severity e));
       ov_high_risk_actions := count (λ e, match se_risk_level e with Some l => severe l | None => false end);
       ov_admin_security_changes := count (λ e, eqb (se_category e) (Some "ADMIN")) |}).

(** ** The handlers of [api/soc.py] *)

Definition resolve_organization (user_id : uuid) (organization_id : option uuid) : DB uuid :=
  match organization_id with
  | Some org =>
      get_or (λ t, scalar (λ m, eqb (om_user_id m) user_id && eqb (om_organization_id m) org) (members (identity t)))
        (HTTPException 403 "Access denied to requested organization") ;;
      mret org
  | None =>
      m ← get_or (λ t, scalar (λ m, eqb (om_user_id m) user_id) (members (identity t)))
        (HTTPException 400 "User has no associated organization");
      mret (om_organization_id m)
  end.

(** [_match_identifier]: the public identifier, or the primary key. *)
Definition matches_identifier (id : uuid) (public lookup_val : string) : bool :=
  eqb public lookup_val || eqb (py_uuid lookup_val) (Some id).

Definition find_alert (org : uuid) (alert_id : string) (t : tables) : option SecurityAlert :=
  scalar (λ a, matches_identifier (sa_id a) (sa_alert_id a) alert_id && eqb (sa_organization_id a) org)
    (alerts (operations t)).
Definition acknowledge_alert_endpoint (user_id : uuid) (organization_id : option uuid) (alert_id : string) (now : time) : DB SecurityAlert :=
  org ← resolve_organization user_id organization_id;
  alert ← get_or (find_alert org alert_id) (HTTPException 404 "Alert not found");
  acknowledge_alert alert user_id now.
Definition resolve_alert_endpoint (user_id : uuid) (organization_id : option uuid) (alert_id : string)
    (note : option string) (now : time) : DB SecurityAlert :=
  org ← resolve_organization user_id organization_id;
  alert ← get_or (find_alert org alert_id) (HTTPException 404 "Alert not found");
  resolve_alert alert user_id note now.

(** The body of [POST /rules], validated, and of [PATCH /rules/{rule_id}]. *)
Definition unsafe_tokens : list string :=
  ["exec("; "eval("; "import "; "__"; "subprocess"; "os."; "sys."; "lambda"; "function"].
Definition unsafe_conditions (conditions : list (string * pyval)) : bool :=
  existsb (λ token, contains token (py_lower (py_str (VDict conditions)))) unsafe_tokens.

Definition create_rule (user_id : uuid) (organization_id : option uuid) (req : DetectionRule) : DB DetectionRule :=
  org ← resolve_organization user_id organization_id;
  raise_if (unsafe_conditions (dr_conditions req))
    (HTTPException 422 "UNSAFE_DETECTION_RULE: Code execution is strictly prohibited in detection rules.") ;;
  existing ← query (rule_of (dr_rule_id req));
  raise_if (is_some existing) (HTTPException 400 "Rule ID already exists") ;;
  id ← fresh_uuid;
  let rule := MkRule id (dr_rule_id req) (Some org) (dr_name req) (dr_description req) (dr_event_type req)
    (dr_category req) (dr_conditions req) (dr_threshold req) (dr_window_seconds req) (py_upper (dr_severity req))
    (dr_enabled req) in
  insert_checked (λ _, opt_check (fits 80) (dr_event_type rule) && opt_check (fits 64) (dr_category rule) &&
    fits 16 (dr_severity rule)) (upd_rules <[id := rule]>) ;;
  commit ;;
  mret rule.

Record UpdateDetectionRuleRequest : Type := MkRuleUpdate {
  ru_name : option string;
  ru_description : option string;
  ru_threshold : option Z;
  ru_window_seconds : option Z;
  ru_severity : option string;
  ru_enabled : option bool
}.
Definition find_rule (org : uuid) (rule_id : string) (t : tables) : option DetectionRule :=
  scalar (λ r, matches_identifier (dr_id r) (dr_rule_id r) rule_id &&
    (eqb (dr_organization_id r) (Some org) || negb (is_some (dr_organization_id r)))) (detection_rules (operations t)).
Definition apply_rule_update (req : UpdateDetectionRuleRequest) (r : DetectionRule) : DetectionRule :=
  MkRule (dr_id r) (dr_rule_id r) (dr_organization_id r) (default (dr_name r) (ru_name req))
    (default (dr_description r) (ru_description req)) (dr_event_type r) (dr_category r) (dr_conditions r)
    (default (dr_threshold r) (ru_threshold req)) (default (dr_window_seconds r) (ru_window_seconds req))
    (default (dr_severity r) (py_upper <$> ru_severity req)) (default (dr_enabled r) (ru_enabled req)).
Definition rule_lengths (r : DetectionRule) : bool :=
  fits 128 (dr_name r) && fits 512 (dr_description r) && fits 16 (dr_severity r).
Definition update_rule (user_id : uuid) (organization_id : option uuid) (rule_id : string)
    (req : UpdateDetectionRuleRequest) : DB DetectionRule :=
  org ← resolve_organization user_id organization_id;
  rule ← get_or (find_rule org rule_id) (HTTPException 404 "Rule not found");
  let rule := apply_rule_update req rule in
  insert_checked (λ _, rule_lengths rule) (upd_rules <[dr_id rule := rule]>) ;;
  commit ;;
  mret rule.
End services.

End Soc.

(** ** Export *)

Module Siem.
Import Soc SecurityEvents.

Section export.
Context `{Entropy} `{SocServices}.

Definition SCHEMA_VERSION : string := "agenttrust.security.event/v1".

Definition format_event_as_json (e : SecurityEvent) : list (string * pyval) :=
  [("schema_version", VStr SCHEMA_VERSION); ("event_id", opt_text (se_event_id e));
   ("timestamp", VStr (isoformat (se_created_at e))); ("severity", VStr (se_severity e));
   ("category", VStr (default "SYSTEM" (or_else (se_category e) None))); ("event_type", VStr (se_event_type e));
   ("description", opt_text (se_description e)); ("organization_reference", opt_uuid (se_organization_id e));
   ("agent_reference", opt_uuid (se_agent_id e)); ("gateway_reference", opt_uuid (se_gateway_id e));
   ("credential_reference", opt_uuid (se_credential_id e)); ("request_id", opt_text (se_request_id e));
   ("trace_id", opt_text (se_trace_id e)); ("correlation_id", opt_text (se_correlation_id e));
   ("actor", VDict [("type", opt_text (se_actor_type e)); ("id", opt_text (se_actor_id e))]);
   ("target", VDict [("type", opt_text (se_target_type e)); ("id", opt_text (se_target_id e))]);
   ("action", opt_text (se_action e)); ("decision", opt_text (se_decision e)); ("risk_level", opt_text (se_risk_level e));
   ("region", opt_text (se_region e)); ("environment", opt_text (se_environment e)); ("metadata", VDict (se_details e))].

Definition format_event_as_cef (e : SecurityEvent) : string :=
  let sev := default "5" (dict_get (py_upper (se_severity e))
    [("INFO", "1"); ("LOW", "3"); ("MEDIUM", "5"); ("HIGH", "8"); ("CRITICAL", "10")]) in
  let show o := default "None" o in
  let ext := str_join " "
    ["eventId=" +:+ show (se_event_id e); "cat=" +:+ show (se_category e); "act=" +:+ show (se_action e);
     "outcome=" +:+ default "NONE" (or_else (se_decision e) None); "cs1=" +:+ default "-" (or_else (se_correlation_id e) None);
     "cs1Label=CorrelationID"] in
  "CEF:0|AgentTrust|AgentTrust|1.0|" +:+ se_event_type e +:+ "|" +:+
    default (se_event_type e) (or_else (se_description e) None) +:+ "|" +:+ sev +:+ "|" +:+ ext.

Definition sign_webhook_payload (payload secret : string) : string := hmac_sha256_hex secret payload.

(** Delivered, or the text of the error; a URL that does not parse raises. *)
Definition deliver_export_payload (dest : SecurityExportDestination) (payload : list (string * pyval)) (now : time) : result Exc (option string) :=
  match Ssrf.resolve_and_validate_endpoint_url false false (default "" (xd_endpoint_url dest)) with
  | Err (Ssrf.SSRFValidationError message _) => Ok (Some ("SSRF_PROTECTION_BLOCKED: " +:+ message))
  | Err Ssrf.InvalidURL => Err (PyError ValueError)
  | Ok _ =>
      let secret := match or_else (xd_secret_ref dest) None with Some ref => get_secret ref | None => "" end in
      let body := json_plain (VDict payload) in
      let headers := [("Content-Type", "application/json"); ("User-Agent", "AgentTrust-Security-Exporter/1.0");
        ("X-AgentTrust-Event-Id", match get "event_id" payload with VStr s => s | _ => "" end);
        ("X-AgentTrust-Schema", SCHEMA_VERSION)] in
      let ts := str_of_Z (now / second) in
      let headers :=
        if eqb (py_upper (xd_destination_type dest)) "WEBHOOK" && not_empty secret then
          (headers ++ [("X-AgentTrust-Timestamp", ts);
            ("X-AgentTrust-Signature", "sha256=" +:+ sign_webhook_payload (ts +:+ "." +:+ body) secret)])%list
        else headers in
      match http_post (default "" (xd_endpoint_url dest)) body headers with
      | Ok (code, text) =>
          if (200 <=? code) && (code <? 300) then Ok None
          else Ok (Some ("HTTP " +:+ str_of_Z code +:+ ": " +:+ str_take 200 text))
      | Err text => Ok (Some ("Network error: " +:+ text))
      end
  end.

Definition severity_ranks : list (string * Z) := [("INFO", 0); ("LOW", 1); ("MEDIUM", 2); ("HIGH", 3); ("CRITICAL", 4)].
Definition rank (s : string) : Z := default 0 (dict_get (py_upper s) severity_ranks).
Definition wanted (dest : SecurityExportDestination) (e : SecurityEvent) : bool :=
  (rank (xd_min_severity dest) <=? rank (se_severity e)) &&
  match xd_categories dest with [] => true | cs => existsb (λ c, eqb (se_category e) (Some c)) cs end.

Definition set_delivery (st : string) (last : option time) (failures : Z) (err : option string)
    (d : SecurityExportDestination) : SecurityExportDestination :=
  MkDestination (xd_id d) (xd_destination_id d) (xd_organization_id d) (xd_name d) (xd_destination_type d)
    (xd_endpoint_url d) (xd_secret_ref d) (xd_min_severity d) (xd_categories d) (xd_enabled d) st last failures err.
Definition upd_destinations f : tables → tables := upd_operations (on_export_destinations f).

Definition delivered (now : time) (d : SecurityExportDestination) : SecurityExportDestination :=
  set_delivery "HEALTHY" (Some now) 0 None d.
Definition failed (err : string) (d : SecurityExportDestination) : SecurityExportDestination :=
  let n := xd_consecutive_failures d + 1 in
  set_delivery (if 5 <=? n then "FAILING" else xd_status d) (xd_last_export_at d) n (Some err) d.
Definition dead_letter (org : uuid) (e : SecurityEvent) (payload : list (string * pyval)) (err : string)
    (d : SecurityExportDestination) : SecurityExportDeadLetter :=
  MkDeadLetter org (xd_destination_id d) (default "" (se_event_id e)) (VDict payload) err (xd_consecutive_failures d).

Definition export_to (org : uuid) (e : SecurityEvent) (payload : list (string * pyval)) (now : time)
    (d : SecurityExportDestination) : DB unit :=
  if wanted d e then
    err ← lift_result (deliver_export_payload d payload now);
    match err with
    | None => write (upd_destinations <[xd_id d := delivered now d]>)
    | Some err =>
        let d := failed err d in
        write (upd_destinations <[xd_id d := d]>) ;;
        if 5 <=? xd_consecutive_failures d
        then write (upd_operations (on_dead_letters (λ l, (l ++ [dead_letter org e payload err d])%list)))
        else mret tt
    end
  else mret tt.

(** The commit fails, and is rolled back, when an error text is too long for its column. *)
Definition errors_fit (t : tables) : bool :=
  forallb (λ d, opt_check (fits 1024) (xd_last_error d)) (rows (export_destinations (operations t))).
Definition commit_export : DB unit :=
  ok ← query errors_fit;
  if (ok : bool) then try_except commit (λ _, rollback) else rollback.

Definition export_event_to_siem_destinations (e : SecurityEvent) : DB unit :=
  match se_organization_id e with
  | None => mret tt
  | Some org =>
      found ← query (λ t, select_rows (λ d, eqb (xd_organization_id d) org && xd_enabled d) (export_destinations (operations t)));
      match found with
      | [] => mret tt
      | _ =>
          now ← now_db;
          let payload := format_event_as_json e in
          for_each (export_to org e payload now) found ;;
          commit_export
      end
  end.

(** The services end [record_security_event]: the interface and its laws. *)
#[export] Instance soc_sinks `{Ambient} : SecuritySinks :=
  {| detection := evaluate_detection_rules_for_event; siem_export := export_event_to_siem_destinations |}.
#[export] Instance soc_sinks_laws `{AmbientLaws} : SecuritySinksLaws.
Proof.
  split; [apply _ | |]; intros e s He; unfold detection, siem_export, soc_sinks,
    evaluate_detection_rules_for_event, export_event_to_siem_destinations; by rewrite He.
Qed.

(** The sinks write the operations tables, but for the ones of governance, and the log. *)
Definition spares_governance (f : operations_tables → operations_tables) : Prop :=
  ∀ o, ownership_history (f o) = ownership_history o ∧ certifications (f o) = certifications o.
Lemma check_rules_evolves (R : relation tables) `{!PreOrder R} `{Entropy} org e now rs :
  (∀ f t, spares_governance f → R t (upd_operations f t)) → respects (evolves R) (check_rules org e now rs).
Proof.
  intros HR. induction rs as [|r rs IH]; simpl; [walk|].
  apply respects_bind; [apply _ | | intros b; apply respects_bind; [apply _ | exact IH | intros c; walk]].
  unfold check_rule, save_alert, upd_alerts. walk; (apply evolves_write; [apply _ | intros t; by apply HR]).
Qed.
Lemma soc_sinks_spare (R : relation tables) `{!PreOrder R} `{Ambient} :
  (∀ f t, spares_governance f → R t (upd_operations f t)) → (∀ f t, R t (upd_security_events f t)) → SinksRespect R.
Proof.
  intros Hops Hlog. split; [intros e | intros e | exact Hlog]; unfold detection, siem_export, soc_sinks.
  - unfold evaluate_detection_rules_for_event. destruct (se_organization_id e) as [org|]; [|walk].
    apply respects_bind; [apply _ | walk | intros rules]. apply respects_bind; [apply _ | walk | intros now].
    apply respects_bind; [apply _ | by apply check_rules_evolves | intros b]. walk.
  - unfold export_event_to_siem_destinations, export_to, commit_export, upd_destinations.
    walk; (apply evolves_write; [apply _ | intros t; by apply Hops]).
Qed.
Lemma soc_sinks_respect (R : relation tables) `{!PreOrder R} `{Ambient} :
  (∀ f t, R t (upd_operations f t)) → (∀ f t, R t (upd_security_events f t)) → SinksRespect R.
Proof. intros Hops Hlog. apply soc_sinks_spare; [apply _ | by intros | done]. Qed.
End export.
End Siem.
