(* ===== verification/SocProps.v ===== *)
(** What the security operations center guarantees ([Soc]): one open alert for
    each incident, a committed alert once a rule's threshold is reached, and where
    organizations are not kept apart. *)
From Stdlib Require Import Ascii.
From S2P Require Import Prelude.
From S2P Require Import PyStr.
From S2P Require Import PyFloat.
From S2P Require Import PyVal.
From S2P Require Import PyDecimal.
From S2P Require Import Models.
From S2P Require Import Store.
From S2P Require Import Samples.
From S2P Require Import SecurityEvents.
From S2P Require Import PyNet.
From S2P Require Import Ssrf.
From S2P Require Import Soc.

Local Open Scope string_scope.
Local Open Scope Z_scope.

Module SocProps.
Import SecurityEvents Soc Siem.

(** ** One open alert for each incident *)

Definition alert_table (t : tables) : gmap uuid SecurityAlert := alerts (operations t).

Definition keyed_alerts (m : gmap uuid SecurityAlert) : Prop := ∀ k a, m !! k = Some a → sa_id a = k.
Definition one_open (m : gmap uuid SecurityAlert) : Prop := ∀ i j a b,
  m !! i = Some a → m !! j = Some b → is_open a = true → is_open b = true →
  sa_organization_id a = sa_organization_id b → sa_fingerprint a = sa_fingerprint b → i = j.
Definition alerts_ok (t : tables) : Prop := keyed_alerts (alert_table t) ∧ one_open (alert_table t).

(** The steps that keep it. *)
Definition keeps_ok (t t' : tables) : Prop := alerts_ok t → alerts_ok t'.
#[export] Instance keeps_ok_preorder : PreOrder keeps_ok.
Proof. split; [intros t | intros t1 t2 t3]; unfold keeps_ok; auto. Qed.

Lemma same_incident_true org fp a :
  same_incident org fp a = true ↔ sa_organization_id a = org ∧ sa_fingerprint a = fp ∧ is_open a = true.
Proof. unfold same_incident. rewrite !andb_true_iff, !eqb_true. tauto. Qed.

(** A row changed in place, open only if it was, on the same incident. *)
Lemma one_open_update m a a' :
  keyed_alerts m → one_open m → m !! sa_id a = Some a →
  sa_id a' = sa_id a → sa_organization_id a' = sa_organization_id a → sa_fingerprint a' = sa_fingerprint a →
  (is_open a' = true → is_open a = true) →
  keyed_alerts (<[sa_id a' := a']> m) ∧ one_open (<[sa_id a' := a']> m).
Proof.
  intros Hk Ho Ha Hid Horg Hfp Hopen. rewrite Hid. split.
  - intros k b. rewrite lookup_insert_Some. intros [[<- <-]|[_ Hb]]; [done | by apply Hk].
  - intros i j b c. rewrite !lookup_insert_Some. intros [[<- <-]|[Hi Hb]] [[<- <-]|[Hj Hc]] Hob Hoc He Hf; try done.
    + rewrite Horg in He. rewrite Hfp in Hf. exfalso. apply Hj. eapply Ho; eauto.
    + rewrite Horg in He. rewrite Hfp in Hf. exfalso. apply Hi. symmetry. eapply (Ho i (sa_id a) b a); eauto.
    + eapply (Ho i j b c); eauto.
Qed.

(** A row added for an incident that has no open alert. *)
Lemma one_open_insert m a :
  keyed_alerts m → one_open m →
  scalar (same_incident (sa_organization_id a) (sa_fingerprint a)) m = None →
  keyed_alerts (<[sa_id a := a]> m) ∧ one_open (<[sa_id a := a]> m).
Proof.
  intros Hk Ho Hnone. split.
  - intros k b. rewrite lookup_insert_Some. intros [[<- <-]|[_ Hb]]; [done | by apply Hk].
  - assert (Hno : ∀ j c, m !! j = Some c → sa_organization_id c = sa_organization_id a →
      sa_fingerprint c = sa_fingerprint a → is_open c = true → False).
    { intros j c Hc He Hf Hoc. pose proof (proj1 (scalar_None _ m) Hnone j c Hc) as Hfalse.
      by rewrite (proj2 (same_incident_true _ _ c)) in Hfalse. }
    intros i j b c. rewrite !lookup_insert_Some. intros [[<- <-]|[Hi Hb]] [[<- <-]|[Hj Hc]] Hob Hoc He Hf; try done.
    + exfalso. by eapply (Hno j c).
    + exfalso. by eapply (Hno i b).
    + eapply (Ho i j b c); eauto.
Qed.

Section steps.
Context `{Entropy} `{SocServices}.

Lemma check_rule_keeps org e now r : respects (evolves keeps_ok) (check_rule org e now r).
Proof.
  unfold check_rule. destruct (rule_matches r e); [|walk]. apply respects_bind; [apply _ | walk | intros n].
  destruct (dr_threshold r <=? n); [|walk].
  intros s Hs. rewrite bind_query. set (fp := compute_alert_fingerprint _ _ _).
  destruct (scalar (same_incident org fp) (alerts (operations (cur s)))) as [a|] eqn:Ha.
  - apply scalar_Some in Ha as (k & Hk & Hsame). unfold save_alert. rewrite bind_run. unfold write.
    destruct (dead s); [done|]. split; [reflexivity|]. simpl. intros Hok0. destruct (Hs Hok0) as [Hkey Hone].
    pose proof (Hkey k a Hk) as Hid. subst k. by apply (one_open_update (alert_table (cur s)) a (touch_alert e now a)).
  - unfold save_alert. rewrite !bind_fresh_uuid, bind_run. unfold write, next_seed. cbn [dead].
    destruct (dead s); [split; [reflexivity | exact Hs]|]. split; [reflexivity|]. intros Hok0.
    destruct (Hs Hok0) as [Hkey Hone]. by apply (one_open_insert (alert_table (cur s)) (new_alert _ _ _ _ _ _ _)).
Qed.

Lemma check_rules_keeps org e now rs : respects (evolves keeps_ok) (check_rules org e now rs).
Proof.
  induction rs as [|r rs IH]; simpl; [walk|].
  apply respects_bind; [apply _ | apply check_rule_keeps | intros b].
  apply respects_bind; [apply _ | exact IH | intros c; walk].
Qed.

Lemma detection_keeps e : respects (evolves keeps_ok) (evaluate_detection_rules_for_event e).
Proof.
  unfold evaluate_detection_rules_for_event. destruct (se_organization_id e) as [org|]; [|walk].
  apply respects_bind; [apply _ | walk | intros rules]. apply respects_bind; [apply _ | walk | intros now].
  apply respects_bind; [apply _ | apply check_rules_keeps | intros b]. walk.
Qed.

Lemma export_keeps e : respects (evolves keeps_ok) (export_event_to_siem_destinations e).
Proof.
  unfold export_event_to_siem_destinations, export_to, commit_export, upd_destinations.
  walk; (apply evolves_write; [apply _ | intros t; exact id]).
Qed.

Lemma record_keeps `{Ambient} ev b : respects (evolves keeps_ok) (record_event ev b).
Proof.
  unfold record_event, generate_event_id.
  apply respects_bind; [apply _ | walk | intros id]. apply respects_bind; [apply _ | walk | intros u].
  apply respects_bind; [apply _ | walk | intros now].
  apply respects_bind; [apply _ | apply evolves_insert; [apply _ | intros t _ Hok; exact Hok] | intros _].
  apply respects_bind; [apply _ | walk | intros _].
  apply respects_bind; [apply _ | apply respects_try; [apply _ | apply detection_keeps | walk] | intros _].
  apply respects_bind; [apply _ | apply respects_try; [apply _ | apply export_keeps | walk] | intros _]. walk.
Qed.

Lemma resolve_alert_keeps user note now org alert_id s :
  evolves keeps_ok s ((alert ← get_or (find_alert org alert_id) (HTTPException 404 "Alert not found");
    resolve_alert alert user note now) s).2.
Proof.
  intros Hs. rewrite bind_get_or. destruct (find_alert org alert_id (cur s)) as [a|] eqn:Ha; [|done].
  unfold find_alert in Ha. apply scalar_Some in Ha as (k & Hk & _).
  unfold resolve_alert, save_alert. rewrite bind_run. unfold write. destruct (dead s) eqn:Hd; [done|].
  rewrite bind_run. unfold commit, set_cur. cbn [dead]. rewrite Hd. cbn [snd committed cur].
  assert (Hok : keeps_ok (committed s) (upd_alerts <[sa_id a := set_alert "RESOLVED" (sa_acknowledged_at a)
    (sa_acknowledged_by a) (Some now) (Some user) note a]> (cur s))).
  { intros Hok0. destruct (Hs Hok0) as [Hkey Hone]. pose proof (Hkey k a Hk) as Hid. subst k.
    by apply (one_open_update (alert_table (cur s)) a
      (set_alert "RESOLVED" (sa_acknowledged_at a) (sa_acknowledged_by a) (Some now) (Some user) note a)). }
  split; [exact Hok | intros H'; exact H'].
Qed.
End steps.

(** Requests of the security operations center and of every service that records an
    event. *)
Inductive soc_request : Type :=
  | Record (ev : SecurityEvent) (commit_ : bool)
  | Resolve (user : uuid) (org : option uuid) (alert_id : string) (note : option string).

Section traces.
Context `{Entropy} `{SocServices} `{Ambient}.

Definition handle_soc (t : tables) (n : nat) (now : time) (r : soc_request) : tables :=
  match r with
  | Record ev b => (run_request (record_event ev b ;; commit) t n now).2
  | Resolve user org alert_id note => (run_request (resolve_alert_endpoint user org alert_id note now) t n now).2
  end.
Definition soc_trace (t : tables) (rs : list (nat * time * soc_request)) : tables :=
  fold_left (λ t '(n, now, r), handle_soc t n now r) rs t.

Lemma handle_soc_keeps t n now r : keeps_ok t (handle_soc t n now r).
Proof.
  destruct r as [ev b | user org alert_id note]; unfold handle_soc; apply evolves_run; try apply _.
  - apply respects_bind; [apply _ | apply record_keeps | intros _; walk].
  - unfold resolve_alert_endpoint. apply respects_bind; [apply _ | | ].
    + unfold resolve_organization. walk.
    + intros o s. apply resolve_alert_keeps.
Qed.

(** Whatever events are recorded and whichever alerts are resolved, an
    organization never has two open alerts with the same fingerprint: repeated events of
    an incident are counted on one alert. *)
Theorem one_open_alert_per_incident t rs :
  alerts_ok t → one_open (alert_table (soc_trace t rs)).
Proof.
  revert t. induction rs as [|[[n now] r] rs IH]; intros t Hok; [by apply Hok|].
  apply IH, handle_soc_keeps, Hok.
Qed.
End traces.

(** ** A burst raises an alert *)

Section raises.
Context `{Entropy} `{!EntropyLaws} `{SocServices}.

Definition fresh_from (n : nat) (t : tables) : Prop := ∀ k, (n ≤ k)%nat → alert_table t !! uuid4 k = None.

Definition raised (org : uuid) (fp : string) (now : time) (t : tables) : Prop :=
  ∃ k a, alert_table t !! k = Some a ∧ same_incident org fp a = true ∧ sa_last_seen_at a = now.

(** What the rules of one event do to the alerts. *)
Definition alerts_step (now : time) (s : session) (t : tables) (n : nat) : Prop :=
  (seed s ≤ n)%nat ∧ fresh_from n t ∧ keyed_alerts (alert_table t) ∧
  security_events t = security_events (cur s) ∧
  ∀ org fp, raised org fp now (cur s) → raised org fp now t.

Definition ready_for (s : session) : Prop :=
  dead s = false ∧ fresh_from (seed s) (cur s) ∧ keyed_alerts (alert_table (cur s)).

Lemma alerts_step_same now s : ready_for s → alerts_step now s (cur s) (seed s).
Proof. intros (_ & Hf & Hk). by split_and!. Qed.

Lemma alerts_step_touch e now s a : ready_for s → alert_table (cur s) !! sa_id a = Some a →
  alerts_step now s (upd_alerts <[sa_id a := touch_alert e now a]> (cur s)) (seed s).
Proof.
  intros (_ & Hf & Hk) Ha. split_and!; try done.
  - intros k Hle. cbn. rewrite lookup_insert_ne; [by apply Hf|].
    intros Heq. rewrite Heq, (Hf k Hle) in Ha. done.
  - intros k b. cbn. rewrite lookup_insert_Some. intros [[<- <-]|[_ Hb]]; [done | by apply Hk].
  - intros org fp (k & b & Hb & Hsame & Hlast). destruct (decide (k = sa_id a)) as [->|Hne].
    + exists (sa_id a), (touch_alert e now a). cbn. rewrite lookup_insert_eq. rewrite Ha in Hb. injection Hb as <-. done.
    + exists k, b. cbn. by rewrite lookup_insert_ne.
Qed.

Lemma alerts_step_new now s a n : ready_for s → sa_id a = uuid4 (seed s) → (seed s < n)%nat →
  alerts_step now s (upd_alerts <[sa_id a := a]> (cur s)) n.
Proof.
  intros (_ & Hf & Hk) Hid Hn. split_and!; try done; [lia | | |].
  - intros k Hle. cbn. rewrite lookup_insert_ne; [apply Hf; lia|].
    intros Heq. rewrite Hid in Heq. apply uuid4_inj in Heq. lia.
  - intros k b. cbn. rewrite lookup_insert_Some. intros [[<- <-]|[_ Hb]]; [done | by apply Hk].
  - intros org fp (k & b & Hb & Hsame). exists k, b. cbn. rewrite lookup_insert_ne; [done|].
    intros <-. rewrite Hid, Hf in Hb; [done | lia].
Qed.

Definition fires (org : uuid) (e : SecurityEvent) (now : time) (r : DetectionRule) (t : tables) : Prop :=
  rule_matches r e = true ∧ dr_threshold r <= burst_count org e (now - dr_window_seconds r * second) t.
Definition incident (org : uuid) (e : SecurityEvent) (r : DetectionRule) : string :=
  compute_alert_fingerprint org (dr_rule_id r) (target_ref e).

Lemma check_rule_runs org e now r s : ready_for s →
  ∃ b t n, check_rule org e now r s = (Ok b, MkSession t (committed s) false n (db_now s)) ∧ alerts_step now s t n ∧
    (fires org e now r (cur s) → b = true ∧ raised org (incident org e r) now t).
Proof.
  intros Hr. pose proof (alerts_step_same now s Hr) as Hsame. pose proof Hr as (Hd & Hf & Hk).
  destruct s as [c cm d n dbn]. cbn in Hd. subst d. unfold check_rule, fires.
  destruct (rule_matches r e); [|eexists false, _, _; split; [reflexivity|]; split; [exact Hsame | by intros [? _]]].
  rewrite bind_query. cbn [cur]. destruct (Z.leb_spec (dr_threshold r) (burst_count org e (now - dr_window_seconds r * second) c)) as [Hle|Hgt].
  2: { eexists false, _, _. split; [reflexivity|]. split; [exact Hsame|]. cbn. intros [_ ?]. lia. }
  rewrite bind_query. cbn [cur]. fold (incident org e r).
  destruct (scalar _ _) as [a|] eqn:Ha.
  - apply scalar_Some in Ha as (k & Hka & Hinc). pose proof (Hk k a Hka) as Hid. subst k.
    eexists true, _, _. split; [reflexivity|]. split; [by apply (alerts_step_touch e now (MkSession c cm false n dbn) a)|].
    intros _. split; [done|]. exists (sa_id a), (touch_alert e now a). cbn. by rewrite lookup_insert_eq.
  - eexists true, _, _. split; [reflexivity|]. split.
    + apply (alerts_step_new now (MkSession c cm false n dbn) (new_alert _ _ _ _ _ _ _)); [done | done | simpl; lia].
    + intros _. split; [done|]. eexists _, _. cbn. split; [apply lookup_insert_eq|]. split; [|done].
      apply same_incident_true. done.
Qed.

Lemma burst_count_events org e w t t' : security_events t' = security_events t → burst_count org e w t' = burst_count org e w t.
Proof. unfold burst_count. by intros ->. Qed.

Lemma check_rules_run org e now rs s : ready_for s →
  ∃ b t n, check_rules org e now rs s = (Ok b, MkSession t (committed s) false n (db_now s)) ∧ alerts_step now s t n ∧
    (∀ r, r ∈ rs → fires org e now r (cur s) → b = true ∧ raised org (incident org e r) now t).
Proof.
  revert s. induction rs as [|r rs IH]; intros s Hr.
  - exists false, (cur s), (seed s). split; [destruct s, Hr as (Hd & _); simpl in *; by subst|].
    split; [by apply alerts_step_same|]. intros r. by rewrite elem_of_nil.
  - destruct (check_rule_runs org e now r s Hr) as (b & t & n & Hrun & (Hn & Hf & Hk & Hev & Hkeep) & Hfire).
    destruct (IH (MkSession t (committed s) false n (db_now s))) as (b' & t' & n' & Hrun' & (Hn' & Hf' & Hk' & Hev' & Hkeep') & Hfires').
    { by split_and!. }
    exists (b || b'), t', n'. cbn [check_rules]. rewrite bind_run, Hrun, bind_run, Hrun'. split; [reflexivity|].
    simpl in *. split; [split_and!; [lia | done | done | congruence | auto]|].
    intros r' [->|Hin]%elem_of_cons Hfi.
    + destruct (Hfire Hfi) as [-> Hra]. auto.
    + destruct (Hfires' r' Hin) as [-> Hra]; [|by rewrite orb_true_r].
      destruct Hfi as [Hm Hc]. split; [done|]. by rewrite (burst_count_events _ _ _ _ _ Hev).
Qed.

(** When a rule that is enabled for the organization matches an event and
    its threshold of events in its window is reached, the detection ends normally, and
    an open alert for that rule and target, seen at this moment, is committed. *)
Theorem detection_raises_alert e org r k s :
  dead s = false → keyed_alerts (alert_table (cur s)) → fresh_from (seed s) (cur s) →
  se_organization_id e = Some org → detection_rules (operations (cur s)) !! k = Some r → loaded org r = true →
  rule_matches r e = true → dr_threshold r <= burst_count org e (db_now s - dr_window_seconds r * second) (cur s) →
  ∃ s', evaluate_detection_rules_for_event e s = (Ok tt, s') ∧ raised org (incident org e r) (db_now s) (committed s').
Proof.
  intros Hd Hk Hf Horg Hr Hload Hm Hc. unfold evaluate_detection_rules_for_event. rewrite Horg, bind_query, bind_now.
  set (rules := select_rows _ _).
  destruct (check_rules_run org e (db_now s) rules s) as (b & t & n & Hrun & _ & Hfires); [by split_and!|].
  destruct (Hfires r) as [-> Hra]; [apply elem_of_select_rows; eauto | done |].
  rewrite bind_run, Hrun. eexists. split; [reflexivity|]. exact Hra.
Qed.
End raises.

(** ** Witnesses and counterexamples *)

Definition no_services : SocServices :=
  {| soc_hashing := {| sha256_hex s := s |}; soc_resolver := {| getaddrinfo h p := Err "offline" |};
     hmac_sha256_hex k m := m; get_secret n := ""; http_post u b h := Err "offline" |}.
Local Existing Instance no_services.
Definition no_ambient : Ambient :=
  {| request_id_context := "-"; trace_id_context := "-"; correlation_id_context := "-";
     environ_environment := None; re_sub p r t := t |}.
Local Existing Instance no_ambient.

Definition replay_event : SecurityEvent :=
  event_args "agent_replay_detected" (Some 9%N) (Some 50%N) None (Some "Nonce reused") "warning" [].
Definition replay_rule : DetectionRule := set_rule_id 1 (default (builtin "" "" "" "" "" "" 1 1) (head BUILTIN_RULES)).
Definition soc_tables (ms : list OrganizationMember) (rs : list DetectionRule) (als : list SecurityAlert) : tables :=
  upd_identity (on_members (λ _, keyed om_id ms))
    (upd_operations (λ o, on_alerts (λ _, keyed sa_id als) (on_detection_rules (λ _, keyed dr_id rs) o)) empty_tables).

(** Three replays within five minutes: the third opens the alert, the fourth is counted
    on it. *)
Definition replays : list (nat * time * soc_request) :=
  map (λ k, ((10 * k)%nat, Z.of_nat k * second, Record replay_event false)) [1; 2; 3; 4]%nat.

Lemma no_alerts_ok : alerts_ok (soc_tables [] [replay_rule] []).
Proof. split; intros k; [intros a Ha | intros j a b Ha]; exfalso; vm_compute in Ha; destruct k; discriminate. Qed.

Lemma one_open_alert_per_incident_witness :
  one_open (alert_table (soc_trace (soc_tables [] [replay_rule] []) replays)) ∧
  map sa_event_count (rows (alert_table (soc_trace (soc_tables [] [replay_rule] []) replays))) = [2].
Proof. split; [exact (one_open_alert_per_incident _ replays no_alerts_ok) | vm_compute; reflexivity]. Defined.

Definition compromised_event : SecurityEvent :=
  complete_event (event_args "compromised_key_used" None (Some 50%N) None None "critical" []) "evt_1" hour.
Definition compromised_rule : DetectionRule := set_rule_id 4 (builtin "rule_compromised_key_use" "Compromised Key Usage"
  "Critical security event" "compromised_key_used" "AUTHORIZATION" "CRITICAL" 1 60).
Lemma detection_raises_alert_witness :
  let s := open_session (soc_tables [] [compromised_rule] []) 0 hour in
  ∃ s', evaluate_detection_rules_for_event compromised_event s = (Ok tt, s') ∧
    raised 50 (incident 50 compromised_event compromised_rule) (db_now s) (committed s').
Proof.
  apply (detection_raises_alert compromised_event 50 compromised_rule 4);
    try (vm_compute; (reflexivity || discriminate)).
Defined.

(** Acknowledging is not limited to open alerts: a resolved alert of an
    incident that has a newer one can be acknowledged, and the incident then has two
    open alerts. *)
Definition old_alert (id : uuid) (st : string) : SecurityAlert :=
  MkAlert id ("alt_" +:+ str_of_nat (N.to_nat id)) 50 "rule_replay_burst" "fp" "HIGH" st "t" "d" 0 0 3 None None None None None [].
Definition viewer (st : MemberStatus) : OrganizationMember := MkMember 7 50 9 VIEWER st None 0 0.
Theorem acknowledge_reopens :
  let t := soc_tables [viewer MemActive] [] [old_alert 1 "RESOLVED"; old_alert 2 "OPEN"] in
  alerts_ok t ∧
  ¬ one_open (alert_table (run_request (acknowledge_alert_endpoint 9 (Some 50%N) "alt_1" hour) t 0 hour).2).
Proof.
  split; [split|].
  - intros k a Ha. by apply keyed_lookup in Ha as [? _].
  - intros i j a b [<- Ha]%keyed_lookup [<- Hb]%keyed_lookup.
    rewrite !elem_of_cons, elem_of_nil in Ha, Hb.
    destruct Ha as [->|[->|[]]], Hb as [->|[->|[]]]; vm_compute; congruence.
  - intros Hone. assert (H12 : 1%N = 2%N); [|done]. eapply Hone; vm_compute; reflexivity.
Qed.

(** A member whom an organization has removed, and who was only a viewer
    there, can switch a built-in detection rule off for every organization. *)
Theorem builtin_rule_disabled_for_all :
  let t := soc_tables [viewer MemRemoved] [compromised_rule] [] in
  let t' := (run_request (update_rule 9 (Some 50%N) "rule_compromised_key_use"
    (MkRuleUpdate None None None None None (Some false))) t 0 hour).2 in
  (∃ k, detection_rules (operations t) !! k = Some compromised_rule) ∧
  (∀ org, loaded org compromised_rule = true) ∧
  ∀ org k r, detection_rules (operations t') !! k = Some r → loaded org r = false.
Proof.
  split_and!; [by exists 4%N | done |].
  intros org k r. set (m := detection_rules _). vm_compute in m. subst m.
  intros Hr. apply elem_of_map_to_list in Hr. vm_compute in Hr. apply list_elem_of_singleton in Hr. by injection Hr as _ ->.
Qed.

End SocProps.
