(* ===== verification/Workspace.v ===== *)
(** The organization a request acts for ([backend/app/services/organization_context.py]):
    the capabilities of the roles, the resolution of the workspace from the header
    of the request, and the session rules an organization imposes. *)
From Stdlib Require Import Ascii.
From S2P Require Import Prelude.
From S2P Require Import PyStr.
From S2P Require Import PyFloat.
From S2P Require Import PyVal.
From S2P Require Import PyDecimal.
From S2P Require Import Models.
From S2P Require Import Store.

Local Open Scope string_scope.
Local Open Scope Z_scope.

Module Workspace.

(** ** Capabilities *)

Definition all_capabilities : list string :=
  ["read"; "manage_agents"; "manage_permissions"; "read_audit"; "decide_requests"; "manage_keys";
   "use_developer_tools"; "manage_webhooks"; "invite_members"; "change_roles"; "remove_members";
   "manage_organization"; "manage_risk_policy"; "view_billing"; "manage_billing"; "manage_security_policy";
   "manage_sso"; "discovery.read"; "discovery.sources.read"; "discovery.sources.manage"; "discovery.scan";
   "discovery.review"; "discovery.match"; "discovery.onboard"; "discovery.ignore"; "discovery.export";
   "services.read"; "services.manage"; "services.resolve"; "services.call"; "capabilities.manage"].

Definition ROLE_CAPABILITIES (r : OrganizationRole) : list string :=
  match r with
  | OWNER => all_capabilities
  | ADMIN =>
      ["read"; "manage_agents"; "manage_permissions"; "read_audit"; "decide_requests"; "manage_keys";
       "use_developer_tools"; "manage_webhooks"; "invite_members"; "change_roles"; "remove_members";
       "manage_risk_policy"; "view_billing"; "manage_billing"; "discovery.read"; "discovery.sources.read";
       "discovery.sources.manage"; "discovery.scan"; "discovery.review"; "discovery.match"; "discovery.onboard";
       "discovery.ignore"; "discovery.export"; "services.read"; "services.manage"; "services.resolve";
       "services.call"; "capabilities.manage"]
  | DEVELOPER =>
      ["read"; "read_audit"; "manage_keys"; "use_developer_tools"; "view_billing"; "discovery.read";
       "discovery.sources.read"; "discovery.review"; "discovery.match"; "discovery.onboard"; "services.read";
       "services.manage"; "services.resolve"; "services.call"; "capabilities.manage"]
  | VIEWER =>
      ["read"; "read_audit"; "view_billing"; "discovery.read"; "discovery.sources.read"; "services.read";
       "services.resolve"]
  end.

Record WorkspaceContext : Type := MkContext {
  wc_user_id : uuid;
  wc_organization_id : option uuid;
  wc_role : OrganizationRole;
  wc_member_id : option uuid
}.

Definition is_personal (c : WorkspaceContext) : bool := negb (is_some (wc_organization_id c)).
Definition can (c : WorkspaceContext) (capability : string) : bool :=
  is_personal c || existsb (eqb capability) (ROLE_CAPABILITIES (wc_role c)).

Definition forbidden : Exc := HTTPException 403 "You do not have permission for this action".
Definition require (c : WorkspaceContext) (capability : string) : DB unit :=
  raise_if (negb (can c capability)) forbidden.

(** Each role can do what the next one can. *)
Definition role_rank (r : OrganizationRole) : nat :=
  match r with OWNER => 3 | ADMIN => 2 | DEVELOPER => 1 | VIEWER => 0 end%nat.
Lemma roles_ordered r r' capability : (role_rank r ≤ role_rank r')%nat →
  existsb (eqb capability) (ROLE_CAPABILITIES r) = true → existsb (eqb capability) (ROLE_CAPABILITIES r') = true.
Proof.
  assert (Hall : ∀ r r', (role_rank r <=? role_rank r')%nat = true →
    forallb (λ c, existsb (eqb c) (ROLE_CAPABILITIES r')) (ROLE_CAPABILITIES r) = true)
    by (intros [] []; vm_compute; done).
  intros Hr [c [Hin Hc]]%existsb_exists. pose proof (proj1 (eqb_true _ _) Hc) as <-.
  specialize (Hall r r' (proj2 (Nat.leb_le _ _) Hr)). rewrite forallb_forall in Hall. by apply Hall.
Qed.

(** ** Resolution *)

Definition active_member (org user : uuid) (m : OrganizationMember) : bool :=
  eqb (om_organization_id m) org && eqb (om_user_id m) user && eqb (om_status m) MemActive.

Definition resolve_workspace (user_id : uuid) (organization_id : option uuid) (t : tables) : option WorkspaceContext :=
  match organization_id with
  | None => Some (MkContext user_id None OWNER None)
  | Some org =>
      match organizations (identity t) !! org with
      | Some o =>
          if og_is_active o then
            match scalar (active_member org user_id) (members (identity t)) with
            | Some m => Some (MkContext user_id (Some org) (om_role m) (Some (om_id m)))
            | None => if eqb (og_owner_id o) user_id then Some (MkContext user_id (Some org) OWNER None) else None
            end
          else None
      | None => None
      end
  end.

(** A workspace of an organization belongs to an active member, with the role of the
    membership, or to the owner; the organization is active. *)
Lemma resolve_sound user org t c : resolve_workspace user (Some org) t = Some c →
  wc_user_id c = user ∧ wc_organization_id c = Some org ∧
  ∃ o, organizations (identity t) !! org = Some o ∧ og_is_active o = true ∧
    ((∃ k m, members (identity t) !! k = Some m ∧ om_organization_id m = org ∧ om_user_id m = user ∧
        om_status m = MemActive ∧ om_role m = wc_role c) ∨
     (og_owner_id o = user ∧ wc_role c = OWNER)).
Proof.
  simpl. destruct (organizations _ !! org) as [o|] eqn:Ho; [|done]. destruct (og_is_active o) eqn:Ha; [|done].
  destruct (scalar _ _) as [m|] eqn:Hm.
  - intros [= <-]. split_and!; [done | done |]. exists o. split_and!; [done | done |]. left.
    apply scalar_Some in Hm as (k & Hk & Hact). unfold active_member in Hact. reflect.
    destruct Hact as [[? ?] ?]. exists k, m. by split_and!.
  - destruct (eqb _ _) eqn:He; [|done]. intros [= <-]. reflect.
    split_and!; [done | done |]. exists o. split_and!; [done | done |]. by right.
Qed.

(** ** Rules of the organization

    [cl_session] is [request.state.auth_session] and [cl_previous] the time of its last
    activity before this request. *)
Record caller : Type := MkCaller {
  cl_user : uuid;
  cl_session : option AuthSession;
  cl_previous : time;
  cl_policy_checked : option uuid
}.

Definition mfa_enabled (user : uuid) (t : tables) : bool :=
  match mfa_credentials (identity t) !! user with Some c => is_some (mf_enabled_at c) | None => false end.
Definition mfa_verified (s : option AuthSession) : bool :=
  match s with Some s => is_some (as_mfa_verified_at s) | None => false end.

Definition set_session_revoked (now : time) (s : AuthSession) : AuthSession :=
  MkAuthSession (as_id s) (as_user_id s) (as_token_hash s) (as_auth_method s) (as_mfa_verified_at s) (as_step_up_at s)
    (as_device_type s) (as_user_agent_summary s) (as_ip_hash s) (as_created_at s) (as_last_active_at s)
    (as_expires_at s) (Some now).
Definition upd_sessions f : tables → tables := upd_identity (on_auth_sessions f).

(** Past the idle time or the lifetime the organization allows. *)
Definition session_stale (p : OrganizationSecurityPolicy) (previous : time) (s : AuthSession) (now : time) : bool :=
  (previous <? now - op_session_timeout_minutes p * minute) ||
  (as_created_at s <? now - op_max_session_lifetime_minutes p * minute).

Definition mfa_required : Exc :=
  HTTPException 403 "This organization requires MFA. Set up or use two-factor authentication to continue".

Definition enforce_organization_policy (cl : caller) (c : WorkspaceContext) : DB unit :=
  match wc_organization_id c with
  | None => mret tt
  | Some org =>
      policy ← query (λ t, org_policies t !! org);
      match policy with
      | None => mret tt
      | Some p =>
          enrolled ← query (mfa_enabled (cl_user cl));
          raise_if (op_require_mfa p && negb (enrolled && mfa_verified (cl_session cl))) mfa_required ;;
          raise_if (op_require_sso p && negb (eqb (wc_role c) OWNER) &&
              negb (match cl_session cl with Some s => eqb (as_auth_method s) "oidc" | None => false end))
            (HTTPException 403 "This organization requires company SSO") ;;
          match cl_session cl with
          | None => mret tt
          | Some s =>
              now ← now_db;
              if session_stale p (cl_previous cl) s now then
                write (upd_sessions (alter (set_session_revoked now) (as_id s))) ;;
                commit ;;
                throw (HTTPException 401 "Session expired under organization policy")
              else mret tt
          end
      end
  end.

Definition get_workspace_context (cl : caller) (organization_id : option uuid) : DB WorkspaceContext :=
  c ← get_or (resolve_workspace (cl_user cl) organization_id) (HTTPException 404 "Organization not found");
  (if is_some organization_id && negb (eqb (cl_policy_checked cl) organization_id)
   then enforce_organization_policy cl c else mret tt) ;;
  mret c.

(** The tables other than the sessions of the users are not written. *)
Lemma get_workspace_evolves (R : relation tables) `{!PreOrder R} cl org :
  (∀ f t, R t (upd_sessions f t)) → respects (evolves R) (get_workspace_context cl org).
Proof.
  intros HR. unfold get_workspace_context, enforce_organization_policy.
  walk; (apply evolves_write; [apply _ | intros t; apply HR]).
Qed.

Lemma get_workspace_resolved cl org s c s' :
  get_workspace_context cl org s = (Ok c, s') → resolve_workspace (cl_user cl) org (cur s) = Some c.
Proof.
  unfold get_workspace_context. rewrite bind_get_or. destruct (resolve_workspace _ _ _) as [c'|]; [|done].
  intros (? & ? & _ & Hret)%bind_Ok. by injection Hret as -> _.
Qed.

(** When a workspace is returned nothing was written: the paths that write raise. *)
Lemma get_workspace_same cl org s c s' : get_workspace_context cl org s = (Ok c, s') → s' = s.
Proof.
  unfold get_workspace_context. rewrite bind_get_or. destruct (resolve_workspace _ _ _) as [c'|]; [|done].
  destruct (is_some org && _); [|by intros [= _ <-]]. unfold enforce_organization_policy.
  destruct (wc_organization_id c'); [|by intros [= _ <-]]. rewrite bind_assoc, bind_query.
  destruct (org_policies (cur s) !! _) as [p|]; [|by intros [= _ <-]].
  rewrite bind_assoc, bind_query, !bind_assoc, bind_raise_if. destruct (op_require_mfa p && _); [done|].
  rewrite !bind_assoc, bind_raise_if. destruct (op_require_sso p && _ && _); [done|].
  destruct (cl_session cl) as [a|]; [|by intros [= _ <-]]. rewrite !bind_assoc, bind_now.
  destruct (session_stale _ _ _ _); [|by intros [= _ <-]].
  rewrite !bind_assoc, bind_run. unfold write. destruct (dead s) eqn:Hd; [discriminate|].
  rewrite !bind_assoc, bind_run. unfold commit, set_cur. cbn [dead]. rewrite Hd. discriminate.
Qed.

(** What a request that passed the rules of its organization went through. *)
Definition admitted (cl : caller) (p : OrganizationSecurityPolicy) (c : WorkspaceContext) (t : tables) (now : time) : Prop :=
  (op_require_mfa p = true → mfa_enabled (cl_user cl) t = true ∧ mfa_verified (cl_session cl) = true) ∧
  (op_require_sso p = true → wc_role c ≠ OWNER → ∃ s, cl_session cl = Some s ∧ as_auth_method s = "oidc") ∧
  (∀ s, cl_session cl = Some s → now - op_session_timeout_minutes p * minute ≤ cl_previous cl ∧
    now - op_max_session_lifetime_minutes p * minute ≤ as_created_at s).

Lemma admitted_by_policy cl org p c s s' :
  org_policies (cur s) !! org = Some p → cl_policy_checked cl ≠ Some org →
  get_workspace_context cl (Some org) s = (Ok c, s') →
  s' = s ∧ resolve_workspace (cl_user cl) (Some org) (cur s) = Some c ∧ admitted cl p c (cur s) (db_now s).
Proof.
  intros Hp Hne. unfold get_workspace_context. rewrite bind_get_or.
  destruct (resolve_workspace _ _ _) as [c'|] eqn:Hc; [|done].
  pose proof (resolve_sound _ _ _ _ Hc) as (_ & Horg & _).
  cbn [is_some andb]. rewrite (proj2 (eqb_false _ _) Hne). cbn [negb].
  unfold enforce_organization_policy. rewrite Horg. exec. rewrite Hp. exec.
  destruct (op_require_mfa p && _) eqn:Hm; [done|]. exec.
  destruct (op_require_sso p && _ && _) eqn:Hs; [done|].
  intros Hrun. assert (Hgoal : (s', c) = (s, c') ∧ (∀ a, cl_session cl = Some a → session_stale p (cl_previous cl) a (db_now s) = false)).
  { destruct (cl_session cl) as [a|] eqn:Ha; revert Hrun; exec;
      [|intros Hrun; injection Hrun as -> ->; split; [done | by intros]].
    destruct (session_stale p (cl_previous cl) a (db_now s)) eqn:Hst.
    - rewrite !bind_assoc, bind_run. unfold write. destruct (dead s) eqn:Hd; [discriminate|].
      rewrite !bind_assoc, bind_run. unfold commit, set_cur. cbn [dead]. rewrite Hd. discriminate.
    - exec. intros Hrun. injection Hrun as -> ->. split; [done|]. by intros ? [= <-]. }
  destruct Hgoal as [[= -> ->] Hstale]. split_and!; [done | done |]. split_and!.
  - intros Hreq. rewrite Hreq in Hm. simpl in Hm. apply negb_false_iff, andb_true_iff in Hm. done.
  - intros Hreq Hrole. rewrite Hreq in Hs. rewrite (proj2 (eqb_false _ _) Hrole) in Hs. simpl in Hs.
    destruct (cl_session cl) as [a|]; [|done]. exists a. split; [done|]. apply negb_false_iff in Hs. by apply eqb_true.
  - intros a Ha. specialize (Hstale a Ha). unfold session_stale in Hstale. reflect. lia.
Qed.

End Workspace.
