(* ===== verification/Trust.v ===== *)
(** Text matching of the database: [ILIKE] on ASCII texts, with the wildcards [%]
    and [_] and the backslash that takes the next character literally. *)

From Stdlib Require Import Ascii.
From S2P Require Import Prelude.
From S2P Require Import PyStr.
From S2P Require Import PyFloat.
From S2P Require Import PyVal.
From S2P Require Import PyDecimal.
From S2P Require Import Models.
From S2P Require Import Store.
From S2P Require Import SecurityEvents.
From S2P Require Import Workspace.

Local Open Scope string_scope.

Definition percent : ascii := ascii_of_nat 37.
Definition underscore : ascii := ascii_of_nat 95.
Definition backslash : ascii := ascii_of_nat 92.

(** [at_some p s]: [p] holds of some tail of [s]. *)
Fixpoint at_some (p : string → bool) (s : string) : bool :=
  p s || match s with "" => false | String _ s => at_some p s end.

Fixpoint like (pattern s : string) : bool :=
  match pattern with
  | "" => eqb s ""
  | String c rest =>
      if eqb c percent then at_some (like rest) s
      else if eqb c underscore then match s with "" => false | String _ s => like rest s end
      else if eqb c backslash then
        match rest with
        | String d rest => match s with "" => false | String x s => eqb x d && like rest s end
        | "" => false
        end
      else match s with "" => false | String x s => eqb x c && like rest s end
  end.
Definition ilike (pattern s : string) : bool := like (py_lower pattern) (py_lower s).

(** A column whose value is [NULL] matches nothing. *)
Definition opt_ilike (pattern : string) (s : option string) : bool :=
  match s with Some s => ilike pattern s | None => false end.

Lemma at_some_refl p s : p s = true → at_some p s = true.
Proof. intros H. destruct s; cbn [at_some]; by rewrite H. Qed.
Lemma at_some_cons p c s : at_some p s = true → at_some p (String c s) = true.
Proof. intros H. cbn [at_some]. rewrite H. apply orb_true_r. Qed.

(** A pattern without wildcards between two percent signs finds its text anywhere. *)
Fixpoint literal (s : string) : bool :=
  match s with
  | "" => true
  | String c s => negb (eqb c percent) && negb (eqb c underscore) && negb (eqb c backslash) && literal s
  end.
Lemma like_literal w s b : literal w = true → like (w +:+ b) (w +:+ s) = like b s.
Proof.
  induction w as [|c w IH]; [done|]. cbn [literal]. intros H. reflect. destruct H as [[[Hp Hu] Hb] Hw].
  change (like (String c (w +:+ b)) (String c (w +:+ s)) = like b s). cbn [like].
  rewrite (proj2 (eqb_false _ _) Hp), (proj2 (eqb_false _ _) Hu), (proj2 (eqb_false _ _) Hb), eqb_refl. by apply IH.
Qed.
Lemma like_infix w a b : literal w = true → like (String percent (w +:+ String percent "")) (a +:+ w +:+ b) = true.
Proof.
  intros Hw. cbn [like]. rewrite eqb_refl. induction a as [|c a IH].
  - apply at_some_refl. change (like (w +:+ String percent "") (w +:+ b) = true). rewrite (like_literal _ _ _ Hw). cbn [like]. rewrite eqb_refl.
    clear. induction b as [|c b IH]; [done | by apply at_some_cons].
  - by apply at_some_cons.
Qed.

(** Trust between organizations
    ([backend/app/services/cross_organization_trust.py] and the handlers of
    [api/cross_organization_trust.py]): directional trust relationships, their
    policies, connections between agents, public profiles and inbound policies.

    Identifiers drawn for new rows are taken to have the format their columns
    demand; users and organizations a row refers to are taken to exist. *)

Local Open Scope string_scope.
Local Open Scope Z_scope.

Module Trust.
Import SecurityEvents Workspace.

Definition upd_trusts f : tables → tables := upd_federation (on_trusts f).
Definition upd_trust_policies f : tables → tables := upd_federation (on_trust_policies f).
Definition upd_connections f : tables → tables := upd_federation (on_connections f).
Definition upd_public_profiles f : tables → tables := upd_federation (on_public_profiles f).
Definition upd_target_policies f : tables → tables := upd_federation (on_target_policies f).

(** [is_usable] of a relationship and of a connection. *)
Definition past (o : option time) (at_ : time) : bool := match o with Some e => e <=? at_ | None => false end.
Definition trust_is_usable (tr : OrganizationTrustRelationship) (at_ : time) : bool :=
  eqb (tr_status tr) TrActive && negb (past (tr_expires_at tr) at_) && negb (past (tr_revoked_at tr) at_).
Definition connection_is_usable (c : ExternalAgentConnection) (at_ : time) : bool :=
  eqb (ec_status c) "ACTIVE" && negb (past (ec_expires_at c) at_) && negb (past (ec_revoked_at c) at_).

(** The columns of a relationship that change. *)
Definition set_trust (st : TrustStatus) (created_by : uuid) (accepted_by : option uuid)
    (accepted expires revoked : option time) (reason : option string) (tr : OrganizationTrustRelationship) :
    OrganizationTrustRelationship :=
  MkTrust (tr_id tr) (tr_trust_id tr) (tr_source_organization_id tr) (tr_target_organization_id tr) st created_by
    accepted_by (tr_created_at tr) accepted expires revoked reason.
Definition set_trust_status (st : TrustStatus) (tr : OrganizationTrustRelationship) : OrganizationTrustRelationship :=
  set_trust st (tr_created_by_user_id tr) (tr_accepted_by_user_id tr) (tr_accepted_at tr) (tr_expires_at tr)
    (tr_revoked_at tr) (tr_revocation_reason tr) tr.
Definition save_trust (tr : OrganizationTrustRelationship) : DB unit :=
  insert_checked (λ _, opt_check (fits 255) (tr_revocation_reason tr)) (upd_trusts <[tr_id tr := tr]>).

(** A new row: its keys are not taken. *)
Definition new_trust_ok (tr : OrganizationTrustRelationship) (t : tables) : bool :=
  let taken tr' := eqb (tr_trust_id tr') (tr_trust_id tr) ||
    eqb (tr_source_organization_id tr') (tr_source_organization_id tr) &&
    eqb (tr_target_organization_id tr') (tr_target_organization_id tr) in
  negb (is_some (trusts (federation t) !! tr_id tr)) && negb (is_some (scalar taken (trusts (federation t)))) &&
  negb (eqb (tr_source_organization_id tr) (tr_target_organization_id tr)).
Definition add_trust (tr : OrganizationTrustRelationship) : DB unit :=
  insert_checked (new_trust_ok tr) (upd_trusts <[tr_id tr := tr]>).

Definition between (source target : uuid) (tr : OrganizationTrustRelationship) : bool :=
  eqb (tr_source_organization_id tr) source && eqb (tr_target_organization_id tr) target.
Definition trust_by_id (trust_id : string) (t : tables) : option OrganizationTrustRelationship :=
  scalar (λ tr, eqb (tr_trust_id tr) trust_id) (trusts (federation t)).
Definition trust_not_found : Exc := HTTPException 404 "Trust relationship not found".
Definition in_state (doing : string) (tr : OrganizationTrustRelationship) : string :=
  doing +:+ " in '" +:+ TrustStatus_value (tr_status tr) +:+ "' state".

Section service.
Context `{Entropy} `{SecuritySinks}.

Definition trust_event (user : uuid) (event_type : string) (org : uuid) (severity description : string)
    (details : list (string * pyval)) : DB unit :=
  record_event (event_args event_type (Some user) (Some org) None (Some description) severity details) true ;; mret tt.

(** ** Relationships *)

Definition default_trust_policy (id trust : uuid) : OrganizationTrustPolicy :=
  MkTrustPolicy id trust [] [] None None false None "TARGET_APPROVAL" false 1 None.

Definition create_trust_request (source_org_id target_org_id user_id : uuid) (expires_at : option time) :
    DB OrganizationTrustRelationship :=
  raise_if (eqb source_org_id target_org_id)
    (HTTPException 400 "Cannot establish trust relationship with your own organization") ;;
  target ← query (λ t, organizations (identity t) !! target_org_id);
  raise_if (negb (match target with Some o => og_is_active o | None => false end))
    (HTTPException 404 "Target organization not found or inactive") ;;
  existing ← query (λ t, scalar (between source_org_id target_org_id) (trusts (federation t)));
  match existing with
  | Some tr =>
      raise_if (eqb (tr_status tr) TrActive)
        (HTTPException 409 "Active trust relationship already exists between these organizations") ;;
      raise_if (eqb (tr_status tr) TrPending) (HTTPException 409 "A pending trust request already exists") ;;
      let tr := set_trust TrPending user_id None None expires_at None None tr in
      save_trust tr ;;
      commit ;;
      trust_event user_id "organization_trust_requested" source_org_id "info"
        ("Re-requested trust relationship with organization " +:+ uuid_str target_org_id)
        [("trust_id", VStr (tr_trust_id tr)); ("target_organization_id", VStr (uuid_str target_org_id))] ;;
      mret tr
  | None =>
      id ← fresh_uuid;
      token ← fresh_token;
      now ← now_db;
      let tr := MkTrust id ("trust_" +:+ token) source_org_id target_org_id TrPending user_id None now None expires_at
        None None in
      add_trust tr ;;
      pid ← fresh_uuid;
      write (upd_trust_policies <[pid := default_trust_policy pid id]>) ;;
      commit ;;
      trust_event user_id "organization_trust_requested" source_org_id "info"
        ("Requested trust relationship with organization " +:+ uuid_str target_org_id)
        [("trust_id", VStr (tr_trust_id tr)); ("target_organization_id", VStr (uuid_str target_org_id))] ;;
      mret tr
  end.

Definition accept_trust_request (trust_id : string) (user_id target_org_id : uuid) : DB OrganizationTrustRelationship :=
  tr ← get_or (trust_by_id trust_id) trust_not_found;
  raise_if (negb (eqb (tr_target_organization_id tr) target_org_id))
    (HTTPException 403 "Only the target organization can accept this trust request") ;;
  raise_if (negb (eqb (tr_status tr) TrPending)) (HTTPException 400 (in_state "Cannot accept trust request" tr)) ;;
  now ← now_db;
  if past (tr_expires_at tr) now then
    save_trust (set_trust_status TrExpired tr) ;;
    commit ;;
    throw (HTTPException 400 "Trust request has expired")
  else
    let tr := set_trust TrActive (tr_created_by_user_id tr) (Some user_id) (Some now) (tr_expires_at tr)
      (tr_revoked_at tr) (tr_revocation_reason tr) tr in
    save_trust tr ;;
    commit ;;
    trust_event user_id "organization_trust_accepted" target_org_id "info"
      ("Accepted trust request " +:+ trust_id +:+ " from organization " +:+ uuid_str (tr_source_organization_id tr))
      [("trust_id", VStr trust_id); ("source_organization_id", VStr (uuid_str (tr_source_organization_id tr)))] ;;
    mret tr.

Definition opt_str (o : option string) : pyval := match o with Some s => VStr s | None => VNone end.

Definition reject_trust_request (trust_id : string) (user_id target_org_id : uuid) (reason : option string) :
    DB OrganizationTrustRelationship :=
  tr ← get_or (trust_by_id trust_id) trust_not_found;
  raise_if (negb (eqb (tr_target_organization_id tr) target_org_id))
    (HTTPException 403 "Only the target organization can reject this trust request") ;;
  raise_if (negb (eqb (tr_status tr) TrPending)) (HTTPException 400 (in_state "Cannot reject trust request" tr)) ;;
  let tr := set_trust TrRejected (tr_created_by_user_id tr) (tr_accepted_by_user_id tr) (tr_accepted_at tr)
    (tr_expires_at tr) (tr_revoked_at tr) reason tr in
  save_trust tr ;;
  commit ;;
  trust_event user_id "organization_trust_rejected" target_org_id "info"
    ("Rejected trust request " +:+ trust_id +:+ " from organization " +:+ uuid_str (tr_source_organization_id tr))
    [("trust_id", VStr trust_id); ("reason", opt_str reason)] ;;
  mret tr.

Definition party (org : uuid) (tr : OrganizationTrustRelationship) : bool :=
  eqb (tr_source_organization_id tr) org || eqb (tr_target_organization_id tr) org.

Definition set_connection (st : string) (expires revoked : option time) (reason : option string)
    (c : ExternalAgentConnection) : ExternalAgentConnection :=
  MkConnection (ec_id c) (ec_connection_id c) (ec_trust_relationship_id c) (ec_source_agent_id c)
    (ec_target_agent_id c) st (ec_created_at c) expires revoked reason.
Definition live_under (trust : uuid) (c : ExternalAgentConnection) : bool :=
  eqb (ec_trust_relationship_id c) trust && eqb (ec_status c) "ACTIVE".

Definition revoke_trust_relationship (trust_id : string) (user_id org_id : uuid) (reason : string) :
    DB OrganizationTrustRelationship :=
  tr ← get_or (trust_by_id trust_id) trust_not_found;
  raise_if (negb (party org_id tr)) (HTTPException 403 "You do not have access to revoke this trust relationship") ;;
  now ← now_db;
  let tr := set_trust TrRevoked (tr_created_by_user_id tr) (tr_accepted_by_user_id tr) (tr_accepted_at tr)
    (tr_expires_at tr) (Some now) (Some reason) tr in
  save_trust tr ;;
  write (upd_connections (update_where (live_under (tr_id tr))
    (λ c, set_connection "REVOKED" (ec_expires_at c) (Some now)
       (Some ("Trust relationship " +:+ trust_id +:+ " revoked")) c))) ;;
  commit ;;
  trust_event user_id "organization_trust_revoked" org_id "medium"
    ("Revoked trust relationship " +:+ trust_id +:+ ": " +:+ reason)
    [("trust_id", VStr trust_id); ("reason", VStr reason)] ;;
  mret tr.

Definition get_trust_relationship (trust_id : string) (org_id : uuid) : DB OrganizationTrustRelationship :=
  tr ← get_or (trust_by_id trust_id) trust_not_found;
  raise_if (negb (party org_id tr)) trust_not_found ;;
  mret tr.

Definition listed_trust (org_id : uuid) (direction : string) (status_filter : option TrustStatus)
    (tr : OrganizationTrustRelationship) : bool :=
  (if eqb direction "incoming" then eqb (tr_target_organization_id tr) org_id
   else if eqb direction "outgoing" then eqb (tr_source_organization_id tr) org_id
   else party org_id tr) &&
  opt_check (eqb (tr_status tr)) status_filter.
Definition list_trust_relationships (org_id : uuid) (direction : string) (status_filter : option TrustStatus) :
    DB (list OrganizationTrustRelationship) :=
  query (λ t, order_desc tr_created_at tr_id (select_rows (listed_trust org_id direction status_filter) (trusts (federation t)))).

(** ** The policy of a relationship *)

Record TrustPolicyUpdate : Type := MkPolicyUpdate {
  pu_allowed_actions : list string;
  pu_allowed_resources : list string;
  pu_max_amount : option dec;
  pu_currency : option string;
  pu_require_human_approval : bool;
  pu_approval_threshold : option dec;
  pu_approval_type : string;
  pu_allow_agent_delegation : bool;
  pu_max_delegation_depth : Z;
  pu_risk_threshold : option Z
}.

Definition trust_policy_checks (p : OrganizationTrustPolicy) : bool :=
  opt_check dec_pos (tp_max_amount p) && same_null (tp_max_amount p) (tp_currency p) &&
  (1 <=? tp_max_delegation_depth p) && (tp_max_delegation_depth p <=? 5) &&
  opt_check (fits 3) (tp_currency p) && fits 20 (tp_approval_type p).
Definition policy_of (trust : uuid) (t : tables) : option OrganizationTrustPolicy :=
  scalar (λ p, eqb (tp_trust_relationship_id p) trust) (trust_policies (federation t)).
Definition apply_policy_update (payload : TrustPolicyUpdate) (p : OrganizationTrustPolicy) : OrganizationTrustPolicy :=
  MkTrustPolicy (tp_id p) (tp_trust_relationship_id p) (pu_allowed_actions payload) (pu_allowed_resources payload)
    (pu_max_amount payload) (pu_currency payload) (pu_require_human_approval payload) (pu_approval_threshold payload)
    (pu_approval_type payload) (pu_allow_agent_delegation payload) (pu_max_delegation_depth payload)
    (pu_risk_threshold payload).

Definition update_trust_policy (trust_id : string) (user_id org_id : uuid) (payload : TrustPolicyUpdate) :
    DB OrganizationTrustPolicy :=
  tr ← get_trust_relationship trust_id org_id;
  found ← query (policy_of (tr_id tr));
  policy ← match found with
           | Some p => mret p
           | None => id ← fresh_uuid; mret (default_trust_policy id (tr_id tr))
           end;
  let policy := apply_policy_update payload policy in
  insert_checked (λ _, trust_policy_checks policy) (upd_trust_policies <[tp_id policy := policy]>) ;;
  commit ;;
  trust_event user_id "organization_trust_policy_updated" org_id "low"
    ("Updated trust policy for relationship " +:+ trust_id)
    [("trust_id", VStr trust_id); ("actions", VList (map VStr (pu_allowed_actions payload)))] ;;
  mret policy.

(** ** Connections between agents *)

Record ExternalAgentConnectionCreate : Type := MkConnectionCreate {
  cc_source_agent_id : uuid;
  cc_target_agent_id : uuid;
  cc_expires_at : option time
}.
Definition connects (trust source target : uuid) (c : ExternalAgentConnection) : bool :=
  eqb (ec_trust_relationship_id c) trust && eqb (ec_source_agent_id c) source && eqb (ec_target_agent_id c) target.
Definition agent_of (org : uuid) (id : uuid) (t : tables) : option Agent :=
  match agents t !! id with
  | Some a => if eqb (ag_organization_id a) (Some org) then Some a else None
  | None => None
  end.
Definition save_connection (c : ExternalAgentConnection) : DB unit :=
  insert_checked (λ _, negb (eqb (ec_source_agent_id c) (ec_target_agent_id c)) && opt_check (fits 255) (ec_revocation_reason c))
    (upd_connections <[ec_id c := c]>).

Definition new_connection_ok (c : ExternalAgentConnection) (t : tables) : bool :=
  let taken c' := eqb (ec_connection_id c') (ec_connection_id c) ||
    connects (ec_trust_relationship_id c) (ec_source_agent_id c) (ec_target_agent_id c) c' in
  negb (is_some (connections (federation t) !! ec_id c)) && negb (is_some (scalar taken (connections (federation t)))) &&
  negb (eqb (ec_source_agent_id c) (ec_target_agent_id c)).
Definition add_connection (c : ExternalAgentConnection) : DB unit :=
  insert_checked (new_connection_ok c) (upd_connections <[ec_id c := c]>).

Definition create_agent_connection (trust_id : string) (payload : ExternalAgentConnectionCreate) (user_id org_id : uuid) :
    DB ExternalAgentConnection :=
  tr ← get_trust_relationship trust_id org_id;
  raise_if (negb (eqb (tr_status tr) TrActive))
    (HTTPException 400 ("Cannot connect agents: trust relationship is in '" +:+ TrustStatus_value (tr_status tr) +:+ "' state")) ;;
  source ← get_or (agent_of (tr_source_organization_id tr) (cc_source_agent_id payload))
    (HTTPException 400 "Source agent does not belong to the source organization of this trust relationship");
  raise_if (negb (eqb (ag_status source) ACTIVE)) (HTTPException 400 "Source agent is not active") ;;
  target ← get_or (agent_of (tr_target_organization_id tr) (cc_target_agent_id payload))
    (HTTPException 400 "Target agent does not belong to the target organization of this trust relationship");
  raise_if (negb (eqb (ag_status target) ACTIVE)) (HTTPException 400 "Target agent is not active") ;;
  existing ← query (λ t, scalar (connects (tr_id tr) (cc_source_agent_id payload) (cc_target_agent_id payload))
    (connections (federation t)));
  match existing with
  | Some c =>
      raise_if (eqb (ec_status c) "ACTIVE") (HTTPException 409 "Connection already exists between these agents") ;;
      let c := set_connection "ACTIVE" (cc_expires_at payload) None None c in
      save_connection c ;;
      commit ;;
      mret c
  | None =>
      id ← fresh_uuid;
      token ← fresh_token;
      now ← now_db;
      let c := MkConnection id ("eac_" +:+ token) (tr_id tr) (cc_source_agent_id payload) (cc_target_agent_id payload)
        "ACTIVE" now (cc_expires_at payload) None None in
      add_connection c ;;
      commit ;;
      trust_event user_id "external_agent_connected" org_id "info"
        ("Connected source agent " +:+ ag_name source +:+ " to target agent " +:+ ag_name target)
        [("connection_id", VStr (ec_connection_id c)); ("trust_id", VStr trust_id)] ;;
      mret c
  end.

Definition connection_by_id (trust : uuid) (connection_id : string) (t : tables) : option ExternalAgentConnection :=
  scalar (λ c, eqb (ec_connection_id c) connection_id && eqb (ec_trust_relationship_id c) trust) (connections (federation t)).

Definition revoke_agent_connection (trust_id connection_id : string) (user_id org_id : uuid) (reason : string) :
    DB ExternalAgentConnection :=
  tr ← get_trust_relationship trust_id org_id;
  c ← get_or (connection_by_id (tr_id tr) connection_id) (HTTPException 404 "External agent connection not found");
  now ← now_db;
  let c := set_connection "REVOKED" (ec_expires_at c) (Some now) (Some reason) c in
  save_connection c ;;
  commit ;;
  trust_event user_id "external_agent_disconnected" org_id "medium"
    ("Disconnected external agent connection " +:+ connection_id +:+ ": " +:+ reason)
    [("connection_id", VStr connection_id); ("reason", VStr reason)] ;;
  mret c.

Definition list_agent_connections (trust_id : string) (org_id : uuid) : DB (list ExternalAgentConnection) :=
  tr ← get_trust_relationship trust_id org_id;
  query (λ t, order_desc ec_created_at ec_id
    (select_rows (λ c, eqb (ec_trust_relationship_id c) (tr_id tr)) (connections (federation t)))).

(** ** Public profiles *)

Definition profile_of (org : uuid) (t : tables) : option OrganizationPublicProfile :=
  scalar (λ p, eqb (pp_organization_id p) org) (public_profiles (federation t)).

(** A profile that does not exist is created, also when it is only read. *)
Definition get_public_profile (org_id : uuid) : DB OrganizationPublicProfile :=
  found ← query (profile_of org_id);
  match found with
  | Some p => mret p
  | None =>
      org ← get_or (λ t, organizations (identity t) !! org_id) (HTTPException 404 "Organization not found");
      id ← fresh_uuid;
      let p := MkPublicProfile id org_id (og_name org) "" None true [] "UNVERIFIED" in
      write (upd_public_profiles <[id := p]>) ;;
      commit ;;
      mret p
  end.

Record OrganizationPublicProfileUpdate : Type := MkProfileUpdate {
  fu_public_name : string;
  fu_description : string;
  fu_website_domain : option string;
  fu_discoverable : bool;
  fu_supported_capabilities : list string
}.
Definition apply_profile_update (payload : OrganizationPublicProfileUpdate) (p : OrganizationPublicProfile) :
    OrganizationPublicProfile :=
  MkPublicProfile (pp_id p) (pp_organization_id p) (fu_public_name payload) (fu_description payload)
    (fu_website_domain payload) (fu_discoverable payload) (fu_supported_capabilities payload) (pp_verification_status p).
Definition profile_checks (p : OrganizationPublicProfile) : bool :=
  fits 200 (pp_public_name p) && fits 1000 (pp_description p) && opt_check (fits 255) (pp_website_domain p).

Definition update_public_profile (org_id user_id : uuid) (payload : OrganizationPublicProfileUpdate) :
    DB OrganizationPublicProfile :=
  p ← get_public_profile org_id;
  let p := apply_profile_update payload p in
  insert_checked (λ _, profile_checks p) (upd_public_profiles <[pp_id p := p]>) ;;
  commit ;;
  mret p.

Definition search_pattern (text : string) : string := "%" +:+ py_lower (py_strip text) +:+ "%".
Definition found_by (text : string) (p : OrganizationPublicProfile) : bool :=
  pp_discoverable p &&
  (eqb (py_strip text) "" || ilike (search_pattern text) (pp_public_name p) || ilike (search_pattern text) (pp_description p)).
Definition search_directory (text : string) : DB (list OrganizationPublicProfile) :=
  query (λ t, take 50 (select_rows (found_by text) (public_profiles (federation t)))).

(** ** The inbound policy of an organization *)

Definition inbound_policy (org : uuid) (t : tables) : option TargetOrganizationPolicy :=
  scalar (λ p, eqb (gt_organization_id p) org) (target_policies (federation t)).
Definition get_target_policy (org_id : uuid) : DB TargetOrganizationPolicy :=
  found ← query (inbound_policy org_id);
  match found with
  | Some p => mret p
  | None =>
      id ← fresh_uuid;
      let p := MkTargetPolicy id org_id [] [] None None false None [] in
      write (upd_target_policies <[id := p]>) ;;
      commit ;;
      mret p
  end.

Record TargetOrganizationPolicyUpdate : Type := MkTargetUpdate {
  gu_allowed_actions : list string;
  gu_allowed_resources : list string;
  gu_max_amount : option dec;
  gu_currency : option string;
  gu_require_human_approval : bool;
  gu_approval_threshold : option dec
}.
Definition apply_target_update (payload : TargetOrganizationPolicyUpdate) (p : TargetOrganizationPolicy) :
    TargetOrganizationPolicy :=
  MkTargetPolicy (gt_id p) (gt_organization_id p) (gu_allowed_actions payload) (gu_allowed_resources payload)
    (gu_max_amount payload) (gu_currency payload) (gu_require_human_approval payload) (gu_approval_threshold payload)
    (gt_required_credential_types p).
Definition target_policy_checks (p : TargetOrganizationPolicy) : bool :=
  opt_check dec_pos (gt_max_amount p) && same_null (gt_max_amount p) (gt_currency p) && opt_check (fits 3) (gt_currency p).

Definition update_target_policy (org_id user_id : uuid) (payload : TargetOrganizationPolicyUpdate) :
    DB TargetOrganizationPolicy :=
  p ← get_target_policy org_id;
  let p := apply_target_update payload p in
  insert_checked (λ _, target_policy_checks p) (upd_target_policies <[gt_id p := p]>) ;;
  commit ;;
  trust_event user_id "target_organization_policy_updated" org_id "low"
    "Updated target organization inbound request policy"
    [("allowed_actions", VList (map VStr (gu_allowed_actions payload)))] ;;
  mret p.

(** ** Handlers *)

Definition with_organization {A} (w : WorkspaceContext) (capability : string) (k : uuid → DB A) : DB A :=
  match wc_organization_id w with
  | None => throw (HTTPException 400 "Organization context required")
  | Some org => require w capability ;; k org
  end.
Definition for_own {A} (w : WorkspaceContext) (org_id : uuid) (capability : string) (k : DB A) : DB A :=
  raise_if (negb (eqb (wc_organization_id w) (Some org_id))) (HTTPException 403 "Organization context mismatch") ;;
  require w capability ;;
  k.

Definition request_trust (w : WorkspaceContext) (target : uuid) (expires_at : option time) : DB OrganizationTrustRelationship :=
  with_organization w "manage_organization" (λ org, create_trust_request org target (wc_user_id w) expires_at).
Definition get_trust_relationships (w : WorkspaceContext) (direction : string) (status_filter : option TrustStatus) :
    DB (list OrganizationTrustRelationship) :=
  with_organization w "read" (λ org, list_trust_relationships org direction status_filter).
Definition get_trust (w : WorkspaceContext) (trust_id : string) : DB OrganizationTrustRelationship :=
  with_organization w "read" (get_trust_relationship trust_id).
Definition accept_trust (w : WorkspaceContext) (trust_id : string) : DB OrganizationTrustRelationship :=
  with_organization w "manage_organization" (accept_trust_request trust_id (wc_user_id w)).
Definition reject_trust (w : WorkspaceContext) (trust_id reason : string) : DB OrganizationTrustRelationship :=
  with_organization w "manage_organization" (λ org, reject_trust_request trust_id (wc_user_id w) org (Some reason)).
Definition revoke_trust (w : WorkspaceContext) (trust_id reason : string) : DB OrganizationTrustRelationship :=
  with_organization w "manage_organization" (λ org, revoke_trust_relationship trust_id (wc_user_id w) org reason).
Definition set_policy (w : WorkspaceContext) (trust_id : string) (payload : TrustPolicyUpdate) : DB OrganizationTrustPolicy :=
  with_organization w "manage_permissions" (λ org, update_trust_policy trust_id (wc_user_id w) org payload).
Definition connect_agents (w : WorkspaceContext) (trust_id : string) (payload : ExternalAgentConnectionCreate) :
    DB ExternalAgentConnection :=
  with_organization w "manage_permissions" (λ org, create_agent_connection trust_id payload (wc_user_id w) org).
Definition get_agent_connections (w : WorkspaceContext) (trust_id : string) : DB (list ExternalAgentConnection) :=
  with_organization w "read" (list_agent_connections trust_id).
Definition disconnect_agents (w : WorkspaceContext) (trust_id connection_id reason : string) : DB ExternalAgentConnection :=
  with_organization w "manage_permissions" (λ org, revoke_agent_connection trust_id connection_id (wc_user_id w) org reason).
Definition edit_public_profile (w : WorkspaceContext) (org_id : uuid) (payload : OrganizationPublicProfileUpdate) :
    DB OrganizationPublicProfile :=
  for_own w org_id "manage_organization" (update_public_profile org_id (wc_user_id w) payload).
Definition read_target_policy (w : WorkspaceContext) (org_id : uuid) : DB TargetOrganizationPolicy :=
  for_own w org_id "read" (get_target_policy org_id).
Definition edit_target_policy (w : WorkspaceContext) (org_id : uuid) (payload : TargetOrganizationPolicyUpdate) :
    DB TargetOrganizationPolicy :=
  for_own w org_id "manage_permissions" (update_target_policy org_id (wc_user_id w) payload).
End service.
End Trust.
