(* ===== verification/TrustProps.v ===== *)
(** What trust between organizations guarantees ([Trust]): the state machine of a
    relationship, the consent of the target organization, and the completeness of a
    revocation. *)
From Stdlib Require Import Ascii.
From S2P Require Import Prelude.
From S2P Require Import PyStr.
From S2P Require Import PyFloat.
From S2P Require Import PyVal.
From S2P Require Import PyDecimal.
From S2P Require Import Models.
From S2P Require Import Store.
From S2P Require Import Samples.
From S2P Require Import SecurityEvents.
From S2P Require Import Soc.
From S2P Require Import SocProps.
From S2P Require Import Workspace.
From S2P Require Import Trust.

Local Open Scope string_scope.
Local Open Scope Z_scope.

Module TrustProps.
Import SecurityEvents Workspace Trust.

(** ** The state machine *)

Definition same_parties (a b : OrganizationTrustRelationship) : Prop :=
  tr_id b = tr_id a ∧ tr_trust_id b = tr_trust_id a ∧
  tr_source_organization_id b = tr_source_organization_id a ∧
  tr_target_organization_id b = tr_target_organization_id a.

Inductive trust_edge : TrustStatus → TrustStatus → Prop :=
  | edge_request st : st ≠ TrActive → st ≠ TrPending → trust_edge st TrPending
  | edge_accept : trust_edge TrPending TrActive
  | edge_reject : trust_edge TrPending TrRejected
  | edge_expire : trust_edge TrPending TrExpired
  | edge_revoke st : trust_edge st TrRevoked.

(** One step of a row while [acc] is the organization, if any, that is accepting. *)
Definition trust_step (acc : option uuid) (a b : OrganizationTrustRelationship) : Prop :=
  same_parties a b ∧ trust_edge (tr_status a) (tr_status b) ∧
  (tr_status b = TrActive → acc = Some (tr_target_organization_id a)).

Definition trust_table (t : tables) : gmap uuid OrganizationTrustRelationship := trusts (federation t).
Definition keyed_trusts (t : tables) : Prop := ∀ k tr, trust_table t !! k = Some tr → tr_id tr = k.

Definition row_step (acc : option uuid) (o o' : option OrganizationTrustRelationship) : Prop :=
  match o, o' with
  | Some a, Some b => rtc (trust_step acc) a b
  | None, Some b => ∃ a, tr_status a = TrPending ∧ rtc (trust_step acc) a b
  | None, None => True
  | Some _, None => False
  end.
#[export] Instance row_step_preorder acc : PreOrder (row_step acc).
Proof.
  split.
  - intros [a|]; simpl; [reflexivity | done].
  - intros [a|] [b|] [c|]; simpl; try done.
    + apply transitivity.
    + intros (a & Ha & Hab) Hbc. exists a. split; [done | by etrans].
Qed.

Definition trusts_step (acc : option uuid) (t t' : tables) : Prop :=
  keyed_trusts t → keyed_trusts t' ∧ ∀ k, row_step acc (trust_table t !! k) (trust_table t' !! k).
#[export] Instance trusts_step_preorder acc : PreOrder (trusts_step acc).
Proof.
  split.
  - intros t Hk. split; [done | reflexivity].
  - intros t1 t2 t3 H12 H23 Hk. destruct (H12 Hk) as [Hk2 S12]. destruct (H23 Hk2) as [Hk3 S23].
    split; [done | intros k; etrans; [apply S12 | apply S23]].
Qed.

(** Changes that do not touch the relationships. *)
Lemma trusts_same acc t t' : trust_table t' = trust_table t → trusts_step acc t t'.
Proof. intros He Hk. unfold keyed_trusts. rewrite He. split; [done | reflexivity]. Qed.

Lemma trusts_update acc t k tr tr' :
  trust_table t !! k = Some tr → trust_step acc tr tr' →
  trusts_step acc t (upd_trusts <[tr_id tr' := tr']> t).
Proof.
  intros Hk Hstep Hkey. pose proof (Hkey _ _ Hk) as Hid. pose proof Hstep as ((Hid' & _) & _).
  rewrite Hid', Hid. split.
  - intros j b. cbn. rewrite lookup_insert_Some. intros [[<- <-]|[_ Hb]]; [congruence | by apply Hkey].
  - intros j. cbn. destruct (decide (j = k)) as [->|Hne].
    + rewrite lookup_insert_eq. change (row_step acc (trust_table t !! k) (Some tr')). rewrite Hk. by apply rtc_once.
    + rewrite lookup_insert_ne; [reflexivity | congruence].
Qed.

Lemma trusts_add acc t tr :
  new_trust_ok tr t = true → tr_status tr = TrPending → trusts_step acc t (upd_trusts <[tr_id tr := tr]> t).
Proof.
  intros Hok Hst Hkey. unfold new_trust_ok in Hok. rewrite !andb_true_iff, negb_true_iff, is_some_false in Hok.
  destruct Hok as [[Hnew _] _]. split.
  - intros j b. cbn. rewrite lookup_insert_Some. intros [[<- <-]|[_ Hb]]; [done | by apply Hkey].
  - intros j. cbn. destruct (decide (j = tr_id tr)) as [->|Hne].
    + rewrite lookup_insert_eq. change (row_step acc (trust_table t !! tr_id tr) (Some tr)).
      unfold trust_table. rewrite Hnew. by exists tr.
    + rewrite lookup_insert_ne; [reflexivity | congruence].
Qed.

Section handlers.
Context `{Entropy} `{SecuritySinks}.
Context (Hsinks : ∀ acc, SinksRespect (trusts_step acc)).
Local Existing Instance Hsinks.

Lemma trust_event_step acc user ty org sev d det : respects (evolves (trusts_step acc)) (trust_event user ty org sev d det).
Proof. unfold trust_event. apply respects_bind; [apply _ | apply record_event_evolves; apply _ | intros e; walk]. Qed.
Local Hint Resolve trust_event_step : respects.

Ltac finish := first [ walk; fail | walk; (apply evolves_write + apply evolves_insert); [apply _ | intros; by apply trusts_same] ].
Ltac by_id Ht := unfold trust_by_id in Ht; apply scalar_Some in Ht as (? & Ht & _).

Lemma create_trust_step acc source target user expires :
  respects (evolves (trusts_step acc)) (create_trust_request source target user expires).
Proof.
  intros s. unfold create_trust_request. exec. destruct (eqb source target); [done|]. exec.
  destruct (negb _); [done|]. exec. destruct (scalar _ _) as [tr|] eqn:Ht.
  - apply scalar_Some in Ht as (k & Hk & _). exec. destruct (eqb _ TrActive) eqn:Ha; [done|]. exec.
    destruct (eqb _ TrPending) eqn:Hp; [done|]. reflect.
    apply evolves_insert_here; [apply _ | intros _ | finish].
    eapply trusts_update; [exact Hk|]. split_and!; try done. by constructor.
  - rewrite bind_fresh_uuid, bind_fresh_token, bind_now.
    match goal with |- evolves _ s (?p).2 => change (evolves (trusts_step acc) (next_seed (next_seed s)) (p).2) end.
    apply evolves_insert_here; [apply _ | intros Hok | finish]. by apply trusts_add.
Qed.

Lemma accept_trust_step trust_id user org :
  respects (evolves (trusts_step (Some org))) (accept_trust_request trust_id user org).
Proof.
  intros s. unfold accept_trust_request. rewrite bind_get_or. destruct (trust_by_id _ _) as [tr|] eqn:Ht; [|done].
  by_id Ht. exec. destruct (negb _) eqn:Horg; [done|]. exec. destruct (negb (eqb _ TrPending)) eqn:Hst; [done|]. exec.
  reflect. destruct (past _ _); (apply evolves_insert_here; [apply _ | intros _ | finish]);
    (eapply trusts_update; [exact Ht|]; split_and!; simpl; try done; rewrite ?Hst; try constructor; congruence).
Qed.

Lemma reject_step acc trust_id user org reason :
  respects (evolves (trusts_step acc)) (reject_trust_request trust_id user org reason).
Proof.
  intros s. unfold reject_trust_request. rewrite bind_get_or. destruct (trust_by_id _ _) as [tr|] eqn:Ht; [|done].
  by_id Ht. exec. destruct (negb _) eqn:Horg; [done|]. exec. destruct (negb (eqb _ TrPending)) eqn:Hst; [done|]. exec.
  reflect. apply evolves_insert_here; [apply _ | intros _ | finish].
  eapply trusts_update; [exact Ht|]. split_and!; simpl; try done. rewrite Hst. constructor.
Qed.

Lemma revoke_trust_step acc trust_id user org reason :
  respects (evolves (trusts_step acc)) (revoke_trust_relationship trust_id user org reason).
Proof.
  intros s. unfold revoke_trust_relationship. rewrite bind_get_or. destruct (trust_by_id _ _) as [tr|] eqn:Ht; [|done].
  by_id Ht. exec. destruct (negb _) eqn:Horg; [done|]. exec.
  apply evolves_insert_here; [apply _ | intros _ | finish].
  eapply trusts_update; [exact Ht|]. split_and!; simpl; try done. constructor.
Qed.

Lemma other_steps acc :
  (∀ id user org p, respects (evolves (trusts_step acc)) (update_trust_policy id user org p)) ∧
  (∀ id p user org, respects (evolves (trusts_step acc)) (create_agent_connection id p user org)) ∧
  (∀ id c user org r, respects (evolves (trusts_step acc)) (revoke_agent_connection id c user org r)) ∧
  (∀ org user p, respects (evolves (trusts_step acc)) (update_public_profile org user p)) ∧
  (∀ org, respects (evolves (trusts_step acc)) (get_target_policy org)) ∧
  (∀ org user p, respects (evolves (trusts_step acc)) (update_target_policy org user p)).
Proof.
  split_and!; intros; unfold update_trust_policy, create_agent_connection, revoke_agent_connection,
    update_public_profile, get_public_profile, update_target_policy, get_target_policy, get_trust_relationship,
    save_connection, add_connection;
    walk; (apply evolves_write + apply evolves_insert); try apply _; intros; by apply trusts_same.
Qed.

(** ** Sequences of requests *)

Inductive trust_request : Type :=
  | RequestTrust (target : uuid) (expires_at : option time)
  | AcceptTrust (trust_id : string)
  | RejectTrust (trust_id reason : string)
  | RevokeTrust (trust_id reason : string)
  | SetPolicy (trust_id : string) (payload : TrustPolicyUpdate)
  | ConnectAgents (trust_id : string) (payload : ExternalAgentConnectionCreate)
  | DisconnectAgents (trust_id connection_id reason : string)
  | EditProfile (org : uuid) (payload : OrganizationPublicProfileUpdate)
  | ReadInbound (org : uuid)
  | EditInbound (org : uuid) (payload : TargetOrganizationPolicyUpdate).

Definition serve (w : WorkspaceContext) (r : trust_request) : DB unit :=
  match r with
  | RequestTrust target expires => request_trust w target expires ;; mret tt
  | AcceptTrust id => accept_trust w id ;; mret tt
  | RejectTrust id reason => reject_trust w id reason ;; mret tt
  | RevokeTrust id reason => revoke_trust w id reason ;; mret tt
  | SetPolicy id p => set_policy w id p ;; mret tt
  | ConnectAgents id p => connect_agents w id p ;; mret tt
  | DisconnectAgents id c reason => disconnect_agents w id c reason ;; mret tt
  | EditProfile org p => edit_public_profile w org p ;; mret tt
  | ReadInbound org => read_target_policy w org ;; mret tt
  | EditInbound org p => edit_target_policy w org p ;; mret tt
  end.

(** A request with its caller, the organization of its header, the time and the
    state of the random source. *)
Record incoming : Type := MkIncoming {
  in_draws : nat;
  in_now : time;
  in_caller : caller;
  in_header : option uuid;
  in_request : trust_request
}.
Definition handle_trust (t : tables) (i : incoming) : tables :=
  (run_request (w ← get_workspace_context (in_caller i) (in_header i); serve w (in_request i))
    t (in_draws i) (in_now i)).2.
Definition trust_trace (t : tables) (rs : list incoming) : tables := fold_left handle_trust rs t.

(** The organization for which [i] accepts trust requests: its caller must act as the
    owner of that organization. *)
Definition accepting (t : tables) (i : incoming) : option uuid :=
  match in_request i, resolve_workspace (cl_user (in_caller i)) (in_header i) t with
  | AcceptTrust _, Some w => if can w "manage_organization" then wc_organization_id w else None
  | _, _ => None
  end.

Lemma accepting_owner t i org : accepting t i = Some org →
  ∃ trust_id w, in_request i = AcceptTrust trust_id ∧
    resolve_workspace (cl_user (in_caller i)) (Some org) t = Some w ∧ wc_role w = OWNER.
Proof.
  unfold accepting. destruct (in_request i) as [| trust_id | | | | | | | |]; try done.
  destruct (resolve_workspace _ _ t) as [w|] eqn:Hw; [|done].
  destruct (can w _) eqn:Hcan; [|done]. intros Horg. exists trust_id, w. split; [done|].
  destruct (in_header i) as [h|] eqn:Hh.
  - pose proof (resolve_sound _ _ _ _ Hw) as (_ & Hworg & _). rewrite Hworg in Horg. injection Horg as <-.
    split; [done|]. unfold can, is_personal in Hcan. rewrite Hworg in Hcan. destruct (wc_role w); [done | | |];
      vm_compute in Hcan; discriminate.
  - cbn in Hw. injection Hw as <-. done.
Qed.

Definition acc_of (w : WorkspaceContext) (r : trust_request) : option uuid :=
  match r with
  | AcceptTrust _ => if can w "manage_organization" then wc_organization_id w else None
  | _ => None
  end.

Lemma with_organization_step {A} acc w cap (k : uuid → DB A) :
  (∀ org, respects (evolves (trusts_step acc)) (k org)) → respects (evolves (trusts_step acc)) (with_organization w cap k).
Proof.
  intros Hk. unfold with_organization, require. destruct (wc_organization_id w); [|walk].
  apply respects_bind; [apply _ | walk | intros; apply Hk].
Qed.

Lemma serve_step w r : respects (evolves (trusts_step (acc_of w r))) (serve w r).
Proof.
  destruct (other_steps (acc_of w r)) as (Hpol & Hcon & Hdis & Hprof & Hget & Hin).
  destruct r; cbn [serve]; unfold request_trust, accept_trust, reject_trust, revoke_trust, set_policy, connect_agents,
    disconnect_agents, edit_public_profile, read_target_policy, edit_target_policy, for_own, require.
  2: { cbn [acc_of]. unfold with_organization, require. destruct (wc_organization_id w) as [org|]; [|walk].
       destruct (can w "manage_organization"); [|by intros s]. cbn [negb raise_if].
       apply respects_bind; [apply _ | | intros; walk]. apply respects_bind; [apply _ | walk | intros; apply accept_trust_step]. }
  all: apply respects_bind; [apply _ | | intros; walk].
  - apply with_organization_step; intros org; apply create_trust_step.
  - apply with_organization_step; intros org; apply reject_step.
  - apply with_organization_step; intros org; apply revoke_trust_step.
  - apply with_organization_step; intros org; apply Hpol.
  - apply with_organization_step; intros org; apply Hcon.
  - apply with_organization_step; intros org; apply Hdis.
  - apply respects_bind; [apply _ | walk | intros _]. apply respects_bind; [apply _ | walk | intros _]. apply Hprof.
  - apply respects_bind; [apply _ | walk | intros _]. apply respects_bind; [apply _ | walk | intros _]. apply Hget.
  - apply respects_bind; [apply _ | walk | intros _]. apply respects_bind; [apply _ | walk | intros _]. apply Hin.
Qed.

Lemma handle_step t i : trusts_step (accepting t i) t (handle_trust t i).
Proof.
  unfold handle_trust, run_request. rewrite bind_run.
  pose proof (get_workspace_evolves (trusts_step (accepting t i)) (in_caller i) (in_header i)
    (λ f u, trusts_same _ u (upd_sessions f u) eq_refl) (open_session t (in_draws i) (in_now i))) as Hw.
  destruct (get_workspace_context _ _ _) as [[w|e] s1] eqn:Hrun; simpl in Hw.
  - apply get_workspace_resolved in Hrun.
    assert (Hacc : accepting t i = acc_of w (in_request i)).
    { unfold accepting. simpl in Hrun. rewrite Hrun. by destruct (in_request i). }
    pose proof (serve_step w (in_request i) s1) as Hs. rewrite <- Hacc in Hs.
    destruct (serve w (in_request i) s1) as [r s2]. simpl in *.
    destruct (Hw (reflexivity _)) as [H1 H2]. destruct Hs as [H3 _]; [exact H2|]. etrans; [exact H1|].
    exact H3.
  - by apply Hw.
Qed.

Lemma row_step_kept acc o a : row_step acc (Some a) o → ∃ b, o = Some b ∧ rtc (trust_step acc) a b.
Proof. destruct o as [b|]; [|done]. by exists b. Qed.

Lemma steps_parties acc a b : rtc (trust_step acc) a b → same_parties a b.
Proof.
  induction 1 as [a | a b c (Hab & _) _ IH]; [done|].
  destruct Hab as (? & ? & ? & ?), IH as (? & ? & ? & ?). split_and!; congruence.
Qed.
Lemma steps_activate acc a b : rtc (trust_step acc) a b → tr_status a ≠ TrActive → tr_status b = TrActive →
  acc = Some (tr_target_organization_id b).
Proof.
  intros Hab. induction Hab as [a | a b c (Hp & Hedge & Hact) Hbc IH]; intros Ha Hc; [done|].
  destruct (decide (tr_status b = TrActive)) as [Hb|Hb]; [|by apply IH].
  rewrite (Hact Hb). destruct (steps_parties _ _ _ Hbc) as (_ & _ & _ & ->). by destruct Hp as (_ & _ & _ & ->).
Qed.

Lemma trace_keyed t rs : keyed_trusts t → keyed_trusts (trust_trace t rs).
Proof.
  revert t. induction rs as [|i rs IH]; intros t Hk; [done|]. apply IH. by apply (handle_step t i Hk).
Qed.


(** One request moves a relationship along the edges of the state
    machine only: what was rejected, revoked or expired has to be requested and
    accepted anew. *)
Theorem trust_follows_machine t i k a b :
  keyed_trusts t → trust_table t !! k = Some a → trust_table (handle_trust t i) !! k = Some b →
  rtc trust_edge (tr_status a) (tr_status b).
Proof.
  intros Hkey Ha Hb. destruct (handle_step t i Hkey) as [_ Hstep]. specialize (Hstep k).
  rewrite Ha, Hb in Hstep. simpl in Hstep. clear Ha Hb.
  induction Hstep as [a | a b c (_ & Hedge & _) _ IH]; [done|]. by eapply rtc_l.
Qed.

(** ** Revocation *)

(** What the record of the event leaves alone. *)
Definition same_federation (t t' : tables) : Prop := federation t' = federation t.
#[export] Instance same_federation_preorder : PreOrder same_federation.
Proof. split; [by intros t | intros t1 t2 t3; unfold same_federation; congruence]. Qed.

Context (Hfed : SinksRespect same_federation).

(** A revocation by either party leaves the relationship revoked and no
    connection of it active, whatever becomes of the event about it; every other
    relationship is as before, and so are the connections of the others. *)
Theorem revocation_complete trust_id user org reason tr k s :
  dead s = false → committed s = cur s → keyed_trusts (cur s) →
  trust_by_id trust_id (cur s) = Some tr → trust_table (cur s) !! k = Some tr →
  (tr_source_organization_id tr = org ∨ tr_target_organization_id tr = org) → fits 255 reason = true →
  let t' := committed (revoke_trust_relationship trust_id user org reason s).2 in
  (∃ tr', trust_table t' !! k = Some tr' ∧ tr_status tr' = TrRevoked ∧ ∀ at_, trust_is_usable tr' at_ = false) ∧
  (∀ j c, connections (federation t') !! j = Some c → ec_trust_relationship_id c = tr_id tr →
    ∀ at_, connection_is_usable c at_ = false) ∧
  (∀ j, j ≠ k → trust_table t' !! j = trust_table (cur s) !! j) ∧
  (∀ j c, connections (federation (cur s)) !! j = Some c → ec_trust_relationship_id c ≠ tr_id tr →
    connections (federation t') !! j = Some c).
Proof.
  intros Hd Hc Hkey Hid Hk Hparty Hfit. pose proof (Hkey _ _ Hk) as Htr. destruct s as [c cm d n now]. simpl in *. subst d cm.
  unfold revoke_trust_relationship. rewrite bind_get_or. simpl. rewrite Hid. exec.
  assert (Hp : party org tr = true) by (unfold party; rewrite orb_true_iff, !eqb_true; naive_solver).
  rewrite Hp. exec. unfold save_trust. exec. cbn [tr_revocation_reason set_trust opt_check]. rewrite Hfit. cbv zeta. cbn [negb].
  lazymatch goal with |- context [committed (snd (?m ?s1))] => set (f1 := federation (committed s1));
    assert (Hrest : federation (committed (m s1).2) = f1) end.
  { apply (evolves_committed same_federation); [|done]. apply respects_bind; [apply _ | | intros; walk].
    unfold trust_event. apply respects_bind; [apply _ | apply record_event_evolves; apply _ | intros; walk]. }
  unfold trust_table. rewrite Hrest. subst f1. cbn -[update_where]. rewrite Htr. split_and!.
  - eexists. rewrite lookup_insert_eq. split; [reflexivity|]. done.
  - intros j c' Hj Hunder at_. rewrite lookup_update_where in Hj.
    destruct (connections (federation c) !! j) as [c0|]; [|done]. simpl in Hj.
    destruct (live_under k c0) eqn:Hl; injection Hj as <-; [done|].
    unfold live_under in Hl. rewrite Hunder, eqb_refl in Hl. simpl in Hl.
    unfold connection_is_usable. by rewrite Hl.
  - intros j Hne. by rewrite lookup_insert_ne.
  - intros j c' Hj Hne. rewrite lookup_update_where, Hj. simpl. unfold live_under.
    by rewrite (proj2 (eqb_false _ _) Hne).
Qed.
End handlers.

(** ** Witnesses *)

Local Existing Instance SocProps.no_services.
Local Existing Instance SocProps.no_ambient.
Local Existing Instance Siem.soc_sinks.

Lemma trusts_sinks acc : SinksRespect (trusts_step acc).
Proof. apply Siem.soc_sinks_respect; [apply _ | |]; intros f t; by apply trusts_same. Defined.
Lemma federation_sinks : SinksRespect same_federation.
Proof. apply Siem.soc_sinks_respect; [apply _ | |]; by intros f t. Defined.

(** Two organizations and their owners. *)
Definition sample_organization (id owner : uuid) : Organization :=
  MkOrganization id 0 ("Org " +:+ str_of_nat (N.to_nat id)) owner true "APPROVED".
Definition two_organizations : tables :=
  upd_identity (on_organizations (λ _, keyed og_id [sample_organization 50 9; sample_organization 60 8])) empty_tables.
Definition by_user (user org : uuid) (n : nat) (now : time) (r : trust_request) : incoming :=
  MkIncoming n now (MkCaller user None now None) (Some org) r.
(** The owner of 50 asks, tries to accept for the other side, and the owner of 60 accepts. *)
Definition handshake : list incoming :=
  [by_user 9 50 0 second (RequestTrust 60 None);
   by_user 9 50 10 (2 * second) (AcceptTrust "trust_tok1");
   by_user 8 60 20 (3 * second) (AcceptTrust "trust_tok1")].
Definition after_handshake : tables := trust_trace two_organizations handshake.

Lemma no_trusts : keyed_trusts two_organizations.
Proof. intros k tr Hk. vm_compute in Hk. destruct k; discriminate. Qed.


Lemma trust_follows_machine_witness :
  rtc trust_edge TrPending TrActive.
Proof.
  assert (Ha : is_Some (trust_table (trust_trace two_organizations (take 1 handshake)) !! 1000%N)) by (vm_compute; eexists; reflexivity).
  destruct Ha as [a Ha].
  assert (Hb : is_Some (trust_table (handle_trust (trust_trace two_organizations (take 1 handshake)) (by_user 8 60 20 (3 * second) (AcceptTrust "trust_tok1"))) !! 1000%N))
    by (vm_compute; eexists; reflexivity).
  destruct Hb as [b Hb].
  pose proof (trust_follows_machine trusts_sinks _ _ 1000 a b (trace_keyed trusts_sinks _ (take 1 handshake) no_trusts) Ha Hb) as Hr.
  vm_compute in Ha, Hb. injection Ha as <-. injection Hb as <-. exact Hr.
Defined.

(** Agents of both sides are connected; the source organization revokes. *)
Definition sample_trust (id source target : uuid) : OrganizationTrustRelationship :=
  MkTrust id ("trust_" +:+ str_of_nat (N.to_nat id)) source target TrActive 9 (Some 8%N) 0 (Some 0) None None None.
Definition sample_connection (id trust : uuid) : ExternalAgentConnection :=
  MkConnection id ("eac_" +:+ str_of_nat (N.to_nat id)) trust 1 2 "ACTIVE" 0 None None None.
Definition connected : tables :=
  upd_trusts (λ _, keyed tr_id [sample_trust 70 50 60; sample_trust 71 60 50])
    (upd_connections (λ _, keyed ec_id [sample_connection 7 70; sample_connection 8 71]) two_organizations).
Lemma connected_keyed : keyed_trusts connected.
Proof. intros k tr Hk. by apply keyed_lookup in Hk as [? _]. Qed.

Lemma revocation_complete_witness :
  let t' := committed (revoke_trust_relationship "trust_70" 9 50 "No longer partners" (open_session connected 40 hour)).2 in
  (∀ j c, connections (federation t') !! j = Some c → ec_trust_relationship_id c = 70%N →
    ∀ at_, connection_is_usable c at_ = false) ∧
  option_map ec_status (connections (federation t') !! 7%N) = Some "REVOKED" ∧
  option_map ec_status (connections (federation t') !! 8%N) = Some "ACTIVE".
Proof.
  split; [|split; vm_compute; reflexivity].
  apply (revocation_complete federation_sinks "trust_70" 9 50 "No longer partners" (sample_trust 70 50 60) 70
    (open_session connected 40 hour) eq_refl eq_refl connected_keyed);
    [vm_compute; reflexivity | vm_compute; reflexivity | left; reflexivity | reflexivity].
Defined.

End TrustProps.
