(* ===== verification/Signing.v ===== *)
(** Signed requests of agents ([backend/app/services/agent_signing.py] and the
    handlers of [api/agent_signing.py]): registration, rotation and revocation of
    signing keys, the verification of a signature and the protection against replay.

    Ed25519 is a parameter, as are the answers of Redis and the draw that decides on
    a purge of the nonces; the clock of the process is read as that of the database. *)
From Stdlib Require Import Ascii.
From S2P Require Import Prelude.
From S2P Require Import PyStr.
From S2P Require Import PyFloat.
From S2P Require Import PyVal.
From S2P Require Import PyDecimal.
From S2P Require Import AplParser.
From S2P Require Import Models.
From S2P Require Import PyTime.
From S2P Require Import PyCodec.
From S2P Require Import Canonical.
From S2P Require Import Store.
From S2P Require Import SecurityEvents.
From S2P Require Import Workspace.

Local Open Scope string_scope.
Local Open Scope Z_scope.

(** [Ed25519PublicKey.from_public_bytes] accepts the bytes, and [verify] does not raise. *)
Class Ed25519 : Type := {
  ed25519_key : string → bool;
  ed25519_verify : string → string → string → bool
}.

Module Signing.
Import SecurityEvents Workspace Canonical.

Record signing_settings : Type := MkSigningSettings {
  agent_max_active_signing_keys : Z;
  agent_signature_clock_window_seconds : Z
}.

Definition upd_signing_keys f : tables → tables := upd_identity (on_signing_keys f).
Definition upd_nonces f : tables → tables := upd_identity (on_nonces f).
Definition key_table (t : tables) : gmap uuid AgentSigningKey := signing_keys (identity t).
Definition nonce_list (t : tables) : list AgentRequestNonce := nonces (identity t).

Definition set_key (st : AgentSigningKeyStatus) (revoked used : option time) (k : AgentSigningKey) : AgentSigningKey :=
  MkSigningKey (sk_id k) (sk_key_id k) (sk_agent_id k) (sk_organization_id k) (sk_algorithm k) (sk_public_key k)
    (sk_fingerprint k) st (sk_created_at k) (sk_activated_at k) (sk_expires_at k) revoked (sk_rotated_from_key_id k) used.
Definition set_key_status (st : AgentSigningKeyStatus) (k : AgentSigningKey) : AgentSigningKey :=
  set_key st (sk_revoked_at k) (sk_last_used_at k) k.
Definition set_key_used (now : time) (k : AgentSigningKey) : AgentSigningKey :=
  set_key (sk_status k) (sk_revoked_at k) (Some now) k.
Definition set_key_revoked (now : time) (k : AgentSigningKey) : AgentSigningKey :=
  set_key SkRevoked (Some now) (sk_last_used_at k) k.

Definition expired_at (o : option time) (now : time) : bool := match o with Some e => e <=? now | None => false end.
Definition in_use (k : AgentSigningKey) : bool := eqb (sk_status k) SkActive || eqb (sk_status k) SkRotating.
(** The keys that count against the limit of an agent. *)
Definition counted (agent : uuid) (now : time) (k : AgentSigningKey) : bool :=
  eqb (sk_agent_id k) agent && in_use k && negb (expired_at (sk_expires_at k) now).
Definition count_keys (agent : uuid) (now : time) (t : tables) : Z :=
  Z.of_nat (length (select_rows (counted agent now) (key_table t))).

Section signing.
Context `{Entropy} `{Loaders} `{Ed25519}.

Definition decode_public_key (value : string) : result Exc string :=
  match b64decode value with
  | Some raw =>
      if (String.length raw =? 32)%nat && eqb (b64encode raw) value && ed25519_key raw then Ok raw
      else Err (SigningError "INVALID_PUBLIC_KEY" 422)
  | None => Err (SigningError "INVALID_PUBLIC_KEY" 422)
  end.
Definition fingerprint (raw : string) : string := sha256_hex raw.

(** ** Keys *)

Record SigningKeyCreate : Type := MkKeyCreate { kc_public_key : string; kc_expires_at : option time }.

Definition new_key_ok (k : AgentSigningKey) (t : tables) : bool :=
  let taken k' := eqb (sk_key_id k') (sk_key_id k) || eqb (sk_fingerprint k') (sk_fingerprint k) in
  negb (is_some (key_table t !! sk_id k)) && negb (is_some (scalar taken (key_table t))).

Definition register_key (agent : Agent) (payload : SigningKeyCreate) (settings : signing_settings)
    (rotated_from : option AgentSigningKey) : DB AgentSigningKey :=
  locked ← query (λ t, agents t !! ag_id agent);
  raise_if (match locked with Some a => eqb (AgentStatus_value (ag_status a)) "revoked" | None => true end)
    (SigningError "AGENT_NOT_AVAILABLE" 409) ;;
  now ← now_db;
  count ← query (count_keys (ag_id agent) now);
  raise_if (agent_max_active_signing_keys settings <=? count) (SigningError "ACTIVE_KEY_LIMIT_REACHED" 409) ;;
  raw ← lift_result (decode_public_key (kc_public_key payload));
  let digest := fingerprint raw in
  known ← query (λ t, scalar (λ k, eqb (sk_fingerprint k) digest) (key_table t));
  raise_if (is_some known) (SigningError "PUBLIC_KEY_ALREADY_REGISTERED" 409) ;;
  token ← fresh_token;
  id ← fresh_uuid;
  let key := MkSigningKey id ("key_ag_" +:+ token) (ag_id agent) (ag_organization_id agent) "Ed25519" (b64encode raw)
    digest SkActive now now (kc_expires_at payload) None (option_map sk_key_id rotated_from) None in
  try_except
    (insert_checked (new_key_ok key) (upd_signing_keys <[sk_id key := key]>) ;;
     match rotated_from with
     | Some old => write (upd_signing_keys (alter (set_key_status SkRotating) (sk_id old)))
     | None => mret tt
     end ;;
     commit)
    (λ e, if eqb e IntegrityError then rollback ;; throw (SigningError "PUBLIC_KEY_ALREADY_REGISTERED" 409) else throw e) ;;
  mret key.

Definition revoke_key (key : AgentSigningKey) : DB AgentSigningKey :=
  locked ← get_or (λ t, key_table t !! sk_id key) (SigningError "SIGNING_KEY_NOT_FOUND" 404);
  if negb (eqb (sk_status locked) SkRevoked) then
    now ← now_db;
    write (upd_signing_keys (alter (set_key_revoked now) (sk_id locked))) ;;
    commit ;;
    mret (set_key_revoked now locked)
  else mret locked.

(** ** Replay protection *)

(** What Redis answers to [set(.., nx=True, ex=ttl)], and whether the draw starts a purge. *)
Inductive redis_answer : Type := NoRedisUrl | NoRedisClient | RedisFails | RedisSet (accepted : bool).
Record replay_env : Type := MkReplay { re_redis : redis_answer; re_purge : bool }.

Definition replay_unavailable : Exc := SigningError "REPLAY_PROTECTION_UNAVAILABLE" 503.
Definition replay_detected : Exc := SigningError "REPLAY_DETECTED" 409.
Definition nonce_digest (key_id nonce : string) : string := sha256_hex (key_id +:+ ":" +:+ nonce).
Definition nonce_ttl (settings : signing_settings) : time :=
  (2 * agent_signature_clock_window_seconds settings + 30) * second.
Definition live_nonce (now : time) (n : AgentRequestNonce) : bool := negb (no_expires_at n <=? now).
Definition known_nonce (key_id digest : string) (t : tables) : bool :=
  existsb (λ n, eqb (no_key_id n) key_id && eqb (no_nonce_hash n) digest) (nonce_list t).

Definition new_nonce (id : uuid) (t : tables) : bool := negb (existsb (λ n, eqb (no_id n) id) (nonce_list t)).

(** The database part: the authoritative guard. *)
Definition record_nonce (purge : bool) (settings : signing_settings) (key_id nonce : string) (now : time) : DB unit :=
  let digest := nonce_digest key_id nonce in
  known ← try_except
    ((if purge then write (upd_nonces (select_where (live_nonce now))) else mret tt) ;;
     id ← fresh_uuid;
     known ← query (known_nonce key_id digest);
     (if known : bool then mret tt
      else insert_checked (new_nonce id)
             (upd_nonces (λ l, (l ++ [MkNonce id key_id digest (now + nonce_ttl settings)])%list))) ;;
     commit ;;
     mret known)
    (λ _, rollback ;; throw replay_unavailable);
  raise_if known replay_detected.

Definition _accept_nonce (env : replay_env) (settings : signing_settings) (key_id nonce : string) (now : time) : DB unit :=
  raise_if (match re_redis env with NoRedisClient | RedisFails => true | _ => false end) replay_unavailable ;;
  raise_if (match re_redis env with RedisSet a => negb a | _ => false end) replay_detected ;;
  record_nonce (re_purge env) settings key_id nonce now.

(** The oldest [batch_size] expired records are deleted. *)
Definition nonce_older (a b : AgentRequestNonce) : Prop := no_expires_at a <= no_expires_at b.
#[export] Instance nonce_older_dec : RelDecision nonce_older.
Proof. intros a b. unfold nonce_older. apply _. Defined.
Definition cleanup_batch (checked_at : time) (batch_size : nat) (t : tables) : list uuid :=
  map no_id (take batch_size (merge_sort nonce_older (select_where (λ n, no_expires_at n <=? checked_at) (nonce_list t)))).
Definition cleanup_expired_nonces (batch_size : nat) : DB nat :=
  checked_at ← now_db;
  ids ← query (cleanup_batch checked_at batch_size);
  (if (0 <? length ids)%nat then
     write (upd_nonces (select_where (λ n, negb (existsb (eqb (no_id n)) ids)))) ;;
     commit
   else mret tt) ;;
  mret (length ids).

(** ** Verification *)

Definition SIGNED_HEADERS : list string :=
  ["X-Agent-ID"; "X-Agent-Key-ID"; "X-Agent-Timestamp"; "X-Agent-Nonce"; "X-Agent-Signature"; "X-Agent-Signature-Version"].
Fixpoint all_hex (s : string) : bool :=
  match s with "" => true | String c s => (in_range 48 57 c || in_range 97 102 c) && all_hex s end.
Definition hex_after (prefix : string) (n : nat) (s : string) : bool :=
  match strip_prefix prefix s with Some r => (String.length r =? n)%nat && all_hex r | None => false end.
Definition KEY_ID_PATTERN : string → bool := hex_after "key_ag_" 24.
Definition NONCE_PATTERN : string → bool := hex_after "nonce_" 32.
Definition TIMESTAMP_PATTERN (s : string) : bool := is_some (timestamp_fields s).

Definition invalid_signature : Exc := SigningError "INVALID_AGENT_SIGNATURE" 401.
Definition timestamp_invalid : Exc := SigningError "REQUEST_TIMESTAMP_INVALID" 401.

(** The values of the six headers; [None] when one is missing or too long. *)
Record signed_headers : Type := MkHeaders {
  sh_agent : string;
  sh_key_id : string;
  sh_timestamp : string;
  sh_nonce : string;
  sh_signature : string;
  sh_version : string
}.
Definition header_values (headers : string → option string) : option signed_headers :=
  match map headers SIGNED_HEADERS with
  | [Some a; Some k; Some t; Some n; Some s; Some v] =>
      if forallb (fits 200) [a; k; t; n; s; v] then Some (MkHeaders a k t n s v) else None
  | _ => None
  end.

(** A signature of 64 bytes that verifies under the stored key. *)
Definition signature_valid (key : AgentSigningKey) (signature text : string) : bool :=
  match b64decode signature, b64decode (sk_public_key key) with
  | Some sig, Some raw => (String.length sig =? 64)%nat && ed25519_key raw && ed25519_verify raw sig text
  | _, _ => false
  end.

(** From the version of the headers to the use of the nonce: the part both versions share. *)
Definition check_signed (env : replay_env) (settings : signing_settings) (version expected_agent : string) (agent : uuid)
    (org : option uuid) (text : signed_headers → string) (h : signed_headers) : DB string :=
  raise_if (negb (eqb (sh_version h) version)) (SigningError "UNKNOWN_AGENT_SIGNATURE_VERSION" 401) ;;
  raise_if (negb (eqb (sh_agent h) expected_agent) || negb (KEY_ID_PATTERN (sh_key_id h)) || negb (NONCE_PATTERN (sh_nonce h)))
    invalid_signature ;;
  raise_if (negb (TIMESTAMP_PATTERN (sh_timestamp h))) timestamp_invalid ;;
  signed_at ← lift_result (match strptime_z (sh_timestamp h) with Some t => Ok t | None => Err timestamp_invalid end);
  now ← now_db;
  raise_if (agent_signature_clock_window_seconds settings * second <? Z.abs (now - signed_at)) timestamp_invalid ;;
  key ← get_or (λ t, scalar (λ k, eqb (sk_key_id k) (sh_key_id h)) (key_table t)) invalid_signature;
  raise_if (negb (eqb (sk_agent_id key) agent) || negb (eqb (sk_organization_id key) org)) invalid_signature ;;
  raise_if (eqb (sk_status key) SkRevoked) (SigningError "SIGNING_KEY_REVOKED" 401) ;;
  raise_if (eqb (sk_status key) SkExpired || expired_at (sk_expires_at key) now) (SigningError "SIGNING_KEY_EXPIRED" 401) ;;
  raise_if (negb (in_use key) || negb (eqb (sk_algorithm key) "Ed25519")) invalid_signature ;;
  raise_if (negb (signature_valid key (sh_signature h) (text h))) invalid_signature ;;
  _accept_nonce env settings (sh_key_id h) (sh_nonce h) now ;;
  write (upd_signing_keys (alter (set_key_used now) (sk_id key))) ;;
  commit ;;
  mret (sh_key_id h).

(** A header that occurs twice among the raw ones. *)
Fixpoint repeated (seen raw : list string) : bool :=
  match raw with
  | [] => false
  | n :: raw =>
      let lower := py_lower n in
      if existsb (λ s, eqb (py_lower s) lower) SIGNED_HEADERS
      then existsb (eqb lower) seen || repeated (lower :: seen) raw
      else repeated seen raw
  end.

(** The principal is the organization of the API key and the user who created it. *)
Definition verify_request (principal_org : option uuid) (principal_user : uuid) (settings : signing_settings)
    (env : replay_env) (agent_id : string) (headers : string → option string) (body method path : string)
    (raw_headers : list string) : DB (option string) :=
  raise_if (repeated [] raw_headers) invalid_signature ;;
  agent ← query (λ t, scalar (λ a, eqb (ag_identifier a) agent_id) (agents t));
  let supplied := existsb (λ n, is_some (headers n)) SIGNED_HEADERS in
  let foreign := match agent with
    | Some a => negb (eqb (ag_organization_id a) principal_org) ||
                eqb (ag_organization_id a) None && negb (eqb (ag_owner_id a) principal_user)
    | None => false end in
  if foreign then (if supplied then throw invalid_signature else mret None)
  else
    has_key ← query (λ t, match agent with
      | Some a => is_some (scalar (λ k, eqb (sk_agent_id k) (ag_id a)) (key_table t)) | None => false end);
    match agent, (has_key : bool), supplied with
    | _, false, false => mret None
    | _, true, false => throw (SigningError "AGENT_SIGNATURE_REQUIRED" 401)
    | Some a, true, true =>
        match header_values headers with
        | None => throw invalid_signature
        | Some h =>
            key_id ← check_signed env settings SIGNATURE_VERSION agent_id (ag_id a) (ag_organization_id a)
              (λ h, canonical_request method path agent_id (sh_key_id h) (sh_timestamp h) (sh_nonce h) body) h;
            mret (Some key_id)
        end
    | _, _, _ => throw invalid_signature
    end.

Definition verify_cross_org_request_v2 (settings : signing_settings) (env : replay_env) (source_agent target_agent : Agent)
    (source_org_id target_org_id : uuid) (headers : string → option string) (body method path : string) : DB string :=
  match header_values headers with
  | None => throw (SigningError "AGENT_SIGNATURE_REQUIRED" 401)
  | Some h =>
      check_signed env settings SIGNATURE_VERSION_V2 (ag_identifier source_agent) (ag_id source_agent)
        (ag_organization_id source_agent)
        (λ h, canonical_cross_org_request_v2 method path (uuid_str source_org_id) (uuid_str target_org_id)
           (ag_identifier source_agent) (ag_identifier target_agent) (sh_key_id h) (sh_timestamp h) (sh_nonce h) body) h
  end.

(** ** Handlers *)

Context `{SecuritySinks}.

(** [require_recent_step_up] *)
Definition require_recent_step_up (cl : caller) : DB unit :=
  now ← now_db;
  raise_if (match cl_session cl with
            | Some s => match as_step_up_at s with Some at_ => at_ <? now - 5 * minute | None => true end
            | None => true
            end) (HTTPException 403 "Please verify your identity again").

Definition _agent (agent_id : uuid) (w : WorkspaceContext) (write_ : bool) : DB Agent :=
  require w (if write_ then "manage_keys" else "read") ;;
  get_or (λ t,
    match agents t !! agent_id with
    | Some a =>
        if eqb (ag_organization_id a) (wc_organization_id w) &&
           (negb (is_personal w || write_ && eqb (wc_role w) DEVELOPER) || eqb (ag_owner_id a) (wc_user_id w))
        then Some a else None
    | None => None
    end) (HTTPException 404 "Agent not found").

Definition _key (agent : Agent) (key_id : string) : DB AgentSigningKey :=
  get_or (λ t, scalar (λ k, eqb (sk_key_id k) key_id && eqb (sk_agent_id k) (ag_id agent) &&
    eqb (sk_organization_id k) (ag_organization_id agent)) (key_table t)) (HTTPException 404 "Signing key not found").

(** Listing marks the keys that have expired. *)
Definition lapsed (agent : uuid) (now : time) (k : AgentSigningKey) : bool :=
  eqb (sk_agent_id k) agent && in_use k && expired_at (sk_expires_at k) now.
Definition list_keys (agent_id : uuid) (w : WorkspaceContext) : DB (list AgentSigningKey) :=
  agent ← _agent agent_id w false;
  now ← now_db;
  found ← query (λ t, select_rows (lapsed (ag_id agent) now) (key_table t));
  (if (0 <? length found)%nat then
     write (upd_signing_keys (update_where (lapsed (ag_id agent) now) (set_key_status SkExpired))) ;;
     commit
   else mret tt) ;;
  query (λ t, order_desc sk_created_at sk_id (select_rows (λ k, eqb (sk_agent_id k) (ag_id agent)) (key_table t))).

(** A [SigningError] is answered as an [HTTPException] with the same status. *)
Definition as_http {A} (m : DB A) : DB A :=
  try_except m (λ e, match e with SigningError code status => throw (HTTPException status code) | e => throw e end).
Definition key_event (w : WorkspaceContext) (agent : Agent) (event_type description severity : string)
    (details : list (string * pyval)) : DB unit :=
  record_event (event_args event_type (Some (wc_user_id w)) (ag_organization_id agent) None (Some description) severity
    details) true ;; mret tt.

Definition add_key (cl : caller) (agent_id : uuid) (payload : SigningKeyCreate) (w : WorkspaceContext)
    (settings : signing_settings) : DB AgentSigningKey :=
  agent ← _agent agent_id w true;
  require_recent_step_up cl ;;
  key ← as_http (register_key agent payload settings None);
  key_event w agent "agent_signing_key_added" ("Public signing key registered for " +:+ ag_name agent) "info"
    [("key_id", VStr (sk_key_id key))] ;;
  mret key.

Definition rotate (cl : caller) (agent_id : uuid) (key_id : string) (payload : SigningKeyCreate) (w : WorkspaceContext)
    (settings : signing_settings) : DB AgentSigningKey :=
  agent ← _agent agent_id w true;
  require_recent_step_up cl ;;
  old ← _key agent key_id;
  raise_if (negb (in_use old)) (HTTPException 409 "Signing key is not active") ;;
  key ← as_http (register_key agent payload settings (Some old));
  key_event w agent "agent_signing_key_rotated" ("Signing key rotated for " +:+ ag_name agent) "info"
    [("old_key_id", VStr (sk_key_id old)); ("new_key_id", VStr (sk_key_id key))] ;;
  mret key.

Definition revoke (cl : caller) (agent_id : uuid) (key_id : string) (w : WorkspaceContext) : DB AgentSigningKey :=
  agent ← _agent agent_id w true;
  require_recent_step_up cl ;;
  key ← _key agent key_id;
  revoked ← revoke_key key;
  (if negb (eqb (sk_status key) SkRevoked) then
     key_event w agent "agent_signing_key_revoked" ("Signing key revoked for " +:+ ag_name agent) "warning"
       [("key_id", VStr (sk_key_id revoked))]
   else mret tt) ;;
  mret revoked.
End signing.
End Signing.
