(* ===== verification/SigningProps.v ===== *)
(** What request signing guarantees ([Signing]): an accepted signature is genuine and
    current, a request is accepted at most once, a revoked key stays revoked, and the
    number of keys of an agent stays within its limit. *)
From Stdlib Require Import Ascii.
From S2P Require Import Prelude.
From S2P Require Import PyStr.
From S2P Require Import PyFloat.
From S2P Require Import PyVal.
From S2P Require Import PyDecimal.
From S2P Require Import AplParser.
From S2P Require Import Models.
From S2P Require Import PyTime.
From S2P Require Import PyCodec.
From S2P Require Import Canonical.
From S2P Require Import Store.
From S2P Require Import Samples.
From S2P Require Import SecurityEvents.
From S2P Require Import Soc.
From S2P Require Import SocProps.
From S2P Require Import Workspace.
From S2P Require Import Signing.

Local Open Scope string_scope.
Local Open Scope Z_scope.

Module SigningProps.
Import SecurityEvents Workspace Canonical Signing.

(** ** The records of nonces *)

Definition unique_nonces (t : tables) : Prop := NoDup (map no_id (nonce_list t)).
(** Records that have not expired at [now] stay. *)
Definition nonces_step (now : time) (t t' : tables) : Prop :=
  unique_nonces t → unique_nonces t' ∧ ∀ n, n ∈ nonce_list t → now < no_expires_at n → n ∈ nonce_list t'.
#[export] Instance nonces_step_preorder now : PreOrder (nonces_step now).
Proof.
  split.
  - intros t Hu. by split.
  - intros t1 t2 t3 H12 H23 Hu. destruct (H12 Hu) as [Hu2 K12]. destruct (H23 Hu2) as [Hu3 K23]. split; auto.
Qed.

Lemma NoDup_map_select {A B} (f : A → B) p (l : list A) : NoDup (map f l) → NoDup (map f (select_where p l)).
Proof.
  induction l as [|x l IH]; simpl; [done|]. intros [Hx Hl]%NoDup_cons.
  destruct (p x); [|by apply IH]. apply NoDup_cons. split; [|by apply IH].
  intros (y & He & Hy)%list_elem_of_fmap. apply Hx, list_elem_of_fmap. exists y. split; [done|].
  by apply elem_of_select_where in Hy as [Hy _].
Qed.

Lemma purge_step now t p : (∀ n, now < no_expires_at n → p n = true) → nonces_step now t (upd_nonces (select_where p) t).
Proof.
  intros Hp Hu. split; [by apply NoDup_map_select|]. intros n Hn Hlive. apply elem_of_select_where. auto.
Qed.
Lemma append_step now t n : new_nonce (no_id n) t = true → nonces_step now t (upd_nonces (λ l, (l ++ [n])%list) t).
Proof.
  intros Hnew Hu. unfold new_nonce in Hnew. apply negb_true_iff, not_true_iff_false in Hnew. split.
  - unfold unique_nonces. cbn. rewrite map_app. apply NoDup_app. split_and!; [done | | by apply NoDup_singleton].
    intros i Hi Hin. apply list_elem_of_singleton in Hin as ->. apply Hnew, existsb_exists.
    apply list_elem_of_fmap in Hi as (m & He & Hm). exists m. split; [by apply list_elem_of_In | by apply eqb_true].
  - intros m Hm _. cbn. apply elem_of_app. by left.
Qed.
Lemma nonces_same now t t' : nonce_list t' = nonce_list t → nonces_step now t t'.
Proof. intros He Hu. unfold unique_nonces. rewrite He. by split. Qed.

Section verification.
Context `{Entropy} `{Loaders} `{Ed25519}.

Lemma accept_step env settings key_id nonce now : respects (evolves (nonces_step now)) (_accept_nonce env settings key_id nonce now).
Proof.
  unfold _accept_nonce, record_nonce. walk.
  - apply evolves_write; [apply _ | intros t]. apply purge_step. intros n Hn. unfold live_nonce. reflect. lia.
  - apply evolves_insert; [apply _ | intros t Hnew]. by apply append_step.
Qed.

Definition purged (purge : bool) (now : time) (t : tables) : list AgentRequestNonce :=
  if purge then select_where (live_nonce now) (nonce_list t) else nonce_list t.
Definition recorded (key_id digest : string) (l : list AgentRequestNonce) : bool :=
  existsb (λ n, eqb (no_key_id n) key_id && eqb (no_nonce_hash n) digest) l.

(** A nonce is accepted only when it is not on record, and is on record afterwards. *)
Lemma record_ok purge settings key_id nonce now s s' :
  dead s = false → record_nonce purge settings key_id nonce now s = (Ok tt, s') →
  let digest := nonce_digest key_id nonce in
  recorded key_id digest (purged purge now (cur s)) = false ∧ dead s' = false ∧ cur s' = committed s' ∧ db_now s' = db_now s ∧
  ∃ id, cur s' = upd_nonces (λ _, (purged purge now (cur s) ++ [MkNonce id key_id digest (now + nonce_ttl settings)])%list) (cur s).
Proof.
  intros Hd. unfold record_nonce. cbv zeta. rewrite bind_run. unfold try_except.
  set (s1 := if purge then set_cur (upd_nonces (select_where (live_nonce now)) (cur s)) s else s).
  assert (Hs1 : ∀ A (k : unit → DB A), ((if purge then write (upd_nonces (select_where (live_nonce now))) else mret tt) ≫= k) s = k tt s1)
    by (intros A k; subst s1; destruct purge; [by rewrite bind_write | done]).
  assert (Hp : nonce_list (cur (next_seed s1)) = purged purge now (cur s)) by (subst s1; unfold purged; by destruct purge).
  assert (Hd1 : dead (next_seed s1) = false) by (subst s1; by destruct purge).
  assert (Hn1 : db_now (next_seed s1) = db_now s) by (subst s1; by destruct purge).
  rewrite Hs1, bind_fresh_uuid, bind_query.
  change (known_nonce key_id (nonce_digest key_id nonce) (cur (next_seed s1)))
    with (recorded key_id (nonce_digest key_id nonce) (nonce_list (cur (next_seed s1)))).
  rewrite Hp. destruct (recorded _ _ _) eqn:Hk.
  - rewrite bind_ret, (bind_commit _ _ Hd1). discriminate.
  - rewrite (bind_insert _ _ _ _ Hd1). destruct (new_nonce _ _); [|discriminate].
    rewrite bind_commit by exact Hd1. cbn. intros [= <-]. cbn.
    split_and!; [done | done | done | exact Hn1 |]. eexists. rewrite <- Hp. subst s1. by destruct purge.
Qed.
Lemma accept_records env settings key_id nonce now s s' :
  _accept_nonce env settings key_id nonce now s = (Ok tt, s') → record_nonce (re_purge env) settings key_id nonce now s = (Ok tt, s').
Proof. unfold _accept_nonce. by destruct (re_redis env) as [| | |[]]. Qed.

(** ** Accepted signatures are genuine *)

Definition window (settings : signing_settings) : time := agent_signature_clock_window_seconds settings * second.

Definition genuine (settings : signing_settings) (version expected : string) (agent : uuid) (org : option uuid)
    (text : string) (h : signed_headers) (t : tables) (now : time) : Prop :=
  sh_version h = version ∧ sh_agent h = expected ∧ NONCE_PATTERN (sh_nonce h) = true ∧
  ∃ signed_at k key,
    strptime_z (sh_timestamp h) = Some signed_at ∧ Z.abs (now - signed_at) <= window settings ∧
    key_table t !! k = Some key ∧ sk_key_id key = sh_key_id h ∧ sk_agent_id key = agent ∧ sk_organization_id key = org ∧
    (sk_status key = SkActive ∨ sk_status key = SkRotating) ∧ (∀ e, sk_expires_at key = Some e → now < e) ∧
    signature_valid key (sh_signature h) text = true.

Lemma check_ok env settings version expected agent org text h s kid s' :
  dead s = false → check_signed env settings version expected agent org text h s = (Ok kid, s') →
  kid = sh_key_id h ∧ genuine settings version expected agent org (text h) h (cur s) (db_now s) ∧
  ∃ s1, record_nonce (re_purge env) settings (sh_key_id h) (sh_nonce h) (db_now s) s = (Ok tt, s1) ∧
    nonce_list (committed s') = nonce_list (cur s1) ∧ dead s' = false ∧ committed s' = cur s' ∧ db_now s' = db_now s ∧
    ∃ key, cur s' = upd_signing_keys (alter (set_key_used (db_now s)) key) (cur s1).
Proof.
  intros Hd. unfold check_signed.
  pass Hv.
  pass Hf.
  pass Hpat.
  rewrite bind_run. unfold lift_result. destruct (strptime_z _) as [signed_at|] eqn:Hts; [|done].
  rewrite bind_now. pass Hw.
  rewrite bind_get_or. destruct (scalar _ _) as [key|] eqn:Hkey; [|done]. apply scalar_Some in Hkey as (k & Hk & Hid).
  pass Howner.
  pass Hrev.
  pass Hexp.
  pass Huse.
  pass Hsig.
  rewrite bind_run. destruct (_accept_nonce _ _ _ _ _ s) as [[[]|e] s1] eqn:Hacc; [|done].
  apply accept_records in Hacc. destruct (record_ok _ _ _ _ _ _ _ Hd Hacc) as (_ & Hd1 & Hc1 & Hn1 & _).
  rewrite (bind_write _ _ _ Hd1), bind_commit by exact Hd1. intros [= <- <-]. split; [done|]. split.
  - reflect. destruct Howner as [Ha Ho], Hexp as [_ He], Huse as [Hu _], Hf as [[Hf _] Hn]. split_and!; try done.
    exists signed_at, k, key. split_and!; try done.
    + unfold in_use in Hu. rewrite orb_true_iff, !eqb_true in Hu. exact Hu.
    + intros e Hexp. unfold expired_at in He. rewrite Hexp in He. by apply Z.leb_gt in He.
  - exists s1. split_and!; try done. by eexists.
Qed.

(** The part of [verify_request] before the signature. *)
Definition owned_by (org : option uuid) (user : uuid) (a : Agent) : bool :=
  eqb (ag_organization_id a) org && (negb (eqb (ag_organization_id a) None) || eqb (ag_owner_id a) user).
Definition has_key (a : Agent) (t : tables) : bool := is_some (scalar (λ k, eqb (sk_agent_id k) (ag_id a)) (key_table t)).
Definition no_header (headers : string → option string) : Prop := ∀ n, n ∈ SIGNED_HEADERS → headers n = None.

(** What a request that passes went through. *)
Lemma request_sound org user settings env agent_id headers body method path raw s r s' :
  dead s = false →
  verify_request org user settings env agent_id headers body method path raw s = (Ok r, s') →
  let agent := scalar (λ a, eqb (ag_identifier a) agent_id) (agents (cur s)) in
  match r with
  | None => no_header headers ∧ ∀ a, agent = Some a → owned_by org user a = false ∨ has_key a (cur s) = false
  | Some kid => ∃ a h, agent = Some a ∧ owned_by org user a = true ∧ header_values headers = Some h ∧ kid = sh_key_id h ∧
      genuine settings SIGNATURE_VERSION agent_id (ag_id a) (ag_organization_id a)
        (canonical_request method path agent_id (sh_key_id h) (sh_timestamp h) (sh_nonce h) body) h (cur s) (db_now s)
  end.
Proof.
  intros Hd. unfold verify_request. rewrite bind_raise_if. destruct (repeated [] raw); [done|].
  rewrite bind_query. set (agent := scalar _ _). cbv zeta.
  assert (Hnone : existsb (λ n, is_some (headers n)) SIGNED_HEADERS = false → no_header headers).
  { intros Hs n Hn. destruct (headers n) eqn:Hh; [|done].
    rewrite <- not_true_iff_false in Hs. exfalso. apply Hs, existsb_exists. exists n. rewrite Hh.
    split; [by apply list_elem_of_In | done]. }
  destruct (existsb _ SIGNED_HEADERS) eqn:Hsup.
  - lazymatch goal with |- (if ?b then _ else _) _ = _ → _ => destruct b eqn:Hfor end; [done|]. rewrite bind_query.
    destruct agent as [a|] eqn:Hagent; [|done].
    destruct (is_some _); [|done]. destruct (header_values headers) as [h|] eqn:Hh; [|done].
    rewrite bind_run. destruct (check_signed _ _ _ _ _ _ _ _ s) as [[kid|e] s1] eqn:Hc; [|done].
    intros [= <- _]. destruct (check_ok _ _ _ _ _ _ _ _ _ _ _ Hd Hc) as (-> & Hgen & _).
    exists a, h. split_and!; try done. apply orb_false_iff in Hfor as [Ho Hu].
    unfold owned_by. apply (proj1 (negb_eqb_false _ _)) in Ho. rewrite (proj2 (eqb_true _ _) Ho). cbn [andb]. apply andb_false_iff in Hu as [Hu|Hu].
    + by rewrite Hu.
    + apply negb_false_iff in Hu. rewrite Hu. apply orb_true_r.
  - specialize (Hnone eq_refl). lazymatch goal with |- (if ?b then _ else _) _ = _ → _ => destruct b eqn:Hfor end.
    + intros [= <- _]. split; [done|]. intros a Ha. left. rewrite Ha in Hfor. unfold owned_by.
      destruct (eqb (ag_organization_id a) org); [|done]. destruct (eqb (ag_organization_id a) None); [|done].
      destruct (eqb (ag_owner_id a) user); done.
    + rewrite bind_query. destruct agent as [a|].
      * fold (has_key a (cur s)). destruct (has_key a (cur s)) eqn:Hk; [done|]. intros [= <- _].
        split; [done|]. intros a' [= <-]. by right.
      * intros [= <- _]. split; [done|]. by intros a'.
Qed.

(** C6. A request of an agent that has a signing key passes only with the six
    headers, a timestamp within the window, a key of that agent that is active or
    rotating and has not expired, and a signature of exactly this method, path, agent,
    key, time, nonce and body; a request without headers passes unsigned only for an
    agent without keys, or one the permission engine will refuse. *)
Theorem verification_sound org user settings env agent_id headers body method path raw s r s' :
  dead s = false →
  verify_request org user settings env agent_id headers body method path raw s = (Ok r, s') →
  let agent := scalar (λ a, eqb (ag_identifier a) agent_id) (agents (cur s)) in
  match r with
  | None => no_header headers ∧ ∀ a, agent = Some a → owned_by org user a = false ∨ has_key a (cur s) = false
  | Some kid => ∃ a h, agent = Some a ∧ owned_by org user a = true ∧ header_values headers = Some h ∧ kid = sh_key_id h ∧
      genuine settings SIGNATURE_VERSION agent_id (ag_id a) (ag_organization_id a)
        (canonical_request method path agent_id (sh_key_id h) (sh_timestamp h) (sh_nonce h) body) h (cur s) (db_now s)
  end.
Proof. apply request_sound. Qed.

(** ** Replay *)

Lemma check_step env settings version expected agent org text h s :
  evolves (nonces_step (db_now s)) s (check_signed env settings version expected agent org text h s).2.
Proof.
  unfold check_signed. rewrite bind_raise_if. destruct (negb (eqb _ version)); [done|].
  rewrite bind_raise_if. destruct (negb (eqb _ expected) || _ || _); [done|].
  rewrite bind_raise_if. destruct (negb (TIMESTAMP_PATTERN _)); [done|].
  rewrite bind_run. unfold lift_result. destruct (strptime_z _) as [signed_at|]; [|done].
  rewrite bind_now. generalize (db_now s) as now. intros now. revert s.
  change (respects (evolves (nonces_step now)) (raise_if (agent_signature_clock_window_seconds settings * second <?
    Z.abs (now - signed_at)) timestamp_invalid ;;
    key ← get_or (λ t, scalar (λ k, eqb (sk_key_id k) (sh_key_id h)) (key_table t)) invalid_signature;
    raise_if (negb (eqb (sk_agent_id key) agent) || negb (eqb (sk_organization_id key) org)) invalid_signature ;;
    raise_if (eqb (sk_status key) SkRevoked) (SigningError "SIGNING_KEY_REVOKED" 401) ;;
    raise_if (eqb (sk_status key) SkExpired || expired_at (sk_expires_at key) now) (SigningError "SIGNING_KEY_EXPIRED" 401) ;;
    raise_if (negb (in_use key) || negb (eqb (sk_algorithm key) "Ed25519")) invalid_signature ;;
    raise_if (negb (signature_valid key (sh_signature h) (text h))) invalid_signature ;;
    _accept_nonce env settings (sh_key_id h) (sh_nonce h) now ;;
    write (upd_signing_keys (alter (set_key_used now) (sk_id key))) ;; commit ;; mret (sh_key_id h))).
  pose proof (accept_step env settings (sh_key_id h) (sh_nonce h) now) as Hacc.
  walk; first [exact Hacc | apply evolves_write; [apply _ | intros t; by apply nonces_same]].
Qed.

Lemma request_step org user settings env agent_id headers body method path raw s :
  evolves (nonces_step (db_now s)) s (verify_request org user settings env agent_id headers body method path raw s).2.
Proof.
  unfold verify_request. past Hraw. rewrite bind_query. cbv zeta.
  lazymatch goal with |- context [(if ?b then _ else _) s] => destruct b end; [by destruct (existsb _ SIGNED_HEADERS)|].
  rewrite bind_query. destruct (scalar _ _) as [a|]; cbn [is_some]; [|by destruct (existsb _ SIGNED_HEADERS)].
  destruct (is_some _), (existsb _ SIGNED_HEADERS); try done.
  destruct (header_values headers) as [h|]; [|done].
  rewrite bind_run. pose proof (check_step env settings SIGNATURE_VERSION agent_id (ag_id a) (ag_organization_id a)
    (λ h, canonical_request method path agent_id (sh_key_id h) (sh_timestamp h) (sh_nonce h) body) h s) as Hstep.
  by destruct (check_signed _ _ _ _ _ _ _ _ s) as [[kid|e] s1].
Qed.

Lemma cleanup_step batch s : evolves (nonces_step (db_now s)) s (cleanup_expired_nonces batch s).2.
Proof.
  unfold cleanup_expired_nonces. rewrite bind_now, bind_query. destruct (0 <? _)%nat; [|done]. rewrite bind_assoc.
  intros Hs. revert Hs. apply evolves_write_here; [apply _ | | walk].
  intros Hu. split; [by apply NoDup_map_select|]. intros n Hn Hlive. apply elem_of_select_where. split; [done|].
  apply negb_true_iff, not_true_iff_false. intros (i & Hi & He)%existsb_exists. apply eqb_true in He as <-.
  unfold cleanup_batch in Hi. apply list_elem_of_In, list_elem_of_fmap in Hi as (m & Hid & Hm).
  assert (Hsel : m ∈ select_where (λ n, no_expires_at n <=? db_now s) (nonce_list (cur s))).
  { assert (Hms : m ∈ merge_sort nonce_older (select_where (λ n, no_expires_at n <=? db_now s) (nonce_list (cur s)))).
    { revert Hm. generalize (merge_sort nonce_older (select_where (λ n, no_expires_at n <=? db_now s) (nonce_list (cur s)))).
      intros l Hm. by apply elem_of_take in Hm as (j & Hj & _); apply list_elem_of_lookup_2 in Hj. }
    by rewrite merge_sort_Permutation in Hms. }
  apply elem_of_select_where in Hsel as [Hin Hexp]. apply Z.leb_le in Hexp.
  assert (m = n) as ->; [|lia].
  apply list_elem_of_lookup in Hin as [x Hx], Hn as [y Hy].
  assert (x = y); [|congruence]. eapply (NoDup_lookup (map no_id (nonce_list (cur s)))); [exact Hu | |];
    rewrite list_lookup_fmap; [by rewrite Hx | by rewrite Hy, <- Hid].
Qed.

(** Requests of both versions and purges of the worker, with the time of each. *)
Inductive signing_op : Type :=
  | SignedRequest (org : option uuid) (user : uuid) (env : replay_env) (agent_id : string)
      (headers : string → option string) (body method path : string) (raw : list string)
  | CrossOrgRequest (env : replay_env) (source target : Agent) (source_org target_org : uuid)
      (headers : string → option string) (body method path : string)
  | Cleanup (batch : nat).
Record signing_step : Type := MkStep { st_draws : nat; st_now : time; st_op : signing_op }.

(** The key, the nonce and the time that an accepted request spent. *)
Definition spent (headers : string → option string) : option (string * string * string) :=
  (λ h, (sh_key_id h, sh_nonce h, sh_timestamp h)) <$> header_values headers.
Definition perform (settings : signing_settings) (o : signing_op) : DB (option (string * string * string)) :=
  match o with
  | SignedRequest org user env agent_id headers body method path raw =>
      r ← verify_request org user settings env agent_id headers body method path raw;
      mret (if is_some r then spent headers else None)
  | CrossOrgRequest env source target sorg torg headers body method path =>
      verify_cross_org_request_v2 settings env source target sorg torg headers body method path ;; mret (spent headers)
  | Cleanup batch => cleanup_expired_nonces batch ;; mret None
  end.
Definition accepted_of (r : result Exc (option (string * string * string))) : option (string * string * string) :=
  match r with Ok (Some x) => Some x | _ => None end.
Definition signing_outcome (settings : signing_settings) (t : tables) (st : signing_step) :
    option (string * string * string) * tables :=
  let '(r, t') := run_request (perform settings (st_op st)) t (st_draws st) (st_now st) in (accepted_of r, t').
Fixpoint outcomes (settings : signing_settings) (t : tables) (sts : list signing_step) : list (option (string * string * string)) :=
  match sts with
  | [] => []
  | st :: sts => let '(o, t') := signing_outcome settings t st in o :: outcomes settings t' sts
  end.
(** The clock does not run backwards. *)
Fixpoint clock_from (now : time) (sts : list signing_step) : Prop :=
  match sts with [] => True | st :: sts => now <= st_now st ∧ clock_from (st_now st) sts end.

(** Once spent: the record of the nonce outlives the window of the timestamp. *)
Definition spent_at (settings : signing_settings) (x : string * string * string) (t : tables) (now : time) : Prop :=
  let '(key_id, nonce, timestamp) := x in
  ∃ signed_at, strptime_z timestamp = Some signed_at ∧
    (signed_at + window settings < now ∨
     ∃ n, n ∈ nonce_list t ∧ no_key_id n = key_id ∧ no_nonce_hash n = nonce_digest key_id nonce ∧
       signed_at + window settings < no_expires_at n).

Lemma signing_outcome_step settings t st : nonces_step (st_now st) t (signing_outcome settings t st).2.
Proof.
  unfold signing_outcome, run_request. set (s := open_session t (st_draws st) (st_now st)).
  assert (Hev : evolves (nonces_step (db_now s)) s (perform settings (st_op st) s).2).
  { destruct (st_op st) as [org user env a h b m p raw | env so ta sorg torg h b m p | batch]; cbn [perform]; rewrite bind_run.
    - pose proof (request_step org user settings env a h b m p raw s) as Hs. by destruct (verify_request _ _ _ _ _ _ _ _ _ _ s) as [[]].
    - assert (Hs : evolves (nonces_step (db_now s)) s (verify_cross_org_request_v2 settings env so ta sorg torg h b m p s).2).
      { unfold verify_cross_org_request_v2. destruct (header_values h); [apply check_step | done]. }
      by destruct (verify_cross_org_request_v2 _ _ _ _ _ _ _ _ _ _ s) as [[]].
    - pose proof (cleanup_step batch s) as Hs. by destruct (cleanup_expired_nonces batch s) as [[]]. }
  destruct (perform settings (st_op st) s) as [r s']. simpl in *. by apply Hev.
Qed.

Lemma spent_kept settings x t st now :
  unique_nonces t → now <= st_now st → spent_at settings x t now →
  spent_at settings x (signing_outcome settings t st).2 (st_now st).
Proof.
  intros Hu Hle. destruct x as [[key_id nonce] ts]. intros (signed_at & Hts & Hor). exists signed_at. split; [done|].
  destruct Hor as [Hlt | (n & Hn & Hk & Hh & He)]; [left; lia|].
  destruct (decide (st_now st < no_expires_at n)) as [Hlive|Hdead]; [|left; lia].
  right. exists n. split_and!; try done. by apply (signing_outcome_step settings t st Hu).
Qed.

Lemma recorded_in key_id digest l : recorded key_id digest l = false →
  ¬ ∃ n, n ∈ l ∧ no_key_id n = key_id ∧ no_nonce_hash n = digest.
Proof.
  unfold recorded. intros Hr (n & Hn & Hk & Hh). rewrite <- not_true_iff_false in Hr. apply Hr, existsb_exists.
  exists n. split; [by apply list_elem_of_In|]. by rewrite Hk, Hh, !eqb_refl.
Qed.

Lemma check_spends env settings version expected agent org text h s kid s' :
  dead s = false → check_signed env settings version expected agent org text h s = (Ok kid, s') →
  let x := (sh_key_id h, sh_nonce h, sh_timestamp h) in
  ¬ spent_at settings x (cur s) (db_now s) ∧ spent_at settings x (committed s') (db_now s).
Proof.
  intros Hd Hc. destruct (check_ok _ _ _ _ _ _ _ _ _ _ _ Hd Hc) as (_ & Hgen & s1 & Hrec & Hlist & _).
  destruct Hgen as (_ & _ & _ & signed_at & k & key & Hts & Hwin & _).
  destruct (record_ok _ _ _ _ _ _ _ Hd Hrec) as (Hnew & _ & _ & _ & id & Hnonces). cbv zeta. split.
  - intros (signed_at' & Hts' & Hor). rewrite Hts in Hts'. injection Hts' as <-.
    destruct Hor as [Hlt | (n & Hn & Hk & Hh & He)]; [lia|].
    apply (recorded_in _ _ _ Hnew). exists n. split_and!; [| done | done].
    unfold purged. destruct (re_purge env); [|done]. apply elem_of_select_where. split; [done|].
    unfold live_nonce. apply negb_true_iff, Z.leb_gt. lia.
  - exists signed_at. split; [done|]. right. eexists. split_and!.
    + rewrite Hlist, Hnonces. apply elem_of_app. right. by apply list_elem_of_singleton.
    + done.
    + done.
    + cbn. unfold nonce_ttl, window in *. unfold second in *. lia.
Qed.

Lemma outcome_spends settings t st x :
  (signing_outcome settings t st).1 = Some x →
  ¬ spent_at settings x t (st_now st) ∧ spent_at settings x (signing_outcome settings t st).2 (st_now st).
Proof.
  unfold signing_outcome, run_request. set (s := open_session t (st_draws st) (st_now st)).
  destruct (st_op st) as [org user env a h b m p raw | env so ta sorg torg h b m p | batch]; cbn [perform]; rewrite bind_run.
  - destruct (verify_request _ _ _ _ _ _ _ _ _ _ s) as [[r|] s'] eqn:Hv; [|done]. destruct r as [kid|]; [|done].
    cbn [is_some mret M_ret accepted_of fst snd]. unfold spent.
    revert Hv. unfold verify_request. rewrite bind_raise_if. destruct (repeated [] raw); [done|].
    rewrite bind_query. cbv zeta. lazymatch goal with |- (if ?c then _ else _) _ = _ → _ => destruct c end;
      [by destruct (existsb _ SIGNED_HEADERS)|]. rewrite bind_query.
    destruct (scalar _ _) as [ag|]; cbn [is_some]; [|by destruct (existsb _ SIGNED_HEADERS)].
    destruct (is_some _), (existsb _ SIGNED_HEADERS); try done.
    destruct (header_values h) as [hv|]; [|done]. rewrite bind_run.
    destruct (check_signed _ _ _ _ _ _ _ _ s) as [[kid'|e] s1] eqn:Hc; [|done]. intros [= _ <-].
    cbn. intros [= <-]. apply (check_spends _ _ _ _ _ _ _ _ s _ _ eq_refl Hc).
  - unfold verify_cross_org_request_v2, spent. destruct (header_values h) as [hv|]; [|done].
    destruct (check_signed _ _ _ _ _ _ _ _ s) as [[kid'|e] s1] eqn:Hc; [|done].
    cbn. intros [= <-]. apply (check_spends _ _ _ _ _ _ _ _ s _ _ eq_refl Hc).
  - by destruct (cleanup_expired_nonces batch s) as [[]].
Qed.

Lemma never_again settings x t now sts :
  unique_nonces t → clock_from now sts → spent_at settings x t now → Some x ∉ outcomes settings t sts.
Proof.
  revert t now. induction sts as [|st sts IH]; intros t now Hu Hclock Hspent; [apply not_elem_of_nil|].
  destruct Hclock as [Hle Hclock]. cbn [outcomes].
  pose proof (spent_kept settings x t st now Hu Hle Hspent) as Hkept.
  pose proof (proj1 (signing_outcome_step settings t st Hu)) as Hu'. pose proof (outcome_spends settings t st x) as Hacc.
  destruct (signing_outcome settings t st) as [o t'] eqn:Ho. simpl in *.
  apply not_elem_of_cons. split; [|by apply (IH t' (st_now st))].
  intros <-. destruct (Hacc eq_refl) as [Hno _]. apply Hno.
  destruct x as [[kid n] ts]. destruct Hspent as (sa & Hts & Hor). exists sa. split; [done|].
  destruct Hor as [?|?]; [left; lia | by right].
Qed.

(** C7. Among any sequence of signed requests and purges, under a clock that does not
    run backwards, the same key, nonce and time are accepted at most once, even when
    expired records are purged in between. *)
Theorem accepted_at_most_once settings t sts now i j x :
  unique_nonces t → clock_from now sts →
  outcomes settings t sts !! i = Some (Some x) → outcomes settings t sts !! j = Some (Some x) → i = j.
Proof.
  revert t now i j. induction sts as [|st sts IH]; intros t now i j Hu Hclock; [done|].
  destruct Hclock as [_ Hclock]. cbn [outcomes]. pose proof (proj1 (signing_outcome_step settings t st Hu)) as Hu'.
  pose proof (outcome_spends settings t st x) as Hacc.
  destruct (signing_outcome settings t st) as [o t']. simpl in *.
  assert (Hlater : o = Some x → ∀ m, outcomes settings t' sts !! m ≠ Some (Some x)).
  { intros -> m Hm. destruct (Hacc eq_refl) as [_ Hspent].
    apply (never_again settings x t' (st_now st) sts Hu' Hclock Hspent). by apply list_elem_of_lookup_2 in Hm. }
  destruct i as [|i], j as [|j]; simpl; try done.
  - intros [= ->] Hj. by destruct (Hlater eq_refl j).
  - intros Hi [= ->]. by destruct (Hlater eq_refl i).
  - intros Hi Hj. f_equal. by apply (IH t' (st_now st)).
Qed.
End verification.

(** ** Keys *)

Section counting.
Context {V : Type} (p : V → bool).
Definition count_rows (m : gmap uuid V) : nat := length (select_rows p m).

Lemma count_rows_insert m i v : m !! i = None →
  count_rows (<[i := v]> m) = ((if p v then 1 else 0) + count_rows m)%nat.
Proof.
  intros Hi. unfold count_rows, select_rows, rows.
  assert (Hp : (map_to_list (<[i := v]> m)).*2 ≡ₚ v :: (map_to_list m).*2) by by rewrite map_to_list_insert.
  apply (count_where_perm p) in Hp. unfold count_where in Hp. rewrite Hp. simpl. by destruct (p v).
Qed.
Lemma count_rows_delete m i v : m !! i = Some v →
  count_rows m = ((if p v then 1 else 0) + count_rows (delete i m))%nat.
Proof.
  intros Hi. rewrite <- (insert_delete_id m i v Hi) at 1. apply count_rows_insert, lookup_delete_eq.
Qed.
(** Changing rows so that none that did not count starts to. *)
Lemma count_rows_alter (f : V → V) m i : (∀ v, m !! i = Some v → p (f v) = true → p v = true) →
  (count_rows (alter f i m) ≤ count_rows m)%nat.
Proof.
  intros Hf. destruct (m !! i) as [v|] eqn:Hi; [|by rewrite alter_id; [|by intros; simplify_eq]].
  assert (Ha : alter f i m !! i = Some (f v)) by by rewrite lookup_alter_eq, Hi.
  rewrite (count_rows_delete _ _ _ Ha), (count_rows_delete _ _ _ Hi), delete_alter_eq.
  specialize (Hf v eq_refl). destruct (p (f v)); [rewrite Hf by done | destruct (p v)]; lia.
Qed.
Lemma count_rows_update q (f : V → V) m : (∀ v, q v = true → p (f v) = true → p v = true) →
  (count_rows (update_where q f m) ≤ count_rows m)%nat.
Proof.
  intros Hf. unfold count_rows, select_rows.
  assert (Hp := count_where_perm p _ _ (rows_update_where q f m)). unfold count_where in Hp. rewrite Hp. clear Hp.
  induction (rows m) as [|v l IH]; simpl; [lia|]. specialize (Hf v).
  destruct (q v); [|destruct (p v); simpl; lia].
  destruct (p (f v)); [rewrite Hf by done; simpl; lia | destruct (p v); simpl; lia].
Qed.
End counting.

Definition settled_keys (t t' : tables) : Prop := ∀ id k,
  key_table t !! id = Some k → sk_status k = SkRevoked ∨ sk_status k = SkExpired →
  ∃ k', key_table t' !! id = Some k' ∧ (sk_status k' = SkRevoked ∨ sk_status k' = SkExpired) ∧ sk_key_id k' = sk_key_id k.
Definition within (limit : Z) (now : time) (t : tables) : Prop := ∀ agent, count_keys agent now t <= limit.
(** Keys are stored under their identifier; their names and their public keys are unique. *)
Definition key_names (k : AgentSigningKey) : uuid * string * string := (sk_id k, sk_key_id k, sk_fingerprint k).
Definition keyed_keys (t : tables) : Prop :=
  (∀ id k, key_table t !! id = Some k → sk_id k = id) ∧
  ∀ i j a b, key_table t !! i = Some a → key_table t !! j = Some b →
    sk_key_id a = sk_key_id b ∨ sk_fingerprint a = sk_fingerprint b → i = j.
Lemma keyed_names t t' : keyed_keys t →
  (∀ i b, key_table t' !! i = Some b → ∃ a, key_table t !! i = Some a ∧ key_names a = key_names b) → keyed_keys t'.
Proof.
  intros [Hid Hun] Hnames. split.
  - intros i b Hb. destruct (Hnames i b Hb) as (a & Ha & [= <- _ _]). by apply Hid.
  - intros i j b b' Hb Hb'. destruct (Hnames i b Hb) as (a & Ha & [= _ <- <-]).
    destruct (Hnames j b' Hb') as (a' & Ha' & [= _ <- <-]). by apply Hun.
Qed.
Definition keys_step (limit : Z) (now : time) (t t' : tables) : Prop :=
  keyed_keys t → keyed_keys t' ∧ settled_keys t t' ∧ (within limit now t → within limit now t').
#[export] Instance keys_step_preorder limit now : PreOrder (keys_step limit now).
Proof.
  split.
  - intros t Hk. split_and!; [done | intros id k Hid Hst; by exists k | done].
  - intros t1 t2 t3 H12 H23 Hk1. destruct (H12 Hk1) as (Hk2 & S12 & W12). destruct (H23 Hk2) as (Hk3 & S23 & W23).
    split_and!; [done | | auto]. intros id k Hk Hst.
    destruct (S12 id k Hk Hst) as (k2 & Hid2 & Hst2 & Hn2). destruct (S23 id k2 Hid2 Hst2) as (k3 & Hid3 & Hst3 & Hn3).
    exists k3. split_and!; [done | done | congruence].
Qed.
Lemma signing_same limit now t t' : key_table t' = key_table t → keys_step limit now t t'.
Proof.
  intros He Hkey. split_and!.
  - apply (keyed_names t); [done|]. intros i b. rewrite He. by exists b.
  - intros id k Hk Hst. exists k. by rewrite He.
  - intros Hw agent. unfold count_keys. rewrite He. apply Hw.
Qed.

(** A change of status that keeps what is settled and never brings a key back. *)
Definition settles_key (f : AgentSigningKey → AgentSigningKey) (k : AgentSigningKey) : Prop :=
  key_names (f k) = key_names k ∧
  (sk_status k = SkRevoked ∨ sk_status k = SkExpired → sk_status (f k) = SkRevoked ∨ sk_status (f k) = SkExpired) ∧
  (∀ agent now, counted agent now (f k) = true → counted agent now k = true).

Lemma key_table_with g t : key_table (upd_signing_keys g t) = g (key_table t).
Proof. reflexivity. Qed.

Lemma keys_alter limit now t id f : (keyed_keys t → ∀ k, key_table t !! id = Some k → settles_key f k) →
  keys_step limit now t (upd_signing_keys (alter f id) t).
Proof.
  intros Hf Hkey. specialize (Hf Hkey). unfold settled_keys, within, count_keys. rewrite key_table_with. split_and!.
  - apply (keyed_names t); [done|]. rewrite key_table_with. intros j k Hk.
    destruct (decide (j = id)) as [->|Hne]; [|rewrite lookup_alter_ne in Hk by done; by exists k].
    rewrite lookup_alter_eq in Hk. destruct (key_table t !! id) as [k0|] eqn:Hk0; [|done]. injection Hk as <-.
    exists k0. split; [done|]. by destruct (Hf k0 eq_refl) as (-> & _).
  - intros j k Hk Hst. destruct (decide (j = id)) as [->|Hne].
    + destruct (Hf k Hk) as ([= _ Hid _] & Hset & _). exists (f k). rewrite lookup_alter_eq, Hk. by split_and!; [|apply Hset|].
    + exists k. by rewrite lookup_alter_ne.
  - intros Hw agent. specialize (Hw agent).
    pose proof (count_rows_alter (counted agent now) f (key_table t) id
      (λ k Hk, proj2 (proj2 (Hf k Hk)) agent now)) as Hle.
    unfold count_rows in Hle. lia.
Qed.
Lemma signing_update limit now t q f : (∀ k, q k = true → settles_key f k) →
  keys_step limit now t (upd_signing_keys (update_where q f) t).
Proof.
  intros Hf Hkey. unfold settled_keys, within, count_keys. rewrite key_table_with. split_and!.
  - apply (keyed_names t); [done|]. rewrite key_table_with. intros j k. rewrite lookup_update_where.
    destruct (key_table t !! j) as [k0|] eqn:Hk0; [|done]. simpl. intros [= <-]. exists k0. split; [done|].
    destruct (q k0) eqn:Hq; [|done]. by destruct (Hf k0 Hq) as (-> & _).
  - intros j k Hk Hst. rewrite lookup_update_where, Hk. simpl. destruct (q k) eqn:Hq; [|by exists k].
    destruct (Hf k Hq) as ([= _ Hid _] & Hset & _). exists (f k). by split_and!; [|apply Hset|].
  - intros Hw agent. specialize (Hw agent).
    pose proof (count_rows_update (counted agent now) q f (key_table t)
      (λ k Hk, proj2 (proj2 (Hf k Hk)) agent now)) as Hle.
    unfold count_rows in Hle. lia.
Qed.
Lemma keys_insert limit now t k :
  new_key_ok k t = true → count_keys (sk_agent_id k) now t < limit →
  keys_step limit now t (upd_signing_keys <[sk_id k := k]> t).
Proof.
  unfold new_key_ok. intros [Hnew%negb_true_iff Hfree%negb_true_iff]%andb_true_iff Hlt [Hid Hun].
  apply is_some_false in Hnew. apply is_some_false in Hfree.
  unfold keyed_keys, settled_keys, within, count_keys in *. rewrite key_table_with. split_and!.
  - intros j k'. rewrite lookup_insert_Some. intros [[<- <-]|[_ Hk']]; [done | by apply Hid].
  - assert (Hno : ∀ i a, key_table t !! i = Some a → sk_key_id a = sk_key_id k ∨ sk_fingerprint a = sk_fingerprint k → False).
    { intros i a Ha Hor. pose proof (proj1 (scalar_None _ _) Hfree i a Ha) as Hf. simpl in Hf.
      apply orb_false_iff in Hf as [H1 H2]. apply (proj1 (eqb_false _ _)) in H1. apply (proj1 (eqb_false _ _)) in H2.
      by destruct Hor. }
    intros i j a b. rewrite !lookup_insert_Some. intros [[<- <-]|[Hi Ha]] [[<- <-]|[Hj Hb]] Hor; try done.
    + exfalso. apply (Hno j b Hb). destruct Hor; auto.
    + exfalso. apply (Hno i a Ha). exact Hor.
    + by apply (Hun i j a b).
  - intros j k' Hk' Hst. exists k'. rewrite lookup_insert_ne; [done | congruence].
  - intros Hw agent. specialize (Hw agent).
    pose proof (count_rows_insert (counted agent now) _ _ k Hnew) as Hc. unfold count_rows in Hc. rewrite Hc.
    destruct (counted agent now k) eqn:Hcount; [|lia]. unfold counted in Hcount.
    apply andb_true_iff in Hcount as [[Ha _]%andb_true_iff _]. apply (proj1 (eqb_true _ _)) in Ha. subst agent. lia.
Qed.

(** The changes of the program. *)
Lemma settles_used now k : settles_key (set_key_used now) k.
Proof. split_and!; done. Qed.
Lemma settles_revoked now k : settles_key (set_key_revoked now) k.
Proof.
  split_and!; [done | by left |]. intros agent at_. unfold counted, in_use. cbn. by rewrite andb_false_r.
Qed.
Lemma settles_status st k : in_use k = true → st ≠ SkActive → settles_key (set_key_status st) k.
Proof.
  intros Hu Hst. split_and!; try done.
  - intros Hs. unfold in_use in Hu. destruct Hs as [Hs|Hs]; rewrite Hs in Hu; vm_compute in Hu; discriminate.
  - intros agent now. unfold counted. rewrite Hu. rewrite !andb_true_iff. intros [[Ha _] He]. by split_and!.
Qed.

Section handlers.
Context `{Entropy} `{Loaders} `{Ed25519} `{SecuritySinks}.
Context (Hsinks : ∀ limit now, SinksRespect (keys_step limit now)).
Local Existing Instance Hsinks.

(** Registration, alone or in place of a key that is in use. *)
Lemma register_step agent payload settings old s :
  (∀ o, old = Some o → in_use o = true ∧ ∃ i, key_table (cur s) !! i = Some o) →
  evolves (keys_step (agent_max_active_signing_keys settings) (db_now s)) s (register_key agent payload settings old s).2.
Proof.
  intros Hold. unfold register_key. rewrite bind_query. past Hav. rewrite bind_now, bind_query. past Hlim.
  apply Z.leb_gt in Hlim. rewrite bind_run. unfold lift_result. destruct (decode_public_key _) as [raw|]; [|done].
  rewrite bind_query. past Hknown. rewrite bind_fresh_token, bind_fresh_uuid.
  set (s1 := next_seed (next_seed s)). set (limit := agent_max_active_signing_keys settings) in *.
  change (evolves (keys_step limit (db_now s)) s) with (evolves (keys_step limit (db_now s)) s1).
  rewrite bind_run. unfold try_except.
  match goal with |- context [insert_checked (new_key_ok ?k) _] => set (key := k) end.
  match goal with |- context [match ?m s1 with _ => _ end] => set (body := m);
    assert (Hbody : evolves (keys_step limit (db_now s)) s1 (body s1).2) end.
  { subst body. apply evolves_insert_then; [apply _ | |].
    - intros Hnew. by apply keys_insert.
    - intros Hnew. unfold new_key_ok in Hnew. apply andb_true_iff in Hnew as [Hnew _].
      apply negb_true_iff, is_some_false in Hnew. destruct old as [o|]; [|by apply evolves_commit; apply _].
      destruct (Hold o eq_refl) as [Huse [i Hi]].
      apply evolves_write_here; [apply _ | | by apply evolves_commit; apply _].
      apply keys_alter. intros Hkey k Hk.
      assert (Hi' : key_table (cur (set_cur (upd_signing_keys <[sk_id key := key]> (cur s1)) s1)) !! i = Some o).
      { change (<[sk_id key := key]> (key_table (cur s)) !! i = Some o). rewrite lookup_insert_ne; [exact Hi|]. intros <-.
        change (cur s1) with (cur s) in Hnew. by rewrite Hi in Hnew. }
      rewrite (proj1 Hkey _ _ Hi'), Hi' in Hk. injection Hk as <-. by apply settles_status. }
  destruct (body s1) as [[[]|e] s2]; [exact Hbody|]. destruct (eqb e IntegrityError); [|exact Hbody].
  rewrite bind_rollback. intros Hs. split; [by apply Hbody | reflexivity].
Qed.

Lemma as_http_state {A} (m : DB A) s : (as_http m s).2 = (m s).2.
Proof. unfold as_http, try_except. destruct (m s) as [a s1]. destruct a as [a|e]; [done|]. by destruct e. Qed.
Lemma key_event_evolves limit now w agent ty d sv details :
  respects (evolves (keys_step limit now)) (key_event w agent ty d sv details).
Proof.
  unfold key_event. apply respects_bind; [apply _ | apply record_event_evolves; apply _ | intros _; walk].
Qed.

(** Management of the keys of an agent, and their use. *)
Inductive key_request : Type :=
  | AddKey (agent : uuid) (payload : SigningKeyCreate)
  | RotateKey (agent : uuid) (key_id : string) (payload : SigningKeyCreate)
  | RevokeKey (agent : uuid) (key_id : string)
  | ListKeys (agent : uuid).
Inductive keyring_op : Type :=
  | Manage (cl : caller) (org : option uuid) (r : key_request)
  | UseKeys (o : signing_op).
Definition handle_key (cl : caller) (settings : signing_settings) (w : WorkspaceContext) (r : key_request) : DB unit :=
  match r with
  | AddKey agent payload => add_key cl agent payload w settings ;; mret tt
  | RotateKey agent key_id payload => rotate cl agent key_id payload w settings ;; mret tt
  | RevokeKey agent key_id => revoke cl agent key_id w ;; mret tt
  | ListKeys agent => list_keys agent w ;; mret tt
  end.
Definition perform_keyring (settings : signing_settings) (o : keyring_op) : DB (option (string * string * string)) :=
  match o with
  | Manage cl org r => w ← get_workspace_context cl org; handle_key cl settings w r ;; mret None
  | UseKeys o => perform settings o
  end.

Lemma agent_loaded {B} (R : relation tables) `{!PreOrder R} agent w b (k : Agent → DB B) s :
  (∀ a, evolves R s (k a s).2) → evolves R s ((_agent agent w b ≫= k) s).2.
Proof.
  intros Hk. unfold _agent, require. rewrite bind_assoc. past Hcan. rewrite bind_get_or.
  by destruct (agents (cur s) !! agent) as [a|]; [destruct (_ && _)|].
Qed.
Lemma key_loaded {B} (R : relation tables) `{!PreOrder R} agent key_id (k : AgentSigningKey → DB B) s :
  (∀ i key, key_table (cur s) !! i = Some key → evolves R s (k key s).2) → evolves R s ((_key agent key_id ≫= k) s).2.
Proof.
  intros Hk. unfold _key. rewrite bind_get_or. destruct (scalar _ _) as [key|] eqn:Hkey; [|done].
  apply scalar_Some in Hkey as (i & Hi & _). by apply (Hk i).
Qed.
Lemma revoke_key_step limit key s : evolves (keys_step limit (db_now s)) s (revoke_key key s).2.
Proof.
  unfold revoke_key. rewrite bind_get_or. destruct (key_table (cur s) !! _) as [k|]; [|done].
  destruct (negb _); [|done]. rewrite bind_now. apply evolves_write_here; [apply _ | | walk].
  apply keys_alter. intros _ k' _. apply settles_revoked.
Qed.

Ltac loaded a H := apply agent_loaded; [apply _ | intros a]; unfold require_recent_step_up; rewrite ?bind_assoc, ?bind_now; past H.
Lemma handle_key_step cl settings w r s :
  evolves (keys_step (agent_max_active_signing_keys settings) (db_now s)) s (handle_key cl settings w r s).2.
Proof.
  destruct r as [agent payload|agent key_id payload|agent key_id|agent]; cbn [handle_key];
    (apply evolves_then; [apply _ | | intros ?; walk]).
  - unfold add_key. loaded a Hstep. apply evolves_then; [apply _ | rewrite as_http_state; by apply register_step | intros key].
    apply respects_bind; [apply _ | apply key_event_evolves | intros; walk].
  - unfold rotate. loaded a Hstep. apply key_loaded; [apply _ |]. intros i old Hi. past Huse. apply negb_false_iff in Huse.
    apply evolves_then; [apply _ | | intros key; apply respects_bind; [apply _ | apply key_event_evolves | intros; walk]].
    rewrite as_http_state. apply register_step. intros o [= <-]. eauto.
  - unfold revoke. loaded a Hstep. apply key_loaded; [apply _ |]. intros i key Hi. apply evolves_then; [apply _ | apply revoke_key_step |].
    intros k. apply respects_bind; [apply _ | | intros; walk]. destruct (negb _); [apply key_event_evolves | walk].
  - unfold list_keys. apply agent_loaded; [apply _ |]. intros a. rewrite bind_now, bind_query. destruct (0 <? _)%nat; [|done].
    rewrite bind_assoc. apply evolves_write_here; [apply _ | | walk]. apply signing_update. intros k Hk.
    unfold lapsed in Hk. reflect. destruct Hk as [[_ Hu] _]. by apply settles_status.
Qed.

Lemma nonces_keep_keys limit now f t : keys_step limit now t (upd_nonces f t).
Proof. by apply signing_same. Qed.
Lemma check_keys_step limit now env settings version expected agent org text h :
  respects (evolves (keys_step limit now)) (check_signed env settings version expected agent org text h).
Proof.
  unfold check_signed, _accept_nonce, record_nonce.
  walk; first [apply evolves_write; [apply _ | intros t; apply nonces_keep_keys]
    | apply evolves_insert; [apply _ | intros t _; apply nonces_keep_keys]
    | apply evolves_write; [apply _ | intros t; apply keys_alter; intros _ k _; apply settles_used]].
Qed.
Lemma use_step limit now settings o : respects (evolves (keys_step limit now)) (perform settings o).
Proof.
  destruct o; cbn [perform]; unfold verify_request, verify_cross_org_request_v2, cleanup_expired_nonces;
    pose proof (check_keys_step limit now);
    walk; first [done | apply evolves_write; [apply _ | intros t; apply nonces_keep_keys]].
Qed.

Record keyring_step : Type := MkKeyStep { ks_draws : nat; ks_now : time; ks_op : keyring_op }.
Definition keyring_outcome (settings : signing_settings) (t : tables) (st : keyring_step) :
    option (string * string * string) * tables :=
  let '(r, t') := run_request (perform_keyring settings (ks_op st)) t (ks_draws st) (ks_now st) in (accepted_of r, t').
Definition keyring_trace (settings : signing_settings) (t : tables) (sts : list keyring_step) : tables :=
  fold_left (λ t st, (keyring_outcome settings t st).2) sts t.
(** The times of the requests, which do not decrease, and the last of them. *)
Fixpoint times_from (now : time) (sts : list keyring_step) : Prop :=
  match sts with [] => True | st :: sts => now <= ks_now st ∧ times_from (ks_now st) sts end.
Definition last_time (now : time) (sts : list keyring_step) : time := fold_left (λ _ st, ks_now st) sts now.

Lemma keyring_step_ok settings t st :
  keys_step (agent_max_active_signing_keys settings) (ks_now st) t (keyring_outcome settings t st).2.
Proof.
  unfold keyring_outcome, run_request. set (s := open_session t (ks_draws st) (ks_now st)).
  assert (Hev : evolves (keys_step (agent_max_active_signing_keys settings) (db_now s)) s (perform_keyring settings (ks_op st) s).2).
  { destruct (ks_op st) as [cl org r|o]; cbn [perform_keyring]; [|apply use_step].
    rewrite bind_run. destruct (get_workspace_context cl org s) as [[w|e] s1] eqn:Hw.
    - apply get_workspace_same in Hw as ->. apply evolves_then; [apply _ | apply handle_key_step | intros; walk].
    - pose proof (get_workspace_evolves (keys_step (agent_max_active_signing_keys settings) (db_now s)) cl org) as Hev.
      specialize (Hev ltac:(intros f t'; by apply signing_same) s). by rewrite Hw in Hev. }
  destruct (perform_keyring settings (ks_op st) s) as [r s']. simpl in *. by apply Hev.
Qed.

Lemma within_later limit now now' t : now <= now' → within limit now t → within limit now' t.
Proof.
  intros Hle Hw agent. specialize (Hw agent). unfold count_keys, select_rows in *.
  enough (length (select_where (counted agent now') (rows (key_table t))) ≤
    length (select_where (counted agent now) (rows (key_table t))))%nat by lia.
  clear Hw. induction (rows (key_table t)) as [|k l IH]; simpl; [lia|].
  assert (Hk : counted agent now' k = true → counted agent now k = true).
  { unfold counted. rewrite !andb_true_iff, !negb_true_iff. intros [Hin He]. split; [done|].
    unfold expired_at in *. destruct (sk_expires_at k) as [e|]; [|done]. reflect. lia. }
  destruct (counted agent now' k); [rewrite Hk by done; simpl; lia | destruct (counted agent now k); simpl; lia].
Qed.

Lemma keyring_kept settings t now sts :
  keyed_keys t → within (agent_max_active_signing_keys settings) now t → times_from now sts →
  let t' := keyring_trace settings t sts in
  keyed_keys t' ∧ within (agent_max_active_signing_keys settings) (last_time now sts) t' ∧ settled_keys t t'.
Proof.
  revert t now. induction sts as [|st sts IH]; intros t now Hkey Hw Hclock.
  - split_and!; [done | done |]. intros i k Hi Hst. by exists k.
  - destruct Hclock as [Hle Hclock].
    destruct (keyring_step_ok settings t st Hkey) as (Hkey' & Hset & Hw').
    destruct (IH _ (ks_now st) Hkey' (Hw' (within_later _ _ _ _ Hle Hw)) Hclock) as (K1 & K2 & K3).
    split_and!; [exact K1 | exact K2 |]. intros i k Hi Hst. destruct (Hset i k Hi Hst) as (k1 & Hi1 & Hst1 & Hn1).
    destruct (K3 i k1 Hi1 Hst1) as (k2 & Hi2 & Hst2 & Hn2). exists k2. split_and!; [exact Hi2 | done | congruence].
Qed.

(** C34. Under any sequence of registrations, rotations, revocations, listings and signed
    requests, no agent has more usable keys than the limit, key names and public keys
    stay unique, and a revoked or expired key never becomes usable again. *)
Theorem keys_within_limit settings t now sts :
  keyed_keys t → within (agent_max_active_signing_keys settings) now t → times_from now sts →
  let t' := keyring_trace settings t sts in
  keyed_keys t' ∧ within (agent_max_active_signing_keys settings) (last_time now sts) t' ∧ settled_keys t t'.
Proof. apply keyring_kept. Qed.

(** An accepted request was signed with a key in use. *)
Definition key_in_use (t : tables) (key_id : string) : Prop :=
  ∃ i k, key_table t !! i = Some k ∧ sk_key_id k = key_id ∧ (sk_status k = SkActive ∨ sk_status k = SkRotating).
Lemma perform_in_use settings o s kid nonce ts s' : dead s = false →
  perform settings o s = (Ok (Some (kid, nonce, ts)), s') → key_in_use (cur s) kid.
Proof.
  intros Hd. assert (Hg : ∀ version expected agent org text h now,
    genuine settings version expected agent org text h (cur s) now → key_in_use (cur s) (sh_key_id h)).
  { intros version expected agent org text h now (_ & _ & _ & sa & i & key & _ & _ & Hi & Hn & _ & _ & Hst & _). by exists i, key. }
  destruct o as [org user env a h b m p raw | env so ta sorg torg h b m p | batch]; cbn [perform]; rewrite bind_run.
  - destruct (verify_request _ _ _ _ _ _ _ _ _ _ s) as [[[r|]|] s1] eqn:Hv; try done.
    destruct (request_sound _ _ _ _ _ _ _ _ _ _ _ _ _ Hd Hv) as (ag & hv & _ & _ & Hh & -> & Hgen).
    unfold spent. rewrite Hh. cbn. intros [= <- _ _ _]. by eapply Hg.
  - unfold verify_cross_org_request_v2, spent. destruct (header_values h) as [hv|]; [|done].
    destruct (check_signed _ _ _ _ _ _ _ _ s) as [[kid'|e] s1] eqn:Hc; [|done].
    cbn. intros [= <- _ _ _]. destruct (check_ok _ _ _ _ _ _ _ _ _ _ _ Hd Hc) as (_ & Hgen & _). by eapply Hg.
  - by destruct (cleanup_expired_nonces batch s) as [[]].
Qed.

(** A key that was revoked or has been marked expired is never accepted again, whatever
    happens in between. *)
Theorem settled_key_never_accepted settings t now sts st id k nonce ts :
  keyed_keys t → within (agent_max_active_signing_keys settings) now t → times_from now sts →
  key_table t !! id = Some k → sk_status k = SkRevoked ∨ sk_status k = SkExpired →
  (keyring_outcome settings (keyring_trace settings t sts) st).1 ≠ Some (sk_key_id k, nonce, ts).
Proof.
  intros Hkey Hw Hclock Hid Hst.
  destruct (keyring_kept settings t now sts Hkey Hw Hclock) as ([_ Hun] & _ & Hset).
  destruct (Hset id k Hid Hst) as (k' & Hid' & Hst' & Hn'). set (t' := keyring_trace settings t sts) in *.
  unfold keyring_outcome, run_request. set (s := open_session t' (ks_draws st) (ks_now st)).
  destruct (perform_keyring settings (ks_op st) s) as [r s'] eqn:Hp. destruct r as [[x|]|]; [|done|done]. cbn.
  intros [= ->]. destruct (ks_op st) as [cl org r|o]; cbn [perform_keyring] in Hp.
  - apply bind_Ok in Hp as (w & s1 & _ & Hp). by apply bind_Ok in Hp as (? & s2 & _ & [= Hp _]).
  - destruct (perform_in_use settings o s (sk_key_id k) nonce ts s' eq_refl Hp) as (j & kj & Hj & Hname & Hu).
    change (key_table t' !! j = Some kj) in Hj.
    rewrite <- Hn' in Hname. assert (j = id) as -> by (eapply Hun; [exact Hj | exact Hid' | by left]).
    rewrite Hid' in Hj. injection Hj as <-. destruct Hst' as [E|E], Hu as [F|F]; congruence.
Qed.
End handlers.

(** ** Witnesses *)

Local Existing Instance AplParser.fixed_loaders.
Local Existing Instance SocProps.no_services.
Local Existing Instance SocProps.no_ambient.
Local Existing Instance Siem.soc_sinks.
Lemma keys_sinks limit now : SinksRespect (keys_step limit now).
Proof. apply Siem.soc_sinks_respect; [apply _ | |]; intros f t; by apply signing_same. Defined.

(** A toy scheme: a signature repeats the public key. *)
Definition repeating_scheme : Ed25519 :=
  {| ed25519_key _ := true; ed25519_verify raw sig _ := eqb sig (raw +:+ raw) |}.
Local Existing Instance repeating_scheme.

Fixpoint times_of (n : nat) (c : ascii) : string := match n with O => "" | S n => String c (times_of n c) end.
Definition sample_raw : string := times_of 32 "k".
Definition sample_key_id : string := "key_ag_" +:+ times_of 24 "0".
Definition sample_key (st : AgentSigningKeyStatus) : AgentSigningKey :=
  MkSigningKey 300 sample_key_id 1 (Some 50%N) "Ed25519" (b64encode sample_raw) "digest" st 0 0 None None None None.
Definition keyring (st : AgentSigningKeyStatus) : tables :=
  upd_signing_keys (λ _, keyed sk_id [sample_key st]) (tables_with [sample_agent 1] [] []).
Definition sample_headers (n : string) : option string :=
  find_first (λ '(k, _), eqb k n)
    [("X-Agent-ID", "agent-1"); ("X-Agent-Key-ID", sample_key_id); ("X-Agent-Timestamp", "1970-01-01T01:00:00Z");
     ("X-Agent-Nonce", "nonce_" +:+ times_of 32 "a"); ("X-Agent-Signature", b64encode (sample_raw +:+ sample_raw));
     ("X-Agent-Signature-Version", SIGNATURE_VERSION)] ≫= λ p, Some p.2.
Definition two_keys : signing_settings := MkSigningSettings 2 300.
Definition no_redis : replay_env := MkReplay NoRedisUrl false.
Definition sample_request : signing_op := SignedRequest (Some 50%N) 9 no_redis "agent-1" sample_headers "{}" "POST" "/pay" [].

Lemma verification_sound_witness :
  ∃ s', verify_request (Some 50%N) 9 two_keys no_redis "agent-1" sample_headers "{}" "POST" "/pay" [] (open_session (keyring SkActive) 0 hour)
    = (Ok (Some sample_key_id), s') ∧
  ∃ a h, scalar (λ a, eqb (ag_identifier a) "agent-1") (agents (keyring SkActive)) = Some a ∧ header_values sample_headers = Some h ∧
    genuine two_keys SIGNATURE_VERSION "agent-1" (ag_id a) (ag_organization_id a)
      (canonical_request "POST" "/pay" "agent-1" (sh_key_id h) (sh_timestamp h) (sh_nonce h) "{}") h (keyring SkActive) hour.
Proof.
  eexists. assert (Hrun : verify_request (Some 50%N) 9 two_keys no_redis "agent-1" sample_headers "{}" "POST" "/pay" []
    (open_session (keyring SkActive) 0 hour) = (Ok (Some sample_key_id), _)) by (vm_compute; reflexivity).
  split; [exact Hrun|].
  destruct (verification_sound (Some 50%N) 9 two_keys no_redis "agent-1" sample_headers "{}" "POST" "/pay" []
    (open_session (keyring SkActive) 0 hour) (Some sample_key_id) _ eq_refl Hrun) as (a & h & Ha & _ & Hh & _ & Hg).
  exists a, h. split_and!; [exact Ha | exact Hh | exact Hg].
Defined.

(** The same request twice: the second is refused. *)
Definition sent_twice : list signing_step := [MkStep 0 hour sample_request; MkStep 10 (hour + second) sample_request].
Lemma no_nonces st : unique_nonces (keyring st).
Proof. apply NoDup_nil_2. Qed.
Lemma accepted_at_most_once_witness :
  ∃ x, outcomes two_keys (keyring SkActive) sent_twice = [Some x; None] ∧
    (∀ j, outcomes two_keys (keyring SkActive) sent_twice !! j = Some (Some x) → 0%nat = j).
Proof.
  eexists. assert (Hrun : outcomes two_keys (keyring SkActive) sent_twice = [Some _; None]) by (vm_compute; reflexivity).
  split; [exact Hrun|]. intros j Hj.
  refine (accepted_at_most_once two_keys (keyring SkActive) sent_twice hour 0 j _ (no_nonces SkActive) _ _ Hj).
  - split; [reflexivity|]. split; [|done]. unfold hour, second. cbn. lia.
  - by rewrite Hrun.
Defined.

Lemma one_key st : keyed_keys (keyring st).
Proof.
  assert (Hk : ∀ i k, key_table (keyring st) !! i = Some k → i = 300%N ∧ k = sample_key st).
  { intros i k Hi. apply keyed_lookup in Hi as [Hi Hk]. apply list_elem_of_singleton in Hk as ->. by rewrite <- Hi. }
  split; [by intros i k (-> & ->)%Hk|]. intros i j a b (-> & _)%Hk (-> & _)%Hk. done.
Qed.
Lemma one_key_within st : within 2 0 (keyring st).
Proof.
  intros agent. unfold count_keys, select_rows.
  assert (Hr : rows (key_table (keyring st)) = [sample_key st]) by (vm_compute; reflexivity).
  rewrite Hr. simpl. destruct (counted _ _ _); simpl; lia.
Qed.
(** The owner, who has just proved who they are, rotates the key and then revokes the old one. *)
Definition stepped_up (now : time) : caller :=
  MkCaller 9 (Some (MkAuthSession 1 9 "h" "password" None (Some now) "web" "" None now now (now + day) None)) now None.
Definition other_raw : string := times_of 32 "j".
Definition rotation : list keyring_step :=
  [MkKeyStep 0 hour (Manage (stepped_up hour) (Some 50%N) (RotateKey 1 sample_key_id (MkKeyCreate (b64encode other_raw) None)));
   MkKeyStep 20 (hour + second) (Manage (stepped_up hour) (Some 50%N) (RevokeKey 1 sample_key_id))].
Definition with_organization (t : tables) : tables :=
  upd_identity (on_organizations (λ _, keyed og_id [MkOrganization 50 0 "Org" 9 true "APPROVED"])) t.

Lemma rotation_times : times_from 0 rotation.
Proof. vm_compute. by split_and!. Qed.
Definition owned_keyring : tables := with_organization (keyring SkActive).
Lemma owned_one_key : keyed_keys owned_keyring ∧ within (agent_max_active_signing_keys two_keys) 0 owned_keyring.
Proof. split; [exact (one_key SkActive) | exact (one_key_within SkActive)]. Qed.
Lemma keys_within_limit_witness :
  (within (agent_max_active_signing_keys two_keys) (last_time 0 rotation) (keyring_trace two_keys owned_keyring rotation) ∧
   settled_keys owned_keyring (keyring_trace two_keys owned_keyring rotation)) ∧
  map (λ k, (sk_id k, sk_status k)) (rows (key_table (keyring_trace two_keys owned_keyring rotation))) =
    [(300, SkRevoked); (1001, SkActive)]%N.
Proof.
  split; [|vm_compute; reflexivity].
  apply (keys_within_limit keys_sinks two_keys owned_keyring 0 rotation (proj1 owned_one_key) (proj2 owned_one_key) rotation_times).
Defined.

Lemma settled_key_never_accepted_witness :
  (keyring_outcome two_keys (keyring SkRevoked) (MkKeyStep 0 hour (UseKeys sample_request))).1
    ≠ Some (sample_key_id, "nonce_" +:+ times_of 32 "a", "1970-01-01T01:00:00Z") ∧
  (keyring_outcome two_keys (keyring SkActive) (MkKeyStep 0 hour (UseKeys sample_request))).1
    = Some (sample_key_id, "nonce_" +:+ times_of 32 "a", "1970-01-01T01:00:00Z").
Proof.
  split; [|vm_compute; reflexivity].
  apply (settled_key_never_accepted keys_sinks two_keys (keyring SkRevoked) 0 [] (MkKeyStep 0 hour (UseKeys sample_request)) 300
    (sample_key SkRevoked) (("nonce_" +:+ times_of 32 "a")) "1970-01-01T01:00:00Z" (one_key SkRevoked) (one_key_within SkRevoked) I);
    [vm_compute; reflexivity | by left].
Defined.
End SigningProps.
