(* ===== verification/Lifecycle.v ===== *)
(** The agent lifecycle state machine: [backend/app/services/agent_lifecycle.py].
    [transition_lifecycle] is one request step on the store; [VALID_TRANSITIONS]
    is its transition matrix, [evaluate_promotion_checklist] its checklist and
    [execute_retirement_cleanup] the teardown of a retired agent's credentials
    and delegations. *)
From Stdlib Require Import Ascii.
From S2P Require Import Prelude.
From S2P Require Import PyStr.
From S2P Require Import PyFloat.
From S2P Require Import PyVal.
From S2P Require Import PyDecimal.
From S2P Require Import Models.
From S2P Require Import Store.
From S2P Require Import Samples.

Local Open Scope Z_scope.

Module Lifecycle.

(** ** The transition matrix *)

Definition VALID_TRANSITIONS : list (string * list string) :=
  let v := AgentStatus_value in
  [ (v DRAFT, [v REGISTERED; v RETIRED]);
    (v REGISTERED, [v DRAFT; v REVIEW_REQUIRED; v ACTIVE; v RETIRED]);
    (v REVIEW_REQUIRED, [v REGISTERED; v APPROVED; v RETIRED]);
    (v APPROVED, [v ACTIVE; v REVIEW_REQUIRED; v RETIRED]);
    (v ACTIVE, [v SUSPENDED; v REVIEW_REQUIRED; v RETIREMENT_PENDING; v RETIRED]);
    (v SUSPENDED, [v ACTIVE; v RETIREMENT_PENDING; v RETIRED]);
    (v RETIREMENT_PENDING, [v RETIRED; v SUSPENDED; v ACTIVE]);
    (v RETIRED, []);
    (v INACTIVE, [v REGISTERED; v ACTIVE; v RETIRED]);
    (v REVOKED, []) ].

(** A status argument is an enumeration member or any text. *)
Inductive status_arg : Type :=
  | StatusEnum (s : AgentStatus)
  | StatusText (s : string).

Definition normalize_status (status : status_arg) : string :=
  match status with
  | StatusEnum s => AgentStatus_value s
  | StatusText s =>
      let val := py_lower (py_strip s) in
      if eqb val "inactive"%string then AgentStatus_value REGISTERED
      else if eqb val "revoked"%string then AgentStatus_value RETIRED
      else val
  end.

Definition in_list (s : string) (l : list string) : bool := bool_decide (s ∈ l).

(** [x or default] on an optional text. *)
Definition str_or (o : option string) (d : string) : string :=
  match o with Some s => if eqb s ""%string then d else s | None => d end.

(** ** Governance policy *)

Definition default_policy (org : option uuid) (strict : bool) : AgentGovernancePolicy :=
  MkGovernancePolicy org 90 AlertOnly 90 strict strict strict.

(** Without an organization: a transient lenient policy.  With one: its stored
    policy, or a strict one created and committed on the spot. *)
Definition get_governance_policy (organization_id : option uuid) : DB AgentGovernancePolicy :=
  match organization_id with
  | None => mret (default_policy None false)
  | Some org =>
      found ← query (λ t, governance_policies t !! org);
      match found with
      | Some policy => mret policy
      | None =>
          let policy := default_policy (Some org) true in
          write (upd_governance_policies <[org := policy]>) ;;
          commit ;;
          mret policy
      end
  end.

(** ** Promotion checklist *)

Definition valid_classifications : list string := ["LOW"; "MEDIUM"; "HIGH"; "CRITICAL"]%string.

(** The owner check of the source cannot fail: [owner_id] is not nullable. *)
Definition evaluate_promotion_checklist (agent : Agent) (policy : AgentGovernancePolicy)
    : bool * list string :=
  let errors :=
    (if eqb (ag_name agent) ""%string || (String.length (py_strip (ag_name agent)) <? 3)%nat
     then ["Agent name must be at least 3 characters."%string] else []) ++
    (if gp_require_purpose_on_promotion policy then
       match ag_purpose agent with
       | Some p => if eqb p ""%string || (String.length (py_strip p) <? 10)%nat
                   then ["Business purpose description must be at least 10 characters."%string] else []
       | None => ["Business purpose description must be at least 10 characters."%string]
       end
     else []) ++
    (if gp_require_classification_on_promotion policy then
       if in_list (py_upper (ag_risk_classification agent)) valid_classifications then []
       else [("Risk classification must be one of {" +:+
              str_join ", " (map str_repr valid_classifications) +:+ "}.")%string]
     else [])
  in ((length errors =? 0)%nat, errors).

(** ** Retirement *)

Record RetirementCheck : Type := MkRetirementCheck {
  rc_can_retire : bool;
  rc_has_active_dependencies : bool;
  rc_incoming_ids : list uuid;
  rc_outgoing_ids : list uuid;
  rc_credential_ids : list string;
  rc_summary : string
}.

Definition active_incoming (t : tables) (a : uuid) : list AgentDelegation :=
  select_rows (λ d, eqb (dl_child_agent_id d) a && eqb (dl_status d) DlgActive) (delegations t).
Definition active_outgoing (t : tables) (a : uuid) : list AgentDelegation :=
  select_rows (λ d, eqb (dl_parent_agent_id d) a && eqb (dl_status d) DlgActive) (delegations t).
Definition active_creds (t : tables) (a : uuid) : list AgentCredential :=
  select_rows (λ c, eqb (cr_subject_agent_id c) a && eqb (cr_status c) CredActive) (credentials t).

Definition check_retirement_dependencies (agent_id : uuid) : DB RetirementCheck :=
  query (λ t,
    let incoming := active_incoming t agent_id in
    let outgoing := active_outgoing t agent_id in
    let creds := active_creds t agent_id in
    let blocking :=
      (if (length incoming =? 0)%nat then [] else [(str_of_nat (length incoming) +:+ " active incoming delegation(s)")%string]) ++
      (if (length outgoing =? 0)%nat then [] else [(str_of_nat (length outgoing) +:+ " active outgoing delegation(s)")%string]) ++
      (if (length creds =? 0)%nat then [] else [(str_of_nat (length creds) +:+ " active credential(s)")%string])
    in
    MkRetirementCheck true (negb (length blocking =? 0)%nat)
      (map dl_id incoming) (map dl_id outgoing) (map cr_credential_id creds)
      (if (length blocking =? 0)%nat then "No active dependencies."%string else str_join "; " blocking)).

Definition touches (a : uuid) (d : AgentDelegation) : bool :=
  (eqb (dl_parent_agent_id d) a || eqb (dl_child_agent_id d) a) && eqb (dl_status d) DlgActive.
Definition subject_of (a : uuid) (c : AgentCredential) : bool :=
  eqb (cr_subject_agent_id c) a && eqb (cr_status c) CredActive.

Definition add_security_event (e : SecurityEvent) : DB unit :=
  insert_checked (λ _, opt_check (fits 255) (se_description e))
    (upd_security_events (λ l, l ++ [e])).

Definition actor_text (acting_user_id : option uuid) : pyval :=
  VStr (match acting_user_id with Some u => uuid_str u | None => "system" end).
Definition opt_str (o : option string) : pyval :=
  match o with Some s => VStr s | None => VNone end.

Definition execute_retirement_cleanup (agent : Agent) (acting_user_id : option uuid)
    (reason : option string) (now_utc : time) : DB unit :=
  creds ← query (λ t, active_creds t (ag_id agent));
  write (upd_credentials (update_where (subject_of (ag_id agent)) (set_cr_revoked now_utc AGENT_RETIRED))) ;;
  dels ← query (λ t, select_rows (touches (ag_id agent)) (delegations t));
  write (upd_delegations (update_where (touches (ag_id agent)) (set_dl_status DlgRevoked))) ;;
  match ag_organization_id agent with
  | Some org =>
      now ← now_db;
      add_security_event
        (with_scope (Some org) None None (with_text (Some ("Agent '" +:+ ag_name agent +:+ "' (" +:+ ag_identifier agent +:+
             ") was permanently retired: " +:+ str_or reason "Safe decommission.")%string)
          [("agent_id", VStr (uuid_str (ag_id agent)));
             ("agent_identifier", VStr (ag_identifier agent));
             ("retired_by", actor_text acting_user_id);
             ("credentials_revoked", VInt (Z.of_nat (length creds)));
             ("delegations_terminated", VInt (Z.of_nat (length dels)));
             ("reason", opt_str reason)]%string
          (security_event "agent_retired" "info" now)))
  | None => mret tt
  end.

(** ** The transition *)

Definition save_agent (a : Agent) : DB unit := write (upd_agents <[ag_id a := a]>).

Definition is_status (s : string) (a : AgentStatus) : bool := eqb s (AgentStatus_value a).

Definition suspension_event (agent : Agent) (org : uuid) (acting_user_id : option uuid)
    (reason : option string) (now : time) : SecurityEvent :=
  with_scope (Some org) None None (with_text (Some ("Agent '" +:+ ag_name agent +:+ "' (" +:+ ag_identifier agent +:+
       ") was suspended: " +:+ str_or reason "No reason provided.")%string)
    [("agent_id", VStr (uuid_str (ag_id agent)));
       ("agent_identifier", VStr (ag_identifier agent));
       ("suspended_by", actor_text acting_user_id);
       ("reason", opt_str reason)]%string
    (security_event "agent_suspended" "warning" now)).

(** Lines 217 to 257: what entering the next status does to the agent's row. *)
Definition apply_status (agent : Agent) (policy : AgentGovernancePolicy) (next_status : string)
    (acting_user_id : option uuid) (reason : option string) (now_utc : time) : DB unit :=
  if is_status next_status ACTIVE then
    let agent :=
      match ag_certified_until agent with
      | None =>
          let until := Some (now_utc + gp_periodic_review_days policy * day) in
          set_ag_certification until until "CERTIFIED" agent
      | Some _ => agent
      end in
    save_agent (set_ag_status ACTIVE agent)
  else if is_status next_status SUSPENDED then
    save_agent (set_ag_status SUSPENDED agent) ;;
    match ag_organization_id agent with
    | Some org =>
        now ← now_db;
        add_security_event (suspension_event agent org acting_user_id reason now)
    | None => mret tt
    end
  else if is_status next_status RETIRED then
    execute_retirement_cleanup agent acting_user_id reason now_utc ;;
    save_agent (set_ag_status RETIRED agent)
  else
    match find_first (is_status next_status) AgentStatus_all with
    | Some item => save_agent (set_ag_status item agent)
    | None => mret tt
    end.

Definition transition_lifecycle (agent : Agent) (target_status : status_arg)
    (acting_user_id : option uuid) (reason : option string) (bypass_checklist : bool)
    (now_utc : time) : DB unit :=
  let curr_status := normalize_status (StatusEnum (ag_status agent)) in
  let next_status := normalize_status target_status in
  if eqb curr_status next_status then mret tt
  else
    raise_if (is_status curr_status RETIRED || is_status curr_status REVOKED)
      (LifecycleTransitionError
        ("Agent '" +:+ ag_name agent +:+ "' is in terminal state '" +:+ curr_status +:+
         "' and cannot be transitioned.") "TERMINAL_STATE" 400) ;;
    let allowed_next := default [] (dict_get curr_status VALID_TRANSITIONS) in
    raise_if (negb (in_list next_status allowed_next))
      (LifecycleTransitionError
        ("Transition from '" +:+ curr_status +:+ "' to '" +:+ next_status +:+
         "' is not permitted. Allowed: " +:+
         py_repr (VList (map VStr (sort_strings allowed_next)))) "INVALID_TRANSITION" 400) ;;
    policy ← get_governance_policy (ag_organization_id agent);
    raise_if
      ((is_status next_status APPROVED || is_status next_status ACTIVE) &&
       is_status curr_status REVIEW_REQUIRED &&
       gp_enforce_separation_of_duties policy && is_some acting_user_id &&
       eqb (Some (ag_owner_id agent)) acting_user_id)
      (LifecycleTransitionError
        "Separation of duties enforced: Agent owner cannot approve their own agent's promotion."
        "SEPARATION_OF_DUTIES_VIOLATION" 403) ;;
    let '(passed, errors) := evaluate_promotion_checklist agent policy in
    raise_if
      ((is_status next_status REVIEW_REQUIRED || is_status next_status APPROVED ||
        is_status next_status ACTIVE) && negb bypass_checklist && negb passed)
      (LifecycleTransitionError ("Agent failed promotion checklist: " +:+ str_join "; " errors)
        "CHECKLIST_FAILED" 400) ;;
    apply_status agent policy next_status acting_user_id reason now_utc ;;
    commit.

(** ** The state machine, as a relation

    One constructor per arrow of the documented matrix that the code admits. *)
Inductive lifecycle_step : AgentStatus → AgentStatus → Prop :=
  | step_register : lifecycle_step DRAFT REGISTERED
  | step_unregister : lifecycle_step REGISTERED DRAFT
  | step_submit old : old = REGISTERED ∨ old = APPROVED ∨ old = ACTIVE →
      lifecycle_step old REVIEW_REQUIRED
  | step_send_back : lifecycle_step REVIEW_REQUIRED REGISTERED
  | step_approve : lifecycle_step REVIEW_REQUIRED APPROVED
  | step_activate old :
      old = REGISTERED ∨ old = APPROVED ∨ old = SUSPENDED ∨ old = RETIREMENT_PENDING ∨
      old = INACTIVE → lifecycle_step old ACTIVE
  | step_suspend old : old = ACTIVE ∨ old = RETIREMENT_PENDING → lifecycle_step old SUSPENDED
  | step_retire_pending old : old = ACTIVE ∨ old = SUSPENDED → lifecycle_step old RETIREMENT_PENDING
  | step_retire old : old ≠ RETIRED → old ≠ REVOKED → lifecycle_step old RETIRED
  | step_legacy : lifecycle_step INACTIVE REGISTERED.

Definition terminal (s : AgentStatus) : Prop := s = RETIRED ∨ s = REVOKED.

(** The rows a decision depends on are the same. *)
Definition core_same (t t' : tables) : Prop :=
  agents t = agents t' ∧ permissions t = permissions t' ∧ delegations t = delegations t' ∧
  requests t = requests t' ∧ credentials t = credentials t' ∧ audit_logs t = audit_logs t'.
#[export] Instance core_same_preorder : PreOrder core_same.
Proof.
  split; [by intros t | intros t1 t2 t3 (?&?&?&?&?&?) (?&?&?&?&?&?)].
  repeat split; congruence.
Qed.

(** The policy that governs the agents of an organization, stored or not yet. *)
Definition effective_policy (t : tables) (org : option uuid) : AgentGovernancePolicy :=
  match org with
  | None => default_policy None false
  | Some o => default (default_policy (Some o) true) (governance_policies t !! o)
  end.

(** *** Lemmas on the matrix *)

Lemma AgentStatus_value_inj a b : AgentStatus_value a = AgentStatus_value b → a = b.
Proof. by destruct a, b. Qed.

Lemma is_status_value a b : is_status (AgentStatus_value a) b = eqb a b.
Proof. by destruct a, b. Qed.

Lemma find_status a : find_first (is_status (AgentStatus_value a)) AgentStatus_all = Some a.
Proof. by destruct a. Qed.

(** Every text the matrix allows names a status the relation reaches. *)
Lemma allowed_step old next :
  in_list next (default [] (dict_get (AgentStatus_value old) VALID_TRANSITIONS)) = true →
  ∃ new, next = AgentStatus_value new ∧ lifecycle_step old new.
Proof.
  unfold in_list. rewrite bool_decide_eq_true, list_elem_of_In.
  destruct old; cbn; intros H; repeat destruct H as [<-|H]; try done;
    match goal with |- ∃ n, ?v = _ ∧ _ =>
      let r := eval vm_compute in (find_first (is_status v) AgentStatus_all) in
      lazymatch r with Some ?n => exists n end
    end;
    (split; [reflexivity|]); constructor; auto 6; done.
Qed.

Lemma step_not_terminal old new : lifecycle_step old new → ¬ terminal old.
Proof. unfold terminal. destruct 1; intuition congruence. Qed.

(** *** Runs of the parts *)

Lemma evolves_get_governance_policy org : respects (evolves core_same) (get_governance_policy org).
Proof. unfold get_governance_policy. walk. apply evolves_write; [apply _|]. by intros t. Qed.

Lemma get_governance_policy_run org s :
  dead s = false → ∃ s1,
    get_governance_policy org s = (Ok (effective_policy (cur s) org), s1) ∧ dead s1 = false.
Proof.
  intros Hs. destruct org as [o|]; simpl; [|by eexists _].
  exec. destruct (governance_policies (cur s) !! o) as [p|]; [by eexists _|].
  exec. by eexists _.
Qed.

Lemma no_commit_apply_status agent policy next who why now :
  respects same_committed (apply_status agent policy next who why now).
Proof.
  unfold apply_status, execute_retirement_cleanup, save_agent, add_security_event. walk.
Qed.

(** What a successful status change did to the open transaction. *)
Lemma apply_status_Ok agent policy new who why now s s' :
  apply_status agent policy (AgentStatus_value new) who why now s = (Ok tt, s') →
  dead s = false → dead s' = false ∧
  (∃ a', agents (cur s') = <[ag_id agent := a']> (agents (cur s)) ∧ ag_status a' = new ∧
     ag_id a' = ag_id agent ∧ ag_owner_id a' = ag_owner_id agent ∧
     ag_organization_id a' = ag_organization_id agent) ∧
  credentials (cur s') = (if eqb new RETIRED then
      update_where (subject_of (ag_id agent)) (set_cr_revoked now AGENT_RETIRED) else id) (credentials (cur s)) ∧
  delegations (cur s') = (if eqb new RETIRED then
      update_where (touches (ag_id agent)) (set_dl_status DlgRevoked) else id) (delegations (cur s)) ∧
  permissions (cur s') = permissions (cur s) ∧ requests (cur s') = requests (cur s) ∧
  audit_logs (cur s') = audit_logs (cur s).
Proof.
  intros H Hs. unfold apply_status in H. rewrite !is_status_value in H.
  destruct (eqb new ACTIVE) eqn:Ha; [|destruct (eqb new SUSPENDED) eqn:Hsu;
    [|destruct (eqb new RETIRED) eqn:Hr]]; reflect; subst.
  - unfold save_agent, write in H. rewrite Hs in H.
    destruct (ag_certified_until agent); simplify_eq/=; (split; [done|]; split; [|done]; by eexists).
  - unfold save_agent in H. exec_in H. destruct (ag_organization_id agent) as [org|] eqn:Horg.
    + unfold add_security_event in H. exec_in H. unfold insert_checked in H. simpl in H.
      rewrite Hs in H. destruct (fits _ _); simplify_eq/=.
      split; [done|]. split; [|done]. by eexists.
    + cbv [mret M_ret] in H. simplify_eq/=. split; [done|]. split; [|done]. by eexists.
  - unfold execute_retirement_cleanup, add_security_event, save_agent in H. exec_in H.
    destruct (ag_organization_id agent) as [org|] eqn:Horg; exec_in H.
    + destruct (opt_check _ _); [|done].
      unfold write in H. simpl in H. rewrite Hs in H. simplify_eq/=.
      split; [done|]. split; [|done]. by eexists.
    + unfold write in H. simpl in H. rewrite Hs in H. simplify_eq/=.
      split; [done|]. split; [|done]. by eexists.
  - rewrite find_status in H. unfold save_agent, write in H. rewrite Hs in H. simplify_eq/=.
    split; [done|]. split; [|done]. by eexists.
Qed.

(** The guards a successful transition has passed, in the order of the code. *)
Lemma transition_Ok agent target who why bypass now s s' :
  transition_lifecycle agent target who why bypass now s = (Ok tt, s') → dead s = false →
  (AgentStatus_value (ag_status agent) = normalize_status target ∧ s' = s) ∨
  ∃ new s1 s2, let policy := effective_policy (cur s) (ag_organization_id agent) in
    normalize_status target = AgentStatus_value new ∧ lifecycle_step (ag_status agent) new ∧
    get_governance_policy (ag_organization_id agent) s = (Ok policy, s1) ∧ dead s1 = false ∧
    (new = APPROVED ∨ new = ACTIVE → ag_status agent = REVIEW_REQUIRED →
       gp_enforce_separation_of_duties policy = true → who ≠ Some (ag_owner_id agent)) ∧
    (new = REVIEW_REQUIRED ∨ new = APPROVED ∨ new = ACTIVE → bypass = false →
       (evaluate_promotion_checklist agent policy).1 = true) ∧
    apply_status agent policy (AgentStatus_value new) who why now s1 = (Ok tt, s2) ∧
    commit s2 = (Ok tt, s').
Proof.
  unfold transition_lifecycle. cbn [normalize_status]. intros H Hs.
  destruct (eqb _ _) eqn:Heq; reflect.
  { cbv [mret M_ret] in H. simplify_eq. by left. }
  right. exec_in H. destruct (_ || _) eqn:Hterm; [done|]. exec_in H.
  destruct (in_list _ _) eqn:Hin; cbn [negb] in H; [|done].
  apply allowed_step in Hin as (new & Hnew & Hstep). rewrite Hnew in H.
  destruct (get_governance_policy_run (ag_organization_id agent) s Hs)
    as (s1 & Hpol & Hs1).
  rewrite bind_run, Hpol in H. set (policy := effective_policy _ _) in *. exec_in H. rewrite !is_status_value in H.
  destruct (_ && eqb (Some _) who) eqn:Hsod in H; [done|].
  destruct (evaluate_promotion_checklist agent policy) as [passed errors] eqn:Hcheck.
  exec_in H. destruct (_ && negb passed) eqn:Hpass in H; [done|].
  apply bind_Ok in H as ([] & s2 & Happ & Hcom).
  exists new, s1, s2. fold policy. cbv zeta. split_and!; try done.
  - intros Hnew' Hold Hen Hwho. fold policy in Hen. subst who. rewrite Hold, Hen, !eqb_refl in Hsod.
    destruct Hnew' as [-> | ->]; vm_compute in Hsod; done.
  - intros Hnew' ->. destruct passed; [done|].
    destruct Hnew' as [-> | [-> | ->]]; vm_compute in Hpass; done.
Qed.

(** A request that fails, for whatever reason, has not touched an agent, a
    credential, a delegation or the history. *)
Lemma transition_failed agent target who why bypass now t n dbnow e t' :
  run_request (transition_lifecycle agent target who why bypass now) t n dbnow = (Err e, t') →
  core_same t t'.
Proof.
  unfold run_request. destruct (transition_lifecycle _ _ _ _ _ _ _) as [r s'] eqn:H.
  intros [= -> <-]. unfold transition_lifecycle in H.
  destruct (eqb _ _); [done|].
  rewrite bind_raise_if in H. destruct (_ || _); [by simplify_eq|].
  rewrite bind_raise_if in H. destruct (negb _); [by simplify_eq|].
  destruct (get_governance_policy_run (ag_organization_id agent) (open_session t n dbnow))
    as (s1 & Hpol & Hs1); [done|].
  rewrite bind_run, Hpol in H. set (policy := effective_policy _ _) in *.
  assert (Hcore : core_same t (committed s1)).
  { pose proof (evolves_get_governance_policy (ag_organization_id agent) (open_session t n dbnow)) as Hev.
    rewrite Hpol in Hev. by apply Hev. }
  rewrite bind_raise_if in H. destruct (_ && eqb (Some _) _); [by simplify_eq|].
  destruct (evaluate_promotion_checklist agent policy) as [passed errors].
  rewrite bind_raise_if in H. destruct (_ && negb passed); [by simplify_eq|].
  rewrite bind_run in H.
  pose proof (no_commit_apply_status agent policy (normalize_status target) who why now s1) as Hnc.
  destruct (apply_status _ _ _ _ _ _ s1) as [[[]|e'] s2]; simpl in Hnc.
  - unfold commit in H. destruct (dead s2); simplify_eq. by rewrite Hnc.
  - simplify_eq. by rewrite Hnc.
Qed.

(** What a successful request did to the committed tables. *)
Lemma transition_request_Ok agent target who why bypass now t n dbnow t' :
  run_request (transition_lifecycle agent target who why bypass now) t n dbnow = (Ok tt, t') →
  (normalize_status target = AgentStatus_value (ag_status agent) ∧ t' = t) ∨
  ∃ agent', let policy := effective_policy t (ag_organization_id agent) in
    normalize_status target = AgentStatus_value (ag_status agent') ∧
    lifecycle_step (ag_status agent) (ag_status agent') ∧
    agents t' = <[ag_id agent := agent']> (agents t) ∧ ag_id agent' = ag_id agent ∧
    ag_owner_id agent' = ag_owner_id agent ∧
    permissions t' = permissions t ∧ requests t' = requests t ∧ audit_logs t' = audit_logs t ∧
    (ag_status agent' = APPROVED ∨ ag_status agent' = ACTIVE → ag_status agent = REVIEW_REQUIRED →
       gp_enforce_separation_of_duties policy = true → who ≠ Some (ag_owner_id agent)) ∧
    (ag_status agent' = REVIEW_REQUIRED ∨ ag_status agent' = APPROVED ∨ ag_status agent' = ACTIVE →
       bypass = false → (evaluate_promotion_checklist agent policy).1 = true) ∧
    (ag_status agent' ≠ RETIRED → credentials t' = credentials t ∧ delegations t' = delegations t).
Proof.
  unfold run_request. destruct (transition_lifecycle _ _ _ _ _ _ _) as [r s'] eqn:H.
  intros [= -> <-].
  apply transition_Ok in H as [[Heq ->] | (new & s1 & s2 & Hn & Hst & Hp & Hd & Hsod & Hck & Ha & Hc)];
    [by left|..|done].
  right. pose proof (evolves_get_governance_policy (ag_organization_id agent) (open_session t n dbnow)) as Hev.
  rewrite Hp in Hev. destruct Hev as [Hev1 Hev2]; [done|]. simpl in Hev1, Hev2.
  apply apply_status_Ok in Ha as (Hd2 & (a' & Hags & <- & Hid & Hown & _) & Hcr & Hdl & Hpm & Hrq & Hal); [|done].
  unfold commit in Hc. rewrite Hd2 in Hc. simplify_eq/=.
  destruct (transitivity Hev1 Hev2) as (E1&E2&E3&E4&E5&E6).
  exists a'. rewrite Hags, Hpm, Hrq, Hal, Hcr, Hdl. split_and!; try congruence; try done.
  intros Hnr. apply eqb_false in Hnr. rewrite Hnr. unfold id. by split.
Qed.

(** *** Properties *)

(** A lifecycle request as the API makes it: the agent is loaded, then moved. *)
Record lifecycle_request : Type := MkLifecycleRequest {
  lr_agent : uuid;
  lr_target : status_arg;
  lr_user : option uuid;
  lr_reason : option string;
  lr_bypass : bool;
  lr_now : time;
  lr_seed : nat
}.
Definition handle_lifecycle (t : tables) (r : lifecycle_request) : result Exc unit * tables :=
  match agents t !! lr_agent r with
  | Some a => run_request (transition_lifecycle a (lr_target r) (lr_user r) (lr_reason r)
                (lr_bypass r) (lr_now r)) t (lr_seed r) (lr_now r)
  | None => (Err AgentNotFound, t)
  end.
Definition lifecycle_trace (t : tables) (rs : list lifecycle_request) : tables :=
  foldl (λ t r, (handle_lifecycle t r).2) t rs.

(** Rows sit under their own identifier. *)
Definition agents_keyed (t : tables) : Prop := ∀ k a, agents t !! k = Some a → ag_id a = k.

Lemma handle_lifecycle_agents t r :
  agents_keyed t →
  agents (handle_lifecycle t r).2 = agents t ∨
  ∃ old new, agents t !! lr_agent r = Some old ∧ lifecycle_step (ag_status old) (ag_status new) ∧
    ag_id new = lr_agent r ∧ ag_owner_id new = ag_owner_id old ∧
    agents (handle_lifecycle t r).2 = <[lr_agent r := new]> (agents t).
Proof.
  intros Hk. unfold handle_lifecycle. destruct (agents t !! lr_agent r) as [a|] eqn:Ha; [|by left].
  pose proof (Hk _ _ Ha) as Hid. destruct (run_request _ _ _ _) as [[[]|e] t'] eqn:H.
  - apply transition_request_Ok in H as [[_ ->] | (a' & _ & Hst & Hags & Hid' & Hown & _)];
      [by left |].
    right. exists a, a'. simpl. rewrite <- Hid. split_and!; congruence.
  - apply transition_failed in H as [Hags _]. by left.
Qed.

Lemma handle_lifecycle_keyed t r : agents_keyed t → agents_keyed (handle_lifecycle t r).2.
Proof.
  intros Hk. destruct (handle_lifecycle_agents t r Hk) as [He | (old & new & _ & _ & Hid & _ & He)];
    intros k a; rewrite He; [apply Hk|].
  rewrite lookup_insert. case_decide; [naive_solver | apply Hk].
Qed.


(** Whatever sequence of lifecycle requests follows, with any users,
    targets and bypass flags, a retired or revoked agent keeps its status. *)
Theorem terminal_absorbing t rs k a :
  agents_keyed t → agents t !! k = Some a → terminal (ag_status a) →
  ∃ a', agents (lifecycle_trace t rs) !! k = Some a' ∧ ag_status a' = ag_status a.
Proof.
  intros Hk Ha Hterm. unfold lifecycle_trace. revert t a Hk Ha Hterm.
  induction rs as [|r rs IH]; intros t a Hk Ha Hterm; simpl; [by exists a|].
  apply IH; [by apply handle_lifecycle_keyed| |done].
  destruct (handle_lifecycle_agents t r Hk) as [-> | (old & new & Hold & Hst & _ & _ & ->)]; [done|].
  rewrite lookup_insert_ne; [done|]. intros <-.
  rewrite Ha in Hold. simplify_eq. by apply step_not_terminal in Hst.
Qed.

Lemma update_where_done {V} (p : V → bool) f (m : gmap uuid V) k v :
  (∀ v, p (f v) = false) → update_where p f m !! k = Some v → p v = false.
Proof.
  intros Hf. rewrite lookup_update_where. destruct (m !! k) as [w|]; simpl; intros; simplify_eq.
  by destruct (p w) eqn:Hp.
Qed.

(** A successful retirement leaves no active credential of the agent and
    no active delegation from or to it, revokes rather than deletes, touches no
    row of another subject and writes no audit entry. *)
Theorem retirement_complete agent who why bypass now t n dbnow t' :
  agents t !! ag_id agent = Some agent → ¬ terminal (ag_status agent) →
  run_request (transition_lifecycle agent (StatusEnum RETIRED) who why bypass now) t n dbnow = (Ok tt, t') →
  (∀ k c, credentials t' !! k = Some c → subject_of (ag_id agent) c = false) ∧
  (∀ k d, delegations t' !! k = Some d → touches (ag_id agent) d = false) ∧
  dom (credentials t') = dom (credentials t) ∧ dom (delegations t') = dom (delegations t) ∧
  (∀ k c, credentials t !! k = Some c → subject_of (ag_id agent) c = false → credentials t' !! k = Some c) ∧
  (∀ k d, delegations t !! k = Some d → touches (ag_id agent) d = false → delegations t' !! k = Some d) ∧
  audit_logs t' = audit_logs t.
Proof.
  unfold run_request. destruct (transition_lifecycle _ _ _ _ _ _ _) as [r s'] eqn:H.
  intros Hag Hnt [= -> <-].
  apply transition_Ok in H as [[Heq ->] | (new & s1 & s2 & Hn & Hst & Hp & Hd & Hsod & Hck & Ha & Hc)];
    [| |done].
  { simpl in Heq. apply (AgentStatus_value_inj _ RETIRED) in Heq. destruct Hnt. by left. }
  simpl in Hn. apply (AgentStatus_value_inj RETIRED) in Hn as <-.
  pose proof (evolves_get_governance_policy (ag_organization_id agent) (open_session t n dbnow)) as Hev.
  rewrite Hp in Hev. destruct Hev as [Hev1 Hev2]; [done|].
  destruct (transitivity Hev1 Hev2) as (_&_&E3&_&E5&E6).
  apply apply_status_Ok in Ha as (Hd2 & _ & Hcr & Hdl & _ & _ & Hal); [|done]. simpl in *.
  change (eqb RETIRED RETIRED) with true in Hcr, Hdl. unfold commit in Hc. rewrite Hd2 in Hc.
  simplify_eq/=. rewrite Hcr, Hdl, Hal, <- E3, <- E5, <- E6. split_and!.
  - intros k c. apply update_where_done. intros v. unfold subject_of. simpl. by rewrite andb_false_r.
  - intros k d. apply update_where_done. intros v. unfold touches. simpl. by rewrite andb_false_r.
  - apply dom_update_where.
  - apply dom_update_where.
  - intros k c Hk Hc. rewrite lookup_update_where, Hk. simpl. by rewrite Hc.
  - intros k d Hk Hc. rewrite lookup_update_where, Hk. simpl. by rewrite Hc.
  - done.
Qed.

(** Organizations have a strict policy unless theirs says otherwise. *)
Definition enforces_sod (t : tables) (agent : Agent) : Prop :=
  ∃ org, ag_organization_id agent = Some org ∧
    gp_enforce_separation_of_duties (effective_policy t (Some org)) = true.

(** Where separation of duties is enforced, the owner of an agent under
    review is refused its approval with status 403, and nothing changes. *)
Theorem separation_of_duties agent why bypass now t n dbnow :
  ag_status agent = REVIEW_REQUIRED → enforces_sod t agent →
  ∃ m t', run_request (transition_lifecycle agent (StatusEnum APPROVED) (Some (ag_owner_id agent))
            why bypass now) t n dbnow
          = (Err (LifecycleTransitionError m "SEPARATION_OF_DUTIES_VIOLATION" 403), t') ∧
          core_same t t'.
Proof.
  intros Hst (org & Horg & Hen).
  destruct (run_request _ t n dbnow) as [r t'] eqn:H.
  assert (Hr : ∃ m, r = Err (LifecycleTransitionError m "SEPARATION_OF_DUTIES_VIOLATION" 403)).
  { unfold run_request, transition_lifecycle in H. cbn [normalize_status] in H. rewrite Hst, Horg in H.
    change (eqb (AgentStatus_value REVIEW_REQUIRED) (AgentStatus_value APPROVED)) with false in H.
    cbv iota in H. rewrite bind_raise_if, !is_status_value in H. cbn [eqb] in H.
    change (eqb REVIEW_REQUIRED RETIRED || eqb REVIEW_REQUIRED REVOKED) with false in H. cbv iota in H.
    rewrite bind_raise_if in H. change (negb (in_list _ _)) with false in H. cbv iota in H.
    destruct (get_governance_policy_run (Some org) (open_session t n dbnow)) as (s1 & Hp & _); [done|].
    rewrite bind_run, Hp, bind_raise_if in H. change (cur (open_session _ _ _)) with t in H.
    rewrite Hen, !eqb_refl in H. simpl in H. simplify_eq. by eexists. }
  destruct Hr as [m ->]. exists m, t'. split; [done|]. by eapply transition_failed.
Qed.

(** Suspending an organization's agent with a reason longer than the
    255 characters of the event's description fails: the emergency action is
    rolled back as a whole and the agent stays active. *)
Theorem suspend_long_reason agent org who why bypass now t n dbnow :
  ag_status agent = ACTIVE → ag_organization_id agent = Some org → (255 < String.length why)%nat →
  ∃ t', run_request (transition_lifecycle agent (StatusEnum SUSPENDED) who (Some why) bypass now) t n dbnow
          = (Err IntegrityError, t') ∧ core_same t t'.
Proof.
  intros Hst Horg Hlen.
  destruct (run_request _ t n dbnow) as [r t'] eqn:H.
  assert (Hr : r = Err IntegrityError); [|subst r; exists t'; split; [done | by eapply transition_failed]].
  unfold run_request, transition_lifecycle in H. cbn [normalize_status] in H. rewrite Hst, Horg in H.
  change (eqb (AgentStatus_value ACTIVE) (AgentStatus_value SUSPENDED)) with false in H.
  cbv iota in H. rewrite bind_raise_if, !is_status_value in H.
  change (eqb ACTIVE RETIRED || eqb ACTIVE REVOKED) with false in H. cbv iota in H.
  rewrite bind_raise_if in H. change (negb (in_list _ _)) with false in H. cbv iota in H.
  destruct (get_governance_policy_run (Some org) (open_session t n dbnow)) as (s1 & Hp & Hd); [done|].
  rewrite bind_run, Hp, bind_raise_if in H. set (policy := effective_policy _ _) in *.
  change (eqb SUSPENDED APPROVED || eqb SUSPENDED ACTIVE) with false in H. cbn [andb] in H.
  destruct (evaluate_promotion_checklist agent policy) as [passed errors].
  rewrite bind_raise_if in H.
  change (eqb SUSPENDED REVIEW_REQUIRED || eqb SUSPENDED APPROVED || eqb SUSPENDED ACTIVE) with false in H.
  cbn [andb] in H. unfold apply_status, save_agent in H. rewrite !is_status_value in H.
  change (eqb SUSPENDED ACTIVE) with false in H. change (eqb SUSPENDED SUSPENDED) with true in H.
  cbv iota in H. rewrite Horg in H. unfold add_security_event in H. exec_in H.
  assert (Hf : opt_check (fits 255) (se_description (suspension_event agent org who (Some why) (db_now s1))) = false).
  { unfold suspension_event, str_or. cbn [with_scope with_text se_description opt_check].
    destruct (eqb why "") eqn:He; reflect; [by subst; simpl in Hlen; lia|].
    unfold fits. rewrite !String_length_append. apply Nat.leb_gt. lia. }
  rewrite Hf in H. by simplify_eq.
Qed.

(** The owner of an agent under review can bring it into service alone,
    although separation of duties is enforced: the review is sent back to
    [registered], from where [active] is one step that the check does not guard. *)
Theorem sod_bypass :
  ∃ t k agent,
    agents t !! k = Some agent ∧ ag_status agent = REVIEW_REQUIRED ∧ enforces_sod t agent ∧
    let ask s := MkLifecycleRequest k (StatusEnum s) (Some (ag_owner_id agent)) None false 0 0 in
    (handle_lifecycle t (ask APPROVED)).1 = Err (LifecycleTransitionError
       "Separation of duties enforced: Agent owner cannot approve their own agent's promotion."
       "SEPARATION_OF_DUTIES_VIOLATION" 403) ∧
    (ag_status <$> agents (lifecycle_trace t [ask REGISTERED; ask ACTIVE]) !! k) = Some ACTIVE.
Proof.
  exists (tables_with [set_ag_status REVIEW_REQUIRED (sample_agent 1)] [] []), 1%N,
    (set_ag_status REVIEW_REQUIRED (sample_agent 1)).
  cbv zeta. split_and!; [reflexivity | reflexivity | exists 50%N; split; vm_compute; reflexivity | vm_compute; reflexivity | vm_compute; reflexivity].
Qed.

(** ** Witnesses *)

Section witnesses.
Let a1 : Agent := set_ag_status ACTIVE (sample_agent 1).
Let t1 : tables := tables_with [a1; sample_agent 2] [] [sample_delegation 7 1 2 None].

Let asks : list lifecycle_request :=
  [MkLifecycleRequest 1 (StatusText " Suspended ") (Some 9%N) None false 0 0;
   MkLifecycleRequest 1 (StatusEnum RETIRED) None (Some "done"%string) false 5 1;
   MkLifecycleRequest 1 (StatusText "active") None None true 6 2].

Lemma keyed_t1 : agents_keyed t1.
Proof.
  intros k a. unfold t1, tables_with, keyed. simpl. rewrite !lookup_insert.
  repeat case_decide; rewrite ?lookup_empty; intros; simplify_eq; done.
Qed.


Lemma terminal_absorbing_witness :
  let t2 := lifecycle_trace t1 (take 2 asks) in
  ∃ a', agents (lifecycle_trace t2 (drop 2 asks)) !! 1%N = Some a' ∧ ag_status a' = RETIRED.
Proof.
  apply (terminal_absorbing _ _ 1 (set_ag_status RETIRED
    (set_ag_status SUSPENDED a1))); [|vm_compute; reflexivity | by left].
  intros k a. simpl. do 2 apply handle_lifecycle_keyed. apply keyed_t1.
Defined.

Lemma retirement_complete_witness :
  ∃ d, delegations (lifecycle_trace t1 [MkLifecycleRequest 1 (StatusEnum RETIRED) None None false 5 1]) !! 7%N = Some d ∧
    touches 1 d = false ∧ dl_status d = DlgRevoked.
Proof.
  set (rq := MkLifecycleRequest 1 (StatusEnum RETIRED) None None false 5 1).
  assert (H : handle_lifecycle t1 rq = (Ok tt, lifecycle_trace t1 [rq])) by (vm_compute; reflexivity).
  destruct (retirement_complete a1 None None false 5 t1 1 5 _ eq_refl ltac:(by intros [|]) H) as (_ & Hd & _).
  destruct (delegations (lifecycle_trace t1 [rq]) !! 7%N) as [d|] eqn:Hk; [|by vm_compute in Hk].
  exists d. split; [reflexivity|]. split; [exact (Hd _ _ Hk)|]. vm_compute in Hk. by injection Hk as <-.
Defined.

Lemma separation_of_duties_witness :
  let a := set_ag_status REVIEW_REQUIRED a1 in
  ∃ m t', run_request (transition_lifecycle a (StatusEnum APPROVED) (Some 9%N) None true 0) t1 0 0
        = (Err (LifecycleTransitionError m "SEPARATION_OF_DUTIES_VIOLATION" 403), t') ∧ core_same t1 t'.
Proof. apply (separation_of_duties (set_ag_status REVIEW_REQUIRED a1)); [reflexivity | exists 50%N; split; reflexivity]. Defined.

Lemma suspend_long_reason_witness :
  ∃ t', run_request (transition_lifecycle a1 (StatusEnum SUSPENDED) None (Some (PyFloat.zeros 300)) false 0) t1 0 0
        = (Err IntegrityError, t') ∧ core_same t1 t'.
Proof. apply (suspend_long_reason a1 50); [reflexivity | reflexivity | vm_compute; lia]. Defined.
End witnesses.

End Lifecycle.
