(* ===== verification/Permissions.v ===== *)
(** Permissions granted to agents, their expiry and revocation:
    [backend/app/services/permissions.py].  Each operation is a request step on
    the store; [now] is the value of [utc_now()] the operation reads. *)
From Stdlib Require Import Ascii.
From S2P Require Import Prelude.
From S2P Require Import PyStr.
From S2P Require Import PyFloat.
From S2P Require Import PyVal.
From S2P Require Import PyDecimal.
From S2P Require Import Models.
From S2P Require Import Schemas.
From S2P Require Import Store.
From S2P Require Import Samples.

Local Open Scope Z_scope.

Module Permissions.

(** ** Scopes *)

(** The agents of an organization, or the personal agents of a user. *)
Definition in_scope (owner_id : uuid) (organization_id : option uuid) (a : Agent) : bool :=
  match organization_id with
  | Some _ => eqb (ag_organization_id a) organization_id
  | None => eqb (ag_owner_id a) owner_id && negb (is_some (ag_organization_id a))
  end.

(** [Permission.agent_id.in_(select(Agent.id).where(scope))] *)
Definition agent_in (t : tables) (scope : Agent → bool) (agent_id : uuid) : bool :=
  match agents t !! agent_id with Some a => scope a | None => false end.

(** The [organization_id] argument of the expiry sweep: [...] or a scope. *)
Inductive org_arg : Type :=
  | AnyOrganization
  | InOrganization (organization_id : option uuid).

Definition due (t : tables) (owner_id : uuid) (checked_at : time) (org : org_arg) (p : Permission) : bool :=
  eqb (pm_status p) PermActive && (pm_expires_at p <=? checked_at) &&
  match org with
  | AnyOrganization => eqb (pm_owner_id p) owner_id
  | InOrganization o => agent_in t (in_scope owner_id o) (pm_agent_id p)
  end.

(** ** Operations *)

Section operations.
Context `{Entropy}.

Definition create_permission (owner_id : uuid) (payload : PermissionCreate) (organization_id : option uuid)
    : DB Permission :=
  agent_exists ← query (λ t, agent_in t (in_scope owner_id organization_id) (pc_agent_id payload));
  raise_if (negb agent_exists) AgentNotFound ;;
  id ← fresh_uuid;
  now ← now_db;
  let permission :=
    {| pm_id := id; pm_created_at := now; pm_updated_at := now; pm_owner_id := owner_id;
       pm_agent_id := pc_agent_id payload; pm_action := pc_action payload;
       pm_resource := pc_resource payload;
       pm_maximum_amount := numeric4 <$> pc_maximum_amount payload;
       pm_currency := pc_currency payload; pm_requires_approval := pc_requires_approval payload;
       pm_allow_delegation := pc_allow_delegation payload; pm_valid_from := pc_valid_from payload;
       pm_expires_at := pc_expires_at payload; pm_status := PermActive |} in
  insert_checked (λ t, permission_checks permission && negb (is_some (permissions t !! id)))
    (upd_permissions <[id := permission]>) ;;
  commit ;;
  mret permission.

Definition expire_owned_permissions (owner_id : uuid) (at_ : time) (organization_id : org_arg) : DB unit :=
  now ← now_db;
  rowcount ← query (λ t, count_where (due t owner_id at_ organization_id) (rows (permissions t)));
  write (λ t, upd_permissions (update_where (due t owner_id at_ organization_id)
    (set_pm_status PermExpired now)) t) ;;
  if (rowcount =? 0)%nat then mret tt else commit.

Definition list_owned_permissions (owner_id : uuid) (organization_id : option uuid) (now_utc : time)
    : DB (list Permission) :=
  expire_owned_permissions owner_id now_utc (InOrganization organization_id) ;;
  query (λ t, order_desc pm_created_at pm_id
    (select_rows (λ p, agent_in t (in_scope owner_id organization_id) (pm_agent_id p)) (permissions t))).

Definition save_permission (p : Permission) : DB unit := write (upd_permissions <[pm_id p := p]>).

Definition get_owned_permission (owner_id permission_id : uuid) (organization_id : option uuid)
    (now_utc : time) : DB (option Permission) :=
  found ← query (λ t, scalar (λ p, eqb (pm_id p) permission_id &&
    agent_in t (in_scope owner_id organization_id) (pm_agent_id p)) (permissions t));
  match found with
  | Some p =>
      if eqb (pm_status p) PermActive && (pm_expires_at p <=? now_utc) then
        now ← now_db;
        let p := set_pm_status PermExpired now p in
        save_permission p ;;
        commit ;;
        mret (Some p)
      else mret (Some p)
  | None => mret None
  end.

Definition revoke_owned_permission (owner_id permission_id : uuid) (organization_id : option uuid)
    (now_utc : time) : DB (option Permission) :=
  found ← get_owned_permission owner_id permission_id organization_id now_utc;
  match found with
  | None => mret None
  | Some p =>
      if eqb (pm_status p) PermActive then
        now ← now_db;
        let p := set_pm_status PermRevoked now p in
        save_permission p ;;
        commit ;;
        mret (Some p)
      else mret (Some p)
  end.

End operations.

(** ** The life of a permission *)

(** What an operation may do to a stored permission: its terms never change, and
    it can only stop being active. *)
Definition same_terms (p p' : Permission) : Prop :=
  pm_id p' = pm_id p ∧ pm_owner_id p' = pm_owner_id p ∧ pm_agent_id p' = pm_agent_id p ∧
  pm_action p' = pm_action p ∧ pm_resource p' = pm_resource p ∧
  pm_maximum_amount p' = pm_maximum_amount p ∧ pm_currency p' = pm_currency p ∧
  pm_requires_approval p' = pm_requires_approval p ∧ pm_allow_delegation p' = pm_allow_delegation p ∧
  pm_valid_from p' = pm_valid_from p ∧ pm_expires_at p' = pm_expires_at p.

Definition permission_le (p p' : Permission) : Prop :=
  same_terms p p' ∧ (pm_status p = PermActive ∨ pm_status p' = pm_status p).
#[export] Instance permission_le_preorder : PreOrder permission_le.
Proof.
  split.
  - intros p. repeat split. by right.
  - intros p1 p2 p3 [(?&?&?&?&?&?&?&?&?&?&?) H12] [(?&?&?&?&?&?&?&?&?&?&?) H23]. split.
    + repeat split; congruence.
    + destruct H12 as [|E12], H23 as [|E23]; [by left | by left | left; congruence | right; congruence].
Qed.

Lemma permission_le_stop s now p : pm_status p = PermActive → permission_le p (set_pm_status s now p).
Proof. intros Hp. split; [repeat split | by left]. Qed.

(** Tables whose permissions only moved along [permission_le], all other rows of
    the decision path unchanged. *)
Definition permissions_evolve (t t' : tables) : Prop :=
  (∀ k p, permissions t !! k = Some p → ∃ p', permissions t' !! k = Some p' ∧ permission_le p p') ∧
  agents t' = agents t ∧ delegations t' = delegations t ∧ requests t' = requests t ∧
  audit_logs t' = audit_logs t.
#[export] Instance permissions_evolve_preorder : PreOrder permissions_evolve.
Proof.
  split.
  - intros t. split; [|done]. intros k p Hp. by exists p.
  - intros t1 t2 t3 (H12 & ? & ? & ? & ?) (H23 & ? & ? & ? & ?). split; [|split_and!; congruence].
    intros k p (p2 & Hp2 & Hle)%H12. apply H23 in Hp2 as (p3 & Hp3 & Hle').
    exists p3. split; [done | by etrans].
Qed.

(** Rows sit under their identifiers, with amounts of four decimals. *)
Definition permissions_keyed (t : tables) : Prop :=
  ∀ k p, permissions t !! k = Some p → pm_id p = k ∧ on_grid (pm_maximum_amount p).

(** The step relation the operations are proved against: keyed tables stay keyed
    and evolve. *)
Definition evolve_keyed (t t' : tables) : Prop :=
  permissions_keyed t → permissions_keyed t' ∧ permissions_evolve t t'.
#[export] Instance evolve_keyed_preorder : PreOrder evolve_keyed.
Proof.
  split.
  - intros t Ht. by split.
  - intros t1 t2 t3 H12 H23 H1. destruct (H12 H1) as [H2 E12]. destruct (H23 H2) as [H3 E23].
    split; [done | by etrans].
Qed.

Lemma evolve_update_where p s now t :
  (∀ q, p q = true → pm_status q = PermActive) →
  evolve_keyed t (upd_permissions (update_where p (set_pm_status s now)) t).
Proof.
  intros Hp Ht. split.
  - intros k q. simpl. rewrite lookup_update_where. destruct (permissions t !! k) as [w|] eqn:Hk; [|done].
    simpl. intros [= <-]. apply Ht in Hk. by destruct (p w).
  - split; [|done]. intros k q Hk. simpl. rewrite lookup_update_where, Hk. simpl. eexists; split; [done|].
    destruct (p q) eqn:Hq; [apply permission_le_stop; auto | reflexivity].
Qed.

(** Saving a row that was read from the table and stopped. *)
Lemma evolve_save p s now t k :
  permissions t !! k = Some p → pm_status p = PermActive →
  evolve_keyed t (upd_permissions <[pm_id p := set_pm_status s now p]> t).
Proof.
  intros Hk Hp Ht. pose proof (Ht _ _ Hk) as [Hid Hg]. subst k. split.
  - intros k q. simpl. rewrite lookup_insert. case_decide; [intros; by simplify_eq | apply Ht].
  - split; [|done]. intros k q Hq. simpl. rewrite lookup_insert. case_decide; subst.
    + rewrite Hk in Hq. simplify_eq. eexists; split; [done|]. by apply permission_le_stop.
    + exists q. split; [done | reflexivity].
Qed.

Section evolution.
Context `{Entropy}.

Lemma create_evolves owner payload org : respects (evolves evolve_keyed) (create_permission owner payload org).
Proof.
  unfold create_permission. walk.
  apply evolves_insert; [apply _|]. intros t [_ Hn]%andb_true_iff. reflect. intros Ht. split.
  - intros k q. simpl. rewrite lookup_insert. case_decide; [|apply Ht].
    intros [= <-]. split; [done | apply on_grid_numeric4].
  - split; [|done]. intros k q Hq. exists q. split; [|reflexivity]. simpl.
    rewrite lookup_insert_ne; [done | congruence].
Qed.

Lemma expire_evolves owner at_ org : respects (evolves evolve_keyed) (expire_owned_permissions owner at_ org).
Proof.
  unfold expire_owned_permissions. walk. apply evolves_write; [apply _|]. intros t.
  apply evolve_update_where. unfold due. intros q Hq. reflect. tauto.
Qed.

Lemma list_evolves owner org now : respects (evolves evolve_keyed) (list_owned_permissions owner org now).
Proof. unfold list_owned_permissions. walk. apply expire_evolves. Qed.

(** Reading a permission: a row of the table, stopped if it was due. *)
Lemma get_owned_run owner pid org now s r s' :
  dead s = false → get_owned_permission owner pid org now s = (r, s') →
  (r = Ok None ∧ s' = s) ∨
  ∃ k p, permissions (cur s) !! k = Some p ∧ pm_id p = pid ∧
    agent_in (cur s) (in_scope owner org) (pm_agent_id p) = true ∧
    ((r = Ok (Some p) ∧ s' = s ∧ (pm_status p = PermActive → now < pm_expires_at p)) ∨
     (let p' := set_pm_status PermExpired (db_now s) p in
      let t' := upd_permissions <[pm_id p := p']> (cur s) in
      pm_status p = PermActive ∧ pm_expires_at p <= now ∧
      r = Ok (Some p') ∧ s' = MkSession t' t' false (seed s) (db_now s))).
Proof.
  intros Hs H0. unfold get_owned_permission in H0. rewrite bind_query in H0.
  destruct (scalar _ _) as [p|] eqn:Hp.
  - apply scalar_Some in Hp as (k & Hk & Hc). reflect. destruct Hc as [Hid Hin].
    right. exists k, p. split_and!; [done..|]. destruct (_ && _) eqn:Hd.
    + right. unfold save_permission in H0. exec_in H0. cbv [mret M_ret] in H0. reflect.
      destruct Hd. injection H0 as <- <-. done.
    + left. cbv [mret M_ret] in H0. simplify_eq. split_and!; [done..|].
      intros Ha. rewrite Ha, eqb_refl in Hd. simpl in Hd. reflect. lia.
  - cbv [mret M_ret] in H0. simplify_eq. by left.
Qed.

(** A row that was read and is active may be stopped and committed. *)
Lemma evolves_stop p k st now (ret : DB (option Permission)) s :
  respects (evolves evolve_keyed) ret →
  permissions (cur s) !! k = Some p → pm_status p = PermActive →
  evolves evolve_keyed s
    ((save_permission (set_pm_status st now p) ≫= λ _, commit ≫= λ _, ret) s).2.
Proof.
  intros Hret Hk Ha. destruct (dead s) eqn:Hs.
  { rewrite bind_run. unfold save_permission, write. rewrite Hs. simpl. reflexivity. }
  unfold save_permission. exec. intros H0.
  assert (H1 : evolve_keyed (committed s) (upd_permissions <[pm_id p := set_pm_status st now p]> (cur s))).
  { etrans; [exact H0 | by eapply evolve_save]. }
  match goal with |- context [ret ?s1] => destruct (Hret s1) as [H2 H3]; [reflexivity|] end.
  simpl in H2. split; [by etrans | done].
Qed.

Lemma get_owned_evolves owner pid org now : respects (evolves evolve_keyed) (get_owned_permission owner pid org now).
Proof.
  intros s. unfold get_owned_permission. rewrite bind_query.
  destruct (scalar _ _) as [p|] eqn:Hp; [|reflexivity].
  apply scalar_Some in Hp as (k & Hk & _). destruct (_ && _) eqn:Hd; [|reflexivity].
  reflect. destruct Hd. rewrite bind_now. by eapply (evolves_stop _ _ _ _ (mret _)); [walk|..].
Qed.

Lemma revoke_evolves owner pid org now : respects (evolves evolve_keyed) (revoke_owned_permission owner pid org now).
Proof.
  intros s. pose proof (get_owned_evolves owner pid org now s) as Hget.
  unfold revoke_owned_permission. rewrite bind_run.
  destruct (get_owned_permission owner pid org now s) as [r s1] eqn:Hr. simpl in Hget.
  destruct (dead s) eqn:Hs.
  { unfold get_owned_permission in Hr. rewrite bind_query in Hr.
    destruct (scalar _ _) as [p|] eqn:Hp in Hr; [|cbv [mret M_ret] in Hr; simplify_eq; done].
    apply scalar_Some in Hp as (k & Hk & _).
    destruct (_ && _) eqn:Hd in Hr.
    - rewrite bind_now, bind_run in Hr. unfold save_permission, write in Hr. rewrite Hs in Hr. by simplify_eq.
    - cbv [mret M_ret] in Hr. simplify_eq. destruct (eqb _ _) eqn:Ha; [|done]. reflect.
      rewrite bind_now. by eapply (evolves_stop _ _ _ _ (mret _)); [walk|..]. }
  apply get_owned_run in Hr as [[-> ->] | (k & p & Hk & _ & _ & [(-> & -> & _) | (_ & _ & -> & Hs1)])];
    [done | | | done].
  - destruct (eqb _ _) eqn:Ha; [|done]. reflect.
    rewrite bind_now. by eapply (evolves_stop _ _ _ _ (mret _)); [walk|..].
  - destruct (eqb _ _) eqn:Ha; [|done]. reflect. done.
Qed.
End evolution.

(** ** Properties *)

(** A request to the permission service. *)
Inductive permission_request : Type :=
  | PCreate (owner : uuid) (payload : PermissionCreate) (org : option uuid)
  | PExpire (owner : uuid) (at_ : time) (org : org_arg)
  | PList (owner : uuid) (org : option uuid)
  | PGet (owner pid : uuid) (org : option uuid)
  | PRevoke (owner pid : uuid) (org : option uuid).

Definition handle_permission `{Entropy} (t : tables) (n : nat) (now : time) (r : permission_request) : tables :=
  match r with
  | PCreate owner payload org => (run_request (create_permission owner payload org) t n now).2
  | PExpire owner at_ org => (run_request (expire_owned_permissions owner at_ org) t n now).2
  | PList owner org => (run_request (list_owned_permissions owner org now) t n now).2
  | PGet owner pid org => (run_request (get_owned_permission owner pid org now) t n now).2
  | PRevoke owner pid org => (run_request (revoke_owned_permission owner pid org now) t n now).2
  end.

Definition permission_trace `{Entropy} (t : tables) (rs : list (nat * time * permission_request)) : tables :=
  foldl (λ t '(n, now, r), handle_permission t n now r) t rs.

Lemma permission_trace_evolves `{Entropy} t rs : evolve_keyed t (permission_trace t rs).
Proof.
  revert t. induction rs as [|[[n now] r] rs IH]; intros t; [reflexivity|].
  unfold permission_trace. simpl. etrans; [|apply IH].
  destruct r; simpl; apply evolves_run; try apply _; auto using create_evolves, expire_evolves,
    list_evolves, get_owned_evolves, revoke_evolves.
Qed.

(** Whatever requests the permission service handles, a stored
    permission keeps its agent, action, resource, limits and time window for
    ever, and once it is revoked or expired no request makes it active again. *)
Theorem permission_terms_immutable `{Entropy} t rs k p :
  permissions_keyed t → permissions t !! k = Some p →
  ∃ p', permissions (permission_trace t rs) !! k = Some p' ∧ same_terms p p' ∧
    (pm_status p ≠ PermActive → pm_status p' = pm_status p).
Proof.
  intros Ht Hp. destruct (permission_trace_evolves t rs Ht) as [_ [He _]].
  apply He in Hp as (p' & Hp' & Hterms & Hst). exists p'. split_and!; [done..|].
  by destruct Hst.
Qed.

(** What the sweep leaves usable is within its time window: after
    it, no permission of the scope is active at or past its expiry, and those
    outside of the scope or not yet due are untouched. *)
Theorem expire_sweeps owner at_ org t n now :
  let t' := (run_request (expire_owned_permissions owner at_ org) t n now).2 in
  (∀ k p, permissions t' !! k = Some p → due t' owner at_ org p = false) ∧
  (∀ k p, permissions t !! k = Some p → due t owner at_ org p = false → permissions t' !! k = Some p) ∧
  (∀ k p, permissions t !! k = Some p → due t owner at_ org p = true →
     permissions t' !! k = Some (set_pm_status PermExpired now p)).
Proof.
  cbv zeta. unfold run_request, expire_owned_permissions. exec.
  cbn [cur committed set_cur dead seed db_now open_session].
  assert (Hdue : ∀ f q, due (upd_permissions f t) owner at_ org q = due t owner at_ org q) by done.
  destruct (count_where (due t owner at_ org) (rows (permissions t))) as [|c] eqn:Hc; simpl.
  - assert (Hno : ∀ k p, permissions t !! k = Some p → due t owner at_ org p = false).
    { intros k p Hk. unfold count_where in Hc. apply length_zero_iff_nil in Hc.
      apply (proj1 (select_where_nil _ _) Hc). apply elem_of_rows. by exists k. }
    split_and!; [done..|]. intros k p Hk. rewrite (Hno _ _ Hk). done.
  - split_and!.
    + intros k p. rewrite lookup_update_where. destruct (permissions t !! k) as [w|] eqn:Hk; [|done].
      simpl. intros [= <-]. rewrite Hdue. by destruct (due t owner at_ org w) eqn:Hd.
    + intros k p Hk Hd. rewrite lookup_update_where, Hk. simpl. by rewrite Hd.
    + intros k p Hk Hd. rewrite lookup_update_where, Hk. simpl. by rewrite Hd.
Qed.

(** Creating a permission fails without a trace when the agent is
    outside the caller's scope or a constraint of the table is broken; otherwise
    exactly one new row is stored, active, with the payload's terms, the amount
    rounded to the four decimals of its column. *)
Theorem create_permission_spec `{Entropy} owner payload org t n now r t' :
  run_request (create_permission owner payload org) t n now = (r, t') →
  (r = Err AgentNotFound ∧ agent_in t (in_scope owner org) (pc_agent_id payload) = false ∧ t' = t) ∨
  (r = Err IntegrityError ∧ t' = t) ∨
  ∃ p, r = Ok p ∧ agent_in t (in_scope owner org) (pc_agent_id payload) = true ∧
    permissions t !! pm_id p = None ∧ t' = upd_permissions <[pm_id p := p]> t ∧
    pm_owner_id p = owner ∧ pm_agent_id p = pc_agent_id payload ∧ pm_action p = pc_action payload ∧
    pm_resource p = pc_resource payload ∧ pm_maximum_amount p = numeric4 <$> pc_maximum_amount payload ∧
    pm_status p = PermActive ∧ permission_checks p = true.
Proof.
  unfold run_request, create_permission. exec. unfold fresh_uuid.
  destruct (agent_in _ _ _) eqn:Hin; simpl; [|intros [= <- <-]; by left].
  rewrite bind_run. cbn [next_seed open_session seed cur committed dead db_now]. exec.
  match goal with |- context [permission_checks ?x && negb (is_some ?y)] =>
    destruct (permission_checks x) eqn:Hok; [destruct y eqn:Hn|]; simpl end;
    intros [= <- <-]; [by right; left | | by right; left].
  right; right. eexists. split_and!; try done.
Qed.

(** A permission that the service answers a revocation with is not
    usable at any time, now or later, and is the stored row. *)
Theorem revoke_unusable `{Entropy} owner pid org now t n dbnow p t' :
  permissions_keyed t →
  run_request (revoke_owned_permission owner pid org now) t n dbnow = (Ok (Some p), t') →
  pm_id p = pid ∧ permissions t' !! pid = Some p ∧ ∀ at_, permission_is_usable p at_ = false.
Proof.
  intros Ht. unfold run_request, revoke_owned_permission. rewrite bind_run.
  destruct (get_owned_permission _ _ _ _ _) as [r s1] eqn:Hr.
  assert (Hu : ∀ q, pm_status q ≠ PermActive → ∀ at_, permission_is_usable q at_ = false).
  { intros q Hq at_. unfold permission_is_usable. apply eqb_false in Hq. by rewrite Hq. }
  apply get_owned_run in Hr as [[-> ->] | (k & q & Hk & Hid & _ & [(-> & -> & _) | (_ & _ & -> & ->)])];
    [done| | |done]; simpl in Hk; pose proof (Ht _ _ Hk) as [Hkey _]; subst pid k.
  - destruct (eqb _ _) eqn:Ha.
    + exec. unfold save_permission. rewrite bind_write by done. simpl. intros [= <- <-]. simpl.
      split_and!; [done | by rewrite lookup_insert_eq | by apply Hu].
    + simpl. intros [= -> <-]. reflect. simpl. split_and!; [done | done | by apply Hu].
  - simpl. intros [= <- <-]. simpl. rewrite lookup_insert_eq. split_and!; [done | done | by apply Hu].
Qed.

(** ** Witnesses *)

Definition one_permission : tables := tables_with [sample_agent 1] [sample_permission 100 1] [].
Lemma one_permission_keyed : permissions_keyed one_permission.
Proof.
  intros k p Hp. apply (keyed_lookup pm_id [sample_permission 100 1]) in Hp as [Hid Hin].
  split; [done|]. apply list_elem_of_singleton in Hin as ->. intros a [= <-]. done.
Qed.

Lemma permission_terms_immutable_witness :
  ∃ p', permissions (permission_trace one_permission [(0%nat, hour, PRevoke 9 100 (Some 50%N)); (9%nat, 2 * day, PList 9 (Some 50%N))])
      !! 100%N = Some p' ∧ same_terms (sample_permission 100 1) p' ∧ pm_status p' = PermRevoked.
Proof.
  destruct (permission_terms_immutable one_permission
    [(0%nat, hour, PRevoke 9 100 (Some 50%N)); (9%nat, 2 * day, PList 9 (Some 50%N))] 100 (sample_permission 100 1)
    one_permission_keyed) as (p' & Hp & Hterms & _); [vm_compute; reflexivity|].
  exists p'. split; [exact Hp|]. split; [exact Hterms|]. vm_compute in Hp. injection Hp as <-. reflexivity.
Defined.

Definition sample_create : PermissionCreate :=
  {| pc_agent_id := 1; pc_action := "pay"; pc_resource := "invoices"; pc_maximum_amount := Some (Dec 75 0);
     pc_currency := Some "EUR"; pc_valid_from := 0; pc_expires_at := day; pc_requires_approval := false;
     pc_allow_delegation := false |}%string.
Lemma create_permission_spec_witness :
  ∃ p t', run_request (create_permission 9 sample_create (Some 50%N)) one_permission 0 hour = (Ok p, t') ∧
    t' = upd_permissions <[pm_id p := p]> one_permission ∧ pm_maximum_amount p = Some (Dec 750000 (-4)).
Proof.
  destruct (run_request (create_permission 9 sample_create (Some 50%N)) one_permission 0 hour) as [r t'] eqn:Hrun.
  destruct (create_permission_spec _ _ _ _ _ _ _ _ Hrun) as [(-> & _)|[(-> & _)|(p & -> & _ & _ & Ht & _ & _ & _ & _ & Hm & _)]];
    [vm_compute in Hrun; discriminate Hrun..|].
  exists p, t'. split; [reflexivity|]. split; [exact Ht | exact Hm].
Defined.

Lemma revoke_unusable_witness :
  ∃ p t', run_request (revoke_owned_permission 9 100 (Some 50%N) hour) one_permission 0 hour = (Ok (Some p), t') ∧
    permissions t' !! 100%N = Some p ∧ permission_is_usable p hour = false.
Proof.
  destruct (run_request (revoke_owned_permission 9 100 (Some 50%N) hour) one_permission 0 hour) as [[[p|]|e] t'] eqn:Hrun;
    [|vm_compute in Hrun; discriminate Hrun..].
  destruct (revoke_unusable _ _ _ _ _ _ _ _ _ one_permission_keyed Hrun) as (_ & Hp & Hu).
  exists p, t'. split; [reflexivity|]. split; [exact Hp | apply Hu].
Defined.

End Permissions.
