(* ===== verification/Delegation.v ===== *)
(** Agent-to-agent delegation: [backend/app/services/agent_delegation.py].
    [create_delegation], [revoke_delegation] and the readers are request steps on
    the store; [verify_delegation_chain] is a function of the tables.  The loops
    over parent links and over the revocation queue run on fuel computed from the
    size of the table; [DelegationProps] shows that it is never used up. *)
From Stdlib Require Import Ascii.
From S2P Require Import Prelude.
From S2P Require Import PyStr.
From S2P Require Import PyFloat.
From S2P Require Import PyVal.
From S2P Require Import PyDecimal.
From S2P Require Import PyTime.
From S2P Require Import Models.
From S2P Require Import Schemas.
From S2P Require Import Store.

Local Open Scope string_scope.
Local Open Scope Z_scope.

Module Delegation.

Definition bad_request (detail : string) : Exc := HTTPException 400 detail.
Definition not_found (detail : string) : Exc := HTTPException 404 detail.

(** ** Bounds

    What a permission or a delegation grants; the narrowing checks compare the
    requested bounds with those of the parent. *)
Record bounds : Type := MkBounds {
  b_action : string;
  b_resource : string;
  b_maximum_amount : option dec;
  b_currency : option string;
  b_expires_at : time;
  b_requires_approval : bool
}.

Definition permission_bounds (p : Permission) : bounds :=
  MkBounds (pm_action p) (pm_resource p) (pm_maximum_amount p) (pm_currency p)
    (pm_expires_at p) (pm_requires_approval p).
Definition delegation_bounds (d : AgentDelegation) : bounds :=
  MkBounds (dl_action d) (dl_resource d) (dl_maximum_amount d) (dl_currency d)
    (dl_expires_at d) (dl_requires_approval d).
Definition payload_bounds (p : AgentDelegationCreate) : bounds :=
  MkBounds (dc_action p) (dc_resource p) (dc_maximum_amount p) (dc_currency p)
    (dc_expires_at p) (dc_requires_approval p).

Definition fmt_opt (o : option string) : string := default "None" o.

(** Lines 158 to 195 and 203 to 240: the same checks in the same order against a
    parent delegation or a parent permission, with [own] its name in the messages
    and [match_own] its name in the two [must match] messages. *)
Definition check_narrowing (own match_own : string) (p parent : bounds) : DB unit :=
  raise_if (negb (eqb (b_action p) (b_action parent)))
    (bad_request ("Delegated action '" +:+ b_action p +:+ "' must match parent " +:+ match_own +:+
      "action '" +:+ b_action parent +:+ "'")) ;;
  raise_if (negb (eqb (b_resource p) (b_resource parent)))
    (bad_request ("Delegated resource '" +:+ b_resource p +:+ "' must match parent " +:+ match_own +:+
      "resource '" +:+ b_resource parent +:+ "'")) ;;
  match b_maximum_amount parent with
  | Some limit =>
      match b_maximum_amount p with
      | None => throw (bad_request ("Parent " +:+ own +:+
          " requires an amount constraint; delegated amount cannot be unbounded"))
      | Some amount =>
          raise_if (dec_ltb limit amount)
            (bad_request ("Delegated amount " +:+ dec_str amount +:+ " exceeds parent " +:+ own +:+
              " limit " +:+ dec_str limit)) ;;
          raise_if (negb (eqb (b_currency p) (b_currency parent)))
            (bad_request ("Delegated currency '" +:+ fmt_opt (b_currency p) +:+
              "' must match parent currency '" +:+ fmt_opt (b_currency parent) +:+ "'"))
      end
  | None => mret tt
  end ;;
  raise_if (b_expires_at parent <? b_expires_at p)
    (bad_request ("Delegated expiry " +:+ isoformat (b_expires_at p) +:+ " cannot exceed parent " +:+ own +:+
      " expiry " +:+ isoformat (b_expires_at parent))) ;;
  raise_if (b_requires_approval parent && negb (b_requires_approval p))
    (bad_request ("Parent " +:+ own +:+ " requires approval; cannot drop approval requirement")).

(** ** Creation *)

(** Lines 143 to 155: walk up the parent links; [None] is out of fuel. *)
Fixpoint cycle_in_ancestors (fuel : nat) (t : tables) (ancestor : AgentDelegation)
    (ancestor_agents : gset uuid) : option bool :=
  match fuel with
  | O => None
  | S fuel =>
      if bool_decide (dl_parent_agent_id ancestor ∈ ancestor_agents) then Some true
      else
        match dl_parent_delegation_id ancestor with
        | None => Some false
        | Some k =>
            match delegations t !! k with
            | None => Some false
            | Some above =>
                cycle_in_ancestors fuel t above ({[dl_parent_agent_id ancestor]} ∪ ancestor_agents)
            end
        end
  end.

Definition chain_fuel (t : tables) : nat := S (size (delegations t)).
Arguments chain_fuel : simpl never.

(** Lines 106 to 195 *)
Definition check_chained (payload : AgentDelegationCreate) (parent_agent child_agent : Agent)
    (parent_permission : Permission) (parent_delegation_id : uuid) (checked_at : time) : DB (Z * Z) :=
  parent ← get_or (λ t, delegations t !! parent_delegation_id) (not_found "Parent delegation not found");
  raise_if (negb (eqb (dl_status parent) DlgActive) || negb (delegation_is_usable parent checked_at))
    (bad_request "Parent delegation is inactive, revoked, or expired") ;;
  raise_if (negb (eqb (dl_child_agent_id parent) (ag_id parent_agent)))
    (bad_request "Parent agent must be the recipient/child of the parent delegation") ;;
  raise_if (negb (dl_allow_further_delegation parent))
    (bad_request "Parent delegation does not allow further sub-delegation") ;;
  raise_if (negb (eqb (dl_parent_permission_id parent) (pm_id parent_permission)))
    (bad_request "Parent delegation does not match specified parent permission") ;;
  let current_depth := dl_current_depth parent + 1 in
  let effective_max_depth := Z.min (dl_max_delegation_depth parent) (dc_max_delegation_depth payload) in
  raise_if (effective_max_depth <? current_depth)
    (bad_request ("Delegation depth " +:+ str_of_Z current_depth +:+ " exceeds maximum allowed depth " +:+
      str_of_Z effective_max_depth)) ;;
  cycle ← query (λ t, cycle_in_ancestors (chain_fuel t) t parent {[ag_id child_agent; ag_id parent_agent]});
  match cycle with
  | None => throw OutOfFuel
  | Some cycle => raise_if cycle (bad_request "Delegation cycle detected in ancestor chain")
  end ;;
  check_narrowing "delegation" "" (payload_bounds payload) (delegation_bounds parent) ;;
  mret (current_depth, effective_max_depth).

(** Lines 106 to 240: the depth and depth limit of the new delegation. *)
Definition delegated_depths (payload : AgentDelegationCreate) (parent_agent child_agent : Agent)
    (parent_permission : Permission) (checked_at : time) : DB (Z * Z) :=
  match dc_parent_delegation_id payload with
  | Some parent_delegation_id =>
      check_chained payload parent_agent child_agent parent_permission parent_delegation_id checked_at
  | None =>
      check_narrowing "permission" "permission " (payload_bounds payload) (permission_bounds parent_permission) ;;
      mret (1, dc_max_delegation_depth payload)
  end.

Section operations.
Context `{Entropy}.

Definition generate_delegation_id : DB string :=
  t ← fresh_token; mret ("dlg_" +:+ t).

(** [generate_delegation_id] draws the public id, the column default the key. *)
Definition create_delegation (payload : AgentDelegationCreate) (checked_at : time) : DB AgentDelegation :=
  raise_if (eqb (dc_parent_agent_id payload) (dc_child_agent_id payload))
    (bad_request "Self-delegation is strictly prohibited") ;;
  parent_agent ← get_or (λ t, agents t !! dc_parent_agent_id payload) (not_found "Parent agent not found");
  raise_if (negb (eqb (ag_status parent_agent) ACTIVE)) (bad_request "Parent agent is not active") ;;
  child_agent ← get_or (λ t, agents t !! dc_child_agent_id payload) (not_found "Child agent not found");
  raise_if (negb (eqb (ag_status child_agent) ACTIVE)) (bad_request "Child agent is not active") ;;
  raise_if (negb (is_some (ag_organization_id parent_agent)) || negb (is_some (ag_organization_id child_agent)))
    (bad_request "Both agents must belong to an organization for delegation") ;;
  raise_if (negb (eqb (ag_organization_id parent_agent) (ag_organization_id child_agent)))
    (bad_request "Cross-organization delegation is strictly forbidden") ;;
  let organization_id := default 0%N (ag_organization_id parent_agent) in
  parent_permission ← get_or (λ t, permissions t !! dc_parent_permission_id payload)
    (not_found "Parent permission not found");
  raise_if (negb (eqb (pm_agent_id parent_permission) (ag_id parent_agent)) &&
            negb (is_some (dc_parent_delegation_id payload)))
    (bad_request "Parent permission does not belong to the parent agent") ;;
  raise_if (negb (permission_is_usable parent_permission checked_at))
    (bad_request "Parent permission is not active or has expired") ;;
  raise_if (negb (pm_allow_delegation parent_permission))
    (bad_request "Parent permission does not permit delegation (allow_delegation=False)") ;;
  depths ← delegated_depths payload parent_agent child_agent parent_permission checked_at;
  delegation_id ← generate_delegation_id;
  id ← fresh_uuid;
  now ← now_db;
  let delegation :=
    {| dl_id := id; dl_delegation_id := delegation_id;
       dl_parent_agent_id := dc_parent_agent_id payload; dl_child_agent_id := dc_child_agent_id payload;
       dl_parent_permission_id := dc_parent_permission_id payload;
       dl_parent_delegation_id := dc_parent_delegation_id payload;
       dl_organization_id := organization_id; dl_action := dc_action payload;
       dl_resource := dc_resource payload; dl_maximum_amount := numeric4 <$> dc_maximum_amount payload;
       dl_currency := dc_currency payload; dl_requires_approval := dc_requires_approval payload;
       dl_allow_further_delegation := dc_allow_further_delegation payload;
       dl_current_depth := depths.1; dl_max_delegation_depth := depths.2;
       dl_valid_from := dc_valid_from payload; dl_expires_at := dc_expires_at payload;
       dl_status := DlgActive; dl_revoked_at := None; dl_revocation_reason := None;
       dl_revoked_by_agent_id := None; dl_revoked_by_user_id := None; dl_created_at := now |} in
  insert_checked
    (λ t, delegation_checks delegation && negb (is_some (delegations t !! id)) &&
          negb (is_some (scalar (λ d, eqb (dl_delegation_id d) delegation_id) (delegations t))))
    (upd_delegations <[id := delegation]>) ;;
  commit ;;
  mret delegation.

End operations.

(** ** Verification at execution time *)

Inductive chain_detail : Type :=
  | NoDetail
  | DelegationDetail (delegation_id : string)
  | AgentDetail (agent_id : uuid)
  | PermissionDetail (permission_id : string)
  | CurrencyDetail (expected provided : option string)
  | AmountDetail (effective_max_amount amount : dec).

Record chain_metadata : Type := MkMetadata {
  md_delegation : AgentDelegation;
  md_root_permission : Permission;
  md_parent_agent_id : uuid;
  md_root_agent_id : uuid;
  md_effective_requires_approval : bool;
  md_effective_maximum_amount : option dec;
  md_effective_currency : option string;
  md_effective_expires_at : time;
  md_depth : nat
}.

(** The triple the source returns: [True, "OK", metadata] or [False, reason, details]. *)
Inductive chain_verdict : Type :=
  | ChainOk (metadata : chain_metadata)
  | ChainRejected (reason : string) (details : chain_detail).
Definition verdict_reason (v : chain_verdict) : string :=
  match v with ChainOk _ => "OK" | ChainRejected r _ => r end.

(** The restrictions accumulated on the way up. *)
Record effective : Type := MkEffective {
  ef_requires_approval : bool;
  ef_max_amount : option dec;
  ef_currency : option string;
  ef_expires_at : time
}.

(** Lines 340 to 349, and 382 to 391 for the root permission. *)
Definition restrict (requires : bool) (maximum : option dec) (currency : option string)
    (expires : time) (e : effective) : effective :=
  let e := if requires then MkEffective true (ef_max_amount e) (ef_currency e) (ef_expires_at e) else e in
  let e := if expires <? ef_expires_at e
           then MkEffective (ef_requires_approval e) (ef_max_amount e) (ef_currency e) expires else e in
  match maximum with
  | None => e
  | Some m =>
      if match ef_max_amount e with None => true | Some c => dec_ltb m c end
      then MkEffective (ef_requires_approval e) (Some m) currency (ef_expires_at e)
      else e
  end.

Definition agent_active (t : tables) (k : uuid) : bool :=
  match agents t !! k with Some a => eqb (ag_status a) ACTIVE | None => false end.

(** The checks on one link, in the order of the loop body; [None]: all passed. *)
Definition check_link (t : tables) (checked_at : time) (action resource : string)
    (current : AgentDelegation) (seen_agents : gset uuid) : option (string * chain_detail) :=
  let here := DelegationDetail (dl_delegation_id current) in
  if eqb (dl_status current) DlgRevoked then Some ("DELEGATION_REVOKED", here)
  else if eqb (dl_status current) DlgSuspended then Some ("DELEGATION_SUSPENDED", here)
  else if eqb (dl_status current) DlgExpired || (dl_expires_at current <=? checked_at)
    then Some ("DELEGATION_EXPIRED", here)
  else if checked_at <? dl_valid_from current then Some ("DELEGATION_NOT_YET_VALID", here)
  else if negb (agent_active t (dl_child_agent_id current))
    then Some ("CHILD_AGENT_INACTIVE", AgentDetail (dl_child_agent_id current))
  else if negb (agent_active t (dl_parent_agent_id current))
    then Some ("PARENT_AGENT_INACTIVE", AgentDetail (dl_parent_agent_id current))
  else if bool_decide (dl_child_agent_id current ∈ seen_agents) ||
          bool_decide (dl_parent_agent_id current ∈ seen_agents)
    then Some ("DELEGATION_CYCLE_DETECTED", here)
  else if negb (eqb (dl_action current) action) then Some ("DELEGATION_ACTION_MISMATCH", here)
  else if negb (eqb (dl_resource current) resource) then Some ("DELEGATION_RESOURCE_MISMATCH", here)
  else None.

Definition restrict_by (d : AgentDelegation) : effective → effective :=
  restrict (dl_requires_approval d) (dl_maximum_amount d) (dl_currency d) (dl_expires_at d).

(** [db.get(AgentDelegation, current.parent_delegation_id)], when there is one. *)
Definition parent_of (t : tables) (d : AgentDelegation) : option AgentDelegation :=
  k ← dl_parent_delegation_id d; delegations t !! k.

(** The loop of lines 305 to 354: the visited links, innermost first, and the
    restrictions; [None] is out of fuel. *)
Fixpoint walk_chain (fuel : nat) (t : tables) (checked_at : time) (action resource : string)
    (current : AgentDelegation) (seen_agents : gset uuid) (e : effective)
    : option (result (string * chain_detail) (list AgentDelegation * effective)) :=
  match fuel with
  | O => None
  | S fuel =>
      match check_link t checked_at action resource current seen_agents with
      | Some err => Some (Err err)
      | None =>
          let e := restrict_by current e in
          match parent_of t current with
          | None => Some (Ok ([current], e))
          | Some above =>
              match walk_chain fuel t checked_at action resource above
                      ({[dl_child_agent_id current]} ∪ seen_agents) e with
              | Some (Ok (nodes, e')) => Some (Ok (current :: nodes, e'))
              | r => r
              end
          end
      end
  end.

(** Lines 356 to 406: the root permission and the amount. *)
Definition check_root (t : tables) (checked_at : time) (action resource : string)
    (amount : option dec) (currency : option string) (delegation : AgentDelegation)
    (chain_nodes : list AgentDelegation) (e : effective) : chain_verdict :=
  let root_delegation := default delegation (last chain_nodes) in
  match permissions t !! dl_parent_permission_id root_delegation with
  | None => ChainRejected "PARENT_PERMISSION_NOT_FOUND" NoDetail
  | Some root =>
      let here := PermissionDetail (uuid_str (pm_id root)) in
      if eqb (pm_status root) PermRevoked then ChainRejected "PARENT_PERMISSION_REVOKED" here
      else if eqb (pm_status root) PermExpired || (pm_expires_at root <=? checked_at)
        then ChainRejected "PARENT_PERMISSION_EXPIRED" here
      else if negb (eqb (pm_status root) PermActive) || negb (permission_is_usable root checked_at)
        then ChainRejected "PARENT_PERMISSION_INACTIVE" here
      else if negb (pm_allow_delegation root)
        then ChainRejected "DELEGATION_NOT_ALLOWED_BY_PARENT_PERMISSION" here
      else if negb (agent_active t (pm_agent_id root))
        then ChainRejected "PARENT_AGENT_INACTIVE" (AgentDetail (pm_agent_id root))
      else if negb (eqb (pm_action root) action) then ChainRejected "DELEGATION_ACTION_MISMATCH" NoDetail
      else if negb (eqb (pm_resource root) resource) then ChainRejected "DELEGATION_RESOURCE_MISMATCH" NoDetail
      else
        let e := restrict (pm_requires_approval root) (pm_maximum_amount root) (pm_currency root)
                   (pm_expires_at root) e in
        let ok := ChainOk
          {| md_delegation := delegation; md_root_permission := root;
             md_parent_agent_id := dl_parent_agent_id delegation;
             md_root_agent_id := pm_agent_id root;
             md_effective_requires_approval := ef_requires_approval e;
             md_effective_maximum_amount := ef_max_amount e;
             md_effective_currency := ef_currency e;
             md_effective_expires_at := ef_expires_at e;
             md_depth := length chain_nodes |} in
        match amount with
        | None => ok
        | Some amount =>
            match ef_max_amount e with
            | None => ChainRejected "AMOUNT_NOT_PERMITTED" NoDetail
            | Some limit =>
                if negb (eqb currency (ef_currency e))
                then ChainRejected "CURRENCY_MISMATCH" (CurrencyDetail (ef_currency e) currency)
                else if dec_ltb limit amount
                then ChainRejected "AMOUNT_EXCEEDS_DELEGATION_LIMIT" (AmountDetail limit amount)
                else ok
            end
        end
  end.

(** The filters on the delegation itself are optional arguments. *)
Definition mismatches (expected : option uuid) (actual : uuid) : bool :=
  match expected with Some e => negb (eqb actual e) | None => false end.

Definition by_public_id (t : tables) (delegation_id : string) : option AgentDelegation :=
  scalar (λ d, eqb (dl_delegation_id d) delegation_id) (delegations t).

Definition start (d : AgentDelegation) : effective := MkEffective false None None (dl_expires_at d).

Definition verify_delegation_chain (t : tables) (delegation_id action resource : string)
    (amount : option dec) (currency : option string) (checked_at : time)
    (child_agent_id organization_id : option uuid) : option chain_verdict :=
  match by_public_id t delegation_id with
  | None => Some (ChainRejected "DELEGATION_NOT_FOUND" NoDetail)
  | Some delegation =>
      if mismatches organization_id (dl_organization_id delegation)
      then Some (ChainRejected "DELEGATION_CROSS_ORG_FORBIDDEN" NoDetail)
      else if mismatches child_agent_id (dl_child_agent_id delegation)
      then Some (ChainRejected "DELEGATION_CHILD_AGENT_MISMATCH" NoDetail)
      else
        match walk_chain (chain_fuel t) t checked_at action resource delegation ∅ (start delegation) with
        | None => None
        | Some (Err (reason, details)) => Some (ChainRejected reason details)
        | Some (Ok (chain_nodes, e)) =>
            Some (check_root t checked_at action resource amount currency delegation chain_nodes e)
        end
  end.

(** ** Revocation *)

Definition active_child_of (parent_id : uuid) (d : AgentDelegation) : bool :=
  eqb (dl_parent_delegation_id d) (Some parent_id) && eqb (dl_status d) DlgActive.

Definition revoke_row (now : time) (reason : string) (agent user : option uuid) (d : AgentDelegation) : AgentDelegation :=
  set_dl_revocation (Some now) (Some reason) agent user (set_dl_status DlgRevoked d).

(** [reason or default] *)
Definition reason_or (reason : option string) (d : string) : string :=
  match reason with Some r => if eqb r "" then d else r | None => d end.

(** A flushed reason must fit its [String(255)] column. *)
Definition reason_fits (reason : string) : tables → bool := λ _, fits 255 reason.

(** The queue of lines 449 to 466. *)
Fixpoint cascade_loop (fuel : nat) (now : time) (reason : string) (agent user : option uuid)
    (queue : list uuid) : DB unit :=
  match queue with
  | [] => mret tt
  | parent_id :: queue =>
      match fuel with
      | O => throw OutOfFuel
      | S fuel =>
          children ← query (λ t, select_rows (active_child_of parent_id) (delegations t));
          (if (length children =? 0)%nat then mret tt
           else insert_checked (reason_fits reason)
             (upd_delegations (update_where (active_child_of parent_id) (revoke_row now reason agent user)))) ;;
          cascade_loop fuel now reason agent user (queue ++ map dl_id children)%list
      end
  end.

Definition cascade_fuel (t : tables) : nat := S (S (size (delegations t))).

Definition revoke_delegation (delegation_id : string) (revoked_by_user_id revoked_by_agent_id : option uuid)
    (reason : option string) (cascade : bool) (now : time) : DB AgentDelegation :=
  delegation ← get_or (λ t, by_public_id t delegation_id) (not_found "Delegation not found");
  let own_reason := reason_or reason "Revoked by user/agent" in
  let revoked := revoke_row now own_reason revoked_by_agent_id revoked_by_user_id delegation in
  insert_checked (reason_fits own_reason) (upd_delegations <[dl_id delegation := revoked]>) ;;
  (if cascade then
     fuel ← query cascade_fuel;
     cascade_loop fuel now
       ("Cascade revocation from parent delegation: " +:+ reason_or reason "Parent revoked")
       revoked_by_agent_id revoked_by_user_id [dl_id delegation]
   else mret tt) ;;
  commit ;;
  mret revoked.

(** ** Reading *)

Record DelegationChainNode : Type := MkNode {
  cn_depth : Z;
  cn_delegation_id : option string;
  cn_parent_agent_id : option uuid;
  cn_parent_agent_name : option string;
  cn_child_agent_id : option uuid;
  cn_child_agent_name : option string;
  cn_bounds : bounds;
  cn_status : string;
  cn_valid_from : time
}.

Record DelegationChainResponse : Type := MkChainResponse {
  ch_delegation_id : string;
  ch_root_permission_id : uuid;
  ch_is_valid : bool;
  ch_validation_error : option string;
  ch_effective_action : string;
  ch_effective_resource : string;
  ch_effective_maximum_amount : option dec;
  ch_effective_currency : option string;
  ch_effective_requires_approval : bool;
  ch_effective_expires_at : time;
  ch_chain : list DelegationChainNode
}.

Definition DelegationStatus_value (s : DelegationStatus) : string :=
  match s with
  | DlgActive => "ACTIVE" | DlgExpired => "EXPIRED" | DlgRevoked => "REVOKED" | DlgSuspended => "SUSPENDED"
  end.
Definition PermissionStatus_value (s : PermissionStatus) : string :=
  match s with PermActive => "active" | PermRevoked => "revoked" | PermExpired => "expired" end.

Definition agent_name (t : tables) (k : uuid) : option string := ag_name <$> agents t !! k.

Definition chain_node (t : tables) (d : AgentDelegation) : DelegationChainNode :=
  {| cn_depth := dl_current_depth d; cn_delegation_id := Some (dl_delegation_id d);
     cn_parent_agent_id := Some (dl_parent_agent_id d);
     cn_parent_agent_name := agent_name t (dl_parent_agent_id d);
     cn_child_agent_id := Some (dl_child_agent_id d);
     cn_child_agent_name := agent_name t (dl_child_agent_id d);
     cn_bounds := delegation_bounds d; cn_status := DelegationStatus_value (dl_status d);
     cn_valid_from := dl_valid_from d |}.

(** The loop of lines 498 to 522, innermost link first; [None] is out of fuel. *)
Fixpoint links_up (fuel : nat) (t : tables) (current : AgentDelegation) : option (list AgentDelegation) :=
  match fuel with
  | O => None
  | S fuel =>
      match parent_of t current with
      | None => Some [current]
      | Some above => (λ l, current :: l) <$> links_up fuel t above
      end
  end.

Definition root_node (t : tables) (p : Permission) : DelegationChainNode :=
  {| cn_depth := 0; cn_delegation_id := None; cn_parent_agent_id := None;
     cn_parent_agent_name := Some "Root User Permission";
     cn_child_agent_id := Some (pm_agent_id p); cn_child_agent_name := agent_name t (pm_agent_id p);
     cn_bounds := permission_bounds p; cn_status := PermissionStatus_value (pm_status p);
     cn_valid_from := pm_valid_from p |}.

(** [metadata.get(key, default)]: an error's metadata has none of the four keys
    except [effective_max_amount], which is not one of them. *)
Definition from_metadata {A} (v : chain_verdict) (f : chain_metadata → A) (d : A) : A :=
  match v with ChainOk m => f m | ChainRejected _ _ => d end.

Definition get_delegation_chain (delegation_id : string) (now_utc : time) : DB DelegationChainResponse :=
  delegation ← get_or (λ t, by_public_id t delegation_id) (not_found "Delegation not found");
  verdict ← get_or (λ t, verify_delegation_chain t delegation_id (dl_action delegation)
    (dl_resource delegation) (dl_maximum_amount delegation) (dl_currency delegation) now_utc None None) OutOfFuel;
  links ← get_or (λ t, links_up (chain_fuel t) t delegation) OutOfFuel;
  nodes ← query (λ t, (map (chain_node t) links ++
    match permissions t !! dl_parent_permission_id delegation with
    | Some root_permission => [root_node t root_permission]
    | None => []
    end)%list);
  mret
    {| ch_delegation_id := dl_delegation_id delegation;
       ch_root_permission_id := dl_parent_permission_id delegation;
       ch_is_valid := match verdict with ChainOk _ => true | _ => false end;
       ch_validation_error := match verdict with ChainOk _ => None | ChainRejected r _ => Some r end;
       ch_effective_action := dl_action delegation;
       ch_effective_resource := dl_resource delegation;
       ch_effective_maximum_amount := from_metadata verdict md_effective_maximum_amount (dl_maximum_amount delegation);
       ch_effective_currency := from_metadata verdict md_effective_currency (dl_currency delegation);
       ch_effective_requires_approval :=
         from_metadata verdict md_effective_requires_approval (dl_requires_approval delegation);
       ch_effective_expires_at := from_metadata verdict md_effective_expires_at (dl_expires_at delegation);
       ch_chain := rev nodes |}.

(** [.order_by(created_at.desc())] *)
Definition later_created (a b : AgentDelegation) : Prop := dl_created_at b <= dl_created_at a.
#[export] Instance later_created_dec : RelDecision later_created.
Proof. intros a b. unfold later_created. apply _. Defined.

Definition list_delegations (organization_id : uuid) (status_filter : option DelegationStatus)
    (agent_id : option uuid) : DB (list AgentDelegation) :=
  query (λ t, merge_sort later_created
    (select_rows (λ d, eqb (dl_organization_id d) organization_id &&
       match status_filter with Some s => eqb (dl_status d) s | None => true end &&
       match agent_id with
       | Some a => eqb (dl_parent_agent_id d) a || eqb (dl_child_agent_id d) a
       | None => true
       end) (delegations t))).

End Delegation.
