(* ===== verification/DelegationInv.v ===== *)
(** The invariant of stored delegations: every delegation is linked to a parent
    whose bounds contain its own, one level below it.  [create_delegation]
    establishes it, the other operations keep it, and it bounds what any
    delegation can grant by its root permission. *)
From Stdlib Require Import Ascii QArith.
From S2P Require Import Prelude.
From S2P Require Import PyStr.
From S2P Require Import PyFloat.
From S2P Require Import PyVal.
From S2P Require Import PyDecimal.
From S2P Require Import PyTime.
From S2P Require Import Models.
From S2P Require Import Schemas.
From S2P Require Import Store.
From S2P Require Import Samples.
From S2P Require Import Delegation.
From S2P Require Import DelegationProps.

Local Open Scope string_scope.
Local Open Scope Z_scope.

Module DelegationInv.
Import Delegation DelegationProps.

(** ** Narrowing *)

(** [b] grants no more than [parent]. *)
Definition narrower (b parent : bounds) : Prop :=
  b_action b = b_action parent ∧ b_resource b = b_resource parent ∧
  (∀ limit, b_maximum_amount parent = Some limit →
     ∃ a, b_maximum_amount b = Some a ∧ dec_leb a limit = true ∧ b_currency b = b_currency parent) ∧
  b_expires_at b <= b_expires_at parent ∧
  (b_requires_approval parent = true → b_requires_approval b = true).

#[export] Instance narrower_preorder : PreOrder narrower.
Proof.
  split.
  - intros b. split_and!; try done. intros limit Hl. by exists limit.
  - intros a b c (Ha1 & Ha2 & Ha3 & Ha4 & Ha5) (Hb1 & Hb2 & Hb3 & Hb4 & Hb5).
    split_and!; try congruence; [|lia|auto].
    intros limit (x & Hx & Hle & Hc)%Hb3. destruct (Ha3 _ Hx) as (y & Hy & Hle' & Hc').
    exists y. split_and!; [done | by eapply dec_leb_trans | congruence].
Qed.

(** The narrowing checks accept exactly narrower bounds and change nothing. *)
Lemma check_narrowing_Ok own match_own p parent s r s' :
  check_narrowing own match_own p parent s = (r, s') →
  s' = s ∧ (r = Ok tt ↔ narrower p parent) ∧ (∀ e, r = Err e → ∃ d, e = bad_request d).
Proof.
  unfold check_narrowing, narrower. rewrite !bind_raise_if.
  destruct (eqb (b_action p) (b_action parent)) eqn:Ha; reflect; simpl;
    [|intros; simplify_eq; naive_solver].
  destruct (eqb (b_resource p) (b_resource parent)) eqn:Hr; reflect; simpl;
    [|intros; simplify_eq; naive_solver].
  rewrite bind_run. destruct (b_maximum_amount parent) as [limit|] eqn:Hlim.
  - destruct (b_maximum_amount p) as [a|] eqn:Hamt;
      [|cbv [throw]; intros; simplify_eq; naive_solver].
    rewrite bind_raise_if. destruct (dec_ltb limit a) eqn:Hle.
    { intros; simplify_eq. split_and!; [done | | naive_solver]. split; [done|].
      intros (_ & _ & Hn & _). destruct (Hn _ eq_refl) as (x & Hx & Hle' & _). simplify_eq.
      unfold dec_ltb in Hle. by rewrite Hle' in Hle. }
    apply dec_ltb_false in Hle.
    destruct (eqb (b_currency p) (b_currency parent)) eqn:Hc; reflect; simpl;
      [|cbv [throw]; intros; simplify_eq; naive_solver].
    rewrite bind_raise_if. destruct (Z.ltb_spec (b_expires_at parent) (b_expires_at p));
      [intros; simplify_eq; (split_and!; [done | split; [done | intros; exfalso; lia] | naive_solver])|].
    unfold raise_if, throw. destruct (b_requires_approval parent), (b_requires_approval p); simpl;
      cbv [mret M_ret]; intros; simplify_eq; naive_solver.
  - simpl. rewrite bind_raise_if. destruct (Z.ltb_spec (b_expires_at parent) (b_expires_at p));
      [intros; simplify_eq; (split_and!; [done | split; [done | intros; exfalso; lia] | naive_solver])|].
    unfold raise_if, throw. destruct (b_requires_approval parent), (b_requires_approval p); simpl;
      cbv [mret M_ret]; intros; simplify_eq; naive_solver.
Qed.

(** Storing an amount below a stored limit rounds it to at most the limit. *)
Lemma div_half_even_le n d m : 0 < d → n <= m * d → div_half_even n d <= m.
Proof.
  intros Hd Hle. unfold div_half_even.
  pose proof (Z.div_mod n d ltac:(lia)) as Hdm. pose proof (Z.mod_pos_bound n d Hd) as Hr.
  assert (Hq : n / d <= m) by (apply Z.div_le_upper_bound; lia).
  destruct (Z.compare_spec (2 * (n mod d)) d); [|lia|].
  - destruct (Z.even (n / d)); nia.
  - assert (n / d <> m) by nia. lia.
Qed.

Lemma numeric4_le a limit : dexp limit = -4 → dec_leb a limit = true → dec_leb (numeric4 a) limit = true.
Proof.
  destruct limit as [m el]. simpl. intros ->. destruct a as [n e].
  unfold dec_leb, numeric4, dec_val, ratio_of. cbn [coef dexp]. rewrite !Qle_bool_iff. unfold Qle.
  change (0 <=? -4) with false. cbv iota.
  destruct (Z.leb_spec (-4) e) as [He|He]; cbn [coef dexp Qnum Qden];
    change (0 <=? -4) with false; cbv iota; cbn [Qnum Qden].
  - destruct (Z.leb_spec 0 e) as [He0|He0]; cbn [Qnum Qden].
    + replace (e + 4) with (4 + e) by lia. rewrite Z.pow_add_r by lia.
      change (Z.pos (Z.to_pos (10 ^ - -4))) with 10000. change (10 ^ 4) with 10000. lia.
    + change (Z.pos (Z.to_pos (10 ^ - -4))) with 10000.
      assert (Hp : 0 < 10 ^ (- e)) by (apply Z.pow_pos_nonneg; lia).
      rewrite Z2Pos.id by done. intros H.
      assert (Hs : 10 ^ (e + 4) * 10 ^ (- e) = 10000).
      { rewrite <- Z.pow_add_r by lia. by replace (e + 4 + - e) with 4 by lia. }
      assert (H' : n * 10 ^ (e + 4) * 10 ^ (- e) <= m * 10 ^ (- e)) by (rewrite <- Z.mul_assoc, Hs; lia).
      apply Z.mul_le_mono_pos_r in H'; [lia | done].
  - destruct (Z.leb_spec 0 e) as [|_]; [lia|]. cbn [Qnum Qden].
    change (Z.pos (Z.to_pos (10 ^ - -4))) with 10000.
    assert (Hp : 0 < 10 ^ (- e)) by (apply Z.pow_pos_nonneg; lia).
    assert (Hp' : 0 < 10 ^ (-4 - e)) by (apply Z.pow_pos_nonneg; lia).
    rewrite Z2Pos.id by done. intros H.
    assert (Hs : 10 ^ (-4 - e) * 10000 = 10 ^ (- e)).
    { change 10000 with (10 ^ 4). rewrite <- Z.pow_add_r by lia. f_equal. lia. }
    assert (H' : n * 10000 <= m * 10 ^ (-4 - e) * 10000) by (rewrite <- Z.mul_assoc, Hs; lia).
    assert (div_half_even n (10 ^ (-4 - e)) <= m) by (apply div_half_even_le; [done | lia]). lia.
Qed.

(** ** The invariant *)

(** The parent of a stored delegation: a permission of the delegating agent at
    depth one, else the delegation one level up that made it a recipient. *)
Definition linked (t : tables) (d : AgentDelegation) : Prop :=
  (∃ p, permissions t !! dl_parent_permission_id d = Some p ∧ pm_allow_delegation p = true ∧
     narrower (delegation_bounds d) (permission_bounds p) ∧
     (dl_parent_delegation_id d = None → dl_current_depth d = 1 ∧ pm_agent_id p = dl_parent_agent_id d)) ∧
  ∀ k, dl_parent_delegation_id d = Some k → ∃ a, delegations t !! k = Some a ∧
    dl_current_depth d = dl_current_depth a + 1 ∧ dl_child_agent_id a = dl_parent_agent_id d ∧
    dl_parent_permission_id a = dl_parent_permission_id d ∧ dl_allow_further_delegation a = true ∧
    dl_max_delegation_depth d <= dl_max_delegation_depth a ∧
    narrower (delegation_bounds d) (delegation_bounds a).

Record well_formed (t : tables) : Prop := {
  wf_keys : ∀ k d, delegations t !! k = Some d → dl_id d = k;
  wf_permission_grid : ∀ k p, permissions t !! k = Some p → on_grid (pm_maximum_amount p);
  wf_permission_keys : ∀ k p, permissions t !! k = Some p → pm_id p = k;
  wf_agent_keys : ∀ k a, agents t !! k = Some a → ag_id a = k;
  wf_delegation : ∀ k d, delegations t !! k = Some d →
    linked t d ∧ on_grid (dl_maximum_amount d) ∧
    1 <= dl_current_depth d <= dl_max_delegation_depth d ∧ dl_parent_agent_id d ≠ dl_child_agent_id d
}.

(** ** Creation *)

#[local] Arguments cycle_in_ancestors : simpl never.

Section creation.
Context `{Entropy}.

(** The guards of the chained case, passed. *)
Lemma check_chained_Ok payload pa ca pp k at_ s r s' :
  check_chained payload pa ca pp k at_ s = (r, s') →
  s' = s ∧ (∀ depths, r = Ok depths → ∃ a, delegations (cur s) !! k = Some a ∧
    delegation_is_usable a at_ = true ∧ dl_child_agent_id a = ag_id pa ∧
    dl_allow_further_delegation a = true ∧ dl_parent_permission_id a = pm_id pp ∧
    depths = (dl_current_depth a + 1, dl_max_delegation_depth a `min` dc_max_delegation_depth payload) ∧
    depths.1 <= depths.2 ∧
    cycle_in_ancestors (chain_fuel (cur s)) (cur s) a {[ag_id ca; ag_id pa]} = Some false ∧
    narrower (payload_bounds payload) (delegation_bounds a)) ∧
  (∀ e, r = Err e → ∃ code d, e = HTTPException code d).
Proof.
  unfold check_chained. exec.
  destruct (delegations (cur s) !! k) as [a|] eqn:Ha; [|intros; simplify_eq; naive_solver].
  exec. destruct (_ || _) eqn:Hu; [intros; simplify_eq; naive_solver|].
  exec. destruct (eqb (dl_child_agent_id a) _) eqn:Hc; reflect; simpl; [|intros; simplify_eq; naive_solver].
  exec. destruct (dl_allow_further_delegation a) eqn:Hf; simpl; [|intros; simplify_eq; naive_solver].
  exec. destruct (eqb (dl_parent_permission_id a) _) eqn:Hp; reflect; simpl; [|intros; simplify_eq; naive_solver].
  exec. destruct (Z.ltb_spec (dl_max_delegation_depth a `min` dc_max_delegation_depth payload)
                   (dl_current_depth a + 1)); [intros; simplify_eq; naive_solver|].
  exec.
  pose proof (cycle_in_ancestors_total (cur s) (chain_fuel (cur s)) a {[ag_id ca; ag_id pa]}
    (ex_intro _ k Ha) (column_fuel _ _ _)) as Hcy.
  destruct (cycle_in_ancestors _ _ _ _) as [[]|] eqn:Hcyc; [| |done];
    [rewrite bind_raise_if; intros; simplify_eq; naive_solver|].
  rewrite bind_raise_if, bind_run.
  destruct (check_narrowing _ _ _ _ s) as [rn sn] eqn:Hn.
  apply check_narrowing_Ok in Hn as (-> & Hn & He). destruct rn as [[]|e]; cbv [mret M_ret]; intros; simplify_eq.
  - split_and!; [done | | done]. intros depths [= <-]. exists a. destruct Hu as [_ Hu]. split_and!; try done. by apply Hn.
  - split_and!; [done | done |]. intros e' [= <-]. destruct (He _ eq_refl) as [d ->]. by exists 400, d.
Qed.

(** A delegation was created: every guard of [create_delegation] passed. *)
Record created (t : tables) (payload : AgentDelegationCreate) (at_ : time) (d : AgentDelegation) : Prop := {
  cd_not_self : dc_parent_agent_id payload ≠ dc_child_agent_id payload;
  cd_agents : ∃ pa ca, agents t !! dc_parent_agent_id payload = Some pa ∧ ag_status pa = ACTIVE ∧
    agents t !! dc_child_agent_id payload = Some ca ∧ ag_status ca = ACTIVE ∧
    ag_organization_id pa = Some (dl_organization_id d) ∧
    ag_organization_id ca = Some (dl_organization_id d) ∧
    ∃ p, permissions t !! dc_parent_permission_id payload = Some p ∧
      permission_is_usable p at_ = true ∧ pm_allow_delegation p = true ∧
      match dc_parent_delegation_id payload with
      | None => pm_agent_id p = ag_id pa ∧ narrower (payload_bounds payload) (permission_bounds p) ∧
          (dl_current_depth d, dl_max_delegation_depth d) = (1, dc_max_delegation_depth payload)
      | Some k => ∃ a, delegations t !! k = Some a ∧
          delegation_is_usable a at_ = true ∧ dl_child_agent_id a = ag_id pa ∧
          dl_allow_further_delegation a = true ∧ dl_parent_permission_id a = pm_id p ∧
          (dl_current_depth d, dl_max_delegation_depth d) =
            (dl_current_depth a + 1, dl_max_delegation_depth a `min` dc_max_delegation_depth payload) ∧
          cycle_in_ancestors (chain_fuel t) t a {[ag_id ca; ag_id pa]} = Some false ∧
          narrower (payload_bounds payload) (delegation_bounds a)
      end;
  cd_row : delegations t !! dl_id d = None ∧ delegation_checks d = true ∧
    dl_parent_agent_id d = dc_parent_agent_id payload ∧ dl_child_agent_id d = dc_child_agent_id payload ∧
    dl_parent_permission_id d = dc_parent_permission_id payload ∧
    dl_parent_delegation_id d = dc_parent_delegation_id payload ∧
    dl_action d = dc_action payload ∧ dl_resource d = dc_resource payload ∧
    dl_maximum_amount d = numeric4 <$> dc_maximum_amount payload ∧ dl_currency d = dc_currency payload ∧
    dl_requires_approval d = dc_requires_approval payload ∧
    dl_allow_further_delegation d = dc_allow_further_delegation payload ∧
    dl_expires_at d = dc_expires_at payload ∧ dl_status d = DlgActive
}.

Lemma delegated_depths_Ok payload pa ca pp at_ s r s' :
  delegated_depths payload pa ca pp at_ s = (r, s') →
  s' = s ∧ (∀ depths, r = Ok depths →
    match dc_parent_delegation_id payload with
    | None => narrower (payload_bounds payload) (permission_bounds pp) ∧
              depths = (1, dc_max_delegation_depth payload)
    | Some k => ∃ a, delegations (cur s) !! k = Some a ∧
        delegation_is_usable a at_ = true ∧ dl_child_agent_id a = ag_id pa ∧
        dl_allow_further_delegation a = true ∧ dl_parent_permission_id a = pm_id pp ∧
        depths = (dl_current_depth a + 1, dl_max_delegation_depth a `min` dc_max_delegation_depth payload) ∧
        depths.1 <= depths.2 ∧
        cycle_in_ancestors (chain_fuel (cur s)) (cur s) a {[ag_id ca; ag_id pa]} = Some false ∧
        narrower (payload_bounds payload) (delegation_bounds a)
    end) ∧
  (∀ e, r = Err e → ∃ code d, e = HTTPException code d).
Proof.
  unfold delegated_depths. destruct (dc_parent_delegation_id payload) as [k|]; [apply check_chained_Ok|].
  rewrite bind_run. destruct (check_narrowing _ _ _ _ s) as [rn sn] eqn:Hn.
  apply check_narrowing_Ok in Hn as (-> & Hn & He).
  destruct rn as [[]|e]; cbv [mret M_ret]; intros; simplify_eq; (split_and!; [done| |]); try done.
  - intros depths [= <-]. split; [by apply Hn | done].
  - intros e' [= <-]. destruct (He _ eq_refl) as [d ->]. by exists 400, d.
Qed.

Ltac failed := intros Hrun; left; simpl in Hrun; injection Hrun as <- <-;
  split; [reflexivity | right; do 2 eexists; reflexivity].

Lemma create_delegation_run payload at_ t n now r t' :
  run_request (create_delegation payload at_) t n now = (r, t') →
  (t' = t ∧ (r = Err IntegrityError ∨ ∃ code d, r = Err (HTTPException code d))) ∨
  ∃ d, r = Ok d ∧ t' = upd_delegations <[dl_id d := d]> t ∧ created t payload at_ d.
Proof.
  unfold run_request, create_delegation.
  unfold bad_request, not_found.
  exec. destruct (eqb (dc_parent_agent_id payload) _) eqn:Hself; [failed|].
  exec. destruct (agents t !! dc_parent_agent_id payload) as [pa|] eqn:Hpa; [|failed].
  exec. destruct (eqb (ag_status pa) ACTIVE) eqn:Hpas; simpl; [|failed].
  exec. destruct (agents t !! dc_child_agent_id payload) as [ca|] eqn:Hca; [|failed].
  exec. destruct (eqb (ag_status ca) ACTIVE) eqn:Hcas; simpl; [|failed].
  exec. destruct (_ || _) eqn:Horgs; [failed|].
  exec. destruct (eqb (ag_organization_id pa) _) eqn:Horg; simpl; [|failed].
  exec. destruct (permissions t !! _) as [pp|] eqn:Hpp; [|failed].
  exec. destruct (_ && _) eqn:Hbel; [failed|].
  exec. destruct (permission_is_usable pp at_) eqn:Husable; simpl; [|failed].
  exec. destruct (pm_allow_delegation pp) eqn:Hallow; simpl; [|failed].
  exec. rewrite bind_run.
  destruct (delegated_depths payload pa ca pp at_ (open_session t n now)) as [rd sd] eqn:Hd.
  apply delegated_depths_Ok in Hd as (-> & Hok & Herr).
  destruct rd as [depths|e]; [|destruct (Herr _ eq_refl) as (code & det & ->); failed].
  specialize (Hok _ eq_refl). unfold generate_delegation_id, fresh_token, fresh_uuid.
  rewrite bind_assoc, bind_run. exec. rewrite bind_run. exec.
  match goal with |- context [delegation_checks ?x && _ && _] => set (d := x) end.
  match goal with |- context [if ?b then _ else _] => destruct b eqn:Hins end;
    cbv beta iota delta [mret M_ret]; cbn [committed]; [|intros [= <- <-]; left; split; [done | by left]].
  intros [= <- <-]. right. exists d. split_and!; [done | done |].
  rewrite !andb_true_iff, !negb_true_iff, is_some_false in Hins. destruct Hins as [[Hck Hfresh] _].
  assert (Hbel' : dc_parent_delegation_id payload = None → pm_agent_id pp = ag_id pa).
  { intros E. rewrite E in Hbel. simpl in Hbel. rewrite andb_true_r in Hbel. by reflect. }
  reflect. destruct Horgs as [Ho1 Ho2]. destruct (ag_organization_id pa) as [org|] eqn:Horgp; [|done].
  constructor; [done| |split_and!; done].
  exists pa, ca. split_and!; try done. exists pp. split_and!; try done.
  destruct (dc_parent_delegation_id payload) as [k|].
  - destruct Hok as (a & Ha & ? & ? & ? & ? & -> & ? & ? & ?). exists a. by split_and!.
  - destruct Hok as [? ->]. split_and!; auto.
Qed.

(** The new row keeps the invariant. *)
Lemma created_well_formed t payload at_ d :
  well_formed t → created t payload at_ d → well_formed (upd_delegations <[dl_id d := d]> t).
Proof.
  intros Hwf [Hself (pa & ca & Hpa & _ & Hca & _ & _ & _ & p & Hp & _ & Hallow & Hcase)
    (Hfresh & Hck & Ep & Ec & Epp & Epd & Ea & Er & Em & Ecur & Ereq & Eal & Eexp & _)].
  assert (Hb : ∀ b, (∀ limit, b_maximum_amount b = Some limit → dexp limit = -4) →
    narrower (payload_bounds payload) b → narrower (delegation_bounds d) b).
  { intros b Hg (H1 & H2 & H3 & H4 & H5). split_and!; cbn [delegation_bounds payload_bounds b_action b_resource
      b_maximum_amount b_currency b_expires_at b_requires_approval] in *; try congruence.
    - intros limit Hl. destruct (H3 _ Hl) as (a & Ha & Hle & Hc). exists (numeric4 a).
      simpl in Ha, Hc. rewrite Em, Ha, Ecur. split_and!; [done | by apply numeric4_le; auto | done].
    - rewrite Ereq. done. }
  assert (Hkeep : ∀ e, linked t e → linked (upd_delegations <[dl_id d := d]> t) e).
  { intros e [Hperm Hpar]. split; [done|]. intros k Hk. destruct (Hpar k Hk) as (a & Ha & Hrest).
    exists a. split; [|done]. simpl. rewrite lookup_insert_ne; [done | congruence]. }
  assert (Hgd : on_grid (dl_maximum_amount d)).
  { intros a. rewrite Em. intros (x & _ & ->)%fmap_Some. apply numeric4_grid. }
  assert (Hdepth : 1 <= dl_current_depth d <= dl_max_delegation_depth d).
  { unfold delegation_checks in Hck. rewrite !andb_true_iff, Z.ltb_lt, Z.leb_le in Hck. lia. }
  constructor; simpl.
  - intros k e. rewrite lookup_insert. case_decide; [naive_solver | apply (wf_keys _ Hwf)].
  - apply (wf_permission_grid _ Hwf).
  - apply (wf_permission_keys _ Hwf).
  - apply (wf_agent_keys _ Hwf).
  - intros k e. rewrite lookup_insert. case_decide as Hk.
    2:{ intros He. destruct (wf_delegation _ Hwf _ _ He) as (Hl & ?). split; [by apply Hkeep | done]. }
    intros [= <-]. split_and!; [|done|lia|lia|congruence].
    destruct (wf_agent_keys _ Hwf _ _ Hpa).
    destruct (dc_parent_delegation_id payload) as [kp|] eqn:Hpd.
    + destruct Hcase as (a & Ha & _ & Hch & Hfa & Hpp & [= Hcd Hmd] & _ & Hn).
      destruct (wf_delegation _ Hwf _ _ Ha) as ([(p' & Hp' & Hal' & Hn' & _) _] & Hga & _).
      rewrite (wf_permission_keys _ Hwf _ _ Hp) in Hpp.
      assert (Hnd : narrower (delegation_bounds d) (delegation_bounds a)) by by apply Hb.
      split.
      * exists p'. rewrite Epp, <- Hpp. split_and!; [done | done | by etrans | congruence].
      * intros k' Hk'. rewrite Epd in Hk'. simplify_eq. exists a. simpl.
        rewrite lookup_insert_ne by congruence. split_and!; try done; try congruence; lia.
    + destruct Hcase as (Hag & Hn & [= Hcd Hmd]). split; [|congruence].
      exists p. rewrite Epp. split_and!; [done | done | | split; congruence].
      apply Hb; [|done]. apply (wf_permission_grid _ Hwf _ _ Hp).
Qed.
End creation.

(** ** Changes that keep the terms *)

Definition same_link (d d' : AgentDelegation) : Prop :=
  dl_id d' = dl_id d ∧ dl_delegation_id d' = dl_delegation_id d ∧
  dl_parent_agent_id d' = dl_parent_agent_id d ∧ dl_child_agent_id d' = dl_child_agent_id d ∧
  dl_parent_permission_id d' = dl_parent_permission_id d ∧
  dl_parent_delegation_id d' = dl_parent_delegation_id d ∧
  delegation_bounds d' = delegation_bounds d ∧
  dl_allow_further_delegation d' = dl_allow_further_delegation d ∧
  dl_current_depth d' = dl_current_depth d ∧ dl_max_delegation_depth d' = dl_max_delegation_depth d.
#[export] Instance same_link_preorder : PreOrder same_link.
Proof.
  split; [by intros d|]. intros a b c (?&?&?&?&?&?&?&?&?&?) (?&?&?&?&?&?&?&?&?&?). split_and!; congruence.
Qed.

(** The delegation rows changed at most their status and revocation columns; the
    permissions and agents kept what the invariant reads of them. *)
Record terms_kept (t t' : tables) : Prop := {
  tk_delegations : ∀ k d', delegations t' !! k = Some d' →
    ∃ d, delegations t !! k = Some d ∧ same_link d d';
  tk_rows : ∀ k d, delegations t !! k = Some d → ∃ d', delegations t' !! k = Some d' ∧ same_link d d';
  tk_permissions : ∀ k p, permissions t !! k = Some p → ∃ p', permissions t' !! k = Some p' ∧
    permission_bounds p' = permission_bounds p ∧ pm_allow_delegation p' = pm_allow_delegation p ∧
    pm_agent_id p' = pm_agent_id p;
  tk_permission_rows : ∀ k p, permissions t' !! k = Some p → pm_id p = k ∧ on_grid (pm_maximum_amount p);
  tk_agents : ∀ k a, agents t' !! k = Some a → ag_id a = k
}.

Lemma terms_kept_well_formed t t' : well_formed t → terms_kept t t' → well_formed t'.
Proof.
  intros Hwf [Hd Hrow Hp Hpr Ha]. constructor.
  - intros k d' (d & Hk & Hid & _)%Hd. rewrite Hid. by apply (wf_keys _ Hwf).
  - intros k p Hk. by apply (Hpr k).
  - intros k p Hk. by apply (Hpr k).
  - done.
  - intros k d' (d & Hk & _ & _ & Ep & Ec & Epp & Epd & Eb & Eal & Edp & Emx)%Hd.
    destruct (wf_delegation _ Hwf _ _ Hk) as ([(p & Hpk & Hal & Hn & Hroot) Hpar] & Hg & Hdep & Hne).
    assert (Em : dl_maximum_amount d' = dl_maximum_amount d) by by injection Eb.
    split_and!; [split | by rewrite Em | lia | lia | congruence].
    + destruct (Hp _ _ Hpk) as (p' & Hp' & Epb & Epal & Epag). exists p'.
      rewrite Epp, Eb, Epb, Epal, Epd, Edp, Ep, Epag. by split_and!.
    + intros k' Hk'. rewrite Epd in Hk'. destruct (Hpar _ Hk') as (a & Hak & H1 & H2 & H3 & H4 & H5 & H6).
      destruct (Hrow _ _ Hak) as (a' & Ha' & _ & _ & Fp & Fc & Fpp & Fpd & Fb & Fal & Fdp & Fmx).
      exists a'. rewrite Eb, Fb, Edp, Fdp, Fc, Ep, Fpp, Epp, Fal, Emx, Fmx. by split_and!.
Qed.

(** ** The chain above a stored delegation *)

Section chains.
Context (t : tables) (Hwf : well_formed t).

Lemma parent_of_wf d k : delegations t !! k = Some d →
  (parent_of t d = None ∧ dl_current_depth d = 1) ∨
  ∃ k' a, parent_of t d = Some a ∧ delegations t !! k' = Some a ∧
    dl_current_depth d = dl_current_depth a + 1 ∧ narrower (delegation_bounds d) (delegation_bounds a) ∧
    dl_parent_permission_id a = dl_parent_permission_id d ∧ dl_child_agent_id a = dl_parent_agent_id d.
Proof.
  intros Hk. destruct (wf_delegation _ Hwf _ _ Hk) as ([(p & _ & _ & _ & Hroot) Hpar] & _).
  unfold parent_of. destruct (dl_parent_delegation_id d) as [k'|]; simpl.
  - right. destruct (Hpar _ eq_refl) as (a & Ha & H1 & H2 & H3 & H4 & H5 & H6). exists k', a. by split_and!.
  - left. split; [done | by apply Hroot].
Qed.

Lemma links_up_wf fuel d k :
  delegations t !! k = Some d → (Z.to_nat (dl_current_depth d) ≤ fuel)%nat →
  ∃ l, links_up fuel t d = Some l ∧ length l = Z.to_nat (dl_current_depth d) ∧ NoDup (map dl_id l) ∧
    ∀ a, a ∈ l → is_row t a ∧ dl_current_depth a <= dl_current_depth d ∧
      narrower (delegation_bounds d) (delegation_bounds a) ∧
      dl_parent_permission_id a = dl_parent_permission_id d.
Proof.
  revert d k. induction fuel as [|fuel IH]; intros d k Hk Hf.
  { destruct (wf_delegation _ Hwf _ _ Hk) as (_ & _ & Hd & _). lia. }
  cbn [links_up]. destruct (parent_of_wf _ _ Hk) as [[-> Hd] | (k' & a & -> & Ha & Hd & Hn & Hp & _)].
  - exists [d]. rewrite Hd. split_and!; [done | done | apply NoDup_singleton |].
    intros a ->%list_elem_of_singleton. split_and!; [by exists k | lia | done | done].
  - destruct (wf_delegation _ Hwf _ _ Ha) as (_ & _ & Hda & _).
    destruct (IH a k' Ha ltac:(lia)) as (l & -> & Hlen & Hnd & Hall). exists (d :: l). simpl.
    split_and!; [done | lia | |].
    + apply NoDup_cons. split; [|done]. intros (b & Hid & Hb)%list_elem_of_fmap.
      destruct (Hall _ Hb) as ((kb & Hkb) & Hdb & _).
      assert (kb = k) as -> by (rewrite <- (wf_keys _ Hwf _ _ Hkb), <- (wf_keys _ Hwf _ _ Hk); done).
      rewrite Hk in Hkb. simplify_eq. lia.
    + intros b [-> | Hb]%elem_of_cons; [split_and!; [by exists k | lia | done | done]|].
      destruct (Hall _ Hb) as (? & ? & ? & ?). split_and!; [done | lia | by etrans | congruence].
Qed.

Lemma depth_le_size d k :
  delegations t !! k = Some d → (Z.to_nat (dl_current_depth d) ≤ size (delegations t))%nat.
Proof.
  intros Hk. destruct (links_up_wf _ _ _ Hk (le_n _)) as (l & _ & <- & Hnd & Hall).
  rewrite <- size_dom, <- (length_map dl_id l). apply NoDup_length_le; [done|].
  intros i (a & -> & Ha)%list_elem_of_fmap. destruct (Hall _ Ha) as ((ka & Hka) & _).
  apply elem_of_dom. rewrite (wf_keys _ Hwf _ _ Hka). by exists a.
Qed.
End chains.

(** ** Properties *)

(** The agent exists and is active in an organization. *)
Definition active_in (t : tables) (org k : uuid) : Prop :=
  ∃ a, agents t !! k = Some a ∧ ag_status a = ACTIVE ∧ ag_organization_id a = Some org.

(** Creating a delegation either fails and changes nothing, or adds
    exactly one new active delegation between two different active agents of one
    organization, under a usable permission that allows delegation and that it
    narrows, as it narrows the delegation it is chained to; the invariant of
    stored delegations then still holds. *)
Theorem delegation_created_narrow `{Entropy} payload at_ t n now r t' :
  well_formed t →
  run_request (create_delegation payload at_) t n now = (r, t') →
  match r with
  | Err _ => t' = t
  | Ok d =>
      delegations t !! dl_id d = None ∧ t' = upd_delegations <[dl_id d := d]> t ∧ well_formed t' ∧
      dl_status d = DlgActive ∧ dl_parent_agent_id d ≠ dl_child_agent_id d ∧
      active_in t (dl_organization_id d) (dl_parent_agent_id d) ∧
      active_in t (dl_organization_id d) (dl_child_agent_id d) ∧
      (∃ p, permissions t !! dl_parent_permission_id d = Some p ∧ permission_is_usable p at_ = true ∧
         pm_allow_delegation p = true ∧ narrower (delegation_bounds d) (permission_bounds p)) ∧
      ∀ k, dl_parent_delegation_id d = Some k → ∃ a, delegations t !! k = Some a ∧
        delegation_is_usable a at_ = true ∧ dl_allow_further_delegation a = true ∧
        dl_child_agent_id a = dl_parent_agent_id d ∧ dl_current_depth d = dl_current_depth a + 1 ∧
        narrower (delegation_bounds d) (delegation_bounds a)
  end.
Proof.
  intros Hwf Hrun. apply create_delegation_run in Hrun as [(-> & [-> | (c & e & ->)]) | (d & -> & -> & Hc)]; [done..|].
  pose proof (created_well_formed _ _ _ _ Hwf Hc) as Hwf'.
  destruct (wf_delegation _ Hwf' (dl_id d) d (lookup_insert_eq _ _ _)) as ([(p & Hp & Hal & Hn & _) Hpar] & _ & _ & Hne).
  destruct Hc as [_ (pa & ca & Hpa & Hpas & Hca & Hcas & Hpo & Hco & q & Hq & Hu & _ & Hcase)
    (Hfresh & _ & Ep & Ec & Epp & Epd & _ & _ & _ & _ & _ & _ & _ & Est)].
  split_and!; try done.
  - exists pa. by rewrite Ep.
  - exists ca. by rewrite Ec.
  - exists p. simpl in Hp. rewrite Epp, Hq in Hp. injection Hp as <-. rewrite Epp. by split_and!.
  - intros k Hk. destruct (Hpar k Hk) as (a & Ha & Hdep & Hch & _ & Hfa & _ & Hna). simpl in Ha.
    rewrite <- Epd, Hk in Hcase. destruct Hcase as (b & Hb & Hub & _).
    assert (Hkd : k ≠ dl_id d) by congruence. rewrite lookup_insert_ne in Ha by done.
    rewrite Hb in Ha. injection Ha as <-. exists b. by split_and!.
Qed.

Definition narrow_payload : AgentDelegationCreate :=
  {| dc_parent_agent_id := 1; dc_child_agent_id := 2; dc_parent_permission_id := 100;
     dc_parent_delegation_id := None; dc_action := "pay"; dc_resource := "invoices";
     dc_maximum_amount := Some (Dec 500 0); dc_currency := Some "USD"; dc_requires_approval := false;
     dc_allow_further_delegation := true; dc_max_delegation_depth := 3; dc_valid_from := 0;
     dc_expires_at := day |}.
Definition two_agents : tables := tables_with [sample_agent 1; sample_agent 2] [sample_permission 100 1] [].

Lemma two_agents_well_formed : well_formed two_agents.
Proof.
  constructor; [done | | | | done].
  - intros k p Hp. apply (keyed_lookup pm_id [sample_permission 100 1]) in Hp as [_ Hin].
    apply list_elem_of_singleton in Hin as ->. intros a [= <-]. done.
  - intros k p Hp. by apply (keyed_lookup pm_id [sample_permission 100 1]) in Hp as [? _].
  - intros k a Ha. by apply (keyed_lookup ag_id [sample_agent 1; sample_agent 2]) in Ha as [? _].
Qed.

Lemma delegation_created_narrow_witness :
  ∃ d t', run_request (create_delegation narrow_payload hour) two_agents 0 hour = (Ok d, t') ∧
    well_formed t' ∧ delegations two_agents !! dl_id d = None.
Proof.
  destruct (run_request (create_delegation narrow_payload hour) two_agents 0 hour) as [[d|e] t'] eqn:Hrun;
    [|by vm_compute in Hrun].
  exists d, t'. split; [reflexivity|].
  destruct (delegation_created_narrow _ _ _ _ _ _ _ two_agents_well_formed Hrun) as (Hn & _ & Hwf & _).
  split; [exact Hwf | exact Hn].
Defined.

End DelegationInv.
