(* ===== verification/Revocation.v ===== *)
(** Cascade revocation ([revoke_delegation]): the queue ends, it revokes exactly
    the delegation and its descendants over active links, and the invariant of
    stored delegations survives every sequence of requests. *)
From Stdlib Require Import Ascii.
From S2P Require Import Prelude.
From S2P Require Import PyStr.
From S2P Require Import PyFloat.
From S2P Require Import PyVal.
From S2P Require Import PyDecimal.
From S2P Require Import PyTime.
From S2P Require Import Models.
From S2P Require Import Schemas.
From S2P Require Import Store.
From S2P Require Import Samples.
From S2P Require Import Permissions.
From S2P Require Import Delegation.
From S2P Require Import DelegationProps.
From S2P Require Import DelegationInv.

Local Open Scope string_scope.
Local Open Scope Z_scope.

Module Revocation.
Import Delegation DelegationProps DelegationInv.

Abbreviation links := (gmap uuid AgentDelegation).

(** Rows sit under their identifiers. *)
Definition keyed_links (m : links) : Prop := ∀ k d, m !! k = Some d → dl_id d = k.

(** The active rows below the delegations [Q], through active rows. *)
Inductive active_below (m : links) (Q : uuid → Prop) : uuid → Prop :=
  | below_child q k d : Q q → m !! k = Some d → active_child_of q d = true → active_below m Q k
  | below_below j k d : active_below m Q j → m !! k = Some d → active_child_of j d = true →
      active_below m Q k.

Lemma active_child_of_true q d :
  active_child_of q d = true ↔ dl_parent_delegation_id d = Some q ∧ dl_status d = DlgActive.
Proof. unfold active_child_of. by rewrite andb_true_iff, !eqb_true. Qed.

Lemma active_below_mono m (Q Q' : uuid → Prop) k :
  (∀ q, Q q → Q' q) → active_below m Q k → active_below m Q' k.
Proof. intros HQ. induction 1; [eapply below_child; eauto | eapply below_below; eauto]. Qed.

Section step.
Context (now : time) (reason : string) (agent user : option uuid).
Let revoke : AgentDelegation → AgentDelegation := revoke_row now reason agent user.

Lemma revoke_not_active q d : active_child_of q (revoke d) = false.
Proof.
  apply not_true_iff_false. rewrite active_child_of_true. by intros [_ ?].
Qed.

(** One turn of the queue: revoking the active children of [p] and queueing them
    covers the same rows as [p] did. *)
Lemma active_below_step m p (rest : list uuid) k :
  keyed_links m →
  let m' := update_where (active_child_of p) revoke m in
  let children := map dl_id (select_rows (active_child_of p) m) in
  active_below m (λ q, q = p ∨ q ∈ rest) k ↔
  (∃ d, m !! k = Some d ∧ active_child_of p d = true) ∨ active_below m' (λ q, q ∈ (rest ++ children)%list) k.
Proof.
  intros Hm m' children.
  assert (Hch : ∀ j, j ∈ children ↔ ∃ d, m !! j = Some d ∧ active_child_of p d = true).
  { intros j. unfold children. rewrite list_elem_of_fmap. setoid_rewrite elem_of_select_rows. split.
    - intros (d & -> & (k' & Hk') & Hd). exists d. by rewrite (Hm _ _ Hk').
    - intros (d & Hj & Hd). exists d. split; [by rewrite (Hm _ _ Hj)|]. split; [by exists j | done]. }
  assert (Hkeep : ∀ j d, m !! j = Some d → active_child_of p d = false → m' !! j = Some d).
  { intros j d Hj Hd. unfold m'. rewrite lookup_update_where, Hj. simpl. by rewrite Hd. }
  assert (Hback : ∀ j q d, m' !! j = Some d → active_child_of q d = true → m !! j = Some d).
  { intros j q d. unfold m'. rewrite lookup_update_where.
    destruct (m !! j) as [d0|]; [|done]. simpl. intros [= <-].
    destruct (active_child_of p d0); [|done]. by rewrite revoke_not_active. }
  split.
  - induction 1 as [q k d Hq Hk Hd | j k d _ IH Hk Hd].
    + destruct (active_child_of p d) eqn:Hp; [left; by exists d|]. right.
      destruct Hq as [-> | Hq]; [congruence|].
      eapply (below_child _ _ q); [apply elem_of_app; by left | by apply Hkeep | done].
    + destruct (active_child_of p d) eqn:Hp; [left; by exists d|]. right.
      destruct IH as [Hj | Hj].
      * eapply (below_child _ _ j); [apply elem_of_app; right; by apply Hch | by apply Hkeep | done].
      * eapply below_below; [exact Hj | by apply Hkeep | done].
  - intros [(d & Hk & Hd) | H].
    + eapply (below_child _ _ p); [by left | done | done].
    + induction H as [q k d Hq Hk Hd | j k d _ IH Hk Hd].
      * apply elem_of_app in Hq as [Hq | (dq & Hq & Hdq)%Hch].
        -- eapply (below_child _ _ q); [by right | by eapply Hback | done].
        -- eapply (below_below _ _ q); [|by eapply Hback | done].
           eapply (below_child _ _ p); [by left | done | done].
      * eapply below_below; [exact IH | by eapply Hback | done].
Qed.

(** What the queue does to the rows: [k] is revoked if it is below the queue. *)
Definition cascaded (m m' : links) (Q : uuid → Prop) : Prop :=
  dom m' = dom m ∧ ∀ k d, m !! k = Some d →
    (active_below m Q k → m' !! k = Some (revoke d)) ∧ (¬ active_below m Q k → m' !! k = Some d).

Definition is_active (d : AgentDelegation) : bool := eqb (dl_status d) DlgActive.
Definition active_rows (m : links) : nat := count_where is_active (rows m).

Lemma active_rows_step p m :
  (active_rows (update_where (active_child_of p) revoke m) +
   length (select_rows (active_child_of p) m) = active_rows m)%nat.
Proof.
  unfold active_rows, select_rows. rewrite (count_where_perm _ _ _ (rows_update_where _ _ _)).
  apply (count_where_change (active_child_of p)).
  - intros d Hd. apply active_child_of_true in Hd as [_ Hs]. by apply eqb_true.
  - done.
Qed.

Lemma active_rows_le m : (active_rows m ≤ size m)%nat.
Proof.
  unfold active_rows, count_where. etrans; [apply length_select_where|].
  unfold rows. by rewrite length_fmap, length_map_to_list.
Qed.

Lemma keyed_update p m : keyed_links m → keyed_links (update_where (active_child_of p) revoke m).
Proof.
  intros Hm k d. rewrite lookup_update_where. destruct (m !! k) as [d0|] eqn:Hk; [|done].
  simpl. intros [= <-]. apply Hm in Hk. by destruct (active_child_of p d0).
Qed.

Lemma update_no_children p m :
  select_rows (active_child_of p) m = [] → update_where (active_child_of p) revoke m = m.
Proof.
  intros Hn. apply map_eq. intros k. rewrite lookup_update_where.
  destruct (m !! k) as [d|] eqn:Hk; [|done]. simpl.
  rewrite (proj1 (select_where_nil _ _) Hn d); [done|]. apply elem_of_rows. by exists k.
Qed.

Lemma cascaded_step p rest m m'' :
  keyed_links m →
  let m' := update_where (active_child_of p) revoke m in
  cascaded m' m'' (λ q, q ∈ (rest ++ map dl_id (select_rows (active_child_of p) m))%list) →
  cascaded m m'' (λ q, q ∈ p :: rest).
Proof.
  intros Hm m' [Hdom Hc]. split; [rewrite Hdom; apply dom_update_where|].
  assert (Hq : ∀ k, active_below m (λ q, q ∈ p :: rest) k ↔ active_below m (λ q, q = p ∨ q ∈ rest) k).
  { intros k. split; apply active_below_mono; intros q; rewrite elem_of_cons; done. }
  intros k d Hk. pose proof (active_below_step m p rest k Hm) as Hst. cbv zeta in Hst. fold m' in Hst.
  rewrite Hq, Hst.
  destruct (active_child_of p d) eqn:Hd.
  - assert (Hk' : m' !! k = Some (revoke d)) by (unfold m'; by rewrite lookup_update_where, Hk; simpl; rewrite Hd).
    split; [intros _ | intros Hn; destruct Hn; left; by exists d].
    apply (proj2 (Hc _ _ Hk')). intros Hb.
    inversion Hb as [q k0 d0 _ Hk0 Ha | j k0 d0 _ Hk0 Ha]; subst; rewrite Hk' in Hk0; simplify_eq;
      by rewrite revoke_not_active in Ha.
  - assert (Hk' : m' !! k = Some d) by (unfold m'; by rewrite lookup_update_where, Hk; simpl; rewrite Hd).
    destruct (Hc _ _ Hk') as [H1 H2]. split.
    + intros [(d' & Hk0 & Hd') | Hb]; [congruence | by apply H1].
    + intros Hn. apply H2. intros Hb. apply Hn. by right.
Qed.

Lemma cascaded_nil m : cascaded m m (λ q, q ∈ []).
Proof.
  split; [done|]. intros k d Hk. split; [intros Hb | done]. exfalso. clear Hk d.
  induction Hb as [q k d' Hq | ? ? ? ? IH]; [by apply not_elem_of_nil in Hq | exact IH].
Qed.

(** The queue of [revoke_delegation], run to its end. *)
Lemma cascade_loop_run fuel queue s :
  keyed_links (delegations (cur s)) → dead s = false → fits 255 reason = true →
  (length queue + active_rows (delegations (cur s)) ≤ fuel)%nat →
  ∃ m', cascade_loop fuel now reason agent user queue s =
      (Ok tt, set_cur (upd_delegations (λ _, m') (cur s)) s) ∧
    keyed_links m' ∧ cascaded (delegations (cur s)) m' (λ q, q ∈ queue).
Proof.
  revert queue s. induction fuel as [|fuel IH]; intros [|p rest] s Hm Hs Hfit Hfuel; simpl in *; [|lia| |].
  1, 2: exists (delegations (cur s)); split; [by destruct s as [[] ? ? ? ?]|]; split; [exact Hm|];
    apply cascaded_nil.
  rewrite bind_query. pose proof (active_rows_step p (delegations (cur s))) as Hact.
  pose proof (keyed_update p _ Hm) as Hm'.
  pose proof (λ m'', cascaded_step p rest (delegations (cur s)) m'' Hm) as Hstep. cbv zeta in Hstep.
  set (children := select_rows (active_child_of p) (delegations (cur s))) in *.
  set (m' := update_where (active_child_of p) revoke (delegations (cur s))) in *.
  set (s1 := set_cur (upd_delegations (λ _, m') (cur s)) s).
  assert (Hrun : ((if (length children =? 0)%nat then mret tt
      else insert_checked (reason_fits reason)
        (upd_delegations (update_where (active_child_of p) (revoke_row now reason agent user))))
        ≫= λ _, cascade_loop fuel now reason agent user (rest ++ map dl_id children)%list) s =
      cascade_loop fuel now reason agent user (rest ++ map dl_id children)%list s1).
  { destruct (length children =? 0)%nat eqn:Hlen.
    - rewrite bind_ret. apply Nat.eqb_eq, length_zero_iff_nil in Hlen. f_equal.
      unfold s1, m'. rewrite (update_no_children _ _ Hlen). by destruct s as [[] ? ? ? ?].
    - rewrite bind_insert by done. unfold reason_fits. rewrite Hfit. done. }
  rewrite Hrun. destruct (IH (rest ++ map dl_id children)%list s1) as (m'' & Hr & Hk'' & Hc); try done.
  { simpl. rewrite length_app, length_map. unfold revoke in *. simpl in *. lia. }
  exists m''. split_and!; [rewrite Hr; done | done | by apply Hstep].
Qed.
End step.

(** ** Revocation requests *)

Definition cascade_reason (reason : option string) : string :=
  "Cascade revocation from parent delegation: " +:+ reason_or reason "Parent revoked".

(** C10. With a reason that fits its column also in the children's text, a
    cascade revocation of an existing delegation succeeds; it revokes the
    delegation and every active delegation below it through active links, with
    the reason and the actor, and changes no other row and no other table. *)
Theorem revoke_cascades i user agent reason now t n dbnow k d :
  keyed_links (delegations t) → by_public_id t i = Some d → delegations t !! k = Some d →
  fits 255 (reason_or reason "Revoked by user/agent") = true → fits 255 (cascade_reason reason) = true →
  let revoked := revoke_row now (reason_or reason "Revoked by user/agent") agent user d in
  ∃ m', run_request (revoke_delegation i user agent reason true now) t n dbnow =
      (Ok revoked, upd_delegations (λ _, m') t) ∧
    m' !! k = Some revoked ∧ dom m' = dom (delegations t) ∧
    ∀ j e, delegations t !! j = Some e → j ≠ k →
      (active_below (delegations t) (λ q, q = k) j →
         m' !! j = Some (revoke_row now (cascade_reason reason) agent user e)) ∧
      (¬ active_below (delegations t) (λ q, q = k) j → m' !! j = Some e).
Proof.
  intros Hm Hd Hk Hf1 Hf2 revoked. pose proof (Hm _ _ Hk) as Hid.
  unfold run_request, revoke_delegation. exec. rewrite Hd. rewrite bind_insert by done.
  unfold reason_fits at 1. rewrite Hf1. rewrite Hid. fold revoked.
  set (s1 := set_cur _ _). rewrite bind_run. rewrite bind_query.
  set (m1 := <[k := revoked]> (delegations t)).
  assert (Hm1 : keyed_links m1).
  { intros j e. unfold m1. rewrite lookup_insert. case_decide; [naive_solver | apply Hm]. }
  destruct (cascade_loop_run now (cascade_reason reason) agent user (cascade_fuel (cur s1)) [k] s1)
    as (m' & Hr & Hk' & [Hdom Hc]); try done.
  { unfold cascade_fuel. pose proof (active_rows_le (delegations (cur s1))). simpl in *. lia. }
  change (delegations (cur s1)) with m1 in *.
  unfold cascade_reason in Hr. rewrite Hr. exec. exists m'.
  assert (Hmk : m1 !! k = Some revoked) by (unfold m1; by rewrite lookup_insert_eq).
  assert (Hrow : ∀ j e q, m1 !! j = Some e → active_child_of q e = true → j ≠ k ∧ delegations t !! j = Some e).
  { intros j e q. unfold m1. rewrite lookup_insert. case_decide as Hjk; [|done].
    intros [= <-]. unfold revoked. by rewrite revoke_not_active. }
  assert (Hb : ∀ j, j ≠ k → active_below m1 (λ q, q ∈ [k]) j ↔ active_below (delegations t) (λ q, q = k) j).
  { intros j Hjk. split.
    - clear Hjk. induction 1 as [q j e Hq Hj He | j' j e _ IH Hj He].
      + apply list_elem_of_singleton in Hq. destruct (Hrow _ _ _ Hj He). by eapply below_child.
      + destruct (Hrow _ _ _ Hj He). by eapply below_below.
    - intros H. revert Hjk. induction H as [q j e -> Hj He | j' j e _ IH Hj He]; intros Hjk.
      + eapply (below_child _ _ k); [by apply list_elem_of_singleton | | done].
        unfold m1. by rewrite lookup_insert_ne.
      + destruct (decide (j' = k)) as [->|Hj'].
        * eapply (below_child _ _ k); [by apply list_elem_of_singleton | | done].
          unfold m1. by rewrite lookup_insert_ne.
        * eapply below_below; [by apply IH | | done]. unfold m1. by rewrite lookup_insert_ne. }
  split_and!; [done | | |].
  - apply (proj2 (Hc _ _ Hmk)). intros Hbk.
    inversion Hbk as [q k0 e _ Hk0 He | j k0 e _ Hk0 He]; subst; by destruct (Hrow _ _ _ Hk0 He).
  - rewrite Hdom. unfold m1. rewrite dom_insert_lookup_L; [done | by exists d].
  - intros j e Hj Hjk. assert (Hj1 : m1 !! j = Some e) by (unfold m1; by rewrite lookup_insert_ne).
    rewrite <- (Hb j Hjk). apply (Hc _ _ Hj1).
Qed.

(** *** Any revocation keeps the terms of the delegations *)

Definition links_kept (t t' : tables) : Prop :=
  t' = upd_delegations (λ _, delegations t') t ∧
  ∀ k, option_Forall2 same_link (delegations t !! k) (delegations t' !! k).
#[export] Instance links_kept_preorder : PreOrder links_kept.
Proof.
  split.
  - intros t. split; [by destruct t|]. intros k. destruct (delegations t !! k); constructor. reflexivity.
  - intros t1 t2 t3 [E12 H12] [E23 H23]. split; [rewrite E23; rewrite E12 at 1; done|].
    intros k. specialize (H12 k). specialize (H23 k).
    destruct H12 as [d1 d2 H12|]; inversion H23; constructor. by etrans.
Qed.

(** Up to its commit, a revocation only changes rows along [links_kept]. *)
Definition revoking (s s' : session) : Prop :=
  committed s' = committed s ∧ (dead s' = false → dead s = false ∧ links_kept (cur s) (cur s')).
#[export] Instance revoking_preorder : PreOrder revoking.
Proof.
  split; [intros s; split; [done | intros ?; by split]|].
  intros s1 s2 s3 [E12 H12] [E23 H23]. split; [congruence|].
  intros [[Hd H]%H12 H']%H23. split; [done | by etrans].
Qed.

Lemma same_link_revoke now reason agent user d : same_link d (revoke_row now reason agent user d).
Proof. done. Qed.

Lemma revoking_insert ok f :
  (∀ t, links_kept t (upd_delegations f t)) → respects revoking (insert_checked ok (upd_delegations f)).
Proof.
  intros Hf s. unfold insert_checked. destruct (dead s) eqn:Hs; [split; [done | simpl; congruence]|].
  destruct (ok (cur s)); (split; [done|]); intros Hd; (split; [done|]); [apply Hf | by simpl in Hd].
Qed.

Lemma cascade_loop_revoking fuel now reason agent user queue :
  respects revoking (cascade_loop fuel now reason agent user queue).
Proof.
  revert queue. induction fuel as [|fuel IH]; intros [|p rest]; simpl; [walk..|].
  apply respects_bind; [apply _ | by intros s|]. intros children.
  apply respects_bind; [apply _ | | intros _; apply IH].
  destruct (length children =? 0)%nat; [walk|]. apply revoking_insert. intros t.
  split; [done|]. intros k. simpl. rewrite lookup_update_where.
  destruct (delegations t !! k) as [d|]; simpl; constructor.
  destruct (active_child_of p d); [apply same_link_revoke | reflexivity].
Qed.

Lemma revoke_run i user agent reason cascade now t n dbnow r t' :
  keyed_links (delegations t) →
  run_request (revoke_delegation i user agent reason cascade now) t n dbnow = (r, t') → links_kept t t'.
Proof.
  intros Hm. unfold run_request. destruct (revoke_delegation _ _ _ _ _ _ _) as [r0 s'] eqn:Hr.
  intros [= <- <-]. unfold revoke_delegation in Hr. exec_in Hr.
  destruct (by_public_id t i) as [d|] eqn:Hd; [|by simplify_eq].
  destruct (by_public_id_row _ _ _ Hd) as [[k Hk] _]. pose proof (Hm _ _ Hk) as Hid.
  rewrite bind_insert in Hr by done. unfold reason_fits at 1 in Hr.
  destruct (fits 255 _); [|by simplify_eq]. rewrite bind_run in Hr.
  set (s1 := set_cur _ _) in Hr.
  assert (Hk1 : links_kept t (cur s1)).
  { split; [done|]. intros j. unfold s1. simpl. rewrite Hid, lookup_insert. case_decide.
    - subst j. rewrite Hk. by constructor.
    - destruct (delegations t !! j); constructor. reflexivity. }
  assert (Hrev : ∀ q, respects revoking (if cascade then
      query cascade_fuel ≫= λ fuel, cascade_loop fuel now
        ("Cascade revocation from parent delegation: " +:+ reason_or reason "Parent revoked") agent user q
      else mret tt)).
  { intros q. destruct cascade; [|walk]. apply respects_bind; [apply _ | by intros s|].
    intros fuel. apply cascade_loop_revoking. }
  specialize (Hrev [dl_id d] s1).
  match type of Hrev with revoking _ ?p.2 => destruct p as [[[]|e] s2] end;
    simpl in Hrev; destruct Hrev as [Hc Hl].
  - rewrite bind_run in Hr. unfold commit in Hr. destruct (dead s2) eqn:Hs2; injection Hr as <- <-; [by rewrite Hc|].
    etrans; [exact Hk1 | by apply Hl].
  - injection Hr as <- <-. by rewrite Hc.
Qed.

Lemma links_kept_terms t t' : well_formed t → links_kept t t' → terms_kept t t'.
Proof.
  intros Hwf [E H]. constructor.
  - intros k d' Hk. specialize (H k). rewrite Hk in H. inversion H; subst. by eexists.
  - intros k d Hk. specialize (H k). rewrite Hk in H. inversion H; subst. by eexists.
  - intros k p Hk. exists p. rewrite E. by split_and!.
  - intros k p. rewrite E. simpl. intros Hp. split; [by apply (wf_permission_keys _ Hwf) | by apply (wf_permission_grid _ Hwf k)].
  - intros k a. rewrite E. simpl. apply (wf_agent_keys _ Hwf).
Qed.

(** A reason the API accepts (at most 255 characters) but longer
    than 213 makes the cascade fail as soon as there is an active child: the
    request raises, everything is rolled back, and the delegation stays active. *)
Theorem revoke_long_reason i user agent reason now t n dbnow d j e :
  keyed_links (delegations t) → by_public_id t i = Some d →
  delegations t !! j = Some e → active_child_of (dl_id d) e = true → dl_id d ≠ j →
  (213 < String.length reason)%nat →
  run_request (revoke_delegation i user agent (Some reason) true now) t n dbnow = (Err IntegrityError, t).
Proof.
  intros Hm Hd Hj He Hne Hlen.
  assert (Hreason : ∀ x, reason_or (Some reason) x = reason).
  { intros x. unfold reason_or. destruct (eqb reason "") eqn:E; [|done].
    reflect. subst. simpl in Hlen. lia. }
  unfold run_request, revoke_delegation. exec. rewrite Hd. rewrite bind_insert by done. rewrite !Hreason.
  unfold reason_fits at 1. destruct (fits 255 reason); [|done].
  set (s1 := set_cur _ _). rewrite bind_run, bind_query. unfold cascade_fuel. cbn [cascade_loop].
  rewrite bind_query.
  assert (Hin : e ∈ select_rows (active_child_of (dl_id d)) (delegations (cur s1))).
  { apply elem_of_select_rows. split; [|done]. exists j. unfold s1. simpl. by rewrite lookup_insert_ne. }
  destruct (select_rows _ _) as [|x l] eqn:Hsel; [by apply elem_of_nil in Hin|].
  cbn [length Nat.eqb]. rewrite bind_insert by done. unfold reason_fits at 1.
  assert (Hfit : fits 255 ("Cascade revocation from parent delegation: " +:+ reason) = false).
  { unfold fits. rewrite String_length_append. apply Nat.leb_gt. simpl. lia. }
  by rewrite Hfit.
Qed.

(** ** Witnesses *)

Section witnesses.
Let t1 : tables := tables_with [sample_agent 1; sample_agent 2; sample_agent 3] [sample_permission 100 1]
  [sample_delegation 7 1 2 None; sample_delegation 8 2 3 (Some 7%N)].

Lemma keyed_links_t1 : keyed_links (delegations t1).
Proof.
  intros k a. unfold t1, tables_with, keyed. simpl. rewrite !lookup_insert.
  repeat case_decide; rewrite ?lookup_empty; intros; simplify_eq; done.
Qed.

Lemma revoke_cascades_witness :
  ∃ m', m' !! 8%N = Some (revoke_row 5 (cascade_reason (Some "leaked")) None (Some 9%N)
                            (sample_delegation 8 2 3 (Some 7%N))) ∧
    (run_request (revoke_delegation "del_7" (Some 9%N) None (Some "leaked") true 5) t1 0 5).2
      = upd_delegations (λ _, m') t1.
Proof.
  destruct (revoke_cascades "del_7" (Some 9%N) None (Some "leaked") 5 t1 0 5 7 (sample_delegation 7 1 2 None)
    keyed_links_t1) as (m' & Hr & _ & _ & Hall); [vm_compute; reflexivity..|].
  exists m'. split; [|by rewrite Hr].
  apply (Hall 8%N (sample_delegation 8 2 3 (Some 7%N))); [vm_compute; reflexivity | congruence|].
  eapply (below_child _ _ 7); [done | vm_compute; reflexivity | vm_compute; reflexivity].
Defined.

Lemma revoke_long_reason_witness :
  run_request (revoke_delegation "del_7" None None (Some (PyFloat.zeros 220)) true 5) t1 0 5
    = (Err IntegrityError, t1).
Proof.
  apply (revoke_long_reason _ _ _ _ _ _ _ _ (sample_delegation 7 1 2 None) 8 (sample_delegation 8 2 3 (Some 7%N)));
    [exact keyed_links_t1 | vm_compute; reflexivity | vm_compute; reflexivity | vm_compute; reflexivity
    | by vm_compute | vm_compute; lia].
Defined.
End witnesses.

End Revocation.
