(* ===== verification/Risk.v ===== *)
(** Risk scoring ([backend/app/services/risk_engine.py]) and the organization
    rules applied after it ([organization_policy.py]).

    [evaluate] of the rule-based provider is split at its paragraphs: each
    returns the points and reasons it adds, in the order of the source, and
    [evaluate_rules] adds them up.  [RiskProvider] is the protocol of the source
    with the range its score column enforces as its law. *)
From Stdlib Require Import Ascii.
From S2P Require Import Prelude.
From S2P Require Import PyStr.
From S2P Require Import PyFloat.
From S2P Require Import PyVal.
From S2P Require Import PyDecimal.
From S2P Require Import Models.
From S2P Require Import Store.
From S2P Require Import Samples.

Local Open Scope string_scope.
Local Open Scope Z_scope.

Module Risk.

(** ** Settings *)

(** The risk settings of [core/config.py]. *)
Record Settings : Type := MkSettings {
  risk_low_max : Z;
  risk_medium_max : Z;
  risk_high_max : Z;
  risk_history_days : Z;
  risk_velocity_window_seconds : Z;
  risk_velocity_medium_count : Z;
  risk_velocity_high_count : Z;
  risk_velocity_critical_count : Z;
  risk_rejection_window_minutes : Z;
  risk_new_agent_hours : Z;
  risk_recent_permission_minutes : Z
}.

Definition default_settings : Settings := MkSettings 29 59 79 30 60 5 10 30 10 24 60.

(** What [Settings] accepts: the field ranges and the two validators that keep
    the levels apart. *)
Definition between (lo hi z : Z) : bool := (lo <=? z) && (z <=? hi).
Definition valid_settings (s : Settings) : bool :=
  between 0 97 (risk_low_max s) && between 1 98 (risk_medium_max s) &&
  between 2 99 (risk_high_max s) && between 1 365 (risk_history_days s) &&
  between 10 3600 (risk_velocity_window_seconds s) &&
  between 2 10000 (risk_velocity_medium_count s) &&
  between 3 10000 (risk_velocity_high_count s) &&
  between 4 10000 (risk_velocity_critical_count s) &&
  between 1 1440 (risk_rejection_window_minutes s) &&
  between 1 720 (risk_new_agent_hours s) &&
  between 1 1440 (risk_recent_permission_minutes s) &&
  (risk_low_max s <? risk_medium_max s) && (risk_medium_max s <? risk_high_max s).

(** ** Evaluations *)

Record RiskEvaluation : Type := MkEvaluation {
  re_score : Z;
  re_level : RiskLevel;
  re_recommendation : RiskAction;
  re_reasons : list string;
  re_features : list (string * pyval)
}.

(** The keyword arguments of [RiskProvider.evaluate]. *)
Record risk_input : Type := MkInput {
  ri_user_id : uuid;
  ri_organization_id : option uuid;
  ri_agent : Agent;
  ri_permission : Permission;
  ri_request : AuthorizationRequest;
  ri_requested_at : time;
  ri_policy : RiskPolicy;
  ri_api_key : option APIKey
}.

Class RiskProvider : Type := evaluate : tables → risk_input → RiskEvaluation.
Class RiskProviderLaws (P : RiskProvider) : Prop := {
  score_in_range : ∀ t i, 0 ≤ re_score (evaluate t i) ≤ 100;
  reasons_given : ∀ t i, re_reasons (evaluate t i) ≠ []
}.

Definition risk_level (score : Z) (settings : Settings) : RiskLevel :=
  if score <=? risk_low_max settings then LOW
  else if score <=? risk_medium_max settings then MEDIUM
  else if score <=? risk_high_max settings then HIGH
  else CRITICAL.

Definition policy_action (level : RiskLevel) (policy : RiskPolicy) : RiskAction :=
  match level with
  | LOW => ALLOW
  | MEDIUM => rp_medium_action policy
  | HIGH => rp_high_action policy
  | CRITICAL => rp_critical_action policy
  end.

(** ** Tenant policy *)

Section policies.
Context `{Entropy}.

(** The scope of a policy row, and the unique indexes on it. *)
Definition policy_condition (user_id : uuid) (organization_id : option uuid) (p : RiskPolicy) : bool :=
  match organization_id with
  | Some o => eqb (rp_organization_id p) (Some o)
  | None => eqb (rp_user_id p) (Some user_id)
  end.

(** A new row, with the server defaults of its columns. *)
Definition new_policy (user_id : uuid) (organization_id : option uuid) (id : uuid) (now : time) : RiskPolicy :=
  {| rp_id := id; rp_organization_id := organization_id;
     rp_user_id := match organization_id with Some _ => None | None => Some user_id end;
     rp_enabled := true; rp_medium_action := ALLOW; rp_high_action := REQUIRE_APPROVAL;
     rp_critical_action := REJECT; rp_amount_anomaly_enabled := true; rp_velocity_enabled := true;
     rp_rejection_history_enabled := true; rp_created_at := now |}.

Definition get_or_create_policy (user_id : uuid) (organization_id : option uuid) : DB RiskPolicy :=
  policy ← query (λ t, find_first (policy_condition user_id organization_id) (risk_policies t));
  match policy with
  | Some p => mret p
  | None =>
      id ← fresh_uuid;
      now ← now_db;
      let p := new_policy user_id organization_id id now in
      insert_checked (λ t, negb (existsb (policy_condition user_id organization_id) (risk_policies t)))
        (upd_risk_policies (λ l, (l ++ [p])%list)) ;;
      mret p
  end.
End policies.

(** ** The rules *)

Section rules.
Context (settings : Settings).

(** Points and the reason they are given for. *)
Abbreviation finding := (Z * string)%type.

Definition history_start (i : risk_input) : time :=
  ri_requested_at i - risk_history_days settings * day.

(** [.order_by(requested_at.desc())]; the order of equal times is the insertion
    order here, the database leaves it open. *)
Definition requested_later (a b : AuditLog) : Prop := al_requested_at b ≤ al_requested_at a.
#[export] Instance requested_later_dec : RelDecision requested_later.
Proof. intros a b. unfold requested_later. apply _. Defined.
Definition newest_first (l : list AuditLog) : list AuditLog := merge_sort requested_later l.

(** The last twenty approved amounts of the same action, newest first. *)
Definition recent_amounts (t : tables) (i : risk_input) : list dec :=
  omap al_amount (take 20 (newest_first (select_where (λ l,
    eqb (al_agent_id l) (Some (ag_id (ri_agent i))) &&
    eqb (al_environment l) (ag_environment (ri_agent i)) &&
    eqb (al_decision l) AuditApproved &&
    eqb (al_action l) (rq_action (ri_request i)) &&
    eqb (al_resource l) (rq_resource (ri_request i)) &&
    eqb (al_currency l) (rq_currency (ri_request i)) &&
    is_some (al_amount l) &&
    (history_start i <=? al_requested_at l)) (audit_logs t)))).

Definition average_amount (t : tables) (i : risk_input) : option dec :=
  match recent_amounts t i with
  | [] => None
  | l => Some (dec_div (dec_sum l) (dec_of_Z (Z.of_nat (length l))))
  end.

(** [x and x > 0] *)
Definition truthy_positive (o : option dec) : bool :=
  match o with Some a => dec_nonzero a && dec_ltb (dec_of_Z 0) a | None => false end.

Definition average_findings (amount average : dec) : list finding :=
  let ratio := dec_div amount average in
  if dec_leb (dec_of_Z 4) ratio then [(45, "Amount is much higher than recent activity")]
  else if dec_leb (dec_of_Z 2) ratio then [(25, "Amount is higher than recent activity")]
  else if dec_leb (Dec 15 (-1)) ratio then [(15, "Amount is above the recent average")]
  else [].

Definition limit_findings (amount limit : dec) : list finding :=
  let limit_ratio := dec_div amount limit in
  if dec_leb (Dec 90 (-2)) limit_ratio then [(15, "Amount is close to the permission limit")]
  else if dec_leb (Dec 75 (-2)) limit_ratio then [(8, "Amount uses most of the permission limit")]
  else [].

Definition amount_findings (t : tables) (i : risk_input) : list finding :=
  if rp_amount_anomaly_enabled (ri_policy i) then
    match rq_amount (ri_request i) with
    | None => []
    | Some amount =>
        ((match average_amount t i with
         | Some average => if truthy_positive (Some average) then average_findings amount average else []
         | None => []
         end) ++
        (match pm_maximum_amount (ri_permission i) with
         | Some limit => if dec_nonzero limit then limit_findings amount limit else []
         | None => []
         end))%list
    end
  else [].

Definition recent_requests (t : tables) (i : risk_input) : Z :=
  Z.of_nat (count_where (λ a,
    eqb (ra_agent_id a) (ag_id (ri_agent i)) &&
    (ri_requested_at i - risk_velocity_window_seconds settings * second <=? ra_created_at a)) (assessments t)).

Definition velocity_findings (t : tables) (i : risk_input) : list finding :=
  if rp_velocity_enabled (ri_policy i) then
    if risk_velocity_critical_count settings <=? recent_requests t i then [(55, "Very high request frequency")]
    else if risk_velocity_high_count settings <=? recent_requests t i then [(35, "High request frequency")]
    else if risk_velocity_medium_count settings <=? recent_requests t i then
      [(18, "Request frequency is above normal")]
    else []
  else [].

Definition recent_rejections (t : tables) (i : risk_input) : Z :=
  Z.of_nat (count_where (λ l,
    eqb (al_agent_id l) (Some (ag_id (ri_agent i))) &&
    eqb (al_environment l) (ag_environment (ri_agent i)) &&
    eqb (al_decision l) AuditRejected &&
    (ri_requested_at i - risk_rejection_window_minutes settings * minute <=? al_requested_at l)) (audit_logs t)).

Definition rejection_findings (t : tables) (i : risk_input) : list finding :=
  if rp_rejection_history_enabled (ri_policy i) then
    if 5 <=? recent_rejections t i then [(25, "Multiple recent rejected requests")]
    else if 3 <=? recent_rejections t i then [(15, "Several recent rejected requests")]
    else []
  else [].

(** [max(0.0, (b - a).total_seconds() / unit)] *)
Definition elapsed (a b : time) (unit : Z) : float :=
  f_max f_zero (f_div (f_of_ratio (b - a) 1000000) (f_of_Z unit)).
Definition agent_age_hours (i : risk_input) : float :=
  elapsed (ag_created_at (ri_agent i)) (ri_requested_at i) 3600.
Definition permission_age_minutes (i : risk_input) : float :=
  elapsed (pm_updated_at (ri_permission i)) (ri_requested_at i) 60.
(** [x < n] for a float and an integer. *)
Definition f_below (x : float) (n : Z) : bool := eqb (Z_compare_f n x) (Some Gt).

Definition age_findings (i : risk_input) : list finding :=
  ((if f_below (agent_age_hours i) (risk_new_agent_hours settings) && is_some (rq_amount (ri_request i))
   then [(10, "Agent was created recently")] else []) ++
  (if f_below (permission_age_minutes i) (risk_recent_permission_minutes settings)
      && is_some (rq_amount (ri_request i))
   then [(5, "Permission was created or changed recently")] else []))%list.

Definition history_count (t : tables) (i : risk_input) (p : AuditLog → bool) : Z :=
  Z.of_nat (count_where (λ l,
    eqb (al_agent_id l) (Some (ag_id (ri_agent i))) && p l &&
    (history_start i <=? al_requested_at l)) (audit_logs t)).

Definition unusual_findings (t : tables) (i : risk_input) : list finding :=
  if 3 <=? history_count t i (λ _, true) then
    ((if history_count t i (λ l, eqb (al_action l) (rq_action (ri_request i))) =? 0
     then [(12, "Action is unusual for this agent")] else []) ++
    (if history_count t i (λ l, eqb (al_resource l) (rq_resource (ri_request i))) =? 0
     then [(12, "Resource is unusual for this agent")] else []))%list
  else [].

Definition api_key_recent (i : risk_input) : bool :=
  match ri_api_key i with
  | Some k => ri_requested_at i - ak_created_at k <? hour
  | None => false
  end.
Definition api_key_findings (i : risk_input) : list finding :=
  if api_key_recent i then [(5, "API key was created recently")] else [].

(** The findings, in the order the source adds them up. *)
Definition findings (t : tables) (i : risk_input) : list finding :=
  (amount_findings t i ++ velocity_findings t i ++ rejection_findings t i ++
   age_findings i ++ unusual_findings t i ++ api_key_findings i)%list.

Definition total (l : list finding) : Z := foldr (λ f z, f.1 + z) 0 l.

Definition features (t : tables) (i : risk_input) : list (string * pyval) :=
  [("historical_amount_count", VInt (Z.of_nat (length (recent_amounts t i))));
   ("amount_to_average_ratio",
     match rq_amount (ri_request i), average_amount t i with
     | Some amount, Some average =>
         if dec_nonzero average then VFloat (dec_float (dec_div amount average)) else VNone
     | _, _ => VNone
     end);
   ("request_count_in_window", VInt (recent_requests t i));
   ("recent_rejection_count", VInt (recent_rejections t i));
   ("agent_age_hours", VFloat (f_round2 (agent_age_hours i)));
   ("permission_age_minutes", VFloat (f_round2 (permission_age_minutes i)));
   ("api_key_recent", VBool (api_key_recent i))].

Definition evaluate_rules (t : tables) (i : risk_input) : RiskEvaluation :=
  if negb (rp_enabled (ri_policy i)) then
    MkEvaluation 0 LOW ALLOW ["Risk checks are disabled"] []
  else
    let score := Z.min (total (findings t i)) 100 in
    let level := risk_level score settings in
    MkEvaluation score level (policy_action level (ri_policy i))
      (match (findings t i).*2 with [] => ["No unusual activity detected"] | l => l end)
      (features t i).

#[export] Instance RuleBasedRiskProvider : RiskProvider := evaluate_rules.

(** *** The laws of the protocol *)

Lemma total_app l k : total (l ++ k) = total l + total k.
Proof. unfold total. induction l as [|[z r] l IH]; simpl; lia. Qed.

Lemma findings_split t i :
  total (findings t i) = total (amount_findings t i) + total (velocity_findings t i) +
    total (rejection_findings t i) + total (age_findings i) + total (unusual_findings t i) +
    total (api_key_findings i).
Proof. unfold findings. rewrite !total_app. lia. Qed.

Definition nonneg (l : list finding) : Prop := Forall (λ f, 0 <= f.1) l.
Lemma total_nonneg l : nonneg l → 0 <= total l.
Proof. unfold total. induction 1; simpl; lia. Qed.

Lemma findings_nonneg t i : nonneg (findings t i).
Proof.
  unfold findings, nonneg, amount_findings, average_findings, limit_findings, velocity_findings,
    rejection_findings, age_findings, unusual_findings, api_key_findings.
  rewrite !Forall_app. repeat split; repeat case_match; repeat (apply Forall_app_2 || apply Forall_cons_2 || apply Forall_nil_2); simpl; lia.
Qed.

#[export] Instance rule_based_laws : RiskProviderLaws RuleBasedRiskProvider.
Proof.
  split; intros t i; unfold evaluate, RuleBasedRiskProvider, evaluate_rules; destruct (negb _); simpl; try lia.
  - pose proof (total_nonneg _ (findings_nonneg t i)). lia.
  - done.
  - by destruct ((findings t i).*2).
Qed.
End rules.

(** ** Scoring a request *)

Definition RULE_MODEL_VERSION : string := "rules-v1".

Section save.
Context `{Entropy}.

(** The request whose risk is scored: [evaluate_and_save] fills in the policy. *)
Definition assessment_of (request_id : string) (i : risk_input) (e : RiskEvaluation)
    (id : uuid) (now : time) : RiskAssessment :=
  {| ra_id := id; ra_request_id := request_id; ra_user_id := ri_user_id i;
     ra_organization_id := ri_organization_id i; ra_agent_id := ag_id (ri_agent i);
     ra_permission_id := Some (pm_id (ri_permission i)); ra_risk_score := re_score e;
     ra_risk_level := re_level e; ra_decision_recommendation := re_recommendation e;
     ra_reasons := re_reasons e; ra_features := re_features e;
     ra_model_version := RULE_MODEL_VERSION; ra_created_at := now |}.

Definition assessment_ok (a : RiskAssessment) (t : tables) : bool :=
  assessment_checks a && forallb (λ b, negb (eqb (ra_request_id b) (ra_request_id a))) (assessments t).

Definition evaluate_and_save (settings : Settings) (provider : option RiskProvider) (request_id : string)
    (user_id : uuid) (organization_id : option uuid) (agent : Agent) (permission : Permission)
    (request : AuthorizationRequest) (requested_at : time) (api_key : option APIKey) :
    DB (RiskAssessment * RiskEvaluation) :=
  policy ← get_or_create_policy user_id organization_id;
  let i := MkInput user_id organization_id agent permission request requested_at policy api_key in
  evaluation ← query (λ t, @evaluate (default (RuleBasedRiskProvider settings) provider) t i);
  id ← fresh_uuid;
  now ← now_db;
  let a := assessment_of request_id i evaluation id now in
  insert_checked (assessment_ok a) (upd_assessments (λ l, (l ++ [a])%list)) ;;
  mret (a, evaluation).
End save.

(** ** Organization rules *)

Inductive org_action : Type := OrgAllow | OrgRequireApproval | OrgDeny.
#[export] Instance org_action_eq_dec : EqDecision org_action.
Proof. solve_decision. Defined.

Definition evaluate_organization_policy (t : tables) (organization_id : option uuid)
    (request : AuthorizationRequest) (risk : RiskEvaluation) : org_action * option string :=
  match organization_id with
  | None => (OrgAllow, None)
  | Some o =>
  match org_policies t !! o with
  | None => (OrgAllow, None)
  | Some policy =>
  if op_block_critical_risk policy && eqb (re_level risk) CRITICAL then
    (OrgDeny, Some "Request rejected by organization security policy")
  else if op_require_approval_for_high_risk policy &&
          (eqb (re_level risk) HIGH || eqb (re_level risk) CRITICAL) then
    (OrgRequireApproval, Some "Organization policy requires approval for high-risk actions")
  else
    match op_require_manual_approval_above_amount policy with
    | Some threshold =>
        if negb (eqb (rq_action request) "purchase") then (OrgAllow, None)
        else if negb (eqb (rq_currency request) (Some (op_approval_threshold_currency policy))) then
          (OrgRequireApproval, Some "Organization policy requires approval for purchases in a different currency")
        else if (match rq_amount request with Some a => dec_ltb threshold a | None => false end) then
          (OrgRequireApproval, Some ("Organization policy requires approval for purchases above " +:+
             dec_str (dec_normalize threshold) +:+ " " +:+ op_approval_threshold_currency policy))
        else (OrgAllow, None)
    | None => (OrgAllow, None)
    end
  end
  end.
End Risk.

(** ** Theorems *)

Module RiskProps.
Import Risk.

(** The levels and the actions from the least to the most severe. *)
Definition level_rank (l : RiskLevel) : Z :=
  match l with LOW => 0 | MEDIUM => 1 | HIGH => 2 | CRITICAL => 3 end.
Definition action_rank (a : RiskAction) : Z :=
  match a with ALLOW => 0 | REQUIRE_APPROVAL => 1 | REJECT => 2 end.

(** A tenant policy whose actions grow with the level. *)
Definition graded (p : RiskPolicy) : Prop :=
  action_rank (rp_medium_action p) <= action_rank (rp_high_action p) <= action_rank (rp_critical_action p).

Lemma risk_level_mono settings a b :
  a <= b → level_rank (risk_level a settings) <= level_rank (risk_level b settings).
Proof.
  intros Hab. unfold risk_level.
  destruct (a <=? risk_low_max settings) eqn:?, (a <=? risk_medium_max settings) eqn:?,
    (a <=? risk_high_max settings) eqn:?, (b <=? risk_low_max settings) eqn:?,
    (b <=? risk_medium_max settings) eqn:?, (b <=? risk_high_max settings) eqn:?;
    simpl; reflect; lia.
Qed.

Lemma policy_action_mono p l k :
  graded p → level_rank l <= level_rank k → action_rank (policy_action l p) <= action_rank (policy_action k p).
Proof.
  unfold graded. intros Hp Hlk.
  assert (0 <= action_rank (rp_medium_action p)) by (destruct (rp_medium_action p); simpl; lia).
  destruct l, k; simpl in *; lia.
Qed.

Section monotone.
Context (settings : Settings).

Lemma recent_requests_more t l i :
  recent_requests settings t i <= recent_requests settings (upd_assessments (λ a, (a ++ l)%list) t) i.
Proof.
  unfold recent_requests, count_where. cbn [assessments upd_assessments].
  rewrite select_where_app, length_app. lia.
Qed.

Lemma velocity_mono t t' i :
  recent_requests settings t i <= recent_requests settings t' i →
  total (velocity_findings settings t i) <= total (velocity_findings settings t' i).
Proof.
  intros H. unfold velocity_findings. destruct (rp_velocity_enabled (ri_policy i)); [|done].
  repeat case_match; unfold total; simpl; reflect; lia.
Qed.

(** More assessments on record never lower the risk of a request: adding
    any to the history lowers neither its score, nor its level, nor, under a
    policy whose actions are graded by level, the action it recommends. *)
Theorem burst_never_lowers_risk t more i :
  graded (ri_policy i) →
  let e := evaluate_rules settings t i in
  let e' := evaluate_rules settings (upd_assessments (λ a, (a ++ more)%list) t) i in
  re_score e <= re_score e' ∧ level_rank (re_level e) <= level_rank (re_level e') ∧
  action_rank (re_recommendation e) <= action_rank (re_recommendation e').
Proof.
  intros Hg. cbv zeta. unfold evaluate_rules. destruct (negb _); cbn [re_score re_level re_recommendation]; [lia|].
  rewrite !findings_split.
  pose proof (velocity_mono _ _ i (recent_requests_more t more i)) as Hv.
  assert (Hs : ∀ x y z u v w w', w <= w' → Z.min (x + w + y + z + u + v) 100 <= Z.min (x + w' + y + z + u + v) 100) by lia.
  split; [by apply Hs|].
  split; [|apply policy_action_mono; [done|]]; apply risk_level_mono, Hs, Hv.
Qed.
End monotone.

Section saving.
Context `{Entropy}.

Lemma get_or_create_policy_run user_id organization_id s :
  dead s = false →
  ∃ p l n, get_or_create_policy user_id organization_id s =
    (Ok p, MkSession (upd_risk_policies (λ k, (k ++ l)%list) (cur s)) (committed s) false n (db_now s)) ∧
    policy_condition user_id organization_id p = true ∧ p ∈ (risk_policies (cur s) ++ l)%list.
Proof.
  destruct s as [t c d n now]. simpl. intros ->. unfold get_or_create_policy. exec.
  destruct (find_first _ _) as [p|] eqn:Hp.
  - apply find_first_Some in Hp as [Hin Hp]. exists p, [], n.
    rewrite app_nil_r. split; [|done].
    destruct t; simpl. by rewrite <- (app_nil_r risk_policies) at 1.
  - unfold fresh_uuid. rewrite bind_run. exec. exec.
    assert (existsb (policy_condition user_id organization_id) (risk_policies t) = false) as ->.
    { apply not_true_iff_false. intros (q & Hin & Hq)%existsb_exists.
      apply find_first_None with (x := q) in Hp; [congruence|]. by apply list_elem_of_In. }
    simpl. exists (new_policy user_id organization_id (uuid4 n) now).
    eexists [_], _. split; [done|]. split.
    + destruct organization_id; simpl; apply eqb_refl.
    + rewrite elem_of_app. right. left.
Qed.

Lemma evaluate_and_save_run settings (P : RiskProvider) request_id user_id organization_id agent permission
    request requested_at api_key s :
  RiskProviderLaws P → dead s = false →
  (∀ b, b ∈ assessments (cur s) → ra_request_id b ≠ request_id) →
  ∃ p l n id e t,
    let i := MkInput user_id organization_id agent permission request requested_at p api_key in
    let a := assessment_of request_id i e id (db_now s) in
    t = upd_risk_policies (λ k, (k ++ l)%list) (cur s) ∧
    e = @evaluate P t i ∧
    policy_condition user_id organization_id p = true ∧ p ∈ risk_policies t ∧
    evaluate_and_save settings (Some P) request_id user_id organization_id agent permission request
      requested_at api_key s =
    (Ok (a, e), MkSession (upd_assessments (λ k, (k ++ [a])%list) t) (committed s) false n (db_now s)).
Proof.
  intros HP Hs Hfresh. unfold evaluate_and_save.
  destruct (get_or_create_policy_run user_id organization_id s Hs) as (p & l & n & Hrun & Hp & Hin).
  rewrite bind_run, Hrun. exec. unfold fresh_uuid. rewrite bind_run. exec. simpl default.
  set (i := MkInput _ _ _ _ _ _ _ _). set (t := upd_risk_policies _ _). set (e := evaluate t i).
  exists p, l, (S n), (uuid4 n), e, t. split; [done|]. split; [done|]. split; [done|]. split; [done|].
  assert (assessment_ok (assessment_of request_id i e (uuid4 n) (db_now s)) t = true) as ->; [|done].
  unfold assessment_ok, assessment_checks. simpl. apply andb_true_iff. split.
  - destruct (score_in_range t i). apply andb_true_iff. split; by apply Z.leb_le.
  - apply forallb_forall. intros b Hb. apply negb_eqb_true, Hfresh. by apply list_elem_of_In.
Qed.
End saving.

(** The sample tenant policy, and a burst of requests of one agent. *)
Definition sample_policy : RiskPolicy := new_policy 9 (Some 50%N) 1 0.
Definition sample_request : AuthorizationRequest :=
  MkRequest "agent-1" "pay" "invoices" (Some (Dec 500 0)) (Some "USD") None.
Definition sample_input : risk_input :=
  MkInput 9 (Some 50%N) (sample_agent 1) (sample_permission 100 1) sample_request hour sample_policy None.
Definition sample_assessment (k : nat) : RiskAssessment :=
  assessment_of (str_of_nat k) sample_input (MkEvaluation 0 LOW ALLOW [] []) (N.of_nat k) hour.

Lemma burst_never_lowers_risk_witness :
  graded sample_policy ∧
  re_score (evaluate_rules default_settings (tables_with [] [] []) sample_input) = 10 ∧
  re_score (evaluate_rules default_settings
    (upd_assessments (λ a, (a ++ map sample_assessment (seq 0 30))%list) (tables_with [] [] [])) sample_input) = 65 ∧
  (10 <= 65)%Z.
Proof.
  assert (Hg : graded sample_policy) by (split; reflexivity || done).
  pose proof (burst_never_lowers_risk default_settings (tables_with [] [] [])
    (map sample_assessment (seq 0 30)) sample_input Hg) as (H & _).
  split; [exact Hg|]. split; [vm_compute; reflexivity|]. split; [vm_compute; reflexivity|].
  vm_compute in H. exact H.
Defined.

End RiskProps.
