(* ===== verification/Notifications.v ===== *)
(** Notifications and devices ([backend/app/services/notification_service.py]).
    A [SECURITY_ALERT] also records a security event ([SecurityEvents]). *)
From Stdlib Require Import Ascii.
From S2P Require Import Prelude.
From S2P Require Import PyStr.
From S2P Require Import PyFloat.
From S2P Require Import PyVal.
From S2P Require Import PyDecimal.
From S2P Require Import Models.
From S2P Require Import Store.
From S2P Require Import SecurityEvents.

Local Open Scope string_scope.
Local Open Scope Z_scope.

Module Notifications.

Export SecurityEvents.

(** ** Preferences and channels *)

Definition is_approval (t : NotificationType) : bool :=
  match t with
  | AUTHORIZATION_PENDING | AUTHORIZATION_APPROVED | AUTHORIZATION_REJECTED
  | HIGH_RISK_APPROVAL_REQUIRED => true
  | _ => false
  end.
Definition is_security (t : NotificationType) : bool :=
  match t with
  | SECURITY_ALERT | API_KEY_REVOKED | AGENT_SUSPENDED_N | AGENT_REVOKED_N => true
  | _ => false
  end.

(** A new row, with the server defaults of its columns. *)
Definition new_preference (user_id : uuid) : NotificationPreference :=
  {| np_user_id := user_id; np_push_enabled := true; np_email_enabled := true; np_in_app_enabled := true;
     np_security_email_enabled := true; np_approval_push_enabled := true; np_approval_email_enabled := false;
     np_permission_expiry_enabled := true; np_general_activity_enabled := true |}.

Definition get_preferences (user_id : uuid) : DB NotificationPreference :=
  found ← query (λ t, preferences t !! user_id);
  match found with
  | Some p => mret p
  | None =>
      let p := new_preference user_id in
      insert_checked (λ t, negb (is_some (preferences t !! user_id))) (upd_preferences <[user_id := p]>) ;;
      mret p
  end.

(** [NotificationPreferenceUpdate]: the fields that are set. *)
Record PreferenceUpdate : Type := MkPreferenceUpdate {
  pu_push_enabled : option bool;
  pu_email_enabled : option bool;
  pu_in_app_enabled : option bool;
  pu_security_email_enabled : option bool;
  pu_approval_push_enabled : option bool;
  pu_approval_email_enabled : option bool;
  pu_permission_expiry_enabled : option bool;
  pu_general_activity_enabled : option bool
}.
Definition apply_update (u : PreferenceUpdate) (p : NotificationPreference) : NotificationPreference :=
  {| np_user_id := np_user_id p;
     np_push_enabled := default (np_push_enabled p) (pu_push_enabled u);
     np_email_enabled := default (np_email_enabled p) (pu_email_enabled u);
     np_in_app_enabled := default (np_in_app_enabled p) (pu_in_app_enabled u);
     np_security_email_enabled := default (np_security_email_enabled p) (pu_security_email_enabled u);
     np_approval_push_enabled := default (np_approval_push_enabled p) (pu_approval_push_enabled u);
     np_approval_email_enabled := default (np_approval_email_enabled p) (pu_approval_email_enabled u);
     np_permission_expiry_enabled := default (np_permission_expiry_enabled p) (pu_permission_expiry_enabled u);
     np_general_activity_enabled := default (np_general_activity_enabled p) (pu_general_activity_enabled u) |}.

Definition update_preferences (user_id : uuid) (payload : PreferenceUpdate) : DB NotificationPreference :=
  preference ← get_preferences user_id;
  let preference := apply_update payload preference in
  write (upd_preferences <[user_id := preference]>) ;;
  commit ;;
  mret preference.

Record NotificationChannels : Type := MkChannels { push : bool; email : bool }.

Definition _channels (preference : NotificationPreference) (notification_type : NotificationType) : NotificationChannels :=
  let approval := is_approval notification_type in
  let security := is_security notification_type in
  MkChannels
    (np_push_enabled preference && (negb approval || np_approval_push_enabled preference))
    (np_email_enabled preference &&
      ((approval && np_approval_email_enabled preference) ||
       (security && np_security_email_enabled preference) ||
       eqb notification_type TEAM_INVITATION)).

(** ** Creation *)

(** The keyword arguments of [create_notification]. *)
Record notification_args : Type := MkArgs {
  na_user_id : uuid;
  na_type : NotificationType;
  na_title : string;
  na_message : string;
  na_priority : NotificationPriority;
  na_organization_id : option uuid;
  na_related_request_id : option uuid;
  na_related_agent_id : option uuid;
  na_related_permission_id : option uuid;
  na_metadata : option (list (string * pyval));
  na_deduplication_key : option string
}.

Definition has_key (key : string) (n : Notification) : bool := eqb (nt_deduplication_key n) (Some key).

Section create.
Context `{Entropy} `{SecuritySinks}.

Definition new_notification (a : notification_args) (id : uuid) (now : time) : Notification :=
  {| nt_id := id; nt_user_id := na_user_id a; nt_organization_id := na_organization_id a;
     nt_type := na_type a; nt_title := str_take 160 (na_title a); nt_message := str_take 500 (na_message a);
     nt_status := Unread; nt_priority := na_priority a;
     nt_related_request_id := na_related_request_id a; nt_related_agent_id := na_related_agent_id a;
     nt_related_permission_id := na_related_permission_id a; nt_metadata := na_metadata a;
     nt_deduplication_key := na_deduplication_key a; nt_created_at := now; nt_read_at := None |}.

(** The primary key, the unique key and its length. *)
Definition notification_ok (n : Notification) (t : tables) : bool :=
  negb (is_some (notifications t !! nt_id n)) &&
  match nt_deduplication_key n with
  | Some key => fits 180 key && negb (is_some (scalar (has_key key) (notifications t)))
  | None => true
  end.

Definition add_delivery (notification_id : uuid) (channel : DeliveryChannel) (status : DeliveryStatus)
    (attempts : Z) : DB unit :=
  id ← fresh_uuid;
  now ← now_db;
  write (upd_deliveries (λ l, (l ++ [MkDelivery id notification_id channel status attempts now])%list)).

Definition alert_event (a : notification_args) (id : uuid) : DB unit :=
  if eqb (na_type a) SECURITY_ALERT then
    record_security_event (na_user_id a) "notification.security_alert" (na_organization_id a)
      (Some (na_user_id a)) (Some ("Notification: " +:+ uuid_str id)) false ;;
    mret tt
  else mret tt.

Definition queue_deliveries (preference : NotificationPreference) (a : notification_args) (id : uuid) : DB unit :=
  (if np_in_app_enabled preference then add_delivery id InApp DelDelivered 1 else mret tt) ;;
  let channels := _channels preference (na_type a) in
  (if push channels then add_delivery id Push DelPending 0 else mret tt) ;;
  (if email channels then add_delivery id Email DelPending 0 else mret tt).

Definition create_new (a : notification_args) : DB Notification :=
  preference ← get_preferences (na_user_id a);
  id ← fresh_uuid;
  now ← now_db;
  let notification := new_notification a id now in
  insert_checked (notification_ok notification) (upd_notifications <[id := notification]>) ;;
  alert_event a id ;;
  queue_deliveries preference a id ;;
  mret notification.

(** A key is used when it is a non-empty text. *)
Definition create_notification (a : notification_args) : DB Notification :=
  match na_deduplication_key a with
  | Some key =>
      if eqb key "" then create_new a
      else
        existing ← query (λ t, scalar (has_key key) (notifications t));
        match existing with
        | Some n => mret n
        | None => create_new a
        end
  | None => create_new a
  end.
End create.

(** ** The inbox *)

Record NotificationFilters : Type := MkFilters {
  nf_unread : option bool;
  nf_type : option NotificationType;
  nf_priority : option NotificationPriority;
  nf_page : Z;
  nf_page_size : Z
}.

Definition in_app (t : tables) (n : Notification) : bool :=
  existsb (λ d, eqb (nd_notification_id d) (nt_id n) && eqb (nd_channel d) InApp) (deliveries t).

Definition in_inbox (t : tables) (user_id : uuid) (f : NotificationFilters) (n : Notification) : bool :=
  eqb (nt_user_id n) user_id && in_app t n && negb (eqb (nt_status n) Archived) &&
  match nf_unread f with
  | Some true => eqb (nt_status n) Unread
  | Some false => eqb (nt_status n) Read
  | None => true
  end &&
  match nf_type f with Some k => eqb (nt_type n) k | None => true end &&
  match nf_priority f with Some p => eqb (nt_priority n) p | None => true end.

Definition list_notifications (user_id : uuid) (f : NotificationFilters) : DB (list Notification * Z * Z) :=
  query (λ t,
    let found := order_desc nt_created_at nt_id (select_rows (in_inbox t user_id f) (notifications t)) in
    let total := Z.of_nat (count_where (in_inbox t user_id f) (rows (notifications t))) in
    (page_of (nf_page f) (nf_page_size f) found, total, total_pages total (nf_page_size f))).

Definition is_unread (user_id : uuid) (n : Notification) : bool :=
  eqb (nt_user_id n) user_id && eqb (nt_status n) Unread.

Definition unread_count (user_id : uuid) : DB Z :=
  query (λ t, Z.of_nat (count_where (λ n, is_unread user_id n && in_app t n) (rows (notifications t)))).

Definition owned_notification (user_id notification_id : uuid) (t : tables) : option Notification :=
  scalar (λ n, eqb (nt_id n) notification_id && eqb (nt_user_id n) user_id) (notifications t).

Definition save_notification (n : Notification) : DB unit := write (upd_notifications <[nt_id n := n]>).

Definition mark_read (user_id notification_id : uuid) (now_utc : time) : DB (option Notification) :=
  item ← query (owned_notification user_id notification_id);
  match item with
  | None => mret None
  | Some item =>
      if eqb (nt_status item) Unread then
        let item := set_nt_status Read (Some now_utc) item in
        save_notification item ;;
        commit ;;
        mret (Some item)
      else mret (Some item)
  end.

Definition mark_all_read (user_id : uuid) (now_utc : time) : DB Z :=
  n ← query (λ t, count_where (is_unread user_id) (rows (notifications t)));
  write (upd_notifications (update_where (is_unread user_id) (set_nt_status Read (Some now_utc)))) ;;
  commit ;;
  mret (Z.of_nat n).

Definition archive_notification (user_id notification_id : uuid) (now_utc : time) : DB (option Notification) :=
  item ← query (owned_notification user_id notification_id);
  match item with
  | None => mret None
  | Some item =>
      let item := set_nt_status Archived (Some (default now_utc (nt_read_at item))) item in
      save_notification item ;;
      commit ;;
      mret (Some item)
  end.

(** ** Devices *)

Record DeviceCreate : Type := MkDeviceCreate {
  dc_push_token : string;
  dc_platform : DevicePlatform;
  dc_device_name : option string
}.

Section devices.
Context `{Entropy} `{SecuritySinks}.

Definition active_devices (user_id : uuid) (d : Device) : bool :=
  eqb (dv_user_id d) user_id && eqb (dv_status d) DevActive.

Definition device_ok (d : Device) (t : tables) : bool :=
  negb (is_some (devices t !! dv_id d)) &&
  negb (is_some (scalar (λ e, eqb (dv_push_token e) (dv_push_token d)) (devices t))) &&
  opt_check (fits 120) (dv_device_name d).

Definition device_alert (user_id : uuid) (platform : DevicePlatform) (key : string) : notification_args :=
  MkArgs user_id SECURITY_ALERT "New Device Registered"
    ("A new " +:+ DevicePlatform_value platform +:+ " device was registered for push notifications.")
    PrioHigh None None None None None (Some key).

(** The key interpolates [device.id], which a new object gets when it is first
    flushed: here, by the query inside [create_notification]. *)
Definition register_device (user_id : uuid) (payload : DeviceCreate) (now_utc : time) : DB Device :=
  found ← query (λ t, scalar (λ d, eqb (dv_push_token d) (dc_push_token payload)) (devices t));
  match found with
  | None =>
      n ← query (λ t, count_where (active_devices user_id) (rows (devices t)));
      raise_if (10 <=? Z.of_nat n) DeviceLimitReached ;;
      id ← fresh_uuid;
      let device := MkDevice id user_id (dc_push_token payload) (dc_platform payload)
        (dc_device_name payload) DevActive now_utc in
      insert_checked (device_ok device) (upd_devices <[id := device]>) ;;
      create_notification (device_alert user_id (dc_platform payload) "device-registered:None") ;;
      commit ;;
      mret device
  | Some device =>
      raise_if (negb (eqb (dv_user_id device) user_id)) DeviceTokenConflict ;;
      let device := set_device (dc_platform payload) (dc_device_name payload) DevActive now_utc device in
      write (upd_devices <[dv_id device := device]>) ;;
      create_notification (device_alert user_id (dc_platform payload)
        ("device-registered:" +:+ uuid_str (dv_id device))) ;;
      commit ;;
      mret device
  end.

Definition revoke_device (user_id device_id : uuid) : DB bool :=
  found ← query (λ t, scalar (λ d, eqb (dv_id d) device_id && eqb (dv_user_id d) user_id) (devices t));
  match found with
  | None => mret false
  | Some d =>
      write (upd_devices <[dv_id d := set_device (dv_platform d) (dv_device_name d) DevRevoked (dv_last_seen_at d) d]>) ;;
      commit ;;
      mret true
  end.
End devices.
End Notifications.
