(* ===== verification/NotificationProps.v ===== *)
(** What the notifications promise: one notification per key, an inbox that
    only moves forward, pages that cover it, and what registering a device
    announces. *)
From Stdlib Require Import Ascii.
From S2P Require Import Prelude.
From S2P Require Import PyStr.
From S2P Require Import PyFloat.
From S2P Require Import PyVal.
From S2P Require Import PyDecimal.
From S2P Require Import Models.
From S2P Require Import Store.
From S2P Require Import Samples.
From S2P Require Import SecurityEvents.
From S2P Require Import Notifications.

Local Open Scope string_scope.
Local Open Scope Z_scope.

Module NotificationProps.
Import Notifications.

(** ** What creating a notification does *)

Section create.
Context `{Entropy} `{SecuritySinks} `{!SecuritySinksLaws}.

(** Alerts that reach the sinks carry no organization. *)
Definition unscoped_alert (a : notification_args) : Prop :=
  na_type a = SECURITY_ALERT → na_organization_id a = None.

(** The tables of the decision path a notification leaves alone. *)
Definition same_decisions (t t' : tables) : Prop :=
  agents t' = agents t ∧ permissions t' = permissions t ∧ delegations t' = delegations t ∧
  requests t' = requests t ∧ audit_logs t' = audit_logs t ∧ assessments t' = assessments t ∧
  devices t' = devices t.

Definition same_inbox (t t' : tables) : Prop :=
  same_decisions t t' ∧ notifications t' = notifications t.
#[export] Instance same_inbox_preorder : PreOrder same_inbox.
Proof. split; [by intros t | unfold same_inbox, same_decisions; intros t1 t2 t3; intuition congruence]. Qed.

Lemma get_preferences_settles u : settles same_inbox (get_preferences u).
Proof.
  intros [t c d n now]. simpl. intros ->. unfold get_preferences. exec.
  destruct (preferences t !! u) as [p|] eqn:Hp; [by exists p, t, n|].
  exec. rewrite Hp. simpl. by eexists _, _, n.
Qed.

Lemma add_delivery_settles nid ch st k : settles same_inbox (add_delivery nid ch st k).
Proof.
  unfold add_delivery. apply settles_bind; [apply _ | by apply settles_uuid; apply _ | intros id].
  apply settles_bind; [apply _ | by apply settles_now; apply _ | intros now].
  by apply settles_write.
Qed.

Lemma queue_deliveries_settles p a id : settles same_inbox (queue_deliveries p a id).
Proof.
  unfold queue_deliveries. cbv zeta.
  repeat first [apply settles_bind; [apply _ | |intros _] | apply settles_if];
    (apply add_delivery_settles || (apply settles_ret; apply _)).
Qed.

Lemma record_unscoped_settles u ty tgt descr :
  fits 80 ty = true → opt_check (fits 255) descr = true →
  settles same_inbox (record_security_event u ty None tgt descr false).
Proof.
  intros Hty Hd. apply record_event_settles; [apply _ | done | | done].
  by exists ty, (Some u), None, tgt, descr, "info", [].
Qed.

Lemma alert_event_settles a id : unscoped_alert a → settles same_inbox (alert_event a id).
Proof.
  intros Ha. unfold alert_event. destruct (eqb (na_type a) SECURITY_ALERT) eqn:Hty; [|apply settles_ret; apply _].
  reflect. rewrite (Ha Hty). apply settles_bind; [apply _ | apply record_unscoped_settles; [done|] | intros _; apply settles_ret; apply _].
  cbn [opt_check]. unfold fits. rewrite String_length_append. pose proof (length_uuid_str id).
  apply Nat.leb_le. cbn [String.length]. lia.
Qed.

(** The alert of a notification settles: it is none, or it has no organization. *)
Definition quiet (a : notification_args) : Prop := ∀ id, settles same_inbox (alert_event a id).
Lemma unscoped_quiet a : unscoped_alert a → quiet a.
Proof. intros Ha id. by apply alert_event_settles. Qed.
End create.

Section create_run.
Context `{Entropy} `{SecuritySinks}.

Lemma ordinary_quiet a : na_type a ≠ SECURITY_ALERT → quiet a.
Proof.
  intros Ha id. unfold alert_event. apply eqb_false in Ha. rewrite Ha. apply settles_ret, _.
Qed.

(** A fresh notification: refused by a constraint, or stored and returned, the
    other tables of the decision path unchanged. *)
Lemma create_new_run a s :
  dead s = false → quiet a →
  ∃ id n',
    let n := new_notification a id (db_now s) in
    (seed s ≤ n')%nat ∧
    ((∃ t', create_new a s = (Ok n, MkSession t' (committed s) false n' (db_now s)) ∧
       same_decisions (cur s) t' ∧ notifications t' = <[id := n]> (notifications (cur s)) ∧
       notification_ok n (cur s) = true) ∨
     (create_new a s = (Err IntegrityError, MkSession (committed s) (committed s) true n' (db_now s)) ∧
      notification_ok n (cur s) = false)).
Proof.
  intros Hs Ha. unfold create_new. rewrite bind_run.
  destruct (get_preferences_settles (na_user_id a) s Hs) as (p & t & k & -> & (Ht & Hn) & Hk).
  unfold fresh_uuid. rewrite bind_run. exec. exec.
  exists (uuid4 k). set (nt := new_notification a (uuid4 k) (db_now s)).
  assert (Hok : notification_ok nt t = notification_ok nt (cur s)) by (unfold notification_ok; by rewrite Hn).
  rewrite Hok. destruct (notification_ok nt (cur s)) eqn:Hok0.
  2: { eexists (S k). split; [simpl; lia|]. by right. }
  rewrite bind_run. unfold set_cur, next_seed. cbn [cur committed dead seed db_now].
  destruct (Ha (uuid4 k)
    (MkSession (upd_notifications <[uuid4 k := nt]> t) (committed s) false (S k) (db_now s)) eq_refl)
    as ([] & t1 & n1 & -> & (Hsd1 & Hn1) & Hle1).
  rewrite bind_run. simpl in Hsd1, Hn1, Hle1. cbn [committed db_now].
  destruct (queue_deliveries_settles p a (uuid4 k) (MkSession t1 (committed s) false n1 (db_now s)) eq_refl)
    as ([] & t2 & n2 & -> & (Hsd2 & Hn2) & Hle2).
  simpl in *. exists n2. split; [lia|]. left. exists t2. split; [done|].
  unfold same_decisions in *. simpl in *. split_and!; [intuition congruence.. | | done].
  congruence.
Qed.
(** Creation under a key: the notification that has it, or the only one. *)
Lemma create_notification_keyed a k s :
  dead s = false → na_deduplication_key a = Some k → k ≠ "" →
  (∃ n, scalar (has_key k) (notifications (cur s)) = Some n ∧ create_notification a s = (Ok n, s)) ∨
  (scalar (has_key k) (notifications (cur s)) = None ∧ create_notification a s = create_new a s).
Proof.
  intros Hs Hk Hne. unfold create_notification. rewrite Hk.
  assert (eqb k "" = false) as -> by apply (proj2 (eqb_false k "") Hne). rewrite bind_query.
  destruct (scalar _ _) as [n|] eqn:Hn; [left; by exists n | by right].
Qed.

(** Either way, on a usable session: the decisions are untouched, or a constraint
    failed. *)
Lemma create_notification_run a s :
  dead s = false → quiet a →
  (∃ n t' n', create_notification a s = (Ok n, MkSession t' (committed s) false n' (db_now s)) ∧
     same_decisions (cur s) t' ∧ (seed s ≤ n')%nat) ∨
  (∃ n', create_notification a s = (Err IntegrityError, MkSession (committed s) (committed s) true n' (db_now s)) ∧
     (seed s ≤ n')%nat).
Proof.
  intros Hs Ha. destruct (create_new_run a s Hs Ha) as (id & n' & Hle & Hnew).
  assert (Hcase : create_notification a s = create_new a s ∨ ∃ n, create_notification a s = (Ok n, s)).
  { unfold create_notification. destruct (na_deduplication_key a) as [k|]; [|by left].
    destruct (eqb k ""); [by left|]. rewrite bind_query. destruct (scalar _ _); [right; by eexists | by left]. }
  destruct Hcase as [-> | [n ->]].
  - destruct Hnew as [(t' & -> & Hsd & _)|[-> _]]; [left; by eexists _, t', n' | right; by eexists].
  - left. exists n, (cur s), (seed s). destruct s; simpl in *; subst. by split_and!.
Qed.

(** A deduplication key names at most one notification: once a
    notification was created under a key, every later creation under that key,
    whatever its other arguments, returns it and changes nothing. *)
Theorem create_notification_once `{!SecuritySinksLaws} a k s n s' :
  dead s = false → unscoped_alert a → na_deduplication_key a = Some k → k ≠ "" →
  create_notification a s = (Ok n, s') →
  nt_deduplication_key n = Some k ∧
  ∀ b, na_deduplication_key b = Some k → create_notification b s' = (Ok n, s').
Proof.
  intros Hs Ha Hk Hne Hrun.
  assert (Hscalar : scalar (has_key k) (notifications (cur s')) = Some n).
  { destruct (create_notification_keyed a k s Hs Hk Hne) as [(m & Hm & Hrun')|(Hnone & Hrun')];
      rewrite Hrun' in Hrun; [by simplify_eq|].
    destruct (create_new_run a s Hs (unscoped_quiet a Ha)) as (id & n' & _ & [(t' & Heq & _ & Hn & _)|(Heq & _)]);
      rewrite Heq in Hrun; simplify_eq. simpl. rewrite Hn.
    apply scalar_insert; [done|]. unfold has_key. simpl. rewrite Hk. apply eqb_refl. }
  split.
  - apply scalar_Some in Hscalar as (_ & _ & Hkey). unfold has_key in Hkey. by reflect.
  - intros b Hb. unfold create_notification. rewrite Hb.
    assert (eqb k "" = false) as -> by apply (proj2 (eqb_false k "") Hne). rewrite bind_query. by rewrite Hscalar.
Qed.

Definition announced (t : tables) : Prop :=
  is_some (scalar (has_key "device-registered:None") (notifications t)) = true.

(** The key of the alert for a new device is the same for all
    of them: once some user's first device has been announced, a new device of
    any user is registered without an alert. *)
Theorem new_device_not_announced user payload now_utc t n now d t' :
  announced t →
  scalar (λ e, eqb (dv_push_token e) (dc_push_token payload)) (devices t) = None →
  run_request (register_device user payload now_utc) t n now = (Ok d, t') →
  devices t' !! dv_id d = Some d ∧ dv_user_id d = user ∧ dv_status d = DevActive ∧
  notifications t' = notifications t.
Proof.
  unfold announced, run_request, register_device. intros Hann Hnew. exec. rewrite Hnew.
  apply is_some_true in Hann as [m Hm].
  exec. destruct (10 <=? _); [done|].
  unfold fresh_uuid. rewrite bind_run. exec. exec.
  destruct (device_ok _ t); [|done].
  unfold create_notification. cbn [na_deduplication_key device_alert].
  change (eqb "device-registered:None" "") with false. cbv iota. exec.
  cbn [notifications upd_devices]. rewrite Hm. exec. unfold set_cur, next_seed. exec.
  cbv [mret M_ret]. simpl. intros [= <- <-]. simpl. by rewrite lookup_insert_eq.
Qed.
End create_run.

(** ** The inbox *)

Lemma count_where_rows_update {V} (p q : V → bool) f (m : gmap uuid V) :
  count_where q (rows (update_where p f m)) = count_where q (map (λ v, if p v then f v else v) (rows m)).
Proof. apply count_where_perm, rows_update_where. Qed.

(** [mark_all_read] reads the user's notifications and no others:
    nothing unread is left to count, it answers how many it changed, and every row
    of another user, or already read, is as it was. *)
Theorem mark_all_read_spec user now_utc t n now :
  let '(r, t') := run_request (mark_all_read user now_utc) t n now in
  r = Ok (Z.of_nat (count_where (is_unread user) (rows (notifications t)))) ∧
  (run_request (unread_count user) t' n now).1 = Ok 0 ∧
  ∀ k, notifications t' !! k =
    (λ x, if is_unread user x then set_nt_status Read (Some now_utc) x else x) <$> notifications t !! k.
Proof.
  unfold run_request, mark_all_read. exec. exec. unfold set_cur. exec. cbv [mret M_ret]. split; [done|].
  split.
  - unfold unread_count. simpl. do 2 f_equal. unfold count_where.
    assert (Hnil : ∀ p l, (∀ x : Notification, x ∈ l → p x = false) → select_where p l = []) by (intros; by apply select_where_nil).
    rewrite Hnil; [done|]. intros x [k Hk]%elem_of_rows.
    rewrite lookup_update_where in Hk. destruct (notifications t !! k) as [y|]; [|done]. simpl in Hk. simplify_eq.
    destruct (is_unread user y) eqn:Hy; [|by rewrite Hy]. apply andb_false_iff. left.
    unfold is_unread. simpl. by destruct (eqb _ _).
  - intros k. simpl. apply lookup_update_where.
Qed.

Definition set_page (f : NotificationFilters) (page : Z) : NotificationFilters :=
  MkFilters (nf_unread f) (nf_type f) (nf_priority f) page (nf_page_size f).

(** The items of a page, its total and its number of pages. *)
Definition page_items (t : tables) (user : uuid) (f : NotificationFilters) (page : Z) : list Notification :=
  match (run_request (list_notifications user (set_page f page)) t 0 0).1 with
  | Ok (items, _, _) => items
  | Err _ => []
  end.

(** The pages of the inbox hold every matching notification of
    the user exactly once: the pages from the first to [total_pages] are together
    the matching rows, newest first. *)
Theorem inbox_pages_complete t user f :
  0 < nf_page_size f →
  ∃ items total pages,
    (run_request (list_notifications user f) t 0 0).1 = Ok (items, total, pages) ∧
    concat (map (λ j, page_items t user f (Z.of_nat j)) (seq 1 (Z.to_nat pages))) =
      order_desc nt_created_at nt_id (select_rows (in_inbox t user f) (notifications t)) ∧
    concat (map (λ j, page_items t user f (Z.of_nat j)) (seq 1 (Z.to_nat pages))) ≡ₚ
      select_rows (in_inbox t user f) (notifications t) ∧
    Forall (λ x, nt_user_id x = user ∧ nt_status x ≠ Archived) items.
Proof.
  intros Hs.
  set (l := order_desc nt_created_at nt_id (select_rows (in_inbox t user f) (notifications t))).
  assert (Hperm : l ≡ₚ select_rows (in_inbox t user f) (notifications t)) by apply merge_sort_Permutation.
  assert (Hcount : count_where (in_inbox t user f) (rows (notifications t)) = length l) by by rewrite Hperm.
  eexists _, _, (total_pages (Z.of_nat (length l)) (nf_page_size f)).
  split; [unfold list_notifications, run_request; simpl; rewrite Hcount; reflexivity|].
  split; [apply (pages_cover (nf_page_size f) l Hs)|]. split.
  - etrans; [|exact Hperm]. by rewrite <- (pages_cover (nf_page_size f) l Hs) at 2.
  - apply Forall_forall. intros x Hx.
    assert (x ∈ l) as Hl by (unfold page_of in Hx; apply elem_of_take in Hx as (i & Hx & _);
      rewrite lookup_drop in Hx; by eapply list_elem_of_lookup_2).
    rewrite Hperm in Hl. apply elem_of_select_rows in Hl as [_ Hl]. unfold in_inbox in Hl. reflect. tauto.
Qed.

(** ** Witnesses *)

(** Sinks that do nothing: no detection rule and no export destination. *)
#[export] Instance no_context : Ambient :=
  {| request_id_context := "-"; trace_id_context := "-"; correlation_id_context := "-";
     environ_environment := None; re_sub pattern replacement text := text |}.
#[export] Instance no_context_laws : AmbientLaws.
Proof. by split. Qed.
#[export] Instance silent_sinks : SecuritySinks :=
  {| detection e := mret tt; siem_export e := mret tt |}.
#[export] Instance silent_sinks_laws : SecuritySinksLaws.
Proof. split; [apply _ | done | done]. Qed.

Definition sample_alert : notification_args := device_alert 9 Android "device-registered:None".
Definition sample_device : DeviceCreate := MkDeviceCreate "token-of-twenty-chars" Android None.
Definition other_device : DeviceCreate := MkDeviceCreate "another-token-of-a-phone" Ios None.

Definition create_once_run := create_notification sample_alert (open_session empty_tables 0 hour).
Lemma create_notification_once_witness :
  ∃ n s', create_once_run = (Ok n, s') ∧ create_notification sample_alert s' = (Ok n, s').
Proof.
  destruct create_once_run as [[n|e] s'] eqn:Hrun; [|by vm_compute in Hrun].
  exists n, s'. split; [reflexivity|].
  apply (create_notification_once sample_alert "device-registered:None" (open_session empty_tables 0 hour) n s');
    [reflexivity | intros _; reflexivity | reflexivity | discriminate | exact Hrun | reflexivity].
Defined.

Definition one_device : tables := (run_request (register_device 9 sample_device hour) empty_tables 0 hour).2.
Lemma new_device_not_announced_witness :
  ∃ d t', run_request (register_device 8 other_device hour) one_device 10 hour = (Ok d, t') ∧
    dv_user_id d = 8%N ∧ size (notifications one_device) = 1%nat ∧ notifications t' = notifications one_device.
Proof.
  destruct (run_request (register_device 8 other_device hour) one_device 10 hour) as [[d|e] t'] eqn:Hrun;
    [|by vm_compute in Hrun].
  exists d, t'. split; [reflexivity|].
  destruct (new_device_not_announced 8 other_device hour one_device 10 hour d t') as (_ & Hu & _ & Hn);
    [vm_compute; reflexivity | vm_compute; reflexivity | exact Hrun |].
  split; [exact Hu|]. split; [vm_compute; reflexivity | exact Hn].
Defined.

Definition all_notifications : NotificationFilters := MkFilters None None None 1 20.
Lemma inbox_pages_complete_witness :
  0 < nf_page_size all_notifications ∧
  ∃ items total pages, (run_request (list_notifications 9 all_notifications) one_device 0 0).1 = Ok (items, total, pages) ∧
    concat (map (λ j, page_items one_device 9 all_notifications (Z.of_nat j)) (seq 1 (Z.to_nat pages))) ≡ₚ
      select_rows (in_inbox one_device 9 all_notifications) (notifications one_device).
Proof.
  split; [reflexivity|].
  destruct (inbox_pages_complete one_device 9 all_notifications) as (i & n & p & H1 & _ & H2 & _); [reflexivity|].
  exists i, n, p. split; [exact H1 | exact H2].
Defined.

End NotificationProps.
