(* ===== verification/PlanLimits.v ===== *)
(** Plans and usage ([backend/app/services/plan_limits.py]): the subscription of an
    organization, the limits of its plan on resources, and the metering of
    authorization requests by calendar month.

    Rows of organizations that a subscription refers to are taken to exist. *)
From Stdlib Require Import Ascii.
From S2P Require Import Prelude.
From S2P Require Import PyStr.
From S2P Require Import PyFloat.
From S2P Require Import PyVal.
From S2P Require Import PyDecimal.
From S2P Require Import Models.
From S2P Require Import PyTime.
From S2P Require Import PyCodec.
From S2P Require Import Store.
From S2P Require Import SecurityEvents.
From S2P Require Import Notifications.

Local Open Scope string_scope.
Local Open Scope Z_scope.

Module PlanLimits.
Import SecurityEvents Notifications.

Definition upd_subscriptions f : tables → tables := upd_identity (on_subscriptions f).
Definition upd_usage f : tables → tables := upd_identity (on_usage_records f).
Definition plan_table (t : tables) : gmap uuid SubscriptionPlan := plans (identity t).
Definition subscription_table (t : tables) : gmap uuid OrganizationSubscription := subscriptions (identity t).
Definition usage_table (t : tables) : gmap uuid UsageRecord := usage_records (identity t).

(** ** Periods *)

(** The first day of the month of a time and of the month after it. *)
Definition month_period (at_ : time) : date * date :=
  let '(y, m, _) := civil_from_days (at_ / day) in
  ((y, m, 1), (if m =? 12 then y + 1 else y, if m =? 12 then 1 else m + 1, 1)).
Definition midnight (d : date) : time := let '(y, m, d) := d in days_from_civil y m d * day.
Definition date_str (d : date) : string :=
  let '(y, m, d) := d in pad 4 y +:+ "-" +:+ pad 2 m +:+ "-" +:+ pad 2 d.

(** ** Subscriptions *)

Section limits.
Context `{Entropy} `{SecuritySinks}.

Definition get_plan (code : string) (t : tables) : option SubscriptionPlan :=
  scalar (λ p, eqb (sp_code p) code && sp_is_active p) (plan_table t).
Definition subscription_of (org : uuid) (t : tables) : option OrganizationSubscription :=
  scalar (λ s, eqb (os_organization_id s) org) (subscription_table t).
Definition new_subscription_ok (s : OrganizationSubscription) (t : tables) : bool :=
  negb (is_some (subscription_table t !! os_id s)) && negb (is_some (subscription_of (os_organization_id s) t)).

Definition ensure_subscription (org : uuid) : DB (OrganizationSubscription * SubscriptionPlan) :=
  found ← query (subscription_of org);
  match found with
  | None =>
      plan ← get_or (get_plan "free") (RaisedRuntimeError "Free subscription plan is not configured");
      now ← now_db;
      let '(start, end_) := month_period now in
      id ← fresh_uuid;
      let subscription := MkSubscription id org (sp_id plan) SubActive "test" None None (midnight start) (midnight end_)
        false None None in
      insert_checked (new_subscription_ok subscription) (upd_subscriptions <[id := subscription]>) ;;
      mret (subscription, plan)
  | Some subscription =>
      plan ← query (λ t, plan_table t !! os_plan_id subscription);
      match plan with
      | Some plan =>
          raise_if (negb (sp_is_active plan)) (RaisedRuntimeError "Organization subscription plan is unavailable") ;;
          mret (subscription, plan)
      | None => throw (RaisedRuntimeError "Organization subscription plan is unavailable")
      end
  end.
Definition attach_free_subscription (org : uuid) : DB OrganizationSubscription :=
  r ← ensure_subscription org; mret r.1.

Definition restricted : Exc :=
  PlanLimitReached "Billing is restricted. Security history remains available while the owner resolves billing.".
Definition in_grace (s : OrganizationSubscription) (now : time) : bool :=
  eqb (os_status s) PAST_DUE && match os_grace_ends_at s with Some g => now <=? g | None => false end.
Definition access_restricted (s : OrganizationSubscription) (now : time) : bool :=
  negb (in_grace s now) && existsb (eqb (os_status s)) [INCOMPLETE; SubSuspended; PAST_DUE].
Definition _check_subscription_access (s : OrganizationSubscription) : DB unit :=
  now ← now_db;
  raise_if (access_restricted s now) restricted.

(** ** Limits on resources *)

Inductive plan_resource : Type := PlanAgents | PlanApiKeys | PlanTeamMembers | PlanWebhooks.
Definition resource_name (r : plan_resource) : string :=
  match r with PlanAgents => "agents" | PlanApiKeys => "api keys" | PlanTeamMembers => "team members" | PlanWebhooks => "webhooks" end.
Definition resource_limit (p : SubscriptionPlan) (r : plan_resource) : option Z :=
  match r with
  | PlanAgents => sp_max_agents p
  | PlanApiKeys => sp_max_api_keys p
  | PlanTeamMembers => sp_max_members p
  | PlanWebhooks => sp_max_webhooks p
  end.
Definition count_of {V} (p : V → bool) (m : gmap uuid V) : Z := Z.of_nat (length (select_rows p m)).

(** Owners do not count as members; open invitations do. *)
Definition seat (org : uuid) (m : OrganizationMember) : bool :=
  eqb (om_organization_id m) org && eqb (om_status m) MemActive && negb (eqb (om_role m) OWNER).
Definition open_invitation (org : uuid) (now : time) (i : OrganizationInvitation) : bool :=
  eqb (oi_organization_id i) org && eqb (oi_status i) InvPending && (now <? oi_expires_at i).
Definition active_key (org : uuid) (k : APIKey) : bool :=
  eqb (ak_organization_id k) (Some org) && eqb (ak_status k) KeyActive.
Definition _count_for_resource (org : uuid) (r : plan_resource) (now : time) (t : tables) : Z :=
  match r with
  | PlanAgents => count_of (λ a, eqb (ag_organization_id a) (Some org)) (agents t)
  | PlanApiKeys => count_of (active_key org) (api_keys (identity t))
  | PlanTeamMembers => count_of (seat org) (members (identity t)) + count_of (open_invitation org now) (invitations (identity t))
  | PlanWebhooks => count_of (λ w, eqb (we_organization_id w) org) (webhook_endpoints (identity t))
  end.

Definition limit_message (p : SubscriptionPlan) (limit : Z) (r : plan_resource) : string :=
  "Your " +:+ sp_name p +:+ " plan supports up to " +:+ str_of_Z limit +:+ " " +:+ resource_name r +:+ ".".
Definition enforce_resource_limit (org : option uuid) (r : plan_resource) : DB unit :=
  match org with
  | None => mret tt
  | Some org =>
      sp ← ensure_subscription org;
      let '(subscription, plan) := (sp : OrganizationSubscription * SubscriptionPlan) in
      _check_subscription_access subscription ;;
      match resource_limit plan r with
      | Some limit =>
          now ← now_db;
          count ← query (_count_for_resource org r now);
          raise_if (limit <=? count) (PlanLimitReached (limit_message plan limit r))
      | None => mret tt
      end
  end.

(** ** Usage *)

Definition usage_for (org : uuid) (metric : UsageMetric) (start : date) (u : UsageRecord) : bool :=
  eqb (ur_organization_id u) org && eqb (ur_metric u) metric && eqb (ur_period_start u) start.
Definition usage_of (org : uuid) (metric : UsageMetric) (start : date) (t : tables) : option UsageRecord :=
  scalar (usage_for org metric start) (usage_table t).

(** The record of this month, inserted when there is none. *)
Definition _usage_record (org : uuid) (metric : UsageMetric) : DB UsageRecord :=
  now ← now_db;
  let '(start, end_) := month_period now in
  id ← fresh_uuid;
  found ← query (usage_of org metric start);
  match found with
  | Some u => mret u
  | None =>
      let u := MkUsage id org metric start end_ 0 in
      insert_checked (λ t, negb (is_some (usage_table t !! id))) (upd_usage <[id := u]>) ;;
      mret u
  end.

Definition set_quantity (n : Z) (u : UsageRecord) : UsageRecord :=
  MkUsage (ur_id u) (ur_organization_id u) (ur_metric u) (ur_period_start u) (ur_period_end u) n.

Definition usage_notice (org owner : uuid) (u : UsageRecord) (plan : SubscriptionPlan) (threshold : Z) : notification_args :=
  {| na_user_id := owner; na_type := BILLING_USAGE_WARNING;
     na_title := if threshold <? 100 then "Monthly Usage Warning" else "Monthly Request Limit Reached";
     na_message := if threshold <? 100
       then "You have used " +:+ str_of_Z threshold +:+ "% of your monthly authorization requests."
       else "Your monthly authorization request limit has been reached.";
     na_priority := if threshold <? 100 then PrioHigh else PrioCritical;
     na_organization_id := Some org; na_related_request_id := None; na_related_agent_id := None;
     na_related_permission_id := None;
     na_metadata := Some [("metric", VStr (UsageMetric_value (ur_metric u))); ("threshold", VInt threshold);
       ("plan", VStr (sp_code plan))];
     na_deduplication_key := Some ("billing-usage:" +:+ uuid_str org +:+ ":" +:+ date_str (ur_period_start u) +:+ ":" +:+
       UsageMetric_value (ur_metric u) +:+ ":" +:+ str_of_Z threshold) |}.
Definition _notify_usage (org : uuid) (u : UsageRecord) (plan : SubscriptionPlan) (threshold : Z) : DB unit :=
  organization ← get_or (λ t, organizations (identity t) !! org) (PyError AttributeError);
  create_notification (usage_notice org (og_owner_id organization) u plan threshold) ;;
  mret tt.

Definition crossed (quantity limit : Z) : option Z :=
  find_first (λ threshold, threshold <=? quantity * 100 / limit) [100; 90; 80].

Definition consume_authorization_request (org : uuid) : DB UsageRecord :=
  sp ← ensure_subscription org;
  let '(subscription, plan) := (sp : OrganizationSubscription * SubscriptionPlan) in
  _check_subscription_access subscription ;;
  record ← _usage_record org AUTHORIZATION_REQUESTS;
  (if match sp_max_authorization_requests_monthly plan with Some limit => limit <=? ur_quantity record | None => false end then
     _notify_usage org record plan 100 ;;
     commit ;;
     throw (PlanLimitReached ("Your " +:+ sp_name plan +:+ " plan monthly authorization request limit has been reached."))
   else mret tt) ;;
  let record := set_quantity (ur_quantity record + 1) record in
  write (upd_usage <[ur_id record := record]>) ;;
  match sp_max_authorization_requests_monthly plan with
  | Some limit =>
      if limit =? 0 then mret tt
      else match crossed (ur_quantity record) limit with
           | Some threshold => _notify_usage org record plan threshold
           | None => mret tt
           end
  | None => mret tt
  end ;;
  commit ;;
  mret record.

Definition release_authorization_request (org : uuid) : DB unit :=
  record ← _usage_record org AUTHORIZATION_REQUESTS;
  (if 0 <? ur_quantity record then write (upd_usage <[ur_id record := set_quantity (ur_quantity record - 1) record]>) else mret tt) ;;
  commit.

Record UsageValue : Type := MkUsageValue { uv_used : Z; uv_limit : option Z }.
Definition usage_values (org : uuid) : DB (OrganizationSubscription * SubscriptionPlan * list (string * UsageValue)) :=
  sp ← ensure_subscription org;
  let '(subscription, plan) := (sp : OrganizationSubscription * SubscriptionPlan) in
  authorization ← _usage_record org AUTHORIZATION_REQUESTS;
  now ← now_db;
  values ← query (λ t,
    let value r := MkUsageValue (_count_for_resource org r now t) (resource_limit plan r) in
    [("authorization_requests", MkUsageValue (ur_quantity authorization) (sp_max_authorization_requests_monthly plan));
     ("agents", value PlanAgents); ("api_keys", value PlanApiKeys); ("team_members", value PlanTeamMembers);
     ("webhooks", value PlanWebhooks)]);
  commit ;;
  mret (subscription, plan, values).
End limits.
End PlanLimits.
