(* ===== verification/Frames.v ===== *)
(** What the services every component calls leave alone: a relation that does not
    look at events, alerts, notifications and their deliveries survives recording an
    event and creating a notification, so that a component's theorem about its own
    table needs no proof about them. *)
From Stdlib Require Import Ascii.
From S2P Require Import Prelude.
From S2P Require Import PyStr.
From S2P Require Import PyFloat.
From S2P Require Import PyVal.
From S2P Require Import PyDecimal.
From S2P Require Import Models.
From S2P Require Import Store.
From S2P Require Import SecurityEvents.
From S2P Require Import Workspace.
From S2P Require Import Soc.
From S2P Require Import Notifications.
From S2P Require Import PlanLimits.

Local Open Scope string_scope.
Local Open Scope Z_scope.

Module Frames.
Import SecurityEvents Workspace Notifications PlanLimits.

(** The relation does not look at the tables of the shared services. *)
Class Ignores `{SecuritySinks} (R : relation tables) : Prop := {
  ignores_sinks :: SinksRespect R;
  ignores_notifications f t : R t (upd_notifications f t);
  ignores_preferences f t : R t (upd_preferences f t);
  ignores_deliveries f t : R t (upd_deliveries f t)
}.

Section evolves.
Context `{Entropy} `{SecuritySinks} (R : relation tables) `{!PreOrder R} `{!Ignores R}.

Lemma record_security_event_evolves actor ty org target descr c :
  respects (evolves R) (record_security_event actor ty org target descr c).
Proof. unfold record_security_event. apply record_event_evolves; apply _. Qed.

Lemma get_preferences_evolves u : respects (evolves R) (get_preferences u).
Proof. unfold get_preferences. walk. apply evolves_insert; [apply _ | intros; apply ignores_preferences]. Qed.

Lemma create_notification_evolves a : respects (evolves R) (create_notification a).
Proof.
  pose proof (get_preferences_evolves (na_user_id a)) as Hp.
  assert (Hd : ∀ id c st n, respects (evolves R) (add_delivery id c st n)).
  { intros. unfold add_delivery. walk. apply evolves_write; [apply _ | intros; apply ignores_deliveries]. }
  assert (He : ∀ id, respects (evolves R) (alert_event a id)).
  { intros. unfold alert_event. walk. apply record_security_event_evolves. }
  assert (Hn : respects (evolves R) (create_new a)).
  { unfold create_new, queue_deliveries. walk; first [exact Hp | apply He | apply Hd | idtac].
    apply evolves_insert; [apply _ | intros; apply ignores_notifications]. }
  unfold create_notification. walk; exact Hn.
Qed.

Lemma ensure_subscription_evolves org :
  (∀ f t, R t (upd_subscriptions f t)) → respects (evolves R) (ensure_subscription org).
Proof.
  intros Hs. unfold ensure_subscription. walk; try (destruct (month_period _)); walk;
    (apply evolves_insert; [apply _ | intros; apply Hs]).
Qed.
Lemma enforce_resource_limit_evolves org r :
  (∀ f t, R t (upd_subscriptions f t)) → respects (evolves R) (enforce_resource_limit org r).
Proof.
  intros Hs. unfold enforce_resource_limit, _check_subscription_access. walk; by apply ensure_subscription_evolves.
Qed.
End evolves.

(** A write that is followed by steps whose effect is only known after it. *)
Lemma evolves_write_then {A} (R : relation tables) `{!PreOrder R} f (k : unit → DB A) s :
  R (cur s) (f (cur s)) → (dead s = false → evolves R (set_cur (f (cur s)) s) (k tt (set_cur (f (cur s)) s)).2) →
  evolves R s ((write f ≫= k) s).2.
Proof.
  intros Hf Hk Hs. rewrite bind_run. unfold write. destruct (dead s); simpl; [by split|].
  apply (Hk eq_refl). simpl. by etrans.
Qed.

(** What can be used once: an operation that uses it is refused afterwards, whatever
    happens in between. *)
Section once.
Context {T Op X : Type} (outcome : T → Op → option X * T) (ok : T → Prop) (spent : X → T → Prop).
Fixpoint outcomes_of (t : T) (ops : list Op) : list (option X) :=
  match ops with
  | [] => []
  | o :: ops => let '(r, t') := outcome t o in r :: outcomes_of t' ops
  end.
Context (Hok : ∀ t o, ok t → ok (outcome t o).2) (Hkept : ∀ t o x, ok t → spent x t → spent x (outcome t o).2).
Context (Hspends : ∀ t o x, ok t → (outcome t o).1 = Some x → ¬ spent x t ∧ spent x (outcome t o).2).

Lemma spent_stays t ops x j : ok t → spent x t → outcomes_of t ops !! j ≠ Some (Some x).
Proof.
  revert t j. induction ops as [|o ops IH]; intros t j Ht Hx; simpl; [done|].
  pose proof (Hok t o Ht) as Ho. pose proof (Hkept t o x Ht Hx) as Hk. pose proof (Hspends t o x Ht) as Hs.
  destruct (outcome t o) as [r t']. destruct j as [|j]; simpl; [|by apply IH].
  intros [= ->]. by destruct (Hs eq_refl).
Qed.
Lemma used_once t ops x i j : ok t →
  outcomes_of t ops !! i = Some (Some x) → outcomes_of t ops !! j = Some (Some x) → i = j.
Proof.
  revert t i j. induction ops as [|o ops IH]; intros t i j Ht; simpl; [done|].
  pose proof (Hok t o Ht) as Ho. pose proof (Hspends t o x Ht) as Hs. destruct (outcome t o) as [r t'].
  destruct i as [|i], j as [|j]; simpl; try done.
  - intros [= ->] Hj. by destruct (spent_stays t' ops x j Ho (proj2 (Hs eq_refl))).
  - intros Hi [= ->]. by destruct (spent_stays t' ops x i Ho (proj2 (Hs eq_refl))).
  - intros Hi Hj. f_equal. by eapply IH.
Qed.
End once.

(** Rows that are marked when they are used, found by a hash. *)
Section one_time.
Context {V : Type} (id : V → uuid) (hash : V → string) (used : V → option time).
Definition one_time_ok (m : gmap uuid V) : Prop :=
  (∀ k v, m !! k = Some v → id v = k) ∧ ∀ i j a b, m !! i = Some a → m !! j = Some b → hash a = hash b → i = j.
Definition gone (h : string) (m : gmap uuid V) : Prop := ∃ k v, m !! k = Some v ∧ hash v = h ∧ is_some (used v) = true.
Definition one_time_step (m m' : gmap uuid V) : Prop := one_time_ok m → one_time_ok m' ∧ ∀ h, gone h m → gone h m'.
#[export] Instance one_time_preorder : PreOrder one_time_step.
Proof.
  split; [by intros m H|]. intros m1 m2 m3 H12 H23 H1. destruct (H12 H1) as [H2 K12]. destruct (H23 H2) as [H3 K23]. auto.
Qed.

Lemma one_time_insert m v : m !! id v = None → scalar (λ w, eqb (hash w) (hash v)) m = None → one_time_step m (<[id v := v]> m).
Proof.
  intros Hid Hnew [Hkey Hone]. assert (Hfresh : ∀ k w, m !! k = Some w → hash w ≠ hash v).
  { intros k w Hk He. pose proof (proj1 (scalar_None _ _) Hnew k w Hk) as Hf. cbv beta in Hf. by rewrite He, eqb_refl in Hf. }
  split; [split|].
  - intros k w. rewrite lookup_insert_Some. intros [[<- <-]|[_ Hk]]; [done | by apply Hkey].
  - intros i j a b. rewrite !lookup_insert_Some. intros [[<- <-]|[_ Ha]] [[<- <-]|[_ Hb]] He; [done | | |by eapply Hone].
    + by destruct (Hfresh j b Hb).
    + by destruct (Hfresh i a Ha).
  - intros h (k & w & Hk & Hh). exists k, w. rewrite lookup_insert_ne; [done | congruence].
Qed.
Lemma one_time_replace m k v v' : m !! k = Some v → id v' = id v → hash v' = hash v →
  (is_some (used v) = true → is_some (used v') = true) → one_time_step m (<[id v' := v']> m).
Proof.
  intros Hk Hid Hhash Hused [Hkey Hone]. pose proof (Hkey _ _ Hk) as Hv. rewrite Hid, Hv. split; [split|].
  - intros j w. rewrite lookup_insert_Some. intros [[<- <-]|[_ Hj]]; [congruence | by apply Hkey].
  - intros i j a b. rewrite !lookup_insert_Some. intros [[<- <-]|[_ Ha]] [[<- <-]|[_ Hb]] He; [done | | |by eapply Hone].
    + eapply Hone; [exact Hk | exact Hb | congruence].
    + eapply Hone; [exact Ha | exact Hk | congruence].
  - intros h (j & w & Hj & Hh & Hu). destruct (decide (j = k)) as [->|Hne].
    + exists k, v'. rewrite lookup_insert_eq. rewrite Hk in Hj. injection Hj as <-. split_and!; [done | congruence | auto].
    + exists j, w. by rewrite lookup_insert_ne.
Qed.
Lemma one_time_mark m k v v' : m !! k = Some v → id v' = id v → hash v' = hash v → is_some (used v') = true →
  one_time_step m (<[id v' := v']> m).
Proof. intros Hk Hid Hhash Hused. by apply (one_time_replace m k v). Qed.
(** A row found unused is the only one of its hash. *)
Lemma not_gone m k v : one_time_ok m → m !! k = Some v → used v = None → ¬ gone (hash v) m.
Proof.
  intros [_ Hone] Hk Hu (j & w & Hj & Hh & Hw). rewrite (Hone j k w v Hj Hk Hh) in Hj. rewrite Hk in Hj. injection Hj as <-.
  by rewrite Hu in Hw.
Qed.
End one_time.

(** Several writes under one commit: only their sum has to be a step of the relation. *)
Section batch.
Context (R : relation tables) `{!PreOrder R}.
Definition since (s0 s : session) : Prop := committed s = committed s0 ∧ dead s = false.
Lemma since_refl s : dead s = false → since s s.
Proof. by split. Qed.

Lemma batch_insert {A} s0 s ok f (k : unit → DB A) : since s0 s →
  (ok (cur s) = true → since s0 (set_cur (f (cur s)) s) → evolves R s0 (k tt (set_cur (f (cur s)) s)).2) →
  evolves R s0 ((insert_checked ok f ≫= k) s).2.
Proof.
  intros [Hc Hd] Hk. rewrite (bind_insert _ _ _ _ Hd). destruct (ok (cur s)) eqn:Hok; [by apply Hk|].
  intros Hs. cbn. by rewrite Hc.
Qed.
Lemma batch_write {A} s0 s f (k : unit → DB A) : since s0 s →
  (since s0 (set_cur (f (cur s)) s) → evolves R s0 (k tt (set_cur (f (cur s)) s)).2) →
  evolves R s0 ((write f ≫= k) s).2.
Proof. intros [Hc Hd] Hk. rewrite (bind_write _ _ _ Hd). by apply Hk. Qed.
Lemma batch_commit {A} s0 s (k : unit → DB A) : since s0 s → R (cur s0) (cur s) → respects (evolves R) (k tt) →
  evolves R s0 ((commit ≫= k) s).2.
Proof.
  intros [Hc Hd] Hr Hk Hs. rewrite (bind_commit _ _ Hd).
  destruct (Hk (MkSession (cur s) (cur s) false (seed s) (db_now s))) as [H1 H2]; [cbn; reflexivity|].
  split; [|done]. cbn in H1. etrans; [exact Hs|]. by etrans.
Qed.
(** In a session that is unusable nothing happens. *)
Lemma dead_insert {A} s ok f (k : unit → DB A) : dead s = true → evolves R s ((insert_checked ok f ≫= k) s).2.
Proof. intros Hd. rewrite bind_run. unfold insert_checked. rewrite Hd. by intros Hs. Qed.
End batch.

(** What holds of the tables through a request: [C] of the committed tables and of what
    the request sees, and [T], which the request may rely on before it ends, of an open
    transaction. *)
Section guarded.
Context (T C : tables → Prop) (HTC : ∀ t, T t → C t).
Definition kept_by (s : session) : Prop := C (committed s) ∧ C (cur s) ∧ (dead s = false → T (cur s)).
Definition guarded : relation session := λ s s', kept_by s → kept_by s'.
#[export] Instance guarded_preorder : PreOrder guarded.
Proof. split; [by intros s H | intros s1 s2 s3 H12 H23 H1; auto]. Qed.

Lemma guarded_query {A} (f : tables → A) : respects guarded (query f).
Proof. apply respects_gets, _. Qed.
Lemma guarded_get_or {A} (f : tables → option A) e : respects guarded (get_or f e).
Proof. intros s Hs. unfold get_or. rewrite bind_query. destruct (f (cur s)); exact Hs. Qed.
Lemma guarded_write f : (∀ t, T t → T (f t)) → respects guarded (write f).
Proof.
  intros Hf s Hs. unfold write. destruct (dead s) eqn:Hd; [exact Hs|]. destruct Hs as (Hc & Hu & Ht).
  split_and!; simpl; auto.
Qed.
Lemma guarded_insert ok f : (∀ t, ok t = true → T t → T (f t)) → respects guarded (insert_checked ok f).
Proof.
  intros Hf s Hs. unfold insert_checked. destruct (dead s) eqn:Hd; [exact Hs|]. destruct Hs as (Hc & Hu & Ht).
  destruct (ok (cur s)) eqn:Hok; split_and!; simpl; auto; done.
Qed.
Lemma guarded_commit : respects guarded commit.
Proof.
  intros s Hs. unfold commit. destruct (dead s) eqn:Hd; [exact Hs|]. destruct Hs as (Hc & Hu & Ht).
  split_and!; simpl; auto.
Qed.
Context `{Entropy}.
Lemma guarded_fresh_uuid : respects guarded fresh_uuid.
Proof. intros s Hs. exact Hs. Qed.
Lemma guarded_fresh_token : respects guarded fresh_token.
Proof. intros s Hs. exact Hs. Qed.
Lemma guarded_fresh_hex b : respects guarded (fresh_hex b).
Proof. intros s Hs. exact Hs. Qed.
End guarded.

Section loading.
Context (T C : tables → Prop).
(** What is loaded is known of the tables it was loaded from: from there on the request
    relies on [T' a]. *)
Lemma guarded_lookup {A B} (T' : A → tables → Prop) (f : tables → A) (k : A → DB B) :
  (∀ t, T t → T' (f t) t) → (∀ a t, T' a t → T t) → (∀ a, respects (guarded (T' a) C) (k a)) →
  respects (guarded T C) (query f ≫= k).
Proof.
  intros Hin Hout Hk s (Hc & Hu & Ht). rewrite bind_query.
  destruct (Hk (f (cur s)) s) as (Hc' & Hu' & Ht'); [by split_and!; auto|]. split_and!; [done | done |]. eauto.
Qed.
Lemma guarded_load {A B} (T' : A → tables → Prop) (f : tables → option A) e (k : A → DB B) :
  (∀ t a, T t → f t = Some a → T' a t) → (∀ a t, T' a t → T t) → (∀ a, respects (guarded (T' a) C) (k a)) →
  respects (guarded T C) (get_or f e ≫= k).
Proof.
  intros Hin Hout Hk s Hs. rewrite bind_get_or. destruct (f (cur s)) as [a|] eqn:Ha; [|exact Hs].
  destruct Hs as (Hc & Hu & Ht).
  destruct (Hk a s) as (Hc' & Hu' & Ht'); [by split_and!; auto|]. split_and!; [done | done |]. eauto.
Qed.
Lemma guarded_weaken {A} (T' : tables → Prop) (m : DB A) : (∀ t, T t ↔ T' t) → respects (guarded T' C) m → respects (guarded T C) m.
Proof. intros HT Hm s (Hc & Hu & Ht). destruct (Hm s) as (? & ? & ?); [split_and!; [done | done |]; intros; apply HT; auto|]. split_and!; [done | done |]. intros. apply HT. auto. Qed.
End loading.

Lemma respects_for_each_in {A} (R : relation session) `{!PreOrder R} (f : A → DB unit) l :
  (∀ a, a ∈ l → respects R (f a)) → respects R (for_each f l).
Proof.
  induction l as [|a l IH]; intros Hf; simpl; [walk|].
  apply respects_bind; [apply _ | apply Hf; by left | intros _]. apply IH. intros b Hb. apply Hf. by right.
Qed.

Section plain.
Context (C : tables → Prop).
Definition implied : relation tables := λ t t', C t → C t'.
#[export] Instance implied_preorder : PreOrder implied.
Proof. split; [by intros t H | intros t1 t2 t3 H12 H23 H1; auto]. Qed.
Lemma guarded_evolves {A} (m : DB A) : respects (evolves implied) m → respects (guarded C C) m.
Proof.
  intros Hm s (Hc & Hu & _). destruct (Hm s) as [H1 H2]; [by intros _|].
  assert (C (cur (m s).2)) by (apply H2; by apply H1). split_and!; [by apply H1 | done | done].
Qed.
(** What commits nothing keeps what the request relies on. *)
Lemma guarded_moves {A} (T : tables → Prop) (m : DB A) :
  respects (moves (λ t t', T t → T t')) m → respects (evolves implied) m → respects (guarded T C) m.
Proof.
  intros Hm He s (Hc & Hu & Ht). destruct (Hm s) as (_ & _ & Halive). destruct (He s) as [H1 H2]; [by intros _|].
  split_and!; [by apply H1 | by apply H2; apply H1 |]. intros Hd. destruct (Halive Hd) as [Hs Hk]. auto.
Qed.
Lemma guarded_rollback : respects (guarded C C) rollback.
Proof. intros s (Hc & Hu & _). by split_and!. Qed.
Lemma guarded_run {A} (m : DB A) t n now : respects (guarded C C) m → C t → C (run_request m t n now).2.
Proof.
  intros Hm Ht. specialize (Hm (open_session t n now)). unfold run_request. destruct (m _) as [r s].
  destruct Hm as (H1 & _); [by split_and! | exact H1].
Qed.
End plain.

(** A relation that looks at one part of the tables ignores the rest. *)
Definition same_view {X} (view : tables → X) : relation tables := λ t t', view t' = view t.
#[export] Instance same_view_preorder {X} (view : tables → X) : PreOrder (same_view view).
Proof. split; [by intros t | intros t1 t2 t3; unfold same_view; congruence]. Qed.

(** ** Rows that a condition determines *)

Section determined.
Context {V : Type} (p : V → bool).
Definition at_most_one (m : gmap uuid V) : Prop :=
  ∀ i j a b, m !! i = Some a → m !! j = Some b → p a = true → p b = true → i = j.

Lemma scalar_unique m i v : at_most_one m → m !! i = Some v → p v = true → scalar p m = Some v.
Proof.
  intros Hone Hi Hv. destruct (scalar p m) as [w|] eqn:Hs.
  - apply scalar_Some in Hs as (j & Hj & Hw). rewrite (Hone j i w v Hj Hi Hw Hv) in Hj. congruence.
  - by rewrite (proj1 (scalar_None p m) Hs i v Hi) in Hv.
Qed.
Lemma one_insert m i v : at_most_one m → (p v = true → scalar p m = None) → at_most_one (<[i := v]> m).
Proof.
  intros Hone Hnew j k a b. rewrite !lookup_insert_Some. intros [[<- <-]|[Hj Ha]] [[<- <-]|[Hk Hb]] Hpa Hpb; try done.
  - by rewrite (proj1 (scalar_None p m) (Hnew Hpa) k b Hb) in Hpb.
  - by rewrite (proj1 (scalar_None p m) (Hnew Hpb) j a Ha) in Hpa.
  - by apply (Hone j k a b).
Qed.
(** A row that the condition rejects changes nothing, in a fresh place or in that of
    another such row. *)
Lemma scalar_insert_other m i v : at_most_one m → p v = false → (∀ w, m !! i = Some w → p w = false) →
  scalar p (<[i := v]> m) = scalar p m.
Proof.
  intros Hone Hv Hold. destruct (scalar p m) as [w|] eqn:Hs.
  - apply scalar_Some in Hs as (j & Hj & Hw). apply (scalar_unique _ j); [|rewrite lookup_insert_ne; [done|]|done].
    + apply one_insert; [done | congruence].
    + intros <-. by rewrite (Hold w Hj) in Hw.
  - apply scalar_None. intros j w. rewrite lookup_insert_Some. intros [[_ <-]|[_ Hj]]; [done|].
    exact (proj1 (scalar_None p m) Hs j w Hj).
Qed.
(** Replacing the row that satisfies the condition by another that does. *)
Lemma one_replace m i v w : at_most_one m → m !! i = Some v → p v = true → at_most_one (<[i := w]> m).
Proof.
  intros Hone Hi Hv j k a b. rewrite !lookup_insert_Some. intros [[<- <-]|[Hj Ha]] [[<- <-]|[Hk Hb]] Hpa Hpb; try done.
  - apply (Hone i k v b); done.
  - apply (Hone j i a v); done.
  - by apply (Hone j k a b).
Qed.
End determined.

(** Notifications that are no security alert record no event: nothing is committed. *)
Section moves.
Context `{Entropy} `{SecuritySinks} (R : relation tables) `{!PreOrder R} `{!Ignores R}.
Lemma create_notification_moves a : na_type a ≠ SECURITY_ALERT → respects (moves R) (create_notification a).
Proof.
  intros Ha%eqb_false.
  assert (Hp : respects (moves R) (get_preferences (na_user_id a))).
  { unfold get_preferences. walk. apply moves_insert; intros; apply ignores_preferences. }
  assert (Hd : ∀ id c st n, respects (moves R) (add_delivery id c st n)).
  { intros. unfold add_delivery. walk. apply moves_write; intros; apply ignores_deliveries. }
  assert (Hn : respects (moves R) (create_new a)).
  { unfold create_new, queue_deliveries, alert_event. rewrite Ha. walk; first [exact Hp | apply Hd | idtac].
    apply moves_insert; intros; apply ignores_notifications. }
  unfold create_notification. walk; first [exact Hn | by intros s].
Qed.

(** An event of no organization is recorded without running the sinks. *)
Context `{!SecuritySinksLaws}.
Lemma record_event_moves ev : se_organization_id ev = None → respects (moves R) (record_event ev false).
Proof.
  intros Hev. unfold record_event, generate_event_id.
  apply respects_bind; [apply _ | walk | intros id]. apply respects_bind; [apply _ | walk | intros u].
  apply respects_bind; [apply _ | walk | intros now].
  apply respects_bind; [apply _ | apply moves_insert; intros t _; apply log_ignored | intros _].
  apply respects_bind; [apply _ | walk | intros _].
  apply respects_bind; [apply _ | | intros _; apply respects_bind; [apply _ | | intros _; walk]];
    intros s; unfold try_except; by rewrite ?detection_unscoped, ?siem_export_unscoped.
Qed.
Lemma unscoped_alert_moves a : na_organization_id a = None → respects (moves R) (create_notification a).
Proof.
  intros Ha.
  assert (Hp : respects (moves R) (get_preferences (na_user_id a))).
  { unfold get_preferences. walk. apply moves_insert; intros; apply ignores_preferences. }
  assert (Hd : ∀ id c st n, respects (moves R) (add_delivery id c st n)).
  { intros. unfold add_delivery. walk. apply moves_write; intros; apply ignores_deliveries. }
  assert (He : ∀ id, respects (moves R) (alert_event a id)).
  { intros id. unfold alert_event. destruct (eqb _ SECURITY_ALERT); [|walk].
    apply respects_bind; [apply _ | by apply record_event_moves | intros; walk]. }
  assert (Hn : respects (moves R) (create_new a)).
  { unfold create_new, queue_deliveries. walk; first [exact Hp | apply Hd | apply He | idtac].
    apply moves_insert; intros; apply ignores_notifications. }
  unfold create_notification. walk; first [exact Hn | by intros s].
Qed.
End moves.
End Frames.
#[export] Hint Resolve Frames.guarded_query Frames.guarded_get_or Frames.guarded_commit Frames.guarded_fresh_uuid
  Frames.guarded_fresh_token Frames.guarded_fresh_hex Frames.guarded_rollback : respects.
#[export] Hint Extern 2 (respects _ (Notifications.create_notification _)) => apply Frames.create_notification_evolves; apply _ : respects.
#[export] Hint Extern 2 (respects _ (SecurityEvents.record_security_event _ _ _ _ _ _)) =>
  apply Frames.record_security_event_evolves; apply _ : respects.
#[export] Hint Extern 2 (respects _ (SecurityEvents.record_event _ _)) => apply SecurityEvents.record_event_evolves; apply _ : respects.
