(* ===== verification/PlanProps.v ===== *)
(** What plans guarantee ([PlanLimits]): the metering of authorization requests
    refines a counter per organization and month, capped by the plan. *)
From Stdlib Require Import Ascii.
From S2P Require Import Prelude.
From S2P Require Import PyStr.
From S2P Require Import PyFloat.
From S2P Require Import PyVal.
From S2P Require Import PyDecimal.
From S2P Require Import Models.
From S2P Require Import PyTime.
From S2P Require Import Store.
From S2P Require Import Samples.
From S2P Require Import SecurityEvents.
From S2P Require Import Soc.
From S2P Require Import SocProps.
From S2P Require Import Notifications.
From S2P Require Import PlanLimits.
From S2P Require Import Frames.

Local Open Scope string_scope.
Local Open Scope Z_scope.

Module PlanProps.
Import SecurityEvents Notifications PlanLimits Frames.

(** ** The counters and their caps *)

Definition month_of (now : time) : date := (month_period now).1.
Definition used (t : tables) (org : uuid) (month : date) : Z :=
  match usage_of org AUTHORIZATION_REQUESTS month t with Some u => ur_quantity u | None => 0 end.
(** The plan of an organization, the free one when it has no subscription yet. *)
Definition plan_of (t : tables) (org : uuid) : option SubscriptionPlan :=
  match subscription_of org t with Some s => plan_table t !! os_plan_id s | None => get_plan "free" t end.
Definition cap (t : tables) (org : uuid) : option Z := plan_of t org ≫= sp_max_authorization_requests_monthly.

(** Rows are stored under their identifiers, an organization has one subscription
    and one record of a month. *)
Definition metered (t : tables) : Prop :=
  (∀ i p, plan_table t !! i = Some p → sp_id p = i) ∧ (∀ i u, usage_table t !! i = Some u → ur_id u = i) ∧
  (∀ org, at_most_one (λ s, eqb (os_organization_id s) org) (subscription_table t)) ∧
  ∀ org metric start, at_most_one (usage_for org metric start) (usage_table t).
Definition same_meter (t t' : tables) : Prop := metered t →
  metered t' ∧ (∀ org month, used t' org month = used t org month) ∧ ∀ org, plan_of t' org = plan_of t org.
#[export] Instance same_meter_preorder : PreOrder same_meter.
Proof.
  split; [by intros t Ht|]. intros t1 t2 t3 H12 H23 H1. destruct (H12 H1) as (H2 & U12 & P12).
  destruct (H23 H2) as (H3 & U23 & P23). split_and!; [done | |]; intros; [by rewrite U23 | by rewrite P23].
Qed.
Lemma meter_same t t' : usage_table t' = usage_table t → plan_table t' = plan_table t → subscription_table t' = subscription_table t →
  same_meter t t'.
Proof.
  intros Hu Hp Hs Ht. unfold metered, used, usage_of, plan_of, subscription_of, get_plan. rewrite Hu, Hp, Hs. by split.
Qed.

(** The first subscription of an organization is to the plan it had without one. *)
Lemma meter_subscribe t org plan s :
  subscription_of org t = None → get_plan "free" t = Some plan → os_organization_id s = org → os_plan_id s = sp_id plan →
  new_subscription_ok s t = true → same_meter t (upd_subscriptions <[os_id s := s]> t).
Proof.
  intros Hnone Hplan Horg Hid Hok Ht. pose proof Ht as (Hk & Hu & Hone & Hou).
  assert (Hfree : subscription_table t !! os_id s = None).
  { unfold new_subscription_ok in Hok. apply andb_true_iff in Hok as [Hfree _]. by apply negb_true_iff, is_some_false in Hfree. }
  split; [|split; [done|]].
  { split_and!; [done | done | intros o | done]. apply (one_insert _ (subscription_table t)); [by apply Hone|].
    intros He. apply (proj1 (eqb_true _ _)) in He. by rewrite <- He, Horg. }
  intros o.
  assert (Hp : plan_table t !! sp_id plan = Some plan).
  { unfold get_plan in Hplan. apply scalar_Some in Hplan as (i & Hi & _). by rewrite (proj1 Ht i plan Hi). }
  unfold plan_of. change (subscription_of o (upd_subscriptions <[os_id s := s]> t))
    with (scalar (λ s, eqb (os_organization_id s) o) (<[os_id s := s]> (subscription_table t))).
  change (plan_table (upd_subscriptions <[os_id s := s]> t)) with (plan_table t).
  change (get_plan "free" (upd_subscriptions <[os_id s := s]> t)) with (get_plan "free" t).
  destruct (decide (o = org)) as [->|Hne].
  - rewrite scalar_insert; [|exact Hnone | by rewrite Horg, eqb_refl]. by rewrite Hnone, Hplan, Hid, Hp.
  - assert (Hsame : scalar (λ s, eqb (os_organization_id s) o) (<[os_id s := s]> (subscription_table t)) = subscription_of o t).
    { apply scalar_insert_other; [apply Hone | apply eqb_false; congruence | congruence]. }
    by rewrite Hsame.
Qed.

Lemma usage_for_true org metric m u : usage_for org metric m u = true ↔
  ur_organization_id u = org ∧ ur_metric u = metric ∧ ur_period_start u = m.
Proof. unfold usage_for. rewrite !andb_true_iff, !eqb_true. naive_solver. Qed.

Lemma meter_record t u :
  usage_of (ur_organization_id u) (ur_metric u) (ur_period_start u) t = None → ur_quantity u = 0 →
  usage_table t !! ur_id u = None → same_meter t (upd_usage <[ur_id u := u]> t).
Proof.
  intros Hnone Hq Hfree Ht. pose proof Ht as (Hk & Hu & Hone & Hou). split; [|split; [|done]].
  - split_and!; [done | | done |].
    + intros i v. change (<[ur_id u := u]> (usage_table t) !! i = Some v → ur_id v = i).
      rewrite lookup_insert_Some. intros [[<- <-]|[_ Hi]]; [done | by apply Hu].
    + intros o metric m. apply (one_insert _ (usage_table t)); [by apply Hou|].
      intros (<- & <- & <-)%usage_for_true. exact Hnone.
  - intros o m. unfold used. change (usage_of o AUTHORIZATION_REQUESTS m (upd_usage <[ur_id u := u]> t))
      with (scalar (usage_for o AUTHORIZATION_REQUESTS m) (<[ur_id u := u]> (usage_table t))).
    destruct (usage_for o AUTHORIZATION_REQUESTS m u) eqn:Hfor.
    + rewrite scalar_insert; [|by apply usage_for_true in Hfor as (<- & <- & <-) | done].
      apply usage_for_true in Hfor as (<- & Hm & <-). rewrite <- Hm, Hnone. exact Hq.
    + rewrite scalar_insert_other; [done | apply Hou | done | congruence].
Qed.

(** The record of a month changes its quantity. *)
Lemma meter_set t org m u q :
  metered t → usage_of org AUTHORIZATION_REQUESTS m t = Some u →
  let t' := upd_usage <[ur_id u := set_quantity q u]> t in
  metered t' ∧ used t' org m = q ∧ (∀ o n, (o, n) ≠ (org, m) → used t' o n = used t o n) ∧ ∀ o, plan_of t' o = plan_of t o.
Proof.
  intros Ht Hfound t'. pose proof Ht as (Hk & Hu & Hone & Hou).
  apply scalar_Some in Hfound as (i & Hi & Hfor). pose proof (Hu i u Hi) as Hid. subst i.
  assert (Hsame : ∀ o metric n, usage_for o metric n (set_quantity q u) = usage_for o metric n u) by done.
  assert (Hrest : ∀ o metric n, at_most_one (usage_for o metric n) (<[ur_id u := set_quantity q u]> (usage_table t))).
  { intros o metric n. destruct (usage_for o metric n u) eqn:Hf; [by apply (one_replace _ _ _ u)|].
    apply one_insert; [done|]. by rewrite Hsame, Hf. }
  split_and!; [| | | done].
  - split_and!; [done | | done | exact Hrest]. intros i v. change (<[ur_id u := set_quantity q u]> (usage_table t) !! i = Some v → ur_id v = i).
    rewrite lookup_insert_Some. intros [[<- <-]|[_ Hi']]; [done | by apply Hu].
  - unfold used. change (usage_of org AUTHORIZATION_REQUESTS m t')
      with (scalar (usage_for org AUTHORIZATION_REQUESTS m) (<[ur_id u := set_quantity q u]> (usage_table t))).
    by rewrite (scalar_unique _ _ (ur_id u) (set_quantity q u) (Hrest _ _ _) (lookup_insert_eq _ _ _)).
  - intros o n Hne. unfold used. change (usage_of o AUTHORIZATION_REQUESTS n t')
      with (scalar (usage_for o AUTHORIZATION_REQUESTS n) (<[ur_id u := set_quantity q u]> (usage_table t))).
    assert (Hf : usage_for o AUTHORIZATION_REQUESTS n u = false).
    { destruct (usage_for o AUTHORIZATION_REQUESTS n u) eqn:Hf; [|done]. exfalso. apply Hne.
      apply usage_for_true in Hf as (<- & _ & <-). by apply usage_for_true in Hfor as (<- & _ & <-). }
    rewrite scalar_insert_other; [done | done | by rewrite Hsame |]. intros w Hw. rewrite Hi in Hw. by injection Hw as <-.
Qed.

(** ** The operations *)

Section metering.
Context `{Entropy} `{SecuritySinks} `{!SinksRespect same_meter}.
Lemma meter_ignores : Ignores same_meter.
Proof. split; [apply _ | intros; by apply meter_same ..]. Qed.
Local Existing Instance meter_ignores.

(** [runs_to m s P]: the outcome of a step that commits nothing. *)
Lemma ensure_run org s r s' :
  dead s = false → metered (cur s) → ensure_subscription org s = (r, s') →
  committed s' = committed s ∧ db_now s' = db_now s ∧
  match r with
  | Ok sp => dead s' = false ∧ same_meter (cur s) (cur s') ∧ plan_of (cur s') org = Some sp.2
  | Err _ => True
  end.
Proof.
  intros Hd Ht. pose proof Ht as (Hk & Hu & Hone & Hou). unfold ensure_subscription. rewrite bind_query.
  destruct (subscription_of org (cur s)) as [sub|] eqn:Hsub.
  - rewrite bind_query. destruct (plan_table (cur s) !! os_plan_id sub) as [p|] eqn:Hp; [|by intros [= <- <-]].
    rewrite bind_raise_if. destruct (negb _); intros [= <- <-]; split_and!; try done.
    unfold plan_of. by rewrite Hsub.
  - rewrite bind_get_or. destruct (get_plan "free" (cur s)) as [p|] eqn:Hp; [|by intros [= <- <-]].
    rewrite bind_now. destruct (month_period (db_now s)) as [start end_]. rewrite bind_fresh_uuid.
    rewrite bind_insert by exact Hd. lazymatch goal with |- context [new_subscription_ok ?x _] => set (sub := x) end.
    destruct (new_subscription_ok sub _) eqn:Hok; intros [= <- <-]; split_and!; try done.
    + by apply (meter_subscribe (cur s) org p sub).
    + cbn. pose proof (meter_subscribe (cur s) org p sub Hsub Hp eq_refl eq_refl Hok Ht) as (_ & _ & Hplan).
      transitivity (plan_of (cur s) org); [exact (Hplan org)|]. unfold plan_of. by rewrite Hsub, Hp.
Qed.

Lemma record_run org s r s' :
  dead s = false → metered (cur s) → _usage_record org AUTHORIZATION_REQUESTS s = (r, s') →
  committed s' = committed s ∧ db_now s' = db_now s ∧
  match r with
  | Ok u => dead s' = false ∧ same_meter (cur s) (cur s') ∧
      usage_of org AUTHORIZATION_REQUESTS (month_of (db_now s)) (cur s') = Some u
  | Err _ => True
  end.
Proof.
  intros Hd Ht. unfold _usage_record, month_of. rewrite bind_now. destruct (month_period (db_now s)) as [start end_].
  rewrite bind_fresh_uuid, bind_query. change (cur (next_seed s)) with (cur s).
  destruct (usage_of org AUTHORIZATION_REQUESTS start (cur s)) as [u|] eqn:Hu; [intros [= <- <-]; by split_and!|].
  rewrite bind_insert by exact Hd. destruct (negb _) eqn:Hok; intros [= <- <-]; split_and!; try done.
  - apply negb_true_iff, is_some_false in Hok. by apply (meter_record (cur s) (MkUsage _ _ _ _ _ _)).
  - cbn. apply scalar_insert; [exact Hu|]. by apply usage_for_true.
Qed.
Lemma notify_moves org u p n : respects (moves same_meter) (_notify_usage org u p n).
Proof.
  unfold _notify_usage. apply respects_bind; [apply _ | | intros o].
  - intros s. unfold get_or. rewrite bind_query. by destruct (organizations _ !! _).
  - apply respects_bind; [apply _ | apply create_notification_moves; [apply _ .. | discriminate] | intros; walk].
Qed.

(** ** The counter *)

Inductive meter_op : Type := Consume (org : uuid) | Release (org : uuid).
Record meter_step : Type := MkMeter { mt_draws : nat; mt_now : time; mt_op : meter_op }.
Definition perform_meter (o : meter_op) : DB unit :=
  match o with Consume org => consume_authorization_request org ;; mret tt | Release org => release_authorization_request org end.
Definition meter_outcome (t : tables) (st : meter_step) : bool * tables :=
  let '(r, t') := run_request (perform_meter (mt_op st)) t (mt_draws st) (mt_now st) in
  (match r with Ok _ => true | Err _ => false end, t').

(** The specification: a refused operation changes no counter; a unit is taken from the
    counter of its organization and month only below the cap, and given back unless
    the counter is at zero. *)
Definition counters : Type := uuid → date → Z.
Definition counted (limit : option Z) (ok : bool) (o : meter_op) (month : date) (c c' : counters) : Prop :=
  let org := match o with Consume org => org | Release org => org end in
  (∀ o m, (o, m) ≠ (org, month) → c' o m = c o m) ∧
  match o, ok with
  | Consume _, true => c' org month = c org month + 1 ∧ ∀ l, limit = Some l → c org month < l
  | Release _, true => c' org month = if 0 <? c org month then c org month - 1 else c org month
  | _, false => c' org month = c org month
  end.

Lemma used_of t org m u : usage_of org AUTHORIZATION_REQUESTS m t = Some u → used t org m = ur_quantity u.
Proof. unfold used. by intros ->. Qed.

Lemma moved_on (R : relation tables) s s' : moves R s s' → dead s' = false →
  R (cur s) (cur s') ∧ committed s' = committed s.
Proof. intros (Hc & _ & Hm) Hd. by destruct (Hm Hd). Qed.

(** What was written before a failure is lost; what is committed is there. *)
Lemma commit_run {A} (a : A) s r s' : (commit ;; mret a) s = (r, s') →
  committed s' = (if dead s then committed s else cur s) ∧ (match r with Ok _ => dead s = false | Err _ => True end).
Proof. rewrite bind_run. unfold commit. destruct (dead s); intros [= <- <-]; by split. Qed.

Lemma consume_run org s r s' :
  dead s = false → committed s = cur s → metered (cur s) → consume_authorization_request org s = (r, s') →
  let t := cur s in let t' := committed s' in
  match r with
  | Ok _ => metered t' ∧ (∀ o, plan_of t' o = plan_of t o) ∧
      counted (cap t org) true (Consume org) (month_of (db_now s)) (used t) (used t')
  | Err _ => same_meter t t'
  end.
Proof.
  intros Hd Hc Ht. unfold consume_authorization_request. rewrite bind_run.
  destruct (ensure_subscription org s) as [[[sub p]|e] s1] eqn:He; destruct (ensure_run _ _ _ _ Hd Ht He) as (Hc1 & Hn1 & H1).
  2: { intros [= <- <-]. cbn. by rewrite Hc1, Hc. }
  destruct H1 as (Hd1 & Hm1 & Hp1). destruct (Hm1 Ht) as (Ht1 & Hu1 & Hpl1). simpl in Hp1.
  unfold _check_subscription_access. rewrite bind_assoc, bind_now, bind_raise_if.
  destruct (access_restricted _ _); [intros [= <- <-]; cbn; by rewrite Hc1, Hc|].
  rewrite bind_run. destruct (_usage_record org AUTHORIZATION_REQUESTS s1) as [[u|e] s2] eqn:Hr;
    destruct (record_run _ _ _ _ Hd1 Ht1 Hr) as (Hc2 & Hn2 & H2).
  2: { intros [= <- <-]. cbn. by rewrite Hc2, Hc1, Hc. }
  destruct H2 as (Hd2 & Hm2 & Hf2). destruct (Hm2 Ht1) as (Ht2 & Hu2 & Hpl2). rewrite Hn1 in Hf2.
  assert (H02 : same_meter (cur s) (cur s2)) by (etrans; [exact Hm1 | exact Hm2]).
  assert (Hq : used (cur s) org (month_of (db_now s)) = ur_quantity u).
  { rewrite <- Hu1, <- Hu2. by apply used_of. }
  destruct (match sp_max_authorization_requests_monthly p with Some limit => limit <=? ur_quantity u | None => false end) eqn:Hfull.
  - rewrite bind_assoc, bind_run. pose proof (notify_moves org u p 100 s2) as Hmv.
    destruct (_notify_usage org u p 100 s2) as [[[]|e] s3]; simpl in Hmv.
    + rewrite bind_assoc, bind_run. unfold commit. destruct (dead s3) eqn:Hd3; intros [= <- <-]; cbn.
      * by rewrite (proj1 Hmv), Hc2, Hc1, Hc.
      * etrans; [exact H02 | by apply (moved_on same_meter s2 s3)].
    + intros [= <- <-]. cbn. by rewrite (proj1 Hmv), Hc2, Hc1, Hc.
  - rewrite bind_ret. cbv zeta. rewrite (bind_write _ _ _ Hd2).
    destruct (meter_set (cur s2) org _ u (ur_quantity u + 1) Ht2 Hf2) as (Ht3 & Hb3 & Ho3 & Hpl3).
    set (s3 := set_cur _ s2). assert (Hc3 : committed s3 = cur s) by (cbn; by rewrite Hc2, Hc1, Hc). rewrite bind_run.
    lazymatch goal with |- context [match ?m s3 with _ => _ end] => set (notice := m); assert (Hmv : moves same_meter s3 (notice s3).2) end.
    { subst notice. destruct (sp_max_authorization_requests_monthly p) as [l|]; [|done]. destruct (l =? 0); [done|].
      destruct (crossed _ _); [apply notify_moves | done]. }
    destruct (notice s3) as [[[]|e] s4]; simpl in Hmv; [|intros [= <- <-]; cbn; by rewrite (proj1 Hmv), Hc3].
    intros Hrun. destruct (commit_run _ _ _ _ Hrun) as [Hc4 Hok]. cbn. rewrite Hc4.
    destruct r as [r|]; [|destruct (dead s4) eqn:Hd4; [by rewrite (proj1 Hmv), Hc3 | by rewrite bind_run in Hrun; unfold commit in Hrun; rewrite Hd4 in Hrun]].
    rewrite Hok. destruct (moved_on same_meter s3 s4 Hmv Hok) as [H34 _]. destruct (H34 Ht3) as (Ht4 & Hu4 & Hpl4).
    split; [exact Ht4|]. split; [intros o; by rewrite Hpl4, Hpl3, Hpl2, Hpl1|]. unfold counted. split_and!.
    + intros o m Hne. etrans; [apply Hu4|]. etrans; [exact (Ho3 o m Hne)|]. by rewrite Hu2, Hu1.
    + etrans; [apply Hu4|]. etrans; [exact Hb3|]. f_equal. exact (eq_sym Hq).
    + unfold cap. rewrite <- Hpl1, Hp1. intros l Hl. simpl in Hl. rewrite Hl in Hfull. apply Z.leb_gt in Hfull. exact (eq_ind_r (λ q, q < l) Hfull Hq).
Qed.
Lemma release_run org s r s' :
  dead s = false → committed s = cur s → metered (cur s) → release_authorization_request org s = (r, s') →
  let t := cur s in let t' := committed s' in
  match r with
  | Ok _ => metered t' ∧ (∀ o, plan_of t' o = plan_of t o) ∧
      counted (cap t org) true (Release org) (month_of (db_now s)) (used t) (used t')
  | Err _ => same_meter t t'
  end.
Proof.
  intros Hd Hc Ht. unfold release_authorization_request. rewrite bind_run.
  destruct (_usage_record org AUTHORIZATION_REQUESTS s) as [[u|e] s2] eqn:Hr;
    destruct (record_run _ _ _ _ Hd Ht Hr) as (Hc2 & Hn2 & H2).
  2: { intros [= <- <-]. cbn. by rewrite Hc2, Hc. }
  destruct H2 as (Hd2 & Hm2 & Hf2). destruct (Hm2 Ht) as (Ht2 & Hu2 & Hpl2).
  assert (Hq : used (cur s) org (month_of (db_now s)) = ur_quantity u).
  { rewrite <- Hu2. by apply used_of. }
  destruct (0 <? ur_quantity u) eqn:Hpos.
  - rewrite (bind_write _ _ _ Hd2). destruct (meter_set (cur s2) org _ u (ur_quantity u - 1) Ht2 Hf2) as (Ht3 & Hb3 & Ho3 & Hpl3).
    unfold commit. cbn [dead set_cur]. rewrite Hd2. intros [= <- <-]. cbn [committed set_cur cur].
    split; [exact Ht3|]. split; [intros o; by rewrite Hpl3, Hpl2|]. unfold counted. split.
    + intros o m Hne. by rewrite Ho3, Hu2 by done.
    + by rewrite Hb3, Hq, Hpos.
  - rewrite bind_ret. unfold commit. rewrite Hd2. intros [= <- <-]. cbn [committed].
    split; [exact Ht2|]. split; [exact Hpl2|]. unfold counted. split; [intros; apply Hu2|]. by rewrite Hu2, Hq, Hpos.
Qed.

Lemma outcome_counted t st : metered t →
  let '(ok, t') := meter_outcome t st in
  let org := match mt_op st with Consume org => org | Release org => org end in
  metered t' ∧ (∀ o, plan_of t' o = plan_of t o) ∧
  counted (cap t org) ok (mt_op st) (month_of (mt_now st)) (used t) (used t').
Proof.
  intros Ht. unfold meter_outcome, run_request. destruct st as [n now o]. cbn [mt_draws mt_now mt_op].
  assert (Hsame : ∀ t', same_meter t t' → metered t' ∧ (∀ o, plan_of t' o = plan_of t o) ∧
    counted (cap t (match o with Consume org => org | Release org => org end)) false o (month_of now) (used t) (used t')).
  { intros t' Hs. destruct (Hs Ht) as (Ht' & Hu & Hp). split; [done|]. split; [done|]. split; [intros; apply Hu|].
    destruct o; apply Hu. }
  destruct o as [org|org]; cbn [perform_meter].
  - rewrite bind_run. destruct (consume_authorization_request org (open_session t n now)) as [[u|e] s'] eqn:Hrun;
      [exact (consume_run org (open_session t n now) _ _ eq_refl eq_refl Ht Hrun)|].
    apply Hsame. exact (consume_run org (open_session t n now) _ _ eq_refl eq_refl Ht Hrun).
  - destruct (release_authorization_request org (open_session t n now)) as [[u|e] s'] eqn:Hrun;
      [exact (release_run org (open_session t n now) _ _ eq_refl eq_refl Ht Hrun)|].
    apply Hsame. exact (release_run org (open_session t n now) _ _ eq_refl eq_refl Ht Hrun).
Qed.

(** A sequence of requests: the tables it ends in, and the units of one organization and
    month that it took and gave back. *)
Fixpoint meter_trace (t : tables) (sts : list meter_step) : tables :=
  match sts with [] => t | st :: sts => meter_trace (meter_outcome t st).2 sts end.
Definition is_op (take : bool) (org : uuid) (month : date) (st : meter_step) : bool :=
  match mt_op st with Consume o => take && eqb o org | Release o => negb take && eqb o org end && eqb (month_of (mt_now st)) month.
Fixpoint tally (take : bool) (org : uuid) (month : date) (t : tables) (sts : list meter_step) : Z :=
  match sts with
  | [] => 0
  | st :: sts =>
      let '(ok, t') := meter_outcome t st in
      (if ok && is_op take org month st then 1 else 0) + tally take org month t' sts
  end.

Lemma counted_tally limit ok o now org month (c c' : counters) :
  counted limit ok o (month_of now) c c' →
  (∀ l, match o with Consume x | Release x => x = org → limit = Some l end → c org month ≤ l → c' org month ≤ l) ∧
  c org month + (if ok && is_op true org month (MkMeter 0 now o) then 1 else 0)
    ≤ c' org month + (if ok && is_op false org month (MkMeter 0 now o) then 1 else 0).
Proof.
  unfold counted, is_op. cbn [mt_op mt_now]. intros [Hother Hself].
  destruct o as [x|x]; cbv iota in Hother, Hself; cbn [negb andb];
    (destruct (decide ((org, month) = (x, month_of now))) as [[= -> ->]|Hne];
     [rewrite !eqb_refl | rewrite (Hother org month Hne)]).
  - destruct ok; cbn [andb]; [|rewrite Hself; split; [auto | lia]]. destruct Hself as [-> Hlt]. split; [|lia].
    intros l Hl Hle. specialize (Hlt l (Hl eq_refl)). lia.
  - cbn [andb]. rewrite andb_false_r. split; [auto|].
    assert (Hf : (eqb x org && eqb (month_of now) month) = false).
    { apply not_true_iff_false. rewrite andb_true_iff, !eqb_true. intros [-> <-]. by apply Hne. }
    rewrite Hf, andb_false_r. lia.
  - destruct ok; rewrite Hself; cbn [andb]; [|split; [auto | lia]]. destruct (0 <? c x (month_of now)) eqn:Hp; [|split; [auto | lia]].
    split; [intros; lia | lia].
  - cbn [andb]. rewrite andb_false_r. split; [auto|].
    assert (Hf : (eqb x org && eqb (month_of now) month) = false).
    { apply not_true_iff_false. rewrite andb_true_iff, !eqb_true. intros [-> <-]. by apply Hne. }
    rewrite Hf, andb_false_r. lia.
Qed.

Lemma trace_counted t sts org month : metered t →
  metered (meter_trace t sts) ∧
  (∀ l, cap t org = Some l → used t org month ≤ l → used (meter_trace t sts) org month ≤ l) ∧
  used t org month + tally true org month t sts ≤ used (meter_trace t sts) org month + tally false org month t sts.
Proof.
  revert t. induction sts as [|st sts IH]; intros t Ht; [split_and!; [done | done | cbn [tally meter_trace]; lia]|].
  cbn [meter_trace tally]. pose proof (outcome_counted t st Ht) as Hc. destruct (meter_outcome t st) as [ok t'].
  destruct Hc as (Ht' & Hp & Hc). destruct (IH t' Ht') as (Hm & Hcap & Htally). cbn [snd].
  destruct st as [n now o]. cbn [mt_op mt_now] in Hc.
  destruct (counted_tally _ ok o now org month _ _ Hc) as [Hle Hone].
  split_and!; [done | |].
  - intros l Hl Hused. apply Hcap; [unfold cap in *; by rewrite Hp|]. apply Hle; [|done]. by destruct o; intros ->.
  - unfold is_op in *. cbn [mt_op mt_now] in *. lia.
Qed.

(** Metering refines a counter per organization and month: after any sequence of
    requests the counter of a month is within the cap of the organization's plan, and the
    requests served in the month, less those given back, are at most that cap. *)
Theorem monthly_usage_within_plan t sts org month l :
  metered t → cap t org = Some l → used t org month = 0 → 0 ≤ l →
  used (meter_trace t sts) org month ≤ l ∧
  tally true org month t sts ≤ l + tally false org month t sts.
Proof.
  intros Ht Hl Hzero Hpos. destruct (trace_counted t sts org month Ht) as (_ & Hcap & Htally).
  specialize (Hcap l Hl). lia.
Qed.

(** C29. Each request moves the counters as the specification says: a refused one
    leaves every counter alone, a served one takes exactly one unit and only below the
    cap, and a unit given back never takes a counter below zero. *)
Theorem metering_refines_counter t st : metered t →
  let '(ok, t') := meter_outcome t st in
  let org := match mt_op st with Consume org => org | Release org => org end in
  metered t' ∧ (∀ o, plan_of t' o = plan_of t o) ∧
  counted (cap t org) ok (mt_op st) (month_of (mt_now st)) (used t) (used t').
Proof. apply outcome_counted. Qed.
End metering.

(** ** Witnesses *)

Local Existing Instance SocProps.no_services.
Local Existing Instance SocProps.no_ambient.
Local Existing Instance Siem.soc_sinks.
Lemma meter_sinks : SinksRespect same_meter.
Proof. apply Siem.soc_sinks_respect; [apply _ | |]; intros f t; by apply meter_same. Defined.

(** An organization on the free plan, with two requests a month. *)
Definition two_a_month : tables :=
  upd_identity (on_plans (λ _, keyed sp_id [sample_plan (Some 2)])) (account_tables [sample_user 9] [sample_org 50 9] [] []).
Lemma metered_sample : metered two_a_month.
Proof.
  split_and!.
  - intros i p Hp. by apply keyed_lookup in Hp as [Hp _].
  - intros i u Hu. vm_compute in Hu. by destruct i.
  - intros org i j a b Ha. vm_compute in Ha. by destruct i.
  - intros org m d i j a b Ha. vm_compute in Ha. by destruct i.
Qed.
(** Two requests are served, the third is refused; one is given back and a fourth served. *)
Definition four_requests : list meter_step :=
  [MkMeter 0 hour (Consume 50); MkMeter 10 hour (Consume 50); MkMeter 20 hour (Consume 50); MkMeter 30 hour (Release 50);
   MkMeter 40 hour (Consume 50)].
Lemma monthly_usage_within_plan_witness :
  tally true 50 (1970, 1, 1) two_a_month four_requests = 3 ∧ tally false 50 (1970, 1, 1) two_a_month four_requests = 1 ∧
  used (meter_trace two_a_month four_requests) 50 (1970, 1, 1) ≤ 2.
Proof.
  split; [vm_compute; reflexivity|]. split; [vm_compute; reflexivity|].
  refine (proj1 (monthly_usage_within_plan (SinksRespect0 := meter_sinks) two_a_month four_requests 50 (1970, 1, 1) 2
    metered_sample _ _ _)); [vm_compute; reflexivity | vm_compute; reflexivity | lia].
Defined.
Definition one_request : meter_step := MkMeter 0 hour (Consume 50).
Lemma metering_refines_counter_witness :
  (meter_outcome two_a_month one_request).1 = true ∧
  let '(ok, t') := meter_outcome two_a_month one_request in
  let org := match mt_op one_request with Consume org => org | Release org => org end in
  metered t' ∧ (∀ o, plan_of t' o = plan_of two_a_month o) ∧
  counted (cap two_a_month org) ok (mt_op one_request) (month_of (mt_now one_request)) (used two_a_month) (used t').
Proof.
  split; [vm_compute; reflexivity|].
  apply (metering_refines_counter (SinksRespect0 := meter_sinks) two_a_month one_request metered_sample).
Defined.
End PlanProps.
