(* ===== verification/Mfa.v ===== *)
(** Second factors ([backend/app/services/mfa.py]): encrypted TOTP secrets, recovery
    codes that work once, challenges of a sign-in, and locks after failures.

    Fernet, pyotp, the password hash and the drawing of the QR code are library code:
    the codes of a secret, encryption and decryption, and the check of a password are
    parameters; the QR code is left out of the answer. *)
From Stdlib Require Import Ascii.
From S2P Require Import Prelude.
From S2P Require Import PyStr.
From S2P Require Import PyFloat.
From S2P Require Import PyVal.
From S2P Require Import PyDecimal.
From S2P Require Import Models.
From S2P Require Import Store.
From S2P Require Import SecurityEvents.
From S2P Require Import Notifications.

Local Open Scope string_scope.
Local Open Scope Z_scope.

(** [fernet_encrypt] with its key, the draw and the text; [totp_at secret seconds] is the
    code of six digits; [verify_password password hash]. *)
Class AccountServices : Type := {
  ac_hashing :: Hashing;
  fernet_encrypt : string → nat → string → string;
  fernet_decrypt : string → string → option string;
  totp_at : string → Z → string;
  random_base32 : nat → string;
  verify_password : string → string → bool;
  hash_password : nat → string → string
}.

Module Mfa.
Import SecurityEvents Notifications.

Record mfa_settings : Type := MkMfaSettings {
  mfa_encryption_key : string;
  mfa_challenge_expire_minutes : Z;
  mfa_max_attempts : Z;
  mfa_lock_minutes : Z
}.

Definition upd_credential_rows f : tables → tables := upd_identity (on_mfa_credentials f).
Definition upd_recovery_codes f : tables → tables := upd_identity (on_recovery_codes f).
Definition upd_challenges f : tables → tables := upd_identity (on_mfa_challenges f).
Definition mfa_rows (t : tables) : gmap uuid MFACredential := mfa_credentials (identity t).
Definition code_rows (t : tables) : gmap uuid MFARecoveryCode := recovery_codes (identity t).
Definition challenge_rows (t : tables) : gmap uuid MFAChallenge := mfa_challenges (identity t).

Definition set_mfa (enabled pending : option time) (step : option Z) (failed : Z) (locked : option time) (c : MFACredential) :
    MFACredential :=
  MkMFA (mf_user_id c) (mf_encrypted_secret c) enabled pending step failed locked.

Section mfa.
Context `{Entropy} `{SecuritySinks} `{AccountServices}.

Definition token_hash (token : string) : string := sha256_hex token.
Definition encryption_ready (settings : mfa_settings) : result Exc unit :=
  if eqb (mfa_encryption_key settings) "" then Err (MFAError "MFA encryption is not configured") else Ok tt.
Definition _secret (settings : mfa_settings) (c : MFACredential) : result Exc string :=
  _ ← encryption_ready settings;
  match fernet_decrypt (mfa_encryption_key settings) (mf_encrypted_secret c) with
  | Some s => Ok s
  | None => Err (MFAError "MFA credential is unavailable")
  end.

Fixpoint all_digits (s : string) : bool :=
  match s with "" => true | String c s => in_range 48 57 c && all_digits s end.
(** The step of the code within one before and one after the current. *)
Definition _matching_step (secret code : string) (at_ : time) : option Z :=
  if negb (String.length code =? 6)%nat || negb (all_digits code) then None
  else
    let current := at_ / second / 30 in
    find_first (λ step, eqb (totp_at secret (step * 30)) code) [current - 1; current; current + 1].

Definition unused_code (user : uuid) (c : MFARecoveryCode) : bool := eqb (rc_user_id c) user && negb (is_some (rc_used_at c)).
Record mfa_state : Type := MkMfaStatus { ms_enabled : bool; ms_pending : bool; ms_remaining : Z }.
Definition mfa_status (user : uuid) (now : time) (t : tables) : mfa_state :=
  let c := mfa_rows t !! user in
  MkMfaStatus (match c with Some c => is_some (mf_enabled_at c) | None => false end)
    (match c with Some c => match mf_pending_expires_at c with Some e => now <? e | None => false end | None => false end)
    (Z.of_nat (length (select_rows (unused_code user) (code_rows t)))).

(** ** Setup *)

Definition start_setup (user : uuid) (settings : mfa_settings) : DB string :=
  lift_result (encryption_ready settings) ;;
  credential ← query (λ t, mfa_rows t !! user);
  raise_if (match credential with Some c => is_some (mf_enabled_at c) | None => false end) (MFAError "MFA is already enabled") ;;
  n ← gets seed;
  fresh_uuid ;;
  let secret := random_base32 n in
  let encrypted := fernet_encrypt (mfa_encryption_key settings) n secret in
  now ← now_db;
  let c := match credential with
    | Some c => MkMFA user encrypted (mf_enabled_at c) (Some (now + 10 * minute)) None (mf_failed_attempts c) (mf_locked_until c)
    | None => MkMFA user encrypted None (Some (now + 10 * minute)) None 0 None
    end in
  insert_checked (λ _, (String.length encrypted <=? 512)%nat) (upd_credential_rows <[user := c]>) ;;
  commit ;;
  mret secret.

Fixpoint draw_codes (n : nat) : DB (list string) :=
  match n with
  | O => mret []
  | S n => code ← fresh_urlsafe 15; rest ← draw_codes n; mret (code :: rest)
  end.
Definition add_code (user : uuid) (code : string) : DB unit :=
  id ← fresh_uuid;
  insert_checked (λ t, negb (is_some (code_rows t !! id)) &&
      negb (is_some (scalar (λ c, eqb (rc_code_hash c) (token_hash code)) (code_rows t))))
    (upd_recovery_codes <[id := MkRecoveryCode id user (token_hash code) None]>).
Definition _new_recovery_codes (user : uuid) : DB (list string) :=
  write (upd_recovery_codes (filter (λ '(_, c), rc_user_id c ≠ user))) ;;
  codes ← draw_codes 10;
  for_each (add_code user) codes ;;
  mret codes.

Definition mfa_alert (user : uuid) (title message : string) : notification_args :=
  {| na_user_id := user; na_type := SECURITY_ALERT; na_title := title; na_message := message; na_priority := PrioHigh;
     na_organization_id := None; na_related_request_id := None; na_related_agent_id := None;
     na_related_permission_id := None; na_metadata := None; na_deduplication_key := None |}.
Definition account_event (user : uuid) (event_type description severity : string) (commit_ : bool) : DB unit :=
  record_event (event_args event_type (Some user) None None (Some description) severity []) commit_ ;; mret tt.

(** A failure counts, and locks the credential when it is one too many. *)
Definition failed_once (settings : mfa_settings) (now : time) (c : MFACredential) : MFACredential :=
  let failed := mf_failed_attempts c + 1 in
  if mfa_max_attempts settings <=? failed then
    set_mfa (mf_enabled_at c) (mf_pending_expires_at c) (mf_last_used_step c) 0 (Some (now + mfa_lock_minutes settings * minute)) c
  else set_mfa (mf_enabled_at c) (mf_pending_expires_at c) (mf_last_used_step c) failed (mf_locked_until c) c.
Definition locks (settings : mfa_settings) (c : MFACredential) : bool := mfa_max_attempts settings <=? mf_failed_attempts c + 1.
Definition is_locked (c : MFACredential) (now : time) : bool :=
  match mf_locked_until c with Some l => now <? l | None => false end.
Definition save_credential (c : MFACredential) : DB unit := write (upd_credential_rows <[mf_user_id c := c]>).

Definition too_many : Exc := MFAError "Too many MFA attempts. Please try again later".
Definition confirm_setup (user : uuid) (settings : mfa_settings) (code : string) : DB (list string) :=
  credential ← get_or (λ t, mfa_rows t !! user) (MFAError "MFA setup has expired");
  now ← now_db;
  raise_if (is_some (mf_enabled_at credential) ||
    match mf_pending_expires_at credential with Some e => e <=? now | None => true end) (MFAError "MFA setup has expired") ;;
  raise_if (is_locked credential now) too_many ;;
  secret ← lift_result (_secret settings credential);
  match _matching_step secret code now with
  | None =>
      account_event user "mfa_failed" "Invalid MFA setup attempt" "warning" false ;;
      save_credential (failed_once settings now credential) ;;
      commit ;;
      throw (MFAError "Invalid authenticator code")
  | Some step =>
      save_credential (set_mfa (Some now) None (Some step) 0 None credential) ;;
      codes ← _new_recovery_codes user;
      account_event user "mfa_enabled" "Two-factor authentication enabled" "info" false ;;
      create_notification (mfa_alert user "Two-Factor Authentication Enabled" "An authenticator was added to your account.") ;;
      commit ;;
      mret codes
  end.

(** ** Use *)

Definition create_challenge (user : uuid) (settings : mfa_settings) : DB string :=
  nonce ← fresh_urlsafe 32;
  id ← fresh_uuid;
  now ← now_db;
  let c := MkChallenge id user (token_hash nonce) 0 (now + mfa_challenge_expire_minutes settings * minute) None in
  insert_checked (λ t, negb (is_some (challenge_rows t !! id)) &&
      negb (is_some (scalar (λ c', eqb (ch_token_hash c') (ch_token_hash c)) (challenge_rows t))))
    (upd_challenges <[id := c]>) ;;
  commit ;;
  mret nonce.

Definition recovery_match (user : uuid) (code : string) (c : MFARecoveryCode) : bool :=
  unused_code user c && eqb (rc_code_hash c) (token_hash code).
Definition use_code (now : time) (c : MFARecoveryCode) : MFARecoveryCode :=
  MkRecoveryCode (rc_id c) (rc_user_id c) (rc_code_hash c) (Some now).
(** The step of a code that is newer than the last one used. *)
Definition new_step (secret code : string) (now : time) (c : MFACredential) : option Z :=
  match _matching_step secret code now with
  | Some step => if match mf_last_used_step c with Some l => l <? step | None => true end then Some step else None
  | None => None
  end.

(** [true] when a recovery code was spent. *)
Definition _verify_factor (credential : MFACredential) (settings : mfa_settings) (code : string) (allow_recovery : bool) : DB bool :=
  now ← now_db;
  let user := mf_user_id credential in
  raise_if (is_locked credential now) too_many ;;
  secret ← lift_result (_secret settings credential);
  match new_step secret code now credential with
  | Some step =>
      save_credential (set_mfa (mf_enabled_at credential) (mf_pending_expires_at credential) (Some step) 0 None credential) ;;
      mret false
  | None =>
      candidate ← query (λ t, if allow_recovery && (String.length code <=? 64)%nat
        then scalar (recovery_match user code) (code_rows t) else None);
      match candidate with
      | Some c =>
          write (upd_recovery_codes <[rc_id c := use_code now c]>) ;;
          save_credential (set_mfa (mf_enabled_at credential) (mf_pending_expires_at credential) (mf_last_used_step credential)
            0 None credential) ;;
          account_event user "recovery_code_used" "MFA recovery code used" "warning" false ;;
          create_notification (mfa_alert user "Recovery Code Used" "A recovery code was used to access your account.") ;;
          mret true
      | None =>
          account_event user "mfa_failed" "Invalid MFA attempt" "warning" false ;;
          save_credential (failed_once settings now credential) ;;
          (if locks settings credential then
             create_notification (mfa_alert user "MFA Temporarily Locked"
               "Multiple failed authenticator attempts temporarily blocked sign-in.") ;; mret tt
           else mret tt) ;;
          commit ;;
          throw (MFAError "Invalid or already used MFA code")
      end
  end.

Definition set_challenge (attempts : Z) (used : option time) (c : MFAChallenge) : MFAChallenge :=
  MkChallenge (ch_id c) (ch_user_id c) (ch_token_hash c) attempts (ch_expires_at c) used.
Definition challenge_open (settings : mfa_settings) (now : time) (c : MFAChallenge) : bool :=
  negb (is_some (ch_used_at c)) && (now <? ch_expires_at c) && (ch_attempts c <? mfa_max_attempts settings).
Definition challenge_invalid : Exc := MFAError "MFA challenge expired or invalid".
Definition enabled_credential (user : uuid) (t : tables) : option MFACredential :=
  match mfa_rows t !! user with Some c => if is_some (mf_enabled_at c) then Some c else None | None => None end.

Definition verify_challenge (challenge_token code : string) (settings : mfa_settings) : DB (User * bool) :=
  now ← now_db;
  challenge ← get_or (λ t, scalar (λ c, eqb (ch_token_hash c) (token_hash challenge_token)) (challenge_rows t)) challenge_invalid;
  raise_if (negb (challenge_open settings now challenge)) challenge_invalid ;;
  user ← get_or (λ t, match users (identity t) !! ch_user_id challenge with
    | Some u => if us_is_active u then Some u else None | None => None end) challenge_invalid;
  credential ← get_or (enabled_credential (ch_user_id challenge)) challenge_invalid;
  let attempts := ch_attempts challenge + 1 in
  write (upd_challenges <[ch_id challenge := set_challenge attempts None challenge]>) ;;
  used_recovery ← try_except (_verify_factor credential settings code true)
    (λ e, match e with MFAError m => commit ;; throw (MFAError m) | e => throw e end);
  write (upd_challenges <[ch_id challenge := set_challenge attempts (Some now) challenge]>) ;;
  commit ;;
  mret (user, used_recovery).

Definition require_factor (user : uuid) (code : string) (settings : mfa_settings) : DB unit :=
  credential ← get_or (enabled_credential user) (MFAError "MFA is not enabled");
  _verify_factor credential settings code true ;;
  commit.

Definition regenerate_recovery_codes (user : uuid) (code : string) (settings : mfa_settings) : DB (list string) :=
  require_factor user code settings ;;
  codes ← _new_recovery_codes user;
  account_event user "recovery_codes_regenerated" "MFA recovery codes regenerated" "info" false ;;
  commit ;;
  mret codes.

(** An organization of the user, as a member or as its owner, requires a second factor. *)
Definition mfa_demanded (user : uuid) (t : tables) : bool :=
  existsb (λ p, op_require_mfa p &&
    (existsb (λ m, eqb (om_organization_id m) (op_organization_id p) && eqb (om_user_id m) user && eqb (om_status m) MemActive)
       (rows (members (identity t))) ||
     match organizations (identity t) !! op_organization_id p with Some o => eqb (og_owner_id o) user | None => false end))
    (rows (org_policies t)).
Definition disable_mfa (user : User) (password code : string) (settings : mfa_settings) : DB unit :=
  raise_if (negb (verify_password password (us_hashed_password user))) (MFAError "Strong verification failed") ;;
  demanded ← query (mfa_demanded (us_id user));
  raise_if demanded (MFAError "An organization requires MFA") ;;
  require_factor (us_id user) code settings ;;
  write (upd_recovery_codes (filter (λ '(_, c), rc_user_id c ≠ us_id user))) ;;
  write (upd_credential_rows (delete (us_id user))) ;;
  account_event (us_id user) "mfa_disabled" "Two-factor authentication disabled" "warning" false ;;
  create_notification (mfa_alert (us_id user) "Two-Factor Authentication Disabled"
    "Two-factor authentication was removed from your account.") ;;
  commit.
End mfa.
End Mfa.
