(* ===== verification/MfaProps.v ===== *)
(** What the second factor guarantees ([Mfa]): the same proof, a time step or a recovery
    code, is accepted at most once. *)
From Stdlib Require Import Ascii.
From S2P Require Import Prelude.
From S2P Require Import PyStr.
From S2P Require Import PyFloat.
From S2P Require Import PyVal.
From S2P Require Import PyDecimal.
From S2P Require Import Models.
From S2P Require Import PyCodec.
From S2P Require Import Store.
From S2P Require Import Samples.
From S2P Require Import SecurityEvents.
From S2P Require Import Soc.
From S2P Require Import SocProps.
From S2P Require Import Workspace.
From S2P Require Import Notifications.
From S2P Require Import Frames.
From S2P Require Import Mfa.

Local Open Scope string_scope.
Local Open Scope Z_scope.

Module MfaProps.
Import SecurityEvents Workspace Notifications Frames Mfa.

(** What a code proves: that it is the code of a time step, or a stored recovery code. *)
Inductive evidence : Type := ByStep (step : Z) | ByCode (id : uuid).
Definition spent (u : uuid) (ev : evidence) (t : tables) : Prop :=
  match ev with
  | ByStep n => ∃ c l, mfa_rows t !! u = Some c ∧ mf_last_used_step c = Some l ∧ n ≤ l
  | ByCode i => ∃ c, code_rows t !! i = Some c ∧ rc_used_at c ≠ None
  end.
Definition credentials_keyed (t : tables) : Prop := ∀ u c, mfa_rows t !! u = Some c → mf_user_id c = u.
Definition mfa_keyed (t : tables) : Prop :=
  credentials_keyed t ∧ (∀ i c, code_rows t !! i = Some c → rc_id c = i) ∧
  ∀ u x, users (identity t) !! u = Some x → us_id x = u.
(** Rows stay under their identifiers, and what is spent stays spent. *)
Definition factor_step (t t' : tables) : Prop := mfa_keyed t → mfa_keyed t' ∧ ∀ u ev, spent u ev t → spent u ev t'.
#[export] Instance factor_step_preorder : PreOrder factor_step.
Proof.
  split; [by intros t Ht|]. intros t1 t2 t3 H12 H23 H1. destruct (H12 H1) as [H2 S12]. destruct (H23 H2) as [H3 S23]. auto.
Qed.
Lemma factor_same t t' : mfa_rows t' = mfa_rows t → code_rows t' = code_rows t → users (identity t') = users (identity t) →
  factor_step t t'.
Proof. intros Hm Hc Hu Ht. unfold mfa_keyed, credentials_keyed, spent in *. rewrite Hm, Hc, Hu. split; [done|]. by intros u []. Qed.

Definition later (a b : option Z) : Prop := ∀ l, a = Some l → ∃ l', b = Some l' ∧ l ≤ l'.
Lemma factor_put t c c' : (mfa_keyed t → mfa_rows t !! mf_user_id c' = Some c) → later (mf_last_used_step c) (mf_last_used_step c') →
  factor_step t (upd_credential_rows <[mf_user_id c' := c']> t).
Proof.
  intros Hput Hl Ht. specialize (Hput Ht). destruct Ht as (Hm & Hc & Hus).
  assert (Hrow : ∀ u, mfa_rows (upd_credential_rows <[mf_user_id c' := c']> t) !! u = <[mf_user_id c' := c']> (mfa_rows t) !! u) by done.
  split.
  - split; [|by split]. intros u x. rewrite Hrow, lookup_insert_Some. intros [[<- <-]|[_ Hu]]; [done | by apply Hm].
  - intros u [n|i]; [|done]. intros (x & l & Hx & Hxl & Hn). destruct (decide (u = mf_user_id c')) as [->|Hne].
    + rewrite Hput in Hx. injection Hx as <-. destruct (Hl l Hxl) as (l' & Hl' & Hle).
      exists c', l'. rewrite Hrow, lookup_insert_eq. split_and!; [done | done | lia].
    + exists x, l. by rewrite Hrow, lookup_insert_ne.
Qed.
Lemma factor_use t c now : factor_step t (upd_recovery_codes <[rc_id c := use_code now c]> t).
Proof.
  intros (Hm & Hc & Hus). assert (Hrow : ∀ i, code_rows (upd_recovery_codes <[rc_id c := use_code now c]> t) !! i =
    <[rc_id c := use_code now c]> (code_rows t) !! i) by done. split.
  - split; [done|]. split; [|done]. intros i x. rewrite Hrow, lookup_insert_Some. intros [[<- <-]|[_ Hi]]; [done | by apply Hc].
  - intros u [n|i]; [done|]. intros (x & Hx & Hused). destruct (decide (i = rc_id c)) as [->|Hne].
    + exists (use_code now c). by rewrite Hrow, lookup_insert_eq.
    + exists x. by rewrite Hrow, lookup_insert_ne.
Qed.

Section factors.
Context `{Entropy} `{SecuritySinks} `{!SecuritySinksLaws} `{AccountServices}.
Context `{!SinksRespect factor_step} `{!SinksRespect (same_view identity)}.
Lemma factors_ignore : Ignores factor_step.
Proof. split; [apply _ | intros; by apply factor_same ..]. Qed.
Lemma identity_ignored : Ignores (same_view identity).
Proof. by split. Qed.
Local Existing Instance factors_ignore.
Local Existing Instance identity_ignored.

Lemma later_refl a : later a a.
Proof. intros l ->. by exists l. Qed.
Lemma new_step_later secret code now c n : new_step secret code now c = Some n →
  _matching_step secret code now = Some n ∧ later (mf_last_used_step c) (Some n) ∧ ∀ l, mf_last_used_step c = Some l → l < n.
Proof.
  unfold new_step. destruct (_matching_step secret code now) as [m|]; [|done]. unfold later.
  destruct (mf_last_used_step c) as [l|].
  - destruct (l <? m) eqn:Hl; intros [= ->]. apply Z.ltb_lt in Hl. split_and!; [done | intros ? [= <-]; exists n; split; [done | lia] | by intros ? [= <-]].
  - intros [= ->]. by split_and!.
Qed.

Lemma account_event_step u ty d sev b : respects (evolves factor_step) (account_event u ty d sev b).
Proof. unfold account_event. walk. Qed.
Lemma account_event_quiet u ty d sev : respects (moves (same_view identity)) (account_event u ty d sev false).
Proof. unfold account_event. apply respects_bind; [apply _ | apply record_event_moves; [apply _ .. | reflexivity] | intros; walk]. Qed.

(** ** Checking a factor *)

Lemma save_step (c c' : MFACredential) s {A} (k : unit → DB A) :
  (credentials_keyed (cur s) → mfa_rows (cur s) !! mf_user_id c = Some c) → mf_user_id c' = mf_user_id c → later (mf_last_used_step c) (mf_last_used_step c') →
  respects (evolves factor_step) (k tt) → evolves factor_step s ((save_credential c' ≫= k) s).2.
Proof.
  intros Hc Hu Hl Hk. apply evolves_write_here; [apply _ | | done]. apply (factor_put _ c); [intros (Hk' & _); rewrite Hu; by apply Hc | done].
Qed.

Lemma factor_evolves c settings code allow s : (credentials_keyed (cur s) → mfa_rows (cur s) !! mf_user_id c = Some c) →
  evolves factor_step s (_verify_factor c settings code allow s).2.
Proof.
  intros Hc. unfold _verify_factor. rewrite bind_now. cbv zeta. past Hlock. rewrite bind_run. unfold lift_result.
  destruct (_secret settings c) as [secret|e]; [|done].
  destruct (new_step secret code (db_now s) c) as [n|] eqn:Hn.
  - apply new_step_later in Hn as (_ & Hl & _). apply (save_step c); [exact Hc | reflexivity | exact Hl | walk].
  - rewrite bind_query. destruct (if allow && _ then _ else None) as [r|].
    + apply evolves_write_then; [apply _ | apply factor_use | intros Hd].
      apply (save_step c); [exact Hc | reflexivity | apply later_refl | walk; apply account_event_step].
    + intros Hs. pose proof (account_event_quiet (mf_user_id c) "mfa_failed" "Invalid MFA attempt" "warning" s) as Hq.
      pose proof (account_event_step (mf_user_id c) "mfa_failed" "Invalid MFA attempt" "warning" false s Hs) as He.
      rewrite bind_run. destruct (account_event _ _ _ _ _ s) as [[[]|e] s1]; [|exact He]. simpl in Hq, He.
      destruct (dead s1) eqn:Hd1.
      { unfold save_credential, write. rewrite bind_run. by rewrite Hd1. }
      destruct Hq as (_ & _ & Hq). destruct (Hq Hd1) as [_ Hsame]. destruct He as [He1 He2].
      assert (Hc1 : credentials_keyed (cur s1) → mfa_rows (cur s1) !! mf_user_id c = Some c)
        by (unfold credentials_keyed, mfa_rows in *; by rewrite Hsame).
      destruct (save_step c (failed_once settings (db_now s) c) s1 (λ _,
        (if locks settings c then create_notification (mfa_alert (mf_user_id c) "MFA Temporarily Locked"
           "Multiple failed authenticator attempts temporarily blocked sign-in.") ;; mret tt else mret tt) ;; commit ;;
        throw (A:=bool) (MFAError "Invalid or already used MFA code")) Hc1) as [He3 He4]; [| | walk | done |].
      * unfold failed_once. by destruct (_ <=? _).
      * unfold failed_once. destruct (_ <=? _); apply later_refl.
      * split; [etrans; [exact He1 | exact He3] | exact He4].
Qed.

Definition proves (settings : mfa_settings) (u : uuid) (code : string) (now : time) (ev : evidence) (t : tables) : Prop :=
  match ev with
  | ByStep n => ∃ c secret, mfa_rows t !! u = Some c ∧ _secret settings c = Ok secret ∧ _matching_step secret code now = Some n
  | ByCode i => ∃ c, code_rows t !! i = Some c ∧ rc_user_id c = u ∧ rc_code_hash c = token_hash code
  end.
(** Accepted: proved before, not spent before, spent after. *)
Definition accepts (settings : mfa_settings) (u : uuid) (code : string) (now : time) (t t' : tables) : Prop :=
  ∃ ev, proves settings u code now ev t ∧ ¬ spent u ev t ∧ spent u ev t'.

Lemma spent_view t t' u ev : identity t' = identity t → spent u ev t → spent u ev t'.
Proof. intros He. unfold spent, mfa_rows, code_rows. by rewrite He. Qed.

Lemma factor_accepted c settings code allow s b s' :
  dead s = false → mfa_keyed (cur s) → mfa_rows (cur s) !! mf_user_id c = Some c →
  _verify_factor c settings code allow s = (Ok b, s') →
  committed s' = committed s ∧ (dead s' = false → accepts settings (mf_user_id c) code (db_now s) (cur s) (cur s')).
Proof.
  intros Hd (Hkm & Hkc & _) Hc. unfold _verify_factor. rewrite bind_now. cbv zeta. pass Hlock. rewrite bind_run. unfold lift_result.
  destruct (_secret settings c) as [secret|e] eqn:Hsec; [|done].
  destruct (new_step secret code (db_now s) c) as [n|] eqn:Hn.
  - unfold save_credential. rewrite (bind_write _ _ _ Hd). intros [= <- <-]. split; [done|]. intros _.
    apply new_step_later in Hn as (Hm & _ & Hlt). exists (ByStep n). split_and!.
    + by exists c, secret.
    + intros (c0 & l & Hc0 & Hl & Hle). rewrite Hc in Hc0. injection Hc0 as <-. specialize (Hlt l Hl). lia.
    + eexists _, n. split; [apply lookup_insert_eq|]. split; [done | lia].
  - rewrite bind_query. destruct (if allow && _ then _ else None) as [r|] eqn:Hr.
    + assert (Hrow : ∃ i, code_rows (cur s) !! i = Some r ∧ recovery_match (mf_user_id c) code r = true).
      { destruct (allow && _); [|done]. apply scalar_Some in Hr as (i & Hi & Hp). by exists i. }
      destruct Hrow as (i & Hi & Hp). unfold recovery_match, unused_code in Hp. reflect. destruct Hp as [[Hu Hun] Hh].
      pose proof (Hkc i r Hi) as Hid. subst i.
      rewrite (bind_write _ _ _ Hd). unfold save_credential. rewrite bind_write by exact Hd. set (s2 := set_cur _ _). intros Hrun.
      assert (Hq : moves (same_view identity) s2 s').
      { change s' with (snd (Ok (E:=Exc) b, s')). rewrite <- Hrun.
        assert (Hrest : respects (moves (same_view identity)) (account_event (mf_user_id c) "recovery_code_used" "MFA recovery code used" "warning" false ;;
          create_notification (mfa_alert (mf_user_id c) "Recovery Code Used" "A recovery code was used to access your account.") ;; mret true)).
        { apply respects_bind; [apply _ | apply account_event_quiet | intros _]. apply respects_bind; [apply _ | | intros; walk].
          apply unscoped_alert_moves; [apply _ .. | reflexivity]. }
        exact (Hrest s2). }
      destruct Hq as (Hcom & _ & Hq). split; [by rewrite Hcom|]. intros Hd'. destruct (Hq Hd') as [_ Hsame].
      exists (ByCode (rc_id r)). split_and!.
      * exists r. split_and!; [done | done | done].
      * intros (r0 & Hr0 & Hne). rewrite Hi in Hr0. injection Hr0 as <-. done.
      * apply (spent_view (cur s2)); [exact Hsame|]. exists (use_code (db_now s) r). split; [apply lookup_insert_eq | discriminate].
    + rewrite bind_run. destruct (account_event _ _ _ _ _ s) as [[[]|e] s1]; [|done]. rewrite bind_run.
      destruct (save_credential _ s1) as [[[]|e] s2]; [|done]. rewrite bind_run.
      lazymatch goal with |- context [match ?m s2 with _ => _ end] => destruct (m s2) as [[[]|e] s3] end; [|done]. rewrite bind_run.
      by destruct (commit s3) as [[[]|e] s4].
Qed.

(** ** Requests *)

Inductive factor_op : Type := VerifyChallenge (token code : string) | RequireFactor (user : uuid) (code : string).
Definition op_code (o : factor_op) : string := match o with VerifyChallenge _ code => code | RequireFactor _ code => code end.
(** The user a request was accepted for. *)
Definition perform_factor (settings : mfa_settings) (o : factor_op) : DB uuid :=
  match o with
  | VerifyChallenge token code => r ← verify_challenge token code settings; mret (us_id r.1)
  | RequireFactor user code => require_factor user code settings ;; mret user
  end.
Record factor_request : Type := MkFactorRequest { fr_draws : nat; fr_now : time; fr_op : factor_op }.
Definition factor_outcome (settings : mfa_settings) (t : tables) (st : factor_request) : option uuid * tables :=
  let '(r, t') := run_request (perform_factor settings (fr_op st)) t (fr_draws st) (fr_now st) in
  (match r with Ok u => Some u | Err _ => None end, t').
Fixpoint factor_trace (settings : mfa_settings) (t : tables) (sts : list factor_request) : tables :=
  match sts with [] => t | st :: sts => factor_trace settings (factor_outcome settings t st).2 sts end.

Lemma enabled_row user t c : enabled_credential user t = Some c → mfa_rows t !! user = Some c.
Proof. unfold enabled_credential. destruct (mfa_rows t !! user) as [x|]; [|done]. destruct (is_some _); [|done]. by intros [= <-]. Qed.

Lemma factor_op_step settings o : respects (evolves factor_step) (perform_factor settings o).
Proof.
  assert (Hkeep : ∀ c t user, enabled_credential user t = Some c → credentials_keyed t → mfa_rows t !! mf_user_id c = Some c).
  { intros c t user Hc%enabled_row Hm. by rewrite (Hm _ c Hc). }
  intros s. destruct o as [token code|user code]; cbn [perform_factor]; (apply evolves_then; [apply _ | | intros; walk]).
  - unfold verify_challenge. rewrite bind_now, bind_get_or. destruct (scalar _ _) as [ch|]; [|done].
    past Hopen. rewrite bind_get_or. destruct (match users _ !! _ with Some u => _ | None => None end) as [u|]; [|done].
    rewrite bind_get_or. destruct (enabled_credential _ _) as [c|] eqn:Hc; [|done].
    cbv zeta. apply evolves_write_then; [apply _ | by apply factor_same | intros Hd].
    apply evolves_then; [apply _ | | intros; walk; (apply evolves_write; [apply _ | intros; by apply factor_same])].
    lazymatch goal with |- context [set_cur ?f s] => pose proof (factor_evolves c settings code true (set_cur f s)) as Hf end.
    unfold try_except. destruct (_verify_factor _ _ _ _ _) as [[b|e] s1]; cbn [snd] in *; [apply Hf; by eapply Hkeep|].
    etrans; [apply Hf; by eapply Hkeep|]. destruct e; try reflexivity.
    apply evolves_then; [apply _ | apply evolves_commit; apply _ | intros; walk].
  - unfold require_factor. rewrite bind_get_or. destruct (enabled_credential _ _) as [c|] eqn:Hc; [|done].
    apply evolves_then; [apply _ | | intros; walk]. apply factor_evolves. by eapply Hkeep.
Qed.
Lemma outcome_step settings t st : factor_step t (factor_outcome settings t st).2.
Proof.
  unfold factor_outcome. pose proof (evolves_run factor_step (perform_factor settings (fr_op st)) t (fr_draws st) (fr_now st)
    (factor_op_step settings (fr_op st))) as Hs. by destruct (run_request _ _ _ _).
Qed.
Lemma trace_step settings t sts : factor_step t (factor_trace settings t sts).
Proof. revert t. induction sts as [|st sts IH]; intros t; [reflexivity|]. simpl. etrans; [apply outcome_step | apply IH]. Qed.

Lemma accepts_view settings u code now t1 t1' t2 t2' : mfa_rows t1 = mfa_rows t1' → code_rows t1 = code_rows t1' →
  mfa_rows t2 = mfa_rows t2' → code_rows t2 = code_rows t2' → accepts settings u code now t1 t2 → accepts settings u code now t1' t2'.
Proof. unfold accepts, proves, spent. by intros -> -> -> ->. Qed.

Lemma op_accepts settings o u s s' : dead s = false → mfa_keyed (cur s) → perform_factor settings o s = (Ok u, s') →
  accepts settings u (op_code o) (db_now s) (cur s) (committed s').
Proof.
  intros Hd Hkey. pose proof Hkey as (Hkm & _ & Hku). destruct o as [token code|user code]; cbn [perform_factor op_code]; rewrite bind_run.
  - unfold verify_challenge. rewrite bind_now, bind_get_or. destruct (scalar _ _) as [ch|]; [|done].
    rewrite bind_raise_if. destruct (negb (challenge_open _ _ _)); [done|]. rewrite bind_get_or.
    destruct (match users _ !! _ with Some u => _ | None => None end) as [us|] eqn:Hus; [|done].
    assert (Huid : us_id us = ch_user_id ch).
    { destruct (users _ !! ch_user_id ch) as [u'|] eqn:Hu'; [|done]. destruct (us_is_active u'); [|done]. injection Hus as <-. by apply Hku. }
    rewrite bind_get_or. destruct (enabled_credential _ _) as [c|] eqn:Hc; [|done]. apply enabled_row in Hc.
    cbv zeta. rewrite (bind_write _ _ _ Hd). set (s1 := set_cur _ s). rewrite bind_run. unfold try_except.
    destruct (_verify_factor c settings code true s1) as [[b|e] s2] eqn:Hf.
    2: { destruct e; try done. rewrite bind_run. by destruct (commit s2) as [[[]|?] ?]. }
    pose proof (Hkm _ _ Hc) as Hid. pose proof Hc as Hc'. rewrite <- Hid in Hc'.
    destruct (factor_accepted c settings code true s1 b s2 Hd Hkey Hc' Hf) as [_ Hacc].
    destruct (dead s2) eqn:Hd2; [unfold write; rewrite bind_run, Hd2; done|].
    rewrite (bind_write _ _ _ Hd2). unfold commit. rewrite bind_run. cbn [dead set_cur]. rewrite Hd2. cbn. intros [= <- <-].
    rewrite Huid, <- Hid. cbn. specialize (Hacc eq_refl). by apply (accepts_view _ _ _ _ (cur s1) _ (cur s2)).
  - unfold require_factor. rewrite bind_get_or. destruct (enabled_credential _ _) as [c|] eqn:Hc; [|done]. apply enabled_row in Hc.
    pose proof (Hkm _ _ Hc) as Hid. pose proof Hc as Hc'. rewrite <- Hid in Hc'. rewrite bind_run.
    destruct (_verify_factor c settings code true s) as [[b|e] s2] eqn:Hf; [|done].
    destruct (factor_accepted c settings code true s b s2 Hd Hkey Hc' Hf) as [_ Hacc].
    unfold commit. destruct (dead s2) eqn:Hd2; [done|]. intros [= <- <-]. rewrite <- Hid. cbn. by apply Hacc.
Qed.
Lemma outcome_accepts settings t st u : mfa_keyed t → (factor_outcome settings t st).1 = Some u →
  accepts settings u (op_code (fr_op st)) (fr_now st) t (factor_outcome settings t st).2.
Proof.
  intros Hkey. unfold factor_outcome, run_request.
  destruct (perform_factor settings (fr_op st) (open_session t (fr_draws st) (fr_now st))) as [[x|e] s'] eqn:Hrun; [|done].
  cbn. intros [= <-]. exact (op_accepts settings (fr_op st) x (open_session t (fr_draws st) (fr_now st)) s' eq_refl Hkey Hrun).
Qed.

End factors.

(** ** Witnesses *)

Local Existing Instance SocProps.no_services.
Local Existing Instance SocProps.no_ambient.
Local Existing Instance Siem.soc_sinks.
Local Existing Instance Siem.soc_sinks_laws.
Local Instance no_ambient_laws : AmbientLaws.
Proof. by split. Qed.
Lemma factor_sinks : SinksRespect factor_step ∧ SinksRespect (same_view identity).
Proof.
  split; (apply Siem.soc_sinks_respect; [apply _ | |]); intros f t; first [by apply factor_same | done].
Defined.

(** A toy authenticator, whose code is the step in six digits. *)
Definition toy_accounts : AccountServices :=
  {| fernet_encrypt k n s := s; fernet_decrypt k s := Some s;
     totp_at secret at_ := let s := str_of_Z (at_ / 30) in times_of (6 - String.length s) "0" +:+ s;
     random_base32 n := "base32"; verify_password p h := eqb p h; hash_password n p := p; ac_hashing := plain_hashing |}.
Local Existing Instance toy_accounts.
Definition toy_settings : mfa_settings := MkMfaSettings "key" 5 10 5.
Definition mfa_tables : tables :=
  upd_credential_rows (λ _, keyed mf_user_id [MkMFA 9 "secret" (Some 0) None (Some 100) 0 None])
    (upd_recovery_codes (λ _, keyed rc_id [MkRecoveryCode 400 9 "recovery" None]) (account_tables [sample_user 9] [] [] [])).
(** A code at step 120, then the recovery code, then either of them again. *)
Definition factor_at (n : nat) (now : time) (code : string) : factor_request := MkFactorRequest n now (RequireFactor 9 code).
Definition two_factors : list factor_request := [factor_at 0 hour "000120"; factor_at 10 (hour + second) "recovery"].
Lemma mfa_keyed_sample : mfa_keyed mfa_tables.
Proof.
  split_and!.
  - intros u c Hc. by apply keyed_lookup in Hc as [Hc _].
  - intros i c Hc. by apply keyed_lookup in Hc as [Hc _].
  - intros i x Hx. by apply keyed_lookup in Hx as [Hx _].
Qed.
End MfaProps.
