(* ===== verification/Auth.v ===== *)
(** Accounts and sessions: [backend/app/services/auth.py] (registration, passwords and
    locks), [services/sessions.py], [core/security.py], the bearer check of
    [api/dependencies.py], and the handlers of [api/auth.py] and
    [api/account_security.py].

    Library code is a parameter: the password hash ([Mfa]), and [jwt.encode] and
    [jwt.decode], which checks signature, issuer, audience, lifetime and the presence of
    the required claims.  The answers of the rate limiters are arguments. *)
From Stdlib Require Import Ascii.
From S2P Require Import Prelude.
From S2P Require Import PyStr.
From S2P Require Import PyFloat.
From S2P Require Import PyVal.
From S2P Require Import PyDecimal.
From S2P Require Import Models.
From S2P Require Import PyCodec.
From S2P Require Import PyNet.
From S2P Require Import Store.
From S2P Require Import SecurityEvents.
From S2P Require Import Workspace.
From S2P Require Import Signing.
From S2P Require Import Notifications.
From S2P Require Import Mfa.

Local Open Scope string_scope.
Local Open Scope Z_scope.

(** [jwt_decode token key issuer audience now]: the payload, or [None] for any
    [InvalidTokenError]. *)
Class TokenServices : Type := {
  jwt_hmac :: Hmac;
  jwt_encode : list (string * pyval) → string → string;
  jwt_decode : string → string → string → string → time → option (list (string * pyval))
}.

Module Auth.
Import SecurityEvents Workspace Notifications Mfa.

Record auth_settings : Type := MkAuthSettings {
  au_app_env : string;
  au_jwt_secret_key : string;
  au_jwt_access_token_expire_minutes : Z;
  au_jwt_issuer : string;
  au_jwt_audience : string;
  au_account_lock_attempts : Z;
  au_account_lock_minutes : Z;
  au_mfa : mfa_settings
}.

Definition upd_users f : tables → tables := upd_identity (on_users f).
Definition user_table (t : tables) : gmap uuid User := users (identity t).
Definition session_table (t : tables) : gmap uuid AuthSession := auth_sessions (identity t).

Definition set_user (password : string) (failed : Z) (locked : option time) (u : User) : User :=
  MkUser (us_id u) (us_created_at u) (us_email u) password (us_full_name u) (us_is_active u) failed locked.
Definition set_session (mfa step_up : option time) (active : time) (revoked : option time) (s : AuthSession) : AuthSession :=
  MkAuthSession (as_id s) (as_user_id s) (as_token_hash s) (as_auth_method s) mfa step_up (as_device_type s)
    (as_user_agent_summary s) (as_ip_hash s) (as_created_at s) active (as_expires_at s) revoked.

Section auth.
Context `{Entropy} `{SecuritySinks} `{AccountServices} `{TokenServices}.

(** ** Registration and passwords *)

Definition find_user_by_email (email : string) (t : tables) : option User :=
  scalar (λ u, eqb (py_lower (us_email u)) (py_lower email)) (user_table t).
Definition register_user (email full_name password : string) : DB User :=
  existing ← query (find_user_by_email email);
  raise_if (is_some existing) EmailAlreadyRegistered ;;
  n ← gets seed;
  id ← fresh_uuid;
  now ← now_db;
  let user := MkUser id now email (hash_password n password) full_name true 0 None in
  insert_checked (λ t, negb (is_some (user_table t !! id)) && negb (is_some (find_user_by_email email t)) &&
    fits 320 email && fits 200 full_name) (upd_users <[id := user]>) ;;
  commit ;;
  mret user.

Definition user_locked (u : User) (now : time) : bool := match us_locked_until u with Some l => now <? l | None => false end.
Definition lock_notice (user : uuid) (now : time) : notification_args :=
  {| na_user_id := user; na_type := SECURITY_ALERT; na_title := "Account Temporarily Locked";
     na_message := "Your account was temporarily locked after repeated failed sign-in attempts.";
     na_priority := PrioCritical; na_organization_id := None; na_related_request_id := None; na_related_agent_id := None;
     na_related_permission_id := None; na_metadata := None;
     na_deduplication_key := Some ("account-lock:" +:+ uuid_str user +:+ ":" +:+ str_of_Z (now / second / 60)) |}.

(** What a wrong password does to an account that is not locked. *)
Definition failed_login (settings : auth_settings) (now : time) (u : User) : DB unit :=
  account_event (us_id u) "login_failed" "Invalid password" "warning" false ;;
  let failed := us_failed_login_attempts u + 1 in
  (if au_account_lock_attempts settings <=? failed then
     write (upd_users <[us_id u := set_user (us_hashed_password u) 0 (Some (now + au_account_lock_minutes settings * minute)) u]>) ;;
     create_notification (lock_notice (us_id u) now) ;; mret tt
   else write (upd_users <[us_id u := set_user (us_hashed_password u) failed (us_locked_until u) u]>)) ;;
  commit.

(** An unknown address still checks a password, against a hash nobody has. *)
Definition authenticate_user (email password : string) (settings : auth_settings) : DB User :=
  found ← query (find_user_by_email email);
  now ← now_db;
  match found with
  | None => throw InvalidCredentials
  | Some u =>
      let locked := user_locked u now in
      if negb (verify_password password (us_hashed_password u)) || negb (us_is_active u) || locked then
        (if us_is_active u && negb locked then failed_login settings now u else mret tt) ;;
        throw InvalidCredentials
      else if negb (us_failed_login_attempts u =? 0) || is_some (us_locked_until u) then
        let u := set_user (us_hashed_password u) 0 None u in
        write (upd_users <[us_id u := u]>) ;;
        commit ;;
        mret u
      else mret u
  end.

(** ** Tokens *)

Definition access_claims (user : uuid) (settings : auth_settings) (now : time) (session : option string) : list (string * pyval) :=
  ([("sub", VStr (uuid_str user)); ("iat", VInt (now / second));
    ("exp", VInt ((now + au_jwt_access_token_expire_minutes settings * minute) / second));
    ("iss", VStr (au_jwt_issuer settings)); ("aud", VStr (au_jwt_audience settings)); ("token_type", VStr "access")] ++
   match session with Some s => [("jti", VStr s)] | None => [] end)%list.
Definition create_access_token (user : uuid) (settings : auth_settings) (now : time) (session : option string) : result Exc string :=
  if eqb (au_jwt_secret_key settings) "" then Err (PyError ValueError)
  else Ok (jwt_encode (access_claims user settings now session) (au_jwt_secret_key settings)).

Definition is_int (v : pyval) : bool := match v with VInt _ => true | _ => false end.
Definition claim_session (v : pyval) : option (option string) :=
  match v with
  | VNone => Some None
  | VStr s => if (32 <=? String.length s)%nat && (String.length s <=? 128)%nat then Some (Some s) else None
  | _ => None
  end.
(** [None] for an [InvalidTokenError]. *)
Definition decode_access_claims (token : string) (settings : auth_settings) (now : time) : option (uuid * option string) :=
  if (4096 <? String.length token)%nat then None
  else
    payload ← jwt_decode token (au_jwt_secret_key settings) (au_jwt_issuer settings) (au_jwt_audience settings) now;
    if negb (eqb (as_str (get "token_type" payload)) (Some "access")) || negb (is_int (get "iat" payload)) || negb (is_int (get "exp" payload))
    then None
    else
      user ← match get "sub" payload with VStr s => py_uuid s | _ => None end;
      session ← claim_session (get "jti" payload);
      Some (user, session).

(** ** Sessions *)

Record request_info : Type := MkRequestInfo { ri_user_agent : string; ri_host : string }.

Definition first_named (s : string) (names : list (string * string)) (fallback : string) : string :=
  match find_first (λ '(needle, _), contains needle s) names with Some (_, name) => name | None => fallback end.
Definition _device_summary (user_agent : string) : string * string :=
  let agent := py_lower (str_take 512 user_agent) in
  let platform := first_named agent
    [("android", "Android"); ("iphone", "iPhone"); ("ipad", "iPad"); ("windows", "Windows"); ("mac os", "macOS"); ("linux", "Linux")]
    "Unknown" in
  let browser := first_named agent [("edg/", "Edge"); ("firefox/", "Firefox"); ("chrome/", "Chrome"); ("safari/", "Safari")] "App" in
  (if existsb (eqb platform) ["Android"; "iPhone"; "iPad"] then "mobile"
   else if eqb platform "Unknown" then "unknown" else "desktop",
   browser +:+ " on " +:+ platform).

Definition device_notice (user : uuid) (summary : string) : notification_args :=
  {| na_user_id := user; na_type := SECURITY_ALERT; na_title := "New Sign-In Device";
     na_message := "A new " +:+ summary +:+ " session signed in to your account."; na_priority := PrioHigh;
     na_organization_id := None; na_related_request_id := None; na_related_agent_id := None;
     na_related_permission_id := None; na_metadata := None;
     na_deduplication_key := Some ("new-login-device:" +:+ uuid_str user +:+ ":" +:+ str_take 16 (sha256_hex summary)) |}.

Definition new_session (id user : uuid) (settings : auth_settings) (info : request_info) (auth_method : string) (mfa_verified : bool)
    (now : time) (nonce : string) : AuthSession :=
  let '(device, summary) := _device_summary (ri_user_agent info) in
  MkAuthSession id user (token_hash nonce) auth_method (if mfa_verified then Some now else None)
    (if eqb auth_method "password" || mfa_verified then Some now else None) device summary
    (if eqb (ri_host info) "" then None else Some (hmac_sha256 (au_jwt_secret_key settings) (ri_host info)))
    now now (now + au_jwt_access_token_expire_minutes settings * minute) None.
Definition session_ok (s : AuthSession) (t : tables) : bool :=
  negb (is_some (session_table t !! as_id s)) &&
  negb (is_some (scalar (λ s', eqb (as_token_hash s') (as_token_hash s)) (session_table t))) && fits 20 (as_auth_method s).

Definition issue_session (user : uuid) (settings : auth_settings) (info : request_info) (auth_method : string)
    (mfa_verified : bool) : DB string :=
  now ← now_db;
  nonce ← fresh_urlsafe 32;
  id ← fresh_uuid;
  let session := new_session id user settings info auth_method mfa_verified now nonce in
  prior ← query (λ t, scalar (λ s, eqb (as_user_id s) user) (session_table t));
  known ← query (λ t, scalar (λ s, eqb (as_user_id s) user && eqb (as_user_agent_summary s) (as_user_agent_summary session)) (session_table t));
  insert_checked (session_ok session) (upd_sessions <[id := session]>) ;;
  (if is_some prior && negb (is_some known) then create_notification (device_notice user (as_user_agent_summary session)) ;; mret tt
   else mret tt) ;;
  commit ;;
  lift_result (create_access_token user settings now (Some nonce)).

Definition live_session (user : uuid) (nonce : string) (now : time) (s : AuthSession) : bool :=
  eqb (as_user_id s) user && eqb (as_token_hash s) (token_hash nonce) && negb (is_some (as_revoked_at s)) && (now <? as_expires_at s).
Definition active_session (user : uuid) (nonce : string) (now : time) (t : tables) : option AuthSession :=
  scalar (live_session user nonce now) (session_table t).
Definition save_session (s : AuthSession) : DB unit := write (upd_sessions <[as_id s := s]>).
Definition end_session (now : time) (s : AuthSession) : AuthSession :=
  set_session (as_mfa_verified_at s) (as_step_up_at s) (as_last_active_at s) (Some now) s.
Definition revoke_session (s : AuthSession) : DB unit :=
  if is_some (as_revoked_at s) then mret tt
  else now ← now_db; save_session (end_session now s) ;; commit.

(** ** The bearer check *)

Definition unauthorized : Exc := HTTPException 401 "Could not validate credentials".
Definition legacy_environment (settings : auth_settings) : bool := existsb (eqb (au_app_env settings)) ["local"; "development"; "test"].

(** [organization] is the text of the path parameter or of the header. *)
Definition get_current_user (settings : auth_settings) (token : option string) (organization : string) : DB caller :=
  raise_if (eqb (au_jwt_secret_key settings) "") (HTTPException 503 "Authentication is not configured") ;;
  match token with
  | None => throw unauthorized
  | Some token =>
      now ← now_db;
      match decode_access_claims token settings now with
      | None => throw unauthorized
      | Some (user_id, nonce) =>
          user ← get_or (λ t, match user_table t !! user_id with
            | Some u => if us_is_active u then Some u else None | None => None end) unauthorized;
          cl ← match nonce with
            | None =>
                raise_if (negb (legacy_environment settings)) unauthorized ;;
                mret (MkCaller user_id None now None)
            | Some nonce =>
                s ← get_or (active_session user_id nonce now) unauthorized;
                (if as_last_active_at s <? now - minute then
                   save_session (set_session (as_mfa_verified_at s) (as_step_up_at s) now (as_revoked_at s) s) ;; commit
                 else mret tt) ;;
                let seen := if as_last_active_at s <? now - minute then now else as_last_active_at s in
                mret (MkCaller user_id (Some (set_session (as_mfa_verified_at s) (as_step_up_at s) seen (as_revoked_at s) s))
                  (as_last_active_at s) None)
            end;
          if eqb organization "" then mret cl
          else
            match py_uuid organization with
            | None => throw (HTTPException 422 "Invalid organization ID")
            | Some org =>
                context ← query (resolve_workspace user_id (Some org));
                match context with
                | Some w => enforce_organization_policy cl w ;; mret (MkCaller user_id (cl_session cl) (cl_previous cl) (Some org))
                | None => mret cl
                end
            end
      end
  end.

(** ** Handlers: signing in and out *)

Definition too_many_requests : Exc := HTTPException 429 "Too many requests. Please try again later.".
Definition register (email full_name password : string) (allowed : bool) : DB User :=
  raise_if (negb allowed) too_many_requests ;;
  try_except (register_user email full_name password)
    (λ e, if eqb e EmailAlreadyRegistered then throw (HTTPException 409 "Email is already registered") else throw e).

Inductive login_answer : Type := LoggedIn (token : string) | MfaRequired (challenge : string).
Definition login (email password : string) (settings : auth_settings) (info : request_info) (allowed : bool) : DB login_answer :=
  raise_if (negb allowed) too_many_requests ;;
  user ← try_except (authenticate_user email password settings)
    (λ e, if eqb e InvalidCredentials then throw (HTTPException 401 "Incorrect email or password") else throw e);
  credential ← query (enabled_credential (us_id user));
  if is_some credential then
    challenge ← create_challenge (us_id user) (au_mfa settings);
    mret (MfaRequired challenge)
  else
    token ← issue_session (us_id user) settings info "password" false;
    account_event (us_id user) "login_success" "Password sign-in" "info" true ;;
    mret (LoggedIn token).

Definition mfa_as (status : Z) {A} (m : DB A) : DB A :=
  try_except m (λ e, match e with MFAError message => throw (HTTPException status message) | e => throw e end).
Definition verify_mfa_login (challenge code : string) (settings : auth_settings) (info : request_info) (allowed : bool) : DB string :=
  raise_if (negb allowed) (HTTPException 429 "Too many MFA attempts. Please try again later") ;;
  verified ← mfa_as 401 (verify_challenge challenge code (au_mfa settings));
  token ← issue_session (us_id verified.1) settings info "password+mfa" true;
  account_event (us_id verified.1) "login_success" "Two-factor sign-in" "info" true ;;
  mret token.

Definition logout (cl : caller) : DB unit :=
  match cl_session cl with
  | Some s => revoke_session s ;; account_event (cl_user cl) "session_revoked" "Signed out" "info" true
  | None => mret tt
  end.

(** ** Handlers: the security of the account *)

(** The sessions of the user that are not revoked: the current one changes, the others end. *)
Definition standing (user : uuid) (s : AuthSession) : bool := eqb (as_user_id s) user && negb (is_some (as_revoked_at s)).
Definition is_current (cl : caller) (s : AuthSession) : bool :=
  match cl_session cl with Some c => eqb (as_id c) (as_id s) | None => false end.
Definition keep_current (cl : caller) (now : time) (f : AuthSession → AuthSession) : tables → tables :=
  upd_sessions (update_where (standing (cl_user cl)) (λ s, if is_current cl s then f s else end_session now s)).

Definition setup_mfa (cl : caller) (settings : auth_settings) : DB string :=
  Signing.require_recent_step_up cl ;;
  try_except (start_setup (cl_user cl) (au_mfa settings))
    (λ e, match e with
          | MFAError m => throw (HTTPException (if contains "already" m then 409 else 503) m)
          | e => throw e end).
Definition confirm_mfa (cl : caller) (code : string) (settings : auth_settings) (allowed : bool) : DB (list string) :=
  raise_if (negb allowed) (HTTPException 429 "Too many MFA attempts. Please try again later") ;;
  codes ← mfa_as 400 (confirm_setup (cl_user cl) (au_mfa settings) code);
  now ← now_db;
  write (keep_current cl now (λ s, set_session (Some now) (Some now) (as_last_active_at s) (as_revoked_at s) s)) ;;
  commit ;;
  mret codes.
Definition regenerate_codes (cl : caller) (code : string) (settings : auth_settings) : DB (list string) :=
  mfa_as 401 (regenerate_recovery_codes (cl_user cl) code (au_mfa settings)).
Definition account (cl : caller) : DB User := get_or (λ t, user_table t !! cl_user cl) unauthorized.
Definition remove_mfa (cl : caller) (password code : string) (settings : auth_settings) : DB unit :=
  user ← account cl;
  mfa_as 403 (disable_mfa user password code (au_mfa settings)) ;;
  now ← now_db;
  write (keep_current cl now (λ s, set_session None (as_step_up_at s) (as_last_active_at s) (as_revoked_at s) s)) ;;
  commit.

(** The second factor, when the account has one. *)
Definition check_second_factor (user : uuid) (code : option string) (settings : auth_settings) : DB unit :=
  credential ← query (enabled_credential user);
  if is_some credential then
    match code with
    | None => throw (HTTPException 401 "Authenticator code required")
    | Some code =>
        try_except (require_factor user code (au_mfa settings))
          (λ e, match e with MFAError _ => throw (HTTPException 401 "Strong verification failed") | e => throw e end)
    end
  else mret tt.
Definition step_up (cl : caller) (password : string) (code : option string) (settings : auth_settings) (allowed : bool) : DB unit :=
  match cl_session cl with
  | None => throw (HTTPException 401 "A current session is required")
  | Some s =>
      raise_if (negb allowed) (HTTPException 429 "Too many verification attempts") ;;
      user ← account cl;
      raise_if (negb (verify_password password (us_hashed_password user))) (HTTPException 401 "Strong verification failed") ;;
      check_second_factor (cl_user cl) code settings ;;
      now ← now_db;
      write (upd_sessions (alter (λ s, set_session (as_mfa_verified_at s) (Some now) (as_last_active_at s) (as_revoked_at s) s) (as_id s))) ;;
      commit
  end.
Definition change_password (cl : caller) (current_password new_password : string) (code : option string) (settings : auth_settings)
    (allowed : bool) : DB unit :=
  raise_if (negb allowed) (HTTPException 429 "Too many verification attempts") ;;
  user ← account cl;
  raise_if (negb (verify_password current_password (us_hashed_password user))) (HTTPException 401 "Strong verification failed") ;;
  raise_if (eqb current_password new_password) (HTTPException 400 "Choose a different password") ;;
  check_second_factor (cl_user cl) code settings ;;
  now ← now_db;
  n ← gets seed;
  fresh_uuid ;;
  write (upd_users <[us_id user := set_user (hash_password n new_password) 0 None user]>) ;;
  write (keep_current cl now (λ s, set_session (as_mfa_verified_at s) (Some now) (as_last_active_at s) (as_revoked_at s) s)) ;;
  account_event (cl_user cl) "password_changed" "Account password changed" "warning" false ;;
  create_notification (mfa_alert (cl_user cl) "Password Changed" "Your AgentTrust password was changed.") ;;
  commit.

Definition sessions (cl : caller) : DB (list AuthSession) :=
  now ← now_db;
  query (λ t, take 100 (order_desc as_created_at as_id
    (select_rows (λ s, standing (cl_user cl) s && (now <? as_expires_at s)) (session_table t)))).
Definition revoke_others (cl : caller) : DB nat :=
  match cl_session cl with
  | None => throw (HTTPException 401 "A current session is required")
  | Some _ =>
      let other s := standing (cl_user cl) s && negb (is_current cl s) in
      now ← now_db;
      records ← query (λ t, select_rows other (session_table t));
      write (upd_sessions (update_where other (end_session now))) ;;
      account_event (cl_user cl) "sessions_revoked" "Other sessions signed out" "warning" false ;;
      commit ;;
      mret (length records)
  end.
Definition revoke_one (cl : caller) (session_id : uuid) : DB unit :=
  s ← get_or (λ t, match session_table t !! session_id with
    | Some s => if eqb (as_user_id s) (cl_user cl) then Some s else None | None => None end) (HTTPException 404 "Session not found");
  revoke_session s ;;
  account_event (cl_user cl) "session_revoked" "Session signed out" "warning" true.
End auth.
End Auth.
