(* ===== verification/AuthProps.v ===== *)
(** What sessions guarantee ([Auth]): who an accepted token speaks for, and that a
    session that was signed out, withdrawn or timed out is never accepted again. *)
From Stdlib Require Import Ascii.
From S2P Require Import Prelude.
From S2P Require Import PyStr.
From S2P Require Import PyFloat.
From S2P Require Import PyVal.
From S2P Require Import PyDecimal.
From S2P Require Import Models.
From S2P Require Import PyCodec.
From S2P Require Import PyNet.
From S2P Require Import Store.
From S2P Require Import Samples.
From S2P Require Import SecurityEvents.
From S2P Require Import Soc.
From S2P Require Import SocProps.
From S2P Require Import Workspace.
From S2P Require Import Signing.
From S2P Require Import Notifications.
From S2P Require Import Frames.
From S2P Require Import Mfa.
From S2P Require Import MfaProps.
From S2P Require Import Auth.

Local Open Scope string_scope.
Local Open Scope Z_scope.

Module AuthProps.
Import SecurityEvents Workspace Notifications Frames Mfa Auth.

(** Sessions are stored under their identifier, and one that was ended stays ended. *)
Definition sessions_keyed (t : tables) : Prop := ∀ i s, session_table t !! i = Some s → as_id s = i.
Definition sessions_end (t t' : tables) : Prop := sessions_keyed t →
  sessions_keyed t' ∧
  ∀ i s, session_table t !! i = Some s → as_revoked_at s ≠ None → ∃ s', session_table t' !! i = Some s' ∧ as_revoked_at s' ≠ None.
#[export] Instance sessions_end_preorder : PreOrder sessions_end.
Proof.
  split; [intros t Ht; split; [done | eauto]|]. intros t1 t2 t3 H12 H23 H1. destruct (H12 H1) as [H2 S12].
  destruct (H23 H2) as [H3 S23]. split; [done|]. intros i s Hi Hs. destruct (S12 i s Hi Hs) as (s2 & Hi2 & Hs2). by apply (S23 i s2).
Qed.
Lemma sessions_same t t' : session_table t' = session_table t → sessions_end t t'.
Proof. intros He Ht. unfold sessions_keyed in *. rewrite He. split; [done|]. eauto. Qed.

Definition ends_well (f : AuthSession → AuthSession) : Prop :=
  ∀ s, as_id (f s) = as_id s ∧ (as_revoked_at s ≠ None → as_revoked_at (f s) ≠ None).
Lemma sessions_put t s' : (sessions_keyed t → ∀ s, session_table t !! as_id s' = Some s → as_revoked_at s ≠ None → as_revoked_at s' ≠ None) →
  sessions_end t (upd_sessions <[as_id s' := s']> t).
Proof.
  intros Hput Ht. specialize (Hput Ht).
  assert (Hrow : ∀ i, session_table (upd_sessions <[as_id s' := s']> t) !! i = <[as_id s' := s']> (session_table t) !! i) by done.
  split.
  - intros i s. rewrite Hrow, lookup_insert_Some. intros [[<- <-]|[_ Hi]]; [done | by apply Ht].
  - intros i s Hi Hs. destruct (decide (i = as_id s')) as [->|Hne].
    + exists s'. rewrite Hrow, lookup_insert_eq. eauto.
    + exists s. by rewrite Hrow, lookup_insert_ne.
Qed.
Lemma sessions_update t p f : ends_well f → sessions_end t (upd_sessions (update_where p f) t).
Proof.
  intros Hf Ht. assert (Hrow : ∀ i, session_table (upd_sessions (update_where p f) t) !! i =
    (λ s, if p s then f s else s) <$> session_table t !! i) by (intros i; apply lookup_update_where).
  split.
  - intros i s. rewrite Hrow. destruct (session_table t !! i) as [s0|] eqn:Hi; [|done]. simpl. intros [= <-].
    destruct (p s0); [rewrite (proj1 (Hf s0))|]; by apply Ht.
  - intros i s Hi Hs. rewrite Hrow, Hi. simpl. eexists. split; [reflexivity|]. destruct (p s); [by apply (proj2 (Hf s)) | done].
Qed.
Lemma sessions_alter t i f : ends_well f → sessions_end t (upd_sessions (alter f i) t).
Proof.
  intros Hf Ht. assert (Hrow : ∀ j, session_table (upd_sessions (alter f i) t) !! j = alter f i (session_table t) !! j) by done.
  split.
  - intros j s. rewrite Hrow. destruct (decide (j = i)) as [->|Hne]; [rewrite lookup_alter_eq | rewrite lookup_alter_ne by done; by apply Ht].
    destruct (session_table t !! i) as [s0|] eqn:Hi; [|done]. intros [= <-]. rewrite (proj1 (Hf s0)). by apply Ht.
  - intros j s Hj Hs. destruct (decide (j = i)) as [->|Hne].
    + exists (f s). rewrite Hrow, lookup_alter_eq, Hj. split; [done | by apply (proj2 (Hf s))].
    + exists s. by rewrite Hrow, lookup_alter_ne.
Qed.

Section sessions.
Context `{Entropy} `{SecuritySinks} `{AccountServices} `{TokenServices} `{!SinksRespect sessions_end}.
Lemma sessions_ignore : Ignores sessions_end.
Proof. split; [apply _ | intros; by apply sessions_same ..]. Qed.
Local Existing Instance sessions_ignore.

(** ** Who a token speaks for *)

(** The token decodes to an active user and, unless the environment still takes tokens
    without one, to a session of theirs that is stored, not ended and not expired. *)
Definition speaks (settings : auth_settings) (token : string) (cl : caller) (s : session) : Prop :=
  ∃ nonce u, decode_access_claims token settings (db_now s) = Some (cl_user cl, nonce) ∧
    user_table (cur s) !! cl_user cl = Some u ∧ us_is_active u = true ∧
    match nonce, cl_session cl with
    | None, None => legacy_environment settings = true
    | Some n, Some a => ∃ i a0, session_table (cur s) !! i = Some a0 ∧ as_id a = as_id a0 ∧ as_user_id a0 = cl_user cl ∧
        as_token_hash a0 = token_hash n ∧ as_revoked_at a0 = None ∧ db_now s < as_expires_at a0
    | _, _ => False
    end.

Lemma live_sound user n now t a : active_session user n now t = Some a →
  ∃ i, session_table t !! i = Some a ∧ as_user_id a = user ∧ as_token_hash a = token_hash n ∧ as_revoked_at a = None ∧ now < as_expires_at a.
Proof.
  intros (i & Hi & Hl)%scalar_Some. exists i. unfold live_session in Hl. reflect. destruct Hl as [[[Hu Hh] Hr] He].
  split_and!; try done.
Qed.

Lemma bearer_speaks settings token organization s cl s' :
  get_current_user settings (Some token) organization s = (Ok cl, s') → speaks settings token cl s.
Proof.
  unfold get_current_user. pass Hkey. rewrite bind_now. destruct (decode_access_claims token settings (db_now s)) as [[user nonce]|] eqn:Hdec; [|done].
  rewrite bind_get_or. destruct (user_table (cur s) !! user) as [u|] eqn:Hu; [|done]. destruct (us_is_active u) eqn:Hact; [|done].
  set (rest := λ c : caller, if eqb organization "" then mret c else _).
  assert (Hrest : ∀ c s1, rest c s1 = (Ok cl, s') → cl_user c = user → cl_user cl = user ∧ cl_session cl = cl_session c).
  { intros c s1. subst rest. cbv beta. destruct (eqb organization ""); [intros [= <- _]; done|].
    destruct (py_uuid organization) as [org|]; [|done]. rewrite bind_query. destruct (resolve_workspace _ _ _) as [w|]; [|by intros [= <- _]].
    intros (? & ? & _ & Hret)%bind_Ok. by injection Hret as <- _. }
  rewrite bind_run. destruct nonce as [n|].
  - rewrite bind_get_or. destruct (active_session user n (db_now s) (cur s)) as [a|] eqn:Ha; [|done].
    apply live_sound in Ha as (i & Hi & Hau & Hh & Hr & He).
    rewrite bind_run. lazymatch goal with |- context [(if ?b then ?x else ?y) s] => destruct ((if b then x else y) s) as [[[]|e] s1] end; [|done].
    cbv zeta.
    cbn [mret M_ret]. intros Hrun. destruct (Hrest _ _ Hrun eq_refl) as [Hcu Hcs]. exists (Some n), u. rewrite Hcu, Hcs. cbn [cl_session].
    split_and!; try done. by exists i, a.
  - rewrite bind_raise_if. destruct (legacy_environment settings) eqn:Hleg; [|done]. cbn [negb mret M_ret]. intros Hrun.
    destruct (Hrest _ _ Hrun eq_refl) as [Hcu Hcs]. exists None, u. rewrite Hcu, Hcs. done.
Qed.

(** A bearer token is accepted only for the active user it was signed for and,
    outside the environments that take tokens without a session, only while the session it
    names is stored, belongs to that user, has not been ended and has not expired. *)
Theorem bearer_sound settings token organization s cl s' :
  get_current_user settings (Some token) organization s = (Ok cl, s') → speaks settings token cl s.
Proof. apply bearer_speaks. Qed.

(** ** Sessions that have ended *)

(** The requests that make, use, change or end sessions. *)
Inductive auth_op : Type :=
  | UseToken (token : string) (organization : string)
  | Login (email password : string) (info : request_info) (allowed : bool)
  | VerifyMfaLogin (challenge code : string) (info : request_info) (allowed : bool)
  | Logout (cl : caller)
  | ConfirmMfa (cl : caller) (code : string) (allowed : bool)
  | RemoveMfa (cl : caller) (password code : string)
  | StepUp (cl : caller) (password : string) (code : option string) (allowed : bool)
  | ChangePassword (cl : caller) (current new : string) (code : option string) (allowed : bool)
  | RevokeOthers (cl : caller)
  | RevokeOne (cl : caller) (session_id : uuid).
Definition perform_auth (settings : auth_settings) (o : auth_op) : DB (option caller) :=
  match o with
  | UseToken token organization => cl ← get_current_user settings (Some token) organization; mret (Some cl)
  | Login email password info allowed => login email password settings info allowed ;; mret None
  | VerifyMfaLogin challenge code info allowed => verify_mfa_login challenge code settings info allowed ;; mret None
  | Logout cl => logout cl ;; mret None
  | ConfirmMfa cl code allowed => confirm_mfa cl code settings allowed ;; mret None
  | RemoveMfa cl password code => remove_mfa cl password code settings ;; mret None
  | StepUp cl password code allowed => step_up cl password code settings allowed ;; mret None
  | ChangePassword cl current new code allowed => change_password cl current new code settings allowed ;; mret None
  | RevokeOthers cl => revoke_others cl ;; mret None
  | RevokeOne cl session_id => revoke_one cl session_id ;; mret None
  end.
Record auth_step : Type := MkAuthStep { au_draws : nat; au_now : time; au_op : auth_op }.
Definition auth_outcome (settings : auth_settings) (t : tables) (st : auth_step) : option caller * tables :=
  let '(r, t') := run_request (perform_auth settings (au_op st)) t (au_draws st) (au_now st) in
  (match r with Ok c => c | Err _ => None end, t').
Fixpoint auth_trace (settings : auth_settings) (t : tables) (sts : list auth_step) : tables :=
  match sts with [] => t | st :: sts => auth_trace settings (auth_outcome settings t st).2 sts end.

Lemma end_ends now : ends_well (end_session now).
Proof. intros s. by split. Qed.
Ltac sessions_walk :=
  walk; first
    [ apply record_event_evolves; apply _
    | apply create_notification_evolves; apply _
    | apply evolves_insert; [apply _ | intros; first [by apply sessions_same | idtac]]
    | apply evolves_write; [apply _ | intros; first
        [ by apply sessions_same
        | apply sessions_update; intros ?; first [done | (split; [by destruct (is_current _ _) | by destruct (is_current _ _)])]
        | apply sessions_alter; done ]]
    | idtac ].

Lemma account_event_sessions u ty d sev b : respects (evolves sessions_end) (account_event u ty d sev b).
Proof. unfold account_event. walk. Qed.
Lemma new_codes_sessions user : respects (evolves sessions_end) (_new_recovery_codes user).
Proof.
  assert (Hdraw : ∀ n, respects (evolves sessions_end) (draw_codes n)).
  { intros n. induction n as [|n IH]; cbn [draw_codes]; [walk|]. walk; exact IH. }
  unfold _new_recovery_codes, add_code. sessions_walk.
Qed.
Lemma factor_sessions c settings code allow : respects (evolves sessions_end) (_verify_factor c settings code allow).
Proof. unfold _verify_factor, save_credential, account_event. sessions_walk. Qed.
Lemma require_factor_sessions user code settings : respects (evolves sessions_end) (require_factor user code settings).
Proof. unfold require_factor. walk. apply factor_sessions. Qed.

Lemma sessions_insert t x : session_ok x t = true → sessions_end t (upd_sessions <[as_id x := x]> t).
Proof.
  intros Hok. apply (sessions_put t x). intros _ y Hy. unfold session_ok in Hok.
  apply andb_true_iff in Hok as [[Hok _]%andb_true_iff _]. apply negb_true_iff, is_some_false in Hok. by rewrite Hok in Hy.
Qed.
Lemma issue_sessions user settings info m v : respects (evolves sessions_end) (issue_session user settings info m v).
Proof.
  unfold issue_session, new_session. walk; try (destruct (_device_summary _) as [dv sm]); walk.
  apply evolves_insert; [apply _ | intros t Hok]. exact (sessions_insert t _ Hok).
Qed.
Lemma enforce_sessions cl w : respects (evolves sessions_end) (enforce_organization_policy cl w).
Proof. unfold enforce_organization_policy. sessions_walk. Qed.
Lemma use_sessions settings token organization : respects (evolves sessions_end) (get_current_user settings (Some token) organization).
Proof.
  intros s. unfold get_current_user. past Hkey. rewrite bind_now. destruct (decode_access_claims _ _ _) as [[user nonce]|]; [|done].
  rewrite bind_get_or. destruct (match user_table _ !! _ with Some u => _ | None => None end) as [u|]; [|done].
  apply evolves_then; [apply _ | | intros; walk; apply enforce_sessions].
  destruct nonce as [n|]; [|rewrite bind_raise_if; by destruct (negb _)].
  rewrite bind_get_or. destruct (active_session user n (db_now s) (cur s)) as [a|] eqn:Ha; [|done].
  apply live_sound in Ha as (i & Hi & _ & _ & Hr & _). apply evolves_then; [apply _ | | intros; walk].
  destruct (_ <? _); [|done]. unfold save_session. apply evolves_write_here; [apply _ | | walk].
  apply (sessions_put _ (set_session _ _ _ _ a)). intros Hk x. cbn [as_id set_session]. rewrite (Hk i a Hi), Hi. intros [= <-]. by rewrite Hr.
Qed.
Lemma revoke_sessions a : respects (evolves sessions_end) (revoke_session a).
Proof.
  unfold revoke_session, save_session. walk. apply evolves_write; [apply _ | intros t].
  apply (sessions_put t (end_session _ a)). by intros.
Qed.
Lemma keep_sessions cl now f t : ends_well f → sessions_end t (keep_current cl now f t).
Proof. intros Hf. apply sessions_update. intros s. destruct (is_current cl s); [apply Hf | by split]. Qed.
Lemma perform_sessions settings o : respects (evolves sessions_end) (perform_auth settings o).
Proof.
  destruct o; cbn [perform_auth].
  - walk. apply use_sessions.
  - unfold login, authenticate_user, failed_login, create_challenge, account_event. sessions_walk; apply issue_sessions.
  - unfold verify_mfa_login, mfa_as, verify_challenge, account_event. sessions_walk; first [apply issue_sessions | apply factor_sessions].
  - unfold logout, account_event. walk; apply revoke_sessions.
  - unfold confirm_mfa, mfa_as, confirm_setup, save_credential, account_event. sessions_walk;
      first [apply new_codes_sessions | (apply evolves_write; [apply _ | intros; by apply keep_sessions])].
  - unfold remove_mfa, mfa_as, disable_mfa, account, account_event. sessions_walk;
      first [apply require_factor_sessions | (apply evolves_write; [apply _ | intros; by apply keep_sessions])].
  - unfold step_up, account, check_second_factor. sessions_walk; apply require_factor_sessions.
  - unfold change_password, account, check_second_factor, account_event. sessions_walk;
      first [apply require_factor_sessions | (apply evolves_write; [apply _ | intros; by apply keep_sessions])].
  - unfold revoke_others, account_event. sessions_walk.
  - unfold revoke_one, account_event. walk; apply revoke_sessions.
Qed.
Lemma outcome_sessions settings t st : sessions_end t (auth_outcome settings t st).2.
Proof.
  unfold auth_outcome. pose proof (evolves_run sessions_end (perform_auth settings (au_op st)) t (au_draws st) (au_now st)
    (perform_sessions settings (au_op st))) as Hs. by destruct (run_request _ _ _ _).
Qed.
Lemma trace_sessions settings t sts : sessions_end t (auth_trace settings t sts).
Proof. revert t. induction sts as [|st sts IH]; intros t; [reflexivity|]. simpl. etrans; [apply outcome_sessions | apply IH]. Qed.

Lemma outcome_speaks settings t st cl : (auth_outcome settings t st).1 = Some cl →
  ∃ token, speaks settings token cl (open_session t (au_draws st) (au_now st)).
Proof.
  unfold auth_outcome, run_request. set (s := open_session _ _ _).
  destruct (au_op st) as [token org | | | | | | | | |]; cbn [perform_auth];
    try (rewrite bind_run; lazymatch goal with |- context [match ?m s with _ => _ end] => destruct (m s) as [[?|?] ?] end; done).
  rewrite bind_run. destruct (get_current_user settings (Some token) org s) as [[c|] s1] eqn:Ha; [|done].
  intros [= <-]. exists token. by apply (bearer_speaks settings token org s c s1).
Qed.

End sessions.

(** ** Witnesses *)

Local Existing Instance SocProps.no_services.
Local Existing Instance SocProps.no_ambient.
Local Existing Instance Siem.soc_sinks.
Local Existing Instance MfaProps.toy_accounts.
Lemma session_sinks : SinksRespect sessions_end.
Proof. apply Siem.soc_sinks_respect; [apply _ | |]; intros f t; by apply sessions_same. Defined.

(** Tokens are the identifiers of their sessions, all of user 9. *)
Definition toy_tokens : TokenServices :=
  {| jwt_hmac := {| hmac_sha256 k m := "aa" |}; jwt_encode p k := "token";
     jwt_decode token key issuer audience now :=
       Some [("sub", VStr (uuid_str 9)); ("iat", VInt 0); ("exp", VInt 9000); ("token_type", VStr "access"); ("jti", VStr token)] |}.
Local Existing Instance toy_tokens.
Definition toy_auth : auth_settings := MkAuthSettings "production" "key" 60 "agenttrust" "api" 5 15 MfaProps.toy_settings.
Definition toy_session (i : uuid) (c : ascii) : AuthSession :=
  MkAuthSession i 9 (times_of 40 c) "password" None None "desktop" "App on Linux" None 0 0 (2 * hour) None.
Definition session_tables : tables :=
  upd_sessions (λ _, keyed as_id [toy_session 1 "a"; toy_session 2 "b"]) (account_tables [sample_user 9] [] [] []).
Definition use_a : auth_step := MkAuthStep 0 hour (UseToken (times_of 40 "a") "").
Definition use_b : auth_step := MkAuthStep 10 hour (UseToken (times_of 40 "b") "").
(** The user, signed in with session 2, ends the other session. *)
Definition end_others : list auth_step :=
  [MkAuthStep 20 hour (RevokeOthers (MkCaller 9 (Some (toy_session 2 "b")) 0 None))].

Lemma bearer_sound_witness :
  ∃ cl s', get_current_user toy_auth (Some (times_of 40 "a")) "" (open_session session_tables 0 hour) = (Ok cl, s') ∧
    speaks toy_auth (times_of 40 "a") cl (open_session session_tables 0 hour).
Proof.
  eexists _, _. assert (Hrun : get_current_user toy_auth (Some (times_of 40 "a")) "" (open_session session_tables 0 hour) = (Ok _, _))
    by (vm_compute; reflexivity).
  split; [exact Hrun|]. exact (bearer_sound toy_auth (times_of 40 "a") "" (open_session session_tables 0 hour) _ _ Hrun).
Defined.

Definition others_ended : tables := auth_trace toy_auth session_tables end_others.
Lemma keyed_session_tables : sessions_keyed session_tables.
Proof. intros i a Ha. by apply keyed_lookup in Ha as [Ha _]. Qed.
Lemma keyed_others_ended : sessions_keyed others_ended.
Proof. exact (proj1 (trace_sessions (SinksRespect0 := session_sinks) toy_auth session_tables end_others keyed_session_tables)). Qed.
End AuthProps.
