(* ===== verification/Sso.v ===== *)
(** Company sign-in ([backend/app/services/sso.py], the SSO handlers of [api/auth.py])
    and the owner's security settings ([api/enterprise_security.py]): the OIDC
    authorization-code flow with PKCE, its states and tickets, and the administration of
    connections and policies.

    The provider's answers, name resolution, the JWT and OIDC libraries and the S256
    challenge are parameters. *)
From Stdlib Require Import Ascii.
From S2P Require Import Prelude.
From S2P Require Import PyStr.
From S2P Require Import PyFloat.
From S2P Require Import PyVal.
From S2P Require Import PyDecimal.
From S2P Require Import Models.
From S2P Require Import Schemas.
From S2P Require Import PyCodec.
From S2P Require Import PyNet.
From S2P Require Import Ssrf.
From S2P Require Import Store.
From S2P Require Import SecurityEvents.
From S2P Require Import Workspace.
From S2P Require Import Signing.
From S2P Require Import Notifications.
From S2P Require Import Mfa.
From S2P Require Import Auth.

Local Open Scope string_scope.
Local Open Scope Z_scope.

(** What an exchange with the provider yields: a JSON value, an [httpx.HTTPError] or a
    [ValueError] of the decoder, or some other exception. *)
Inductive fetch_answer : Type :=
  | Fetched (v : pyval)
  | FetchFailed
  | FetchRaised (e : Exc).

(** [jwt_header token] is [get_unverified_header], [jwt_claims jwk alg token issuer
    audience now] the key and the decoding, [None] for a [PyJWTError];
    [id_token_valid claims header nonce client_id now] is the validation of authlib. *)
Class OidcServices : Type := {
  sso_resolver :: Resolver;
  sso_get : string → nat → fetch_answer;
  sso_post : string → list (string * string) → option (string * string) → nat → fetch_answer;
  jwt_header : string → option (list (string * pyval));
  jwt_claims : list (string * pyval) → string → string → string → string → time → option (list (string * pyval));
  id_token_valid : list (string * pyval) → list (string * pyval) → string → string → time → bool;
  s256_challenge : string → string;
  url_encode : list (string * string) → string
}.

Module Sso.
Import SecurityEvents Workspace Notifications Mfa Auth.

Record sso_settings : Type := MkSsoSettings {
  so_app_env : string;
  so_encryption_key : string;
  so_api_public_url : string;
  so_web_app_url : string
}.

Definition upd_sso_connections f : tables → tables := upd_identity (on_sso_connections f).
Definition upd_sso_attempts f : tables → tables := upd_identity (on_sso_attempts f).
Definition upd_sso_tickets f : tables → tables := upd_identity (on_sso_tickets f).
Definition attempt_table (t : tables) : gmap uuid SSOLoginAttempt := sso_attempts (identity t).
Definition ticket_table (t : tables) : gmap uuid SSOLoginTicket := sso_tickets (identity t).

(** [v in {..}] for a set of texts: a list or a mapping cannot be hashed. *)
Definition hashable (v : pyval) : bool := match v with VList _ | VDict _ => false | _ => true end.
Definition in_set (v : pyval) (set : list string) : result Exc bool :=
  if hashable v then Ok (existsb (λ s, py_eq v (VStr s)) set) else Err (PyError TypeError).
Fixpoint any_in_set (l : list pyval) (set : list string) : result Exc bool :=
  match l with
  | [] => Ok false
  | v :: l => b ← in_set v set; if b : bool then Ok true else any_in_set l set
  end.
Definition has_text (s : string) (v : pyval) : bool :=
  match v with VList l => existsb (py_eq (VStr s)) l | _ => false end.

Section sso.
Context `{Entropy} `{SecuritySinks} `{AccountServices} `{OidcServices}.

(** ** Secrets and addresses of the provider *)

Definition _cipher (settings : sso_settings) : result Exc string :=
  if eqb (so_encryption_key settings) "" then Err (SSOError "Security encryption is not configured")
  else Ok (so_encryption_key settings).
Definition encrypt_provider_secret (settings : sso_settings) (secret : string) (n : nat) : result Exc string :=
  key ← _cipher settings; Ok (fernet_encrypt key n secret).

Definition not_public : Exc := SSOError "SSO provider must have a public address".
Definition unverified_address : Exc := SSOError "SSO provider address could not be verified".
Fixpoint all_public (addresses : list string) : result Exc unit :=
  match addresses with
  | [] => Ok tt
  | a :: addresses =>
      match ip_address a with
      | Some i => if is_global i then all_public addresses else Err not_public
      | None => Err unverified_address
      end
  end.
Definition check_provider_url (value : string) (settings : sso_settings) : result Exc unit :=
  match urlsplit value with
  | None => Err (SSOError "Invalid SSO provider URL")
  | Some parts =>
      match url_port parts with
      | Err _ => Err (SSOError "Invalid SSO provider URL")
      | Ok port =>
          let local_test := eqb (so_app_env settings) "test" && eqb (url_scheme parts) "http" &&
            existsb (λ h, eqb (url_hostname parts) (Some h)) ["127.0.0.1"; "localhost"] in
          if negb local_test && negb (eqb (url_scheme parts) "https") then Err (SSOError "SSO provider URLs must use HTTPS")
          else if negb (is_some (url_hostname parts)) || has_userinfo value || has_fragment value then
            Err (SSOError "Invalid SSO provider URL")
          else if local_test then Ok tt
          else
            let port := match port with Some p => if p =? 0 then 443 else p | None => 443 end in
            match getaddrinfo (default "" (url_hostname parts)) port with
            | Err _ => Err unverified_address
            | Ok [] => Err not_public
            | Ok addresses => all_public addresses
            end
      end
  end.

Definition as_fetched (a : fetch_answer) (e : Exc) : result Exc pyval :=
  match a with Fetched v => Ok v | FetchFailed => Err e | FetchRaised x => Err x end.
Fixpoint check_endpoints (fields : list string) (metadata : list (string * pyval)) (settings : sso_settings) : result Exc unit :=
  match fields with
  | [] => Ok tt
  | f :: fields =>
      match get f metadata with
      | VStr value => _ ← check_provider_url value settings; check_endpoints fields metadata settings
      | _ => Err (SSOError "SSO discovery is incomplete")
      end
  end.
Definition auth_methods_ok (methods : pyval) : result Exc bool :=
  match methods with
  | VNone => Ok true
  | VList l => if forallb hashable l then Ok (existsb (λ m, has_text m methods) ["client_secret_basic"; "client_secret_post"])
               else Err (PyError TypeError)
  | _ => Ok false
  end.
Definition fetch_discovery (c : SSOConnection) (settings : sso_settings) (n : nat) : result Exc (list (string * pyval)) :=
  _ ← check_provider_url (so_discovery_url c) settings;
  v ← as_fetched (sso_get (so_discovery_url c) n) (SSOError "SSO discovery failed");
  match v with
  | VDict metadata =>
      if negb (py_eq (get "issuer" metadata) (VStr (so_issuer c))) then Err (SSOError "SSO issuer does not match")
      else
        _ ← check_endpoints ["authorization_endpoint"; "token_endpoint"; "jwks_uri"] metadata settings;
        if negb (has_text "code" (get "response_types_supported" metadata)) then
          Err (SSOError "SSO provider does not support authorization code")
        else if negb (has_text "S256" (get "code_challenge_methods_supported" metadata)) then
          Err (SSOError "SSO provider does not support PKCE S256")
        else
          ok ← auth_methods_ok (get "token_endpoint_auth_methods_supported" metadata);
          if ok : bool then Ok metadata else Err (SSOError "SSO token authentication method is unsupported")
  | _ => Err (SSOError "SSO discovery is incomplete")
  end.

Fixpoint rstrip_slash (s : string) : string :=
  match s with
  | "" => ""
  | String c s => let s := rstrip_slash s in if eqb s "" && eqb c "/"%char then "" else String c s
  end.
Definition _redirect_uri (settings : sso_settings) : result Exc string :=
  let value := rstrip_slash (so_api_public_url settings) +:+ "/auth/sso/callback" in
  match urlsplit value with
  | None => Err (PyError ValueError)
  | Some parts =>
      if existsb (eqb (so_app_env settings)) ["staging"; "production"] && negb (eqb (url_scheme parts) "https") then
        Err (SSOError "API_PUBLIC_URL must use HTTPS")
      else Ok value
  end.
Definition endpoint_of (field : string) (metadata : list (string * pyval)) : string := default "" (as_str (get field metadata)).

(** ** Sign-in *)

Definition attempt_ok (a : SSOLoginAttempt) (t : tables) : bool :=
  negb (is_some (attempt_table t !! sl_id a)) &&
  negb (is_some (scalar (λ b, eqb (sl_state_hash b) (sl_state_hash a)) (attempt_table t))) &&
  fits 512 (sl_encrypted_code_verifier a).

Definition start_login (c : SSOConnection) (settings : sso_settings) : DB string :=
  raise_if (negb (eqb (so_status c) "active")) (SSOError "SSO connection is disabled") ;;
  n ← gets seed;
  fresh_uuid ;;
  metadata ← lift_result (fetch_discovery c settings n);
  random_state ← fresh_urlsafe 32;
  nonce ← fresh_urlsafe 32;
  let state := random_state +:+ "." +:+ nonce in
  verifier ← fresh_urlsafe 48;
  id ← fresh_uuid;
  n ← gets seed;
  now ← now_db;
  key ← lift_result (_cipher settings);
  let attempt := MkAttempt id (so_id c) (token_hash state) (token_hash nonce) (fernet_encrypt key n verifier)
    (now + 5 * minute) None in
  insert_checked (attempt_ok attempt) (upd_sso_attempts <[id := attempt]>) ;;
  commit ;;
  redirect ← lift_result (_redirect_uri settings);
  mret (endpoint_of "authorization_endpoint" metadata +:+ "?" +:+
    url_encode [("response_type", "code"); ("client_id", so_client_id c); ("redirect_uri", redirect);
      ("scope", "openid email profile"); ("state", state); ("nonce", nonce); ("code_challenge", s256_challenge verifier);
      ("code_challenge_method", "S256")]).

(** The key with the identifier of the header: an entry that is no mapping has no [get]. *)
Fixpoint select_key (kid : pyval) (ks : list pyval) : result Exc (option (list (string * pyval))) :=
  match ks with
  | [] => Ok None
  | VDict k :: ks => if py_eq (get "kid" k) kid then Ok (Some k) else select_key kid ks
  | _ :: _ => Err (PyError AttributeError)
  end.
Definition audience_ok (claims : list (string * pyval)) (client_id : string) : bool :=
  match get "aud" claims with
  | VList l => negb (1 <? length l)%nat || py_eq (get "azp" claims) (VStr client_id)
  | _ => true
  end.
Definition verified_email (claims : list (string * pyval)) : option string :=
  match get "email_verified" claims, get "email" claims with VBool true, VStr e => Some e | _, _ => None end.
Definition _validated_claims (id_token : string) (c : SSOConnection) (nonce : string) (jwks : pyval) (now : time) :
    result Exc (list (string * pyval)) :=
  match jwks with
  | VDict d =>
      match get "keys" d with
      | VList ks =>
          match jwt_header id_token with
          | None => Err (SSOError "SSO identity verification failed")
          | Some header =>
              alg_ok ← in_set (get "alg" header) ["RS256"; "PS256"; "ES256"];
              if negb alg_ok || negb (truthy (get "kid" header)) then Err (SSOError "Unsupported SSO identity signature")
              else
                selected ← select_key (get "kid" header) ks;
                match selected with
                | None => Err (SSOError "SSO signing key not found")
                | Some key =>
                    kty_ok ← in_set (get "kty" key) ["RSA"; "EC"];
                    if negb kty_ok then Err (SSOError "SSO signing key not found")
                    else
                      match jwt_claims key (default "" (as_str (get "alg" header))) id_token (so_issuer c) (so_client_id c) now with
                      | None => Err (SSOError "SSO identity verification failed")
                      | Some claims =>
                          if negb (id_token_valid claims header nonce (so_client_id c) now) then
                            Err (SSOError "SSO identity claims are invalid")
                          else if negb (audience_ok claims (so_client_id c)) then Err (SSOError "SSO authorized party does not match")
                          else if negb (is_some (verified_email claims)) then Err (SSOError "SSO verified email is required")
                          else Ok claims
                      end
                end
          end
      | _ => Err (SSOError "SSO signing keys are invalid")
      end
  | _ => Err (SSOError "SSO signing keys are invalid")
  end.

Definition used_attempt (now : time) (a : SSOLoginAttempt) : SSOLoginAttempt :=
  MkAttempt (sl_id a) (sl_connection_id a) (sl_state_hash a) (sl_nonce_hash a) (sl_encrypted_code_verifier a)
    (sl_expires_at a) (Some now).
Definition attempt_for (state : string) (t : tables) : option SSOLoginAttempt :=
  scalar (λ a, eqb (sl_state_hash a) (token_hash state)) (attempt_table t).
Definition domain_of (email : string) : string := after_last "@" email.
Definition domain_allowed (domains : list string) (email : string) : bool :=
  match domains with [] => true | _ => existsb (eqb (domain_of email)) domains end.
Definition active_in (org : uuid) (t : tables) (user : uuid) : bool :=
  is_some (scalar (active_member org user) (members (identity t))).
Definition member_with_email (org : uuid) (email : string) (t : tables) : option User :=
  scalar (λ u, eqb (py_lower (us_email u)) email && us_is_active u && active_in org t (us_id u)) (users (identity t)).

Definition decrypted (settings : sso_settings) (text : string) : result Exc string :=
  key ← _cipher settings;
  match fernet_decrypt key text with Some s => Ok s | None => Err (SSOError "SSO connection secret is unavailable") end.
(** The code is exchanged for tokens, and the signing keys are fetched. *)
Definition exchange_code (settings : sso_settings) (c : SSOConnection) (metadata : list (string * pyval))
    (code verifier client_secret : string) (n : nat) : result Exc (pyval * pyval) :=
  let methods := get "token_endpoint_auth_methods_supported" metadata in
  let basic := has_text "client_secret_basic" (if truthy methods then methods else VList [VStr "client_secret_basic"]) in
  redirect ← match _redirect_uri settings with
             | Err (PyError ValueError) => Err (SSOError "SSO provider verification failed")
             | r => r
             end;
  token ← as_fetched (sso_post (endpoint_of "token_endpoint" metadata)
      ([("grant_type", "authorization_code"); ("code", code); ("redirect_uri", redirect); ("client_id", so_client_id c)] ++
       (if basic then [] else [("client_secret", client_secret)]) ++ [("code_verifier", verifier)])%list
      (if basic then Some (so_client_id c, client_secret) else None) n) (SSOError "SSO provider verification failed");
  jwks ← as_fetched (sso_get (endpoint_of "jwks_uri" metadata) n) (SSOError "SSO provider verification failed");
  Ok (token, jwks).
Definition id_token_of (token_data : pyval) : result Exc string :=
  match token_data with
  | VDict d => match get "id_token" d with VStr s => Ok s | _ => Err (SSOError "SSO identity token is missing") end
  | _ => Err (SSOError "SSO identity token is missing")
  end.
Definition not_allowed : Exc := SSOError "SSO identity is not allowed for this organization".
Definition second_factor (claims : list (string * pyval)) : result Exc bool :=
  match get "amr" claims with VList l => any_in_set l ["mfa"; "otp"; "hwk"; "fido"] | _ => Ok false end.
Definition ticket_ok (k : SSOLoginTicket) (t : tables) : bool :=
  negb (is_some (ticket_table t !! tk_id k)) &&
  negb (is_some (scalar (λ b, eqb (tk_token_hash b) (tk_token_hash k)) (ticket_table t))).

(** The state is used up before the provider is asked. *)
Definition burn_state (state : string) : DB SSOLoginAttempt :=
  now ← now_db;
  found ← query (attempt_for state);
  match found with
  | None => throw (SSOError "SSO state is invalid or expired")
  | Some a =>
      raise_if (is_some (sl_used_at a) || (sl_expires_at a <=? now) || negb (contains "." state))
        (SSOError "SSO state is invalid or expired") ;;
      raise_if (negb (eqb (sl_nonce_hash a) (token_hash (after_last "." state)))) (SSOError "SSO state is invalid") ;;
      let a := used_attempt now a in
      write (upd_sso_attempts <[sl_id a := a]>) ;;
      commit ;;
      mret a
  end.

(** The rest of the exchange: the ticket for the member that the identity token names. *)
Definition issue_ticket (state code : string) (settings : sso_settings) (attempt : SSOLoginAttempt) : DB string :=
  now ← now_db;
  found ← query (λ t, sso_connections (identity t) !! sl_connection_id attempt);
  match found with
  | None => throw (SSOError "SSO connection is disabled")
  | Some c =>
      raise_if (negb (eqb (so_status c) "active")) (SSOError "SSO connection is disabled") ;;
      n ← gets seed;
      fresh_uuid ;;
      metadata ← lift_result (fetch_discovery c settings n);
      verifier ← lift_result (decrypted settings (sl_encrypted_code_verifier attempt));
      client_secret ← lift_result (decrypted settings (so_encrypted_client_secret c));
      answers ← lift_result (exchange_code settings c metadata code verifier client_secret n);
      id_token ← lift_result (id_token_of answers.1);
      claims ← lift_result (_validated_claims id_token c (after_last "." state) answers.2 now);
      let email := py_lower (default "" (verified_email claims)) in
      raise_if (negb (domain_allowed (so_allowed_domains c) email)) not_allowed ;;
      policy ← query (λ t, org_policies t !! so_organization_id c);
      raise_if (negb (domain_allowed match policy with Some p => op_allowed_email_domains p | None => [] end email)) not_allowed ;;
      user ← get_or (member_with_email (so_organization_id c) email) (SSOError "SSO identity is not an active organization member");
      ticket ← fresh_urlsafe 32;
      mfa_verified ← lift_result (second_factor claims);
      id ← fresh_uuid;
      let row := MkTicket id (us_id user) (so_organization_id c) (token_hash ticket) mfa_verified (now + 60 * second) None in
      insert_checked (ticket_ok row) (upd_sso_tickets <[id := row]>) ;;
      commit ;;
      mret ticket
  end.

Definition complete_login (state code : string) (settings : sso_settings) : DB string :=
  attempt ← burn_state state;
  issue_ticket state code settings attempt.

Definition used_ticket (now : time) (k : SSOLoginTicket) : SSOLoginTicket :=
  MkTicket (tk_id k) (tk_user_id k) (tk_organization_id k) (tk_token_hash k) (tk_mfa_verified k) (tk_expires_at k) (Some now).
Definition ticket_for (ticket : string) (t : tables) : option SSOLoginTicket :=
  scalar (λ k, eqb (tk_token_hash k) (token_hash ticket)) (ticket_table t).
Definition redeem_ticket (ticket : string) : DB (User * bool) :=
  now ← now_db;
  found ← query (ticket_for ticket);
  match found with
  | None => throw (SSOError "SSO ticket is invalid or expired")
  | Some k =>
      raise_if (is_some (tk_used_at k) || (tk_expires_at k <=? now)) (SSOError "SSO ticket is invalid or expired") ;;
      user ← query (λ t, users (identity t) !! tk_user_id k);
      member ← query (λ t, active_in (tk_organization_id k) t (tk_user_id k));
      match user with
      | Some u =>
          raise_if (negb (us_is_active u) || negb member) (SSOError "SSO organization access is no longer active") ;;
          let k := used_ticket now k in
          write (upd_sso_tickets <[tk_id k := k]>) ;;
          commit ;;
          mret (u, tk_mfa_verified k)
      | None => throw (SSOError "SSO organization access is no longer active")
      end
  end.

(** ** Handlers: signing in *)

Definition sso_as (status : Z) {A} (m : DB A) : DB A :=
  try_except m (λ e, match e with SSOError message => throw (HTTPException status message) | e => throw e end).
Definition newest_connection (org : uuid) (connection_id : option uuid) (t : tables) : option SSOConnection :=
  head (order_desc so_created_at so_id (select_rows (λ c, eqb (so_organization_id c) org && eqb (so_status c) "active" &&
    opt_check (eqb (so_id c)) connection_id) (sso_connections (identity t)))).
Definition sso_start (organization_id : uuid) (connection_id : option uuid) (settings : sso_settings) : DB string :=
  c ← get_or (newest_connection organization_id connection_id) (HTTPException 404 "Active SSO connection not found");
  sso_as 502 (start_login c settings).
Definition sso_callback (state code : string) (settings : sso_settings) : DB string :=
  ticket ← sso_as 401 (complete_login state code settings);
  mret (rstrip_slash (so_web_app_url settings) +:+ "/sso/callback?" +:+ url_encode [("ticket", ticket); ("state", state)]).
Context `{TokenServices}.
Definition sso_exchange (ticket : string) (settings : auth_settings) (info : request_info) : DB string :=
  redeemed ← sso_as 401 (redeem_ticket ticket);
  token ← issue_session (us_id redeemed.1) settings info "oidc" redeemed.2;
  account_event (us_id redeemed.1) "login_success" "Company SSO sign-in" "info" true ;;
  mret token.

(** ** Handlers: the owner's settings *)

Record SecurityPolicyUpdate : Type := MkPolicyValues {
  su_require_mfa : bool;
  su_require_sso : bool;
  su_session_timeout_minutes : Z;
  su_max_session_lifetime_minutes : Z;
  su_allowed_email_domains : list string;
  su_require_manual_approval_above_amount : option dec;
  su_approval_threshold_currency : string;
  su_block_critical_risk : bool;
  su_require_approval_for_high_risk : bool
}.
(** [[a-z0-9-]+(\.[a-z0-9-]+)+] *)
Definition domain_char (c : ascii) : bool := in_range 97 122 c || in_range 48 57 c || eqb c "-"%char.
Definition is_domain (s : string) : bool :=
  let parts := split_on "." s in
  (1 <? length parts)%nat && forallb (λ p, not_empty p && all_in domain_char p) parts.
Fixpoint dedup (l : list string) : list string :=
  match l with [] => [] | x :: l => let l := dedup l in if existsb (eqb x) l then l else x :: l end.
Definition domains (values : list string) : option (list string) :=
  let cleaned := map (λ v, py_lower (py_strip v)) values in
  if forallb is_domain cleaned then Some (sort_strings (dedup cleaned)) else None.
(** The validated values; [None] is pydantic's [ValidationError]. *)
Definition validate_policy (u : SecurityPolicyUpdate) : option SecurityPolicyUpdate :=
  ds ← domains (su_allowed_email_domains u);
  if (5 <=? su_session_timeout_minutes u) && (su_session_timeout_minutes u <=? 60) &&
     (15 <=? su_max_session_lifetime_minutes u) && (su_max_session_lifetime_minutes u <=? 1440) &&
     (length (su_allowed_email_domains u) <=? 20)%nat &&
     opt_check (λ a, dec_pos a && decimal_fits a) (su_require_manual_approval_above_amount u) &&
     is_currency (su_approval_threshold_currency u) &&
     (su_session_timeout_minutes u <=? su_max_session_lifetime_minutes u)
  then Some (MkPolicyValues (su_require_mfa u) (su_require_sso u) (su_session_timeout_minutes u)
    (su_max_session_lifetime_minutes u) ds (su_require_manual_approval_above_amount u) (su_approval_threshold_currency u)
    (su_block_critical_risk u) (su_require_approval_for_high_risk u))
  else None.
Definition default_policy : SecurityPolicyUpdate := MkPolicyValues false false 15 1440 [] None "USD" true true.
Definition values_of (p : OrganizationSecurityPolicy) : SecurityPolicyUpdate :=
  MkPolicyValues (op_require_mfa p) (op_require_sso p) (op_session_timeout_minutes p) (op_max_session_lifetime_minutes p)
    (op_allowed_email_domains p) (op_require_manual_approval_above_amount p) (op_approval_threshold_currency p)
    (op_block_critical_risk p) (op_require_approval_for_high_risk p).
Definition policy_with (org : uuid) (u : SecurityPolicyUpdate) : OrganizationSecurityPolicy :=
  MkOrgPolicy org (su_require_mfa u) (su_require_sso u) (su_session_timeout_minutes u) (su_max_session_lifetime_minutes u)
    (su_allowed_email_domains u) (numeric4 <$> su_require_manual_approval_above_amount u) (su_approval_threshold_currency u)
    (su_block_critical_risk u) (su_require_approval_for_high_risk u).

Definition _owner (user org : uuid) : DB unit :=
  w ← get_or (resolve_workspace user (Some org)) (HTTPException 404 "Organization not found");
  require w "manage_security_policy".
(** [_policy]: a stored policy is validated anew when it is answered. *)
Definition current_policy (org : uuid) (t : tables) : SecurityPolicyUpdate :=
  match org_policies t !! org with Some p => values_of p | None => default_policy end.
Definition read_policy (org : uuid) : DB SecurityPolicyUpdate :=
  u ← query (current_policy org);
  match validate_policy u with Some u => mret u | None => throw (PyError ValueError) end.
Definition get_policy (cl : caller) (org : uuid) : DB SecurityPolicyUpdate := _owner (cl_user cl) org ;; read_policy org.

Definition org_alert (user org : uuid) (title message : string) : notification_args :=
  {| na_user_id := user; na_type := SECURITY_ALERT; na_title := title; na_message := message; na_priority := PrioHigh;
     na_organization_id := Some org; na_related_request_id := None; na_related_agent_id := None;
     na_related_permission_id := None; na_metadata := None; na_deduplication_key := None |}.
Definition org_event (user org : uuid) (event_type description severity : string) : DB unit :=
  record_event (event_args event_type (Some user) (Some org) None (Some description) severity []) false ;; mret tt.
Definition has_active_connection (org : uuid) (t : tables) : bool :=
  is_some (scalar (λ c, eqb (so_organization_id c) org && eqb (so_status c) "active") (sso_connections (identity t))).

(** [payload.model_dump(exclude_unset=True)]: the fields that the body sets. *)
Record policy_patch : Type := MkPolicyPatch {
  pp_require_mfa : option bool;
  pp_require_sso : option bool;
  pp_session_timeout_minutes : option Z;
  pp_max_session_lifetime_minutes : option Z;
  pp_allowed_email_domains : option (list string);
  pp_require_manual_approval_above_amount : option (option dec);
  pp_approval_threshold_currency : option string;
  pp_block_critical_risk : option bool;
  pp_require_approval_for_high_risk : option bool
}.
Definition merge_policy (p : policy_patch) (u : SecurityPolicyUpdate) : SecurityPolicyUpdate :=
  MkPolicyValues (default (su_require_mfa u) (pp_require_mfa p)) (default (su_require_sso u) (pp_require_sso p))
    (default (su_session_timeout_minutes u) (pp_session_timeout_minutes p))
    (default (su_max_session_lifetime_minutes u) (pp_max_session_lifetime_minutes p))
    (default (su_allowed_email_domains u) (pp_allowed_email_domains p))
    (default (su_require_manual_approval_above_amount u) (pp_require_manual_approval_above_amount p))
    (default (su_approval_threshold_currency u) (pp_approval_threshold_currency p))
    (default (su_block_critical_risk u) (pp_block_critical_risk p))
    (default (su_require_approval_for_high_risk u) (pp_require_approval_for_high_risk p)).

(** The merge with the stored policy is validated, and an error of that validation is not
    an answer of the API. *)
Definition set_policy (cl : caller) (org : uuid) (payload : policy_patch) : DB SecurityPolicyUpdate :=
  _owner (cl_user cl) org ;;
  Signing.require_recent_step_up cl ;;
  u ← read_policy org;
  match validate_policy (merge_policy payload u) with
  | None => throw (PyError ValueError)
  | Some merged =>
      active ← query (has_active_connection org);
      raise_if (su_require_sso merged && negb active)
        (HTTPException 409 "Enable and test an SSO connection before requiring SSO") ;;
      write (upd_org_policies <[org := policy_with org merged]>) ;;
      org_event (cl_user cl) org "security_policy_changed" "Organization security policy updated" "warning" ;;
      create_notification (org_alert (cl_user cl) org "Organization Security Policy Changed"
        "Your organization security policy was updated.") ;;
      commit ;;
      read_policy org
  end.

Record SSOConnectionCreate : Type := MkConnectionBody {
  sb_name : string;
  sb_issuer : string;
  sb_client_id : string;
  sb_client_secret : string;
  sb_discovery_url : string;
  sb_allowed_domains : list string
}.
Definition list_connections (cl : caller) (org : uuid) : DB (list SSOConnection) :=
  _owner (cl_user cl) org ;;
  query (λ t, order_desc so_created_at so_id (select_rows (λ c, eqb (so_organization_id c) org) (sso_connections (identity t)))).
Definition new_connection_ok (c : SSOConnection) (t : tables) : bool :=
  negb (is_some (sso_connections (identity t) !! so_id c)) && fits 120 (so_name c) && fits 512 (so_issuer c) &&
  fits 255 (so_client_id c) && fits 1024 (so_encrypted_client_secret c) && fits 1024 (so_discovery_url c).
Definition create_connection (cl : caller) (org : uuid) (payload : SSOConnectionCreate) (settings : sso_settings) : DB SSOConnection :=
  _owner (cl_user cl) org ;;
  Signing.require_recent_step_up cl ;;
  n ← gets seed;
  encrypted ← sso_as 400
    (lift_result (check_provider_url (sb_issuer payload) settings) ;;
     lift_result (check_provider_url (sb_discovery_url payload) settings) ;;
     lift_result (encrypt_provider_secret settings (sb_client_secret payload) n));
  ds ← lift_result match domains (sb_allowed_domains payload) with Some ds => Ok ds | None => Err (PyError ValueError) end;
  id ← fresh_uuid;
  now ← now_db;
  let c := MkSSOConnection id org (sb_name payload) (rstrip_slash (sb_issuer payload)) (sb_client_id payload) encrypted
    (sb_discovery_url payload) ds "draft" None now in
  insert_checked (new_connection_ok c) (upd_sso_connections <[id := c]>) ;;
  commit ;;
  mret c.

Definition set_sso_status (st : string) (verified : option time) (c : SSOConnection) : SSOConnection :=
  MkSSOConnection (so_id c) (so_organization_id c) (so_name c) (so_issuer c) (so_client_id c) (so_encrypted_client_secret c)
    (so_discovery_url c) (so_allowed_domains c) st verified (so_created_at c).
Definition _connection (org connection_id : uuid) : DB SSOConnection :=
  get_or (λ t, scalar (λ c, eqb (so_id c) connection_id && eqb (so_organization_id c) org) (sso_connections (identity t)))
    (HTTPException 404 "SSO connection not found").
Definition save_sso_connection (c : SSOConnection) : DB unit := write (upd_sso_connections <[so_id c := c]>).
Definition test_connection (cl : caller) (org connection_id : uuid) (settings : sso_settings) : DB SSOConnection :=
  _owner (cl_user cl) org ;;
  Signing.require_recent_step_up cl ;;
  c ← _connection org connection_id;
  n ← gets seed;
  fresh_uuid ;;
  sso_as 502 (lift_result (fetch_discovery c settings n)) ;;
  now ← now_db;
  let c := set_sso_status (so_status c) (Some now) c in
  save_sso_connection c ;;
  commit ;;
  mret c.
Definition enable_connection (cl : caller) (org connection_id : uuid) : DB SSOConnection :=
  _owner (cl_user cl) org ;;
  Signing.require_recent_step_up cl ;;
  c ← _connection org connection_id;
  raise_if (negb (is_some (so_verified_at c))) (HTTPException 409 "Test this SSO connection first") ;;
  let c := set_sso_status "active" (so_verified_at c) c in
  save_sso_connection c ;;
  org_event (cl_user cl) org "sso_enabled" "SSO connection enabled" "warning" ;;
  create_notification (org_alert (cl_user cl) org "Company SSO Enabled" "A company SSO connection was enabled.") ;;
  commit ;;
  mret c.
Definition disable_connection (cl : caller) (org connection_id : uuid) : DB SSOConnection :=
  _owner (cl_user cl) org ;;
  Signing.require_recent_step_up cl ;;
  policy ← query (λ t, org_policies t !! org);
  raise_if (match policy with Some p => op_require_sso p | None => false end)
    (HTTPException 409 "Disable the SSO requirement before disabling this connection") ;;
  c ← _connection org connection_id;
  let c := set_sso_status "disabled" (so_verified_at c) c in
  save_sso_connection c ;;
  org_event (cl_user cl) org "sso_disabled" "SSO connection disabled" "warning" ;;
  create_notification (org_alert (cl_user cl) org "Company SSO Disabled" "A company SSO connection was disabled.") ;;
  commit ;;
  mret c.
End sso.
End Sso.
