(* ===== verification/SsoProps.v ===== *)
(** What company sign-in guarantees ([Sso]): whose identity a ticket stands for, and that
    states and tickets are used once. *)
From Stdlib Require Import Ascii.
From S2P Require Import Prelude.
From S2P Require Import PyStr.
From S2P Require Import PyFloat.
From S2P Require Import PyVal.
From S2P Require Import PyDecimal.
From S2P Require Import Models.
From S2P Require Import PyCodec.
From S2P Require Import PyNet.
From S2P Require Import Ssrf.
From S2P Require Import Store.
From S2P Require Import Samples.
From S2P Require Import SecurityEvents.
From S2P Require Import Soc.
From S2P Require Import SocProps.
From S2P Require Import Workspace.
From S2P Require Import Signing.
From S2P Require Import Notifications.
From S2P Require Import Frames.
From S2P Require Import Mfa.
From S2P Require Import MfaProps.
From S2P Require Import Auth.
From S2P Require Import AuthProps.
From S2P Require Import Sso.

Local Open Scope string_scope.
Local Open Scope Z_scope.

Module SsoProps.
Import SecurityEvents Workspace Notifications Frames Mfa Auth Sso.

(** ** Used once *)

Definition sso_ok (t : tables) : Prop :=
  one_time_ok sl_id sl_state_hash (attempt_table t) ∧ one_time_ok tk_id tk_token_hash (ticket_table t).
Definition sso_step (t t' : tables) : Prop :=
  one_time_step sl_id sl_state_hash sl_used_at (attempt_table t) (attempt_table t') ∧
  one_time_step tk_id tk_token_hash tk_used_at (ticket_table t) (ticket_table t').
#[export] Instance sso_step_preorder : PreOrder sso_step.
Proof.
  split.
  - intros t. split; reflexivity.
  - intros t1 t2 t3 [A12 T12] [A23 T23]. split; etrans; eassumption.
Qed.
Lemma sso_same t t' : attempt_table t' = attempt_table t → ticket_table t' = ticket_table t → sso_step t t'.
Proof. intros Ha Ht. unfold sso_step. rewrite Ha, Ht. split; reflexivity. Qed.

Section sso.
Context `{Entropy} `{SecuritySinks} `{AccountServices} `{OidcServices} `{TokenServices}.
Context (Hignores : Ignores sso_step).
Local Existing Instance Hignores.

Lemma start_step c settings : respects (evolves sso_step) (start_login c settings).
Proof.
  unfold start_login. walk. apply evolves_insert; [apply _|]. intros t Hok. unfold attempt_ok in Hok.
  rewrite !andb_true_iff, !negb_true_iff, !is_some_false in Hok. destruct Hok as [[Hid Hnew] _].
  split; [|reflexivity]. by apply (one_time_insert sl_id sl_state_hash sl_used_at _ _ Hid).
Qed.

Lemma burn_step state : respects (evolves sso_step) (burn_state state).
Proof.
  intros s. unfold burn_state. rewrite bind_now, bind_query. destruct (attempt_for state (cur s)) as [a|] eqn:Ha; [|done].
  apply scalar_Some in Ha as (k & Hk & _). past Hused. past Hnonce. cbv zeta.
  apply evolves_write_here; [apply _ | | walk]. split; [|reflexivity]. by eapply (one_time_mark _ _ _ _ _ a).
Qed.
Lemma ticket_step state code settings a : respects (evolves sso_step) (issue_ticket state code settings a).
Proof.
  unfold issue_ticket. walk. apply evolves_insert; [apply _|]. intros t Hok. unfold ticket_ok in Hok.
  rewrite !andb_true_iff, !negb_true_iff, !is_some_false in Hok. destruct Hok as [Hid Hnew].
  split; [reflexivity|]. by apply (one_time_insert tk_id tk_token_hash tk_used_at _ _ Hid).
Qed.
Lemma complete_step state code settings : respects (evolves sso_step) (complete_login state code settings).
Proof. unfold complete_login. walk; first [apply burn_step | apply ticket_step]. Qed.
Lemma redeem_step ticket : respects (evolves sso_step) (redeem_ticket ticket).
Proof.
  intros s. unfold redeem_ticket. rewrite bind_now, bind_query. destruct (ticket_for ticket (cur s)) as [k|] eqn:Hk; [|done].
  apply scalar_Some in Hk as (i & Hi & _). past Hused. rewrite bind_query, bind_query.
  destruct (users _ !! _) as [u|]; [|done]. past Hact. cbv zeta.
  apply evolves_write_here; [apply _ | | walk]. split; [reflexivity|]. by eapply (one_time_mark _ _ _ _ _ k).
Qed.

Ltac sso_walk := walk; first
  [ apply start_step | apply complete_step | apply redeem_step
  | apply evolves_write; [apply _ | intros; by apply sso_same]
  | apply evolves_insert; [apply _ | intros; by apply sso_same] ].
Lemma issue_step user settings info method mfa : respects (evolves sso_step) (issue_session user settings info method mfa).
Proof. unfold issue_session. sso_walk. Qed.
Lemma session_step u settings info mfa : respects (evolves sso_step)
  (token ← issue_session (us_id u) settings info "oidc" mfa;
   account_event (us_id u) "login_success" "Company SSO sign-in" "info" true ;; mret token).
Proof. unfold account_event. walk; apply issue_step. Qed.
Lemma exchange_step ticket settings info : respects (evolves sso_step) (sso_exchange ticket settings info).
Proof. unfold sso_exchange, sso_as, account_event. walk; first [apply redeem_step | apply issue_step]. Qed.

(** Signing in, and the owner's settings in between. *)
Inductive sso_op : Type :=
  | SsoStart (org : uuid) (connection : option uuid) (settings : sso_settings)
  | SsoCallback (state code : string) (settings : sso_settings)
  | SsoExchange (ticket : string) (settings : auth_settings) (info : request_info)
  | SsoPolicy (cl : caller) (org : uuid) (payload : policy_patch)
  | SsoCreate (cl : caller) (org : uuid) (payload : SSOConnectionCreate) (settings : sso_settings)
  | SsoTest (cl : caller) (org connection : uuid) (settings : sso_settings)
  | SsoEnable (cl : caller) (org connection : uuid)
  | SsoDisable (cl : caller) (org connection : uuid).
Record sso_incoming : Type := MkSsoIncoming { si_draws : nat; si_now : time; si_op : sso_op }.
(** The state or the ticket that an operation used up. *)
Definition perform_sso (o : sso_op) : DB (option (string + string)) :=
  match o with
  | SsoStart org connection settings => sso_start org connection settings ;; mret None
  | SsoCallback state code settings => sso_callback state code settings ;; mret (Some (inl state))
  | SsoExchange ticket settings info => sso_exchange ticket settings info ;; mret (Some (inr ticket))
  | SsoPolicy cl org payload => set_policy cl org payload ;; mret None
  | SsoCreate cl org payload settings => create_connection cl org payload settings ;; mret None
  | SsoTest cl org connection settings => test_connection cl org connection settings ;; mret None
  | SsoEnable cl org connection => enable_connection cl org connection ;; mret None
  | SsoDisable cl org connection => disable_connection cl org connection ;; mret None
  end.
Definition sso_outcome (t : tables) (i : sso_incoming) : option (string + string) * tables :=
  let '(r, t') := run_request (perform_sso (si_op i)) t (si_draws i) (si_now i) in
  (match r with Ok x => x | Err _ => None end, t').
Definition spent_sso (x : string + string) (t : tables) : Prop :=
  match x with
  | inl state => gone sl_state_hash sl_used_at (token_hash state) (attempt_table t)
  | inr ticket => gone tk_token_hash tk_used_at (token_hash ticket) (ticket_table t)
  end.

Lemma perform_sso_step o : respects (evolves sso_step) (perform_sso o).
Proof.
  destruct o; cbn [perform_sso]; unfold sso_start, sso_callback, set_policy, create_connection, test_connection,
    enable_connection, disable_connection, _owner, read_policy, org_event, _connection, save_sso_connection,
    Signing.require_recent_step_up, require, sso_as; walk; first
    [ apply start_step | apply complete_step | apply exchange_step
    | apply evolves_write; [apply _ | intros; by apply sso_same]
    | apply evolves_insert; [apply _ | intros; by apply sso_same] ].
Qed.
Lemma sso_outcome_step t i : sso_step t (sso_outcome t i).2.
Proof.
  unfold sso_outcome. pose proof (evolves_run sso_step (perform_sso (si_op i)) t (si_draws i) (si_now i) (perform_sso_step _)) as Hs.
  by destruct (run_request _ _ _ _).
Qed.

(** What follows a step that used something up keeps it used up. *)
Lemma burn_spends state s a s1 : sso_ok (cur s) → dead s = false → burn_state state s = (Ok a, s1) →
  ¬ spent_sso (inl state) (cur s) ∧ spent_sso (inl state) (cur s1) ∧ cur s1 = committed s1.
Proof.
  intros [Hok _] Hd. unfold burn_state. rewrite bind_now, bind_query.
  destruct (attempt_for state (cur s)) as [b|] eqn:Hb; [|done]. apply scalar_Some in Hb as (k & Hk & Hh). reflect.
  pass Hused. pass Hnonce. cbv zeta. rewrite bind_write by exact Hd. rewrite bind_commit by exact Hd. intros [= _ <-]. cbn.
  reflect. split_and!; [| | done].
  - rewrite <- Hh. eapply not_gone; [exact Hok | exact Hk | tauto].
  - exists (sl_id b), (used_attempt (db_now s) b). cbn. rewrite lookup_insert_eq. by split_and!.
Qed.
Lemma spent_later x t t' : sso_ok t → sso_step t t' → spent_sso x t → spent_sso x t'.
Proof. intros [Ha Ht] [Sa St]. destruct x; cbn; [by apply (Sa Ha) | by apply (St Ht)]. Qed.

Lemma callback_spends state code settings s r s' : sso_ok (cur s) → dead s = false →
  complete_login state code settings s = (Ok r, s') → ¬ spent_sso (inl state) (cur s) ∧ spent_sso (inl state) (committed s').
Proof.
  intros Hok Hd. unfold complete_login. rewrite bind_run.
  destruct (burn_state state s) as [[a|e] s1] eqn:Hburn; [|done]. intros Hrest.
  destruct (burn_spends _ _ _ _ Hok Hd Hburn) as (Hno & Hyes & Hc). split; [done|].
  pose proof (evolves_committed sso_step _ s1 (ticket_step state code settings a) Hc) as Hstep. rewrite Hrest in Hstep. cbn in Hstep.
  rewrite <- Hc in Hstep. eapply spent_later; [|exact Hstep | exact Hyes].
  destruct Hok as [Ha Ht]. revert Hburn. unfold burn_state. rewrite bind_now, bind_query.
  destruct (attempt_for state (cur s)) as [b|] eqn:Hb; [|done]. apply scalar_Some in Hb as (k & Hk & _).
  pass Hused. pass Hnonce. cbv zeta. rewrite bind_write by exact Hd. rewrite bind_commit by exact Hd. intros [= _ <-].
  split; [|exact Ht].
  exact (proj1 (one_time_mark sl_id sl_state_hash sl_used_at _ k b (used_attempt (db_now s) b) Hk eq_refl eq_refl eq_refl Ha)).
Qed.
Lemma redeem_run ticket s u mfa s' : dead s = false → redeem_ticket ticket s = (Ok (u, mfa), s') →
  ∃ i k, ticket_table (cur s) !! i = Some k ∧ tk_token_hash k = token_hash ticket ∧ tk_used_at k = None ∧
    db_now s < tk_expires_at k ∧ users (identity (cur s)) !! tk_user_id k = Some u ∧ us_is_active u = true ∧
    active_in (tk_organization_id k) (cur s) (tk_user_id k) = true ∧ mfa = tk_mfa_verified k ∧
    cur s' = upd_sso_tickets <[tk_id k := used_ticket (db_now s) k]> (cur s) ∧ committed s' = cur s'.
Proof.
  intros Hd. unfold redeem_ticket. rewrite bind_now, bind_query. destruct (ticket_for ticket (cur s)) as [k|] eqn:Hk; [|done].
  apply scalar_Some in Hk as (i & Hi & Hh). pass Hused. rewrite bind_query, bind_query.
  destruct (users _ !! _) as [v|] eqn:Hu; [|done]. pass Hact. cbv zeta. rewrite bind_write by exact Hd.
  rewrite bind_commit by exact Hd. intros [= <- <- <-]. reflect. exists i, k. split_and!; try tauto; lia.
Qed.

Lemma exchange_spends ticket settings info s r s' : sso_ok (cur s) → dead s = false →
  sso_exchange ticket settings info s = (Ok r, s') → ¬ spent_sso (inr ticket) (cur s) ∧ spent_sso (inr ticket) (committed s').
Proof.
  intros [Ha Ht] Hd. unfold sso_exchange, sso_as. rewrite bind_run. unfold try_except.
  destruct (redeem_ticket ticket s) as [[[u mfa]|e] s1] eqn:Hr; [|by destruct e].
  apply redeem_run in Hr as (i & k & Hi & Hh & Hu & _ & _ & _ & _ & _ & Hcur & Hc); [|done]. intros Hrest. split.
  - cbn. rewrite <- Hh. by eapply not_gone.
  - assert (Hev : sso_step (committed s1) (committed s')).
    { lazymatch type of Hrest with ?m s1 = _ => pose proof (evolves_committed sso_step m s1) as Hev end.
      rewrite Hrest in Hev. cbn in Hev. apply Hev; [apply session_step | by rewrite Hc]. }
    rewrite Hc, Hcur in Hev. eapply spent_later; [|exact Hev |].
    + split; [exact Ha|].
      exact (proj1 (one_time_mark tk_id tk_token_hash tk_used_at _ i k (used_ticket (db_now s) k) Hi eq_refl eq_refl eq_refl Ht)).
    + exists (tk_id k), (used_ticket (db_now s) k). cbn. rewrite lookup_insert_eq. by split_and!.
Qed.

Lemma sso_outcome_spends t i x : sso_ok t → (sso_outcome t i).1 = Some x → ¬ spent_sso x t ∧ spent_sso x (sso_outcome t i).2.
Proof.
  intros Hok. unfold sso_outcome, run_request. set (s := open_session t (si_draws i) (si_now i)).
  destruct (si_op i) as [| state code settings | ticket settings info | | | | |]; cbn [perform_sso]; rewrite bind_run;
    lazymatch goal with |- context [match ?m s with _ => _ end] => destruct (m s) as [[r|e] s'] eqn:Hr end; try done;
    cbn; intros [= <-].
  - revert Hr. unfold sso_callback, sso_as. rewrite bind_run. unfold try_except.
    destruct (complete_login state code settings s) as [[ticket|e] s1] eqn:Hc; [|by destruct e]. intros [= _ <-].
    exact (callback_spends state code settings s ticket s1 Hok eq_refl Hc).
  - exact (exchange_spends ticket settings info s _ s' Hok eq_refl Hr).
Qed.

(** Over any sequence of sign-ins and of changes to the settings, a state of the
    authorization-code flow completes at most one sign-in, and a ticket is exchanged for
    at most one session. *)
Theorem sso_used_once t ops i j x : sso_ok t →
  outcomes_of sso_outcome t ops !! i = Some (Some x) → outcomes_of sso_outcome t ops !! j = Some (Some x) → i = j.
Proof.
  apply (used_once sso_outcome sso_ok spent_sso).
  - intros u o [Ha Ht]. destruct (sso_outcome_step u o) as [Sa St]. split; [by apply Sa | by apply St].
  - intros u o y Hu. apply spent_later; [done | apply sso_outcome_step].
  - intros u o y Hu. by apply sso_outcome_spends.
Qed.

(** ** Whose identity *)

(** The claims come from a token whose signature verifies under a key of the provider,
    for the issuer and the client of the connection and for the nonce. *)
Definition vouched (c : SSOConnection) (nonce : string) (jwks : pyval) (claims : list (string * pyval)) (now : time) : Prop :=
  ∃ id_token header alg d ks key, jwt_header id_token = Some header ∧ get "alg" header = VStr alg ∧
    alg ∈ ["RS256"; "PS256"; "ES256"] ∧ jwks = VDict d ∧ get "keys" d = VList ks ∧ VDict key ∈ ks ∧
    py_eq (get "kid" key) (get "kid" header) = true ∧
    jwt_claims key alg id_token (so_issuer c) (so_client_id c) now = Some claims ∧
    id_token_valid claims header nonce (so_client_id c) now = true ∧ audience_ok claims (so_client_id c) = true.

Lemma in_set_text v set : in_set v set = Ok true → ∃ s, v = VStr s ∧ s ∈ set.
Proof.
  unfold in_set. destruct (hashable v); [|done]. intros [= (s & Hs & He)%existsb_exists].
  exists s. split; [|by apply list_elem_of_In]. destruct v; try discriminate He. cbn in He. by apply (proj1 (eqb_true _ _)) in He as ->.
Qed.
Lemma select_key_in kid ks key : select_key kid ks = Ok (Some key) → VDict key ∈ ks ∧ py_eq (get "kid" key) kid = true.
Proof.
  induction ks as [|k ks IH]; [done|]. destruct k as [| | | | | |d]; try done. cbn. destruct (py_eq (get "kid" d) kid) eqn:He.
  - intros Hd. injection Hd as <-. split; [apply list_elem_of_here | done].
  - intros [Hin Hk]%IH. split; [by apply list_elem_of_further | done].
Qed.
Lemma claims_vouched id_token c nonce jwks now claims : _validated_claims id_token c nonce jwks now = Ok claims →
  vouched c nonce jwks claims now ∧ ∃ email, verified_email claims = Some email.
Proof.
  unfold _validated_claims. destruct jwks as [| | | | | |d]; try done. destruct (get "keys" d) as [| | | | |ks|] eqn:Hks; try done.
  destruct (jwt_header id_token) as [header|] eqn:Hh; [|done].
  destruct (in_set (get "alg" header) _) as [b|] eqn:Halg; [|done]. cbn [mbind result_bind].
  destruct b; [|done]. destruct (truthy _); [|done]. cbn [negb orb].
  destruct (select_key _ ks) as [[key|]|] eqn:Hkey; try done. cbn.
  destruct (in_set (get "kty" key) _) as [[]|]; try done. cbn.
  apply in_set_text in Halg as (alg & Halg & Hin). rewrite Halg. cbn.
  destruct (jwt_claims _ _ _ _ _ _) as [cl|] eqn:Hcl; [|done].
  destruct (id_token_valid _ _ _ _ _) eqn:Hv; [|done]. cbn. destruct (audience_ok _ _) eqn:Ha; [|done]. cbn.
  destruct (verified_email cl) as [email|] eqn:He; [|done]. intros [= <-]. apply select_key_in in Hkey as [Hk Hkid].
  split; [|by exists email]. by exists id_token, header, alg, d, ks, key.
Qed.
Lemma any_in_set_text l set : any_in_set l set = Ok true → ∃ s, VStr s ∈ l ∧ s ∈ set.
Proof.
  induction l as [|v l IH]; [done|]. cbn. destruct (in_set v set) as [[]|] eqn:Hv; cbn; try done.
  - intros _. apply in_set_text in Hv as (s & -> & Hs). exists s. split; [apply list_elem_of_here | done].
  - intros (s & Hs & Hin)%IH. exists s. split; [by apply list_elem_of_further | done].
Qed.
Lemma lift_Ok {A B} (r : result Exc A) (k : A → DB B) s b s' : (lift_result r ≫= k) s = (Ok b, s') →
  ∃ a, r = Ok a ∧ k a s = (Ok b, s').
Proof. rewrite bind_run. unfold lift_result. destruct r as [a|e]; [|done]. by exists a. Qed.

(** C16. A ticket is issued only for an unused, unexpired state of this deployment, under
    an active connection whose provider vouches with one of its own keys for a verified
    address of an allowed domain that belongs to an active member of the organization;
    it names that member, counts as second factor only when the provider says so, and
    lives for a minute. *)
Theorem sso_sign_in_sound state code settings s ticket s' :
  dead s = false → complete_login state code settings s = (Ok ticket, s') →
  let t := cur s in let now := db_now s in let nonce := after_last "." state in
  ∃ k a c metadata verifier secret n token_data jwks claims email i u,
    attempt_table t !! k = Some a ∧ sl_state_hash a = token_hash state ∧ sl_used_at a = None ∧ now < sl_expires_at a ∧
    sl_nonce_hash a = token_hash nonce ∧
    sso_connections (identity t) !! sl_connection_id a = Some c ∧ so_status c = "active" ∧
    fetch_discovery c settings n = Ok metadata ∧
    exchange_code settings c metadata code verifier secret n = Ok (token_data, jwks) ∧
    vouched c nonce jwks claims now ∧ verified_email claims = Some email ∧
    domain_allowed (so_allowed_domains c) (py_lower email) = true ∧
    (∀ p, org_policies t !! so_organization_id c = Some p → domain_allowed (op_allowed_email_domains p) (py_lower email) = true) ∧
    users (identity t) !! i = Some u ∧ py_lower (us_email u) = py_lower email ∧ us_is_active u = true ∧
    active_in (so_organization_id c) t (us_id u) = true ∧
    ∃ id row, ticket_table (committed s') = <[id := row]> (ticket_table t) ∧ tk_user_id row = us_id u ∧
      tk_organization_id row = so_organization_id c ∧ tk_token_hash row = token_hash ticket ∧ tk_used_at row = None ∧
      tk_expires_at row = now + 60 * second ∧
      (tk_mfa_verified row = true → ∃ l f, get "amr" claims = VList l ∧ VStr f ∈ l ∧ f ∈ ["mfa"; "otp"; "hwk"; "fido"]).
Proof.
  intros Hd. unfold complete_login, burn_state. rewrite bind_assoc, bind_now, bind_assoc, bind_query.
  destruct (attempt_for state (cur s)) as [a|] eqn:Ha; [|done]. apply scalar_Some in Ha as (k & Hk & Hh). reflect.
  rewrite bind_assoc. pass Hused. rewrite bind_assoc. pass Hnonce. cbv zeta. rewrite bind_assoc, bind_write by exact Hd.
  rewrite bind_assoc, bind_commit by exact Hd. rewrite bind_ret. unfold issue_ticket. rewrite bind_now, bind_query.
  cbn [cur set_cur db_now]. cbn [sl_connection_id used_attempt].
  change (sso_connections (identity (upd_sso_attempts _ (cur s)))) with (sso_connections (identity (cur s))).
  destruct (sso_connections _ !! _) as [c|] eqn:Hc; [|done]. pass Hact. rewrite bind_gets, bind_fresh_uuid.
  intros (metadata & Hmeta & Hrun)%lift_Ok. apply lift_Ok in Hrun as (verifier & _ & Hrun).
  apply lift_Ok in Hrun as (secret & _ & Hrun). apply lift_Ok in Hrun as ([token_data jwks] & Hex & Hrun).
  apply lift_Ok in Hrun as (id_token & _ & Hrun). apply lift_Ok in Hrun as (claims & Hcl & Hrun).
  apply claims_vouched in Hcl as [Hv [email He]]. revert Hrun. cbv zeta. rewrite He. cbn [default from_option id].
  pass Hdom. rewrite bind_query. pass Hpol. rewrite bind_get_or.
  destruct (member_with_email _ _ _) as [u|] eqn:Hu; [|done]. apply scalar_Some in Hu as (i & Hi & Hmatch). reflect.
  rewrite bind_fresh_urlsafe. intros (mfa & Hmfa & Hrun)%lift_Ok. revert Hrun. rewrite bind_fresh_uuid.
  rewrite bind_insert by done. destruct (ticket_ok _ _); [|done]. rewrite bind_commit by done. intros [= <- <-].
  exists k, a, c, metadata, verifier, secret. eexists _, token_data, jwks, claims, email, i, u.
  split_and!; try done; try tauto.
  - intros p Hp. cbn [cur next_seed] in Hpol. change (org_policies (upd_sso_attempts _ (cur s))) with (org_policies (cur s)) in Hpol.
    by rewrite Hp in Hpol.
  - eexists _, _. split; [reflexivity|]. cbn [tk_user_id tk_organization_id tk_token_hash tk_used_at tk_expires_at tk_mfa_verified].
    split_and!; try reflexivity. intros Ht. subst mfa. unfold second_factor in Hmfa.
    destruct (get "amr" claims) as [| | | | |l|]; try done. apply any_in_set_text in Hmfa as (f & Hf & Hin). by exists l, f.
Qed.
End sso.

(** ** Witnesses *)

Local Existing Instance SocProps.no_services.
Local Existing Instance SocProps.no_ambient.
Local Existing Instance Siem.soc_sinks.
Local Existing Instance MfaProps.toy_accounts.
Local Existing Instance AuthProps.toy_tokens.

(** A provider on the test host that vouches for user 9 with a second factor. *)
Definition toy_metadata : list (string * pyval) :=
  [("issuer", VStr "http://localhost"); ("authorization_endpoint", VStr "http://localhost/a"); ("token_endpoint", VStr "http://localhost/t");
   ("jwks_uri", VStr "http://localhost/k"); ("response_types_supported", VList [VStr "code"]);
   ("code_challenge_methods_supported", VList [VStr "S256"])].
Definition toy_claims : list (string * pyval) :=
  [("email", VStr "User9@example.com"); ("email_verified", VBool true); ("aud", VStr "client"); ("amr", VList [VStr "pwd"; VStr "otp"])].
Definition toy_provider : OidcServices :=
  {| sso_resolver := Ssrf.public_resolver;
     sso_get url n := Fetched (VDict (if eqb url "http://localhost/d" then toy_metadata
       else [("keys", VList [VDict [("kid", VStr "k1"); ("kty", VStr "RSA")]])]));
     sso_post url form auth n := Fetched (VDict [("id_token", VStr "token")]);
     jwt_header token := Some [("alg", VStr "RS256"); ("kid", VStr "k1")];
     jwt_claims key alg token issuer audience now := Some toy_claims;
     id_token_valid claims header nonce client_id now := true; s256_challenge v := v; url_encode fields := "" |}.
Local Existing Instance toy_provider.
Definition toy_sso : sso_settings := MkSsoSettings "test" "key" "http://localhost" "http://localhost".
Definition okta : SSOConnection :=
  MkSSOConnection 600 50 "Okta" "http://localhost" "client" "secret" "http://localhost/d" ["example.com"] "active" (Some 0) 0.
Definition company : tables :=
  upd_sso_connections (λ _, keyed so_id [okta]) (account_tables [sample_user 9] [sample_org 50 9] [sample_member 1 50 9 OWNER] []).
Lemma sso_ignored : Ignores sso_step.
Proof.
  split; [|by intros f t; apply sso_same ..]. apply Siem.soc_sinks_respect; [apply _ | |]; intros f t; by apply sso_same.
Defined.
Lemma company_ok : sso_ok company.
Proof.
  split; (split; [intros k v Hk | intros i j a b Hi]); exfalso; [vm_compute in Hk; destruct k | vm_compute in Hi; destruct i
    | vm_compute in Hk; destruct k | vm_compute in Hi; destruct i]; discriminate.
Qed.

(** Start, the callback twice, and the exchange of the ticket twice. *)
Definition state_1 : string := "url1.url2".
Definition ticket_1 : string := "url11".
Definition sign_in : list sso_incoming :=
  [MkSsoIncoming 0 hour (SsoStart 50 None toy_sso);
   MkSsoIncoming 10 hour (SsoCallback state_1 "code" toy_sso); MkSsoIncoming 20 hour (SsoCallback state_1 "code" toy_sso);
   MkSsoIncoming 30 hour (SsoExchange ticket_1 AuthProps.toy_auth (MkRequestInfo "" ""));
   MkSsoIncoming 40 hour (SsoExchange ticket_1 AuthProps.toy_auth (MkRequestInfo "" ""))].
Lemma sso_used_once_witness :
  outcomes_of sso_outcome company sign_in = [None; Some (inl state_1); None; Some (inr ticket_1); None] ∧
  ∀ j, outcomes_of sso_outcome company sign_in !! j = Some (Some (inr ticket_1)) → 3%nat = j.
Proof.
  assert (Hrun : outcomes_of sso_outcome company sign_in = [None; Some (inl state_1); None; Some (inr ticket_1); None])
    by (vm_compute; reflexivity).
  split; [exact Hrun|]. intros j Hj.
  refine (sso_used_once sso_ignored company sign_in 3 j (inr ticket_1) company_ok _ Hj). by rewrite Hrun.
Defined.

Definition started : tables := (sso_outcome company (MkSsoIncoming 0 hour (SsoStart 50 None toy_sso))).2.
Lemma sso_sign_in_sound_witness :
  ∃ ticket s', complete_login state_1 "code" toy_sso (open_session started 10 hour) = (Ok ticket, s') ∧
    ∃ u id row, us_is_active u = true ∧ ticket_table (committed s') = <[id := row]> (ticket_table started) ∧
      tk_user_id row = us_id u ∧ tk_expires_at row = hour + 60 * second.
Proof.
  assert (Hrun : ∃ ticket s', complete_login state_1 "code" toy_sso (open_session started 10 hour) = (Ok ticket, s'))
    by (eexists _, _; vm_compute; reflexivity).
  destruct Hrun as (ticket & s' & Hrun). exists ticket, s'. split; [exact Hrun|].
  destruct (sso_sign_in_sound state_1 "code" toy_sso (open_session started 10 hour) ticket s' eq_refl Hrun) as
    (k & a & c & metadata & verifier & secret & n & td & jwks & claims & email & i & u & H').
  exists u. destruct H' as (_ & _ & _ & _ & _ & _ & _ & _ & _ & _ & _ & _ & _ & _ & _ & Hact & _ & id & row & Hrow & Hu & _ & _ & _ & He & _).
  exists id, row. split; [exact Hact | split; [exact Hrow | split; [exact Hu | exact He]]].
Defined.
End SsoProps.
