(* ===== verification/ApiKeys.v ===== *)
(** API keys ([backend/app/services/api_keys.py] and their handlers in
    [api/developer.py]): generation, one-way storage, authentication, revocation.

    The body of an error answer is its code; the answer of the rate limiter
    ([RateLimit]) is an argument. *)
From Stdlib Require Import Ascii.
From S2P Require Import Prelude.
From S2P Require Import PyStr.
From S2P Require Import PyFloat.
From S2P Require Import PyVal.
From S2P Require Import PyDecimal.
From S2P Require Import Models.
From S2P Require Import Store.
From S2P Require Import SecurityEvents.
From S2P Require Import Workspace.
From S2P Require Import Signing.
From S2P Require Import Notifications.
From S2P Require Import PlanLimits.

Local Open Scope string_scope.
Local Open Scope Z_scope.

Module ApiKeys.
Import SecurityEvents Workspace Notifications PlanLimits.

Definition KEY_PREFIX_LENGTH : nat := 20.
Definition MAX_KEY_ATTEMPTS : nat := 5.
Definition upd_api_keys f : tables → tables := upd_identity (on_api_keys f).
Definition keys (t : tables) : gmap uuid APIKey := api_keys (identity t).

Record DeveloperPrincipal : Type := MkPrincipal {
  dp_api_key : APIKey;
  dp_user : User;
  dp_organization : option Organization
}.
Record APIKeyCreate : Type := MkAPIKeyCreate {
  akc_name : string;
  akc_organization_id : option uuid;
  akc_environment : string;
  akc_expires_at : option time
}.

Definition set_key (st : APIKeyStatus) (used revoked : option time) (k : APIKey) : APIKey :=
  MkAPIKey (ak_id k) (ak_created_at k) (ak_organization_id k) (ak_created_by_user_id k) (ak_name k) (ak_environment k)
    (ak_key_prefix k) (ak_key_hash k) st used (ak_expires_at k) revoked.
Definition expire_key (k : APIKey) : APIKey := set_key KeyExpired (ak_last_used_at k) (ak_revoked_at k) k.
Definition withdraw_key (now : time) (k : APIKey) : APIKey := set_key KeyRevoked (ak_last_used_at k) (Some now) k.
Definition touch_key (now : time) (k : APIKey) : APIKey := set_key (ak_status k) (Some now) (ak_revoked_at k) k.

Section keys.
Context `{Entropy} `{SecuritySinks} `{Hashing}.

Definition hash_api_key (value : string) : string := sha256_hex value.
Definition generate_api_key (environment : string) : DB string :=
  token ← fresh_hex 32;
  mret ((if eqb environment "sandbox" then "at_test_" else "at_live_") +:+ token).

Definition active_organization (org : uuid) (t : tables) : option Organization :=
  match organizations (identity t) !! org with Some o => if og_is_active o then Some o else None | None => None end.

(** The unique columns of the table. *)
Definition new_key_ok (k : APIKey) (t : tables) : bool :=
  let taken k' := eqb (ak_key_prefix k') (ak_key_prefix k) || eqb (ak_key_hash k') (ak_key_hash k) in
  negb (is_some (keys t !! ak_id k)) && negb (is_some (scalar taken (keys t))).

Definition new_api_key (id user : uuid) (now : time) (organization : option uuid) (payload : APIKeyCreate) (full_key : string) : APIKey :=
  MkAPIKey id now organization user (akc_name payload)
    (if eqb (akc_environment payload) "" then "sandbox" else akc_environment payload)
    (str_take KEY_PREFIX_LENGTH full_key) (hash_api_key full_key) KeyActive None (akc_expires_at payload) None.

Fixpoint insert_api_key (attempts : nat) (user : uuid) (payload : APIKeyCreate) (organization : option uuid) :
    DB (APIKey * string) :=
  match attempts with
  | O => throw (RaisedRuntimeError "Could not generate a unique API key")
  | S attempts =>
      full_key ← generate_api_key (if eqb (akc_environment payload) "" then "sandbox" else akc_environment payload);
      id ← fresh_uuid;
      now ← now_db;
      let record := new_api_key id user now organization payload full_key in
      stored ← try_except
        (insert_checked (new_key_ok record) (upd_api_keys <[id := record]>) ;; commit ;; mret true)
        (λ e, if eqb e IntegrityError then rollback ;; mret false else throw e);
      if stored : bool then mret (record, full_key) else insert_api_key attempts user payload organization
  end.

Definition create_api_key (user : uuid) (payload : APIKeyCreate) (organization_id : option uuid) : DB (APIKey * string) :=
  enforce_resource_limit organization_id PlanApiKeys ;;
  let target := match organization_id with Some o => Some o | None => akc_organization_id payload end in
  organization ← match target with
    | Some org => o ← get_or (active_organization org) OrganizationNotFound; mret (Some (og_id o))
    | None => mret None
    end;
  insert_api_key MAX_KEY_ATTEMPTS user payload organization.

(** The keys a member sees: those of the workspace, or of them their own. *)
Definition visible_key (user : uuid) (org : option uuid) (role : OrganizationRole) (k : APIKey) : bool :=
  eqb (ak_organization_id k) org &&
  (negb (negb (is_some org) || eqb role DEVELOPER) || eqb (ak_created_by_user_id k) user).
Definition lapsed_key (now : time) (k : APIKey) : bool :=
  eqb (ak_status k) KeyActive && match ak_expires_at k with Some e => e <=? now | None => false end.

Definition list_api_keys (user : uuid) (org : option uuid) (role : OrganizationRole) : DB (list APIKey) :=
  now ← now_db;
  let lapsed k := visible_key user org role k && lapsed_key now k in
  found ← query (λ t, select_rows lapsed (keys t));
  (if (0 <? length found)%nat then write (upd_api_keys (update_where lapsed expire_key)) ;; commit else mret tt) ;;
  query (λ t, order_desc ak_created_at ak_id (select_rows (visible_key user org role) (keys t))).

Definition revoked_notice (k : APIKey) : notification_args :=
  {| na_user_id := ak_created_by_user_id k; na_type := API_KEY_REVOKED; na_title := "API Key Revoked";
     na_message := "The API key " +:+ ak_name k +:+ " was revoked."; na_priority := PrioHigh;
     na_organization_id := ak_organization_id k; na_related_request_id := None; na_related_agent_id := None;
     na_related_permission_id := None; na_metadata := None;
     na_deduplication_key := Some ("api-key-revoked:" +:+ uuid_str (ak_id k)) |}.
Definition revoke_api_key (user key_id : uuid) (org : option uuid) (role : OrganizationRole) : DB APIKey :=
  k ← get_or (λ t, match keys t !! key_id with
                   | Some k => if visible_key user org role k then Some k else None | None => None end) APIKeyNotFound;
  if eqb (ak_status k) KeyActive then
    now ← now_db;
    let k := withdraw_key now k in
    write (upd_api_keys <[ak_id k := k]>) ;;
    create_notification (revoked_notice k) ;;
    commit ;;
    mret k
  else mret k.

(** ** Authentication *)

Definition well_formed_key (raw : string) : bool :=
  (startswith "at_live_" raw || startswith "at_test_" raw) && (String.length raw =? 72)%nat.
Definition expected_environment (raw : string) : string := if startswith "at_test_" raw then "sandbox" else "production".
Definition stored_key (raw : string) (t : tables) : option APIKey :=
  match scalar (λ k, eqb (ak_key_prefix k) (str_take KEY_PREFIX_LENGTH raw)) (keys t) with
  | Some k => if eqb (ak_key_hash k) (hash_api_key raw) then Some k else None
  | None => None
  end.
(** The user who made the key, and the organization it acts for. *)
Definition key_holder (k : APIKey) (t : tables) : option (User * option Organization) :=
  match users (identity t) !! ak_created_by_user_id k with
  | Some u =>
      if us_is_active u then
        match ak_organization_id k with
        | None => Some (u, None)
        | Some org =>
            match active_organization org t, resolve_workspace (us_id u) (Some org) t with
            | Some o, Some w => if can w "manage_keys" then Some (u, Some o) else None
            | _, _ => None
            end
        end
      else None
  | None => None
  end.

Definition authenticate_api_key (raw : string) : DB (option DeveloperPrincipal) :=
  if negb (well_formed_key raw) then mret None
  else
    found ← query (stored_key raw);
    match found with
    | None => mret None
    | Some k =>
        if negb (eqb (ak_environment k) (expected_environment raw)) then mret None
        else
          now ← now_db;
          if negb (eqb (ak_status k) KeyActive) then mret None
          else if lapsed_key now k then
            write (upd_api_keys <[ak_id k := expire_key k]>) ;; commit ;; mret None
          else
            holder ← query (key_holder k);
            match holder with
            | None => mret None
            | Some (u, o) =>
                let k := touch_key now k in
                write (upd_api_keys <[ak_id k := k]>) ;;
                commit ;;
                mret (Some (MkPrincipal k u o))
            end
    end.

(** ** Handlers *)

Definition developer_principal (api_key : option string) (allowed : bool) : DB DeveloperPrincipal :=
  match api_key with
  | None => throw (HTTPException 401 "Invalid API key")
  | Some raw =>
      raise_if (200 <? String.length raw)%nat (HTTPException 422 "X-API-Key") ;;
      principal ← authenticate_api_key raw;
      match principal with
      | None => throw (HTTPException 401 "Invalid API key")
      | Some p => raise_if (negb allowed) (HTTPException 429 "Rate limit exceeded.") ;; mret p
      end
  end.

Definition organization_not_found : Exc := HTTPException 404 "ORGANIZATION_NOT_FOUND".
Definition add_api_key (cl : caller) (payload : APIKeyCreate) (w : WorkspaceContext) : DB (APIKey * string) :=
  Signing.require_recent_step_up cl ;;
  target ← match akc_organization_id payload with
    | Some org =>
        if eqb (wc_organization_id w) (Some org) then mret w
        else get_or (resolve_workspace (cl_user cl) (Some org)) organization_not_found
    | None => mret w
    end;
  require target "manage_keys" ;;
  made ← try_except (create_api_key (cl_user cl) payload (wc_organization_id target))
    (λ e, if eqb e OrganizationNotFound then throw organization_not_found else throw e);
  record_event (event_args "api_key.created" (Some (cl_user cl)) (ak_organization_id made.1) None
    (Some ("API key created (" +:+ ak_environment made.1 +:+ "): " +:+ uuid_str (ak_id made.1))) "info" []) true ;;
  mret made.
Definition get_api_keys (w : WorkspaceContext) (environment : option string) : DB (list APIKey) :=
  require w "manage_keys" ;;
  found ← list_api_keys (wc_user_id w) (wc_organization_id w) (wc_role w);
  mret match environment with
       | Some e => if eqb e "" then found else select_where (λ k, eqb (ak_environment k) e) found
       | None => found
       end.
Definition revoke_key (w : WorkspaceContext) (key_id : uuid) : DB APIKey :=
  require w "manage_keys" ;;
  k ← try_except (revoke_api_key (wc_user_id w) key_id (wc_organization_id w) (wc_role w))
    (λ e, if eqb e APIKeyNotFound then throw (HTTPException 404 "API_KEY_NOT_FOUND") else throw e);
  record_event (event_args "api_key.revoked" (Some (wc_user_id w)) (ak_organization_id k) None
    (Some ("API key revoked: " +:+ uuid_str (ak_id k))) "info" []) true ;;
  mret k.
End keys.
End ApiKeys.
