(* ===== verification/Organizations.v ===== *)
(** Organizations, members and invitations ([backend/app/services/organizations.py]
    and the handlers of [api/organizations.py]).

    The environment of the application and the rule that binds an invitation to its
    address are settings.  Rows that a row refers to are taken to exist. *)
From Stdlib Require Import Ascii.
From S2P Require Import Prelude.
From S2P Require Import PyStr.
From S2P Require Import PyFloat.
From S2P Require Import PyVal.
From S2P Require Import PyDecimal.
From S2P Require Import Models.
From S2P Require Import PyNet.
From S2P Require Import Store.
From S2P Require Import SecurityEvents.
From S2P Require Import Workspace.
From S2P Require Import Notifications.
From S2P Require Import PlanLimits.
From S2P Require Import ApiKeys.

Local Open Scope string_scope.
Local Open Scope Z_scope.

Module Organizations.
Import SecurityEvents Workspace Notifications PlanLimits ApiKeys.

Record organization_settings : Type := MkOrgSettings {
  os_app_env : string;
  os_invitation_expire_days : Z;
  os_invitation_bind_email : bool;
  os_web_app_url : string
}.

Definition upd_organizations f : tables → tables := upd_identity (on_organizations f).
Definition upd_members f : tables → tables := upd_identity (on_members f).
Definition upd_invitations f : tables → tables := upd_identity (on_invitations f).
Definition member_table (t : tables) : gmap uuid OrganizationMember := members (identity t).
Definition invitation_table (t : tables) : gmap uuid OrganizationInvitation := invitations (identity t).

Definition set_member (role : OrganizationRole) (st : MemberStatus) (invited_by : option uuid) (joined : time)
    (m : OrganizationMember) : OrganizationMember :=
  MkMember (om_id m) (om_organization_id m) (om_user_id m) role st invited_by joined (om_created_at m).
Definition set_invitation (st : InvitationStatus) (accepted : option time) (i : OrganizationInvitation) : OrganizationInvitation :=
  MkInvitation (oi_id i) (oi_organization_id i) (oi_email i) (oi_role i) (oi_token_hash i) st (oi_expires_at i)
    (oi_invited_by i) (oi_created_at i) accepted.

Section organizations.
Context `{Entropy} `{SecuritySinks} `{Hashing}.

Definition invitation_hash (token : string) : string := sha256_hex token.
Definition organization_context (user org : uuid) : DB WorkspaceContext :=
  get_or (resolve_workspace user (Some org)) OrganizationAccessError.

Definition member_of (org user : uuid) (t : tables) : option OrganizationMember :=
  scalar (λ m, eqb (om_organization_id m) org && eqb (om_user_id m) user) (member_table t).
Definition add_member (m : OrganizationMember) : DB unit :=
  insert_checked (λ t, negb (is_some (member_table t !! om_id m)) &&
    negb (is_some (member_of (om_organization_id m) (om_user_id m) t))) (upd_members <[om_id m := m]>).

(** The event of a member, in the same transaction. *)
Definition member_event (actor : uuid) (event_type : string) (org : option uuid) (target : option uuid) (description : string) : DB unit :=
  record_event (event_args event_type (Some actor) org target (Some description) "info" []) false ;; mret tt.

Definition create_organization (user : uuid) (name : string) : DB Organization :=
  id ← fresh_uuid;
  now ← now_db;
  let organization := MkOrganization id now name user true "NOT_REQUESTED" in
  insert_checked (λ t, negb (is_some (organizations (identity t) !! id)) && fits 200 name) (upd_organizations <[id := organization]>) ;;
  mid ← fresh_uuid;
  add_member (MkMember mid id user OWNER MemActive None now now) ;;
  attach_free_subscription id ;;
  member_event user "organization.created" (Some id) None "Organization created" ;;
  commit ;;
  mret organization.

(** Memberships first, then organizations owned from before there were members; each
    part by name and identifier. *)
Definition by_name (a b : Organization) : Prop :=
  String.ltb (og_name a) (og_name b) = true ∨ (og_name a = og_name b ∧ (og_id a <= og_id b)%N).
#[export] Instance by_name_dec : RelDecision by_name.
Proof. intros a b. unfold by_name. apply _. Defined.
Definition membership_of (user : uuid) (t : tables) (o : Organization) : option OrganizationMember :=
  if og_is_active o then scalar (active_member (og_id o) user) (member_table t) else None.
Definition list_user_organizations (user : uuid) (t : tables) : list (Organization * OrganizationRole) :=
  let all := merge_sort by_name (rows (organizations (identity t))) in
  let joined := omap (λ o, (λ m, (o, om_role m)) <$> membership_of user t o) all in
  let owned := select_where (λ o, og_is_active o && eqb (og_owner_id o) user && negb (is_some (membership_of user t o))) all in
  (joined ++ map (λ o, (o, OWNER)) owned)%list.

Definition member_older (a b : OrganizationMember) : Prop :=
  om_created_at a < om_created_at b ∨ (om_created_at a = om_created_at b ∧ (om_id a <= om_id b)%N).
#[export] Instance member_older_dec : RelDecision member_older.
Proof. intros a b. unfold member_older. apply _. Defined.
Definition list_members (org : uuid) (t : tables) : list (OrganizationMember * User) :=
  omap (λ m, (λ u, (m, u)) <$> users (identity t) !! om_user_id m)
    (merge_sort member_older (select_rows (λ m, eqb (om_organization_id m) org) (member_table t))).

(** ** Invitations *)

Definition user_by_email (email : string) (t : tables) : option User :=
  scalar (λ u, eqb (py_lower (us_email u)) email) (users (identity t)).
Definition domain_allowed (domains : list string) (email : string) : bool :=
  match domains with [] => true | _ => existsb (eqb (after_last "@" email)) domains end.
Definition open_invitation_for (org : uuid) (email : string) (now : time) (i : OrganizationInvitation) : bool :=
  open_invitation org now i && eqb (py_lower (oi_email i)) email.

Definition invitation_notice (u : User) (o : Organization) (i : OrganizationInvitation) : notification_args :=
  {| na_user_id := us_id u; na_type := TEAM_INVITATION; na_title := "Team Invitation";
     na_message := "You have been invited to join " +:+ og_name o +:+ " on AgentTrust as " +:+ OrganizationRole_value (oi_role i) +:+ ".";
     na_priority := PrioHigh; na_organization_id := Some (oi_organization_id i); na_related_request_id := None;
     na_related_agent_id := None; na_related_permission_id := None;
     na_metadata := Some [("invitation_id", VStr (uuid_str (oi_id i)))];
     na_deduplication_key := Some ("team-invitation:" +:+ uuid_str (oi_id i)) |}.

(** The context is that of an organization. *)
Definition create_invitation (settings : organization_settings) (w : WorkspaceContext) (org : uuid) (email : string)
    (role : OrganizationRole) : DB (OrganizationInvitation * option string) :=
  require w "invite_members" ;;
  enforce_resource_limit (Some org) PlanTeamMembers ;;
  let email := py_lower email in
  policy ← query (λ t, org_policies t !! org);
  raise_if (negb (domain_allowed (default [] (op_allowed_email_domains <$> policy)) email))
    (OrganizationConflict "Email domain is not allowed by organization policy") ;;
  existing_user ← query (user_by_email email);
  joined ← query (λ t, match existing_user with
    | Some u => is_some (scalar (active_member org (us_id u)) (member_table t)) | None => false end);
  raise_if joined (OrganizationConflict "User is already a member") ;;
  now ← now_db;
  pending ← query (λ t, scalar (open_invitation_for org email now) (invitation_table t));
  raise_if (is_some pending) (OrganizationConflict "A pending invitation already exists") ;;
  token ← fresh_urlsafe 32;
  id ← fresh_uuid;
  let invitation := MkInvitation id org email role (invitation_hash token) InvPending
    (now + os_invitation_expire_days settings * day) (wc_user_id w) now None in
  insert_checked (λ t, negb (is_some (invitation_table t !! id)) &&
      negb (is_some (scalar (λ i, eqb (oi_token_hash i) (oi_token_hash invitation)) (invitation_table t))) && fits 320 email)
    (upd_invitations <[id := invitation]>) ;;
  match existing_user with
  | Some u =>
      organization ← get_or (λ t, organizations (identity t) !! org) (PyError AttributeError);
      create_notification (invitation_notice u organization invitation) ;; mret tt
  | None => mret tt
  end ;;
  member_event (wc_user_id w) "member.invited" (Some org) None ("Role: " +:+ OrganizationRole_value role) ;;
  commit ;;
  mret (invitation, if existsb (eqb (os_app_env settings)) ["local"; "test"] then Some token else None).

Definition invitation_by_token (raw : string) (t : tables) : option OrganizationInvitation :=
  scalar (λ i, eqb (oi_token_hash i) (invitation_hash raw)) (invitation_table t).

(** The row of the member after an acceptance: an existing one is put back. *)
Definition joining (id : uuid) (user : uuid) (i : OrganizationInvitation) (now : time) (existing : option OrganizationMember) :
    OrganizationMember :=
  match existing with
  | None => MkMember id (oi_organization_id i) user (oi_role i) MemActive (Some (oi_invited_by i)) now now
  | Some m => set_member (oi_role i) MemActive (Some (oi_invited_by i)) now m
  end.

Definition accept_invitation (settings : organization_settings) (user : User) (raw : string) : DB OrganizationMember :=
  now ← now_db;
  i ← get_or (invitation_by_token raw) InvitationInvalid;
  raise_if (eqb (oi_status i) InvRevoked || eqb (oi_status i) InvAccepted) InvitationInvalid ;;
  (if eqb (oi_status i) InvExpired || (oi_expires_at i <=? now) then
     write (upd_invitations <[oi_id i := set_invitation InvExpired (oi_accepted_at i) i]>) ;;
     commit ;;
     throw InvitationExpired
   else mret tt) ;;
  raise_if (os_invitation_bind_email settings && negb (eqb (py_lower (oi_email i)) (py_lower (us_email user)))) InvitationInvalid ;;
  existing ← query (member_of (oi_organization_id i) (us_id user));
  id ← fresh_uuid;
  let member := joining id (us_id user) i now existing in
  (if is_some existing then write (upd_members <[om_id member := member]>) else add_member member) ;;
  write (upd_invitations <[oi_id i := set_invitation InvAccepted (Some now) i]>) ;;
  member_event (us_id user) "member.joined" (Some (oi_organization_id i)) (Some (us_id user))
    ("Role: " +:+ OrganizationRole_value (oi_role i)) ;;
  commit ;;
  mret member.

Definition revoke_invitation (w : WorkspaceContext) (org invitation_id : uuid) : DB (option OrganizationInvitation) :=
  require w "invite_members" ;;
  found ← query (λ t, match invitation_table t !! invitation_id with
    | Some i => if eqb (oi_organization_id i) org then Some i else None | None => None end);
  match found with
  | None => mret None
  | Some i =>
      raise_if (negb (eqb (oi_status i) InvPending)) (OrganizationConflict "Invitation is no longer pending") ;;
      let i := set_invitation InvRevoked (oi_accepted_at i) i in
      write (upd_invitations <[oi_id i := i]>) ;;
      member_event (wc_user_id w) "invitation.revoked" (Some org) None ("Invitation: " +:+ uuid_str (oi_id i)) ;;
      commit ;;
      mret (Some i)
  end.

(** ** Members *)

Definition active_member_row (org member_id : uuid) (t : tables) : option OrganizationMember :=
  match member_table t !! member_id with
  | Some m => if eqb (om_organization_id m) org && eqb (om_status m) MemActive then Some m else None
  | None => None
  end.
(** The keys a member made for the organization stop working. *)
Definition members_key (org user : uuid) (k : APIKey) : bool := active_key org k && eqb (ak_created_by_user_id k) user.
Definition withdraw_keys (org user : uuid) (now : time) : tables → tables :=
  upd_api_keys (update_where (members_key org user) (withdraw_key now)).

Definition role_notice (m : OrganizationMember) (old new : OrganizationRole) : notification_args :=
  {| na_user_id := om_user_id m; na_type := SECURITY_ALERT; na_title := "Organization Role Changed";
     na_message := "Your organization role changed from " +:+ OrganizationRole_value old +:+ " to " +:+ OrganizationRole_value new +:+ ".";
     na_priority := PrioHigh; na_organization_id := Some (om_organization_id m); na_related_request_id := None;
     na_related_agent_id := None; na_related_permission_id := None; na_metadata := None;
     na_deduplication_key := Some ("role-change:" +:+ uuid_str (om_id m) +:+ ":" +:+ OrganizationRole_value new) |}.

Definition change_member_role (w : WorkspaceContext) (org member_id : uuid) (role : OrganizationRole) :
    DB (option OrganizationMember) :=
  require w "change_roles" ;;
  found ← query (active_member_row org member_id);
  match found with
  | None => mret None
  | Some m =>
      raise_if (eqb (om_role m) OWNER) (OrganizationConflict "The organization owner role cannot be changed") ;;
      raise_if (eqb (om_user_id m) (wc_user_id w)) (OrganizationConflict "You cannot change your own role") ;;
      now ← now_db;
      let m' := set_member role (om_status m) (om_invited_by m) (om_joined_at m) m in
      write (upd_members <[om_id m := m']>) ;;
      (if eqb role VIEWER then write (withdraw_keys org (om_user_id m) now) else mret tt) ;;
      member_event (wc_user_id w) "member.role_changed" (Some org) (Some (om_user_id m))
        (OrganizationRole_value (om_role m) +:+ " to " +:+ OrganizationRole_value role) ;;
      create_notification (role_notice m (om_role m) role) ;;
      commit ;;
      mret (Some m')
  end.

Definition remove_member (w : WorkspaceContext) (org member_id : uuid) : DB (option OrganizationMember) :=
  require w "remove_members" ;;
  found ← query (active_member_row org member_id);
  match found with
  | None => mret None
  | Some m =>
      raise_if (eqb (om_role m) OWNER) (OrganizationConflict "The organization owner cannot be removed") ;;
      raise_if (eqb (om_user_id m) (wc_user_id w)) (OrganizationConflict "You cannot remove yourself") ;;
      now ← now_db;
      let m' := set_member (om_role m) MemRemoved (om_invited_by m) (om_joined_at m) m in
      write (upd_members <[om_id m := m']>) ;;
      write (withdraw_keys org (om_user_id m) now) ;;
      member_event (wc_user_id w) "member.removed" (Some org) (Some (om_user_id m)) ("Role: " +:+ OrganizationRole_value (om_role m)) ;;
      commit ;;
      mret (Some m')
  end.

(** ** Handlers *)

Definition _context (user org : uuid) : DB WorkspaceContext :=
  try_except (organization_context user org)
    (λ e, if eqb e OrganizationAccessError then throw (HTTPException 404 "Organization not found") else throw e).
Definition conflict_409 {A} (m : DB A) : DB A :=
  try_except m (λ e, match e with OrganizationConflict message => throw (HTTPException 409 message) | e => throw e end).
Definition found_or {A} (detail : string) (o : option A) : DB A :=
  match o with Some a => mret a | None => throw (HTTPException 404 detail) end.

Definition get_members (user org : uuid) : DB (list (OrganizationMember * User)) :=
  w ← _context user org;
  require w "read" ;;
  query (list_members org).
(** [web_app_url.rstrip("/")] *)
Definition rstrip_slash (s : string) : string := str_rev (strip_left_in ["/"%char] (str_rev s)).
Definition invite_member (settings : organization_settings) (user org : uuid) (email : string) (role : OrganizationRole) :
    DB (OrganizationInvitation * option string) :=
  w ← _context user org;
  made ← conflict_409 (create_invitation settings w org email role);
  mret (made.1, (λ token, rstrip_slash (os_web_app_url settings) +:+ "/invite/accept?token=" +:+ token) <$> made.2).
Definition accept_member_invitation (settings : organization_settings) (user : User) (token : string) : DB OrganizationMember :=
  try_except (accept_invitation settings user token)
    (λ e, if eqb e InvitationExpired then throw (HTTPException 410 "Invitation has expired")
          else if eqb e InvitationInvalid then throw (HTTPException 400 "Invitation is invalid") else throw e).
Definition revoke_member_invitation (user org invitation_id : uuid) : DB OrganizationInvitation :=
  w ← _context user org;
  found ← conflict_409 (revoke_invitation w org invitation_id);
  found_or "Invitation not found" found.
Definition update_member_role (user org member_id : uuid) (role : OrganizationRole) : DB OrganizationMember :=
  w ← _context user org;
  found ← conflict_409 (change_member_role w org member_id role);
  found_or "Member not found" found.
Definition delete_member (user org member_id : uuid) : DB unit :=
  w ← _context user org;
  found ← conflict_409 (remove_member w org member_id);
  found_or "Member not found" found ;;
  mret tt.

(** Newest first; events of the same time, which the source orders by their random
    identifiers, stay in the order of the log. *)
Definition event_newer (a b : SecurityEvent) : Prop := se_created_at b <= se_created_at a.
#[export] Instance event_newer_dec : RelDecision event_newer.
Proof. intros a b. unfold event_newer. apply _. Defined.
Definition list_security_events (org : uuid) (limit : nat) (t : tables) : list SecurityEvent :=
  take limit (merge_sort event_newer (select_where (λ e, eqb (se_organization_id e) (Some org)) (security_events t))).
Definition get_security_events (user org : uuid) : DB (list SecurityEvent) :=
  w ← _context user org;
  require w "read_audit" ;;
  query (list_security_events org 100).
End organizations.
End Organizations.
