(* ===== verification/KeyProps.v ===== *)
(** What API keys guarantee ([ApiKeys], [Organizations]): who an accepted key speaks
    for, and that a key that was revoked, withdrawn or has expired is never accepted
    again, whatever requests come in between. *)
From Stdlib Require Import Ascii.
From S2P Require Import Prelude.
From S2P Require Import PyStr.
From S2P Require Import PyFloat.
From S2P Require Import PyVal.
From S2P Require Import PyDecimal.
From S2P Require Import Models.
From S2P Require Import PyCodec.
From S2P Require Import Store.
From S2P Require Import Samples.
From S2P Require Import Ssrf.
From S2P Require Import SecurityEvents.
From S2P Require Import Soc.
From S2P Require Import SocProps.
From S2P Require Import Workspace.
From S2P Require Import Signing.
From S2P Require Import Notifications.
From S2P Require Import PlanLimits.
From S2P Require Import Frames.
From S2P Require Import ApiKeys.
From S2P Require Import Organizations.

Local Open Scope string_scope.
Local Open Scope Z_scope.

Module KeyProps.
Import SecurityEvents Workspace Notifications PlanLimits Frames ApiKeys Organizations.

(** Keys are stored under their identifier. *)
Definition keyed_api_keys (t : tables) : Prop := ∀ i k, keys t !! i = Some k → ak_id k = i.
(** A key that is not active stays so. *)
Definition keys_settle (t t' : tables) : Prop := keyed_api_keys t →
  keyed_api_keys t' ∧
  ∀ i k, keys t !! i = Some k → ak_status k ≠ KeyActive → ∃ k', keys t' !! i = Some k' ∧ ak_status k' ≠ KeyActive.
#[export] Instance keys_settle_preorder : PreOrder keys_settle.
Proof.
  split.
  - intros t Hk. split; [done|]. intros i k Hi Hst. by exists k.
  - intros t1 t2 t3 H12 H23 H1. destruct (H12 H1) as [H2 S12]. destruct (H23 H2) as [H3 S23]. split; [done|].
    intros i k Hi Hst. destruct (S12 i k Hi Hst) as (k2 & Hi2 & Hst2). by apply (S23 i k2).
Qed.

Lemma keys_same t t' : keys t' = keys t → keys_settle t t'.
Proof. intros He Hk. unfold keyed_api_keys. rewrite He. split; [done|]. intros i k Hi Hst. by exists k. Qed.
Lemma keys_put t k' :
  (keyed_api_keys t → ∀ k, keys t !! ak_id k' = Some k → ak_status k ≠ KeyActive → ak_status k' ≠ KeyActive) →
  keys_settle t (upd_api_keys <[ak_id k' := k']> t).
Proof.
  intros Hput Hk. specialize (Hput Hk). change (keys (upd_api_keys <[ak_id k' := k']> t)) with (<[ak_id k' := k']> (keys t)).
  split.
  - intros i k. change (<[ak_id k' := k']> (keys t) !! i = Some k → ak_id k = i).
    rewrite lookup_insert_Some. intros [[<- <-]|[_ Hi]]; [done | by apply Hk].
  - intros i k Hi Hst. destruct (decide (i = ak_id k')) as [->|Hne].
    + exists k'. rewrite lookup_insert_eq. eauto.
    + exists k. by rewrite lookup_insert_ne.
Qed.
Lemma keys_update t p f :
  (∀ k, ak_id (f k) = ak_id k ∧ (ak_status k ≠ KeyActive → ak_status (f k) ≠ KeyActive)) →
  keys_settle t (upd_api_keys (update_where p f) t).
Proof.
  intros Hf Hk. assert (Hl : ∀ i, keys (upd_api_keys (update_where p f) t) !! i =
    (λ k, if p k then f k else k) <$> keys t !! i) by (intros i; apply lookup_update_where).
  split.
  - intros i k. rewrite Hl. destruct (keys t !! i) as [k0|] eqn:Hi; [|done]. simpl. intros [= <-].
    destruct (p k0); [rewrite (proj1 (Hf k0))|]; by apply Hk.
  - intros i k Hi Hst. rewrite Hl, Hi. simpl. eexists. split; [reflexivity|].
    destruct (p k); [by apply (proj2 (Hf k)) | done].
Qed.

Section keys.
Context `{Entropy} `{SecuritySinks} `{Hashing}.

(** ** Authentication *)

Definition unexpired (now : time) (expires : option time) : Prop := ∀ e, expires = Some e → now < e.
(** The user who made the key is active and, when it acts for an organization that is
    active, may manage its keys. *)
Definition speaks_for (k : APIKey) (p : DeveloperPrincipal) (t : tables) : Prop :=
  users (identity t) !! ak_created_by_user_id k = Some (dp_user p) ∧ us_is_active (dp_user p) = true ∧
  match ak_organization_id k with
  | None => dp_organization p = None
  | Some org => ∃ o w, dp_organization p = Some o ∧ organizations (identity t) !! org = Some o ∧ og_is_active o = true ∧
      resolve_workspace (us_id (dp_user p)) (Some org) t = Some w ∧ can w "manage_keys" = true
  end.
Definition authentic (raw : string) (p : DeveloperPrincipal) (s : session) : Prop :=
  ∃ i k, keys (cur s) !! i = Some k ∧ dp_api_key p = touch_key (db_now s) k ∧
    ak_key_prefix k = str_take KEY_PREFIX_LENGTH raw ∧ ak_key_hash k = hash_api_key raw ∧
    ak_environment k = expected_environment raw ∧ ak_status k = KeyActive ∧ unexpired (db_now s) (ak_expires_at k) ∧
    speaks_for k p (cur s).

Lemma holder_sound k t u o : key_holder k t = Some (u, o) → ∀ p, dp_user p = u → dp_organization p = o → speaks_for k p t.
Proof.
  unfold key_holder, active_organization, speaks_for. intros Hh p -> ->.
  destruct (users (identity t) !! ak_created_by_user_id k) as [u'|]; [|done]. destruct (us_is_active u') eqn:Hact; [|done].
  destruct (ak_organization_id k) as [org|]; [|by injection Hh as <- <-].
  destruct (organizations (identity t) !! org) as [og|] eqn:Ho; [|done].
  destruct (og_is_active og) eqn:Hoa; [|done].
  destruct (resolve_workspace (us_id u') (Some org) t) as [w|] eqn:Hw; [|done].
  destruct (can w "manage_keys") eqn:Hc; [|done]. injection Hh as <- <-. split_and!; [done | done |].
  by exists og, w.
Qed.
Lemma stored_key_sound raw t k : stored_key raw t = Some k →
  ∃ i, keys t !! i = Some k ∧ ak_key_prefix k = str_take KEY_PREFIX_LENGTH raw ∧ ak_key_hash k = hash_api_key raw.
Proof.
  unfold stored_key. destruct (scalar _ _) as [k'|] eqn:Hs; [|done]. apply scalar_Some in Hs as (i & Hi & Hp).
  destruct (eqb (ak_key_hash k') _) eqn:Hh; [|done]. intros [= <-]. exists i.
  apply (proj1 (eqb_true _ _)) in Hp. apply (proj1 (eqb_true _ _)) in Hh. done.
Qed.

Lemma authenticated raw s p s' :
  dead s = false → authenticate_api_key raw s = (Ok (Some p), s') → authentic raw p s.
Proof.
  intros Hd. unfold authenticate_api_key. destruct (negb (well_formed_key raw)); [done|]. rewrite bind_query.
  destruct (stored_key raw (cur s)) as [k|] eqn:Hk; [|done]. apply stored_key_sound in Hk as (i & Hi & Hpre & Hh).
  destruct (eqb (ak_environment k) _) eqn:He; [|done]. apply (proj1 (eqb_true _ _)) in He. cbn [negb]. rewrite bind_now.
  destruct (eqb (ak_status k) KeyActive) eqn:Hst; [|done]. apply (proj1 (eqb_true _ _)) in Hst. cbn [negb].
  destruct (lapsed_key (db_now s) k) eqn:Hl; [rewrite (bind_write _ _ _ Hd), bind_commit by exact Hd; done|].
  rewrite bind_query. destruct (key_holder k (cur s)) as [[u o]|] eqn:Hho; [|done].
  rewrite (bind_write _ _ _ Hd), bind_commit by exact Hd. intros [= <- _].
  exists i, k. split_and!; try done.
  - intros e Hexp. unfold lapsed_key in Hl. rewrite Hst, eqb_refl, Hexp in Hl. by apply Z.leb_gt in Hl.
  - by apply (holder_sound k (cur s) u o).
Qed.

(** C13. An accepted API key is the stored one with this prefix and hash, active,
    of the environment its text names and not expired; it speaks for the active user who
    made it and, when it belongs to an organization, that organization is active and the
    user may still manage its keys. *)
Theorem authentication_sound raw s p s' :
  dead s = false → authenticate_api_key raw s = (Ok (Some p), s') → authentic raw p s.
Proof. apply authenticated. Qed.

(** ** Keys that are no longer active *)

Context `{!SinksRespect keys_settle}.
Lemma keys_ignore : Ignores keys_settle.
Proof. split; [apply _ | intros; by apply keys_same ..]. Qed.
Local Existing Instance keys_ignore.

Lemma authenticate_step raw : respects (evolves keys_settle) (authenticate_api_key raw).
Proof.
  intros s. unfold authenticate_api_key. destruct (negb (well_formed_key raw)); [done|]. rewrite bind_query.
  destruct (stored_key raw (cur s)) as [k|] eqn:Hk; [|done]. apply stored_key_sound in Hk as (i & Hi & _ & _).
  destruct (eqb (ak_environment k) _); [|done]. cbn [negb]. rewrite bind_now.
  destruct (eqb (ak_status k) KeyActive) eqn:Hst; [|done]. apply (proj1 (eqb_true _ _)) in Hst. cbn [negb].
  assert (Hput : ∀ k', ak_id k' = ak_id k → keys_settle (cur s) (upd_api_keys <[ak_id k' := k']> (cur s))).
  { intros k' He. apply keys_put. intros Hkey k0. rewrite He, (Hkey i k Hi), Hi. by intros [= <-]. }
  destruct (lapsed_key (db_now s) k).
  - apply evolves_write_here; [apply _ | by apply (Hput (expire_key k)) | walk].
  - rewrite bind_query. destruct (key_holder k (cur s)) as [[u o]|]; [|done].
    apply evolves_write_here; [apply _ | by apply (Hput (touch_key (db_now s) k)) | walk].
Qed.

Lemma insert_step attempts user payload org : respects (evolves keys_settle) (insert_api_key attempts user payload org).
Proof.
  induction attempts as [|attempts IH]; cbn [insert_api_key]; [walk|]. unfold generate_api_key. walk; try exact IH.
  apply evolves_insert; [apply _ | intros t Hok]. apply (keys_put t (new_api_key _ _ _ _ _ _)). intros _ k Hk.
  unfold new_key_ok in Hok. apply andb_true_iff in Hok as [Hok _]. apply negb_true_iff, is_some_false in Hok.
  by rewrite Hok in Hk.
Qed.
Lemma create_key_step user payload org : respects (evolves keys_settle) (create_api_key user payload org).
Proof.
  unfold create_api_key. walk; first [apply insert_step | apply enforce_resource_limit_evolves; [apply _ .. | intros; by apply keys_same]].
Qed.
Lemma withdraw_settles now t p : keys_settle t (upd_api_keys (update_where p (withdraw_key now)) t).
Proof. by apply keys_update. Qed.
Lemma list_step user org role : respects (evolves keys_settle) (list_api_keys user org role).
Proof.
  unfold list_api_keys. walk. apply evolves_write; [apply _ | intros t]. by apply keys_update.
Qed.
Lemma revoke_api_key_step user key_id org role : respects (evolves keys_settle) (revoke_api_key user key_id org role).
Proof.
  unfold revoke_api_key. walk. apply evolves_write; [apply _ | intros t]. by apply (keys_put t (withdraw_key _ _)).
Qed.

(** The requests that touch API keys or the members who make them. *)
Inductive key_op : Type :=
  | UseKey (raw : string) (allowed : bool)
  | AddKey (cl : caller) (payload : APIKeyCreate) (w : WorkspaceContext)
  | ListKeys (w : WorkspaceContext) (environment : option string)
  | RevokeKey (w : WorkspaceContext) (key_id : uuid)
  | AcceptInvitation (settings : organization_settings) (user : User) (token : string)
  | UpdateRole (user org member_id : uuid) (role : OrganizationRole)
  | DeleteMember (user org member_id : uuid).
Definition perform_key (o : key_op) : DB (option DeveloperPrincipal) :=
  match o with
  | UseKey raw allowed => p ← developer_principal (Some raw) allowed; mret (Some p)
  | AddKey cl payload w => add_api_key cl payload w ;; mret None
  | ListKeys w environment => get_api_keys w environment ;; mret None
  | RevokeKey w key_id => revoke_key w key_id ;; mret None
  | AcceptInvitation settings user token => accept_member_invitation settings user token ;; mret None
  | UpdateRole user org member_id role => update_member_role user org member_id role ;; mret None
  | DeleteMember user org member_id => delete_member user org member_id ;; mret None
  end.
(** One request: the random values already drawn, its time and what it asks. *)
Record key_step : Type := MkKeyOp { ko_draws : nat; ko_now : time; ko_op : key_op }.
Definition key_outcome (t : tables) (st : key_step) : option DeveloperPrincipal * tables :=
  let '(r, t') := run_request (perform_key (ko_op st)) t (ko_draws st) (ko_now st) in
  (match r with Ok p => p | Err _ => None end, t').
Fixpoint key_trace (t : tables) (sts : list key_step) : tables :=
  match sts with [] => t | st :: sts => key_trace (key_outcome t st).2 sts end.

Ltac keys_walk :=
  walk; first [ apply authenticate_step | apply create_key_step | apply list_step | apply revoke_api_key_step
              | apply enforce_resource_limit_evolves; [apply _ .. | intros; by apply keys_same]
              | apply evolves_write; [apply _ | intros; first [by apply keys_same | apply withdraw_settles]]
              | apply evolves_insert; [apply _ | intros; by apply keys_same] ].
Lemma perform_step o : respects (evolves keys_settle) (perform_key o).
Proof.
  destruct o; cbn [perform_key]; unfold developer_principal, add_api_key, get_api_keys, revoke_key, accept_member_invitation,
    update_member_role, delete_member, _context, organization_context, conflict_409, found_or, accept_invitation,
    change_member_role, remove_member, member_event, add_member, Signing.require_recent_step_up, require; keys_walk.
Qed.
Lemma outcome_settles t st : keys_settle t (key_outcome t st).2.
Proof.
  unfold key_outcome. pose proof (evolves_run keys_settle (perform_key (ko_op st)) t (ko_draws st) (ko_now st)
    (perform_step (ko_op st))) as Hs. by destruct (run_request _ _ _ _).
Qed.
Lemma trace_settles t sts : keys_settle t (key_trace t sts).
Proof. revert t. induction sts as [|st sts IH]; intros t; [reflexivity|]. simpl. etrans; [apply outcome_settles | apply IH]. Qed.

Lemma outcome_authentic t st p : (key_outcome t st).1 = Some p →
  ∃ raw, authentic raw p (open_session t (ko_draws st) (ko_now st)).
Proof.
  unfold key_outcome, run_request. set (s := open_session _ _ _).
  destruct (ko_op st) as [raw allowed | | | | | |]; cbn [perform_key];
    try (rewrite bind_run; lazymatch goal with |- context [match ?m s with _ => _ end] => destruct (m s) as [[?|?] ?] end; done).
  rewrite bind_run. unfold developer_principal. rewrite bind_raise_if. destruct (200 <? _)%nat; [done|].
  rewrite bind_run. destruct (authenticate_api_key raw s) as [[[q|]|] s1] eqn:Ha; try done.
  rewrite bind_raise_if. destruct (negb allowed); [done|]. intros [= <-]. exists raw.
  by apply (authenticated raw s q s1).
Qed.

(** Once a key is revoked, withdrawn from a removed or demoted member, or
    expired, no request is accepted with it again, whatever requests come in between. *)
Theorem withdrawn_key_refused t sts st i k p :
  keyed_api_keys t → keys t !! i = Some k → ak_status k ≠ KeyActive →
  (key_outcome (key_trace t sts) st).1 = Some p → ak_id (dp_api_key p) ≠ i.
Proof.
  intros Hkey Hk Hst Hout. destruct (trace_settles t sts Hkey) as [Hkey' Hset].
  destruct (Hset i k Hk Hst) as (k' & Hk' & Hst'). destruct (outcome_authentic _ _ _ Hout) as (raw & j & q & Hj & -> & _ & _ & _ & Hact & _).
  cbn. rewrite (Hkey' j q Hj). intros ->. simpl in Hj. rewrite Hk' in Hj. by injection Hj as ->.
Qed.
End keys.

(** ** Witnesses *)

Local Existing Instance SocProps.no_ambient.
Local Existing Instance plain_hashing.

(** The owner 9 of organization 50, the developer 8 and two keys of theirs. *)
Definition key_tables : tables :=
  account_tables [sample_user 8; sample_user 9] [sample_org 50 9] [sample_member 70 50 9 OWNER; sample_member 71 50 8 DEVELOPER]
    [sample_api_key 80 50 8 "a" KeyActive; sample_api_key 81 50 8 "b" KeyActive].

Section quiet_services.
Local Existing Instance SocProps.no_services.
Local Existing Instance Siem.soc_sinks.
Lemma settle_sinks : SinksRespect keys_settle.
Proof. apply Siem.soc_sinks_respect; [apply _ | |]; intros f t; by apply keys_same. Defined.

Lemma authentication_sound_witness :
  ∃ p s', authenticate_api_key (api_key_text "a") (open_session key_tables 0 hour) = (Ok (Some p), s') ∧
    authentic (api_key_text "a") p (open_session key_tables 0 hour).
Proof.
  eexists _, _. assert (Hrun : authenticate_api_key (api_key_text "a") (open_session key_tables 0 hour) = (Ok (Some _), _))
    by (vm_compute; reflexivity).
  split; [exact Hrun|]. exact (authentication_sound (api_key_text "a") (open_session key_tables 0 hour) _ _ eq_refl Hrun).
Defined.

Lemma keyed_sample : keyed_api_keys key_tables.
Proof. intros i k Hk. by apply keyed_lookup in Hk as [Hi _]. Qed.
(** The key "a" has expired; the key "b" still answers, and it is another key. *)
Definition one_revoked : tables := upd_api_keys (alter (withdraw_key 1) 80%N) key_tables.
Lemma keyed_revoked : keyed_api_keys one_revoked.
Proof.
  intros i k. unfold one_revoked. change (alter (withdraw_key 1) 80%N (keys key_tables) !! i = Some k → ak_id k = i).
  destruct (decide (i = 80%N)) as [->|Hne]; [rewrite lookup_alter_eq | rewrite lookup_alter_ne by done].
  - destruct (keys key_tables !! 80%N) as [k0|] eqn:Hk0; [|done]. intros [= <-]. by apply keyed_sample in Hk0.
  - apply keyed_sample.
Qed.
Lemma withdrawn_key_refused_witness :
  (∃ p, (key_outcome one_revoked (MkKeyOp 0 hour (UseKey (api_key_text "b") true))).1 = Some p ∧ ak_id (dp_api_key p) ≠ 80%N) ∧
  (key_outcome one_revoked (MkKeyOp 0 hour (UseKey (api_key_text "a") true))).1 = None.
Proof.
  split; [|vm_compute; reflexivity]. eexists.
  assert (Hrun : (key_outcome (key_trace one_revoked []) (MkKeyOp 0 hour (UseKey (api_key_text "b") true))).1 = Some _)
    by (vm_compute; reflexivity).
  split; [exact Hrun|]. eapply (withdrawn_key_refused (H1 := plain_hashing) (SinksRespect0 := settle_sinks) one_revoked [] _ 80%N _ _ keyed_revoked);
    [vm_compute; reflexivity | discriminate | exact Hrun].
Defined.
End quiet_services.

(** ** A removal that is undone

    The event of a removal is recorded before the removal is committed.  When its
    export fails with an error text longer than its column, the export rolls back
    what the handler had not committed, and the handler goes on to report success. *)
Definition verbose_services : SocServices :=
  {| soc_hashing := plain_hashing; soc_resolver := Ssrf.public_resolver;
     hmac_sha256_hex k m := m; get_secret n := ""; http_post u b h := Err (times_of 1100 "x") |}.
Definition exporting_tables : tables :=
  upd_operations (on_export_destinations (λ _, keyed xd_id
    [MkDestination 90 "dest-1" 50 "SIEM" "WEBHOOK" (Some "https://siem.example.com/in") None "INFO" [] true "HEALTHY" None 0 None]))
    key_tables.
(** A removal can be answered as done and leave the member and their keys
    active: the export of its event rolled it back. *)
Theorem removal_undone :
  ∃ (services : SocServices) (t : tables),
    let '(r, t') := run_request (delete_member (H := counting_entropy) (H0 := @Siem.soc_sinks counting_entropy services SocProps.no_ambient)
      9 50 71) t 0 hour in
    r = Ok tt ∧
    (om_status <$> member_table t' !! 71%N) = Some MemActive ∧ (ak_status <$> keys t' !! 80%N) = Some KeyActive.
Proof. exists verbose_services, exporting_tables. vm_compute. by split_and!. Qed.
End KeyProps.
