(* ===== verification/Governance.v ===== *)
(** Governance of agents ([backend/app/services/agent_governance.py] without its
    dependency graph, and the handlers of [api/agent_governance.py]): ownership
    transfers, certification reviews, expiry, governance signals, key figures, bulk
    operations, export and import of the inventory.

    Rows that a row refers to are taken to exist, but for the new owner of an agent,
    whom the caller names.  The parameters of a bulk operation and the records of an
    import are texts, numbers or lists of texts where the code takes them as such. *)
From Stdlib Require Import Ascii.
From S2P Require Import Prelude.
From S2P Require Import PyStr.
From S2P Require Import PyFloat.
From S2P Require Import PyVal.
From S2P Require Import PyDecimal.
From S2P Require Import Models.
From S2P Require Import PyTime.
From S2P Require Import PyCodec.
From S2P Require Import PyNet.
From S2P Require Import Store.
From S2P Require Import Lifecycle.
From S2P Require Import Delegation.
From S2P Require Import Workspace.

Local Open Scope string_scope.
Local Open Scope Z_scope.

Module Governance.
Import Lifecycle Workspace.

Definition upd_history f : tables → tables := upd_operations (on_ownership_history f).
Definition upd_certifications f : tables → tables := upd_operations (on_certifications f).
Definition cert_table (t : tables) : gmap uuid AgentCertification := certifications (operations t).

(** ** Columns of an agent *)

Definition set_ag_owner (owner : uuid) (owner_type : string) (team : option string) (a : Agent) : Agent :=
  MkAgent (ag_id a) (ag_created_at a) (ag_name a) (ag_identifier a) (ag_environment a) owner (ag_organization_id a)
    (ag_status a) owner_type (ag_purpose a) (ag_risk_classification a) (ag_last_activity_at a) (ag_last_reviewed_at a)
    (ag_next_review_due_at a) (ag_certified_until a) (ag_certification_status a) (ag_description a) team
    (ag_business_function a) (ag_business_criticality a) (ag_data_classification a) (ag_source a) (ag_tags a)
    (ag_expected_actions a) (ag_data_access_description a).
Definition set_ag_review (reviewed due until : option time) (st : string) (a : Agent) : Agent :=
  MkAgent (ag_id a) (ag_created_at a) (ag_name a) (ag_identifier a) (ag_environment a) (ag_owner_id a) (ag_organization_id a)
    (ag_status a) (ag_owner_type a) (ag_purpose a) (ag_risk_classification a) (ag_last_activity_at a) reviewed
    due until st (ag_description a) (ag_team a)
    (ag_business_function a) (ag_business_criticality a) (ag_data_classification a) (ag_source a) (ag_tags a)
    (ag_expected_actions a) (ag_data_access_description a).
Definition set_ag_tags (tags : list string) (a : Agent) : Agent :=
  MkAgent (ag_id a) (ag_created_at a) (ag_name a) (ag_identifier a) (ag_environment a) (ag_owner_id a) (ag_organization_id a)
    (ag_status a) (ag_owner_type a) (ag_purpose a) (ag_risk_classification a) (ag_last_activity_at a) (ag_last_reviewed_at a)
    (ag_next_review_due_at a) (ag_certified_until a) (ag_certification_status a) (ag_description a) (ag_team a)
    (ag_business_function a) (ag_business_criticality a) (ag_data_classification a) (ag_source a) tags
    (ag_expected_actions a) (ag_data_access_description a).

(** [if organization_id: query = query.where(..)]: without one, the agents of everybody. *)
Definition of_organization (org : option uuid) (a : Agent) : bool :=
  match org with Some _ => eqb (ag_organization_id a) org | None => true end.
Definition agents_of (org : option uuid) (t : tables) : list Agent := select_rows (of_organization org) (agents t).

(** [now + timedelta(days=n)] *)
Definition max_time : time := days_from_civil 10000 1 1 * day - 1.
Definition min_time : time := days_from_civil 1 1 1 * day.
Definition plus_days (now : time) (n : Z) : result Exc time :=
  let r := now + n * day in
  if (Z.abs n <=? 999999999) && (min_time <=? r) && (r <=? max_time) then Ok r else Err (PyError OverflowError).

(** A session after a failed flush refuses to be used before a roll-back. *)
Definition alive : DB unit := λ s, if dead s then (Err PendingRollbackError, s) else (Ok tt, s).

(** ** Ownership *)

Definition new_history_ok (h : AgentOwnershipHistory) (team : option string) (owner : uuid) (t : tables) : bool :=
  fits 32 (oh_old_owner_type h) && fits 255 (oh_old_owner_id h) && fits 32 (oh_new_owner_type h) &&
  fits 255 (oh_new_owner_id h) && opt_check (fits 128) team && is_some (users (identity t) !! owner).
Definition user_text (u : option uuid) : string := match u with Some u => uuid_str u | None => "system" end.

Definition transfer_event (agent : Agent) (org : uuid) (h : AgentOwnershipHistory) (now : time) : SecurityEvent :=
  with_scope (Some org) None None (with_text
    (Some ("Ownership of agent '" +:+ ag_name agent +:+ "' (" +:+ ag_identifier agent +:+ ") was transferred from " +:+
       oh_old_owner_id h +:+ " (" +:+ oh_old_owner_type h +:+ ") to " +:+ oh_new_owner_id h +:+ " (" +:+ oh_new_owner_type h +:+ ")."))
    [("agent_id", VStr (uuid_str (ag_id agent))); ("old_owner_id", VStr (oh_old_owner_id h));
     ("new_owner_id", VStr (oh_new_owner_id h)); ("reason", VStr (oh_reason h));
     ("changed_by", VStr (user_text (oh_changed_by h)))]
    (security_event "agent_ownership_transferred" "info" now)).

(** A user as the new owner is stored when the text is a UUID, and left out otherwise. *)
Definition new_owner (agent : Agent) (new_owner_id owner_type : string) : uuid :=
  if eqb owner_type "USER" then default (ag_owner_id agent) (py_uuid new_owner_id) else ag_owner_id agent.
Definition transfer_agent_ownership (agent : Agent) (new_owner_id new_owner_type reason : string)
    (changed_by : option uuid) (new_team : option string) : DB AgentOwnershipHistory :=
  let old_type := if eqb (ag_owner_type agent) "" then "USER" else ag_owner_type agent in
  let owner_type := py_upper new_owner_type in
  now ← now_db;
  let history := MkOwnership (ag_id agent) (ag_organization_id agent) old_type (uuid_str (ag_owner_id agent))
    owner_type new_owner_id changed_by reason now in
  let owner := new_owner agent new_owner_id owner_type in
  let team := match new_team with Some _ => new_team | None => ag_team agent end in
  insert_checked (new_history_ok history team owner) (upd_history (λ l, (l ++ [history])%list)) ;;
  save_agent (set_ag_owner owner owner_type team agent) ;;
  match ag_organization_id agent with
  | Some org => add_security_event (transfer_event agent org history now)
  | None => mret tt
  end ;;
  commit ;;
  mret history.

(** [OWNER_DISABLED] asks for a membership row, whatever its status. *)
Definition has_membership (org user : uuid) (t : tables) : bool :=
  is_some (scalar (λ m, eqb (om_organization_id m) org && eqb (om_user_id m) user) (members (identity t))).
Definition owner_signals (org : option uuid) (a : Agent) (t : tables) : list string :=
  if negb (is_some (users (identity t) !! ag_owner_id a)) then ["OWNER_MISSING"]
  else match org with
       | Some o => if has_membership o (ag_owner_id a) t then [] else ["OWNER_DISABLED"]
       | None => []
       end.
Record orphan : Type := MkOrphan { or_agent : Agent; or_signals : list string }.
Definition detect_orphaned_agents (org : option uuid) (t : tables) : list orphan :=
  select_where (λ o, negb (eqb (or_signals o) [])) (map (λ a, MkOrphan a (owner_signals org a t)) (agents_of org t)).

(** ** Certification *)

Definition opt_text (o : option string) : pyval := match o with Some s => VStr s | None => VNone end.
Definition CredentialStatus_value (s : CredentialStatus) : string :=
  match s with CredActive => "ACTIVE" | CredRevoked => "REVOKED" | CredExpired => "EXPIRED" | CredSuspended => "SUSPENDED" end.
Definition bound_policies (a : Agent) (t : tables) : list PolicyBinding :=
  select_rows (λ b, eqb (bi_scope_type b) "agent" && eqb (bi_scope_id b) (Some (ag_identifier a))) (policy_bindings (catalog t)).
Definition capture_agent_governance_snapshot (agent : Agent) (now : time) (t : tables) : pyval :=
  VDict
    [("snapshot_timestamp", VStr (isoformat now));
     ("agent", VDict
       [("id", VStr (uuid_str (ag_id agent))); ("identifier", VStr (ag_identifier agent)); ("name", VStr (ag_name agent));
        ("status", VStr (AgentStatus_value (ag_status agent))); ("owner_type", VStr (ag_owner_type agent));
        ("owner_id", VStr (uuid_str (ag_owner_id agent))); ("team", opt_text (ag_team agent));
        ("risk_classification", VStr (ag_risk_classification agent));
        ("business_criticality", VStr (ag_business_criticality agent));
        ("data_classification", VStr (ag_data_classification agent)); ("purpose", opt_text (ag_purpose agent))]);
     ("permissions", VList (map (λ p, VDict
       [("id", VStr (uuid_str (pm_id p))); ("action", VStr (pm_action p)); ("resource", VStr (pm_resource p));
        ("conditions", VNone); ("status", VStr (Delegation.PermissionStatus_value (pm_status p)))])
       (select_rows (λ p, eqb (pm_agent_id p) (ag_id agent)) (permissions t))));
     ("credentials", VList (map (λ c, VDict
       [("credential_id", VStr (cr_credential_id c)); ("credential_type", VStr (cr_credential_type c));
        ("status", VStr (CredentialStatus_value (cr_status c))); ("expires_at", VStr (isoformat (cr_expires_at c)))])
       (select_rows (λ c, eqb (cr_subject_agent_id c) (ag_id agent)) (credentials t))));
     ("delegations", VList (map (λ d, VDict
       [("delegation_id", VStr (dl_delegation_id d)); ("parent_agent_id", VStr (uuid_str (dl_parent_agent_id d)));
        ("child_agent_id", VStr (uuid_str (dl_child_agent_id d)));
        ("status", VStr (Delegation.DelegationStatus_value (dl_status d))); ("actions", VList [VStr (dl_action d)])])
       (select_rows (λ d, eqb (dl_parent_agent_id d) (ag_id agent) || eqb (dl_child_agent_id d) (ag_id agent)) (delegations t))));
     ("policies", VList (map (λ b, VDict
       [("binding_id", VStr (uuid_str (bi_id b))); ("policy_id", VStr (uuid_str (bi_policy_id b)));
        ("priority", VInt (bi_priority b)); ("enabled", VBool (bi_enabled b))]) (bound_policies agent t)))].

Section governance.
Context `{Entropy}.

Definition generate_certification_id : DB string := h ← fresh_hex 12; mret ("cert_" +:+ h).
Definition new_certification_ok (c : AgentCertification) (t : tables) : bool :=
  negb (is_some (cert_table t !! ct_id c)) &&
  negb (is_some (scalar (λ d, eqb (ct_certification_id d) (ct_certification_id c)) (cert_table t))).
Definition save_certification (c : AgentCertification) : DB unit := write (upd_certifications <[ct_id c := c]>).

Definition create_certification_review (agent : Agent) (reviewer_id : option uuid) (due_days : Z) (notes : option string) :
    DB AgentCertification :=
  now ← now_db;
  due ← lift_result (plus_days now due_days);
  snapshot ← query (capture_agent_governance_snapshot agent now);
  certification_id ← generate_certification_id;
  id ← fresh_uuid;
  let cert := MkCertification id certification_id (ag_organization_id agent) (ag_id agent) CertPending reviewer_id now
    (Some due) None None notes snapshot in
  insert_checked (new_certification_ok cert) (upd_certifications <[id := cert]>) ;;
  save_agent (set_ag_review (ag_last_reviewed_at agent) (Some due) (ag_certified_until agent) "REVIEW_DUE" agent) ;;
  commit ;;
  mret cert.

Definition set_ct_decision (now : time) (reviewer : uuid) (decision : string) (notes : option string)
    (st : CertificationStatus) (c : AgentCertification) : AgentCertification :=
  MkCertification (ct_id c) (ct_certification_id c) (ct_organization_id c) (ct_agent_id c) st (Some reviewer)
    (ct_requested_at c) (ct_due_at c) (Some now) (Some decision)
    (match notes with Some n => if eqb n "" then ct_notes c else notes | None => ct_notes c end) (ct_snapshot_reference c).
Definition completion_event (agent : Agent) (org : uuid) (c : AgentCertification) (decision : string) (reviewer : uuid)
    (notes : option string) (now : time) : SecurityEvent :=
  with_scope (Some org) None None (with_text
    (Some ("Certification review for '" +:+ ag_name agent +:+ "' was " +:+ decision +:+ " by reviewer " +:+ uuid_str reviewer +:+ "."))
    [("certification_id", VStr (ct_certification_id c)); ("decision", VStr decision); ("reviewer_id", VStr (uuid_str reviewer));
     ("notes", opt_text notes)]
    (security_event "agent_certification_completed" (if eqb decision "APPROVED" then "info" else "warning") now)).

(** What the decision makes of the agent's row. *)
Definition decided_agent (approved : bool) (policy : AgentGovernancePolicy) (now : time) (a : Agent) : Agent :=
  if approved then
    let until := Some (now + gp_periodic_review_days policy * day) in set_ag_review (Some now) until until "CERTIFIED" a
  else
    let a := set_ag_review (ag_last_reviewed_at a) (ag_next_review_due_at a) (ag_certified_until a) "REVOKED" a in
    if eqb (gp_expiry_behavior policy) ExpirySuspend then set_ag_status SUSPENDED a else a.

(** The decision is taken whatever the status of the review.  The look-up of the agent
    flushes it, and the look-up of the policy may commit it, before the status is set. *)
Definition complete_certification_review (cert : AgentCertification) (decision : string) (reviewer : uuid)
    (notes : option string) : DB AgentCertification :=
  let decision := py_upper (py_strip decision) in
  let approved := eqb decision "APPROVED" in
  now ← now_db;
  let decided st := set_ct_decision now reviewer decision notes st cert in
  insert_checked (λ _, fits 32 decision) (upd_certifications <[ct_id cert := decided (ct_status cert)]>) ;;
  agent ← query (λ t, agents t !! ct_agent_id cert);
  policy ← get_governance_policy (agent ≫= ag_organization_id);
  let cert := decided (if approved then CertApproved else CertRejected) in
  save_certification cert ;;
  match agent with
  | Some a =>
      save_agent (decided_agent approved policy now a) ;;
      match ag_organization_id a with
      | Some org => add_security_event (completion_event a org cert decision reviewer notes now)
      | None => mret tt
      end
  | None => mret tt
  end ;;
  commit ;;
  mret cert.

(** ** Expiry *)

Definition lapsed (org : option uuid) (now : time) (a : Agent) : bool :=
  eqb (ag_status a) ACTIVE && match ag_certified_until a with Some u => u <? now | None => false end && of_organization org a.
Record expiry_action : Type := MkExpiry { ex_agent : Agent; ex_action : string; ex_new_status : string }.
Definition expiry_effect (behavior : ExpiryBehavior) (a : Agent) : Agent * string :=
  let a := set_ag_review (ag_last_reviewed_at a) (ag_next_review_due_at a) (ag_certified_until a) "EXPIRED" a in
  match behavior with
  | ExpirySuspend => (set_ag_status SUSPENDED a, "SUSPENDED")
  | ExpiryReviewRequired => (set_ag_status REVIEW_REQUIRED a, "MOVED_TO_REVIEW_REQUIRED")
  | AlertOnly => (a, "ALERTED")
  end.
Definition expiry_event (a : Agent) (org : uuid) (action : string) (now : time) : SecurityEvent :=
  with_scope (Some org) None None (with_text
    (Some ("Certification expired for active agent '" +:+ ag_name a +:+ "'. Action taken: " +:+ action +:+ "."))
    [("agent_id", VStr (uuid_str (ag_id a)));
     ("certified_until", match ag_certified_until a with Some u => VStr (isoformat u) | None => VNone end);
     ("action_taken", VStr action)]
    (security_event "agent_certification_expired" "warning" now)).
Definition expire_one (behavior : ExpiryBehavior) (now : time) (a : Agent) : DB unit :=
  let '(a', action) := expiry_effect behavior a in
  save_agent a' ;;
  match ag_organization_id a with
  | Some org => add_security_event (expiry_event a org action now)
  | None => mret tt
  end.
Definition check_and_apply_certification_expiries (org : option uuid) : DB (list expiry_action) :=
  now ← now_db;
  policy ← get_governance_policy org;
  expired ← query (λ t, select_rows (lapsed org now) (agents t));
  let behavior := gp_expiry_behavior policy in
  for_each (expire_one behavior now) expired ;;
  commit ;;
  mret (map (λ a, let '(a', action) := expiry_effect behavior a in MkExpiry a action (AgentStatus_value (ag_status a'))) expired).

(** ** Signals *)

Definition days_of (t : time) : Z := t / day.
Definition certification_signals (a : Agent) (now : time) : list string :=
  match ag_certified_until a with
  | Some until =>
      if until <? now then ["CERTIFICATION_EXPIRED"]
      else match ag_next_review_due_at a with
           | Some due =>
               if due <? now then ["REVIEW_OVERDUE"]
               else if days_of (due - now) <=? 14 then ["REVIEW_DUE"] else []
           | None => []
           end
  | None => if eqb (ag_status a) ACTIVE then ["REVIEW_DUE"] else []
  end.
Definition dormancy_signals (a : Agent) (cutoff : time) : list string :=
  if default (ag_created_at a) (ag_last_activity_at a) <? cutoff then ["AGENT_DORMANT"] else [].
Definition broad (a : Agent) (p : Permission) : bool :=
  eqb (pm_agent_id p) (ag_id a) && (eqb (pm_action p) "*" || eqb (pm_resource p) "*").
Definition permission_signals (a : Agent) (t : tables) : list string :=
  if is_some (scalar (broad a) (permissions t)) then ["BROAD_PERMISSION"] else [].
Definition signals_of (org : option uuid) (policy : AgentGovernancePolicy) (now : time) (a : Agent) (t : tables) : list string :=
  sort_strings (remove_dups (owner_signals org a t ++ certification_signals a now ++
    dormancy_signals a (now - gp_dormancy_days policy * day) ++ permission_signals a t)).
Definition evaluate_governance_signals (org agent_id : option uuid) : DB (list orphan) :=
  now ← now_db;
  policy ← get_governance_policy org;
  query (λ t, select_where (λ o, negb (eqb (or_signals o) []))
    (map (λ a, MkOrphan a (signals_of org policy now a t))
       (select_where (λ a, opt_check (eqb (ag_id a)) agent_id) (agents_of org t)))).

(** ** Key figures *)

Definition bump (k : string) (d : list (string * Z)) : list (string * Z) := dict_set k (default 0 (dict_get k d) + 1) d.
Definition counts (l : list string) : list (string * Z) := fold_left (λ d k, bump k d) l [].
Record kpis : Type := MkKpis {
  ki_total : Z; ki_active : Z; ki_draft : Z; ki_review_required : Z; ki_suspended : Z; ki_retired : Z;
  ki_pending_reviews : Z; ki_risk : list (string * Z); ki_signals : list (string * Z);
  ki_orphaned : Z; ki_dormant : Z; ki_overdue : Z
}.
Definition pending_certs (org : option uuid) (t : tables) : Z :=
  Z.of_nat (length (select_rows (λ c, eqb (ct_status c) CertPending &&
    match org with Some _ => eqb (ct_organization_id c) org | None => true end) (cert_table t))).
Definition get_executive_governance_kpis (org : option uuid) : DB kpis :=
  found ← query (agents_of org);
  let status := counts (map (λ a, AgentStatus_value (ag_status a)) found) in
  let risk := counts (map (λ a, py_upper (if eqb (ag_risk_classification a) "" then "LOW" else ag_risk_classification a)) found) in
  items ← evaluate_governance_signals org None;
  let signals := counts (concat (map or_signals items)) in
  pending ← query (pending_certs org);
  let n k d := default 0 (dict_get k d) in
  let st s := n (AgentStatus_value s) status in
  mret (MkKpis (Z.of_nat (length found)) (st ACTIVE) (st DRAFT) (st REVIEW_REQUIRED) (st SUSPENDED) (st RETIRED) pending
    risk signals (n "OWNER_MISSING" signals + n "OWNER_DISABLED" signals) (n "AGENT_DORMANT" signals) (n "REVIEW_OVERDUE" signals)).

(** ** Bulk operations *)

Record bulk_params : Type := MkBulk {
  bp_new_owner_id : option string;
  bp_new_owner_type : option string;
  bp_reason : option string;
  bp_new_team : option string;
  bp_due_days : option Z;
  bp_notes : option string;
  bp_tags : list string
}.
Inductive bulk_error : Type := BulkMessage (text : string) | BulkRaised (e : Exc).
Inductive bulk_outcome : Type := Processed (agent_id : string) | BulkFailed (agent_id : string) (e : bulk_error).

(** A missing new owner is the text [None]. *)
Definition bulk_action (action : string) (params : bulk_params) (acting : option uuid) (raw : string) (agent : Agent) :
    DB bulk_outcome :=
  let norm := py_lower (py_strip action) in
  let done := Processed (uuid_str (ag_id agent)) in
  if eqb norm "transfer_owner" then
    transfer_agent_ownership agent (default "None" (bp_new_owner_id params)) (default "USER" (bp_new_owner_type params))
      (default "Bulk ownership transfer" (bp_reason params)) acting (bp_new_team params) ;;
    mret done
  else if eqb norm "trigger_review" then
    create_certification_review agent acting (default 14 (bp_due_days params))
      (Some (default "Triggered via bulk governance" (bp_notes params))) ;;
    mret done
  else if eqb norm "suspend" then
    now ← now_db;
    transition_lifecycle agent (StatusEnum SUSPENDED) acting (Some (default "Bulk emergency suspension" (bp_reason params))) false now ;;
    mret done
  else if eqb norm "add_tags" then
    save_agent (set_ag_tags (remove_dups (ag_tags agent ++ bp_tags params)) agent) ;;
    commit ;;
    mret done
  else mret (BulkFailed raw (BulkMessage ("Unsupported bulk action '" +:+ action +:+ "'"))).
Definition bulk_agent (org : option uuid) (action : string) (params : bulk_params) (acting : option uuid) (raw : string) :
    DB bulk_outcome :=
  try_except
    (aid ← lift_result match py_uuid raw with Some u => Ok u | None => Err (PyError ValueError) end;
     alive ;;
     found ← query (λ t, agents t !! aid);
     match found with
     | None => mret (BulkFailed raw (BulkMessage "Agent not found"))
     | Some agent =>
         if is_some org && negb (eqb (ag_organization_id agent) org)
         then mret (BulkFailed raw (BulkMessage "Tenant access denied"))
         else bulk_action action params acting raw agent
     end)
    (λ e, mret (BulkFailed raw (BulkRaised e))).
Fixpoint bulk_agents (org : option uuid) (action : string) (params : bulk_params) (acting : option uuid) (ids : list string) :
    DB (list bulk_outcome) :=
  match ids with
  | [] => mret []
  | raw :: ids =>
      o ← bulk_agent org action params acting raw;
      l ← bulk_agents org action params acting ids;
      mret (o :: l)
  end.
Record bulk_result : Type := MkBulkResult { br_action : string; br_outcomes : list bulk_outcome }.
Definition execute_bulk_governance (org : option uuid) (action : string) (ids : list string) (params : bulk_params)
    (acting : option uuid) : DB bulk_result :=
  outcomes ← bulk_agents org action params acting ids;
  mret (MkBulkResult (py_lower (py_strip action)) outcomes).

(** ** Export *)

Definition inventory_row (a : Agent) : list (string * string) :=
  [("agent_identifier", ag_identifier a); ("name", ag_name a); ("description", default "" (ag_description a));
   ("status", AgentStatus_value (ag_status a)); ("owner_type", ag_owner_type a); ("owner_id", uuid_str (ag_owner_id a));
   ("team", default "" (ag_team a)); ("purpose", default "" (ag_purpose a)); ("business_function", default "" (ag_business_function a));
   ("risk_classification", ag_risk_classification a); ("business_criticality", ag_business_criticality a);
   ("data_classification", ag_data_classification a); ("source", ag_source a); ("tags", json_plain (VList (map VStr (ag_tags a))));
   ("certification_status", ag_certification_status a);
   ("certified_until", match ag_certified_until a with Some u => isoformat u | None => "" end);
   ("created_at", isoformat (ag_created_at a))].

(** [csv.DictWriter] with its defaults: a field is quoted when it has a comma, a quote or
    an end of line, quotes are doubled, a line ends in CR LF. *)
Definition lf : string := String (ascii_of_N 10) "".
Definition crlf : string := String (ascii_of_N 13) lf.
Definition special (c : ascii) : bool := existsb (eqb c) [","%char; dquote; ascii_of_N 10; ascii_of_N 13].
Fixpoint has_special (s : string) : bool := match s with "" => false | String c s => special c || has_special s end.
Definition csv_char (c : ascii) : string := if eqb c dquote then String dquote (String dquote "") else String c "".
Definition csv_field (s : string) : string :=
  if has_special s then String dquote (concat_map csv_char s +:+ String dquote "") else s.
Definition csv_line (fields : list string) : string := str_join "," (map csv_field fields) +:+ crlf.
Definition csv_text (records : list (list (string * string))) : string :=
  match records with
  | [] => ""
  | r :: _ => csv_line (map fst r) +:+ str_join "" (map (λ r, csv_line (map snd r)) records)
  end.
(** [json.dumps(records, indent=2)] on records of texts *)
Definition json_pretty (records : list (list (string * string))) : string :=
  match records with
  | [] => "[]"
  | _ => "[" +:+ lf +:+ str_join ("," +:+ lf) (map (λ r, "  {" +:+ lf +:+
           str_join ("," +:+ lf) (map (λ kv, "    " +:+ json_str kv.1 +:+ ": " +:+ json_str kv.2) r) +:+ lf +:+ "  }") records) +:+ lf +:+ "]"
  end.
Definition export_agent_inventory (org : option uuid) (format : string) (t : tables) : string :=
  let records := map inventory_row (agents_of org t) in
  if eqb (py_lower format) "csv" then csv_text records else json_pretty records.

(** ** Import *)

Definition identifier_taken (identifier : string) (t : tables) : bool :=
  is_some (scalar (λ a, eqb (ag_identifier a) identifier) (agents t)).
Definition text_column (n : nat) (v : pyval) : option string :=
  match v with VStr s => if fits n s then Some s else None | _ => None end.
Definition nullable_column (limit : string → bool) (v : pyval) : option (option string) :=
  match v with VStr s => if limit s then Some (Some s) else None | VNone => Some None | _ => None end.
Definition field_or (k d : string) (rec : list (string * pyval)) : pyval := default (VStr d) (dict_get k rec).

(** The row of a record, when the columns can hold its values. *)
Definition imported_agent (rec : list (string * pyval)) (identifier : string) (name : pyval) (owner : uuid) (org : option uuid)
    (source : string) (id : uuid) (now : time) : option Agent :=
  name ← text_column 200 name;
  description ← nullable_column (λ _, true) (get "description" rec);
  owner_type ← text_column 32 (field_or "owner_type" "USER" rec);
  team ← nullable_column (fits 128) (get "team" rec);
  purpose ← nullable_column (λ _, true) (get "purpose" rec);
  business_function ← nullable_column (fits 128) (get "business_function" rec);
  risk ← text_column 32 (field_or "risk_classification" "LOW" rec);
  criticality ← text_column 32 (field_or "business_criticality" "LOW" rec);
  data ← text_column 32 (field_or "data_classification" "INTERNAL" rec);
  source ← text_column 32 (VStr source);
  let tags := match get "tags" rec with VList l => default [] (mapM as_str l) | _ => [] end in
  if fits 255 identifier then
    Some (MkAgent id now name identifier "production" owner org REGISTERED owner_type purpose risk None None None None "UNREVIEWED"
      description team business_function criticality data source tags [] None)
  else None.
Definition new_agent_ok (a : Agent) (t : tables) : bool :=
  negb (is_some (agents t !! ag_id a)) && negb (identifier_taken (ag_identifier a) t) &&
  is_some (users (identity t) !! ag_owner_id a).

Inductive import_outcome : Type := Imported (identifier : string) | ImportFailed (identifier : pyval) (e : bulk_error).
Definition record_identifier (rec : list (string * pyval)) : DB pyval :=
  if truthy (get "agent_identifier" rec) then mret (get "agent_identifier" rec)
  else if truthy (get "id" rec) then mret (get "id" rec)
  else h ← fresh_hex 4; mret (VStr ("imported-agent-" +:+ h)).
Definition record_owner (rec : list (string * pyval)) (default_owner : uuid) : uuid :=
  if truthy (get "owner_id" rec) then default default_owner (py_uuid (py_str (get "owner_id" rec))) else default_owner.
Definition import_record (org : option uuid) (default_owner : uuid) (source : string) (rec : list (string * pyval)) :
    DB import_outcome :=
  identifier ← record_identifier rec;
  let name := py_or (get "name" rec) identifier in
  try_except
    match identifier with
    | VStr text =>
        existing ← query (identifier_taken text);
        if existing : bool then mret (ImportFailed identifier (BulkMessage "Agent identifier already exists"))
        else
          id ← fresh_uuid;
          now ← now_db;
          match imported_agent rec text name (record_owner rec default_owner) org source id now with
          | Some a =>
              insert_checked (new_agent_ok a) (upd_agents <[id := a]>) ;;
              commit ;;
              mret (Imported text)
          | None => throw IntegrityError
          end
    | _ => throw IntegrityError
    end
    (λ e, rollback ;; mret (ImportFailed identifier (BulkRaised e))).
Fixpoint import_agent_inventory (org : option uuid) (records : list (list (string * pyval))) (default_owner : uuid)
    (source : string) : DB (list import_outcome) :=
  match records with
  | [] => mret []
  | rec :: records =>
      o ← import_record org default_owner source rec;
      l ← import_agent_inventory org records default_owner source;
      mret (o :: l)
  end.

(** ** Handlers *)

Definition get_dashboard_kpis (w : WorkspaceContext) : DB kpis :=
  require w "read" ;; get_executive_governance_kpis (wc_organization_id w).
Definition get_signals (w : WorkspaceContext) (agent_id : option uuid) : DB (list orphan) :=
  require w "read" ;; evaluate_governance_signals (wc_organization_id w) agent_id.
Definition get_orphaned (w : WorkspaceContext) : DB (list orphan) :=
  require w "read" ;; query (detect_orphaned_agents (wc_organization_id w)).

Definition CertificationStatus_of (s : string) : option CertificationStatus :=
  if eqb s "PENDING" then Some CertPending else if eqb s "APPROVED" then Some CertApproved
  else if eqb s "REJECTED" then Some CertRejected else if eqb s "EXPIRED" then Some CertExpired else None.
(** A status that is no member of the enumeration is refused by the column's type. *)
Definition list_certifications (w : WorkspaceContext) (status : option string) (agent_id : option uuid) : DB (list AgentCertification) :=
  require w "read" ;;
  wanted ← lift_result
    match status return result Exc (option CertificationStatus) with
    | Some s => if eqb s "" then Ok None
                else match CertificationStatus_of (py_upper s) with
                     | Some st => Ok (Some st)
                     | None => Err (RaisedRuntimeError "StatementError")
                     end
    | None => Ok None
    end;
  query (λ t, order_desc ct_requested_at ct_id (select_rows (λ c,
    match wc_organization_id w with Some o => eqb (ct_organization_id c) (Some o) | None => true end &&
    opt_check (eqb (ct_status c)) wanted && opt_check (eqb (ct_agent_id c)) agent_id) (cert_table t))).

Definition request_certification (w : WorkspaceContext) (agent_id reviewer_id : option uuid) (due_days : Z) (notes : option string) :
    DB AgentCertification :=
  require w "manage_agents" ;;
  match agent_id with
  | None => throw (HTTPException 400 "agent_id is required")
  | Some aid =>
      agent ← get_or (λ t, agents t !! aid) (HTTPException 404 "Agent not found");
      raise_if (is_some (wc_organization_id w) && negb (eqb (ag_organization_id agent) (wc_organization_id w)))
        (HTTPException 403 "Agent does not belong to current organization") ;;
      create_certification_review agent (Some (default (wc_user_id w) reviewer_id)) due_days notes
  end.
Definition certification_by (certification_id : string) (t : tables) : option AgentCertification :=
  scalar (λ c, eqb (ct_certification_id c) certification_id) (cert_table t).
Definition decide_certification (w : WorkspaceContext) (certification_id decision : string) (notes : option string) : DB AgentCertification :=
  require w "manage_agents" ;;
  cert ← get_or (certification_by certification_id) (HTTPException 404 "Certification review not found");
  raise_if (is_some (wc_organization_id w) && negb (eqb (ct_organization_id cert) (wc_organization_id w)))
    (HTTPException 403 "Certification review belongs to different organization") ;;
  policy ← get_governance_policy (wc_organization_id w);
  agent ← query (λ t, agents t !! ct_agent_id cert);
  raise_if (gp_enforce_separation_of_duties policy &&
      match agent with Some a => eqb (ag_owner_id a) (wc_user_id w) | None => false end)
    (HTTPException 403 "Separation of duties: Agent owner cannot approve their own agent's certification review.") ;;
  complete_certification_review cert decision (wc_user_id w) notes.
Definition trigger_expiry_evaluations (w : WorkspaceContext) : DB (list expiry_action) :=
  require w "manage_agents" ;; check_and_apply_certification_expiries (wc_organization_id w).
Definition execute_bulk (w : WorkspaceContext) (action : string) (ids : list string) (params : bulk_params) : DB bulk_result :=
  require w "manage_agents" ;;
  execute_bulk_governance (wc_organization_id w) action ids params (Some (wc_user_id w)).
Definition import_inventory (w : WorkspaceContext) (records : list (list (string * pyval))) (source : string) : DB (list import_outcome) :=
  require w "manage_agents" ;;
  import_agent_inventory (wc_organization_id w) records (wc_user_id w) source.
Definition export_inventory (w : WorkspaceContext) (format : string) : DB string :=
  require w "read" ;; query (export_agent_inventory (wc_organization_id w) format).

(** The answer names an organization: without one its validation fails. *)
Definition policy_response (p : AgentGovernancePolicy) : DB AgentGovernancePolicy :=
  match gp_organization_id p with Some _ => mret p | None => throw (PyError ValueError) end.
Definition get_policy (w : WorkspaceContext) : DB AgentGovernancePolicy :=
  require w "read" ;;
  p ← get_governance_policy (wc_organization_id w);
  policy_response p.
Record UpdateGovernancePolicyRequest : Type := MkPolicyUpdate {
  ug_periodic_review_days : option Z;
  ug_expiry_behavior : option string;
  ug_dormancy_days : option Z;
  ug_enforce_separation_of_duties : option bool;
  ug_require_classification_on_promotion : option bool;
  ug_require_purpose_on_promotion : option bool
}.
Definition ExpiryBehavior_of (s : string) : result Exc ExpiryBehavior :=
  if eqb s "ALERT_ONLY" then Ok AlertOnly else if eqb s "REVIEW_REQUIRED" then Ok ExpiryReviewRequired
  else if eqb s "SUSPEND" then Ok ExpirySuspend else Err (PyError ValueError).
Definition updated_policy (u : UpdateGovernancePolicyRequest) (behavior : ExpiryBehavior) (p : AgentGovernancePolicy) : AgentGovernancePolicy :=
  MkGovernancePolicy (gp_organization_id p) (default (gp_periodic_review_days p) (ug_periodic_review_days u)) behavior
    (default (gp_dormancy_days p) (ug_dormancy_days u))
    (default (gp_enforce_separation_of_duties p) (ug_enforce_separation_of_duties u))
    (default (gp_require_classification_on_promotion p) (ug_require_classification_on_promotion u))
    (default (gp_require_purpose_on_promotion p) (ug_require_purpose_on_promotion u)).
(** A policy of no organization is not stored, and cannot be refreshed. *)
Definition update_policy (w : WorkspaceContext) (u : UpdateGovernancePolicyRequest) : DB AgentGovernancePolicy :=
  require w "admin" ;;
  p ← get_governance_policy (wc_organization_id w);
  behavior ← lift_result match ug_expiry_behavior u with
                         | Some s => ExpiryBehavior_of (py_upper s)
                         | None => Ok (gp_expiry_behavior p)
                         end;
  let p := updated_policy u behavior p in
  match gp_organization_id p with
  | Some org => write (upd_governance_policies <[org := p]>)
  | None => mret tt
  end ;;
  commit ;;
  match gp_organization_id p with
  | Some _ => policy_response p
  | None => throw (RaisedRuntimeError "InvalidRequestError")
  end.
End governance.
End Governance.
