(* ===== verification/Dependencies.v ===== *)
(** The dependency graph of an agent ([calculate_blast_radius_graph] of
    [backend/app/services/agent_governance.py]): delegations, credentials, policies,
    services, capabilities and calls as nodes and edges, and the score they add up to.

    The paragraphs are definitions that extend a graph; [seen_node_ids] is the set of
    the identifiers of its nodes. *)
From Stdlib Require Import Ascii.
From S2P Require Import Prelude.
From S2P Require Import PyStr.
From S2P Require Import PyFloat.
From S2P Require Import PyVal.
From S2P Require Import PyDecimal.
From S2P Require Import Models.
From S2P Require Import Store.
From S2P Require Import Samples.
From S2P Require Import Delegation.
From S2P Require Import Governance.

Local Open Scope string_scope.
Local Open Scope Z_scope.

Module Dependencies.
Import Governance.

Record node : Type := MkNode {
  gn_id : string;
  gn_type : string;
  gn_label : string;
  gn_identifier : string;
  gn_status : option string;
  gn_risk_classification : option string;
  gn_is_root : bool
}.
Record edge : Type := MkEdge {
  ge_source : string;
  ge_target : string;
  ge_relationship : string;
  ge_status : option string;
  ge_actions : option (list string);
  ge_capability : option string
}.
Record graph : Type := MkGraph { g_nodes : list node; g_edges : list edge }.

Definition seen (id : string) (g : graph) : bool := existsb (λ n, eqb (gn_id n) id) (g_nodes g).
Definition add_node (n : node) (g : graph) : graph :=
  if seen (gn_id n) g then g else MkGraph (g_nodes g ++ [n]) (g_edges g).
Definition add_edge (e : edge) (g : graph) : graph := MkGraph (g_nodes g) (g_edges g ++ [e]).
Definition link (n : node) (e : edge) (g : graph) : graph := add_edge e (add_node n g).

Definition agent_node_id (a : uuid) : string := "agent:" +:+ uuid_str a.
Definition agent_node (type : string) (root : bool) (a : Agent) : node :=
  MkNode (agent_node_id (ag_id a)) type (ag_name a) (ag_identifier a) (Some (AgentStatus_value (ag_status a)))
    (Some (ag_risk_classification a)) root.

(** Lines 489 to 501: the agent itself. *)
Definition root_graph (a : Agent) : graph := MkGraph [agent_node "agent" true a] [].

Section graph.
Context (t : tables) (agent : Agent).
Let me : string := agent_node_id (ag_id agent).

Definition delegation_edge (source target relationship : string) (d : AgentDelegation) : edge :=
  MkEdge source target relationship (Some (Delegation.DelegationStatus_value (dl_status d))) (Some [dl_action d]) None.
Definition add_incoming (g : graph) (d : AgentDelegation) : graph :=
  match agents t !! dl_parent_agent_id d with
  | Some p => let n := agent_node "caller_agent" false p in link n (delegation_edge (gn_id n) me "DELEGATES_TO" d) g
  | None => g
  end.
Definition add_outgoing (g : graph) (d : AgentDelegation) : graph :=
  match agents t !! dl_child_agent_id d with
  | Some c => let n := agent_node "target_agent" false c in link n (delegation_edge me (gn_id n) "DELEGATED_AUTHORITY_TO" d) g
  | None => g
  end.
Definition plain_edge (source target relationship : string) : edge := MkEdge source target relationship None None None.
Definition add_credential (g : graph) (c : AgentCredential) : graph :=
  let n := MkNode ("credential:" +:+ cr_credential_id c) "credential" (cr_credential_type c) (cr_credential_id c)
    (Some (CredentialStatus_value (cr_status c))) None false in
  link n (plain_edge me (gn_id n) "HOLDS_CREDENTIAL") g.
Definition add_policy (g : graph) (b : PolicyBinding) : graph :=
  match policies (catalog t) !! bi_policy_id b with
  | Some p =>
      let n := MkNode ("policy:" +:+ po_policy_id p) "policy" (po_name p) (po_policy_id p) (Some (po_status p)) None false in
      link n (plain_edge (gn_id n) me "GOVERNS_AGENT") g
  | None => g
  end.
Definition add_service (g : graph) (s : AgentService) : graph :=
  let n := MkNode ("service:" +:+ sv_service_id s) "service" (sv_name s) (sv_service_id s) (Some (sv_status s)) None false in
  link n (plain_edge me (gn_id n) "HOSTS_SERVICE") g.
Definition add_capability (g : graph) (c : AgentCapability) : graph :=
  let key := if eqb (cb_capability_id c) "" then cb_name c else cb_capability_id c in
  let n := MkNode ("capability:" +:+ key) "capability" (cb_name c) key None (Some (cb_risk_classification c)) false in
  link n (plain_edge me (gn_id n) "USES_CAPABILITY") g.
Definition add_call (g : graph) (c : AgentCallRecord) : graph :=
  match cl_target_agent_id c ≫= λ k, agents t !! k with
  | Some a =>
      let n := agent_node "target_agent" false a in
      link n (MkEdge me (gn_id n) "CALLS" (Some (cl_status c)) None (Some (cl_capability_name c))) g
  | None => g
  end.

Definition incoming : list AgentDelegation := select_rows (λ d, eqb (dl_child_agent_id d) (ag_id agent)) (delegations t).
Definition outgoing : list AgentDelegation := select_rows (λ d, eqb (dl_parent_agent_id d) (ag_id agent)) (delegations t).
Definition held_credentials : list AgentCredential :=
  select_rows (λ c, eqb (cr_subject_agent_id c) (ag_id agent) && eqb (cr_status c) CredActive) (credentials t).
Definition enabled_bindings : list PolicyBinding := select_where bi_enabled (bound_policies agent t).
Definition hosted : list AgentService := select_rows (λ s, eqb (sv_agent_id s) (ag_id agent)) (agent_services (catalog t)).
Definition capabilities : list AgentCapability := select_rows (λ c, eqb (cb_agent_id c) (ag_id agent)) (agent_capabilities (catalog t)).
Definition recent_calls : list AgentCallRecord :=
  take 20 (order_desc cl_created_at cl_id (select_rows (λ c, eqb (cl_source_agent_id c) (ag_id agent)) (agent_calls (catalog t)))).

Definition dependency_graph : graph :=
  let g := foldl add_incoming (root_graph agent) incoming in
  let g := foldl add_outgoing g outgoing in
  let g := foldl add_credential g held_credentials in
  let g := foldl add_policy g enabled_bindings in
  let g := foldl add_service g hosted in
  let g := foldl add_capability g capabilities in
  foldl add_call g recent_calls.

(** ** The score

    The risk factors 4.0, 2.5, 1.5 and 1.0 are halves of integers; products below 2^53
    are exact, and [int] truncates. *)
Definition connected (g : graph) : Z :=
  Z.of_nat (count_where (λ n, eqb (gn_type n) "caller_agent" || eqb (gn_type n) "target_agent") (g_nodes g)).
Definition twice_risk_factor : Z :=
  let r := ag_risk_classification agent in
  if eqb r "CRITICAL" then 8 else if eqb r "HIGH" then 5 else if eqb r "MEDIUM" then 3 else 2.
Definition blast_radius_score (g : graph) : Z :=
  Z.quot ((connected g * 10 + Z.of_nat (length held_credentials) * 5 + Z.of_nat (length enabled_bindings) * 2) * twice_risk_factor) 2.
End graph.

Record blast_radius : Type := MkBlast {
  bl_root_agent_id : uuid; bl_root_agent_name : string; bl_graph : graph;
  bl_total_nodes : Z; bl_total_edges : Z; bl_connected_agents_count : Z;
  bl_active_credentials_count : Z; bl_bound_policies_count : Z; bl_blast_radius_score : Z
}.
Definition calculate_blast_radius_graph (agent_id : uuid) (t : tables) : result Exc blast_radius :=
  match agents t !! agent_id with
  | None => Err (RaisedValueError ("Agent with ID '" +:+ uuid_str agent_id +:+ "' not found."))
  | Some agent =>
      let g := dependency_graph t agent in
      Ok (MkBlast (ag_id agent) (ag_name agent) g (Z.of_nat (length (g_nodes g))) (Z.of_nat (length (g_edges g)))
        (connected g) (Z.of_nat (length (held_credentials t agent))) (Z.of_nat (length (enabled_bindings t agent)))
        (blast_radius_score t agent g))
  end.

(** ** What the graph guarantees *)

Definition ids (g : graph) : list string := map gn_id (g_nodes g).
Definition extends (g g' : graph) : Prop := g_nodes g `prefix_of` g_nodes g' ∧ g_edges g `prefix_of` g_edges g'.
#[export] Instance extends_preorder : PreOrder extends.
Proof. split; [by intros g | intros g1 g2 g3 [??] [??]; split; by etrans]. Qed.
Definition star (me : string) (g : graph) : Prop :=
  NoDup (ids g) ∧ me ∈ ids g ∧
  ∀ e, e ∈ g_edges g → ge_source e ∈ ids g ∧ ge_target e ∈ ids g ∧ (ge_source e = me ∨ ge_target e = me).

Lemma seen_spec id g : seen id g = true ↔ id ∈ ids g.
Proof.
  unfold seen, ids. rewrite existsb_exists, list_elem_of_fmap. split.
  - intros (n & Hin & He). reflect. exists n. split; [done | by apply list_elem_of_In].
  - intros (n & -> & Hin). exists n. split; [by apply list_elem_of_In | apply eqb_refl].
Qed.
Lemma extends_ids g g' id : extends g g' → id ∈ ids g → id ∈ ids g'.
Proof. intros [[l Hl] _]. unfold ids. rewrite Hl, map_app, elem_of_app. by left. Qed.
Lemma extends_edge g g' e : extends g g' → e ∈ g_edges g → e ∈ g_edges g'.
Proof. intros [_ [l ->]]. rewrite elem_of_app. by left. Qed.

Lemma add_node_extends n g : extends g (add_node n g).
Proof. unfold add_node. destruct (seen _ g); [reflexivity|]. split; [by eexists | reflexivity]. Qed.
Lemma add_node_in n g : gn_id n ∈ ids (add_node n g).
Proof.
  unfold add_node. destruct (seen _ g) eqn:Hs; [by apply seen_spec|].
  unfold ids. simpl. rewrite map_app, elem_of_app. right. by apply list_elem_of_singleton.
Qed.
Lemma link_extends n e g : extends g (link n e g).
Proof. etrans; [apply (add_node_extends n)|]. unfold link, add_edge. split; [reflexivity | by eexists]. Qed.
Lemma link_edge n e g : e ∈ g_edges (link n e g).
Proof. unfold link, add_edge. simpl. rewrite elem_of_app. right. by apply list_elem_of_singleton. Qed.

Lemma add_node_star me n g : star me g → star me (add_node n g).
Proof.
  intros (Hd & Hme & He). pose proof (add_node_extends n g) as Hx. split_and!.
  - unfold add_node. destruct (seen _ g) eqn:Hs; [done|]. unfold ids. simpl. rewrite map_app. apply NoDup_app.
    split_and!; [done | | by apply NoDup_singleton]. intros id Hid ->%list_elem_of_singleton.
    apply seen_spec in Hid. by rewrite Hs in Hid.
  - by eapply extends_ids.
  - intros e Hin. assert (g_edges (add_node n g) = g_edges g) as Heq by (unfold add_node; by destruct (seen _ g)).
    rewrite Heq in Hin. destruct (He e Hin) as (Hs & Ht & Hor). split_and!; [by eapply extends_ids .. | done].
Qed.
Lemma link_star me n e g : (ge_source e = me ∧ ge_target e = gn_id n) ∨ (ge_source e = gn_id n ∧ ge_target e = me) →
  star me g → star me (link n e g).
Proof.
  intros Hends Hg. destruct (add_node_star me n g Hg) as (Hd & Hme & He). pose proof (add_node_in n g) as Hn.
  unfold link, add_edge. split_and!; [done | done |]. simpl. intros e' [Hin | ->%list_elem_of_singleton]%elem_of_app; [by apply He|].
  unfold ids in *. simpl in *. destruct Hends as [[-> ->] | [-> ->]]; auto.
Qed.

(** A paragraph: every element extends the graph and keeps it a star. *)
Definition paragraph {X} (me : string) (f : graph → X → graph) : Prop := ∀ g x, extends g (f g x) ∧ (star me g → star me (f g x)).
Lemma fold_extends {X} me (f : graph → X → graph) l g : paragraph me f → extends g (foldl f g l).
Proof. intros Hf. revert g. induction l as [|x l IH]; intros g; simpl; [reflexivity|]. etrans; [apply Hf | apply IH]. Qed.
Lemma fold_star {X} me (f : graph → X → graph) l g : paragraph me f → star me g → star me (foldl f g l).
Proof. intros Hf. revert g. induction l as [|x l IH]; intros g Hg; simpl; [done|]. apply IH. by apply Hf. Qed.
Lemma fold_edge {X} me (f : graph → X → graph) l g x e : paragraph me f → (∀ g, e ∈ g_edges (f g x)) → x ∈ l →
  e ∈ g_edges (foldl f g l).
Proof.
  intros Hf He Hx. revert g. induction Hx as [x l | x y l _ IH]; intros g; simpl; [|by apply IH].
  eapply extends_edge; [by eapply fold_extends | apply He].
Qed.

Section spec.
Context (t : tables) (agent : Agent).
Let me : string := agent_node_id (ag_id agent).

Lemma paragraphs : paragraph me (add_incoming t agent) ∧ paragraph me (add_outgoing t agent) ∧
  paragraph me (add_credential agent) ∧ paragraph me (add_policy t agent) ∧ paragraph me (add_service agent) ∧
  paragraph me (add_capability agent) ∧ paragraph me (add_call t agent).
Proof.
  assert (Hl : ∀ n e g, (ge_source e = me ∧ ge_target e = gn_id n) ∨ (ge_source e = gn_id n ∧ ge_target e = me) →
    extends g (link n e g) ∧ (star me g → star me (link n e g))) by (intros; split; [apply link_extends | by apply link_star]).
  split_and!; intros g x.
  - unfold add_incoming. destruct (agents t !! _); [apply Hl; by right | by split].
  - unfold add_outgoing. destruct (agents t !! _); [apply Hl; by left | by split].
  - apply Hl. by left.
  - unfold add_policy. destruct (policies _ !! _); [apply Hl; by right | by split].
  - apply Hl. by left.
  - apply Hl. by left.
  - unfold add_call. destruct (_ ≫= _); [apply Hl; by left | by split].
Qed.

Lemma graph_stages : ∃ g1 g2 g3 g4,
  g1 = foldl (add_incoming t agent) (root_graph agent) (incoming t agent) ∧
  g2 = foldl (add_outgoing t agent) g1 (outgoing t agent) ∧
  g3 = foldl (add_credential agent) g2 (held_credentials t agent) ∧
  g4 = foldl (add_policy t agent) g3 (enabled_bindings t agent) ∧
  extends g1 g2 ∧ extends g2 g3 ∧ extends g3 g4 ∧ extends g4 (dependency_graph t agent).
Proof.
  destruct paragraphs as (H1 & H2 & H3 & H4 & H5 & H6 & H7). eexists _, _, _, _.
  split_and!; [reflexivity .. | apply (fold_extends me _ _ _ H2) | apply (fold_extends me _ _ _ H3) | apply (fold_extends me _ _ _ H4) |].
  unfold dependency_graph. etrans; [apply (fold_extends me _ (hosted t agent) _ H5)|]. etrans; [apply (fold_extends me _ (capabilities t agent) _ H6)|]. apply (fold_extends me _ (recent_calls t agent) _ H7).
Qed.

Lemma score_bounds g : connected g * 10 ≤ blast_radius_score t agent g ≤
  4 * (connected g * 10 + Z.of_nat (length (held_credentials t agent)) * 5 + Z.of_nat (length (enabled_bindings t agent)) * 2).
Proof.
  unfold blast_radius_score, connected. set (c := Z.of_nat (count_where _ _)). assert (0 ≤ c) by lia.
  set (h := length (held_credentials t agent)). set (b := length (enabled_bindings t agent)).
  assert (2 ≤ twice_risk_factor agent ≤ 8) as Hf by (unfold twice_risk_factor; repeat case_match; lia).
  rewrite Z.quot_div_nonneg by nia. split.
  - apply Z.div_le_lower_bound; nia.
  - apply Z.div_le_upper_bound; nia.
Qed.
End spec.

(** The graph is a star around the agent, without repeated nodes, and shows every
    delegation from or to an agent that exists, every active credential and every
    enabled policy; the score counts at least ten for each connected agent, and at most
    four times the sum for a critical one. *)
Theorem graph_complete k t r :
  calculate_blast_radius_graph k t = Ok r →
  let g := bl_graph r in let me := agent_node_id (bl_root_agent_id r) in
  NoDup (ids g) ∧ me ∈ ids g ∧
  (∀ e, e ∈ g_edges g → ge_source e ∈ ids g ∧ ge_target e ∈ ids g ∧ (ge_source e = me ∨ ge_target e = me)) ∧
  (∀ i d p, delegations t !! i = Some d → dl_child_agent_id d = bl_root_agent_id r → agents t !! dl_parent_agent_id d = Some p →
    delegation_edge (agent_node_id (ag_id p)) me "DELEGATES_TO" d ∈ g_edges g) ∧
  (∀ i d c, delegations t !! i = Some d → dl_parent_agent_id d = bl_root_agent_id r → agents t !! dl_child_agent_id d = Some c →
    delegation_edge me (agent_node_id (ag_id c)) "DELEGATED_AUTHORITY_TO" d ∈ g_edges g) ∧
  (∀ i c, credentials t !! i = Some c → cr_subject_agent_id c = bl_root_agent_id r → cr_status c = CredActive →
    plain_edge me ("credential:" +:+ cr_credential_id c) "HOLDS_CREDENTIAL" ∈ g_edges g) ∧
  bl_connected_agents_count r * 10 ≤ bl_blast_radius_score r ≤
    4 * (bl_connected_agents_count r * 10 + bl_active_credentials_count r * 5 + bl_bound_policies_count r * 2).
Proof.
  unfold calculate_blast_radius_graph. destruct (agents t !! k) as [a|] eqn:Ha; [|done]. intros [= <-].
  cbn [bl_graph bl_root_agent_id bl_connected_agents_count bl_blast_radius_score bl_active_credentials_count bl_bound_policies_count].
  destruct (paragraphs t a) as (H1 & H2 & H3 & H4 & H5 & H6 & H7).
  assert (Hs : star (agent_node_id (ag_id a)) (dependency_graph t a)).
  { unfold dependency_graph. do 7 (apply fold_star; [done|]). unfold root_graph, star, ids. simpl. split_and!.
    - by apply NoDup_singleton.
    - by apply list_elem_of_singleton.
    - by intros e ?%elem_of_nil. }
  destruct (graph_stages t a) as (g1 & g2 & g3 & g4 & E1 & E2 & E3 & E4 & X1 & X2 & X3 & X4).
  destruct Hs as (Hd & Hme & He).
  split; [exact Hd|]. split; [exact Hme|]. split; [exact He|]. split; [|split; [|split; [|apply score_bounds]]].
  - intros i d p Hd1 Hc Hp. do 3 (eapply extends_edge; [eassumption|]). eapply extends_edge; [exact X1|]. rewrite E1.
    apply (fold_edge _ _ _ _ d _ H1); [|apply elem_of_select_rows; split; [by exists i | by apply eqb_true]].
    intros g. unfold add_incoming. rewrite Hp. apply link_edge.
  - intros i d c Hd1 Hc Hp. do 2 (eapply extends_edge; [eassumption|]). eapply extends_edge; [exact X2|]. rewrite E2.
    apply (fold_edge _ _ _ _ d _ H2); [|apply elem_of_select_rows; split; [by exists i | by apply eqb_true]].
    intros g. unfold add_outgoing. rewrite Hp. apply link_edge.
  - intros i c Hc Hsub Hact. eapply extends_edge; [exact X4|]. eapply extends_edge; [exact X3|]. rewrite E3.
    apply (fold_edge _ _ _ _ c _ H3); [intros g; apply link_edge|].
    apply elem_of_select_rows. split; [by exists i|]. by rewrite Hsub, Hact, !eqb_refl.
Qed.

(** ** Witness *)

Section witness.
Let t1 : tables := tables_with [sample_agent 1; sample_agent 2; sample_agent 3] []
  [sample_delegation 7 1 2 None; sample_delegation 8 3 1 None].
Lemma graph_complete_witness : ∃ r, calculate_blast_radius_graph 1 t1 = Ok r ∧
  (length (g_nodes (bl_graph r)), length (g_edges (bl_graph r)), bl_blast_radius_score r) = (3%nat, 2%nat, 20) ∧
  NoDup (ids (bl_graph r)).
Proof.
  assert (H : is_Ok (calculate_blast_radius_graph 1 t1)) by (eexists; reflexivity). destruct H as [r Hr].
  exists r. split; [done|]. split; [|apply (graph_complete 1 t1 r Hr)].
  injection Hr as <-. vm_compute. reflexivity.
Defined.
End witness.
End Dependencies.
