(* ===== verification/Agents.v ===== *)
(** Agents ([backend/app/services/agents.py] and the handlers of [api/agents.py]):
    registration, the lists and the look-up of a workspace, updates, and the routes to the
    lifecycle, the ownership and the dependencies of an agent.

    A [null] for one of the two list columns of an update is left out. *)
From Stdlib Require Import Ascii.
From S2P Require Import Prelude.
From S2P Require Import PyStr.
From S2P Require Import PyFloat.
From S2P Require Import PyVal.
From S2P Require Import PyDecimal.
From S2P Require Import Models.
From S2P Require Import Store.
From S2P Require Import SecurityEvents.
From S2P Require Import Workspace.
From S2P Require Import Lifecycle.
From S2P Require Import Permissions.
From S2P Require Import Notifications.
From S2P Require Import PlanLimits.
From S2P Require Import Governance.
From S2P Require Import Dependencies.

Local Open Scope string_scope.
Local Open Scope Z_scope.

Module Agents.
Import SecurityEvents Workspace Lifecycle Permissions Notifications PlanLimits Governance Dependencies.

(** ** Bodies ([schemas/agent.py]) *)

Record AgentCreate : Type := MkAgentCreate {
  ac_name : string;
  ac_description : option string;
  ac_organization_id : option uuid
}.
Definition trim_text (s : string) : option string := let t := py_strip s in if eqb t "" then None else Some t.
Definition validate_AgentCreate (p : AgentCreate) : option AgentCreate :=
  let name := py_strip (ac_name p) in
  let description := ac_description p ≫= trim_text in
  if (1 <=? String.length name)%nat && fits 200 name && opt_check (fits 2000) description
  then Some (MkAgentCreate name description (ac_organization_id p)) else None.

(** A field that is absent keeps its column; [Some None] is an explicit [null]. *)
Record AgentUpdate : Type := MkAgentUpdate {
  au_name : option (option string);
  au_description : option (option string);
  au_status : option (option AgentStatus);
  au_purpose : option (option string);
  au_business_function : option (option string);
  au_risk_classification : option (option string);
  au_business_criticality : option (option string);
  au_data_classification : option (option string);
  au_team : option (option string);
  au_tags : option (list string);
  au_expected_actions : option (list string);
  au_data_access_description : option (option string)
}.
Definition sets_nothing (u : AgentUpdate) : bool :=
  negb (is_some (au_name u) || is_some (au_description u) || is_some (au_status u) || is_some (au_purpose u) ||
    is_some (au_business_function u) || is_some (au_risk_classification u) || is_some (au_business_criticality u) ||
    is_some (au_data_classification u) || is_some (au_team u) || is_some (au_tags u) || is_some (au_expected_actions u) ||
    is_some (au_data_access_description u)).
Definition validate_AgentUpdate (u : AgentUpdate) : option AgentUpdate :=
  let name := option_map (option_map py_strip) (au_name u) in
  let description := option_map (λ d, d ≫= trim_text) (au_description u) in
  if opt_check (opt_check (λ n, (1 <=? String.length n)%nat && fits 200 n)) name &&
     opt_check (opt_check (fits 2000)) description && negb (sets_nothing u)
  then Some (MkAgentUpdate name description (au_status u) (au_purpose u) (au_business_function u) (au_risk_classification u)
    (au_business_criticality u) (au_data_classification u) (au_team u) (au_tags u) (au_expected_actions u)
    (au_data_access_description u))
  else None.

Definition AGENT_IDENTIFIER_PREFIX : string := "agt_".
Definition AGENT_IDENTIFIER_BYTES : nat := 12.
Definition MAX_IDENTIFIER_ATTEMPTS : nat := 5.

Section agents.
Context `{Entropy} `{SecuritySinks}.

(** ** Registration *)

Definition generate_agent_identifier : DB string :=
  h ← fresh_hex AGENT_IDENTIFIER_BYTES; mret (AGENT_IDENTIFIER_PREFIX +:+ h).
Definition registered_agent (id : uuid) (now : time) (identifier : string) (payload : AgentCreate) (owner : uuid) (org : option uuid) : Agent :=
  MkAgent id now (ac_name payload) identifier "production" owner org REGISTERED "USER" None "LOW" None None None None "UNREVIEWED"
    (ac_description payload) None None "LOW" "INTERNAL" "MANUAL" [] [] None.

(** An identifier that is taken makes the commit fail and is drawn again; another error
    of the commit is raised. *)
Fixpoint create_attempts (n : nat) (owner : uuid) (payload : AgentCreate) (org : option uuid) : DB Agent :=
  match n with
  | O => throw AgentIdentifierGenerationError
  | S n =>
      identifier ← generate_agent_identifier;
      id ← fresh_uuid;
      now ← now_db;
      taken ← query (identifier_taken identifier);
      if taken : bool then rollback ;; create_attempts n owner payload org
      else
        let agent := registered_agent id now identifier payload owner org in
        insert_checked (λ t, negb (is_some (agents t !! id)) && fits 200 (ac_name payload)) (upd_agents <[id := agent]>) ;;
        commit ;;
        mret agent
  end.
Definition active_organization (org : uuid) (t : tables) : bool :=
  match organizations (identity t) !! org with Some o => og_is_active o | None => false end.
Definition create_agent (owner : uuid) (payload : AgentCreate) (organization_id : option uuid) : DB Agent :=
  enforce_resource_limit organization_id PlanAgents ;;
  let target := match organization_id with Some _ => organization_id | None => ac_organization_id payload end in
  match target with
  | Some org => ok ← query (active_organization org); raise_if (negb ok) OrganizationNotFound
  | None => mret tt
  end ;;
  create_attempts MAX_IDENTIFIER_ATTEMPTS owner payload target.

(** ** Look-up *)

Definition list_owned_agents (owner : uuid) (org : option uuid) (t : tables) : list Agent :=
  order_desc ag_created_at ag_id (select_rows (in_scope owner org) (agents t)).
Definition get_owned_agent (owner : uuid) (identifier : string) (org : option uuid) (t : tables) : option Agent :=
  scalar (λ a, in_scope owner org a && eqb (ag_identifier a) identifier) (agents t).

(** ** Updates *)

Definition or_keep {A} (old : A) (o : option A) : A := default old o.
(** The columns after the [setattr]s; [None] when one that cannot be null is set to
    null, or a text is too long. *)
Definition updated_agent (u : AgentUpdate) (a : Agent) : option Agent :=
  name ← or_keep (Some (ag_name a)) (au_name u);
  status ← or_keep (Some (ag_status a)) (au_status u);
  risk ← or_keep (Some (ag_risk_classification a)) (au_risk_classification u);
  criticality ← or_keep (Some (ag_business_criticality a)) (au_business_criticality u);
  data ← or_keep (Some (ag_data_classification a)) (au_data_classification u);
  let function := or_keep (ag_business_function a) (au_business_function u) in
  let team := or_keep (ag_team a) (au_team u) in
  if fits 200 name && fits 32 risk && fits 32 criticality && fits 32 data && opt_check (fits 128) function && opt_check (fits 128) team
  then Some (MkAgent (ag_id a) (ag_created_at a) name (ag_identifier a) (ag_environment a) (ag_owner_id a) (ag_organization_id a)
    status (ag_owner_type a) (or_keep (ag_purpose a) (au_purpose u)) risk (ag_last_activity_at a) (ag_last_reviewed_at a)
    (ag_next_review_due_at a) (ag_certified_until a) (ag_certification_status a)
    (or_keep (ag_description a) (au_description u)) team function criticality data (ag_source a)
    (or_keep (ag_tags a) (au_tags u)) (or_keep (ag_expected_actions a) (au_expected_actions u))
    (or_keep (ag_data_access_description a) (au_data_access_description u)))
  else None.
Definition status_alert (a : Agent) : notification_args :=
  let suspended := eqb (ag_status a) SUSPENDED in
  {| na_user_id := ag_owner_id a; na_type := if suspended then AGENT_SUSPENDED_N else AGENT_REVOKED_N;
     na_title := if suspended then "Agent Suspended" else "Agent Revoked";
     na_message := ag_name a +:+ " is now " +:+ AgentStatus_value (ag_status a) +:+ "."; na_priority := PrioHigh;
     na_organization_id := ag_organization_id a; na_related_request_id := None; na_related_agent_id := Some (ag_id a);
     na_related_permission_id := None; na_metadata := None;
     na_deduplication_key := Some ("agent-status:" +:+ uuid_str (ag_id a) +:+ ":" +:+ AgentStatus_value (ag_status a)) |}.
(** A status that the enumeration has is [None] only for an explicit [null]. *)
Definition reopens (u : AgentUpdate) (a : Agent) : bool :=
  eqb (ag_status a) REVOKED && match au_status u with Some (Some s) => negb (eqb s REVOKED) | _ => false end.
Definition announced (old new : Agent) : bool :=
  negb (eqb (ag_status new) (ag_status old)) && (eqb (ag_status new) SUSPENDED || eqb (ag_status new) REVOKED).
Definition update_owned_agent (owner : uuid) (identifier : string) (u : AgentUpdate) (org : option uuid) : DB (option Agent) :=
  found ← query (get_owned_agent owner identifier org);
  match found with
  | None => mret None
  | Some a =>
      raise_if (reopens u a) InvalidAgentTransition ;;
      match updated_agent u a with
      | Some a' =>
          save_agent a' ;;
          (if announced a a' then create_notification (status_alert a') ;; mret tt else mret tt) ;;
          commit ;;
          mret (Some a')
      | None => throw IntegrityError
      end
  end.

(** ** Handlers *)

Definition agent_404 : Exc := HTTPException 404 "Agent not found".
Definition owned (w : WorkspaceContext) (identifier : string) : DB Agent :=
  get_or (get_owned_agent (wc_user_id w) identifier (wc_organization_id w)) agent_404.

Definition register_agent (w : WorkspaceContext) (payload : AgentCreate) : DB Agent :=
  target ←
    match ac_organization_id payload with
    | Some org =>
        if eqb (wc_organization_id w) (Some org) then mret w
        else get_or (resolve_workspace (wc_user_id w) (Some org)) (HTTPException 404 "Organization not found")
    | None => mret w
    end;
  require target "manage_agents" ;;
  try_except (create_agent (wc_user_id w) payload (wc_organization_id target))
    (λ e, match e with
          | OrganizationNotFound => throw (HTTPException 404 "Organization not found")
          | AgentIdentifierGenerationError => throw (HTTPException 503 "Could not create agent identifier")
          | e => throw e
          end).

Definition listed_agent (status risk search : option string) (a : Agent) : bool :=
  let given (o : option string) (p : string → bool) := match o with Some s => eqb s "" || p s | None => true end in
  given status (λ s, eqb (py_lower (AgentStatus_value (ag_status a))) (py_lower s)) &&
  given risk (λ r, eqb (py_upper (if eqb (ag_risk_classification a) "" then "LOW" else ag_risk_classification a)) (py_upper r)) &&
  given search (λ s, contains (py_lower s) (py_lower (ag_name a)) || contains (py_lower s) (py_lower (ag_identifier a))).
Definition get_agents (w : WorkspaceContext) (status risk search : option string) : DB (list Agent) :=
  require w "read" ;;
  found ← query (list_owned_agents (wc_user_id w) (wc_organization_id w));
  mret (select_where (listed_agent status risk search) found).
Definition get_agent (w : WorkspaceContext) (identifier : string) : DB Agent := require w "read" ;; owned w identifier.

Definition update_agent (w : WorkspaceContext) (identifier : string) (payload : AgentUpdate) : DB Agent :=
  require w "manage_agents" ;;
  updated ← try_except (update_owned_agent (wc_user_id w) identifier payload (wc_organization_id w))
    (λ e, if eqb e InvalidAgentTransition then throw (HTTPException 409 "A revoked agent cannot be reactivated") else throw e);
  match updated with
  | None => throw agent_404
  | Some a =>
      (if eqb (au_status payload) (Some (Some REVOKED))
       then record_security_event (wc_user_id w) "agent.revoked" (wc_organization_id w) None (Some ("Agent: " +:+ ag_identifier a)) true ;; mret tt
       else mret tt) ;;
      mret a
  end.

Definition lifecycle_as_http (m : DB unit) : DB unit :=
  try_except m (λ e, match e with LifecycleTransitionError message _ status => throw (HTTPException status message) | e => throw e end).
(** The agent is moved, and answered as it is then. *)
Definition moved (w : WorkspaceContext) (a : Agent) (target : status_arg) (reason : option string) (bypass : bool) : DB Agent :=
  now ← now_db;
  lifecycle_as_http (transition_lifecycle a target (Some (wc_user_id w)) reason bypass now) ;;
  get_or (λ t, agents t !! ag_id a) agent_404.
Definition transition_agent (w : WorkspaceContext) (identifier target_status : string) (reason : option string) (bypass : bool) : DB Agent :=
  require w "manage_agents" ;;
  a ← owned w identifier;
  moved w a (StatusText target_status) reason bypass.
Definition transfer_ownership (w : WorkspaceContext) (identifier new_owner_id new_owner_type : string) (new_team : option string)
    (reason : string) : DB AgentOwnershipHistory :=
  require w "manage_agents" ;;
  a ← owned w identifier;
  transfer_agent_ownership a new_owner_id new_owner_type reason (Some (wc_user_id w)) new_team.
Definition get_ownership_history (w : WorkspaceContext) (identifier : string) : DB (list AgentOwnershipHistory) :=
  require w "read" ;;
  a ← owned w identifier;
  query (λ t, order_desc oh_changed_at oh_agent_id (select_where (λ h, eqb (oh_agent_id h) (ag_id a)) (ownership_history (operations t)))).
Definition get_relationships (w : WorkspaceContext) (identifier : string) : DB blast_radius :=
  require w "read" ;;
  a ← owned w identifier;
  t ← query (λ t, t);
  lift_result (calculate_blast_radius_graph (ag_id a) t).
Definition check_retirement (w : WorkspaceContext) (identifier : string) : DB RetirementCheck :=
  require w "manage_agents" ;;
  a ← owned w identifier;
  check_retirement_dependencies (ag_id a).
Definition execute_retirement (w : WorkspaceContext) (identifier reason : string) (force : bool) : DB Agent :=
  require w "manage_agents" ;;
  a ← owned w identifier;
  deps ← check_retirement_dependencies (ag_id a);
  raise_if (rc_has_active_dependencies deps && negb force)
    (HTTPException 409 ("Cannot retire agent: " +:+ rc_summary deps +:+ ". Use force=True to automatically revoke dependencies.")) ;;
  moved w a (StatusEnum RETIRED) (Some reason) true.
Definition suspend_agent (w : WorkspaceContext) (identifier reason : string) : DB Agent :=
  require w "manage_agents" ;;
  a ← owned w identifier;
  moved w a (StatusEnum SUSPENDED) (Some reason) true.
Definition reactivate_agent (w : WorkspaceContext) (identifier : string) (reason : option string) : DB Agent :=
  require w "manage_agents" ;;
  a ← owned w identifier;
  moved w a (StatusEnum ACTIVE) (Some (str_or reason "Reactivated from suspension")) false.
End agents.
End Agents.
