(* ===== verification/GovernanceProps.v ===== *)
(** What the agent and governance services guarantee ([Agents], [Governance]): rows keep
    their identity, and a request that acts for an organization changes agents and reviews
    of no other; and where they do not: the personal workspace is not bound to anything. *)
From Stdlib Require Import Ascii.
From S2P Require Import Prelude.
From S2P Require Import PyStr.
From S2P Require Import PyFloat.
From S2P Require Import PyVal.
From S2P Require Import PyDecimal.
From S2P Require Import Models.
From S2P Require Import Store.
From S2P Require Import Samples.
From S2P Require Import SecurityEvents.
From S2P Require Import Soc.
From S2P Require Import SocProps.
From S2P Require Import Workspace.
From S2P Require Import Lifecycle.
From S2P Require Import Permissions.
From S2P Require Import Notifications.
From S2P Require Import NotificationProps.
From S2P Require Import PlanLimits.
From S2P Require Import Frames.
From S2P Require Import Governance.
From S2P Require Import Dependencies.
From S2P Require Import Agents.

Local Open Scope string_scope.
Local Open Scope Z_scope.

Module GovernanceProps.
Import SecurityEvents Workspace Lifecycle Permissions Notifications PlanLimits Frames Governance Dependencies Agents.

(** ** Identity and scope *)

Definition same_identity (a b : Agent) : Prop :=
  ag_id b = ag_id a ∧ ag_identifier b = ag_identifier a ∧ ag_organization_id b = ag_organization_id a.
#[export] Instance same_identity_equiv : Equivalence same_identity.
Proof. unfold same_identity. split; [by intros a | intros a b (? & ? & ?); by split_and! | intros a b c (? & ? & ?) (? & ? & ?); split_and!; congruence]. Qed.

(** Agents sit under their identifiers, and their public identifiers differ. *)
Definition agents_ok (m : gmap uuid Agent) : Prop :=
  (∀ k a, m !! k = Some a → ag_id a = k) ∧
  ∀ i j a b, m !! i = Some a → m !! j = Some b → ag_identifier a = ag_identifier b → i = j.
(** A review is of an agent of its organization. *)
Definition reviews_ok (t : tables) : Prop :=
  ∀ k c, cert_table t !! k = Some c → ct_id c = k ∧ ∃ a, agents t !! ct_agent_id c = Some a ∧ ct_organization_id c = ag_organization_id a.
Definition inventory_ok (t : tables) : Prop := agents_ok (agents t) ∧ reviews_ok t.

Lemma agents_ok_replace m k b b' : m !! k = Some b → same_identity b b' → agents_ok m → agents_ok (<[k := b']> m).
Proof.
  intros Hb (Hid & Hident & _) [Hkey Huniq].
  assert (Hold : ∀ i x, <[k := b']> m !! i = Some x → ∃ y, m !! i = Some y ∧ ag_identifier y = ag_identifier x ∧ ag_id y = ag_id x).
  { intros i x. rewrite lookup_insert. case_decide; [|by exists x]. intros [= <-]. subst i. by exists b. }
  split.
  - intros i x Hx. destruct (Hold i x Hx) as (y & Hy & _ & <-). by apply Hkey.
  - intros i j x y Hx Hy He. destruct (Hold i x Hx) as (x0 & Hx0 & E1 & _). destruct (Hold j y Hy) as (y0 & Hy0 & E2 & _).
    apply (Huniq i j x0 y0 Hx0 Hy0). congruence.
Qed.

Section scope.
Context (t0 : tables) (user : uuid) (org : option uuid).

(** What the tables may have become since [t0]. *)
Definition agents_within (m m' : gmap uuid Agent) : Prop :=
  (∀ k a, m !! k = Some a → ∃ a', m' !! k = Some a' ∧ same_identity a a' ∧ (in_scope user org a = false → a' = a)) ∧
  (∀ k a', m !! k = None → m' !! k = Some a' → ag_organization_id a' = org).
Definition reviews_within (m m' : gmap uuid AgentCertification) : Prop :=
  ∀ k c, ct_organization_id c ≠ org → m !! k = Some c ↔ m' !! k = Some c.
Definition within (t : tables) : Prop :=
  inventory_ok t ∧ agents_within (agents t0) (agents t) ∧ reviews_within (cert_table t0) (cert_table t).

(** An agent, or a review, that the request has loaded from its scope. *)
Definition agent_held (t : tables) (a : Agent) : Prop :=
  (∃ b, agents t !! ag_id a = Some b ∧ same_identity a b) ∧ ag_organization_id a = org ∧
  ∀ b, agents t0 !! ag_id a = Some b → in_scope user org b = true.
Definition same_review (c d : AgentCertification) : Prop :=
  ct_id d = ct_id c ∧ ct_agent_id d = ct_agent_id c ∧ ct_organization_id d = ct_organization_id c.
Definition review_held (t : tables) (c : AgentCertification) : Prop :=
  (∃ d, cert_table t !! ct_id c = Some d ∧ same_review c d) ∧ ct_organization_id c = org.
Definition held (l : list Agent) (rs : list AgentCertification) (t : tables) : Prop :=
  within t ∧ (∀ a, a ∈ l → agent_held t a) ∧ ∀ c, c ∈ rs → review_held t c.

Lemma held_within l rs t : held l rs t → within t.
Proof. by intros []. Qed.
Lemma held_nil t : held [] [] t ↔ within t.
Proof. split; [apply held_within|]. intros Hw. split_and!; [done | |]; by intros x ?%elem_of_nil. Qed.
Lemma in_scope_org a : in_scope user org a = true → ag_organization_id a = org.
Proof.
  unfold in_scope. destruct org as [o|]; intros H; [by apply eqb_true|]. apply andb_true_iff in H as [_ H].
  by destruct (ag_organization_id a).
Qed.
Lemma held_from t k a : within t → agents t !! k = Some a → in_scope user org a = true → agent_held t a.
Proof.
  intros Hw Ha Hs. destruct Hw as ((Hok & Hr) & (Hold & Hnew) & Hc). pose proof (proj1 Hok k a Ha) as Hid. subst k.
  split_and!; [by exists a | by apply in_scope_org |]. intros b Hb.
  destruct (Hold _ _ Hb) as (b' & Hb' & _ & Hsame). rewrite Ha in Hb'. injection Hb' as <-.
  destruct (in_scope user org b) eqn:He; [done|]. by rewrite (Hsame eq_refl), He in Hs.
Qed.
Lemma held_cons l rs t a : held l rs t → agent_held t a → held (a :: l) rs t.
Proof. intros (Hw & Hl & Hr) Ha. split_and!; [done | | done]. by intros b [->|Hb]%elem_of_cons; [|apply Hl]. Qed.
Lemma held_tail l rs t a : held (a :: l) rs t → held l rs t.
Proof. intros (Hw & Hl & Hr). split_and!; [done | | done]. intros b Hb. apply Hl. by right. Qed.

(** *** Writes *)

Lemma held_write l rs a a' t : a ∈ l → held l rs t → same_identity a a' → held l rs (upd_agents <[ag_id a' := a']> t).
Proof.
  intros Hin Hheld Ha'. destruct Hheld as (((Hok & Hr) & (Hold & Hnew) & Hc) & Hl & Hrs).
  destruct (Hl a Hin) as ((b & Hb & Hab) & Horg & Hmine). pose proof (proj1 Ha') as ->.
  assert (Hbb : same_identity b a') by (etrans; [symmetry; exact Hab | exact Ha']).
  split_and!; [split_and! | | done].
  - split; [by apply (agents_ok_replace _ _ b)|]. intros k c Hk. destruct (Hr k c Hk) as (Hid & x & Hx & Ho). split; [done|].
    simpl. rewrite lookup_insert. case_decide as He; [|by exists x]. exists a'. split; [done|]. rewrite <- He in Hx.
    rewrite Hb in Hx. injection Hx as <-. rewrite Ho. symmetry. apply Hbb.
  - split; simpl; intros k x; rewrite lookup_insert.
    + intros Hk. destruct (Hold k x Hk) as (x' & Hx' & Hsx & Hfix). case_decide as He; [|by exists x']. subst k. exists a'.
      rewrite Hb in Hx'. injection Hx' as <-. split_and!; [done | by etrans |]. intros Hout. by rewrite (Hmine _ Hk) in Hout.
    + intros Hk. case_decide as He; [|by apply Hnew]. subst k. intros [= <-]. rewrite <- Horg. apply Ha'.
  - done.
  - intros d Hd. destruct (Hl d Hd) as ((e & He & Hde) & Hdo & Hdm). split_and!; [|done|done].
    simpl. rewrite lookup_insert. case_decide as Hk; [|by exists e]. exists a'. split; [done|]. rewrite <- Hk in He.
    rewrite Hb in He. injection He as <-. by etrans.
Qed.
Lemma held_unrelated l rs f t : agents (f t) = agents t → cert_table (f t) = cert_table t → held l rs t → held l rs (f t).
Proof.
  intros Ha Hc. unfold held, within, inventory_ok, reviews_ok, agent_held, review_held. by rewrite Ha, Hc.
Qed.
Lemma held_review l rs c c' t : held l rs t → (cert_table t !! ct_id c' = None ∧ (∃ a, a ∈ l ∧ ct_agent_id c' = ag_id a) ∨ c ∈ rs ∧ same_review c c') →
  ct_organization_id c' = org → held l rs (upd_certifications <[ct_id c' := c']> t).
Proof.
  intros (((Hok & Hr) & Hag & Hc) & Hl & Hrs) Hcase Ho.
  assert (Hbefore : ∀ d, cert_table t !! ct_id c' = Some d → same_review d c').
  { intros d Hd. destruct Hcase as [[Hn _]|[Hin Hcc]]; [congruence|]. destruct (Hrs c Hin) as ((e & He & Hce) & _).
    rewrite (proj1 Hcc) in Hd. rewrite He in Hd. injection Hd as <-. destruct Hce as (? & ? & ?), Hcc as (? & ? & ?). split_and!; congruence. }
  assert (Hrow : ∃ a, agents t !! ct_agent_id c' = Some a ∧ ct_organization_id c' = ag_organization_id a).
  { destruct Hcase as [(_ & a & Hin & ->)|[Hin Hcc]].
    - destruct (Hl a Hin) as ((b & Hb & Hab) & Hao & _). exists b. split; [done|]. destruct Hab as (_ & _ & ->). congruence.
    - destruct (Hrs c Hin) as ((e & He & Hce) & _). destruct (Hr _ _ He) as (_ & a & Ha & Hoe). exists a.
      destruct Hce as (? & ? & ?), Hcc as (? & ? & ?). split; congruence. }
  split_and!; [split_and!; [split; [done|] | done |] | done |].
  - intros k d. unfold cert_table. simpl. rewrite lookup_insert_Some. intros [[<- <-]|[_ Hd]]; [done | by apply Hr].
  - intros k d Hd. rewrite (Hc k d Hd). unfold cert_table. simpl. rewrite lookup_insert_Some. split.
    + intros Hk. right. split; [|done]. intros <-. destruct (Hbefore d Hk) as (_ & _ & He). congruence.
    + intros [[_ <-]|[_ Hk]]; [done | exact Hk].
  - intros d Hd. destruct (Hrs d Hd) as ((e & He & Hde) & Hdo). split; [|done]. unfold cert_table. simpl. rewrite lookup_insert.
    case_decide as Hk; [|by exists e]. exists c'. split; [done|]. rewrite <- Hk in He. specialize (Hbefore e He).
    destruct Hde as (? & ? & ?), Hbefore as (? & ? & ?). split_and!; congruence.
Qed.
Lemma held_new l rs t a : held l rs t → agents t !! ag_id a = None → identifier_taken (ag_identifier a) t = false →
  ag_organization_id a = org → held l rs (upd_agents <[ag_id a := a]> t).
Proof.
  intros (((Hok & Hr) & (Hold & Hnew) & Hc) & Hl & Hrs) Hfree Htaken Ho. destruct Hok as [Hkey Huniq].
  assert (Hdiff : ∀ k b, agents t !! k = Some b → ag_identifier b ≠ ag_identifier a).
  { intros k b Hk He. unfold identifier_taken in Htaken. destruct (scalar _ _) eqn:Hs; [done|].
    pose proof (proj1 (scalar_None _ _) Hs k b Hk) as Hf. cbv beta in Hf. by rewrite He, eqb_refl in Hf. }
  assert (Hkeep : ∀ k b, agents t !! k = Some b → <[ag_id a := a]> (agents t) !! k = Some b).
  { intros k b Hk. rewrite lookup_insert_ne; [done|]. intros <-. congruence. }
  split_and!; [split_and! | | done].
  - split; [split; simpl|].
    + intros k b. rewrite lookup_insert_Some. intros [[<- <-]|[_ Hb]]; [done | by apply Hkey].
    + intros i j b d. rewrite !lookup_insert_Some. intros [[<- <-]|[_ Hb]] [[<- <-]|[_ Hd]] He;
        [done | by destruct (Hdiff _ _ Hd) | by destruct (Hdiff _ _ Hb) | by eapply Huniq].
    + intros k c Hk. destruct (Hr k c Hk) as (Hid & x & Hx & Hxo). split; [done|]. exists x. split; [by apply Hkeep | done].
  - split; simpl; intros k x.
    + intros Hk. destruct (Hold k x Hk) as (x' & Hx' & Hrest). exists x'. split; [by apply Hkeep | done].
    + rewrite lookup_insert_Some. intros Hk [[_ <-]|[_ Hx]]; [done | by apply (Hnew k)].
  - done.
  - intros d Hd. destruct (Hl d Hd) as ((e & He & Hde) & Hrest). split; [|done]. exists e. split; [by apply Hkeep | done].
Qed.

(** *** The services on what was loaded *)

Definition keeps {A} (l : list Agent) (rs : list AgentCertification) (m : DB A) : Prop := respects (guarded (held l rs) within) m.
Lemma keeps_unrelated l rs f : (∀ t, agents (f t) = agents t ∧ cert_table (f t) = cert_table t) → keeps l rs (write f).
Proof. intros Hf. apply guarded_write; [apply held_within|]. intros t Ht. by apply held_unrelated; [apply Hf ..|]. Qed.
Lemma keeps_unrelated_insert l rs ok f : (∀ t, agents (f t) = agents t ∧ cert_table (f t) = cert_table t) → keeps l rs (insert_checked ok f).
Proof. intros Hf. apply guarded_insert; [apply held_within|]. intros t _ Ht. by apply held_unrelated; [apply Hf ..|]. Qed.
Lemma keeps_save l rs a a' : a ∈ l → same_identity a a' → keeps l rs (save_agent a').
Proof. intros Hin Ha. apply guarded_write; [apply held_within|]. intros t Ht. by apply (held_write _ _ a). Qed.
Lemma keeps_save_review l rs c c' ok : c ∈ rs → same_review c c' →
  keeps l rs (insert_checked ok (upd_certifications <[ct_id c' := c']>)).
Proof.
  intros Hin Hc. apply guarded_insert; [apply held_within|]. intros t _ Ht. apply (held_review _ _ c); [done | by right |].
  destruct Hc as (_ & _ & ->). by apply Ht.
Qed.
Lemma keeps_commit l rs : keeps l rs commit.
Proof. apply guarded_commit. Qed.
Ltac settle :=
  unfold keeps; walk; first
    [ apply keeps_commit
    | eapply keeps_save; [eassumption | repeat case_match; by split_and!]
    | apply keeps_unrelated; intros t; by split
    | apply keeps_unrelated_insert; intros t; by split ].

Context `{Entropy}.
Lemma keeps_event l rs e : keeps l rs (add_security_event e).
Proof. unfold add_security_event. settle. Qed.
Lemma keeps_policy l rs o : keeps l rs (get_governance_policy o).
Proof. unfold get_governance_policy. settle. Qed.
Lemma keeps_transition l rs a target who why bypass now : a ∈ l → keeps l rs (transition_lifecycle a target who why bypass now).
Proof.
  intros Ha. pose proof (keeps_policy l rs) as Hp. pose proof (keeps_event l rs) as He.
  assert (Hr : keeps l rs (execute_retirement_cleanup a who why now)).
  { unfold execute_retirement_cleanup, keeps. walk; first [apply He | settle]. }
  unfold transition_lifecycle, apply_status, keeps. walk; first [apply Hp | apply He | exact Hr | settle].
Qed.
Lemma keeps_transfer l rs a owner ty why who team : a ∈ l → keeps l rs (transfer_agent_ownership a owner ty why who team).
Proof. intros Ha. pose proof (keeps_event l rs) as He. unfold transfer_agent_ownership, keeps. walk; first [apply He | settle]. Qed.
Lemma keeps_expire l rs behavior now a : a ∈ l → keeps l rs (expire_one behavior now a).
Proof.
  intros Ha. pose proof (keeps_event l rs) as He. unfold expire_one, keeps.
  destruct behavior; simpl; walk; first [apply He | settle].
Qed.
Lemma keeps_request_review l rs a who days notes : a ∈ l → keeps l rs (create_certification_review a who days notes).
Proof.
  intros Ha. unfold create_certification_review, generate_certification_id, keeps. walk; try settle.
  apply guarded_insert; [apply held_within|]. intros t Hok Ht.
  match type of Hok with new_certification_ok ?c _ = _ => apply (held_review _ _ c c) end; [done | left | by apply (proj1 (proj2 Ht) a Ha)].
  unfold new_certification_ok in Hok. simpl in Hok |- *. apply andb_true_iff in Hok as [Hn _].
  destruct (cert_table t !! _); [done|]. split; [done | by exists a].
Qed.

(** Rows that are looked up in an organization's workspace. *)
Section bound.
Context (Hbound : is_some org = true).
Lemma in_bound_scope a : ag_organization_id a = org → in_scope user org a = true.
Proof. unfold in_scope. destruct org; [|done]. intros ->. apply eqb_refl. Qed.
Lemma guarded_agent_of {A} l rs c (k : option Agent → DB A) : c ∈ rs →
  (∀ a, keeps (a :: l) rs (k (Some a))) → keeps l rs (k None) →
  keeps l rs (query (λ t, agents t !! ct_agent_id c) ≫= k).
Proof.
  intros Hc Hsome Hnone. unfold keeps.
  apply (guarded_lookup _ _ (λ o, match o with Some a => held (a :: l) rs | None => held l rs end)).
  - intros t Ht. destruct (agents t !! ct_agent_id c) as [a|] eqn:Ha; [|done].
    destruct Ht as (Hw & Hl & Hrs). destruct (Hrs c Hc) as ((d & Hd & Hcd) & Ho). pose proof Hw as ((_ & Hr) & _).
    destruct (Hr _ _ Hd) as (_ & b & Hb & Hbo). destruct Hcd as (_ & Hcd & Hco). rewrite Hcd, Ha in Hb. injection Hb as <-.
    apply held_cons; [done|]. apply (held_from _ (ct_agent_id c)); [done | done |]. apply in_bound_scope. congruence.
  - intros [a|] t Ht; [|done]. by apply (held_tail _ _ _ a).
  - intros [a|]; [apply Hsome | exact Hnone].
Qed.
Lemma keeps_complete l rs c decision who notes : c ∈ rs → keeps l rs (complete_certification_review c decision who notes).
Proof.
  intros Hc. unfold complete_certification_review, keeps.
  apply respects_bind; [apply _ | walk | intros now].
  apply respects_bind; [apply _ | by apply (keeps_save_review _ _ c (set_ct_decision now who _ notes _ c)) | intros _].
  assert (Hsave : ∀ l' st, keeps l' rs (save_certification (set_ct_decision now who (py_upper (py_strip decision)) notes st c))).
  { intros l' st. apply guarded_write; [apply held_within|]. intros t Ht. apply (held_review _ _ c); [done | by right | by apply (proj2 (proj2 Ht) c Hc)]. }
  pose proof (λ l, keeps_policy l rs) as Hp. pose proof (λ l, keeps_event l rs) as He.
  apply guarded_agent_of; [done | intros a | ]; unfold keeps; walk; first [apply Hp | apply Hsave | apply He | apply keeps_commit | idtac].
  eapply (keeps_save _ _ a); [by left|]. unfold decided_agent. by repeat case_match.
Qed.

(** *** Operations that load their rows themselves *)

Lemma guarded_rows {A} l p (k : list Agent → DB A) : (∀ a, p a = true → in_scope user org a = true) →
  (∀ found, keeps (found ++ l) [] (k found)) → keeps l [] (query (λ t, select_rows p (agents t)) ≫= k).
Proof.
  intros Hp Hk. unfold keeps. apply (guarded_lookup _ _ (λ found, held (found ++ l) [])); [ | | exact Hk].
  - intros t (Hw & Hl & Hrs). split_and!; [done | | done]. intros a [Ha|Ha]%elem_of_app; [|by apply Hl].
    apply elem_of_select_rows in Ha as [(i & Hi) Ha]. apply (held_from _ i); auto.
  - intros found t (Hw & Hl & Hrs). split_and!; [done | | done]. intros a Ha. apply Hl. apply elem_of_app. by right.
Qed.
(** What is known of an agent that was looked up under any identifier. *)
Definition known (a : Agent) : tables → Prop := held (if decide (ag_organization_id a = org) then [a] else []) [].
Lemma known_at t id a : held [] [] t → agents t !! id = Some a → known a t.
Proof.
  intros Ht Ha. unfold known. case_decide as Ho; [|done].
  apply held_cons; [done|]. apply (held_from _ id); [by apply (held_within [] []) | done | by apply in_bound_scope].
Qed.
Lemma known_held a t : known a t → held [] [] t.
Proof. unfold known. case_decide; [by apply held_tail | done]. Qed.
Lemma guarded_known {A} (a : Agent) (k : DB A) :
  (ag_organization_id a = org → keeps [a] [] k) → (ag_organization_id a ≠ org → keeps [] [] k) → respects (guarded (known a) within) k.
Proof. intros Hin Hout. unfold known. case_decide as Ho; [by apply Hin | by apply Hout]. Qed.
Lemma keeps_expiries : keeps [] [] (check_and_apply_certification_expiries org).
Proof.
  unfold check_and_apply_certification_expiries, keeps.
  apply respects_bind; [apply _ | walk | intros now]. apply respects_bind; [apply _ | apply keeps_policy | intros policy].
  apply guarded_rows.
  - intros a Ha. apply in_bound_scope. unfold lapsed, of_organization in Ha. destruct org; [|done].
    apply andb_true_iff in Ha as [_ Ha]. by apply (proj1 (eqb_true _ _)) in Ha.
  - intros found. unfold keeps. apply respects_bind; [apply _ | | intros _; walk; apply keeps_commit].
    apply respects_for_each_in; [apply _|]. intros a Ha. apply keeps_expire. apply elem_of_app. by left.
Qed.
Lemma keeps_bulk_one action params acting raw : keeps [] [] (bulk_agent org action params acting raw).
Proof.
  unfold bulk_agent, keeps. apply respects_try; [apply _ | | walk].
  apply respects_bind; [apply _ | walk | intros aid]. apply respects_bind; [apply _ | | intros _].
  { intros s Hs. unfold alive. by destruct (dead s). }
  rewrite Hbound. apply (guarded_lookup _ _ (λ o, match o with Some a => known a | None => held [] [] end)).
  { intros t Ht. destruct (agents t !! aid) as [a|] eqn:Ha; [by apply (known_at _ aid) | done]. }
  { intros [a|] t; [apply known_held | done]. }
  intros [a|]; [|walk]. apply guarded_known; [intros Ho | intros Hno]; unfold keeps.
  - rewrite Ho, eqb_refl. simpl. unfold bulk_action. walk; first [by apply keeps_transfer; left | by apply keeps_request_review; left | by apply keeps_transition; left | apply keeps_commit | idtac].
    eapply (keeps_save _ _ a); [by left | done].
  - apply eqb_false in Hno. rewrite Hno. simpl. walk.
Qed.
Lemma keeps_bulk action ids params acting : keeps [] [] (execute_bulk_governance org action ids params acting).
Proof.
  pose proof (keeps_bulk_one action params acting) as Hone.
  assert (Hall : keeps [] [] (bulk_agents org action params acting ids)).
  { unfold keeps. induction ids; simpl; walk; first [apply Hone | done]. }
  unfold execute_bulk_governance, keeps. walk; exact Hall.
Qed.
Lemma guarded_review_by {A} id e (k : AgentCertification → DB A) :
  (∀ c, ct_organization_id c = org → keeps [] [c] (k c)) → (∀ c, ct_organization_id c ≠ org → keeps [] [] (k c)) →
  keeps [] [] (get_or (certification_by id) e ≫= k).
Proof.
  intros Hin Hout. unfold keeps.
  apply (guarded_load _ _ (λ c, held [] (if decide (ct_organization_id c = org) then [c] else []))).
  - intros t c Ht Hc. case_decide as Ho; [|done]. destruct Ht as (Hw & Hl & _). split_and!; [done | done |].
    intros d ->%list_elem_of_singleton. split; [|done]. apply scalar_Some in Hc as (i & Hi & _).
    pose proof Hw as ((_ & Hr) & _). destruct (Hr _ _ Hi) as [-> _]. by exists c.
  - intros c t (Hw & Hl & _). split_and!; [done | done |]. by intros d ?%elem_of_nil.
  - intros c. case_decide as Ho; [by apply Hin | by apply Hout].
Qed.
Lemma keeps_decide w id decision notes : wc_organization_id w = org → keeps [] [] (decide_certification w id decision notes).
Proof.
  intros Ho. unfold decide_certification, keeps. rewrite Ho, Hbound. apply respects_bind; [apply _ | unfold require; walk | intros _].
  apply guarded_review_by; intros c Hc; unfold keeps.
  - rewrite Hc, eqb_refl. simpl. apply respects_bind; [apply _ | walk | intros _].
    apply respects_bind; [apply _ | apply keeps_policy | intros policy]. apply respects_bind; [apply _ | walk | intros agent].
    apply respects_bind; [apply _ | walk | intros _]. apply keeps_complete. by left.
  - apply eqb_false in Hc. rewrite Hc. simpl. intros s Hs. exact Hs.
Qed.
Lemma keeps_request_certification w aid who days notes : wc_organization_id w = org →
  keeps [] [] (request_certification w aid who days notes).
Proof.
  intros Ho. unfold request_certification, keeps. rewrite Ho, Hbound. apply respects_bind; [apply _ | unfold require; walk | intros _].
  destruct aid as [aid|]; [|walk].
  apply (guarded_load _ _ known); [intros t a Ht; by apply known_at | apply known_held |].
  intros a. apply guarded_known; [intros Ha | intros Ha]; unfold keeps.
  - walk. apply keeps_request_review. by left.
  - apply eqb_false in Ha. rewrite Ha. simpl. intros s Hs. exact Hs.
Qed.

End bound.

(** *** Agents under their public identifier *)

Lemma held_owned t identifier a : held [] [] t → get_owned_agent user identifier org t = Some a → held [a] [] t.
Proof.
  intros Ht Ha. apply scalar_Some in Ha as (k & Hk & Ha). apply andb_true_iff in Ha as [Hs _].
  apply held_cons; [done|]. apply (held_from _ k); [by apply (held_within [] []) | done | done].
Qed.
Lemma guarded_owned {A} w identifier (k : Agent → DB A) : wc_user_id w = user → wc_organization_id w = org →
  (∀ a, keeps [a] [] (k a)) → keeps [] [] (owned w identifier ≫= k).
Proof.
  intros Hu Ho Hk. unfold owned, keeps. rewrite Hu, Ho.
  apply (guarded_load _ _ (λ a, held [a] [])); [intros t a; apply held_owned | intros a t; apply held_tail | exact Hk].
Qed.
Lemma keeps_moved w a target why bypass : keeps [a] [] (moved w a target why bypass).
Proof. unfold moved, lifecycle_as_http, keeps. walk. apply keeps_transition. by left. Qed.

(** The sinks of the security events leave agents and reviews alone. *)
Definition about_inventory (T : tables → Prop) : Prop :=
  ∀ t t', agents t' = agents t → cert_table t' = cert_table t → T t → T t'.
Class SparesInventory `{SecuritySinks} : Prop := spares_inventory : ∀ T, about_inventory T → SinksRespect (implied T).
Context `{SparesInventory}.
Lemma ignores_inventory T : about_inventory T → Ignores (implied T).
Proof. intros HT. split; [by apply spares_inventory | intros f t Ht; by apply (HT t) ..]. Qed.
Lemma about_held l rs : about_inventory (held l rs).
Proof. intros t t' Ha Hc. unfold held, within, inventory_ok, reviews_ok, agent_held, review_held. by rewrite Ha, Hc. Qed.
Lemma about_within : about_inventory within.
Proof. intros t t' Ha Hc. unfold within, inventory_ok, reviews_ok. by rewrite Ha, Hc. Qed.
Lemma keeps_plain {A} (m : DB A) : respects (evolves (implied within)) m → keeps [] [] m.
Proof. intros Hm. apply (guarded_weaken _ _ within); [apply held_nil | by apply guarded_evolves]. Qed.
Lemma keeps_alert l rs a : na_type a ≠ SECURITY_ALERT → keeps l rs (create_notification a).
Proof.
  intros Ha. pose proof (ignores_inventory _ (about_held l rs)). pose proof (ignores_inventory _ about_within).
  apply guarded_moves; [by apply (create_notification_moves (implied (held l rs))) |].
  apply create_notification_evolves; apply _.
Qed.
Lemma updated_identity u a a' : updated_agent u a = Some a' → same_identity a a'.
Proof. 
  unfold updated_agent. intros Hu. do 5 (apply bind_Some in Hu as (? & _ & Hu)). case_match; [|done]. by injection Hu as <-.
Qed.
Lemma keeps_update_owned identifier u : keeps [] [] (update_owned_agent user identifier u org).
Proof.
  unfold update_owned_agent, keeps.
  apply (guarded_lookup _ _ (λ o, match o with Some a => held [a] [] | None => held [] [] end)).
  { intros t Ht. destruct (get_owned_agent _ _ _ t) as [a|] eqn:Ha; [by apply (held_owned _ identifier) | done]. }
  { intros [a|] t; [apply held_tail | done]. }
  intros [a|]; [|walk]. apply respects_bind; [apply _ | walk | intros _].
  destruct (updated_agent u a) as [a'|] eqn:Hu; [|walk]. apply updated_identity in Hu.
  walk; [by apply (keeps_save _ _ a); [left|] | apply keeps_alert; simpl; by case_match].
Qed.
Lemma keeps_update w identifier u : wc_user_id w = user → wc_organization_id w = org → keeps [] [] (update_agent w identifier u).
Proof.
  intros Hw Ho. unfold update_agent, keeps. rewrite Hw, Ho. walk; [apply keeps_update_owned |].
  apply keeps_plain. apply record_security_event_evolves; [apply _ | by apply ignores_inventory, about_within].
Qed.

(** *** New agents *)

Lemma within_new t a : within t → agents t !! ag_id a = None → identifier_taken (ag_identifier a) t = false →
  ag_organization_id a = org → within (upd_agents <[ag_id a := a]> t).
Proof. intros Hw. rewrite <- held_nil in Hw. intros. apply (held_within [] []). by apply held_new. Qed.
Lemma imported_identity rec text name owner source id now a :
  imported_agent rec text name owner org source id now = Some a → ag_id a = id ∧ ag_identifier a = text ∧ ag_organization_id a = org.
Proof.
  unfold imported_agent. intros Hu. do 10 (apply bind_Some in Hu as (? & _ & Hu)). case_match; [|done]. by injection Hu as <-.
Qed.
Lemma within_import records owner source : respects (guarded within within) (import_agent_inventory org records owner source).
Proof.
  assert (Hone : ∀ rec, respects (guarded within within) (import_record org owner source rec)).
  { intros rec. unfold import_record, record_identifier. walk; try apply guarded_rollback.
    match goal with H : imported_agent _ _ _ _ _ _ _ _ = Some ?a |- _ => apply imported_identity in H as (<- & _ & Ho); rename a into row end.
    apply guarded_insert; [done|]. intros t Hok Ht. unfold new_agent_ok in Hok.
    apply andb_true_iff in Hok as [[Hf Ht']%andb_true_iff _].
    apply within_new; [done | by destruct (agents t !! _) | by apply negb_true_iff | done]. }
  induction records; simpl; walk; first [apply Hone | done].
Qed.
Lemma within_attempts n owner payload : respects (guarded within within) (create_attempts n owner payload org).
Proof.
  induction n as [|n IH]; simpl; unfold generate_agent_identifier; [walk|].
  apply respects_bind; [apply _ | walk | intros identifier]. apply respects_bind; [apply _ | walk | intros id].
  apply respects_bind; [apply _ | walk | intros now].
  apply (guarded_lookup _ _ (λ b t, within t ∧ (b = false → agents t !! id = None → identifier_taken identifier t = false)));
    [by split | by intros b t [] |].
  intros [|].
  - apply (guarded_weaken _ _ within); [intros t; split; [by intros [] | by split]|]. walk.
  - walk. apply guarded_insert; [by intros t []|]. intros t Hok [Hw Hfree]. apply andb_true_iff in Hok as [Hf _].
    assert (Hnone : agents t !! id = None) by (by destruct (agents t !! id)).
    split; [apply within_new; auto|]. intros _ Hn. simpl in Hn. by rewrite lookup_insert_eq in Hn.
Qed.
Lemma within_create owner payload : (org = None → ac_organization_id payload = None) →
  respects (guarded within within) (create_agent owner payload org).
Proof.
  intros Hp. unfold create_agent.
  assert (Ht : (match org with Some _ => org | None => ac_organization_id payload end) = org) by (destruct org; auto).
  rewrite Ht. apply respects_bind; [apply _ | | intros _].
  - apply guarded_evolves, enforce_resource_limit_evolves; [apply _|]. intros f t Hw. by apply (about_within t).
  - cbv zeta. apply respects_bind; [apply _ | walk | intros _]. apply within_attempts.
Qed.
Lemma within_register w payload : wc_user_id w = user →
  org = match ac_organization_id payload with Some o => Some o | None => wc_organization_id w end →
  respects (guarded within within) (register_agent w payload).
Proof.
  intros Hu Ho. unfold register_agent.
  assert (Hk : ∀ target, wc_organization_id target = org → respects (guarded within within)
    (require target "manage_agents" ;; try_except (create_agent (wc_user_id w) payload (wc_organization_id target)) (λ e, match e with
          | OrganizationNotFound => throw (HTTPException 404 "Organization not found")
          | AgentIdentifierGenerationError => throw (HTTPException 503 "Could not create agent identifier")
          | e => throw e
          end))).
  { intros target ->. unfold require. walk. apply within_create. intros Hn. destruct (ac_organization_id payload); [congruence | done]. }
  destruct (ac_organization_id payload) as [o|] eqn:Hp; [|by apply Hk].
  destruct (eqb (wc_organization_id w) (Some o)) eqn:He; [apply Hk; apply (proj1 (eqb_true _ _)) in He; congruence|].
  intros s Hs. rewrite bind_get_or. destruct (resolve_workspace _ _ _) as [target|] eqn:Hr; [|exact Hs].
  apply resolve_sound in Hr as (_ & Hr & _). apply Hk; [congruence | exact Hs].
Qed.
End scope.

(** ** Requests *)

Inductive request : Type :=
  | RegisterAgent (payload : AgentCreate)
  | UpdateAgent (identifier : string) (u : AgentUpdate)
  | TransitionAgent (identifier target_status : string) (reason : option string) (bypass : bool)
  | TransferOwnership (identifier new_owner_id new_owner_type : string) (new_team : option string) (reason : string)
  | ExecuteRetirement (identifier reason : string) (force : bool)
  | SuspendAgent (identifier reason : string)
  | ReactivateAgent (identifier : string) (reason : option string)
  | RequestCertification (agent_id reviewer_id : option uuid) (due_days : Z) (notes : option string)
  | DecideCertification (certification_id decision : string) (notes : option string)
  | TriggerExpiries
  | ExecuteBulk (action : string) (ids : list string) (params : bulk_params)
  | ImportInventory (records : list (list (string * pyval))) (source : string)
  | GetPolicy
  | UpdatePolicy (u : UpdateGovernancePolicyRequest).

Section serve.
Context `{Entropy} `{SecuritySinks}.
Definition discard {A} (m : DB A) : DB unit := m ≫= λ _, mret tt.
Definition serve (w : WorkspaceContext) (r : request) : DB unit :=
  match r with
  | RegisterAgent p => discard (register_agent w p)
  | UpdateAgent i u => discard (update_agent w i u)
  | TransitionAgent i s why b => discard (transition_agent w i s why b)
  | TransferOwnership i o ty team why => discard (transfer_ownership w i o ty team why)
  | ExecuteRetirement i why f => discard (execute_retirement w i why f)
  | SuspendAgent i why => discard (suspend_agent w i why)
  | ReactivateAgent i why => discard (reactivate_agent w i why)
  | RequestCertification a who days notes => discard (request_certification w a who days notes)
  | DecideCertification c d notes => discard (decide_certification w c d notes)
  | TriggerExpiries => discard (trigger_expiry_evaluations w)
  | ExecuteBulk a ids p => discard (execute_bulk w a ids p)
  | ImportInventory records source => discard (import_inventory w records source)
  | GetPolicy => discard (get_policy w)
  | UpdatePolicy u => discard (update_policy w u)
  end.
(** The organization for which a request acts: a registration may name another one. *)
Definition acts_for (w : WorkspaceContext) (r : request) : option uuid :=
  match r with
  | RegisterAgent p => match ac_organization_id p with Some o => Some o | None => wc_organization_id w end
  | _ => wc_organization_id w
  end.
(** The governance routes are only bound to the workspace of an organization. *)
Definition bound (w : WorkspaceContext) (r : request) : bool :=
  match r with
  | RequestCertification _ _ _ _ | DecideCertification _ _ _ | TriggerExpiries | ExecuteBulk _ _ _ => is_some (wc_organization_id w)
  | _ => true
  end.

Context `{!SparesInventory}.
Lemma serve_keeps t0 w r : bound w r = true → respects (guarded (within t0 (wc_user_id w) (acts_for w r)) (within t0 (wc_user_id w) (acts_for w r))) (serve w r).
Proof.
  intros Hb. apply (guarded_weaken _ _ (held t0 (wc_user_id w) (acts_for w r) [] [])); [intros t; symmetry; apply held_nil|].
  set (K := guarded _ _).
  assert (Hreq : ∀ cap, respects K (require w cap)) by (intros cap; unfold require, K; walk).
  assert (Howned : ∀ A i (k : Agent → DB A), acts_for w r = wc_organization_id w →
    (∀ a, keeps t0 (wc_user_id w) (acts_for w r) [a] [] (k a)) → respects K (owned w i ≫= k)).
  { intros A i k Ho Hk. by apply guarded_owned. }
  destruct r; unfold serve, discard; (apply respects_bind; [apply _ | | intros _; walk]).
  - apply (guarded_weaken _ _ (within t0 (wc_user_id w) (acts_for w (RegisterAgent payload)))); [apply held_nil|]. by apply within_register.
  - by apply keeps_update.
  - unfold transition_agent. apply respects_bind; [apply _ | apply Hreq | intros _]. apply Howned; [done | intros a]. apply keeps_moved.
  - unfold transfer_ownership. apply respects_bind; [apply _ | apply Hreq | intros _]. apply Howned; [done | intros a].
    apply keeps_transfer. by left.
  - unfold execute_retirement. apply respects_bind; [apply _ | apply Hreq | intros _]. apply Howned; [done | intros a].
    unfold keeps, check_retirement_dependencies. walk. apply keeps_moved.
  - unfold suspend_agent. apply respects_bind; [apply _ | apply Hreq | intros _]. apply Howned; [done | intros a]. apply keeps_moved.
  - unfold reactivate_agent. apply respects_bind; [apply _ | apply Hreq | intros _]. apply Howned; [done | intros a]. apply keeps_moved.
  - by apply keeps_request_certification.
  - by apply keeps_decide.
  - unfold trigger_expiry_evaluations. apply respects_bind; [apply _ | apply Hreq | intros _]. by apply keeps_expiries.
  - unfold execute_bulk. apply respects_bind; [apply _ | apply Hreq | intros _]. by apply keeps_bulk.
  - unfold import_inventory. apply respects_bind; [apply _ | apply Hreq | intros _].
    apply (guarded_weaken _ _ (within t0 (wc_user_id w) (wc_organization_id w))); [apply held_nil|]. apply within_import.
  - unfold get_policy, policy_response. apply respects_bind; [apply _ | apply Hreq | intros _].
    apply respects_bind; [apply _ | apply keeps_policy | intros p]. unfold K. walk.
  - unfold update_policy, policy_response. apply respects_bind; [apply _ | apply Hreq | intros _].
    apply respects_bind; [apply _ | apply keeps_policy | intros p]. unfold K. walk.
    apply keeps_unrelated. intros t. by split.
Qed.
Lemma within_refl t user org : inventory_ok t → within t user org t.
Proof. intros Ht. split_and!; [done | split; [intros k a Ha; by exists a | congruence] | by intros k c]. Qed.

(** Requests one after the other, each with the entropy and the time of its own. *)
Record arrival : Type := MkArrival { av_context : WorkspaceContext; av_request : request; av_seed : nat; av_now : time }.
Fixpoint serve_all (t : tables) (l : list arrival) : tables :=
  match l with
  | [] => t
  | q :: l => serve_all (run_request (serve (av_context q) (av_request q)) t (av_seed q) (av_now q)).2 l
  end.
Definition elsewhere (org : uuid) (q : arrival) : bool :=
  bound (av_context q) (av_request q) && negb (eqb (acts_for (av_context q) (av_request q)) (Some org)).
(** The agents and the reviews of an organization are the same. *)
Definition same_inventory (org : uuid) (t t' : tables) : Prop :=
  (∀ k a, ag_organization_id a = Some org → agents t !! k = Some a ↔ agents t' !! k = Some a) ∧
  (∀ k c, ct_organization_id c = Some org → cert_table t !! k = Some c ↔ cert_table t' !! k = Some c).
Lemma served_elsewhere org t q : inventory_ok t → elsewhere org q = true →
  let t' := (run_request (serve (av_context q) (av_request q)) t (av_seed q) (av_now q)).2 in
  inventory_ok t' ∧ same_inventory org t t'.
Proof.
  intros Ht Hq t'. apply andb_true_iff in Hq as [Hb Ho]. apply negb_true_iff, eqb_false in Ho.
  assert (Hw : within t (wc_user_id (av_context q)) (acts_for (av_context q) (av_request q)) t').
  { apply guarded_run; [by apply serve_keeps | by apply within_refl]. }
  destruct Hw as (Hok & (Hold & Hnew) & Hc). split_and!; [exact Hok | split].
  - intros k a Ha. split; intros Hk.
    + destruct (Hold k a Hk) as (a' & Hk' & _ & Hsame). rewrite <- Hsame; [done|].
      destruct (in_scope _ _ a) eqn:Hs; [|done]. apply in_scope_org in Hs. congruence.
    + destruct (agents t !! k) as [b|] eqn:Hb'; [|by specialize (Hnew k a Hb' Hk); congruence].
      destruct (Hold k b Hb') as (a' & Hk' & (_ & _ & Hbo) & Hsame). rewrite Hk in Hk'. injection Hk' as <-.
      rewrite <- Hsame; [done|]. destruct (in_scope _ _ b) eqn:Hs; [|done]. apply in_scope_org in Hs. congruence.
  - intros k c Hco. apply Hc. congruence.
Qed.

(** C20. C0: agents and certification reviews of an organization stay as they are through any
    sequence of requests to the agent and governance routes that act for other
    organizations or personal workspaces (the governance routes, in an organization's
    workspace); agents keep identifying rows, and reviews stay with agents of their
    organization. *)
Theorem tenants_isolated org t l : inventory_ok t → forallb (elsewhere org) l = true →
  inventory_ok (serve_all t l) ∧ same_inventory org t (serve_all t l).
Proof.
  revert t. induction l as [|q l IH]; intros t Ht Hl; [by split_and!|]. simpl in Hl. apply andb_true_iff in Hl as [Hq Hl].
  destruct (served_elsewhere org t q Ht Hq) as (Hok & Ha & Hc). destruct (IH _ Hok Hl) as (Hok' & Ha' & Hc').
  split; [exact Hok' | split]; [intros k a Ho; by rewrite (Ha k a Ho); apply Ha' | intros k c Ho; by rewrite (Hc k c Ho); apply Hc'].
Qed.

(** the governance policy of an organization cannot be changed by its route: the
    route asks for a capability that no role has, and in a personal workspace, which has
    every capability, there is no row to refresh.  No request for it is ever answered. *)
Theorem policy_update_never_succeeds w u s : ∃ e, (update_policy w u s).1 = Err e.
Proof.
  assert (Hno : existsb (eqb "admin") (ROLE_CAPABILITIES (wc_role w)) = false) by (by destruct (wc_role w)).
  unfold update_policy, require, can, is_personal. rewrite Hno. destruct (wc_organization_id w) as [o|]; simpl.
  - by eexists.
  - change (∃ e, ((lift_result match ug_expiry_behavior u with Some b => ExpiryBehavior_of (py_upper b) | None => Ok AlertOnly end ≫=
      λ _, commit ;; throw (A := AgentGovernancePolicy) (RaisedRuntimeError "InvalidRequestError")) s).1 = Err e).
    destruct (match ug_expiry_behavior u with Some _ => _ | None => _ end) as [b|e]; [|by exists e].
    change (∃ e, ((commit ;; throw (A := AgentGovernancePolicy) (RaisedRuntimeError "InvalidRequestError")) s).1 = Err e).
    rewrite bind_run. unfold commit. destruct (dead s); by eexists.
Qed.
End serve.

(** ** Witnesses and limits *)

Local Existing Instance SocProps.no_services.
Local Existing Instance SocProps.no_ambient.
Local Existing Instance Siem.soc_sinks.
Lemma soc_sinks_spare_inventory : SparesInventory.
Proof.
  intros T HT. apply Siem.soc_sinks_spare; [apply _ | |]; intros f t; [intros Hf | ]; intros Ht; apply (HT t); try done.
  unfold cert_table. apply Hf.
Defined.
Definition of_org (o : option uuid) (a : Agent) : Agent :=
  MkAgent (ag_id a) (ag_created_at a) (ag_name a) (ag_identifier a) (ag_environment a) (ag_owner_id a) o
    (ag_status a) (ag_owner_type a) (ag_purpose a) (ag_risk_classification a) (ag_last_activity_at a) (ag_last_reviewed_at a)
    (ag_next_review_due_at a) (ag_certified_until a) (ag_certification_status a) (ag_description a) (ag_team a)
    (ag_business_function a) (ag_business_criticality a) (ag_data_classification a) (ag_source a) (ag_tags a)
    (ag_expected_actions a) (ag_data_access_description a).
(** Agent 1 belongs to organization 50, agent 2 to organization 51. *)
Definition two_tenants : tables :=
  upd_agents (λ _, keyed ag_id [sample_agent 1; of_org (Some 51%N) (sample_agent 2)])
    (account_tables [sample_user 8; sample_user 9] [sample_org 50 9; sample_org 51 8] [] []).
Definition other_owner : WorkspaceContext := MkContext 8 (Some 51%N) OWNER None.
Definition take_over : bulk_params := MkBulk (Some (uuid_str 8)) None None None None None [].
Definition in_personal : WorkspaceContext := MkContext 8 None OWNER None.
Definition take_all : request := ExecuteBulk "transfer_owner" [uuid_str 1; uuid_str 2] take_over.

Lemma two_tenants_ok : inventory_ok two_tenants.
Proof.
  split; [split|].
  - intros k a Hk. by apply keyed_lookup in Hk as [Hi _].
  - intros i j a b Hi Hj. apply keyed_lookup in Hi as [<- Hi], Hj as [<- Hj].
    apply elem_of_cons in Hi as [->|Hi%list_elem_of_singleton]; [|subst a];
      (apply elem_of_cons in Hj as [->|Hj%list_elem_of_singleton]; [|subst b]); done.
  - intros k c Hc. done.
Qed.
(** The owner of organization 51 takes agent 2, and not agent 1. *)
Lemma tenants_isolated_witness :
  (ag_owner_id <$> agents (serve_all two_tenants [MkArrival other_owner take_all 0 hour]) !! 2%N) = Some 8%N ∧
  same_inventory 50 two_tenants (serve_all two_tenants [MkArrival other_owner take_all 0 hour]).
Proof.
  pose proof soc_sinks_spare_inventory as Hspare.
  split; [vm_compute; reflexivity|]. apply (tenants_isolated 50 two_tenants); [exact two_tenants_ok | reflexivity].
Defined.

(** In a personal workspace the same request takes the agents of both organizations. *)
Example personal_takes_over :
  (ag_owner_id <$> agents (run_request (serve in_personal take_all) two_tenants 0 hour).2 !! 1%N) = Some 8%N.
Proof. vm_compute. reflexivity. Qed.

(** A retired agent, which the lifecycle holds for good, is active again after an update
    that names the status, and suspended after a review that is rejected. *)
Definition retired_tables : tables :=
  upd_agents (λ _, keyed ag_id [set_ag_status RETIRED (sample_agent 1)]) two_tenants.
Definition owner_50 : WorkspaceContext := MkContext 9 (Some 50%N) OWNER None.
Definition set_status (s : AgentStatus) : AgentUpdate := MkAgentUpdate None None (Some (Some s)) None None None None None None None None None.
Definition status_after (r : request) (t : tables) : option AgentStatus :=
  ag_status <$> agents (run_request (serve owner_50 r) t 0 hour).2 !! 1%N.
Example update_revives : status_after (UpdateAgent "agent-1" (set_status ACTIVE)) retired_tables = Some ACTIVE.
Proof. vm_compute. reflexivity. Qed.
Definition suspending_policy : AgentGovernancePolicy := MkGovernancePolicy (Some 50%N) 90 ExpirySuspend 30 false false false.
Definition under_review : tables :=
  upd_governance_policies <[50%N := suspending_policy]>
    (upd_certifications <[60%N := MkCertification 60 "cert_1" (Some 50%N) 1 CertApproved None 0 None None None None VNone]> retired_tables).
Example rejection_revives : status_after (DecideCertification "cert_1" "rejected" None) under_review = Some SUSPENDED.
Proof. vm_compute. reflexivity. Qed.
End GovernanceProps.
