(* ===== verification/Billing.v ===== *)
(** Billing ([backend/app/services/billing.py], [services/billing_providers.py] and the
    handlers of [api/billing.py]): plans, checkouts, the portal, cancellation, and the
    signed events of the provider.

    The answers of the Paddle sandbox and the JSON reader are parameters.  Plan codes and
    session identifiers need no quoting in the URL of the test checkout; the prices of the
    settings have two decimals.  Of the row of an event the organization must exist. *)
From Stdlib Require Import Ascii.
From S2P Require Import Prelude.
From S2P Require Import PyStr.
From S2P Require Import PyFloat.
From S2P Require Import PyVal.
From S2P Require Import PyDecimal.
From S2P Require Import AplParser.
From S2P Require Import Models.
From S2P Require Import PyTime.
From S2P Require Import PyCodec.
From S2P Require Import PyNet.
From S2P Require Import Store.
From S2P Require Import SecurityEvents.
From S2P Require Import Workspace.
From S2P Require Import Notifications.
From S2P Require Import PlanLimits.
From S2P Require Import Signing.
From S2P Require Import Sso.

Local Open Scope string_scope.
Local Open Scope Z_scope.

Module Billing.
Import SecurityEvents Workspace Notifications PlanLimits.

Definition upd_billing_events f : tables → tables := upd_identity (on_billing_events f).
Definition upd_checkouts f : tables → tables := upd_identity (on_billing_checkouts f).
Definition upd_plans f : tables → tables := upd_identity (on_plans f).
Definition event_table (t : tables) : gmap uuid BillingEvent := billing_events (identity t).
Definition checkout_table (t : tables) : gmap uuid BillingCheckout := billing_checkouts (identity t).

(** The fields of the settings that billing reads ([core/config.py]). *)
Record billing_settings : Type := MkBillingSettings {
  bs_provider : string;
  bs_webhook_secret : string;
  bs_webhook_tolerance_seconds : Z;
  bs_grace_period_days : Z;
  bs_admin_can_manage : bool;
  bs_starter_monthly_price : dec;
  bs_business_monthly_price : dec;
  bs_price_starter_monthly : string;
  bs_price_business_monthly : string;
  bs_paddle_api_url : string;
  bs_web_app_url : string
}.

(** ** Providers *)

(** What [httpx.post] ends with: an error of its own or of the status, a body that is not
    JSON, or a value. *)
Inductive paddle_answer : Type := PaddleError | PaddleNotJson | PaddleJson (v : pyval).
Class PaddleServices : Type := { paddle_post : string → pyval → paddle_answer }.

Inductive provider : Type := PaddleSandboxProvider | TestBillingProvider.
Definition paddle_base : string := "https://sandbox-api.paddle.com".
Definition provider_for (settings : billing_settings) : result Exc provider :=
  if eqb (bs_provider settings) "paddle_sandbox" then
    if eqb (Sso.rstrip_slash (bs_paddle_api_url settings)) paddle_base then Ok PaddleSandboxProvider
    else Err (BillingProviderError "Only Paddle sandbox is allowed")
  else if eqb (bs_provider settings) "test" then Ok TestBillingProvider
  else Err (BillingProviderError "Billing checkout is disabled").

Section signature.
Context `{Hmac}.
Definition paddle_signature (secret body : string) (timestamp : Z) : string :=
  hmac_sha256 secret (str_of_Z timestamp +:+ ":" +:+ body).
(** The values under each key, in order; a part without an equals sign is an error. *)
Fixpoint header_fields (parts : list string) (acc : list (string * list string)) : option (list (string * list string)) :=
  match parts with
  | [] => Some acc
  | p :: parts =>
      match partition_at "=" (py_strip p) with
      | (k, true, v) => header_fields parts (dict_set k (default [] (dict_get k acc) ++ [v])%list acc)
      | (_, false, _) => None
      end
  end.
Definition header_timestamp (values : list (string * list string)) : option Z :=
  ts ← dict_get "ts" values;
  first ← head ts;
  py_int first.
(** [any(hmac.compare_digest(expected, c) for c in candidates)] *)
Fixpoint any_digest (expected : string) (candidates : list string) : result Exc bool :=
  match candidates with
  | [] => Ok false
  | c :: candidates =>
      if ascii_text c then (if eqb c expected then Ok true else any_digest expected candidates)
      else Err (PyError TypeError)
  end.
Definition verify_paddle_signature (secret body header : string) (tolerance : Z) (now : time) : result Exc bool :=
  if eqb secret "" then Ok false
  else
    match header_fields (split_on ";" header) [] with
    | None => Ok false
    | Some values =>
        match header_timestamp values with
        | None => Ok false
        | Some timestamp =>
            if tolerance <? Z.abs (now / second - timestamp) then Ok false
            else any_digest (paddle_signature secret body timestamp) (default [] (dict_get "h1" values))
        end
    end.
Definition verify_webhook (settings : billing_settings) (body header : string) (now : time) : result Exc bool :=
  verify_paddle_signature (bs_webhook_secret settings) body header (bs_webhook_tolerance_seconds settings) now.
End signature.

Section billing.
Context `{Entropy} `{SecuritySinks} `{PaddleServices} `{Loaders} `{Hmac}.

(** [value[k]] *)
Definition subscript (k : string) (v : pyval) : result Exc pyval :=
  match v with
  | VDict d => match dict_get k d with Some x => Ok x | None => Err (PyError KeyError) end
  | _ => Err (PyError TypeError)
  end.
(** [value.get(k)] *)
Definition attr_get (k : string) (v : pyval) : result Exc pyval :=
  match v with VDict d => Ok (get k d) | _ => Err (PyError AttributeError) end.
Definition request_failed : Exc := BillingProviderError "Sandbox billing provider request failed".
Definition _post (path : string) (payload : pyval) : result Exc pyval :=
  match paddle_post (paddle_base +:+ path) payload with
  | PaddleError | PaddleNotJson => Err request_failed
  | PaddleJson v =>
      match subscript "data" v with
      | Err (PyError KeyError) => Err request_failed
      | r => r
      end
  end.

Record CheckoutSession : Type := MkSession_ { cs_id : pyval; cs_url : pyval }.
Definition test_url (settings : billing_settings) (query : string) : pyval :=
  VStr (Sso.rstrip_slash (bs_web_app_url settings) +:+ "/dashboard/billing?" +:+ query).
Definition provider_checkout (settings : billing_settings) (p : provider) (price_id : string) (org : uuid) (plan_code : string) :
    DB CheckoutSession :=
  match p with
  | TestBillingProvider =>
      h ← fresh_hex 12;
      let session_id := "txn_test_" +:+ h in
      mret (MkSession_ (VStr session_id) (test_url settings ("test_checkout=" +:+ session_id +:+ "&plan=" +:+ plan_code)))
  | PaddleSandboxProvider =>
      data ← lift_result (_post "/transactions" (VDict
        [("items", VList [VDict [("price_id", VStr price_id); ("quantity", VInt 1)]]); ("collection_mode", VStr "automatic");
         ("custom_data", VDict [("organization_id", VStr (uuid_str org)); ("plan_code", VStr plan_code)])]));
      checkout ← lift_result (attr_get "checkout" data);
      url ← lift_result (attr_get "url" (if truthy checkout then checkout else VDict []));
      raise_if (negb (truthy url)) (BillingProviderError "Sandbox checkout URL was unavailable") ;;
      id ← lift_result (subscript "id" data);
      mret (MkSession_ id url)
  end.
Definition provider_portal (settings : billing_settings) (p : provider) (customer_id : string) : result Exc pyval :=
  match p with
  | TestBillingProvider => Ok (test_url settings "test_portal=1")
  | PaddleSandboxProvider =>
      match _post ("/customers/" +:+ customer_id +:+ "/portal-sessions") (VDict []) with
      | Ok data =>
          match subscript "urls" data with
          | Ok urls => match subscript "general" urls with Ok general => subscript "overview" general | Err e => Err e end
          | Err e => Err e
          end
      | Err e => Err e
      end
  end.
Definition provider_cancel (p : provider) (subscription_id : string) : result Exc unit :=
  match p with
  | TestBillingProvider => Ok tt
  | PaddleSandboxProvider =>
      match _post ("/subscriptions/" +:+ subscription_id +:+ "/cancel") (VDict [("effective_from", VStr "next_billing_period")]) with
      | Ok _ => Ok tt
      | Err e => Err e
      end
  end.

(** ** Plans *)

Definition configured_price (settings : billing_settings) (code : string) : option dec :=
  if eqb code "starter" then Some (bs_starter_monthly_price settings)
  else if eqb code "business" then Some (bs_business_monthly_price settings) else None.
Definition same_price (a : option dec) (b : dec) : bool :=
  match a with Some a => dec_leb a b && dec_leb b a | None => false end.
Definition set_price (price : dec) (p : SubscriptionPlan) : SubscriptionPlan :=
  MkPlan (sp_id p) (sp_name p) (sp_code p) (Some price) (sp_max_members p) (sp_max_agents p) (sp_max_api_keys p)
    (sp_max_authorization_requests_monthly p) (sp_max_webhooks p) (sp_is_active p).
Definition stale_price (settings : billing_settings) (p : SubscriptionPlan) : bool :=
  match configured_price settings (sp_code p) with Some price => negb (same_price (sp_monthly_price p) price) | None => false end.
Definition repriced (settings : billing_settings) (p : SubscriptionPlan) : SubscriptionPlan :=
  match configured_price settings (sp_code p) with
  | Some price => if same_price (sp_monthly_price p) price then p else set_price price p
  | None => p
  end.
Definition configure_plan_prices (settings : billing_settings) : DB unit :=
  changed ← query (λ t, existsb (stale_price settings) (rows (plan_table t)));
  if changed : bool then write (upd_plans (fmap (repriced settings))) ;; commit else mret tt.

(** Ascending, without a price last. *)
Definition cheaper (a b : SubscriptionPlan) : Prop :=
  match sp_monthly_price a, sp_monthly_price b with
  | Some p, Some q => dec_leb p q = true
  | None, Some _ => False
  | _, None => True
  end.
#[export] Instance cheaper_dec : RelDecision cheaper.
Proof. intros a b. unfold cheaper. repeat case_match; apply _. Defined.
Definition list_plans (settings : billing_settings) : DB (list SubscriptionPlan) :=
  configure_plan_prices settings ;;
  query (λ t, merge_sort cheaper (select_rows sp_is_active (plan_table t))).

(** ** Checkout, portal, cancellation *)

Definition active_plan (code : string) (t : tables) : option SubscriptionPlan :=
  scalar (λ p, eqb (sp_code p) code && sp_is_active p) (plan_table t).
Definition new_checkout_ok (c : BillingCheckout) (t : tables) : bool :=
  negb (is_some (checkout_table t !! bc_id c)) && fits 100 (bc_provider_session_id c) &&
  negb (is_some (scalar (λ d, eqb (bc_provider_session_id d) (bc_provider_session_id c)) (checkout_table t))).
Definition create_checkout (settings : billing_settings) (org user : uuid) (plan_code : string) : DB pyval :=
  configure_plan_prices settings ;;
  found ← query (active_plan plan_code);
  plan ← lift_result match found with
                     | Some p => if existsb (eqb (sp_code p)) ["free"; "enterprise"]
                                 then Err (BillingInputError "This plan cannot be purchased through checkout") else Ok p
                     | None => Err (BillingInputError "This plan cannot be purchased through checkout")
                     end;
  let price_id := if eqb (sp_code plan) "starter" then bs_price_starter_monthly settings else bs_price_business_monthly settings in
  raise_if (eqb (bs_provider settings) "paddle_sandbox" && eqb price_id "") (BillingInputError "The sandbox price is not configured") ;;
  p ← lift_result (provider_for settings);
  session ← provider_checkout settings p (if eqb price_id "" then "test_" +:+ sp_code plan else price_id) org (sp_code plan);
  id ← fresh_uuid;
  now ← now_db;
  session_id ← lift_result match cs_id session with VStr s => Ok s | _ => Err IntegrityError end;
  let checkout := MkCheckout id org (sp_id plan) user session_id "pending" (now + hour) in
  insert_checked (new_checkout_ok checkout) (upd_checkouts <[id := checkout]>) ;;
  record_security_event user "billing.checkout_created" (Some org) None (Some ("Plan: " +:+ sp_code plan)) false ;;
  commit ;;
  mret (cs_url session).

Definition portal_url (settings : billing_settings) (org : uuid) : DB pyval :=
  sp ← ensure_subscription org;
  match os_provider_customer_id sp.1 with
  | Some customer =>
      raise_if (eqb customer "") (BillingInputError "No billing portal is available for this subscription") ;;
      p ← lift_result (provider_for settings);
      lift_result (provider_portal settings p customer)
  | None => throw (BillingInputError "No billing portal is available for this subscription")
  end.

Definition save_subscription (s : OrganizationSubscription) : DB unit := write (upd_subscriptions <[os_id s := s]>).
Definition set_canceling (s : OrganizationSubscription) : OrganizationSubscription :=
  MkSubscription (os_id s) (os_organization_id s) (os_plan_id s) (os_status s) (os_billing_provider s) (os_provider_customer_id s)
    (os_provider_subscription_id s) (os_current_period_start s) (os_current_period_end s) true (os_grace_ends_at s) (os_canceled_at s).
Definition billing_notice (owner org : uuid) (type : NotificationType) (title message : string) (priority : NotificationPriority)
    (metadata : option (list (string * pyval))) (key : string) : notification_args :=
  {| na_user_id := owner; na_type := type; na_title := title; na_message := message; na_priority := priority;
     na_organization_id := Some org; na_related_request_id := None; na_related_agent_id := None;
     na_related_permission_id := None; na_metadata := metadata; na_deduplication_key := Some key |}.
Definition organization_owner (org : uuid) : DB uuid :=
  o ← get_or (λ t, organizations (identity t) !! org) (PyError AttributeError); mret (og_owner_id o).
Definition cancel_notice (owner org : uuid) (plan : SubscriptionPlan) (s : OrganizationSubscription) : notification_args :=
  billing_notice owner org BILLING_CANCELING "Subscription Cancellation Scheduled"
    ("Your " +:+ sp_name plan +:+ " plan will remain active until the current billing period ends.") PrioHigh None
    ("billing-cancel:" +:+ uuid_str (os_id s) +:+ ":" +:+ isoformat (os_current_period_end s)).
Definition cancel (settings : billing_settings) (org user : uuid) : DB OrganizationSubscription :=
  sp ← ensure_subscription org;
  let '(subscription, plan) := (sp : OrganizationSubscription * SubscriptionPlan) in
  raise_if (eqb (sp_code plan) "free") (BillingInputError "The Free plan has no paid subscription to cancel") ;;
  match os_provider_subscription_id subscription with
  | Some id => if eqb id "" then mret tt else p ← lift_result (provider_for settings); lift_result (provider_cancel p id)
  | None => mret tt
  end ;;
  let subscription := set_canceling subscription in
  save_subscription subscription ;;
  record_security_event user "billing.cancellation_scheduled" (Some org) None (Some ("Plan: " +:+ sp_code plan)) false ;;
  owner ← organization_owner org;
  create_notification (cancel_notice owner org plan subscription) ;;
  commit ;;
  mret subscription.

(** ** Events of the provider *)

(** [value.replace("Z", "+00:00")] *)
Fixpoint zulu (s : string) : string :=
  match s with
  | "" => ""
  | String c s => if eqb c "Z"%char then "+00:00" +:+ zulu s else String c (zulu s)
  end.
Definition _parse_time (value : pyval) (fallback : time) : time :=
  match value with
  | VStr s => if eqb s "" then fallback else match fromisoformat (zulu s) with Some (t, _) => t | None => fallback end
  | _ => fallback
  end.

Record provider_event : Type := MkProviderEvent {
  pe_event_id : string;
  pe_event_type : string;
  pe_data : list (string * pyval)
}.
Definition invalid_payload : Exc := BillingInputError "Invalid billing webhook payload".
Definition parse_event (body : string) : result Exc provider_event :=
  match json_loads body with
  | Ok (VDict payload) =>
      match dict_get "event_id" payload, dict_get "event_type" payload with
      | Some id, Some type =>
          let event_id := py_str id in
          let event_type := py_str type in
          match py_or (get "data" payload) (VDict []) with
          | VDict data =>
              if eqb event_id "" || negb (fits 100 event_id) || eqb event_type "" || negb (fits 80 event_type)
              then Err invalid_payload else Ok (MkProviderEvent event_id event_type data)
          | _ => Err invalid_payload
          end
      | _, _ => Err invalid_payload
      end
  | _ => Err invalid_payload
  end.
Definition event_by (event_id : string) (t : tables) : option BillingEvent :=
  scalar (λ e, eqb (be_provider_event_id e) event_id) (event_table t).
Definition new_event_ok (e : BillingEvent) (t : tables) : bool :=
  negb (is_some (event_table t !! be_id e)) && negb (is_some (event_by (be_provider_event_id e) t)) &&
  match be_organization_id e with Some org => is_some (organizations (identity t) !! org) | None => true end.
Definition set_event (org : option uuid) (st : BillingEventStatus) (processed : option time) (e : BillingEvent) : BillingEvent :=
  MkBillingEvent (be_id e) org (be_provider_event_id e) (be_event_type e) st processed.
(** A row that is gone stays gone. *)
Definition change_event (f : BillingEvent → BillingEvent) (id : uuid) : DB unit := write (upd_billing_events (alter f id)).

Definition activating : list string := ["transaction.completed"; "subscription.created"; "subscription.updated"].
Definition overdue : list string := ["subscription.past_due"; "transaction.payment_failed"].
Definition ending : list string := ["subscription.canceled"; "subscription.cancelled"].

(** A column of at most 80 characters takes a text; another value is refused. *)
Definition provider_text (v : pyval) (old : option string) : result Exc (option string) :=
  if truthy v then match v with VStr s => Ok (Some s) | _ => Err (RaisedRuntimeError "ProgrammingError") end else Ok old.
Definition plan_by_code (code : pyval) (t : tables) : result Exc (option SubscriptionPlan) :=
  if truthy code then
    match code with
    | VStr s => Ok (scalar (λ p, eqb (sp_code p) s) (plan_table t))
    | _ => Err (RaisedRuntimeError "ProgrammingError")
    end
  else Ok None.
Definition activated (settings : billing_settings) (e : provider_event) (plan : SubscriptionPlan) (now : time)
    (s : OrganizationSubscription) : result Exc OrganizationSubscription :=
  let data := pe_data e in
  let '(start, end_) := month_period now in
  match attr_get "starts_at" (default (VDict []) (dict_get "current_billing_period" data)),
        attr_get "ends_at" (default (VDict []) (dict_get "current_billing_period" data)),
        provider_text (get "customer_id" data) (os_provider_customer_id s),
        provider_text (py_or (get "subscription_id" data) (get "id" data)) (os_provider_subscription_id s) with
  | Ok starts, Ok ends, Ok customer, Ok subscription =>
      Ok (MkSubscription (os_id s) (os_organization_id s) (sp_id plan) SubActive (bs_provider settings) customer subscription
        (_parse_time starts (midnight start)) (_parse_time ends (midnight end_)) false None (os_canceled_at s))
  | Err e, _, _, _ | _, Err e, _, _ | _, _, Err e, _ | _, _, _, Err e => Err e
  end.
Definition columns_fit (s : OrganizationSubscription) : bool :=
  opt_check (fits 80) (os_provider_customer_id s) && opt_check (fits 80) (os_provider_subscription_id s).
Definition past_due (grace : time) (s : OrganizationSubscription) : OrganizationSubscription :=
  MkSubscription (os_id s) (os_organization_id s) (os_plan_id s) PAST_DUE (os_billing_provider s) (os_provider_customer_id s)
    (os_provider_subscription_id s) (os_current_period_start s) (os_current_period_end s) (os_cancel_at_period_end s) (Some grace)
    (os_canceled_at s).
Definition ended (free : uuid) (now : time) (s : OrganizationSubscription) : OrganizationSubscription :=
  MkSubscription (os_id s) (os_organization_id s) free CANCELED (os_billing_provider s) (os_provider_customer_id s)
    (os_provider_subscription_id s) (os_current_period_start s) (os_current_period_end s) false (os_grace_ends_at s) (Some now).
Definition plan_notice (owner org : uuid) (plan : SubscriptionPlan) (event_id : string) : notification_args :=
  billing_notice owner org BILLING_PLAN_CHANGED "Subscription Updated" ("Your plan is now " +:+ sp_name plan +:+ ".") PrioNormal
    (Some [("plan", VStr (sp_code plan))]) ("billing-event:" +:+ event_id).
Definition failed_notice (owner org : uuid) (event_id : string) : notification_args :=
  billing_notice owner org BILLING_PAYMENT_FAILED "Sandbox Payment Failed" "Billing is past due. A grace period is active." PrioCritical
    None ("billing-event:" +:+ event_id).
Definition completed (c : BillingCheckout) : BillingCheckout :=
  MkCheckout (bc_id c) (bc_organization_id c) (bc_plan_id c) (bc_created_by_user_id c) (bc_provider_session_id c) "completed" (bc_expires_at c).

(** What the event does to the subscription of the organization, and its status then. *)
Definition apply_event (settings : billing_settings) (e : provider_event) (custom : list (string * pyval))
    (checkout : option BillingCheckout) (org : uuid) : DB BillingEventStatus :=
  sp ← ensure_subscription org;
  let '(subscription, old_plan) := (sp : OrganizationSubscription * SubscriptionPlan) in
  found ← query (plan_by_code (get "plan_code" custom));
  plan ← lift_result found;
  now ← now_db;
  match existsb (eqb (pe_event_type e)) activating, plan with
  | true, Some plan =>
      s ← lift_result (activated settings e plan now subscription);
      insert_checked (λ _, columns_fit s) (upd_subscriptions <[os_id s := s]>) ;;
      match checkout with Some c => write (upd_checkouts <[bc_id c := completed c]>) | None => mret tt end ;;
      owner ← organization_owner org;
      create_notification (plan_notice owner org plan (pe_event_id e)) ;;
      record_security_event owner "billing.plan_changed" (Some org) None (Some (sp_code old_plan +:+ " to " +:+ sp_code plan)) false ;;
      mret BePROCESSED
  | _, _ =>
      if existsb (eqb (pe_event_type e)) overdue then
        save_subscription (past_due (now + bs_grace_period_days settings * day) subscription) ;;
        owner ← organization_owner org;
        create_notification (failed_notice owner org (pe_event_id e)) ;;
        mret BePROCESSED
      else if existsb (eqb (pe_event_type e)) ending then
        free ← get_or (λ t, scalar (λ p, eqb (sp_code p) "free") (plan_table t)) (PyError AttributeError);
        save_subscription (ended (sp_id free) now subscription) ;;
        mret BePROCESSED
      else mret BeIGNORED
  end.

(** The organization that the event names, and its custom data. *)
Definition custom_data (e : provider_event) : result Exc (list (string * pyval)) :=
  match py_or (get "custom_data" (pe_data e)) (VDict []) with VDict d => Ok d | _ => Err (PyError AttributeError) end.
Definition named_organization (custom : list (string * pyval)) : option uuid := py_uuid (py_str (get "organization_id" custom)).
Definition checkout_of (e : provider_event) (t : tables) : option BillingCheckout :=
  scalar (λ c, eqb (bc_provider_session_id c) (py_str (get "id" (pe_data e)))) (checkout_table t).
(** The row of the event takes the outcome. *)
Definition finish_event (settings : billing_settings) (e : provider_event) (custom : list (string * pyval)) (id : uuid)
    (checkout : option BillingCheckout) (org : option uuid) (known : bool) : DB string :=
  match org, known with
  | Some o, true =>
      st ← apply_event settings e custom checkout o;
      now ← now_db;
      change_event (set_event org st (Some now)) id ;;
      commit ;;
      mret (BillingEventStatus_value st)
  | _, _ =>
      now ← now_db;
      change_event (set_event org BeIGNORED (Some now)) id ;;
      commit ;;
      mret "ignored"
  end.
Definition process_event (settings : billing_settings) (e : provider_event) : DB string :=
  existing ← query (event_by (pe_event_id e));
  if is_some existing then mret "duplicate"
  else
    custom ← lift_result (custom_data e);
    let named := named_organization custom in
    id ← fresh_uuid;
    let row := MkBillingEvent id named (pe_event_id e) (pe_event_type e) BeIGNORED None in
    ok ← query (new_event_ok row);
    if negb ok then rollback ;; mret "duplicate"
    else
      insert_checked (new_event_ok row) (upd_billing_events <[id := row]>) ;;
      checkout ← query (checkout_of e);
      let org := match checkout with Some c => Some (bc_organization_id c) | None => named end in
      change_event (set_event org BeIGNORED None) id ;;
      known ← query (λ t, match org with Some o => is_some (organizations (identity t) !! o) | None => false end);
      finish_event settings e custom id checkout org known.
Definition process_webhook (settings : billing_settings) (body signature : string) : DB string :=
  provider_ok ← lift_result (provider_for settings);
  now ← now_db;
  valid ← lift_result (verify_webhook settings body signature now);
  raise_if (negb valid) (BillingInputError "Invalid billing webhook signature") ;;
  e ← lift_result (parse_event body);
  process_event settings e.

(** ** Handlers *)

Definition _organization (w : WorkspaceContext) : DB uuid :=
  match wc_organization_id w with
  | Some org => mret org
  | None => throw (HTTPException 422 "Select an organization workspace for billing")
  end.
Definition _manage (settings : billing_settings) (w : WorkspaceContext) : DB unit :=
  require w "manage_billing" ;;
  raise_if (eqb (wc_role w) ADMIN && negb (bs_admin_can_manage settings))
    (HTTPException 403 "Only the organization owner can change billing").
Definition billing_as_http {A} (m : DB A) : DB A :=
  try_except m (λ e, match e with
    | BillingInputError message | BillingProviderError message => throw (HTTPException 422 message)
    | e => throw e
    end).
(** The answers of checkout and portal are texts. *)
Definition text_response (v : pyval) : DB string := match v with VStr s => mret s | _ => throw (PyError ValueError) end.

Definition plans (settings : billing_settings) : DB (list SubscriptionPlan) := list_plans settings.
Definition subscription (w : WorkspaceContext) : DB (OrganizationSubscription * SubscriptionPlan * list (string * UsageValue)) :=
  require w "view_billing" ;; org ← _organization w; usage_values org.
Definition usage (w : WorkspaceContext) : DB (string * date * date * list (string * UsageValue)) :=
  require w "view_billing" ;;
  org ← _organization w;
  r ← usage_values org;
  now ← now_db;
  let '(_, plan, values) := (r : OrganizationSubscription * SubscriptionPlan * list (string * UsageValue)) in
  let '(start, end_) := month_period now in
  mret (sp_code plan, start, end_, values).
Definition checkout (settings : billing_settings) (w : WorkspaceContext) (plan_code : string) : DB string :=
  _manage settings w ;;
  org ← _organization w;
  url ← billing_as_http (create_checkout settings org (wc_user_id w) plan_code);
  text_response url.
Definition portal (settings : billing_settings) (w : WorkspaceContext) : DB string :=
  _manage settings w ;;
  org ← _organization w;
  url ← billing_as_http (portal_url settings org);
  text_response url.
(** The errors of the service and of the provider are not translated here. *)
Definition cancel_subscription (settings : billing_settings) (cl : caller) (w : WorkspaceContext) : DB OrganizationSubscription :=
  Signing.require_recent_step_up cl ;;
  raise_if (negb (eqb (wc_role w) OWNER)) (HTTPException 403 "Only the organization owner can cancel a subscription") ;;
  org ← _organization w;
  cancel settings org (wc_user_id w).
Definition webhook (settings : billing_settings) (body : string) (paddle_signature : option string) : DB string :=
  try_except (process_webhook settings body (default "" paddle_signature))
    (λ e, match e with
          | BillingInputError _ | BillingProviderError _ => throw (HTTPException 400 "Invalid billing webhook")
          | e => throw e
          end).
End billing.
End Billing.
