(* ===== verification/BillingProps.v ===== *)
(** What the billing events guarantee ([Billing]): only a signed event changes a
    subscription, only that of the organization it names, and at most once. *)
From Stdlib Require Import Ascii.
From S2P Require Import Prelude.
From S2P Require Import PyStr.
From S2P Require Import PyFloat.
From S2P Require Import PyVal.
From S2P Require Import PyDecimal.
From S2P Require Import AplParser.
From S2P Require Import Models.
From S2P Require Import PyTime.
From S2P Require Import PyCodec.
From S2P Require Import Store.
From S2P Require Import Samples.
From S2P Require Import SecurityEvents.
From S2P Require Import Soc.
From S2P Require Import SocProps.
From S2P Require Import Workspace.
From S2P Require Import Notifications.
From S2P Require Import PlanLimits.
From S2P Require Import Signing.
From S2P Require Import Frames.
From S2P Require Import Billing.

Local Open Scope string_scope.
Local Open Scope Z_scope.

Module BillingProps.
Import SecurityEvents Workspace Notifications PlanLimits Frames Billing.

(** ** Signatures *)

Section signature.
Context `{Hmac}.
Definition signed (secret body header : string) (tolerance : Z) (now : time) : Prop :=
  secret ≠ "" ∧ ∃ values timestamp,
    header_fields (split_on ";" header) [] = Some values ∧ header_timestamp values = Some timestamp ∧
    Z.abs (now / second - timestamp) <= tolerance ∧
    paddle_signature secret body timestamp ∈ default [] (dict_get "h1" values).
Lemma any_digest_in expected l : any_digest expected l = Ok true → expected ∈ l.
Proof.
  induction l as [|c l IH]; simpl; [done|]. destruct (ascii_text c); [|done].
  destruct (eqb c expected) eqn:He; [intros _; apply (proj1 (eqb_true _ _)) in He; subst; by left | intros Hl; right; auto].
Qed.
Lemma verified_signed secret body header tolerance now :
  verify_paddle_signature secret body header tolerance now = Ok true → signed secret body header tolerance now.
Proof.
  unfold verify_paddle_signature. destruct (eqb secret "") eqn:Hs; [done|]. apply eqb_false in Hs.
  destruct (header_fields _ _) as [values|] eqn:Hf; [|done]. destruct (header_timestamp values) as [ts|] eqn:Ht; [|done].
  destruct (_ <? _) eqn:Hw; [done|]. intros Hd%any_digest_in. apply Z.ltb_ge in Hw. split; [done|]. by exists values, ts.
Qed.
End signature.

(** ** The tables of billing *)

Definition billing_ok (t : tables) : Prop :=
  (∀ k e, event_table t !! k = Some e → be_id e = k) ∧
  (∀ i j a b, event_table t !! i = Some a → event_table t !! j = Some b → be_provider_event_id a = be_provider_event_id b → i = j) ∧
  ∀ k s, subscription_table t !! k = Some s → os_id s = k.
Definition recorded (x : string) (t : tables) : Prop := ∃ k e, event_table t !! k = Some e ∧ be_provider_event_id e = x.
Lemma recorded_by x t : recorded x t ↔ is_some (event_by x t) = true.
Proof.
  unfold recorded, event_by. split.
  - intros (k & e & Hk & He). destruct (scalar _ _) eqn:Hs; [done|]. pose proof (proj1 (scalar_None _ _) Hs k e Hk) as Hf.
    cbv beta in Hf. by rewrite He, eqb_refl in Hf.
  - destruct (scalar _ _) as [e|] eqn:Hs; [|done]. intros _. apply scalar_Some in Hs as (k & Hk & He).
    apply (proj1 (eqb_true _ _)) in He. by exists k, e.
Qed.

(** Events are only added. *)
Definition grows (t t' : tables) : Prop := billing_ok t → billing_ok t' ∧ ∀ x, recorded x t → recorded x t'.
#[export] Instance grows_preorder : PreOrder grows.
Proof. split; [by intros t Ht|]. intros t1 t2 t3 H12 H23 H1. destruct (H12 H1) as [H2 K12]. destruct (H23 H2) as [H3 K23]. auto. Qed.

Definition about_billing (T : tables → Prop) : Prop :=
  ∀ t t', event_table t' = event_table t → subscription_table t' = subscription_table t → T t → T t'.
Class SparesBilling `{SecuritySinks} : Prop := spares_billing : ∀ T, about_billing T → SinksRespect (implied T).

(** What a program leaves behind that starts with [T] of its open transaction: [C] of what
    is committed and seen. *)
Section ends.
Context (T C : tables → Prop) (HTC : ∀ t, T t → C t).
Definition ends {A} (m : DB A) : Prop := ∀ s, kept_by T C s → C (committed (m s).2) ∧ C (cur (m s).2).
Lemma ends_step {A B} (m : DB A) (k : A → DB B) : respects (guarded T C) m → (∀ a, ends (k a)) → ends (m ≫= k).
Proof.
  intros Hm Hk s Hs. rewrite bind_run. specialize (Hm s Hs). destruct (m s) as [[a|e] s']; [by apply Hk|].
  by destruct Hm as (? & ? & _).
Qed.
Lemma ends_plain {A} (m : DB A) : respects (evolves (implied C)) m → ends m.
Proof. intros Hm s (Hc & Hu & _). destruct (Hm s) as [H1 H2]; [by intros _|]. split; [by apply H1 | apply H2; by apply H1]. Qed.
Lemma ends_then {A B} (m : DB A) (k : A → DB B) : ends m → (∀ a, respects (evolves (implied C)) (k a)) → ends (m ≫= k).
Proof.
  intros Hm Hk s Hs. rewrite bind_run. specialize (Hm s Hs). destruct (m s) as [[a|e] s']; [|done]. destruct Hm as [Hc Hu].
  destruct (Hk a s') as [H1 H2]; [by intros _|]. split; [by apply H1 | apply H2; by apply H1].
Qed.
End ends.
Lemma ends_bind {A B} (T C : tables → Prop) (T' : A → tables → Prop) (m : DB A) (k : A → DB B) :
  (∀ s, kept_by T C s → match m s with (Ok a, s') => kept_by (T' a) C s' | (Err _, s') => C (committed s') ∧ C (cur s') end) →
  (∀ a, ends (T' a) C (k a)) → ends T C (m ≫= k).
Proof.
  intros Hm Hk s Hs. rewrite bind_run. specialize (Hm s Hs). destruct (m s) as [[a|e] s']; [by apply Hk | done].
Qed.

(** ** One event *)

Section event.
Context `{Entropy} `{SecuritySinks} `{PaddleServices} `{Loaders} `{Hmac} `{!SparesBilling}.
Context (settings : billing_settings) (e : provider_event) (t0 : tables) (org : uuid).

(** What the tables may have become: the subscriptions are the same but for those of
    [org], and the same throughout until the event is recorded. *)
Definition settled (t : tables) : Prop :=
  billing_ok t ∧ (∀ x, recorded x t0 → recorded x t) ∧
  (∀ i s, os_organization_id s ≠ org → subscription_table t0 !! i = Some s ↔ subscription_table t !! i = Some s) ∧
  (¬ recorded (pe_event_id e) t → subscription_table t = subscription_table t0).
Definition entered (t : tables) : Prop := settled t ∧ recorded (pe_event_id e) t.
Definition holds (s : OrganizationSubscription) (t : tables) : Prop :=
  entered t ∧ os_organization_id s = org ∧ ∀ s0, subscription_table t !! os_id s = Some s0 → os_organization_id s0 = org.
Lemma about_settled : about_billing settled.
Proof. intros t t' He Hs. unfold settled, billing_ok, recorded. by rewrite He, Hs. Qed.
Lemma about_entered : about_billing entered.
Proof. intros t t' He Hs. unfold entered, settled, billing_ok, recorded. by rewrite He, Hs. Qed.
Lemma about_holds s : about_billing (holds s).
Proof. intros t t' He Hs. unfold holds, entered, settled, billing_ok, recorded. by rewrite He, Hs. Qed.
Lemma ignores_billing T : about_billing T → Ignores (implied T).
Proof. intros HT. split; [by apply spares_billing | intros f t Ht; by apply (HT t) ..]. Qed.

Lemma holds_put s t : entered t → os_organization_id s = org →
  (∀ s0, subscription_table t !! os_id s = Some s0 → os_organization_id s0 = org) →
  holds s (upd_subscriptions <[os_id s := s]> t).
Proof.
  intros (((Hid & Huniq & Hsub) & Hgrow & Hframe & Hbefore) & Hrec) Ho Hrow.
  split; [split; [|exact Hrec] | split; [exact Ho|]].
  - split; [split; [exact Hid | split; [exact Huniq|]] | split; [exact Hgrow | split; [|by intros []]]].
    + intros k x. unfold subscription_table. simpl. rewrite lookup_insert_Some. intros [[<- <-]|[_ Hk]]; [done | by apply Hsub].
    + intros i x Hx. rewrite (Hframe i x Hx). unfold subscription_table. simpl. rewrite lookup_insert_Some. split.
      * intros Hk. right. split; [|done]. intros <-. by specialize (Hrow x Hk).
      * intros [[_ <-]|[_ Hk]]; [congruence | exact Hk].
  - intros s0. unfold subscription_table. simpl. rewrite lookup_insert_eq. intros [= <-]. congruence.
Qed.
Lemma holds_save s s' t : holds s t → os_id s' = os_id s → os_organization_id s' = os_organization_id s →
  holds s (upd_subscriptions <[os_id s' := s']> t).
Proof.
  intros (Ht & Ho & Hrow) Hi Ho'. destruct (holds_put s' t Ht) as (He & _ & Hs); [congruence | by rewrite Hi|].
  split; [exact He | split; [exact Ho|]]. by rewrite <- Hi.
Qed.
Lemma entered_settled t : entered t → settled t.
Proof. by intros []. Qed.
Lemma holds_settled s t : holds s t → settled t.
Proof. by intros [[] _]. Qed.
Lemma recorded_alter x f id t : (∀ y, be_provider_event_id (f y) = be_provider_event_id y) → recorded x t →
  recorded x (upd_billing_events (alter f id) t).
Proof.
  intros Hf (k & y & Hk & Hy). destruct (decide (id = k)) as [<-|Hne].
  - exists id, (f y). unfold event_table in *. simpl. rewrite lookup_alter_eq, Hk. split; [done|]. by rewrite Hf.
  - exists k, y. split; [|done]. unfold event_table. simpl. by rewrite lookup_alter_ne.
Qed.
Lemma change_row f id t : (∀ x, be_id (f x) = be_id x ∧ be_provider_event_id (f x) = be_provider_event_id x) → settled t →
  settled (upd_billing_events (alter f id) t).
Proof.
  intros Hf ((Hid & Huniq & Hsub) & Hgrow & Hframe & Hbefore).
  assert (Hrow : ∀ k x, event_table (upd_billing_events (alter f id) t) !! k = Some x →
    ∃ y, event_table t !! k = Some y ∧ be_id x = be_id y ∧ be_provider_event_id x = be_provider_event_id y).
  { intros k x. unfold event_table. simpl. rewrite lookup_alter. case_decide as Hk; [|intros Hx; by exists x].
    intros (y & Hy & ->)%fmap_Some. exists y. split; [by subst|]. apply Hf. }
  pose proof (λ x, recorded_alter x f id t (λ y, proj2 (Hf y))) as Hback.
  split; [split; [|split] | split; [by auto | split; [exact Hframe|]]].
  - intros k x Hk. destruct (Hrow k x Hk) as (y & Hy & -> & _). by apply Hid.
  - intros i j x y Hx Hy He. destruct (Hrow i x Hx) as (x' & Hx' & _ & Ex). destruct (Hrow j y Hy) as (y' & Hy' & _ & Ey).
    apply (Huniq i j x' y' Hx' Hy'). congruence.
  - exact Hsub.
  - intros Hn. apply Hbefore. intros Hr. by apply Hn, Hback.
Qed.

(** *** The subscription of the organization *)

Lemma ensured s : kept_by entered settled s →
  match ensure_subscription org s with
  | (Ok a, s') => kept_by (holds a.1) settled s'
  | (Err _, s') => settled (committed s') ∧ settled (cur s')
  end.
Proof.
  intros (Hc & Hu & Ht). unfold ensure_subscription. rewrite bind_query.
  destruct (subscription_of org (cur s)) as [sub|] eqn:Hsub.
  - rewrite bind_query. destruct (plan_table (cur s) !! os_plan_id sub) as [plan|]; [|by split].
    rewrite bind_raise_if. destruct (negb (sp_is_active plan)); [by split|]. split_and!; [done | done |]. intros Hd.
    apply scalar_Some in Hsub as (k & Hk & Ho). apply (proj1 (eqb_true _ _)) in Ho. specialize (Ht Hd).
    split; [done | split; [done|]]. intros s0 Hs0. cbn [fst] in Hs0. pose proof Ht as (((_ & _ & Hkey) & _) & _). rewrite (Hkey k sub Hk), Hk in Hs0.
    congruence.
  - rewrite bind_get_or. destruct (get_plan "free" (cur s)) as [plan|]; [|by split].
    rewrite bind_now. destruct (month_period (db_now s)) as [start end_]. rewrite bind_fresh_uuid.
    rewrite bind_run. unfold insert_checked. simpl. destruct (dead s) eqn:Hd; [by split|].
    match goal with |- context [new_subscription_ok ?x] => set (sub := x) end.
    destruct (new_subscription_ok sub (cur s)) eqn:Hok; [|by split].
    destruct (holds_put sub (cur s)) as (He & Ho & Hrow); [by apply Ht | done | |].
    + apply andb_true_iff in Hok as [Hf _]. intros s0 Hs0. by rewrite Hs0 in Hf.
    + split_and!; [done | by apply entered_settled | done].
Qed.
Lemma applied custom checkout : ends entered settled (apply_event settings e custom checkout org).
Proof.
  unfold apply_event. apply (ends_bind _ _ (λ a, holds a.1) _ _ ensured). intros [sub old]. cbn [fst].
  apply ends_step; [walk | intros found]. apply ends_step; [walk | intros plan]. apply ends_step; [walk | intros now].
  assert (Hplain : ∀ A (m : DB A), respects (evolves (implied settled)) m → ends (holds sub) settled m).
  { intros A m. apply ends_plain. }
  assert (Hown : respects (evolves (implied settled)) (organization_owner org)) by (unfold organization_owner; walk).
  assert (Hnote : ∀ a, respects (evolves (implied settled)) (create_notification a)).
  { intros a. apply create_notification_evolves; [apply _ | by apply ignores_billing, about_settled]. }
  assert (Hevent : ∀ owner ty descr, respects (evolves (implied settled)) (record_security_event owner ty (Some org) None descr false)).
  { intros. apply record_security_event_evolves; [apply _ | by apply ignores_billing, about_settled]. }
  assert (Hrest : ends (holds sub) settled
    (if existsb (eqb (pe_event_type e)) overdue then
       save_subscription (past_due (now + bs_grace_period_days settings * day) sub) ;;
       owner ← organization_owner org; create_notification (failed_notice owner org (pe_event_id e)) ;; mret BePROCESSED
     else if existsb (eqb (pe_event_type e)) ending then
       free ← get_or (λ t, scalar (λ p, eqb (sp_code p) "free") (plan_table t)) (PyError AttributeError);
       save_subscription (ended (sp_id free) now sub) ;; mret BePROCESSED
     else mret BeIGNORED)).
  { destruct (existsb _ overdue); [|destruct (existsb _ ending)].
    - apply ends_step; [by apply guarded_write; [apply holds_settled | intros t Ht; apply holds_save] | intros _].
      apply Hplain. walk; first [exact Hown | apply Hnote].
    - apply ends_step; [walk | intros free]. apply ends_step; [|intros _; apply Hplain; walk].
      by apply guarded_write; [apply holds_settled | intros t Ht; apply holds_save].
    - apply Hplain. walk. }
  destruct (existsb _ activating); [|exact Hrest]. destruct plan as [plan|]; [|exact Hrest].
  destruct (activated settings e plan now sub) as [s'|x] eqn:Ha; [|intros s (Hc & Hu & _); by split].
  match goal with |- ends _ _ (lift_result (Ok ?x) ≫= ?k) => change (ends (holds sub) settled (k x)); cbv beta end.
  apply ends_step; [apply guarded_insert; [apply holds_settled|] | intros _].
  - intros t _ Ht. apply holds_save; [exact Ht | |]; unfold activated in Ha; repeat case_match; simplify_eq; done.
  - apply Hplain. walk; first [exact Hown | apply Hnote | apply Hevent | idtac].
    apply evolves_write; [apply _|]. intros t Ht. by apply (about_settled t).
Qed.
End event.

Section runs.
Context `{Entropy} `{SecuritySinks} `{PaddleServices} `{Loaders} `{Hmac} `{!SparesBilling}.
(** The organization that an event is about. *)
Definition concerned (e : provider_event) (custom : list (string * pyval)) (t : tables) : option uuid :=
  match checkout_of e t with Some c => Some (bc_organization_id c) | None => named_organization custom end.
Lemma finished settings e t0 org custom id checkout o b : (∀ x, o = Some x → x = org) →
  ends (entered e t0 org) (settled e t0 org) (finish_event settings e custom id checkout o b).
Proof.
  intros Ho. unfold finish_event.
  assert (Hchange : ∀ st now, respects (evolves (implied (settled e t0 org))) (change_event (set_event o st now) id)).
  { intros st now. apply evolves_write; [apply _|]. intros t Ht. by apply change_row. }
  destruct o as [x|]; [|apply ends_plain; walk; apply Hchange]. rewrite (Ho x eq_refl) in *.
  destruct b; [|apply ends_plain; walk; apply Hchange]. apply ends_then; [apply applied | intros st; walk; apply Hchange].
Qed.
Lemma settled_refl e t org : billing_ok t → settled e t org t.
Proof. intros Ht. split; [exact Ht | split; [done | split; [by intros i s | done]]]. Qed.
Lemma entered_row e t org row : billing_ok t → be_provider_event_id row = pe_event_id e → new_event_ok row t = true →
  entered e t org (upd_billing_events <[be_id row := row]> t).
Proof.
  intros (Hid & Huniq & Hsub) He Hok. apply andb_true_iff in Hok as [[Hfree Hnew]%andb_true_iff _].
  assert (Hnone : event_table t !! be_id row = None) by (by destruct (event_table t !! be_id row)).
  assert (Hfresh : ¬ recorded (be_provider_event_id row) t) by (rewrite recorded_by; by destruct (event_by _ t)).
  assert (Hkeep : ∀ k x, event_table t !! k = Some x → event_table (upd_billing_events <[be_id row := row]> t) !! k = Some x).
  { intros k x Hk. unfold event_table. simpl. rewrite lookup_insert_ne; [done|]. intros <-. congruence. }
  split; [|exists (be_id row), row; split; [unfold event_table; simpl; apply lookup_insert_eq | exact He]].
  split; [split; [|split; [|exact Hsub]] | split; [intros x (k & y & Hk & Hy); exists k, y; split; [by apply Hkeep | done] | split; [done|]]].
  - intros k x. unfold event_table. simpl. rewrite lookup_insert_Some. intros [[<- <-]|[_ Hk]]; [done | by apply Hid].
  - intros i j x y. unfold event_table. simpl. rewrite !lookup_insert_Some. intros [[<- <-]|[_ Hx]] [[<- <-]|[_ Hy]] Heq.
    + done.
    + destruct Hfresh. by exists j, y.
    + destruct Hfresh. by exists i, x.
    + by apply (Huniq i j x y).
  - done.
Qed.
(** Without an organization only the row of the event is written. *)
Lemma ignored settings e custom id checkout b :
  respects (evolves (same_view subscription_table)) (finish_event settings e custom id checkout None b).
Proof. unfold finish_event, change_event. walk. by apply evolves_write; [apply _|]. Qed.

Lemma bind_lift_ok {A B} (a : A) (k : A → DB B) s : (lift_result (Ok a) ≫= k) s = k a s.
Proof. reflexivity. Qed.
(** One delivery of an event: nothing happens, or the event was new and is now settled. *)
Lemma processed settings e t n now : billing_ok t →
  let t' := committed (process_event settings e (open_session t n now)).2 in
  t' = t ∨ ¬ recorded (pe_event_id e) t ∧ ∃ custom org, custom_data e = Ok custom ∧ settled e t org t' ∧
    (concerned e custom t = Some org ∨ subscription_table t' = subscription_table t).
Proof.
  intros Ht. unfold process_event. rewrite bind_query. simpl.
  destruct (is_some (event_by (pe_event_id e) t)) eqn:Hrec; [by left|].
  assert (Hnew : ¬ recorded (pe_event_id e) t) by (rewrite recorded_by; congruence).
  destruct (custom_data e) as [custom|x] eqn:Hcustom; [|by left].
  rewrite bind_lift_ok, bind_fresh_uuid, bind_query. cbn [cur open_session next_seed seed].
  set (row := MkBillingEvent (uuid4 n) (named_organization custom) (pe_event_id e) (pe_event_type e) BeIGNORED None).
  destruct (new_event_ok row t) eqn:Hok; [|by left]. cbn [negb].
  rewrite bind_insert; [|done]. cbn [cur open_session next_seed seed]. rewrite Hok, bind_query.
  set (t1 := upd_billing_events <[uuid4 n := row]> t). cbn [cur set_cur].
  change (checkout_of e t1) with (checkout_of e t). right. split; [exact Hnew|]. exists custom.
  fold (concerned e custom t). set (s1 := set_cur t1 _).
  set (org := default 0%N (concerned e custom t)). exists org. split; [done|].
  match goal with |- settled _ _ _ (committed (?m s1).2) ∧ _ => set (rest := m) end.
  assert (Hrow : entered e t org t1) by (by apply (entered_row e t org row)).
  assert (Hends : ends (entered e t org) (settled e t org) rest).
  { apply ends_step; [apply guarded_write; [apply entered_settled|] | intros _; apply ends_step; [walk | intros known]].
    - intros t' [Hs Hr]. split; [by apply change_row | by apply recorded_alter].
    - apply finished. intros x Hx. unfold org. by rewrite Hx. }
  split.
  - apply Hends. split_and!; [by apply settled_refl | by apply entered_settled | done].
  - unfold org. destruct (concerned e custom t) as [o|]; [by left | right].
    assert (Hsame : respects (evolves (same_view subscription_table)) rest).
    { apply respects_bind; [apply _ | unfold change_event; walk; by apply evolves_write; [apply _|] | intros _].
      walk. apply ignored. }
    apply (Hsame s1). reflexivity.
Qed.

(** *** A delivery *)

Context (settings : billing_settings).
Lemma delivered body header t n now : billing_ok t →
  let t' := committed (process_webhook settings body header (open_session t n now)).2 in
  t' = t ∨ ∃ e custom org, signed (bs_webhook_secret settings) body header (bs_webhook_tolerance_seconds settings) now ∧
    parse_event body = Ok e ∧ ¬ recorded (pe_event_id e) t ∧ custom_data e = Ok custom ∧ settled e t org t' ∧
    (concerned e custom t = Some org ∨ subscription_table t' = subscription_table t).
Proof.
  intros Ht. unfold process_webhook. destruct (provider_for settings) as [p|x]; [|by left].
  rewrite bind_lift_ok, bind_now. cbn [db_now open_session].
  destruct (verify_webhook settings body header now) as [valid|x] eqn:Hv; [|by left]. rewrite bind_lift_ok, bind_raise_if.
  destruct valid; [|by left]. cbn [negb]. destruct (parse_event body) as [e|x] eqn:He; [|by left]. rewrite bind_lift_ok.
  destruct (processed settings e t n now Ht) as [Hsame|(Hnew & custom & org & Hc & Hs & Hcase)]; [by left | right].
  exists e, custom, org. split_and!; [by apply verified_signed | done ..].
Qed.
Lemma webhook_committed body header s :
  committed (webhook settings body header s).2 = committed (process_webhook settings body (default "" header) s).2.
Proof.
  unfold webhook, try_except. destruct (process_webhook _ _ _ s) as [[a|e] s']; [done|]. by destruct e.
Qed.
Definition deliver (body : string) (header : option string) (t : tables) (n : nat) (now : time) : tables :=
  (run_request (webhook settings body header) t n now).2.
Lemma deliver_committed body header t n now :
  deliver body header t n now = committed (process_webhook settings body (default "" header) (open_session t n now)).2.
Proof. unfold deliver, run_request. rewrite <- webhook_committed. by destruct (webhook _ _ _ _). Qed.

(** C21. C0: a delivery to the webhook changes subscriptions only when its signature is valid
    and recent, its event was not recorded before and is recorded afterwards, and then only
    the subscription of the organization that its checkout or its custom data names. *)
Theorem billing_change_authentic body header t n now : billing_ok t → subscription_table (deliver body header t n now) ≠ subscription_table t →
  ∃ e custom org,
    signed (bs_webhook_secret settings) body (default "" header) (bs_webhook_tolerance_seconds settings) now ∧
    parse_event body = Ok e ∧ custom_data e = Ok custom ∧ concerned e custom t = Some org ∧
    ¬ recorded (pe_event_id e) t ∧ recorded (pe_event_id e) (deliver body header t n now) ∧
    ∀ i s, os_organization_id s ≠ org → subscription_table t !! i = Some s ↔ subscription_table (deliver body header t n now) !! i = Some s.
Proof.
  intros Ht. rewrite deliver_committed. intros Hdiff.
  destruct (delivered body (default "" header) t n now Ht) as [Hsame|(e & custom & org & Hs & He & Hnew & Hc & Hset & Hcase)];
    [by rewrite Hsame in Hdiff|].
  destruct Hcase as [Hcase|Hsame]; [|done]. exists e, custom, org. destruct Hset as (_ & _ & Hframe & Hbefore).
  split_and!; [done .. | | exact Hframe].
  rewrite recorded_by. destruct (is_some _) eqn:Hr; [done|]. destruct Hdiff. apply Hbefore. rewrite recorded_by. congruence.
Qed.

(** *** Sequences of requests *)

Inductive billing_request : Type :=
  | Deliver (body : string) (header : option string)
  | Plans
  | Checkout (w : WorkspaceContext) (plan_code : string)
  | Portal (w : WorkspaceContext)
  | Cancel (cl : caller) (w : WorkspaceContext)
  | ShowSubscription (w : WorkspaceContext)
  | ShowUsage (w : WorkspaceContext).
Definition discard {A} (m : DB A) : DB unit := m ≫= λ _, mret tt.
Definition serve (r : billing_request) : DB unit :=
  match r with
  | Deliver body header => discard (webhook settings body header)
  | Plans => discard (plans settings)
  | Checkout w code => discard (checkout settings w code)
  | Portal w => discard (portal settings w)
  | Cancel cl w => discard (cancel_subscription settings cl w)
  | ShowSubscription w => discard (subscription w)
  | ShowUsage w => discard (usage w)
  end.
Record arrival : Type := MkArrival { av_request : billing_request; av_seed : nat; av_now : time }.
Definition after (t : tables) (q : arrival) : tables := (run_request (serve (av_request q)) t (av_seed q) (av_now q)).2.
#[export] Instance OrganizationSubscription_eq_dec : EqDecision OrganizationSubscription.
Proof. solve_decision. Defined.
(** The event whose delivery changed a subscription. *)
Definition effect (t : tables) (q : arrival) : option string * tables :=
  let t' := after t q in
  (match av_request q with
   | Deliver body _ =>
       match parse_event body with
       | Ok e => if decide (subscription_table t' = subscription_table t) then None else Some (pe_event_id e)
       | Err _ => None
       end
   | _ => None
   end, t').

Section kept.
Context (t0 : tables).
Definition kept (t : tables) : Prop := billing_ok t ∧ ∀ x, recorded x t0 → recorded x t.
Lemma about_kept : about_billing kept.
Proof. intros t t' He Hs. unfold kept, billing_ok, recorded. by rewrite He, Hs. Qed.
Lemma kept_other f : (∀ t, event_table (f t) = event_table t ∧ subscription_table (f t) = subscription_table t) →
  respects (evolves (implied kept)) (write f).
Proof. intros Hf. apply evolves_write; [apply _|]. intros t Ht. by apply (about_kept t); [apply Hf ..|]. Qed.
Lemma kept_subscription k0 s t : os_id s = k0 → kept t → kept (upd_subscriptions <[k0 := s]> t).
Proof.
  intros Hk0 ((Hid & Huniq & Hsub) & Hgrow). split; [split; [exact Hid | split; [exact Huniq|]] | exact Hgrow].
  intros k x. unfold subscription_table. simpl. rewrite lookup_insert_Some. intros [[<- <-]|[_ Hk]]; [done | by apply Hsub].
Qed.
Lemma kept_ensure org : respects (evolves (implied kept)) (ensure_subscription org).
Proof.
  unfold ensure_subscription. walk; try (destruct (month_period _)); walk;
    (apply evolves_insert; [apply _ | intros t _ Ht; by apply kept_subscription]).
Qed.
Lemma kept_usage org : respects (evolves (implied kept)) (usage_values org).
Proof.
  pose proof (kept_ensure org) as He.
  assert (Hu : respects (evolves (implied kept)) (_usage_record org AUTHORIZATION_REQUESTS)).
  { unfold _usage_record. walk; try (destruct (month_period _)); walk.
    apply evolves_insert; [apply _|]. intros t _ Ht. by apply (about_kept t). }
  unfold usage_values. walk.
Qed.
Lemma kept_prices : respects (evolves (implied kept)) (configure_plan_prices settings).
Proof. unfold configure_plan_prices. walk. apply kept_other. intros t. by split. Qed.
Lemma kept_event u ty org descr : respects (evolves (implied kept)) (record_security_event u ty org None descr false).
Proof. apply record_security_event_evolves; [apply _ | apply ignores_billing, about_kept]. Qed.
Lemma kept_serve q : (∀ body header, q ≠ Deliver body header) → respects (evolves (implied kept)) (serve q).
Proof.
  intros Hq. destruct q as [body header| |w code|w|cl w|w|w]; unfold serve, discard; walk; [by edestruct Hq | | | | | | ].
  - unfold plans, list_plans. walk. apply kept_prices.
  - unfold checkout, _manage, require, _organization, billing_as_http, create_checkout, provider_checkout, text_response.
    walk; first [apply kept_prices | apply kept_event | idtac]. apply evolves_insert; [apply _|]. intros t _ Ht. by apply (about_kept t).
  - unfold portal, _manage, require, _organization, billing_as_http, portal_url, text_response. walk; apply kept_ensure.
  - unfold cancel_subscription, Signing.require_recent_step_up, _organization, cancel, organization_owner, save_subscription.
    walk; first [apply kept_ensure | apply kept_event | idtac].
    + apply evolves_write; [apply _|]. intros t Ht. by apply kept_subscription.
    + apply create_notification_evolves; [apply _ | apply ignores_billing, about_kept].
  - unfold subscription, require, _organization. walk. apply kept_usage.
  - unfold usage, require, _organization. walk. apply kept_usage.
Qed.
End kept.

Lemma after_delivery t body header n now : after t (MkArrival (Deliver body header) n now) = deliver body header t n now.
Proof.
  unfold after, deliver, run_request, serve, discard. simpl. rewrite bind_run. by destruct (webhook _ _ _ _) as [[a|e] s].
Qed.
Lemma delivery_kept body header t n now : billing_ok t → kept t (deliver body header t n now).
Proof.
  intros Ht. rewrite deliver_committed.
  destruct (delivered body (default "" header) t n now Ht) as [->|(e & custom & org & _ & _ & _ & _ & Hset & _)]; [by split|].
  destruct Hset as (Hok & Hgrow & _). by split.
Qed.
Lemma after_kept t q : billing_ok t → kept t (after t q).
Proof.
  intros Ht. destruct q as [r n now]. destruct r as [body header| | | | | |]; [by rewrite after_delivery; apply delivery_kept | ..];
    (unfold after; cbn [av_request av_seed av_now]; apply guarded_run; [|by split]; by apply guarded_evolves, kept_serve).
Qed.

(** The events whose deliveries changed a subscription, in a sequence of requests. *)
Definition effects (t : tables) (l : list arrival) : list (option string) := outcomes_of effect t l.

(** C22. C0: an event of the provider changes a subscription at most once, however often it is
    delivered, in any sequence of requests to the billing routes. *)
Theorem billing_event_once t l x i j : billing_ok t →
  effects t l !! i = Some (Some x) → effects t l !! j = Some (Some x) → i = j.
Proof.
  apply (used_once effect billing_ok recorded).
  - intros u q Hu. apply (after_kept u q Hu).
  - intros u q y Hu Hy. by apply (after_kept u q Hu).
  - intros u q y Hu Hq. unfold effect in Hq. cbn [fst snd effect] in *. destruct q as [r n now]. cbn [av_request] in Hq.
    destruct r as [body header| | | | | |]; try done. rewrite after_delivery in *.
    destruct (parse_event body) as [e|] eqn:He; [|done]. destruct (decide _) as [|Hd]; [done|]. injection Hq as <-.
    rewrite deliver_committed in *.
    destruct (delivered body (default "" header) u n now Hu) as [Hsame|(e' & custom & org & _ & He' & Hnew & _ & Hset & _)];
      [by rewrite Hsame in Hd|].
    rewrite He in He'. injection He' as <-. split; [exact Hnew|]. destruct Hset as (_ & _ & _ & Hbefore).
    rewrite recorded_by. destruct (is_some _) eqn:Hr; [done|]. destruct Hd. apply Hbefore. rewrite recorded_by. congruence.
Qed.
End runs.

(** ** Witnesses and limits *)

Local Existing Instance SocProps.no_services.
Local Existing Instance SocProps.no_ambient.
Local Existing Instance Siem.soc_sinks.
Lemma soc_sinks_spare_billing : SparesBilling.
Proof. intros T HT. apply Siem.soc_sinks_respect; [apply _ | |]; intros f t Ht; by apply (HT t). Defined.

Definition no_paddle : PaddleServices := {| paddle_post _ _ := PaddleError |}.
Definition short_digest : Hmac := {| hmac_sha256 k m := "aa" |}.
Definition event_value (id type : string) (data : list (string * pyval)) : pyval :=
  VDict [("event_id", VStr id); ("event_type", VStr type); ("data", VDict data)].
Definition upgrade_data (org : uuid) : list (string * pyval) :=
  [("id", VStr "sub_1"); ("custom_data", VDict [("organization_id", VStr (uuid_str org)); ("plan_code", VStr "starter")])].
Definition named_bodies : Loaders :=
  {| json_loads body :=
       if eqb body "upgrade" then Ok (event_value "evt_1" "subscription.created" (upgrade_data 50))
       else if eqb body "null period" then
         Ok (event_value "evt_2" "subscription.updated" (("current_billing_period", VNone) :: upgrade_data 50))
       else if eqb body "stranger" then Ok (event_value "evt_3" "subscription.created" (upgrade_data 77))
       else Err "no JSON";
     yaml_safe_load _ := Err "no document"; loaders_hashing := {| sha256_hex s := s |} |}.
Local Existing Instances no_paddle short_digest named_bodies.
Definition test_settings : billing_settings :=
  MkBillingSettings "test" "whsec" 300 7 true (Dec 2900 (-2)) (Dec 14900 (-2)) "" "" "https://sandbox-api.paddle.com" "http://web".
Definition billing_tables : tables :=
  upd_plans (λ _, keyed sp_id [sample_plan None; MkPlan 501 "Starter" "starter" None None None None None None true])
    (account_tables [sample_user 9] [sample_org 50 9] [] []).
Definition fresh_header : option string := Some "ts=3600;h1=aa".
Definition delivery (body : string) (n : nat) : arrival := MkArrival (Deliver body fresh_header) n hour.

Lemma billing_tables_ok : billing_ok billing_tables.
Proof. by split; [|split]. Qed.
Lemma upgrade_changes : subscription_table (deliver test_settings "upgrade" fresh_header billing_tables 0 hour) ≠ subscription_table billing_tables.
Proof.
  intros H. apply (f_equal (λ m : gmap uuid OrganizationSubscription, is_some (head (rows m)))) in H. vm_compute in H. discriminate.
Qed.
Lemma billing_change_authentic_witness :
  ∃ e, parse_event "upgrade" = Ok e ∧ recorded (pe_event_id e) (deliver test_settings "upgrade" fresh_header billing_tables 0 hour).
Proof.
  pose proof soc_sinks_spare_billing.
  destruct (billing_change_authentic test_settings "upgrade" fresh_header billing_tables 0 hour billing_tables_ok upgrade_changes)
    as (e & _ & _ & _ & He & _ & _ & _ & Hr & _).
  by exists e.
Defined.
Lemma billing_event_once_witness :
  effects test_settings billing_tables [delivery "upgrade" 0; delivery "upgrade" 100] = [Some "evt_1"; None] ∧
  ∀ j, effects test_settings billing_tables [delivery "upgrade" 0; delivery "upgrade" 100] !! j = Some (Some "evt_1") → 0%nat = j.
Proof.
  pose proof soc_sinks_spare_billing. assert (Hrun : effects test_settings billing_tables [delivery "upgrade" 0; delivery "upgrade" 100] = [Some "evt_1"; None])
    by (vm_compute; reflexivity).
  split; [exact Hrun|]. intros j. apply (billing_event_once test_settings billing_tables); [exact billing_tables_ok | by rewrite Hrun].
Defined.

(** An event whose billing period is null ends in an exception each time it is delivered. *)
Definition answer (body : string) : result Exc string := (run_request (webhook test_settings body fresh_header) billing_tables 0 hour).1.
Example null_period_fails : answer "null period" = Err (PyError AttributeError).
Proof. vm_compute. reflexivity. Qed.
(** An event for an organization that does not exist is answered as a duplicate, and not
    recorded. *)
Example stranger_is_duplicate : answer "stranger" = Ok "duplicate" ∧
  event_table (deliver test_settings "stranger" fresh_header billing_tables 0 hour) = ∅.
Proof. vm_compute. split; reflexivity. Qed.
(** Cancelling without a paid plan ends in an exception that the handler does not
    translate. *)
Definition owner_caller : caller :=
  MkCaller 9 (Some (MkAuthSession 1 9 "" "password" None (Some hour) "" "" None 0 hour day None)) hour None.
Example free_plan_cancel :
  (run_request (cancel_subscription test_settings owner_caller (MkContext 9 (Some 50%N) OWNER None)) billing_tables 0 hour).1 =
  Err (BillingInputError "The Free plan has no paid subscription to cancel").
Proof. vm_compute. reflexivity. Qed.
End BillingProps.
