(* ===== verification/Credentials.v ===== *)
(** Verifiable credentials and the trust registry
    ([backend/app/services/credential_service.py], the handlers of
    [api/trust_registry.py], the identifiers of [models/trust_registry.py]): issuers and
    their signing keys, issuing, verifying and revoking credentials.

    Ed25519 and the environment are parameters ([IssuerKeys], [Ed25519]).  The directory of
    private keys is a state of its own beside the session, since files are written before the
    commit and stay when it fails.  The public key cache is never filled and left out; the
    text of a library exception inside a message is left out, and a capability list with a
    NaN in it is sorted by its order in the list. *)
From Stdlib Require Import Ascii.
From S2P Require Import Prelude.
From S2P Require Import PyStr.
From S2P Require Import PyFloat.
From S2P Require Import PyVal.
From S2P Require Import PyDecimal.
From S2P Require Import AplParser.
From S2P Require Import Models.
From S2P Require Import IdentityModels.
From S2P Require Import FederationModels.
From S2P Require Import OperationsModels.
From S2P Require Import PyTime.
From S2P Require Import PyCodec.
From S2P Require Import PyNet.
From S2P Require Import Store.
From S2P Require Import Canonical.
From S2P Require Import Workspace.
From S2P Require Import Signing.

Local Open Scope string_scope.
Local Open Scope Z_scope.

Module Credentials.
Import Canonical Workspace Signing.

(** ** Tables *)

Definition upd_issuers f : tables → tables := upd_federation (on_issuers f).
Definition upd_issuer_keys f : tables → tables := upd_federation (on_issuer_keys f).
Definition issuer_table (t : tables) : gmap uuid CredentialIssuer := issuers (federation t).
Definition issuer_key_table (t : tables) : gmap uuid IssuerSigningKey := issuer_keys (federation t).
Definition capability_table (t : tables) : gmap uuid AgentCapability := agent_capabilities (catalog t).

(** [.scalar_one_or_none()] *)
Definition scalar_one_or_none {V} (p : V → bool) (m : gmap uuid V) : result Exc (option V) :=
  match select_rows p m with
  | [] => Ok None
  | [v] => Ok (Some v)
  | _ => Err MultipleResultsFound
  end.
(** [x = db.execute(..).scalar_one_or_none(); if not x: raise e] *)
Definition one_or {V} (p : tables → result Exc (option V)) (e : Exc) : DB V :=
  r ← query p;
  o ← lift_result r;
  match o with Some v => mret v | None => throw e end.

Definition issuer_by (issuer_id : string) (t : tables) : result Exc (option CredentialIssuer) :=
  scalar_one_or_none (λ i, eqb (ci_issuer_id i) issuer_id) (issuer_table t).
Definition active_key (issuer : uuid) (t : tables) : result Exc (option IssuerSigningKey) :=
  scalar_one_or_none (λ k, eqb (ik_issuer_id k) issuer && eqb (ik_status k) "ACTIVE") (issuer_key_table t).
Definition credential_by (credential_id : string) (t : tables) : result Exc (option AgentCredential) :=
  scalar_one_or_none (λ c, eqb (cr_credential_id c) credential_id) (credentials t).

Definition CredentialStatus_value (s : CredentialStatus) : string :=
  match s with CredActive => "ACTIVE" | CredRevoked => "REVOKED" | CredExpired => "EXPIRED" | CredSuspended => "SUSPENDED" end.
Definition CredentialRevocationReason_value (r : CredentialRevocationReason) : string :=
  match r with
  | AGENT_REVOKED => "AGENT_REVOKED" | AGENT_RETIRED => "AGENT_RETIRED" | KEY_COMPROMISED => "KEY_COMPROMISED"
  | CLAIMS_CHANGED => "CLAIMS_CHANGED" | ISSUER_ACTION => "ISSUER_ACTION" | SECURITY_EVENT => "SECURITY_EVENT"
  end.
(** An enumeration member inside an f-string. *)
Definition AgentStatus_text (s : AgentStatus) : string := "AgentStatus." +:+ py_upper (AgentStatus_value s).

(** ** Keys

    The draws of [Ed25519PrivateKey.generate()], the public key and the signatures of a
    private key, and the private key that [ISSUER_KEY_<id>] or [ISSUER_PRIVATE_KEY_PEM]
    holds, if one can be read there. *)
Class IssuerKeys : Type := {
  generate_private_key : nat → string;
  public_bytes_raw : string → string;
  private_sign : string → string → string;
  environment_key : string → option string
}.
Class IssuerKeysLaws `{IssuerKeys} `{Ed25519} : Prop := {
  public_length k : String.length (public_bytes_raw k) = 32%nat;
  public_valid k : ed25519_key (public_bytes_raw k) = true;
  sign_length k m : String.length (private_sign k m) = 64%nat;
  sign_verifies k m : ed25519_verify (public_bytes_raw k) (private_sign k m) m = true
}.

(** What a file of the directory holds. *)
Inductive pem : Type := Ed25519Pem (private : string) | OtherPem.
Definition keystore : Type := gmap string pem.
(** Programs that also use the directory. *)
Abbreviation KDB := (M (keystore * session) Exc).
Definition lift_db {K A} (m : DB A) : M (K * session) Exc A := λ ks, let '(r, s) := m ks.2 in (r, (ks.1, s)).
Definition _store_issuer_private_key (key_id private : string) : KDB unit := λ ks, (Ok tt, (<[key_id := Ed25519Pem private]> ks.1, ks.2)).

Definition cred_error {A} (code message : string) (status : Z) : DB A := throw (CredentialVerificationError message code status).

Section credentials.
Context `{Entropy} `{Loaders} `{IssuerKeys}.

Definition fresh_private_key : DB string := λ s, (Ok (generate_private_key (seed s)), next_seed s).
Definition _load_issuer_private_key (key_id : string) : KDB string := λ ks,
  (match environment_key key_id with
   | Some private => Ok private
   | None =>
       match ks.1 !! key_id with
       | None => Err (CredentialVerificationError ("Private signing key for '" +:+ key_id +:+ "' not found in secure storage.")
           "ISSUER_KEY_NOT_FOUND" 500)
       | Some OtherPem => Err (CredentialVerificationError "Invalid key type in keystore." "INVALID_KEY_TYPE" 500)
       | Some (Ed25519Pem private) => Ok private
       end
   end, ks).

Definition generate_issuer_id : DB string := h ← fresh_hex 8; mret ("iss_" +:+ h).
Definition generate_credential_id : DB string := h ← fresh_hex 12; mret ("cred_" +:+ h).
Definition generate_issuer_key_id : DB string := h ← fresh_hex 8; mret ("iss_key_" +:+ h).

(** ** Issuers and their keys *)

Definition new_issuer_ok (i : CredentialIssuer) (t : tables) : bool :=
  negb (is_some (issuer_table t !! ci_id i)) && negb (is_some (scalar (λ j, eqb (ci_issuer_id j) (ci_issuer_id i)) (issuer_table t))) &&
  is_some (organizations (identity t) !! ci_organization_id i) && fits 32 (ci_issuer_id i) && fits 200 (ci_name i).
Definition new_key_ok (k : IssuerSigningKey) (t : tables) : bool :=
  negb (is_some (issuer_key_table t !! ik_id k)) && negb (is_some (scalar (λ j, eqb (ik_key_id j) (ik_key_id k)) (issuer_key_table t))) &&
  is_some (issuer_table t !! ik_issuer_id k) && fits 64 (ik_key_id k) && fits 64 (ik_fingerprint k).
Definition issuer_key (id : uuid) (key_id : string) (issuer : uuid) (private : string) (now : time) (rotated_from : option string) :
    IssuerSigningKey :=
  let pub_bytes := public_bytes_raw private in
  MkIssuerKey id key_id issuer "Ed25519" (b64encode pub_bytes) (sha256_hex pub_bytes) "ACTIVE" now now None None rotated_from.

(** The new key: its file, then its row and the commit. *)
Definition add_issuer_key (issuer : uuid) (rotated_from : option string) : KDB IssuerSigningKey :=
  key_id ← lift_db generate_issuer_key_id;
  private ← lift_db fresh_private_key;
  _store_issuer_private_key key_id private ;;
  lift_db (
    id ← fresh_uuid;
    now ← now_db;
    let key := issuer_key id key_id issuer private now rotated_from in
    insert_checked (new_key_ok key) (upd_issuer_keys <[id := key]>) ;;
    commit ;;
    mret key).
Definition create_credential_issuer (organization : uuid) (name : string) : KDB (CredentialIssuer * IssuerSigningKey) :=
  issuer ← lift_db (
    get_or (λ t, organizations (identity t) !! organization)
      (CredentialVerificationError "Organization not found." "ORGANIZATION_NOT_FOUND" 404) ;;
    issuer_id ← generate_issuer_id;
    id ← fresh_uuid;
    now ← now_db;
    let issuer := MkIssuer id issuer_id organization name "ACTIVE" now None None in
    insert_checked (new_issuer_ok issuer) (upd_issuers <[id := issuer]>) ;;
    mret issuer);
  signing_key ← add_issuer_key (ci_id issuer) None;
  mret (issuer, signing_key).

Definition set_ik_status (st : string) (revoked : option time) (k : IssuerSigningKey) : IssuerSigningKey :=
  MkIssuerKey (ik_id k) (ik_key_id k) (ik_issuer_id k) (ik_algorithm k) (ik_public_key k) (ik_fingerprint k) st (ik_created_at k)
    (ik_activated_at k) (ik_expires_at k) revoked (ik_rotated_from_key_id k).
Definition retire_key (revoke_old_key : bool) (now : time) (k : IssuerSigningKey) : IssuerSigningKey :=
  if revoke_old_key then set_ik_status "REVOKED" (Some now) k else set_ik_status "ROTATED" (ik_revoked_at k) k.
Definition rotate_issuer_signing_key (issuer_id : string) (revoke_old_key : bool) : KDB IssuerSigningKey :=
  r ← lift_db (
    issuer ← one_or (issuer_by issuer_id) (CredentialVerificationError "Issuer not found." "CREDENTIAL_ISSUER_UNKNOWN" 404);
    raise_if (negb (eqb (ci_status issuer) "ACTIVE"))
      (CredentialVerificationError ("Issuer is " +:+ ci_status issuer +:+ ".") "CREDENTIAL_ISSUER_NOT_ACTIVE" 400) ;;
    now ← now_db;
    found ← query (active_key (ci_id issuer));
    old_key ← lift_result found;
    match old_key with
    | Some k => write (upd_issuer_keys <[ik_id k := retire_key revoke_old_key now k]>)
    | None => mret tt
    end ;;
    mret (ci_id issuer, ik_key_id <$> old_key));
  add_issuer_key r.1 r.2.

(** ** Issuing *)

Definition subject_agent (subject : string) (t : tables) : result Exc (option Agent) :=
  match py_uuid subject ≫= λ id, agents t !! id with
  | Some agent => Ok (Some agent)
  | None => scalar_one_or_none (λ a, eqb (ag_identifier a) subject) (agents t)
  end.
Definition sensitive_claims : list string := ["billing"; "internal_risk"; "api_key"; "secrets"; "user_id"].
Fixpoint add_claims (claims acc : list (string * pyval)) : list (string * pyval) :=
  match claims with
  | [] => acc
  | (k, v) :: claims => add_claims claims (if existsb (eqb k) sensitive_claims then acc else dict_set k v acc)
  end.
Definition identity_claims (agent : Agent) (claims : option (list (string * pyval))) : list (string * pyval) :=
  add_claims (default [] claims) [("organization_membership", VBool true); ("agent_identifier", VStr (ag_identifier agent))].

Definition registered_capabilities (agent : uuid) (t : tables) : list string :=
  let cap_rows := select_rows (λ c, eqb (cb_agent_id c) agent && cb_is_active c) (capability_table t) in
  (map (λ c, cb_name c +:+ "@" +:+ cb_version c) cap_rows ++ map cb_name cap_rows)%list.
Fixpoint check_capabilities (identifier : string) (registered : list string) (caps : list pyval) : result Exc unit :=
  match caps with
  | [] => Ok tt
  | cap :: caps =>
      if eqb registered [] then check_capabilities identifier registered caps
      else if negb (hashable cap) then Err (PyError TypeError)
      else if py_in cap (map VStr registered) then check_capabilities identifier registered caps
      else Err (CredentialVerificationError
        ("Agent '" +:+ identifier +:+ "' is not registered for capability '" +:+ py_str cap +:+ "'.") "CREDENTIAL_CLAIM_INVALID" 400)
  end.
(** [sorted(list(set(l)))] *)
Fixpoint py_distinct (l acc : list pyval) : list pyval :=
  match l with
  | [] => acc
  | v :: l => py_distinct l (if py_in v acc then acc else acc ++ [v])%list
  end.
Definition number_le (a b : pyval) : Prop :=
  match num_of a, num_of b with
  | Some (inl x), Some (inl y) => x <= y
  | Some (inr x), Some (inr y) => f_leb x y = true
  | Some (inl x), Some (inr y) => Z_compare_f x y = Some Lt ∨ Z_compare_f x y = Some Eq
  | Some (inr x), Some (inl y) => Z_compare_f y x = Some Gt ∨ Z_compare_f y x = Some Eq
  | _, _ => False
  end.
#[export] Instance number_le_dec : RelDecision number_le.
Proof. intros a b. unfold number_le. repeat case_match; apply _. Defined.
Definition sorted_set (l : list pyval) : result Exc (list pyval) :=
  if negb (forallb hashable l) then Err (PyError TypeError)
  else
    let l := py_distinct l [] in
    match mapM as_str l with
    | Some ss => Ok (map VStr (sort_strings ss))
    | None =>
        if forallb is_number l then Ok (merge_sort number_le l)
        else if (length l <=? 1)%nat then Ok l else Err (PyError TypeError)
    end.
Definition capability_claims (agent : Agent) (claims : option (list (string * pyval))) (t : tables) :
    result Exc (list (string * pyval)) :=
  let req_caps := default (VList []) (dict_get "capabilities" (default [] claims)) in
  if negb (truthy req_caps) then
    Err (CredentialVerificationError "AgentCapabilityCredential requires non-empty 'capabilities' list." "CREDENTIAL_CLAIM_INVALID" 400)
  else
    match py_iter req_caps with
    | Err e => Err (PyError e)
    | Ok caps =>
        match check_capabilities (ag_identifier agent) (registered_capabilities (ag_id agent) t) caps with
        | Err e => Err e
        | Ok _ => match sorted_set caps with Ok sorted => Ok [("capabilities", VList sorted)] | Err e => Err e end
        end
    end.
(** The days a credential lives and its claims, by its type. *)
Definition prepared_claims (credential_type : string) (agent : Agent) (claims : option (list (string * pyval)))
    (validity_days : option Z) (t : tables) : result Exc (Z * list (string * pyval)) :=
  if eqb credential_type "AgentIdentityCredential" then
    Ok (Z.min (default 30 validity_days) 90, identity_claims agent claims)
  else if eqb credential_type "AgentCapabilityCredential" then
    match capability_claims agent claims t with
    | Ok final => Ok (Z.min (default 7 validity_days) 30, final)
    | Err e => Err e
    end
  else Err (CredentialVerificationError ("Unsupported credential type '" +:+ credential_type +:+ "'.") "CREDENTIAL_SCHEMA_UNSUPPORTED" 400).

(** [build_atc_canonical_bytes]: a text beyond ASCII is a [UnicodeEncodeError]. *)
Definition ascii_bytes (s : string) : result Exc string := if ascii_text s then Ok s else Err (PyError ValueError).

Definition ATC_VERSION : string := "ATC/1.0".
Definition credential_document (credential_id issuer_id organization agent credential_type environment issued not_before expires : string)
    (claims : list (string * pyval)) (key_id signature : string) : list (string * pyval) :=
  [("credential_version", VStr ATC_VERSION); ("credential_id", VStr credential_id); ("credential_type", VStr credential_type);
   ("issuer", VStr issuer_id); ("subject", VDict [("organization_id", VStr organization); ("agent_id", VStr agent)]);
   ("environment", VStr environment); ("issued_at", VStr issued); ("not_before", VStr not_before); ("expires_at", VStr expires);
   ("claims", VDict claims);
   ("proof", VDict [("type", VStr ATC_SIGNING_VERSION); ("algorithm", VStr "Ed25519"); ("key_id", VStr key_id);
                    ("signature", VStr signature)])].
Definition new_credential_ok (c : AgentCredential) (t : tables) : bool :=
  negb (is_some (credentials t !! cr_id c)) && negb (is_some (scalar (λ d, eqb (cr_credential_id d) (cr_credential_id c)) (credentials t))) &&
  is_some (issuer_table t !! cr_issuer_id c) && is_some (agents t !! cr_subject_agent_id c) &&
  is_some (organizations (identity t) !! cr_organization_id c) && fits 64 (cr_credential_type c) && fits 16 (cr_environment c).

(** The issuer, the subject and the key of a new credential. *)
Definition resolve_issue (issuer_id subject : string) : DB (CredentialIssuer * Agent * Organization * IssuerSigningKey) :=
  issuer ← one_or (issuer_by issuer_id)
    (CredentialVerificationError ("Issuer '" +:+ issuer_id +:+ "' not found.") "CREDENTIAL_ISSUER_UNKNOWN" 404);
  raise_if (eqb (ci_status issuer) "SUSPENDED")
    (CredentialVerificationError ("Issuer '" +:+ issuer_id +:+ "' is suspended.") "CREDENTIAL_ISSUER_SUSPENDED" 403) ;;
  raise_if (eqb (ci_status issuer) "REVOKED")
    (CredentialVerificationError ("Issuer '" +:+ issuer_id +:+ "' is revoked.") "CREDENTIAL_ISSUER_REVOKED" 403) ;;
  agent ← one_or (subject_agent subject)
    (CredentialVerificationError ("Subject agent '" +:+ subject +:+ "' not found.") "CREDENTIAL_SUBJECT_INVALID" 404);
  raise_if (negb (eqb (ag_organization_id agent) (Some (ci_organization_id issuer))))
    (CredentialVerificationError ("Issuer '" +:+ issuer_id +:+ "' cannot issue credentials for agent '" +:+ subject +:+
      "' belonging to another organization.") "CREDENTIAL_CLAIM_INVALID" 403) ;;
  raise_if (negb (eqb (ag_status agent) ACTIVE))
    (CredentialVerificationError ("Subject agent '" +:+ subject +:+ "' is not active (status: " +:+ AgentStatus_text (ag_status agent) +:+ ").")
      "CREDENTIAL_SUBJECT_INVALID" 400) ;;
  org ← get_or (λ t, organizations (identity t) !! ci_organization_id issuer) (RaisedRuntimeError "NoResultFound");
  signing_key ← one_or (active_key (ci_id issuer))
    (CredentialVerificationError ("Issuer '" +:+ issuer_id +:+ "' has no active signing key.") "CREDENTIAL_SIGNING_KEY_REVOKED" 500);
  mret (issuer, agent, org, signing_key).
Definition issue_agent_credential (issuer_id subject credential_type : string) (claims : option (list (string * pyval)))
    (validity_days : option Z) (not_before : option time) (environment : string) : KDB (list (string * pyval)) :=
  r ← lift_db (resolve_issue issuer_id subject);
  let '(issuer, agent, org, signing_key) := (r : CredentialIssuer * Agent * Organization * IssuerSigningKey) in
  now ← lift_db now_db;
  prepared ← lift_db (query (prepared_claims credential_type agent claims validity_days));
  p ← lift_result prepared;
  let '(days, final_claims) := (p : Z * list (string * pyval)) in
  let expires_at := now + days * day in
  let issued_at_iso := strftime_z now in
  let expires_at_iso := strftime_z expires_at in
  let not_before_iso := strftime_z (default now not_before) in
  let claims_hash := compute_claims_sha256 (PValue (VDict final_claims)) in
  cred_id ← lift_db generate_credential_id;
  canonical_bytes ← lift_result (ascii_bytes (build_atc_canonical_ascii ATC_VERSION cred_id (ci_issuer_id issuer) (og_name org)
    (ag_identifier agent) credential_type issued_at_iso (Some not_before_iso) expires_at_iso environment claims_hash));
  priv_key ← _load_issuer_private_key (ik_key_id signing_key);
  let sig_b64 := b64encode (private_sign priv_key canonical_bytes) in
  lift_db (
    id ← fresh_uuid;
    let db_cred := MkCredential id cred_id (ci_id issuer) (ag_id agent) (og_id org) credential_type ATC_VERSION environment now
      (Some (default now not_before)) expires_at CredActive (ik_key_id signing_key) (VDict final_claims) claims_hash sig_b64 None None in
    insert_checked (new_credential_ok db_cred) (upd_credentials <[id := db_cred]>) ;;
    commit) ;;
  mret (credential_document cred_id (ci_issuer_id issuer) (og_name org) (ag_identifier agent) credential_type environment
    issued_at_iso not_before_iso expires_at_iso final_claims (ik_key_id signing_key) sig_b64).

(** ** Verification *)

(** [parse_timestamp]: the local time and its offset from UTC; nothing for an exception. *)
Definition parse_timestamp (ts : string) : option (time * Z) :=
  let cleaned := py_strip ts in
  let cleaned := if endswith "Z" cleaned then str_take (String.length cleaned - 1) cleaned +:+ "+00:00" else cleaned in
  '(t, offset) ← fromisoformat_local cleaned; Some (t, default 0 offset).
(** [dt + delta], in UTC: the local time must stay within the years 1 to 9999. *)
Definition first_moment : time := days_from_civil 1 1 1 * day.
Definition last_moment : time := days_from_civil 10000 1 1 * day - 1.
Definition shifted (dt : time * Z) (delta : Z) : option time :=
  let t := dt.1 + delta in
  if (first_moment <=? t) && (t <=? last_moment) then Some (t - dt.2) else None.
Definition moment (v : pyval) (delta : Z) : option time :=
  match v with VStr s => dt ← parse_timestamp s; shifted dt delta | _ => None end.

(** The fields of a presented document. *)
Record envelope : Type := MkEnvelope {
  en_credential_id : pyval; en_credential_type : pyval; en_issuer : pyval; en_organization : pyval; en_agent : pyval;
  en_environment : pyval; en_issued_at : pyval; en_not_before : pyval; en_expires_at : pyval; en_claims : pyval; en_proof : pyval
}.
Definition read_envelope (credential : list (string * pyval)) : result Exc envelope :=
  let version := get "credential_version" credential in
  if negb (py_eq version (VStr ATC_VERSION)) then
    Err (CredentialVerificationError ("Unsupported credential version '" +:+ py_str version +:+ "'. Expected '" +:+ ATC_VERSION +:+ "'.")
      "CREDENTIAL_SCHEMA_UNSUPPORTED" 400)
  else
    match py_or (get "subject" credential) (VDict []) with
    | VDict subject =>
        let e := MkEnvelope (get "credential_id" credential) (get "credential_type" credential) (get "issuer" credential)
          (get "organization_id" subject) (get "agent_id" subject)
          (default (VStr "production") (dict_get "environment" credential)) (get "issued_at" credential)
          (get "not_before" credential) (get "expires_at" credential) (get "claims" credential)
          (py_or (get "proof" credential) (VDict [])) in
        if forallb truthy [en_credential_id e; en_credential_type e; en_issuer e; en_organization e; en_agent e; en_issued_at e;
                           en_expires_at e; en_proof e]
        then Ok e
        else Err (CredentialVerificationError "Malformed credential envelope: missing required fields." "CREDENTIAL_INVALID" 400)
    | _ => Err (PyError AttributeError)
    end.

Definition invalid_timestamp : Exc := CredentialVerificationError "Invalid timestamp in credential: " "CREDENTIAL_INVALID" 400.
Definition check_period (e : envelope) (now : time) : result Exc unit :=
  match moment (en_expires_at e) (30 * second) with
  | None => Err invalid_timestamp
  | Some latest =>
      if latest <? now then
        Err (CredentialVerificationError ("Credential '" +:+ py_str (en_credential_id e) +:+ "' expired at " +:+
          py_str (en_expires_at e) +:+ ".") "CREDENTIAL_EXPIRED" 401)
      else if negb (truthy (en_not_before e)) then Ok tt
      else
        match moment (en_not_before e) (- (30 * second)) with
        | None => Err invalid_timestamp
        | Some earliest =>
            if now <? earliest then
              Err (CredentialVerificationError ("Credential '" +:+ py_str (en_credential_id e) +:+ "' not valid before " +:+
                py_str (en_not_before e) +:+ ".") "CREDENTIAL_NOT_YET_VALID" 401)
            else Ok tt
        end
  end.

(** A value compared with a text column, and one that is asked for [strip]. *)
Definition column_text (v : pyval) : result Exc string :=
  match v with VStr s => Ok s | _ => Err (RaisedRuntimeError "ProgrammingError") end.
Definition strip_text (v : pyval) : result Exc string := match v with VStr s => Ok s | _ => Err (PyError AttributeError) end.

Record credential_proof : Type := MkProof { pf_key_id : pyval; pf_signature : pyval }.
Definition read_proof (e : envelope) : result Exc credential_proof :=
  match en_proof e with
  | VDict proof =>
      if negb (py_eq (get "type" proof) (VStr ATC_SIGNING_VERSION)) || negb (py_eq (get "algorithm" proof) (VStr "Ed25519")) ||
         negb (truthy (get "key_id" proof)) || negb (truthy (get "signature" proof))
      then Err (CredentialVerificationError "Invalid proof structure or unsupported algorithm." "CREDENTIAL_INVALID" 400)
      else Ok (MkProof (get "key_id" proof) (get "signature" proof))
  | _ => Err (PyError AttributeError)
  end.

Definition claims_payload (v : pyval) : payload :=
  match v with VNone => PNone | VStr s => PText s | v => PValue v end.
(** The text that the signature must be of. *)
Definition credential_text (e : envelope) : result Exc string :=
  match mapM as_str [en_credential_id e; en_issuer e; en_organization e; en_agent e; en_credential_type e; en_issued_at e;
                     (if truthy (en_not_before e) then en_not_before e else VStr ""); en_expires_at e; en_environment e] with
  | Some [id; issuer; org; agent; type; issued; not_before; expires; environment] =>
      ascii_bytes (build_atc_canonical_ascii ATC_VERSION id issuer org agent type issued (Some not_before) expires environment
        (compute_claims_sha256 (claims_payload (en_claims e))))
  | _ => Err (PyError AttributeError)
  end.
Context `{Ed25519}.
Definition signature_of_key (key : IssuerSigningKey) (sig_value : pyval) (text : string) : bool :=
  match sig_value with
  | VStr sig_value =>
      match b64decode_lenient (ik_public_key key), b64decode_lenient sig_value with
      | Some raw, Some sig =>
          (String.length raw =? 32)%nat && ed25519_key raw && (String.length sig =? 64)%nat && ed25519_verify raw sig text
      | _, _ => false
      end
  | _ => false
  end.
Definition key_of (key_id : string) (issuer : uuid) (t : tables) : result Exc (option IssuerSigningKey) :=
  scalar_one_or_none (λ k, eqb (ik_key_id k) key_id && eqb (ik_issuer_id k) issuer) (issuer_key_table t).

(** Steps 4 to 6: the issuer, its key, and the signature. *)
Definition check_issuer (e : envelope) : DB CredentialIssuer :=
  issuer_id ← lift_result (column_text (en_issuer e));
  issuer ← one_or (issuer_by issuer_id)
    (CredentialVerificationError ("Issuer '" +:+ issuer_id +:+ "' is unknown in Trust Registry.") "CREDENTIAL_ISSUER_UNKNOWN" 401);
  raise_if (eqb (ci_status issuer) "SUSPENDED")
    (CredentialVerificationError ("Issuer '" +:+ issuer_id +:+ "' is suspended.") "CREDENTIAL_ISSUER_SUSPENDED" 403) ;;
  raise_if (eqb (ci_status issuer) "REVOKED")
    (CredentialVerificationError ("Issuer '" +:+ issuer_id +:+ "' is revoked.") "CREDENTIAL_ISSUER_REVOKED" 403) ;;
  mret issuer.
Definition check_proof (e : envelope) (issuer : CredentialIssuer) : DB unit :=
  proof ← lift_result (read_proof e);
  key_id ← lift_result (column_text (pf_key_id proof));
  signing_key ← one_or (key_of key_id (ci_id issuer))
    (CredentialVerificationError ("Signing key '" +:+ key_id +:+ "' not found for issuer '" +:+ py_str (en_issuer e) +:+ "'.")
      "CREDENTIAL_SIGNING_KEY_REVOKED" 401);
  raise_if (eqb (ik_status signing_key) "REVOKED")
    (CredentialVerificationError ("Signing key '" +:+ key_id +:+ "' has been revoked.") "CREDENTIAL_SIGNING_KEY_REVOKED" 401) ;;
  canonical_bytes ← lift_result (credential_text e);
  raise_if (negb (signature_of_key signing_key (pf_signature proof) canonical_bytes))
    (CredentialVerificationError "Credential Ed25519 cryptographic signature verification failed." "CREDENTIAL_SIGNATURE_INVALID" 401).
(** Step 7: a credential that the registry knows must not be withdrawn there. *)
Definition check_registry (e : envelope) : DB unit :=
  cred_id ← lift_result (column_text (en_credential_id e));
  r ← query (credential_by cred_id);
  db_cred ← lift_result r;
  match db_cred with
  | Some c =>
      raise_if (eqb (cr_status c) CredRevoked)
        (CredentialVerificationError ("Credential '" +:+ cred_id +:+ "' was revoked (reason: " +:+
          default "None" (CredentialRevocationReason_value <$> cr_revocation_reason_code c) +:+ ").") "CREDENTIAL_REVOKED" 401) ;;
      raise_if (eqb (cr_status c) CredExpired)
        (CredentialVerificationError ("Credential '" +:+ cred_id +:+ "' has expired.") "CREDENTIAL_EXPIRED" 401)
  | None => mret tt
  end.
(** Step 8. *)
Definition named_agent (name : string) (t : tables) : result Exc (option Agent) :=
  scalar_one_or_none (λ a, eqb (ag_identifier a) name || eqb (ag_name a) name) (agents t).
Definition check_agent (e : envelope) : DB unit :=
  subj_agt ← lift_result (column_text (en_agent e));
  r ← query (named_agent subj_agt);
  agent ← lift_result r;
  match agent with
  | Some a =>
      raise_if (negb (eqb (ag_status a) ACTIVE))
        (CredentialVerificationError ("Subject agent '" +:+ subj_agt +:+ "' is inactive (status: " +:+ AgentStatus_text (ag_status a) +:+ ").")
          "CREDENTIAL_SUBJECT_INVALID" 403)
  | None => mret tt
  end.
Definition verification_summary (e : envelope) : list (string * pyval) :=
  [("verified", VBool true); ("credential_id", en_credential_id e); ("credential_type", en_credential_type e); ("issuer", en_issuer e);
   ("subject_organization_id", en_organization e); ("subject_agent_id", en_agent e); ("environment", en_environment e);
   ("expires_at", en_expires_at e); ("claims", en_claims e)].
Definition verify_agent_credential (credential : list (string * pyval)) (expected_environment : string) (check_agent_active : bool) :
    DB (list (string * pyval)) :=
  e ← lift_result (read_envelope credential);
  raise_if (py_eq (en_environment e) (VStr "sandbox") && eqb expected_environment "production")
    (CredentialVerificationError "Sandbox credential cannot be presented in a production context." "SANDBOX_CREDENTIAL_IN_PRODUCTION" 403) ;;
  now ← now_db;
  lift_result (check_period e now) ;;
  issuer ← check_issuer e;
  check_proof e issuer ;;
  check_registry e ;;
  (if check_agent_active then check_agent e else mret tt) ;;
  mret (verification_summary e).

Definition revoke_agent_credential (credential_id : string) (reason : CredentialRevocationReason) : DB AgentCredential :=
  cred ← one_or (credential_by credential_id) (CredentialVerificationError "Credential not found." "CREDENTIAL_NOT_FOUND" 404);
  now ← now_db;
  let cred := set_cr_revoked now reason cred in
  write (upd_credentials <[cr_id cred := cred]>) ;;
  commit ;;
  mret cred.

(** ** Handlers ([api/trust_registry.py])

    An error of the service is answered with its status; its code is part of the detail. *)
Definition credential_as_http {A} (m : KDB A) : KDB A :=
  try_except m (λ e, match e with
    | CredentialVerificationError message _ status => throw (HTTPException status message)
    | e => throw e
    end).

Record CredentialIssueRequest : Type := MkIssueRequest {
  ir_agent_id : string;
  ir_credential_type : string;
  ir_claims : option (list (string * pyval));
  ir_validity_days : option Z;
  ir_environment : string
}.
Definition credential_environment (s : string) : bool := eqb s "production" || eqb s "sandbox".
Definition validate_CredentialIssueRequest (p : CredentialIssueRequest) : bool :=
  opt_check (λ d, (1 <=? d) && (d <=? 90)) (ir_validity_days p) && credential_environment (ir_environment p).
Definition revocation_reason (s : string) : option CredentialRevocationReason :=
  find_first (λ r, eqb (CredentialRevocationReason_value r) s)
    [AGENT_REVOKED; KEY_COMPROMISED; CLAIMS_CHANGED; ISSUER_ACTION; SECURITY_EVENT].

(** The routes that work without a session of the caller. *)
Definition verify_credential (credential : list (string * pyval)) (expected_environment : string) : DB (list (string * pyval)) :=
  result ← try_except (verify_agent_credential credential expected_environment true) (λ e, match e with
    | CredentialVerificationError message _ status => throw (HTTPException status message)
    | e => throw e
    end);
  match get "claims" result with VDict _ => mret result | _ => throw (PyError ValueError) end.
Record CredentialStatusResponse : Type := MkStatusResponse {
  cs_credential_id : string; cs_status : string; cs_credential_type : string; cs_environment : string; cs_issued_at : time;
  cs_expires_at : time; cs_revoked_at : option time; cs_revocation_reason_code : option CredentialRevocationReason
}.
Definition status_response (c : AgentCredential) (now : time) : CredentialStatusResponse :=
  let current_status := if eqb (cr_status c) CredActive && (cr_expires_at c <? now) then CredExpired else cr_status c in
  MkStatusResponse (cr_credential_id c) (CredentialStatus_value current_status) (cr_credential_type c) (cr_environment c) (cr_issued_at c)
    (cr_expires_at c) (cr_revoked_at c) (cr_revocation_reason_code c).
Definition get_credential_status (credential_id : string) : DB CredentialStatusResponse :=
  cred ← one_or (credential_by credential_id) (HTTPException 404 ("Credential '" +:+ credential_id +:+ "' not found."));
  now ← now_db;
  mret (status_response cred now).
Definition get_issuer_public_info (issuer_id : string) : DB (CredentialIssuer * list IssuerSigningKey) :=
  issuer ← one_or (issuer_by issuer_id) (HTTPException 404 ("Issuer '" +:+ issuer_id +:+ "' not found."));
  keys ← query (λ t, select_rows (λ k, eqb (ik_issuer_id k) (ci_id issuer)) (issuer_key_table t));
  mret (issuer, keys).

(** The others read the attribute [organization] of the workspace, which
    [organization_context.WorkspaceContext] does not have. *)
Definition workspace_organization (w : WorkspaceContext) : DB Organization := throw (PyError AttributeError).

(** Their bodies, for the organization they mean. *)
Definition issue_credential_in (org : Organization) (payload : CredentialIssueRequest) : KDB (list (string * pyval)) :=
  found ← lift_db (query (λ t, scalar (λ i, eqb (ci_organization_id i) (og_id org) && eqb (ci_status i) "ACTIVE") (issuer_table t)));
  issuer ← match found with
           | Some issuer => mret issuer
           | None => r ← create_credential_issuer (og_id org) (og_name org +:+ " Agent Issuer"); mret r.1
           end;
  credential_as_http (issue_agent_credential (ci_issuer_id issuer) (ir_agent_id payload) (ir_credential_type payload)
    (ir_claims payload) (ir_validity_days payload) None (ir_environment payload)).
Definition revoke_credential_in (org : Organization) (credential_id : string) (reason : CredentialRevocationReason) : DB AgentCredential :=
  one_or (λ t, scalar_one_or_none (λ c, eqb (cr_credential_id c) credential_id && eqb (cr_organization_id c) (og_id org)) (credentials t))
    (HTTPException 404 "Credential not found in this organization.") ;;
  revoke_agent_credential credential_id reason.
Definition list_issuers_in (org : Organization) : DB (list CredentialIssuer) :=
  query (λ t, select_rows (λ i, eqb (ci_organization_id i) (og_id org)) (issuer_table t)).
Definition create_issuer_in (org : Organization) (name : string) : KDB CredentialIssuer :=
  r ← create_credential_issuer (og_id org) name; mret r.1.
Definition issuer_in (org : Organization) (issuer_id : string) : DB CredentialIssuer :=
  one_or (λ t, scalar_one_or_none (λ i, eqb (ci_issuer_id i) issuer_id && eqb (ci_organization_id i) (og_id org)) (issuer_table t))
    (HTTPException 404 "Issuer not found.").
Definition rotate_key_in (org : Organization) (issuer_id : string) (revoke_old_key : bool) : KDB IssuerSigningKey :=
  lift_db (issuer_in org issuer_id) ;;
  credential_as_http (rotate_issuer_signing_key issuer_id revoke_old_key).
Definition set_ci_status (st : string) (suspended revoked : option time) (i : CredentialIssuer) : CredentialIssuer :=
  MkIssuer (ci_id i) (ci_issuer_id i) (ci_organization_id i) (ci_name i) st (ci_created_at i) suspended revoked.
Definition suspend_issuer_in (org : Organization) (issuer_id : string) : DB (string * string * time) :=
  issuer ← issuer_in org issuer_id;
  now ← now_db;
  write (upd_issuers <[ci_id issuer := set_ci_status "SUSPENDED" (Some now) (ci_revoked_at issuer) issuer]>) ;;
  commit ;;
  mret (ci_issuer_id issuer, "SUSPENDED", now).
Definition revoke_issuer_in (org : Organization) (issuer_id : string) : DB (string * string * time) :=
  issuer ← issuer_in org issuer_id;
  now ← now_db;
  write (upd_issuers <[ci_id issuer := set_ci_status "REVOKED" (ci_suspended_at issuer) (Some now) issuer]>) ;;
  commit ;;
  mret (ci_issuer_id issuer, "REVOKED", now).

(** The routes themselves. *)
Definition issue_credential (w : WorkspaceContext) (payload : CredentialIssueRequest) : KDB (list (string * pyval)) :=
  org ← lift_db (workspace_organization w); issue_credential_in org payload.
Definition revoke_credential (w : WorkspaceContext) (credential_id : string) (reason : CredentialRevocationReason) : DB AgentCredential :=
  org ← workspace_organization w; revoke_credential_in org credential_id reason.
Definition list_issuers (w : WorkspaceContext) : DB (list CredentialIssuer) := org ← workspace_organization w; list_issuers_in org.
Definition create_issuer (w : WorkspaceContext) (name : string) : KDB CredentialIssuer :=
  org ← lift_db (workspace_organization w); create_issuer_in org name.
Definition rotate_key (w : WorkspaceContext) (issuer_id : string) (revoke_old_key : bool) : KDB IssuerSigningKey :=
  org ← lift_db (workspace_organization w); rotate_key_in org issuer_id revoke_old_key.
Definition suspend_issuer (w : WorkspaceContext) (issuer_id : string) : DB (string * string * time) :=
  org ← workspace_organization w; suspend_issuer_in org issuer_id.
Definition revoke_issuer (w : WorkspaceContext) (issuer_id : string) : DB (string * string * time) :=
  org ← workspace_organization w; revoke_issuer_in org issuer_id.
(** After the organization, [list_credentials] counts with [func], which the module does not import. *)
Definition list_credentials (w : WorkspaceContext) : DB (list AgentCredential) :=
  workspace_organization w ;; throw (RaisedRuntimeError "NameError").
End credentials.
End Credentials.
