(* ===== verification/CredentialProps.v ===== *)
(** What the trust registry guarantees ([Credentials]): what a verified credential stands
    for, that what is issued verifies, that what is withdrawn never does again, and one
    active key for each issuer. *)
From Stdlib Require Import Ascii.
From S2P Require Import Prelude.
From S2P Require Import PyStr.
From S2P Require Import PyFloat.
From S2P Require Import PyVal.
From S2P Require Import PyDecimal.
From S2P Require Import AplParser.
From S2P Require Import Models.
From S2P Require Import IdentityModels.
From S2P Require Import FederationModels.
From S2P Require Import OperationsModels.
From S2P Require Import PyTime.
From S2P Require Import PyCodec.
From S2P Require Import PyNet.
From S2P Require Import Store.
From S2P Require Import Samples.
From S2P Require Import SecurityEvents.
From S2P Require Import Canonical.
From S2P Require Import Workspace.
From S2P Require Import Signing.
From S2P Require Import Frames.
From S2P Require Import Credentials.

Local Open Scope string_scope.
Local Open Scope Z_scope.

Module CredentialProps.
Import Canonical Workspace Signing Frames Credentials.

(** ** [scalar_one_or_none] *)

#[export] Instance select_where_perm {A} (p : A → bool) : Proper ((≡ₚ) ==> (≡ₚ)) (select_where p).
Proof.
  intros l k H. induction H as [|x l k _ IH|x y l|l k j _ IH1 _ IH2]; simpl; [done | | |by etrans].
  - destruct (p x); [by apply perm_skip | exact IH].
  - destruct (p x), (p y); try done. apply perm_swap.
Qed.

Section one.
Context {V : Type} (p : V → bool) (m : gmap uuid V).
Lemma one_none : scalar_one_or_none p m = Ok None → ∀ k v, m !! k = Some v → p v = false.
Proof.
  unfold scalar_one_or_none. destruct (select_rows p m) as [|v [|w l]] eqn:Hl; [|done..]. intros _ k v Hk.
  destruct (p v) eqn:Hp; [|done]. assert (Hin : v ∈ select_rows p m) by (apply elem_of_select_rows; eauto).
  rewrite Hl in Hin. by apply not_elem_of_nil in Hin.
Qed.
Lemma one_some v : scalar_one_or_none p m = Ok (Some v) →
  (∃ k, m !! k = Some v) ∧ p v = true ∧ ∀ k w, m !! k = Some w → p w = true → w = v.
Proof.
  unfold scalar_one_or_none. destruct (select_rows p m) as [|x [|w l]] eqn:Hl; [done| |done]. intros [= ->].
  assert (Hv : v ∈ select_rows p m) by (rewrite Hl; by left). apply elem_of_select_rows in Hv as [Hv Hp].
  split_and!; [done | done |]. intros k w Hk Hw.
  assert (Hin : w ∈ select_rows p m) by (apply elem_of_select_rows; eauto). rewrite Hl in Hin. by apply list_elem_of_singleton in Hin.
Qed.
Lemma one_unique k v : at_most_one p m → m !! k = Some v → p v = true → scalar_one_or_none p m = Ok (Some v).
Proof.
  intros Hone Hk Hp. unfold scalar_one_or_none.
  assert (Hperm : select_rows p m ≡ₚ select_where p (v :: rows (delete k m))).
  { unfold select_rows, rows. apply select_where_perm. by rewrite <- (map_to_list_delete m k v Hk). }
  assert (Hnil : select_where p (rows (delete k m)) = []).
  { apply select_where_nil. intros w (j & Hj)%elem_of_rows. apply lookup_delete_Some in Hj as [Hne Hj].
    destruct (p w) eqn:Hw; [|done]. by destruct (Hne (Hone k j v w Hk Hj Hp Hw)). }
  assert (Hv : select_where p (v :: rows (delete k m)) = [v]).
  { cbn [select_where]. by rewrite Hp, Hnil. }
  rewrite Hv in Hperm. by apply Permutation_singleton_r in Hperm as ->.
Qed.
Lemma one_empty : (∀ k v, m !! k = Some v → p v = false) → scalar_one_or_none p m = Ok None.
Proof.
  intros H. unfold scalar_one_or_none, select_rows. rewrite (proj2 (select_where_nil p (rows m))); [done|].
  intros v (k & Hk)%elem_of_rows. eauto.
Qed.
End one.

(** ** What a verified credential stands for *)

Section verification.
Context `{Loaders} `{Ed25519}.

Definition in_period (e : envelope) (now : time) : Prop :=
  (∃ latest, moment (en_expires_at e) (30 * second) = Some latest ∧ now <= latest) ∧
  (truthy (en_not_before e) = true → ∃ earliest, moment (en_not_before e) (- (30 * second)) = Some earliest ∧ earliest <= now).
Definition stopped (i : CredentialIssuer) : bool := eqb (ci_status i) "SUSPENDED" || eqb (ci_status i) "REVOKED".
(** The key of an issuer that the proof names made the signature over the document. *)
Definition signed_by (e : envelope) (k : IssuerSigningKey) : Prop :=
  ∃ proof text, read_proof e = Ok proof ∧ pf_key_id proof = VStr (ik_key_id k) ∧ credential_text e = Ok text ∧
    signature_of_key k (pf_signature proof) text = true.
Definition stands (e : envelope) (t : tables) : Prop :=
  ∃ i k x y, en_issuer e = VStr (ci_issuer_id i) ∧ issuer_table t !! x = Some i ∧ stopped i = false ∧
    issuer_key_table t !! y = Some k ∧ ik_issuer_id k = ci_id i ∧ ik_status k ≠ "REVOKED" ∧ signed_by e k.
Definition not_withdrawn (e : envelope) (t : tables) : Prop :=
  ∀ x c, credentials t !! x = Some c → VStr (cr_credential_id c) = en_credential_id e →
    cr_status c ≠ CredRevoked ∧ cr_status c ≠ CredExpired.
Definition subject_active (e : envelope) (t : tables) : Prop :=
  ∀ x a, agents t !! x = Some a → VStr (ag_identifier a) = en_agent e ∨ VStr (ag_name a) = en_agent e → ag_status a = ACTIVE.

Lemma lift_ok_inv {S A} (r : result Exc A) (s s' : S) a : lift_result r s = (Ok a, s') → r = Ok a ∧ s' = s.
Proof. unfold lift_result. by intros [= -> ->]. Qed.
Lemma one_or_Ok {V} (p : tables → result Exc (option V)) e s v s' : one_or p e s = (Ok v, s') → p (cur s) = Ok (Some v) ∧ s' = s.
Proof.
  unfold one_or. rewrite bind_query, bind_run. unfold lift_result. destruct (p (cur s)) as [[w|]|]; [|done..]. by intros [= -> ->].
Qed.
Lemma column_Ok v s : column_text v = Ok s → v = VStr s.
Proof. destruct v; try done. by intros [= ->]. Qed.

Lemma issuer_checked e s i s' : check_issuer e s = (Ok i, s') →
  s' = s ∧ en_issuer e = VStr (ci_issuer_id i) ∧ (∃ x, issuer_table (cur s) !! x = Some i) ∧ stopped i = false.
Proof.
  unfold check_issuer. intros Hr. mrun Hr. apply lift_ok_inv in Hrun as [Hid ->]. mrun Hr. apply one_or_Ok in Hrun as [Hone ->].
  rewrite !bind_raise_if in Hr. destruct (eqb _ "SUSPENDED") eqn:H1; [done|]. destruct (eqb _ "REVOKED") eqn:H2; [done|].
  injection Hr as <- ->. apply one_some in Hone as (Hin & Hp & _). apply (proj1 (eqb_true _ _)) in Hp. apply column_Ok in Hid.
  split_and!; [done | congruence | done | unfold stopped; by rewrite H1, H2].
Qed.
Lemma proof_checked e i s s' : check_proof e i s = (Ok tt, s') →
  s' = s ∧ ∃ k y, issuer_key_table (cur s) !! y = Some k ∧ ik_issuer_id k = ci_id i ∧ ik_status k ≠ "REVOKED" ∧ signed_by e k.
Proof.
  unfold check_proof. intros Hr. mrun Hr. apply lift_ok_inv in Hrun as [Hproof ->]. mrun Hr. apply lift_ok_inv in Hrun as [Hkid ->].
  mrun Hr. apply one_or_Ok in Hrun as [Hone ->]. rewrite bind_raise_if in Hr. destruct (eqb (ik_status _) _) eqn:Hst; [done|].
  mrun Hr. apply lift_ok_inv in Hrun as [Htext ->]. unfold raise_if in Hr. destruct (negb _) eqn:Hsig; [done|]. injection Hr as ->.
  apply one_some in Hone as ((y & Hy) & [Hk Hi]%andb_true_iff & _). apply (proj1 (eqb_true _ _)) in Hk, Hi. apply column_Ok in Hkid.
  apply eqb_false in Hst. apply negb_false_iff in Hsig.
  split; [done|]. eexists _, y. split_and!; [exact Hy | done | done |]. eexists _, _. split_and!; [exact Hproof | congruence | exact Htext | done].
Qed.
Lemma registry_checked e s s' : check_registry e s = (Ok tt, s') → s' = s ∧ not_withdrawn e (cur s).
Proof.
  unfold check_registry. intros Hr. mrun Hr. apply lift_ok_inv in Hrun as [Hid%column_Ok ->]. rewrite bind_query in Hr. mrun Hr.
  apply lift_ok_inv in Hrun as [Hone ->]. unfold not_withdrawn. rewrite Hid. match type of Hone with _ = Ok ?o => destruct o as [c|] end.
  - rewrite bind_raise_if in Hr. destruct (eqb _ CredRevoked) eqn:H1; [done|]. unfold raise_if in Hr.
    destruct (eqb _ CredExpired) eqn:H2; [done|]. injection Hr as ->. split; [done|]. intros x d Hx [= Hd].
    apply one_some in Hone as (_ & _ & Honly). rewrite (Honly x d Hx); [split; by apply eqb_false | by rewrite Hd, eqb_refl].
  - injection Hr as ->. split; [done|]. intros x d Hx [= Hd]. pose proof (one_none _ _ Hone x d Hx) as Hp. cbv beta in Hp.
    by rewrite Hd, eqb_refl in Hp.
Qed.
Lemma agent_checked e s s' : check_agent e s = (Ok tt, s') → s' = s ∧ subject_active e (cur s).
Proof.
  unfold check_agent. intros Hr. mrun Hr. apply lift_ok_inv in Hrun as [Hid%column_Ok ->]. rewrite bind_query in Hr. mrun Hr.
  apply lift_ok_inv in Hrun as [Hone ->]. unfold subject_active. rewrite Hid.
  assert (Hp : ∀ s a, VStr (ag_identifier a) = VStr s ∨ VStr (ag_name a) = VStr s → eqb (ag_identifier a) s || eqb (ag_name a) s = true).
  { intros n ag [[= <-]|[= <-]]; rewrite eqb_refl; [done | apply orb_true_r]. }
  match type of Hone with _ = Ok ?o => destruct o as [c|] end.
  - unfold raise_if in Hr. destruct (negb _) eqn:H1; [done|]. injection Hr as ->. split; [done|]. intros x d Hx Hd%Hp.
    apply one_some in Hone as (_ & _ & Honly). rewrite (Honly x d Hx Hd). apply negb_false_iff in H1. by apply (proj1 (eqb_true _ _)).
  - injection Hr as ->. split; [done|]. intros x d Hx Hd%Hp. pose proof (one_none _ _ Hone x d Hx) as Hn. cbv beta in Hn. congruence.
Qed.
Lemma period_checked e now : check_period e now = Ok tt → in_period e now.
Proof.
  unfold check_period, in_period. destruct (moment (en_expires_at e) _) as [latest|]; [|done]. destruct (latest <? now) eqn:H1; [done|].
  intros Hr. split; [exists latest; split; [done | lia]|]. intros Hnb. rewrite Hnb in Hr. cbn in Hr.
  destruct (moment (en_not_before e) _) as [earliest|]; [|done]. destruct (now <? earliest) eqn:H2; [done|]. exists earliest. split; [done | lia].
Qed.

Definition verified (e : envelope) (expected : string) (active : bool) (t : tables) (now : time) : Prop :=
  ¬ (en_environment e = VStr "sandbox" ∧ expected = "production") ∧ in_period e now ∧ stands e t ∧ not_withdrawn e t ∧
  (active = true → subject_active e t).
Lemma verified_facts credential expected active s r s' : verify_agent_credential credential expected active s = (Ok r, s') →
  s' = s ∧ ∃ e, read_envelope credential = Ok e ∧ r = verification_summary e ∧ verified e expected active (cur s) (db_now s).
Proof.
  unfold verify_agent_credential. intros Hr. mrun Hr. apply lift_ok_inv in Hrun as [He ->]. rewrite bind_raise_if in Hr.
  destruct (py_eq _ _ && _) eqn:Henv; [done|]. rewrite bind_now in Hr. mrun Hr. apply lift_ok_inv in Hrun as [Hper ->].
  match type of Hper with check_period ?e _ = Ok ?u => rename e into env; destruct u end.
  mrun Hr. apply issuer_checked in Hrun as (-> & Hiss & (x & Hx) & Hstop). mrun Hr. match type of Hrun with _ = (Ok ?u, _) => destruct u end.
  apply proof_checked in Hrun as (-> & k & y & Hy & Hki & Hst & Hsig). mrun Hr. match type of Hrun with _ = (Ok ?u, _) => destruct u end.
  apply registry_checked in Hrun as [-> Hreg]. mrun Hr. injection Hr as <- <-.
  assert (Hag : s0 = s ∧ (active = true → subject_active env (cur s))).
  { destruct active; [|by injection Hrun as <-]. match type of Hrun with _ = (Ok ?u, _) => destruct u end.
    apply agent_checked in Hrun as [-> Hag]. done. }
  destruct Hag as [-> Hag]. split; [done|]. exists env. split_and!; [done | done |]. split_and!.
  - intros [Hs Hp]. by rewrite Hs, Hp in Henv.
  - by apply period_checked.
  - eexists _, k, x, y. split_and!; done.
  - done.
  - done.
Qed.

(** C17. C0: a document that verifies is inside its period with thirty seconds of tolerance, names
    an issuer of the registry that is neither suspended nor revoked, carries a signature over
    all its fields and claims under a key of that issuer that is not revoked, is neither
    revoked nor expired in the registry, and, when asked for, no agent it can mean is
    inactive; the answer repeats the signed fields, and nothing is written. *)
Theorem credential_sound credential expected active t n now r t' :
  run_request (verify_agent_credential credential expected active) t n now = (Ok r, t') →
  t' = t ∧ ∃ e, read_envelope credential = Ok e ∧ r = verification_summary e ∧ verified e expected active t now.
Proof.
  unfold run_request. destruct (verify_agent_credential _ _ _ _) as [[a|x] s'] eqn:Hv; [|done]. intros [= -> <-].
  apply verified_facts in Hv as [-> He]. by split.
Qed.
End verification.

(** ** The registry as a state machine *)

Section registry.
Context `{Entropy} `{Loaders} `{IssuerKeys} `{Ed25519}.

(** What one transaction of the registry does to the tables. *)
Inductive registry_step (t : tables) : tables → Prop :=
  | step_create issuer key : new_issuer_ok issuer t = true → ci_status issuer = "ACTIVE" →
      let t1 := upd_issuers <[ci_id issuer := issuer]> t in
      new_key_ok key t1 = true → ik_issuer_id key = ci_id issuer → ik_status key = "ACTIVE" →
      registry_step t (upd_issuer_keys <[ik_id key := key]> t1)
  | step_first issuer key x : issuer_table t !! x = Some issuer → active_key (ci_id issuer) t = Ok None →
      new_key_ok key t = true → ik_issuer_id key = ci_id issuer → ik_status key = "ACTIVE" →
      registry_step t (upd_issuer_keys <[ik_id key := key]> t)
  | step_rotate issuer old key revoke now x : issuer_table t !! x = Some issuer → active_key (ci_id issuer) t = Ok (Some old) →
      let t1 := upd_issuer_keys <[ik_id old := retire_key revoke now old]> t in
      new_key_ok key t1 = true → ik_issuer_id key = ci_id issuer → ik_status key = "ACTIVE" →
      registry_step t (upd_issuer_keys <[ik_id key := key]> t1)
  | step_issue c : new_credential_ok c t = true → cr_status c = CredActive → registry_step t (upd_credentials <[cr_id c := c]> t)
  | step_withdraw c x now reason : credentials t !! x = Some c →
      registry_step t (upd_credentials <[cr_id c := set_cr_revoked now reason c]> t)
  | step_stop i x st suspended revoked : issuer_table t !! x = Some i → st = "SUSPENDED" ∨ st = "REVOKED" →
      registry_step t (upd_issuers <[ci_id i := set_ci_status st suspended revoked i]> t).

(** A program that does such transactions, one after the other. *)
Definition clean (s : session) : Prop := dead s = false ∧ cur s = committed s.
Definition steps {A} (m : KDB A) : Prop := ∀ ks s, clean s →
  rtc registry_step (committed s) (committed (m (ks, s)).2.2) ∧ (is_Ok (m (ks, s)).1 → clean (m (ks, s)).2.2).
Definition db_steps {A} (m : DB A) : Prop := ∀ s, clean s →
  rtc registry_step (committed s) (committed (m s).2) ∧ (is_Ok (m s).1 → clean (m s).2).

Lemma lift_steps {A} (m : DB A) : db_steps m → steps (lift_db m).
Proof. intros Hm ks s Hs. specialize (Hm s Hs). unfold lift_db. simpl. by destruct (m s) as [r s']. Qed.
Lemma steps_bind {A B} (m : KDB A) (f : A → KDB B) : steps m → (∀ a, steps (f a)) → steps (m ≫= f).
Proof.
  intros Hm Hf ks s Hs. rewrite bind_run. destruct (Hm ks s Hs) as [K1 K2]. destruct (m (ks, s)) as [[a|e] [ks' s']]; simpl in *.
  - destruct (Hf a ks' s' (K2 (ex_intro _ a eq_refl))) as [K3 K4]. split; [by etrans | done].
  - split; [done | by intros [? ?]].
Qed.
Lemma steps_http {A} (m : KDB A) : steps m → steps (credential_as_http m).
Proof.
  intros Hm ks s Hs. unfold credential_as_http, try_except. destruct (Hm ks s Hs) as [K1 K2].
  destruct (m (ks, s)) as [[a|e] [ks' s']]; simpl in *; [done|]. destruct e; (split; [exact K1 | by intros [? ?]]).
Qed.
Lemma steps_ret {A} (a : A) : steps (mret a).
Proof. intros ks s Hs. by split. Qed.
Lemma db_steps_read {A} (m : DB A) : (∀ s, (m s).2 = s) → db_steps m.
Proof. intros Hm s Hs. rewrite Hm. by split. Qed.
Lemma load_steps key_id : steps (_load_issuer_private_key key_id).
Proof. intros ks s Hs. by split. Qed.
Lemma lift_result_steps {A} (r : result Exc A) : steps (lift_result r).
Proof. intros ks s Hs. by split. Qed.

(** A new key: its row is committed with what the session held, or nothing is. *)
Lemma add_key_run issuer from ks s : dead s = false →
  (¬ is_Ok (add_issuer_key issuer from (ks, s)).1 ∧ committed (add_issuer_key issuer from (ks, s)).2.2 = committed s) ∨
  ∃ key, new_key_ok key (cur s) = true ∧ ik_issuer_id key = issuer ∧ ik_status key = "ACTIVE" ∧
    committed (add_issuer_key issuer from (ks, s)).2.2 = upd_issuer_keys <[ik_id key := key]> (cur s) ∧
    clean (add_issuer_key issuer from (ks, s)).2.2.
Proof.
  intros Hs.
  set (key := issuer_key (uuid4 (S (S (seed s)))) ("iss_key_" +:+ token_hex 8 (seed s)) issuer (generate_private_key (S (seed s)))
    (db_now s) from).
  assert (Hrun : add_issuer_key issuer from (ks, s) = let '(r, s') := (insert_checked (new_key_ok key) (upd_issuer_keys <[ik_id key := key]>) ;;
    commit ;; mret key) (next_seed (next_seed (next_seed s))) in
    (r, (<[ik_key_id key := Ed25519Pem (generate_private_key (S (seed s)))]> ks, s'))) by reflexivity.
  rewrite Hrun. rewrite bind_insert by done. cbn [cur next_seed]. destruct (new_key_ok key (cur s)) eqn:Hok.
  - right. exists key. by rewrite bind_commit.
  - left. split; [by intros [? ?] | done].
Qed.

Lemma lift_bind {A B} (m : DB A) (k : A → KDB B) ks s : (lift_db m ≫= k) (ks, s) =
  match m s with (Ok a, s') => k a (ks, s') | (Err e, s') => (Err e, (ks, s')) end.
Proof. rewrite bind_run. unfold lift_db. simpl. by destruct (m s) as [[a|e] s']. Qed.
(** The run ends with an exception before it writes anything. *)
Ltac stopped_run := solve [split; [reflexivity | let x := fresh in let Hx := fresh in intros [x Hx]; discriminate Hx]].
Lemma create_steps org name : steps (create_credential_issuer org name).
Proof.
  intros ks s [Hs Hcur]. unfold create_credential_issuer. rewrite lift_bind.
  rewrite bind_get_or. destruct (organizations _ !! org); [|stopped_run].
  unfold generate_issuer_id. rewrite bind_assoc, bind_fresh_hex, bind_ret, bind_fresh_uuid, bind_now.
  set (s1 := next_seed (next_seed s)). set (issuer := MkIssuer _ _ _ _ _ _ _ _).
  rewrite bind_insert by done. change (cur s1) with (cur s). destruct (new_issuer_ok issuer (cur s)) eqn:Hok; [|stopped_run].
  cbn [mret M_ret]. rewrite bind_run. set (s2 := set_cur _ s1).
  destruct (add_key_run (ci_id issuer) None ks s2 Hs) as [[Hno Hsame]|(key & Hkey & Hiss & Hst & Hc & Hclean)];
    destruct (add_issuer_key _ _ (ks, s2)) as [[k|e] [ks' s3]]; cbn [fst snd] in *.
  - by destruct Hno; eexists.
  - rewrite Hsame. by split; [|intros [? ?]].
  - split; [|done]. cbn. rewrite Hc. apply rtc_once. change (cur s2) with (upd_issuers <[ci_id issuer := issuer]> (cur s)) in *.
    rewrite Hcur in *. by apply (step_create _ issuer key).
  - split; [|by intros [? ?]]. rewrite Hc. apply rtc_once. change (cur s2) with (upd_issuers <[ci_id issuer := issuer]> (cur s)) in *.
    rewrite Hcur in *. by apply (step_create _ issuer key).
Qed.
Lemma one_or_run {A V} (p : tables → result Exc (option V)) e (k : V → DB A) s :
  (one_or p e ≫= k) s = match p (cur s) with Ok (Some v) => k v s | Ok None => (Err e, s) | Err x => (Err x, s) end.
Proof. unfold one_or. rewrite bind_assoc, bind_query. by destruct (p (cur s)) as [[v|]|]. Qed.
Lemma rotate_steps issuer_id revoke : steps (rotate_issuer_signing_key issuer_id revoke).
Proof.
  intros ks s [Hs Hcur]. unfold rotate_issuer_signing_key. rewrite lift_bind.
  rewrite one_or_run. destruct (issuer_by issuer_id (cur s)) as [[issuer|]|] eqn:Hi; [|stopped_run..].
  rewrite bind_raise_if. destruct (negb _) eqn:Hst; [stopped_run|]. rewrite bind_now, bind_query.
  apply one_some in Hi as ((x & Hx) & _ & _).
  destruct (active_key (ci_id issuer) (cur s)) as [[old|]|] eqn:Hold; [| |stopped_run].
  - change ((lift_result (Ok (Some old)) ≫= ?k) s) with (k (Some old) s). cbv beta iota. rewrite bind_write by done.
    cbn [mret M_ret]. cbv beta iota. set (s2 := set_cur _ s).
    destruct (add_key_run (ci_id issuer) (Some (ik_key_id old)) ks s2 Hs) as [[Hno Hsame]|(key & Hkey & Hiss & Hact & Hc & Hclean)].
    + cbn [fst snd fmap option_fmap option_map]. rewrite Hsame. by split.
    + cbn [fst snd fmap option_fmap option_map]. rewrite Hc. split; [|done]. apply rtc_once. change (cur s2) with (upd_issuer_keys <[ik_id old := retire_key revoke (db_now s) old]> (cur s)) in *.
      rewrite Hcur in *. by apply (step_rotate _ issuer old key revoke (db_now s) x).
  - change ((lift_result (Ok None) ≫= ?k) s) with (k None s). cbn [mret M_ret]. cbv beta iota. rewrite bind_ret. cbn [mret M_ret].
    destruct (add_key_run (ci_id issuer) None ks s Hs) as [[Hno Hsame]|(key & Hkey & Hiss & Hact & Hc & Hclean)].
    + cbn [fst snd fmap option_fmap option_map]. rewrite Hsame. by split.
    + cbn [fst snd fmap option_fmap option_map]. rewrite Hc. split; [|done]. apply rtc_once. rewrite Hcur in *. by apply (step_first _ issuer key x).
Qed.

(** Reading leaves the session as it is. *)
Definition reads {A} (m : DB A) : Prop := respects (S := session) eq m.
Lemma one_or_reads {V} (p : tables → result Exc (option V)) e : reads (one_or p e).
Proof. unfold reads, one_or. walk. Qed.
Lemma get_or_reads {V} (f : tables → option V) e : reads (get_or f e).
Proof. unfold reads, get_or. walk. Qed.
Lemma resolve_reads issuer_id subject : reads (resolve_issue issuer_id subject).
Proof. unfold reads, resolve_issue. walk; first [apply one_or_reads | apply get_or_reads]. Qed.
Lemma verify_reads credential expected active : reads (verify_agent_credential credential expected active).
Proof.
  unfold reads, verify_agent_credential, check_issuer, check_proof, check_registry, check_agent. walk; first [apply one_or_reads | apply respects_gets, _].
Qed.
Lemma reads_steps {A} (m : DB A) : reads m → db_steps m.
Proof. intros Hm. apply db_steps_read. intros s. symmetry. apply Hm. Qed.

Lemma issue_steps issuer_id subject type claims days nb env : steps (issue_agent_credential issuer_id subject type claims days nb env).
Proof.
  unfold issue_agent_credential. apply steps_bind; [by apply lift_steps, reads_steps, resolve_reads|].
  intros [[[issuer agent] org] key]. apply steps_bind; [by apply lift_steps, db_steps_read|]. intros now.
  apply steps_bind; [by apply lift_steps, db_steps_read|]. intros prepared.
  apply steps_bind; [apply lift_result_steps|]. intros [d final].
  apply steps_bind; [apply lift_steps; intros s Hs; by split|]. intros cred_id.
  apply steps_bind; [apply lift_result_steps|]. intros text. apply steps_bind; [apply load_steps|]. intros private.
  apply steps_bind; [|intros _; apply steps_ret]. apply lift_steps. intros s [Hs Hcur].
  rewrite bind_fresh_uuid. set (c := MkCredential _ _ _ _ _ _ _ _ _ _ _ _ _ _ _ _ _ _). rewrite bind_insert by done.
  change (cur (next_seed s)) with (cur s). destruct (new_credential_ok c (cur s)) eqn:Hok; [|stopped_run].
  unfold commit. cbn [dead set_cur next_seed]. rewrite Hs. split; [|by intros _]. apply rtc_once. cbn. rewrite Hcur in *. by apply (step_issue _ c).
Qed.
Lemma revoke_steps id reason : db_steps (revoke_agent_credential id reason).
Proof.
  intros s [Hs Hcur]. unfold revoke_agent_credential. rewrite one_or_run.
  destruct (credential_by id (cur s)) as [[c|]|] eqn:Hc; [|stopped_run..]. apply one_some in Hc as ((x & Hx) & _ & _).
  rewrite bind_now. rewrite bind_write, bind_commit by done. split; [|intros _; by split].
  apply rtc_once. cbn. rewrite Hcur in *. by apply (step_withdraw _ c x).
Qed.
Lemma stop_steps org issuer_id st susp rev (answer : CredentialIssuer → time → string * string * time) :
  st = "SUSPENDED" ∨ st = "REVOKED" →
  db_steps (issuer ← issuer_in org issuer_id; now ← now_db;
    write (upd_issuers <[ci_id issuer := set_ci_status st (susp issuer now) (rev issuer now) issuer]>) ;; commit ;; mret (answer issuer now)).
Proof.
  intros Hst s [Hs Hcur]. unfold issuer_in. rewrite one_or_run.
  destruct (scalar_one_or_none _ _) as [[i|]|] eqn:Hi; [|stopped_run..]. apply one_some in Hi as ((x & Hx) & _ & _).
  rewrite bind_now. rewrite bind_write, bind_commit by done. split; [|intros _; by split].
  apply rtc_once. cbn. rewrite Hcur in *. by apply (step_stop _ i x).
Qed.

(** *** Requests *)

Inductive registry_request : Type :=
  | IssueIn (org : Organization) (payload : CredentialIssueRequest)
  | Issue (issuer_id subject type : string) (claims : option (list (string * pyval))) (days : option Z) (nb : option time) (env : string)
  | RevokeIn (org : Organization) (credential_id : string) (reason : CredentialRevocationReason)
  | Revoke (credential_id : string) (reason : CredentialRevocationReason)
  | CreateIn (org : Organization) (name : string)
  | RotateIn (org : Organization) (issuer_id : string) (revoke_old_key : bool)
  | Rotate (issuer_id : string) (revoke_old_key : bool)
  | SuspendIn (org : Organization) (issuer_id : string)
  | RevokeIssuerIn (org : Organization) (issuer_id : string)
  | Verify (credential : list (string * pyval)) (expected : string) (active : bool).
Definition perform (r : registry_request) : KDB unit :=
  match r with
  | IssueIn org payload => issue_credential_in org payload ;; mret tt
  | Issue i s ty c d nb env => issue_agent_credential i s ty c d nb env ;; mret tt
  | RevokeIn org id reason => lift_db (revoke_credential_in org id reason) ;; mret tt
  | Revoke id reason => lift_db (revoke_agent_credential id reason) ;; mret tt
  | CreateIn org name => create_issuer_in org name ;; mret tt
  | RotateIn org id revoke => rotate_key_in org id revoke ;; mret tt
  | Rotate id revoke => rotate_issuer_signing_key id revoke ;; mret tt
  | SuspendIn org id => lift_db (suspend_issuer_in org id) ;; mret tt
  | RevokeIssuerIn org id => lift_db (revoke_issuer_in org id) ;; mret tt
  | Verify credential expected active => lift_db (verify_agent_credential credential expected active) ;; mret tt
  end.
Lemma db_steps_bind {A B} (m : DB A) (f : A → DB B) : reads m → (∀ a, db_steps (f a)) → db_steps (m ≫= f).
Proof.
  intros Hm Hf s Hs. rewrite bind_run. specialize (Hm s). destruct (m s) as [[a|e] s']; cbn in Hm; subst s'; [by apply Hf | stopped_run].
Qed.
Lemma perform_steps r : steps (perform r).
Proof.
  assert (Hend : ∀ A (m : KDB A), steps m → steps (m ;; mret tt)) by (intros A m Hm; apply steps_bind; [done | intros _; apply steps_ret]).
  destruct r; apply Hend; try apply lift_steps.
  - apply steps_bind; [by apply lift_steps, db_steps_read|]. intros found. apply steps_bind; [|intros i; apply steps_http, issue_steps].
    destruct found; [apply steps_ret | apply steps_bind; [apply create_steps | intros r; apply steps_ret]].
  - apply issue_steps.
  - apply db_steps_bind; [apply one_or_reads | intros _; apply revoke_steps].
  - apply revoke_steps.
  - apply steps_bind; [apply create_steps | intros x; apply steps_ret].
  - apply steps_bind; [apply lift_steps, reads_steps, one_or_reads | intros _; apply steps_http, rotate_steps].
  - apply rotate_steps.
  - by apply (stop_steps org issuer_id "SUSPENDED" (λ _ now, Some now) (λ i _, ci_revoked_at i) (λ i now, (ci_issuer_id i, "SUSPENDED", now))); left.
  - by apply (stop_steps org issuer_id "REVOKED" (λ i _, ci_suspended_at i) (λ _ now, Some now) (λ i now, (ci_issuer_id i, "REVOKED", now))); right.
  - apply reads_steps, verify_reads.
Qed.

Record arrival : Type := MkArrival { av_request : registry_request; av_seed : nat; av_now : time }.
Definition after (kt : keystore * tables) (a : arrival) : keystore * tables :=
  let '(_, (ks, s)) := perform (av_request a) (kt.1, open_session kt.2 (av_seed a) (av_now a)) in (ks, committed s).
Definition after_all (kt : keystore * tables) (l : list arrival) : keystore * tables := foldl after kt l.
Lemma after_all_steps kt l : rtc registry_step kt.2 (after_all kt l).2.
Proof.
  revert kt. induction l as [|a l IH]; intros kt; simpl; [reflexivity|]. etrans; [|apply IH].
  unfold after. destruct (perform_steps (av_request a) kt.1 (open_session kt.2 (av_seed a) (av_now a))) as [Hs _]; [by split|].
  by destruct (perform _ _) as [r [ks s]].
Qed.

(** *** What is withdrawn stays withdrawn *)

Definition marked (b : bool) : option time := if b then Some 0 else None.
Definition cr_gone (c : AgentCredential) : option time := marked (eqb (cr_status c) CredRevoked).
Definition ik_gone (k : IssuerSigningKey) : option time := marked (eqb (ik_status k) "REVOKED").
Definition ci_gone (i : CredentialIssuer) : option time := marked (stopped i).
(** The primary keys are right, and the public identifiers are unique. *)
Definition registry_ok (t : tables) : Prop :=
  one_time_ok cr_id cr_credential_id (credentials t) ∧ one_time_ok ik_id ik_key_id (issuer_key_table t) ∧
  one_time_ok ci_id ci_issuer_id (issuer_table t).
Definition registry_kept (t t' : tables) : Prop :=
  one_time_step cr_id cr_credential_id cr_gone (credentials t) (credentials t') ∧
  one_time_step ik_id ik_key_id ik_gone (issuer_key_table t) (issuer_key_table t') ∧
  one_time_step ci_id ci_issuer_id ci_gone (issuer_table t) (issuer_table t').
#[export] Instance registry_kept_preorder : PreOrder registry_kept.
Proof. split; [intros t; by split_and! | intros t1 t2 t3 (?&?&?) (?&?&?); split_and!; by etrans]. Qed.

Lemma free_row {V} (o : option V) : negb (is_some o) = true → o = None.
Proof. by destruct o. Qed.
Lemma new_key_free k t : new_key_ok k t = true → issuer_key_table t !! ik_id k = None ∧
  scalar (λ j, eqb (ik_key_id j) (ik_key_id k)) (issuer_key_table t) = None ∧ is_Some (issuer_table t !! ik_issuer_id k).
Proof.
  unfold new_key_ok. rewrite !andb_true_iff. intros [[[[F1%free_row F2%free_row] F3%is_some_true] _] _]. done.
Qed.
Lemma new_issuer_free i t : new_issuer_ok i t = true → issuer_table t !! ci_id i = None ∧
  scalar (λ j, eqb (ci_issuer_id j) (ci_issuer_id i)) (issuer_table t) = None.
Proof. unfold new_issuer_ok. rewrite !andb_true_iff. intros [[[[F1%free_row F2%free_row] _] _] _]. done. Qed.

Lemma step_kept t t' : registry_ok t → registry_step t t' → registry_kept t t'.
Proof.
  intros (Hc & Hk & Hi) Hstep. destruct Hstep as [i k Hnew _ t1 Hkey _ _ | i k x _ _ Hkey _ _ | i old k revoke now x _ Hold t1 Hkey _ _
    | c Hnew _ | c x now reason Hx | i x st susp rev Hx Hst].
  - apply new_issuer_free in Hnew as [F1 F2]. apply new_key_free in Hkey as (F3 & F4 & _).
    split_and!; [reflexivity | by apply one_time_insert | by apply one_time_insert].
  - apply new_key_free in Hkey as (F3 & F4 & _). split_and!; [reflexivity | by apply one_time_insert | reflexivity].
  - apply new_key_free in Hkey as (F3 & F4 & _). apply one_some in Hold as ((y & Hy) & [_ Hst]%andb_true_iff & _).
    split_and!; [reflexivity | | reflexivity]. transitivity (issuer_key_table t1); [|by apply one_time_insert].
    assert (Hsame : ik_id (retire_key revoke now old) = ik_id old) by (by destruct revoke).
    unfold t1, issuer_key_table. cbn. rewrite <- Hsame. apply (one_time_replace _ _ _ _ y old); [done | done | by destruct revoke |].
    unfold ik_gone. apply (proj1 (eqb_true _ _)) in Hst. by rewrite Hst.
  - unfold new_credential_ok in Hnew. rewrite !andb_true_iff in Hnew. destruct Hnew as [[[[[[F1%free_row F2%free_row] _] _] _] _] _].
    split_and!; [by apply one_time_insert | reflexivity | reflexivity].
  - split_and!; [|reflexivity | reflexivity]. by apply (one_time_mark cr_id cr_credential_id cr_gone (credentials t) x c (set_cr_revoked now reason c)).
  - split_and!; [reflexivity | reflexivity |]. apply (one_time_mark ci_id ci_issuer_id ci_gone (issuer_table t) x i (set_ci_status st susp rev i)); [done | done | done |].
    by destruct Hst as [-> | ->].
Qed.
Lemma steps_kept t t' : registry_ok t → rtc registry_step t t' → registry_ok t' ∧ registry_kept t t'.
Proof.
  intros Ht Hsteps. induction Hsteps as [t|t u v Hstep _ IH]; [done|]. pose proof (step_kept t u Ht Hstep) as Hkept.
  destruct IH as [Hv Huv]; [|split; [done | by etrans]]. destruct Ht as (F1 & F2 & F3), Hkept as (K1 & K2 & K3).
  split_and!; [by apply K1 | by apply K2 | by apply K3].
Qed.

(** The document names a revoked credential, a revoked key, or an issuer that was stopped. *)
Definition withdrawn (credential : list (string * pyval)) (t : tables) : Prop :=
  (∃ id, get "credential_id" credential = VStr id ∧ gone cr_credential_id cr_gone id (credentials t)) ∨
  (∃ proof id, get "proof" credential = VDict proof ∧ get "key_id" proof = VStr id ∧ gone ik_key_id ik_gone id (issuer_key_table t)) ∨
  (∃ id, get "issuer" credential = VStr id ∧ gone ci_issuer_id ci_gone id (issuer_table t)).
Lemma marked_true b : is_some (marked b) = true → b = true.
Proof. by destruct b. Qed.
Lemma envelope_fields credential e : read_envelope credential = Ok e →
  en_credential_id e = get "credential_id" credential ∧ en_issuer e = get "issuer" credential ∧
  en_proof e = py_or (get "proof" credential) (VDict []).
Proof.
  unfold read_envelope. destruct (negb _); [done|]. destruct (py_or _ _); try done. cbv zeta. destruct (forallb _ _); [|done].
  by intros [= <-].
Qed.
Lemma withdrawn_refused credential e t : registry_ok t → read_envelope credential = Ok e → withdrawn credential t →
  stands e t → not_withdrawn e t → False.
Proof.
  intros (Hc & Hk & Hi) He Hgone (i & k & x & y & Hiss & Hx & Hstop & Hy & Hki & Hst & proof & text & Hproof & Hkid & _) Hnot.
  apply envelope_fields in He as (Eid & Eiss & Eproof).
  destruct Hgone as [(id & Hid & z & c & Hz & Hname & Hu)|[(pf & id & Hpf & Hid & z & k' & Hz & Hname & Hu)|(id & Hid & z & i' & Hz & Hname & Hu)]];
    apply marked_true in Hu.
  - apply (proj1 (eqb_true _ _)) in Hu. by destruct (Hnot z c Hz) as [Hn _]; [congruence|].
  - apply (proj1 (eqb_true _ _)) in Hu. unfold read_proof in Hproof. rewrite Eproof, Hpf in Hproof.
    unfold py_or in Hproof. destruct (truthy (VDict pf)); [|discriminate]. destruct (_ || _); [discriminate|].
    injection Hproof as <-. cbn in Hkid. rewrite Hid in Hkid. injection Hkid as Hkid.
    destruct Hk as [_ Huniq]. rewrite (Huniq z y k' k Hz Hy) in Hz by congruence. congruence.
  - rewrite Eiss, Hid in Hiss. injection Hiss as Hiss. destruct Hi as [_ Huniq].
    rewrite (Huniq z x i' i Hz Hx) in Hz by congruence. congruence.
Qed.
Lemma gone_kept credential t t' : registry_ok t → registry_kept t t' → withdrawn credential t → withdrawn credential t'.
Proof.
  intros (F1 & F2 & F3) (K1 & K2 & K3) [(id & Hid & Hg)|[(pf & id & Hpf & Hid & Hg)|(id & Hid & Hg)]].
  - left. exists id. split; [done | by apply K1].
  - right. left. exists pf, id. split_and!; [done | done | by apply K2].
  - right. right. exists id. split; [done | by apply K3].
Qed.

(** C18. C0: a document whose credential or key was revoked, or whose issuer was suspended or
    revoked, is never verified again, whatever the registry is asked to do in between. *)
Theorem withdrawn_never_verifies credential kt l n now expected active :
  registry_ok kt.2 → withdrawn credential kt.2 →
  ¬ is_Ok (run_request (verify_agent_credential credential expected active) (after_all kt l).2 n now).1.
Proof.
  intros Ht Hgone. destruct (steps_kept _ _ Ht (after_all_steps kt l)) as [Hok Hkept].
  pose proof (gone_kept _ _ _ Ht Hkept Hgone) as Hlater. unfold run_request. intros [r Hr].
  destruct (verify_agent_credential _ _ _ _) as [r' s'] eqn:Hv. cbn in Hr. subst r'.
  apply verified_facts in Hv as (_ & e & He & _ & _ & _ & Hstands & Hnot & _). by apply (withdrawn_refused credential e (after_all kt l).2).
Qed.

(** *** One active key for each issuer *)

Definition active_of (issuer : uuid) (k : IssuerSigningKey) : bool := eqb (ik_issuer_id k) issuer && eqb (ik_status k) "ACTIVE".
Definition one_key_each (t : tables) : Prop :=
  (∀ x i, issuer_table t !! x = Some i → ci_id i = x ∧ ∃ y k, issuer_key_table t !! y = Some k ∧ active_of x k = true) ∧
  (∀ y k, issuer_key_table t !! y = Some k → ik_id k = y ∧ is_Some (issuer_table t !! ik_issuer_id k)) ∧
  ∀ x, at_most_one (active_of x) (issuer_key_table t).
Lemma active_of_issuer x k : active_of x k = true → ik_issuer_id k = x.
Proof. unfold active_of. intros [F1 _]%andb_true_iff. by apply (proj1 (eqb_true _ _)). Qed.
(** An active key goes to an issuer without one. *)
Lemma add_key_keyed t key : (∀ x i, issuer_table t !! x = Some i → ci_id i = x ∧
    (ik_issuer_id key = x ∨ ∃ y k, issuer_key_table t !! y = Some k ∧ active_of x k = true)) →
  (∀ y k, issuer_key_table t !! y = Some k → ik_id k = y ∧ is_Some (issuer_table t !! ik_issuer_id k)) →
  (∀ x, at_most_one (active_of x) (issuer_key_table t)) →
  new_key_ok key t = true → ik_status key = "ACTIVE" → scalar (active_of (ik_issuer_id key)) (issuer_key_table t) = None →
  one_key_each (upd_issuer_keys <[ik_id key := key]> t).
Proof.
  intros Hi Hk Hone Hnew Hact Hnone. apply new_key_free in Hnew as (Hfree & _ & Hissuer). split_and!.
  - intros x i Hx. destruct (Hi x i Hx) as [Hid Hcase]. split; [done|]. destruct Hcase as [<-|(y & k & Hy & Hp)].
    + exists (ik_id key), key. split; [apply lookup_insert_eq|]. unfold active_of. by rewrite Hact, !eqb_refl.
    + exists y, k. split; [|done]. unfold issuer_key_table. cbn. rewrite lookup_insert_ne; [done|]. intros <-. by rewrite Hfree in Hy.
  - intros y k. unfold issuer_key_table. cbn. rewrite lookup_insert_Some. intros [[<- <-]|[_ Hy]]; [done | by apply Hk].
  - intros x. apply one_insert; [apply Hone|]. intros <-%active_of_issuer. exact Hnone.
Qed.
Lemma stop_keyed t i x st susp rev : one_key_each t → issuer_table t !! x = Some i → one_key_each (upd_issuers <[ci_id i := set_ci_status st susp rev i]> t).
Proof.
  intros (Hi & Hk & Hone) Hx. destruct (Hi x i Hx) as [Hid Hkey]. rewrite Hid. split_and!; [| |exact Hone].
  - intros z j. unfold issuer_table. cbn. rewrite lookup_insert_Some. intros [[<- <-]|[_ Hz]]; [done | by apply Hi].
  - intros y k Hy. destruct (Hk y k Hy) as [Hyid Hiss]. split; [done|]. unfold issuer_table. cbn.
    destruct (decide (x = ik_issuer_id k)) as [->|Hne]; [rewrite lookup_insert_eq; by eexists | by rewrite lookup_insert_ne].
Qed.
Lemma step_keyed t t' : one_key_each t → registry_step t t' → one_key_each t'.
Proof.
  intros (Hi & Hk & Hone) Hstep. destruct Hstep as [i k Hnew _ t1 Hkey Hiss Hact | i k x Hx Hnone Hkey Hiss Hact
    | i old k revoke now x Hx Hold t1 Hkey Hiss Hact | c _ _ | c x now reason _ | i x st susp rev Hx _]; [| | |done|done|by apply (stop_keyed t i x)].
  - apply new_issuer_free in Hnew as [Hfree _].
    assert (Hforeign : ∀ y k', issuer_key_table t !! y = Some k' → ik_issuer_id k' ≠ ci_id i).
    { intros y k' Hy He. destruct (Hk y k' Hy) as [_ [j Hj]]. by rewrite He, Hfree in Hj. }
    apply add_key_keyed; [| |exact Hone | exact Hkey | exact Hact|].
    + intros x j. unfold t1, issuer_table at 1. cbn. rewrite lookup_insert_Some. intros [[<- <-]|[_ Hx]]; [by split; [|left]|].
      destruct (Hi x j Hx) as [Hid Hex]. split; [done | by right].
    + intros y k' Hy. destruct (Hk y k' Hy) as [Hid Hex]. split; [done|]. unfold t1, issuer_table. cbn.
      rewrite lookup_insert_ne; [exact Hex|]. intros He. by apply (Hforeign y k').
    + apply scalar_None. intros y k' Hy. destruct (active_of _ k') eqn:Hp; [|done]. apply active_of_issuer in Hp.
      destruct (Hforeign y k' Hy). congruence.
  - exfalso. destruct (Hi x i Hx) as [<- (y & k' & Hy & Hp)]. pose proof (one_none _ _ Hnone y k' Hy) as Hq. unfold active_of in Hp. congruence.
  - apply one_some in Hold as ((y & Hy) & Hp & _). destruct (Hk y old Hy) as [Hyid Hown].
    set (old' := retire_key revoke now old) in *.
    assert (Hold' : ∀ z, active_of z old' = false) by (intros z; unfold active_of, old'; destruct revoke; apply andb_false_r).
    assert (Hsame : ik_issuer_id old' = ik_issuer_id old ∧ ik_id old' = ik_id old) by (by unfold old'; destruct revoke).
    assert (Hkeys : issuer_key_table t1 = <[ik_id old := old']> (issuer_key_table t)) by reflexivity.
    apply add_key_keyed; [| | |exact Hkey | exact Hact|]; rewrite ?Hkeys.
    + intros z j Hz. destruct (Hi z j Hz) as [Hid (w & k' & Hw & Hpk)]. split; [done|].
      destruct (decide (ci_id i = z)) as [<-|Hne]; [by left|]. right. exists w, k'. split; [|done].
      rewrite lookup_insert_ne; [done|]. intros He. rewrite <- He, Hyid, Hy in Hw. injection Hw as <-.
      apply active_of_issuer in Hpk. apply active_of_issuer in Hp. congruence.
    + intros w k'. rewrite lookup_insert_Some. intros [[<- <-]|[_ Hw]]; [|by apply Hk]. destruct Hsame as [-> ->]. done.
    + intros z. apply one_insert; [apply Hone | by rewrite Hold'].
    + apply scalar_None. intros w k'. rewrite lookup_insert_Some. intros [[_ <-]|[Hne Hw]]; [apply Hold'|]. rewrite Hiss.
      destruct (active_of (ci_id i) k') eqn:Hpk; [|done]. destruct Hne. rewrite Hyid. by apply (Hone (ci_id i) y w old k').
Qed.
Lemma keyed_active t x i : one_key_each t → issuer_table t !! x = Some i → ∃ k, active_key (ci_id i) t = Ok (Some k) ∧ ik_issuer_id k = ci_id i.
Proof.
  intros (Hi & _ & Hone) Hx. destruct (Hi x i Hx) as [-> (y & k & Hy & Hp)]. exists k. split; [|by apply active_of_issuer].
  apply (one_unique (active_of x) _ y); [apply Hone | done | done].
Qed.

(** C0: starting from tables where each issuer has exactly one active key, as it is in an
    empty registry, every issuer has exactly one active key of its own after any sequence
    of requests, so that issuing finds it. *)
Theorem one_active_key kt l x i : one_key_each kt.2 → issuer_table (after_all kt l).2 !! x = Some i →
  ∃ k, active_key (ci_id i) (after_all kt l).2 = Ok (Some k) ∧ ik_issuer_id k = ci_id i.
Proof.
  intros Ht. apply keyed_active. pose proof (after_all_steps kt l) as Hsteps. revert Ht.
  induction Hsteps as [|u v w Huv _ IH]; [done|]. intros Hu. apply IH. by apply (step_keyed u).
Qed.

(** every route of the registry that acts for an organization ends with an
    [AttributeError] and changes neither the tables nor the directory of keys, because the
    workspace has no attribute [organization]. *)
Theorem organization_routes_fail ks t n now w payload id reason name revoke :
  let fails {A} (m : DB A) := run_request m t n now = (Err (PyError AttributeError), t) in
  let kfails {A} (m : KDB A) := (m (ks, open_session t n now)) = (Err (PyError AttributeError), (ks, open_session t n now)) in
  kfails (issue_credential w payload) ∧ fails (revoke_credential w id reason) ∧ fails (list_credentials w) ∧ fails (list_issuers w) ∧
  kfails (create_issuer w name) ∧ kfails (rotate_key w id revoke) ∧ fails (suspend_issuer w id) ∧ fails (revoke_issuer w id).
Proof. cbv zeta. split_and!; reflexivity. Qed.

(** *** What is issued verifies *)

(** The times that [strftime] writes as [fromisoformat] reads them, away from the ends. *)
Definition modern (t : time) : Prop := four_digits t = true ∧ first_moment + minute <= t <= last_moment - minute.
Lemma digit_no_blank c v : digit_val c = Some v → is_space c = false.
Proof. destruct c as [[] [] [] [] [] [] [] []]; vm_compute; done. Qed.
Lemma no_blank_digits s l : digits_of s = Some l → no_blank s = true.
Proof.
  revert l. induction s as [|c s IH]; intros l Hl; [done|]. destruct l as [|v l]; [by apply digits_nil in Hl|].
  apply digits_cons in Hl as (c' & s' & [= <- <-] & Hc & Hs). cbn [no_blank]. by rewrite (IH _ Hs), (digit_no_blank _ _ Hc).
Qed.
Lemma stamp_no_blank t : four_digits t = true → no_blank (stamp t) = true.
Proof.
  unfold four_digits, stamp. pose proof (civil_days (t / day)) as Hc. destruct (civil_from_days (t / day)) as [[y m] d].
  destruct Hc as (_ & Hm & Hd). intros Ht. assert (Hd' : 0 <= d < 100) by (unfold month_days in Hd; repeat case_match; lia).
  assert (Hr : 0 <= t mod day < day) by (apply Z.mod_pos_bound; reflexivity). destruct (clock_of (t mod day) Hr) as [Hhour _].
  pose proof (Z.mod_pos_bound (t mod day / minute) 60 eq_refl). pose proof (Z.mod_pos_bound (t mod day / second) 60 eq_refl).
  assert (Hpad : ∀ n, 0 <= n < 100 → no_blank (pad 2 n) = true) by (intros n Hn; by apply (no_blank_digits _ _ (pad2_ok n Hn))).
  rewrite !no_blank_app, (no_blank_digits _ _ (pad4_ok y ltac:(lia))), !Hpad by lia. reflexivity.
Qed.
Lemma take_app s u : str_take (String.length s) (s +:+ u) = s.
Proof. induction s as [|c s IH]; [by destruct u|]. cbn. f_equal. exact IH. Qed.
Lemma stamp_read t : four_digits t = true → parse_timestamp (strftime_z t) = Some (t / second * second, 0).
Proof.
  intros Ht. unfold parse_timestamp, strftime_z. rewrite strip_no_blank by (by rewrite no_blank_app, stamp_no_blank).
  assert (Hend : endswith "Z" (stamp t +:+ "Z") = true) by (unfold endswith; rewrite str_rev_app; apply prefix_app).
  assert (Hlen : (String.length (stamp t +:+ "Z") - 1)%nat = String.length (stamp t)) by (rewrite String_length_append; change (String.length "Z") with 1%nat; lia).
  rewrite Hend, Hlen, take_app, (local_stamp t Ht). reflexivity.
Qed.
Lemma moment_stamp t delta : modern t → - (30 * second) <= delta <= 30 * second →
  moment (VStr (strftime_z t)) delta = Some (t / second * second + delta).
Proof.
  intros [Ht Hb] Hd. unfold moment. rewrite (stamp_read t Ht). cbn [mbind option_bind]. unfold shifted. cbn [fst snd].
  pose proof (Z.div_mod t second ltac:(done)). pose proof (Z.mod_pos_bound t second eq_refl).
  change minute with (60 * second) in Hb. assert (0 < second) by done.
  replace ((first_moment <=? _) && _) with true by lia. f_equal. lia.
Qed.

Definition lifetime (type : string) (days : option Z) : Z :=
  if eqb type "AgentIdentityCredential" then Z.min (default 30 days) 90 else Z.min (default 7 days) 30.
Lemma prepared_lifetime type agent claims days t d final : prepared_claims type agent claims days t = Ok (d, final) →
  d = lifetime type days ∧ type ≠ "".
Proof.
  unfold prepared_claims, lifetime. destruct (eqb type "AgentIdentityCredential") eqn:H1t.
  - apply (proj1 (eqb_true _ _)) in H1t as ->. by intros [= <- _].
  - destruct (eqb type "AgentCapabilityCredential") eqn:H2t; [|done]. apply (proj1 (eqb_true _ _)) in H2t as ->.
    destruct (capability_claims _ _ _); [|done]. by intros [= <- _].
Qed.
Record resolved (issuer_id subject : string) (t : tables) (i : CredentialIssuer) (a : Agent) (o : Organization) (k : IssuerSigningKey) : Prop := {
  rs_issuer : issuer_by (ci_issuer_id i) t = Ok (Some i);
  rs_stopped : stopped i = false;
  rs_agent : ∃ x, agents t !! x = Some a;
  rs_active : ag_status a = ACTIVE;
  rs_org : organizations (identity t) !! ci_organization_id i = Some o;
  rs_key : ∃ y, issuer_key_table t !! y = Some k ∧ ik_issuer_id k = ci_id i ∧ ik_status k = "ACTIVE"
}.
Lemma subject_row subject t a : subject_agent subject t = Ok (Some a) → ∃ x, agents t !! x = Some a.
Proof.
  unfold subject_agent. destruct (py_uuid subject) as [id|]; cbn [mbind option_bind].
  - destruct (agents t !! id) as [b|] eqn:Hid; [intros [= ->]; by exists id | by intros (Hx & _)%one_some].
  - by intros (Hx & _)%one_some.
Qed.
Lemma resolve_Ok issuer_id subject s i a o k s' : resolve_issue issuer_id subject s = (Ok (i, a, o, k), s') →
  s' = s ∧ resolved issuer_id subject (cur s) i a o k.
Proof.
  unfold resolve_issue. rewrite one_or_run. destruct (issuer_by issuer_id (cur s)) as [[j|]|] eqn:Hi; [|done..].
  rewrite !bind_raise_if. destruct (eqb (ci_status j) "SUSPENDED") eqn:H1s; [done|]. destruct (eqb (ci_status j) "REVOKED") eqn:H2s; [done|].
  rewrite one_or_run. destruct (subject_agent subject (cur s)) as [[b|]|] eqn:Ha; [|done..]. rewrite !bind_raise_if.
  destruct (negb (eqb (ag_organization_id b) _)); [done|]. destruct (negb (eqb (ag_status b) ACTIVE)) eqn:Hact; [done|].
  rewrite bind_get_or. destruct (organizations _ !! _) as [org|] eqn:Horg; [|done]. rewrite one_or_run.
  destruct (active_key (ci_id j) (cur s)) as [[key|]|] eqn:Hk; [|done..]. intros [= -> -> -> -> ->]. split; [done|].
  pose proof (one_some _ _ _ Hi) as (_ & Hid & _). apply (proj1 (eqb_true _ _)) in Hid. subst issuer_id.
  apply one_some in Hk as ((y & Hy) & [Hki Hst]%andb_true_iff & _). apply (proj1 (eqb_true _ _)) in Hki, Hst.
  apply negb_false_iff in Hact. apply (proj1 (eqb_true _ _)) in Hact.
  split; [done | unfold stopped; by rewrite H1s, H2s | by apply (subject_row subject) | done | done | by exists y].
Qed.

(** A successful issue, step by step. *)
Lemma issue_Ok ks s issuer_id subject type claims days nb env doc ks' s' : dead s = false →
  issue_agent_credential issuer_id subject type claims days nb env (ks, s) = (Ok doc, (ks', s')) →
  ∃ i a o k final cred_id text private c, resolved issuer_id subject (cur s) i a o k ∧ type ≠ "" ∧ cred_id ≠ "" ∧
    let stamps := (strftime_z (db_now s), strftime_z (default (db_now s) nb), strftime_z (db_now s + lifetime type days * day)) in
    ascii_bytes (build_atc_canonical_ascii ATC_VERSION cred_id (ci_issuer_id i) (og_name o) (ag_identifier a) type stamps.1.1
      (Some stamps.1.2) stamps.2 env (compute_claims_sha256 (PValue (VDict final)))) = Ok text ∧
    (_load_issuer_private_key (ik_key_id k) (ks, s)).1 = Ok private ∧
    new_credential_ok c (cur s) = true ∧ cr_credential_id c = cred_id ∧ cr_status c = CredActive ∧
    committed s' = upd_credentials <[cr_id c := c]> (cur s) ∧
    doc = credential_document cred_id (ci_issuer_id i) (og_name o) (ag_identifier a) type env stamps.1.1 stamps.1.2 stamps.2 final
      (ik_key_id k) (b64encode (private_sign private text)).
Proof.
  intros Hs. unfold issue_agent_credential. rewrite lift_bind.
  destruct (resolve_issue issuer_id subject s) as [[[[[i a] o] k]|] s1] eqn:Hr; [|done]. apply resolve_Ok in Hr as [-> Hres].
  rewrite !lift_bind. unfold now_db at 1, gets at 1. rewrite lift_bind. unfold query at 1, gets at 1.
  destruct (prepared_claims type a claims days (cur s)) as [[d final]|] eqn:Hp; [|done]. apply prepared_lifetime in Hp as [-> Htype].
  change ((lift_result (Ok (lifetime type days, final)) ≫= ?f) ?x) with (f (lifetime type days, final) x). cbv beta iota zeta.
  unfold generate_credential_id. rewrite lift_bind, bind_fresh_hex. cbn [mret M_ret]. cbv beta iota.
  destruct (ascii_bytes _) as [text|] eqn:Htext; [|done]. rewrite bind_run. unfold lift_result at 1. cbv beta iota.
  rewrite bind_run. destruct (_load_issuer_private_key (ik_key_id k) (ks, next_seed s)) as [[private|] [ks1 s1]] eqn:Hload; [|done].
  injection Hload as Hload <- <-. rewrite lift_bind, bind_fresh_uuid. set (c := MkCredential _ _ _ _ _ _ _ _ _ _ _ _ _ _ _ _ _ _).
  rewrite bind_insert by done. change (cur (next_seed (next_seed s))) with (cur s).
  destruct (new_credential_ok c (cur s)) eqn:Hok; [|done]. unfold commit. cbn [dead set_cur next_seed]. rewrite Hs. intros [= <- _ <-].
  exists i, a, o, k, final, ("cred_" +:+ token_hex 12 (seed s)), text, private, c. cbv zeta. cbn [fst snd].
  split_and!; [exact Hres | exact Htype | discriminate | exact Htext | exact Hload | exact Hok | reflexivity ..].
Qed.

(** *** The document that was issued *)

Lemma strftime_text t : strftime_z t ≠ "".
Proof. unfold strftime_z. intros He. apply (f_equal String.length) in He. rewrite String_length_append in He.
  change (String.length "Z") with 1%nat in He. change (String.length "") with 0%nat in He. lia.
Qed.
Lemma truthy_text s : s ≠ "" → truthy (VStr s) = true.
Proof. intros Hs. simpl. by rewrite (proj2 (eqb_false _ _) Hs). Qed.
Section document.
Context (cred_id issuer_id org agent type env key_id signature : string) (issued nb expires : time) (final : list (string * pyval)).
Definition the_document : list (string * pyval) := credential_document cred_id issuer_id org agent type env (strftime_z issued)
  (strftime_z nb) (strftime_z expires) final key_id signature.
Definition the_proof : pyval :=
  VDict [("type", VStr ATC_SIGNING_VERSION); ("algorithm", VStr "Ed25519"); ("key_id", VStr key_id); ("signature", VStr signature)].
Definition the_envelope : envelope :=
  MkEnvelope (VStr cred_id) (VStr type) (VStr issuer_id) (VStr org) (VStr agent) (VStr env) (VStr (strftime_z issued))
    (VStr (strftime_z nb)) (VStr (strftime_z expires)) (VDict final) the_proof.
Lemma document_read : cred_id ≠ "" → type ≠ "" → issuer_id ≠ "" → org ≠ "" → agent ≠ "" → read_envelope the_document = Ok the_envelope.
Proof.
  intros F1 F2 F3 F4 F5. unfold read_envelope.
  change (get "credential_version" the_document) with (VStr ATC_VERSION).
  change (py_or (get "subject" the_document) (VDict [])) with (VDict [("organization_id", VStr org); ("agent_id", VStr agent)]).
  change (get "organization_id" [("organization_id", VStr org); ("agent_id", VStr agent)]) with (VStr org).
  change (get "agent_id" [("organization_id", VStr org); ("agent_id", VStr agent)]) with (VStr agent).
  change (default (VStr "production") (dict_get "environment" the_document)) with (VStr env).
  change (py_or (get "proof" the_document) (VDict [])) with the_proof.
  change (py_eq (VStr ATC_VERSION) (VStr ATC_VERSION)) with true. cbv beta iota zeta delta [negb].
  match goal with |- context [MkEnvelope ?a ?b ?c ?d ?e ?f ?g ?h ?i ?j ?k] => change (MkEnvelope a b c d e f g h i j k) with the_envelope end.
  unfold the_envelope at 1 2 3 4 5 6 7 8.
  cbn [forallb en_credential_id en_credential_type en_issuer en_organization en_agent en_issued_at en_expires_at en_proof].
  rewrite !truthy_text by first [done | apply strftime_text]. reflexivity.
Qed.
Lemma document_proof : key_id ≠ "" → signature ≠ "" → read_proof the_envelope = Ok (MkProof (VStr key_id) (VStr signature)).
Proof.
  intros F1 F2. unfold read_proof, the_envelope, the_proof. cbn [en_proof].
  match goal with |- context [get "key_id" ?d] => change (get "key_id" d) with (VStr key_id); change (get "signature" d) with (VStr signature);
    change (get "type" d) with (VStr ATC_SIGNING_VERSION); change (get "algorithm" d) with (VStr "Ed25519") end.
  by rewrite !truthy_text.
Qed.
Lemma document_text : credential_text the_envelope = ascii_bytes (build_atc_canonical_ascii ATC_VERSION cred_id issuer_id org agent type
  (strftime_z issued) (Some (strftime_z nb)) (strftime_z expires) env (compute_claims_sha256 (PValue (VDict final)))).
Proof.
  unfold credential_text. cbn [the_envelope en_credential_id en_issuer en_organization en_agent en_credential_type en_issued_at
    en_not_before en_expires_at en_environment en_claims]. rewrite (truthy_text _ (strftime_text nb)). reflexivity.
Qed.
Lemma document_period later : modern nb → modern expires → nb <= later → later <= expires → check_period the_envelope later = Ok tt.
Proof.
  intros Hnb Hexp F1 F2. unfold check_period. cbn [the_envelope en_expires_at en_not_before en_credential_id].
  pose proof (Z.div_mod nb second ltac:(done)). pose proof (Z.mod_pos_bound nb second eq_refl).
  pose proof (Z.div_mod expires second ltac:(done)). pose proof (Z.mod_pos_bound expires second eq_refl).
  assert (0 < second) by done.
  rewrite !moment_stamp by (done || lia). replace (_ <? later) with false by lia.
  rewrite (truthy_text _ (strftime_text nb)). cbn [negb]. by replace (later <? _) with false by lia.
Qed.
End document.
Lemma lift_ok_run {A B} (a : A) (k : A → DB B) s : (lift_result (Ok a) ≫= k) s = k a s.
Proof. reflexivity. Qed.

Context `{!IssuerKeysLaws}.
(** The files of the directory are those of the rows, and no variable overrides them. *)
Definition keys_match (ks : keystore) (t : tables) : Prop := ∀ y k, issuer_key_table t !! y = Some k →
  environment_key (ik_key_id k) = None ∧ ik_key_id k ≠ "" ∧
  ∃ private, ks !! ik_key_id k = Some (Ed25519Pem private) ∧ ik_public_key k = b64encode (public_bytes_raw private).
(** Nothing has an empty name, and no agent is called by the identifier of another. *)
Definition meant (name : string) (a : Agent) : bool := eqb (ag_identifier a) name || eqb (ag_name a) name.
Definition well_named (t : tables) : Prop :=
  (∀ x i, issuer_table t !! x = Some i → ci_issuer_id i ≠ "") ∧ (∀ x o, organizations (identity t) !! x = Some o → og_name o ≠ "") ∧
  ∀ x a, agents t !! x = Some a → ag_identifier a ≠ "" ∧ at_most_one (meant (ag_identifier a)) (agents t).

Lemma issuer_accepted e i s : en_issuer e = VStr (ci_issuer_id i) → issuer_by (ci_issuer_id i) (cur s) = Ok (Some i) → stopped i = false →
  check_issuer e s = (Ok i, s).
Proof.
  intros He Hi Hs. unfold check_issuer. rewrite He. cbn [column_text]. rewrite lift_ok_run, one_or_run, Hi, !bind_raise_if.
  unfold stopped in Hs. apply orb_false_iff in Hs as [-> ->]. reflexivity.
Qed.
Lemma proof_accepted e i k y signature text s : registry_ok (cur s) → issuer_key_table (cur s) !! y = Some k → ik_issuer_id k = ci_id i →
  ik_status k = "ACTIVE" → read_proof e = Ok (MkProof (VStr (ik_key_id k)) signature) → credential_text e = Ok text →
  signature_of_key k signature text = true → check_proof e i s = (Ok tt, s).
Proof.
  intros (_ & [_ Huniq] & _) Hy Hki Hst Hproof Htext Hsig. unfold check_proof. rewrite Hproof, lift_ok_run. cbn [pf_key_id pf_signature column_text].
  rewrite lift_ok_run, one_or_run.
  assert (Hone : key_of (ik_key_id k) (ci_id i) (cur s) = Ok (Some k)).
  { apply (one_unique _ _ y); [|done | by rewrite Hki, !eqb_refl]. intros j1 j2 k1 k2 G1 G2 [P1 _]%andb_true_iff [P2 _]%andb_true_iff.
    apply (proj1 (eqb_true _ _)) in P1, P2. apply (Huniq j1 j2 k1 k2); congruence. }
  rewrite Hone, bind_raise_if, Hst. change (eqb "ACTIVE" "REVOKED") with false. cbv iota. rewrite Htext, lift_ok_run, Hsig. reflexivity.
Qed.
Lemma registry_accepted e c s : registry_ok (cur s) → credentials (cur s) !! cr_id c = Some c →
  en_credential_id e = VStr (cr_credential_id c) → cr_status c = CredActive → check_registry e s = (Ok tt, s).
Proof.
  intros ([_ Huniq] & _ & _) Hc He Hst. unfold check_registry. rewrite He. cbn [column_text]. rewrite lift_ok_run, bind_query.
  assert (Hone : credential_by (cr_credential_id c) (cur s) = Ok (Some c)).
  { apply (one_unique _ _ (cr_id c)); [|done | by rewrite eqb_refl]. intros j1 j2 c1 c2 G1 G2 P1 P2.
    apply (proj1 (eqb_true _ _)) in P1, P2. apply (Huniq j1 j2 c1 c2); congruence. }
  rewrite Hone, lift_ok_run, Hst. reflexivity.
Qed.
Lemma agent_accepted e a x s : agents (cur s) !! x = Some a → at_most_one (meant (ag_identifier a)) (agents (cur s)) →
  en_agent e = VStr (ag_identifier a) → ag_status a = ACTIVE → check_agent e s = (Ok tt, s).
Proof.
  intros Hx Hone He Hst. unfold check_agent. rewrite He. cbn [column_text]. rewrite lift_ok_run, bind_query.
  assert (Hn : named_agent (ag_identifier a) (cur s) = Ok (Some a)) by (apply (one_unique _ _ x); [done | done | by rewrite eqb_refl]).
  rewrite Hn, lift_ok_run, Hst. reflexivity.
Qed.
Lemma made_signature ks s k private text : (_load_issuer_private_key (ik_key_id k) (ks, s)).1 = Ok private →
  environment_key (ik_key_id k) = None → (∃ p, ks !! ik_key_id k = Some (Ed25519Pem p) ∧ ik_public_key k = b64encode (public_bytes_raw p)) →
  signature_of_key k (VStr (b64encode (private_sign private text))) text = true.
Proof.
  intros Hload Henv (p & Hp & Hpub). unfold _load_issuer_private_key in Hload. rewrite Henv in Hload. cbn [fst snd] in Hload.
  rewrite Hp in Hload. injection Hload as ->. unfold signature_of_key. rewrite Hpub, !b64decode_lenient_encode.
  by rewrite public_length, public_valid, sign_length, sign_verifies.
Qed.
Lemma signature_text private text : b64encode (private_sign private text) ≠ "".
Proof.
  intros He. apply (inj b64encode _ "") in He. apply (f_equal String.length) in He. by rewrite sign_length in He.
Qed.

(** C19. C0: a document that was just issued verifies from its start to its end, in every context
    but a sandbox document in production, when the key file is the one of its row, the
    names are not empty, and no other agent is called by the identifier of the subject. *)
Theorem issued_verifies ks t n now issuer_id subject type claims days nb env doc ks' s' later n' expected active :
  issue_agent_credential issuer_id subject type claims days nb env (ks, open_session t n now) = (Ok doc, (ks', s')) →
  registry_ok t → keys_match ks t → well_named t →
  modern (default now nb) → modern (now + lifetime type days * day) →
  default now nb <= later → later <= now + lifetime type days * day → ¬ (env = "sandbox" ∧ expected = "production") →
  ∃ e, read_envelope doc = Ok e ∧
    run_request (verify_agent_credential doc expected active) (committed s') n' later = (Ok (verification_summary e), committed s').
Proof.
  intros Hissue Hok Hmatch (Ni & No & Na) Hnb Hexp Hlate1 Hlate2 Henv.
  pose proof (issue_steps issuer_id subject type claims days nb env ks (open_session t n now) (conj eq_refl eq_refl)) as [Hsteps _].
  rewrite Hissue in Hsteps. cbn [fst snd] in Hsteps. destruct (steps_kept _ _ Hok Hsteps) as [Hok' _].
  apply issue_Ok in Hissue as (i & a & o & k & final & cred_id & text & private & c & Hres & Htype & Hcid & Htext & Hload & Hnew & Hc & Hst & Ht' & Hdoc);
    [|done]. cbn [fst snd cur db_now open_session] in *. destruct Hres as [Ri Rs [x Rx] Ra Ro (y & Ry & Rk & Rst)].
  destruct (Hmatch y k Ry) as (Menv & Mname & Mfile). destruct (Na x a Rx) as [Nid None_]. pose proof (No _ _ Ro) as Norg.
  pose proof (one_some _ _ _ Ri) as ((z & Rz) & _). pose proof (Ni z i Rz) as Niss.
  set (signature := b64encode (private_sign private text)) in *.
  set (e := the_envelope cred_id (ci_issuer_id i) (og_name o) (ag_identifier a) type env (ik_key_id k) signature now (default now nb)
    (now + lifetime type days * day) final).
  assert (Hread : read_envelope doc = Ok e) by (subst doc; by apply document_read).
  exists e. split; [exact Hread|]. rewrite Ht' in *. unfold run_request, verify_agent_credential. rewrite Hread, lift_ok_run, bind_raise_if.
  assert (Hsand : py_eq (en_environment e) (VStr "sandbox") && eqb expected "production" = false).
  { apply not_true_is_false. intros [P1%py_eq_str_r P2]%andb_true_iff. apply (proj1 (eqb_true _ _)) in P2. injection P1 as P1. by apply Henv. }
  assert (Hper : check_period e later = Ok tt) by (by apply document_period).
  rewrite Hsand, bind_now. cbn [db_now open_session]. rewrite Hper, lift_ok_run.
  set (s := open_session _ n' later). rewrite bind_run, (issuer_accepted e i s) by done.
  rewrite bind_run, (proof_accepted e i k y (VStr signature) text s);
    [|done | done | done | done | by apply document_proof, signature_text | by rewrite <- Htext; apply document_text | by apply (made_signature ks (open_session t n now))].
  rewrite bind_run, (registry_accepted e c s); [|done | apply lookup_insert_eq | by rewrite Hc | done].
  destruct active; [|reflexivity]. by rewrite bind_run, (agent_accepted e a x s).
Qed.
End registry.

(** ** Witnesses and limits *)

Definition thirty_two : string := times_of 32 "0".
Definition key_bytes (private : string) : string := str_take 32 (private +:+ thirty_two).
Definition mark_of (raw m : string) : string := str_take 64 (raw +:+ m +:+ thirty_two).
Definition sample_keys : IssuerKeys :=
  {| generate_private_key n := "key" +:+ str_of_nat n; public_bytes_raw := key_bytes;
     private_sign k m := mark_of (key_bytes k) m; environment_key _ := None |}.
Definition sample_ed25519 : Ed25519 :=
  {| ed25519_key raw := true; ed25519_verify raw sig m := eqb sig (mark_of raw m) |}.
Definition no_documents : Loaders :=
  {| json_loads _ := Err "no JSON"; yaml_safe_load _ := Err "no document"; loaders_hashing := plain_hashing |}.
Local Existing Instances no_documents sample_keys sample_ed25519.
Lemma take_length n s : (n ≤ String.length s)%nat → String.length (str_take n s) = n.
Proof. revert s. induction n as [|n IH]; intros [|c s]; cbn; intros Hn; [done | done | lia | f_equal; apply IH; lia]. Qed.
Lemma sample_keys_laws : IssuerKeysLaws.
Proof.
  assert (Hkey : ∀ k, String.length (key_bytes k) = 32%nat).
  { intros k. apply take_length. rewrite String_length_append. change (String.length thirty_two) with 32%nat. lia. }
  split; [exact Hkey | done | |].
  - intros k m. apply take_length. rewrite !String_length_append, Hkey. change (String.length thirty_two) with 32%nat. lia.
  - intros k m. cbn. by rewrite eqb_refl.
Defined.

(** The registry of organization 50 in the year 2024, with one issuer. *)
Definition some_day : time := 20000 * day.
Definition bare_tables : tables :=
  upd_agents (λ _, keyed ag_id [sample_agent 7]) (account_tables [sample_user 9] [sample_org 50 9] [] []).
Definition founded : keystore * tables := after (∅, bare_tables) (MkArrival (CreateIn (sample_org 50 9) "Issuer") 0 some_day).
Definition the_issuer : string := "iss_hex0".
Definition identity_type : string := "AgentIdentityCredential".
Definition issue_now : result Exc (list (string * pyval)) * (keystore * session) :=
  issue_agent_credential the_issuer "agent-7" identity_type None None None "production" (founded.1, open_session founded.2 100 (some_day + hour)).
Definition issued_document : list (string * pyval) := match issue_now.1 with Ok doc => doc | Err _ => [] end.
Definition holding : keystore * tables := (issue_now.2.1, committed issue_now.2.2).
Definition check_document (t : tables) (now : time) : result Exc (list (string * pyval)) * tables :=
  run_request (verify_agent_credential issued_document "production" true) t 200 now.

Lemma issued_here : issue_now = (Ok issued_document, issue_now.2).
Proof. vm_compute. reflexivity. Qed.
Lemma founded_rows : rows (issuer_table founded.2) = [MkIssuer 1001 the_issuer 50 "Issuer" "ACTIVE" some_day None None] ∧
  rows (issuer_key_table founded.2) = [MkIssuerKey 1004 "iss_key_hex2" 1001 "Ed25519" (b64encode (key_bytes "key3")) (key_bytes "key3")
    "ACTIVE" some_day some_day None None None] ∧ founded.1 = {[ "iss_key_hex2" := Ed25519Pem "key3" ]} ∧ rows (credentials founded.2) = [] ∧
  rows (agents founded.2) = [sample_agent 7] ∧ rows (organizations (identity founded.2)) = [sample_org 50 9].
Proof. split_and!; vm_compute; reflexivity. Qed.
Lemma in_rows {V} (m : gmap uuid V) l k v : rows m = l → m !! k = Some v → v ∈ l.
Proof. intros <- Hk. apply elem_of_rows. by exists k. Qed.
Ltac only_row Hrows H := apply (in_rows _ _ _ _ Hrows) in H; apply list_elem_of_singleton in H.
Lemma founded_ok : registry_ok founded.2.
Proof.
  assert (Hempty : registry_ok bare_tables) by (split_and!; (split; [intros k v Hk|intros i j a b Hi]); vm_compute in *; discriminate).
  by apply (steps_kept bare_tables), (after_all_steps (∅, bare_tables) [MkArrival (CreateIn (sample_org 50 9) "Issuer") 0 some_day]).
Qed.
Lemma founded_match : keys_match founded.1 founded.2.
Proof.
  destruct founded_rows as (_ & Hk & Hfiles & _). intros y k Hy. only_row Hk Hy. subst k. split_and!; [done | done |].
  exists "key3". rewrite Hfiles. split; [apply lookup_singleton_eq | done].
Qed.
Lemma founded_named : well_named founded.2.
Proof.
  destruct founded_rows as (Hi & _ & _ & _ & Ha & Ho). split_and!.
  - intros x i Hx. only_row Hi Hx. by subst i.
  - intros x o Hx. only_row Ho Hx. by subst o.
  - assert (Hid : ∀ x a, agents founded.2 !! x = Some a → x = 7%N ∧ a = sample_agent 7).
    { intros x a Hx. change (agents founded.2) with (<[7%N := sample_agent 7]> (∅ : gmap uuid Agent)) in Hx.
      apply lookup_insert_Some in Hx as [[<- <-]|[_ Hx]]; [done | by rewrite lookup_empty in Hx]. }
    intros x a Hx. destruct (Hid x a Hx) as [-> ->]. split; [done|]. intros i j b c Hb Hc _ _.
    destruct (Hid i b Hb) as [-> _]. by destruct (Hid j c Hc) as [-> _].
Qed.
Lemma modern_range t : four_digits t = true → ((first_moment + minute <=? t) && (t <=? last_moment - minute)) = true → modern t.
Proof. intros F1 F2. split; [done | lia]. Qed.

Lemma issued_verifies_witness : check_document holding.2 (some_day + 20 * day) =
  (Ok (match read_envelope issued_document with Ok e => verification_summary e | Err _ => [] end), holding.2).
Proof.
  pose proof sample_keys_laws.
  destruct (issued_verifies founded.1 founded.2 100 (some_day + hour) the_issuer "agent-7" identity_type None None None "production"
    issued_document issue_now.2.1 issue_now.2.2 (some_day + 20 * day) 200 "production" true) as (e & He & Hrun);
    [change issue_now.2 with (issue_now.2) in *; etrans; [exact issued_here | by destruct issue_now as [r [ks s]]] | exact founded_ok | exact founded_match | exact founded_named
    | apply modern_range; vm_compute; reflexivity | apply modern_range; vm_compute; reflexivity | by vm_compute | by vm_compute | by intros [? _] |].
  rewrite He. exact Hrun.
Defined.
Lemma credential_sound_witness : ∃ e, read_envelope issued_document = Ok e ∧ verified e "production" true holding.2 (some_day + 20 * day).
Proof.
  destruct (check_document holding.2 (some_day + 20 * day)) as [[r|x] t'] eqn:Hrun; [|vm_compute in Hrun; discriminate].
  unfold check_document in Hrun. destruct (credential_sound issued_document "production" true holding.2 200 (some_day + 20 * day) r t' Hrun) as (_ & e & He & _ & Hv).
  exists e. split; [exact He | exact Hv].
Defined.

Definition credential_1 : string := "cred_hex100".
Definition revocation : list arrival := [MkArrival (Revoke credential_1 ISSUER_ACTION) 300 (some_day + day)].
Definition revoked_then : keystore * tables := after_all holding revocation.
Lemma revoked_ok : registry_ok revoked_then.2.
Proof.
  assert (Hholding : registry_ok holding.2).
  { apply (steps_kept founded.2 holding.2 founded_ok). unfold holding. cbn [snd]. unfold issue_now.
    destruct (issue_steps the_issuer "agent-7" identity_type None None None "production" founded.1
      (open_session founded.2 100 (some_day + hour)) (conj eq_refl eq_refl)) as [Hs _]. exact Hs. }
  apply (steps_kept holding.2 revoked_then.2 Hholding). unfold revoked_then. apply after_all_steps.
Qed.
Lemma document_withdrawn : withdrawn issued_document revoked_then.2.
Proof.
  left. exists credential_1. split; [vm_compute; reflexivity|].
  destruct (find_first (λ c, eqb (cr_credential_id c) credential_1 && is_some (cr_gone c)) (rows (credentials revoked_then.2))) as [c|] eqn:Hc;
    [|vm_compute in Hc; discriminate].
  apply find_first_Some in Hc as [(k & Hk)%elem_of_rows [Hid Hg]%andb_true_iff]. apply (proj1 (eqb_true _ _)) in Hid.
  exists k, c. split; [exact Hk | split; [exact Hid | exact Hg]].
Qed.
Lemma withdrawn_never_verifies_witness :
  ¬ is_Ok (run_request (verify_agent_credential issued_document "production" true)
    (after_all revoked_then [MkArrival (Rotate the_issuer false) 400 (some_day + 2 * day)]).2 500 (some_day + 3 * day)).1.
Proof.
  exact (withdrawn_never_verifies issued_document revoked_then [MkArrival (Rotate the_issuer false) 400 (some_day + 2 * day)] 500
    (some_day + 3 * day) "production" true revoked_ok document_withdrawn).
Defined.

Definition rotations : list arrival :=
  [MkArrival (CreateIn (sample_org 50 9) "Issuer") 0 some_day; MkArrival (Rotate the_issuer false) 100 (some_day + day);
   MkArrival (Rotate the_issuer true) 200 (some_day + 2 * day)].
Definition key_states (t : tables) : list (string * string) := map (λ k, (ik_key_id k, ik_status k)) (rows (issuer_key_table t)).
Example rotations_run : key_states (after_all (∅, bare_tables) rotations).2 =
  [("iss_key_hex100", "REVOKED"); ("iss_key_hex200", "ACTIVE"); ("iss_key_hex2", "ROTATED")].
Proof. vm_compute. reflexivity. Qed.
Lemma one_active_key_witness : ∃ x i k, issuer_table (after_all (∅, bare_tables) rotations).2 !! x = Some i ∧
  active_key (ci_id i) (after_all (∅, bare_tables) rotations).2 = Ok (Some k).
Proof.
  destruct (head (rows (issuer_table (after_all (∅, bare_tables) rotations).2))) as [i|] eqn:Hi; [|vm_compute in Hi; discriminate].
  assert (Hin : i ∈ rows (issuer_table (after_all (∅, bare_tables) rotations).2)).
  { destruct (rows _) as [|j l]; [done|]. injection Hi as ->. by left. }
  apply elem_of_rows in Hin as [x Hx].
  assert (Hbare : one_key_each bare_tables) by (split_and!; [intros y j Hy | intros y k Hy | intros z y j a b Hy]; vm_compute in Hy; discriminate).
  destruct (one_active_key (∅, bare_tables) rotations x i Hbare Hx) as (k & Hk & _). exists x, i, k. split; [exact Hx | exact Hk].
Defined.

(** An agent that calls itself by the identifier of another blocks the credentials of the other. *)
Definition namesake : Agent :=
  let a := sample_agent 8 in
  {| ag_id := 8%N; ag_created_at := 0; ag_name := "agent-7"; ag_identifier := "agent-8"; ag_environment := ag_environment a;
     ag_owner_id := ag_owner_id a; ag_organization_id := Some 51%N; ag_status := ACTIVE; ag_owner_type := ag_owner_type a;
     ag_purpose := ag_purpose a; ag_risk_classification := ag_risk_classification a; ag_last_activity_at := None;
     ag_last_reviewed_at := None; ag_next_review_due_at := None; ag_certified_until := None;
     ag_certification_status := ag_certification_status a; ag_description := None; ag_team := None; ag_business_function := None;
     ag_business_criticality := ag_business_criticality a; ag_data_classification := ag_data_classification a;
     ag_source := ag_source a; ag_tags := []; ag_expected_actions := []; ag_data_access_description := None |}.
Example namesake_blocks :
  (check_document (upd_agents <[8%N := namesake]> holding.2) (some_day + day)).1 = Err MultipleResultsFound.
Proof. vm_compute. reflexivity. Qed.
(** The claims of a request replace those that the service vouches for. *)
Example claims_replace_identity : identity_claims (sample_agent 7) (Some [("agent_identifier", VStr "agent-8")]) =
  [("organization_membership", VBool true); ("agent_identifier", VStr "agent-8")].
Proof. reflexivity. Qed.
(** Suspending a revoked issuer hides the revocation. *)
Example suspension_hides_revocation :
  map ci_status (rows (issuer_table (after_all founded [MkArrival (RevokeIssuerIn (sample_org 50 9) the_issuer) 10 some_day;
    MkArrival (SuspendIn (sample_org 50 9) the_issuer) 20 some_day]).2)) = ["SUSPENDED"].
Proof. vm_compute. reflexivity. Qed.
End CredentialProps.
