(* ===== verification/GatewayControl.v ===== *)
(** The control plane of the enterprise gateways
    ([backend/app/services/gateway_control_service.py], the handlers of
    [api/enterprise_gateways.py], the identifiers of [models/enterprise_gateway.py]):
    registering and enrolling gateways, their heartbeats, and the signed configuration
    bundles.

    Ed25519 is a parameter ([Ed25519], [IssuerKeys]).  The signing key of the control plane
    lives in the memory of the process, the environment and a file: a state of its own beside
    the session ([cp_store]).  Writing the file does not fail here, and several processes
    that create it at once are left out, as is the text of a library exception inside a
    message. *)
From Stdlib Require Import Ascii.
From S2P Require Import Prelude.
From S2P Require Import PyStr.
From S2P Require Import PyFloat.
From S2P Require Import PyVal.
From S2P Require Import PyDecimal.
From S2P Require Import AplParser.
From S2P Require Import Models.
From S2P Require Import IdentityModels.
From S2P Require Import FederationModels.
From S2P Require Import OperationsModels.
From S2P Require Import PyTime.
From S2P Require Import PyCodec.
From S2P Require Import PyNet.
From S2P Require Import Store.
From S2P Require Import SecurityEvents.
From S2P Require Import Canonical.
From S2P Require Import Workspace.
From S2P Require Import Signing.
From S2P Require Import Lifecycle.
From S2P Require Import Credentials.

Local Open Scope string_scope.
Local Open Scope Z_scope.

Module GatewayControl.
Import Canonical Workspace Signing Lifecycle Credentials.

(** ** Tables *)

Definition upd_gateways f : tables → tables := upd_catalog (on_gateways f).
Definition upd_bundles f : tables → tables := upd_catalog (on_config_bundles f).
Definition gateway_table (t : tables) : gmap uuid EnterpriseGateway := enterprise_gateways (catalog t).
Definition bundle_table (t : tables) : gmap uuid GatewayConfigBundle := gateway_config_bundles (catalog t).

Definition gateway_by (gateway_id : string) (t : tables) : result Exc (option EnterpriseGateway) :=
  scalar_one_or_none (λ g, eqb (gw_gateway_id g) gateway_id) (gateway_table t).
(** [.where(organization_id == .., environment == ..).order_by(config_version.desc())], its first row. *)
Definition bundle_in (org : uuid) (env : string) (b : GatewayConfigBundle) : bool :=
  eqb (gb_organization_id b) org && eqb (gb_environment b) env.
Definition version_ge (a b : GatewayConfigBundle) : Prop := gb_config_version b <= gb_config_version a.
#[export] Instance version_ge_dec : RelDecision version_ge.
Proof. intros a b. unfold version_ge. apply _. Defined.
Definition bundles_of (org : uuid) (env : string) (t : tables) : list GatewayConfigBundle :=
  merge_sort version_ge (select_rows (bundle_in org env) (bundle_table t)).
Definition latest_bundle (org : uuid) (env : string) (t : tables) : option GatewayConfigBundle := head (bundles_of org env t).
Definition latest_version (org : uuid) (env : string) (t : tables) : Z :=
  match latest_bundle org env t with Some b => gb_config_version b | None => 0 end.

(** A 32-bit column. *)
Definition int_column (z : Z) : bool := (- 2 ^ 31 <=? z) && (z <? 2 ^ 31).
Definition gateway_fits (g : EnterpriseGateway) : bool :=
  fits 64 (gw_gateway_id g) && fits 128 (gw_name g) && fits 32 (gw_deployment_type g) && fits 32 (gw_environment g) &&
  fits 32 (gw_status g) && fits 32 (gw_version g) && opt_check (fits 64) (gw_public_key g) && opt_check (fits 64) (gw_fingerprint g) &&
  opt_check (fits 64) (gw_enrollment_token_hash g) && int_column (gw_config_version g) && fits 32 (gw_offline_policy g).
Definition new_gateway_ok (g : EnterpriseGateway) (t : tables) : bool :=
  negb (is_some (gateway_table t !! gw_id g)) &&
  negb (is_some (scalar (λ h, eqb (gw_gateway_id h) (gw_gateway_id g)) (gateway_table t))) &&
  is_some (organizations (identity t) !! gw_organization_id g) && gateway_fits g.
Definition save_gateway (g : EnterpriseGateway) : DB unit := insert_checked (λ _, gateway_fits g) (upd_gateways <[gw_id g := g]>).
(** The unique index is over the organization and the version. *)
Definition new_bundle_ok (b : GatewayConfigBundle) (t : tables) : bool :=
  negb (is_some (bundle_table t !! gb_id b)) &&
  negb (is_some (scalar (λ c, eqb (gb_organization_id c) (gb_organization_id b) && eqb (gb_config_version c) (gb_config_version b)) (bundle_table t))) &&
  is_some (organizations (identity t) !! gb_organization_id b) &&
  opt_check (λ u, is_some (users (identity t) !! u)) (gb_published_by_user_id b) &&
  fits 32 (gb_environment b) && int_column (gb_config_version b) && fits 64 (gb_bundle_sha256 b) && fits 128 (gb_signature b).

Definition gateway_event (org : uuid) (event_type severity description : string) (details : list (string * pyval)) (now : time) : SecurityEvent :=
  with_scope (Some org) None None (with_text (Some description) details (security_event event_type severity now)).
Definition control_error {A} (code message : string) (status : Z) : DB A := throw (GatewayControlError message code status).
Definition not_found (gateway_id : string) : Exc := GatewayControlError ("Gateway '" +:+ gateway_id +:+ "' not found.") "GATEWAY_NOT_FOUND" 404.
Definition find_gateway (gateway_id : string) : DB EnterpriseGateway := one_or (gateway_by gateway_id) (not_found gateway_id).
(** An event that is kept, and the error that is raised. *)
Definition refuse_with {A} (event : SecurityEvent) (e : Exc) : DB A := add_security_event event ;; commit ;; throw e.

(** ** The key of the control plane *)

Definition CONFIG_SIGNING_VERSION : string := "AGENTTRUST-CONFIG/1".
Definition HEARTBEAT_SIGNING_VERSION : string := "AGENTTRUST-HEARTBEAT/1".
Definition CONTROL_PLANE_KEY_ID : string := "cp_key_primary".

(** What [CONTROL_PLANE_PRIVATE_KEY_PEM] holds, when a private key can be read there. *)
Class ControlPlane : Type := { control_plane_pem : option string }.
(** [_cp_private_key] and the file [_KEY_FILE]. *)
Record cp_store : Type := MkCpStore { cp_private_key : option string; cp_key_file : option pem }.
Abbreviation CDB := (M (cp_store * session) Exc).

Section control.
Context `{Entropy} `{Loaders} `{IssuerKeys} `{Ed25519} `{ControlPlane}.

Definition _ensure_control_plane_keys : CDB string := λ ks,
  let found (k : string) : result Exc string * (cp_store * session) := (Ok k, (MkCpStore (Some k) (cp_key_file ks.1), ks.2)) in
  match cp_private_key ks.1, control_plane_pem, cp_key_file ks.1 with
  | Some k, _, _ => (Ok k, ks)
  | None, Some k, _ => found k
  | None, None, Some (Ed25519Pem k) => found k
  | None, None, _ =>
      let k := generate_private_key (seed ks.2) in
      (Ok k, (MkCpStore (Some k) (Some (Ed25519Pem k)), next_seed ks.2))
  end.
Definition get_control_plane_public_key_b64 : CDB (string * string) :=
  priv ← _ensure_control_plane_keys; mret (b64encode (public_bytes_raw priv), CONTROL_PLANE_KEY_ID).

(** ** Registration *)

Definition generate_gateway_id : DB string := h ← fresh_hex 8; mret ("gw_" +:+ h).
Definition generate_enrollment_token : DB string := h ← fresh_hex 24; mret ("gw_tok_" +:+ h).

Record GatewayRegistrationRequest : Type := MkGatewayRegistration {
  rr_name : string; rr_deployment_type : string; rr_environment : string; rr_offline_policy : string; rr_labels : list (string * pyval)
}.
Definition validate_GatewayRegistrationRequest (p : GatewayRegistrationRequest) : bool :=
  (3 <=? String.length (rr_name p))%nat && fits 128 (rr_name p).

Definition organization_active (org : uuid) (t : tables) : option Organization :=
  o ← organizations (identity t) !! org; if og_is_active o then Some o else None.
Definition new_gateway (id : uuid) (gateway_id : string) (org : uuid) (req : GatewayRegistrationRequest) (token_hash : string) (now : time) :
    EnterpriseGateway :=
  MkGateway id gateway_id org (py_strip (rr_name req)) (rr_deployment_type req) (rr_environment req) "ENROLLING" "1.0.0" None None
    (Some token_hash) (Some (now + 15 * minute)) 0 (rr_labels req) (rr_offline_policy req) None None now now None None.
Definition enrollment_command (g : EnterpriseGateway) (raw_token : string) : string :=
  "agenttrust gateway enroll --gateway-id " +:+ gw_gateway_id g +:+ " --token " +:+ raw_token +:+ " --environment " +:+ gw_environment g.
Definition register_enterprise_gateway (org : uuid) (req : GatewayRegistrationRequest) : DB (EnterpriseGateway * string * string) :=
  get_or (organization_active org) (GatewayControlError "Organization not found or inactive." "ORGANIZATION_NOT_FOUND" 404) ;;
  raw_token ← generate_enrollment_token;
  gateway_id ← generate_gateway_id;
  id ← fresh_uuid;
  now ← now_db;
  let gateway := new_gateway id gateway_id org req (sha256_hex raw_token) now in
  insert_checked (new_gateway_ok gateway) (upd_gateways <[gw_id gateway := gateway]>) ;;
  commit ;;
  add_security_event (gateway_event org "gateway_registered" "info"
    ("Registered enterprise gateway '" +:+ gw_name gateway +:+ "' (" +:+ gateway_id +:+ ").")
    [("gateway_id", VStr gateway_id); ("deployment_type", VStr (gw_deployment_type gateway))] now) ;;
  commit ;;
  mret (gateway, raw_token, enrollment_command gateway raw_token).

(** ** Enrollment *)

Record GatewayEnrollRequest : Type := MkGatewayEnroll {
  er_enrollment_token : string; er_public_key : string; er_version : option string; er_labels : option (list (string * pyval))
}.
Record GatewayEnrollResponse : Type := MkEnrollResponse {
  es_status : string; es_gateway_id : string; es_organization_id : string; es_environment : string;
  es_control_plane_public_key : string; es_control_plane_signing_key_id : string; es_initial_config_version : Z
}.
Definition stopped_status (s : string) : bool := eqb s "REVOKED" || eqb s "SUSPENDED".
Definition enrollment_token (g : EnterpriseGateway) : option (string * time) :=
  h ← gw_enrollment_token_hash g; e ← gw_enrollment_token_expires_at g; if eqb h "" then None else Some (h, e).
Definition read_gateway_key (s : string) : result Exc string :=
  match b64decode_lenient s with
  | Some raw =>
      if (String.length raw =? 32)%nat && ed25519_key raw then Ok raw
      else Err (GatewayControlError "Invalid Ed25519 public key: " "INVALID_PUBLIC_KEY" 400)
  | None => Err (GatewayControlError "Invalid Ed25519 public key: " "INVALID_PUBLIC_KEY" 400)
  end.
(** [d.update(labels)] *)
Definition dict_update (d labels : list (string * pyval)) : list (string * pyval) := fold_left (λ d kv, dict_set kv.1 kv.2 d) labels d.
Definition text_or (o : option string) (d : string) : string := match o with Some "" | None => d | Some s => s end.
Definition enrolled (g : EnterpriseGateway) (req : GatewayEnrollRequest) (raw_pub : string) (now : time) : EnterpriseGateway :=
  MkGateway (gw_id g) (gw_gateway_id g) (gw_organization_id g) (gw_name g) (gw_deployment_type g) (gw_environment g) "ACTIVE"
    (text_or (er_version req) (gw_version g)) (Some (py_strip (er_public_key req))) (Some (sha256_hex raw_pub)) None None
    (gw_config_version g) (dict_update (gw_labels g) (default [] (er_labels req))) (gw_offline_policy g) (Some now)
    (gw_last_heartbeat_data g) (gw_created_at g) now (gw_revoked_at g) (gw_suspended_at g).
Definition enrollment_failed_event (g : EnterpriseGateway) (gateway_id : string) (now : time) : SecurityEvent :=
  gateway_event (gw_organization_id g) "gateway_enrollment_failed" "warning"
    ("Invalid enrollment token presented for gateway '" +:+ gateway_id +:+ "'.") [("gateway_id", VStr gateway_id)] now.

(** Everything up to the commit. *)
Definition enroll_row (gateway_id : string) (req : GatewayEnrollRequest) : DB EnterpriseGateway :=
  gateway ← find_gateway gateway_id;
  raise_if (stopped_status (gw_status gateway))
    (GatewayControlError ("Gateway '" +:+ gateway_id +:+ "' has been " +:+ py_lower (gw_status gateway) +:+ " and cannot be enrolled.")
      "GATEWAY_REVOKED" 403) ;;
  now ← now_db;
  match enrollment_token gateway with
  | None => control_error "ENROLLMENT_TOKEN_INVALID" "Enrollment token already consumed or invalid." 401
  | Some (token_hash, expires_at) =>
      raise_if (expires_at <? now)
        (GatewayControlError "Enrollment token has expired. Generate a new token in the Control Plane." "ENROLLMENT_TOKEN_EXPIRED" 401) ;;
      provided ← lift_result (ascii_bytes (py_strip (er_enrollment_token req)));
      if negb (eqb (sha256_hex provided) token_hash) then
        refuse_with (enrollment_failed_event gateway gateway_id now)
          (GatewayControlError "Invalid enrollment token." "ENROLLMENT_TOKEN_INVALID" 401)
      else
        raw_pub ← lift_result (read_gateway_key (py_strip (er_public_key req)));
        let gateway' := enrolled gateway req raw_pub now in
        save_gateway gateway' ;;
        add_security_event (gateway_event (gw_organization_id gateway) "gateway_enrolled" "info"
          ("Enterprise gateway '" +:+ gateway_id +:+ "' enrolled successfully.")
          [("gateway_id", VStr gateway_id); ("fingerprint", VStr (sha256_hex raw_pub))] now) ;;
        commit ;;
        mret gateway'
  end.
Definition enroll_enterprise_gateway (gateway_id : string) (req : GatewayEnrollRequest) : CDB GatewayEnrollResponse :=
  gateway ← lift_db (enroll_row gateway_id req);
  cp ← get_control_plane_public_key_b64;
  initial_ver ← lift_db (query (latest_version (gw_organization_id gateway) (py_lower (gw_environment gateway))));
  mret (MkEnrollResponse "ACTIVE" (gw_gateway_id gateway) (uuid_str (gw_organization_id gateway)) (gw_environment gateway)
    cp.1 cp.2 initial_ver).

(** ** Heartbeats *)

Record GatewayHeartbeatRequest : Type := MkHeartbeat {
  hr_version : string; hr_config_version : Z; hr_health : list (string * pyval); hr_timestamp : string; hr_signature : string
}.
Record GatewayHeartbeatResponse : Type := MkHeartbeatResponse {
  hs_status : string; hs_latest_config_version : Z; hs_sync_required : bool; hs_control_plane_time : string
}.
(** The moment a heartbeat names; a text without an offset is in UTC. *)
Definition heartbeat_moment (timestamp : string) : option time :=
  '(t, offset) ← parse_timestamp timestamp; Some (t - offset).
Definition heartbeat_text (gateway_id : string) (config_version : Z) (timestamp : string) : string :=
  text_lines [HEARTBEAT_SIGNING_VERSION; gateway_id; str_of_Z config_version; timestamp].
(** A signature under a key in Base64; nothing raises out of it. *)
Definition signed_under (public_key signature text : string) : bool :=
  match b64decode_lenient public_key, b64decode_lenient signature with
  | Some raw, Some sig => (String.length raw =? 32)%nat && ed25519_key raw && ed25519_verify raw sig text
  | _, _ => false
  end.
Definition heartbeat_event (g : EnterpriseGateway) (gateway_id : string) (now : time) : SecurityEvent :=
  gateway_event (gw_organization_id g) "gateway_heartbeat_signature_invalid" "warning"
    ("Heartbeat signature failed verification for gateway '" +:+ gateway_id +:+ "'.") [("gateway_id", VStr gateway_id)] now.
Definition recovered_status (s : string) : string := if eqb s "OFFLINE" || eqb s "DEGRADED" then "ACTIVE" else s.
Definition beaten (g : EnterpriseGateway) (req : GatewayHeartbeatRequest) (now : time) : EnterpriseGateway :=
  MkGateway (gw_id g) (gw_gateway_id g) (gw_organization_id g) (gw_name g) (gw_deployment_type g) (gw_environment g)
    (recovered_status (gw_status g)) (hr_version req) (gw_public_key g) (gw_fingerprint g) (gw_enrollment_token_hash g)
    (gw_enrollment_token_expires_at g) (hr_config_version req) (gw_labels g) (gw_offline_policy g) (Some now) (Some (hr_health req))
    (gw_created_at g) now (gw_revoked_at g) (gw_suspended_at g).
Definition verify_gateway_heartbeat (gateway_id : string) (req : GatewayHeartbeatRequest) : DB GatewayHeartbeatResponse :=
  gateway ← find_gateway gateway_id;
  raise_if (eqb (gw_status gateway) "REVOKED")
    (GatewayControlError ("Gateway '" +:+ gateway_id +:+ "' has been revoked.") "GATEWAY_REVOKED" 403) ;;
  raise_if (eqb (gw_status gateway) "SUSPENDED")
    (GatewayControlError ("Gateway '" +:+ gateway_id +:+ "' is suspended.") "GATEWAY_SUSPENDED" 403) ;;
  let public_key := default "" (gw_public_key gateway) in
  raise_if (eqb public_key "") (GatewayControlError "Gateway has not completed enrollment." "GATEWAY_NOT_ENROLLED" 400) ;;
  now ← now_db;
  raise_if (match heartbeat_moment (hr_timestamp req) with Some hb_time => 300 * second <? Z.abs (now - hb_time) | None => true end)
    (GatewayControlError "Invalid heartbeat timestamp: " "INVALID_TIMESTAMP" 400) ;;
  if negb (signed_under public_key (hr_signature req) (heartbeat_text gateway_id (hr_config_version req) (hr_timestamp req))) then
    refuse_with (heartbeat_event gateway gateway_id now)
      (GatewayControlError "Heartbeat Ed25519 cryptographic signature invalid." "INVALID_SIGNATURE" 401)
  else
    let gateway' := beaten gateway req now in
    save_gateway gateway' ;;
    commit ;;
    latest_ver ← query (latest_version (gw_organization_id gateway) (py_lower (gw_environment gateway)));
    mret (MkHeartbeatResponse (gw_status gateway') latest_ver (hr_config_version req <? latest_ver) (strftime_z now)).

(** ** Configuration bundles *)

Record GatewayPublishConfigRequest : Type := MkPublish {
  pr_environment : string;
  pr_policies : option (list (list (string * pyval)));
  pr_trusted_issuers : option (list (list (string * pyval)));
  pr_credential_requirements : option (list (list (string * pyval)));
  pr_revocations : option (list (list (string * pyval)));
  pr_routing : option (list (string * pyval));
  pr_validity_hours : option Z
}.
Definition validate_GatewayPublishConfigRequest (p : GatewayPublishConfigRequest) : bool :=
  opt_check (λ h, (1 <=? h) && (h <=? 720)) (pr_validity_hours p).
Definition environment_only (env : string) : GatewayPublishConfigRequest := MkPublish env None None None None None (Some 24).

Definition texts (l : list string) : pyval := VList (map VStr l).
(** The organization's own policy.  The query for its published APL policies names a column
    that [PolicyVersion] does not have, and the exception is swallowed. *)
Definition default_policies (org : uuid) (t : tables) : result Exc (list (list (string * pyval))) :=
  match scalar_one_or_none (λ p, eqb (gt_organization_id p) org) (target_policies (federation t)) with
  | Ok (Some p) => Ok [[("allowed_actions", texts (gt_allowed_actions p)); ("allowed_resources", texts (gt_allowed_resources p));
      ("required_credential_types", texts (gt_required_credential_types p))]]
  | Ok None => Ok []
  | Err e => Err e
  end.
Definition key_entry (k : IssuerSigningKey) : pyval :=
  VDict [("key_id", VStr (ik_key_id k)); ("algorithm", VStr (ik_algorithm k)); ("public_key", VStr (ik_public_key k));
         ("fingerprint", VStr (ik_fingerprint k))].
Definition issuer_entry (t : tables) (i : CredentialIssuer) : list (string * pyval) :=
  [("issuer_id", VStr (ci_issuer_id i)); ("name", VStr (ci_name i));
   ("signing_keys", VList (map key_entry
      (select_rows (λ k, eqb (ik_issuer_id k) (ci_id i) && eqb (ik_status k) "ACTIVE") (issuer_key_table t))))].
Definition default_issuers (org : uuid) (t : tables) : list (list (string * pyval)) :=
  map (issuer_entry t) (select_rows (λ i, eqb (ci_organization_id i) org && eqb (ci_status i) "ACTIVE") (issuer_table t)).
Definition revocation_entry (kind id : string) : list (string * pyval) := [("type", VStr kind); ("id", VStr id)].
Definition withdrawn_agent (org : uuid) (a : Agent) : bool :=
  eqb (ag_organization_id a) (Some org) && existsb (eqb (ag_status a)) [SUSPENDED; RETIRED; REVOKED].
Definition default_revocations (org : uuid) (t : tables) : list (list (string * pyval)) :=
  (map (λ c, revocation_entry "credential" (cr_credential_id c))
     (select_rows (λ c, eqb (cr_organization_id c) org && eqb (cr_status c) CredRevoked) (credentials t)) ++
   map (λ a, revocation_entry "agent" (ag_identifier a)) (select_rows (withdrawn_agent org) (agents t)))%list.
Definition default_routing : list (string * pyval) :=
  [("allowed_peer_gateways", VList [VStr "*"]); ("privacy_mode", VStr "DIRECT_PRIVATE")].
(** [given or []], and the default when that is empty. *)
Definition or_default {A} (given : option (list A)) (d : list A) : list A := match given with Some [] | None => d | Some l => l end.

Definition gathered (org : uuid) (req : GatewayPublishConfigRequest) (t : tables) : result Exc bundle_content :=
  match match pr_policies req with Some (p :: l) => Ok (p :: l) | _ => default_policies org t end with
  | Err e => Err e
  | Ok policies =>
      Ok (MkContent policies (or_default (pr_trusted_issuers req) (default_issuers org t)) (default [] (pr_credential_requirements req))
        (or_default (pr_revocations req) (default_revocations org t)) (or_default (pr_routing req) default_routing))
  end.
Definition bundle_value (c : bundle_content) : list (string * pyval) :=
  [("policies", VList (map VDict (bc_policies c))); ("trusted_issuers", VList (map VDict (bc_trusted_issuers c)));
   ("credential_requirements", VList (map VDict (bc_credential_requirements c))); ("revocations", VList (map VDict (bc_revocations c)));
   ("routing", VDict (bc_routing c))].
Definition bundle_hash (c : list (string * pyval)) : string := sha256_hex (canonical_json (VDict c)).
Definition config_text (version organization environment issued_at expires_at bundle_sha256 : string) : string :=
  text_lines [CONFIG_SIGNING_VERSION; version; organization; environment; issued_at; expires_at; bundle_sha256].

Definition publish_event (b : GatewayConfigBundle) (now : time) : SecurityEvent :=
  gateway_event (gb_organization_id b) "gateway_config_published" "info"
    ("Published signed configuration bundle version " +:+ str_of_Z (gb_config_version b) +:+ " for environment '" +:+ gb_environment b +:+ "'.")
    [("config_version", VInt (gb_config_version b)); ("bundle_sha256", VStr (gb_bundle_sha256 b))] now.
Definition signed_bundle (id org : uuid) (env : string) (version : Z) (content : bundle_content) (user : option uuid) (now expires_at : time)
    (cp_priv : string) : GatewayConfigBundle :=
  let bundle_sha256 := bundle_hash (bundle_value content) in
  let canon_to_sign := config_text (str_of_Z version) (uuid_str org) env (strftime_z now) (strftime_z expires_at) bundle_sha256 in
  MkBundle id org env version content bundle_sha256 (b64encode (private_sign cp_priv canon_to_sign)) CONTROL_PLANE_KEY_ID user now expires_at.
(** The row, its commit, and the event in a commit of its own. *)
Definition store_bundle (b : uuid → GatewayConfigBundle) (now : time) : DB GatewayConfigBundle :=
  id ← fresh_uuid;
  insert_checked (new_bundle_ok (b id)) (upd_bundles <[gb_id (b id) := b id]>) ;;
  commit ;;
  add_security_event (publish_event (b id) now) ;;
  commit ;;
  mret (b id).
Definition validity_hours (req : GatewayPublishConfigRequest) : Z := match pr_validity_hours req with Some 0 | None => 24 | Some h => h end.
Definition build_and_publish_config (org : uuid) (req : GatewayPublishConfigRequest) (user : option uuid) : CDB GatewayConfigBundle :=
  let env := py_lower (pr_environment req) in
  now ← lift_db now_db;
  let expires_at := now + validity_hours req * hour in
  latest_ver ← lift_db (query (latest_version org env));
  let new_version := latest_ver + 1 in
  found ← lift_db (query (gathered org req));
  content ← lift_result found;
  cp_priv ← _ensure_control_plane_keys;
  lift_db (store_bundle (λ id, signed_bundle id org env new_version content user now expires_at cp_priv) now).

Definition bundle_at (org : uuid) (version : Z) (t : tables) : result Exc (option GatewayConfigBundle) :=
  scalar_one_or_none (λ b, eqb (gb_organization_id b) org && eqb (gb_config_version b) version) (bundle_table t).
Definition republish (b : GatewayConfigBundle) : GatewayPublishConfigRequest :=
  let c := gb_bundle_json b in
  MkPublish (gb_environment b) (Some (bc_policies c)) (Some (bc_trusted_issuers c)) (Some (bc_credential_requirements c))
    (Some (bc_revocations c)) (Some (bc_routing c)) (Some 24).
Definition rollback_event (org : uuid) (source new : Z) (now : time) : SecurityEvent :=
  gateway_event org "gateway_config_rolled_back" "warning"
    ("Rolled back configuration: content from version " +:+ str_of_Z source +:+ " re-published as new monotonic version " +:+
      str_of_Z new +:+ ".") [("source_version", VInt source); ("new_version", VInt new)] now.
Definition rollback_gateway_config (org : uuid) (target_version : Z) (user : option uuid) : CDB GatewayConfigBundle :=
  target_bundle ← lift_db (one_or (bundle_at org target_version)
    (GatewayControlError ("Historical configuration version " +:+ str_of_Z target_version +:+ " not found.") "CONFIG_VERSION_NOT_FOUND" 404));
  new_bundle ← build_and_publish_config org (republish target_bundle) user;
  lift_db (
    now ← now_db;
    add_security_event (rollback_event org target_version (gb_config_version new_bundle) now) ;;
    commit ;;
    mret new_bundle).

Definition signed_config (b : GatewayConfigBundle) : list (string * pyval) :=
  [("config_version", VInt (gb_config_version b)); ("organization_id", VStr (uuid_str (gb_organization_id b)));
   ("environment", VStr (gb_environment b)); ("issued_at", VStr (strftime_z (gb_created_at b)));
   ("expires_at", VStr (strftime_z (gb_expires_at b))); ("bundle", VDict (bundle_value (gb_bundle_json b)));
   ("bundle_sha256", VStr (gb_bundle_sha256 b)); ("signature", VStr (gb_signature b)); ("signing_key_id", VStr (gb_signing_key_id b))].
Definition get_signed_config_bundle (gateway_id : string) (client_version : option Z) : CDB (option (list (string * pyval))) :=
  gateway ← lift_db (find_gateway gateway_id);
  lift_db (raise_if (stopped_status (gw_status gateway))
    (GatewayControlError ("Gateway '" +:+ gateway_id +:+ "' is " +:+ py_lower (gw_status gateway) +:+ " and cannot receive configuration.")
      "GATEWAY_REVOKED" 403)) ;;
  let env := py_lower (gw_environment gateway) in
  latest ← lift_db (query (latest_bundle (gw_organization_id gateway) env));
  bundle ← match latest with
           | Some b => mret b
           | None => build_and_publish_config (gw_organization_id gateway) (environment_only env) None
           end;
  mret (if opt_check (λ v, v <? gb_config_version bundle) client_version then Some (signed_config bundle) else None).

(** ** Suspension and revocation *)

Definition gateway_of (org : uuid) (gateway_id : string) (t : tables) : result Exc (option EnterpriseGateway) :=
  scalar_one_or_none (λ g, eqb (gw_gateway_id g) gateway_id && eqb (gw_organization_id g) org) (gateway_table t).
Definition suspended (g : EnterpriseGateway) (now : time) : EnterpriseGateway :=
  MkGateway (gw_id g) (gw_gateway_id g) (gw_organization_id g) (gw_name g) (gw_deployment_type g) (gw_environment g) "SUSPENDED"
    (gw_version g) (gw_public_key g) (gw_fingerprint g) (gw_enrollment_token_hash g) (gw_enrollment_token_expires_at g)
    (gw_config_version g) (gw_labels g) (gw_offline_policy g) (gw_last_seen_at g) (gw_last_heartbeat_data g) (gw_created_at g) now
    (gw_revoked_at g) (Some now).
Definition revoked (g : EnterpriseGateway) (now : time) : EnterpriseGateway :=
  MkGateway (gw_id g) (gw_gateway_id g) (gw_organization_id g) (gw_name g) (gw_deployment_type g) (gw_environment g) "REVOKED"
    (gw_version g) None (gw_fingerprint g) None (gw_enrollment_token_expires_at g)
    (gw_config_version g) (gw_labels g) (gw_offline_policy g) (gw_last_seen_at g) (gw_last_heartbeat_data g) (gw_created_at g) now
    (Some now) (gw_suspended_at g).
Definition stop_gateway (stop : EnterpriseGateway → time → EnterpriseGateway) (event_type severity verb gateway_id : string) (org : uuid) :
    DB EnterpriseGateway :=
  gw ← one_or (gateway_of org gateway_id) (not_found gateway_id);
  now ← now_db;
  save_gateway (stop gw now) ;;
  add_security_event (gateway_event org event_type severity ("Enterprise gateway '" +:+ gateway_id +:+ "' " +:+ verb +:+ ".")
    [("gateway_id", VStr gateway_id)] now) ;;
  commit ;;
  mret (stop gw now).
Definition suspend_enterprise_gateway : string → uuid → DB EnterpriseGateway :=
  stop_gateway suspended "gateway_suspended" "warning" "suspended".
Definition revoke_enterprise_gateway : string → uuid → DB EnterpriseGateway :=
  stop_gateway revoked "gateway_revoked" "critical" "permanently revoked".

(** ** Handlers ([api/enterprise_gateways.py]) *)

Definition control_as_http {S A} (m : M S Exc A) : M S Exc A :=
  try_except m (λ e, match e with
    | GatewayControlError message _ status => throw (HTTPException status message)
    | e => throw e
    end).

(** The routes of the gateways themselves. *)
Definition enroll_gateway_endpoint (gateway_id : string) (payload : GatewayEnrollRequest) : CDB GatewayEnrollResponse :=
  control_as_http (enroll_enterprise_gateway gateway_id payload).
Definition heartbeat_endpoint (gateway_id : string) (payload : GatewayHeartbeatRequest) : DB GatewayHeartbeatResponse :=
  control_as_http (verify_gateway_heartbeat gateway_id payload).
(** Nothing: 304. *)
Definition download_config_endpoint (gateway_id : string) (client_version : option Z) : CDB (option (list (string * pyval))) :=
  control_as_http (get_signed_config_bundle gateway_id client_version).

(** The bodies of the routes of an organization; the routes themselves fail on the attribute
    [organization] of the workspace. *)
Definition register_gateway_in (org : Organization) (payload : GatewayRegistrationRequest) : DB (EnterpriseGateway * string * string) :=
  control_as_http (register_enterprise_gateway (og_id org) payload).
Definition list_gateways_in (org : Organization) (environment status_filter : option string) : DB (list EnterpriseGateway) :=
  let asks (o : option string) (v : string) : bool := match o with Some "" | None => true | Some s => eqb v (py_upper s) end in
  query (λ t, order_desc gw_created_at gw_id (select_rows (λ g,
    eqb (gw_organization_id g) (og_id org) && asks environment (gw_environment g) && asks status_filter (gw_status g)) (gateway_table t))).
Definition get_gateway_in (org : Organization) (gateway_id : string) : DB EnterpriseGateway :=
  one_or (gateway_of (og_id org) gateway_id) (HTTPException 404 "Gateway not found.").
Definition suspend_gateway_in (org : Organization) (gateway_id : string) : DB EnterpriseGateway :=
  control_as_http (suspend_enterprise_gateway gateway_id (og_id org)).
Definition revoke_gateway_in (org : Organization) (gateway_id : string) : DB EnterpriseGateway :=
  control_as_http (revoke_enterprise_gateway gateway_id (og_id org)).
Definition publish_config_in (org : Organization) (payload : GatewayPublishConfigRequest) (user : uuid) : CDB GatewayConfigBundle :=
  control_as_http (build_and_publish_config (og_id org) payload (Some user)).
Definition rollback_config_in (org : Organization) (target_version : Z) (user : uuid) : CDB GatewayConfigBundle :=
  control_as_http (rollback_gateway_config (og_id org) target_version (Some user)).
Definition get_config_history_in (org : Organization) (environment : string) : DB (list GatewayConfigBundle) :=
  query (λ t, take 50 (bundles_of (og_id org) (py_lower environment) t)).

Definition register_gateway (w : WorkspaceContext) (payload : GatewayRegistrationRequest) : DB (EnterpriseGateway * string * string) :=
  org ← workspace_organization w; register_gateway_in org payload.
Definition list_gateways (w : WorkspaceContext) (environment status_filter : option string) : DB (list EnterpriseGateway) :=
  org ← workspace_organization w; list_gateways_in org environment status_filter.
Definition get_gateway (w : WorkspaceContext) (gateway_id : string) : DB EnterpriseGateway :=
  org ← workspace_organization w; get_gateway_in org gateway_id.
Definition suspend_gateway (w : WorkspaceContext) (gateway_id : string) : DB EnterpriseGateway :=
  org ← workspace_organization w; suspend_gateway_in org gateway_id.
Definition revoke_gateway (w : WorkspaceContext) (gateway_id : string) : DB EnterpriseGateway :=
  org ← workspace_organization w; revoke_gateway_in org gateway_id.
Definition publish_config (w : WorkspaceContext) (payload : GatewayPublishConfigRequest) (user : uuid) : CDB GatewayConfigBundle :=
  org ← lift_db (workspace_organization w); publish_config_in org payload user.
Definition rollback_config (w : WorkspaceContext) (target_version : Z) (user : uuid) : CDB GatewayConfigBundle :=
  org ← lift_db (workspace_organization w); rollback_config_in org target_version user.
Definition get_config_history (w : WorkspaceContext) (environment : string) : DB (list GatewayConfigBundle) :=
  org ← workspace_organization w; get_config_history_in org environment.
End control.
End GatewayControl.
