(* ===== verification/Sidecar.v ===== *)
(** The sidecar of an enterprise gateway ([src/sidecar/]): its settings ([config.py]), its
    state behind a lock ([state.py]), its key and the verification of configurations
    ([crypto.py]), the cache ([storage.py]), synchronisation and heartbeats ([sync.py]), the
    local decision ([evaluator.py]), direct routing ([router.py]) and the routes
    ([main.py]).

    The network, name resolution and the environment are parameters of the operations that
    use them; the cache file holds a JSON value, and writing it does not fail.  An operation
    reads both clocks once.  [threading.Lock] is not reentrant: who takes it twice waits for
    ever ([Blocked]), and so does every later caller.  Logging is left out, and the text of
    an exception inside a message. *)
From Stdlib Require Import Ascii.
From S2P Require Import Prelude.
From S2P Require Import PyStr.
From S2P Require Import PyFloat.
From S2P Require Import PyVal.
From S2P Require Import PyDecimal.
From S2P Require Import AplParser.
From S2P Require Import Models.
From S2P Require Import PyTime.
From S2P Require Import PyCodec.
From S2P Require Import PyNet.
From S2P Require Import Canonical.
From S2P Require Import Signing.
From S2P Require Import Credentials.
From S2P Require Import GatewayControl.

Local Open Scope string_scope.
Local Open Scope Z_scope.

Module Sidecar.
Import Canonical Signing Credentials GatewayControl.

(** ** Settings ([config.py]) *)

Record SidecarConfig : Type := MkSidecarConfig {
  control_plane_url : string;
  secondary_control_plane_url : option string;
  config_gateway_id : option string;
  gateway_name : string;
  config_environment : string;
  config_deployment_type : string;
  offline_policy : string;
  sync_interval_seconds : Z;
  heartbeat_interval_seconds : Z;
  sidecar_host : string;
  sidecar_port : Z;
  keys_dir : string;
  cache_dir : string;
  allow_private_ips : bool
}.
(** Nothing: a number cannot be read, and the import of the module fails. *)
Definition sidecar_config (environ : string → option string) : option SidecarConfig :=
  let text k d := default d (environ k) in
  sync ← py_int (text "AGENTTRUST_SYNC_INTERVAL_SECONDS" "30");
  heartbeat ← py_int (text "AGENTTRUST_HEARTBEAT_INTERVAL_SECONDS" "30");
  port ← py_int (text "AGENTTRUST_PORT" "8080");
  Some (MkSidecarConfig (text "AGENTTRUST_CONTROL_PLANE_URL" "http://127.0.0.1:8000") (environ "AGENTTRUST_SECONDARY_CONTROL_PLANE_URL")
    (environ "AGENTTRUST_GATEWAY_ID") (text "AGENTTRUST_GATEWAY_NAME" "Local Sidecar")
    (py_upper (text "AGENTTRUST_ENVIRONMENT" "PRODUCTION")) (py_upper (text "AGENTTRUST_DEPLOYMENT_TYPE" "SIDECAR"))
    (py_upper (text "AGENTTRUST_OFFLINE_POLICY" "FAIL_CLOSED")) sync heartbeat (text "AGENTTRUST_HOST" "127.0.0.1") port
    (text "AGENTTRUST_KEYS_DIR" ".sidecar_keys") (text "AGENTTRUST_CACHE_DIR" ".sidecar_cache")
    (existsb (eqb (py_lower (text "AGENTTRUST_ALLOW_PRIVATE_IPS" "false"))) ["true"; "1"])).

(** ** State ([state.py]) *)

Record Metrics : Type := MkMetrics {
  total_requests : Z; approved_requests : Z; rejected_requests : Z; offline_requests : Z; error_count : Z
}.
(** The applied version and the active configuration are JSON values: what the control plane
    sends is not looked into before it is stored. *)
Record SidecarState : Type := MkState {
  st_gateway_id : option string;
  st_status : string;
  st_version : string;
  st_applied_config_version : pyval;
  st_active_config : pyval;
  st_config_expires_at : option time;
  st_control_plane_public_key : option string;
  st_control_plane_reachable : bool;
  st_last_sync_time : option time;
  st_last_heartbeat_time : option time;
  st_processed_nonces : gmap string Z;
  st_metrics : Metrics
}.
Definition default_config : pyval :=
  VDict [("policies", VList []); ("trusted_issuers", VList []); ("credential_requirements", VList []); ("revocations", VList []);
         ("routing", VDict default_routing)].
Definition initial_state : SidecarState :=
  MkState None "ENROLLING" "1.0.0" (VInt 0) default_config None None true None None ∅ (MkMetrics 0 0 0 0 0).

Definition set_gateway (id : string) (s : SidecarState) : SidecarState :=
  MkState (Some id) "ACTIVE" (st_version s) (st_applied_config_version s) (st_active_config s) (st_config_expires_at s)
    (st_control_plane_public_key s) (st_control_plane_reachable s) (st_last_sync_time s) (st_last_heartbeat_time s)
    (st_processed_nonces s) (st_metrics s).
Definition set_config (version bundle : pyval) (expires_at : time) (now : time) (s : SidecarState) : SidecarState :=
  MkState (st_gateway_id s) (st_status s) (st_version s) version bundle (Some expires_at)
    (st_control_plane_public_key s) (st_control_plane_reachable s) (Some now) (st_last_heartbeat_time s) (st_processed_nonces s)
    (st_metrics s).
Definition set_reachable (b : bool) (s : SidecarState) : SidecarState :=
  MkState (st_gateway_id s) (st_status s) (st_version s) (st_applied_config_version s) (st_active_config s) (st_config_expires_at s)
    (st_control_plane_public_key s) b (st_last_sync_time s) (st_last_heartbeat_time s) (st_processed_nonces s) (st_metrics s).
Definition set_synced (now : time) (s : SidecarState) : SidecarState :=
  MkState (st_gateway_id s) (st_status s) (st_version s) (st_applied_config_version s) (st_active_config s) (st_config_expires_at s)
    (st_control_plane_public_key s) true (Some now) (st_last_heartbeat_time s) (st_processed_nonces s) (st_metrics s).
Definition set_heartbeat (now : time) (s : SidecarState) : SidecarState :=
  MkState (st_gateway_id s) (st_status s) (st_version s) (st_applied_config_version s) (st_active_config s) (st_config_expires_at s)
    (st_control_plane_public_key s) true (st_last_sync_time s) (Some now) (st_processed_nonces s) (st_metrics s).
Definition set_nonces (n : gmap string Z) (s : SidecarState) : SidecarState :=
  MkState (st_gateway_id s) (st_status s) (st_version s) (st_applied_config_version s) (st_active_config s) (st_config_expires_at s)
    (st_control_plane_public_key s) (st_control_plane_reachable s) (st_last_sync_time s) (st_last_heartbeat_time s) n (st_metrics s).
Definition set_metrics (m : Metrics) (s : SidecarState) : SidecarState :=
  MkState (st_gateway_id s) (st_status s) (st_version s) (st_applied_config_version s) (st_active_config s) (st_config_expires_at s)
    (st_control_plane_public_key s) (st_control_plane_reachable s) (st_last_sync_time s) (st_last_heartbeat_time s)
    (st_processed_nonces s) m.

(** The process: its state and lock, its private key in memory and on disk, the cache file,
    the draws of keys made so far, and the clocks of the operation that runs. *)
Inductive cache_file : Type := NoCache | Unreadable | Cached (v : pyval).
Record process : Type := MkProcess {
  pc_locked : bool;
  pc_state : SidecarState;
  pc_private_key : option string;
  pc_key_file : option pem;
  pc_cache : cache_file;
  pc_seed : nat;
  pc_now : time;
  pc_monotonic : Z
}.
Definition with_state (s : SidecarState) (p : process) : process :=
  MkProcess (pc_locked p) s (pc_private_key p) (pc_key_file p) (pc_cache p) (pc_seed p) (pc_now p) (pc_monotonic p).
Definition with_lock (b : bool) (p : process) : process :=
  MkProcess b (pc_state p) (pc_private_key p) (pc_key_file p) (pc_cache p) (pc_seed p) (pc_now p) (pc_monotonic p).
Definition with_cache (c : cache_file) (p : process) : process :=
  MkProcess (pc_locked p) (pc_state p) (pc_private_key p) (pc_key_file p) c (pc_seed p) (pc_now p) (pc_monotonic p).
Definition with_key (k : string) (file : option pem) (n : nat) (p : process) : process :=
  MkProcess (pc_locked p) (pc_state p) (Some k) file (pc_cache p) n (pc_now p) (pc_monotonic p).

Inductive SideExc : Type := Raised (e : PyExc) | Blocked.
Abbreviation SM := (M process SideExc).
Definition read {A} (f : SidecarState → A) : SM A := gets (λ p, f (pc_state p)).
Definition assign (f : SidecarState → SidecarState) : SM unit := modify (λ p, with_state (f (pc_state p)) p).
Definition now_utc : SM time := gets pc_now.
Definition lift_py {A} (r : result PyExc A) : SM A := match r with Ok a => mret a | Err e => throw (Raised e) end.
(** [try: .. except Exception: ..]; a thread that waits raises nothing. *)
Definition except_py {A} (m : SM A) (h : SM A) : SM A := try_except m (λ e, match e with Raised _ => h | Blocked => throw Blocked end).
(** [with self._lock: ..] *)
Definition locked {A} (m : SM A) : SM A := λ p,
  if pc_locked p then (Err Blocked, p)
  else
    let '(r, p') := m (with_lock true p) in
    match r with Err Blocked => (Err Blocked, p') | _ => (r, with_lock false p') end.

Definition update_config (new_version bundle : pyval) (expires_at : time) : SM unit :=
  locked (now ← now_utc; assign (set_config new_version bundle expires_at now)).
Definition is_config_expired : SM bool :=
  locked (
    expires_at ← read st_config_expires_at;
    now ← now_utc;
    mret (match expires_at with Some t => t <? now | None => true end)).
Definition counted (result : string) (was_offline : bool) (m : Metrics) : Metrics :=
  let one (b : bool) : Z := if b then 1 else 0 in
  MkMetrics (total_requests m + 1) (approved_requests m + one (existsb (eqb result) ["LOCAL_APPROVED"; "APPROVED"]))
    (rejected_requests m + one (existsb (eqb result) ["REJECTED"; "FAIL_CLOSED"])) (offline_requests m + one was_offline)
    (error_count m + one (eqb result "ERROR")).
Definition record_request (result : string) (was_offline : bool) : SM unit :=
  locked (assign (λ s, set_metrics (counted result was_offline (st_metrics s)) s)).

Definition opt_value (o : option string) : pyval := match o with Some s => VStr s | None => VNone end.
Definition opt_time (o : option time) : pyval := match o with Some t => VStr (isoformat t) | None => VNone end.
Definition metrics_value (m : Metrics) : pyval :=
  VDict [("total_requests", VInt (total_requests m)); ("approved_requests", VInt (approved_requests m));
         ("rejected_requests", VInt (rejected_requests m)); ("offline_requests", VInt (offline_requests m));
         ("error_count", VInt (error_count m))].
(** It holds the lock while [is_config_expired] asks for it. *)
Definition get_health_summary : SM (list (string * pyval)) :=
  locked (
    expired ← is_config_expired;
    s ← read id;
    mret [("gateway_id", opt_value (st_gateway_id s)); ("status", VStr (st_status s)); ("version", VStr (st_version s));
          ("config_version", st_applied_config_version s); ("config_expired", VBool expired);
          ("control_plane_reachable", VBool (st_control_plane_reachable s)); ("last_sync", opt_time (st_last_sync_time s));
          ("last_heartbeat", opt_time (st_last_heartbeat_time s)); ("metrics", metrics_value (st_metrics s))]).

Section sidecar.
Context `{Loaders} `{IssuerKeys} `{Ed25519} (config : SidecarConfig).

(** ** Keys and verification ([crypto.py]) *)

Definition get_or_create_local_keypair : SM (string * string * string) := λ p,
  let answer (k : string) : string * string * string := (k, b64encode (public_bytes_raw k), sha256_hex (public_bytes_raw k)) in
  match pc_private_key p, pc_key_file p with
  | Some k, _ => (Ok (answer k), p)
  | None, Some (Ed25519Pem k) => (Ok (answer k), with_key k (pc_key_file p) (pc_seed p) p)
  | None, _ =>
      let k := generate_private_key (pc_seed p) in
      (Ok (answer k), with_key k (Some (Ed25519Pem k)) (S (pc_seed p)) p)
  end.
Definition sign_heartbeat (gateway_id : string) (config_version : pyval) (timestamp : string) : SM string :=
  key ← get_or_create_local_keypair;
  mret (b64encode (private_sign key.1.1 (text_lines [HEARTBEAT_SIGNING_VERSION; gateway_id; py_str config_version; timestamp]))).

Definition compute_bundle_sha256 (bundle : pyval) : string := sha256_hex (canonical_json bundle).
Definition verify_control_plane_config (config_bundle_data : list (string * pyval)) (public_key : string) : bool :=
  let field k := get k config_bundle_data in
  let bundle := py_or (field "bundle") (VDict []) in
  if negb (forallb (λ k, truthy (field k)) ["config_version"; "organization_id"; "environment"; "issued_at"; "expires_at"; "bundle_sha256";
                                            "signature"]) then false
  else if negb (py_eq (VStr (compute_bundle_sha256 bundle)) (field "bundle_sha256")) then false
  else
    match field "signature" with
    | VStr signature => signed_under public_key signature
        (config_text (py_str (field "config_version")) (py_str (field "organization_id")) (py_str (field "environment"))
          (py_str (field "issued_at")) (py_str (field "expires_at")) (py_str (field "bundle_sha256")))
    | _ => false
    end.

(** ** Activation and the cache ([storage.py]) *)

Definition verify_if_known (data : list (string * pyval)) : SM bool :=
  key ← read st_control_plane_public_key;
  mret (match key with Some k => if eqb k "" then true else verify_control_plane_config data k | None => true end).
Definition dict_of (v : pyval) : result PyExc (list (string * pyval)) := match v with VDict d => Ok d | _ => Err AttributeError end.
(** The text [expires_at] and the moment it names. *)
Definition expiry_of (v : pyval) : result PyExc time :=
  match v with
  | VStr s =>
      let s := if endswith "Z" s then str_take (String.length s - 1) s +:+ "+00:00" else s in
      match fromisoformat_local s with Some (t, offset) => Ok (t - default 0 offset) | None => Err ValueError end
  | _ => Err AttributeError
  end.
Definition get_default (k : string) (d : list (string * pyval)) (v : pyval) : pyval := default v (dict_get k d).
Definition save_config_cache (data : list (string * pyval)) : SM unit := modify (with_cache (Cached (VDict data))).
Definition load_config_cache : SM bool :=
  cache ← gets pc_cache;
  match cache with
  | NoCache => mret false
  | Unreadable => mret false
  | Cached v =>
      except_py (
        bundle_data ← lift_py (dict_of v);
        ok ← verify_if_known bundle_data;
        if negb ok then mret false
        else if negb (truthy (get "expires_at" bundle_data)) then mret false
        else
          expires_at ← lift_py (expiry_of (get "expires_at" bundle_data));
          update_config (get_default "config_version" bundle_data (VInt 0)) (get_default "bundle" bundle_data (VDict [])) expires_at ;;
          mret true)
        (mret false)
  end.

(** ** Synchronisation ([sync.py]) *)

(** What a request to the network gives: an answer with its status, the error of a status, or
    another exception. *)
Inductive response : Type := Answer (status : Z) (body : string) | HTTPErr (code : Z) | Unreachable.
Definition network : Type := string → response.

(** [a <= b] and [a > b] of numbers; a comparison with another type raises. *)
Definition py_le (a b : pyval) : result PyExc bool :=
  match num_of a, num_of b with
  | Some (inl x), Some (inl y) => Ok (x <=? y)
  | Some (inr x), Some (inr y) => Ok (f_leb x y)
  | Some (inl x), Some (inr y) => Ok (match Z_compare_f x y with Some Lt | Some Eq => true | _ => false end)
  | Some (inr x), Some (inl y) => Ok (match Z_compare_f y x with Some Gt | Some Eq => true | _ => false end)
  | _, _ => Err TypeError
  end.
Definition py_gt (a b : pyval) : result PyExc bool :=
  match num_of a, num_of b with
  | Some (inl x), Some (inl y) => Ok (y <? x)
  | Some (inr x), Some (inr y) => Ok (f_ltb y x)
  | Some (inl x), Some (inr y) => Ok (match Z_compare_f x y with Some Gt => true | _ => false end)
  | Some (inr x), Some (inl y) => Ok (match Z_compare_f y x with Some Lt => true | _ => false end)
  | _, _ => Err TypeError
  end.
Definition is_rollback (new applied : pyval) : result PyExc bool :=
  match py_le new applied with Ok true => py_gt applied (VInt 0) | r => r end.

Definition parse_json (body : string) : result PyExc pyval := match json_loads body with Ok v => Ok v | Err _ => Err ValueError end.
Definition activate (bundle_data : list (string * pyval)) : SM bool :=
  ok ← verify_if_known bundle_data;
  if negb ok then mret false
  else
    let new_version := get_default "config_version" bundle_data (VInt 0) in
    applied ← read st_applied_config_version;
    old ← lift_py (is_rollback new_version applied);
    if (old : bool) then mret false
    else
      expires_at ← lift_py (expiry_of (get_default "expires_at" bundle_data (VStr "")));
      update_config new_version (get_default "bundle" bundle_data (VDict [])) expires_at ;;
      save_config_cache bundle_data ;;
      mret true.
Definition strip_slashes (url : string) : string := str_rev (strip_left_in ["/"%char] (str_rev url)).
Definition endpoints : list string :=
  control_plane_url config :: match secondary_control_plane_url config with Some "" | None => [] | Some u => [u] end.
Definition not_modified : SM (option bool) := now ← now_utc; assign (set_synced now) ;; mret (Some false).
(** One endpoint; nothing: the next one is tried. *)
Definition sync_from (net : network) (gateway_id base_url : string) : SM (option bool) :=
  applied ← read st_applied_config_version;
  match net (strip_slashes base_url +:+ "/v1/gateways/" +:+ gateway_id +:+ "/config?client_version=" +:+ py_str applied) with
  | Answer status body =>
      if status =? 304 then not_modified
      else
        except_py (
          data ← lift_py (parse_json body);
          assign (set_reachable true) ;;
          bundle_data ← lift_py (dict_of data);
          activated ← activate bundle_data;
          mret (Some activated))
          (mret None)
  | HTTPErr code => if code =? 304 then not_modified else mret None
  | Unreachable => mret None
  end.
Fixpoint try_endpoints {A} (f : string → SM (option A)) (urls : list string) (none : SM A) : SM A :=
  match urls with
  | [] => none
  | u :: urls => r ← f u; match r with Some a => mret a | None => try_endpoints f urls none end
  end.
Definition no_endpoint : SM bool := assign (set_reachable false) ;; mret false.
Definition gateway_id_of (s : SidecarState) : option string := match st_gateway_id s with Some "" | None => None | Some g => Some g end.
Definition sync_configuration_sync (net : network) : SM bool :=
  gateway ← read gateway_id_of;
  match gateway with
  | None => mret false
  | Some gateway_id => try_endpoints (sync_from net gateway_id) endpoints no_endpoint
  end.

(** The request that a heartbeat posts; the answer depends on its text. *)
Definition heartbeat_payload (s : SidecarState) (timestamp signature : string) : list (string * pyval) :=
  [("version", VStr (st_version s)); ("config_version", st_applied_config_version s);
   ("health", VDict [("cpu_percent", VFloat (f_of_ratio 12 10)); ("memory_percent", VFloat (f_of_ratio 45 10));
      ("total_requests", VInt (total_requests (st_metrics s))); ("error_count", VInt (error_count (st_metrics s)));
      ("config_version", st_applied_config_version s)]);
   ("timestamp", VStr timestamp); ("signature", VStr signature)].
Definition posts : Type := string → list (string * pyval) → response.
Definition heartbeat_to (net : network) (post : posts) (gateway_id : string) (payload : list (string * pyval)) (now : time) (base_url : string) :
    SM (option bool) :=
  match post (strip_slashes base_url +:+ "/v1/gateways/" +:+ gateway_id +:+ "/heartbeat") payload with
  | Answer _ body =>
      except_py (
        resp_data ← lift_py (parse_json body);
        assign (set_heartbeat now) ;;
        resp ← lift_py (dict_of resp_data);
        (if truthy (get "sync_required" resp) then sync_configuration_sync net ;; mret tt else mret tt) ;;
        mret (Some true))
        (mret None)
  | _ => mret None
  end.
Definition send_heartbeat_sync (net : network) (post : posts) : SM bool :=
  gateway ← read gateway_id_of;
  match gateway with
  | None => mret false
  | Some gateway_id =>
      now ← now_utc;
      applied ← read st_applied_config_version;
      sig ← sign_heartbeat gateway_id applied (strftime_z now);
      s ← read id;
      try_endpoints (heartbeat_to net post gateway_id (heartbeat_payload s (strftime_z now) sig) now) endpoints no_endpoint
  end.

(** ** The local decision ([evaluator.py]) *)

Record LocalDecision : Type := MkDecision {
  ld_decision : string; ld_code : string; ld_reason : string; ld_approval_required : bool
}.
Definition reject (code reason : string) : LocalDecision := MkDecision "REJECTED" code reason false.
Definition hold (code reason : string) : LocalDecision := MkDecision "PENDING_HUMAN_APPROVAL" code reason true.
Definition central (code reason : string) : LocalDecision := MkDecision "CENTRAL_CHECK_REQUIRED" code reason false.
Definition approve : LocalDecision :=
  MkDecision "LOCAL_APPROVED" "AUTHORIZED" "Request successfully verified and authorized by local Data Plane." false.

(** What is asked, by [LocalAuthorizeRequest]. *)
Record LocalAuthorizeRequest : Type := MkLocalRequest {
  lr_action : string; lr_resource : string; lr_agent_id : string; lr_amount : option float;
  lr_credentials : option (list (list (string * pyval))); lr_nonce : option string; lr_timestamp : option string; lr_force_offline : option bool
}.
(** [amount or 0.0] *)
Definition float_or_zero (o : option float) : float := match o with Some f => if f_eqb f (f_of_Z 0) then f_of_Z 0 else f | None => f_of_Z 0 end.
Definition high_amount (amount : float) : bool := f_ltb (f_of_Z 5000) amount.
Definition administrative (action : string) : bool := endswith ".delete" action || endswith ".admin" action.

Definition check_offline (is_offline : bool) (action : string) (amount : float) : option LocalDecision :=
  if negb is_offline then None
  else if eqb (offline_policy config) "FAIL_CLOSED" then
    Some (reject "OFFLINE_FAIL_CLOSED" "Control Plane is offline and gateway policy is FAIL_CLOSED.")
  else if eqb (offline_policy config) "LIMITED_OFFLINE" then
    if high_amount amount then
      Some (central "OFFLINE_HIGH_RISK_BLOCKED" ("High monetary value (" +:+ f_repr amount +:+ " USD) requires central Control Plane verification."))
    else if administrative action then
      Some (central "OFFLINE_ADMIN_BLOCKED" ("Administrative action '" +:+ action +:+ "' requires central Control Plane verification."))
    else None
  else Some (reject "INVALID_OFFLINE_POLICY" ("Unknown offline policy '" +:+ offline_policy config +:+ "'. Failing closed.")).

(** [cfg.get(k) or []], iterated. *)
Definition items_of (k : string) (cfg : pyval) : result PyExc (list pyval) :=
  d ← dict_of cfg; py_iter (py_or (get k d) (VList [])).
Definition required_type (item : pyval) : result PyExc pyval :=
  match item with VStr _ => Ok item | VDict d => Ok (get "type" d) | _ => Err AttributeError end.
Fixpoint missing_type (items : list pyval) (credentials : list (list (string * pyval))) : result PyExc (option pyval) :=
  match items with
  | [] => Ok None
  | item :: items =>
      ty ← required_type item;
      if truthy ty && negb (existsb (λ c, py_eq (get "credential_type" c) ty) credentials) then Ok (Some ty)
      else missing_type items credentials
  end.
(** [{r.get("id") for r in revocations if r.get("type") == kind}] *)
Fixpoint revoked_ids (kind : string) (revocations : list pyval) : result PyExc (list pyval) :=
  match revocations with
  | [] => Ok []
  | r :: revocations =>
      d ← dict_of r;
      if py_eq (get "type" d) (VStr kind) then
        if hashable (get "id" d) then ids ← revoked_ids kind revocations; Ok (get "id" d :: ids) else Err TypeError
      else revoked_ids kind revocations
  end.
(** [x in s] of a set. *)
Definition in_set (x : pyval) (s : list pyval) : result PyExc bool := if hashable x then Ok (py_in x s) else Err TypeError.
Fixpoint revoked_credential (ids : list pyval) (credentials : list (list (string * pyval))) : result PyExc (option pyval) :=
  match credentials with
  | [] => Ok None
  | c :: credentials =>
      let cid := get "credential_id" c in
      if truthy cid then
        found ← in_set cid ids;
        if (found : bool) then Ok (Some cid) else revoked_credential ids credentials
      else revoked_credential ids credentials
  end.

(** Step 4. *)
Definition check_trust (cfg : pyval) (agent_id : string) (credentials : list (list (string * pyval))) : result PyExc (option LocalDecision) :=
  required ← items_of "credential_requirements" cfg;
  missing ← missing_type required credentials;
  match missing with
  | Some ty => Ok (Some (reject "REQUIRED_CREDENTIAL_MISSING" ("Required credential type '" +:+ py_str ty +:+ "' not presented.")))
  | None =>
      revocations ← items_of "revocations" cfg;
      credential_ids ← revoked_ids "credential" revocations;
      hit ← revoked_credential credential_ids credentials;
      match hit with
      | Some cid => Ok (Some (reject "CREDENTIAL_REVOKED" ("Presented credential '" +:+ py_str cid +:+ "' has been revoked.")))
      | None =>
          agent_ids ← revoked_ids "agent" revocations;
          if py_in (VStr agent_id) agent_ids then
            Ok (Some (reject "AGENT_SUSPENDED" ("Agent '" +:+ agent_id +:+ "' is suspended or retired.")))
          else Ok None
      end
  end.
(** Step 5. *)
Definition check_risk (action : string) (amount : float) : option LocalDecision :=
  if high_amount amount then
    Some (hold "HIGH_VALUE_TRANSACTION" ("Transaction amount (" +:+ f_repr amount +:+ " USD) exceeds autonomous approval limit of $5,000."))
  else if administrative action then
    Some (hold "HIGH_RISK_CAPABILITY" ("Administrative action '" +:+ action +:+ "' requires explicit human approval."))
  else None.

(** Step 6: the rules of the APL policies in the bundle. *)
Definition apl_context (agent_id action resource : string) (amount : float) : list (string * pyval) :=
  [("agent", VDict [("id", VStr agent_id)]); ("agent.id", VStr agent_id); ("action", VStr action); ("resource", VStr resource);
   ("input", VDict [("amount", VFloat amount)]); ("input.amount", VFloat amount)].
Definition compare_floats (cmp : float → float → bool) (actual expected : pyval) : result PyExc bool :=
  match actual, expected with
  | VNone, _ | _, VNone => Ok false
  | _, _ => x ← py_float actual; y ← py_float expected; Ok (cmp x y)
  end.
Definition op_holds (op actual expected : pyval) : result PyExc bool :=
  match op with
  | VStr op =>
      if eqb op "eq" then Ok (py_eq actual expected)
      else if eqb op "gt" then compare_floats (λ x y, f_ltb y x) actual expected
      else if eqb op "gte" then compare_floats (λ x y, f_leb y x) actual expected
      else if eqb op "lt" then compare_floats f_ltb actual expected
      else if eqb op "lte" then compare_floats f_leb actual expected
      else if eqb op "in" then Ok (match expected with VList l => py_in actual l | _ => false end)
      else if eqb op "starts_with" then Ok (negb (py_eq actual VNone) && startswith (py_str expected) (py_str actual))
      else if eqb op "exists" then Ok (negb (py_eq actual VNone))
      else Ok false
  | _ => Ok false
  end.
Definition condition_holds (ctx : list (string * pyval)) (amount : float) (cond : pyval) : result PyExc bool :=
  d ← dict_of cond;
  let f := get "field" d in
  actual ← (if hashable f then Ok (match f with VStr k => get k ctx | _ => VNone end) else Err TypeError);
  actual ← match f with
           | VStr k => Ok (if startswith "input." k && py_eq actual VNone
                           then get (str_drop 6 k) [("amount", VFloat amount)] else actual)
           | _ => if truthy f then Err AttributeError else Ok actual
           end;
  op_holds (get_default "operator" d (VStr "eq")) actual (get "value" d).
Fixpoint all_hold (ctx : list (string * pyval)) (amount : float) (conds : list pyval) : result PyExc bool :=
  match conds with
  | [] => Ok true
  | c :: conds => m ← condition_holds ctx amount c; if (m : bool) then all_hold ctx amount conds else Ok false
  end.
Definition rule_matches (ctx : list (string * pyval)) (amount : float) (r : list (string * pyval)) : result PyExc bool :=
  let when := py_or (get "when" r) (get "conditions" r) in
  if truthy when then
    w ← dict_of when;
    conds ← py_iter (get_default "all" w (if is_some (dict_get "field" w) then VList [when] else VList []));
    all_hold ctx amount conds
  else Ok true.
Definition apply_rule (ctx : list (string * pyval)) (amount : float) (rule : pyval) : result PyExc (option LocalDecision) :=
  r ← dict_of rule;
  matched ← rule_matches ctx amount r;
  if negb matched then Ok None
  else
    let effect := py_upper (py_str (get_default "effect" r (VStr ""))) in
    let text (d : string) := "by APL/1.0 policy rule '" +:+ py_str (get "id" r) +:+ "': " +:+ py_str (get_default "description" r (VStr d)) in
    if eqb effect "DENY" then Ok (Some (reject "APL_POLICY_DENY" ("Denied " +:+ text "Policy Deny")))
    else if eqb effect "REQUIRE_APPROVAL" then
      Ok (Some (hold "APL_POLICY_REQUIRE_APPROVAL" ("Approval required " +:+ text "Policy Approval Required")))
    else Ok None.
(** The first decision of a list of steps. *)
Fixpoint first_decision {A} (f : A → result PyExc (option LocalDecision)) (l : list A) : result PyExc (option LocalDecision) :=
  match l with
  | [] => Ok None
  | a :: l => r ← f a; match r with Some d => Ok (Some d) | None => first_decision f l end
  end.
Definition apply_policy (ctx : list (string * pyval)) (amount : float) (ast : pyval) : result PyExc (option LocalDecision) :=
  d ← dict_of ast;
  rules ← py_iter (get_default "rules" d (VList []));
  first_decision (apply_rule ctx amount) rules.
Definition is_apl (p : pyval) : bool := match p with VDict d => py_eq (get "version" d) (VStr "APL/1.0") | _ => false end.
Definition is_plain (p : pyval) : bool := match p with VDict d => negb (py_eq (get "version" d) (VStr "APL/1.0")) | _ => false end.
Definition apl_policies (cfg : pyval) : result PyExc (list pyval) :=
  d ← dict_of cfg;
  if truthy (get "apl_policies" d) then py_iter (get "apl_policies" d)
  else ps ← py_iter (get_default "policies" d (VList [])); Ok (List.filter is_apl ps).

(** [x in v] of any value, and [any(text.startswith(a.replace("*", "")) for a in v)]. *)
Definition contains_star (v : pyval) : result PyExc bool :=
  match v with
  | VList l => Ok (py_in (VStr "*") l)
  | VStr s => Ok (contains "*" s)
  | VDict d => Ok (is_some (dict_get "*" d))
  | _ => Err TypeError
  end.
Fixpoint without_stars (s : string) : string :=
  match s with "" => "" | String c s => if eqb c "*"%char then without_stars s else String c (without_stars s) end.
Fixpoint any_prefix (text : string) (l : list pyval) : result PyExc bool :=
  match l with
  | [] => Ok false
  | VStr a :: l => if startswith (without_stars a) text then Ok true else any_prefix text l
  | _ :: _ => Err AttributeError
  end.
Definition pattern_match (text : string) (allowed : pyval) : result PyExc bool :=
  star ← contains_star allowed;
  if (star : bool) then Ok true else l ← py_iter allowed; any_prefix text l.
Fixpoint any_allows (action resource : string) (policies : list pyval) : result PyExc bool :=
  match policies with
  | [] => Ok false
  | p :: policies =>
      d ← dict_of p;
      action_match ← pattern_match action (py_or (get "allowed_actions" d) (VList []));
      resource_match ← pattern_match resource (py_or (get "allowed_resources" d) (VList []));
      if action_match && resource_match then Ok true else any_allows action resource policies
  end.
Definition check_policies (cfg : pyval) (agent_id action resource : string) (amount : float) : result PyExc LocalDecision :=
  apl ← apl_policies cfg;
  decided ← first_decision (apply_policy (apl_context agent_id action resource amount) amount) apl;
  match decided with
  | Some d => Ok d
  | None =>
      ps ← items_of "policies" cfg;
      let policies := List.filter is_plain ps in
      allowed ← match policies with [] => Ok true | _ => any_allows action resource policies end;
      Ok (if (allowed : bool) then approve
          else reject "PERMISSION_DENIED" ("Action '" +:+ action +:+ "' on resource '" +:+ resource +:+ "' not permitted by local policy."))
  end.

(** Steps 3 to 6: what follows from the request and the active configuration alone. *)
Definition judge (cfg : pyval) (is_offline : bool) (action resource agent_id : string) (amount : float)
    (credentials : list (list (string * pyval))) : result PyExc LocalDecision :=
  match check_offline is_offline action amount with
  | Some d => Ok d
  | None =>
      trust ← check_trust cfg agent_id credentials;
      match trust with
      | Some d => Ok d
      | None => match check_risk action amount with Some d => Ok d | None => check_policies cfg agent_id action resource amount end
      end
  end.
(** Step 1: a nonce that was seen in the last 300 seconds; otherwise it is kept. *)
Definition live_nonces (now_mono : Z) (n : gmap string Z) : gmap string Z := filter (λ kv, now_mono < kv.2) n.
Definition seen_before (nonce : option string) : SM bool :=
  match nonce with
  | None => mret false
  | Some nonce =>
      if eqb nonce "" then mret false
      else
        now_mono ← gets pc_monotonic;
        assign (λ s, set_nonces (live_nonces now_mono (st_processed_nonces s)) s) ;;
        (if ascii_text nonce then mret tt else throw (Raised ValueError)) ;;
        let nonce_hash := sha256_hex nonce in
        nonces ← read st_processed_nonces;
        if is_some (nonces !! nonce_hash) then mret true
        else assign (set_nonces (<[nonce_hash := now_mono + 300 * second]> nonces)) ;; mret false
  end.
(** Every answer is counted with its decision. *)
Definition answer (d : LocalDecision) (is_offline : bool) : SM LocalDecision := record_request (ld_decision d) is_offline ;; mret d.
(** Steps 2 to 6. *)
Definition decide_fresh (is_offline : bool) (action resource agent_id : string) (amount : float) (credentials : list (list (string * pyval))) :
    SM LocalDecision :=
  expired ← is_config_expired;
  if (expired : bool) then
    answer (reject "CONFIG_EXPIRED" "Cached configuration bundle has expired. Control Plane synchronization required.") is_offline
  else
    cfg ← read st_active_config;
    d ← lift_py (judge cfg is_offline action resource agent_id amount credentials);
    answer d is_offline.
Definition evaluate_local_request (action resource agent_id : string) (amount : float) (credentials : list (list (string * pyval)))
    (nonce : option string) (force_offline : bool) : SM LocalDecision :=
  reachable ← read st_control_plane_reachable;
  let is_offline := force_offline || negb reachable in
  replayed ← seen_before nonce;
  if (replayed : bool) then
    answer (reject "REPLAY_ATTACK_DETECTED" ("Nonce '" +:+ default "" nonce +:+ "' has already been processed.")) is_offline
  else decide_fresh is_offline action resource agent_id amount credentials.

(** ** Routing ([router.py]) *)

Definition _ip_to_int (ip_str : string) : option Z :=
  parts ← mapM py_int (split_on "." ip_str);
  match parts with
  | a :: b :: c :: d :: _ => Some (Z.shiftl a 24 + Z.shiftl b 16 + Z.shiftl c 8 + d)
  | _ => None
  end.
Definition BLOCKED_RANGES : list (string * string) :=
  [("127.0.0.0", "255.0.0.0"); ("169.254.0.0", "255.255.0.0"); ("0.0.0.0", "255.0.0.0")].
Definition rfc1918 : list (string * string) := [("10.0.0.0", "255.0.0.0"); ("172.16.0.0", "255.240.0.0"); ("192.168.0.0", "255.255.0.0")].
Definition in_range_of (ip_int : Z) (range : string * string) : bool :=
  match _ip_to_int range.2, _ip_to_int range.1 with Some mask, Some net => Z.land ip_int mask =? net | _, _ => false end.
Definition is_safe_ip (ip_str : string) (allow_private_ips : bool) : bool :=
  match _ip_to_int ip_str with
  | None => false
  | Some ip_int => negb (existsb (in_range_of ip_int) (BLOCKED_RANGES ++ if allow_private_ips then [] else rfc1918))
  end.
Definition forbidden_hosts : list string := ["localhost"; "127.0.0.1"; "::1"; "metadata.google.internal"].
(** [socket.gethostbyname_ex]: the addresses of a host, if it resolves.  An error from the
    outer result is a URL that cannot be parsed, the inner text is the reason of a refusal. *)
Definition validate_destination_url (resolve : string → option (list string)) (url_str : string) (allow_private_ips : bool) :
    result PyExc (option string) :=
  match urlsplit (py_strip url_str) with
  | None => Err ValueError
  | Some parsed =>
      if negb (existsb (eqb (url_scheme parsed)) ["http"; "https"]) then
        Ok (Some ("Unsupported scheme '" +:+ url_scheme parsed +:+ "'. Only http and https allowed."))
      else
        match url_hostname parsed with
        | None => Ok (Some "Missing destination hostname.")
        | Some hostname =>
            if existsb (eqb (py_lower hostname)) forbidden_hosts then Ok (Some ("Destination '" +:+ hostname +:+ "' is a forbidden host."))
            else
              match resolve hostname with
              | None => Ok (Some ("Failed to resolve destination '" +:+ hostname +:+ "': "))
              | Some resolved_ips =>
                  match find_first (λ ip, negb (is_safe_ip ip allow_private_ips)) resolved_ips with
                  | Some ip => Ok (Some ("Resolved IP '" +:+ ip +:+ "' for '" +:+ hostname +:+ "' is restricted (SSRF defense)."))
                  | None => Ok None
                  end
              end
        end
  end.

Definition generate_local_gateway_attestation (message_id : pyval) (source_addr target_addr : pyval) (capability : pyval) : SM string :=
  key ← get_or_create_local_keypair;
  now ← now_utc;
  gateway ← read gateway_id_of;
  let attestation_payload := VDict [("gateway_id", VStr (default "gw_sidecar" gateway)); ("message_id", message_id); ("source", source_addr);
    ("target", target_addr); ("capability", capability); ("timestamp", VStr (strftime_z now)); ("fingerprint", VStr key.2)] in
  let sig_b64 := b64encode (private_sign key.1.1 (canonical_json attestation_payload)) in
  mret (b64encode (json_plain (VDict [("attestation", attestation_payload); ("signature", VStr sig_b64)]))).
(** [party.get("address") or f"atp://.."] *)
Definition party_address (party : list (string * pyval)) : pyval :=
  py_or (get "address" party) (VStr ("atp://" +:+ py_str (get "organization_id" party) +:+ "/" +:+ py_str (get "agent_id" party))).
Inductive routed : Type :=
  | DeliveredLocally (target : pyval) (attestation : string)
  | SsrfBlocked (reason : string)
  | Delivered (target : pyval) (attestation : string) (answer : pyval)
  | DeliveryError.
(** The request that goes out: its URL, its body and the attestation. *)
Definition outbound : Type := string → list (string * pyval) → string → response.
Definition route_atp_message_direct (resolve : string → option (list string)) (send : outbound) (envelope : list (string * pyval))
    (target_endpoint_url : option string) (allow_private_ips : bool) : SM routed :=
  target ← lift_py (dict_of (py_or (get "target" envelope) (VDict [])));
  let target_addr := party_address target in
  source ← lift_py (dict_of (py_or (get "source" envelope) (VDict [])));
  attestation_header ← generate_local_gateway_attestation (get_default "message_id" envelope (VStr "")) (party_address source) target_addr
    (get_default "capability" envelope (VStr ""));
  match target_endpoint_url with
  | None | Some "" => mret (DeliveredLocally target_addr attestation_header)
  | Some url =>
      refused ← lift_py (validate_destination_url resolve url allow_private_ips);
      match refused with
      | Some reason => mret (SsrfBlocked reason)
      | None =>
          match send url envelope attestation_header with
          | Answer _ body =>
              mret (match parse_json body with Ok resp_data => Delivered target_addr attestation_header resp_data | Err _ => DeliveryError end)
          | _ => mret DeliveryError
          end
      end
  end.

(** ** Routes ([main.py]) *)

Definition lifespan_startup (net : network) (post : posts) : SM unit :=
  get_or_create_local_keypair ;;
  load_config_cache ;;
  match config_gateway_id config with
  | None | Some "" => mret tt
  | Some g => assign (set_gateway g) ;; sync_configuration_sync net ;; send_heartbeat_sync net post ;; mret tt
  end.
(** One round of [_background_sync_loop]. *)
Definition background_round (net : network) (post : posts) : SM unit :=
  except_py (send_heartbeat_sync net post ;; sync_configuration_sync net ;; mret tt) (mret tt).
Definition health_check : SM (list (string * pyval)) := get_health_summary.
(** Nothing: 503. *)
Definition readiness_check : SM (option (list (string * pyval))) :=
  summary ← get_health_summary;
  mret (if truthy (get "config_expired" summary) && eqb (offline_policy config) "FAIL_CLOSED" then None else Some summary).
Definition py_len (v : pyval) : result PyExc Z :=
  match v with
  | VList l => Ok (Z.of_nat (length l))
  | VStr s => Ok (Z.of_nat (String.length s))
  | VDict d => Ok (Z.of_nat (length d))
  | _ => Err TypeError
  end.
Definition count_of (k : string) (cfg : pyval) : result PyExc Z := d ← dict_of cfg; py_len (get_default k d (VList [])).
Definition detailed_status : SM (list (string * pyval)) :=
  s ← read id;
  policies ← lift_py (count_of "policies" (st_active_config s));
  issuers ← lift_py (count_of "trusted_issuers" (st_active_config s));
  revocations ← lift_py (count_of "revocations" (st_active_config s));
  mret [("gateway_id", opt_value (st_gateway_id s)); ("environment", VStr (config_environment config));
        ("deployment_type", VStr (config_deployment_type config)); ("offline_policy", VStr (offline_policy config));
        ("applied_config_version", st_applied_config_version s); ("control_plane_url", VStr (control_plane_url config));
        ("control_plane_reachable", VBool (st_control_plane_reachable s));
        ("active_config_summary", VDict [("policies_count", VInt policies); ("trusted_issuers_count", VInt issuers);
                                         ("revocations_count", VInt revocations)]);
        ("metrics", metrics_value (st_metrics s))].
Definition local_authorize (payload : LocalAuthorizeRequest) : SM LocalDecision :=
  evaluate_local_request (lr_action payload) (lr_resource payload) (lr_agent_id payload) (float_or_zero (lr_amount payload))
    (default [] (lr_credentials payload)) (lr_nonce payload) (default false (lr_force_offline payload)).
Definition forward_atp_message (resolve : string → option (list string)) (send : outbound) (envelope : list (string * pyval))
    (target_endpoint_url : option string) : SM routed :=
  route_atp_message_direct resolve send envelope target_endpoint_url (allow_private_ips config).
Definition trigger_manual_sync (net : network) (post : posts) : SM (bool * bool * pyval) :=
  updated ← sync_configuration_sync net;
  hb ← send_heartbeat_sync net post;
  version ← read st_applied_config_version;
  mret (updated, hb, version).
End sidecar.
End Sidecar.
