(* ===== verification/GatewayProps.v ===== *)
(** What the control plane guarantees ([GatewayControl]): a gateway that was stopped stays
    stopped, an enrollment token is used once, bundles are numbered without gaps, never
    change and are signed with one key, and an organization publishes for one environment
    only. *)
From Stdlib Require Import Ascii.
From S2P Require Import Prelude.
From S2P Require Import PyStr.
From S2P Require Import PyFloat.
From S2P Require Import PyVal.
From S2P Require Import PyDecimal.
From S2P Require Import AplParser.
From S2P Require Import Models.
From S2P Require Import IdentityModels.
From S2P Require Import FederationModels.
From S2P Require Import OperationsModels.
From S2P Require Import PyTime.
From S2P Require Import PyCodec.
From S2P Require Import PyNet.
From S2P Require Import Store.
From S2P Require Import Samples.
From S2P Require Import SecurityEvents.
From S2P Require Import Canonical.
From S2P Require Import Workspace.
From S2P Require Import Signing.
From S2P Require Import Lifecycle.
From S2P Require Import Frames.
From S2P Require Import Credentials.
From S2P Require Import CredentialProps.
From S2P Require Import GatewayControl.
From S2P Require Import Sidecar.

Local Open Scope string_scope.
Local Open Scope Z_scope.

Module GatewayProps.
Import Canonical Workspace Signing Lifecycle Frames Credentials CredentialProps GatewayControl Sidecar.

(** ** Programs as sequences of committed steps

    The state beside the session may change with every step; [good] is what it keeps. *)
Section programs.
Context {K : Type} (step : relation (K * tables)) (good : K → Prop).
Definition ends {A} (out : result Exc A * (K * session)) (from : K * tables) : Prop :=
  rtc step from (out.2.1, committed out.2.2) ∧ good out.2.1 ∧ (is_Ok out.1 → clean out.2.2).
Definition does {A} (m : M (K * session) Exc A) : Prop := ∀ k s, good k → clean s → ends (m (k, s)) (k, committed s).

Lemma does_bind {A B} (m : M (K * session) Exc A) (f : A → M (K * session) Exc B) : does m → (∀ a, does (f a)) → does (m ≫= f).
Proof.
  intros Hm Hf k s Hk Hs. rewrite bind_run. destruct (Hm k s Hk Hs) as (M1 & M2 & M3). destruct (m (k, s)) as [[a|e] [k' s']]; simpl in *.
  - destruct (Hf a k' s' M2 (M3 (ex_intro _ a eq_refl))) as (F1 & F2 & F3). split_and!; [by etrans | done | done].
  - split_and!; [done | done | by intros [? ?]].
Qed.
Lemma does_ret {A} (a : A) : does (mret a).
Proof. intros k s Hk Hs. by split_and!. Qed.
Lemma does_result {A} (r : result Exc A) : does (lift_result r).
Proof. intros k s Hk Hs. by split_and!. Qed.
Lemma does_read {A} (m : DB A) : reads m → does (lift_db m).
Proof.
  intros Hm k s Hk Hs. specialize (Hm s). unfold ends, lift_db. cbn [fst snd]. destruct (m s) as [r s']. cbn in *. subst s'. by split_and!.
Qed.
Lemma does_http {A} (m : M (K * session) Exc A) : does m → does (control_as_http m).
Proof.
  intros Hm k s Hk Hs. unfold control_as_http, try_except. destruct (Hm k s Hk Hs) as (M1 & M2 & M3).
  destruct (m (k, s)) as [[a|e] [k' s']]; simpl in *; [by split_and!|]. destruct e; (split_and!; [exact M1 | exact M2 | by intros [? ?]]).
Qed.
(** A program of the session alone, by its steps from the tables at hand. *)
Lemma does_lift {A} (m : DB A) :
  (∀ k s, good k → clean s → rtc step (k, committed s) (k, committed (m s).2) ∧ (is_Ok (m s).1 → clean (m s).2)) → does (lift_db m).
Proof. intros Hm k s Hk Hs. destruct (Hm k s Hk Hs). unfold ends, lift_db. cbn [fst snd]. by destruct (m s) as [r s']. Qed.
Lemma lift_http {A} (m : DB A) k s : lift_db (control_as_http m) (k, s) = control_as_http (S := K * session) (lift_db m) (k, s).
Proof. unfold lift_db, control_as_http, try_except. cbn [fst snd]. destruct (m s) as [[a|e] s']; [done | by destruct e]. Qed.
Lemma does_lift_http {A} (m : DB A) : does (lift_db m) → does (lift_db (control_as_http m)).
Proof. intros Hm k s Hk Hs. rewrite lift_http. by apply does_http. Qed.
Lemma lift_db_bind {A B} (m : DB A) (f : A → M (K * session) Exc B) k s :
  (lift_db m ≫= f) (k, s) = match m s with (Ok a, s') => f a (k, s') | (Err e, s') => (Err e, (k, s')) end.
Proof. rewrite bind_run. unfold lift_db. simpl. by destruct (m s) as [[a|e] s']. Qed.
End programs.

Lemma query_reads {A} (f : tables → A) : reads (query f).
Proof. apply respects_gets, _. Qed.
Lemma now_reads : reads now_db.
Proof. apply respects_gets, _. Qed.

Abbreviation world := (cp_store * tables)%type.
Section control.
Context `{Entropy} `{Loaders} `{IssuerKeys} `{Ed25519} `{ControlPlane}.

(** ** The key of the control plane *)

(** The key that is, or will be read as, the one of this control plane. *)
Definition settled (cp : cp_store) (k : string) : Prop :=
  (cp_private_key cp = Some k ∨ cp_private_key cp = None) ∧
  match control_plane_pem with Some k' => k' = k | None => cp_key_file cp = Some (Ed25519Pem k) end.
Definition store_ok (cp : cp_store) : Prop := cp_private_key cp = None ∨ ∃ k, settled cp k.
Definition key_moves (cp cp' : cp_store) : Prop := store_ok cp' ∧ ∀ k, settled cp k → settled cp' k.

Lemma settled_unique cp k k' : settled cp k → settled cp k' → k = k'.
Proof. intros [_ S] [_ S']. destruct control_plane_pem; congruence. Qed.
Lemma ensure_keys_run cp s : store_ok cp →
  ∃ k cp' s', _ensure_control_plane_keys (cp, s) = (Ok k, (cp', s')) ∧ settled cp' k ∧ key_moves cp cp' ∧
    cur s' = cur s ∧ committed s' = committed s ∧ dead s' = dead s ∧ db_now s' = db_now s.
Proof.
  intros Hok. unfold _ensure_control_plane_keys. cbn [fst snd].
  assert (Hmoves : ∀ k file, match control_plane_pem with Some k' => k' = k | None => file = Some (Ed25519Pem k) end →
    (∀ j, settled cp j → j = k) → settled (MkCpStore (Some k) file) k ∧ key_moves cp (MkCpStore (Some k) file)).
  { intros k file Hk Huniq. assert (Hs : settled (MkCpStore (Some k) file) k) by (split; [by left | done]).
    split; [done|]. split; [right; by exists k|]. intros j Hj. by rewrite (Huniq j Hj). }
  destruct (cp_private_key cp) as [k|] eqn:Hc.
  - destruct Hok as [Hn|[k' Hk']]; [congruence|]. assert (k' = k) as -> by (destruct Hk' as [[?|?] _]; congruence).
    exists k, cp, s. split_and!; try done. split; [right; by exists k | done].
  - destruct control_plane_pem as [k|] eqn:He.
    + destruct (Hmoves k (cp_key_file cp) eq_refl) as [H4 H5]; [intros j [_ Hj]; by rewrite He in Hj|].
      eexists k, _, s. split_and!; try done.
    + destruct (cp_key_file cp) as [[k|]|] eqn:Hf.
      2,3: match goal with |- context [MkCpStore (Some ?k) ?f] =>
             destruct (Hmoves k f eq_refl) as [H4 H5]; [intros j [_ Hj]; rewrite He in Hj; congruence|] end;
           eexists _, _, _; split_and!; [reflexivity | exact H4 | exact H5 | done..].
      destruct (Hmoves k (Some (Ed25519Pem k)) eq_refl) as [H4 H5]; [intros j [_ Hj]; rewrite He in Hj; congruence|].
      eexists k, _, s. split_and!; try done.
Qed.

(** ** Steps *)

Definition stopped_gateway (g : EnterpriseGateway) : bool := stopped_status (gw_status g).
(** What a request may make of a gateway that was loaded. *)
Inductive row_moves (g : EnterpriseGateway) : EnterpriseGateway → Prop :=
  | row_enrolled req raw now : stopped_gateway g = false → is_some (enrollment_token g) = true → row_moves g (enrolled g req raw now)
  | row_beaten req now : stopped_gateway g = false → row_moves g (beaten g req now)
  | row_suspended now : row_moves g (suspended g now)
  | row_revoked now : row_moves g (revoked g now).
Definition made_by (k : string) (b : GatewayConfigBundle) : Prop :=
  ∃ id org env version content user now expires_at,
    b = signed_bundle id org env version content user now expires_at k.
Inductive control_step : relation (cp_store * tables) :=
  | step_key cp cp' t : key_moves cp cp' → control_step (cp, t) (cp', t)
  | step_event cp t f : control_step (cp, t) (cp, upd_security_events f t)
  | step_register cp t g : new_gateway_ok g t = true → stopped_gateway g = false → control_step (cp, t) (cp, upd_gateways <[gw_id g := g]> t)
  | step_gateway cp t x g g' f : gateway_table t !! x = Some g → row_moves g g' →
      control_step (cp, t) (cp, upd_security_events f (upd_gateways <[gw_id g := g']> t))
  | step_publish cp t k b : settled cp k → made_by k b → gb_config_version b = latest_version (gb_organization_id b) (gb_environment b) t + 1 →
      new_bundle_ok b t = true → control_step (cp, t) (cp, upd_bundles <[gb_id b := b]> t).

Lemma no_events t : upd_security_events (λ l, l) t = t.
Proof. by destruct t. Qed.
Lemma step_row cp t x g g' : gateway_table t !! x = Some g → row_moves g g' → control_step (cp, t) (cp, upd_gateways <[gw_id g := g']> t).
Proof. intros Hx Hg. pose proof (step_gateway cp t x g g' (λ l, l) Hx Hg) as Hs. by rewrite no_events in Hs. Qed.

Notation cdoes := (does control_step store_ok).

(** A commit of its own for an event. *)
Lemma event_run {A} (e : SecurityEvent) (k : DB A) s : clean s →
  (add_security_event e ;; commit ;; k) s = (if opt_check (fits 255) (se_description e)
    then k (let t := upd_security_events (λ l, l ++ [e])%list (cur s) in MkSession t t false (seed s) (db_now s))
    else (Err IntegrityError, MkSession (committed s) (committed s) true (seed s) (db_now s))).
Proof.
  intros [Hd _]. unfold add_security_event. rewrite bind_insert by done. destruct (opt_check _ _); [|done].
  by rewrite bind_commit.
Qed.
Lemma row_event_run {A} (g : EnterpriseGateway) (e : SecurityEvent) (k : DB A) s : clean s →
  (save_gateway g ;; add_security_event e ;; commit ;; k) s = (if gateway_fits g && opt_check (fits 255) (se_description e)
    then k (let t := upd_security_events (λ l, l ++ [e])%list (upd_gateways <[gw_id g := g]> (cur s)) in MkSession t t false (seed s) (db_now s))
    else (Err IntegrityError, MkSession (committed s) (committed s) true (seed s) (db_now s))).
Proof.
  intros [Hd Hc]. unfold save_gateway. rewrite bind_insert by done. destruct (gateway_fits g); [|done]. unfold add_security_event.
  rewrite bind_insert by done. destruct (opt_check _ _); [|done]. by rewrite bind_commit.
Qed.
Ltac halted := split; [reflexivity | let x := fresh in let Hx := fresh in intros [x Hx]; discriminate Hx].

Lemma register_does org req : cdoes (lift_db (register_enterprise_gateway org req)).
Proof.
  apply does_lift. intros cp s Hg [Hd Hc]. unfold register_enterprise_gateway. rewrite bind_get_or.
  destruct (organization_active org (cur s)); [|halted].
  unfold generate_enrollment_token, generate_gateway_id. rewrite !bind_assoc, bind_fresh_hex, bind_ret, bind_assoc, bind_fresh_hex, bind_ret, bind_fresh_uuid, bind_now.
  set (s1 := next_seed (next_seed (next_seed s))). set (g := new_gateway _ _ _ _ _ _). rewrite bind_insert by done.
  change (cur s1) with (cur s). destruct (new_gateway_ok g (cur s)) eqn:Hok; [|halted]. rewrite bind_commit by done.
  rewrite event_run by done. rewrite Hc in *.
  assert (Hstep : control_step (cp, committed s) (cp, upd_gateways <[gw_id g := g]> (committed s))) by (by apply step_register).
  destruct (opt_check _ _); cbn.
  - split; [|intros _; by split]. eapply rtc_l; [exact Hstep|]. apply rtc_once, step_event.
  - split; [by apply rtc_once | by intros [? ?]].
Qed.

Lemma find_gateway_found gid (t : tables) g : gateway_by gid t = Ok (Some g) → gw_gateway_id g = gid ∧ ∃ x, gateway_table t !! x = Some g.
Proof. intros ((x & Hx) & Hp & _)%one_some. apply (proj1 (eqb_true _ _)) in Hp. by split; [|exists x]. Qed.

(** Enrolling, from its first line to its commit. *)
Lemma enroll_run gid req s : clean s →
  (¬ is_Ok (enroll_row gid req s).1 ∧ ∃ f, committed (enroll_row gid req s).2 = upd_security_events f (committed s)) ∨
  ∃ g x raw now f, gateway_by gid (cur s) = Ok (Some g) ∧ gateway_table (cur s) !! x = Some g ∧ stopped_gateway g = false ∧
    is_some (enrollment_token g) = true ∧
    let g' := enrolled g req raw now in
    enroll_row gid req s = (Ok g', let t := upd_security_events f (upd_gateways <[gw_id g' := g']> (cur s)) in
      MkSession t t false (seed s) (db_now s)).
Proof.
  intros [Hd Hc]. unfold enroll_row, find_gateway. rewrite one_or_run.
  assert (Hno : ∀ e, ¬ is_Ok (Err e : result Exc EnterpriseGateway) ∧ ∃ f, committed s = upd_security_events f (committed s)).
  { intros e. split; [by intros [? ?] | exists (λ l, l); by rewrite no_events]. }
  destruct (gateway_by gid (cur s)) as [[g|]|] eqn:Hg; [|left; apply Hno..].
  destruct (find_gateway_found _ _ _ Hg) as (_ & x & Hx).
  rewrite bind_raise_if. fold (stopped_gateway g). destruct (stopped_gateway g) eqn:Hst; [left; apply Hno|]. rewrite bind_now.
  destruct (enrollment_token g) as [[h e]|] eqn:Ht; [|left; apply Hno].
  rewrite bind_raise_if. destruct (e <? _); [left; apply Hno|].
  destruct (ascii_bytes _) as [provided|]; [|left; apply Hno].
  change ((lift_result (Ok provided) ≫= ?k) s) with (k provided s). cbv beta.
  destruct (negb _).
  { left. unfold refuse_with. rewrite event_run by done. destruct (opt_check _ _); [|apply Hno]. cbn.
    split; [by intros [? ?]|]. rewrite Hc. by eexists. }
  destruct (read_gateway_key _) as [raw|]; [|left; apply Hno].
  change ((lift_result (Ok raw) ≫= ?k) s) with (k raw s). cbv beta.
  set (g' := enrolled g req raw (db_now s)). rewrite row_event_run by done. destruct (gateway_fits g' && _); [|left; apply Hno].
  right. exists g, x, raw, (db_now s). eexists. split_and!; try done. by rewrite Ht.
Qed.
Lemma enroll_row_does gid req : cdoes (lift_db (enroll_row gid req)).
Proof.
  apply does_lift. intros cp s Hg Hs. destruct (enroll_run gid req s Hs) as [[Hno [f Hf]]|(g & x & raw & now & f & Hgid & Hx & Hst & Ht & Hrun)].
  - split; [rewrite Hf; apply rtc_once, step_event | done].
  - cbv zeta in Hrun. rewrite Hrun. cbn [fst snd committed]. split; [|intros _; by split]. destruct Hs as [_ Hc]. rewrite Hc in *.
    apply rtc_once. eapply (step_gateway cp _ x g (enrolled g req raw now) f Hx). by apply row_enrolled.
Qed.
Lemma ensure_does : cdoes _ensure_control_plane_keys.
Proof.
  intros cp s Hg [Hd Hc]. destruct (ensure_keys_run cp s Hg) as (k & cp' & s' & Hrun & Hset & Hmoves & H5 & H6 & H7 & _). unfold ends. rewrite Hrun.
  cbn [fst snd]. split_and!; [rewrite H6; apply rtc_once, step_key, Hmoves | right; by exists k | intros _; split; congruence].
Qed.
Lemma enroll_does gid req : cdoes (enroll_enterprise_gateway gid req).
Proof.
  apply does_bind; [apply enroll_row_does|]. intros g. apply does_bind; [|intros cp].
  { apply does_bind; [apply ensure_does | intros k; apply does_ret]. }
  apply does_bind; [apply does_read, query_reads | intros v; apply does_ret].
Qed.
Lemma heartbeat_does gid req : cdoes (lift_db (verify_gateway_heartbeat gid req)).
Proof.
  apply does_lift. intros cp s Hg [Hd Hc]. unfold verify_gateway_heartbeat, find_gateway. rewrite one_or_run.
  destruct (gateway_by gid (cur s)) as [[g|]|] eqn:Hgid; [|halted..]. destruct (find_gateway_found _ _ _ Hgid) as (_ & x & Hx).
  rewrite bind_raise_if. destruct (eqb (gw_status g) "REVOKED") eqn:Hrev; [halted|].
  rewrite bind_raise_if. destruct (eqb (gw_status g) "SUSPENDED") eqn:Hsus; [halted|].
  rewrite bind_raise_if. destruct (eqb _ ""); [halted|]. rewrite bind_now, bind_raise_if. destruct (match heartbeat_moment _ with Some hb => 300 * second <? Z.abs (db_now s - hb) | None => true end); [halted|].
  destruct (negb _).
  - unfold refuse_with. rewrite event_run by done. destruct (opt_check _ _); [|halted]. cbn. rewrite Hc.
    split; [apply rtc_once, step_event | by intros [? ?]].
  - set (g' := beaten g req (db_now s)). unfold save_gateway. rewrite bind_insert by done. destruct (gateway_fits g'); [|halted].
    rewrite bind_commit by done. rewrite bind_query. cbn. rewrite Hc in *. split; [|intros _; by split]. apply rtc_once.
    apply (step_row cp _ x g g' Hx). apply row_beaten. unfold stopped_gateway, stopped_status. by rewrite Hrev, Hsus.
Qed.

Lemma key_moves_refl cp : store_ok cp → key_moves cp cp.
Proof. by split. Qed.
(** Publishing: nothing but the key store moves, or the next bundle is committed. *)
Record publication (org : uuid) (req : GatewayPublishConfigRequest) (t : tables) (now : time) (cp' : cp_store) (b : GatewayConfigBundle) : Prop := {
  pub_key : ∃ k, settled cp' k ∧ made_by k b;
  pub_org : gb_organization_id b = org;
  pub_env : gb_environment b = py_lower (pr_environment req);
  pub_version : gb_config_version b = latest_version org (py_lower (pr_environment req)) t + 1;
  pub_ok : new_bundle_ok b t = true;
  pub_content : gathered org req t = Ok (gb_bundle_json b);
  pub_created : gb_created_at b = now;
  pub_expires : gb_expires_at b = now + validity_hours req * hour
}.
Definition published (b : GatewayConfigBundle) (t : tables) : tables := upd_bundles <[gb_id b := b]> t.
Lemma publish_run org req user cp s : store_ok cp → clean s →
  let out := build_and_publish_config org req user (cp, s) in
  key_moves cp out.2.1 ∧
  ((¬ is_Ok out.1 ∧ committed out.2.2 = committed s) ∨
   ∃ b, publication org req (committed s) (db_now s) out.2.1 b ∧
     ((¬ is_Ok out.1 ∧ committed out.2.2 = published b (committed s)) ∨
      ∃ f, out.1 = Ok b ∧ clean out.2.2 ∧ db_now out.2.2 = db_now s ∧ committed out.2.2 = upd_security_events f (published b (committed s)))).
Proof.
  intros Hg [Hd Hc]. cbv zeta. unfold build_and_publish_config. repeat (rewrite lift_db_bind; cbn [now_db query gets]).
  destruct (gathered org req (cur s)) as [content|e] eqn:Hgath;
    [|split; [by apply key_moves_refl | left; split; [by intros [? ?] | done]]].
  match goal with |- context [(lift_result (Ok content) ≫= ?k) (cp, s)] => change ((lift_result (Ok content) ≫= k) (cp, s)) with (k content (cp, s)) end.
  cbv beta. rewrite bind_run. destruct (ensure_keys_run cp s Hg) as (k & cp' & s' & Hrun & Hset & Hmoves & E1 & E2 & E3 & E4). rewrite Hrun.
  unfold lift_db. cbn [fst snd]. unfold store_bundle. rewrite bind_fresh_uuid.
  set (b := signed_bundle _ _ _ _ _ _ _ _ _). rewrite bind_insert by (cbn; congruence). change (cur (next_seed s')) with (cur s'). rewrite E1.
  destruct (new_bundle_ok b (cur s)) eqn:Hok.
  2:{ split; [exact Hmoves|]. left. split; [by intros [? ?] | exact E2]. }
  assert (Hpub : publication org req (committed s) (db_now s) cp' b).
  { rewrite <- Hc. split; try done. exists k. split; [done|]. repeat eexists. }
  rewrite bind_commit by (cbn; congruence). rewrite event_run by (split; done).
  destruct (opt_check _ _); cbn [fst snd]; (split; [exact Hmoves|]; right; exists b; split; [exact Hpub|]).
  - right. eexists. split_and!; [done | by split | exact E4 |]. cbn. rewrite Hc. reflexivity.
  - left. split; [by intros [? ?]|]. cbn. by rewrite Hc.
Qed.
Lemma publication_step org req t now cp' b : publication org req t now cp' b → control_step (cp', t) (cp', published b t).
Proof. intros [[k [Hk Hm]] <- He Hv Hok _ _ _]. apply (step_publish cp' t k b Hk Hm); [by rewrite Hv, He | done]. Qed.
Lemma publish_does org req user : cdoes (build_and_publish_config org req user).
Proof.
  intros cp s Hg Hs. destruct (publish_run org req user cp s Hg Hs) as [Hm Hcases]. unfold ends.
  destruct (build_and_publish_config org req user (cp, s)) as [r [cp' s']]. cbn [fst snd] in *.
  assert (Hkey : rtc control_step (cp, committed s) (cp', committed s)) by (by apply rtc_once, step_key).
  assert (Hgood : store_ok cp') by (by destruct Hm).
  destruct Hcases as [[Hno Hsame]|(b & Hpub & [[Hno Hsame]|(f & Hr & Hcl & _ & Hsame)])]; rewrite Hsame.
  - split_and!; done.
  - split_and!; [|done..]. etrans; [exact Hkey|]. eapply rtc_once, publication_step, Hpub.
  - split_and!; [|done..]. etrans; [exact Hkey|]. eapply rtc_l; [eapply publication_step, Hpub|]. apply rtc_once, step_event.
Qed.
Lemma rollback_does org v user : cdoes (rollback_gateway_config org v user).
Proof.
  apply does_bind; [apply does_read, one_or_reads|]. intros target. apply does_bind; [apply publish_does|]. intros b.
  apply does_lift. intros cp s Hg [Hd Hc]. rewrite bind_now, event_run by done. destruct (opt_check _ _); [|halted]. cbn. rewrite Hc.
  split; [apply rtc_once, step_event | intros _; by split].
Qed.
Lemma download_does gid v : cdoes (get_signed_config_bundle gid v).
Proof.
  apply does_bind; [apply does_read, one_or_reads|]. intros g. apply does_bind; [apply does_read, respects_raise_if, _|]. intros _.
  apply does_bind; [apply does_read, query_reads|]. intros latest. apply does_bind; [|intros b; apply does_ret].
  destruct latest; [apply does_ret | apply publish_does].
Qed.
Lemma stop_does stop ty sev verb gid org : (∀ g now, row_moves g (stop g now)) → (∀ g now, gw_id (stop g now) = gw_id g) →
  cdoes (lift_db (stop_gateway stop ty sev verb gid org)).
Proof.
  intros Hmoves Hid. apply does_lift. intros cp s Hg [Hd Hc]. unfold stop_gateway. rewrite one_or_run.
  destruct (gateway_of org gid (cur s)) as [[g|]|] eqn:Hgw; [|halted..]. apply one_some in Hgw as ((x & Hx) & _ & _).
  rewrite bind_now, row_event_run by done. destruct (gateway_fits _ && _); [|halted]. cbn. rewrite Hc in *. split; [|intros _; by split].
  apply rtc_once. rewrite Hid. eapply (step_gateway cp _ x g); [exact Hx | apply Hmoves].
Qed.

(** ** Requests *)

Inductive control_request : Type :=
  | Register (org : Organization) (payload : GatewayRegistrationRequest)
  | Enroll (gateway_id : string) (payload : GatewayEnrollRequest)
  | Heartbeat (gateway_id : string) (payload : GatewayHeartbeatRequest)
  | Download (gateway_id : string) (client_version : option Z)
  | Publish (org : Organization) (payload : GatewayPublishConfigRequest) (user : uuid)
  | Rollback (org : Organization) (target_version : Z) (user : uuid)
  | Suspend (org : Organization) (gateway_id : string)
  | RevokeGateway (org : Organization) (gateway_id : string)
  | Restart.
Inductive control_reply : Type := EnrolledAs (r : GatewayEnrollResponse) | Config (o : option (list (string * pyval))) | Done.
(** A restart of the process forgets the key in memory. *)
Definition handle (r : control_request) : CDB control_reply :=
  match r with
  | Register org p => lift_db (register_gateway_in org p) ;; mret Done
  | Enroll gid p => r ← enroll_gateway_endpoint gid p; mret (EnrolledAs r)
  | Heartbeat gid p => lift_db (heartbeat_endpoint gid p) ;; mret Done
  | Download gid v => o ← download_config_endpoint gid v; mret (Config o)
  | Publish org p user => publish_config_in org p user ;; mret Done
  | Rollback org v user => rollback_config_in org v user ;; mret Done
  | Suspend org gid => lift_db (suspend_gateway_in org gid) ;; mret Done
  | RevokeGateway org gid => lift_db (revoke_gateway_in org gid) ;; mret Done
  | Restart => λ ks, (Ok Done, (MkCpStore None (cp_key_file ks.1), ks.2))
  end.
Lemma handle_does r : cdoes (handle r).
Proof.
  assert (Hend : ∀ A B (m : CDB A) (f : A → B), cdoes m → cdoes (a ← m; mret (f a)))
    by (intros A B m f Hm; apply does_bind; [done | intros a; apply does_ret]).
  destruct r; cbn [handle].
  - apply Hend with (f := λ _, Done), does_lift_http, register_does.
  - apply Hend, does_http, enroll_does.
  - apply Hend with (f := λ _, Done), does_lift_http, heartbeat_does.
  - apply Hend, does_http, download_does.
  - apply Hend with (f := λ _, Done), does_http, publish_does.
  - apply Hend with (f := λ _, Done), does_http, rollback_does.
  - apply Hend with (f := λ _, Done), does_lift_http, stop_does; [apply row_suspended | done].
  - apply Hend with (f := λ _, Done), does_lift_http, stop_does; [apply row_revoked | done].
  - intros cp s Hg Hs. unfold ends. cbn [fst snd]. split_and!; [|by left | done]. apply rtc_once, step_key. split; [by left|].
    intros k [_ Hk]. split; [by right | exact Hk].
Qed.

Record incoming : Type := MkIncoming { ca_request : control_request; ca_seed : nat; ca_now : time }.
Definition serve (w : world) (c : incoming) : result Exc control_reply * world :=
  let '(r, (cp, s)) := handle (ca_request c) (w.1, open_session w.2 (ca_seed c) (ca_now c)) in (r, (cp, committed s)).
Definition serve_all (w : world) (l : list incoming) : world := foldl (λ w c, (serve w c).2) w l.
Fixpoint replies (w : world) (l : list incoming) : list (result Exc control_reply) :=
  match l with [] => [] | c :: l => (serve w c).1 :: replies (serve w c).2 l end.
Lemma serve_steps w c : store_ok w.1 → rtc control_step w (serve w c).2 ∧ store_ok (serve w c).2.1.
Proof.
  intros Hw. destruct (handle_does (ca_request c) w.1 (open_session w.2 (ca_seed c) (ca_now c)) Hw) as (H4 & H5 & _); [by split|].
  unfold serve. destruct (handle _ _) as [r [cp s]]. destruct w. cbn in *. done.
Qed.
Lemma serve_all_steps w l : store_ok w.1 → rtc control_step w (serve_all w l) ∧ store_ok (serve_all w l).1.
Proof.
  revert w. induction l as [|c l IH]; intros w Hw; [done|]. destruct (serve_steps w c Hw) as [H4 H5]. destruct (IH (serve w c).2 H5) as [H6 H7].
  split; [by etrans | done].
Qed.

(** *** Gateways *)

Definition gw_stopped (g : EnterpriseGateway) : option time := marked (stopped_gateway g).
Definition gw_spent (g : EnterpriseGateway) : option time := marked (negb (is_some (gw_enrollment_token_hash g))).
(** The primary keys are right and the public identifiers are unique. *)
Definition gateways_ok (t : tables) : Prop := one_time_ok gw_id gw_gateway_id (gateway_table t).
Definition stopped_in (gid : string) (t : tables) : Prop := gone gw_gateway_id gw_stopped gid (gateway_table t).
Definition spent_in (gid : string) (t : tables) : Prop := gone gw_gateway_id gw_spent gid (gateway_table t).

Lemma row_moves_kept g g' : row_moves g g' → gw_id g' = gw_id g ∧ gw_gateway_id g' = gw_gateway_id g ∧
  (is_some (gw_stopped g) = true → is_some (gw_stopped g') = true) ∧ (is_some (gw_spent g) = true → is_some (gw_spent g') = true).
Proof.
  unfold gw_stopped, gw_spent. intros []; (split_and!; [done | done | |]); try done.
  - by rewrite H4.
  - by rewrite H4.
Qed.
Lemma step_gateways (used : EnterpriseGateway → option time) w w' :
  (∀ g g', row_moves g g' → is_some (used g) = true → is_some (used g') = true) →
  control_step w w' → one_time_step gw_id gw_gateway_id used (gateway_table w.2) (gateway_table w'.2).
Proof.
  intros Hused Hstep. destruct Hstep as [cp cp' t|cp t f|cp t g Hok Hst|cp t x g g' f Hx Hg|cp t k b]; cbn [snd]; try reflexivity.
  - unfold new_gateway_ok in Hok. rewrite !andb_true_iff, !negb_true_iff, !is_some_false in Hok. destruct Hok as [[[Hid Hnew] _] _].
    by apply one_time_insert.
  - destruct (row_moves_kept g g' Hg) as (Hid & Hgid & _). rewrite <- Hid. exact (one_time_replace gw_id gw_gateway_id used _ x g g' Hx Hid Hgid (Hused _ _ Hg)).
Qed.
Lemma steps_gateways (used : EnterpriseGateway → option time) w w' :
  (∀ g g', row_moves g g' → is_some (used g) = true → is_some (used g') = true) →
  rtc control_step w w' → one_time_step gw_id gw_gateway_id used (gateway_table w.2) (gateway_table w'.2).
Proof. intros Hused Hs. induction Hs as [w|w w1 w2 Hs _ IH]; [reflexivity|]. etrans; [by eapply step_gateways | exact IH]. Qed.
Lemma stopped_stays w w' gid : gateways_ok w.2 → rtc control_step w w' → stopped_in gid w.2 → gateways_ok w'.2 ∧ stopped_in gid w'.2.
Proof. intros Hok Hs Hg. destruct (steps_gateways gw_stopped w w') with (3 := Hok) as [H4 H5]; [by intros g g' (_ & _ & ? & _)%row_moves_kept | done | split; [exact H4 | by apply H5]]. Qed.
Lemma gateway_spent_kept w w' gid : gateways_ok w.2 → rtc control_step w w' → spent_in gid w.2 → gateways_ok w'.2 ∧ spent_in gid w'.2.
Proof. intros Hok Hs Hg. destruct (steps_gateways gw_spent w w') with (3 := Hok) as [H4 H5]; [by intros g g' (_ & _ & _ & ?)%row_moves_kept | done | split; [exact H4 | by apply H5]]. Qed.
Lemma gateways_kept w w' : gateways_ok w.2 → rtc control_step w w' → gateways_ok w'.2.
Proof. intros Hok Hs. destruct (steps_gateways gw_spent w w') with (3 := Hok) as [H4 _]; [by intros g g' (_ & _ & _ & ?)%row_moves_kept | done..]. Qed.

Lemma marked_is b : is_some (marked b) = b.
Proof. by destruct b. Qed.
(** The one gateway of an identifier is found by it. *)
Lemma gateway_found t x g : gateways_ok t → gateway_table t !! x = Some g → gateway_by (gw_gateway_id g) t = Ok (Some g).
Proof.
  intros [_ Hone] Hx. apply (one_unique _ _ x); [|done | by rewrite eqb_refl]. intros i j a b Ha Hb Ia Ib.
  apply (proj1 (eqb_true _ _)) in Ia, Ib. apply (Hone i j a b Ha Hb). congruence.
Qed.
Definition asks_for (gid : string) (r : control_request) : bool :=
  match r with Enroll g _ | Heartbeat g _ | Download g _ => eqb g gid | _ => false end.
Lemma stopped_refused w c gid : gateways_ok w.2 → stopped_in gid w.2 → asks_for gid (ca_request c) = true →
  ∃ message, serve w c = (Err (HTTPException 403 message), w).
Proof.
  intros Hok (x & g & Hx & <- & Hst) Hask. pose proof (gateway_found _ _ _ Hok Hx) as Hfind. unfold gw_stopped in Hst. rewrite marked_is in Hst.
  destruct w as [cp t]. cbn [fst snd] in *. set (s := open_session t (ca_seed c) (ca_now c)).
  assert (Hone : ∀ A (k : EnterpriseGateway → DB A), (find_gateway (gw_gateway_id g) ≫= k) s = k g s).
  { intros A k. unfold find_gateway. rewrite one_or_run. cbn [cur s open_session]. by rewrite Hfind. }
  unfold serve. destruct (ca_request c) as [| | | | | | | |]; try done; cbn [asks_for] in Hask; apply (proj1 (eqb_true _ _)) in Hask; subst; cbn [handle fst snd].
  - unfold enroll_gateway_endpoint, enroll_enterprise_gateway. rewrite bind_run. unfold control_as_http, try_except. rewrite lift_db_bind.
    unfold enroll_row. fold s. rewrite Hone, bind_raise_if. unfold stopped_gateway in Hst. rewrite Hst. by eexists.
  - rewrite lift_db_bind. unfold heartbeat_endpoint, control_as_http, try_except, verify_gateway_heartbeat. fold s. rewrite Hone, bind_raise_if.
    unfold stopped_gateway, stopped_status in Hst. destruct (eqb _ "REVOKED"); [by eexists|]. rewrite bind_raise_if. cbn [orb] in Hst. rewrite Hst. by eexists.
  - unfold download_config_endpoint, get_signed_config_bundle. rewrite bind_run. unfold control_as_http, try_except. rewrite lift_db_bind. fold s.
    replace (find_gateway (gw_gateway_id g) s) with ((Ok g, s) : result Exc EnterpriseGateway * session)
      by (unfold find_gateway, one_or; rewrite bind_query; cbn [cur s open_session]; by rewrite Hfind).
    rewrite lift_db_bind. unfold stopped_gateway in Hst. rewrite Hst. by eexists.
Qed.

(** C26. A gateway that is suspended or revoked is refused for ever: whatever requests come in
    between, from anyone and with restarts of the process, it can neither enroll, nor send a
    heartbeat, nor download a configuration, is answered 403, and changes nothing. *)
Theorem stopped_for_ever w l gid c : gateways_ok w.2 → store_ok w.1 → stopped_in gid w.2 → asks_for gid (ca_request c) = true →
  ∃ message, serve (serve_all w l) c = (Err (HTTPException 403 message), serve_all w l).
Proof.
  intros Hok Hcp Hst Hask. destruct (serve_all_steps w l Hcp) as [Hs _]. destruct (stopped_stays _ _ _ Hok Hs Hst) as [H4 H5].
  by apply (stopped_refused _ _ gid).
Qed.

(** An enrollment that succeeds finds the token of its gateway and takes it. *)
Lemma enroll_served w c r : gateways_ok w.2 → store_ok w.1 → (serve w c).1 = Ok (EnrolledAs r) →
  ¬ spent_in (es_gateway_id r) w.2 ∧ spent_in (es_gateway_id r) (serve w c).2.2 ∧
  ∃ k, settled (serve w c).2.1 k ∧ es_control_plane_public_key r = b64encode (public_bytes_raw k).
Proof.
  intros Hok Hcp. unfold serve. set (s := open_session w.2 (ca_seed c) (ca_now c)). destruct (ca_request c) as [|gid p| | | | | | |]; cbn [handle].
  2:{ rewrite bind_run. unfold enroll_gateway_endpoint, control_as_http, try_except, enroll_enterprise_gateway. rewrite lift_db_bind.
    destruct (enroll_run gid p s) as [[Hno _]|(g & x & raw & now & f & Hgid & Hx & Hst & Ht & Hrun)]; [by split| |].
    { destruct (enroll_row gid p s) as [[a|e] s']; [by destruct Hno; eexists|]. by destruct e. }
    cbv zeta in Hrun. rewrite Hrun. rewrite bind_run. unfold get_control_plane_public_key_b64. rewrite bind_run.
    set (s1 := MkSession _ _ _ _ _). destruct (ensure_keys_run w.1 s1 Hcp) as (k & cp' & s' & He & Hset & _ & E1 & E2 & _). rewrite He.
    cbn [mret M_ret]. rewrite lift_db_bind. cbn [query gets mret M_ret fst snd]. intros [= <-]. cbn [es_gateway_id es_control_plane_public_key]. rewrite E2.
    destruct (find_gateway_found _ _ _ Hgid) as [<- _]. cbn [gw_gateway_id enrolled].
    assert (Hid : gw_id g = x) by (by apply Hok). split_and!.
    - intros (y & h & Hy & Hh & Hsp). destruct Hok as [_ Hone]. rewrite (Hone y x h g Hy Hx Hh) in Hy. cbn [cur s open_session] in Hx. rewrite Hx in Hy. injection Hy as <-.
      unfold gw_spent in Hsp. rewrite marked_is in Hsp. unfold enrollment_token in Ht. by destruct (gw_enrollment_token_hash g).
    - eexists (gw_id g), _. split; [apply lookup_insert_eq | by split].
    - by exists k. }
  all: try done; rewrite bind_run; match goal with |- context [match ?m ?st with _ => _ end] => by destruct (m st) as [[?|?] [? ?]] end.
Qed.

Definition enrolled_outcome (w : world) (c : incoming) : option string * world :=
  (match (serve w c).1 with Ok (EnrolledAs r) => Some (es_gateway_id r) | _ => None end, (serve w c).2).
(** C27. An enrollment token is used once: in any sequence of requests, restarts included, two
    successful enrollments of the same gateway are the same one. *)
Theorem enrolled_once w l i j gid : gateways_ok w.2 → store_ok w.1 →
  outcomes_of enrolled_outcome w l !! i = Some (Some gid) → outcomes_of enrolled_outcome w l !! j = Some (Some gid) → i = j.
Proof.
  intros Hok Hcp. apply (used_once enrolled_outcome (λ w, gateways_ok w.2 ∧ store_ok w.1) (λ gid w, spent_in gid w.2)); [| | |done].
  - intros u c [H4 H5]. destruct (serve_steps u c H5) as [H6 H7]. split; [by eapply gateways_kept | done].
  - intros u c x [H4 H5] Hx. destruct (serve_steps u c H5) as [H6 _]. by destruct (gateway_spent_kept _ _ _ H4 H6 Hx).
  - intros u c x [H4 H5]. cbn [enrolled_outcome fst snd]. destruct (serve u c).1 as [[r| |]|] eqn:Hr; try done. intros [= <-].
    destruct (enroll_served u c r H4 H5 Hr) as (H6 & H7 & _). done.
Qed.

(** *** Bundles *)

#[export] Instance version_ge_trans : Transitive version_ge.
Proof. intros a b c. unfold version_ge. lia. Qed.
#[export] Instance version_ge_total : Total version_ge.
Proof. intros a b. unfold version_ge. lia. Qed.
Lemma bundle_in_true org env b : bundle_in org env b = true ↔ gb_organization_id b = org ∧ gb_environment b = env.
Proof. unfold bundle_in. by rewrite andb_true_iff, !eqb_true. Qed.
Lemma elem_of_bundles org env t b : b ∈ bundles_of org env t ↔ (∃ x, bundle_table t !! x = Some b) ∧ bundle_in org env b = true.
Proof. unfold bundles_of. by rewrite merge_sort_Permutation, elem_of_select_rows. Qed.
Lemma latest_some org env t b : latest_bundle org env t = Some b →
  (∃ x, bundle_table t !! x = Some b) ∧ bundle_in org env b = true ∧
  ∀ x c, bundle_table t !! x = Some c → bundle_in org env c = true → gb_config_version c <= gb_config_version b.
Proof.
  unfold latest_bundle. intros Hh. pose proof (StronglySorted_merge_sort version_ge (select_rows (bundle_in org env) (bundle_table t))) as Hs.
  fold (bundles_of org env t) in Hs. pose proof (elem_of_bundles org env t) as Hin. destruct (bundles_of org env t) as [|b' l]; [done|]. injection Hh as ->.
  destruct (proj1 (Hin b) ltac:(by left)) as [Hx Hb]. split_and!; [done..|]. intros x c Hc Hp.
  apply StronglySorted_inv in Hs as [_ Hs]. rewrite Forall_forall in Hs.
  assert (Hcin : c ∈ b :: l) by (apply Hin; eauto). apply elem_of_cons in Hcin as [->|Hcin]; [lia | by apply Hs].
Qed.
Lemma latest_none org env t : latest_bundle org env t = None → ∀ x c, bundle_table t !! x = Some c → bundle_in org env c = false.
Proof.
  unfold latest_bundle. intros Hh x c Hc. pose proof (elem_of_bundles org env t c) as Hin. destruct (bundles_of org env t); [|done].
  destruct (bundle_in org env c) eqn:Hp; [|done]. destruct (proj2 Hin) as []; [eauto | done..].
Qed.

(** The versions of an environment are numbered from 1 without gaps, and no version occurs
    twice in an organization. *)
Definition numbered (t : tables) : Prop := ∀ x b, bundle_table t !! x = Some b → 1 <= gb_config_version b ∧
  ∀ v, 1 <= v < gb_config_version b → ∃ y c, bundle_table t !! y = Some c ∧ gb_config_version c = v ∧
    gb_organization_id c = gb_organization_id b ∧ gb_environment c = gb_environment b.
Definition one_version (t : tables) : Prop := ∀ x y b c, bundle_table t !! x = Some b → bundle_table t !! y = Some c →
  gb_organization_id b = gb_organization_id c → gb_config_version b = gb_config_version c → x = y.
Definition bundles_ok (w : world) : Prop :=
  (∀ x b, bundle_table w.2 !! x = Some b → x = gb_id b ∧ ∃ k, settled w.1 k ∧ made_by k b) ∧ numbered w.2 ∧ one_version w.2.

Lemma new_bundle_fresh b t : new_bundle_ok b t = true → bundle_table t !! gb_id b = None ∧
  ∀ x c, bundle_table t !! x = Some c → gb_organization_id c = gb_organization_id b → gb_config_version c ≠ gb_config_version b.
Proof.
  unfold new_bundle_ok. rewrite !andb_true_iff, !negb_true_iff, !is_some_false. intros [[[[[[[Hid Hnew] _] _] _] _] _] _]. split; [done|].
  intros x c Hx Ho Hv. pose proof (proj1 (scalar_None _ _) Hnew x c Hx) as Hf. cbv beta in Hf. by rewrite Ho, Hv, !eqb_refl in Hf.
Qed.
Lemma published_lookup b t x c : bundle_table (upd_bundles <[gb_id b := b]> t) !! x = Some c →
  (x = gb_id b ∧ c = b) ∨ bundle_table t !! x = Some c.
Proof. cbn. rewrite lookup_insert_Some. intros [[<- <-]|[_ Hx]]; [by left | by right]. Qed.
Lemma numbered_publish b t : numbered t → gb_config_version b = latest_version (gb_organization_id b) (gb_environment b) t + 1 →
  bundle_table t !! gb_id b = None → numbered (published b t).
Proof.
  intros Hn Hv Hfresh.
  assert (Hold : ∀ y c, bundle_table t !! y = Some c → bundle_table (published b t) !! y = Some c).
  { intros y c Hy. cbn. rewrite lookup_insert_ne; [done | congruence]. }
  intros x c [[_ ->]|Hx]%published_lookup.
  - unfold latest_version in Hv. destruct (latest_bundle _ _ t) as [l|] eqn:Hl.
    + apply latest_some in Hl as ((y & Hy) & [Ho He]%bundle_in_true & _). destruct (Hn y l Hy) as [Hpos Hgaps]. split; [lia|]. intros v Hv'.
      destruct (decide (v = gb_config_version l)) as [->|Hne]; [exists y, l; split_and!; [by apply Hold | done..]|].
      destruct (Hgaps v ltac:(lia)) as (z & d & Hz & Hd & Hdo & Hde). exists z, d. split_and!; [by apply Hold | done | congruence..].
    + split; [lia|]. intros v Hv'. lia.
  - destruct (Hn x c Hx) as [Hpos Hgaps]. split; [done|]. intros v Hv'. destruct (Hgaps v Hv') as (y & d & Hy & Hd). exists y, d. split; [by apply Hold | done].
Qed.
Lemma step_bundles w w' : control_step w w' → bundles_ok w → bundles_ok w'.
Proof.
  intros Hstep (Hmade & Hnum & Hone). destruct Hstep as [cp cp' t [_ Hk]|cp t f|cp t g|cp t x g g' f|cp t k b Hset Hm Hv Hok]; cbn [fst snd] in *;
    try (by split_and!).
  - split_and!; [|done..]. intros x b Hx. destruct (Hmade x b Hx) as (-> & k & Hs & Hb). split; [done|]. exists k. auto.
  - destruct (new_bundle_fresh b t Hok) as [Hfresh Hdist]. split_and!.
    + intros x c [[-> ->]|Hx]%published_lookup; [split; [done | by exists k] | by apply Hmade].
    + by apply numbered_publish.
    + intros x y c d [[-> ->]|Hx]%published_lookup [[-> ->]|Hy]%published_lookup Ho He; [done | | |by eapply Hone].
      * by destruct (Hdist y d Hy).
      * by destruct (Hdist x c Hx).
Qed.
Lemma steps_bundles w w' : rtc control_step w w' → bundles_ok w → bundles_ok w'.
Proof. induction 1; eauto using step_bundles. Qed.
Lemma step_settled w w' k : control_step w w' → settled w.1 k → settled w'.1 k.
Proof. intros [cp cp' t [_ Hk]| | | |]; cbn; auto. Qed.
Lemma steps_settled w w' k : rtc control_step w w' → settled w.1 k → settled w'.1 k.
Proof. induction 1; eauto using step_settled. Qed.
(** Bundles are never changed or removed. *)
Lemma bundle_step_kept w w' x b : control_step w w' → bundle_table w.2 !! x = Some b → bundle_table w'.2 !! x = Some b.
Proof.
  intros [cp cp' t|cp t f|cp t g|cp t y g g' f|cp t k c _ _ _ Hok] Hx; cbn [snd] in *; try exact Hx.
  destruct (new_bundle_fresh c t Hok) as [Hfresh _]. cbn. rewrite lookup_insert_ne; [done | congruence].
Qed.
Lemma bundle_steps_kept w w' x b : rtc control_step w w' → bundle_table w.2 !! x = Some b → bundle_table w'.2 !! x = Some b.
Proof. induction 1; eauto using bundle_step_kept. Qed.

(** C38. Configurations are numbered 1, 2, 3, .. in their environment and never change afterwards;
    and because the unique index leaves the environment out, an organization that has
    published for one environment has no bundle of another one, ever. *)
Theorem one_environment w l x y b c : bundles_ok w → store_ok w.1 →
  bundle_table (serve_all w l).2 !! x = Some b → bundle_table (serve_all w l).2 !! y = Some c → gb_organization_id b = gb_organization_id c →
  gb_environment b = gb_environment c ∧
  (∀ v, 1 <= v <= gb_config_version b → ∃ z d, bundle_table (serve_all w l).2 !! z = Some d ∧ gb_organization_id d = gb_organization_id b ∧
    gb_config_version d = v ∧ gb_environment d = gb_environment b) ∧
  ∀ l', bundle_table (serve_all (serve_all w l) l').2 !! x = Some b.
Proof.
  intros Hok Hcp Hx Hy Ho. destruct (serve_all_steps w l Hcp) as [Hs Hcp']. destruct (steps_bundles _ _ Hs Hok) as (_ & Hnum & Hone).
  destruct (Hnum x b Hx) as [Hb Gb], (Hnum y c Hy) as [Hc Gc].
  assert (Hfirst : ∀ b x, bundle_table (serve_all w l).2 !! x = Some b → ∃ z d, bundle_table (serve_all w l).2 !! z = Some d ∧
    gb_organization_id d = gb_organization_id b ∧ gb_config_version d = 1 ∧ gb_environment d = gb_environment b).
  { intros b' x' Hx'. destruct (Hnum x' b' Hx') as [Hb' Gb']. destruct (decide (gb_config_version b' = 1)) as [H1'|H1']; [by exists x', b'|].
    destruct (Gb' 1 ltac:(lia)) as (z & d & Hz & Hd & Hdo & Hde). by exists z, d. }
  split_and!.
  - destruct (Hfirst b x Hx) as (z1 & d1 & Z1 & O1 & V1 & E1), (Hfirst c y Hy) as (z2 & d2 & Z2 & O2 & V2 & E2).
    assert (z1 = z2) as <- by (apply (Hone z1 z2 d1 d2 Z1 Z2); congruence). congruence.
  - intros v Hv. destruct (decide (v = gb_config_version b)) as [->|Hne]; [by exists x, b|]. destruct (Gb v ltac:(lia)) as (z & d & Hz & Hd & Hdo & Hde).
    by exists z, d.
  - intros l'. destruct (serve_all_steps (serve_all w l) l' Hcp') as [Hs' _]. by eapply bundle_steps_kept.
Qed.

Lemma lift_raise_run {A} (b : bool) e (k : unit → CDB A) cp s :
  (lift_db (raise_if b e) ≫= k) (cp, s) = if b then (Err e, (cp, s)) else k tt (cp, s).
Proof. rewrite lift_db_bind. by destruct b. Qed.
(** What was just published is the latest. *)
Lemma latest_published org req t now cp' b f : publication org req t now cp' b →
  latest_bundle org (py_lower (pr_environment req)) (upd_security_events f (published b t)) = Some b.
Proof.
  intros [_ Ho He Hv Hok _ _ _]. destruct (new_bundle_fresh b t Hok) as [Hfresh _]. set (env := py_lower _) in *.
  assert (Hb : bundle_table (upd_security_events f (published b t)) !! gb_id b = Some b) by (cbn; apply lookup_insert_eq).
  assert (Hbin : bundle_in org env b = true) by (by apply bundle_in_true).
  destruct (latest_bundle org env _) as [c|] eqn:Hl; [|by rewrite (latest_none _ _ _ Hl _ b Hb) in Hbin].
  apply latest_some in Hl as ((x & Hx) & Hc & Hmax). pose proof (Hmax _ b Hb Hbin) as Hge.
  change (bundle_table (upd_bundles <[gb_id b := b]> t) !! x = Some c) in Hx. apply published_lookup in Hx as [[_ ->]|Hx]; [done|].
  exfalso. unfold latest_version in Hv. destruct (latest_bundle org env t) as [m|] eqn:Hm; [|by rewrite (latest_none _ _ _ Hm x c Hx) in Hc].
  apply latest_some in Hm as (_ & _ & Hmax'). pose proof (Hmax' x c Hx Hc). lia.
Qed.
Lemma publish_served w c org req user w1 : store_ok w.1 → ca_request c = Publish org req user → serve w c = (Ok Done, w1) →
  ∃ b f, publication (og_id org) req w.2 (ca_now c) w1.1 b ∧ w1.2 = upd_security_events f (published b w.2).
Proof.
  intros Hcp Hc. unfold serve. rewrite Hc. cbn [handle]. rewrite bind_run. unfold publish_config_in, control_as_http, try_except.
  destruct (publish_run (og_id org) req (Some user) w.1 (open_session w.2 (ca_seed c) (ca_now c)) Hcp (conj eq_refl eq_refl)) as [_ Hcases].
  destruct (build_and_publish_config _ _ _ _) as [[b|e] [cp s]]; [|by destruct e]. intros [= <-]. cbn [fst snd] in *.
  destruct Hcases as [[Hno _]|(b' & Hpub & [[Hno _]|(f & Hr & _ & _ & Hsame)])]; [by destruct Hno; eexists.. |].
  exists b', f. split; [exact Hpub | exact Hsame].
Qed.
(** With a bundle at hand, a download delivers the latest. *)
Lemma download_latest w c gid v g b d : ca_request c = Download gid v → gateway_by gid w.2 = Ok (Some g) →
  latest_bundle (gw_organization_id g) (py_lower (gw_environment g)) w.2 = Some b → (serve w c).1 = Ok (Config (Some d)) → d = signed_config b.
Proof.
  intros Hc Hg Hl. unfold serve. rewrite Hc. cbn [handle]. rewrite bind_run. unfold download_config_endpoint, control_as_http, try_except.
  unfold get_signed_config_bundle. rewrite lift_db_bind. unfold find_gateway.
  replace (one_or (gateway_by gid) (not_found gid) _) with ((Ok g, open_session w.2 (ca_seed c) (ca_now c)) : result Exc EnterpriseGateway * session)
    by (unfold one_or; rewrite bind_query; cbn [cur open_session]; by rewrite Hg).
  rewrite lift_raise_run. destruct (stopped_status _); [done|]. rewrite lift_db_bind. cbn [query gets cur open_session]. rewrite Hl, bind_ret.
  destruct (opt_check _ v); [|done]. by intros [= <-].
Qed.

(** What a download delivers is a bundle that is stored. *)
Lemma download_served w c d : store_ok w.1 → (serve w c).1 = Ok (Config (Some d)) →
  ∃ x b, bundle_table (serve w c).2.2 !! x = Some b ∧ d = signed_config b.
Proof.
  intros Hcp. unfold serve. set (s := open_session w.2 (ca_seed c) (ca_now c)). destruct (ca_request c) as [| | |gid v| | | | |]; cbn [handle].
  4:{ rewrite bind_run. unfold download_config_endpoint, control_as_http, try_except.
    destruct (get_signed_config_bundle gid v (w.1, s)) as [[o|e] [cp' s']] eqn:Hrun; [|by destruct e]. cbn [mret M_ret fst snd]. intros [= ->].
    revert Hrun. unfold get_signed_config_bundle. rewrite lift_db_bind. unfold find_gateway.
    destruct (one_or _ _ s) as [[g|e] s0] eqn:Hg; [|done]. apply one_or_Ok in Hg as [_ ->]. rewrite lift_raise_run.
    destruct (stopped_status _); [done|]. rewrite lift_db_bind. cbn [query gets].
    destruct (latest_bundle _ _ (cur s)) as [b|] eqn:Hl.
    - rewrite bind_ret. destruct (opt_check _ v); [|done]. intros [= <- <- <-]. apply latest_some in Hl as ((x & Hx) & _). by exists x, b.
    - rewrite bind_run. set (req := environment_only _). pose proof (publish_run (gw_organization_id g) req None w.1 s Hcp (conj eq_refl eq_refl)) as [_ Hcases].
      destruct (build_and_publish_config _ req None _) as [[b|e] [cp2 s2]]; [|done]. cbn [fst snd] in Hcases.
      destruct Hcases as [[Hno _]|(b' & Hpub & [[Hno _]|(f & Hr & _ & _ & Hsame)])]; [by destruct Hno; eexists.. |]. injection Hr as ->.
      destruct (opt_check _ v); [|done]. intros [= <- <- <-]. exists (gb_id b'), b'. split; [|done]. rewrite Hsame. cbn. apply lookup_insert_eq. }
  all: try done; rewrite bind_run; match goal with |- context [match ?m ?st with _ => _ end] => by destruct (m st) as [[?|?] [? ?]] end.
Qed.

(** *** A delivered configuration verifies *)

Context `{!IssuerKeysLaws}.
Lemma append_not_empty a b : b ≠ "" → a +:+ b ≠ "".
Proof. by destruct a. Qed.
Lemma signed_under_own k text : signed_under (b64encode (public_bytes_raw k)) (b64encode (private_sign k text)) text = true.
Proof. unfold signed_under. rewrite !b64decode_lenient_encode, public_length. by rewrite public_valid, sign_verifies. Qed.
(** The digest of SHA-256 is no empty text. *)
Context (digest : ∀ s, sha256_hex s ≠ "").
(** The check of the sidecar on the fields of a bundle. *)
Lemma verify_fields b key : gb_config_version b ≠ 0 → gb_environment b ≠ "" → gb_bundle_sha256 b = bundle_hash (bundle_value (gb_bundle_json b)) →
  gb_signature b ≠ "" →
  verify_control_plane_config (signed_config b) key = signed_under key (gb_signature b)
    (config_text (str_of_Z (gb_config_version b)) (uuid_str (gb_organization_id b)) (gb_environment b) (strftime_z (gb_created_at b))
      (strftime_z (gb_expires_at b)) (gb_bundle_sha256 b)).
Proof.
  intros Hv He Hsha Hsig.
  assert (Hfields : forallb (λ k, truthy (get k (signed_config b)))
    ["config_version"; "organization_id"; "environment"; "issued_at"; "expires_at"; "bundle_sha256"; "signature"] = true).
  { change (truthy (VInt (gb_config_version b)) && (truthy (VStr (uuid_str (gb_organization_id b))) && (truthy (VStr (gb_environment b)) &&
      (truthy (VStr (strftime_z (gb_created_at b))) && (truthy (VStr (strftime_z (gb_expires_at b))) && (truthy (VStr (gb_bundle_sha256 b)) &&
      (truthy (VStr (gb_signature b)) && true)))))) = true).
    rewrite !truthy_text; [|done|rewrite Hsha; apply digest|by apply append_not_empty..|done|by apply append_not_empty].
    cbn. by rewrite (proj2 (Z.eqb_neq _ _) Hv). }
  unfold verify_control_plane_config. rewrite Hfields. cbn [negb].
  change (get "bundle" (signed_config b)) with (VDict (bundle_value (gb_bundle_json b))).
  change (get "bundle_sha256" (signed_config b)) with (VStr (gb_bundle_sha256 b)).
  change (get "signature" (signed_config b)) with (VStr (gb_signature b)).
  change (py_or (VDict (bundle_value (gb_bundle_json b))) (VDict [])) with (VDict (bundle_value (gb_bundle_json b))).
  change (compute_bundle_sha256 (VDict (bundle_value (gb_bundle_json b)))) with (bundle_hash (bundle_value (gb_bundle_json b))).
  rewrite <- Hsha. replace (py_eq (VStr (gb_bundle_sha256 b)) (VStr (gb_bundle_sha256 b))) with true by (symmetry; apply eqb_refl).
  reflexivity.
Qed.
Lemma made_verifies k b : made_by k b → 1 <= gb_config_version b → gb_environment b ≠ "" →
  verify_control_plane_config (signed_config b) (b64encode (public_bytes_raw k)) = true.
Proof.
  intros (id & org & env & version & content & user & now & expires_at & ->) Hv Henv.
  rewrite verify_fields; [apply signed_under_own | lia | done | reflexivity | apply signature_text].
Qed.

Lemma reply_at w l i r : store_ok w.1 → replies w l !! i = Some r →
  ∃ w1 c, rtc control_step w w1 ∧ store_ok w1.1 ∧ (serve w1 c).1 = r ∧ rtc control_step (serve w1 c).2 (serve_all w l).
Proof.
  revert w i. induction l as [|c l IH]; intros w i Hw; [done|]. destruct (serve_steps w c Hw) as [Hs Hc]. destruct i as [|i]; cbn [replies lookup].
  - intros [= <-]. exists w, c. split_and!; [done..|]. exact (proj1 (serve_all_steps (serve w c).2 l Hc)).
  - intros Hi. destruct (IH (serve w c).2 i Hc Hi) as (w1 & c1 & Q1 & Q2 & Q3 & Q4). exists w1, c1. split_and!; [by etrans | done..].
Qed.

End control.

(** ** Witnesses and limits *)

(** A digest that keeps the start of its input. *)
Definition short_hashing : Hashing := {| sha256_hex s := "h" +:+ str_take 60 s |}.
Definition short_documents : Loaders :=
  {| json_loads _ := Err "no JSON"; yaml_safe_load _ := Err "no document"; loaders_hashing := short_hashing |}.
Definition no_pem : ControlPlane := {| control_plane_pem := None |}.
Local Existing Instances short_documents sample_keys sample_ed25519 no_pem.
Lemma short_digest s : sha256_hex s ≠ "".
Proof. done. Qed.

Definition gateway_org : Organization := sample_org 50 9.
Definition before_gateways : world := (MkCpStore None None, account_tables [sample_user 9] [gateway_org] [] []).
Definition edge_registration (env : string) : GatewayRegistrationRequest := MkGatewayRegistration "Edge" "SIDECAR" env "FAIL_CLOSED" [].
Definition edge_key : string := b64encode (key_bytes "edge").
Definition edge_enrollment : GatewayEnrollRequest := MkGatewayEnroll "gw_tok_hex0" edge_key None None.
Definition the_gateway : string := "gw_hex1".
Definition at_minute (n : Z) (r : control_request) : incoming := MkIncoming r (Z.to_nat (100 * n)) (some_day + n * minute).
Definition first_requests : list incoming :=
  [at_minute 0 (Register gateway_org (edge_registration "PRODUCTION")); at_minute 1 (Enroll the_gateway edge_enrollment);
   at_minute 2 (Enroll the_gateway edge_enrollment); at_minute 3 Restart; at_minute 4 (Publish gateway_org (environment_only "Production") 9);
   at_minute 5 (Download the_gateway (Some 0))].
Lemma before_ok : bundles_ok before_gateways ∧ gateways_ok before_gateways.2 ∧ store_ok before_gateways.1.
Proof.
  assert (Hb : ∀ x, bundle_table before_gateways.2 !! x = None) by (intros x; apply lookup_empty).
  assert (Hg : ∀ x, gateway_table before_gateways.2 !! x = None) by (intros x; apply lookup_empty).
  split_and!; [| |by left].
  - split_and!; [intros x b | intros x b | intros x y b c]; by rewrite Hb.
  - split; [intros x g | intros x y g h]; by rewrite Hg.
Qed.
Definition enrolled_at (i : nat) (l : list incoming) : option GatewayEnrollResponse :=
  match replies before_gateways l !! i with Some (Ok (EnrolledAs r)) => Some r | _ => None end.
Definition delivered_at (i : nat) (l : list incoming) : option (list (string * pyval)) :=
  match replies before_gateways l !! i with Some (Ok (Config (Some d))) => Some d | _ => None end.
Lemma enrolled_at_reply i l r : enrolled_at i l = Some r → replies before_gateways l !! i = Some (Ok (EnrolledAs r)).
Proof. unfold enrolled_at. intros Hr. repeat case_match; congruence. Qed.
Lemma delivered_at_reply i l d : delivered_at i l = Some d → replies before_gateways l !! i = Some (Ok (Config (Some d))).
Proof. unfold delivered_at. intros Hr. repeat case_match; congruence. Qed.


(** The token works once: the second request with it, the third of the list, does not enroll. *)
Lemma enrolled_once_witness : outcomes_of enrolled_outcome before_gateways first_requests !! 2%nat ≠ Some (Some the_gateway).
Proof.
  intros Hj. destruct before_ok as (_ & Hg & Hk).
  assert (Hi : outcomes_of enrolled_outcome before_gateways first_requests !! 1%nat = Some (Some the_gateway)) by (vm_compute; reflexivity).
  pose proof (enrolled_once before_gateways first_requests 1 2 the_gateway Hg Hk Hi Hj) as Hij. discriminate Hij.
Defined.

(** Suspension has no end: [Temporarily suspend gateway operations] has no operation that resumes it. *)
Definition suspended_world : world := serve_all before_gateways
  [at_minute 0 (Register gateway_org (edge_registration "PRODUCTION")); at_minute 1 (Enroll the_gateway edge_enrollment); at_minute 2 (Suspend gateway_org the_gateway)].
Lemma suspended_here : gateways_ok suspended_world.2 ∧ store_ok suspended_world.1 ∧ stopped_in the_gateway suspended_world.2.
Proof.
  destruct before_ok as (_ & Hg & Hk). unfold suspended_world. destruct (serve_all_steps before_gateways
    [at_minute 0 (Register gateway_org (edge_registration "PRODUCTION")); at_minute 1 (Enroll the_gateway edge_enrollment); at_minute 2 (Suspend gateway_org the_gateway)] Hk) as [Hs Hk'].
  split_and!; [by eapply gateways_kept | exact Hk' |]. fold suspended_world.
  destruct (find_first (λ g, eqb (gw_gateway_id g) the_gateway && is_some (gw_stopped g)) (rows (gateway_table suspended_world.2))) as [g|] eqn:Hf;
    [|vm_compute in Hf; discriminate].
  apply find_first_Some in Hf as [(k & Hgk)%elem_of_rows [Hid Hst]%andb_true_iff]. apply (proj1 (eqb_true _ _)) in Hid. by exists k, g.
Qed.
Lemma stopped_for_ever_witness : ∃ message, serve suspended_world (at_minute 4 (Download the_gateway None)) = (Err (HTTPException 403 message), suspended_world).
Proof.
  destruct suspended_here as (Hg & Hk & Hs).
  exact (stopped_for_ever suspended_world [] the_gateway (at_minute 4 (Download the_gateway None)) Hg Hk Hs eq_refl).
Defined.

(** A gateway of a second environment gets no configuration, and nothing can be published for it. *)
Definition second_environment : list incoming :=
  [at_minute 0 (Publish gateway_org (environment_only "production") 9); at_minute 1 (Publish gateway_org (environment_only "sandbox") 9);
   at_minute 2 (Register gateway_org (edge_registration "SANDBOX")); at_minute 3 (Download "gw_hex201" None)].
Example second_environment_refused : replies before_gateways second_environment = [Ok Done; Err IntegrityError; Ok Done; Err IntegrityError].
Proof. vm_compute. reflexivity. Qed.
Definition two_publications : list incoming :=
  [at_minute 0 (Publish gateway_org (environment_only "production") 9); at_minute 1 (Publish gateway_org (environment_only "production") 9)].
Definition version_in (w : world) (v : Z) (x : uuid) (b : GatewayConfigBundle) : Prop := bundle_table w.2 !! x = Some b ∧ gb_config_version b = v.
Lemma one_environment_witness : ∃ x b z d, version_in (serve_all before_gateways two_publications) 2 x b ∧
  version_in (serve_all before_gateways two_publications) 1 z d ∧ gb_environment d = gb_environment b.
Proof.
  destruct before_ok as (Hb & _ & Hk).
  destruct (find_first (λ b, gb_config_version b =? 2) (rows (bundle_table (serve_all before_gateways two_publications).2))) as [b|] eqn:Hf;
    [|vm_compute in Hf; discriminate].
  apply find_first_Some in Hf as [(x & Hx)%elem_of_rows Hv%Z.eqb_eq].
  destruct (one_environment before_gateways two_publications x x b b Hb Hk Hx Hx eq_refl) as (_ & Hnum & _).
  destruct (Hnum 1) as (z & d & Hz & _ & Hd & He); [lia|]. exists x, b, z, d. by split_and!.
Defined.

(** The revocations of a bundle come back with it: an agent that was withdrawn since is no longer named. *)
Definition named_revocations (w : world) : list (list (list (string * pyval))) :=
  map (λ b, bc_revocations (gb_bundle_json b)) (bundles_of 50 "production" w.2).
Definition revoking (ids : list string) : GatewayPublishConfigRequest :=
  MkPublish "production" None None None (Some (map (revocation_entry "agent") ids)) None None.
Example rollback_forgets :
  named_revocations (serve_all before_gateways
    [at_minute 0 (Publish gateway_org (revoking ["agent-1"]) 9); at_minute 1 (Publish gateway_org (revoking ["agent-1"; "agent-2"]) 9);
     at_minute 2 (Rollback gateway_org 1 9)]) =
  [[revocation_entry "agent" "agent-1"]; [revocation_entry "agent" "agent-1"; revocation_entry "agent" "agent-2"]; [revocation_entry "agent" "agent-1"]].
Proof. vm_compute. reflexivity. Qed.
(** A heartbeat that was seen once is accepted again for five minutes, with any health and version. *)
Definition beat (version : string) : GatewayHeartbeatRequest :=
  MkHeartbeat version 1 [] "2024-10-04T00:03:00Z" (b64encode (mark_of (key_bytes "edge") (heartbeat_text the_gateway 1 "2024-10-04T00:03:00Z"))).
Example heartbeat_replays :
  replies before_gateways [at_minute 0 (Register gateway_org (edge_registration "PRODUCTION")); at_minute 1 (Enroll the_gateway edge_enrollment);
    at_minute 3 (Heartbeat the_gateway (beat "1.0.0")); at_minute 8 (Heartbeat the_gateway (beat "6.6.6"))] !! 3%nat = Some (Ok Done).
Proof. vm_compute. reflexivity. Qed.
End GatewayProps.
