(* ===== verification/SidecarProps.v ===== *)
(** What the sidecar does ([Sidecar]): what a local approval means, that a nonce counts once,
    that a health check stops it, that it takes any configuration, and, with the control
    plane ([GatewayControl]) at the other end, that a withdrawn agent is refused once the
    configuration that names it was fetched. *)
From Stdlib Require Import Ascii.
From S2P Require Import Prelude.
From S2P Require Import PyStr.
From S2P Require Import PyFloat.
From S2P Require Import PyVal.
From S2P Require Import PyDecimal.
From S2P Require Import AplEval.
From S2P Require Import AplParser.
From S2P Require Import Models.
From S2P Require Import IdentityModels.
From S2P Require Import OperationsModels.
From S2P Require Import PyTime.
From S2P Require Import PyCodec.
From S2P Require Import PyNet.
From S2P Require Import Store.
From S2P Require Import Samples.
From S2P Require Import Canonical.
From S2P Require Import Signing.
From S2P Require Import Frames.
From S2P Require Import Credentials.
From S2P Require Import CredentialProps.
From S2P Require Import GatewayControl.
From S2P Require Import Sidecar.
From S2P Require Import GatewayProps.

Local Open Scope string_scope.
Local Open Scope Z_scope.

Module SidecarProps.
Import Canonical Signing Frames Credentials CredentialProps GatewayControl Sidecar GatewayProps.

Section sidecar.
Context `{Loaders} `{IssuerKeys} `{Ed25519} (config : SidecarConfig).

(** ** Operations *)

Inductive operation : Type :=
  | Startup (net : network) (post : posts)
  | Round (net : network) (post : posts)
  | Health
  | Ready
  | Status
  | Authorize (payload : LocalAuthorizeRequest)
  | Forward (resolve : string → option (list string)) (send : outbound) (envelope : list (string * pyval)) (url : option string)
  | ManualSync (net : network) (post : posts).
Inductive outcome : Type := Decided (d : LocalDecision) | Other.
Definition do_operation (o : operation) : SM outcome :=
  match o with
  | Startup net post => lifespan_startup config net post ;; mret Other
  | Round net post => background_round config net post ;; mret Other
  | Health => health_check ;; mret Other
  | Ready => readiness_check config ;; mret Other
  | Status => detailed_status config ;; mret Other
  | Authorize payload => d ← local_authorize config payload; mret (Decided d)
  | Forward resolve send envelope url => forward_atp_message config resolve send envelope url ;; mret Other
  | ManualSync net post => trigger_manual_sync config net post ;; mret Other
  end.
(** An operation at the times of the two clocks. *)
Record event : Type := MkEvent { ev_operation : operation; ev_now : time; ev_monotonic : Z }.
Definition at_clocks (now : time) (mono : Z) (p : process) : process :=
  MkProcess (pc_locked p) (pc_state p) (pc_private_key p) (pc_key_file p) (pc_cache p) (pc_seed p) now mono.
Definition run_event (p : process) (e : event) : result SideExc outcome * process :=
  do_operation (ev_operation e) (at_clocks (ev_now e) (ev_monotonic e) p).
Definition run_events (p : process) (l : list event) : process := foldl (λ p e, (run_event p e).2) p l.

(** ** What every operation respects

    A relation that does not look at what an operation assigns, the nonces apart. *)
Class Quiet (R : relation process) : Prop := {
  quiet_preorder :: PreOrder R;
  quiet_locked {A} (m : SM A) : respects R m → respects R (locked m);
  quiet_state f p : (∀ s, st_control_plane_public_key (f s) = st_control_plane_public_key s ∧ st_processed_nonces (f s) = st_processed_nonces s) →
    R p (with_state (f (pc_state p)) p);
  quiet_cache c p : R p (with_cache c p);
  quiet_key k file n p : R p (with_key k file n p)
}.
Section quiet.
Context (R : relation process) `{!Quiet R}.
Lemma quiet_assign f : (∀ s, st_control_plane_public_key (f s) = st_control_plane_public_key s ∧ st_processed_nonces (f s) = st_processed_nonces s) →
  respects R (assign f).
Proof. intros Hf. apply respects_modify. intros p. by apply quiet_state. Qed.
Lemma quiet_lock {A} (m : SM A) : respects R m → respects R (locked m).
Proof. apply quiet_locked. Qed.
Lemma quiet_except {A} (m h : SM A) : respects R m → respects R h → respects R (except_py m h).
Proof. intros Hm Hh. apply respects_try; [apply _ | done|]. intros [e|]; [done | apply respects_throw, _]. Qed.
Lemma quiet_read {A} (f : SidecarState → A) : respects R (read f).
Proof. apply respects_gets, _. Qed.
Lemma quiet_now : respects R now_utc.
Proof. apply respects_gets, _. Qed.
Lemma quiet_py {A} (r : result PyExc A) : respects R (lift_py r).
Proof. destruct r; [apply respects_ret, _ | apply respects_throw, _]. Qed.
Lemma quiet_endpoints {A} (f : string → SM (option A)) urls none :
  (∀ u, respects R (f u)) → respects R none → respects R (try_endpoints f urls none).
Proof.
  intros Hf Hn. induction urls as [|u urls IH]; cbn [try_endpoints]; [done|].
  apply respects_bind; [apply _ | apply Hf|]. intros [a|]; [apply respects_ret, _ | exact IH].
Qed.
Lemma quiet_keypair : respects R get_or_create_local_keypair.
Proof.
  intros p. unfold get_or_create_local_keypair. destruct (pc_private_key p); [reflexivity|].
  destruct (pc_key_file p) as [[k|]|]; cbn [snd]; apply quiet_key.
Qed.
Lemma quiet_save d : respects R (save_config_cache d).
Proof. apply respects_modify. intros p. apply quiet_cache. Qed.

Ltac qwalk := repeat first
  [ progress intros
  | match goal with |- respects _ (match ?x with _ => _ end) => destruct x end
  | apply quiet_assign; intros; split; reflexivity
  | apply quiet_endpoints
  | apply respects_bind; [apply _ | | ]
  | apply respects_ret; apply _ | apply respects_throw; apply _ | apply respects_gets; apply _
  | apply quiet_lock | apply quiet_except | apply quiet_read | apply quiet_now | apply quiet_py | apply quiet_keypair | apply quiet_save
  | progress cbv zeta beta ].

Lemma quiet_update v b t : respects R (update_config v b t).
Proof. unfold update_config. qwalk. Qed.
Lemma quiet_expired : respects R is_config_expired.
Proof. unfold is_config_expired. qwalk. Qed.
Lemma quiet_record d o : respects R (record_request d o).
Proof. unfold record_request. qwalk. Qed.
Lemma quiet_health : respects R get_health_summary.
Proof. unfold get_health_summary. qwalk. Qed.
Lemma quiet_activate d : respects R (activate d).
Proof. unfold activate, verify_if_known. qwalk; apply quiet_update. Qed.
Lemma quiet_load : respects R load_config_cache.
Proof. unfold load_config_cache, verify_if_known. qwalk; apply quiet_update. Qed.
Lemma quiet_sync_from net g u : respects R (sync_from net g u).
Proof. unfold sync_from, not_modified. qwalk; apply quiet_activate. Qed.
Lemma quiet_sync net : respects R (sync_configuration_sync config net).
Proof.
  unfold sync_configuration_sync, no_endpoint. qwalk; apply quiet_activate.
Qed.
Lemma quiet_heartbeat_to net post g payload now u : respects R (heartbeat_to config net post g payload now u).
Proof. unfold heartbeat_to. qwalk; apply quiet_sync. Qed.
Lemma quiet_heartbeat net post : respects R (send_heartbeat_sync config net post).
Proof.
  unfold send_heartbeat_sync, sign_heartbeat, no_endpoint. qwalk; apply quiet_heartbeat_to.
Qed.
Lemma quiet_route resolve send envelope url b : respects R (route_atp_message_direct resolve send envelope url b).
Proof. unfold route_atp_message_direct, generate_local_gateway_attestation. qwalk. Qed.
Lemma quiet_decide offline action resource agent amount creds : respects R (decide_fresh config offline action resource agent amount creds).
Proof. unfold decide_fresh, answer. qwalk; first [apply quiet_record | apply quiet_expired]. Qed.
Lemma quiet_evaluate action resource agent amount creds nonce offline : (∀ nonce, respects R (seen_before nonce)) →
  respects R (evaluate_local_request config action resource agent amount creds nonce offline).
Proof. intros Hseen. unfold evaluate_local_request, answer. qwalk; first [apply Hseen | apply quiet_record | apply quiet_decide | apply quiet_expired]. Qed.
(** All operations but the nonces of the decisions. *)
Lemma quiet_operation o : (∀ nonce, respects R (seen_before nonce)) → respects R (do_operation o).
Proof.
  intros Hseen. destruct o; cbn [do_operation]; unfold lifespan_startup, background_round, health_check, readiness_check, detailed_status, local_authorize,
    forward_atp_message, trigger_manual_sync; qwalk;
    first [apply Hseen | apply quiet_sync | apply quiet_heartbeat_to | apply quiet_heartbeat | apply quiet_load | apply quiet_health | by apply quiet_evaluate | apply quiet_route].
Qed.
End quiet.

(** *** The three relations *)

Definition same_key (p p' : process) : Prop := st_control_plane_public_key (pc_state p') = st_control_plane_public_key (pc_state p).
Definition stays_locked (p p' : process) : Prop := pc_locked p = true → pc_locked p' = true.
Definition keeps_nonce (h : string) (deadline : Z) (p p' : process) : Prop := pc_monotonic p' = pc_monotonic p ∧
  (st_processed_nonces (pc_state p) !! h = Some deadline → pc_monotonic p < deadline → st_processed_nonces (pc_state p') !! h = Some deadline).

Lemma locked_ignored (R : relation process) `{!PreOrder R} : (∀ b p, R p (with_lock b p)) → (∀ b p q, R (with_lock b p) q → R p q) →
  ∀ A (m : SM A), respects R m → respects R (locked m).
Proof.
  intros Hlock Hunlock A m Hm p. unfold locked. destruct (pc_locked p); [reflexivity|]. specialize (Hm (with_lock true p)). apply Hunlock in Hm.
  destruct (m (with_lock true p)) as [r p']. cbn in Hm. assert (Hout : R p (with_lock false p')) by (etrans; [exact Hm | apply Hlock]).
  by destruct r as [a|[e|]].
Qed.
#[export] Instance same_key_quiet : Quiet same_key.
Proof.
  assert (Hpre : PreOrder same_key) by (unfold same_key; split; [by intros p | intros p q r; congruence]).
  split; [done | apply locked_ignored | intros f p Hf; apply Hf | ..]; unfold same_key; by intros.
Qed.
#[export] Instance keeps_nonce_quiet h deadline : Quiet (keeps_nonce h deadline).
Proof.
  assert (Hpre : PreOrder (keeps_nonce h deadline)).
  { split; [by intros p | intros p q r [M1 N1] [M2 N2]]. split; [congruence|]. intros Hp Hm. apply N2; [by apply N1 | by rewrite M1]. }
  split; [done | apply locked_ignored; [done | by intros; split | by intros b p q] | | by intros; split..].
  intros f p Hf. split; [done|]. cbn. by rewrite (proj2 (Hf (pc_state p))).
Qed.
#[export] Instance stays_locked_quiet : Quiet stays_locked.
Proof.
  assert (Hpre : PreOrder stays_locked) by (unfold stays_locked; split; [by intros p | intros p q r; auto]).
  split; [done | | unfold stays_locked; by intros..]. intros A m _ p Hp. unfold locked. by rewrite Hp.
Qed.

Lemma seen_same_key nonce : respects same_key (seen_before nonce).
Proof.
  intros p. unfold seen_before, read. destruct nonce as [n|]; [|done]. destruct (eqb n ""); [done|].
  rewrite bind_gets, bind_run. cbn [assign modify]. destruct (ascii_text n); [|done]. rewrite bind_ret. rewrite bind_gets.
  destruct (is_some _); done.
Qed.
Lemma seen_stays_locked nonce : respects stays_locked (seen_before nonce).
Proof.
  intros p Hp. unfold seen_before, read. destruct nonce as [n|]; [|done]. destruct (eqb n ""); [done|].
  rewrite bind_gets, bind_run. cbn [assign modify]. destruct (ascii_text n); [|done]. rewrite bind_ret. rewrite bind_gets.
  by destruct (is_some _).
Qed.
(** The first step of a decision, on the nonces alone. *)
Lemma seen_run n p : n ≠ "" → ascii_text n = true →
  let live := live_nonces (pc_monotonic p) (st_processed_nonces (pc_state p)) in
  seen_before (Some n) p = if is_some (live !! sha256_hex n) then (Ok true, with_state (set_nonces live (pc_state p)) p)
    else (Ok false, with_state (set_nonces (<[sha256_hex n := pc_monotonic p + 300 * second]> live) (set_nonces live (pc_state p)))
      (with_state (set_nonces live (pc_state p)) p)).
Proof.
  intros Hn Ha. cbv zeta. unfold seen_before, read. rewrite (proj2 (eqb_false _ _) Hn). rewrite bind_gets, bind_run. cbn [assign modify]. rewrite Ha, bind_ret.
  rewrite bind_gets. cbn [pc_state with_state st_processed_nonces set_nonces]. by destruct (is_some _).
Qed.
Lemma live_lookup m n h d : live_nonces m n !! h = Some d ↔ n !! h = Some d ∧ m < d.
Proof. unfold live_nonces. by rewrite map_lookup_filter_Some. Qed.
Lemma seen_keeps_nonce h deadline nonce : respects (keeps_nonce h deadline) (seen_before nonce).
Proof.
  intros p. destruct nonce as [n|]; [|done]. destruct (eqb n "") eqn:Hn; [unfold seen_before; by rewrite Hn|]. apply eqb_false in Hn.
  destruct (ascii_text n) eqn:Ha.
  - rewrite (seen_run n p Hn Ha). destruct (is_some _) eqn:Hs; (split; [done|]); cbn; intros Hp Hm.
    + by apply live_lookup.
    + rewrite lookup_insert_ne; [by apply live_lookup|]. intros <-. apply is_some_false in Hs.
      by rewrite (proj2 (live_lookup _ _ _ _) (conj Hp Hm)) in Hs.
  - unfold seen_before. rewrite (proj2 (eqb_false _ _) Hn). rewrite bind_gets, bind_run. cbn [assign modify]. rewrite Ha. cbn.
    split; [done|]. intros Hp Hm. by apply live_lookup.
Qed.
Lemma events_key l p : same_key p (run_events p l).
Proof.
  revert p. induction l as [|e l IH]; intros p; [done|]. cbn [run_events foldl]. etrans; [|apply IH]. unfold run_event.
  apply (quiet_operation same_key (ev_operation e) seen_same_key (at_clocks (ev_now e) (ev_monotonic e) p)).
Qed.
Lemma events_locked l p : stays_locked p (run_events p l).
Proof.
  revert p. induction l as [|e l IH]; intros p; [done|]. cbn [run_events foldl]. etrans; [|apply IH]. unfold run_event.
  apply (quiet_operation stays_locked (ev_operation e) seen_stays_locked (at_clocks (ev_now e) (ev_monotonic e) p)).
Qed.
Lemma events_nonce h deadline l p : Forall (λ e, ev_monotonic e < deadline) l → st_processed_nonces (pc_state p) !! h = Some deadline →
  st_processed_nonces (pc_state (run_events p l)) !! h = Some deadline.
Proof.
  revert p. induction l as [|e l IH]; intros p; [done|]. intros [He Hl]%Forall_cons Hp. cbn [run_events foldl]. apply (IH _ Hl). unfold run_event.
  apply (quiet_operation (keeps_nonce h deadline) (ev_operation e) (seen_keeps_nonce h deadline) (at_clocks (ev_now e) (ev_monotonic e) p)); done.
Qed.

(** ** A health check stops the sidecar *)

Lemma health_run p : (get_health_summary p).1 = Err Blocked ∧ pc_locked (get_health_summary p).2 = true.
Proof.
  destruct (pc_locked p) eqn:Hl.
  - unfold get_health_summary, locked. rewrite Hl. by split.
  - unfold get_health_summary. unfold locked at 1 2. rewrite Hl. by split.
Qed.
Lemma blocked_answer d offline p : pc_locked p = true → answer d offline p = (Err Blocked, p).
Proof. intros Hl. unfold answer, record_request, locked. rewrite bind_run. by rewrite Hl. Qed.
Lemma blocked_decision payload p : pc_locked p = true → ¬ is_Ok (local_authorize config payload p).1.
Proof.
  intros Hl. unfold local_authorize, evaluate_local_request, read. rewrite bind_gets, bind_run.
  pose proof (seen_stays_locked (lr_nonce payload) p Hl) as Hl'. destruct (seen_before _ p) as [[[]|e] p']; cbn [fst snd] in *; [| |by intros [? ?]].
  - rewrite (blocked_answer _ _ _ Hl'). by intros [? ?].
  - unfold decide_fresh, is_config_expired, locked. rewrite bind_run, Hl'. by intros [? ?].
Qed.

(** C40. One request for the health or the readiness of a sidecar is never answered, because it
    waits for the lock that it holds itself; and from then on no authorization request is
    answered, whatever happens in between. *)
Theorem health_check_blocks p e1 l e2 payload : ev_operation e1 = Health ∨ ev_operation e1 = Ready → ev_operation e2 = Authorize payload →
  (run_event p e1).1 = Err Blocked ∧ ¬ is_Ok (run_event (run_events (run_event p e1).2 l) e2).1.
Proof.
  intros Ho1 Ho2. assert (Hstuck : (run_event p e1).1 = Err Blocked ∧ pc_locked (run_event p e1).2 = true).
  { unfold run_event. pose proof (health_run (at_clocks (ev_now e1) (ev_monotonic e1) p)) as [F1 F2].
    destruct Ho1 as [-> | ->]; cbn [do_operation]; unfold health_check, readiness_check; rewrite ?bind_assoc, bind_run;
      destruct (get_health_summary _) as [r p']; cbn [fst snd] in *; subst r; done. }
  destruct Hstuck as [F1 F2]. split; [done|]. pose proof (events_locked l _ F2) as F3.
  unfold run_event at 1. rewrite Ho2. cbn [do_operation]. rewrite bind_run.
  pose proof (blocked_decision payload (at_clocks (ev_now e2) (ev_monotonic e2) (run_events (run_event p e1).2 l)) F3) as Hb.
  destruct (local_authorize _ _ _) as [[d|x] p']; [by destruct Hb; eexists | by intros [? ?]].
Qed.

(** ** Nonces *)

Lemma answer_Ok d offline p d' p' : answer d offline p = (Ok d', p') → d' = d.
Proof. unfold answer. rewrite bind_run. destruct (record_request _ _ p) as [[[]|x] q]; [by intros [= <-] | done]. Qed.
Definition replay_code : string := "REPLAY_ATTACK_DETECTED".
Lemma local_evaluate_run action resource agent amount creds n force p :
  evaluate_local_request config action resource agent amount creds n force p =
  let offline := force || negb (st_control_plane_reachable (pc_state p)) in
  match seen_before n p with
  | (Ok true, q) => answer (reject replay_code ("Nonce '" +:+ default "" n +:+ "' has already been processed.")) offline q
  | (Ok false, q) => decide_fresh config offline action resource agent amount creds q
  | (Err e, q) => (Err e, q)
  end.
Proof.
  unfold evaluate_local_request, read. rewrite bind_gets, bind_run. by destruct (seen_before n p) as [[[]|e] q].
Qed.
(** The request of an event that was answered, with the clocks set. *)
Lemma authorize_event p e payload d p' : ev_operation e = Authorize payload → run_event p e = (Ok (Decided d), p') →
  local_authorize config payload (at_clocks (ev_now e) (ev_monotonic e) p) = (Ok d, p').
Proof.
  intros He. unfold run_event. rewrite He. cbn [do_operation]. rewrite bind_run.
  destruct (local_authorize _ _ _) as [[a|x] q]; [|done]. by intros [= -> ->].
Qed.

(** C28. A nonce counts once: after a request with it was answered other than as a replay, every
    request with the same nonce in the next 300 seconds of the monotonic clock is rejected as
    a replay, whatever other requests, synchronisations and heartbeats come in between. *)
Theorem replay_refused p e1 a d1 p1 l e2 b d2 p2 n : ev_operation e1 = Authorize a → ev_operation e2 = Authorize b →
  lr_nonce a = Some n → lr_nonce b = Some n → n ≠ "" → run_event p e1 = (Ok (Decided d1), p1) → ld_code d1 ≠ replay_code →
  Forall (λ e, ev_monotonic e < ev_monotonic e1 + 300 * second) (l ++ [e2]) →
  run_event (run_events p1 l) e2 = (Ok (Decided d2), p2) → ld_decision d2 = "REJECTED" ∧ ld_code d2 = replay_code.
Proof.
  intros Ha Hb Na Nb Hn Hr1 Hcode [Hl He2]%Forall_app Hr2. apply (proj1 (Forall_singleton _ _)) in He2.
  apply (authorize_event _ _ _ _ _ Ha) in Hr1. apply (authorize_event _ _ _ _ _ Hb) in Hr2. unfold local_authorize in Hr1, Hr2.
  rewrite local_evaluate_run, Na in Hr1. rewrite local_evaluate_run, Nb in Hr2. cbv zeta in Hr1, Hr2.
  assert (Hascii : ascii_text n = true).
  { destruct (ascii_text n) eqn:Hx; [done|]. unfold seen_before in Hr1. rewrite (proj2 (eqb_false _ _) Hn) in Hr1.
    rewrite bind_gets, bind_run in Hr1. cbn [assign modify] in Hr1. by rewrite Hx in Hr1. }
  rewrite (seen_run n _ Hn Hascii) in Hr1. cbv zeta in Hr1. destruct (is_some _) eqn:Hs1; [by apply answer_Ok in Hr1 as ->|].
  match type of Hr1 with decide_fresh _ _ _ _ _ _ _ ?q = _ => set (q1 := q) in Hr1;
    assert (Hq : st_processed_nonces (pc_state q1) !! sha256_hex n = Some (ev_monotonic e1 + 300 * second)) by (cbn; apply lookup_insert_eq) end.
  assert (Hp1 : st_processed_nonces (pc_state p1) !! sha256_hex n = Some (ev_monotonic e1 + 300 * second)).
  { pose proof (quiet_decide (keeps_nonce (sha256_hex n) (ev_monotonic e1 + 300 * second)) (default false (lr_force_offline a) || negb (st_control_plane_reachable (pc_state p)))
      (lr_action a) (lr_resource a) (lr_agent_id a) (float_or_zero (lr_amount a)) (default [] (lr_credentials a)) q1) as [_ Hk].
    cbn [pc_state at_clocks] in Hr1. rewrite Hr1 in Hk. apply Hk; [exact Hq|]. change (pc_monotonic q1) with (ev_monotonic e1). assert (0 < second) by done. lia. }
  pose proof (events_nonce _ _ l p1 Hl Hp1) as Hp2.
  rewrite (seen_run n _ Hn Hascii) in Hr2. cbv zeta in Hr2.
  replace (is_some _) with true in Hr2; [apply answer_Ok in Hr2 as ->; by split|]. symmetry. apply is_some_true. eexists.
  apply live_lookup. split; [exact Hp2 | exact He2].
Qed.

(** ** What a local approval means *)

Definition holds_in {A} (r : result PyExc (list A)) (P : A → Prop) : Prop := ∃ l, r = Ok l ∧ ∀ x, x ∈ l → P x.
(** A credential of every required type is presented. *)
Definition presented (cfg : pyval) (credentials : list (list (string * pyval))) : Prop :=
  holds_in (items_of "credential_requirements" cfg) (λ item, ∃ ty, required_type item = Ok ty ∧
    (truthy ty = true → ∃ c, c ∈ credentials ∧ py_eq (get "credential_type" c) ty = true)).
(** Neither the agent nor a presented credential is among the revocations. *)
Definition unrevoked (cfg : pyval) (agent_id : string) (credentials : list (list (string * pyval))) : Prop :=
  holds_in (items_of "revocations" cfg) (λ r, ∃ d, r = VDict d ∧
    (py_eq (get "type" d) (VStr "agent") = true → py_eq (VStr agent_id) (get "id" d) = false) ∧
    (py_eq (get "type" d) (VStr "credential") = true → ∀ c, c ∈ credentials → truthy (get "credential_id" c) = true →
       py_eq (get "credential_id" c) (get "id" d) = false)).
(** No rule of an APL policy of the bundle decides otherwise. *)
Definition undecided (cfg : pyval) (agent_id action resource : string) (amount : float) : Prop :=
  holds_in (apl_policies cfg) (λ ast, apply_policy (apl_context agent_id action resource amount) amount ast = Ok None).
(** The other policies allow the action and the resource together, or there are none. *)
Definition permitted (cfg : pyval) (action resource : string) : Prop :=
  ∃ ps, items_of "policies" cfg = Ok ps ∧ (List.filter is_plain ps = [] ∨ ∃ d, VDict d ∈ List.filter is_plain ps ∧
    pattern_match action (py_or (get "allowed_actions" d) (VList [])) = Ok true ∧
    pattern_match resource (py_or (get "allowed_resources" d) (VList [])) = Ok true).

Lemma missing_none items creds : missing_type items creds = Ok None → ∀ item, item ∈ items → ∃ ty, required_type item = Ok ty ∧
  (truthy ty = true → ∃ c, c ∈ creds ∧ py_eq (get "credential_type" c) ty = true).
Proof.
  induction items as [|i items IH]; cbn [missing_type]; intros Hm item Hin; [by apply not_elem_of_nil in Hin|].
  destruct (required_type i) as [ty|] eqn:Hty; [|done]. cbn in Hm. destruct (truthy ty && _) eqn:Hb; [done|].
  apply elem_of_cons in Hin as [->|Hin]; [|by apply IH]. exists ty. split; [done|]. intros Ht. rewrite Ht in Hb. cbn in Hb.
  apply negb_false_iff, existsb_exists in Hb as (c & Hc & He). exists c. by rewrite list_elem_of_In.
Qed.
Lemma revoked_ids_Ok kind rs ids : revoked_ids kind rs = Ok ids → ∀ r, r ∈ rs → ∃ d, r = VDict d ∧
  (py_eq (get "type" d) (VStr kind) = true → get "id" d ∈ ids).
Proof.
  revert ids. induction rs as [|r rs IH]; intros ids; cbn [revoked_ids]; [by intros _ x Hx%not_elem_of_nil|].
  destruct r as [| | | | | |d]; try done. cbn. destruct (py_eq _ _) eqn:Ht.
  - destruct (hashable _); [|done]. destruct (revoked_ids kind rs) as [l|] eqn:Hl; [|done]. intros [= <-] x [->|Hx]%elem_of_cons.
    + exists d. split; [done|]. intros _. by left.
    + destruct (IH l eq_refl x Hx) as (e & -> & He). exists e. split; [done|]. intros Hk. right. auto.
  - intros Hl x [->|Hx]%elem_of_cons; [exists d; split; [done | congruence] | by apply (IH ids)].
Qed.
Lemma py_in_false v l : py_in v l = false → ∀ x, x ∈ l → py_eq v x = false.
Proof.
  unfold py_in. intros Hf x Hx. destruct (py_eq v x) eqn:He; [|done]. rewrite (proj2 (existsb_exists _ _)) in Hf; [done|].
  exists x. by rewrite <- list_elem_of_In.
Qed.
Lemma revoked_none ids creds : revoked_credential ids creds = Ok None → ∀ c, c ∈ creds → truthy (get "credential_id" c) = true →
  ∀ id, id ∈ ids → py_eq (get "credential_id" c) id = false.
Proof.
  induction creds as [|c creds IH]; cbn [revoked_credential]; intros Hr x Hx Ht id Hid; [by apply not_elem_of_nil in Hx|].
  apply elem_of_cons in Hx as [->|Hx].
  - rewrite Ht in Hr. unfold in_set in Hr. destruct (hashable _); [|done]. cbn in Hr. destruct (py_in _ ids) eqn:Hp; [done|].
    by apply (py_in_false _ ids).
  - apply (IH) with (c := x); [|done..]. destruct (truthy (get "credential_id" c)); [|done]. unfold in_set in Hr. destruct (hashable _); [|done].
    cbn in Hr. by destruct (py_in _ ids).
Qed.
Lemma trust_none cfg agent creds : check_trust cfg agent creds = Ok None → presented cfg creds ∧ unrevoked cfg agent creds.
Proof.
  unfold check_trust. destruct (items_of "credential_requirements" cfg) as [req|] eqn:Hreq; [|done]. cbn.
  destruct (missing_type req creds) as [[ty|]|] eqn:Hm; [done| |done]. cbn.
  destruct (items_of "revocations" cfg) as [rs|] eqn:Hrs; [|done]. cbn.
  destruct (revoked_ids "credential" rs) as [cids|] eqn:Hc; [|done]. cbn.
  destruct (revoked_credential cids creds) as [[cid|]|] eqn:Hr; [done| |done]. cbn.
  destruct (revoked_ids "agent" rs) as [aids|] eqn:Ha; [|done]. cbn [mbind result_bind]. destruct (py_in (VStr agent) aids) eqn:Hin; [done|]. intros _. split.
  - exists req. split; [done|]. intros item Hi. by apply (missing_none req creds).
  - exists rs. split; [done|]. intros r Hr'. destruct (revoked_ids_Ok _ _ _ Ha r Hr') as (d & -> & Hd). exists d. split_and!; [done | |].
    + intros Ht. by apply (py_in_false _ aids Hin), Hd.
    + intros Ht c Hcc Htr. destruct (revoked_ids_Ok _ _ _ Hc _ Hr') as (d' & [= <-] & Hd'). by apply (revoked_none cids creds Hr c Hcc Htr), Hd'.
Qed.
Lemma trust_some cfg agent creds d : check_trust cfg agent creds = Ok (Some d) → ld_decision d = "REJECTED".
Proof.
  unfold check_trust. destruct (items_of "credential_requirements" cfg) as [req|]; [|done]. cbn [mbind result_bind].
  destruct (missing_type req creds) as [[ty|]|]; [by intros [= <-] | |done]. cbn [mbind result_bind].
  destruct (items_of "revocations" cfg) as [rs|]; [|done]. cbn [mbind result_bind].
  destruct (revoked_ids "credential" rs) as [cids|]; [|done]. cbn [mbind result_bind].
  destruct (revoked_credential cids creds) as [[cid|]|]; [by intros [= <-] | |done]. cbn [mbind result_bind].
  destruct (revoked_ids "agent" rs) as [aids|]; [|done]. cbn [mbind result_bind]. destruct (py_in (VStr agent) aids); [by intros [= <-] | done].
Qed.
Lemma first_none {A} (f : A → result PyExc (option LocalDecision)) l : first_decision f l = Ok None → ∀ x, x ∈ l → f x = Ok None.
Proof.
  induction l as [|a l IH]; cbn [first_decision]; intros Hf x Hx; [by apply not_elem_of_nil in Hx|].
  destruct (f a) as [[d|]|] eqn:Ha; [done| |done]. apply elem_of_cons in Hx as [->|Hx]; [done | by apply IH].
Qed.
Lemma first_some {A} (f : A → result PyExc (option LocalDecision)) l d : first_decision f l = Ok (Some d) → ∃ a, f a = Ok (Some d).
Proof.
  induction l as [|a l IH]; cbn [first_decision]; [done|]. destruct (f a) as [[e|]|] eqn:Ha; [|exact IH | done].
  intros [= ->]. by exists a.
Qed.
(** A rule never approves. *)
Lemma rule_no_approval ctx amount rule d : apply_rule ctx amount rule = Ok (Some d) → ld_decision d ≠ "LOCAL_APPROVED".
Proof.
  unfold apply_rule. destruct (dict_of rule) as [r|]; [|done]. cbn. destruct (rule_matches ctx amount r) as [[]|]; [|done..]. cbn.
  destruct (eqb _ "DENY"); [by intros [= <-]|]. destruct (eqb _ "REQUIRE_APPROVAL"); [by intros [= <-] | done].
Qed.
Lemma policy_no_approval ctx amount ast d : apply_policy ctx amount ast = Ok (Some d) → ld_decision d ≠ "LOCAL_APPROVED".
Proof.
  unfold apply_policy. destruct (dict_of ast) as [a|]; [|done]. cbn. destruct (py_iter _) as [rules|]; [|done]. cbn.
  intros (rule & Hr)%first_some. by apply rule_no_approval in Hr.
Qed.
Lemma allows_some action resource ps : any_allows action resource ps = Ok true → ∃ d, VDict d ∈ ps ∧
  pattern_match action (py_or (get "allowed_actions" d) (VList [])) = Ok true ∧
  pattern_match resource (py_or (get "allowed_resources" d) (VList [])) = Ok true.
Proof.
  induction ps as [|p ps IH]; cbn [any_allows]; [done|]. destruct p as [| | | | | |d]; try done. cbn [dict_of mbind result_bind].
  destruct (pattern_match action _) as [[]|] eqn:H1a, (pattern_match resource _) as [[]|] eqn:H1r; cbn; try done.
  - intros _. exists d. split; [by left | done].
  - intros (e & He & Hp)%IH. exists e. split; [by right | done].
  - intros (e & He & Hp)%IH. exists e. split; [by right | done].
  - intros (e & He & Hp)%IH. exists e. split; [by right | done].
Qed.
Lemma policies_approved cfg agent action resource amount d : check_policies cfg agent action resource amount = Ok d →
  ld_decision d = "LOCAL_APPROVED" → undecided cfg agent action resource amount ∧ permitted cfg action resource.
Proof.
  unfold check_policies. destruct (apl_policies cfg) as [apl|] eqn:Hapl; [|done]. cbn.
  destruct (first_decision _ apl) as [[e|]|] eqn:Hf; [|cbn|done].
  { cbn. intros [= ->] Hd. apply first_some in Hf as (ast & Ha%policy_no_approval). done. }
  destruct (items_of "policies" cfg) as [ps|] eqn:Hps; [|done]. cbn. intros Hall Hd. split.
  - exists apl. split; [done|]. by apply first_none.
  - exists ps. split; [done|]. destruct (List.filter is_plain ps) as [|q qs]; [by left|]. right.
    destruct (any_allows action resource (q :: qs)) as [[]|] eqn:Ha; [by apply allows_some | injection Hall as <-; done | done].
Qed.

(** An approval by the checks on the configuration. *)
Lemma judge_approved cfg offline action resource agent amount creds d :
  judge config cfg offline action resource agent amount creds = Ok d → ld_decision d = "LOCAL_APPROVED" →
  (offline = true → offline_policy config = "LIMITED_OFFLINE") ∧ high_amount amount = false ∧ administrative action = false ∧
  presented cfg creds ∧ unrevoked cfg agent creds ∧ undecided cfg agent action resource amount ∧ permitted cfg action resource.
Proof.
  intros Hj Hd. unfold judge in Hj. destruct (check_offline config offline action amount) as [o|] eqn:Ho.
  { exfalso. injection Hj as ->. unfold check_offline in Ho. repeat case_match; try done; by injection Ho as <-. }
  destruct (check_trust _ agent creds) as [[o|]|] eqn:Ht; [| |done]; cbn in Hj.
  { exfalso. injection Hj as ->. apply trust_some in Ht. congruence. }
  destruct (trust_none _ _ _ Ht) as [Hp Hu]. destruct (check_risk action amount) as [o|] eqn:Hrisk.
  { exfalso. injection Hj as ->. unfold check_risk in Hrisk. repeat case_match; try done; by injection Hrisk as <-. }
  destruct (policies_approved _ _ _ _ _ _ Hj Hd) as [Hund Hperm]. unfold check_risk in Hrisk.
  destruct (high_amount amount); [done|]. destruct (administrative action); [done|]. split_and!; try done.
  intros Hoff. unfold check_offline in Ho. rewrite Hoff in Ho. cbn in Ho. destruct (eqb _ "FAIL_CLOSED"); [done|].
  destruct (eqb _ "LIMITED_OFFLINE") eqn:Hl; [by apply (proj1 (eqb_true _ _)) in Hl | done].
Qed.
Lemma nonce_unseen nonce p q : seen_before nonce p = (Ok false, q) → st_active_config (pc_state q) = st_active_config (pc_state p) ∧
  st_config_expires_at (pc_state q) = st_config_expires_at (pc_state p) ∧ pc_now q = pc_now p ∧
  ∀ n t, nonce = Some n → n ≠ "" → st_processed_nonces (pc_state p) !! sha256_hex n = Some t → t <= pc_monotonic p.
Proof.
  destruct nonce as [n|]; [|by intros [= <-]]. destruct (decide (n = "")) as [->|Hn].
  { intros [= <-]. split_and!; try done; by intros n t [= <-]. }
  destruct (ascii_text n) eqn:Ha.
  - rewrite (seen_run n p Hn Ha). cbv zeta. destruct (is_some _) eqn:Hs; [done|]. intros [= <-].
    split_and!; [done..|]. intros n' t [= <-] _ Ht. apply is_some_false in Hs.
    destruct (decide (t <= pc_monotonic p)) as [?|Hlt]; [done|]. rewrite (proj2 (live_lookup _ _ _ t)) in Hs; [done | split; [done | lia]].
  - unfold seen_before. rewrite (proj2 (eqb_false _ _) Hn). rewrite bind_gets, bind_run. cbn [assign modify]. by rewrite Ha.
Qed.
(** An approval: a nonce that is new, a configuration in force, and the checks on it. *)
Lemma approval_judged action resource agent amount creds nonce force p d p' :
  evaluate_local_request config action resource agent amount creds nonce force p = (Ok d, p') → ld_decision d = "LOCAL_APPROVED" →
  (∀ n t, nonce = Some n → n ≠ "" → st_processed_nonces (pc_state p) !! sha256_hex n = Some t → t <= pc_monotonic p) ∧
  (∃ t, st_config_expires_at (pc_state p) = Some t ∧ pc_now p <= t) ∧
  judge config (st_active_config (pc_state p)) (force || negb (st_control_plane_reachable (pc_state p))) action resource agent amount creds = Ok d.
Proof.
  rewrite local_evaluate_run. set (offline := force || _). cbv zeta. intros Hr Hd.
  destruct (seen_before nonce p) as [[[]|x] q] eqn:Hq; [by apply answer_Ok in Hr as -> | |done].
  destruct (nonce_unseen _ _ _ Hq) as (Hcfg & Hexp & Hnow & Hnonce). rewrite <- Hcfg, <- Hexp, <- Hnow. split; [done|].
  unfold decide_fresh in Hr. rewrite bind_run in Hr. destruct (is_config_expired q) as [[[]|x] q2] eqn:He; [by apply answer_Ok in Hr as -> | |done].
  assert (Hforce : pc_state q2 = pc_state q ∧ ∃ t, st_config_expires_at (pc_state q) = Some t ∧ pc_now q <= t).
  { unfold is_config_expired, locked in He. destruct (pc_locked q); [done|]. cbn in He. injection He as He <-. split; [done|].
    destruct (st_config_expires_at _) as [t|]; [|done]. exists t. split; [done | lia]. }
  destruct Hforce as [Hst Hforce]. split; [done|]. unfold read in Hr. rewrite bind_gets, bind_run, Hst in Hr.
  destruct (judge _ _ _ _ _ _ _ _) as [j|] eqn:Hj; [|done]. cbn in Hr. by apply answer_Ok in Hr as ->.
Qed.

(** C23. What is approved locally was not seen with its nonce in the last 300 seconds; the
    configuration in force has not expired; offline the policy is LIMITED_OFFLINE; the amount
    is not above 5000 and the action neither deletes nor administers; a credential of every
    required type is presented; neither the agent nor a presented credential is revoked; no
    APL rule of the bundle denies or holds the request; and the other policies, if there are
    any, allow the action and the resource together. *)
Theorem local_approval_sound action resource agent amount creds nonce force p d p' :
  evaluate_local_request config action resource agent amount creds nonce force p = (Ok d, p') → ld_decision d = "LOCAL_APPROVED" →
  let cfg := st_active_config (pc_state p) in
  (∀ n t, nonce = Some n → n ≠ "" → st_processed_nonces (pc_state p) !! sha256_hex n = Some t → t <= pc_monotonic p) ∧
  (∃ t, st_config_expires_at (pc_state p) = Some t ∧ pc_now p <= t) ∧
  (force || negb (st_control_plane_reachable (pc_state p)) = true → offline_policy config = "LIMITED_OFFLINE") ∧
  high_amount amount = false ∧ administrative action = false ∧ presented cfg creds ∧ unrevoked cfg agent creds ∧
  undecided cfg agent action resource amount ∧ permitted cfg action resource.
Proof.
  intros Hr Hd cfg. destruct (approval_judged _ _ _ _ _ _ _ _ _ _ Hr Hd) as (Hnonce & Hforce & Hj).
  destruct (judge_approved _ _ _ _ _ _ _ _ Hj Hd) as (? & ? & ? & ? & ? & ? & ?). by split_and!.
Qed.

(** ** Synchronisation *)

Definition config_url (gateway_id : string) (s : SidecarState) : string :=
  strip_slashes (control_plane_url config) +:+ "/v1/gateways/" +:+ gateway_id +:+ "/config?client_version=" +:+
  py_str (st_applied_config_version s).
Definition trusts_any (s : SidecarState) : Prop := st_control_plane_public_key s = None.
Definition received (d : list (string * pyval)) (t now : time) (s : SidecarState) : SidecarState :=
  set_config (get_default "config_version" d (VInt 0)) (get_default "bundle" d (VDict [])) t now (set_reachable true s).
Lemma py_run {A B} (a : A) (k : A → SM B) p : (lift_py (Ok a) ≫= k) p = k a p.
Proof. reflexivity. Qed.
Lemma assign_run {B} f (k : unit → SM B) p : (assign f ≫= k) p = k tt (with_state (f (pc_state p)) p).
Proof. reflexivity. Qed.
Lemma activate_run d t p : pc_locked p = false → trusts_any (pc_state p) →
  is_rollback (get_default "config_version" d (VInt 0)) (st_applied_config_version (pc_state p)) = Ok false →
  expiry_of (get_default "expires_at" d (VStr "")) = Ok t →
  ∃ q, activate d p = (Ok true, q) ∧ pc_locked q = false ∧
    pc_state q = set_config (get_default "config_version" d (VInt 0)) (get_default "bundle" d (VDict [])) t (pc_now p) (pc_state p).
Proof.
  intros Hl Hk Hr He. unfold activate, verify_if_known, read. rewrite bind_assoc, bind_gets, bind_ret. rewrite Hk. cbn [negb].
  rewrite bind_gets, Hr, py_run, He, py_run. rewrite bind_run. unfold update_config, locked. rewrite Hl. cbn. eexists. by split_and!.
Qed.
Lemma sync_activates net gid status body d t p : pc_locked p = false → gateway_id_of (pc_state p) = Some gid → trusts_any (pc_state p) →
  net (config_url gid (pc_state p)) = Answer status body → status ≠ 304 → json_loads body = Ok (VDict d) →
  is_rollback (get_default "config_version" d (VInt 0)) (st_applied_config_version (pc_state p)) = Ok false →
  expiry_of (get_default "expires_at" d (VStr "")) = Ok t →
  ∃ q, sync_configuration_sync config net p = (Ok true, q) ∧ pc_locked q = false ∧ pc_state q = received d t (pc_now p) (pc_state p).
Proof.
  intros Hl Hg Hk Hnet Hst Hj Hr He. unfold sync_configuration_sync, read. rewrite bind_gets, Hg. cbn [endpoints try_endpoints]. rewrite bind_run.
  unfold sync_from, read. rewrite bind_gets. unfold config_url in Hnet. rewrite Hnet. rewrite (proj2 (Z.eqb_neq _ _) Hst).
  unfold except_py, try_except, parse_json. rewrite Hj, py_run, assign_run. cbn [dict_of]. rewrite py_run, bind_run.
  destruct (activate_run d t (with_state (set_reachable true (pc_state p)) p)) as (q & Ha & Hql & Hqs); [done..|].
  rewrite Ha. exists q. split_and!; [done | done | exact Hqs].
Qed.


(** ** With the control plane at the other end *)

Context `{Entropy} `{ControlPlane}.
(** The answer of the route [/gateways/{gateway_id}/config] as the sidecar receives it: the
    encoder of the web framework is a parameter. *)
Context (encode : list (string * pyval) → string).
Definition answer_of (r : result Exc control_reply) : response :=
  match r with
  | Ok (Config (Some d)) => Answer 200 (encode d)
  | Ok (Config None) => HTTPErr 304
  | Err (HTTPException code _) => HTTPErr code
  | _ => HTTPErr 500
  end.
(** The configuration in force refuses the agent. *)
Definition refuses (agent_id : string) (cfg : pyval) : Prop := ∀ p payload d q, st_active_config (pc_state p) = cfg → lr_agent_id payload = agent_id →
  local_authorize config payload p = (Ok d, q) → ld_decision d ≠ "LOCAL_APPROVED".
Lemma py_eq_text s : py_eq (VStr s) (VStr s) = true.
Proof. apply eqb_refl. Qed.
Lemma named_refused agent_id c : revocation_entry "agent" agent_id ∈ bc_revocations c → refuses agent_id (VDict (bundle_value c)).
Proof.
  intros Hin p payload d q Hcfg Hag Hrun Hd. unfold local_authorize in Hrun.
  destruct (approval_judged _ _ _ _ _ _ _ _ _ _ Hrun Hd) as (_ & _ & Hj). rewrite Hcfg, Hag in Hj.
  destruct (judge_approved _ _ _ _ _ _ _ _ Hj Hd) as (_ & _ & _ & _ & Hun & _).
  destruct Hun as (rs & Hrs & Hall).
  assert (Hitems : items_of "revocations" (VDict (bundle_value c)) = Ok (map VDict (bc_revocations c))).
  { unfold items_of. cbn [dict_of mbind result_bind]. change (get "revocations" (bundle_value c)) with (VList (map VDict (bc_revocations c))).
    unfold py_or. by destruct (bc_revocations c). }
  rewrite Hitems in Hrs. injection Hrs as <-.
  destruct (Hall (VDict (revocation_entry "agent" agent_id))) as (e & He & Hagent & _); [by apply list_elem_of_fmap_2|].
  injection He as <-. specialize (Hagent (py_eq_text "agent")). change (py_eq (VStr agent_id) (VStr agent_id) = false) in Hagent. by rewrite py_eq_text in Hagent.
Qed.
Lemma expiry_stamp t : four_digits t = true → expiry_of (VStr (strftime_z t)) = Ok (t / second * second).
Proof.
  intros Ht. unfold expiry_of, strftime_z.
  assert (Hend : endswith "Z" (stamp t +:+ "Z") = true) by (unfold endswith; rewrite str_rev_app; apply prefix_app).
  assert (Hlen : (String.length (stamp t +:+ "Z") - 1)%nat = String.length (stamp t)) by (rewrite String_length_append; change (String.length "Z") with 1%nat; lia).
  rewrite Hend, Hlen, take_app, (local_stamp t Ht). f_equal. cbn. lia.
Qed.

(** C24. A suspended, retired or revoked agent is refused by the sidecars: once the organization
    publishes a configuration without a revocation list of its own, and a sidecar of that
    environment fetches it, the sidecar approves no request of the agent for as long as that
    configuration is in force, whatever its nonce, amount or credentials ([json.loads] reads
    the body back as the framework encoded it). *)
Theorem withdrawn_agent_refused w pub org req user w1 a x dl gid v g d p net :
  store_ok w.1 → ca_request pub = Publish org req user → serve w pub = (Ok Done, w1) → pr_revocations req = None →
  agents w.2 !! x = Some a → withdrawn_agent (og_id org) a = true →
  four_digits (ca_now pub + validity_hours req * hour) = true →
  ca_request dl = Download gid (Some v) → gateway_by gid w1.2 = Ok (Some g) → gw_organization_id g = og_id org →
  py_lower (gw_environment g) = py_lower (pr_environment req) → (serve w1 dl).1 = Ok (Config (Some d)) →
  pc_locked p = false → gateway_id_of (pc_state p) = Some gid → trusts_any (pc_state p) → st_applied_config_version (pc_state p) = VInt v →
  v < latest_version (og_id org) (py_lower (pr_environment req)) w1.2 →
  net (config_url gid (pc_state p)) = answer_of (serve w1 dl).1 → json_loads (encode d) = Ok (VDict d) →
  ∃ q, sync_configuration_sync config net p = (Ok true, q) ∧ refuses (ag_identifier a) (st_active_config (pc_state q)).
Proof.
  intros Hcp Hpub Hserve Hnone Ha Hwith Hyear Hdl Hg Horg Henv Hd Hl Hgid Hk Hv Hlt Hnet Hbody.
  destruct (publish_served w pub org req user w1 Hcp Hpub Hserve) as (b & f & Hb & Hw1).
  pose proof (latest_published _ _ _ _ _ _ f Hb) as Hlatest. rewrite <- Hw1 in Hlatest.
  assert (d = signed_config b) as ->.
  { apply (download_latest w1 dl gid (Some v) g b d Hdl Hg); [by rewrite Horg, Henv | exact Hd]. }
  unfold latest_version in Hlt. rewrite Hlatest in Hlt. rewrite Hd in Hnet. cbn [answer_of] in Hnet.
  destruct (sync_activates net gid 200 (encode (signed_config b)) (signed_config b) (gb_expires_at b / second * second) p) as (q & Hq & _ & Hs);
    [done.. | | |].
  - rewrite Hv. change (is_rollback (VInt (gb_config_version b)) (VInt v) = Ok false). unfold is_rollback, py_le. cbn [num_of].
    by replace (gb_config_version b <=? v) with false by lia.
  - change (expiry_of (VStr (strftime_z (gb_expires_at b))) = Ok (gb_expires_at b / second * second)). apply expiry_stamp. by rewrite (pub_expires _ _ _ _ _ _ Hb).
  - exists q. split; [done|]. rewrite Hs. change (refuses (ag_identifier a) (VDict (bundle_value (gb_bundle_json b)))).
    apply named_refused. pose proof (pub_content _ _ _ _ _ _ Hb) as Hgath. unfold gathered in Hgath. rewrite Hnone in Hgath.
    destruct (match pr_policies req with Some (y :: l) => Ok (y :: l) | _ => default_policies (og_id org) w.2 end) as [ps|]; [|done]. injection Hgath as <-. cbn [bc_revocations or_default].
    unfold default_revocations. apply elem_of_app. right. apply (list_elem_of_fmap_2 (λ a, revocation_entry "agent" (ag_identifier a))).
    apply elem_of_select_rows. split; [by exists x | done].
Qed.
End sidecar.

(** ** Witnesses and limits *)

Definition sample_sidecar : SidecarConfig :=
  MkSidecarConfig "http://127.0.0.1:8000" None (Some the_gateway) "Local Sidecar" "PRODUCTION" "SIDECAR" "FAIL_CLOSED" 30 30 "127.0.0.1" 8080
    ".sidecar_keys" ".sidecar_cache" false.
Example sidecar_defaults :
  sidecar_config (λ k, if eqb k "AGENTTRUST_GATEWAY_ID" then Some the_gateway else None) = Some sample_sidecar.
Proof. vm_compute. reflexivity. Qed.

(** A loader that reads one document, whatever the text. *)
Definition carrying (d : list (string * pyval)) : Loaders :=
  {| json_loads _ := Ok (VDict d); yaml_safe_load _ := Err "no document"; loaders_hashing := short_hashing |}.
Definition process_with (s : SidecarState) : process := MkProcess false s None None NoCache 0 some_day 0.
Definition in_force (cfg : list (string * pyval)) : process :=
  process_with (set_config (VInt 1) (VDict cfg) (some_day + day) some_day (set_gateway the_gateway initial_state)).
Definition no_policies : list (string * pyval) := [("policies", VList [])].
Definition asking (action : string) (amount : float) (nonce : option string) : LocalAuthorizeRequest :=
  MkLocalRequest action "hotel:1" "agent-7" (Some amount) None nonce None None.
Definition decide_with (cfg : list (string * pyval)) (payload : LocalAuthorizeRequest) : option (string * string) :=
  match (@local_authorize (carrying []) sample_sidecar payload (in_force cfg)).1 with
  | Ok d => Some (ld_decision d, ld_code d) | Err _ => None
  end.
Definition euros (n : Z) : float := f_of_Z n.

(** An amount that is no number passes the limit. *)
Example nan_amount_approved : decide_with no_policies (asking "hotel.reserve" SpecFloat.S754_nan None) = Some ("LOCAL_APPROVED", "AUTHORIZED") ∧
  decide_with no_policies (asking "hotel.reserve" (euros 5001) None) = Some ("PENDING_HUMAN_APPROVAL", "HIGH_VALUE_TRANSACTION").
Proof. split; vm_compute; reflexivity. Qed.
(** An allowed action without a star is a prefix. *)
Example exact_action_is_prefix :
  decide_with [("policies", VList [VDict [("allowed_actions", VList [VStr "pay"]); ("allowed_resources", VList [VStr "*"])]])]
    (asking "payroll.export" (euros 1) None) = Some ("LOCAL_APPROVED", "AUTHORIZED").
Proof. vm_compute. reflexivity. Qed.
(** A required credential is asked for its type only. *)
Example unsigned_credential_presented :
  match (@local_authorize (carrying []) sample_sidecar
    (MkLocalRequest "hotel.reserve" "hotel:1" "agent-7" None (Some [[("credential_type", VStr "AgentIdentityCredential")]]) None None None)
    (in_force [("policies", VList []); ("credential_requirements", VList [VDict [("type", VStr "AgentIdentityCredential")]])])).1 with
  | Ok d => ld_decision d = "LOCAL_APPROVED" | Err _ => False
  end.
Proof. vm_compute. reflexivity. Qed.

(** The same policy in the control plane ([AplEval]) and in the sidecar. *)
Definition rule (effect : string) (when : list (string * pyval)) : pyval := VDict [("id", VStr effect); ("effect", VStr effect); ("when", VDict when)].
Definition on_action (action : string) : list (string * pyval) := [("field", VStr "action"); ("operator", VStr "eq"); ("value", VStr action)].
Definition apl_policy (rules : list pyval) : list (string * pyval) := [("version", VStr "APL/1.0"); ("rules", VList rules)].
Definition central_decision (rules : list pyval) : result PyExc string :=
  r ← AplEval.evaluate_apl_policy (VDict (apl_policy rules)) (VDict (apl_context "agent-7" "hotel.reserve" "hotel:1" (euros 1)));
  Ok (AplEval.ev_decision r).
Definition local_decision (rules : list pyval) : option (string * string) :=
  decide_with [("policies", VList [VDict (apl_policy rules)])] (asking "hotel.reserve" (euros 1) None).
Example default_effect_ignored : central_decision [rule "ALLOW" (on_action "hotel.list")] = Ok "DENY" ∧
  local_decision [rule "ALLOW" (on_action "hotel.list")] = Some ("LOCAL_APPROVED", "AUTHORIZED").
Proof. split; vm_compute; reflexivity. Qed.
Example alternatives_ignored : let r := [rule "DENY" [("any", VList [VDict (on_action "hotel.list")])]; rule "ALLOW" (on_action "hotel.reserve")] in
  central_decision r = Ok "ALLOW" ∧ local_decision r = Some ("REJECTED", "APL_POLICY_DENY").
Proof. split; vm_compute; reflexivity. Qed.
Example first_rule_wins : let r := [rule "REQUIRE_APPROVAL" (on_action "hotel.reserve"); rule "DENY" (on_action "hotel.reserve")] in
  central_decision r = Ok "DENY" ∧ local_decision r = Some ("PENDING_HUMAN_APPROVAL", "APL_POLICY_REQUIRE_APPROVAL").
Proof. split; vm_compute; reflexivity. Qed.

Lemma local_approval_sound_witness : high_amount (euros 100) = false ∧ permitted (VDict no_policies) "hotel.reserve" "hotel:1".
Proof.
  pose (run := @evaluate_local_request (carrying []) sample_sidecar "hotel.reserve" "hotel:1" "agent-7" (euros 100) [] (Some "n-1") false (in_force no_policies)).
  destruct run as [[d|e] q] eqn:Hrun; [|vm_compute in Hrun; discriminate].
  assert (Hd : ld_decision d = "LOCAL_APPROVED") by (vm_compute in Hrun; injection Hrun as <- _; reflexivity).
  destruct (@local_approval_sound (carrying []) sample_sidecar _ _ _ _ _ _ _ _ _ _ Hrun Hd) as (_ & _ & _ & Ha & _ & _ & _ & _ & Hp). by split.
Defined.

Local Existing Instances sample_keys sample_ed25519.
Definition clocked (o : operation) (n : Z) : event := MkEvent o (some_day + n * second) (n * second).
Definition ask_again : operation := Authorize (asking "hotel.reserve" (euros 100) (Some "n-1")).
Definition run_sample := @run_event (carrying []) sample_keys sample_ed25519 sample_sidecar.
Lemma replay_refused_witness : ∃ d q, run_sample (run_sample (in_force no_policies) (clocked ask_again 0)).2 (clocked ask_again 299) = (Ok (Decided d), q) ∧
  ld_code d = replay_code.
Proof.
  destruct (run_sample (in_force no_policies) (clocked ask_again 0)) as [[[d1|]|e] p1] eqn:H1r; [|vm_compute in H1r; discriminate..].
  destruct (run_sample p1 (clocked ask_again 299)) as [[[d2|]|e] p2] eqn:H2r; [| vm_compute in H1r; injection H1r as _ <-; vm_compute in H2r; discriminate..].
  exists d2, p2. split; [exact H2r|].
  assert (Hcode : ld_code d1 ≠ replay_code) by (vm_compute in H1r; injection H1r as <- _; discriminate).
  assert (Hclock : Forall (λ e, ev_monotonic e < ev_monotonic (clocked ask_again 0) + 300 * second) ([] ++ [clocked ask_again 299])) by (by apply Forall_singleton).
  refine (proj2 (@replay_refused (carrying []) sample_keys sample_ed25519 sample_sidecar (in_force no_policies) (clocked ask_again 0) _ d1 p1 []
    (clocked ask_again 299) _ d2 p2 "n-1" eq_refl eq_refl eq_refl eq_refl _ H1r Hcode Hclock H2r)). discriminate.
Defined.
Lemma health_check_blocks_witness : (run_sample (in_force no_policies) (clocked Health 1)).1 = Err Blocked ∧
  ¬ is_Ok (run_sample (run_sample (in_force no_policies) (clocked Health 1)).2 (clocked ask_again 2)).1.
Proof.
  exact (@health_check_blocks (carrying []) sample_keys sample_ed25519 sample_sidecar (in_force no_policies) (clocked Health 1) [] (clocked ask_again 2) _
    (or_introl eq_refl) eq_refl).
Defined.

(** A configuration from anyone: its signature is that of nobody. *)
Definition forged : list (string * pyval) :=
  [("config_version", VInt 1000000); ("expires_at", VStr "2099-01-01T00:00:00Z"); ("bundle", VDict no_policies); ("signature", VStr "")].
Example forged_does_not_verify k : @verify_control_plane_config (carrying forged) sample_ed25519 forged k = false.
Proof. reflexivity. Qed.
Definition attacker : network := λ _, Answer 200 "forged".
Definition start_up : list event := [clocked (Startup (λ _, Unreachable) (λ _ _, Unreachable)) 0].
Definition run_samples_with (d : list (string * pyval)) := @run_events (carrying d) sample_keys sample_ed25519 sample_sidecar.

(** The composition: agent 7 is suspended, the organization publishes, the sidecar fetches. *)
Local Existing Instance no_pem.
Definition suspended_agent : Agent :=
  let a := sample_agent 7 in
  {| ag_id := 7%N; ag_created_at := 0; ag_name := ag_name a; ag_identifier := "agent-7"; ag_environment := ag_environment a;
     ag_owner_id := ag_owner_id a; ag_organization_id := Some 50%N; ag_status := SUSPENDED; ag_owner_type := ag_owner_type a;
     ag_purpose := ag_purpose a; ag_risk_classification := ag_risk_classification a; ag_last_activity_at := None;
     ag_last_reviewed_at := None; ag_next_review_due_at := None; ag_certified_until := None;
     ag_certification_status := ag_certification_status a; ag_description := None; ag_team := None; ag_business_function := None;
     ag_business_criticality := ag_business_criticality a; ag_data_classification := ag_data_classification a;
     ag_source := ag_source a; ag_tags := []; ag_expected_actions := []; ag_data_access_description := None |}.
Definition the_publication : incoming := at_minute 2 (Publish gateway_org (environment_only "production") 9).
Definition the_download : incoming := at_minute 3 (Download the_gateway (Some 0)).
Definition with_suspended (d : list (string * pyval)) : world :=
  @serve_all _ (carrying d) _ _ _ (MkCpStore None None, upd_agents <[7%N := suspended_agent]> before_gateways.2)
    [at_minute 0 (Register gateway_org (edge_registration "PRODUCTION")); at_minute 1 (Enroll the_gateway edge_enrollment)].
Definition published_world (d : list (string * pyval)) : world := (@serve _ (carrying d) _ _ _ (with_suspended d) the_publication).2.
Definition distributed : list (string * pyval) :=
  match (@serve _ (carrying []) _ _ _ (published_world []) the_download).1 with Ok (Config (Some d)) => d | _ => [] end.
Definition edge_sidecar : process := process_with (set_gateway the_gateway initial_state).
Definition one_body (d : list (string * pyval)) : string := "body".
Definition to_control_plane : network := λ _, answer_of one_body (@serve _ (carrying distributed) _ _ _ (published_world distributed) the_download).1.
Lemma distributed_here : (@serve _ (carrying distributed) _ _ _ (published_world distributed) the_download).1 = Ok (Config (Some distributed)).
Proof. vm_compute. reflexivity. Qed.
Lemma published_gateway : ∃ g, gateway_by the_gateway (published_world distributed).2 = Ok (Some g) ∧ gw_organization_id g = 50%N ∧
  py_lower (gw_environment g) = "production".
Proof.
  destruct (gateway_by the_gateway (published_world distributed).2) as [[g|]|] eqn:Hg; [|vm_compute in Hg; discriminate..].
  exists g. split; [done|]. vm_compute in Hg. injection Hg as <-. by split.
Qed.
Lemma withdrawn_agent_refused_witness : ∃ q, @sync_configuration_sync (carrying distributed) _ sample_sidecar to_control_plane edge_sidecar = (Ok true, q) ∧
  @refuses (carrying distributed) sample_sidecar "agent-7" (st_active_config (pc_state q)).
Proof.
  destruct published_gateway as (g & Hg & Horg & Henv).
  assert (Hserve : @serve _ (carrying distributed) _ _ _ (with_suspended distributed) the_publication = (Ok Done, published_world distributed)).
  { unfold published_world. destruct (serve _ _) as [r w1] eqn:Hr. cbn [snd]. f_equal. apply (f_equal fst) in Hr. cbn [fst] in Hr. rewrite <- Hr. vm_compute. reflexivity. }
  assert (Hcp : @store_ok _ (with_suspended distributed).1).
  { apply (serve_all_steps (MkCpStore None None, upd_agents <[7%N := suspended_agent]> before_gateways.2)). by left. }
  exact (@withdrawn_agent_refused (carrying distributed) _ _ sample_sidecar _ _ one_body (with_suspended distributed) the_publication gateway_org
    (environment_only "production") 9%N (published_world distributed) suspended_agent 7%N the_download the_gateway 0 g distributed edge_sidecar to_control_plane
    Hcp eq_refl Hserve eq_refl ltac:(vm_compute; reflexivity) ltac:(vm_compute; reflexivity) ltac:(vm_compute; reflexivity) eq_refl Hg Horg Henv
    distributed_here eq_refl eq_refl eq_refl eq_refl ltac:(vm_compute; reflexivity) eq_refl eq_refl).
Defined.
End SidecarProps.
