(* ===== verification/Webhooks.v ===== *)
(** Webhooks of organizations ([backend/app/services/webhooks.py]): configuration,
    signed payloads, deliveries with their retries, and the worker.

    Name resolution, HMAC, SHA-256 and the answer of a POST are parameters. *)
From Stdlib Require Import Ascii.
From S2P Require Import Prelude.
From S2P Require Import PyStr.
From S2P Require Import PyFloat.
From S2P Require Import PyVal.
From S2P Require Import PyDecimal.
From S2P Require Import Models.
From S2P Require Import PyCodec.
From S2P Require Import PyNet.
From S2P Require Import Ssrf.
From S2P Require Import Store.
From S2P Require Import SecurityEvents.
From S2P Require Import Workspace.
From S2P Require Import Notifications.
From S2P Require Import PlanLimits.

Local Open Scope string_scope.
Local Open Scope Z_scope.

(** The answer of [httpx.post]: a status and a text, an [HTTPError], or another exception. *)
Inductive post_answer : Type := PostAnswered (code : Z) (text : string) | PostHTTPError | PostRaised (e : Exc).
Class WebhookServices : Type := {
  wh_hashing :: Hashing;
  wh_hmac :: Hmac;
  wh_resolver :: Resolver;
  wh_post : string → string → list (string * string) → nat → post_answer
}.

Module Webhooks.
Import SecurityEvents Workspace Notifications PlanLimits.

Record webhook_settings : Type := MkWebhookSettings {
  ws_app_env : string;
  ws_webhook_signing_key : string;
  ws_max_delivery_attempts : Z;
  ws_retry_base_seconds : Z;
  ws_worker_batch_size : nat
}.

Definition upd_endpoints f : tables → tables := upd_identity (on_webhook_endpoints f).
Definition upd_webhook_deliveries f : tables → tables := upd_identity (on_webhook_deliveries f).
Definition endpoints (t : tables) : gmap uuid WebhookEndpoint := webhook_endpoints (identity t).
Definition deliveries_of (t : tables) : gmap uuid WebhookDelivery := webhook_deliveries (identity t).

(** [AuthorizationRequestStatus] *)
Definition RequestStatus_value (s : AuthorizationRequestStatus) : string :=
  match s with ReqPending => "PENDING" | ReqApproved => "APPROVED" | ReqRejected => "REJECTED" | ReqExpired => "EXPIRED" end.

Section webhooks.
Context `{Entropy} `{SecuritySinks} `{WebhookServices}.

(** ** Signatures *)

Definition development (settings : webhook_settings) : bool := existsb (eqb (ws_app_env settings)) ["local"; "test"].
Definition validate_webhook_url (settings : webhook_settings) (url : string) : result Exc unit :=
  match urlsplit url with
  | None => Err (PyError ValueError)
  | Some parts =>
      if has_userinfo url || negb (is_some (url_hostname parts)) then Err (WebhookConfigurationError "Webhook URL is not allowed")
      else if negb (development settings) && negb (eqb (url_scheme parts) "https") then
        Err (WebhookConfigurationError "Webhook URL must use HTTPS")
      else
        match url_port parts with
        | Err _ => Err (WebhookConfigurationError "Webhook host could not be resolved")
        | Ok port =>
            match getaddrinfo (default "" (url_hostname parts)) (default 0 port) with
            | Err _ => Err (WebhookConfigurationError "Webhook host could not be resolved")
            | Ok addresses =>
                if development settings then Ok tt
                else if forallb (λ a, match ip_address a with Some i => is_global i | None => false end) addresses then Ok tt
                else match find_first (λ a, negb match ip_address a with Some i => is_global i | None => false end) addresses with
                     | Some a => if is_some (ip_address a) then Err (WebhookConfigurationError "Webhook URL is not allowed") else Err (PyError ValueError)
                     | None => Ok tt
                     end
            end
        end
  end.

Definition derive_webhook_secret (settings : webhook_settings) (organization_id : uuid) : result Exc string :=
  let master := ws_webhook_signing_key settings in
  if (String.length master <? 32)%nat then Err (WebhookConfigurationError "Webhook signing is not configured")
  else Ok ("whsec_" +:+ hmac_sha256 master (uuid_str organization_id)).

Definition sign_webhook (secret : string) (timestamp : Z) (payload : string) : string :=
  hmac_sha256 secret (str_of_Z timestamp +:+ "." +:+ payload).

(** [dict(part.split("=", 1) for part in header.split(","))], later parts winning. *)
Fixpoint header_values (parts : list string) (acc : list (string * string)) : option (list (string * string)) :=
  match parts with
  | [] => Some acc
  | p :: parts =>
      match partition_at "=" p with
      | (k, true, v) => header_values parts ((k, v) :: acc)
      | (_, false, _) => None
      end
  end.
Definition signature_fields (header : string) : option (Z * string) :=
  values ← header_values (split_on "," header) [];
  t ← dict_get "t" values;
  timestamp ← py_int t;
  supplied ← dict_get "v1" values;
  Some (timestamp, supplied).
Definition verify_webhook_signature (secret header payload : string) (tolerance_seconds : Z) (now : time) : result PyExc bool :=
  match signature_fields header with
  | None => Ok false
  | Some (timestamp, supplied) =>
      if tolerance_seconds <? Z.abs (now / second - timestamp) then Ok false
      else if ascii_text supplied then Ok (eqb supplied (sign_webhook secret timestamp payload))
      else Err TypeError
  end.

(** ** Configuration *)

Definition endpoint_of (org : uuid) (t : tables) : option WebhookEndpoint :=
  scalar (λ e, eqb (we_organization_id e) org) (endpoints t).
Definition active_endpoint (org : uuid) (t : tables) : option WebhookEndpoint :=
  scalar (λ e, eqb (we_organization_id e) org && eqb (we_status e) WhActive) (endpoints t).
Definition is_active_organization (org : uuid) (t : tables) : bool :=
  match organizations (identity t) !! org with Some o => og_is_active o | None => false end.

Definition configure_webhook (settings : webhook_settings) (w : WorkspaceContext) (organization_id : uuid) (url : string) :
    DB (WebhookEndpoint * string) :=
  lift_result (validate_webhook_url settings url) ;;
  require w "manage_webhooks" ;;
  enforce_resource_limit (Some organization_id) PlanWebhooks ;;
  raise_if (negb (eqb (wc_organization_id w) (Some organization_id))) (WebhookConfigurationError "Organization not found") ;;
  active ← query (is_active_organization organization_id);
  raise_if (negb active) (WebhookConfigurationError "Organization not found") ;;
  configured ← query (endpoint_of organization_id);
  raise_if (is_some configured) (WebhookConfigurationError "Webhook already configured") ;;
  secret ← lift_result (derive_webhook_secret settings organization_id);
  id ← fresh_uuid;
  let endpoint := MkWebhook id organization_id url "production" (sha256_hex secret) WhActive in
  insert_checked (λ t, negb (is_some (endpoints t !! id)) && negb (is_some (endpoint_of organization_id t)) && fits 2048 url)
    (upd_endpoints <[id := endpoint]>) ;;
  commit ;;
  mret (endpoint, secret).

(** ** Deliveries *)

Definition set_delivery (status : string) (attempts : Z) (code : option Z) (body error : option string)
    (next delivered : option time) (d : WebhookDelivery) : WebhookDelivery :=
  MkWebhookDelivery (wd_id d) (wd_webhook_endpoint_id d) (wd_request_id d) (wd_event_type d) (wd_is_test d) status
    attempts code body error next delivered (wd_created_at d).
(** The worker marks a delivery it cannot make. *)
Definition fail_delivery (error : string) (d : WebhookDelivery) : WebhookDelivery :=
  set_delivery "failed" (wd_attempt_count d) (wd_response_status d) (wd_response_body d) (Some error)
    (wd_next_attempt_at d) (wd_delivered_at d) d.

Definition event_status (event_type : string) : string := py_upper (after_last "." event_type).
Definition delivery_payload (d : WebhookDelivery) : string :=
  canonical_json (VDict ([("event", VStr (wd_event_type d)); ("request_id", VStr (wd_request_id d));
    ("status", VStr (event_status (wd_event_type d)))] ++
    (if wd_is_test d then [("test_mode", VBool true)] else []))%list).

(** What one attempt makes of a delivery. *)
Definition attempted (settings : webhook_settings) (now : time) (answer : post_answer) (d : WebhookDelivery) : WebhookDelivery :=
  let attempts := wd_attempt_count d + 1 in
  let failed code body :=
    let pending := attempts <? ws_max_delivery_attempts settings in
    set_delivery (if pending then "pending" else "failed") attempts code body (Some "Delivery failed")
      (if pending then Some (now + ws_retry_base_seconds settings * 2 ^ wd_attempt_count d * second) else None)
      (wd_delivered_at d) d in
  match answer with
  | PostAnswered code text =>
      if (200 <=? code) && (code <? 300) then
        set_delivery "delivered" attempts (Some code) (Some (str_take 2000 text)) None (wd_next_attempt_at d) (Some now) d
      else failed (Some code) (Some (str_take 2000 text))
  | _ => failed (wd_response_status d) (wd_response_body d)
  end.

Definition delivery_headers (secret : string) (timestamp : Z) (payload : string) : list (string * string) :=
  [("Content-Type", "application/json");
   ("AgentTrust-Signature", "t=" +:+ str_of_Z timestamp +:+ ",v1=" +:+ sign_webhook secret timestamp payload)].

(** The number of the attempt lets the answer change from one to the next. *)
Definition _send_delivery (settings : webhook_settings) (d : WebhookDelivery) (e : WebhookEndpoint) (secret : string) : DB unit :=
  now ← now_db;
  n ← gets seed;
  let payload := delivery_payload d in
  match wh_post (we_url e) payload (delivery_headers secret (now / second) payload) n with
  | PostRaised e => throw e
  | answer => write (upd_webhook_deliveries <[wd_id d := attempted settings now answer d]>) ;; commit
  end.

Definition new_delivery (id endpoint : uuid) (request_id event_type : string) (is_test : bool) (now : time) : WebhookDelivery :=
  MkWebhookDelivery id endpoint request_id event_type is_test "pending" 0 None None None None None now.
Definition delivery_ok (d : WebhookDelivery) (t : tables) : bool :=
  negb (is_some (deliveries_of t !! wd_id d)) && fits 28 (wd_request_id d) && fits 80 (wd_event_type d).
Definition add_webhook_delivery (endpoint : uuid) (request_id event_type : string) (is_test : bool) : DB WebhookDelivery :=
  id ← fresh_uuid;
  now ← now_db;
  let d := new_delivery id endpoint request_id event_type is_test now in
  insert_checked (delivery_ok d) (upd_webhook_deliveries <[id := d]>) ;;
  commit ;;
  mret d.

(** A [ValueError] of [urlsplit] is no [WebhookConfigurationError] and goes on. *)
Definition endpoint_secret (settings : webhook_settings) (e : WebhookEndpoint) : result Exc (option string) :=
  let made := (_ ← validate_webhook_url settings (we_url e); derive_webhook_secret settings (we_organization_id e)) in
  match made with
  | Ok secret => Ok (if eqb (we_secret_hash e) (sha256_hex secret) then Some secret else None)
  | Err (WebhookConfigurationError _) => Ok None
  | Err e => Err e
  end.

Definition deliver_decision_webhook (settings : webhook_settings) (organization_id : option uuid) (request_id status : string)
    (is_test : bool) : DB (option uuid) :=
  match organization_id with
  | None => mret None
  | Some org =>
      endpoint ← query (active_endpoint org);
      match endpoint with
      | None => mret None
      | Some e =>
          secret ← lift_result (endpoint_secret settings e);
          match secret with
          | None => mret None
          | Some secret =>
              d ← add_webhook_delivery (we_id e) request_id ("authorization." +:+ py_lower status) is_test;
              _send_delivery settings d e secret ;;
              mret (Some (wd_id d))
          end
      end
  end.
Definition deliver_authorization_webhook (settings : webhook_settings) (r : AuthorizationRequestRecord) : DB (option uuid) :=
  agent ← get_or (λ t, agents t !! ar_agent_id r) (PyError AttributeError);
  deliver_decision_webhook settings (ag_organization_id agent) (ar_request_id r) (RequestStatus_value (ar_status r))
    (eqb (ar_environment r) "sandbox").

Definition send_test_webhook (settings : webhook_settings) (endpoint_id : uuid) (event_type : string) : DB uuid :=
  e ← get_or (λ t, match endpoints t !! endpoint_id with
                   | Some e => if eqb (we_status e) WhActive then Some e else None | None => None end)
    (WebhookConfigurationError "Webhook endpoint not found or inactive");
  secret ← lift_result (derive_webhook_secret settings (we_organization_id e));
  token ← fresh_token;
  d ← add_webhook_delivery (we_id e) ("req_" +:+ token) event_type true;
  _send_delivery settings d e secret ;;
  mret (wd_id d).

Definition retry_sandbox_webhook (settings : webhook_settings) (delivery_id organization_id : uuid) : DB uuid :=
  d ← get_or (λ t, deliveries_of t !! delivery_id) (WebhookConfigurationError "Delivery not found");
  e ← get_or (λ t, match endpoints t !! wd_webhook_endpoint_id d with
                   | Some e => if eqb (we_organization_id e) organization_id then Some e else None | None => None end)
    (WebhookConfigurationError "Delivery does not belong to organization");
  raise_if (negb (wd_is_test d) && negb (eqb (we_environment e) "sandbox"))
    (WebhookConfigurationError "Only sandbox webhook deliveries can be manually retried") ;;
  secret ← lift_result (derive_webhook_secret settings (we_organization_id e));
  _send_delivery settings d e secret ;;
  mret (wd_id d).

(** ** The worker *)

Definition due (now : time) (d : WebhookDelivery) : bool :=
  eqb (wd_status d) "pending" && match wd_next_attempt_at d with Some n => n <=? now | None => true end.
Definition delivery_older (a b : WebhookDelivery) : Prop := wd_created_at a <= wd_created_at b.
#[export] Instance delivery_older_dec : RelDecision delivery_older.
Proof. intros a b. unfold delivery_older. apply _. Defined.
Definition due_batch (settings : webhook_settings) (now : time) (t : tables) : list uuid :=
  map wd_id (take (ws_worker_batch_size settings) (merge_sort delivery_older (select_rows (due now) (deliveries_of t)))).

Definition process_one (settings : webhook_settings) (id : uuid) : DB unit :=
  found ← query (λ t, deliveries_of t !! id);
  match found with
  | None => mret tt
  | Some d =>
      endpoint ← query (λ t, match endpoints t !! wd_webhook_endpoint_id d with
                             | Some e => if eqb (we_status e) WhActive then Some e else None | None => None end);
      match endpoint with
      | None => write (upd_webhook_deliveries <[id := fail_delivery "Webhook endpoint unavailable" d]>)
      | Some e =>
          secret ← lift_result (endpoint_secret settings e);
          match secret with
          | None => write (upd_webhook_deliveries <[id := fail_delivery "Webhook configuration invalid" d]>)
          | Some secret => _send_delivery settings d e secret
          end
      end
  end.
Definition process_webhook_deliveries (settings : webhook_settings) : DB nat :=
  now ← now_db;
  batch ← query (due_batch settings now);
  for_each (process_one settings) batch ;;
  commit ;;
  mret (length batch).
End webhooks.
End Webhooks.
