(* ===== verification/WebhookProps.v ===== *)
(** What webhooks guarantee ([Webhooks]): the receiver can verify every delivery, and
    every delivery is attempted a bounded number of times. *)
From Stdlib Require Import Ascii.
From S2P Require Import Prelude.
From S2P Require Import PyStr.
From S2P Require Import PyFloat.
From S2P Require Import PyVal.
From S2P Require Import PyDecimal.
From S2P Require Import Models.
From S2P Require Import PyCodec.
From S2P Require Import PyNet.
From S2P Require Import Ssrf.
From S2P Require Import Store.
From S2P Require Import Samples.
From S2P Require Import SecurityEvents.
From S2P Require Import Soc.
From S2P Require Import SocProps.
From S2P Require Import Workspace.
From S2P Require Import Notifications.
From S2P Require Import PlanLimits.
From S2P Require Import Frames.
From S2P Require Import Webhooks.

Local Open Scope string_scope.
Local Open Scope Z_scope.

Module WebhookProps.
Import SecurityEvents Workspace Notifications PlanLimits Frames Webhooks.

(** ** Numbers in headers *)

Fixpoint digits (s : string) : bool := match s with "" => true | String c s => in_range 48 57 c && digits s end.

Lemma digit_char x : (x < 10)%N → in_range 48 57 (pretty_N_char x) = true ∧ byte_of (pretty_N_char x) - 48 = Z.of_N x.
Proof.
  intros Hx. assert (Hc : In x [0; 1; 2; 3; 4; 5; 6; 7; 8; 9]%N) by (simpl; lia).
  simpl in Hc. repeat destruct Hc as [<-|Hc]; [vm_compute; by split ..|done].
Qed.
Lemma digits_go x s : digits s = true → digits (pretty_N_go x s) = true.
Proof.
  revert s. induction (N.lt_wf_0 x) as [x _ IH]. intros s Hs. destruct (decide (0 < x)%N) as [Hx|Hx].
  - rewrite pretty_N_go_step by done. apply IH; [by apply N.div_lt|]. cbn [digits].
    rewrite (proj1 (digit_char _ (N.mod_lt x 10 ltac:(done)))). exact Hs.
  - assert (x = 0%N) as -> by lia. by rewrite pretty_N_go_0.
Qed.
Lemma int_go x s b : int_digits 0 b (pretty_N_go x s) = int_digits (Z.of_N x) (b || (0 <? x)%N) s.
Proof.
  revert s b. induction (N.lt_wf_0 x) as [x _ IH]. intros s b. destruct (decide (0 < x)%N) as [Hx|Hx].
  - rewrite pretty_N_go_step by done. rewrite IH by (by apply N.div_lt). cbn [int_digits].
    destruct (digit_char _ (N.mod_lt x 10 ltac:(done))) as [-> ->].
    rewrite (proj2 (N.ltb_lt 0 x) Hx), orb_true_r. cbv iota.
    assert (Hz : 0 * 10 ^ 0 + Z.of_N (x / 10) * 10 + Z.of_N (x mod 10) = Z.of_N x)
      by (rewrite (N.div_mod x 10) at 3 by done; lia). rewrite <- Hz. f_equal.
  - assert (x = 0%N) as -> by lia. rewrite pretty_N_go_0. by rewrite orb_false_r.
Qed.
Lemma pretty_N_go_head x s : (0 < x)%N → ∃ c r, pretty_N_go x s = String c r.
Proof.
  revert s. induction (N.lt_wf_0 x) as [x _ IH]. intros s Hx. rewrite pretty_N_go_step by done.
  destruct (decide (0 < x / 10)%N) as [Hd|Hd]; [by apply IH; [apply N.div_lt|]|].
  apply N.nlt_ge, N.le_0_r in Hd. rewrite Hd, pretty_N_go_0. eauto.
Qed.

Lemma digit_not_blank c : in_range 48 57 c = true → is_space c = false ∧ c ≠ "-"%char ∧ c ≠ "+"%char ∧ c ≠ ","%char ∧ c ≠ "="%char.
Proof.
  intros Hc. split; [|by split_and!; intros ->].
  by destruct c as [[] [] [] [] [] [] [] []].
Qed.
Lemma digits_rev_app a b : digits (String.rev_app a b) = digits a && digits b.
Proof. revert b. induction a as [|c a IH]; intros b; [done|]. cbn. rewrite IH. cbn. destruct (in_range 48 57 c), (digits a); done. Qed.
Lemma digits_rev s : digits s = true → digits (String.rev s) = true.
Proof. intros Hs. unfold String.rev. by rewrite digits_rev_app, Hs. Qed.
Lemma rev_app_rev_app a b c : String.rev_app (String.rev_app a b) c = String.rev_app b (a +:+ c).
Proof. revert b c. induction a as [|x a IH]; intros b c; [done|]. cbn. by rewrite IH. Qed.
Lemma rev_rev s : String.rev (String.rev s) = s.
Proof. unfold String.rev. rewrite rev_app_rev_app. cbn. induction s as [|c s IH]; [done|]. exact (f_equal (String c) IH). Qed.
Lemma lstrip_digits s : digits s = true → lstrip s = s.
Proof. destruct s as [|c s]; [done|]. cbn. intros [Hc _]%andb_true_iff. by rewrite (proj1 (digit_not_blank c Hc)). Qed.
Lemma strip_digits s : digits s = true → py_strip s = s.
Proof.
  intros Hs. unfold py_strip, str_rev. rewrite (lstrip_digits s Hs), lstrip_digits by by apply digits_rev.
  apply rev_rev.
Qed.

Lemma str_of_Z_digits z : 0 ≤ z → ∃ c r, str_of_Z z = String c r ∧ digits (str_of_Z z) = true ∧ int_digits 0 false (str_of_Z z) = Some z.
Proof.
  intros Hz. unfold str_of_Z. destruct z as [|p|p]; [by exists "0"%char, "" | | lia].
  change (pretty (Z.pos p)) with (pretty_N_go (N.pos p) "").
  destruct (pretty_N_go_head (N.pos p) "" ltac:(done)) as (c & r & He). exists c, r. split; [done|].
  split; [by apply digits_go|]. by rewrite int_go.
Qed.
(** [int(str(n)) == n] *)
Lemma py_int_str z : 0 ≤ z → py_int (str_of_Z z) = Some z.
Proof.
  intros Hz. destruct (str_of_Z_digits z Hz) as (c & r & He & Hd & Hi). unfold py_int. rewrite (strip_digits _ Hd).
  rewrite He in *. cbn [digits] in Hd. apply andb_true_iff in Hd as [Hc _].
  destruct (digit_not_blank c Hc) as (_ & Hm & Hp & _).
  destruct c as [[] [] [] [] [] [] [] []]; try done.
Qed.

(** ** Signatures *)

Section signatures.
Context `{WebhookServices} `{!HmacLaws}.

Lemma plain_no_char c s : hex_text s = true ∨ digits s = true → c = ","%char ∨ c = "="%char → no_char c s.
Proof.
  intros Hs Hc. unfold no_char. induction s as [|d s IH]; [done|]. cbn [split_on].
  assert (Hd : eqb d c = false ∧ (hex_text s = true ∨ digits s = true)).
  { destruct Hs as [Hs|Hs]; cbn in Hs; apply andb_true_iff in Hs as [Hd Hs]; (split; [|auto]); apply eqb_false.
    - intros ->. destruct Hc as [->| ->]; by vm_compute in Hd.
    - intros ->. destruct Hc as [->| ->]; by vm_compute in Hd. }
  destruct Hd as [-> Hrest]. by rewrite (IH Hrest).
Qed.
Lemma hex_ascii s : hex_text s = true → ascii_text s = true.
Proof.
  induction s as [|c s IH]; [done|]. cbn. intros [Hc Hs]%andb_true_iff. rewrite (IH Hs), andb_true_r.
  clear IH Hs. by destruct c as [[] [] [] [] [] [] [] []].
Qed.

Lemma no_char_cons c d s : eqb d c = false → no_char c s → no_char c (String d s).
Proof. unfold no_char. intros Hd Hs. cbn [split_on]. by rewrite Hd, Hs. Qed.

(** The header of a delivery reads back. *)
Lemma header_reads secret now payload : 0 ≤ now →
  let header := "t=" +:+ str_of_Z now +:+ ",v1=" +:+ sign_webhook secret now payload in
  signature_fields header = Some (now, sign_webhook secret now payload).
Proof.
  intros Hn header. subst header. unfold signature_fields.
  set (sig := sign_webhook secret now payload).
  assert (Hsig : hex_text sig = true) by apply hmac_hex.
  destruct (str_of_Z_digits now Hn) as (_ & _ & _ & Hd & _).
  assert (Ht : no_char "," ("t=" +:+ str_of_Z now)).
  { do 2 (apply no_char_cons; [done|]). exact (plain_no_char "," _ (or_intror Hd) (or_introl eq_refl)). }
  assert (Hsplit : split_on "," ("t=" +:+ str_of_Z now +:+ ",v1=" +:+ sig) = ["t=" +:+ str_of_Z now; "v1=" +:+ sig]).
  { change ("t=" +:+ str_of_Z now +:+ ",v1=" +:+ sig) with ("t=" +:+ (str_of_Z now +:+ (String "," ("v1=" +:+ sig)))).
    rewrite <- string_app_assoc, (split_append _ _ _ Ht). f_equal.
    do 3 (apply no_char_cons; [done|]). exact (plain_no_char "," _ (or_introl Hsig) (or_introl eq_refl)). }
  assert (Hp : ∀ x, partition_at "=" ("t=" +:+ x) = ("t", true, x)) by reflexivity.
  assert (Hp' : ∀ x, partition_at "=" ("v1=" +:+ x) = ("v1", true, x)) by reflexivity.
  rewrite Hsplit. cbn [header_values]. rewrite Hp, Hp'. cbn [mbind option_bind].
  change (dict_get "t" [("v1", sig); ("t", str_of_Z now)]) with (Some (str_of_Z now)).
  cbn [mbind option_bind]. by rewrite (py_int_str now Hn).
Qed.

(** The receiver who knows the secret accepts the header of every
    delivery exactly within the tolerance, and accepts it for another body only when the
    two bodies have the same signature. *)
Theorem delivery_verifies secret sent received payload tolerance : 0 ≤ sent →
  let header := "t=" +:+ str_of_Z (sent / second) +:+ ",v1=" +:+ sign_webhook secret (sent / second) payload in
  header ∈ map snd (delivery_headers secret (sent / second) payload) ∧
  verify_webhook_signature secret header payload tolerance received =
    Ok (Z.abs (received / second - sent / second) <=? tolerance) ∧
  ∀ payload', verify_webhook_signature secret header payload' tolerance received = Ok true →
    sign_webhook secret (sent / second) payload' = sign_webhook secret (sent / second) payload.
Proof.
  intros Hs header. assert (Hn : 0 ≤ sent / second) by (apply Z.div_pos; [done | by vm_compute]).
  pose proof (header_reads secret (sent / second) payload Hn) as Hr. cbv zeta in Hr. fold header in Hr.
  assert (Hv : ∀ p, verify_webhook_signature secret header p tolerance received =
    Ok ((Z.abs (received / second - sent / second) <=? tolerance) &&
        eqb (sign_webhook secret (sent / second) payload) (sign_webhook secret (sent / second) p))).
  { intros p. unfold verify_webhook_signature. rewrite Hr, Z.ltb_antisym. destruct (_ <=? tolerance); [|done]. cbn [negb].
    by rewrite (hex_ascii (sign_webhook _ _ _)) by apply hmac_hex. }
  split_and!.
  - unfold delivery_headers. cbn [map]. right. left.
  - by rewrite Hv, eqb_refl, andb_true_r.
  - intros p. rewrite Hv. intros [= [_ He]%andb_true_iff]. symmetry. by apply (proj1 (eqb_true _ _)) in He.
Qed.
End signatures.

(** ** Attempts *)

Section attempts.
Context `{Entropy} `{SecuritySinks} `{WebhookServices} (settings : webhook_settings).
Context (Hmax : 1 <= ws_max_delivery_attempts settings).

(** A delivery that will be attempted again has an attempt left. *)
Definition attempt_left (d : WebhookDelivery) : Prop :=
  wd_status d = "pending" → wd_attempt_count d < ws_max_delivery_attempts settings.
Definition attempts_left (t : tables) : Prop := ∀ i d, deliveries_of t !! i = Some d → attempt_left d.
Definition keeps_attempts (t t' : tables) : Prop := attempts_left t → attempts_left t'.
#[export] Instance keeps_attempts_preorder : PreOrder keeps_attempts.
Proof. split; [intros t Ht; exact Ht | intros t1 t2 t3; unfold keeps_attempts; auto]. Qed.

Lemma attempts_put t i d : attempt_left d → keeps_attempts t (upd_webhook_deliveries <[i := d]> t).
Proof.
  intros Hd Ht j d'. change (<[i := d]> (deliveries_of t) !! j = Some d' → attempt_left d').
  rewrite lookup_insert_Some. intros [[_ <-]|[_ Hj]]; [done | by apply (Ht j)].
Qed.
Lemma attempted_left now answer d : attempt_left (attempted settings now answer d).
Proof.
  unfold attempted, attempt_left.
  assert (Hfail : ∀ code body error next delivered, let pending := wd_attempt_count d + 1 <? ws_max_delivery_attempts settings in
    attempt_left (set_delivery (if pending then "pending" else "failed") (wd_attempt_count d + 1) code body error next delivered d)).
  { intros. unfold attempt_left, set_delivery, pending. cbn [wd_status wd_attempt_count].
    destruct (_ <? _) eqn:Hlt; [intros _; lia | discriminate]. }
  destruct answer as [code text| |e]; [destruct ((200 <=? code) && (code <? 300)); [discriminate|] | | ]; apply Hfail.
Qed.

Inductive delivery_op : Type :=
  | Decided (org : option uuid) (request_id status : string) (is_test : bool)
  | SendTest (endpoint_id : uuid) (event_type : string)
  | RetrySandbox (delivery_id org : uuid)
  | RunWorker.
Definition perform_delivery (o : delivery_op) : DB unit :=
  match o with
  | Decided org request_id status is_test => deliver_decision_webhook settings org request_id status is_test ;; mret tt
  | SendTest endpoint_id event_type => send_test_webhook settings endpoint_id event_type ;; mret tt
  | RetrySandbox delivery_id org => retry_sandbox_webhook settings delivery_id org ;; mret tt
  | RunWorker => process_webhook_deliveries settings ;; mret tt
  end.
Record delivery_step : Type := MkDeliveryStep { ds_draws : nat; ds_now : time; ds_op : delivery_op }.
Fixpoint delivery_trace (t : tables) (sts : list delivery_step) : tables :=
  match sts with
  | [] => t
  | st :: sts => delivery_trace (run_request (perform_delivery (ds_op st)) t (ds_draws st) (ds_now st)).2 sts
  end.

Lemma send_step d e secret : respects (evolves keeps_attempts) (_send_delivery settings d e secret).
Proof.
  unfold _send_delivery. walk; try destruct (wh_post _ _ _ _); walk;
    (apply evolves_write; [apply _ | intros; apply attempts_put, attempted_left]).
Qed.
Lemma add_step endpoint request_id event_type is_test :
  respects (evolves keeps_attempts) (add_webhook_delivery endpoint request_id event_type is_test).
Proof.
  unfold add_webhook_delivery. walk. apply evolves_insert; [apply _ | intros t _]. apply attempts_put. intros _. cbn. lia.
Qed.
Lemma perform_delivery_step o : respects (evolves keeps_attempts) (perform_delivery o).
Proof.
  destruct o; cbn [perform_delivery]; unfold deliver_decision_webhook, send_test_webhook, retry_sandbox_webhook,
    process_webhook_deliveries, process_one; walk; first [apply send_step | apply add_step | idtac];
    (apply evolves_write; [apply _ | intros; by apply attempts_put]).
Qed.

(** Whatever deliveries are made, tested, retried by hand or processed by
    the worker, one that is still pending has been attempted fewer times than allowed. *)
Theorem deliveries_bounded t sts : attempts_left t → attempts_left (delivery_trace t sts).
Proof.
  revert t. induction sts as [|st sts IH]; intros t Ht; [done|]. apply IH.
  by apply (evolves_run keeps_attempts (perform_delivery (ds_op st)) t (ds_draws st) (ds_now st) (perform_delivery_step _)).
Qed.

(** ** Progress of the worker *)

(** Processing a pending delivery settles it, or counts one more attempt and plans the next
    after a delay that doubles each time; when a POST raises, nothing is kept. *)
Theorem worker_progress id d s :
  dead s = false → deliveries_of (cur s) !! id = Some d → wd_id d = id →
  match process_one settings id s with
  | (Ok _, s') => ∃ d', deliveries_of (cur s') !! id = Some d' ∧
      (wd_status d' = "pending" → wd_attempt_count d' = wd_attempt_count d + 1 ∧
        wd_next_attempt_at d' = Some (db_now s + ws_retry_base_seconds settings * 2 ^ wd_attempt_count d * second))
  | (Err _, s') => committed s' = committed s
  end.
Proof.
  intros Hd Hid Hk. unfold process_one. rewrite bind_query, Hid, bind_query.
  assert (Hfail : ∀ m, ∃ d', deliveries_of (cur (set_cur (upd_webhook_deliveries <[id := fail_delivery m d]> (cur s)) s)) !! id = Some d' ∧
    (wd_status d' = "pending" → wd_attempt_count d' = wd_attempt_count d + 1 ∧
     wd_next_attempt_at d' = Some (db_now s + ws_retry_base_seconds settings * 2 ^ wd_attempt_count d * second))).
  { intros m. eexists. split; [apply lookup_insert_eq | done]. }
  destruct (match endpoints (cur s) !! wd_webhook_endpoint_id d with Some e => _ | None => None end) as [e|].
  2: { unfold write. rewrite Hd. apply Hfail. }
  rewrite bind_run. unfold lift_result. destruct (endpoint_secret settings e) as [[secret|]|x]; [| |done].
  2: { unfold write. rewrite Hd. apply Hfail. }
  unfold _send_delivery. rewrite bind_now, bind_gets. cbv zeta.
  assert (Hkeep : ∀ answer, match (write (upd_webhook_deliveries <[wd_id d := attempted settings (db_now s) answer d]>) ;; commit) s with
    | (Ok _, s') => ∃ d', deliveries_of (cur s') !! id = Some d' ∧
      (wd_status d' = "pending" → wd_attempt_count d' = wd_attempt_count d + 1 ∧
        wd_next_attempt_at d' = Some (db_now s + ws_retry_base_seconds settings * 2 ^ wd_attempt_count d * second))
    | (Err _, s') => committed s' = committed s end).
  { intros answer. rewrite (bind_write _ _ _ Hd). unfold commit. cbn [dead set_cur]. rewrite Hd. cbn [cur set_cur].
    eexists. split; [rewrite Hk; apply lookup_insert_eq|]. unfold attempted.
    destruct answer as [code text| |x]; [destruct ((200 <=? code) && (code <? 300)); [done|] | | ];
      cbn; destruct (_ <? _); done. }
  destruct (wh_post _ _ _ _) as [code text| |x]; [apply Hkeep | apply Hkeep | done].
Qed.

(** A delivery whose POST raises something other than an HTTP error, the
    first of its batch, stops the worker before the others: nothing is written, so the
    next run meets the same batch. *)
Theorem poison_blocks_worker id rest d e secret x s :
  due_batch settings (db_now s) (cur s) = id :: rest →
  deliveries_of (cur s) !! id = Some d → endpoints (cur s) !! wd_webhook_endpoint_id d = Some e → we_status e = WhActive →
  endpoint_secret settings e = Ok (Some secret) →
  (∀ payload headers n, wh_post (we_url e) payload headers n = PostRaised x) →
  process_webhook_deliveries settings s = (Err x, s).
Proof.
  intros Hbatch Hd He Hact Hsec Hpost. unfold process_webhook_deliveries. rewrite bind_now, bind_query, Hbatch.
  cbn [for_each]. rewrite bind_run. lazymatch goal with |- context [(process_one settings id ≫= ?k) s] =>
    assert (Hrun : (process_one settings id ≫= k) s = (Err x, s)) end; [|by rewrite Hrun].
  rewrite bind_run. unfold process_one. rewrite bind_query, Hd, bind_query, He, Hact, eqb_refl, bind_run, Hsec.
  cbn [lift_result]. unfold _send_delivery. rewrite bind_now, bind_gets. by rewrite Hpost.
Qed.
End attempts.

(** ** Witnesses *)

Local Existing Instance SocProps.no_services.
Local Existing Instance SocProps.no_ambient.
Local Existing Instance Siem.soc_sinks.

(** A toy keyed hash, and a receiver that fails, or breaks the connection, every time. *)
Definition short_hmac : Hmac := {| hmac_sha256 k m := if (String.length m <? 20)%nat then "aa" else "bb" |}.
Lemma short_hmac_laws : @HmacLaws short_hmac.
Proof. split. intros k m. cbn [hmac_sha256 short_hmac]. destruct (String.length m <? 20)%nat; reflexivity. Defined.
Definition failing_receiver (answer : post_answer) : WebhookServices :=
  {| wh_hashing := plain_hashing; wh_hmac := short_hmac; wh_resolver := Ssrf.public_resolver; wh_post _ _ _ _ := answer |}.

Section down.
Definition down : WebhookServices := failing_receiver PostHTTPError.
Local Existing Instance down.
Lemma delivery_verifies_witness :
  let header := "t=3600,v1=aa" in
  verify_webhook_signature "whsec_1" header "{}" 300 (hour + 200 * second) = Ok true ∧
  verify_webhook_signature "whsec_1" header "{}" 300 (hour + 400 * second) = Ok false.
Proof.
  pose proof (delivery_verifies (H0 := short_hmac_laws) "whsec_1" hour (hour + 200 * second) "{}" 300
    ltac:(by vm_compute)) as (_ & H1 & _).
  pose proof (delivery_verifies (H0 := short_hmac_laws) "whsec_1" hour (hour + 400 * second) "{}" 300
    ltac:(by vm_compute)) as (_ & H2 & _).
  split; [exact H1 | exact H2].
Defined.

Definition worker_settings : webhook_settings := MkWebhookSettings "production" (times_of 32 "k") 3 60 10.
Definition endpoint_50  : WebhookEndpoint :=
  MkWebhook 95 50 "https://hooks.example.com/in" "production" ("whsec_" +:+ "bb") WhActive.
Definition waiting (id : uuid) (at_ : time) : WebhookDelivery := new_delivery id 95 "req_1" "authorization.approved" false at_.
Definition webhook_tables (ds : list WebhookDelivery) : tables :=
  upd_endpoints (λ _, keyed we_id [endpoint_50]) (upd_webhook_deliveries (λ _, keyed wd_id ds) empty_tables).

(** Three runs of the worker: the delivery has failed for good. *)
Definition three_runs : list delivery_step :=
  [MkDeliveryStep 0 hour RunWorker; MkDeliveryStep 10 (2 * hour) RunWorker; MkDeliveryStep 20 (3 * hour) RunWorker].
Lemma deliveries_bounded_witness :
  attempts_left worker_settings (delivery_trace worker_settings (webhook_tables [waiting 96 0]) three_runs) ∧
  (λ d, (wd_status d, wd_attempt_count d)) <$> deliveries_of (delivery_trace worker_settings
    (webhook_tables [waiting 96 0]) three_runs) !! 96%N = Some ("failed", 3).
Proof.
  split; [|vm_compute; reflexivity].
  apply (deliveries_bounded worker_settings ltac:(by vm_compute) (webhook_tables [waiting 96 0]) three_runs).
  intros i d Hd. apply keyed_lookup in Hd as [_ Hd]. apply list_elem_of_singleton in Hd as ->. by vm_compute.
Defined.

Lemma worker_progress_witness :
  match process_one worker_settings 96 (open_session (webhook_tables [waiting 96 0]) 0 hour) with
  | (Ok _, s') => ∃ d', deliveries_of (cur s') !! 96%N = Some d' ∧ (wd_status d' = "pending" → wd_attempt_count d' = 0 + 1 ∧
      wd_next_attempt_at d' = Some (hour + 60 * 2 ^ 0 * second))
  | (Err _, s') => committed s' = webhook_tables [waiting 96 0]
  end.
Proof.
  apply (worker_progress worker_settings 96 (waiting 96 0)
    (open_session (webhook_tables [waiting 96 0]) 0 hour)); by vm_compute.
Defined.

End down.

Section broken.
Definition broken : WebhookServices := failing_receiver (PostRaised (PyError ValueError)).
Local Existing Instance broken.
(** The older of two deliveries breaks the worker, the younger waits. *)
Lemma poison_blocks_worker_witness :
  let s := open_session (webhook_tables [waiting 96 0; waiting 97 1]) 0 hour in
  process_webhook_deliveries worker_settings s = (Err (PyError ValueError), s).
Proof.
  apply (poison_blocks_worker worker_settings 96 [97%N] (waiting 96 0)
    (endpoint_50) "whsec_bb" (PyError ValueError) (open_session (webhook_tables [waiting 96 0; waiting 97 1]) 0 hour));
    [vm_compute; reflexivity .. | by intros].
Defined.
End broken.
End WebhookProps.
