(* ===== verification/Authorization.v ===== *)
(** The authorization decision ([backend/app/services/authorization.py]): the
    lookup of the agent, the delegation or permission checks, the risk,
    organization and APL stages, and the record a decision leaves.

    [authorize_action] composes the stages as the source does; its list
    comprehensions over permissions are [select_permission].  The time, the
    settings and the API key are arguments; metrics are left out. *)
From Stdlib Require Import Ascii.
From S2P Require Import Prelude.
From S2P Require Import PyStr.
From S2P Require Import PyFloat.
From S2P Require Import PyVal.
From S2P Require Import PyDecimal.
From S2P Require Import AplEval.
From S2P Require Import Models.
From S2P Require Import Store.
From S2P Require Import Samples.
From S2P Require Import Permissions.
From S2P Require Import Delegation.
From S2P Require Import Risk.
From S2P Require Import Notifications.

Local Open Scope string_scope.
Local Open Scope Z_scope.

Module Authorization.
Import Permissions Delegation Risk Notifications.

Definition MANUAL_APPROVAL_WINDOW : Z := 5 * minute.

(** ** Results *)

Inductive Decision : Type := APPROVED_D | REJECTED_D | PENDING_D.
#[export] Instance Decision_eq_dec : EqDecision Decision.
Proof. solve_decision. Defined.

Record AuthorizationResult : Type := MkResult {
  rs_request_id : string;
  rs_decision : Decision;
  rs_reason : string;
  rs_risk_level : option string;
  rs_risk_score : option Z;
  rs_risk_reasons : list string
}.

Record _Evaluation : Type := Mk_Evaluation {
  ev_decision : Decision;
  ev_reason : string;
  ev_agent_id : option uuid;
  ev_permission_id : option uuid
}.

Definition _approved (agent_id permission_id : uuid) : _Evaluation :=
  Mk_Evaluation APPROVED_D "Permission valid" (Some agent_id) (Some permission_id).
Definition _rejected (reason : string) (agent_id permission_id : option uuid) : _Evaluation :=
  Mk_Evaluation REJECTED_D reason agent_id permission_id.

(** [AuditDecision(decision)] *)
Definition audit_decision (d : Decision) : result Exc AuditDecision :=
  match d with
  | APPROVED_D => Ok AuditApproved
  | REJECTED_D => Ok AuditRejected
  | PENDING_D => Err (PyError ValueError)
  end.

(** Where a decision belongs: the keyword arguments the savers share. *)
Record scope : Type := MkScope {
  sc_organization_id : option uuid;
  sc_environment : string;
  sc_delegation_id : option string;
  sc_parent_agent_id : option uuid
}.

Section authorization.
Context `{Entropy} `{SecuritySinks}.

Definition generate_request_id : DB string := token ← fresh_token; mret ("req_" +:+ token).

(** ** Saving a decision *)

(** The constraints of the audit table, its unique request identifier included. *)
Definition audit_ok (l : AuditLog) (t : tables) : bool :=
  audit_checks l && forallb (λ b, negb (eqb (al_request_id b) (al_request_id l))) (audit_logs t).

Definition add_audit_log (l : AuditLog) : DB unit :=
  insert_checked (audit_ok l) (upd_audit_logs (λ k, (k ++ [l])%list)).

Definition _save_audit_log (owner_id : uuid) (request : AuthorizationRequest) (evaluation : _Evaluation)
    (requested_at : time) (request_id : option string) (commit_ : bool) (risk : option RiskEvaluation)
    (sc : scope) : DB AuthorizationResult :=
  request_id ← match request_id with Some r => mret r | None => generate_request_id end;
  decision ← lift_result (audit_decision (ev_decision evaluation));
  id ← fresh_uuid;
  now ← now_db;
  add_audit_log
    {| al_id := id; al_request_id := request_id; al_environment := sc_environment sc; al_user_id := owner_id;
       al_organization_id := sc_organization_id sc; al_agent_id := ev_agent_id evaluation;
       al_agent_identifier := rq_agent_id request; al_permission_id := ev_permission_id evaluation;
       al_delegation_id := sc_delegation_id sc; al_parent_agent_id := sc_parent_agent_id sc;
       al_action := rq_action request; al_resource := rq_resource request;
       al_amount := numeric4 <$> rq_amount request; al_currency := rq_currency request;
       al_decision := decision; al_reason := ev_reason evaluation; al_risk_score := re_score <$> risk;
       al_risk_level := RiskLevel_value ∘ re_level <$> risk;
       al_risk_recommendation := RiskAction_value ∘ re_recommendation <$> risk;
       al_signature_verified := false; al_signing_key_id := None; al_signature_version := None;
       al_requested_at := requested_at; al_created_at := now |} ;;
  (if commit_ then commit else mret tt) ;;
  mret (MkResult request_id (ev_decision evaluation) (ev_reason evaluation)
    (RiskLevel_value ∘ re_level <$> risk) (re_score <$> risk)
    match risk with Some r => re_reasons r | None => [] end).

Definition request_ok (r : AuthorizationRequestRecord) (t : tables) : bool :=
  request_checks r && negb (is_some (requests t !! ar_id r)) &&
  negb (is_some (scalar (λ b, eqb (ar_request_id b) (ar_request_id r)) (requests t))).

(** [x or default] on an optional text. *)
Definition text_or (o : option string) (d : string) : string :=
  match o with Some s => if eqb s "" then d else s | None => d end.

Definition amount_text (amount : option dec) (currency : option string) : string :=
  match amount with
  | Some a => " for " +:+ dec_str (dec_normalize a) +:+ " " +:+ default "None" currency
  | None => ""
  end.

Definition opt_str (o : option string) : pyval := match o with Some s => VStr s | None => VNone end.

(** The notification that asks the owner for a decision. *)
Definition pending_notification (record : AuthorizationRequestRecord) (agent : Agent)
    (request : AuthorizationRequest) (risk : RiskEvaluation) (risk_forced : bool) : notification_args :=
  let amount := amount_text (rq_amount request) (rq_currency request) in
  {| na_user_id := ar_user_id record;
     na_type := if risk_forced then HIGH_RISK_APPROVAL_REQUIRED else AUTHORIZATION_PENDING;
     na_title := if risk_forced then "High-Risk Approval Required" else "Approval Required";
     na_message :=
       if risk_forced then
         ag_name agent +:+ " is requesting " +:+ rq_action request +:+ " " +:+ rq_resource request +:+ amount +:+
         ". This request has a " +:+ py_lower (RiskLevel_value (re_level risk)) +:+ " risk score."
       else
         ag_name agent +:+ " wants to " +:+ rq_action request +:+ " " +:+ rq_resource request +:+ amount +:+ ".";
     na_priority := if eqb (re_level risk) CRITICAL then PrioCritical else PrioHigh;
     na_organization_id := ag_organization_id agent;
     na_related_request_id := Some (ar_id record); na_related_agent_id := Some (ar_agent_id record);
     na_related_permission_id := Some (ar_permission_id record);
     na_metadata := Some
       [("request_id", VStr (ar_request_id record)); ("agent", VStr (ag_name agent));
        ("action", VStr (rq_action request)); ("resource", VStr (rq_resource request));
        ("amount", opt_str (dec_str <$> rq_amount request)); ("currency", opt_str (rq_currency request));
        ("risk_level", VStr (RiskLevel_value (re_level risk)));
        ("delegation_id", opt_str (ar_delegation_id record))];
     na_deduplication_key := Some ("authorization-pending:" +:+ uuid_str (ar_id record)) |}.

Definition pending_record (id : uuid) (now : time) (request : AuthorizationRequest) (permission : Permission)
    (requested_at : time) (request_id : string) (risk : RiskEvaluation) (risk_forced : bool)
    (reason : option string) (sc : scope) (acting_agent : Agent) : AuthorizationRequestRecord :=
  {| ar_id := id; ar_request_id := request_id; ar_user_id := pm_owner_id permission;
     ar_agent_id := ag_id acting_agent; ar_permission_id := pm_id permission;
     ar_environment := sc_environment sc; ar_delegation_id := sc_delegation_id sc;
     ar_parent_agent_id := sc_parent_agent_id sc; ar_action := rq_action request;
     ar_resource := rq_resource request; ar_amount := numeric4 <$> rq_amount request;
     ar_currency := rq_currency request; ar_status := ReqPending;
     ar_reason := text_or reason (if risk_forced then "Manual approval required" else "Awaiting user approval");
     ar_policy_reason := reason; ar_risk_score := Some (re_score risk);
     ar_risk_level := Some (RiskLevel_value (re_level risk));
     ar_risk_recommendation := Some (RiskAction_value (re_recommendation risk));
     ar_signature_verified := false; ar_signing_key_id := None; ar_signature_version := None;
     ar_created_at := now;
     ar_expires_at := Z.min (pm_expires_at permission) (requested_at + MANUAL_APPROVAL_WINDOW);
     ar_decided_at := None |}.

(** The only caller passes the acting agent. *)
Definition _save_pending_request (request : AuthorizationRequest) (permission : Permission)
    (requested_at : time) (request_id : string) (risk : RiskEvaluation) (risk_forced : bool)
    (reason : option string) (sc : scope) (acting_agent : Agent) : DB AuthorizationResult :=
  id ← fresh_uuid;
  now ← now_db;
  let record := pending_record id now request permission requested_at request_id risk risk_forced reason sc acting_agent in
  insert_checked (request_ok record) (upd_requests <[id := record]>) ;;
  create_notification (pending_notification record acting_agent request risk risk_forced) ;;
  commit ;;
  mret (MkResult request_id PENDING_D (ar_reason record) (Some (RiskLevel_value (re_level risk)))
    (Some (re_score risk)) (re_reasons risk)).

(** ** The APL stage *)

(** What [PolicyVersion] declares ([models/policy.py]): its columns and its
    relationship.  Any other name raises [AttributeError], on the class as on its
    rows. *)
Definition PolicyVersion_attributes : list string :=
  ["id"; "policy_id"; "version_number"; "source_format"; "source_document"; "normalized_document";
   "content_hash"; "status"; "rule_count"; "created_by"; "reviewed_by"; "reviewed_at"; "review_comment";
   "published_by"; "published_at"; "created_at"; "policy"].
Definition class_attribute (name : string) : result PyExc unit :=
  if bool_decide (name ∈ PolicyVersion_attributes) then Ok tt else Err AttributeError.
(** The columns that hold a document, a text or a number. *)
Definition row_attribute (pv : PolicyVersion) (name : string) : result PyExc pyval :=
  class_attribute name ;;
  if eqb name "normalized_document" then Ok (pv_normalized_document pv)
  else if eqb name "status" then Ok (VStr (pv_status pv))
  else if eqb name "rule_count" then Ok (VInt (pv_rule_count pv))
  else if eqb name "version_number" then Ok (VInt (pv_version_number pv))
  else if eqb name "content_hash" then Ok (VStr (pv_content_hash pv))
  else Ok VNone.

(** The query for the active versions of the organization's policies. *)
Definition published_apl (t : tables) (organization_id : uuid) : result PyExc (list PolicyVersion) :=
  class_attribute "is_active" ;;
  mret (select_where (λ pv, eqb (pv_policy_organization_id pv) organization_id &&
    match row_attribute pv "is_active" with Ok (VBool b) => b | _ => false end) (policy_versions t)).

Definition hour_of (t : time) : Z := t / hour mod 24.
Definition isoweekday (t : time) : Z := (t / day + 3) mod 7 + 1.

Definition apl_context (agent : Agent) (organization_id : uuid) (request : AuthorizationRequest)
    (risk : RiskEvaluation) (environment : string) (requested_at : time) (delegation_id : option string) : pyval :=
  VDict
    [("agent", VDict
       [("id", VStr (if eqb (ag_identifier agent) "" then uuid_str (ag_id agent) else ag_identifier agent));
        ("type", VStr "default"); ("organization_id", VStr (uuid_str organization_id));
        ("status", VStr (AgentStatus_value (ag_status agent)))]);
     ("action", VStr (rq_action request)); ("resource", VStr (rq_resource request));
     ("input", VDict
       [("amount", match rq_amount request with Some a => VFloat (dec_float a) | None => VNone end);
        ("currency", opt_str (rq_currency request))]);
     ("risk", VDict [("score", VInt (re_score risk)); ("level", VStr (RiskLevel_value (re_level risk)))]);
     ("environment", VStr environment);
     ("time", VDict [("hour", VInt (hour_of requested_at)); ("day_of_week", VInt (isoweekday requested_at))]);
     ("delegation", VDict
       [("depth", VInt (if is_some delegation_id then 1 else 0)); ("active", VBool (is_some delegation_id))])].

Definition lift_py {A} (r : result PyExc A) : DB A :=
  lift_result match r with Ok a => Ok a | Err e => Err (PyError e) end.

(** What the stage leaves behind: a decision already saved, or whether approval
    is forced, and why. *)
Abbreviation apl_flags := (bool * option string)%type.

(** One turn of the loop over the versions. *)
Definition apl_step (context : pyval) (deny : string → DB AuthorizationResult) (flags : apl_flags)
    (pv : PolicyVersion) : DB (option AuthorizationResult * apl_flags) :=
  ast ← lift_py (row_attribute pv "compiled_ast");
  match ast with
  | VDict _ =>
      res ← lift_py (AplEval.evaluate_apl_policy ast context);
      if eqb (AplEval.ev_decision res) "DENY" then
        r ← deny (AplEval.ev_explanation res); mret (Some r, flags)
      else if eqb (AplEval.ev_decision res) "REQUIRE_APPROVAL" then
        mret (None, (true, Some (AplEval.ev_explanation res)))
      else mret (None, flags)
  | _ => mret (None, flags)
  end.

(** The loop; an exception ends it with the flags set so far. *)
Fixpoint apl_loop (context : pyval) (deny : string → DB AuthorizationResult) (flags : apl_flags)
    (published : list PolicyVersion) : DB (option AuthorizationResult * apl_flags) :=
  match published with
  | [] => mret (None, flags)
  | pv :: published =>
      out ← try_except (o ← apl_step context deny flags pv; mret (Some o)) (λ _, mret None);
      match out with
      | None => mret (None, flags)
      | Some (Some r, flags) => mret (Some r, flags)
      | Some (None, flags) => apl_loop context deny flags published
      end
  end.

Definition apl_stage (organization_id : option uuid) (context : uuid → pyval)
    (deny : string → DB AuthorizationResult) : DB (option AuthorizationResult * apl_flags) :=
  match organization_id with
  | None => mret (None, (false, None))
  | Some o =>
      published ← query (λ t, published_apl t o);
      match published with
      | Ok published => apl_loop (context o) deny (false, None) published
      | Err _ => mret (None, (false, None))
      end
  end.

(** ** Completing a valid request *)

Definition _complete_or_queue (owner_id : uuid) (request : AuthorizationRequest) (permission : Permission)
    (requested_at : time) (organization_id : option uuid) (settings : Settings) (api_key : option APIKey)
    (delegation : option AgentDelegation) (force_approval : bool) (acting_agent : option Agent)
    : DB AuthorizationResult :=
  request_id ← generate_request_id;
  eval_agent ← match acting_agent with
               | Some a => mret a
               | None => get_or (λ t, agents t !! pm_agent_id permission) (PyError AttributeError)
               end;
  let environment := match api_key with Some k => ak_environment k | None => ag_environment eval_agent end in
  scored ← evaluate_and_save settings None request_id owner_id organization_id eval_agent permission request
             requested_at api_key;
  let risk := scored.2 in
  let sc := MkScope organization_id environment (dl_delegation_id <$> delegation) (dl_parent_agent_id <$> delegation) in
  let reject reason :=
    _save_audit_log owner_id request (_rejected reason (Some (ag_id eval_agent)) (Some (pm_id permission)))
      requested_at (Some request_id) true (Some risk) sc in
  if eqb (re_recommendation risk) REJECT then reject "Request rejected by risk policy"
  else
  org ← query (λ t, evaluate_organization_policy t organization_id request risk);
  let '(organization_action, organization_reason) := org in
  if eqb organization_action OrgDeny then
    reject (text_or organization_reason "Request rejected by organization security policy")
  else
  apl ← apl_stage organization_id
    (λ o, apl_context eval_agent o request risk environment requested_at (sc_delegation_id sc))
    (λ explanation, reject ("Request rejected by APL/1.0 policy: " +:+ explanation));
  let '(denied, (apl_forced, apl_reason)) := apl in
  match denied with
  | Some r => mret r
  | None =>
      let risk_forced := eqb (re_recommendation risk) REQUIRE_APPROVAL in
      if pm_requires_approval permission || force_approval || risk_forced ||
         eqb organization_action OrgRequireApproval || apl_forced then
        _save_pending_request request permission requested_at request_id risk (risk_forced || apl_forced)
          match apl_reason with
          | Some r => if eqb r "" then organization_reason else Some r
          | None => organization_reason
          end sc eval_agent
      else
        _save_audit_log owner_id request (_approved (ag_id eval_agent) (pm_id permission)) requested_at
          (Some request_id) true (Some risk) sc
  end.

(** ** The decision *)

(** [organization_scope]: not given, personal ([None]) or an organization. *)
Inductive scope_arg : Type := Unscoped | InScope (organization : option uuid).
Definition scope_org (sc : scope_arg) : option uuid :=
  match sc with InScope (Some o) => Some o | _ => None end.

(** The conditions on the agent, lines 363 to 371. *)
Definition agent_matches (owner_id : uuid) (request : AuthorizationRequest) (sc : scope_arg)
    (api_key : option APIKey) (a : Agent) : bool :=
  eqb (ag_identifier a) (rq_agent_id request) &&
  match api_key with Some k => eqb (ag_environment a) (ak_environment k) | None => true end &&
  match sc with
  | Unscoped => eqb (ag_owner_id a) owner_id
  | InScope None => eqb (ag_owner_id a) owner_id && negb (is_some (ag_organization_id a))
  | InScope (Some o) => eqb (ag_organization_id a) (Some o)
  end.

Definition inactive_reason (s : AgentStatus) : string :=
  match s with
  | SUSPENDED => "AGENT_SUSPENDED: Agent is suspended"
  | RETIRED | REVOKED => "AGENT_RETIRED: Agent is retired"
  | _ => "Agent is not active"
  end.

(** Lines 440 to 527 on the agent's permissions, newest first: the permission the
    request is made under, or the rejection. *)
Definition select_permission (request : AuthorizationRequest) (checked_at : time) (agent_id : uuid)
    (permissions : list Permission) : _Evaluation + Permission :=
  let reject reason p := inl (_rejected reason (Some agent_id) (pm_id <$> p)) in
  match permissions with [] => reject "No permission found" None | _ =>
  match select_where (λ p, eqb (pm_action p) (rq_action request)) permissions with
  | [] => reject "Action not permitted" None | action_matches =>
  match select_where (λ p, eqb (pm_resource p) (rq_resource request)) action_matches with
  | [] => reject "Resource not permitted" None | scope_matches =>
  match select_where (λ p, eqb (pm_status p) PermActive) scope_matches with
  | [] =>
      match find_first (λ p, eqb (pm_status p) PermRevoked) scope_matches with
      | Some revoked => reject "Permission revoked" (Some revoked)
      | None => reject "Permission expired" (head scope_matches)
      end
  | active =>
  match select_where (λ p, pm_valid_from p <=? checked_at) active with
  | [] => reject "Permission has not started" (head active) | started =>
  match select_where (λ p, checked_at <? pm_expires_at p) started with
  | [] => reject "Permission expired" (head started) | current =>
  match rq_amount request with
  | None =>
      match find_first (λ p, negb (is_some (pm_maximum_amount p))) current with
      | Some p => inr p
      | None => reject "Amount is required for this permission" (head current)
      end
  | Some amount =>
  match select_where (λ p, is_some (pm_maximum_amount p)) current with
  | [] => reject "Permission does not allow an amount" (head current) | amount_permissions =>
  match select_where (λ p, eqb (pm_currency p) (rq_currency request)) amount_permissions with
  | [] => reject "Currency does not match" (head amount_permissions) | currency_matches =>
  match find_first (λ p, opt_check (dec_leb amount) (pm_maximum_amount p)) currency_matches with
  | Some p => inr p
  | None => reject "Amount exceeds allowed limit" (head currency_matches)
  end end end end end end end end end end.

(** Lines 389 to 427. *)
Definition authorize_delegated (request : AuthorizationRequest) (checked_at : time) (owner_id : uuid)
    (sc : scope_arg) (settings : Settings) (api_key : option APIKey) (environment : string) (agent : Agent)
    (delegation_id : string) : DB AuthorizationResult :=
  let organization (d : option uuid) := match scope_org sc with Some o => Some o | None => d end in
  verdict ← query (λ t, verify_delegation_chain t delegation_id (rq_action request) (rq_resource request)
    (rq_amount request) (rq_currency request) checked_at (Some (ag_id agent))
    (organization (ag_organization_id agent)));
  match verdict with
  | None => throw OutOfFuel
  | Some (ChainRejected reason _) =>
      _save_audit_log owner_id request (_rejected ("Delegation invalid: " +:+ reason) (Some (ag_id agent)) None)
        checked_at None true None
        (MkScope (organization (ag_organization_id agent)) environment (Some delegation_id) None)
  | Some (ChainOk meta) =>
      _complete_or_queue (pm_owner_id (md_root_permission meta)) request (md_root_permission meta) checked_at
        (organization (Some (dl_organization_id (md_delegation meta)))) settings api_key
        (Some (md_delegation meta)) (md_effective_requires_approval meta) (Some agent)
  end.

(** Lines 429 to 527. *)
Definition authorize_direct (request : AuthorizationRequest) (checked_at : time) (owner_id : uuid)
    (sc : scope_arg) (settings : Settings) (api_key : option APIKey) (environment : string) (agent : Agent)
    : DB AuthorizationResult :=
  expire_owned_permissions owner_id checked_at
    match sc with Unscoped => AnyOrganization | InScope o => InOrganization o end ;;
  permissions ← query (λ t, order_desc pm_created_at pm_id (select_rows (λ p,
    eqb (pm_agent_id p) (ag_id agent) &&
    match scope_org sc with Some _ => true | None => eqb (pm_owner_id p) owner_id end) (permissions t)));
  match select_permission request checked_at (ag_id agent) permissions with
  | inl evaluation =>
      _save_audit_log owner_id request evaluation checked_at None true None
        (MkScope (scope_org sc) environment None None)
  | inr permission =>
      _complete_or_queue owner_id request permission checked_at (scope_org sc) settings api_key None false None
  end.

Definition authorize_action (owner_id : uuid) (request : AuthorizationRequest) (checked_at : time)
    (sc : scope_arg) (settings : Settings) (api_key : option APIKey) : DB AuthorizationResult :=
  let environment := match api_key with Some k => ak_environment k | None => "production" end in
  let save evaluation :=
    _save_audit_log owner_id request evaluation checked_at None true None
      (MkScope (scope_org sc) environment None None) in
  found ← query (λ t, scalar (agent_matches owner_id request sc api_key) (agents t));
  match found with
  | None => save (_rejected "Agent not found" None None)
  | Some agent =>
      if negb (eqb (ag_status agent) ACTIVE) then
        save (_rejected (inactive_reason (ag_status agent)) (Some (ag_id agent)) None)
      else
        let agent := set_ag_last_activity_at (Some checked_at) agent in
        write (upd_agents <[ag_id agent := agent]>) ;;
        match rq_delegation_id request with
        | Some d => authorize_delegated request checked_at owner_id sc settings api_key environment agent d
        | None => authorize_direct request checked_at owner_id sc settings api_key environment agent
        end
  end.

End authorization.
End Authorization.
