(* ===== verification/AuthorizationProps.v ===== *)
(** What an authorization decision guarantees: what an approval means, that the
    decision is the strictest of its stages, that it leaves exactly one record,
    and what the APL stage does not do. *)
From Stdlib Require Import Ascii.
From S2P Require Import Prelude.
From S2P Require Import PyStr.
From S2P Require Import PyFloat.
From S2P Require Import PyVal.
From S2P Require Import PyDecimal.
From S2P Require Import Models.
From S2P Require Import Store.
From S2P Require Import Samples.
From S2P Require Import Lifecycle.
From S2P Require Import Permissions.
From S2P Require Import Delegation.
From S2P Require Import DelegationProps.
From S2P Require Import Risk.
From S2P Require Import Notifications.
From S2P Require Import NotificationProps.
From S2P Require Import Authorization.

Local Open Scope string_scope.
Local Open Scope Z_scope.

Module AuthorizationProps.
Import Permissions Delegation Risk Notifications NotificationProps Authorization.

(** ** The record of a decision *)

(** Nothing has been decided between two tables: no log row, no request. *)
Definition undecided (t t' : tables) : Prop :=
  audit_logs t' = audit_logs t ∧ requests t' = requests t.
#[export] Instance undecided_preorder : PreOrder undecided.
Proof. split; [by intros t | unfold undecided; intros t1 t2 t3; intuition congruence]. Qed.

(** The log row of a final decision. *)
Definition describes (l : AuditLog) (request : AuthorizationRequest) (res : AuthorizationResult) : Prop :=
  al_request_id l = rs_request_id res ∧
  audit_decision (rs_decision res) = Ok (al_decision l) ∧
  al_reason l = rs_reason res ∧ al_agent_identifier l = rq_agent_id request ∧
  al_action l = rq_action request ∧ al_resource l = rq_resource request ∧
  al_amount l = numeric4 <$> rq_amount request ∧ al_currency l = rq_currency request.

(** One record: a log row for a final decision, a pending request otherwise. *)
Definition recorded (request : AuthorizationRequest) (t t' : tables) (res : AuthorizationResult) : Prop :=
  match rs_decision res with
  | PENDING_D =>
      audit_logs t' = audit_logs t ∧
      ∃ r, requests t !! ar_id r = None ∧ requests t' = <[ar_id r := r]> (requests t) ∧
        ar_status r = ReqPending ∧ ar_request_id r = rs_request_id res ∧ ar_reason r = rs_reason res ∧
        ar_action r = rq_action request ∧ ar_resource r = rq_resource request ∧
        ar_amount r = numeric4 <$> rq_amount request ∧ ar_currency r = rq_currency request
  | _ =>
      requests t' = requests t ∧
      ∃ l, audit_logs t' = (audit_logs t ++ [l])%list ∧ describes l request res ∧
        ∀ b, b ∈ audit_logs t → al_request_id b ≠ al_request_id l
  end.

(** What a part of the decision does to the committed tables: a result records
    exactly one decision, an exception none. *)
Definition decides (request : AuthorizationRequest) (m : DB AuthorizationResult) : Prop := ∀ s,
  undecided (committed s) (cur s) →
  match m s with
  | (Ok res, s') => recorded request (committed s) (committed s') res
  | (Err _, s') => undecided (committed s) (committed s')
  end.

Section decides.
Context `{Entropy} `{SecuritySinks} (request : AuthorizationRequest).

Lemma recorded_after t t1 t' res : undecided t t1 → recorded request t1 t' res → recorded request t t' res.
Proof. intros [Hl Hr]. unfold recorded. rewrite Hl, Hr. by destruct (rs_decision res). Qed.

Lemma decides_bind {A} (m : DB A) f :
  respects (evolves undecided) m → (∀ a, decides request (f a)) → decides request (m ≫= f).
Proof.
  intros Hm Hf s Hs. destruct (Hm s Hs) as [H1 H2]. rewrite bind_run.
  destruct (m s) as [[a|e] s1]; simpl in H1, H2; [|done].
  specialize (Hf a s1 H2). destruct (f a s1) as [[res|e] s']; [by eapply recorded_after | by etrans].
Qed.

Lemma decides_throw e : decides request (throw e).
Proof. by intros s Hs. Qed.
Lemma decides_lift {A} (r : result Exc A) f :
  (∀ a, r = Ok a → decides request (f a)) → decides request (lift_result r ≫= f).
Proof. intros Hf. destruct r as [a|e]; [exact (Hf a eq_refl) | by intros s Hs]. Qed.
Lemma decides_if (b : bool) m k : decides request m → decides request k → decides request (if b then m else k).
Proof. by destruct b. Qed.

Lemma evolves_request_id rid :
  respects (evolves undecided) match rid with Some r => mret r | None => generate_request_id end.
Proof. unfold generate_request_id. walk. Qed.

Lemma decides_audit owner ev at_ rid risk sc :
  decides request (_save_audit_log owner request ev at_ rid true risk sc).
Proof.
  unfold _save_audit_log. apply decides_bind; [apply evolves_request_id | intros r].
  apply decides_lift. intros d Hd. apply decides_bind; [walk | intros id].
  apply decides_bind; [walk | intros now].
  intros s [Hl Hr]. rewrite bind_run. unfold add_audit_log, insert_checked.
  destruct (dead s) eqn:Hs; [done|]. destruct (audit_ok _ (cur s)) eqn:Hok; [|done].
  exec. unfold set_cur. exec. cbv [mret M_ret]. unfold recorded. cbn [rs_decision].
  assert (Hnew : ∀ b, b ∈ audit_logs (committed s) → al_request_id b ≠ r).
  { intros b Hb. unfold audit_ok in Hok. apply andb_true_iff in Hok as [_ Hok].
    rewrite forallb_forall in Hok. rewrite <- Hl in Hb. apply list_elem_of_In, Hok in Hb. by reflect. }
  simpl. destruct (ev_decision ev) eqn:Hev; try done; simpl in Hd |- *; simplify_eq;
    (split; [done|]); eexists; rewrite Hl; (split; [reflexivity|]); (split; [done | exact Hnew]).
Qed.

(** A notification that is not a security alert touches no decision. *)
#[local] Instance same_decisions_preorder : PreOrder same_decisions.
Proof. split; [by intros t | unfold same_decisions; intros t1 t2 t3; intuition congruence]. Qed.

Lemma alert_event_quiet a id : na_type a ≠ SECURITY_ALERT → alert_event a id = mret tt.
Proof. intros Ha. unfold alert_event. apply eqb_false in Ha. by rewrite Ha. Qed.

Lemma get_preferences_moves u : respects (moves same_decisions) (get_preferences u).
Proof. unfold get_preferences. walk. by apply moves_insert. Qed.

Lemma queue_deliveries_moves p a id : respects (moves same_decisions) (queue_deliveries p a id).
Proof.
  unfold queue_deliveries. cbv zeta. unfold add_delivery.
  walk; by apply moves_write.
Qed.

Lemma notice_moves a :
  na_type a ≠ SECURITY_ALERT → respects (moves same_decisions) (create_notification a).
Proof.
  intros Ha.
  assert (Hnew : respects (moves same_decisions) (create_new a)).
  { unfold create_new. walk; try apply get_preferences_moves; try apply queue_deliveries_moves.
    - by apply moves_insert.
    - rewrite alert_event_quiet by done. walk. }
  unfold create_notification. walk; exact Hnew.
Qed.

Lemma decides_pending permission at_ rid risk forced reason sc agent :
  decides request (_save_pending_request request permission at_ rid risk forced reason sc agent).
Proof.
  unfold _save_pending_request. apply decides_bind; [walk | intros id]. apply decides_bind; [walk | intros now].
  set (r := pending_record _ _ _ _ _ _ _ _ _ _ _). intros s [Hl Hr].
  rewrite bind_run. unfold insert_checked. destruct (dead s) eqn:Hs; [done|].
  destruct (request_ok r (cur s)) eqn:Hok; [|done].
  rewrite bind_run.
  pose proof (notice_moves (pending_notification r agent request risk forced)
    ltac:(by destruct forced) (set_cur (upd_requests <[id := r]> (cur s)) s)) as (Hc & _ & Hm).
  destruct (create_notification _ _) as [[nt|e] s1]; simpl in Hc, Hm; [|by rewrite Hc].
  rewrite bind_run. unfold commit. destruct (dead s1) eqn:Hd1; [by rewrite Hc|].
  destruct (Hm eq_refl) as (_ & _ & _ & _ & Hreq & Hlog & _). simpl in *.
  unfold recorded. simpl. split; [congruence|]. exists r. unfold request_ok in Hok. reflect.
  destruct Hok as [[_ Hid] _]. rewrite <- Hr. split_and!; done.
Qed.

(** *** The stages *)

Lemma published_apl_raises t o : published_apl t o = Err AttributeError.
Proof. reflexivity. Qed.

Lemma apl_stage_idle org context deny : apl_stage org context deny = mret (None, (false, None)).
Proof. destruct org as [o|]; reflexivity. Qed.

Lemma evaluate_and_save_evolves settings rid u org agent p at_ key :
  respects (evolves undecided) (evaluate_and_save settings None rid u org agent p request at_ key).
Proof. unfold evaluate_and_save, get_or_create_policy. walk; (apply evolves_insert; [apply _ | done]). Qed.

Lemma decides_complete owner permission at_ org settings key delegation force acting :
  decides request (_complete_or_queue owner request permission at_ org settings key delegation force acting).
Proof.
  unfold _complete_or_queue, generate_request_id. apply decides_bind; [walk | intros rid].
  apply decides_bind; [walk | intros agent].
  apply decides_bind; [apply evaluate_and_save_evolves | intros scored]. cbv zeta.
  apply decides_if; [apply decides_audit|].
  apply decides_bind; [walk | intros [oa oreason]]. cbv beta iota.
  apply decides_if; [apply decides_audit|].
  rewrite apl_stage_idle. intros s Hs. rewrite bind_ret. revert s Hs. cbv beta iota.
  apply decides_if; [apply decides_pending | apply decides_audit].
Qed.

Lemma decides_delegated at_ owner sc settings key env agent d :
  decides request (authorize_delegated request at_ owner sc settings key env agent d).
Proof.
  unfold authorize_delegated. apply decides_bind; [walk | intros [[m|reason details]|]];
    [apply decides_complete | apply decides_audit | apply decides_throw].
Qed.

Lemma expire_undecided owner at_ org : respects (evolves undecided) (expire_owned_permissions owner at_ org).
Proof. unfold expire_owned_permissions. walk. (apply evolves_write; [apply _ | done]). Qed.

Lemma decides_direct at_ owner sc settings key env agent :
  decides request (authorize_direct request at_ owner sc settings key env agent).
Proof.
  unfold authorize_direct. apply decides_bind; [apply expire_undecided | intros _].
  apply decides_bind; [walk | intros ps].
  destruct (select_permission _ _ _ _); [apply decides_audit | apply decides_complete].
Qed.

Lemma decides_authorize owner at_ sc settings key :
  decides request (authorize_action owner request at_ sc settings key).
Proof.
  unfold authorize_action. cbv zeta. apply decides_bind; [walk | intros [agent|]]; [|apply decides_audit].
  apply decides_if; [apply decides_audit|]. apply decides_bind; [walk; (apply evolves_write; [apply _ | done]) | intros _].
  destruct (rq_delegation_id request); [apply decides_delegated | apply decides_direct].
Qed.

(** Every authorization request that is answered leaves exactly
    one new record that says what was answered: a log row with a fresh request
    identifier for an approval or a rejection, a pending request otherwise; one
    that fails leaves the log and the requests as they were. *)
Theorem one_record_per_decision owner at_ sc settings key t n now r t' :
  run_request (authorize_action owner request at_ sc settings key) t n now = (r, t') →
  match r with
  | Ok res => recorded request t t' res
  | Err _ => undecided t t'
  end.
Proof.
  unfold run_request. pose proof (decides_authorize owner at_ sc settings key (open_session t n now)) as H1.
  specialize (H1 ltac:(reflexivity)). destruct (authorize_action _ _ _ _ _ _ _) as [r0 s'].
  intros [= -> <-]. by destruct r.
Qed.

(** The published policies never decide anything: the query names
    the attribute [is_active], which [PolicyVersion] does not declare, the
    [except Exception: pass] of the stage swallows the error, and whatever the
    stored versions say, no request is denied and no approval is forced. *)
Theorem apl_policies_ignored org context deny s :
  apl_stage org context deny s = (Ok (None, (false, None)), s) ∧
  ∀ pv, row_attribute pv "compiled_ast" = Err AttributeError.
Proof. split; [by rewrite apl_stage_idle | reflexivity]. Qed.
End decides.

(** ** The strictest stage decides *)

(** What the stages of a valid request amount to. *)
Definition stage_decision (risk : RiskEvaluation) (org : org_action) (approval : bool) : Decision :=
  if eqb (re_recommendation risk) REJECT || eqb org OrgDeny then REJECTED_D
  else if approval || eqb (re_recommendation risk) REQUIRE_APPROVAL || eqb org OrgRequireApproval then PENDING_D
  else APPROVED_D.

(** The tables the risk stage reads and leaves alone. *)
Definition risk_frame (t t' : tables) : Prop :=
  agents t' = agents t ∧ permissions t' = permissions t ∧ delegations t' = delegations t ∧
  org_policies t' = org_policies t ∧ audit_logs t' = audit_logs t.

(** The tables a risk evaluation sees: the tenant's policy may have been added. *)
Definition scored_on (t u : tables) : Prop := ∃ l, u = upd_risk_policies (λ k, (k ++ l)%list) t.

Section decision.
Context `{Entropy} `{SecuritySinks}.

Lemma evaluate_and_save_Ok settings rid u org agent p request at_ key s a e s1 :
  evaluate_and_save settings None rid u org agent p request at_ key s = (Ok (a, e), s1) →
  ∃ pol t, policy_condition u org pol = true ∧ pol ∈ risk_policies t ∧
    scored_on (cur s) t ∧ risk_frame (cur s) (cur s1) ∧
    e = evaluate_rules settings t (MkInput u org agent p request at_ pol key).
Proof.
  intros Hrun. assert (Hs : dead s = false).
  { destruct (dead s) eqn:Hs; [|done]. exfalso. revert Hrun.
    unfold evaluate_and_save, get_or_create_policy. exec.
    destruct (find_first _ _) as [q|]; [exec | unfold fresh_uuid; rewrite bind_run; exec];
      rewrite bind_run; unfold insert_checked, fresh_uuid, next_seed; simpl; rewrite Hs; simpl; try done. }
  revert Hrun. unfold evaluate_and_save. rewrite bind_run.
  destruct (RiskProps.get_or_create_policy_run u org s Hs) as (pol & l & n & -> & Hpol & Hin).
  exec. unfold fresh_uuid. rewrite bind_run. exec. exec. destruct (assessment_ok _ _); [|done].
  cbv [mret M_ret]. intros [= <- <- <-]. exists pol, (upd_risk_policies (λ k, (k ++ l)%list) (cur s)). split_and!; try done. by exists l.
Qed.

Lemma save_audit_decision owner request ev at_ rid risk sc s res s' :
  _save_audit_log owner request ev at_ rid true risk sc s = (Ok res, s') →
  rs_decision res = ev_decision ev ∧ rs_risk_score res = re_score <$> risk.
Proof. intros Hrun. unfold _save_audit_log in Hrun. repeat mrun Hrun. by simplify_eq/=. Qed.

Lemma pending_decision request p at_ rid risk forced reason sc agent s res s' :
  _save_pending_request request p at_ rid risk forced reason sc agent s = (Ok res, s') →
  rs_decision res = PENDING_D ∧ rs_risk_score res = Some (re_score risk).
Proof. intros Hrun. unfold _save_pending_request in Hrun. repeat mrun Hrun. by simplify_eq/=. Qed.

Lemma organization_policy_frame t t' org request e :
  risk_frame t t' → evaluate_organization_policy t' org request e = evaluate_organization_policy t org request e.
Proof. intros (_ & _ & _ & Ho & _). unfold evaluate_organization_policy. by rewrite Ho. Qed.

(** A valid request that is answered: who acted, the evaluation it was answered
    on, and the decision they give. *)
Lemma complete_run owner request permission at_ org settings key delegation force acting s res s' :
  _complete_or_queue owner request permission at_ org settings key delegation force acting s = (Ok res, s') →
  ∃ agent pol t,
    match acting with Some a => agent = a | None => agents (cur s) !! pm_agent_id permission = Some agent end ∧
    policy_condition owner org pol = true ∧ pol ∈ risk_policies t ∧ scored_on (cur s) t ∧
    let e := evaluate_rules settings t (MkInput owner org agent permission request at_ pol key) in
    rs_decision res = stage_decision e (evaluate_organization_policy (cur s) org request e).1
      (pm_requires_approval permission || force) ∧
    rs_risk_score res = Some (re_score e).
Proof.
  unfold _complete_or_queue, generate_request_id, fresh_token. intros Hrun. exec_in Hrun.
  rewrite bind_run in Hrun. cbn [next_seed] in Hrun. exec_in Hrun.
  apply bind_Ok in Hrun as (agent & s0 & Hagent & Hrun).
  assert (Hact : cur s0 = cur s ∧ match acting with Some a => agent = a
    | None => agents (cur s) !! pm_agent_id permission = Some agent end).
  { destruct acting as [a|].
    - cbv [mret M_ret] in Hagent. by simplify_eq.
    - unfold get_or in Hagent. exec_in Hagent. unfold next_seed in Hagent. simpl in Hagent.
      destruct (agents (cur s) !! _); cbv [mret M_ret throw] in Hagent; by simplify_eq. }
  destruct Hact as [Hcur Hact]. apply bind_Ok in Hrun as ([a e] & s1 & Hscore & Hrun). simpl in Hrun.
  apply evaluate_and_save_Ok in Hscore as (pol & t & Hpol & Hin & Hf & Hf1 & ->).
  rewrite Hcur in Hf, Hf1. exists agent, pol, t. do 4 (split; [done|]). cbv zeta.
  set (e := evaluate_rules settings t _) in *.
  rewrite <- (organization_policy_frame _ _ org request e Hf1). unfold stage_decision.
  destruct (eqb (re_recommendation e) REJECT) eqn:Hrej; [by apply save_audit_decision in Hrun as [-> ->]|].
  exec_in Hrun. destruct (evaluate_organization_policy (cur s1) org request e) as [oa reason] eqn:Horg. simpl.
  destruct (eqb oa OrgDeny) eqn:Hdeny; [by apply save_audit_decision in Hrun as [-> ->]|].
  rewrite apl_stage_idle in Hrun. exec_in Hrun. simpl in Hrun. rewrite !orb_false_r in Hrun. simpl.
  rewrite <- !orb_assoc in Hrun |- *. destruct (_ || _).
  - by apply pending_decision in Hrun as [-> ->].
  - by apply save_audit_decision in Hrun as [-> ->].
Qed.
End decision.

(** ** Permissions *)

(** The amount is allowed: within the limit in its currency, or no amount under a
    permission without one. *)
Definition amount_granted (p : Permission) (request : AuthorizationRequest) : Prop :=
  match rq_amount request with
  | None => pm_maximum_amount p = None
  | Some a => ∃ limit, pm_maximum_amount p = Some limit ∧ pm_currency p = rq_currency request ∧ dec_leb a limit = true
  end.

(** The permission grants the request at a time. *)
Definition grants (p : Permission) (request : AuthorizationRequest) (at_ : time) : Prop :=
  permission_is_usable p at_ = true ∧ pm_action p = rq_action request ∧ pm_resource p = rq_resource request ∧
  amount_granted p request.

Lemma select_where_members {A} (f : A → bool) l m : select_where f l = m → ∀ x, x ∈ m ↔ x ∈ l ∧ f x = true.
Proof. intros <- x. apply elem_of_select_where. Qed.

(** Discard the filters of [select_permission] one by one, keeping who is in each. *)
Ltac stage :=
  match goal with
  | |- context [match select_where ?f ?l with [] => _ | _ => _ end] =>
      let E := fresh "E" in destruct (select_where f l) eqn:E; pose proof (select_where_members f l _ E)
  end.
Ltac members :=
  repeat match goal with
  | Hm : ∀ x, x ∈ ?m ↔ _, Hx : ?p ∈ ?m |- _ => apply Hm in Hx as [Hx ?]
  end.

(** Follow an element through the filters. *)
Ltac stage_with p tac :=
  match goal with
  | |- context [match select_where ?f ?l with [] => _ | _ => _ end] =>
      let Hp := fresh "Hp" in
      assert (Hp : p ∈ select_where f l) by (apply elem_of_select_where; split; [assumption | tac]);
      destruct (select_where f l); [by apply elem_of_nil in Hp|]
  end.

Lemma select_permission_grants request at_ a ps p :
  select_permission request at_ a ps = inr p → p ∈ ps ∧ grants p request at_.
Proof.
  unfold select_permission, grants, amount_granted, permission_is_usable. destruct ps as [|p0 ps]; [done|].
  generalize (p0 :: ps). clear p0 ps. intros ps.
  stage; [done|]. stage; [done|]. stage; [by destruct (find_first _ _)|]. stage; [done|]. stage; [done|].
  destruct (rq_amount request) as [amount|].
  - stage; [done|]. stage; [done|]. destruct (find_first _ _) as [q|] eqn:Hq; [|done].
    intros [= <-]. apply find_first_Some in Hq as [Hin Hle]. members.
    destruct (pm_maximum_amount q) as [limit|] eqn:Hlim; [|done]. simpl in Hle. reflect.
    split_and!; try done. by exists limit.
  - destruct (find_first _ _) as [q|] eqn:Hq; [|done].
    intros [= <-]. apply find_first_Some in Hq as [Hin Hle]. members. reflect. by split_and!.
Qed.

Lemma select_permission_rejects request at_ a ps ev :
  select_permission request at_ a ps = inl ev → ev_decision ev = REJECTED_D ∧ ∀ p, p ∈ ps → ¬ grants p request at_.
Proof.
  intros Hsel. split.
  { revert Hsel. unfold select_permission. repeat case_match; intros; by simplify_eq. }
  revert Hsel. unfold select_permission, grants, amount_granted, permission_is_usable.
  destruct ps as [|p0 ps]; [by intros _ p ?%elem_of_nil|]. generalize (p0 :: ps). clear p0 ps. intros ps Hsel p Hin.
  intros (Hu & Hac & Hre & Ham). apply andb_true_iff in Hu as [[Hu1 Hu2]%andb_true_iff Hu3].
  revert Hsel. reflect.
  assert (Hu1b : eqb (pm_status p) PermActive = true) by (rewrite Hu1; apply eqb_refl).
  stage_with p ltac:(rewrite Hac; apply eqb_refl). stage_with p ltac:(rewrite Hre; apply eqb_refl).
  stage_with p ltac:(exact Hu1b). stage_with p ltac:(by apply Z.leb_le). stage_with p ltac:(by apply Z.ltb_lt).
  destruct (rq_amount request) as [amount|].
  - destruct Ham as (limit & Hlim & Hcur & Hle).
    stage_with p ltac:(by rewrite Hlim). stage_with p ltac:(rewrite Hcur; apply eqb_refl).
    destruct (find_first _ _) eqn:Hf; [done|]. rewrite find_first_None in Hf.
    specialize (Hf p ltac:(assumption)). rewrite Hlim in Hf. simpl in Hf. congruence.
  - destruct (find_first _ _) eqn:Hf; [done|]. rewrite find_first_None in Hf.
    specialize (Hf p ltac:(assumption)). by rewrite Ham in Hf.
Qed.

(** ** What an approval means *)

(** The stages after the permission have all allowed the request. *)
Definition allowed (settings : Settings) (t : tables) (owner : uuid) (org : option uuid) (agent : Agent)
    (p : Permission) (request : AuthorizationRequest) (at_ : time) (key : option APIKey) : Prop :=
  ∃ pol u, policy_condition owner org pol = true ∧ pol ∈ risk_policies u ∧
    audit_logs u = audit_logs t ∧ assessments u = assessments t ∧
    let e := evaluate_rules settings u (MkInput owner org agent p request at_ pol key) in
    re_recommendation e = ALLOW ∧ (evaluate_organization_policy t org request e).1 = OrgAllow.

Lemma stage_decision_approved e oa b :
  stage_decision e oa b = APPROVED_D → re_recommendation e = ALLOW ∧ oa = OrgAllow ∧ b = false.
Proof. unfold stage_decision. by destruct (re_recommendation e), oa, b. Qed.

Section soundness.
Context `{Entropy} `{SecuritySinks}.

Lemma complete_approved owner request permission at_ org settings key delegation force acting s res s' :
  _complete_or_queue owner request permission at_ org settings key delegation force acting s = (Ok res, s') →
  rs_decision res = APPROVED_D →
  pm_requires_approval permission = false ∧ force = false ∧
  ∃ agent, match acting with Some a => agent = a
           | None => agents (cur s) !! pm_agent_id permission = Some agent end ∧
    allowed settings (cur s) owner org agent permission request at_ key.
Proof.
  intros Hrun Hd. apply complete_run in Hrun as (agent & pol & u & Hact & Hpol & Hin & (l & ->) & Hdec & _).
  rewrite Hd in Hdec. symmetry in Hdec. apply stage_decision_approved in Hdec as (Ha & Ho & Hb).
  apply orb_false_iff in Hb as [Hb1 Hb2]. split_and!; [done..|]. exists agent. split; [done|].
  by exists pol, (upd_risk_policies (λ k, (k ++ l)%list) (cur s)).
Qed.

Lemma expire_run owner at_ org s s1 :
  expire_owned_permissions owner at_ org s = (Ok tt, s1) →
  agents (cur s1) = agents (cur s) ∧ org_policies (cur s1) = org_policies (cur s) ∧
  audit_logs (cur s1) = audit_logs (cur s) ∧ assessments (cur s1) = assessments (cur s) ∧
  ∀ k p, permissions (cur s1) !! k = Some p → pm_status p = PermActive → permissions (cur s) !! k = Some p.
Proof.
  intros Hrun. unfold expire_owned_permissions in Hrun. exec_in Hrun.
  apply bind_Ok in Hrun as ([] & s2 & Hw & Hrun). unfold write in Hw. destruct (dead s); [done|]. simplify_eq.
  assert (Hc : cur s1 = upd_permissions (update_where (due (cur s) owner at_ org) (set_pm_status PermExpired (db_now s))) (cur s)).
  { destruct (_ =? 0)%nat; [by cbv [mret M_ret] in Hrun; simplify_eq|].
    unfold commit in Hrun. destruct (dead _); by simplify_eq. }
  rewrite Hc. do 4 (split; [done|]). intros k p. simpl. rewrite lookup_update_where.
  destruct (permissions (cur s) !! k) as [q|]; [|done]. simpl. intros [= <-].
  by destruct (due _ _ _ _ q).
Qed.

(** The common beginning: the agent that acts. *)
Lemma authorize_run owner request at_ sc settings key s res s' :
  authorize_action owner request at_ sc settings key s = (Ok res, s') → rs_decision res = APPROVED_D →
  ∃ k agent env, let agent' := set_ag_last_activity_at (Some at_) agent in
    agents (cur s) !! k = Some agent ∧ agent_matches owner request sc key agent = true ∧ ag_status agent = ACTIVE ∧
    match rq_delegation_id request with
    | Some d => authorize_delegated request at_ owner sc settings key env agent' d
    | None => authorize_direct request at_ owner sc settings key env agent'
    end (set_cur (upd_agents <[ag_id agent := agent']> (cur s)) s) = (Ok res, s').
Proof.
  intros Hrun Hd. unfold authorize_action in Hrun. exec_in Hrun.
  destruct (scalar _ _) as [agent|] eqn:Hagent.
  2: { apply save_audit_decision in Hrun as [Hrun _]. by rewrite Hd in Hrun. }
  apply scalar_Some in Hagent as (k & Hk & Hm). destruct (eqb (ag_status agent) ACTIVE) eqn:Hact; simpl in Hrun.
  2: { apply save_audit_decision in Hrun as [Hrun _]. by rewrite Hd in Hrun. }
  apply bind_Ok in Hrun as ([] & s1 & Hw & Hrun). unfold write in Hw. destruct (dead s); [done|]. simplify_eq.
  reflect. by eexists k, agent, _.
Qed.

(** C2. A direct request is approved only for an active agent in the
    caller's scope, under a stored permission of that agent that is active and
    in its window, is for exactly that action and resource, covers the amount
    in its currency and asks for no approval, when the risk evaluation
    recommends to allow it and the organization's policy does not object. *)
Theorem approval_is_granted owner request at_ sc settings key t n now res t' :
  run_request (authorize_action owner request at_ sc settings key) t n now = (Ok res, t') →
  rs_decision res = APPROVED_D → rq_delegation_id request = None →
  ∃ k agent j p,
    agents t !! k = Some agent ∧ agent_matches owner request sc key agent = true ∧ ag_status agent = ACTIVE ∧
    permissions t !! j = Some p ∧ pm_agent_id p = ag_id agent ∧ grants p request at_ ∧
    pm_requires_approval p = false ∧
    allowed settings t owner (scope_org sc) (set_ag_last_activity_at (Some at_) agent) p request at_ key.
Proof.
  unfold run_request. destruct (authorize_action _ _ _ _ _ _ _) as [r s'] eqn:Hrun. intros [= -> <-] Hd Hno.
  apply authorize_run in Hrun as (k & agent & env & Hk & Hm & Hact & Hrun); [|done].
  rewrite Hno in Hrun. unfold authorize_direct in Hrun. cbn [cur open_session] in Hrun, Hk.
  apply bind_Ok in Hrun as ([] & s1 & Hexp & Hrun). apply expire_run in Hexp as (Ha & Ho & Hl & Has & Hp).
  cbn [cur set_cur open_session agents upd_agents org_policies audit_logs assessments permissions] in Ha, Ho, Hl, Has, Hp.
  exec_in Hrun. destruct (select_permission _ _ _ _) as [ev|p] eqn:Hsel.
  { apply save_audit_decision in Hrun as [Hdec _]. apply select_permission_rejects in Hsel as [Hrej _]. congruence. }
  apply select_permission_grants in Hsel as [Hin Hg]. apply elem_of_order_desc, elem_of_select_rows in Hin as [[j Hj] Hc].
  apply andb_true_iff in Hc as [Hagent _]. reflect. cbn [ag_id set_ag_last_activity_at] in Hagent.
  apply complete_approved in Hrun as (Hreq & _ & actor & Hactor & Hall); [|done].
  exists k, agent, j, p. split_and!; try done.
  - apply Hp; [done|]. destruct Hg as (Hu & _). unfold permission_is_usable in Hu. reflect. tauto.
  - rewrite Ha, Hagent, lookup_insert_eq in Hactor. injection Hactor as <-.
    destruct Hall as (pol & u & ? & ? & Hlu & Hau & Hrec & Horg). exists pol, u.
    split_and!; [done | done | congruence | congruence |]. split; [done|].
    unfold evaluate_organization_policy in *. by rewrite Ho in Horg.
Qed.
(** Verification reads the agents only for whether they are active. *)
Lemma walk_chain_frame fuel t t' at_ action resource d seen e :
  (∀ k, agent_active t' k = agent_active t k) → delegations t' = delegations t →
  walk_chain fuel t' at_ action resource d seen e = walk_chain fuel t at_ action resource d seen e.
Proof.
  intros Ha Hd. revert d seen e. induction fuel as [|fuel IH]; intros d seen e; [done|]. simpl.
  assert (Hc : check_link t' at_ action resource d seen = check_link t at_ action resource d seen)
    by (unfold check_link; by rewrite !Ha).
  assert (Hp : parent_of t' d = parent_of t d) by (unfold parent_of; by rewrite Hd).
  rewrite Hc, Hp. case_match; [done|]. case_match; [|done]. by rewrite IH.
Qed.

Lemma verify_frame t t' i action resource amount currency at_ child org :
  (∀ k, agent_active t' k = agent_active t k) → delegations t' = delegations t → permissions t' = permissions t →
  verify_delegation_chain t' i action resource amount currency at_ child org =
  verify_delegation_chain t i action resource amount currency at_ child org.
Proof.
  intros Ha Hd Hp. unfold verify_delegation_chain, by_public_id, chain_fuel. rewrite Hd.
  destruct (scalar _ _) as [d|]; [|done]. do 2 (destruct (mismatches _ _); [done|]).
  rewrite (walk_chain_frame _ t t') by done.
  destruct (walk_chain _ _ _ _ _ _ _ _) as [[[l e]|[]]|]; [|done..].
  unfold check_root. rewrite Hp. destruct (permissions t !! _); [|done]. by rewrite !Ha.
Qed.

Lemma touch_active t k agent at_ j :
  Lifecycle.agents_keyed t → agents t !! k = Some agent →
  agent_active (upd_agents <[ag_id agent := set_ag_last_activity_at at_ agent]> t) j = agent_active t j.
Proof.
  intros Hkey Hk. unfold agent_active. simpl. rewrite (Hkey _ _ Hk), lookup_insert.
  case_decide; [subst; by rewrite Hk | done].
Qed.

(** C3. A request under a delegation is approved only for an
    active agent in the caller's scope that the named delegation was made to,
    when the whole chain verifies for exactly that action, resource and amount,
    no link of it and not the root permission asks for approval, and the risk
    and organization stages, run as the owner of the root permission, allow it. *)
Theorem delegated_approval_is_verified owner request at_ sc settings key t n now res t' d :
  Lifecycle.agents_keyed t →
  run_request (authorize_action owner request at_ sc settings key) t n now = (Ok res, t') →
  rs_decision res = APPROVED_D → rq_delegation_id request = Some d →
  ∃ k agent m,
    agents t !! k = Some agent ∧ agent_matches owner request sc key agent = true ∧ ag_status agent = ACTIVE ∧
    verify_delegation_chain t d (rq_action request) (rq_resource request) (rq_amount request) (rq_currency request)
      at_ (Some (ag_id agent)) match scope_org sc with Some o => Some o | None => ag_organization_id agent end =
      Some (ChainOk m) ∧
    md_effective_requires_approval m = false ∧ pm_requires_approval (md_root_permission m) = false ∧
    allowed settings t (pm_owner_id (md_root_permission m))
      match scope_org sc with Some o => Some o | None => Some (dl_organization_id (md_delegation m)) end
      (set_ag_last_activity_at (Some at_) agent) (md_root_permission m) request at_ key.
Proof.
  intros Hkey. unfold run_request. destruct (authorize_action _ _ _ _ _ _ _) as [r s'] eqn:Hrun.
  intros [= -> <-] Hd Hdel. apply authorize_run in Hrun as (k & agent & env & Hk & Hm & Hact & Hrun); [|done].
  rewrite Hdel in Hrun. unfold authorize_delegated in Hrun. cbn [cur open_session] in Hrun, Hk. exec_in Hrun.
  rewrite (verify_frame t) in Hrun; [|by intros j; eapply touch_active|done|done].
  cbn [ag_id ag_organization_id set_ag_last_activity_at] in Hrun.
  destruct (verify_delegation_chain _ _ _ _ _ _ _ _ _) as [[m|reason details]|] eqn:Hv; [| |done].
  2: { apply save_audit_decision in Hrun as [Hdec _]. by rewrite Hd in Hdec. }
  apply complete_approved in Hrun as (Hreq & Hforce & actor & -> & Hall); [|done].
  exists k, agent, m. do 6 (split; [done|]). exact Hall.
Qed.
End soundness.

(** The permission stage of a direct request finds a permission
    exactly when one of the agent's permissions grants the request. *)
Theorem permission_stage_exact request at_ a ps :
  (∃ p, select_permission request at_ a ps = inr p) ↔ ∃ p, p ∈ ps ∧ grants p request at_.
Proof.
  split.
  - intros [p Hp]. exists p. by eapply select_permission_grants.
  - intros (p & Hin & Hg). destruct (select_permission request at_ a ps) as [ev|q] eqn:Hsel; [|by exists q].
    apply select_permission_rejects in Hsel as [_ Hno]. by destruct (Hno p Hin).
Qed.

(** A delegated request escapes the limits by leaving its
    amount out: a chain that verifies for some amount verifies without one, while
    the direct path lets a request without an amount use only permissions that
    have no limit. *)
Theorem delegated_amount_can_be_omitted t i action resource amount currency at_ child org m :
  verify_delegation_chain t i action resource (Some amount) currency at_ child org = Some (ChainOk m) →
  (∃ limit, md_effective_maximum_amount m = Some limit) ∧
  verify_delegation_chain t i action resource None None at_ child org = Some (ChainOk m) ∧
  ∀ request a ps p, rq_amount request = None →
    select_permission request at_ a ps = inr p → pm_maximum_amount p = None.
Proof.
  intros (d & l & root & Hd & Horg & Hch & Hl & Hf & Hc & Hroot & Hok & (limit & Hlim & _) & ->)%DelegationProps.verify_accepted.
  split; [by exists limit|]. split.
  - apply DelegationProps.verify_accepted. exists d, l, root. by split_and!.
  - intros request a ps p Hno Hsel. apply select_permission_grants in Hsel as (_ & _ & _ & _ & Hg).
    unfold amount_granted in Hg. by rewrite Hno in Hg.
Qed.

(** ** Witnesses *)

(** Agent 1 may pay invoices up to 1000 USD and has delegated 500 to agent 2. *)
Definition sample_tables : tables :=
  tables_with [sample_agent 1; sample_agent 2] [sample_permission 100 1] [sample_delegation 200 1 2 None].
Definition payment (k : nat) (amount : option Z) (d : option string) : AuthorizationRequest :=
  MkRequest ("agent-" +:+ str_of_nat k) "pay" "invoices" ((λ z, Dec z 0) <$> amount) ((λ _, "USD") <$> amount) d.
Definition authorize_sample (r : AuthorizationRequest) : result Exc AuthorizationResult * tables :=
  run_request (authorize_action 9 r (20 * hour) (InScope (Some 50%N)) default_settings None) sample_tables 0 (20 * hour).

Example sample_direct_within : rs_decision <$> (authorize_sample (payment 1 (Some 500) None)).1 = Ok APPROVED_D.
Proof. vm_compute. reflexivity. Qed.
Example sample_direct_near_limit : rs_reason <$> (authorize_sample (payment 1 (Some 1001) None)).1 = Ok "Amount exceeds allowed limit".
Proof. vm_compute. reflexivity. Qed.
Example sample_direct_amountless :
  rs_reason <$> (authorize_sample (payment 1 None None)).1 = Ok "Amount is required for this permission".
Proof. vm_compute. reflexivity. Qed.
Example sample_delegated_amountless :
  rs_decision <$> (authorize_sample (payment 2 None (Some "del_200"))).1 = Ok APPROVED_D.
Proof. vm_compute. reflexivity. Qed.

Lemma one_record_per_decision_witness :
  ∃ res t', authorize_sample (payment 1 (Some 500) None) = (Ok res, t') ∧
    recorded (payment 1 (Some 500) None) sample_tables t' res.
Proof.
  destruct (authorize_sample (payment 1 (Some 500) None)) as [[res|e] t'] eqn:Hrun; [|by vm_compute in Hrun].
  exists res, t'. split; [reflexivity|]. exact (one_record_per_decision _ _ _ _ _ _ _ _ _ _ _ Hrun).
Defined.

Lemma approval_is_granted_witness :
  ∃ res t' j p, authorize_sample (payment 1 (Some 500) None) = (Ok res, t') ∧
    permissions sample_tables !! j = Some p ∧ grants p (payment 1 (Some 500) None) (20 * hour).
Proof.
  destruct (authorize_sample (payment 1 (Some 500) None)) as [[res|e] t'] eqn:Hrun; [|by vm_compute in Hrun].
  destruct (approval_is_granted _ _ _ _ _ _ _ _ _ _ _ Hrun) as (k & agent & j & p & _ & _ & _ & Hj & _ & Hg & _).
  - vm_compute in Hrun. injection Hrun as <- _. reflexivity.
  - reflexivity.
  - exists res, t', j, p. split; [reflexivity|]. split; [exact Hj | exact Hg].
Defined.

Lemma sample_agents_keyed : Lifecycle.agents_keyed sample_tables.
Proof.
  intros k a Hk. by apply (keyed_lookup ag_id [sample_agent 1; sample_agent 2]) in Hk as [? _].
Qed.

Lemma delegated_approval_is_verified_witness :
  ∃ res t' m, authorize_sample (payment 2 (Some 300) (Some "del_200")) = (Ok res, t') ∧
    verify_delegation_chain sample_tables "del_200" "pay" "invoices" (Some (Dec 300 0)) (Some "USD") (20 * hour)
      (Some 2%N) (Some 50%N) = Some (ChainOk m).
Proof.
  destruct (authorize_sample (payment 2 (Some 300) (Some "del_200"))) as [[res|e] t'] eqn:Hrun; [|by vm_compute in Hrun].
  assert (Hd : rs_decision res = APPROVED_D) by (vm_compute in Hrun; injection Hrun as <- _; reflexivity).
  unfold authorize_sample in Hrun.
  destruct (delegated_approval_is_verified 9 (payment 2 (Some 300) (Some "del_200")) (20 * hour)
    (InScope (Some 50%N)) default_settings None sample_tables 0 (20 * hour) res t' "del_200"
    sample_agents_keyed Hrun Hd eq_refl) as (k & agent & m & Hk & Hm & _ & Hv & _).
  - exists res, t', m. split; [reflexivity|].
    assert (Ha : ag_id agent = 2%N).
    { unfold agent_matches in Hm. apply andb_true_iff in Hm as [[Hm _]%andb_true_iff _].
      apply (keyed_lookup ag_id [sample_agent 1; sample_agent 2]) in Hk as [_ Hin].
      rewrite !elem_of_cons in Hin. destruct Hin as [-> | [-> | Hin]];
        [vm_compute in Hm; discriminate Hm | reflexivity | apply elem_of_nil in Hin; destruct Hin]. }
    rewrite Ha in Hv. exact Hv.
Defined.

Lemma delegated_amount_can_be_omitted_witness :
  ∃ m, verify_delegation_chain sample_tables "del_200" "pay" "invoices" (Some (Dec 300 0)) (Some "USD") (20 * hour)
      None None = Some (ChainOk m) ∧
    verify_delegation_chain sample_tables "del_200" "pay" "invoices" None None (20 * hour) None None = Some (ChainOk m).
Proof.
  destruct (verify_delegation_chain sample_tables "del_200" "pay" "invoices" (Some (Dec 300 0)) (Some "USD") (20 * hour)
      None None) as [[m|reason d]|] eqn:Hv; [|by vm_compute in Hv..].
  exists m. split; [reflexivity|]. exact (proj1 (proj2 (delegated_amount_can_be_omitted _ _ _ _ _ _ _ _ _ _ Hv))).
Defined.

End AuthorizationProps.
