(* ===== verification/Requests.v ===== *)
(** The requests that wait for their owner
    ([backend/app/services/authorization_requests.py]): listing, expiry, approval
    and rejection, each with its log row and its notification. *)
From Stdlib Require Import Ascii.
From S2P Require Import Prelude.
From S2P Require Import PyStr.
From S2P Require Import PyFloat.
From S2P Require Import PyVal.
From S2P Require Import PyDecimal.
From S2P Require Import Models.
From S2P Require Import Store.
From S2P Require Import Samples.
From S2P Require Import Permissions.
From S2P Require Import Notifications.
From S2P Require Import Authorization.

Local Open Scope string_scope.
Local Open Scope Z_scope.

Module Requests.
Import Permissions Notifications Authorization.

Section requests.
Context `{Entropy} `{SecuritySinks}.

(** ** The final decision *)

Definition status_decision (s : AuthorizationRequestStatus) : AuditDecision :=
  if eqb s ReqApproved then AuditApproved else AuditRejected.

(** The row leaves the environment, the delegation and its parent agent to the
    column defaults. *)
Definition final_log (record : AuthorizationRequestRecord) (agent : Agent) (decision : AuditDecision)
    (reason : string) (id : uuid) (now : time) : AuditLog :=
  {| al_id := id; al_request_id := ar_request_id record; al_environment := "production";
     al_user_id := ar_user_id record; al_organization_id := ag_organization_id agent;
     al_agent_id := Some (ar_agent_id record); al_agent_identifier := ag_identifier agent;
     al_permission_id := Some (ar_permission_id record); al_delegation_id := None; al_parent_agent_id := None;
     al_action := ar_action record; al_resource := ar_resource record; al_amount := ar_amount record;
     al_currency := ar_currency record; al_decision := decision; al_reason := reason;
     al_risk_score := ar_risk_score record; al_risk_level := ar_risk_level record;
     al_risk_recommendation := ar_risk_recommendation record;
     al_signature_verified := ar_signature_verified record; al_signing_key_id := ar_signing_key_id record;
     al_signature_version := ar_signature_version record; al_requested_at := ar_created_at record;
     al_created_at := now |}.

Definition _audit_final_decision (record : AuthorizationRequestRecord) (agent : Agent)
    (decision : AuditDecision) (reason : string) : DB unit :=
  id ← fresh_uuid;
  now ← now_db;
  add_audit_log (final_log record agent decision reason id now).

Definition final_notification (record : AuthorizationRequestRecord) (agent : Agent)
    (status : AuthorizationRequestStatus) : notification_args :=
  let approved := eqb status ReqApproved in
  let amount := amount_text (ar_amount record) (ar_currency record) in
  {| na_user_id := ar_user_id record;
     na_type := if approved then AUTHORIZATION_APPROVED else AUTHORIZATION_REJECTED;
     na_title := if approved then "Action Approved" else "Action Rejected";
     na_message :=
       if approved then
         ag_name agent +:+ " was approved to " +:+ ar_action record +:+ " " +:+ ar_resource record +:+ amount +:+ "."
       else
         ag_name agent +:+ " request to " +:+ ar_action record +:+ " " +:+ ar_resource record +:+ amount +:+
         " was rejected.";
     na_priority := PrioNormal; na_organization_id := ag_organization_id agent;
     na_related_request_id := Some (ar_id record); na_related_agent_id := Some (ar_agent_id record);
     na_related_permission_id := Some (ar_permission_id record);
     na_metadata := Some [("request_id", VStr (ar_request_id record))];
     na_deduplication_key := Some ("authorization-final:" +:+ uuid_str (ar_id record)) |}.

(** [record.agent] and [record.permission] are the rows its keys name. *)
Definition agent_of (r : AuthorizationRequestRecord) : DB Agent :=
  get_or (λ t, agents t !! ar_agent_id r) (PyError AttributeError).
Definition permission_of (r : AuthorizationRequestRecord) : DB Permission :=
  get_or (λ t, permissions t !! ar_permission_id r) (PyError AttributeError).

(** The updated row must satisfy the constraints of its table. *)
Definition _finalize (record : AuthorizationRequestRecord) (status : AuthorizationRequestStatus)
    (reason : string) (decided_at : time) : DB AuthorizationRequestRecord :=
  let record := set_ar_decision status reason (Some decided_at) record in
  agent ← agent_of record;
  insert_checked (λ _, request_checks record) (upd_requests <[ar_id record := record]>) ;;
  _audit_final_decision record agent (status_decision status) reason ;;
  create_notification (final_notification record agent status) ;;
  mret record.

(** ** Scope and expiry *)

(** The requests a caller may see: those of the organization's agents, or their
    own for their personal agents. *)
Definition in_owner_scope (t : tables) (owner_id : uuid) (organization_id : option uuid)
    (r : AuthorizationRequestRecord) : bool :=
  match organization_id with
  | Some o => existsb (λ a, eqb (ag_organization_id a) (Some o) && eqb (ag_id a) (ar_agent_id r)) (rows (agents t))
  | None => eqb (ar_user_id r) owner_id &&
      existsb (λ a, eqb (ag_owner_id a) owner_id && negb (is_some (ag_organization_id a)) &&
        eqb (ag_id a) (ar_agent_id r)) (rows (agents t))
  end.

Definition overdue (t : tables) (owner_id : uuid) (checked_at : time) (organization_id : option uuid)
    (r : AuthorizationRequestRecord) : bool :=
  in_owner_scope t owner_id organization_id r && eqb (ar_status r) ReqPending && (ar_expires_at r <=? checked_at).

Definition _expire_records (owner_id : uuid) (checked_at : time) (organization_id : option uuid) : DB unit :=
  records ← query (λ t, select_rows (overdue t owner_id checked_at organization_id) (requests t));
  for_each (λ r, _finalize r ReqExpired "Request expired" checked_at ;; mret tt) records ;;
  match records with [] => mret tt | _ => commit end.

(** ** Listing *)

Record AuthorizationRequestFilters : Type := MkRequestFilters {
  rf_status : option AuthorizationRequestStatus;
  rf_page : Z;
  rf_page_size : Z
}.

Definition listed (t : tables) (owner_id : uuid) (organization_id : option uuid)
    (f : AuthorizationRequestFilters) (r : AuthorizationRequestRecord) : bool :=
  in_owner_scope t owner_id organization_id r &&
  match rf_status f with Some s => eqb (ar_status r) s | None => true end.

Definition list_owned_requests (owner_id : uuid) (f : AuthorizationRequestFilters) (organization_id : option uuid)
    (now_utc : time) : DB (list AuthorizationRequestRecord * Z * Z) :=
  _expire_records owner_id now_utc organization_id ;;
  query (λ t,
    let found := order_desc ar_created_at ar_id (select_rows (listed t owner_id organization_id f) (requests t)) in
    let total := Z.of_nat (count_where (listed t owner_id organization_id f) (rows (requests t))) in
    (page_of (rf_page f) (rf_page_size f) found, total, total_pages total (rf_page_size f))).

Definition owned_request (owner_id request_id : uuid) (organization_id : option uuid) (t : tables)
    : option AuthorizationRequestRecord :=
  scalar (λ r, eqb (ar_id r) request_id && in_owner_scope t owner_id organization_id r) (requests t).

Definition get_owned_request (owner_id request_id : uuid) (organization_id : option uuid) (now_utc : time)
    : DB (option AuthorizationRequestRecord) :=
  _expire_records owner_id now_utc organization_id ;;
  query (owned_request owner_id request_id organization_id).

(** ** Deciding *)

Definition _validate_for_approval (record : AuthorizationRequestRecord) (agent : Agent) (permission : Permission)
    (checked_at : time) : option string :=
  if negb (eqb (ag_status agent) ACTIVE) then Some "Agent is not active"
  else if eqb (pm_status permission) PermRevoked then Some "Permission revoked"
  else if negb (eqb (pm_status permission) PermActive) || (pm_expires_at permission <=? checked_at) then
    Some "Permission expired"
  else if checked_at <? pm_valid_from permission then Some "Permission has not started"
  else if negb (eqb (pm_agent_id permission) (ar_agent_id record)) then
    Some "Permission is not valid for this request"
  else if negb (eqb (pm_action permission) (ar_action record)) then Some "Action not permitted"
  else if negb (eqb (pm_resource permission) (ar_resource record)) then Some "Resource not permitted"
  else match ar_amount record, pm_maximum_amount permission with
  | None, None => None
  | None, Some _ => Some "Amount is required for this permission"
  | Some _, None => Some "Permission does not allow an amount"
  | Some amount, Some limit =>
      if negb (eqb (pm_currency permission) (ar_currency record)) then Some "Currency does not match"
      else if dec_ltb limit amount then Some "Amount exceeds allowed limit"
      else None
  end.

(** The status and the reason of a decision by the owner. *)
Definition owner_decision (record : AuthorizationRequestRecord) (approve : bool) (checked_at : time)
    : DB (AuthorizationRequestStatus * string) :=
  if approve then
    agent ← agent_of record;
    permission ← permission_of record;
    mret match _validate_for_approval record agent permission checked_at with
    | None => (ReqApproved, "Approved by user")
    | Some validation_error => (ReqRejected, validation_error)
    end
  else mret (ReqRejected, "Rejected by user").

Definition decide_owned_request (owner_id request_id : uuid) (approve : bool) (checked_at : time)
    (organization_id : option uuid) : DB AuthorizationRequestRecord :=
  found ← query (owned_request owner_id request_id organization_id);
  match found with
  | None => throw RequestNotFound
  | Some record =>
      raise_if (negb (eqb (ar_status record) ReqPending)) RequestAlreadyDecided ;;
      if ar_expires_at record <=? checked_at then
        _finalize record ReqExpired "Request expired" checked_at ;;
        commit ;;
        throw RequestExpired
      else
        decision ← owner_decision record approve checked_at;
        record ← _finalize record decision.1 decision.2 checked_at;
        commit ;;
        mret record
  end.

End requests.
End Requests.
