(* ===== verification/CrossOrg.v ===== *)
(** Requests between organizations
    ([backend/app/services/cross_org_authorization.py] and the handlers of
    [api/cross_org_requests.py]): the evaluation of a signed request of an agent of
    one organization to an agent of another, its idempotency, the decisions of both
    sides, and the audit entries. *)
From Stdlib Require Import Ascii.
From S2P Require Import Prelude.
From S2P Require Import PyStr.
From S2P Require Import PyFloat.
From S2P Require Import PyVal.
From S2P Require Import PyDecimal.
From S2P Require Import AplParser.
From S2P Require Import Models.
From S2P Require Import PyTime.
From S2P Require Import Schemas.
From S2P Require Import PyNet.
From S2P Require Import Canonical.
From S2P Require Import Store.
From S2P Require Import SecurityEvents.
From S2P Require Import Workspace.
From S2P Require Import Trust.
From S2P Require Import Signing.
From S2P Require Import ApiKeys.
From S2P Require Import Authorization.

Local Open Scope string_scope.
Local Open Scope Z_scope.

Module CrossOrg.
Import SecurityEvents Workspace Canonical Trust Signing ApiKeys.

Definition EXPIRY_WINDOW : time := 24 * hour.

Definition upd_xrequests f : tables → tables := upd_federation (on_xrequests f).
Definition upd_xapprovals f : tables → tables := upd_federation (on_xapprovals f).
Definition xrequest_table (t : tables) : gmap uuid CrossOrganizationRequest := xrequests (federation t).
Definition xapproval_table (t : tables) : gmap uuid CrossOrganizationApproval := xapprovals (federation t).

(** ** The body of a request *)

Record CrossOrgAuthorizePayload : Type := MkCrossPayload {
  xp_source_organization_id : option uuid;
  xp_target_organization_id : uuid;
  xp_source_agent_id : string;
  xp_target_agent_id : string;
  xp_action : string;
  xp_resource : string;
  xp_amount : option dec;
  xp_currency : option string;
  xp_delegation_id : option string
}.
Definition validate_CrossOrgAuthorizePayload (p : CrossOrgAuthorizePayload) : option CrossOrgAuthorizePayload :=
  let p := MkCrossPayload (xp_source_organization_id p) (xp_target_organization_id p) (xp_source_agent_id p)
    (xp_target_agent_id p) (normalize_capability (xp_action p)) (normalize_capability (xp_resource p)) (xp_amount p)
    (normalize_currency <$> xp_currency p) (xp_delegation_id p) in
  if negb (not_empty (xp_source_agent_id p) && fits 255 (xp_source_agent_id p) &&
           not_empty (xp_target_agent_id p) && fits 255 (xp_target_agent_id p) &&
           bounded_fields (xp_action p) (xp_resource p) (xp_amount p) (xp_currency p) &&
           opt_check (is_token "dlg_") (xp_delegation_id p)) then None
  else if negb (same_null (xp_amount p) (xp_currency p)) then None
  else Some p.

Record CrossOrgAuthorizeResponse : Type := MkCrossResponse {
  xs_request_id : string;
  xs_status : CrossOrgRequestStatus;
  xs_reason : string;
  xs_risk_level : option string;
  xs_risk_score : option Z;
  xs_pending_approvals : list string
}.

(** A text that is absent or empty is none. *)
Definition given (text : option string) : option string :=
  match text with Some k => if eqb k "" then None else Some k | None => None end.
Definition or_none (o : option string) : string := match o with Some s => s | None => "None" end.

(** ** Agents *)

Definition _find_agent (ident_or_id : string) (t : tables) : option Agent :=
  match (id ← py_uuid ident_or_id; agents t !! id) with
  | Some a => Some a
  | None => scalar (λ a, eqb (ag_identifier a) ident_or_id) (agents t)
  end.

(** ** The conditions of a request

    Each step refuses a request with the reason it answers, or lets it through. *)

Section conditions.
Context (payload : CrossOrgAuthorizePayload) (now : time).

(** Step 5.  The chain of a delegation is verified with keyword arguments that
    [verify_delegation_chain] does not have: the call raises [TypeError], which the
    clause around it turns into a refusal. *)
Definition source_permission (source : uuid) (t : tables) : option Permission :=
  scalar (λ p, eqb (pm_agent_id p) source && eqb (pm_action p) (xp_action payload) &&
    eqb (pm_resource p) (xp_resource payload) && eqb (pm_status p) PermActive) (permissions t).
Definition verify_with_unknown_arguments : result PyExc unit := Err TypeError.
Definition source_grants (source : uuid) (t : tables) : result string (option Permission) :=
  let found := source_permission source t in
  if match found with Some p => permission_is_usable p now | None => false end then Ok found
  else match given (xp_delegation_id payload) with
       | Some _ =>
           match verify_with_unknown_arguments with
           | Ok _ => Ok found
           | Err _ => Err "SOURCE_PERMISSION_DENIED: Invalid delegation chain"
           end
       | None => Err "SOURCE_PERMISSION_DENIED: Source agent lacks permission for this action/resource"
       end.

(** Step 6. *)
Definition trust_refusal (tr : OrganizationTrustRelationship) : option string :=
  if eqb (tr_status tr) TrPending then Some "TRUST_PENDING: Trust relationship is awaiting target acceptance"
  else if eqb (tr_status tr) TrRevoked then Some "TRUST_REVOKED: Trust relationship has been revoked"
  else if eqb (tr_status tr) TrExpired || past (tr_expires_at tr) now then
    Some "TRUST_EXPIRED: Trust relationship has expired"
  else if negb (eqb (tr_status tr) TrActive) then
    Some ("TRUST_SUSPENDED: Trust relationship status is '" +:+ TrustStatus_value (tr_status tr) +:+ "'")
  else None.

(** Steps 8 and 9: the lists and the limit of a policy; an empty list allows everything. *)
Definition listed (l : list string) (x : string) : bool :=
  match l with [] => true | _ => existsb (eqb x) l end.
Definition over_limit (max : option dec) (currency : option string) : bool :=
  match max with
  | None => false
  | Some m =>
      match xp_amount payload with
      | None => true
      | Some a => dec_ltb m a || negb (eqb (xp_currency payload) currency)
      end
  end.
Definition trust_policy_refusal (p : OrganizationTrustPolicy) : option string :=
  if negb (listed (tp_allowed_actions p) (xp_action payload)) then
    Some "CROSS_ORG_ACTION_NOT_ALLOWED: Action not permitted by trust policy"
  else if negb (listed (tp_allowed_resources p) (xp_resource payload)) then
    Some "CROSS_ORG_RESOURCE_NOT_ALLOWED: Resource not permitted by trust policy"
  else if over_limit (tp_max_amount p) (tp_currency p) then
    Some "CROSS_ORG_AMOUNT_EXCEEDED: Amount exceeds trust policy limit"
  else None.
Definition target_policy_refusal (p : TargetOrganizationPolicy) : option string :=
  if negb (listed (gt_allowed_actions p) (xp_action payload)) then
    Some "TARGET_POLICY_DENIED: Action not accepted by target organization"
  else if negb (listed (gt_allowed_resources p) (xp_resource payload)) then
    Some "TARGET_POLICY_DENIED: Resource not accepted by target organization"
  else if over_limit (gt_max_amount p) (gt_currency p) then
    Some "CROSS_ORG_AMOUNT_EXCEEDED: Amount exceeds target organization limit"
  else None.

(** Step 10: the limit of the permission, its currency left aside. *)
Definition source_limit_refusal (p : option Permission) : option string :=
  match p with
  | Some p =>
      match pm_maximum_amount p, xp_amount payload with
      | Some m, Some a =>
          if negb (coef a =? 0) && dec_ltb m a then Some "SOURCE_PERMISSION_DENIED: Amount exceeds source permission limit"
          else None
      | _, _ => None
      end
  | None => None
  end.

(** Step 11. *)
Definition reaches (threshold : option dec) : bool :=
  match threshold with
  | None => true
  | Some th => match xp_amount payload with Some a => negb (coef a =? 0) && dec_leb th a | None => false end
  end.
Definition asks (p : OrganizationTrustPolicy) (types : list string) : bool :=
  tp_require_human_approval p && reaches (tp_approval_threshold p) && existsb (eqb (tp_approval_type p)) types.
Definition requires_source_approval (perm : option Permission) (tp : option OrganizationTrustPolicy) : bool :=
  match perm with Some p => pm_requires_approval p | None => false end ||
  match tp with Some p => asks p ["SOURCE_APPROVAL"; "BOTH_APPROVAL"] | None => false end.
Definition requires_target_approval (tp : option OrganizationTrustPolicy) (gt : option TargetOrganizationPolicy) : bool :=
  match tp with Some p => asks p ["TARGET_APPROVAL"; "BOTH_APPROVAL"] | None => false end ||
  match gt with Some p => gt_require_human_approval p && reaches (gt_approval_threshold p) | None => false end.

(** Steps 5 to 11 on the tables: a refusal with what had been found by then, or the
    relationship, the connection and who has to approve. *)
Inductive verdict : Type :=
  | Refused (reason : string) (trust connection : option uuid)
  | Let_through (trust connection : uuid) (by_source by_target : bool).
Definition refused_or (refusal : option string) (trust connection : option uuid) (k : verdict) : verdict :=
  match refusal with Some reason => Refused reason trust connection | None => k end.
Definition evaluate_request (source target source_org target_org : uuid) (t : tables) : verdict :=
  match source_grants source t with
  | Err reason => Refused reason None None
  | Ok perm =>
      match scalar (between source_org target_org) (trusts (federation t)) with
      | None => Refused "TRUST_NOT_FOUND: No trust relationship exists between these organizations" None None
      | Some tr =>
          refused_or (trust_refusal tr) (Some (tr_id tr)) None
          match scalar (connects (tr_id tr) source target) (connections (federation t)) with
          | Some c =>
              if connection_is_usable c now then
                let tp := policy_of (tr_id tr) t in
                let gt := inbound_policy target_org t in
                refused_or (p ← tp; trust_policy_refusal p) (Some (tr_id tr)) (Some (ec_id c))
                (refused_or (p ← gt; target_policy_refusal p) (Some (tr_id tr)) (Some (ec_id c))
                (refused_or (source_limit_refusal perm) (Some (tr_id tr)) (Some (ec_id c))
                (Let_through (tr_id tr) (ec_id c) (requires_source_approval perm tp) (requires_target_approval tp gt))))
              else Refused "EXTERNAL_AGENT_CONNECTION_NOT_FOUND: No active connection between these agents"
                     (Some (tr_id tr)) None
          | None => Refused "EXTERNAL_AGENT_CONNECTION_NOT_FOUND: No active connection between these agents"
                      (Some (tr_id tr)) None
          end
      end
  end.
End conditions.

(** ** Rows *)

Definition new_xrequest_ok (r : CrossOrganizationRequest) (t : tables) : bool :=
  negb (is_some (xrequest_table t !! xr_id r)) &&
  negb (is_some (scalar (λ b, eqb (xr_request_id b) (xr_request_id r)) (xrequest_table t))) &&
  opt_check dec_pos (xr_amount r) && opt_check (fits 255) (xr_decision_reason r) &&
  opt_check (fits 128) (xr_idempotency_key r).
Definition add_xrequest (r : CrossOrganizationRequest) : DB unit :=
  insert_checked (new_xrequest_ok r) (upd_xrequests <[xr_id r := r]>).
Definition new_xapproval_ok (a : CrossOrganizationApproval) (t : tables) : bool :=
  let taken b := eqb (xa_cross_org_request_id b) (xa_cross_org_request_id a) &&
    eqb (xa_organization_id b) (xa_organization_id a) && eqb (xa_approval_stage b) (xa_approval_stage a) in
  negb (is_some (xapproval_table t !! xa_id a)) && negb (is_some (scalar taken (xapproval_table t))).
Definition add_xapproval (a : CrossOrganizationApproval) : DB unit :=
  insert_checked (new_xapproval_ok a) (upd_xapprovals <[xa_id a := a]>).

Definition set_xrequest (st : CrossOrgRequestStatus) (reason : string) (completed : option time)
    (r : CrossOrganizationRequest) : CrossOrganizationRequest :=
  MkCrossRequest (xr_id r) (xr_request_id r) (xr_trust_relationship_id r) (xr_connection_id r)
    (xr_source_organization_id r) (xr_target_organization_id r) (xr_source_agent_id r) (xr_target_agent_id r)
    (xr_action r) (xr_resource r) (xr_amount r) (xr_currency r) st (Some reason) (xr_risk_level r) (xr_risk_score r)
    (xr_idempotency_key r) (xr_idempotency_hash r) (xr_created_at r) (xr_expires_at r) completed.
Definition save_xrequest (r : CrossOrganizationRequest) : DB unit :=
  insert_checked (λ _, opt_check (fits 255) (xr_decision_reason r)) (upd_xrequests <[xr_id r := r]>).
Definition set_xapproval (st : ApprovalStatus) (user : uuid) (now : time) (reason : option string)
    (a : CrossOrganizationApproval) : CrossOrganizationApproval :=
  MkApproval (xa_id a) (xa_cross_org_request_id a) (xa_organization_id a) (xa_approval_stage a) (xa_required_role a) st
    (Some user) (Some now) reason.
Definition save_xapproval (a : CrossOrganizationApproval) : DB unit :=
  insert_checked (λ _, opt_check (fits 255) (xa_reason a)) (upd_xapprovals <[xa_id a := a]>).

Section service.
Context `{Entropy} `{Loaders} `{Ed25519} `{SecuritySinks}.

Definition _compute_payload_hash (p : CrossOrgAuthorizePayload) : string :=
  sha256_hex (String.concat ":" [xp_source_agent_id p; uuid_str (xp_target_organization_id p); xp_target_agent_id p;
    xp_action p; xp_resource p; or_none (dec_str <$> xp_amount p); or_none (xp_currency p); or_none (xp_delegation_id p)]).

(** A row with the fields of the payload. *)
Definition xrequest_for (id : uuid) (request_id : string) (trust : uuid) (connection : option uuid) (sorg torg source target : uuid)
    (payload : CrossOrgAuthorizePayload) (st : CrossOrgRequestStatus) (reason : string) (key hash : option string)
    (created : time) (expires completed : option time) : CrossOrganizationRequest :=
  MkCrossRequest id request_id trust connection sorg torg source target (xp_action payload) (xp_resource payload)
    (numeric4 <$> xp_amount payload) (xp_currency payload) st (Some reason) None None key hash created expires completed.

(** The row of a refusal needs a relationship to refer to; without one nothing is stored. *)
Definition _record_and_return_rejection (sorg torg source target : uuid) (payload : CrossOrgAuthorizePayload)
    (reason : string) (trust connection : option uuid) (key hash : option string) : DB CrossOrgAuthorizeResponse :=
  now ← now_db;
  request_id ← match trust with
    | Some trust =>
        id ← fresh_uuid;
        token ← fresh_token;
        add_xrequest (xrequest_for id ("xreq_" +:+ token) trust connection sorg torg source target payload XrRejected reason
          key hash now None (Some now)) ;;
        commit ;;
        mret ("xreq_" +:+ token)
    | None => mret ("xreq_denied_" +:+ str_take 16 (sha256_hex (isoformat now)))
    end;
  mret (MkCrossResponse request_id XrRejected reason None None []).

Definition dual_log (request_id : string) (id : uuid) (org : uuid) (agent : Agent) (payload : CrossOrgAuthorizePayload)
    (decision : AuditDecision) (reason : string) (now : time) : AuditLog :=
  {| al_id := id; al_request_id := request_id; al_environment := "production"; al_user_id := ag_owner_id agent;
     al_organization_id := Some org; al_agent_id := Some (ag_id agent); al_agent_identifier := ag_identifier agent;
     al_permission_id := None; al_delegation_id := None; al_parent_agent_id := None;
     al_action := xp_action payload; al_resource := xp_resource payload;
     al_amount := numeric4 <$> xp_amount payload; al_currency := xp_currency payload;
     al_decision := decision; al_reason := str_take 255 reason; al_risk_score := None; al_risk_level := None;
     al_risk_recommendation := None; al_signature_verified := true; al_signing_key_id := None;
     al_signature_version := Some "v2"; al_requested_at := now; al_created_at := now |}.
Definition _record_dual_audit_logs (sorg torg : uuid) (source target : Agent) (payload : CrossOrgAuthorizePayload)
    (decision : AuditDecision) (reason : string) : DB unit :=
  now ← now_db;
  token ← fresh_token;
  id ← fresh_uuid;
  Authorization.add_audit_log (dual_log ("req_" +:+ token) id sorg source payload decision
    ("Outbound cross-org request to " +:+ ag_name target +:+ ": " +:+ reason) now) ;;
  token ← fresh_token;
  id ← fresh_uuid;
  Authorization.add_audit_log (dual_log ("req_" +:+ token) id torg target payload decision
    ("Inbound cross-org request from " +:+ ag_name source +:+ ": " +:+ reason) now).

Definition add_stage (request org : uuid) (stage : ApprovalStage) : DB unit :=
  id ← fresh_uuid;
  add_xapproval (MkApproval id request org stage "admin" ApPending None None None).

(** Steps 12 and 13: the row, the stages that have to approve it, and an audit entry on
    each side; a request that waits is logged as rejected. *)
Definition complete_request (sorg torg : uuid) (source target : Agent) (payload : CrossOrgAuthorizePayload)
    (trust connection : uuid) (by_source by_target : bool) (key hash : option string) : DB CrossOrgAuthorizeResponse :=
  now ← now_db;
  let pending := by_source || by_target in
  let st := if pending then XrPending else XrApproved in
  let reason := if pending then "Awaiting required human approval" else "Approved by cross-organization policy" in
  id ← fresh_uuid;
  token ← fresh_token;
  add_xrequest (xrequest_for id ("xreq_" +:+ token) trust (Some connection) sorg torg (ag_id source) (ag_id target) payload st
    reason key hash now (Some (now + EXPIRY_WINDOW)) (if pending then None else Some now)) ;;
  (if by_source then add_stage id sorg SOURCE else mret tt) ;;
  (if by_target then add_stage id torg TARGET else mret tt) ;;
  _record_dual_audit_logs sorg torg source target payload (if pending then AuditRejected else AuditApproved) reason ;;
  commit ;;
  mret (MkCrossResponse ("xreq_" +:+ token) st reason None None
    ((if by_source then ["SOURCE"] else []) ++ (if by_target then ["TARGET"] else [])))%list.

Definition with_key (sorg : uuid) (key : string) (r : CrossOrganizationRequest) : bool :=
  eqb (xr_source_organization_id r) sorg && eqb (xr_idempotency_key r) (Some key).
Definition stored_request (sorg : uuid) (key : option string) (t : tables) : option CrossOrganizationRequest :=
  k ← given key; scalar (with_key sorg k) (xrequest_table t).
Definition idempotency_conflict : Exc :=
  HTTPException 409 "CROSS_ORG_IDEMPOTENCY_CONFLICT: Idempotency key already used with different request parameters".
Definition replay_response (r : CrossOrganizationRequest) : CrossOrgAuthorizeResponse :=
  MkCrossResponse (xr_request_id r) (xr_status r) (Authorization.text_or (xr_decision_reason r) "Idempotent response")
    (xr_risk_level r) (xr_risk_score r) [].

Definition is_active_org (org : uuid) (t : tables) : bool :=
  match organizations (identity t) !! org with Some o => og_is_active o | None => false end.
Definition cross_org_path : string := "/api/v1/cross-org/authorize".

(** Steps 3 to 13, for a request that is not a repetition. *)
Definition evaluate_new_request (settings : signing_settings) (env : replay_env) (payload : CrossOrgAuthorizePayload)
    (headers : string → option string) (body : string) (source target : Agent) (sorg torg : uuid) (key : option string) :
    DB CrossOrgAuthorizeResponse :=
  let hash := Some (_compute_payload_hash payload) in
  try_except (verify_cross_org_request_v2 settings env source target sorg torg headers body "POST" cross_org_path)
    (λ e, match e with
          | SigningError code status => throw (HTTPException status ("CROSS_ORG_SIGNATURE_INVALID: " +:+ code))
          | e => throw e
          end) ;;
  source_ok ← query (is_active_org sorg);
  raise_if (negb source_ok) (HTTPException 400 "Source organization is inactive") ;;
  target_ok ← query (is_active_org torg);
  raise_if (negb target_ok) (HTTPException 400 "Target organization is inactive") ;;
  raise_if (negb (eqb (ag_status source) ACTIVE)) (HTTPException 400 "Source agent is not active") ;;
  raise_if (negb (eqb (ag_status target) ACTIVE)) (HTTPException 400 "Target agent is not active") ;;
  now ← now_db;
  v ← query (evaluate_request payload now (ag_id source) (ag_id target) sorg torg);
  match v with
  | Refused reason trust connection =>
      _record_and_return_rejection sorg torg (ag_id source) (ag_id target) payload reason trust connection key hash
  | Let_through trust connection by_source by_target =>
      complete_request sorg torg source target payload trust connection by_source by_target key hash
  end.

Definition authorize_cross_organization_action (settings : signing_settings) (env : replay_env)
    (payload : CrossOrgAuthorizePayload) (headers : string → option string) (body : string)
    (caller_org_id : option uuid) (idempotency_key : option string) : DB CrossOrgAuthorizeResponse :=
  source ← get_or (_find_agent (xp_source_agent_id payload)) (HTTPException 404 "Source agent not found");
  target ← get_or (_find_agent (xp_target_agent_id payload)) (HTTPException 404 "Target agent not found");
  match ag_organization_id source with
  | None => throw (HTTPException 400 "Source agent must belong to an organization")
  | Some sorg =>
      raise_if (match caller_org_id with Some c => negb (eqb c sorg) | None => false end)
        (HTTPException 403 "Caller organization mismatch with source agent") ;;
      let torg := xp_target_organization_id payload in
      raise_if (negb (eqb (ag_organization_id target) (Some torg)))
        (HTTPException 400 "Target agent does not belong to specified target organization") ;;
      raise_if (eqb sorg torg)
        (HTTPException 400 "Cross-organization authorization cannot be used within the same organization") ;;
      existing ← query (stored_request sorg idempotency_key);
      match existing with
      | Some r =>
          raise_if (negb (eqb (xr_idempotency_hash r) (Some (_compute_payload_hash payload)))) idempotency_conflict ;;
          mret (replay_response r)
      | None => evaluate_new_request settings env payload headers body source target sorg torg idempotency_key
      end
  end.

(** ** Decisions *)

Definition xrequest_by_id (request_id : string) (t : tables) : option CrossOrganizationRequest :=
  scalar (λ r, eqb (xr_request_id r) request_id) (xrequest_table t).
Definition xrequest_not_found : Exc := HTTPException 404 "Cross-organization request not found".
Definition stage_of (request org : uuid) (a : CrossOrganizationApproval) : bool :=
  eqb (xa_cross_org_request_id a) request && eqb (xa_organization_id a) org.
Definition open_stage (request : uuid) (a : CrossOrganizationApproval) : bool :=
  eqb (xa_cross_org_request_id a) request && eqb (xa_status a) ApPending.
Definition ApprovalStatus_value (s : ApprovalStatus) : string :=
  match s with ApPending => "PENDING" | ApApproved => "APPROVED" | ApRejected => "REJECTED" end.

Definition decide_cross_org_approval (request_id : string) (user_id caller_org_id : uuid) (approve : bool)
    (reason : option string) : DB CrossOrganizationRequest :=
  req ← get_or (xrequest_by_id request_id) xrequest_not_found;
  raise_if (negb (eqb (xr_status req) XrPending))
    (HTTPException 400 ("Request is not pending (current status: '" +:+ CrossOrgRequestStatus_value (xr_status req) +:+ "')")) ;;
  approval ← get_or (λ t, scalar (stage_of (xr_id req) caller_org_id) (xapproval_table t))
    (HTTPException 403 "Your organization does not have an active approval requirement for this request");
  raise_if (negb (eqb (xa_status approval) ApPending))
    (HTTPException 400 ("Your organization has already decided this approval (" +:+ ApprovalStatus_value (xa_status approval) +:+ ")")) ;;
  now ← now_db;
  let decision := if approve then ApApproved else ApRejected in
  save_xapproval (set_xapproval decision user_id now reason approval) ;;
  req ← (if negb approve then
           let r := set_xrequest XrRejected ("Rejected by " +:+ ApprovalStage_value (xa_approval_stage approval) +:+
             " organization: " +:+ Authorization.text_or reason "Denied") (Some now) req in
           save_xrequest r ;; mret r
         else
           remaining ← query (λ t, scalar (open_stage (xr_id req)) (xapproval_table t));
           if is_some remaining then mret req
           else
             let r := set_xrequest XrApproved "All required cross-organization approvals received" (Some now) req in
             save_xrequest r ;; mret r);
  commit ;;
  record_event (event_args ("cross_org_approval_" +:+ py_lower (ApprovalStatus_value decision)) (Some user_id)
    (Some caller_org_id) None
    (Some ("Decided " +:+ ApprovalStage_value (xa_approval_stage approval) +:+ " approval for cross-org request " +:+
       request_id +:+ ": " +:+ ApprovalStatus_value decision)) "info"
    [("request_id", VStr request_id); ("decision", VStr (ApprovalStatus_value decision)); ("reason", opt_str reason)]) true ;;
  mret req.

(** ** Handlers *)

Definition cross_org_authorize (settings : signing_settings) (env : replay_env) (payload : CrossOrgAuthorizePayload)
    (headers : string → option string) (body : string) (api_key idempotency_key : option string) :
    DB CrossOrgAuthorizeResponse :=
  caller_org_id ← match given api_key with
    | Some raw =>
        principal ← authenticate_api_key raw;
        match principal with
        | Some p => mret (ak_organization_id (dp_api_key p))
        | None => throw (PyError AttributeError)
        end
    | None => mret None
    end;
  authorize_cross_organization_action settings env payload headers body caller_org_id idempotency_key.

Definition in_direction (org : uuid) (direction : string) (status_filter : option CrossOrgRequestStatus)
    (r : CrossOrganizationRequest) : bool :=
  (if eqb direction "inbound" then eqb (xr_target_organization_id r) org
   else if eqb direction "outbound" then eqb (xr_source_organization_id r) org
   else eqb (xr_source_organization_id r) org || eqb (xr_target_organization_id r) org) &&
  opt_check (eqb (xr_status r)) status_filter.

(** [_populate_detail]: the row, the names of both sides, and the stages. *)
Record CrossOrgRequestDetail : Type := MkCrossDetail {
  xd_request : CrossOrganizationRequest;
  xd_source_organization_name : option string;
  xd_target_organization_name : option string;
  xd_source_agent : option (string * string);
  xd_target_agent : option (string * string);
  xd_approvals : list CrossOrganizationApproval
}.
Definition _populate_detail (r : CrossOrganizationRequest) (t : tables) : CrossOrgRequestDetail :=
  let agent_names id := (λ a, (ag_identifier a, ag_name a)) <$> agents t !! id in
  MkCrossDetail r (og_name <$> organizations (identity t) !! xr_source_organization_id r)
    (og_name <$> organizations (identity t) !! xr_target_organization_id r)
    (agent_names (xr_source_agent_id r)) (agent_names (xr_target_agent_id r))
    (select_rows (λ a, eqb (xa_cross_org_request_id a) (xr_id r)) (xapproval_table t)).

Definition list_requests (w : WorkspaceContext) (direction : string) (status_filter : option CrossOrgRequestStatus) :
    DB (list CrossOrgRequestDetail) :=
  with_organization w "read" (λ org,
    found ← query (λ t, take 100 (order_desc xr_created_at xr_id
      (select_rows (in_direction org direction status_filter) (xrequest_table t))));
    query (λ t, map (λ r, _populate_detail r t) found)).
Definition get_request_detail (w : WorkspaceContext) (request_id : string) : DB CrossOrgRequestDetail :=
  with_organization w "read" (λ org,
    r ← get_or (xrequest_by_id request_id) xrequest_not_found;
    raise_if (negb (eqb (xr_source_organization_id r) org) && negb (eqb (xr_target_organization_id r) org)) xrequest_not_found ;;
    query (_populate_detail r)).
Definition decide_request (approve : bool) (w : WorkspaceContext) (request_id : string) (reason : option string) :
    DB CrossOrgRequestDetail :=
  with_organization w "manage_permissions" (λ org,
    r ← decide_cross_org_approval request_id (wc_user_id w) org approve reason;
    query (_populate_detail r)).
Definition approve_request : WorkspaceContext → string → option string → DB CrossOrgRequestDetail := decide_request true.
Definition reject_request : WorkspaceContext → string → option string → DB CrossOrgRequestDetail := decide_request false.
End service.
End CrossOrg.
