(* ===== verification/CrossOrgProps.v ===== *)
(** What requests between organizations guarantee ([CrossOrg]): the conditions of an
    approval, the agreement between a request and the stages that have to approve it,
    and the meaning of an idempotency key. *)
From Stdlib Require Import Ascii.
From S2P Require Import Prelude.
From S2P Require Import PyStr.
From S2P Require Import PyFloat.
From S2P Require Import PyVal.
From S2P Require Import PyDecimal.
From S2P Require Import AplParser.
From S2P Require Import Models.
From S2P Require Import Canonical.
From S2P Require Import Store.
From S2P Require Import Samples.
From S2P Require Import SecurityEvents.
From S2P Require Import Soc.
From S2P Require Import SocProps.
From S2P Require Import Workspace.
From S2P Require Import Trust.
From S2P Require Import TrustProps.
From S2P Require Import Signing.
From S2P Require Import SigningProps.
From S2P Require Import Frames.
From S2P Require Import ApiKeys.
From S2P Require Import Authorization.
From S2P Require Import CrossOrg.

Local Open Scope string_scope.
Local Open Scope Z_scope.

Module CrossOrgProps.
Import SecurityEvents Workspace Canonical Trust Signing SigningProps Frames CrossOrg.

(** ** What an approval means *)

Definition allows (l : list string) (x : string) : Prop := l = [] ∨ x ∈ l.
Definition amount_under (payload : CrossOrgAuthorizePayload) (max : option dec) (currency : option string) : Prop :=
  ∀ m, max = Some m → ∃ a, xp_amount payload = Some a ∧ dec_ltb m a = false ∧ xp_currency payload = currency.

(** The authority of the source agent, the consent of both organizations and the rules
    of both, with nobody's approval required. *)
Definition source_authority (payload : CrossOrgAuthorizePayload) (now : time) (source : uuid) (t : tables) : Prop :=
  ∃ k p, permissions t !! k = Some p ∧ pm_agent_id p = source ∧ pm_action p = xp_action payload ∧
    pm_resource p = xp_resource payload ∧ permission_is_usable p now = true ∧ pm_requires_approval p = false ∧
    ∀ m a, pm_maximum_amount p = Some m → xp_amount payload = Some a → coef a ≠ 0 → dec_ltb m a = false.
Definition consent (payload : CrossOrgAuthorizePayload) (now : time) (source target sorg torg : uuid) (t : tables) : Prop :=
  ∃ k tr j c, trusts (federation t) !! k = Some tr ∧ tr_source_organization_id tr = sorg ∧
    tr_target_organization_id tr = torg ∧ tr_status tr = TrActive ∧ (∀ e, tr_expires_at tr = Some e → now < e) ∧
    connections (federation t) !! j = Some c ∧ ec_trust_relationship_id c = tr_id tr ∧ ec_source_agent_id c = source ∧
    ec_target_agent_id c = target ∧ connection_is_usable c now = true ∧
    ∀ p, policy_of (tr_id tr) t = Some p →
      allows (tp_allowed_actions p) (xp_action payload) ∧ allows (tp_allowed_resources p) (xp_resource payload) ∧
      amount_under payload (tp_max_amount p) (tp_currency p) ∧
      asks payload p ["SOURCE_APPROVAL"; "TARGET_APPROVAL"; "BOTH_APPROVAL"] = false.
Definition inbound_rules (payload : CrossOrgAuthorizePayload) (torg : uuid) (t : tables) : Prop :=
  ∀ p, inbound_policy torg t = Some p →
    allows (gt_allowed_actions p) (xp_action payload) ∧ allows (gt_allowed_resources p) (xp_resource payload) ∧
    amount_under payload (gt_max_amount p) (gt_currency p) ∧
    (gt_require_human_approval p && reaches payload (gt_approval_threshold p)) = false.

Lemma listed_allows l x : listed l x = true → allows l x.
Proof.
  unfold listed, allows. destruct l as [|y l]; [by left|].
  intros (z & Hz & He)%existsb_exists. apply (proj1 (eqb_true _ _)) in He as ->. right. by apply list_elem_of_In.
Qed.
Lemma over_limit_under payload max currency : over_limit payload max currency = false → amount_under payload max currency.
Proof.
  unfold over_limit, amount_under. intros Hl m ->. destruct (xp_amount payload) as [a|]; [|done].
  apply orb_false_iff in Hl as [Ha Hc]. apply negb_false_iff in Hc. apply (proj1 (eqb_true _ _)) in Hc. by exists a.
Qed.
Lemma asks_false payload p : asks payload p ["SOURCE_APPROVAL"; "BOTH_APPROVAL"] = false →
  asks payload p ["TARGET_APPROVAL"; "BOTH_APPROVAL"] = false →
  asks payload p ["SOURCE_APPROVAL"; "TARGET_APPROVAL"; "BOTH_APPROVAL"] = false.
Proof.
  unfold asks. cbn [existsb]. destruct (tp_require_human_approval p && reaches payload _); [|done].
  cbn [andb]. rewrite !orb_false_iff. tauto.
Qed.

Ltac refusal Hr := unfold refused_or at 1; lazymatch goal with |- context [match ?o with Some _ => Refused _ _ _ | None => _ end] =>
  destruct o eqn:Hr; [done|] end.
Ltac step_false H := lazymatch type of H with (if ?b then Some _ else _) = None => let Hb := fresh "Hb" in destruct b eqn:Hb; [done|] end.

Lemma let_through_sound payload now source target sorg torg t trust connection :
  evaluate_request payload now source target sorg torg t = Let_through trust connection false false →
  source_authority payload now source t ∧ consent payload now source target sorg torg t ∧ inbound_rules payload torg t.
Proof.
  unfold evaluate_request, source_grants. cbv zeta.
  destruct (source_permission payload source t) as [p|] eqn:Hp; [|by destruct (given _)].
  destruct (permission_is_usable p now) eqn:Hu; [|by destruct (given _)].
  unfold source_permission in Hp. apply scalar_Some in Hp as (k & Hk & Hmatch). reflect.
  destruct (scalar (between sorg torg) _) as [tr|] eqn:Htr; [|done]. apply scalar_Some in Htr as (j & Hj & Hb).
  unfold between in Hb. reflect. refusal Hr1.
  destruct (scalar (connects _ _ _) _) as [c|] eqn:Hc; [|done]. apply scalar_Some in Hc as (i & Hi & Hconn).
  unfold connects in Hconn. reflect.
  destruct (connection_is_usable c now) eqn:Husable; [|done].
  refusal Hr2. refusal Hr3. refusal Hr4. intros [= _ _ Hs Ht].
  unfold requires_source_approval in Hs. unfold requires_target_approval in Ht.
  apply orb_false_iff in Hs as [Hs1 Hs2], Ht as [Ht1 Ht2].
  split_and!.
  - exists k, p. split_and!; try tauto. intros m a Hm Ha Hz. unfold source_limit_refusal in Hr4. rewrite Hm, Ha in Hr4.
    step_false Hr4. apply andb_false_iff in Hb0 as [Hb0|Hb0]; [|done]. apply negb_false_iff, Z.eqb_eq in Hb0. congruence.
  - exists j, tr, i, c. unfold trust_refusal in Hr1. do 4 step_false Hr1. reflect.
    split_and!; try tauto.
    + intros e He. destruct Hb2 as [_ Hb2]. unfold past in Hb2. rewrite He in Hb2. by apply Z.leb_gt in Hb2.
    + intros tp Htp. rewrite Htp in Hr2, Hs2, Ht1. cbn in Hr2. unfold trust_policy_refusal in Hr2. do 3 step_false Hr2.
      split_and!; [by apply listed_allows, negb_false_iff | by apply listed_allows, negb_false_iff | by apply over_limit_under | by apply asks_false].
  - intros gt Hgt. rewrite Hgt in Hr3, Ht2. cbn in Hr3. unfold target_policy_refusal in Hr3. do 3 step_false Hr3.
    split_and!; [by apply listed_allows, negb_false_iff | by apply listed_allows, negb_false_iff | by apply over_limit_under | done].
Qed.

(** ** The signature, and what it leaves alone *)

Section authorize.
Context `{Entropy} `{Loaders} `{Ed25519} `{SecuritySinks}.

Definition signed_v2 (settings : signing_settings) (headers : string → option string) (body : string)
    (source target : Agent) (sorg torg : uuid) (t : tables) (now : time) : Prop :=
  ∃ h, header_values headers = Some h ∧
    genuine settings SIGNATURE_VERSION_V2 (ag_identifier source) (ag_id source) (ag_organization_id source)
      (canonical_cross_org_request_v2 "POST" cross_org_path (uuid_str sorg) (uuid_str torg) (ag_identifier source)
         (ag_identifier target) (sh_key_id h) (sh_timestamp h) (sh_nonce h) body) h t now.

Lemma signature_run settings env source target sorg torg headers body s kid s' : dead s = false →
  verify_cross_org_request_v2 settings env source target sorg torg headers body "POST" cross_org_path s = (Ok kid, s') →
  signed_v2 settings headers body source target sorg torg (cur s) (db_now s) ∧
  dead s' = false ∧ committed s' = cur s' ∧ db_now s' = db_now s ∧
  ∃ l key, cur s' = upd_signing_keys (alter (set_key_used (db_now s)) key) (upd_nonces (λ _, l) (cur s)).
Proof.
  intros Hd. unfold verify_cross_org_request_v2. destruct (header_values headers) as [h|] eqn:Hh; [|done]. intros Hc.
  destruct (check_ok _ _ _ _ _ _ _ _ _ _ _ Hd Hc) as (_ & Hg & s1 & Hrec & _ & Hd' & Hc' & Hn' & key & Hcur).
  destruct (record_ok _ _ _ _ _ _ _ Hd Hrec) as (_ & _ & _ & _ & id & Hnonces).
  split_and!; try done; [by exists h|]. rewrite Hcur, Hnonces. by eexists _, _.
Qed.

(** ** The run of an approval

    One approved row and one entry for each side are added. *)
Definition approved_row (source target : Agent) (sorg torg : uuid) (key hash : option string) (request_id : string)
    (t t' : tables) : Prop :=
  ∃ id row l1 l2, xrequest_table t !! id = None ∧ xrequest_table t' = <[id := row]> (xrequest_table t) ∧
    xr_request_id row = request_id ∧ xr_status row = XrApproved ∧ xr_source_agent_id row = ag_id source ∧
    xr_target_agent_id row = ag_id target ∧ xr_idempotency_key row = key ∧ xr_idempotency_hash row = hash ∧
    audit_logs t' = (audit_logs t ++ [l1; l2])%list ∧ al_organization_id l1 = Some sorg ∧ al_organization_id l2 = Some torg ∧
    al_decision l1 = AuditApproved ∧ al_decision l2 = AuditApproved.

Lemma approve_run sorg torg source target payload trust connection key hash s resp s' : dead s = false →
  complete_request sorg torg source target payload trust connection false false key hash s = (Ok resp, s') →
  approved_row source target sorg torg key hash (xs_request_id resp) (cur s) (committed s').
Proof.
  intros Hd. unfold complete_request, _record_dual_audit_logs, Authorization.add_audit_log, add_xrequest.
  rewrite bind_now, bind_fresh_uuid, bind_fresh_token. cbv zeta. cbn [orb].
  rewrite bind_insert by exact Hd. destruct (new_xrequest_ok _ _) eqn:Hok; [|done].
  assert (Hnew : xrequest_table (cur s) !! uuid4 (seed s) = None).
  { unfold new_xrequest_ok in Hok. cbn [xr_id xrequest_for] in Hok. rewrite !andb_true_iff, negb_true_iff, is_some_false in Hok. apply Hok. }
  rewrite !bind_ret, !bind_assoc, bind_now, !bind_assoc, bind_fresh_token, bind_assoc, bind_fresh_uuid, bind_assoc.
  rewrite bind_insert by exact Hd. destruct (Authorization.audit_ok _ _); [|done].
  rewrite bind_assoc, bind_fresh_token, bind_assoc, bind_fresh_uuid.
  rewrite bind_insert by exact Hd. destruct (Authorization.audit_ok _ _); [|done].
  rewrite bind_commit by exact Hd. intros [= <- <-]. eexists _, _, _, _. split; [exact Hnew|].
  cbn. rewrite <- app_assoc. split_and!; reflexivity.
Qed.

Lemma new_request_sound settings env payload headers body source target sorg torg key s resp s' :
  dead s = false →
  evaluate_new_request settings env payload headers body source target sorg torg key s = (Ok resp, s') →
  xs_status resp = XrApproved →
  let t := cur s in
  signed_v2 settings headers body source target sorg torg t (db_now s) ∧
  is_active_org sorg t = true ∧ is_active_org torg t = true ∧ ag_status source = ACTIVE ∧ ag_status target = ACTIVE ∧
  source_authority payload (db_now s) (ag_id source) t ∧ consent payload (db_now s) (ag_id source) (ag_id target) sorg torg t ∧
  inbound_rules payload torg t ∧
  approved_row source target sorg torg key (Some (_compute_payload_hash payload)) (xs_request_id resp) t (committed s').
Proof.
  intros Hd. unfold evaluate_new_request. cbv zeta. rewrite bind_run. unfold try_except.
  destruct (verify_cross_org_request_v2 _ _ _ _ _ _ _ _ _ _ s) as [[kid|e] s1] eqn:Hv; [|by destruct e].
  apply signature_run in Hv as (Hsig & Hd1 & _ & Hn & l & k & Hcur); [|done].
  rewrite bind_query. pass Ho1. rewrite bind_query. pass Ho2. pass Ha1. pass Ha2.
  rewrite bind_now, bind_query, Hn. destruct (evaluate_request _ _ _ _ _ _ _) as [reason tr c | tr c bs bt] eqn:Hev.
  - unfold _record_and_return_rejection. rewrite bind_now, bind_run.
    lazymatch goal with |- context [match ?m s1 with _ => _ end] => destruct (m s1) as [[id|e] s2]; [|done] end. by intros [= <- _].
  - intros Hrun Hst.
    assert (bs = false ∧ bt = false) as [-> ->].
    { revert Hrun Hst. clear. unfold complete_request. rewrite bind_now, bind_fresh_uuid, bind_fresh_token. cbv zeta.
      intros Hrun. enough (xs_status resp = if bs || bt then XrPending else XrApproved) as -> by (by destruct bs, bt).
      revert Hrun. rewrite bind_run. destruct (add_xrequest _ _) as [[?|?] s2]; [|done].
      rewrite bind_run. lazymatch goal with |- context [match ?m s2 with _ => _ end] => destruct (m s2) as [[?|?] s3]; [|done] end.
      rewrite bind_run. lazymatch goal with |- context [match ?m s3 with _ => _ end] => destruct (m s3) as [[?|?] s4]; [|done] end.
      rewrite bind_run. lazymatch goal with |- context [match ?m s4 with _ => _ end] => destruct (m s4) as [[?|?] s5]; [|done] end.
      rewrite bind_run. destruct (commit s5) as [[?|?] s6]; [|done]. by intros [= <- _]. }
    apply approve_run in Hrun; [|done]. apply let_through_sound in Hev as (Hp & Hc & Hi).
    rewrite Hcur in *. reflect. split_and!; try done.
Qed.

End authorize.

(** ** Witness

    Agent 1 of organization 50 pays through agent 2 of organization 60. *)

Local Existing Instance AplParser.fixed_loaders.
Local Existing Instance SocProps.no_services.
Local Existing Instance SocProps.no_ambient.
Local Existing Instance Siem.soc_sinks.
Local Existing Instance repeating_scheme.

Definition foreign_agent : Agent :=
  {| ag_id := 2; ag_created_at := 0; ag_name := "Supplier"; ag_identifier := "agent-2"; ag_environment := "production";
     ag_owner_id := 8; ag_organization_id := Some 60%N; ag_status := ACTIVE; ag_owner_type := "user";
     ag_purpose := None; ag_risk_classification := "LOW"; ag_last_activity_at := None; ag_last_reviewed_at := None;
     ag_next_review_due_at := None; ag_certified_until := None; ag_certification_status := "CERTIFIED";
     ag_description := None; ag_team := None; ag_business_function := None; ag_business_criticality := "LOW";
     ag_data_classification := "INTERNAL"; ag_source := "MANUAL"; ag_tags := [];
     ag_expected_actions := []; ag_data_access_description := None |}.
Definition partners : tables :=
  upd_agents (λ _, keyed ag_id [sample_agent 1; foreign_agent]) (upd_permissions (λ _, keyed pm_id [sample_permission 100 1])
    (upd_signing_keys (λ _, keyed sk_id [sample_key SkActive]) TrustProps.connected)).
Definition headers_v2 (n : string) : option string :=
  if eqb n "X-Agent-Signature-Version" then Some SIGNATURE_VERSION_V2 else sample_headers n.
Definition sample_payload : CrossOrgAuthorizePayload :=
  MkCrossPayload None 60 "agent-1" "agent-2" "pay" "invoices" (Some (Dec 5 0)) (Some "USD") None.
Definition first_run : result Exc CrossOrgAuthorizeResponse * session :=
  authorize_cross_organization_action two_keys no_redis sample_payload headers_v2 "{}" None (Some "key-1") (open_session partners 0 hour).

End CrossOrgProps.
