(* ===== verification/CrossOrgLedger.v ===== *)
(** The rows of requests between organizations over any sequence of requests
    ([CrossOrg]): the status of a request agrees with the stages that have to approve
    it, a decided request never changes, and an idempotency key names one request. *)
From Stdlib Require Import Ascii.
From S2P Require Import Prelude.
From S2P Require Import PyStr.
From S2P Require Import PyFloat.
From S2P Require Import PyVal.
From S2P Require Import PyDecimal.
From S2P Require Import AplParser.
From S2P Require Import Models.
From S2P Require Import PyCodec.
From S2P Require Import Canonical.
From S2P Require Import Store.
From S2P Require Import Samples.
From S2P Require Import SecurityEvents.
From S2P Require Import Soc.
From S2P Require Import SocProps.
From S2P Require Import Workspace.
From S2P Require Import Trust.
From S2P Require Import Signing.
From S2P Require Import SigningProps.
From S2P Require Import Frames.
From S2P Require Import ApiKeys.
From S2P Require Import Authorization.
From S2P Require Import CrossOrg.
From S2P Require Import CrossOrgProps.

Local Open Scope string_scope.
Local Open Scope Z_scope.

Module CrossOrgLedger.
Import SecurityEvents Workspace Canonical Trust Signing SigningProps Frames ApiKeys CrossOrg CrossOrgProps.

(** ** The invariant *)

(** [a] is a stage of the request [k]. *)
Definition has_stage (t : tables) (k : uuid) (a : CrossOrganizationApproval) : Prop :=
  xa_cross_org_request_id a = k ∧ ∃ j, xapproval_table t !! j = Some a.

(** The status of a request and its stages: it waits while a stage is open and none has
    refused, it is approved when all have approved, and one refusal is enough. *)
Definition agrees (t : tables) (k : uuid) (r : CrossOrganizationRequest) : Prop :=
  match xr_status r with
  | XrPending => (∃ a, has_stage t k a ∧ xa_status a = ApPending) ∧ (∀ a, has_stage t k a → xa_status a ≠ ApRejected)
  | XrApproved => ∀ a, has_stage t k a → xa_status a = ApApproved
  | XrRejected => (∀ a, ¬ has_stage t k a) ∨ ∃ a, has_stage t k a ∧ xa_status a = ApRejected
  | XrExpired | XrCanceled => False
  end.
(** A stage belongs to the organization of its side. *)
Definition on_its_side (r : CrossOrganizationRequest) (a : CrossOrganizationApproval) : Prop :=
  xa_organization_id a = match xa_approval_stage a with SOURCE => xr_source_organization_id r | TARGET => xr_target_organization_id r end.

Record xorg_ok (t : tables) : Prop := {
  ok_requests k r : xrequest_table t !! k = Some r → xr_id r = k;
  ok_stages j a : xapproval_table t !! j = Some a → xa_id a = j ∧
    ∃ r, xrequest_table t !! xa_cross_org_request_id a = Some r ∧ on_its_side r a;
  ok_agrees k r : xrequest_table t !! k = Some r → agrees t k r;
  ok_key sorg key : key ≠ "" → at_most_one (with_key sorg key) (xrequest_table t)
}.

(** A row is decided once; nothing else of it ever changes, and none is removed. *)
Definition decided_from (r r' : CrossOrganizationRequest) : Prop :=
  r' = r ∨ xr_status r = XrPending ∧ ∃ st reason at_, st ≠ XrPending ∧ r' = set_xrequest st reason at_ r.
Definition settled_from (a a' : CrossOrganizationApproval) : Prop :=
  a' = a ∨ xa_status a = ApPending ∧ ∃ st user at_ reason, st ≠ ApPending ∧ a' = set_xapproval st user at_ reason a.
Definition xorg_step (t t' : tables) : Prop := xorg_ok t → xorg_ok t' ∧
  (∀ k r, xrequest_table t !! k = Some r → ∃ r', xrequest_table t' !! k = Some r' ∧ decided_from r r') ∧
  (∀ j a, xapproval_table t !! j = Some a → ∃ a', xapproval_table t' !! j = Some a' ∧ settled_from a a').

Lemma decided_from_trans a b c : decided_from a b → decided_from b c → decided_from a c.
Proof.
  intros [->|(Ha & st & reason & at_ & Hst & ->)] Hbc; [done|]. right. split; [done|].
  destruct Hbc as [->|(Hb & _)]; [by exists st, reason, at_ | done].
Qed.
Lemma settled_from_trans a b c : settled_from a b → settled_from b c → settled_from a c.
Proof.
  intros [->|(Ha & st & u & at_ & reason & Hst & ->)] Hbc; [done|]. right. split; [done|].
  destruct Hbc as [->|(Hb & _)]; [by exists st, u, at_, reason | done].
Qed.
#[export] Instance xorg_step_preorder : PreOrder xorg_step.
Proof.
  split.
  - intros t Hok. split_and!; [done | intros k r Hk; exists r | intros j a Hj; exists a]; by (split; [|left]).
  - intros t1 t2 t3 H12 H23 Hok. destruct (H12 Hok) as (Hok2 & R12 & S12). destruct (H23 Hok2) as (Hok3 & R23 & S23).
    split_and!; [done | |].
    + intros k r Hr. destruct (R12 k r Hr) as (r2 & Hr2 & D12). destruct (R23 k r2 Hr2) as (r3 & Hr3 & D23).
      exists r3. split; [done | by eapply decided_from_trans].
    + intros j a Ha. destruct (S12 j a Ha) as (a2 & Ha2 & D12). destruct (S23 j a2 Ha2) as (a3 & Ha3 & D23).
      exists a3. split; [done | by eapply settled_from_trans].
Qed.

(** Changes of other tables. *)
Lemma xorg_same t t' : federation t' = federation t → xorg_step t t'.
Proof.
  intros He Hok. assert (Hr : xrequest_table t' = xrequest_table t) by (unfold xrequest_table; by rewrite He).
  assert (Ha : xapproval_table t' = xapproval_table t) by (unfold xapproval_table; by rewrite He).
  destruct Hok as [O1 O2 O3 O4]. split_and!.
  - constructor; unfold agrees, has_stage; rewrite ?Hr, ?Ha; assumption.
  - rewrite Hr. intros k r Hk. exists r. by split; [|left].
  - rewrite Ha. intros j a Hj. exists a. by split; [|left].
Qed.

(** ** A new request and its stages *)

Definition with_stages (l : list CrossOrganizationApproval) (m : gmap uuid CrossOrganizationApproval) :
    gmap uuid CrossOrganizationApproval :=
  foldr (λ a m, <[xa_id a := a]> m) m l.
Lemma with_stages_lookup l m j a : with_stages l m !! j = Some a → (a ∈ l ∧ xa_id a = j) ∨ m !! j = Some a.
Proof.
  induction l as [|b l IH]; simpl; [by right|]. rewrite lookup_insert_Some. intros [[Hj ->]|[_ Hj]].
  - left. split; [apply list_elem_of_here | done].
  - destruct (IH Hj) as [[Hin Hid]|Hm]; [left | by right]. split; [by apply list_elem_of_further | done].
Qed.
Lemma with_stages_old l m j : (∀ a, a ∈ l → m !! xa_id a = None) → is_Some (m !! j) → with_stages l m !! j = m !! j.
Proof.
  intros Hfresh Hj. induction l as [|b l IH]; simpl; [done|]. rewrite lookup_insert_ne.
  - apply IH. intros a Ha. apply Hfresh. by apply list_elem_of_further.
  - intros He. specialize (Hfresh b (list_elem_of_here _ _)). rewrite He in Hfresh. rewrite Hfresh in Hj. by destruct Hj.
Qed.

Lemma new_row_step t t' r l :
  xrequest_table t' = <[xr_id r := r]> (xrequest_table t) → xapproval_table t' = with_stages l (xapproval_table t) →
  xrequest_table t !! xr_id r = None →
  (∀ a, a ∈ l → xapproval_table t !! xa_id a = None ∧ xa_cross_org_request_id a = xr_id r ∧ xa_status a = ApPending ∧ on_its_side r a) →
  (xr_status r = XrPending ∧ l ≠ [] ∨ (xr_status r = XrApproved ∨ xr_status r = XrRejected) ∧ l = []) →
  (∀ sorg key, key ≠ "" → with_key sorg key r = true → scalar (with_key sorg key) (xrequest_table t) = None) →
  xorg_step t t'.
Proof.
  intros Hr' Ha' Hnew Hl Hst Hkey [O1 O2 O3 O4].
  assert (Hold : ∀ k r0, xrequest_table t !! k = Some r0 → k ≠ xr_id r) by (intros k r0 Hk ->; congruence).
  assert (Hstage : ∀ k r0 a, xrequest_table t !! k = Some r0 → has_stage t' k a ↔ has_stage t k a).
  { intros k r0 a Hk. unfold has_stage. rewrite Ha'. split; intros [Hreq [j Hj]]; (split; [done|]); exists j.
    - apply with_stages_lookup in Hj as [[Hin _]|Hj]; [|done]. destruct (Hl a Hin) as (_ & Hid & _).
      rewrite Hreq in Hid. by apply Hold in Hk.
    - rewrite with_stages_old; [done | intros b Hb; by apply Hl | by exists a]. }
  assert (Hmine : ∀ a, has_stage t' (xr_id r) a → a ∈ l).
  { intros a [Hreq [j Hj]]. rewrite Ha' in Hj. apply with_stages_lookup in Hj as [[Hin _]|Hj]; [done|].
    destruct (O2 j a Hj) as (_ & r0 & Hr0 & _). congruence. }
  split_and!.
  - constructor.
    + intros k r0. rewrite Hr', lookup_insert_Some. intros [[<- <-]|[_ Hk]]; [done | by apply O1].
    + intros j a. rewrite Ha', Hr'. intros [[Hin <-]|Hj]%with_stages_lookup.
      * destruct (Hl a Hin) as (_ & Hid & _ & Hside). split; [done|]. exists r. rewrite Hid. by rewrite lookup_insert_eq.
      * destruct (O2 j a Hj) as (Hid & r0 & Hr0 & Hside). split; [done|]. exists r0.
        split; [|done]. rewrite lookup_insert_ne; [done|]. by apply not_eq_sym, (Hold _ r0).
    + intros k r0. rewrite Hr', lookup_insert_Some. intros [[<- <-]|[Hne Hk]].
      * unfold agrees. destruct Hst as [[-> Hne]|[[-> | ->] ->]].
        -- split; [|intros a Ha; apply Hmine, Hl in Ha; destruct Ha as (_ & _ & -> & _); done].
           destruct l as [|a l]; [done|]. destruct (Hl a (list_elem_of_here _ _)) as (_ & Hid & Hpend & _).
           exists a. split; [|done]. split; [done|]. exists (xa_id a). rewrite Ha'. simpl. by rewrite lookup_insert_eq.
        -- intros a Ha. by apply Hmine, elem_of_nil in Ha.
        -- left. intros a Ha. by apply Hmine, elem_of_nil in Ha.
      * pose proof (O3 k r0 Hk) as Hag. unfold agrees in *. destruct (xr_status r0); try done.
        -- destruct Hag as [(a & Ha & Hp) Hno]. split; [exists a; by rewrite Hstage | intros b Hb; apply Hno; by rewrite Hstage in Hb].
        -- intros a Ha. apply Hag. by rewrite Hstage in Ha.
        -- destruct Hag as [Hag|(a & Ha & Hr)]; [left | right]; [intros a Ha; apply (Hag a); by rewrite Hstage in Ha|].
           exists a. by rewrite Hstage.
    + intros sorg key Hk. rewrite Hr'. apply one_insert; [by apply O4 | by apply Hkey].
  - intros k r0 Hk. exists r0. split; [|by left]. rewrite Hr', lookup_insert_ne; [done|]. by apply not_eq_sym, (Hold _ r0).
  - intros j a Hj. exists a. split; [|by left]. rewrite Ha', with_stages_old; [done | intros b Hb; by apply Hl | by exists a].
Qed.

(** ** A decision *)

Lemma at_most_one_keep {V} (p : V → bool) m i v w : at_most_one p m → m !! i = Some v → p w = p v → at_most_one p (<[i := w]> m).
Proof.
  intros Hone Hi Hp j k a b. rewrite !lookup_insert_Some. intros [[<- <-]|[_ Ha]] [[<- <-]|[_ Hb]] Hpa Hpb; try done.
  - apply (Hone i k v b); congruence.
  - apply (Hone j i a v); congruence.
  - by apply (Hone j k a b).
Qed.

(** One stage of a pending request is settled, and the request with it when that is a
    refusal or the last approval. *)
Lemma decision_step t t' req a st user at_ reason r' :
  xorg_ok t → xrequest_table t !! xr_id req = Some req → xr_status req = XrPending →
  xapproval_table t !! xa_id a = Some a → xa_cross_org_request_id a = xr_id req → xa_status a = ApPending →
  (let a' := set_xapproval st user at_ reason a in
   xapproval_table t' = <[xa_id a := a']> (xapproval_table t) ∧ xrequest_table t' = <[xr_id req := r']> (xrequest_table t) ∧
   (st = ApRejected ∧ (∃ text, r' = set_xrequest XrRejected text (Some at_) req) ∨
    st = ApApproved ∧ (scalar (open_stage (xr_id req)) (xapproval_table t') = None ∧
                       (∃ text, r' = set_xrequest XrApproved text (Some at_) req) ∨
                       is_Some (scalar (open_stage (xr_id req)) (xapproval_table t')) ∧ r' = req))) →
  xorg_step t t'.
Proof.
  intros Hok Hreq Hpend Hap Hof Hopen (Ha' & Hr' & Hcase) _. set (a' := set_xapproval st user at_ reason a) in *.
  destruct Hok as [O1 O2 O3 O4].
  assert (Hdec : decided_from req r').
  { destruct Hcase as [(_ & text & ->) | (_ & [(_ & text & ->) | (_ & ->)])]; [right | right | by left]; (split; [done|]);
      (eexists _, text, (Some at_); split; [|reflexivity]; done). }
  assert (Hset : settled_from a a').
  { right. split; [done|]. exists st, user, at_, reason. split; [|done]. by destruct Hcase as [[-> _]|[-> _]]. }
  assert (Hid : xr_id r' = xr_id req) by (destruct Hdec as [->|(_ & ? & ? & ? & _ & ->)]; done).
  assert (Hsame : ∀ r b, on_its_side r b → r = req → on_its_side r' b).
  { intros r b Hb ->. destruct Hdec as [->|(_ & ? & ? & ? & _ & ->)]; done. }
  assert (Hmine : has_stage t' (xr_id req) a') by (split; [done | exists (xa_id a); by rewrite Ha', lookup_insert_eq]).
  assert (Hother : ∀ k b, has_stage t' k b → b = a' ∨ has_stage t k b).
  { intros k b [Hk [j Hj]]. rewrite Ha', lookup_insert_Some in Hj. destruct Hj as [[_ <-]|[_ Hj]]; [by left|].
    right. split; [done | by exists j]. }
  assert (Hback : ∀ k b, k ≠ xr_id req → has_stage t' k b ↔ has_stage t k b).
  { intros k b Hne. split; [intros Hb; destruct (Hother k b Hb) as [->|]; [|done]; destruct Hb as [Hb _]; cbn in Hb; congruence|].
    intros [Hk [j Hj]]. split; [done|]. exists j. rewrite Ha', lookup_insert_ne; [done|]. intros <-. congruence. }
  pose proof (O3 _ _ Hreq) as Hag. unfold agrees in Hag. rewrite Hpend in Hag. destruct Hag as [_ Hnone].
  split_and!.
  - constructor.
    + intros k r. rewrite Hr', lookup_insert_Some. intros [[<- <-]|[_ Hk]]; [done | by apply O1].
    + intros j b. rewrite Ha', Hr', lookup_insert_Some. intros [[<- <-]|[_ Hj]].
      * split; [done|]. destruct (O2 _ _ Hap) as (_ & r & Hr & Hside). exists r'. cbn. rewrite Hof, lookup_insert_eq. split; [done|].
        apply (Hsame r a'); [done|]. congruence.
      * destruct (O2 j b Hj) as (Hb & r & Hr & Hside). split; [done|].
        destruct (decide (xa_cross_org_request_id b = xr_id req)) as [He|Hne].
        -- exists r'. rewrite He, lookup_insert_eq. split; [done|]. apply (Hsame r b); [done|]. congruence.
        -- exists r. by rewrite lookup_insert_ne.
    + intros k r. rewrite Hr', lookup_insert_Some. intros [[<- <-]|[Hne Hk]].
      * unfold agrees. destruct Hcase as [(-> & text & ->) | (-> & [(Hlast & text & ->) | ([b Hb] & ->)])]; cbn [xr_status set_xrequest].
        -- right. by exists a'.
        -- intros b Hb. pose proof Hb as [Hbk [j Hj]].
           pose proof (proj1 (scalar_None _ _) Hlast j b Hj) as Hclosed. unfold open_stage in Hclosed.
           rewrite Hbk, eqb_refl in Hclosed. cbn in Hclosed. apply (proj1 (eqb_false _ _)) in Hclosed.
           destruct (Hother _ _ Hb) as [->|Hold]; [done|]. specialize (Hnone b Hold). by destruct (xa_status b).
        -- rewrite Hpend. split.
           ++ apply scalar_Some in Hb as (j & Hj & Hopenb). unfold open_stage in Hopenb. reflect. exists b.
              split; [split; [tauto | by exists j] | tauto].
           ++ intros c Hc. destruct (Hother _ _ Hc) as [->|Hold]; [done | by apply Hnone].
      * pose proof (O3 k r Hk) as Hag. unfold agrees in *.
        destruct (xr_status r); try done.
        -- destruct Hag as [(b & Hb & Hp) Hno]. split; [exists b; by rewrite Hback | intros c Hc; apply Hno; by rewrite Hback in Hc].
        -- intros b Hb. apply Hag. by rewrite Hback in Hb.
        -- destruct Hag as [Hag|(b & Hb & Hr)]; [left | right]; [intros b Hb; apply (Hag b); by rewrite Hback in Hb|].
           exists b. by rewrite Hback.
    + intros sorg key Hk. rewrite Hr'. apply (at_most_one_keep _ _ _ req); [by apply O4 | done |].
      destruct Hdec as [->|(_ & ? & ? & ? & _ & ->)]; done.
  - intros k r Hk. rewrite Hr'. destruct (decide (k = xr_id req)) as [->|Hne].
    + exists r'. rewrite lookup_insert_eq. split; [done|]. congruence.
    + exists r. rewrite lookup_insert_ne by done. by split; [|left].
  - intros j b Hj. rewrite Ha'. destruct (decide (j = xa_id a)) as [->|Hne].
    + exists a'. rewrite lookup_insert_eq. split; [done|]. congruence.
    + exists b. rewrite lookup_insert_ne by done. by split; [|left].
Qed.

(** ** The services *)

Section services.
Context `{Entropy} `{Loaders} `{Ed25519} `{SecuritySinks}.
Context (Hsinks : SinksRespect xorg_step).
Local Existing Instance Hsinks.

Ltac quiet := walk; first [apply evolves_write; [apply _ | intros; by apply xorg_same]
  | apply evolves_insert; [apply _ | intros; by apply xorg_same]].

Lemma signature_step settings env source target sorg torg headers body method path :
  respects (evolves xorg_step) (verify_cross_org_request_v2 settings env source target sorg torg headers body method path).
Proof.
  unfold verify_cross_org_request_v2, check_signed, _accept_nonce, record_nonce. quiet.
Qed.
(** A session that is unusable does not pass: recording the nonce writes. *)
Lemma signature_alive settings env source target sorg torg headers body method path s kid s' :
  verify_cross_org_request_v2 settings env source target sorg torg headers body method path s = (Ok kid, s') → dead s = false.
Proof.
  destruct (dead s) eqn:Hd; [|done]. unfold verify_cross_org_request_v2. destruct (header_values headers) as [h|]; [|done].
  unfold check_signed. do 3 (rewrite bind_raise_if; lazymatch goal with |- (if ?b then _ else _) = _ → _ => destruct b; [done|] end).
  rewrite bind_run. unfold lift_result. destruct (strptime_z _); [|done]. rewrite bind_now.
  rewrite bind_raise_if. destruct (_ <? _); [done|]. rewrite bind_get_or. destruct (scalar _ _); [|done].
  do 5 (rewrite bind_raise_if; lazymatch goal with |- (if ?b then _ else _) = _ → _ => destruct b; [done|] end).
  rewrite bind_run. destruct (_accept_nonce _ _ _ _ _ s) as [[[]|e] s1] eqn:Hacc; [|done]. apply accept_records in Hacc.
  exfalso. revert Hacc. unfold record_nonce. rewrite bind_run. unfold try_except. rewrite bind_run. unfold write, insert_checked.
  destruct (re_purge env); [by rewrite Hd|]. cbn [mret M_ret]. rewrite bind_fresh_uuid, bind_query.
  destruct (known_nonce _ _ _); rewrite bind_run; cbn [mret M_ret]; [rewrite bind_run; unfold commit|];
    replace (dead (next_seed s)) with true by (by rewrite <- Hd); done.
Qed.

Lemma given_with_key sorg key r sorg' k' : xr_source_organization_id r = sorg → xr_idempotency_key r = key → k' ≠ "" →
  with_key sorg' k' r = true → sorg' = sorg ∧ given key = Some k'.
Proof.
  unfold with_key. intros <- <- Hk [Hs Hkey]%andb_true_iff. apply (proj1 (eqb_true _ _)) in Hs, Hkey.
  split; [done|]. rewrite Hkey. unfold given. by rewrite (proj2 (eqb_false _ _)).
Qed.
Lemma key_free sorg key r t : xr_source_organization_id r = sorg → xr_idempotency_key r = key → stored_request sorg key t = None →
  ∀ sorg' k', k' ≠ "" → with_key sorg' k' r = true → scalar (with_key sorg' k') (xrequest_table t) = None.
Proof.
  intros Hs Hk Hfree sorg' k' Hne Hw. destruct (given_with_key _ _ _ _ _ Hs Hk Hne Hw) as [-> Hg].
  unfold stored_request in Hfree. by rewrite Hg in Hfree.
Qed.
Lemma fresh_xrequest r t : new_xrequest_ok r t = true → xrequest_table t !! xr_id r = None.
Proof. unfold new_xrequest_ok. rewrite !andb_true_iff, negb_true_iff, is_some_false. tauto. Qed.
Lemma fresh_xapproval a t : new_xapproval_ok a t = true → xapproval_table t !! xa_id a = None.
Proof. unfold new_xapproval_ok. rewrite !andb_true_iff, negb_true_iff, is_some_false. tauto. Qed.

Lemma rejection_step sorg torg source target payload reason trust connection key hash s :
  stored_request sorg key (cur s) = None →
  evolves xorg_step s (_record_and_return_rejection sorg torg source target payload reason trust connection key hash s).2.
Proof.
  intros Hfree. unfold _record_and_return_rejection. rewrite bind_now. apply evolves_then; [apply _ | | intros; walk].
  destruct trust as [trust|]; [|done]. rewrite bind_fresh_uuid, bind_fresh_token.
  match goal with |- evolves _ s (?p).2 => change (evolves xorg_step (next_seed (next_seed s)) (p).2) end.
  unfold add_xrequest. apply evolves_insert_here; [apply _ | | walk]. intros Hok%fresh_xrequest.
  eapply (new_row_step _ _ _ []); [reflexivity | reflexivity | done | intros a Ha; by apply elem_of_nil in Ha | right; split; [by right | done] |].
  by eapply key_free.
Qed.

(** The row and the stages added so far, since the last commit. *)
Definition staged (s0 : session) (r : CrossOrganizationRequest) (l : list CrossOrganizationApproval) (s : session) : Prop :=
  since s0 s ∧ xrequest_table (cur s) = <[xr_id r := r]> (xrequest_table (cur s0)) ∧
  xapproval_table (cur s) = with_stages l (xapproval_table (cur s0)) ∧
  ∀ a, a ∈ l → xapproval_table (cur s0) !! xa_id a = None ∧ xa_cross_org_request_id a = xr_id r ∧ xa_status a = ApPending ∧ on_its_side r a.

Lemma maybe_stage s0 s r l (b : bool) org stage {B} (k : unit → DB B) :
  staged s0 r l s → org = (match stage with SOURCE => xr_source_organization_id r | TARGET => xr_target_organization_id r end) →
  (∀ s1 l', staged s0 r l' s1 → l' = l ∧ b = false ∨ l' ≠ [] ∧ b = true → evolves xorg_step s0 (k tt s1).2) →
  evolves xorg_step s0 (((if b then add_stage (xr_id r) org stage else mret tt) ≫= k) s).2.
Proof.
  intros (Hs & Hr & Ha & Hl) Horg Hk. destruct b; [|rewrite bind_ret; apply (Hk s l); [by split_and! | by left]].
  unfold add_stage, add_xapproval. rewrite bind_assoc, bind_fresh_uuid.
  apply batch_insert; [apply _ | done | intros Hok%fresh_xapproval Hs1].
  set (a := MkApproval _ _ _ _ _ _ _ _ _) in *.
  assert (Hfresh : xapproval_table (cur s0) !! xa_id a = None).
  { destruct (xapproval_table (cur s0) !! xa_id a) as [b|] eqn:Hb; [|done].
    change (xapproval_table (cur s) !! xa_id a = None) in Hok.
    rewrite Ha, with_stages_old, Hb in Hok; [done | intros c Hc; by apply Hl | by eexists]. }
  eapply (Hk _ (a :: l)); [|by right]. split_and!; [done | exact Hr | |].
  - change (<[xa_id a := a]> (xapproval_table (cur s)) = with_stages (a :: l) (xapproval_table (cur s0))). by rewrite Ha.
  - intros c Hc. apply elem_of_cons in Hc as [->|Hc]; [by split_and! | by apply Hl].
Qed.

Lemma audit_quiet s0 s sorg torg source target payload d reason B (k : unit → DB B) :
  since s0 s → (∀ s1, since s0 s1 → federation (cur s1) = federation (cur s) → evolves xorg_step s0 (k tt s1).2) →
  evolves xorg_step s0 ((_record_dual_audit_logs sorg torg source target payload d reason ≫= k) s).2.
Proof.
  intros Hs Hk. unfold _record_dual_audit_logs, Authorization.add_audit_log.
  rewrite bind_assoc, bind_now, bind_assoc, bind_fresh_token, bind_assoc, bind_fresh_uuid, bind_assoc.
  apply batch_insert; [apply _ | done | intros _ Hs1]. rewrite bind_assoc, bind_fresh_token, bind_assoc, bind_fresh_uuid.
  apply batch_insert; [apply _ | done | intros _ Hs2]. by apply Hk.
Qed.

Lemma ledger_complete_step sorg torg source target payload trust connection bs bt key hash s :
  stored_request sorg key (cur s) = None →
  evolves xorg_step s (complete_request sorg torg source target payload trust connection bs bt key hash s).2.
Proof.
  intros Hfree. unfold complete_request, add_xrequest. rewrite bind_now, bind_fresh_uuid, bind_fresh_token. cbv zeta.
  match goal with |- evolves _ s (?p).2 => change (evolves xorg_step (next_seed (next_seed s)) (p).2) end.
  destruct (dead s) eqn:Hd; [by apply (dead_insert xorg_step (next_seed (next_seed s)))|].
  set (s0 := next_seed (next_seed s)) in *. set (r := xrequest_for _ _ _ _ _ _ _ _ _ _ _ _ _ _ _ _).
  apply batch_insert; [apply _ | by split | intros Hok%fresh_xrequest Hs1].
  assert (Hst : staged s0 r [] (set_cur (upd_xrequests <[xr_id r := r]> (cur s0)) s0)).
  { split_and!; [done | done | done | intros a Ha; by apply elem_of_nil in Ha]. }
  revert Hst. generalize (set_cur (upd_xrequests <[xr_id r := r]> (cur s0)) s0). intros s1 Hst.
  change (uuid4 (seed s)) with (xr_id r). apply (maybe_stage _ _ _ [] bs sorg SOURCE); [done | done |].
  intros s2 l2 Hst2 Hl2. apply (maybe_stage _ _ _ l2 bt torg TARGET); [done | done |].
  intros s3 l3 (Hs3 & Hr3 & Ha3 & Hl) Hl3. apply audit_quiet; [done | intros s4 Hs4 Hf].
  apply batch_commit; [apply _ | done | | walk].
  apply (new_row_step _ _ r l3); try done.
  - unfold xrequest_table. by rewrite Hf.
  - unfold xapproval_table. by rewrite Hf.
  - destruct Hl2 as [[-> ->]|[? ->]], Hl3 as [[-> ->]|[? ->]]; cbn; auto.
  - by apply (key_free sorg key).
Qed.

Lemma new_request_step settings env payload headers body source target sorg torg key s :
  stored_request sorg key (cur s) = None →
  evolves xorg_step s (evaluate_new_request settings env payload headers body source target sorg torg key s).2.
Proof.
  intros Hfree. unfold evaluate_new_request. cbv zeta. rewrite bind_run. unfold try_except.
  pose proof (signature_step settings env source target sorg torg headers body "POST" cross_org_path s) as Hsig.
  destruct (verify_cross_org_request_v2 _ _ _ _ _ _ _ _ _ _ s) as [[kid|e] s1] eqn:Hv; [|by destruct e].
  apply signature_run in Hv as (_ & _ & _ & _ & l & k & Hcur); [|by apply signature_alive in Hv].
  assert (Hfree1 : stored_request sorg key (cur s1) = None) by (by rewrite Hcur).
  etrans; [exact Hsig|]. clear Hsig Hcur. rewrite bind_query. past Ho1. rewrite bind_query. past Ho2. past Ha1. past Ha2.
  rewrite bind_now, bind_query. destruct (evaluate_request _ _ _ _ _ _ _); [by apply rejection_step | by apply ledger_complete_step].
Qed.

Lemma authorize_step settings env payload headers body caller key :
  respects (evolves xorg_step) (authorize_cross_organization_action settings env payload headers body caller key).
Proof.
  intros s. unfold authorize_cross_organization_action. rewrite bind_get_or. destruct (_find_agent _ _) as [source|]; [|done].
  rewrite bind_get_or. destruct (_find_agent (xp_target_agent_id payload) _) as [target|]; [|done].
  destruct (ag_organization_id source) as [sorg|]; [|done]. past Hcaller. cbv zeta. past Htorg. past Hsame. rewrite bind_query.
  destruct (stored_request sorg key (cur s)) as [r|] eqn:Hr; [|by apply new_request_step]. by past Hh.
Qed.

Lemma decide_step request_id user org approve reason :
  respects (evolves xorg_step) (decide_cross_org_approval request_id user org approve reason).
Proof.
  intros s. unfold decide_cross_org_approval. rewrite bind_get_or.
  destruct (xrequest_by_id request_id (cur s)) as [req|] eqn:Hreq; [|done].
  apply scalar_Some in Hreq as (k & Hk & _). past Hpend. rewrite bind_get_or.
  destruct (scalar _ _) as [a|] eqn:Ha; [|done]. apply scalar_Some in Ha as (j & Hj & Hstage). past Hopen. rewrite bind_now.
  unfold stage_of in Hstage. reflect. destruct Hstage as [Hof _]. cbv zeta. unfold save_xapproval, save_xrequest.
  destruct (dead s) eqn:Hd; [by apply (dead_insert xorg_step s)|].
  apply batch_insert; [apply _ | by split | intros _ Hs1].
  assert (Hbase : ∀ t' st r', xorg_ok (cur s) →
    (let a' := set_xapproval st user (db_now s) reason a in
     xapproval_table t' = <[xa_id a := a']> (xapproval_table (cur s)) ∧
     xrequest_table t' = <[xr_id req := r']> (xrequest_table (cur s)) ∧
     (st = ApRejected ∧ (∃ text, r' = set_xrequest XrRejected text (Some (db_now s)) req) ∨
      st = ApApproved ∧ (scalar (open_stage (xr_id req)) (xapproval_table t') = None ∧
                         (∃ text, r' = set_xrequest XrApproved text (Some (db_now s)) req) ∨
                         is_Some (scalar (open_stage (xr_id req)) (xapproval_table t')) ∧ r' = req))) →
    xorg_step (cur s) t').
  { intros t' st r' Hok. pose proof (ok_requests _ Hok _ _ Hk) as Hid. destruct (ok_stages _ Hok _ _ Hj) as [Hja _].
    intros Hc. eapply (decision_step (cur s) t' req a st user (db_now s) reason r'); try done; [by rewrite Hid | by rewrite Hja]. }
  destruct approve; cbn [negb].
  - rewrite bind_assoc, bind_query.
    destruct (scalar (open_stage (xr_id req)) _) as [b|] eqn:Hrem; cbn [is_some]; rewrite ?bind_ret.
    + apply batch_commit; [apply _ | done | | walk]. intros Hok. apply (Hbase _ ApApproved req Hok); [|done].
      split_and!; [reflexivity | | right; split; [done | right; split; [by exists b | done]]].
      cbn. symmetry. apply insert_id. pose proof (ok_requests _ Hok _ _ Hk) as ->. exact Hk.
    + rewrite bind_assoc. apply batch_insert; [apply _ | done | intros _ Hs2]. rewrite bind_ret.
      apply batch_commit; [apply _ | done | | walk]. intros Hok. eapply (Hbase _ ApApproved _ Hok); [|done].
      split_and!; [reflexivity | reflexivity | right; split; [done | left; split; [exact Hrem | by eexists]]].
  - rewrite bind_assoc. apply batch_insert; [apply _ | done | intros _ Hs2]. rewrite bind_ret.
    apply batch_commit; [apply _ | done | | walk]. intros Hok. eapply (Hbase _ ApRejected _ Hok); [|done].
    split_and!; [reflexivity | reflexivity | left; split; [done | by eexists]].
Qed.

(** ** Sequences of requests *)

Inductive xorg_op : Type :=
  | CrossAuthorize (settings : signing_settings) (env : replay_env) (payload : CrossOrgAuthorizePayload)
      (headers : string → option string) (body : string) (api_key idempotency_key : option string)
  | CrossDecide (cl : caller) (header : option uuid) (approve : bool) (request_id : string) (reason : option string).
Definition serve_cross (o : xorg_op) : DB unit :=
  match o with
  | CrossAuthorize settings env payload headers body api_key key =>
      cross_org_authorize settings env payload headers body api_key key ;; mret tt
  | CrossDecide cl header approve request_id reason =>
      w ← get_workspace_context cl header; decide_request approve w request_id reason ;; mret tt
  end.
Record xorg_incoming : Type := MkXorgIncoming { xi_draws : nat; xi_now : time; xi_op : xorg_op }.
Definition handle_cross (t : tables) (i : xorg_incoming) : tables := (run_request (serve_cross (xi_op i)) t (xi_draws i) (xi_now i)).2.
Definition cross_trace (t : tables) (ops : list xorg_incoming) : tables := fold_left handle_cross ops t.

Lemma serve_cross_step o : respects (evolves xorg_step) (serve_cross o).
Proof.
  destruct o as [settings env payload headers body api_key key | cl header approve request_id reason]; cbn [serve_cross].
  - unfold cross_org_authorize, authenticate_api_key. walk; first [apply authorize_step | apply evolves_write; [apply _ | intros; by apply xorg_same]].
  - unfold decide_request, Trust.with_organization, require. walk;
      first [apply decide_step | apply get_workspace_evolves; [apply _ | intros; by apply xorg_same]].
Qed.
Lemma cross_trace_step t ops : xorg_step t (cross_trace t ops).
Proof.
  revert t. induction ops as [|i ops IH]; intros t; [reflexivity|]. etrans; [|apply IH].
  unfold handle_cross. apply evolves_run; [apply _ | apply serve_cross_step].
Qed.

(** Over any sequence of requests between organizations and of decisions about them:
    a request waits while one of its stages is open and none has refused, is approved
    only when every stage has approved, and is rejected without stages or by one of
    them; every stage belongs to the organization of its side; an idempotency key names
    at most one request of a source organization; and once decided, a request and a
    stage never change again. *)
Theorem cross_org_ledger t ops : xorg_ok t →
  xorg_ok (cross_trace t ops) ∧
  (∀ k r, xrequest_table t !! k = Some r → ∃ r', xrequest_table (cross_trace t ops) !! k = Some r' ∧ decided_from r r') ∧
  (∀ j a, xapproval_table t !! j = Some a → ∃ a', xapproval_table (cross_trace t ops) !! j = Some a' ∧ settled_from a a').
Proof. apply cross_trace_step. Qed.
End services.

(** ** Witness

    Both sides have to approve: the target does, then the source; a second request
    with the same key is answered from the first. *)

Local Existing Instance AplParser.fixed_loaders.
Local Existing Instance SocProps.no_services.
Local Existing Instance SocProps.no_ambient.
Local Existing Instance Siem.soc_sinks.
Local Existing Instance repeating_scheme.

Lemma xorg_sinks : SinksRespect xorg_step.
Proof. apply Siem.soc_sinks_respect; [apply _ | |]; intros f t; by apply xorg_same. Defined.

Definition both_sides : OrganizationTrustPolicy := MkTrustPolicy 90 70 ["pay"] [] None None true None "BOTH_APPROVAL" false 1 None.
Definition careful_partners : tables := upd_trust_policies (λ _, keyed tp_id [both_sides]) partners.
Definition asked : xorg_op := CrossAuthorize two_keys no_redis sample_payload headers_v2 "{}" None (Some "key-1").
Definition decided (user org : uuid) (request_id : string) : xorg_op :=
  CrossDecide (MkCaller user None hour None) (Some org) true request_id None.
Definition both_approve : list xorg_incoming :=
  [MkXorgIncoming 0 hour asked; MkXorgIncoming 20 hour (decided 8 60 "xreq_tok2"); MkXorgIncoming 40 hour (decided 9 50 "xreq_tok2");
   MkXorgIncoming 60 hour asked].
Definition statuses (t : tables) : list CrossOrgRequestStatus := map xr_status (rows (xrequest_table t)).

Lemma no_requests_ok : xorg_ok careful_partners.
Proof.
  constructor.
  - intros k r Hk. vm_compute in Hk. destruct k; discriminate.
  - intros j a Hj. vm_compute in Hj. destruct j; discriminate.
  - intros k r Hk. vm_compute in Hk. destruct k; discriminate.
  - intros sorg key _ i j a b Hi. vm_compute in Hi. destruct i; discriminate.
Qed.
Lemma cross_org_ledger_witness :
  xorg_ok (cross_trace careful_partners both_approve) ∧
  map (λ n, statuses (cross_trace careful_partners (take n both_approve))) [1; 2; 3; 4]%nat = [[XrPending]; [XrPending]; [XrApproved]; [XrApproved]].
Proof.
  split; [|vm_compute; reflexivity]. apply (cross_org_ledger xorg_sinks careful_partners both_approve no_requests_ok).
Defined.

(** A refusal with a reason that the body allows, but that leaves no room for the text
    before it, fails as a whole: the request still waits and can still be approved. *)
Example long_rejection_fails :
  let waiting := cross_trace careful_partners (take 1 both_approve) in
  let reason := times_of 240 "x" in
  fits 255 reason = true ∧
  (run_request (serve_cross (CrossDecide (MkCaller 8 None hour None) (Some 60%N) false "xreq_tok2" (Some reason))) waiting 20 hour).1
    = Err IntegrityError ∧
  statuses (cross_trace careful_partners
    [MkXorgIncoming 0 hour asked;
     MkXorgIncoming 20 hour (CrossDecide (MkCaller 8 None hour None) (Some 60%N) false "xreq_tok2" (Some reason))]) = [XrPending].
Proof. split_and!; vm_compute; reflexivity. Qed.

(** A delegation never stands in for a permission of the source agent. *)
Lemma delegation_always_refused payload now source target sorg torg t :
  match source_permission payload source t with Some p => permission_is_usable p now | None => false end = false →
  ∃ reason, evaluate_request payload now source target sorg torg t = Refused reason None None.
Proof.
  intros Hp. unfold evaluate_request, source_grants. cbv zeta. rewrite Hp. destruct (given _); by eexists.
Qed.
End CrossOrgLedger.
