(* ===== verification/RequestProps.v ===== *)
(** What the decisions on pending requests guarantee: an approval re-checks the
    permission, a request is decided once, and the log and the requests agree. *)
From Stdlib Require Import Ascii.
From S2P Require Import Prelude.
From S2P Require Import PyStr.
From S2P Require Import PyFloat.
From S2P Require Import PyVal.
From S2P Require Import PyDecimal.
From S2P Require Import Models.
From S2P Require Import Store.
From S2P Require Import Samples.
From S2P Require Import Permissions.
From S2P Require Import Risk.
From S2P Require Import Notifications.
From S2P Require Import NotificationProps.
From S2P Require Import Authorization.
From S2P Require Import AuthorizationProps.
From S2P Require Import Requests.

Local Open Scope string_scope.
Local Open Scope Z_scope.

Module RequestProps.
Import Permissions Risk Notifications NotificationProps Authorization AuthorizationProps Requests.

(** ** The final decision, as one step *)

(** The tables after a request was decided: the row and its log entry, nothing
    else of the decision path. *)
Definition decided (t t' : tables) (r r' : AuthorizationRequestRecord) (l : AuditLog) : Prop :=
  requests t' = <[ar_id r := r']> (requests t) ∧ audit_logs t' = (audit_logs t ++ [l])%list ∧
  agents t' = agents t ∧ permissions t' = permissions t ∧ delegations t' = delegations t ∧
  (∀ b, b ∈ audit_logs t → al_request_id b ≠ al_request_id l) ∧
  al_request_id l = ar_request_id r ∧ al_decision l = status_decision (ar_status r') ∧
  al_reason l = ar_reason r' ∧ al_permission_id l = Some (ar_permission_id r) ∧ al_agent_id l = Some (ar_agent_id r).

Section finalize.
Context `{Entropy} `{SecuritySinks}.

Lemma final_quiet r a st : quiet (final_notification r a st).
Proof. apply ordinary_quiet. simpl. by destruct (eqb st ReqApproved). Qed.

Ltac undone := right; eexists _, _; (split; [reflexivity|]); by split.

(** [_finalize] succeeds as a whole or leaves nothing behind. *)
Lemma finalize_run r st reason at_ s :
  dead s = false →
  (∃ l t' n', _finalize r st reason at_ s =
     (Ok (set_ar_decision st reason (Some at_) r), MkSession t' (committed s) false n' (db_now s)) ∧
     decided (cur s) t' r (set_ar_decision st reason (Some at_) r) l) ∨
  (∃ e s', _finalize r st reason at_ s = (Err e, s') ∧ committed s' = committed s ∧ e ≠ RequestExpired).
Proof.
  destruct s as [t c d n now]. cbn [dead]. intros ->. unfold _finalize. cbv zeta. set (r' := set_ar_decision _ _ _ _).
  unfold agent_of. exec. destruct (agents t !! ar_agent_id r') as [agent|]; [|undone].
  exec. destruct (request_checks r'); [|undone].
  unfold _audit_final_decision, fresh_uuid, add_audit_log. exec. rewrite bind_run. unfold set_cur, next_seed. exec.
  set (l := final_log _ _ _ _ _ _). exec.
  destruct (audit_ok l (upd_requests <[ar_id r' := r']> t)) eqn:Hok; [|undone].
  rewrite bind_run. unfold set_cur. cbn [cur committed dead seed db_now].
  set (s1 := MkSession _ _ _ _ _).
  destruct (create_notification_run (final_notification r' agent st) s1 eq_refl (final_quiet _ _ _))
    as [(nt & t' & n' & -> & Hsd & _)|(n' & -> & _)]; [left | undone].
  exists l, t', n'. split; [done|]. unfold same_decisions in Hsd. simpl in Hsd.
  destruct Hsd as (Ha & Hp & Hd & Hr & Hl & _).
  apply andb_true_iff in Hok as [_ Hok]. rewrite forallb_forall in Hok.
  split_and!; try done. intros b Hb. apply list_elem_of_In, Hok in Hb. by reflect.
Qed.
End finalize.

(** ** Approving *)

Definition owned (t : tables) (owner : uuid) (org : option uuid) (rid : uuid) (r : AuthorizationRequestRecord) : Prop :=
  ar_id r = rid ∧ in_owner_scope t owner org r = true ∧ ∃ k, requests t !! k = Some r.

(** The permission still grants the request, by an active agent. *)
Definition still_granted (t : tables) (r : AuthorizationRequestRecord) (at_ : time) : Prop :=
  ∃ agent p, agents t !! ar_agent_id r = Some agent ∧ ag_status agent = ACTIVE ∧
    permissions t !! ar_permission_id r = Some p ∧ pm_agent_id p = ar_agent_id r ∧
    permission_is_usable p at_ = true ∧ pm_action p = ar_action r ∧ pm_resource p = ar_resource r ∧
    match ar_amount r with
    | None => pm_maximum_amount p = None
    | Some a => ∃ limit, pm_maximum_amount p = Some limit ∧ pm_currency p = ar_currency r ∧ dec_leb a limit = true
    end.

Lemma validate_for_approval_None r agent p at_ :
  _validate_for_approval r agent p at_ = None ↔
  ag_status agent = ACTIVE ∧ permission_is_usable p at_ = true ∧ pm_agent_id p = ar_agent_id r ∧
  pm_action p = ar_action r ∧ pm_resource p = ar_resource r ∧
  match ar_amount r with
  | None => pm_maximum_amount p = None
  | Some a => ∃ limit, pm_maximum_amount p = Some limit ∧ pm_currency p = ar_currency r ∧ dec_leb a limit = true
  end.
Proof.
  unfold _validate_for_approval, permission_is_usable.
  repeat match goal with
    | |- (if ?b then _ else _) = None ↔ _ =>
        destruct b eqn:?;
        [split; [done|]; intros (Hag & Hus & Hid & Hac & Hre & _); exfalso;
         rewrite ?orb_true_iff, ?andb_true_iff, ?negb_true_iff, ?eqb_true, ?eqb_false, ?Z.leb_le, ?Z.ltb_lt in *;
         intuition (congruence || lia)|]
    end.
  rewrite ?orb_false_iff, ?negb_false_iff, ?eqb_true, ?eqb_false, ?Z.leb_gt, ?Z.ltb_ge in *.
  assert (Hok : ag_status agent = ACTIVE ∧ eqb (pm_status p) PermActive && (pm_valid_from p <=? at_) && (at_ <? pm_expires_at p) = true ∧
    pm_agent_id p = ar_agent_id r ∧ pm_action p = ar_action r ∧ pm_resource p = ar_resource r).
  { rewrite !andb_true_iff, eqb_true, Z.leb_le, Z.ltb_lt. tauto. }
  destruct (ar_amount r) as [a|], (pm_maximum_amount p) as [limit|]; try (by naive_solver).
  destruct (eqb (pm_currency p) (ar_currency r)) eqn:Hc; simpl; reflect; [|naive_solver].
  destruct (dec_ltb limit a) eqn:Hlt; [|apply dec_ltb_false in Hlt; naive_solver].
  split; [done|]. intros (_ & _ & _ & _ & _ & lim & [= <-] & _ & Hle). unfold dec_ltb in Hlt. by rewrite Hle in Hlt.
Qed.

(** ** One decision by the owner *)

Section decide.
Context `{Entropy} `{SecuritySinks}.

Definition outcome_of (t : tables) (rec : AuthorizationRequestRecord) (st : AuthorizationRequestStatus)
    (reason : string) (approve : bool) (at_ : time) (r : result Exc AuthorizationRequestRecord) : Prop :=
  (r = Err RequestExpired ∧ st = ReqExpired ∧ ar_expires_at rec <= at_) ∨
  (r = Ok (set_ar_decision st reason (Some at_) rec) ∧ at_ < ar_expires_at rec ∧
   (if approve then (st = ReqApproved ∧ still_granted t rec at_) ∨
      (st = ReqRejected ∧ ¬ still_granted t rec at_)
    else st = ReqRejected)).

Lemma owner_decision_run rec approve at_ s :
  (∃ st reason, owner_decision rec approve at_ s = (Ok (st, reason), s) ∧
     if approve then (st = ReqApproved ∧ still_granted (cur s) rec at_) ∨
       (st = ReqRejected ∧ ¬ still_granted (cur s) rec at_)
     else st = ReqRejected) ∨
  ∃ e, owner_decision rec approve at_ s = (Err e, s) ∧ e ≠ RequestExpired.
Proof.
  unfold owner_decision, agent_of, permission_of. destruct approve; [|left; by eexists _, _].
  exec. destruct (agents (cur s) !! ar_agent_id rec) as [agent|] eqn:Ha; [|right; by eexists].
  exec. destruct (permissions (cur s) !! ar_permission_id rec) as [p|] eqn:Hp; [|right; by eexists].
  left. destruct (_validate_for_approval rec agent p at_) as [err|] eqn:Hv.
  - eexists _, _. split; [done|]. right. split; [done|]. intros (a & q & Ha' & Hact & Hq & Hrest). simplify_eq.
    assert (Hn : _validate_for_approval rec agent p at_ = None) by (apply validate_for_approval_None; tauto). congruence.
  - eexists _, _. split; [done|]. left. split; [done|]. apply validate_for_approval_None in Hv.
    exists agent, p. tauto.
Qed.

Lemma decide_run owner rid approve at_ org t n now r t' :
  run_request (decide_owned_request owner rid approve at_ org) t n now = (r, t') →
  (t' = t ∧ ∃ e, r = Err e ∧ e ≠ RequestExpired) ∨
  ∃ rec st reason l, owned t owner org rid rec ∧ ar_status rec = ReqPending ∧ st ≠ ReqPending ∧
    decided t t' rec (set_ar_decision st reason (Some at_) rec) l ∧ outcome_of t rec st reason approve at_ r.
Proof.
  unfold run_request, decide_owned_request. exec. unfold owned_request.
  destruct (scalar _ _) as [rec|] eqn:Hrec; [|intros [= <- <-]; left; split; [done | by eexists]].
  apply scalar_Some in Hrec as (k & Hk & Hc). reflect. destruct Hc as [Hid Hscope].
  exec. destruct (eqb (ar_status rec) ReqPending) eqn:Hst; simpl; [|intros [= <- <-]; left; split; [done | by eexists]].
  reflect. assert (Hown : owned t owner org rid rec) by (split_and!; eauto).
  destruct (ar_expires_at rec <=? at_) eqn:Hexp; reflect.
  - exec. rewrite bind_run.
    destruct (finalize_run rec ReqExpired "Request expired" at_ (open_session t n now) eq_refl)
      as [(l & t1 & n1 & -> & Hdec)|(e & s1 & -> & Hc & He)]; simpl.
    + intros [= <- <-]. right. exists rec, ReqExpired, "Request expired", l. split_and!; try done. by left.
    + intros [= <- <-]. left. split; [done | by eexists].
  - exec. rewrite bind_run.
    destruct (owner_decision_run rec approve at_ (open_session t n now)) as [(st & reason & -> & Hcase)|(e & -> & He)].
    2: { intros [= <- <-]. left. split; [done | by eexists]. }
    exec. rewrite bind_run. cbn [fst snd].
    destruct (finalize_run rec st reason at_ (open_session t n now) eq_refl)
      as [(l & t1 & n1 & -> & Hdec)|(e & s1 & -> & Hc & He)]; simpl.
    + intros [= <- <-]. right. exists rec, st, reason, l. split_and!; try done.
      * destruct approve; [destruct Hcase as [[-> _]|[-> _]] | subst]; done.
      * by right.
    + intros [= <- <-]. left. split; [done | by eexists].
Qed.
End decide.

(** ** Decisions on requests *)

Definition requests_keyed (t : tables) : Prop := ∀ k r, requests t !! k = Some r → ar_id r = k.

Section theorems.
Context `{Entropy} `{SecuritySinks}.


(** C9. A request is decided at most once: after a decision, or after the
    expiry a decision ran into, every further attempt by the same caller fails
    with [RequestAlreadyDecided] and changes nothing. *)
Theorem decided_once owner rid approve at_ org t n now r t' :
  requests_keyed t →
  run_request (decide_owned_request owner rid approve at_ org) t n now = (r, t') →
  (∃ rec, r = Ok rec) ∨ r = Err RequestExpired →
  ∀ approve2 at2 n2 now2,
    run_request (decide_owned_request owner rid approve2 at2 org) t' n2 now2 = (Err RequestAlreadyDecided, t').
Proof.
  intros Hkey Hrun Hr approve2 at2 n2 now2.
  apply decide_run in Hrun as [(_ & e & -> & Hne)|(rec & st & reason & l & (Hid & Hscope & k & Hk) & _ & Hst & Hdec & _)].
  { destruct Hr as [[? ?]|?]; simplify_eq. }
  destruct Hdec as (Hreq & _ & Hag & _).
  set (rec' := set_ar_decision st reason (Some at_) rec) in *.
  assert (Hsc : ∀ x, in_owner_scope t' owner org x = in_owner_scope t owner org x)
    by (intros x; unfold in_owner_scope; by rewrite Hag).
  assert (Hfound : owned_request owner rid org t' = Some rec').
  { unfold owned_request. rewrite Hreq. destruct (scalar _ _) as [x|] eqn:Hx.
    - apply scalar_Some in Hx as (j & Hj & Hc). reflect. destruct Hc as [Hxid _].
      apply lookup_insert_Some in Hj as [[_ ->]|[Hne Hj]]; [done|].
      apply Hkey in Hj. congruence.
    - exfalso. pose proof (proj1 (scalar_None _ _) Hx (ar_id rec) rec' (lookup_insert_eq _ _ _)) as Hc.
      cbv beta in Hc. rewrite Hsc in Hc.
      change (in_owner_scope t owner org rec') with (in_owner_scope t owner org rec) in Hc.
      rewrite Hscope, andb_true_r in Hc. reflect. by destruct Hc. }
  unfold run_request, decide_owned_request. exec. rewrite Hfound. exec. simpl.
  assert (eqb st ReqPending = false) as -> by by apply eqb_false. done.
Qed.

(** A request whose permission belongs to another agent, which
    is what a request under a delegation is, can never be approved: deciding it
    either fails or rejects it. *)
Theorem foreign_permission_never_approved owner rid approve at_ org t n now rec' t' p :
  run_request (decide_owned_request owner rid approve at_ org) t n now = (Ok rec', t') →
  permissions t !! ar_permission_id rec' = Some p → pm_agent_id p ≠ ar_agent_id rec' →
  ar_status rec' ≠ ReqApproved.
Proof.
  intros [(_ & e & ? & _)|(rec & st & reason & l & _ & _ & _ & _ & [(? & _)|(Heq & _ & Hcase)])]%decide_run Hp Hne;
    [done..|]. injection Heq as ->. simpl in *.
  destruct approve; [destruct Hcase as [[-> Hg]|[-> _]] | by subst st]; [|done].
  destruct Hg as (agent & q & _ & _ & Hq & Hid & _). congruence.
Qed.
End theorems.

(** ** Witnesses *)

Definition asking (p : Permission) : Permission :=
  {| pm_id := pm_id p; pm_created_at := pm_created_at p; pm_updated_at := pm_updated_at p;
     pm_owner_id := pm_owner_id p; pm_agent_id := pm_agent_id p; pm_action := pm_action p;
     pm_resource := pm_resource p; pm_maximum_amount := pm_maximum_amount p; pm_currency := pm_currency p;
     pm_requires_approval := true; pm_allow_delegation := pm_allow_delegation p;
     pm_valid_from := pm_valid_from p; pm_expires_at := pm_expires_at p; pm_status := pm_status p |}.

(** The sample tables with a permission that asks for approval, after a payment
    of agent 1 and one of agent 2, under its delegation, were queued. *)
Definition asking_tables : tables :=
  tables_with [sample_agent 1; sample_agent 2] [asking (sample_permission 100 1)] [sample_delegation 200 1 2 None].
Definition queue (t : tables) (n : nat) (r : AuthorizationRequest) : tables :=
  (run_request (authorize_action 9 r (20 * hour) (InScope (Some 50%N)) default_settings None) t n (20 * hour)).2.
Definition queued_direct : tables := queue asking_tables 0 (payment 1 (Some 500) None).
Definition queued_delegated : tables := queue asking_tables 0 (payment 2 (Some 300) (Some "del_200")).
(** The identifier of the one request in each. *)
Definition queued_id : uuid := 1003.
Definition approve_at : time := 20 * hour + minute.
Definition approve_request (t : tables) : result Exc AuthorizationRequestRecord * tables :=
  run_request (decide_owned_request 9 queued_id true approve_at (Some 50%N)) t 100 approve_at.

Example approve_direct : ar_status <$> (approve_request queued_direct).1 = Ok ReqApproved.
Proof. vm_compute. reflexivity. Qed.
Example approve_delegated : ar_reason <$> (approve_request queued_delegated).1 = Ok "Permission is not valid for this request".
Proof. vm_compute. reflexivity. Qed.


(** The keys of the queued tables, by evaluation. *)
Definition keyed_b (t : tables) : bool :=
  forallb (λ kr : uuid * AuthorizationRequestRecord, eqb (ar_id kr.2) kr.1) (map_to_list (requests t)).
Lemma keyed_b_sound t : keyed_b t = true → requests_keyed t.
Proof.
  intros Hb k r Hkr. unfold keyed_b in Hb. rewrite forallb_forall in Hb.
  apply elem_of_map_to_list, list_elem_of_In in Hkr. apply Hb in Hkr. simpl in Hkr. by reflect.
Qed.

Lemma decided_once_witness :
  ∃ rec' t', approve_request queued_direct = (Ok rec', t') ∧ approve_request t' = (Err RequestAlreadyDecided, t').
Proof.
  destruct (approve_request queued_direct) as [[rec'|e] t'] eqn:Hrun; [|by vm_compute in Hrun].
  exists rec', t'. split; [reflexivity|]. unfold approve_request in *.
  assert (Hk : requests_keyed queued_direct) by (apply keyed_b_sound; vm_compute; reflexivity).
  exact (decided_once _ _ _ _ _ _ _ _ _ _ Hk Hrun (or_introl (ex_intro _ rec' eq_refl)) _ _ _ _).
Defined.

Lemma foreign_permission_never_approved_witness :
  ∃ rec' t', approve_request queued_delegated = (Ok rec', t') ∧ ar_status rec' ≠ ReqApproved.
Proof.
  destruct (approve_request queued_delegated) as [[rec'|e] t'] eqn:Hrun; [|by vm_compute in Hrun].
  exists rec', t'. split; [reflexivity|].
  assert (Hids : ar_permission_id rec' = 100%N ∧ ar_agent_id rec' = 2%N)
    by (vm_compute in Hrun; injection Hrun as <- _; split; reflexivity).
  destruct Hids as [Hp Ha]. unfold approve_request in Hrun.
  apply (foreign_permission_never_approved _ _ _ _ _ _ _ _ _ _ (asking (sample_permission 100 1)) Hrun).
  - rewrite Hp. vm_compute. reflexivity.
  - rewrite Ha. discriminate.
Defined.

End RequestProps.
