(* ===== verification/Developer.v ===== *)
(** The developer API ([backend/app/services/developer.py] and the authorization
    handlers of [api/developer.py]): idempotent authorization requests under an API
    key, their metering, their signatures and webhooks, and the request log. *)

From Stdlib Require Import Ascii.
From S2P Require Import Prelude.
From S2P Require Import PyStr.
From S2P Require Import PyFloat.
From S2P Require Import PyVal.
From S2P Require Import PyDecimal.
From S2P Require Import AplParser.
From S2P Require Import Models.
From S2P Require Import Store.
From S2P Require Import PyCodec.
From S2P Require Import Samples.
From S2P Require Import SecurityEvents.
From S2P Require Import Canonical.
From S2P Require Import Soc.
From S2P Require Import SocProps.
From S2P Require Import Workspace.
From S2P Require Import Signing.
From S2P Require Import SigningProps.
From S2P Require Import Risk.
From S2P Require Import Notifications.
From S2P Require Import PlanLimits.
From S2P Require Import ApiKeys.
From S2P Require Import Webhooks.
From S2P Require Import WebhookProps.
From S2P Require Import Authorization.
From S2P Require Import Requests.

Local Open Scope string_scope.
Local Open Scope Z_scope.

Module Developer.
Import SecurityEvents Workspace Signing Notifications PlanLimits ApiKeys Webhooks Risk Authorization Requests.

Definition upd_developer_requests f : tables → tables := upd_identity (on_developer_requests f).
Definition developer_table (t : tables) : gmap uuid DeveloperRequest := developer_requests (identity t).

Record VerifiedAgentSignature : Type := MkVerified { vs_key_id : string; vs_version : string }.

(** The result of a stored request; the status of a queued one is a decision here. *)
Record resolved : Type := MkResolved {
  rv_request_id : string;
  rv_decision : string;
  rv_reason : string;
  rv_risk_level : option string;
  rv_risk_score : option Z
}.
Definition Decision_value (d : Decision) : string :=
  match d with APPROVED_D => "APPROVED" | REJECTED_D => "REJECTED" | PENDING_D => "PENDING" end.
Definition AuditDecision_value (d : AuditDecision) : string :=
  match d with AuditApproved => "APPROVED" | AuditRejected => "REJECTED" end.
Definition as_resolved (r : AuthorizationResult) : resolved :=
  MkResolved (rs_request_id r) (Decision_value (rs_decision r)) (rs_reason r) (rs_risk_level r) (rs_risk_score r).

Section developer.
Context `{Entropy} `{SecuritySinks} `{WebhookServices} `{Loaders} `{Ed25519}.

Definition _sha (value : string) : string := @sha256_hex wh_hashing value.
(** [payload.model_dump(mode="json")], keys sorted. *)
Definition payload_value (p : AuthorizationRequest) : pyval :=
  VDict [("action", VStr (rq_action p)); ("agent_id", VStr (rq_agent_id p));
    ("amount", Authorization.opt_str (dec_str <$> rq_amount p)); ("currency", Authorization.opt_str (rq_currency p));
    ("delegation_id", Authorization.opt_str (rq_delegation_id p)); ("resource", VStr (rq_resource p))].
Definition payload_hash (p : AuthorizationRequest) : string := _sha (canonical_json (payload_value p)).
Definition idempotency_hash (key : option string) : option string :=
  match key with Some k => if eqb k "" then None else Some (_sha k) | None => None end.

(** ** Stored results *)

Definition pending_of (request_id : string) (t : tables) : option AuthorizationRequestRecord :=
  scalar (λ r, eqb (ar_request_id r) request_id) (requests t).
Definition audit_of (request_id : string) (t : tables) : option AuditLog :=
  find_first (λ l, eqb (al_request_id l) request_id) (audit_logs t).
Definition assessment_of (request_id : string) (t : tables) : option RiskAssessment :=
  find_first (λ a, eqb (ra_request_id a) request_id) (assessments t).

Definition resolve_result (request_id : string) : DB resolved :=
  assessment ← query (assessment_of request_id);
  let level := RiskLevel_value ∘ ra_risk_level <$> assessment in
  let score := ra_risk_score <$> assessment in
  pending ← query (pending_of request_id);
  match pending with
  | Some r =>
      r ← (if eqb (ar_status r) ReqPending then
             agent ← Requests.agent_of r;
             now ← now_db;
             found ← get_owned_request (ar_user_id r) (ar_id r) (ag_organization_id agent) now;
             mret (default r found)
           else mret r);
      mret (MkResolved request_id (RequestStatus_value (ar_status r)) (ar_reason r) level score)
  | None =>
      audit ← get_or (audit_of request_id) DeveloperRequestNotFound;
      mret (MkResolved request_id (AuditDecision_value (al_decision audit)) (al_reason audit) level score)
  end.

(** ** Authorization *)

(** A reservation collides with one of the same key and idempotency hash. *)
Definition same_reservation (key : uuid) (hash : string) (r : DeveloperRequest) : bool :=
  eqb (dq_api_key_id r) key && eqb (dq_idempotency_hash r) (Some hash).
Definition reservation_of (key : uuid) (hash : string) (t : tables) : option DeveloperRequest :=
  scalar (same_reservation key hash) (developer_table t).
Definition reservation_ok (r : DeveloperRequest) (t : tables) : bool :=
  negb (is_some (developer_table t !! dq_id r)) &&
  match dq_idempotency_hash r with Some h => negb (is_some (reservation_of (dq_api_key_id r) h t)) | None => true end.

Definition sign_request (v : VerifiedAgentSignature) (r : AuthorizationRequestRecord) : AuthorizationRequestRecord :=
  {| ar_id := ar_id r; ar_request_id := ar_request_id r; ar_user_id := ar_user_id r; ar_agent_id := ar_agent_id r;
     ar_permission_id := ar_permission_id r; ar_environment := ar_environment r; ar_delegation_id := ar_delegation_id r;
     ar_parent_agent_id := ar_parent_agent_id r; ar_action := ar_action r; ar_resource := ar_resource r;
     ar_amount := ar_amount r; ar_currency := ar_currency r; ar_status := ar_status r; ar_reason := ar_reason r;
     ar_policy_reason := ar_policy_reason r; ar_risk_score := ar_risk_score r; ar_risk_level := ar_risk_level r;
     ar_risk_recommendation := ar_risk_recommendation r; ar_signature_verified := true;
     ar_signing_key_id := Some (vs_key_id v); ar_signature_version := Some (vs_version v);
     ar_created_at := ar_created_at r; ar_expires_at := ar_expires_at r; ar_decided_at := ar_decided_at r |}.
Definition sign_log (v : VerifiedAgentSignature) (l : AuditLog) : AuditLog :=
  {| al_id := al_id l; al_request_id := al_request_id l; al_environment := al_environment l; al_user_id := al_user_id l;
     al_organization_id := al_organization_id l; al_agent_id := al_agent_id l; al_agent_identifier := al_agent_identifier l;
     al_permission_id := al_permission_id l; al_delegation_id := al_delegation_id l; al_parent_agent_id := al_parent_agent_id l;
     al_action := al_action l; al_resource := al_resource l; al_amount := al_amount l; al_currency := al_currency l;
     al_decision := al_decision l; al_reason := al_reason l; al_risk_score := al_risk_score l;
     al_risk_level := al_risk_level l; al_risk_recommendation := al_risk_recommendation l; al_signature_verified := true;
     al_signing_key_id := Some (vs_key_id v); al_signature_version := Some (vs_version v);
     al_requested_at := al_requested_at l; al_created_at := al_created_at l |}.
Definition sign_result (signature : option VerifiedAgentSignature) (request_id : string) (t : tables) : tables :=
  match signature with
  | None => t
  | Some v =>
      match pending_of request_id t with
      | Some r => upd_requests <[ar_id r := sign_request v r]> t
      | None => upd_audit_logs (map (λ l, if eqb (al_request_id l) request_id then sign_log v l else l)) t
      end
  end.
Definition set_reservation_result (request_id : string) (r : DeveloperRequest) : DeveloperRequest :=
  MkDeveloperRequest (dq_id r) (dq_api_key_id r) (dq_idempotency_hash r) (dq_payload_hash r) (Some request_id) (dq_created_at r).
(** The reservation is still there and no other row has the request. *)
Definition result_ok (id : uuid) (request_id : string) (t : tables) : bool :=
  is_some (developer_table t !! id) && fits 28 request_id &&
  negb (is_some (scalar (λ r, eqb (dq_request_id r) (Some request_id)) (developer_table t))).

Definition answer_reserved (key : uuid) (hash digest : string) : DB resolved :=
  existing ← get_or (reservation_of key hash) IntegrityError;
  raise_if (negb (eqb (dq_payload_hash existing) digest)) IdempotencyConflict ;;
  match dq_request_id existing with
  | None => throw RequestInProgress
  | Some request_id => resolve_result request_id
  end.

(** Whether usage was consumed when the body raised. *)
Definition is_sandbox (k : APIKey) : bool := eqb (ak_environment k) "sandbox".
Definition consume (p : DeveloperPrincipal) : DB bool :=
  match ak_organization_id (dp_api_key p) with
  | Some org =>
      if is_sandbox (dp_api_key p) then mret false
      else consume_authorization_request org ;; mret true
  | None => mret false
  end.
Definition decide (p : DeveloperPrincipal) (payload : AuthorizationRequest) (settings : Settings)
    (ws : webhook_settings) (signature : option VerifiedAgentSignature) (reservation : uuid) : DB resolved :=
  let key := dp_api_key p in
  now ← now_db;
  result ← authorize_action (us_id (dp_user p)) payload now (InScope (ak_organization_id key)) settings (Some key);
  write (sign_result signature (rs_request_id result)) ;;
  insert_checked (result_ok reservation (rs_request_id result))
    (upd_developer_requests (alter (set_reservation_result (rs_request_id result)) reservation)) ;;
  commit ;;
  (if eqb (rs_decision result) PENDING_D then mret tt
   else deliver_decision_webhook ws (ak_organization_id key) (rs_request_id result) (Decision_value (rs_decision result))
          (is_sandbox key) ;; mret tt) ;;
  mret (as_resolved result).

(** The [except] clause: the reservation goes, the unit of usage is given back. *)
Definition abandon (p : DeveloperPrincipal) (reservation : uuid) (consumed : bool) (e : Exc) : DB resolved :=
  rollback ;;
  match consumed, ak_organization_id (dp_api_key p) with
  | true, Some org => release_authorization_request org
  | _, _ => mret tt
  end ;;
  stored ← query (λ t, developer_table t !! reservation);
  (if is_some stored then write (upd_developer_requests (delete reservation)) ;; commit else mret tt) ;;
  throw e.

Definition developer_authorize (p : DeveloperPrincipal) (payload : AuthorizationRequest) (idempotency_key : option string)
    (settings : Settings) (ws : webhook_settings) (signature : option VerifiedAgentSignature) : DB resolved :=
  let digest := payload_hash payload in
  let hash := idempotency_hash idempotency_key in
  let key := ak_id (dp_api_key p) in
  id ← fresh_uuid;
  now ← now_db;
  let reservation := MkDeveloperRequest id key hash digest None now in
  reserved ← try_except
    (insert_checked (reservation_ok reservation) (upd_developer_requests <[id := reservation]>) ;; commit ;; mret true)
    (λ e, if eqb e IntegrityError then rollback ;; mret false else throw e);
  if reserved : bool then
    consumed ← try_except (consume p) (λ e, abandon p id false e ;; mret false);
    try_except (decide p payload settings ws signature id) (abandon p id consumed)
  else
    match hash with
    | None => throw IntegrityError
    | Some hash => answer_reserved key hash digest
    end.

(** ** Reading *)

Definition get_developer_request (p : DeveloperPrincipal) (request_id : string) : DB resolved :=
  owned ← query (λ t, scalar (λ r, eqb (dq_api_key_id r) (ak_id (dp_api_key p)) &&
    eqb (dq_request_id r) (Some request_id)) (developer_table t));
  raise_if (negb (is_some owned)) DeveloperRequestNotFound ;;
  resolve_result request_id.

Record log_filters : Type := MkLogFilters {
  lf_environment : option string;
  lf_status : option string;
  lf_agent_id : option string;
  lf_request_id : option string;
  lf_limit : nat;
  lf_offset : nat
}.
(** A filter that is [None] or empty selects everything. *)
Definition passes (filter : option string) (p : string → bool) : bool :=
  match filter with Some f => eqb f "" || p f | None => true end.
Definition logged_key (user : uuid) (org : option uuid) (all : bool) (f : log_filters) (r : DeveloperRequest) (k : APIKey) : bool :=
  eqb (ak_organization_id k) org && is_some (dq_request_id r) &&
  (negb (negb (is_some org) || negb all) || eqb (ak_created_by_user_id k) user) &&
  passes (lf_environment f) (eqb (ak_environment k)) && passes (lf_request_id f) (λ i, eqb (dq_request_id r) (Some i)).
Definition log_rows (user : uuid) (org : option uuid) (all : bool) (f : log_filters) (t : tables) : list (DeveloperRequest * APIKey) :=
  let joined := omap (λ r, match keys t !! dq_api_key_id r with
    | Some k => if logged_key user org all f r k then Some (r, k) else None | None => None end)
    (order_desc dq_created_at dq_id (rows (developer_table t))) in
  take (lf_limit f) (drop (lf_offset f) joined).

(** The queued request or the log row that a request left, and its agent. *)
Inductive log_source : Type :=
  | FromPending (r : AuthorizationRequestRecord) (identifier : string)
  | FromAudit (l : AuditLog)
  | NoSource.
Definition source_of (request_id : string) (t : tables) : log_source :=
  match pending_of request_id t with
  | Some r => FromPending r match agents t !! ar_agent_id r with Some a => ag_identifier a | None => "" end
  | None => match audit_of request_id t with Some l => FromAudit l | None => NoSource end
  end.
Definition source_agent (s : log_source) : string :=
  match s with FromPending _ i => i | FromAudit l => al_agent_identifier l | NoSource => "unknown" end.
Definition source_agent_id (s : log_source) : string :=
  match s with
  | FromPending r _ => uuid_str (ar_agent_id r)
  | FromAudit l => match al_agent_id l with Some a => uuid_str a | None => "None" end
  | NoSource => ""
  end.
Definition source_action (s : log_source) : string :=
  match s with FromPending r _ => ar_action r | FromAudit l => al_action l | NoSource => "authorize" end.

Record log_entry : Type := MkLogEntry {
  le_result : resolved;
  le_agent_id : string;
  le_action : string;
  le_environment : string;
  le_api_key_prefix : string;
  le_created_at : time
}.
Definition log_item (f : log_filters) (rk : DeveloperRequest * APIKey) : DB (option log_entry) :=
  let request_id := default "" (dq_request_id rk.1) in
  result ← resolve_result request_id;
  source ← query (source_of request_id);
  mret (if passes (lf_status f) (λ s, eqb (py_upper (rv_decision result)) (py_upper s)) &&
           passes (lf_agent_id f) (λ a, existsb (eqb a) [source_agent source; source_agent_id source])
        then Some (MkLogEntry result (source_agent source) (source_action source) (ak_environment rk.2)
               (ak_key_prefix rk.2) (dq_created_at rk.1))
        else None).
Fixpoint collect (f : log_filters) (rows : list (DeveloperRequest * APIKey)) : DB (list log_entry) :=
  match rows with
  | [] => mret []
  | rk :: rows => item ← log_item f rk; rest ← collect f rows; mret (match item with Some e => e :: rest | None => rest end)
  end.
Definition developer_logs (user : uuid) (org : option uuid) (all : bool) (f : log_filters) : DB (list log_entry) :=
  found ← query (log_rows user org all f);
  collect f found.

(** Who may read the detail of a request. *)
Definition detail_row (request_id : string) (t : tables) : option (DeveloperRequest * APIKey) :=
  r ← scalar (λ r, eqb (dq_request_id r) (Some request_id)) (developer_table t);
  k ← keys t !! dq_api_key_id r;
  Some (r, k).
Definition detail_hidden (user : uuid) (org : option uuid) (all : bool) (k : APIKey) : bool :=
  negb (eqb (ak_organization_id k) org) && is_some org ||
  negb all && negb (eqb (ak_created_by_user_id k) user) && negb (is_some org).
Record log_detail : Type := MkLogDetail {
  ld_entry : log_entry;
  ld_resource : string;
  ld_amount : option string;
  ld_currency : option string;
  ld_signature_verified : bool;
  ld_signing_key_id : option string
}.
Definition get_developer_log_detail (user : uuid) (org : option uuid) (request_id : string) (all : bool) : DB (option log_detail) :=
  row ← query (detail_row request_id);
  match row with
  | None => mret None
  | Some (r, k) =>
      if detail_hidden user org all k then mret None
      else
        result ← resolve_result request_id;
        source ← query (source_of request_id);
        let entry := MkLogEntry result (source_agent source) (source_action source) (ak_environment k) (ak_key_prefix k)
          (dq_created_at r) in
        mret (Some match source with
          | FromPending r _ => MkLogDetail entry (ar_resource r) (dec_str <$> ar_amount r) (ar_currency r)
              (ar_signature_verified r) (ar_signing_key_id r)
          | FromAudit l => MkLogDetail entry (al_resource l) (dec_str <$> al_amount l) (al_currency l)
              (al_signature_verified l) (al_signing_key_id l)
          | NoSource => MkLogDetail entry "" None None false None
          end)
  end.

(** ** Handlers *)

(** The answers of the three rate limiters are arguments. *)
Record limiter_answers : Type := MkLimiters { la_failures : bool; la_events : bool }.

Definition failure_event (code : string) : string :=
  if eqb code "REPLAY_DETECTED" then "agent_replay_detected"
  else if eqb code "REQUEST_TIMESTAMP_INVALID" then "agent_timestamp_rejected" else "agent_signature_failed".
Definition signature_refused {A} (p : DeveloperPrincipal) (agent_id claimed_key : string) (limits : limiter_answers)
    (code : string) (status : Z) : DB A :=
  (if eqb code "REPLAY_PROTECTION_UNAVAILABLE" then mret tt
   else
     raise_if (negb (la_failures limits)) (HTTPException 429 "RATE_LIMIT_EXCEEDED") ;;
     (if la_events limits then
        record_event (event_args (failure_event code) None (ak_organization_id (dp_api_key p)) None
          (Some "Agent request identity verification failed") "warning"
          [("api_key_id", VStr (uuid_str (ak_id (dp_api_key p)))); ("agent_id", VStr agent_id);
           ("key_id", if KEY_ID_PATTERN claimed_key then VStr claimed_key else VNone)]) true ;; mret tt
      else mret tt)) ;;
  throw (HTTPException status code).

(** From the validated body on; [method], [path] and the headers are the request's. *)
Definition authorize (p : DeveloperPrincipal) (payload : AuthorizationRequest) (idempotency_key : option string)
    (settings : Settings) (ss : signing_settings) (env : replay_env) (ws : webhook_settings) (limits : limiter_answers)
    (headers : string → option string) (body method path : string) (raw_headers : list string) : DB resolved :=
  signed ← try_except
    (v ← verify_request (ak_organization_id (dp_api_key p)) (us_id (dp_user p)) ss env (rq_agent_id payload) headers body
      method path raw_headers; mret v)
    (λ e, match e with
          | SigningError code status =>
              signature_refused p (rq_agent_id payload) (default "" (headers "X-Agent-Key-ID")) limits code status
          | e => throw e end);
  try_except
    (developer_authorize p payload idempotency_key settings ws ((λ k, MkVerified k Canonical.SIGNATURE_VERSION) <$> signed))
    (λ e, if eqb e IdempotencyConflict then throw (HTTPException 409 "IDEMPOTENCY_CONFLICT")
          else if eqb e RequestInProgress then throw (HTTPException 409 "REQUEST_IN_PROGRESS") else throw e).

(** What the caller is told: reasons of a queued request are general, low risk is not shown. *)
Definition shown_reason (r : resolved) : string :=
  if eqb (rv_decision r) "PENDING" then
    if existsb (λ l, eqb (rv_risk_level r) (Some l)) ["HIGH"; "CRITICAL"] then "High risk — approval required"
    else "User approval required"
  else rv_reason r.
Definition shown_risk (r : resolved) : option string :=
  if existsb (λ l, eqb (rv_risk_level r) (Some l)) ["HIGH"; "CRITICAL"] then rv_risk_level r else None.
Definition _developer_response (r : resolved) : resolved :=
  MkResolved (rv_request_id r) (rv_decision r) (shown_reason r) (shown_risk r) None.

Definition request_status (p : DeveloperPrincipal) (request_id : string) : DB resolved :=
  raise_if (negb (String.length request_id =? 28)%nat || negb (startswith "req_" request_id)) (HTTPException 404 "NOT_FOUND") ;;
  r ← try_except (get_developer_request p request_id)
    (λ e, if eqb e DeveloperRequestNotFound then throw (HTTPException 404 "NOT_FOUND") else throw e);
  mret (_developer_response r).

Definition sees_all (w : WorkspaceContext) : bool := eqb (wc_role w) OWNER || eqb (wc_role w) ADMIN.
Definition get_logs (w : WorkspaceContext) (f : log_filters) : DB (list log_entry) :=
  require w "use_developer_tools" ;;
  developer_logs (wc_user_id w) (wc_organization_id w) (sees_all w) f.
Definition get_log_detail (w : WorkspaceContext) (request_id : string) : DB log_detail :=
  require w "use_developer_tools" ;;
  detail ← get_developer_log_detail (wc_user_id w) (wc_organization_id w) request_id (sees_all w);
  match detail with Some d => mret d | None => throw (HTTPException 404 "LOG_NOT_FOUND") end.

Definition request_production_access (w : WorkspaceContext) : DB string :=
  raise_if (negb (eqb (wc_role w) OWNER)) (HTTPException 403 "FORBIDDEN") ;;
  org ← get_or (λ t, wc_organization_id w ≫= λ o, organizations (identity t) !! o) (HTTPException 404 "ORGANIZATION_NOT_FOUND");
  if eqb (og_production_access_status org) "APPROVED" then mret "APPROVED"
  else
    write (upd_identity (on_organizations (alter (λ o, MkOrganization (og_id o) (og_created_at o) (og_name o) (og_owner_id o)
      (og_is_active o) "REQUESTED") (og_id org)))) ;;
    record_event (event_args "production_access.requested" (Some (wc_user_id w)) (Some (og_id org)) None
      (Some ("Production access requested by owner for " +:+ og_name org)) "info" []) true ;;
    commit ;;
    mret "REQUESTED".
End developer.
End Developer.

(** What the developer API promises about its idempotency keys ([Developer]), where it
    does not keep the promise, and what its log shows to whom. *)

Local Open Scope string_scope.
Local Open Scope Z_scope.

Module DeveloperProps.
Import SecurityEvents Workspace Signing SigningProps ApiKeys Webhooks WebhookProps Risk Authorization Requests Developer.

Section replay.
Context `{Entropy} `{SecuritySinks} `{WebhookServices} `{Loaders} `{Ed25519}.

(** A request that repeats the key of an earlier one is not decided again: with the
    same content it is answered from the stored result, or told that the first is still
    in progress, and with other content it is refused; the tables it is answered from
    are the committed ones. *)
Theorem repeated_key_not_decided p payload key h settings ws signature r s :
  dead s = false → idempotency_hash key = Some h → reservation_of (ak_id (dp_api_key p)) h (cur s) = Some r →
  cur s = committed s →
  developer_authorize p payload key settings ws signature s =
  if eqb (dq_payload_hash r) (payload_hash payload) then
    match dq_request_id r with
    | Some request_id => resolve_result request_id (next_seed s)
    | None => (Err RequestInProgress, next_seed s)
    end
  else (Err IdempotencyConflict, next_seed s).
Proof.
  intros Hd Hh Hr Hc. unfold developer_authorize. rewrite bind_fresh_uuid, bind_now. cbv zeta.
  set (row := MkDeveloperRequest _ _ _ _ _ _). rewrite bind_run.
  lazymatch goal with |- context [match ?m (next_seed s) with _ => _ end] =>
    assert (Hres : m (next_seed s) = (Ok false, next_seed s)) end.
  { unfold try_except. rewrite bind_insert by exact Hd. unfold reservation_ok. subst row. cbn [dq_id dq_idempotency_hash dq_api_key_id].
    rewrite Hh. cbn [cur next_seed]. rewrite Hr. cbn [is_some negb]. rewrite andb_false_r. cbn [eqb].
    rewrite eqb_refl, bind_rollback. cbn. destruct s as [c cm d n now]. cbn in *. by subst. }
  rewrite Hres, Hh. unfold answer_reserved. rewrite bind_get_or. cbn [cur next_seed]. rewrite Hr, bind_raise_if.
  destruct (eqb (dq_payload_hash r) (payload_hash payload)); cbn [negb]; [|done]. by destruct (dq_request_id r).
Qed.
End replay.

(** ** Samples *)

Local Existing Instance AplParser.fixed_loaders.
Local Existing Instance SocProps.no_services.
Local Existing Instance SocProps.no_ambient.
Local Existing Instance Siem.soc_sinks.
Local Existing Instance repeating_scheme.

Definition live_key : APIKey := sample_api_key 400 50 9 "k" KeyActive.
Definition shop : DeveloperPrincipal := MkPrincipal live_key (sample_user 9) (Some (sample_org 50 9)).
(** Organization 50 with a plan, a key, a webhook, and an agent that may pay. *)
Definition shop_tables : tables :=
  upd_agents (λ _, keyed ag_id [sample_agent 1]) (upd_permissions (λ _, keyed pm_id [sample_permission 100 1])
    (upd_identity (on_plans (λ _, keyed sp_id [sample_plan (Some 9)]))
      (upd_endpoints (λ _, keyed we_id [endpoint_50])
        (account_tables [sample_user 9] [sample_org 50 9] [] [live_key])))).
Definition pays : AuthorizationRequest := MkRequest "agent-1" "pay" "invoices" (Some (Dec 500 0)) (Some "USD") None.

Definition developer_step `{WebhookServices} (t : tables) (n : nat) : result Exc resolved * tables :=
  run_request (developer_authorize shop pays (Some "order-1") default_settings worker_settings None) t n (20 * hour).
Definition logged (t : tables) : list (string * AuditDecision) := map (λ l, (al_request_id l, al_decision l)) (audit_logs t).

Section answered.
Local Existing Instance down.
Lemma open_same t n now : cur (open_session t n now) = committed (open_session t n now).
Proof. reflexivity. Defined.
Lemma open_alive t n now : dead (open_session t n now) = false.
Proof. reflexivity. Defined.
(** The receiver answers with an HTTP error: the decision stands, and the key repeats it. *)
Lemma repeated_key_not_decided_witness :
  let t1 := (developer_step shop_tables 0).2 in
  let s := open_session t1 100 (20 * hour) in
  ∃ r request_id, reservation_of 400 "order-1" t1 = Some r ∧ dq_request_id r = Some request_id ∧
    developer_authorize shop pays (Some "order-1") default_settings worker_settings None s = resolve_result request_id (next_seed s) ∧
    logged t1 = [(request_id, AuditApproved)].
Proof.
  intros t1 s.
  assert (Hr : ∃ r request_id, reservation_of 400 "order-1" t1 = Some r ∧ dq_request_id r = Some request_id ∧
    dq_payload_hash r = payload_hash pays ∧ logged t1 = [(request_id, AuditApproved)])
    by (eexists _, _; split_and!; vm_compute; reflexivity).
  assert (Hh : idempotency_hash (Some "order-1") = Some "order-1") by (vm_compute; reflexivity).
  destruct Hr as (r & request_id & Hr & Hid & Hp & Hlog). exists r, request_id. split_and!; [exact Hr | exact Hid | | exact Hlog].
  rewrite (repeated_key_not_decided shop pays (Some "order-1") "order-1" default_settings worker_settings None r s (open_alive _ _ _)
    Hh Hr (open_same _ _ _)).
  by rewrite Hp, eqb_refl, Hid.
Defined.
End answered.

(** The receiver makes the client raise something else, an invalid URL for example.  The
    decision is committed, yet the reservation of the key is deleted: the same request
    with the same key is decided, logged and metered again. *)
Section raised.
Local Existing Instance broken.
Example webhook_error_decides_twice :
  let '(r1, t1) := developer_step shop_tables 0 in
  let '(r2, t2) := developer_step t1 100 in
  r1 = Err (PyError ValueError) ∧ r2 = Err (PyError ValueError) ∧
  length (audit_logs t1) = 1%nat ∧ length (audit_logs t2) = 2%nat ∧
  forallb (λ l, eqb (al_decision l) AuditApproved) (audit_logs t2) = true ∧ NoDup (map al_request_id (audit_logs t2)).
Proof. vm_compute. split_and!; try reflexivity. by apply (bool_decide_unpack _). Qed.
End raised.

(** ** The log

    In a personal workspace every caller counts as owner, and the detail of a request is
    not compared with the organization of its key: whoever knows its identifier reads it. *)
Section log.
Local Existing Instance down.
Definition outsider : WorkspaceContext := MkContext 77 None OWNER None.
Example log_detail_leaks_across_tenants :
  let t1 := (developer_step shop_tables 0).2 in
  map fst (logged t1) = ["req_tok3"] ∧
  resolve_workspace 77 None t1 = Some outsider ∧ resolve_workspace 77 (Some 50%N) t1 = None ∧
  (λ d, (ld_resource d, ld_amount d)) <$> (run_request (get_log_detail outsider "req_tok3") t1 100 (20 * hour)).1
    = Ok ("invoices", Some "500.0000").
Proof. vm_compute. by split_and!. Qed.
End log.
End DeveloperProps.
