(* ===== verification/System.v ===== *)
(** The decision service as a whole: whatever sequence of authorization requests,
    owner decisions, listings and look-ups it serves, the audit log is append-only,
    no request identifier is logged twice, and every decided request has its log
    entry. *)

From Stdlib Require Import Ascii.
From S2P Require Import Prelude.
From S2P Require Import PyStr.
From S2P Require Import PyFloat.
From S2P Require Import PyVal.
From S2P Require Import PyDecimal.
From S2P Require Import Models.
From S2P Require Import Schemas.
From S2P Require Import Store.
From S2P Require Import Samples.
From S2P Require Import Lifecycle.
From S2P Require Import Permissions.
From S2P Require Import Delegation.
From S2P Require Import DelegationProps.
From S2P Require Import DelegationInv.
From S2P Require Import Revocation.
From S2P Require Import Risk.
From S2P Require Import Notifications.
From S2P Require Import NotificationProps.
From S2P Require Import Authorization.
From S2P Require Import AuthorizationProps.
From S2P Require Import Requests.
From S2P Require Import RequestProps.

Local Open Scope Z_scope.

Module Ledger.
Import Risk Notifications NotificationProps Authorization AuthorizationProps Requests RequestProps.

(** ** The invariant and the step relation *)

(** The log entry of a decided request. *)
Definition entry_of (r : AuthorizationRequestRecord) (l : AuditLog) : Prop :=
  al_request_id l = ar_request_id r ∧ al_decision l = status_decision (ar_status r) ∧ al_reason l = ar_reason r ∧
  al_permission_id l = Some (ar_permission_id r) ∧ al_agent_id l = Some (ar_agent_id r).

Definition ledger (t : tables) : Prop :=
  NoDup (map al_request_id (audit_logs t)) ∧ requests_keyed t ∧
  ∀ k r, requests t !! k = Some r → ar_status r ≠ ReqPending → ∃ l, l ∈ audit_logs t ∧ entry_of r l.

(** What is asked for does not change; what was decided does not change at all. *)
Definition request_le (r r' : AuthorizationRequestRecord) : Prop :=
  (ar_status r ≠ ReqPending → r' = r) ∧
  ∃ st reason at_, r' = set_ar_decision st reason at_ r.
#[export] Instance request_le_preorder : PreOrder request_le.
Proof.
  split.
  - intros r. split; [done|]. exists (ar_status r), (ar_reason r), (ar_decided_at r). by destruct r.
  - intros r1 r2 r3 [D12 (s & e & a & ->)] [D23 (s' & e' & a' & ->)]. split.
    + intros Hs. specialize (D12 Hs). rewrite D12 in D23 |- *. by apply D23.
    + by exists s', e', a'.
Qed.

Definition history (t t' : tables) : Prop :=
  audit_logs t `prefix_of` audit_logs t' ∧
  ∀ k r, requests t !! k = Some r → ∃ r', requests t' !! k = Some r' ∧ request_le r r'.
#[export] Instance history_preorder : PreOrder history.
Proof.
  split.
  - intros t. split; [done|]. intros k r Hr. exists r. by split.
  - intros t1 t2 t3 [L12 R12] [L23 R23]. split; [by etrans|].
    intros k r (r2 & H2 & Hle)%R12. apply R23 in H2 as (r3 & H3 & Hle'). exists r3. split; [done | by etrans].
Qed.

Definition step (t t' : tables) : Prop := ledger t → ledger t' ∧ history t t'.
#[export] Instance step_preorder : PreOrder step.
Proof.
  split; [by intros t Ht|]. intros t1 t2 t3 H12 H23 H1.
  destruct (H12 H1) as [H2 h12]. destruct (H23 H2) as [H3 h23]. split; [done | by etrans].
Qed.

Lemma undecided_step t t' : undecided t t' → step t t'.
Proof.
  intros [Hl Hr] (Hnd & Hk & Hd). unfold ledger, history, requests_keyed. rewrite Hl, Hr.
  split; [done|]. split; [done|]. intros k r Hkr. exists r. by split.
Qed.

Lemma snoc_nodup (logs : list AuditLog) l :
  NoDup (map al_request_id logs) → (∀ b, b ∈ logs → al_request_id b ≠ al_request_id l) →
  NoDup (map al_request_id (logs ++ [l])).
Proof.
  intros Hnd Hnew. rewrite map_app. apply NoDup_app. split; [done|]. split; [|apply NoDup_singleton].
  intros x (b & -> & Hb)%list_elem_of_fmap. simpl. rewrite list_elem_of_singleton. by apply Hnew.
Qed.

Lemma recorded_step request t t' res : recorded request t t' res → step t t'.
Proof.
  unfold recorded, describes. intros Hrec (Hnd & Hk & Hd). destruct (rs_decision res).
  1, 2: destruct Hrec as (Hr & l & Hl & _ & Hnew); unfold ledger, history, requests_keyed; rewrite Hr, Hl;
    split_and!; try done; [by apply snoc_nodup | | by eexists | by intros k r Hkr; exists r; split].
  1, 2: intros k r Hkr Hst; destruct (Hd k r Hkr Hst) as (l' & Hin & He); exists l'; split; [|done];
    apply elem_of_app; by left.
  destruct Hrec as (Hl & r & Hnone & Hr & Hst & _). unfold ledger, history, requests_keyed. rewrite Hr, Hl.
  split_and!; try done.
  - intros k x Hx. apply lookup_insert_Some in Hx as [[<- <-]|[_ Hx]]; [done | by apply Hk].
  - intros k x Hx Hs. apply lookup_insert_Some in Hx as [[_ <-]|[_ Hx]]; [done | by eapply Hd].
  - intros k x Hx. exists x. split; [|done]. rewrite lookup_insert_ne; [done|]. congruence.
Qed.

Lemma decided_step t t' r l st reason at_ :
  requests t !! ar_id r = Some r → ar_status r = ReqPending → st ≠ ReqPending →
  decided t t' r (set_ar_decision st reason (Some at_) r) l → step t t'.
Proof.
  intros Hr Hp Hst (Hreq & Hl & _ & _ & _ & Hnew & Hid & Hdec & Hreason & Hpm & Hag) (Hnd & Hk & Hd).
  unfold ledger, history, requests_keyed. rewrite Hreq, Hl. split_and!.
  - by apply snoc_nodup.
  - intros k x Hx. apply lookup_insert_Some in Hx as [[<- <-]|[_ Hx]]; [done | by apply Hk].
  - intros k x Hx Hs. apply lookup_insert_Some in Hx as [[_ <-]|[_ Hx]].
    + exists l. split; [apply elem_of_app; right; by apply list_elem_of_singleton | done].
    + destruct (Hd k x Hx Hs) as (l' & Hin & He). exists l'. split; [|done]. apply elem_of_app. by left.
  - by eexists.
  - intros k x Hx. destruct (decide (k = ar_id r)) as [->|Hne].
    + exists (set_ar_decision st reason (Some at_) r). rewrite lookup_insert_eq. split; [done|].
      rewrite Hr in Hx. injection Hx as <-. split; [by rewrite Hp | by eexists _, _, _].
    + exists x. by rewrite lookup_insert_ne by done.
Qed.

(** ** Expiring several requests *)

Section expiry.
Context `{Entropy} `{SecuritySinks}.

(** The requests are all there, pending and distinct. *)
Definition pending_rows (t : tables) (l : list AuthorizationRequestRecord) : Prop :=
  NoDup (map ar_id l) ∧ ∀ r, r ∈ l → requests t !! ar_id r = Some r ∧ ar_status r = ReqPending.

Lemma pending_rows_tail t t' r r' x l :
  decided t t' r r' x → pending_rows t (r :: l) → pending_rows t' l.
Proof.
  intros (Hreq & _) [Hnd Hin]. inversion_clear Hnd as [|? ? Hnot Hnd']. split; [done|].
  intros q Hq. destruct (Hin q) as [Hrow Hp]; [by right|]. split; [|done].
  rewrite Hreq, lookup_insert_ne; [done|]. intros Heq. apply Hnot, list_elem_of_fmap.
  exists q. split; [by symmetry | done].
Qed.

Lemma expire_all l at_ s :
  dead s = false → pending_rows (cur s) l →
  match for_each (λ r, _finalize r ReqExpired "Request expired" at_ ;; mret tt) l s with
  | (Ok _, s') => dead s' = false ∧ committed s' = committed s ∧ step (cur s) (cur s')
  | (Err _, s') => committed s' = committed s
  end.
Proof.
  revert s. induction l as [|r l IH]; intros s Hs Hrows; [done|]. cbn [for_each].
  destruct (proj2 Hrows r ltac:(left)) as [Hr Hp]. rewrite bind_assoc, bind_run.
  destruct (finalize_run r ReqExpired "Request expired" at_ s Hs)
    as [(x & t' & n' & -> & Hdec)|(e & s' & -> & Hc & _)]; [|done].
  rewrite bind_ret. set (s1 := MkSession t' (committed s) false n' (db_now s)).
  specialize (IH s1 eq_refl (pending_rows_tail _ _ _ _ _ _ Hdec Hrows)).
  assert (Hstep : step (cur s) t') by by apply (decided_step _ _ r x ReqExpired "Request expired" at_).
  destruct (for_each _ l s1) as [[[]|e] s2]; [|done].
  destruct IH as (Hs2 & Hc & Hst). split_and!; [done | done | by etrans].
Qed.

Lemma overdue_rows t owner at_ org :
  requests_keyed t → pending_rows t (select_rows (overdue t owner at_ org) (requests t)).
Proof.
  intros Hk. split.
  - unfold select_rows, rows. assert (Hnd : NoDup (map ar_id (map_to_list (requests t)).*2)).
    { assert (map ar_id (map_to_list (requests t)).*2 = (map_to_list (requests t)).*1) as ->; [|apply NoDup_fst_map_to_list].
      rewrite <- list_fmap_compose. apply list_fmap_ext. intros _ [k r] Hin%list_elem_of_lookup_2.
      apply elem_of_map_to_list, Hk in Hin. done. }
    revert Hnd. generalize ((map_to_list (requests t)).*2). intros l. induction l as [|r l IH]; [done|]. simpl.
    intros Hnd. inversion_clear Hnd as [|? ? Hnot Hnd']. destruct (overdue t owner at_ org r); [|by apply IH].
    simpl. constructor; [|by apply IH]. intros (q & Heq & Hq)%list_elem_of_fmap.
    apply elem_of_select_where in Hq as [Hq _]. apply Hnot, list_elem_of_fmap. by exists q.
  - intros r [[k Hkr] Hov]%elem_of_select_rows. unfold overdue in Hov. reflect.
    rewrite (Hk _ _ Hkr). split; [done | tauto].
Qed.

(** A handler that keeps the ledger, from a fresh session. *)
Definition keeps_ledger {A} (m : DB A) : Prop :=
  ∀ t n now, requests_keyed t → step t (committed (m (open_session t n now)).2).

Lemma expire_records_run t owner at_ org n now :
  requests_keyed t →
  match _expire_records owner at_ org (open_session t n now) with
  | (Ok _, s') => step t (committed s') ∧ (committed s' = t ∨ cur s' = committed s')
  | (Err _, s') => committed s' = t
  end.
Proof.
  intros Hk. unfold _expire_records. exec.
  pose proof (expire_all _ at_ (open_session t n now) eq_refl (overdue_rows t owner at_ org Hk)) as Hall.
  set (l := select_rows _ _) in *. rewrite bind_run.
  destruct (for_each _ l _) as [[[]|e] s1]; [|done]. destruct Hall as (Hs & Hc & Hst).
  destruct l as [|r l]; simpl.
  - rewrite Hc. split; [reflexivity | by left].
  - unfold commit. rewrite Hs. simpl. split; [done | by right].
Qed.

Lemma list_keeps owner f org now : keeps_ledger (list_owned_requests owner f org now).
Proof.
  intros t n dbnow Hk. unfold list_owned_requests. pose proof (expire_records_run t owner now org n dbnow Hk) as Hx.
  rewrite bind_run. destruct (_expire_records _ _ _ _) as [[[]|e] s1]; simpl; [tauto | by rewrite Hx].
Qed.

Lemma get_keeps owner rid org now : keeps_ledger (get_owned_request owner rid org now).
Proof.
  intros t n dbnow Hk. unfold get_owned_request. pose proof (expire_records_run t owner now org n dbnow Hk) as Hx.
  rewrite bind_run. destruct (_expire_records _ _ _ _) as [[[]|e] s1]; simpl; [tauto | by rewrite Hx].
Qed.

Lemma decide_keeps owner rid approve at_ org : keeps_ledger (decide_owned_request owner rid approve at_ org).
Proof.
  intros t n now Hk. destruct (decide_owned_request _ _ _ _ _ _) as [r s'] eqn:Hrun. simpl.
  destruct (decide_run owner rid approve at_ org t n now r (committed s'))
    as [(-> & _)|(rec & st & reason & l & (_ & _ & k & Hkr) & Hp & Hst & Hdec & _)].
  - unfold run_request. by rewrite Hrun.
  - reflexivity.
  - eapply decided_step; try done. by rewrite (Hk _ _ Hkr).
Qed.

Lemma authorize_keeps owner request at_ sc settings key :
  keeps_ledger (authorize_action owner request at_ sc settings key).
Proof.
  intros t n now _. pose proof (decides_authorize request owner at_ sc settings key (open_session t n now)
    ltac:(reflexivity)) as Hd.
  destruct (authorize_action _ _ _ _ _ _ _) as [[res|e] s']; simpl in *;
    [by eapply recorded_step | by apply undecided_step].
Qed.
End expiry.

(** ** Traces *)

Inductive decision_request : Type :=
  | RAuthorize (owner : uuid) (request : AuthorizationRequest) (sc : scope_arg) (settings : Settings) (key : option APIKey)
  | RDecide (owner rid : uuid) (approve : bool) (org : option uuid)
  | RList (owner : uuid) (f : AuthorizationRequestFilters) (org : option uuid)
  | RGet (owner rid : uuid) (org : option uuid).

Definition handle_decision `{Entropy} `{SecuritySinks} (t : tables) (n : nat) (now : time) (r : decision_request) : tables :=
  match r with
  | RAuthorize owner request sc settings key =>
      (run_request (authorize_action owner request now sc settings key) t n now).2
  | RDecide owner rid approve org => (run_request (decide_owned_request owner rid approve now org) t n now).2
  | RList owner f org => (run_request (list_owned_requests owner f org now) t n now).2
  | RGet owner rid org => (run_request (get_owned_request owner rid org now) t n now).2
  end.

Definition decision_trace `{Entropy} `{SecuritySinks} (t : tables) (rs : list (nat * time * decision_request)) : tables :=
  foldl (λ t '(n, now, r), handle_decision t n now r) t rs.

Lemma run_request_committed {A} (m : DB A) t n now : (run_request m t n now).2 = committed (m (open_session t n now)).2.
Proof. unfold run_request. by destruct (m _). Qed.

(** C4. Whatever the decision service is asked to do, in any order, the log
    only grows, no request identifier is logged twice, every request that has
    been decided has a log entry with its decision and reason, and a stored
    request keeps what it asked for and, once decided, never changes again. *)
Theorem ledger_invariant `{Entropy} `{SecuritySinks} t rs :
  ledger t → ledger (decision_trace t rs) ∧ history t (decision_trace t rs).
Proof.
  revert t. induction rs as [|[[n now] r] rs IH]; intros t Ht; [by split|].
  unfold decision_trace. cbn [foldl].
  assert (Hone : step t (handle_decision t n now r)).
  { destruct r; unfold handle_decision; rewrite run_request_committed;
      [apply authorize_keeps | apply decide_keeps | apply list_keeps | apply get_keeps]; apply Ht. }
  destruct (Hone Ht) as [H1 h1]. destruct (IH _ H1) as [H2 h2]. split; [done | by etrans].
Qed.

(** An approved payment, one queued for approval, and what became of it. *)
Definition sample_trace : list (nat * time * decision_request) :=
  [(0%nat, 20 * hour, RAuthorize 9 (payment 1 (Some 500) None) (InScope (Some 50%N)) default_settings None);
   (100%nat, 20 * hour + minute, RAuthorize 9 (payment 1 (Some 1001) None) (InScope (Some 50%N)) default_settings None);
   (200%nat, 20 * hour + 2 * minute, RAuthorize 9 (payment 2 (Some 950) (Some "del_200"%string)) (InScope (Some 50%N)) default_settings None);
   (300%nat, 20 * hour + 3 * minute, RList 9 (MkRequestFilters None 1 20) (Some 50%N))].

Lemma sample_ledger : ledger sample_tables.
Proof. split_and!; [apply NoDup_nil_2 | intros k r Hr; done | intros k r Hr; done]. Qed.

Lemma ledger_invariant_witness :
  ledger (decision_trace sample_tables sample_trace) ∧
  length (audit_logs (decision_trace sample_tables sample_trace)) = 3%nat.
Proof.
  split; [|vm_compute; reflexivity].
  exact (proj1 (ledger_invariant sample_tables sample_trace sample_ledger)).
Defined.
End Ledger.

(** The services together: the lifecycle, permission, delegation and decision
    services serve requests in any order on the same tables.  The invariant of
    stored delegations survives all of them, so authority never grows: whatever
    happened before, what a delegation grants is bounded by every delegation
    above it and by its root permission. *)

Local Open Scope Z_scope.

Module System.
Import Lifecycle Permissions Delegation DelegationProps DelegationInv Revocation Risk Notifications
  NotificationProps Authorization AuthorizationProps Requests Ledger.

(** ** What every step keeps *)

(** Stored delegations stay, with their links and their terms. *)
Definition grants_kept (t t' : tables) : Prop :=
  ∀ k d, delegations t !! k = Some d → ∃ d', delegations t' !! k = Some d' ∧ same_link d d'.
#[export] Instance grants_kept_preorder : PreOrder grants_kept.
Proof.
  split; [intros t k d Hk; by exists d|]. intros t1 t2 t3 H12 H23 k d (d2 & H2 & L12)%H12.
  apply H23 in H2 as (d3 & H3 & L23). exists d3. split; [done | by etrans].
Qed.

Definition sound_step (t t' : tables) : Prop := well_formed t → well_formed t' ∧ grants_kept t t'.
#[export] Instance sound_step_preorder : PreOrder sound_step.
Proof.
  split; [intros t Ht; by split|]. intros t1 t2 t3 H12 H23 H1.
  destruct (H12 H1) as [H2 g12]. destruct (H23 H2) as [H3 g23]. split; [done | by etrans].
Qed.

Lemma terms_kept_step t t' : (well_formed t → terms_kept t t') → sound_step t t'.
Proof.
  intros H Hwf. specialize (H Hwf). split; [by eapply terms_kept_well_formed|].
  intros k d. apply (tk_rows _ _ H).
Qed.

(** Steps on other tables. *)
Definition frame (t t' : tables) : Prop :=
  agents t' = agents t ∧ permissions t' = permissions t ∧ delegations t' = delegations t.

Lemma frame_step t t' : frame t t' → sound_step t t'.
Proof.
  intros (Ha & Hp & Hd). apply terms_kept_step. intros Hwf. constructor; rewrite ?Ha, ?Hp, ?Hd.
  - intros k d Hk. exists d. split; [done | reflexivity].
  - intros k d Hk. exists d. split; [done | reflexivity].
  - intros k p Hk. exists p. by split_and!.
  - intros k p Hk. split; [by apply (wf_permission_keys _ Hwf) | by apply (wf_permission_grid _ Hwf k)].
  - apply (wf_agent_keys _ Hwf).
Qed.

(** Writing an agent under its identifier. *)
Lemma agent_step a t : sound_step t (upd_agents <[ag_id a := a]> t).
Proof.
  apply terms_kept_step. intros Hwf. constructor; simpl.
  - intros k d Hk. exists d. split; [done | reflexivity].
  - intros k d Hk. exists d. split; [done | reflexivity].
  - intros k p Hk. exists p. by split_and!.
  - intros k p Hk. split; [by apply (wf_permission_keys _ Hwf) | by apply (wf_permission_grid _ Hwf k)].
  - intros k b Hb. apply lookup_insert_Some in Hb as [[<- <-]|[_ Hb]]; [done | by apply (wf_agent_keys _ Hwf)].
Qed.

(** Changing the status of some delegations. *)
Lemma delegation_status_step p f t :
  (∀ d, same_link d (f d)) → sound_step t (upd_delegations (update_where p f) t).
Proof.
  intros Hf. apply terms_kept_step. intros Hwf. constructor; simpl.
  - intros k d'. rewrite lookup_update_where. destruct (delegations t !! k) as [d|]; [|done].
    simpl. intros [= <-]. exists d. split; [done|]. destruct (p d); [apply Hf | reflexivity].
  - intros k d Hk. rewrite lookup_update_where, Hk. simpl. eexists. split; [done|].
    destruct (p d); [apply Hf | reflexivity].
  - intros k q Hk. exists q. by split_and!.
  - intros k q Hk. split; [by apply (wf_permission_keys _ Hwf) | by apply (wf_permission_grid _ Hwf k)].
  - apply (wf_agent_keys _ Hwf).
Qed.

(** The permission service's steps, in terms of its own relation. *)
Lemma permission_step t t' : evolve_keyed t t' → sound_step t t'.
Proof.
  intros He. apply terms_kept_step. intros Hwf.
  assert (Hk : permissions_keyed t)
    by (intros k p Hp; split; [by apply (wf_permission_keys _ Hwf) | by apply (wf_permission_grid _ Hwf k)]).
  destruct (He Hk) as [Hk' (Hev & Ha & Hd & _)]. constructor; rewrite ?Ha, ?Hd.
  - intros k d Hkd. exists d. split; [done | reflexivity].
  - intros k d Hkd. exists d. split; [done | reflexivity].
  - intros k p (p' & Hp' & (Eid & Eow & Eag & Eac & Ere & Emx & Ecu & Erq & Eal & Evf & Eex) & _)%Hev.
    exists p'. split_and!; [done | | done | done]. unfold permission_bounds. congruence.
  - done.
  - apply (wf_agent_keys _ Hwf).
Qed.

(** ** The handlers *)

Lemma notification_frame t t' : same_decisions t t' → frame t t'.
Proof. unfold same_decisions, frame. tauto. Qed.

Section handlers.
Context `{Entropy} `{SecuritySinks}.

Lemma write_frame f : (∀ t, frame t (f t)) → respects (evolves sound_step) (write f).
Proof. intros Hf. apply evolves_write; [apply _|]. intros t. by apply frame_step. Qed.
Lemma insert_frame ok f : (∀ t, frame t (f t)) → respects (evolves sound_step) (insert_checked ok f).
Proof. intros Hf. apply evolves_insert; [apply _|]. intros t _. by apply frame_step. Qed.

Lemma lifecycle_sound agent target who why bypass now :
  respects (evolves sound_step) (transition_lifecycle agent target who why bypass now).
Proof.
  unfold transition_lifecycle, get_governance_policy, apply_status, execute_retirement_cleanup, save_agent,
    add_security_event.
  walk; first [by apply write_frame | by apply insert_frame
    | apply evolves_write; [apply _ | intros t; apply agent_step]
    | apply evolves_write; [apply _ | intros t; by apply delegation_status_step]].
Qed.

Lemma create_notification_sound a :
  na_type a ≠ SECURITY_ALERT → respects (evolves sound_step) (create_notification a).
Proof.
  intros Ha.
  assert (Hnew : respects (evolves sound_step) (create_new a)).
  { unfold create_new, get_preferences, queue_deliveries, add_delivery. cbv zeta.
    walk; first [by apply write_frame | by apply insert_frame | rewrite alert_event_quiet by done; walk]. }
  unfold create_notification. walk; exact Hnew.
Qed.

Lemma save_audit_sound owner request ev at_ rid c risk sc :
  respects (evolves sound_step) (_save_audit_log owner request ev at_ rid c risk sc).
Proof. unfold _save_audit_log, generate_request_id, add_audit_log. walk; by apply insert_frame. Qed.

Lemma save_pending_sound request p at_ rid risk forced reason sc agent :
  respects (evolves sound_step) (_save_pending_request request p at_ rid risk forced reason sc agent).
Proof.
  unfold _save_pending_request.
  walk; [by apply insert_frame | apply create_notification_sound; by destruct forced].
Qed.

Lemma complete_sound owner request p at_ org settings key d force acting :
  respects (evolves sound_step) (_complete_or_queue owner request p at_ org settings key d force acting).
Proof.
  unfold _complete_or_queue, generate_request_id, evaluate_and_save, get_or_create_policy. cbv zeta.
  walk; first [by apply insert_frame | apply save_audit_sound | apply save_pending_sound
    | rewrite apl_stage_idle; walk].
Qed.

Lemma expire_sound owner at_ org : respects (evolves sound_step) (expire_owned_permissions owner at_ org).
Proof.
  unfold expire_owned_permissions. walk. apply evolves_write; [apply _|]. intros t.
  apply permission_step, evolve_update_where. unfold due. intros q Hq. reflect. tauto.
Qed.

Lemma authorize_sound owner request at_ sc settings key :
  respects (evolves sound_step) (authorize_action owner request at_ sc settings key).
Proof.
  unfold authorize_action, authorize_delegated, authorize_direct. cbv zeta.
  walk; first [apply save_audit_sound | apply complete_sound | apply expire_sound
    | apply evolves_write; [apply _ | intros t; apply agent_step]].
Qed.

Lemma finalize_sound r st reason at_ : respects (evolves sound_step) (_finalize r st reason at_).
Proof.
  unfold _finalize, agent_of, _audit_final_decision, add_audit_log. cbv zeta.
  walk; first [by apply insert_frame | apply create_notification_sound; simpl; by destruct (eqb st ReqApproved)].
Qed.

Lemma decision_sound t n now r : sound_step t (handle_decision t n now r).
Proof.
  assert (Hx : ∀ owner at_ org, respects (evolves sound_step) (_expire_records owner at_ org)).
  { intros. unfold _expire_records. walk; apply finalize_sound. }
  destruct r; unfold handle_decision; apply evolves_run; try apply _.
  - apply authorize_sound.
  - unfold decide_owned_request, owner_decision, agent_of, permission_of. walk; apply finalize_sound.
  - unfold list_owned_requests. walk; apply Hx.
  - unfold get_owned_request. walk; apply Hx.
Qed.
End handlers.

(** ** The system *)

(** A request to any of the services; each is served by a handler on the tables
    the previous ones left, with its own random draws and clock. *)
Inductive request : Type :=
  | Lifecycle_request (r : lifecycle_request)
  | Permission_request (r : permission_request)
  | Delegate (payload : AgentDelegationCreate)
  | Revoke_delegation (delegation_id : string) (user agent : option uuid) (reason : option string) (cascade : bool)
  | Decision_request (r : decision_request).

Definition handle `{Entropy} `{SecuritySinks} (t : tables) (n : nat) (now : time) (r : request) : tables :=
  match r with
  | Lifecycle_request r => (handle_lifecycle t r).2
  | Permission_request r => handle_permission t n now r
  | Delegate payload => (run_request (create_delegation payload now) t n now).2
  | Revoke_delegation i user agent reason cascade =>
      (run_request (revoke_delegation i user agent reason cascade now) t n now).2
  | Decision_request r => handle_decision t n now r
  end.

Definition trace `{Entropy} `{SecuritySinks} (t : tables) (rs : list (nat * time * request)) : tables :=
  foldl (λ t '(n, now, r), handle t n now r) t rs.

Section system.
Context `{Entropy} `{SecuritySinks}.

Lemma create_delegation_sound payload at_ t n now :
  sound_step t (run_request (create_delegation payload at_) t n now).2.
Proof.
  destruct (run_request _ _ _ _) as [r t'] eqn:Hrun. simpl.
  apply create_delegation_run in Hrun as [(-> & _)|(d & _ & -> & Hc)]; [reflexivity|].
  intros Hwf. split; [by eapply created_well_formed|]. intros k e Hk. simpl.
  exists e. split; [|reflexivity]. rewrite lookup_insert_ne; [done|].
  destruct Hc as [_ _ (Hn & _)]. congruence.
Qed.

Lemma handle_sound t n now r : sound_step t (handle t n now r).
Proof.
  destruct r as [r|r|payload|i user agent reason cascade|r]; simpl.
  - unfold handle_lifecycle. destruct (agents t !! lr_agent r); [|reflexivity].
    apply evolves_run; [apply _|]. apply lifecycle_sound.
  - apply permission_step. apply (permission_trace_evolves t [(n, now, r)]).
  - apply create_delegation_sound.
  - intros Hwf. destruct (run_request _ _ _ _) as [x t'] eqn:Hrun. simpl.
    apply revoke_run in Hrun; [|intros k d; apply (wf_keys _ Hwf)].
    by apply (terms_kept_step _ _ (λ _, links_kept_terms _ _ Hwf Hrun)).
  - apply decision_sound.
Qed.

Lemma trace_sound t rs : sound_step t (trace t rs).
Proof.
  revert t. induction rs as [|[[n now] r] rs IH]; intros t; [reflexivity|].
  unfold trace. cbn [foldl]. etrans; [apply handle_sound | apply IH].
Qed.
End system.

(** C1. Authority never grows. After any sequence of requests to the
    services, the chain above a stored delegation ends, is as long as its depth,
    which is within its maximum, never repeats a delegation, and grants at least
    as much at every link and at the root permission, which allows delegation:
    same action and resource, an amount limit in the same currency no smaller, an
    expiry no earlier, and approval where they ask for it. *)
Theorem authority_never_grows `{Entropy} `{SecuritySinks} t rs k d :
  well_formed t → delegations (trace t rs) !! k = Some d →
  let t' := trace t rs in
  ∃ l p,
    links_up (chain_fuel t') t' d = Some l ∧ Z.of_nat (length l) = dl_current_depth d ∧
    dl_current_depth d <= dl_max_delegation_depth d ∧ NoDup (map dl_id l) ∧
    (∀ a, a ∈ l → narrower (delegation_bounds d) (delegation_bounds a)) ∧
    permissions t' !! dl_parent_permission_id d = Some p ∧ pm_allow_delegation p = true ∧
    narrower (delegation_bounds d) (permission_bounds p).
Proof.
  intros Hwf Hk t'. destruct (trace_sound t rs Hwf) as [Hwf' _]. fold t' in Hwf', Hk.
  destruct (wf_delegation _ Hwf' _ _ Hk) as ([(p & Hp & Hallow & Hn & _) _] & _ & Hd & _).
  destruct (links_up_wf t' Hwf' (chain_fuel t') d k Hk) as (l & Hl & Hlen & Hnd & Hall).
  { unfold chain_fuel. pose proof (depth_le_size t' Hwf' d k Hk). lia. }
  exists l, p. split_and!; try done; [lia | lia |]. intros a Ha. by destruct (Hall a Ha) as (_ & _ & ? & _).
Qed.

(** A delegation that was once stored is never removed and its terms,
    its place in the chain and its parties never change, whatever requests the
    services serve. *)
Theorem delegation_terms_immutable `{Entropy} `{SecuritySinks} t rs k d :
  well_formed t → delegations t !! k = Some d →
  ∃ d', delegations (trace t rs) !! k = Some d' ∧ same_link d d'.
Proof. intros Hwf Hk. destruct (trace_sound t rs Hwf) as [_ Hg]. by apply Hg. Qed.

(** *** A trace of all services *)

(** Agent 1 delegates 500 of its 1000 USD to agent 2. *)
Definition service_trace : list (nat * time * request) :=
  [(0%nat, hour, Delegate narrow_payload);
   (100%nat, 20 * hour, Decision_request (RAuthorize 9 (payment 1 (Some 500) None) (InScope (Some 50%N)) default_settings None));
   (200%nat, 21 * hour, Permission_request (PRevoke 9 100 (Some 50%N)))].

Lemma authority_never_grows_witness :
  ∃ k d l, delegations (trace two_agents service_trace) !! k = Some d ∧
    links_up (chain_fuel (trace two_agents service_trace)) (trace two_agents service_trace) d = Some l ∧
    Z.of_nat (length l) = 1.
Proof.
  destruct (delegations (trace two_agents service_trace) !! 1001%N) as [d|] eqn:Hk; [|by vm_compute in Hk].
  destruct (authority_never_grows two_agents service_trace 1001 d two_agents_well_formed Hk)
    as (l & p & Hl & Hlen & _).
  exists 1001%N, d, l. split; [exact Hk|]. split; [exact Hl|]. rewrite Hlen.
  vm_compute in Hk. injection Hk as <-. reflexivity.
Defined.

Definition delegated_once : tables := trace two_agents [(0%nat, hour, Delegate narrow_payload)].
Lemma delegation_terms_immutable_witness :
  ∃ d d', delegations delegated_once !! 1001%N = Some d ∧
    delegations (trace delegated_once [(100%nat, 2 * hour, Revoke_delegation (dl_delegation_id d) (Some 9%N) None None true)])
      !! 1001%N = Some d' ∧ same_link d d'.
Proof.
  destruct (delegations delegated_once !! 1001%N) as [d|] eqn:Hk; [|by vm_compute in Hk].
  destruct (trace_sound two_agents [(0%nat, hour, Delegate narrow_payload)] two_agents_well_formed) as [Hwf _].
  destruct (delegation_terms_immutable delegated_once
    [(100%nat, 2 * hour, Revoke_delegation (dl_delegation_id d) (Some 9%N) None None true)] 1001 d Hwf Hk) as (d' & Hd' & Hl).
  exists d, d'. split; [reflexivity|]. split; [exact Hd' | exact Hl].
Defined.

End System.
