(* ===== verification/Reliability.v ===== *)
(** Reliability ([backend/app/services/reliability.py], [api/health.py]): the
    circuit breaker of outbound dependencies, refined to a specification by the
    history of its calls, the fencing of standby regions and the status report.
    Times are microseconds; the two readings of the clock in a call are
    arguments. *)
From S2P Require Import Prelude.
From S2P Require Import PyStr.
From S2P Require Import Models.
From S2P Require Import Store.

Local Open Scope Z_scope.

(** ** The circuit breaker *)

Module Breaker.

Inductive CircuitState : Type := CLOSED | OPEN | HALF_OPEN.
#[export] Instance CircuitState_eq_dec : EqDecision CircuitState.
Proof. solve_decision. Defined.

Record CircuitBreaker : Type := MkBreaker {
  name : string;
  failure_threshold : Z;
  recovery_timeout : time;
  state : CircuitState;
  failure_count : Z;
  last_failure_time : time;
  success_count : Z
}.

Definition new_breaker (name : string) (threshold : Z) (timeout : time) : CircuitBreaker :=
  MkBreaker name threshold timeout CLOSED 0 0 0.

Definition set_circuit (s : CircuitState) (failures : Z) (last : time) (b : CircuitBreaker) : CircuitBreaker :=
  MkBreaker (name b) (failure_threshold b) (recovery_timeout b) s failures last (success_count b).

Definition record_success (b : CircuitBreaker) : CircuitBreaker :=
  set_circuit CLOSED 0 (last_failure_time b) b.

Definition record_failure (now : time) (b : CircuitBreaker) : CircuitBreaker :=
  let n := failure_count b + 1 in
  set_circuit (if failure_threshold b <=? n then OPEN else state b) n now b.

Definition can_execute (now : time) (b : CircuitBreaker) : bool * CircuitBreaker :=
  match state b with
  | CLOSED => (true, b)
  | OPEN =>
      if recovery_timeout b <=? now - last_failure_time b
      then (true, set_circuit HALF_OPEN (failure_count b) (last_failure_time b) b)
      else (false, b)
  | HALF_OPEN => (true, b)
  end.

(** What a call of [execute] does to its caller. *)
Inductive outcome (E A : Type) : Type :=
  | Returned (a : A)
  | Raised (e : E)
  | CircuitBreakerError (message : string).
Arguments Returned {E A} a.
Arguments Raised {E A} e.
Arguments CircuitBreakerError {E A} message.

(** [func] is the result of the call, if it is made; [ended] the clock when it
    fails. *)
Definition execute {E A} (now ended : time) (func : result E A) (b : CircuitBreaker) : outcome E A * CircuitBreaker :=
  let '(allowed, b) := can_execute now b in
  if allowed then
    match func with
    | Ok a => (Returned a, record_success b)
    | Err e => (Raised e, record_failure ended b)
    end
  else (CircuitBreakerError ("CIRCUIT_BREAKER_OPEN: Outbound dependency '" +:+ name b +:+ "' is currently unavailable"), b).

(** [_CIRCUIT_BREAKERS] *)
Abbreviation registry := (gmap string CircuitBreaker).
Definition get_circuit_breaker (r : registry) (n : string) (threshold : Z) (timeout : time) : CircuitBreaker * registry :=
  match r !! n with
  | Some b => (b, r)
  | None => let b := new_breaker n threshold timeout in (b, <[n := b]> r)
  end.

(** ** Specification by the history of calls

    A call is blocked when the last calls that were made, at least [threshold] of
    them, all failed, and the last of them less than [timeout] ago. *)
Inductive event : Type := Succeeded | Failed (at_ : time).

(** Newest event first. *)
Fixpoint failures (h : list event) : Z :=
  match h with Failed _ :: h => failures h + 1 | _ => 0 end.
Definition blocked (threshold : Z) (timeout : time) (h : list event) (now : time) : bool :=
  match h with
  | Failed last :: _ => (threshold <=? failures h) && (now - last <? timeout)
  | _ => false
  end.

Record call (E A : Type) : Type := MkCall { c_now : time; c_ended : time; c_func : result E A }.
Arguments MkCall {E A}. Arguments c_now {E A}. Arguments c_ended {E A}. Arguments c_func {E A}.

Definition execute_spec {E A} (n : string) (threshold : Z) (timeout : time) (c : call E A) (h : list event) : outcome E A * list event :=
  if blocked threshold timeout h (c_now c)
  then (CircuitBreakerError ("CIRCUIT_BREAKER_OPEN: Outbound dependency '" +:+ n +:+ "' is currently unavailable"), h)
  else match c_func c with
       | Ok a => (Returned a, Succeeded :: h)
       | Err e => (Raised e, Failed (c_ended c) :: h)
       end.

Fixpoint run {E A S} (step : call E A → S → outcome E A * S) (cs : list (call E A)) (s : S) : list (outcome E A) * S :=
  match cs with
  | [] => ([], s)
  | c :: cs => let r := step c s in let rest := run step cs r.2 in (r.1 :: rest.1, rest.2)
  end.
Definition step_impl {E A} (c : call E A) : CircuitBreaker → outcome E A * CircuitBreaker :=
  execute (c_now c) (c_ended c) (c_func c).

(** Calls in the order of a clock that does not go back. *)
Fixpoint clocked {E A} (t : time) (cs : list (call E A)) : Prop :=
  match cs with [] => True | c :: cs => t <= c_now c ∧ c_now c <= c_ended c ∧ clocked (c_ended c) cs end.

(** At time [t]: the counters are those of the history, and the circuit is open or
    on trial only after enough failures, on trial only once the time is over. *)
Definition simulates (n : string) (threshold : Z) (timeout t : time) (b : CircuitBreaker) (h : list event) : Prop :=
  name b = n ∧ failure_threshold b = threshold ∧ recovery_timeout b = timeout ∧
  failure_count b = failures h ∧
  (∀ last h', h = Failed last :: h' → last_failure_time b = last ∧ last <= t) ∧
  match state b with
  | CLOSED => failures h = 0 ∨ failures h < threshold
  | OPEN => 0 < failures h ∧ threshold <= failures h
  | HALF_OPEN => 0 < failures h ∧ threshold <= failures h ∧ timeout <= t - last_failure_time b
  end.

Lemma failures_nonneg h : 0 <= failures h.
Proof. induction h as [|[|?] ? IH]; simpl; lia. Qed.
Lemma failures_pos h : 0 < failures h ↔ ∃ last h', h = Failed last :: h'.
Proof.
  split.
  - destruct h as [|[|t] h]; simpl; intros H; [lia..|by eauto].
  - intros (last & h' & ->). simpl. pose proof (failures_nonneg h'). lia.
Qed.

Lemma can_execute_simulates n threshold timeout t b h now : t <= now → simulates n threshold timeout t b h →
  (can_execute now b).1 = negb (blocked threshold timeout h now) ∧
  simulates n threshold timeout now (can_execute now b).2 h.
Proof.
  intros Ht (Hn & Hth & Hto & Hc & Hlast & Hst). unfold can_execute, blocked, simulates.
  assert (Hlater : ∀ last h', h = Failed last :: h' → last_failure_time b = last ∧ last <= now)
    by (intros last h' Hh; destruct (Hlast last h' Hh); split; [done | lia]).
  destruct (state b) eqn:Hs; cycle 1.
  - destruct Hst as [Hpos Hge]. destruct (proj1 (failures_pos h) Hpos) as (last & h' & ->).
    destruct (Hlast last h' eq_refl) as [Hl _]. rewrite Hl, Hto in *.
    rewrite (proj2 (Z.leb_le _ _) Hge), Z.leb_antisym. simpl.
    destruct (now - last <? timeout) eqn:Hw; simpl in *; rewrite ?Hs, ?Hl; [split_and!; try done; eauto|].
    apply Z.ltb_ge in Hw. split_and!; try done; eauto.
  - destruct Hst as (Hpos & Hge & Hover). destruct (proj1 (failures_pos h) Hpos) as (last & h' & ->).
    destruct (Hlast last h' eq_refl) as [Hl _]. cbn [fst snd].
    rewrite (proj2 (Z.ltb_ge (now - last) timeout)), andb_false_r by lia. rewrite Hs.
    split_and!; try done; lia.
  - cbn [fst snd]. rewrite Hs. split; [|by split_and!]. destruct h as [|[|last] h]; try done.
    assert (Hf : 0 < failures (Failed last :: h)) by (apply failures_pos; eauto).
    rewrite (proj2 (Z.leb_gt threshold (failures (Failed last :: h)))) by lia. done.
Qed.

Lemma execute_simulates {E A} n threshold timeout t b h (c : call E A) :
  t <= c_now c → c_now c <= c_ended c → simulates n threshold timeout t b h →
  (step_impl c b).1 = (execute_spec n threshold timeout c h).1 ∧
  simulates n threshold timeout (c_ended c) (step_impl c b).2 (execute_spec n threshold timeout c h).2.
Proof.
  intros Ht Hend Hsim. destruct (can_execute_simulates _ _ _ _ _ _ _ Ht Hsim) as [Hcan Hsim'].
  unfold step_impl, execute, execute_spec. destruct (can_execute (c_now c) b) as [ok b']. simpl in Hcan, Hsim'.
  subst ok. destruct Hsim' as (Hn & Hth & Hto & Hc & Hlast & Hst).
  destruct (blocked threshold timeout h (c_now c)); cbn [negb].
  - cbn [fst snd]. rewrite Hn. split; [done|]. split_and!; try done.
    + intros last h' Hh. destruct (Hlast last h' Hh). split; [done | lia].
    + destruct (state b'); [done | done | lia].
  - destruct (c_func c) as [a|e]; cbn [fst snd]; (split; [done|]).
    + unfold simulates, record_success. simpl. split_and!; try done; by left.
    + unfold simulates, record_failure. simpl. rewrite Hc, Hth. split_and!; try done.
      * intros last h' [= -> ->]. split; [done | lia].
      * pose proof (failures_nonneg h). destruct (threshold <=? failures h + 1) eqn:Hle; reflect; [lia|].
        destruct (state b'); lia.
Qed.

Lemma breaker_run_simulates {E A} n threshold timeout t (cs : list (call E A)) b h :
  clocked t cs → simulates n threshold timeout t b h →
  (run step_impl cs b).1 = (run (execute_spec n threshold timeout) cs h).1 ∧
  ∃ t', simulates n threshold timeout t' (run step_impl cs b).2 (run (execute_spec n threshold timeout) cs h).2.
Proof.
  revert t b h. induction cs as [|c cs IH]; intros t b h; [by eauto|].
  intros (Hc & He & Hcs) Hsim. destruct (execute_simulates n threshold timeout t b h c Hc He Hsim) as [Heq Hsim'].
  cbn [run]. cbv zeta. cbn [fst snd]. destruct (IH _ _ _ Hcs Hsim') as [-> ?]. by rewrite Heq.
Qed.

Lemma new_simulates n threshold timeout t : simulates n threshold timeout t (new_breaker n threshold timeout) [].
Proof. unfold simulates. simpl. split_and!; try done. by left. Qed.

(** Whatever the dependency answers and whenever it is called, on a
    clock that does not go back, the breaker answers as the specification: a call is
    blocked exactly when the calls made last, [threshold] of them or more, all failed and
    the last failure is less than [timeout] old. *)
Theorem breaker_refines {E A} n threshold timeout t (cs : list (call E A)) :
  clocked t cs →
  (run step_impl cs (new_breaker n threshold timeout)).1 = (run (execute_spec n threshold timeout) cs []).1.
Proof. intros Hc. apply (breaker_run_simulates n threshold timeout t); [done | apply new_simulates]. Qed.

Definition sample_calls : list (call string Z) :=
  [MkCall 0 1 (Err "down"); MkCall 2 3 (Err "down"); MkCall 4 5 (Ok 1); MkCall 40 41 (Err "down");
   MkCall 42 43 (Ok 2); MkCall 80 81 (Ok 3); MkCall 82 83 (Ok 4)].
Lemma breaker_sample_clocked : clocked 0 sample_calls.
Proof. unfold sample_calls, clocked. simpl. lia. Qed.
Lemma breaker_refines_witness :
  (run step_impl sample_calls (new_breaker "smtp" 2 30)).1 = (run (execute_spec "smtp" 2 30) sample_calls []).1 ∧
  (run step_impl sample_calls (new_breaker "smtp" 2 30)).1 !! 2%nat =
    Some (CircuitBreakerError "CIRCUIT_BREAKER_OPEN: Outbound dependency 'smtp' is currently unavailable").
Proof. split; [exact (breaker_refines "smtp" 2 30 0 sample_calls breaker_sample_clocked) | vm_compute; reflexivity]. Defined.

(** ** Recovery *)

(** Every call of the list is made and succeeds. *)
Definition all_returned {E A} (os : list (outcome E A)) : Prop := ∀ o, o ∈ os → ∃ a, o = Returned a.

Lemma closed_returns {E A} (cs : list (call E A)) b :
  state b = CLOSED → (∀ c, c ∈ cs → is_Ok (c_func c)) → all_returned (run step_impl cs b).1.
Proof.
  revert b. induction cs as [|c cs IH]; intros b Hb Hok; [intros o; by rewrite elem_of_nil|].
  destruct (Hok c ltac:(left)) as [a Ha].
  assert (Hstep : step_impl c b = (Returned a, record_success b))
    by (unfold step_impl, execute, can_execute; by rewrite Hb, Ha).
  cbn [run]. rewrite Hstep. cbn [fst snd]. intros o [->|Ho]%elem_of_cons; [by exists a|].
  apply (IH (record_success b) eq_refl); [|exact Ho]. intros c' Hc'. apply Hok. by right.
Qed.


Definition later_calls : list (call string Z) := [MkCall 33 34 (Ok 7); MkCall 35 36 (Ok 8)].

(** The half-open state does not limit the calls it lets through: a second caller
    passes before the first trial call has ended. *)
Lemma half_open_passes_all now now' b :
  state b = OPEN → (can_execute now b).1 = true → (can_execute now' (can_execute now b).2).1 = true.
Proof. unfold can_execute. intros ->. destruct (_ <=? _); simpl; done. Qed.

End Breaker.

(** ** Regions and status *)

Module Region.

(** The settings these functions read; [redis_configured] is
    [bool(settings.redis_url.get_secret_value())]. *)
Record region_settings : Type := MkRegion {
  region_id : string;
  region_role : string;
  region_fencing_enabled : bool;
  redis_configured : bool;
  redis_required : bool
}.

Definition is_standby (settings : region_settings) : bool :=
  eqb (region_role settings) "standby" || region_fencing_enabled settings.

Definition check_region_write_allowed (settings : region_settings) : result Exc () :=
  if is_standby settings then Err (HTTPException 423 "REGION_STANDBY_READ_ONLY") else Ok tt.

(** What the dependencies answer: whether the probe query returned, and whether
    the client exists and its [ping] returned true, returned false or raised. *)
Inductive ping : Type := NoClient | Pong (answer : bool) | PingFailed.

Definition redis_ok (settings : region_settings) (p : ping) : bool :=
  if redis_configured settings then match p with Pong b => b | _ => false end else true.

Definition overall_status (settings : region_settings) (db_ok : bool) (p : ping) : string :=
  if negb db_ok then "MAJOR_OUTAGE"
  else if negb (redis_ok settings p) && redis_required settings then "PARTIAL_OUTAGE"
  else if is_standby settings then "STANDBY"
  else "OPERATIONAL".

Record system_status : Type := MkStatus {
  ss_status : string;
  ss_region_id : string;
  ss_region_role : string;
  ss_fenced : bool;
  ss_database : string;
  ss_redis : string;
  ss_replay_protection : string
}.

Definition get_system_status (settings : region_settings) (db_ok : bool) (p : ping) : system_status :=
  {| ss_status := overall_status settings db_ok p;
     ss_region_id := region_id settings; ss_region_role := region_role settings;
     ss_fenced := is_standby settings;
     ss_database := if db_ok then "HEALTHY" else "UNHEALTHY";
     ss_redis := if redis_ok settings p then "HEALTHY"
                 else if redis_required settings then "UNHEALTHY" else "DEGRADED";
     ss_replay_protection := if redis_ok settings p then "ACTIVE" else "FAIL_CLOSED" |}.

(** [GET /health/ready]: the state of Redis it reports, or 503. *)
Definition ready (settings : region_settings) (db_ok : bool) (p : ping) : result Exc string :=
  if negb db_ok then Err (HTTPException 503 "Service dependencies unavailable: database offline")
  else if redis_configured settings then
    match p with
    | Pong _ => Ok "ok"
    | NoClient =>
        (* the 503 raised here is caught by the handler below *)
        if redis_required settings then Err (HTTPException 503 "Service dependencies unavailable: redis offline")
        else Ok "disabled"
    | PingFailed =>
        if redis_required settings then Err (HTTPException 503 "Service dependencies unavailable: redis offline")
        else Ok "degraded"
    end
  else Ok "disabled".

(** A region reported operational accepts writes, and the probes of readiness agree
    with the report: an instance that is not ready is reported in outage. *)
Lemma operational_writes settings db_ok p :
  overall_status settings db_ok p = "OPERATIONAL" → check_region_write_allowed settings = Ok tt.
Proof.
  unfold overall_status, check_region_write_allowed.
  destruct db_ok, (redis_ok settings p), (redis_required settings), (is_standby settings); simpl; congruence.
Qed.

Lemma unready_outage settings db_ok p e :
  ready settings db_ok p = Err e →
  overall_status settings db_ok p = "MAJOR_OUTAGE" ∨ overall_status settings db_ok p = "PARTIAL_OUTAGE".
Proof.
  unfold ready, overall_status, redis_ok.
  destruct db_ok, (redis_configured settings), p as [|b|], (redis_required settings); simpl; try done; auto.
Qed.

End Region.
